(* ===== verification/_CoqProject ===== *)
-Q . S2P
Prelude.v
Bytes.v
Config.v
Msg.v
MsgProps.v
ResourceId.v
Cstring.v
EsApp.v
Sbr.v
SbrProps.v
SbState.v
SbBuf.v
SbApi.v
SbTask.v
EsPool.v
EsPoolInv.v
EsPoolOps.v
EsPoolInit.v
EsMemPool.v
EsPoolProps.v
SbRoutes.v
SbBufs.v
SbInv.v
SbMem.v
SbSubs.v
SbSend.v
SbTransmit.v
SbZero.v
SbRecv.v
SbPipeOps.v
SbCalls.v
SbTaskOps.v
SbInst.v
SbSafety.v
SbProps.v
SbExamples.v
SbPool.v
TimeApi.v
TimeState.v
TimeTone.v
TimeTask.v
TimeOps.v
TimeSafe.v
TimeClock.v
TimeCmds.v
TimeTheorems.v
TimeRing.v
TimeExamples.v
EvsState.v
EvsApi.v
EvsTask.v
EvsCmds.v
EvsInv.v
EvsCalls.v
EvsOps.v
EvsDispatch.v
EvsInit.v
EvsHistory.v
EvsTheorems.v
EvsFilter.v
EvsExamples.v
TblConfig.v
EsCrc.v
FsFile.v
TblState.v
TblInternal.v
TblApi.v
TblCmds.v
TblTask.v
TblLinks.v
TblCore.v
TblInv.v
TblOps.v
TblUpdate.v
TblRemove.v
TblRegister.v
TblLoad.v
TblCommand.v
TblSafety.v
TblInst.v
