(* ===== verification/Prelude.v ===== *)
(** * Verification of the core Flight Executive

    This library models the services of the core Flight Executive (src/cfe) that carry
    its messages, memory, time, events and tables, and proves the properties that make
    them correct.

    ** The program and its models

    Applications exchange messages over the software bus, which takes its buffers from a
    memory pool of the executive services, routes by message identifier and builds on
    operating system queues.  Time services keep the spacecraft clock from a tone signal
    and the time at the tone; event services filter the events of the applications, log
    them and send them on the bus.  Table services keep the parameter tables of the
    applications in blocks of a memory pool, load them from files or memory, dump them
    and update them in place while applications have their addresses.

    General:
    - [Prelude]: integers of fixed width, bit reasoning, pointers, the state monad
      [M] in which an access that has no defined result gives [None], its weakest
      preconditions.  [Bytes]: memory as bytes.  [Config]: the constants of the cpu1
      target and status codes.  [Cstring]: strings, formatted output, and the string
      fields of messages (cfe_sb_util.c).

    Modules (cfe/modules):
    - [Msg], [MsgProps]: every function of the message module (msg) on byte lists, in
      both header formats and both message identifier versions.
    - [ResourceId]: base, serial number, index, and the search for a free slot
      (resourceid).
    - [Sbr], [SbrProps]: the routing table (sbr) over the interface [MsgMap] of
      identifier maps, which the direct and the hash map implement.

    Software bus (cfe-core/src/sb):
    - [SbState]: CFE_SB_Global, the descriptors in memory, and the services of the
      bus as type classes with laws: [MemPool] (CFE_ES_GetPoolBuf, CFE_ES_PutPoolBuf)
      and [OSQueue] (the OS_Queue functions).
    - [SbBuf]: cfe_sb_buf.c and the internal operations of cfe_sb_priv.c.  [SbApi]:
      cfe_sb_api.c, the clean up of cfe_sb_priv.c, the start up of cfe_sb_init.c and
      the subscription report of cfe_sb_task.c.  [SbTask]: the task of cfe_sb_task.c,
      its start, commands, telemetry and the records of its files.
    - [SbRoutes], [SbBufs], [SbInv], [SbMem]: doubly linked lists in memory, the
      destination lists, the tracking lists, reference counts, and the invariant
      [sb_inv] of the whole bus.
    - [SbSubs], [SbSend], [SbTransmit], [SbZero], [SbRecv], [SbPipeOps], [SbCalls]:
      what each call does, on every branch, as a postcondition.  [SbTaskOps]: the same
      for the task.
    - [SbSafety]: the bus and its task as a state machine whose steps are the calls, the
      commands and the requests of the background writer, and what delivery means for
      the queues.  [SbInst]: a pool and queues with the laws.
    - [SbProps]: the properties of the bus; [SbExamples]: runs they are applied to.

    Executive services (cfe-core/src/es):
    - [EsPool], [EsMemPool]: cfe_es_generic_pool.c and cfe_es_mempool.c.
      [EsPoolInv], [EsPoolOps], [EsPoolInit], [EsPoolProps]: the blocks of a pool and
      what the operations do to them.  [SbPool]: the pool is an instance of the class
      [MemPool] the bus relies on.
    - [EsApp]: the lookups of applications by identifier and name.  [EsCrc]: the
      checksum CFE_ES_CalculateCRC (cfe_es_api.c).

    Time services (cfe-core/src/time):
    - [TimeApi]: time values.  [TimeState]: CFE_TIME_Global, the reference
      data, cfe_time_utils.c and the API.  [TimeTone]: cfe_time_tone.c.  [TimeTask]:
      the commands of cfe_time_task.c.
    - [TimeOps], [TimeSafe], [TimeClock], [TimeCmds]: the invariant and what the
      operations do.  [TimeRing]: updates and readers of the
      reference data as interleaved steps.  [TimeTheorems], [TimeExamples].

    Event services (cfe-core/src/evs):
    - [EvsState]: CFE_EVS_Global, the log of cfe_evs_log.c, the lookups of
      cfe_evs_utils.c.  [EvsApi]: generation and filters of events, cfe_evs.c.
      [EvsTask], [EvsCmds]: initialization, commands, telemetry and files
      (cfe_evs_task.c, cfe_evs_log.c).
    - [EvsInv], [EvsCalls], [EvsOps], [EvsDispatch], [EvsInit]: the log as a list, the
      invariant [evs_ok], own events, and the result of each call and command.
      [EvsHistory]: the log as the history of the events.  [EvsTheorems], [EvsFilter],
      [EvsExamples].

    Table services (cfe-core/src/tbl) and file headers (cfe-core/src/fs):
    - [FsFile]: the standard file header of cfe_fs_api.c over the interface [OSFile] of
      files (OS_OpenCreate, OS_read, OS_write, OS_lseek, OS_close) with its laws.
    - [TblConfig], [TblState]: CFE_TBL_Global, the memory of tables, and the interface
      [CDSStore] of the critical data store.  [TblInternal]: cfe_tbl_internal.c.
      [TblApi]: cfe_tbl_api.c.  [TblCmds]: the commands of cfe_tbl_task_cmds.c.
      [TblTask]: the start and the dispatch of cfe_tbl_task.c.
    - [TblLinks], [TblCore], [TblInv], [TblOps], [TblUpdate], [TblRemove],
      [TblRegister], [TblLoad], [TblCommand]: access lists, the invariant [inv], and
      what each call and command does to it and to the contents of the tables.
    - [TblSafety]: table services as a state machine and their theorems.  [TblInst]:
      files, a store and a pool with the laws, runs, and what the code leaves unchecked.

    ** What the theorems show

    Bus: safety over every sequence of calls ([bus_safe]) with exact accounting of
    references, memory and statistics ([bus_accounting], [bus_no_leak]); the functional
    behaviour of each call on each branch, as a refinement of an abstract subscription
    table where there is one; delivery ([transmit_delivers], [receive_fifo],
    [send_then_receive]).  Its task: every command and record returns, with packets that
    are messages ([task_safe]); a disabled route delivers nothing until it is
    enabled again ([route_commands]); the
    list of all subscriptions and the files are complete ([subscriptions_listed],
    [file_records]).  Modules: the field, identifier, checksum, time and function
    code round trips; the refinement of the routing module, over either of its maps, to a
    list of routes ([sbr_refines]).

    Pools: blocks given out are disjoint and inside the pool ([pool_blocks_disjoint]);
    getting, putting back and recovering blocks on every branch; the pool has the laws
    the bus relies on ([pool_service_refines], [bus_blocks_apart]).

    Time: safety and the invariant of the reference data ([time_safe]); what the clock
    reads after it was set, after a tone and after a reset; the matching of tone and
    data, the one second state machine, the commands; a reader without a lock gets a
    record as it was published ([ring_snapshot]; [update_steps] and [reader_steps] link
    the steps to the functions of [TimeState]).

    Events: safety ([evs_safe]); the log refines a bounded list whose mode changes and
    clears are the accepted commands and which holds the packets sent on the bus
    ([log_history]), survives a processor reset and is written to a file
    oldest first; binary filters over sequences of events ([filter_sequence]);
    registration, events and commands on every branch, against specifications of what
    passes, what is sent and which lengths are accepted that do not use the code
    ([send_events], [evs_commands]); event texts stay inside their field.

    Tables: every call and command that [call_ok] allows in a reachable state returns and
    keeps the invariant ([tbl_safe]); an application that has the address of a loaded table
    reads the same contents
    until it gives the address back ([get_address_keeps]); a successful load leaves the
    bytes of its source ([load_contents]); an update, on every branch, refines
    [update_step]: refused, nothing pending, locked, or the contents replaced by those of
    the working buffer by a swap or a copy ([update_refines]); a dumped table can be
    loaded back ([dump_load]).  The preconditions [call_ok] of these theorems are what
    the code does not check itself; the runs of [tbl_unchecked] have no result for want of
    those that concern handles, validations and dumps.  [crc_equiv]: the table
    driven checksum is the bit by bit one.

    ** Conventions

    A pointer to a descriptor is an address; reading or writing through one that is
    not allocated gives no result, nor does a write of a descriptor or a message that does
    not fit into its pool block ([in_block]), and so do taking a mutex twice, an index out of
    a table, and a call that never returns.  A theorem that a function returns thus
    also says that it does none of these.  A C function with pointer arguments takes
    [ptr] values ([None] for NULL) and returns what it leaves in them.

    There is one exception: the events of failed deliveries read the message identifier
    of a descriptor that may be back in the pool already (cfe_sb_api.c).  [peek_buf]
    gives what the descriptor held then, so the safety of the bus does not speak of this
    read.

    The queues of the bus are assumed to work: [OSQueueOK] leaves out the OS_ERROR that a
    put to a queue with room, or a delete, may give when the operating system below OSAL
    fails.

    The bus and the part of CFE_SB_Global only its task uses are two records; a packet of
    the task is its header and fields, put together to bytes when it is sent, in the
    layout of a little endian target.

    Fuel: loops over linked lists have the number of descriptors in memory plus one (no
    list without a cycle is longer), the loop that drains a queue the length of the
    queue plus one, the loop over the zero copy list the number of links, the recovery
    of a pool the size of the pool, the sort of its sizes the square of their number,
    the loops of CFE_TIME_Print the numbers of years and of carries that 32 bits allow,
    the recursion of EVS_IsFiltered a depth of three, the walks of the access lists of
    tables the number of descriptors plus one, the loop of CFE_TBL_Manage three
    rounds, and the writer of a file of the bus 256 rounds, one for each route that can
    exist; the theorems show that the fuel is never used up.

    The bus starts from any state by CFE_SB_EarlyInit, given the statuses of the mutex and
    of the pool; a state is reachable after a start that succeeded.

    A call runs as one sequence of its critical sections: the interleaving with other
    tasks between two sections of one call is not modelled, except for the reference
    data of the clock in [TimeRing], where one task writes, memory is sequentially
    consistent by words and fewer than 2{^32} updates happen during a read.  The local
    clock does not advance during a call.  Events of the bus and of time services are
    recorded by identifier and type; event services have the texts of their own events.

    A table buffer is a block of bytes at an address of the table pool or of the memory
    of an application; an access that does not fit into its block has no result.
    Between calls of table services applications may write to their tables and files may
    change in any way ([env_step]).

    ** Not modelled

    Of the executive services the life cycle of applications, resets, the critical data
    store, performance data and commands; the main loops of the tasks; a hardware clock
    register (CFE_PLATFORM_TIME_CFG_VIRTUAL not true) and time packets in big endian order; the texts of the events and log entries of table services; the background
    file writer and the parsing of file names of file services; the operating system and
    platform layers, the applications and the tools.  *)
From Stdlib Require Export ZArith Lia Bool.
From stdpp Require Export base numbers list gmap fin_maps option.
From stdpp Require Import tactics.
From stdpp Require Export list_relations.

Open Scope Z_scope.

(** ** Fixed-width integers

    A C integer of width [w] is a [Z]; a conversion to an unsigned type is the
    reduction modulo [2^w], a conversion to [int32] is the two's complement
    reading.  Promotions to [int] are exact on the 8 and 16 bit operands the code
    uses, so [&], [|], [^], [~], [<<] and [>>] are [Z]'s bit operations. *)

Definition u8 (z : Z) : Z := z mod 2 ^ 8.
Definition u16 (z : Z) : Z := z mod 2 ^ 16.
Definition u32 (z : Z) : Z := z mod 2 ^ 32.
Definition u64 (z : Z) : Z := z mod 2 ^ 64.
Definition s32 (z : Z) : Z := (z + 2 ^ 31) mod 2 ^ 32 - 2 ^ 31.

Definition is_u8 (z : Z) : Prop := 0 <= z < 2 ^ 8.
Definition is_u16 (z : Z) : Prop := 0 <= z < 2 ^ 16.
Definition is_u32 (z : Z) : Prop := 0 <= z < 2 ^ 32.
Definition is_u64 (z : Z) : Prop := 0 <= z < 2 ^ 64.

Create HintDb cfs.
Create Rewrite HintDb cfs_rw.

Lemma u8_range z : is_u8 (u8 z).
Proof. unfold is_u8, u8. apply Z.mod_pos_bound. lia. Qed.

Lemma u16_range z : is_u16 (u16 z).
Proof. unfold is_u16, u16. apply Z.mod_pos_bound. lia. Qed.

Lemma u32_range z : is_u32 (u32 z).
Proof. unfold is_u32, u32. apply Z.mod_pos_bound. lia. Qed.

Lemma u8_small z : is_u8 z → u8 z = z.
Proof. intros. by apply Z.mod_small. Qed.

Lemma u16_small z : is_u16 z → u16 z = z.
Proof. intros. by apply Z.mod_small. Qed.

Lemma u32_small z : is_u32 z → u32 z = z.
Proof. intros. by apply Z.mod_small. Qed.

Lemma u64_range z : is_u64 (u64 z).
Proof. unfold is_u64, u64. apply Z.mod_pos_bound. lia. Qed.

Lemma u64_small z : is_u64 z → u64 z = z.
Proof. intros. by apply Z.mod_small. Qed.

#[export] Hint Resolve u64_range : cfs.
#[export] Hint Rewrite u64_small using (unfold is_u64 in *; lia) : cfs_rw.
#[export] Hint Resolve u8_range u16_range u32_range : cfs.
Lemma s32_small z : - 2 ^ 31 <= z < 2 ^ 31 → s32 z = z.
Proof. intros. unfold s32. rewrite Z.mod_small by lia. lia. Qed.

#[export] Hint Rewrite u8_small u16_small u32_small using (unfold is_u8, is_u16, is_u32 in *; lia) : cfs_rw.

(** ** Bitwise equalities

    [Z_bits] reduces an equation between bit expressions to an equation between
    booleans at every bit position; [solve_bits] closes the ones that are
    tautologies of the operands' bits. *)

Lemma testbit_mod_pow2 a n i :
  0 <= n → Z.testbit (a mod 2 ^ n) i = (i <? n) && Z.testbit a i.
Proof.
  intros Hn. destruct (Z.ltb_spec i n) as [Hlt | Hge].
  - by rewrite Z.mod_pow2_bits_low.
  - by rewrite Z.mod_pow2_bits_high by lia.
Qed.

Lemma testbit_above z n i : 0 <= z < 2 ^ n → 0 <= n <= i → Z.testbit z i = false.
Proof.
  intros Hz Hn. rewrite <- (Z.mod_small z (2 ^ n)) by done.
  rewrite testbit_mod_pow2 by lia.
  by replace (i <? n) with false by lia.
Qed.

Lemma testbit_const_above (c : Z) n i :
  0 <= c → (c <? 2 ^ n) = true → 0 <= n <= i → Z.testbit c i = false.
Proof. intros ? ?%Z.ltb_lt ?. by apply (testbit_above c n). Qed.

Ltac Z_bits i Hi := apply Z.bits_inj'; intros i Hi.

Ltac bit_specs :=
  rewrite ?Z.lor_spec, ?Z.land_spec, ?Z.lxor_spec, ?Z.ldiff_spec.

Lemma lor_small a b n : 0 <= n → 0 <= a < 2 ^ n → 0 <= b < 2 ^ n → 0 <= Z.lor a b < 2 ^ n.
Proof.
  intros Hn Ha Hb. split; [apply Z.lor_nonneg; lia|].
  rewrite <- (Z.mod_small a (2 ^ n)), <- (Z.mod_small b (2 ^ n)) by done.
  assert (Z.lor (a mod 2 ^ n) (b mod 2 ^ n) = Z.lor a b mod 2 ^ n) as ->.
  { Z_bits i Hi. rewrite Z.lor_spec, !testbit_mod_pow2, Z.lor_spec by lia. by destruct (i <? n). }
  apply Z.mod_pos_bound. lia.
Qed.

Lemma lxor_small a b n : 0 <= n → 0 <= a < 2 ^ n → 0 <= b < 2 ^ n → 0 <= Z.lxor a b < 2 ^ n.
Proof.
  intros Hn Ha Hb.
  rewrite <- (Z.mod_small a (2 ^ n)), <- (Z.mod_small b (2 ^ n)) by done.
  assert (Z.lxor (a mod 2 ^ n) (b mod 2 ^ n) = Z.lxor a b mod 2 ^ n) as ->.
  { Z_bits i Hi. rewrite Z.lxor_spec, !testbit_mod_pow2, Z.lxor_spec by lia. by destruct (i <? n). }
  apply Z.mod_pos_bound. lia.
Qed.

Lemma land_small a b n : 0 <= n → 0 <= a → 0 <= b < 2 ^ n → 0 <= Z.land a b < 2 ^ n.
Proof.
  intros Hn Ha Hb. split; [apply Z.land_nonneg; lia|].
  rewrite <- (Z.mod_small b (2 ^ n)) by done.
  assert (Z.land a (b mod 2 ^ n) = Z.land a b mod 2 ^ n) as ->.
  { Z_bits i Hi. rewrite Z.land_spec, !testbit_mod_pow2, Z.land_spec by lia.
    destruct (i <? n); [done|]. apply andb_false_r. }
  apply Z.mod_pos_bound. lia.
Qed.

(** ** Pointers

    A pointer argument is an [option] of what it points at, [None] for NULL; a
    function that writes through a pointer returns the pointee's new value. *)

Abbreviation ptr := option (only parsing).
Abbreviation addr := Z (only parsing).
Definition NULL : addr := 0.

(** ** Functional record update *)

Class Setter {R T : Type} (proj : R → T) := mkSetter { set : (T → T) → R → R }.
Arguments set {R T} proj {_} _ _.
Arguments mkSetter {R T proj} _.

Class Eta (R : Type) := mkEta { eta : R → R }.
Arguments mkEta {R} _.

Ltac derive_setter proj :=
  match type of proj with
  | ?R → _ =>
      let e := constr:(@eta R _) in
      let e := eval hnf in e in
      let p := eval pattern proj in e in
      lazymatch p with
      | ?F proj => exact (mkSetter (λ f r, F (λ x, f (proj x)) r))
      end
  end.

#[export] Hint Extern 0 (Setter ?proj) => derive_setter proj : typeclass_instances.

Declare Scope rec_scope.
Notation "r <| f := v |>" := (set f (λ _, v) r)
  (at level 1, left associativity, f constr at level 200, v constr at level 200) : rec_scope.
Notation "r <| f ::= g |>" := (set f g r)
  (at level 1, left associativity, f constr at level 200, g constr at level 200) : rec_scope.
Open Scope rec_scope.

(** ** State passing with undefined behaviour

    [M S A]: a computation over the state [S].  [None] stands for undefined
    behaviour (a read or write through a pointer that is not live, or a list
    walk that does not end); a theorem that a call returns [Some] is a memory
    safety and termination theorem. *)

Definition M (S A : Type) : Type := S → option (A * S).

#[export] Instance M_ret S : MRet (M S) := λ A a s, Some (a, s).
#[export] Instance M_bind S : MBind (M S) := λ A B k c s,
  match c s with Some (a, s') => k a s' | None => None end.

Definition undef {S A} : M S A := λ _, None.
Definition gets {S A} (f : S → A) : M S A := λ s, Some (f s, s).
Definition modify {S} (f : S → S) : M S unit := λ s, Some (tt, f s).
Definition when {S} (b : bool) (c : M S unit) : M S unit := if b then c else mret tt.
Definition of_option {S A} (o : option A) : M S A :=
  match o with Some a => mret a | None => undef end.

(** Array accesses: an index out of range has no result. *)

Definition tbl_get {S A} (l : list A) (i : Z) : M S A :=
  of_option (if i <? 0 then None else l !! Z.to_nat i).

Definition tbl_upd {A} (f : A → A) (i : Z) (l : list A) : option (list A) :=
  if (i <? 0) || (Z.of_nat (length l) <=? i) then None else Some (alter f (Z.to_nat i) l).

Lemma list_alter_at {A} (f : A → A) (i : nat) (xs : list A) a : xs !! i = Some a → alter f i xs = <[i := f a]> xs.
Proof. revert i. induction xs as [|y xs IH]; intros [|i] E; cbn in *; try done; [congruence|]. f_equal. by apply IH. Qed.

Section monad_lemmas.
Context {S : Type}.

Lemma bind_Some {A B} (c : M S A) (k : A → M S B) s a s' :
  c s = Some (a, s') → (c ≫= k) s = k a s'.
Proof. intros H. unfold mbind, M_bind. by rewrite H. Qed.

Lemma bind_inv {A B} (c : M S A) (k : A → M S B) s r :
  (c ≫= k) s = Some r → ∃ a s', c s = Some (a, s') ∧ k a s' = Some r.
Proof.
  unfold mbind, M_bind. destruct (c s) as [[a s']|] eqn:E; naive_solver.
Qed.
End monad_lemmas.

(** ** Total correctness

    [wp c Q s]: the computation [c] has a result from [s], and the result and the
    final state satisfy [Q]. *)

Definition wp {S A} (c : M S A) (Q : A → S → Prop) (s : S) : Prop :=
  match c s with Some (a, s') => Q a s' | None => False end.

Section wp_lemmas.
Context {S : Type}.
Implicit Types (s : S).

Lemma wp_ret {A} (a : A) (Q : A → S → Prop) s : Q a s → wp (mret a) Q s.
Proof. done. Qed.

Lemma wp_bind {A B} (c : M S A) (k : A → M S B) Q s :
  wp c (λ a, wp (k a) Q) s → wp (c ≫= k) Q s.
Proof. unfold wp, mbind, M_bind. by destruct (c s) as [[a s']|]. Qed.

Lemma wp_mono {A} (c : M S A) (P Q : A → S → Prop) s :
  wp c P s → (∀ a s', P a s' → Q a s') → wp c Q s.
Proof. unfold wp. destruct (c s) as [[a s']|]; auto. Qed.

Lemma wp_gets {A} (f : S → A) Q s : Q (f s) s → wp (gets f) Q s.
Proof. done. Qed.

Lemma wp_modify (f : S → S) (Q : unit → S → Prop) s : Q tt (f s) → wp (modify f) Q s.
Proof. done. Qed.

Lemma wp_of_option {A} (o : option A) a Q s : o = Some a → Q a s → wp (of_option o) Q s.
Proof. by intros ->. Qed.

Lemma wp_eq {A} (c : M S A) a s' Q s : c s = Some (a, s') → Q a s' → wp c Q s.
Proof. unfold wp. by intros ->. Qed.

Lemma wp_inv {A} (c : M S A) Q s : wp c Q s → ∃ a s', c s = Some (a, s') ∧ Q a s'.
Proof. unfold wp. destruct (c s) as [[a s']|]; [eauto|done]. Qed.

Lemma wp_when_true (b : bool) (c : M S unit) Q s : b = true → wp c Q s → wp (when b c) Q s.
Proof. by intros ->. Qed.

Lemma wp_when_false (b : bool) (c : M S unit) (Q : unit → S → Prop) s :
  b = false → Q tt s → wp (when b c) Q s.
Proof. by intros ->. Qed.

End wp_lemmas.

(** One step of symbolic execution. *)
Ltac wp_step :=
  match goal with
  | |- wp (_ ≫= _) _ _ => apply wp_bind
  | |- wp (mret _) _ _ => apply wp_ret
  | |- wp (gets _) _ _ => apply wp_gets
  | |- wp (modify _) _ _ => apply wp_modify
  end; cbn beta match.
Ltac wp_steps := repeat wp_step.

(** Decide the comparisons of known status and event codes. *)
Ltac zconst t :=
  first [is_const t | lazymatch t with Z0 => idtac | Zpos _ => idtac | Zneg _ => idtac end].
Ltac zred1 t :=
  let v := eval vm_compute in t in
  lazymatch v with
  | true => change t with true
  | false => change t with false
  end.
Ltac zred :=
  repeat match goal with
  | |- context [?a =? ?b] => zconst a; zconst b; zred1 (a =? b)
  | |- context [?a <? ?b] => zconst a; zconst b; zred1 (a <? b)
  | |- context [?a <=? ?b] => zconst a; zconst b; zred1 (a <=? b)
  end; cbn [negb andb orb when]; cbn beta match.
Ltac wp_go := zred; repeat (wp_step; zred).
