(* ===== verification/Bytes.v ===== *)
(** * Memory as bytes

    A memory maps addresses to bytes; what was never written reads as zero, and an
    initial memory is any map.  [load] and [store] are accesses of [n] bytes, least
    significant byte first, as on the target. *)
From S2P Require Import Prelude.

Abbreviation bytes := (gmap Z Z) (only parsing).

Definition byte_at (m : bytes) (a : Z) : Z := u8 (default 0 (m !! a)).

Fixpoint load (n : nat) (a : Z) (m : bytes) : Z :=
  match n with
  | O => 0
  | S n => byte_at m a + 256 * load n (a + 1) m
  end.

Fixpoint store (n : nat) (a : Z) (v : Z) (m : bytes) : bytes :=
  match n with
  | O => m
  | S n => store n (a + 1) (v / 256) (<[a := v mod 256]> m)
  end.

(** Two memories that agree on the addresses from [a] up to but not including [b]. *)
Definition agree (a b : Z) (m m' : bytes) : Prop := ∀ i, a <= i < b → byte_at m i = byte_at m' i.

Lemma agree_refl a b m : agree a b m m.
Proof. done. Qed.

Lemma agree_trans a b m1 m2 m3 : agree a b m1 m2 → agree a b m2 m3 → agree a b m1 m3.
Proof. intros H1 H2 i Hi. rewrite H1 by done. by apply H2. Qed.

Lemma agree_sub a b c d m m' : agree a b m m' → a <= c → d <= b → agree c d m m'.
Proof. intros H H1 H2 i Hi. apply H. lia. Qed.

Lemma byte_insert_eq m a v : is_u8 v → byte_at (<[a := v]> m) a = v.
Proof. intros. unfold byte_at. rewrite lookup_insert_eq. by apply u8_small. Qed.

Lemma byte_insert_ne m a b v : a ≠ b → byte_at (<[a := v]> m) b = byte_at m b.
Proof. intros. unfold byte_at. by rewrite lookup_insert_ne. Qed.

Lemma load_agree n a m m' : agree a (a + Z.of_nat n) m m' → load n a m = load n a m'.
Proof.
  revert a. induction n as [|n IH]; intros a Ha; [done|]. cbn [load].
  rewrite (Ha a) by lia. rewrite (IH (a + 1)); [done|]. eapply agree_sub; [exact Ha|lia..].
Qed.

Lemma store_out n a v m i : i < a ∨ a + Z.of_nat n <= i → byte_at (store n a v m) i = byte_at m i.
Proof.
  revert a v m. induction n as [|n IH]; intros a v m Hi; [done|]. cbn [store].
  rewrite IH by lia. apply byte_insert_ne. lia.
Qed.

Lemma store_agree n a v m c d : d <= a ∨ a + Z.of_nat n <= c → agree c d (store n a v m) m.
Proof. intros H i Hi. apply store_out. lia. Qed.

Lemma load_store n a v m : 0 <= v < 256 ^ Z.of_nat n → load n a (store n a v m) = v.
Proof.
  revert a v m. induction n as [|n IH]; intros a v m Hv; [cbn in *; lia|]. cbn [load store].
  rewrite Nat2Z.inj_succ, Z.pow_succ_r in Hv by lia.
  rewrite store_out, byte_insert_eq by (lia || (unfold is_u8; apply Z.mod_pos_bound; lia)).
  rewrite IH by (split; [apply Z.div_pos; lia|apply Z.div_lt_upper_bound; lia]).
  pose proof (Z.div_mod v 256). lia.
Qed.

Lemma load_store_out n a k b v m : b + Z.of_nat k <= a ∨ a + Z.of_nat n <= b →
  load n a (store k b v m) = load n a m.
Proof. intros H. apply load_agree, store_agree. lia. Qed.

Lemma load_range n a m : 0 <= load n a m < 256 ^ Z.of_nat n.
Proof.
  revert a. induction n as [|n IH]; intros a; [cbn; lia|]. cbn [load].
  rewrite Nat2Z.inj_succ, Z.pow_succ_r by lia. pose proof (IH (a + 1)). pose proof (u8_range (default 0 (m !! a))) as Hb.
  unfold is_u8 in Hb. unfold byte_at. lia.
Qed.

#[global] Arguments load : simpl never.
#[global] Arguments store : simpl never.
