(* ===== verification/Config.v ===== *)
(** * Mission and platform configuration, status codes

    The compile-time constants the modelled services use, with the values of the
    repository's [cpu1] target (sample_defs/cpu1_platform_cfg.h,
    sample_defs/sample_mission_cfg.h), and the [int32] status codes of
    cfe_error.h and osapi-error.h. *)
From S2P Require Import Prelude.

(** ** Status codes *)

Definition CFE_SUCCESS : Z := 0.
Definition CFE_ES_ERR_RESOURCEID_NOT_VALID : Z := s32 0xc4000001.
Definition CFE_ES_ERR_BUFFER : Z := s32 0xc4000003.
Definition CFE_ES_ERR_MEM_BLOCK_SIZE : Z := s32 0xc4000008.
Definition CFE_ES_BAD_ARGUMENT : Z := s32 0xc400000a.
Definition CFE_ES_BUFFER_NOT_IN_POOL : Z := s32 0xc4000025.
Definition CFE_ES_NO_RESOURCE_IDS_AVAILABLE : Z := s32 0xc400002B.
Definition CFE_ES_POOL_BLOCK_INVALID : Z := s32 0xc400002C.
Definition CFE_STATUS_EXTERNAL_RESOURCE_FAIL : Z := s32 0xc8000005.
Definition CFE_SB_TIME_OUT : Z := s32 0xca000001.
Definition CFE_SB_NO_MESSAGE : Z := s32 0xca000002.
Definition CFE_SB_BAD_ARGUMENT : Z := s32 0xca000003.
Definition CFE_SB_MAX_PIPES_MET : Z := s32 0xca000004.
Definition CFE_SB_PIPE_CR_ERR : Z := s32 0xca000005.
Definition CFE_SB_PIPE_RD_ERR : Z := s32 0xca000006.
Definition CFE_SB_MSG_TOO_BIG : Z := s32 0xca000007.
Definition CFE_SB_BUF_ALOC_ERR : Z := s32 0xca000008.
Definition CFE_SB_MAX_MSGS_MET : Z := s32 0xca000009.
Definition CFE_SB_MAX_DESTS_MET : Z := s32 0xca00000a.
Definition CFE_SB_WRONG_MSG_TYPE : Z := s32 0xca00000d.
Definition CFE_SB_BUFFER_INVALID : Z := s32 0xca00000e.
Definition CFE_MSG_BAD_ARGUMENT : Z := CFE_SB_BAD_ARGUMENT.
Definition CFE_MSG_WRONG_MSG_TYPE : Z := CFE_SB_WRONG_MSG_TYPE.

Definition OS_SUCCESS : Z := 0.
Definition OS_QUEUE_EMPTY : Z := -8.
Definition OS_QUEUE_FULL : Z := -9.
Definition OS_QUEUE_TIMEOUT : Z := -10.
Definition OS_ERR_NO_FREE_IDS : Z := -14.
Definition OS_ERR_NAME_TAKEN : Z := -15.
Definition OS_ERR_INVALID_ID : Z := -16.
Definition OS_PEND : Z := -1.
Definition OS_CHECK : Z := 0.

(** ** Platform and mission limits *)

Definition CFE_PLATFORM_SB_MAX_MSG_IDS : Z := 256.
Definition CFE_PLATFORM_SB_MAX_PIPES : Z := 64.
Definition CFE_PLATFORM_SB_MAX_DEST_PER_PKT : Z := 16.
Definition CFE_PLATFORM_SB_DEFAULT_MSG_LIMIT : Z := 4.
Definition CFE_PLATFORM_SB_HIGHEST_VALID_MSGID : Z := 0x1FFF.
Definition CFE_MISSION_SB_MAX_SB_MSG_SIZE : Z := 32768.
Definition CFE_PLATFORM_SB_BUF_MEMORY_BYTES : Z := 524288.
Definition CFE_PLATFORM_ES_POOL_MAX_BUCKETS : Z := 17.
Definition CFE_MISSION_ES_POOL_MAX_BUCKETS : Z := 17.
Definition CFE_PLATFORM_ES_MAX_MEMORY_POOLS : Z := 10.
Definition CFE_PLATFORM_ES_MEMPOOL_ALIGN_SIZE_MIN : Z := 4.

(** Message header defaults (cfe_msg_defaults.h; the platform file overrides none). *)

Definition CFE_PLATFORM_DEFAULT_APID : Z := 0.
Definition CFE_MISSION_CCSDSVER : Z := 0.
Definition CFE_PLATFORM_DEFAULT_SUBSYS : Z := 0.
Definition CFE_PLATFORM_EDSVER : Z := 1.

(** Queue depth and task table limits (osconfig), and object sizes of the LP64
    build: a pointer, CFE_SB_DestinationD_t, and the offset of the content in
    CFE_SB_BufferD_t. *)

Definition OS_QUEUE_MAX_DEPTH : Z := 50.
Definition OS_MAX_TASKS : Z := 64.
Definition sizeof_ptr : Z := 8.
Definition sizeof_DestinationD : Z := 32.
Definition CFE_SB_BUFFERD_CONTENT_OFFSET : Z := 48.

(** ** Event identifiers (cfe_sb_events.h) *)

Definition CFE_SB_CR_PIPE_BAD_ARG_EID : Z := 2.
Definition CFE_SB_MAX_PIPES_MET_EID : Z := 3.
Definition CFE_SB_CR_PIPE_ERR_EID : Z := 4.
Definition CFE_SB_PIPE_ADDED_EID : Z := 5.
Definition CFE_SB_SUB_ARG_ERR_EID : Z := 6.
Definition CFE_SB_DUP_SUBSCRIP_EID : Z := 7.
Definition CFE_SB_MAX_MSGS_MET_EID : Z := 8.
Definition CFE_SB_MAX_DESTS_MET_EID : Z := 9.
Definition CFE_SB_SUBSCRIPTION_RCVD_EID : Z := 10.
Definition CFE_SB_UNSUB_ARG_ERR_EID : Z := 11.
Definition CFE_SB_UNSUB_NO_SUBS_EID : Z := 12.
Definition CFE_SB_SEND_BAD_ARG_EID : Z := 13.
Definition CFE_SB_SEND_NO_SUBS_EID : Z := 14.
Definition CFE_SB_MSG_TOO_BIG_EID : Z := 15.
Definition CFE_SB_GET_BUF_ERR_EID : Z := 16.
Definition CFE_SB_MSGID_LIM_ERR_EID : Z := 17.
Definition CFE_SB_RCV_BAD_ARG_EID : Z := 18.
Definition CFE_SB_BAD_PIPEID_EID : Z := 19.
Definition CFE_SB_DEST_BLK_ERR_EID : Z := 20.
Definition CFE_SB_SEND_INV_MSGID_EID : Z := 21.
Definition CFE_SB_SUBSCRIPTION_RPT_EID : Z := 22.
Definition CFE_SB_HASHCOLLISION_EID : Z := 23.
Definition CFE_SB_Q_FULL_ERR_EID : Z := 25.
Definition CFE_SB_Q_WR_ERR_EID : Z := 26.
Definition CFE_SB_Q_RD_ERR_EID : Z := 27.
Definition CFE_SB_DEL_PIPE_ERR1_EID : Z := 46.
Definition CFE_SB_PIPE_DELETED_EID : Z := 47.
Definition CFE_SB_SUBSCRIPTION_REMOVED_EID : Z := 48.
Definition CFE_SB_SUB_INV_PIPE_EID : Z := 50.
Definition CFE_SB_SUB_INV_CALLER_EID : Z := 51.
Definition CFE_SB_UNSUB_INV_PIPE_EID : Z := 52.
Definition CFE_SB_UNSUB_INV_CALLER_EID : Z := 53.
Definition CFE_SB_DEL_PIPE_ERR2_EID : Z := 54.
Definition CFE_SB_SETPIPEOPTS_ID_ERR_EID : Z := 55.
Definition CFE_SB_SETPIPEOPTS_OWNER_ERR_EID : Z := 56.
Definition CFE_SB_SETPIPEOPTS_EID : Z := 57.
Definition CFE_SB_GETPIPEOPTS_ID_ERR_EID : Z := 58.
Definition CFE_SB_GETPIPEOPTS_PTR_ERR_EID : Z := 59.
Definition CFE_SB_GETPIPEOPTS_EID : Z := 60.
Definition CFE_SB_GETPIPENAME_EID : Z := 62.
Definition CFE_SB_GETPIPENAME_NULL_PTR_EID : Z := 63.
Definition CFE_SB_GETPIPENAME_ID_ERR_EID : Z := 64.
Definition CFE_SB_GETPIPEIDBYNAME_EID : Z := 65.
Definition CFE_SB_GETPIPEIDBYNAME_NULL_ERR_EID : Z := 66.
Definition CFE_SB_GETPIPEIDBYNAME_NAME_ERR_EID : Z := 67.
Definition CFE_SB_CR_PIPE_NAME_TAKEN_EID : Z := 62.
Definition CFE_SB_CR_PIPE_NO_FREE_EID : Z := 63.
