(* ===== verification/Msg.v ===== *)
(** * The message module (cfe/modules/msg)

    CCSDS space packet headers as byte arrays: the primary header, the optional
    extended header, and the command and telemetry secondary headers.  A message
    is the list of its bytes; a field access is the byte access of the source. *)
From S2P Require Import Prelude Config.

Abbreviation Message := (list Z) (only parsing).

(** ** Enumerations of cfe_msg_typedefs.h *)

Inductive CFE_MSG_Type :=
| CFE_MSG_Type_Invalid | CFE_MSG_Type_Cmd | CFE_MSG_Type_Tlm.

Inductive CFE_MSG_SegmentationFlag :=
| CFE_MSG_SegFlag_Invalid | CFE_MSG_SegFlag_Continue | CFE_MSG_SegFlag_First
| CFE_MSG_SegFlag_Last | CFE_MSG_SegFlag_Unsegmented.

Inductive CFE_MSG_Endian :=
| CFE_MSG_Endian_Invalid | CFE_MSG_Endian_Big | CFE_MSG_Endian_Little.

Inductive CFE_MSG_PlaybackFlag :=
| CFE_MSG_PlayFlag_Invalid | CFE_MSG_PlayFlag_Original | CFE_MSG_PlayFlag_Playback.

#[export] Instance CFE_MSG_Type_dec : EqDecision CFE_MSG_Type.
Proof. solve_decision. Defined.
#[export] Instance CFE_MSG_SegmentationFlag_dec : EqDecision CFE_MSG_SegmentationFlag.
Proof. solve_decision. Defined.
#[export] Instance CFE_MSG_Endian_dec : EqDecision CFE_MSG_Endian.
Proof. solve_decision. Defined.
#[export] Instance CFE_MSG_PlaybackFlag_dec : EqDecision CFE_MSG_PlaybackFlag.
Proof. solve_decision. Defined.

(** ** Header layout

    CCSDS_PrimaryHeader_t is three big-endian 16 bit words, followed in the
    extended format by the two of CCSDS_ExtendedHeader_t (ccsds_hdr.h); the
    secondary header follows the CFE_MSG_Message_t. *)

Inductive HdrFormat := Hdr_Pri | Hdr_PriExt.

Definition sizeof_Message (h : HdrFormat) : nat :=
  match h with Hdr_Pri => 6%nat | Hdr_PriExt => 10%nat end.

Definition off_StreamId : nat := 0.
Definition off_Sequence : nat := 2.
Definition off_Length : nat := 4.
Definition off_Subsystem : nat := 6.
Definition off_SystemId : nat := 8.

(** CFE_MSG_CommandSecondaryHeader_t and CFE_MSG_TelemetrySecondaryHeader_t. *)

Definition off_FunctionCode (h : HdrFormat) : nat := sizeof_Message h.
Definition off_Checksum (h : HdrFormat) : nat := S (sizeof_Message h).
Definition off_Time (h : HdrFormat) : nat := sizeof_Message h.

(** ** cfe_msg_priv.h: big-endian field access under a mask *)

Definition CFE_MSG_GetHeaderField (m : Message) (Word : nat) (Mask : Z) : Z :=
  u16 (Z.land (Z.lor (Z.shiftl (m !!! Word) 8) (m !!! S Word)) Mask).

Definition CFE_MSG_SetHeaderField (m : Message) (Word : nat) (Val Mask : Z) : Message :=
  let b0 := u8 (Z.lor (Z.land (m !!! Word) (Z.lnot (Z.shiftr Mask 8)))
                      (Z.shiftr (Z.land Val Mask) 8)) in
  let m := <[Word := b0]> m in
  let b1 := u8 (Z.land (Z.lor (Z.land (m !!! S Word) (Z.lnot Mask)) (Z.land Val Mask)) 0xFF) in
  <[S Word := b1]> m.

(** ** cfe_msg_ccsdspri.c: primary header *)

Definition CFE_MSG_SIZE_OFFSET : Z := 7.
Definition CFE_MSG_CCSDSVER_MASK : Z := 0xE000.
Definition CFE_MSG_CCSDSVER_SHIFT : Z := 13.
Definition CFE_MSG_TYPE_MASK : Z := 0x1000.
Definition CFE_MSG_SHDR_MASK : Z := 0x0800.
Definition CFE_MSG_APID_MASK : Z := 0x07FF.
Definition CFE_MSG_SEGFLG_MASK : Z := 0xC000.
Definition CFE_MSG_SEGFLG_CNT : Z := 0x0000.
Definition CFE_MSG_SEGFLG_FIRST : Z := 0x4000.
Definition CFE_MSG_SEGFLG_LAST : Z := 0x8000.
Definition CFE_MSG_SEGFLG_UNSEG : Z := 0xC000.
Definition CFE_MSG_SEQCNT_MASK : Z := 0x3FFF.

(** [m->Byte[i] |= mask] and [m->Byte[i] &= ~mask]. *)

Definition byte_or (m : Message) (i : nat) (mask : Z) : Message :=
  <[i := u8 (Z.lor (m !!! i) mask)]> m.
Definition byte_clear (m : Message) (i : nat) (mask : Z) : Message :=
  <[i := u8 (Z.land (m !!! i) (Z.lnot mask))]> m.

Definition CFE_MSG_GetHeaderVersion (MsgPtr : ptr Message) (Version : ptr Z) : Z * ptr Z :=
  match MsgPtr, Version with
  | Some m, Some _ =>
      let v := CFE_MSG_GetHeaderField m off_StreamId CFE_MSG_CCSDSVER_MASK in
      (CFE_SUCCESS, Some (u16 (Z.shiftr v CFE_MSG_CCSDSVER_SHIFT)))
  | _, _ => (CFE_MSG_BAD_ARGUMENT, Version)
  end.

Definition CFE_MSG_SetHeaderVersion (MsgPtr : ptr Message) (Version : Z) : Z * ptr Message :=
  match MsgPtr with
  | None => (CFE_MSG_BAD_ARGUMENT, MsgPtr)
  | Some m =>
      if Z.shiftr CFE_MSG_CCSDSVER_MASK CFE_MSG_CCSDSVER_SHIFT <? Version
      then (CFE_MSG_BAD_ARGUMENT, MsgPtr)
      else (CFE_SUCCESS,
            Some (CFE_MSG_SetHeaderField m off_StreamId
                    (u16 (Z.shiftl Version CFE_MSG_CCSDSVER_SHIFT)) CFE_MSG_CCSDSVER_MASK))
  end.

Definition CFE_MSG_GetType (MsgPtr : ptr Message) (Type_ : ptr CFE_MSG_Type)
  : Z * ptr CFE_MSG_Type :=
  match MsgPtr, Type_ with
  | Some m, Some _ =>
      (CFE_SUCCESS,
       Some (if Z.land (m !!! off_StreamId) (Z.shiftr CFE_MSG_TYPE_MASK 8) =? 0
             then CFE_MSG_Type_Tlm else CFE_MSG_Type_Cmd))
  | _, _ => (CFE_MSG_BAD_ARGUMENT, Type_)
  end.

Definition CFE_MSG_SetType (MsgPtr : ptr Message) (Type_ : CFE_MSG_Type) : Z * ptr Message :=
  match MsgPtr with
  | None => (CFE_MSG_BAD_ARGUMENT, MsgPtr)
  | Some m =>
      match Type_ with
      | CFE_MSG_Type_Cmd =>
          (CFE_SUCCESS, Some (byte_or m off_StreamId (Z.shiftr CFE_MSG_TYPE_MASK 8)))
      | CFE_MSG_Type_Tlm =>
          (CFE_SUCCESS, Some (byte_clear m off_StreamId (Z.shiftr CFE_MSG_TYPE_MASK 8)))
      | CFE_MSG_Type_Invalid => (CFE_MSG_BAD_ARGUMENT, MsgPtr)
      end
  end.

Definition CFE_MSG_GetHasSecondaryHeader (MsgPtr : ptr Message) (HasSecondary : ptr bool)
  : Z * ptr bool :=
  match MsgPtr, HasSecondary with
  | Some m, Some _ =>
      (CFE_SUCCESS,
       Some (negb (Z.land (m !!! off_StreamId) (Z.shiftr CFE_MSG_SHDR_MASK 8) =? 0)))
  | _, _ => (CFE_MSG_BAD_ARGUMENT, HasSecondary)
  end.

Definition CFE_MSG_SetHasSecondaryHeader (MsgPtr : ptr Message) (HasSecondary : bool)
  : Z * ptr Message :=
  match MsgPtr with
  | None => (CFE_MSG_BAD_ARGUMENT, MsgPtr)
  | Some m =>
      (CFE_SUCCESS,
       Some (if HasSecondary then byte_or m off_StreamId (Z.shiftr CFE_MSG_SHDR_MASK 8)
             else byte_clear m off_StreamId (Z.shiftr CFE_MSG_SHDR_MASK 8)))
  end.

Definition CFE_MSG_GetApId (MsgPtr : ptr Message) (ApId : ptr Z) : Z * ptr Z :=
  match MsgPtr, ApId with
  | Some m, Some _ =>
      (CFE_SUCCESS, Some (CFE_MSG_GetHeaderField m off_StreamId CFE_MSG_APID_MASK))
  | _, _ => (CFE_MSG_BAD_ARGUMENT, ApId)
  end.

Definition CFE_MSG_SetApId (MsgPtr : ptr Message) (ApId : Z) : Z * ptr Message :=
  match MsgPtr with
  | None => (CFE_MSG_BAD_ARGUMENT, MsgPtr)
  | Some m =>
      if Z.land ApId (Z.lnot CFE_MSG_APID_MASK) =? 0
      then (CFE_SUCCESS, Some (CFE_MSG_SetHeaderField m off_StreamId ApId CFE_MSG_APID_MASK))
      else (CFE_MSG_BAD_ARGUMENT, MsgPtr)
  end.

Definition CFE_MSG_GetSegmentationFlag (MsgPtr : ptr Message)
    (SegFlag : ptr CFE_MSG_SegmentationFlag) : Z * ptr CFE_MSG_SegmentationFlag :=
  match MsgPtr, SegFlag with
  | Some m, Some _ =>
      let rawval := CFE_MSG_GetHeaderField m off_Sequence CFE_MSG_SEGFLG_MASK in
      (CFE_SUCCESS,
       Some (if rawval =? CFE_MSG_SEGFLG_CNT then CFE_MSG_SegFlag_Continue
             else if rawval =? CFE_MSG_SEGFLG_FIRST then CFE_MSG_SegFlag_First
             else if rawval =? CFE_MSG_SEGFLG_LAST then CFE_MSG_SegFlag_Last
             else CFE_MSG_SegFlag_Unsegmented))
  | _, _ => (CFE_MSG_BAD_ARGUMENT, SegFlag)
  end.

Definition CFE_MSG_SetSegmentationFlag (MsgPtr : ptr Message)
    (SegFlag : CFE_MSG_SegmentationFlag) : Z * ptr Message :=
  match MsgPtr with
  | None => (CFE_MSG_BAD_ARGUMENT, MsgPtr)
  | Some m =>
      let rawval :=
        match SegFlag with
        | CFE_MSG_SegFlag_Continue => Some CFE_MSG_SEGFLG_CNT
        | CFE_MSG_SegFlag_First => Some CFE_MSG_SEGFLG_FIRST
        | CFE_MSG_SegFlag_Last => Some CFE_MSG_SEGFLG_LAST
        | CFE_MSG_SegFlag_Unsegmented => Some CFE_MSG_SEGFLG_UNSEG
        | CFE_MSG_SegFlag_Invalid => None
        end in
      match rawval with
      | Some rawval =>
          (CFE_SUCCESS, Some (CFE_MSG_SetHeaderField m off_Sequence rawval CFE_MSG_SEGFLG_MASK))
      | None => (CFE_MSG_BAD_ARGUMENT, MsgPtr)
      end
  end.

Definition CFE_MSG_GetSequenceCount (MsgPtr : ptr Message) (SeqCnt : ptr Z) : Z * ptr Z :=
  match MsgPtr, SeqCnt with
  | Some m, Some _ =>
      (CFE_SUCCESS, Some (CFE_MSG_GetHeaderField m off_Sequence CFE_MSG_SEQCNT_MASK))
  | _, _ => (CFE_MSG_BAD_ARGUMENT, SeqCnt)
  end.

Definition CFE_MSG_SetSequenceCount (MsgPtr : ptr Message) (SeqCnt : Z) : Z * ptr Message :=
  match MsgPtr with
  | None => (CFE_MSG_BAD_ARGUMENT, MsgPtr)
  | Some m =>
      if Z.land SeqCnt (Z.lnot CFE_MSG_SEQCNT_MASK) =? 0
      then (CFE_SUCCESS, Some (CFE_MSG_SetHeaderField m off_Sequence SeqCnt CFE_MSG_SEQCNT_MASK))
      else (CFE_MSG_BAD_ARGUMENT, MsgPtr)
  end.

Definition CFE_MSG_GetSize (MsgPtr : ptr Message) (Size : ptr Z) : Z * ptr Z :=
  match MsgPtr, Size with
  | Some m, Some _ =>
      (CFE_SUCCESS,
       Some (Z.shiftl (m !!! off_Length) 8 + m !!! S off_Length + CFE_MSG_SIZE_OFFSET))
  | _, _ => (CFE_MSG_BAD_ARGUMENT, Size)
  end.

Definition CFE_MSG_SetSize (MsgPtr : ptr Message) (Size : Z) : Z * ptr Message :=
  match MsgPtr with
  | None => (CFE_MSG_BAD_ARGUMENT, MsgPtr)
  | Some m =>
      if (Size <? CFE_MSG_SIZE_OFFSET) || (0xFFFF + CFE_MSG_SIZE_OFFSET <? Size)
      then (CFE_MSG_BAD_ARGUMENT, MsgPtr)
      else
        let Size := Size - CFE_MSG_SIZE_OFFSET in
        let m := <[off_Length := Z.land (Z.shiftr Size 8) 0xFF]> m in
        (CFE_SUCCESS, Some (<[S off_Length := Z.land Size 0xFF]> m))
  end.

Definition CFE_MSG_SetDefaultCCSDSPri (MsgPtr : ptr Message) : ptr Message :=
  let MsgPtr := (CFE_MSG_SetHasSecondaryHeader MsgPtr true).2 in
  let MsgPtr := (CFE_MSG_SetHeaderVersion MsgPtr CFE_MISSION_CCSDSVER).2 in
  let MsgPtr := (CFE_MSG_SetApId MsgPtr CFE_PLATFORM_DEFAULT_APID).2 in
  (CFE_MSG_SetSegmentationFlag MsgPtr CFE_MSG_SegFlag_Unsegmented).2.

(** ** cfe_msg_ccsdsext.c: extended header *)

Definition CFE_MSG_EDSVER_SHIFT : Z := 11.
Definition CFE_MSG_EDSVER_MASK : Z := 0xF800.
Definition CFE_MSG_ENDIAN_MASK : Z := 0x0400.
Definition CFE_MSG_PLAYBACK_MASK : Z := 0x0200.
Definition CFE_MSG_SUBSYS_MASK : Z := 0x01FF.

Definition CFE_MSG_GetEDSVersion (MsgPtr : ptr Message) (Version : ptr Z) : Z * ptr Z :=
  match MsgPtr, Version with
  | Some m, Some _ =>
      let v := CFE_MSG_GetHeaderField m off_Subsystem CFE_MSG_EDSVER_MASK in
      (CFE_SUCCESS, Some (u16 (Z.shiftr v CFE_MSG_EDSVER_SHIFT)))
  | _, _ => (CFE_MSG_BAD_ARGUMENT, Version)
  end.

Definition CFE_MSG_SetEDSVersion (MsgPtr : ptr Message) (Version : Z) : Z * ptr Message :=
  match MsgPtr with
  | None => (CFE_MSG_BAD_ARGUMENT, MsgPtr)
  | Some m =>
      if Z.shiftr CFE_MSG_EDSVER_MASK CFE_MSG_EDSVER_SHIFT <? Version
      then (CFE_MSG_BAD_ARGUMENT, MsgPtr)
      else (CFE_SUCCESS,
            Some (CFE_MSG_SetHeaderField m off_Subsystem
                    (u16 (Z.shiftl Version CFE_MSG_EDSVER_SHIFT)) CFE_MSG_EDSVER_MASK))
  end.

Definition CFE_MSG_GetEndian (MsgPtr : ptr Message) (Endian : ptr CFE_MSG_Endian)
  : Z * ptr CFE_MSG_Endian :=
  match MsgPtr, Endian with
  | Some m, Some _ =>
      (CFE_SUCCESS,
       Some (if Z.land (m !!! off_Subsystem) (Z.shiftr CFE_MSG_ENDIAN_MASK 8) =? 0
             then CFE_MSG_Endian_Big else CFE_MSG_Endian_Little))
  | _, _ => (CFE_MSG_BAD_ARGUMENT, Endian)
  end.

Definition CFE_MSG_SetEndian (MsgPtr : ptr Message) (Endian : CFE_MSG_Endian) : Z * ptr Message :=
  match MsgPtr with
  | None => (CFE_MSG_BAD_ARGUMENT, MsgPtr)
  | Some m =>
      match Endian with
      | CFE_MSG_Endian_Little =>
          (CFE_SUCCESS, Some (byte_or m off_Subsystem (Z.shiftr CFE_MSG_ENDIAN_MASK 8)))
      | CFE_MSG_Endian_Big =>
          (CFE_SUCCESS, Some (byte_clear m off_Subsystem (Z.shiftr CFE_MSG_ENDIAN_MASK 8)))
      | CFE_MSG_Endian_Invalid => (CFE_MSG_BAD_ARGUMENT, MsgPtr)
      end
  end.

Definition CFE_MSG_GetPlaybackFlag (MsgPtr : ptr Message) (PlayFlag : ptr CFE_MSG_PlaybackFlag)
  : Z * ptr CFE_MSG_PlaybackFlag :=
  match MsgPtr, PlayFlag with
  | Some m, Some _ =>
      (CFE_SUCCESS,
       Some (if Z.land (m !!! off_Subsystem) (Z.shiftr CFE_MSG_PLAYBACK_MASK 8) =? 0
             then CFE_MSG_PlayFlag_Original else CFE_MSG_PlayFlag_Playback))
  | _, _ => (CFE_MSG_BAD_ARGUMENT, PlayFlag)
  end.

Definition CFE_MSG_SetPlaybackFlag (MsgPtr : ptr Message) (PlayFlag : CFE_MSG_PlaybackFlag)
  : Z * ptr Message :=
  match MsgPtr with
  | None => (CFE_MSG_BAD_ARGUMENT, MsgPtr)
  | Some m =>
      match PlayFlag with
      | CFE_MSG_PlayFlag_Playback =>
          (CFE_SUCCESS, Some (byte_or m off_Subsystem (Z.shiftr CFE_MSG_PLAYBACK_MASK 8)))
      | CFE_MSG_PlayFlag_Original =>
          (CFE_SUCCESS, Some (byte_clear m off_Subsystem (Z.shiftr CFE_MSG_PLAYBACK_MASK 8)))
      | CFE_MSG_PlayFlag_Invalid => (CFE_MSG_BAD_ARGUMENT, MsgPtr)
      end
  end.

Definition CFE_MSG_GetSubsystem (MsgPtr : ptr Message) (Subsystem : ptr Z) : Z * ptr Z :=
  match MsgPtr, Subsystem with
  | Some m, Some _ =>
      (CFE_SUCCESS, Some (CFE_MSG_GetHeaderField m off_Subsystem CFE_MSG_SUBSYS_MASK))
  | _, _ => (CFE_MSG_BAD_ARGUMENT, Subsystem)
  end.

Definition CFE_MSG_SetSubsystem (MsgPtr : ptr Message) (Subsystem : Z) : Z * ptr Message :=
  match MsgPtr with
  | None => (CFE_MSG_BAD_ARGUMENT, MsgPtr)
  | Some m =>
      if Z.land Subsystem (Z.lnot CFE_MSG_SUBSYS_MASK) =? 0
      then (CFE_SUCCESS,
            Some (CFE_MSG_SetHeaderField m off_Subsystem Subsystem CFE_MSG_SUBSYS_MASK))
      else (CFE_MSG_BAD_ARGUMENT, MsgPtr)
  end.

Definition CFE_MSG_GetSystem (MsgPtr : ptr Message) (System : ptr Z) : Z * ptr Z :=
  match MsgPtr, System with
  | Some m, Some _ =>
      (CFE_SUCCESS, Some (u16 (Z.shiftl (m !!! off_SystemId) 8 + m !!! S off_SystemId)))
  | _, _ => (CFE_MSG_BAD_ARGUMENT, System)
  end.

Definition CFE_MSG_SetSystem (MsgPtr : ptr Message) (System : Z) : Z * ptr Message :=
  match MsgPtr with
  | None => (CFE_MSG_BAD_ARGUMENT, MsgPtr)
  | Some m =>
      let m := <[off_SystemId := Z.land (Z.shiftr System 8) 0xFF]> m in
      (CFE_SUCCESS, Some (<[S off_SystemId := Z.land System 0xFF]> m))
  end.

(** The platform file sets CFE_PLATFORM_ENDIAN to CCSDS_LITTLE_ENDIAN, so the
    first arm of the conditional compilation is the one built; [SpacecraftId]
    stands for CFE_PSP_GetSpacecraftId(). *)

Definition CFE_MSG_SetDefaultCCSDSExt (SpacecraftId : Z) (MsgPtr : ptr Message) : ptr Message :=
  let MsgPtr := (CFE_MSG_SetEDSVersion MsgPtr (u16 CFE_PLATFORM_EDSVER)).2 in
  let MsgPtr := (CFE_MSG_SetEndian MsgPtr CFE_MSG_Endian_Little).2 in
  let MsgPtr := (CFE_MSG_SetSubsystem MsgPtr (u16 CFE_PLATFORM_DEFAULT_SUBSYS)).2 in
  (CFE_MSG_SetSystem MsgPtr (u16 SpacecraftId)).2.

(** ** Message identifiers: cfe_msg_msgid_v1.c, cfe_msg_msgid_v2.c *)

Module MsgIdV1.

Definition CFE_MSG_GetMsgId (MsgPtr : ptr Message) (MsgId : ptr Z) : Z * ptr Z :=
  match MsgPtr, MsgId with
  | Some m, Some _ =>
      (CFE_SUCCESS, Some (u32 (Z.shiftl (m !!! off_StreamId) 8 + m !!! S off_StreamId)))
  | _, _ => (CFE_MSG_BAD_ARGUMENT, MsgId)
  end.

Definition CFE_MSG_SetMsgId (MsgPtr : ptr Message) (MsgId : Z) : Z * ptr Message :=
  match MsgPtr with
  | None => (CFE_MSG_BAD_ARGUMENT, MsgPtr)
  | Some m =>
      if CFE_PLATFORM_SB_HIGHEST_VALID_MSGID <? MsgId
      then (CFE_MSG_BAD_ARGUMENT, MsgPtr)
      else
        let m := <[off_StreamId := u8 (Z.shiftr MsgId 8)]> m in
        (CFE_SUCCESS, Some (<[S off_StreamId := u8 MsgId]> m))
  end.

End MsgIdV1.

Module MsgIdV2.

Definition CFE_MSG_MSGID_APID_MASK : Z := 0x007F.
Definition CFE_MSG_MSGID_TYPE_MASK : Z := 0x0080.
Definition CFE_MSG_MSGID_SUBSYS_MASK : Z := 0xFF00.

Definition CFE_MSG_GetMsgId (MsgPtr : ptr Message) (MsgId : ptr Z) : Z * ptr Z :=
  match MsgPtr, MsgId with
  | Some m, Some _ =>
      let type := (CFE_MSG_GetType MsgPtr (Some CFE_MSG_Type_Invalid)).2 in
      let msgidval := Z.land (m !!! S off_StreamId) CFE_MSG_MSGID_APID_MASK in
      let msgidval := if decide (type = Some CFE_MSG_Type_Cmd)
                      then Z.lor msgidval CFE_MSG_MSGID_TYPE_MASK else msgidval in
      (CFE_SUCCESS,
       Some (Z.lor msgidval
               (Z.land (Z.shiftl (m !!! S off_Subsystem) 8) CFE_MSG_MSGID_SUBSYS_MASK)))
  | _, _ => (CFE_MSG_BAD_ARGUMENT, MsgId)
  end.

Definition CFE_MSG_SetMsgId (MsgPtr : ptr Message) (MsgId : Z) : Z * ptr Message :=
  match MsgPtr with
  | None => (CFE_MSG_BAD_ARGUMENT, MsgPtr)
  | Some m =>
      if CFE_PLATFORM_SB_HIGHEST_VALID_MSGID <? MsgId
      then (CFE_MSG_BAD_ARGUMENT, MsgPtr)
      else
        let m := <[S off_StreamId :=
                     u8 (Z.lor (Z.land (m !!! S off_StreamId) (Z.lnot CFE_MSG_MSGID_APID_MASK))
                               (Z.land MsgId CFE_MSG_MSGID_APID_MASK))]> m in
        let m := <[S off_Subsystem :=
                     u8 (Z.shiftr (Z.land MsgId CFE_MSG_MSGID_SUBSYS_MASK) 8)]> m in
        let type := if Z.land MsgId CFE_MSG_MSGID_TYPE_MASK =? 0
                    then CFE_MSG_Type_Tlm else CFE_MSG_Type_Cmd in
        (CFE_SUCCESS, (CFE_MSG_SetType (Some m) type).2)
  end.

End MsgIdV2.

(** The build links one of the two; [MsgIdVersion] is the CMake choice. *)

Inductive MsgIdVersion := MsgId_V1 | MsgId_V2.

Definition CFE_MSG_GetMsgId (v : MsgIdVersion) :=
  match v with MsgId_V1 => MsgIdV1.CFE_MSG_GetMsgId | MsgId_V2 => MsgIdV2.CFE_MSG_GetMsgId end.
Definition CFE_MSG_SetMsgId (v : MsgIdVersion) :=
  match v with MsgId_V1 => MsgIdV1.CFE_MSG_SetMsgId | MsgId_V2 => MsgIdV2.CFE_MSG_SetMsgId end.

(** cfe_msg_msgid_shared.c.  [msg] is the uninitialised automatic variable. *)

Definition CFE_MSG_GetTypeFromMsgId (v : MsgIdVersion) (msg : Message) (MsgId : Z)
    (Type_ : ptr CFE_MSG_Type) : Z * ptr CFE_MSG_Type :=
  match Type_ with
  | None => (CFE_MSG_BAD_ARGUMENT, Type_)
  | Some _ =>
      let msg := (CFE_MSG_SetMsgId v (Some msg) MsgId).2 in
      (CFE_SUCCESS, (CFE_MSG_GetType msg Type_).2)
  end.

(** ** cfe_msg_initdefaulthdr_*.c, cfe_msg_init.c *)

Definition CFE_MSG_InitDefaultHdr (h : HdrFormat) (SpacecraftId : Z) (MsgPtr : ptr Message)
  : ptr Message :=
  match h with
  | Hdr_Pri => CFE_MSG_SetDefaultCCSDSPri MsgPtr
  | Hdr_PriExt => CFE_MSG_SetDefaultCCSDSExt SpacecraftId (CFE_MSG_SetDefaultCCSDSPri MsgPtr)
  end.

(** [memset(p, 0, n)]: the caller's object has at least [n] bytes. *)
Definition memset0 (m : Message) (n : nat) : Message := replicate n 0 ++ drop n m.

Definition CFE_MSG_Init (h : HdrFormat) (v : MsgIdVersion) (SpacecraftId : Z)
    (MsgPtr : ptr Message) (MsgId Size : Z) : Z * ptr Message :=
  match MsgPtr with
  | None => (CFE_MSG_BAD_ARGUMENT, MsgPtr)
  | Some m =>
      let MsgPtr := Some (memset0 m (Z.to_nat Size)) in
      let MsgPtr := CFE_MSG_InitDefaultHdr h SpacecraftId MsgPtr in
      let '(status, MsgPtr) := CFE_MSG_SetMsgId v MsgPtr MsgId in
      if status =? CFE_SUCCESS then CFE_MSG_SetSize MsgPtr Size else (status, MsgPtr)
  end.

(** ** Secondary headers: cfe_msg_sechdr_{checksum,fc,time}.c *)

Fixpoint chksum_loop (m : Message) (i : nat) (PktLen : nat) (chksum : Z) : Z :=
  match PktLen with
  | O => chksum
  | S n => chksum_loop m (S i) n (Z.lxor chksum (m !!! i))
  end.

Definition CFE_MSG_ComputeCheckSum (m : Message) : Z :=
  let PktLen := default 0 (CFE_MSG_GetSize (Some m) (Some 0)).2 in
  chksum_loop m 0 (Z.to_nat PktLen) 0xFF.

(** The guard the six secondary header functions share: the message has the
    wanted type and its secondary header flag is set. *)
Definition sechdr_is (m : Message) (want : CFE_MSG_Type) : bool :=
  let hassechdr := default false (CFE_MSG_GetHasSecondaryHeader (Some m) (Some false)).2 in
  let '(status, type) := CFE_MSG_GetType (Some m) (Some CFE_MSG_Type_Invalid) in
  negb (negb (status =? CFE_SUCCESS) || negb (bool_decide (type = Some want)) || negb hassechdr).

Section sechdr.
Context (h : HdrFormat).

Definition CFE_MSG_GenerateChecksum (MsgPtr : ptr Message) : Z * ptr Message :=
  match MsgPtr with
  | None => (CFE_MSG_BAD_ARGUMENT, MsgPtr)
  | Some m =>
      if sechdr_is m CFE_MSG_Type_Cmd then
        let m := <[off_Checksum h := 0]> m in
        (CFE_SUCCESS, Some (<[off_Checksum h := u8 (CFE_MSG_ComputeCheckSum m)]> m))
      else (CFE_MSG_WRONG_MSG_TYPE, MsgPtr)
  end.

Definition CFE_MSG_ValidateChecksum (MsgPtr : ptr Message) (IsValid : ptr bool) : Z * ptr bool :=
  match MsgPtr, IsValid with
  | Some m, Some _ =>
      if sechdr_is m CFE_MSG_Type_Cmd
      then (CFE_SUCCESS, Some (CFE_MSG_ComputeCheckSum m =? 0))
      else (CFE_MSG_WRONG_MSG_TYPE, IsValid)
  | _, _ => (CFE_MSG_BAD_ARGUMENT, IsValid)
  end.

Definition CFE_MSG_FC_MASK : Z := 0x7F.

Definition CFE_MSG_GetFcnCode (MsgPtr : ptr Message) (FcnCode : ptr Z) : Z * ptr Z :=
  match MsgPtr, FcnCode with
  | Some m, Some _ =>
      if sechdr_is m CFE_MSG_Type_Cmd
      then (CFE_SUCCESS, Some (Z.land (m !!! off_FunctionCode h) CFE_MSG_FC_MASK))
      else (CFE_MSG_WRONG_MSG_TYPE, Some 0)
  | _, _ => (CFE_MSG_BAD_ARGUMENT, FcnCode)
  end.

Definition CFE_MSG_SetFcnCode (MsgPtr : ptr Message) (FcnCode : Z) : Z * ptr Message :=
  match MsgPtr with
  | None => (CFE_MSG_BAD_ARGUMENT, MsgPtr)
  | Some m =>
      if CFE_MSG_FC_MASK <? FcnCode then (CFE_MSG_BAD_ARGUMENT, MsgPtr)
      else if sechdr_is m CFE_MSG_Type_Cmd
      then (CFE_SUCCESS, Some (<[off_FunctionCode h := u8 FcnCode]> m))
      else (CFE_MSG_WRONG_MSG_TYPE, MsgPtr)
  end.

(** CFE_TIME_SysTime_t: 32 bit seconds and 32 bit binary fraction. *)

Definition CFE_MSG_SetMsgTime (MsgPtr : ptr Message) (NewTime : Z * Z) : Z * ptr Message :=
  match MsgPtr with
  | None => (CFE_MSG_BAD_ARGUMENT, MsgPtr)
  | Some m =>
      if sechdr_is m CFE_MSG_Type_Tlm then
        let '(Seconds, Subseconds) := NewTime in
        let t := off_Time h in
        let m := <[t := Z.land (Z.shiftr Seconds 24) 0xFF]> m in
        let m := <[(1 + t)%nat := Z.land (Z.shiftr Seconds 16) 0xFF]> m in
        let m := <[(2 + t)%nat := Z.land (Z.shiftr Seconds 8) 0xFF]> m in
        let m := <[(3 + t)%nat := Z.land Seconds 0xFF]> m in
        let m := <[(4 + t)%nat := Z.land (Z.shiftr Subseconds 24) 0xFF]> m in
        let m := <[(5 + t)%nat := Z.land (Z.shiftr Subseconds 16) 0xFF]> m in
        (CFE_SUCCESS, Some m)
      else (CFE_MSG_WRONG_MSG_TYPE, MsgPtr)
  end.

Definition CFE_MSG_GetMsgTime (MsgPtr : ptr Message) (Time : ptr (Z * Z)) : Z * ptr (Z * Z) :=
  match MsgPtr, Time with
  | Some m, Some _ =>
      if sechdr_is m CFE_MSG_Type_Tlm then
        let t := off_Time h in
        let b := λ k : nat, m !!! (k + t)%nat in
        let Subseconds := u32 (Z.shiftl (b 4%nat) 24 + Z.shiftl (b 5%nat) 16) in
        let Seconds := u32 (Z.shiftl (b 0%nat) 24 + Z.shiftl (b 1%nat) 16
                            + Z.shiftl (b 2%nat) 8 + b 3%nat) in
        (CFE_SUCCESS, Some (Seconds, Subseconds))
      else (CFE_MSG_WRONG_MSG_TYPE, Some (0, 0))
  | _, _ => (CFE_MSG_BAD_ARGUMENT, Time)
  end.

End sechdr.
