(* ===== verification/MsgProps.v ===== *)
(** * Properties of the message module *)
From S2P Require Import Prelude Config Msg.

(** ** Words, bytes and masks *)

Definition be16 (m : Message) (o : nat) : Z :=
  Z.lor (Z.shiftl (m !!! o) 8) (m !!! S o).

(** A well-formed message: bytes, and enough of them for the header format. *)
Definition msg_wf (n : nat) (m : Message) : Prop :=
  Forall is_u8 m ∧ (n ≤ length m)%nat.

Lemma lookup_total_u8 m i : Forall is_u8 m → is_u8 (m !!! i).
Proof.
  intros Hm. destruct (m !! i) as [x|] eqn:E.
  - rewrite (list_lookup_total_correct _ _ _ E). by eapply Forall_lookup_1.
  - rewrite list_lookup_total_alt, E. unfold is_u8. cbn. lia.
Qed.
#[export] Hint Resolve lookup_total_u8 : cfs.

Lemma lookup_total_insert_ne' (m : Message) i j x : i ≠ j → <[i:=x]> m !!! j = m !!! j.
Proof. intros. by apply list_lookup_total_insert_ne. Qed.

Lemma lookup_total_insert_eq' (m : Message) i x : (i < length m)%nat → <[i:=x]> m !!! i = x.
Proof. intros. by apply list_lookup_total_insert_eq. Qed.

Create Rewrite HintDb msg.
#[export] Hint Rewrite lookup_total_insert_eq' lookup_total_insert_ne'
  using (rewrite ?length_insert; unfold off_StreamId, off_Sequence, off_Length,
         off_Subsystem, off_SystemId in *; cbn in *; lia) : msg.

(** The word with byte [b0] above byte [b1]. *)
Lemma testbit_word b0 b1 i :
  is_u8 b0 → is_u8 b1 → 0 <= i →
  Z.testbit (Z.lor (Z.shiftl b0 8) b1) i =
    if i <? 8 then Z.testbit b1 i else (i <? 16) && Z.testbit b0 (i - 8).
Proof.
  intros H0 H1 Hi. rewrite Z.lor_spec, Z.shiftl_spec by lia.
  destruct (Z.ltb_spec i 8).
  - by rewrite (Z.testbit_neg_r b0) by lia.
  - rewrite (testbit_above b1 8 i) by (unfold is_u8 in *; lia).
    destruct (Z.ltb_spec i 16); [by rewrite orb_false_r|].
    by rewrite (testbit_above b0 8) by (unfold is_u8 in *; lia).
Qed.

Lemma word_disjoint b0 b1 : is_u8 b0 → is_u8 b1 → Z.land (Z.shiftl b0 8) b1 = 0.
Proof.
  intros H0 H1. Z_bits i Hi. rewrite Z.land_spec, Z.shiftl_spec, Z.bits_0 by lia.
  destruct (Z.ltb_spec i 8).
  - by rewrite (Z.testbit_neg_r b0) by lia.
  - rewrite (testbit_above b1 8 i) by (unfold is_u8 in *; lia). apply andb_false_r.
Qed.

Lemma word_add b0 b1 : is_u8 b0 → is_u8 b1 → Z.shiftl b0 8 + b1 = Z.lor (Z.shiftl b0 8) b1.
Proof.
  intros. rewrite Z.add_nocarry_lxor by by apply word_disjoint.
  by rewrite <- Z.lxor_lor by by apply word_disjoint.
Qed.

Lemma be16_range m o : Forall is_u8 m → is_u16 (be16 m o).
Proof.
  intros Hm. unfold be16. rewrite <- word_add by auto with cfs.
  pose proof (lookup_total_u8 m o Hm). pose proof (lookup_total_u8 m (S o) Hm).
  unfold is_u8, is_u16 in *. rewrite Z.shiftl_mul_pow2 by lia. lia.
Qed.
#[export] Hint Resolve be16_range : cfs.

(** Writing a field under a mask replaces exactly the masked bits of its word. *)
Lemma set_field_bytes b0 b1 v k :
  is_u8 b0 → is_u8 b1 → is_u16 k → 0 <= v →
  Z.lor (Z.shiftl (u8 (Z.lor (Z.land b0 (Z.lnot (Z.shiftr k 8))) (Z.shiftr (Z.land v k) 8))) 8)
        (u8 (Z.land (Z.lor (Z.land b1 (Z.lnot k)) (Z.land v k)) 0xFF)) =
  Z.lor (Z.ldiff (Z.lor (Z.shiftl b0 8) b1) k) (Z.land v k).
Proof.
  intros H0 H1 Hk Hv. Z_bits i Hi.
  rewrite testbit_word by auto with cfs.
  rewrite (Z.lor_spec (Z.ldiff _ _)), Z.ldiff_spec, testbit_word by auto with cfs.
  unfold u8. rewrite !testbit_mod_pow2 by lia.
  change 0xFF with (Z.ones 8).
  destruct (Z.ltb_spec i 8).
  - rewrite !Z.land_spec, Z.ones_spec_low, Z.lor_spec, !Z.land_spec, Z.lnot_spec by lia.
    by rewrite andb_true_r.
  - destruct (Z.ltb_spec i 16); cbn.
    + replace (i - 8 <? 8) with true by lia.
      rewrite Z.lor_spec, Z.land_spec, Z.lnot_spec, !Z.shiftr_spec by lia.
      by replace (i - 8 + 8) with i by lia.
    + rewrite Z.land_spec, (testbit_above k 16 i) by (unfold is_u16 in *; lia).
      by rewrite andb_false_r.
Qed.

Lemma be16_set_field m o v k :
  Forall is_u8 m → (S o < length m)%nat → is_u16 k → 0 <= v →
  be16 (CFE_MSG_SetHeaderField m o v k) o = Z.lor (Z.ldiff (be16 m o) k) (Z.land v k).
Proof.
  intros Hm Ho Hk Hv. unfold be16 at 1, CFE_MSG_SetHeaderField.
  autorewrite with msg. apply set_field_bytes; auto with cfs.
Qed.

Lemma be16_insert_other m o p x :
  p ≠ o → p ≠ S o → be16 (<[p := x]> m) o = be16 m o.
Proof. intros. unfold be16. by autorewrite with msg. Qed.

Lemma be16_set_field_other m o p v k :
  p ≠ o → S p ≠ o → p ≠ S o → be16 (CFE_MSG_SetHeaderField m p v k) o = be16 m o.
Proof. intros. unfold CFE_MSG_SetHeaderField. by rewrite !be16_insert_other by lia. Qed.

(** A flag held in the high byte of the word. *)
Lemma be16_byte_or m o k :
  Forall is_u8 m → (S o < length m)%nat → is_u8 k →
  be16 (byte_or m o k) o = Z.lor (be16 m o) (Z.shiftl k 8).
Proof.
  intros Hm Ho Hk. unfold be16, byte_or. autorewrite with msg.
  unfold u8. rewrite Z.mod_small by (apply lor_small; [lia|apply lookup_total_u8, Hm|done]).
  rewrite Z.shiftl_lor, <- !Z.lor_assoc. f_equal. apply Z.lor_comm.
Qed.

Lemma be16_byte_clear m o k :
  Forall is_u8 m → (S o < length m)%nat → is_u8 k →
  be16 (byte_clear m o k) o = Z.ldiff (be16 m o) (Z.shiftl k 8).
Proof.
  intros Hm Ho Hk. unfold be16, byte_clear. autorewrite with msg.
  Z_bits i Hi. rewrite Z.ldiff_spec, !testbit_word, Z.shiftl_spec by auto with cfs.
  unfold u8. rewrite testbit_mod_pow2 by lia.
  destruct (Z.ltb_spec i 8).
  - rewrite (Z.testbit_neg_r k) by lia. by rewrite andb_true_r.
  - destruct (Z.ltb_spec i 16); [cbn|done]. replace (i - 8 <? 8) with true by lia.
    by rewrite Z.land_spec, Z.lnot_spec by lia.
Qed.

(** Setters keep the message well-formed. *)
Lemma Forall_u8_insert m i x : Forall is_u8 m → is_u8 x → Forall is_u8 (<[i := x]> m).
Proof. intros. by apply Forall_insert. Qed.
#[export] Hint Resolve Forall_u8_insert : cfs.

Lemma wf_insert n m i x : msg_wf n m → is_u8 x → msg_wf n (<[i := x]> m).
Proof. intros [Hm Hn] Hx. split; [by apply Forall_u8_insert|]. by rewrite length_insert. Qed.
#[export] Hint Resolve wf_insert : cfs.

Lemma wf_set_field n m o v k : msg_wf n m → msg_wf n (CFE_MSG_SetHeaderField m o v k).
Proof. intros. unfold CFE_MSG_SetHeaderField. auto with cfs. Qed.
Lemma wf_byte_or n m o k : msg_wf n m → msg_wf n (byte_or m o k).
Proof. intros. unfold byte_or. auto with cfs. Qed.
Lemma wf_byte_clear n m o k : msg_wf n m → msg_wf n (byte_clear m o k).
Proof. intros. unfold byte_clear. auto with cfs. Qed.
#[export] Hint Resolve wf_set_field wf_byte_or wf_byte_clear : cfs.

(** ** Masks on words *)

Lemma land_lor_ldiff_same w v k : Z.land (Z.lor (Z.ldiff w k) (Z.land v k)) k = Z.land v k.
Proof.
  Z_bits i Hi. rewrite !Z.land_spec, !Z.lor_spec, Z.ldiff_spec, !Z.land_spec.
  by destruct (Z.testbit w i), (Z.testbit v i), (Z.testbit k i).
Qed.

Lemma land_lor_ldiff_other w v k k' :
  Z.land k k' = 0 → Z.land (Z.lor (Z.ldiff w k) (Z.land v k)) k' = Z.land w k'.
Proof.
  intros Hkk. Z_bits i Hi.
  assert (Z.testbit k i && Z.testbit k' i = false) as Hb
    by by rewrite <- Z.land_spec, Hkk, Z.bits_0.
  rewrite !Z.land_spec, !Z.lor_spec, Z.ldiff_spec, !Z.land_spec.
  by destruct (Z.testbit w i), (Z.testbit v i), (Z.testbit k i), (Z.testbit k' i).
Qed.

Lemma land_lor_other w k k' : Z.land k k' = 0 → Z.land (Z.lor w k) k' = Z.land w k'.
Proof. intros H. by rewrite Z.land_lor_distr_l, H, Z.lor_0_r. Qed.

Lemma land_ldiff_other w k k' : Z.land k k' = 0 → Z.land (Z.ldiff w k) k' = Z.land w k'.
Proof.
  intros H. pose proof (land_lor_ldiff_other w 0 k k' H) as E.
  by rewrite Z.land_0_l, Z.lor_0_r in E.
Qed.

(** A value that fits a contiguous low mask is not changed by it. *)
Lemma land_ones_small v n : 0 <= n → 0 <= v < 2 ^ n → Z.land v (Z.ones n) = v.
Proof. intros. rewrite Z.land_ones by lia. by apply Z.mod_small. Qed.

Lemma land_lnot_ones_0 v n : 0 <= n → 0 <= v → (Z.land v (Z.lnot (Z.ones n)) =? 0) = (v <? 2 ^ n).
Proof.
  intros Hn Hv. rewrite <- Z.ldiff_land.
  destruct (Z.ltb_spec v (2 ^ n)).
  - destruct (decide (v = 0)) as [->|]; [by rewrite Z.ldiff_0_l|].
    apply Z.eqb_eq, Z.ldiff_ones_r_low; [lia|]. apply Z.log2_lt_pow2; lia.
  - apply Z.eqb_neq. rewrite Z.ldiff_ones_r by lia.
    rewrite Z.shiftr_div_pow2, Z.shiftl_mul_pow2 by lia.
    pose proof (Z.div_le_lower_bound v (2 ^ n) 1). lia.
Qed.

(** ** The primary header's fields

    [raw f m] is the value of field [f] in place, under its mask; the getters are
    functions of it ([pri_get_raw]).  [PriSet] enumerates the module's setters. *)

Inductive PriField := F_Version | F_Type | F_SecHdr | F_ApId | F_SegFlag | F_SeqCnt | F_Length.

#[export] Instance PriField_dec : EqDecision PriField.
Proof. solve_decision. Defined.

Definition field_off (f : PriField) : nat :=
  match f with
  | F_Version | F_Type | F_SecHdr | F_ApId => off_StreamId
  | F_SegFlag | F_SeqCnt => off_Sequence
  | F_Length => off_Length
  end.

Definition field_mask (f : PriField) : Z :=
  match f with
  | F_Version => CFE_MSG_CCSDSVER_MASK | F_Type => CFE_MSG_TYPE_MASK
  | F_SecHdr => CFE_MSG_SHDR_MASK | F_ApId => CFE_MSG_APID_MASK
  | F_SegFlag => CFE_MSG_SEGFLG_MASK | F_SeqCnt => CFE_MSG_SEQCNT_MASK
  | F_Length => 0xFFFF
  end.

Definition raw (f : PriField) (m : Message) : Z := Z.land (be16 m (field_off f)) (field_mask f).

Inductive PriSet :=
| Set_Version (v : Z) | Set_Type (t : CFE_MSG_Type) | Set_SecHdr (b : bool) | Set_ApId (a : Z)
| Set_SegFlag (f : CFE_MSG_SegmentationFlag) | Set_SeqCnt (c : Z) | Set_Length (n : Z).

Definition set_field (op : PriSet) : PriField :=
  match op with
  | Set_Version _ => F_Version | Set_Type _ => F_Type | Set_SecHdr _ => F_SecHdr
  | Set_ApId _ => F_ApId | Set_SegFlag _ => F_SegFlag | Set_SeqCnt _ => F_SeqCnt
  | Set_Length _ => F_Length
  end.

Definition pri_set (op : PriSet) (MsgPtr : ptr Message) : Z * ptr Message :=
  match op with
  | Set_Version v => CFE_MSG_SetHeaderVersion MsgPtr v
  | Set_Type t => CFE_MSG_SetType MsgPtr t
  | Set_SecHdr b => CFE_MSG_SetHasSecondaryHeader MsgPtr b
  | Set_ApId a => CFE_MSG_SetApId MsgPtr a
  | Set_SegFlag f => CFE_MSG_SetSegmentationFlag MsgPtr f
  | Set_SeqCnt c => CFE_MSG_SetSequenceCount MsgPtr c
  | Set_Length n => CFE_MSG_SetSize MsgPtr n
  end.

(** The parameter ranges: the C types of the setters' parameters. *)
Definition set_typed (op : PriSet) : Prop :=
  match op with
  | Set_Version v | Set_ApId v | Set_SeqCnt v => is_u16 v
  | Set_Length n => 0 <= n
  | _ => True
  end.

(** The values a setter accepts. *)
Definition set_accepts (op : PriSet) : bool :=
  match op with
  | Set_Version v => v <=? 7
  | Set_Type t => bool_decide (t ≠ CFE_MSG_Type_Invalid)
  | Set_SecHdr _ => true
  | Set_ApId a => a <=? 0x7FF
  | Set_SegFlag f => bool_decide (f ≠ CFE_MSG_SegFlag_Invalid)
  | Set_SeqCnt c => c <=? 0x3FFF
  | Set_Length n => (7 <=? n) && (n <=? 0x10006)
  end.

(** The value a setter stores, in place under its field's mask. *)
Definition set_raw (op : PriSet) : Z :=
  match op with
  | Set_Version v => v * 2 ^ 13
  | Set_Type t => if decide (t = CFE_MSG_Type_Cmd) then 0x1000 else 0
  | Set_SecHdr b => if b then 0x0800 else 0
  | Set_ApId a => a
  | Set_SegFlag f =>
      match f with
      | CFE_MSG_SegFlag_Continue => 0 | CFE_MSG_SegFlag_First => 0x4000
      | CFE_MSG_SegFlag_Last => 0x8000 | _ => 0xC000
      end
  | Set_SeqCnt c => c
  | Set_Length n => n - 7
  end.

Lemma fields_disjoint f g :
  f ≠ g → field_off f = field_off g → Z.land (field_mask f) (field_mask g) = 0.
Proof. by destruct f, g. Qed.

Lemma field_off_apart f g :
  field_off f ≠ field_off g →
  S (field_off f) ≠ field_off g ∧ field_off f ≠ S (field_off g).
Proof.
  intros. destruct f, g; cbn in *; unfold off_StreamId, off_Sequence, off_Length in *; lia.
Qed.

Lemma field_mask_u16 f : is_u16 (field_mask f).
Proof. destruct f; vm_compute; split; congruence. Qed.
#[export] Hint Resolve field_mask_u16 : cfs.

(** The set form every accepted setter has: its field's bits become [set_raw]. *)
Definition word_set (m m' : Message) (f : PriField) (r : Z) : Prop :=
  msg_wf 6 m' ∧ length m' = length m ∧ drop 6 m' = drop 6 m ∧
  be16 m' (field_off f) = Z.lor (Z.ldiff (be16 m (field_off f)) (field_mask f)) r ∧
  (∀ g, field_off f ≠ field_off g → be16 m' (field_off g) = be16 m (field_off g)).

Lemma field_off_lt f : (S (field_off f) < 6)%nat.
Proof. destruct f; cbn; unfold off_StreamId, off_Sequence, off_Length; lia. Qed.

Lemma drop6_insert (m : Message) i x : (i < 6)%nat → drop 6 (<[i := x]> m) = drop 6 m.
Proof. intros. by rewrite drop_insert_lt by lia. Qed.

Lemma word_set_field m f v :
  msg_wf 6 m → 0 <= v →
  word_set m (CFE_MSG_SetHeaderField m (field_off f) v (field_mask f)) f (Z.land v (field_mask f)).
Proof.
  intros Hwf Hv. pose proof Hwf as [Hm Hn]. pose proof (field_off_lt f).
  split; [by apply wf_set_field|]. split_and!.
  - unfold CFE_MSG_SetHeaderField. by rewrite !length_insert.
  - unfold CFE_MSG_SetHeaderField. by rewrite !drop6_insert by lia.
  - apply be16_set_field; auto with cfs; lia.
  - intros g Hg. destruct (field_off_apart f g Hg). by apply be16_set_field_other.
Qed.

Lemma word_set_insert m i x f r :
  msg_wf 6 m → is_u8 x → i = field_off f →
  be16 (<[i := x]> m) (field_off f) = Z.lor (Z.ldiff (be16 m (field_off f)) (field_mask f)) r →
  word_set m (<[i := x]> m) f r.
Proof.
  intros Hwf Hx -> E. pose proof (field_off_lt f).
  split; [by apply wf_insert|]. split_and!; auto using length_insert.
  - by rewrite drop6_insert by lia.
  - intros g Hg. destruct (field_off_apart f g Hg). by apply be16_insert_other.
Qed.

Lemma lor_ldiff_self w k : Z.lor (Z.ldiff w k) k = Z.lor w k.
Proof.
  Z_bits i Hi. rewrite !Z.lor_spec, Z.ldiff_spec.
  by destruct (Z.testbit w i), (Z.testbit k i).
Qed.

Lemma word_set_flag m f k (b : bool) :
  msg_wf 6 m → is_u8 k → field_mask f = Z.shiftl k 8 →
  word_set m (if b then byte_or m (field_off f) k else byte_clear m (field_off f) k) f
    (if b then field_mask f else 0).
Proof.
  intros Hwf Hk Hmask. pose proof Hwf as [Hm Hn]. pose proof (field_off_lt f).
  destruct b; apply word_set_insert; auto with cfs.
  - rewrite lor_ldiff_self, Hmask. apply be16_byte_or; auto with cfs. lia.
  - rewrite Z.lor_0_r, Hmask. apply be16_byte_clear; auto with cfs. lia.
Qed.

Lemma byte_of_land v : 0 <= v → is_u8 (Z.land v 0xFF).
Proof. intros. apply (land_small v 0xFF 8); lia. Qed.

Lemma bytes_of_u16 v :
  is_u16 v → is_u8 (Z.land (Z.shiftr v 8) 0xFF) ∧ is_u8 (Z.land v 0xFF).
Proof.
  intros Hv. split; apply byte_of_land; [apply Z.shiftr_nonneg|]; unfold is_u16 in Hv; lia.
Qed.

Lemma be16_bytes v : is_u16 v → Z.lor (Z.shiftl (Z.land (Z.shiftr v 8) 0xFF) 8) (Z.land v 0xFF) = v.
Proof.
  intros Hv. destruct (bytes_of_u16 v Hv). Z_bits i Hi. rewrite testbit_word by done.
  change 0xFF with (Z.ones 8).
  destruct (Z.ltb_spec i 8).
  - by rewrite Z.land_spec, Z.ones_spec_low, andb_true_r by lia.
  - destruct (Z.ltb_spec i 16); cbn [andb].
    + rewrite Z.land_spec, Z.ones_spec_low, andb_true_r, Z.shiftr_spec by lia.
      by replace (i - 8 + 8) with i by lia.
    + by rewrite (testbit_above v 16) by (unfold is_u16 in Hv; lia).
Qed.

Lemma word_set_length m n :
  msg_wf 6 m → is_u16 n →
  word_set m (<[S off_Length := Z.land n 0xFF]> (<[off_Length := Z.land (Z.shiftr n 8) 0xFF]> m))
    F_Length n.
Proof.
  intros Hwf Hn. pose proof Hwf as [Hm Hl].
  destruct (bytes_of_u16 n Hn).
  split; [by auto with cfs|]. split_and!.
  - by rewrite !length_insert.
  - by rewrite !drop6_insert by (unfold off_Length; lia).
  - cbn [field_off field_mask]. unfold be16 at 1. autorewrite with msg.
    rewrite be16_bytes by done. change 0xFFFF with (Z.ones 16).
    pose proof (be16_range m off_Length Hm) as Hr. unfold is_u16 in Hr.
    rewrite Z.ldiff_ones_r, Z.shiftr_div_pow2, Z.div_small by lia. by rewrite Z.shiftl_0_l.
  - intros g Hg. destruct (field_off_apart F_Length g Hg). cbn [field_off] in *.
    by rewrite !be16_insert_other by lia.
Qed.

Lemma land_shiftl_mask v n k : 0 <= n → Z.land (Z.shiftl v n) (Z.shiftl k n) = Z.shiftl (Z.land v k) n.
Proof. intros. by rewrite Z.shiftl_land. Qed.

(** An accepted setter stores [set_raw] in its field and nothing else. *)
Lemma pri_set_spec op m :
  msg_wf 6 m → set_typed op → set_accepts op = true →
  ∃ m', pri_set op (Some m) = (CFE_SUCCESS, Some m') ∧ word_set m m' (set_field op) (set_raw op).
Proof.
  intros Hwf Ht Ha. destruct op as [v|t|b|a|f|c|n]; cbn [pri_set set_field set_typed set_accepts] in *.
  - unfold CFE_MSG_SetHeaderVersion. change (Z.shiftr _ _) with 7.
    apply Z.leb_le in Ha. unfold is_u16 in Ht. replace (7 <? v) with false by lia.
    eexists; split; [done|].
    rewrite u16_small by (unfold is_u16, CFE_MSG_CCSDSVER_SHIFT; rewrite Z.shiftl_mul_pow2; lia).
    replace (set_raw (Set_Version v)) with
      (Z.land (Z.shiftl v CFE_MSG_CCSDSVER_SHIFT) (field_mask F_Version)).
    { apply (word_set_field m F_Version); [done|]. apply Z.shiftl_nonneg. lia. }
    change (field_mask F_Version) with (Z.shiftl (Z.ones 3) 13).
    unfold CFE_MSG_CCSDSVER_SHIFT. rewrite land_shiftl_mask, land_ones_small by lia.
    by rewrite Z.shiftl_mul_pow2.
  - eexists (if decide (t = CFE_MSG_Type_Cmd) then _ else _).
    split; [by destruct t|].
    pose proof (word_set_flag m F_Type 0x10 (bool_decide (t = CFE_MSG_Type_Cmd)) Hwf
      ltac:(vm_compute; split; congruence) eq_refl) as Hs. by destruct t.
  - eexists; split; [done|].
    exact (word_set_flag m F_SecHdr 0x08 b Hwf ltac:(vm_compute; split; congruence) eq_refl).
  - unfold CFE_MSG_SetApId. change CFE_MSG_APID_MASK with (Z.ones 11).
    unfold is_u16 in Ht. rewrite land_lnot_ones_0 by lia.
    apply Z.leb_le in Ha. replace (a <? 2 ^ 11) with true by lia. eexists; split; [done|].
    pose proof (word_set_field m F_ApId a Hwf ltac:(lia)) as Hs.
    change (field_mask F_ApId) with (Z.ones 11) in Hs.
    rewrite (land_ones_small a 11) in Hs by lia. exact Hs.
  - unfold CFE_MSG_SetSegmentationFlag.
    destruct f; [done|..]; eexists; (split; [done|]);
      match goal with |- context [CFE_MSG_SetHeaderField _ _ ?v _] =>
        exact (word_set_field m F_SegFlag v Hwf ltac:(vm_compute; congruence)) end.
  - unfold CFE_MSG_SetSequenceCount. change CFE_MSG_SEQCNT_MASK with (Z.ones 14).
    unfold is_u16 in Ht. rewrite land_lnot_ones_0 by lia.
    apply Z.leb_le in Ha. replace (c <? 2 ^ 14) with true by lia. eexists; split; [done|].
    pose proof (word_set_field m F_SeqCnt c Hwf ltac:(lia)) as Hs.
    change (field_mask F_SeqCnt) with (Z.ones 14) in Hs.
    rewrite (land_ones_small c 14) in Hs by lia. exact Hs.
  - apply andb_true_iff in Ha as [?%Z.leb_le ?%Z.leb_le].
    unfold CFE_MSG_SetSize, CFE_MSG_SIZE_OFFSET.
    replace ((n <? 7) || (65535 + 7 <? n)) with false by lia.
    eexists; split; [done|]. apply (word_set_length m (n - 7)); [done|]. unfold is_u16. lia.
Qed.

Lemma pri_set_reject op m :
  set_typed op → set_accepts op = false →
  pri_set op (Some m) = (CFE_MSG_BAD_ARGUMENT, Some m).
Proof.
  intros Ht Ha. destruct op as [v|t|b|a|f|c|n]; cbn [pri_set set_field set_typed set_accepts] in *.
  - unfold CFE_MSG_SetHeaderVersion. change (Z.shiftr _ _) with 7. by replace (7 <? v) with true by lia.
  - by destruct t.
  - done.
  - unfold CFE_MSG_SetApId. change CFE_MSG_APID_MASK with (Z.ones 11).
    unfold is_u16 in Ht. rewrite land_lnot_ones_0 by lia. by replace (a <? 2 ^ 11) with false by lia.
  - by destruct f.
  - unfold CFE_MSG_SetSequenceCount. change CFE_MSG_SEQCNT_MASK with (Z.ones 14).
    unfold is_u16 in Ht. rewrite land_lnot_ones_0 by lia. by replace (c <? 2 ^ 14) with false by lia.
  - unfold CFE_MSG_SetSize, CFE_MSG_SIZE_OFFSET.
    by replace ((n <? 7) || (65535 + 7 <? n)) with true by lia.
Qed.

(** What the getter of a setter's field reads. *)
Definition pri_reads (op : PriSet) (m : Message) : Prop :=
  match op with
  | Set_Version v => ∀ d, CFE_MSG_GetHeaderVersion (Some m) (Some d) = (CFE_SUCCESS, Some v)
  | Set_Type t => ∀ d, CFE_MSG_GetType (Some m) (Some d) = (CFE_SUCCESS, Some t)
  | Set_SecHdr b => ∀ d, CFE_MSG_GetHasSecondaryHeader (Some m) (Some d) = (CFE_SUCCESS, Some b)
  | Set_ApId a => ∀ d, CFE_MSG_GetApId (Some m) (Some d) = (CFE_SUCCESS, Some a)
  | Set_SegFlag f => ∀ d, CFE_MSG_GetSegmentationFlag (Some m) (Some d) = (CFE_SUCCESS, Some f)
  | Set_SeqCnt c => ∀ d, CFE_MSG_GetSequenceCount (Some m) (Some d) = (CFE_SUCCESS, Some c)
  | Set_Length n => ∀ d, CFE_MSG_GetSize (Some m) (Some d) = (CFE_SUCCESS, Some n)
  end.

Lemma get_field_raw m f :
  Forall is_u8 m → CFE_MSG_GetHeaderField m (field_off f) (field_mask f) = raw f m.
Proof.
  intros Hm. unfold CFE_MSG_GetHeaderField. apply u16_small.
  apply (land_small _ (field_mask f) 16); [lia| |apply field_mask_u16].
  apply (be16_range m (field_off f) Hm).
Qed.

Lemma high_byte_flag m f k :
  Forall is_u8 m → is_u8 k → field_mask f = Z.shiftl k 8 →
  (Z.land (m !!! field_off f) k =? 0) = (raw f m =? 0).
Proof.
  intros Hm Hk Hmask. unfold raw, be16. rewrite Hmask, Z.land_lor_distr_l.
  rewrite land_shiftl_mask by lia.
  rewrite (Z.land_comm (m !!! S _)), word_disjoint, Z.lor_0_r by auto with cfs.
  rewrite Z.shiftl_mul_pow2 by lia. lia.
Qed.

Lemma raw_word_set m m' f r : word_set m m' f r → Z.land r (field_mask f) = r → raw f m' = r.
Proof.
  intros (_ & _ & _ & E & _) Hr. unfold raw. rewrite E, <- Hr at 1. rewrite land_lor_ldiff_same. done.
Qed.

Lemma raw_word_set_other m m' f g r :
  word_set m m' f r → Z.land r (field_mask f) = r → f ≠ g → raw g m' = raw g m.
Proof.
  intros (_ & _ & _ & E & Eo) Hr Hfg. unfold raw.
  destruct (decide (field_off f = field_off g)) as [Eq|Ne].
  - rewrite <- Eq, E, <- Hr. apply land_lor_ldiff_other. by apply fields_disjoint.
  - by rewrite Eo.
Qed.

Lemma set_raw_masked op :
  set_typed op → set_accepts op = true →
  Z.land (set_raw op) (field_mask (set_field op)) = set_raw op.
Proof.
  intros Ht Ha. destruct op as [v|t|b|a|f|c|n]; cbn [set_field set_typed set_accepts set_raw] in *.
  - unfold is_u16 in Ht. rewrite <- Z.shiftl_mul_pow2 by lia.
    change (field_mask F_Version) with (Z.shiftl (Z.ones 3) 13).
    by rewrite land_shiftl_mask, land_ones_small by lia.
  - by destruct t.
  - by destruct b.
  - apply (land_ones_small a 11); unfold is_u16 in Ht; lia.
  - by destruct f.
  - apply (land_ones_small c 14); unfold is_u16 in Ht; lia.
  - apply (land_ones_small (n - 7) 16); lia.
Qed.

(** Rewrites a getter's access [G], stated on [field_off] and [field_mask], and
    then the field's value [E]. *)
Ltac use_raw G E :=
  let H := fresh in pose proof G as H; cbn [field_off field_mask] in H; rewrite H, E; clear H.

Lemma raw_reads op m :
  Forall is_u8 m → set_typed op → set_accepts op = true →
  raw (set_field op) m = set_raw op → pri_reads op m.
Proof.
  intros Hm Ht Ha E.
  destruct op as [v|t|b|a|f|c|n]; cbn [set_field set_typed set_accepts pri_reads] in *; intros d.
  - unfold CFE_MSG_GetHeaderVersion. use_raw (get_field_raw m F_Version Hm) E.
    cbn [set_raw]. unfold CFE_MSG_CCSDSVER_SHIFT, is_u16 in *.
    rewrite Z.shiftr_div_pow2, Z.div_mul, u16_small by (unfold is_u16; lia). done.
  - unfold CFE_MSG_GetType. change (Z.shiftr CFE_MSG_TYPE_MASK 8) with 0x10.
    use_raw (high_byte_flag m F_Type 0x10 Hm ltac:(vm_compute; split; congruence) eq_refl) E.
    by destruct t.
  - unfold CFE_MSG_GetHasSecondaryHeader. change (Z.shiftr CFE_MSG_SHDR_MASK 8) with 0x08.
    use_raw (high_byte_flag m F_SecHdr 0x08 Hm ltac:(vm_compute; split; congruence) eq_refl) E.
    by destruct b.
  - unfold CFE_MSG_GetApId. by use_raw (get_field_raw m F_ApId Hm) E.
  - unfold CFE_MSG_GetSegmentationFlag. use_raw (get_field_raw m F_SegFlag Hm) E.
    by destruct f.
  - unfold CFE_MSG_GetSequenceCount. by use_raw (get_field_raw m F_SeqCnt Hm) E.
  - unfold CFE_MSG_GetSize. rewrite word_add by auto with cfs.
    fold (be16 m off_Length). unfold raw in E. cbn [field_off field_mask set_raw] in E.
    rewrite (land_ones_small _ 16) in E by (lia || apply (be16_range m off_Length Hm)).
    rewrite E. unfold CFE_MSG_SIZE_OFFSET. do 2 f_equal. lia.
Qed.

(** [C38] Every primary header setter, on every well-formed message: a value in
    range is stored, the field's getter then returns it, every other field, every
    byte after the primary header and the length of the message are as before; a
    value out of range is refused with CFE_MSG_BAD_ARGUMENT and the message is
    left unchanged. *)
Theorem pri_set_get_frame op m (Hwf : msg_wf 6 m) (Ht : set_typed op) :
  if set_accepts op then
    ∃ m', pri_set op (Some m) = (CFE_SUCCESS, Some m') ∧
      msg_wf 6 m' ∧ length m' = length m ∧ drop 6 m' = drop 6 m ∧
      pri_reads op m' ∧ ∀ g, g ≠ set_field op → raw g m' = raw g m
  else pri_set op (Some m) = (CFE_MSG_BAD_ARGUMENT, Some m).
Proof.
  destruct (set_accepts op) eqn:Ha; [|by apply pri_set_reject].
  destruct (pri_set_spec op m Hwf Ht Ha) as (m' & E & Hs).
  pose proof Hs as (Hwf' & Hl & Hd & _). pose proof Hwf' as [Hm' _].
  pose proof (set_raw_masked op Ht Ha) as Hr.
  exists m'. split_and!; auto.
  - apply raw_reads; auto. by eapply raw_word_set.
  - intros g Hg. by eapply raw_word_set_other.
Qed.

Definition pkt0 : Message := [0x18; 0x06; 0xC0; 0x00; 0x00; 0x03; 0x02; 0x00; 0x11; 0x22].

Lemma pri_set_get_frame_witness :
  msg_wf 6 pkt0 ∧ set_typed (Set_SeqCnt 0x3FFF) ∧
  if set_accepts (Set_SeqCnt 0x3FFF) then
    ∃ m', pri_set (Set_SeqCnt 0x3FFF) (Some pkt0) = (CFE_SUCCESS, Some m') ∧
      msg_wf 6 m' ∧ length m' = length pkt0 ∧ drop 6 m' = drop 6 pkt0 ∧
      pri_reads (Set_SeqCnt 0x3FFF) m' ∧ ∀ g, g ≠ set_field (Set_SeqCnt 0x3FFF) → raw g m' = raw g pkt0
  else pri_set (Set_SeqCnt 0x3FFF) (Some pkt0) = (CFE_MSG_BAD_ARGUMENT, Some pkt0).
Proof.
  assert (msg_wf 6 pkt0) as Hwf by (split; [repeat constructor; cbn; lia | cbn; lia]).
  assert (set_typed (Set_SeqCnt 0x3FFF)) as Ht by (cbn; unfold is_u16; lia).
  split; [exact Hwf|]. split; [exact Ht|]. exact (pri_set_get_frame _ _ Hwf Ht).
Defined.

(** ** Checksum *)

Lemma chksum_loop_acc m i n c : chksum_loop m i n c = Z.lxor c (chksum_loop m i n 0).
Proof.
  revert i c. induction n as [|n IH]; intros i c; cbn [chksum_loop].
  - by rewrite Z.lxor_0_r.
  - rewrite (IH (S i) (Z.lxor c _)), (IH (S i) (Z.lxor 0 _)). by rewrite Z.lxor_0_l, Z.lxor_assoc.
Qed.

Lemma chksum_loop_insert_out m i n c j x :
  ¬ (i ≤ j < i + n)%nat → chksum_loop (<[j := x]> m) i n c = chksum_loop m i n c.
Proof.
  revert i c. induction n as [|n IH]; intros i c Hj; cbn [chksum_loop]; [done|].
  rewrite IH by lia. by rewrite lookup_total_insert_ne' by lia.
Qed.

(** Replacing one summed byte changes the checksum by the difference of the bytes. *)
Lemma chksum_loop_insert m i n c j x :
  (i ≤ j < i + n)%nat → (j < length m)%nat →
  chksum_loop (<[j := x]> m) i n c = Z.lxor (chksum_loop m i n c) (Z.lxor (m !!! j) x).
Proof.
  revert i c. induction n as [|n IH]; intros i c Hj Hl; [lia|]. cbn [chksum_loop].
  destruct (decide (i = j)) as [->|Hne].
  - rewrite chksum_loop_insert_out by lia. rewrite lookup_total_insert_eq' by done.
    rewrite (chksum_loop_acc m (S j) n (Z.lxor c x)), (chksum_loop_acc m (S j) n (Z.lxor c _)).
    Z_bits b Hb. rewrite !Z.lxor_spec.
    by destruct (Z.testbit c b), (Z.testbit x b), (Z.testbit (m !!! j) b),
      (Z.testbit (chksum_loop m (S j) n 0) b).
  - rewrite lookup_total_insert_ne' by done. apply IH; [lia|done].
Qed.

Lemma chksum_loop_u8 m i n c : Forall is_u8 m → is_u8 c → is_u8 (chksum_loop m i n c).
Proof.
  intros Hm. revert i c. induction n as [|n IH]; intros i c Hc; cbn [chksum_loop]; [done|].
  apply IH. apply (lxor_small _ _ 8); [lia|done|by apply lookup_total_u8].
Qed.

(** The size the header declares, as CFE_MSG_GetSize reads it. *)
Definition msg_size (m : Message) : Z := default 0 (CFE_MSG_GetSize (Some m) (Some 0)).2.

Lemma msg_size_insert m j x : j ≠ 4%nat → j ≠ 5%nat → msg_size (<[j := x]> m) = msg_size m.
Proof.
  intros. unfold msg_size, CFE_MSG_GetSize. cbn [snd default].
  by rewrite !lookup_total_insert_ne' by (unfold off_Length; lia).
Qed.

Lemma sechdr_is_insert m j x t : j ≠ 0%nat → sechdr_is (<[j := x]> m) t = sechdr_is m t.
Proof.
  intros. unfold sechdr_is, CFE_MSG_GetHasSecondaryHeader, CFE_MSG_GetType. cbn [snd default].
  by rewrite !lookup_total_insert_ne' by (unfold off_StreamId; lia).
Qed.

Lemma compute_insert m j x :
  j ≠ 4%nat → j ≠ 5%nat → Z.of_nat j < msg_size m → msg_size m <= Z.of_nat (length m) →
  CFE_MSG_ComputeCheckSum (<[j := x]> m) =
    Z.lxor (CFE_MSG_ComputeCheckSum m) (Z.lxor (m !!! j) x).
Proof.
  intros H4 H5 Hj Hl. unfold CFE_MSG_ComputeCheckSum.
  fold (msg_size (<[j := x]> m)) (msg_size m). rewrite msg_size_insert by done.
  apply chksum_loop_insert; lia.
Qed.

(** [C39] Generating a command's checksum makes CFE_MSG_ValidateChecksum accept the
    message, changing no byte but the checksum; and after that no change of a single
    byte the checksum covers is accepted, the two length bytes apart, which change what
    is covered: the checksum is found wrong, or, when the byte makes it something else
    than a command with a secondary header, the message is refused for its type. *)
Theorem checksum_detects h m
    (Hm : Forall is_u8 m) (Hc : sechdr_is m CFE_MSG_Type_Cmd = true)
    (Hk : Z.of_nat (off_Checksum h) < msg_size m) (Hl : msg_size m <= Z.of_nat (length m)) :
  ∃ m', CFE_MSG_GenerateChecksum h (Some m) = (CFE_SUCCESS, Some m') ∧
    (∀ i, i ≠ off_Checksum h → m' !! i = m !! i) ∧
    (∀ d, CFE_MSG_ValidateChecksum (Some m') (Some d) = (CFE_SUCCESS, Some true)) ∧
    (∀ j x d, j ≠ 4%nat → j ≠ 5%nat → Z.of_nat j < msg_size m → x ≠ m' !!! j →
       CFE_MSG_ValidateChecksum (Some (<[j := x]> m')) (Some d) =
         if sechdr_is (<[j := x]> m') CFE_MSG_Type_Cmd then (CFE_SUCCESS, Some false) else (CFE_MSG_WRONG_MSG_TYPE, Some d)).
Proof.
  set (k := off_Checksum h) in *.
  assert (k ≠ 0 ∧ k ≠ 4 ∧ k ≠ 5)%nat as (Hk0 & Hk4 & Hk5) by (unfold k, off_Checksum; destruct h; cbn; lia).
  set (m0 := <[k := 0]> m). set (c := CFE_MSG_ComputeCheckSum m0).
  assert (is_u8 c) as Hcb.
  { apply chksum_loop_u8; [|unfold is_u8; lia]. apply Forall_u8_insert; [done|unfold is_u8; lia]. }
  set (m' := <[k := u8 c]> m0).
  assert (msg_size m' = msg_size m) as Hs by (unfold m', m0; by rewrite !msg_size_insert).
  assert (length m' = length m) as Hlen by (unfold m', m0; by rewrite !length_insert).
  assert (CFE_MSG_ComputeCheckSum m' = 0) as H0.
  { unfold m', m0 in *. rewrite compute_insert; rewrite ?msg_size_insert, ?length_insert; try done; try lia.
    fold c. rewrite lookup_total_insert_eq' by lia. rewrite u8_small by done.
    by rewrite Z.lxor_0_l, Z.lxor_nilpotent. }
  exists m'. split_and!.
  - unfold CFE_MSG_GenerateChecksum. by rewrite Hc.
  - intros i Hi. unfold m', m0. by rewrite !list_lookup_insert_ne.
  - intros d. unfold CFE_MSG_ValidateChecksum, m', m0. rewrite !sechdr_is_insert, Hc by done.
    fold m0 m'. by rewrite H0.
  - intros j x d H4 H5 Hj Hx. unfold CFE_MSG_ValidateChecksum. destruct (sechdr_is (<[j := x]> m') CFE_MSG_Type_Cmd); [|done].
    rewrite compute_insert, H0, Z.lxor_0_l by (rewrite ?Hs, ?Hlen; lia).
    do 2 f_equal. apply Z.eqb_neq. intros E%Z.lxor_eq. congruence.
Qed.

Lemma checksum_detects_witness :
  Forall is_u8 pkt0 ∧ sechdr_is pkt0 CFE_MSG_Type_Cmd = true ∧
  ∃ m', CFE_MSG_GenerateChecksum Hdr_Pri (Some pkt0) = (CFE_SUCCESS, Some m') ∧
    CFE_MSG_ValidateChecksum (Some m') (Some false) = (CFE_SUCCESS, Some true) ∧
    CFE_MSG_ValidateChecksum (Some (<[9%nat := 0x23]> m')) (Some false) = (CFE_SUCCESS, Some false).
Proof.
  assert (Forall is_u8 pkt0) as Hm by (repeat constructor; cbn; lia).
  assert (sechdr_is pkt0 CFE_MSG_Type_Cmd = true) as Hc by reflexivity.
  split; [exact Hm|]. split; [exact Hc|].
  destruct (checksum_detects Hdr_Pri pkt0 Hm Hc ltac:(vm_compute; congruence)
    ltac:(vm_compute; congruence)) as (m' & E & Hf & Hv & Hd).
  exists m'. split; [exact E|]. split; [apply Hv|].
  assert (m' = [0x18; 0x06; 0xC0; 0x00; 0x00; 0x03; 0x02; 0x13; 0x11; 0x22]) as ->
    by (vm_compute in E; congruence).
  apply (Hd 9%nat 0x23 false); vm_compute; congruence.
Defined.

(** ** Message identifiers *)

Definition hdr_of (v : MsgIdVersion) : nat := match v with MsgId_V1 => 6%nat | MsgId_V2 => 10%nat end.

Lemma testbit_land_pow2 v n : 0 <= n → (Z.land v (2 ^ n) =? 0) = negb (Z.testbit v n).
Proof.
  intros Hn. destruct (Z.testbit v n) eqn:E; cbn.
  - apply Z.eqb_neq. intros H0. apply (f_equal (λ z, Z.testbit z n)) in H0.
    rewrite Z.land_spec, Z.pow2_bits_true, E, Z.bits_0 in H0 by lia. done.
  - apply Z.eqb_eq. Z_bits i Hi. rewrite Z.land_spec, Z.bits_0.
    destruct (decide (i = n)) as [->|Hne]; [by rewrite E|].
    by rewrite Z.pow2_bits_false, andb_false_r by lia.
Qed.

Lemma msgidv1_get_set m id :
  Forall is_u8 m → (6 ≤ length m)%nat → 0 <= id <= CFE_PLATFORM_SB_HIGHEST_VALID_MSGID →
  ∃ m', MsgIdV1.CFE_MSG_SetMsgId (Some m) id = (CFE_SUCCESS, Some m') ∧
    msg_wf 6 m' ∧ drop 2 m' = drop 2 m ∧
    ∀ d, MsgIdV1.CFE_MSG_GetMsgId (Some m') (Some d) = (CFE_SUCCESS, Some id).
Proof.
  intros Hm Hl Hid. unfold CFE_PLATFORM_SB_HIGHEST_VALID_MSGID in *.
  unfold MsgIdV1.CFE_MSG_SetMsgId, CFE_PLATFORM_SB_HIGHEST_VALID_MSGID.
  replace (0x1FFF <? id) with false by lia. eexists; split; [done|]. split_and!.
  - apply wf_insert; [apply wf_insert|]; auto with cfs. by split.
  - by rewrite !drop_insert_lt by (unfold off_StreamId; lia).
  - intros d. unfold MsgIdV1.CFE_MSG_GetMsgId. autorewrite with msg.
    unfold u8. rewrite Z.shiftl_mul_pow2, Z.shiftr_div_pow2 by lia.
    rewrite u32_small; [do 2 f_equal|unfold is_u32]; Z.div_mod_to_equations; lia.
Qed.

Definition v2_type (id : Z) : CFE_MSG_Type :=
  if Z.testbit id 7 then CFE_MSG_Type_Cmd else CFE_MSG_Type_Tlm.

Lemma v2_bytes_id b1 id :
  is_u8 b1 → 0 <= id <= 0x1FFF →
  Z.lor (if Z.testbit id 7
         then Z.lor (Z.land (u8 (Z.lor (Z.land b1 (Z.lnot 0x7F)) (Z.land id 0x7F))) 0x7F) 0x80
         else Z.land (u8 (Z.lor (Z.land b1 (Z.lnot 0x7F)) (Z.land id 0x7F))) 0x7F)
        (Z.land (Z.shiftl (u8 (Z.shiftr (Z.land id 0xFF00) 8)) 8) 0xFF00) = id.
Proof.
  intros Hb Hid. set (lo := u8 _). set (hi := u8 (Z.shiftr _ _)).
  assert (Z.land lo 0x7F = Z.land id 0x7F) as ->.
  { unfold lo. Z_bits i Hi. change 0x7F with (Z.ones 7) in *. unfold u8.
    rewrite !Z.land_spec, testbit_mod_pow2, Z.lor_spec, !Z.land_spec, Z.lnot_spec by lia.
    destruct (Z.ltb_spec i 8); [cbn|by rewrite Z.ones_spec_high, !andb_false_r by lia].
    by destruct (Z.testbit b1 i), (Z.testbit id i), (Z.testbit (Z.ones 7) i). }
  assert (Z.land (Z.shiftl hi 8) 0xFF00 = Z.land id 0xFF00) as ->.
  { change 0xFF00 with (Z.shiftl (Z.ones 8) 8). rewrite land_shiftl_mask by lia.
    unfold hi. change 0xFF00 with (Z.shiftl (Z.ones 8) 8).
    Z_bits i Hi. rewrite Z.shiftl_spec, !Z.land_spec, Z.shiftl_spec by lia.
    destruct (Z.ltb_spec i 8); [by rewrite !(Z.testbit_neg_r _ (i - 8)), !andb_false_r by lia|].
    unfold u8. rewrite testbit_mod_pow2, Z.shiftr_spec, Z.land_spec, Z.shiftl_spec by lia.
    replace (i - 8 + 8) with i by lia.
    destruct (Z.ltb_spec (i - 8) 8); [|by rewrite Z.ones_spec_high, !andb_false_r by lia].
    by rewrite Z.ones_spec_low, !andb_true_r by lia. }
  assert (Z.land id 0xFFFF = id) as E by (apply (land_ones_small id 16); lia).
  rewrite <- E at 5. change 0xFFFF with (Z.lor (Z.lor 0x7F 0x80) 0xFF00).
  rewrite !Z.land_lor_distr_r. f_equal.
  pose proof (testbit_land_pow2 id 7 ltac:(lia)) as Ht. change (2 ^ 7) with 0x80 in Ht.
  destruct (Z.testbit id 7) eqn:Et; cbn [negb] in Ht.
  - f_equal. Z_bits i Hi. rewrite Z.land_spec. change 0x80 with (2 ^ 7).
    destruct (decide (i = 7)) as [->|]; [by rewrite Et|]. by rewrite Z.pow2_bits_false, andb_false_r by lia.
  - apply Z.eqb_eq in Ht. by rewrite Ht, Z.lor_0_r.
Qed.

Lemma v2_set_type_byte b :
  Z.land (u8 (Z.lor b 0x10)) 0x10 = 0x10 ∧ Z.land (u8 (Z.land b (Z.lnot 0x10))) 0x10 = 0.
Proof.
  change 0x10 with (2 ^ 4). unfold u8. split; Z_bits i Hi;
    rewrite Z.land_spec, testbit_mod_pow2 by lia;
    rewrite ?Z.lor_spec, ?Z.land_spec, ?Z.lnot_spec, ?Z.bits_0 by lia;
    (destruct (decide (i = 4)) as [->|];
      [rewrite Z.pow2_bits_true by lia | rewrite Z.pow2_bits_false by lia]).
  all: cbn; rewrite ?orb_true_r, ?andb_false_r; done.
Qed.

Lemma msgidv2_get_set m id :
  Forall is_u8 m → (10 ≤ length m)%nat → 0 <= id <= CFE_PLATFORM_SB_HIGHEST_VALID_MSGID →
  ∃ m', MsgIdV2.CFE_MSG_SetMsgId (Some m) id = (CFE_SUCCESS, Some m') ∧
    msg_wf 10 m' ∧ length m' = length m ∧
    (∀ i, i ∉ [0; 1; 7]%nat → m' !! i = m !! i) ∧
    ∀ d, MsgIdV2.CFE_MSG_GetMsgId (Some m') (Some d) = (CFE_SUCCESS, Some id).
Proof.
  intros Hm Hl Hid. unfold CFE_PLATFORM_SB_HIGHEST_VALID_MSGID in Hid.
  unfold MsgIdV2.CFE_MSG_SetMsgId, CFE_PLATFORM_SB_HIGHEST_VALID_MSGID.
  replace (0x1FFF <? id) with false by lia.
  set (m1 := <[S off_Subsystem := _]> _).
  assert (msg_wf 10 m1) as Hm1 by (apply wf_insert; [apply wf_insert|]; auto with cfs; by split).
  assert (length m1 = length m) as Hl1 by (unfold m1; by rewrite !length_insert).
  pose proof (testbit_land_pow2 id 7 ltac:(lia)) as Ht.
  change (2 ^ 7) with MsgIdV2.CFE_MSG_MSGID_TYPE_MASK in Ht. rewrite Ht.
  set (f := λ b, if Z.testbit id 7 then u8 (Z.lor b 0x10) else u8 (Z.land b (Z.lnot 0x10))).
  exists (<[off_StreamId := f (m1 !!! off_StreamId)]> m1).
  assert (is_u8 (f (m1 !!! off_StreamId))) by (unfold f; destruct Z.testbit; auto with cfs).
  split_and!; [by unfold f; destruct Z.testbit|auto with cfs|by rewrite length_insert| |].
  - intros i Hi. unfold m1. rewrite !list_lookup_insert_ne; [done| | |];
      intros <-; apply Hi; rewrite !elem_of_cons; auto.
  - intros d. unfold MsgIdV2.CFE_MSG_GetMsgId, CFE_MSG_GetType. cbn [snd].
    unfold m1. autorewrite with msg.
    change (Z.shiftr CFE_MSG_TYPE_MASK 8) with 0x10.
    do 2 f_equal. etrans; [|apply (v2_bytes_id (m !!! 1%nat) id); auto with cfs].
    unfold f. destruct (v2_set_type_byte (m !!! off_StreamId)) as [E1 E2].
    by destruct (Z.testbit id 7); [rewrite E1|rewrite E2].
Qed.

(** Message identifiers round trip in both header formats: setting an
    identifier up to the highest valid one succeeds, changes no byte outside the
    stream id bytes (and, in version 2, the subsystem byte), and reading gives it
    back; a greater identifier is refused and the message is left alone. *)
Theorem msgid_roundtrip v m id (Hm : msg_wf (hdr_of v) m) (Hid : is_u32 id) :
  if id <=? CFE_PLATFORM_SB_HIGHEST_VALID_MSGID then
    ∃ m', CFE_MSG_SetMsgId v (Some m) id = (CFE_SUCCESS, Some m') ∧
      msg_wf (hdr_of v) m' ∧ (∀ i, i ∉ [0; 1; 7]%nat → m' !! i = m !! i) ∧
      ∀ d, CFE_MSG_GetMsgId v (Some m') (Some d) = (CFE_SUCCESS, Some id)
  else CFE_MSG_SetMsgId v (Some m) id = (CFE_MSG_BAD_ARGUMENT, Some m).
Proof.
  destruct Hm as [Hm Hl]. destruct (Z.leb_spec id CFE_PLATFORM_SB_HIGHEST_VALID_MSGID).
  - assert (0 <= id <= CFE_PLATFORM_SB_HIGHEST_VALID_MSGID) as Hr by (unfold is_u32 in *; lia).
    destruct v.
    + destruct (msgidv1_get_set m id Hm Hl Hr) as (m' & E & Hw & Hd & Hg).
      exists m'. split_and!; try done. intros i Hi.
      assert (∃ k, i = (2 + k)%nat) as [k ->].
      { exists (i - 2)%nat. rewrite !elem_of_cons in Hi. lia. }
      by rewrite <- !lookup_drop, Hd.
    + destruct (msgidv2_get_set m id Hm Hl Hr) as (m' & E & Hw & _ & Hf & Hg). eauto.
  - destruct v; cbn [CFE_MSG_SetMsgId]; unfold MsgIdV1.CFE_MSG_SetMsgId, MsgIdV2.CFE_MSG_SetMsgId;
      by replace (CFE_PLATFORM_SB_HIGHEST_VALID_MSGID <? id) with true by lia.
Qed.

Lemma msgid_roundtrip_witness :
  msg_wf 10 pkt0 ∧ ∃ m', CFE_MSG_SetMsgId MsgId_V2 (Some pkt0) 0x1283 = (CFE_SUCCESS, Some m') ∧
    CFE_MSG_GetMsgId MsgId_V2 (Some m') (Some 0) = (CFE_SUCCESS, Some 0x1283).
Proof.
  assert (msg_wf (hdr_of MsgId_V2) pkt0) as Hwf by (split; [repeat constructor; cbn; lia | cbn; lia]).
  split; [exact Hwf|].
  destruct (msgid_roundtrip MsgId_V2 pkt0 0x1283 Hwf ltac:(unfold is_u32; lia)) as (m' & E & _ & _ & Hg).
  exists m'. split; [exact E | apply Hg].
Defined.

(** A MsgId above the highest valid one leaves CFE_MSG_GetTypeFromMsgId's local
    message uninitialised: it still reports success, and the type it returns is
    whatever that memory held. *)
Theorem GetTypeFromMsgId_invalid v id
    (Hid : CFE_PLATFORM_SB_HIGHEST_VALID_MSGID < id) :
  ∀ t, t ≠ CFE_MSG_Type_Invalid →
    ∃ msg, msg_wf 10 msg ∧
      CFE_MSG_GetTypeFromMsgId v msg id (Some CFE_MSG_Type_Invalid) = (CFE_SUCCESS, Some t).
Proof.
  intros t Ht. exists ((if decide (t = CFE_MSG_Type_Cmd) then 0x10 else 0) :: replicate 9 0).
  split; [split; [|done]; constructor; [destruct decide; unfold is_u8; lia|];
    apply Forall_replicate; unfold is_u8; lia|].
  unfold CFE_MSG_GetTypeFromMsgId.
  assert (∀ m, CFE_MSG_SetMsgId v (Some m) id = (CFE_MSG_BAD_ARGUMENT, Some m)) as ->.
  { intros m. destruct v; cbn [CFE_MSG_SetMsgId]; unfold MsgIdV1.CFE_MSG_SetMsgId, MsgIdV2.CFE_MSG_SetMsgId;
      by replace (CFE_PLATFORM_SB_HIGHEST_VALID_MSGID <? id) with true by lia. }
  by destruct t.
Qed.

Lemma GetTypeFromMsgId_invalid_witness :
  ∃ msg, msg_wf 10 msg ∧
    CFE_MSG_GetTypeFromMsgId MsgId_V1 msg 0x2000 (Some CFE_MSG_Type_Invalid) =
      (CFE_SUCCESS, Some CFE_MSG_Type_Cmd).
Proof. apply (GetTypeFromMsgId_invalid MsgId_V1 0x2000); [reflexivity | congruence]. Defined.

(** ** Initialisation *)

Definition init_header (h : HdrFormat) (v : MsgIdVersion) (SpacecraftId id size : Z) : Message :=
  (match v with
   | MsgId_V1 => [id / 2 ^ 8; id mod 2 ^ 8]
   | MsgId_V2 => [if Z.testbit id 7 then 0x18 else 0x08; id mod 2 ^ 7]
   end ++ [0xC0; 0; (size - 7) / 2 ^ 8; (size - 7) mod 2 ^ 8]) ++
  match h with
  | Hdr_Pri => []
  | Hdr_PriExt =>
      [0x0C; match v with MsgId_V1 => 0 | MsgId_V2 => id / 2 ^ 8 end;
       u16 SpacecraftId / 2 ^ 8; SpacecraftId mod 2 ^ 8]
  end.

Lemma land_FF a : Z.land a 0xFF = a mod 2 ^ 8.
Proof. change 0xFF with (Z.ones 8). by rewrite Z.land_ones. Qed.

Lemma div_byte_small a : 0 <= a < 2 ^ 16 → (a / 2 ^ 8) mod 2 ^ 8 = a / 2 ^ 8.
Proof. intros. apply Z.mod_small. Z.div_mod_to_equations. lia. Qed.

Lemma initdefault_pri tl :
  CFE_MSG_InitDefaultHdr Hdr_Pri 0 (Some (replicate 6 0 ++ tl)) =
    Some ([8; 0; 0xC0; 0; 0; 0] ++ tl).
Proof. reflexivity. Qed.

Lemma initdefault_ext sc tl :
  CFE_MSG_InitDefaultHdr Hdr_PriExt sc (Some (replicate 10 0 ++ tl)) =
    Some ([8; 0; 0xC0; 0; 0; 0; 0x0C; 0; u16 sc / 2 ^ 8; sc mod 2 ^ 8] ++ tl).
Proof.
  transitivity (Some ([8; 0; 0xC0; 0; 0; 0; 0x0C; 0; Z.land (Z.shiftr (u16 sc) 8) 0xFF;
                       Z.land (u16 sc) 0xFF] ++ tl)); [reflexivity|].
  rewrite !land_FF, Z.shiftr_div_pow2, div_byte_small by (try apply u16_range; lia).
  assert (u16 sc mod 2 ^ 8 = sc mod 2 ^ 8) as ->; [|done].
  Z_bits i Hi. unfold u16. rewrite !testbit_mod_pow2 by lia.
  by destruct (Z.ltb_spec i 8); [replace (i <? 16) with true by lia|].
Qed.

Lemma setmsgid_v2_bytes m id :
  0 <= id <= CFE_PLATFORM_SB_HIGHEST_VALID_MSGID →
  ∀ b2 b3 b4 b5 b6 b7 tl, m = 8 :: 0 :: b2 :: b3 :: b4 :: b5 :: b6 :: b7 :: tl →
  MsgIdV2.CFE_MSG_SetMsgId (Some m) id =
    (CFE_SUCCESS, Some ((if Z.testbit id 7 then 0x18 else 0x08) :: id mod 2 ^ 7 ::
                        b2 :: b3 :: b4 :: b5 :: b6 :: id / 2 ^ 8 :: tl)).
Proof.
  intros Hid b2 b3 b4 b5 b6 b7 tl ->. unfold CFE_PLATFORM_SB_HIGHEST_VALID_MSGID in Hid.
  unfold MsgIdV2.CFE_MSG_SetMsgId, CFE_PLATFORM_SB_HIGHEST_VALID_MSGID.
  replace (0x1FFF <? id) with false by lia.
  pose proof (testbit_land_pow2 id 7 ltac:(lia)) as Ht.
  change (2 ^ 7) with MsgIdV2.CFE_MSG_MSGID_TYPE_MASK in Ht. rewrite Ht.
  assert (Z.land id MsgIdV2.CFE_MSG_MSGID_APID_MASK = id mod 2 ^ 7) as ->.
  { change MsgIdV2.CFE_MSG_MSGID_APID_MASK with (Z.ones 7). by rewrite Z.land_ones. }
  assert (Z.shiftr (Z.land id MsgIdV2.CFE_MSG_MSGID_SUBSYS_MASK) 8 = id / 2 ^ 8) as ->.
  { rewrite Z.shiftr_land. change (Z.shiftr _ 8) with (Z.ones 8) at 2.
    rewrite Z.land_ones, Z.shiftr_div_pow2, div_byte_small by lia. done. }
  assert (is_u8 (id mod 2 ^ 7) ∧ is_u8 (id / 2 ^ 8)) as [H1 H2].
  { unfold is_u8. split; Z.div_mod_to_equations; lia. }
  rewrite (u8_small (id / 2 ^ 8)) by done.
  change ((8 :: 0 :: b2 :: b3 :: b4 :: b5 :: b6 :: b7 :: tl) !!! S off_StreamId) with 0.
  rewrite Z.land_0_l, Z.lor_0_l, (u8_small (id mod _)) by done.
  by destruct (Z.testbit id 7).
Qed.

Lemma setsize_bytes b0 b1 b2 b3 b4 b5 tl size :
  7 <= size <= 0xFFFF + 7 →
  CFE_MSG_SetSize (Some (b0 :: b1 :: b2 :: b3 :: b4 :: b5 :: tl)) size =
    (CFE_SUCCESS, Some (b0 :: b1 :: b2 :: b3 :: (size - 7) / 2 ^ 8 :: (size - 7) mod 2 ^ 8 :: tl)).
Proof.
  intros Hs. unfold CFE_MSG_SetSize, CFE_MSG_SIZE_OFFSET.
  replace ((size <? 7) || (0xFFFF + 7 <? size)) with false by lia.
  by rewrite !land_FF, Z.shiftr_div_pow2, div_byte_small by lia.
Qed.

(** The version 2 identifier lives in the extended header. *)
Definition hdr_ok (h : HdrFormat) (v : MsgIdVersion) : Prop := (hdr_of v ≤ sizeof_Message h)%nat.

(** CFE_MSG_Init: for a buffer of at least the given size, an identifier in
    range and a size the length field can hold, the result is exactly the default
    header with that identifier and size, zeros up to the size, and the bytes
    beyond the size untouched. *)
Theorem init_layout h v sc m id size
    (Hv : hdr_ok h v) (Hid : 0 <= id <= CFE_PLATFORM_SB_HIGHEST_VALID_MSGID)
    (Hs : Z.of_nat (sizeof_Message h) <= size <= 0xFFFF + 7) (H7 : 7 <= size)
    (Hl : size <= Z.of_nat (length m)) :
  CFE_MSG_Init h v sc (Some m) id size =
    (CFE_SUCCESS, Some (init_header h v sc id size ++
                        replicate (Z.to_nat size - sizeof_Message h) 0 ++ drop (Z.to_nat size) m)).
Proof.
  unfold CFE_MSG_Init, memset0.
  replace (Z.to_nat size) with (sizeof_Message h + (Z.to_nat size - sizeof_Message h))%nat at 1 by lia.
  rewrite replicate_add, <- (assoc_L (++)).
  set (tl := replicate _ 0 ++ drop _ m). pose proof Hid as Hid'.
  unfold CFE_PLATFORM_SB_HIGHEST_VALID_MSGID in Hid.
  assert (∀ b0 b1 tl, MsgIdV1.CFE_MSG_SetMsgId (Some (b0 :: b1 :: tl)) id =
            (CFE_SUCCESS, Some (id / 2 ^ 8 :: id mod 2 ^ 8 :: tl))) as HV1.
  { intros. unfold MsgIdV1.CFE_MSG_SetMsgId, CFE_PLATFORM_SB_HIGHEST_VALID_MSGID.
    replace (0x1FFF <? id) with false by lia.
    unfold u8. by rewrite Z.shiftr_div_pow2, div_byte_small by lia. }
  destruct h; cbn [sizeof_Message].
  - destruct v; [|unfold hdr_ok in Hv; cbn in Hv; lia].
    change (CFE_MSG_InitDefaultHdr Hdr_Pri sc) with (CFE_MSG_InitDefaultHdr Hdr_Pri 0).
    rewrite initdefault_pri. cbn [app CFE_MSG_SetMsgId]. rewrite HV1. apply setsize_bytes. lia.
  - rewrite initdefault_ext. destruct v; cbn [app CFE_MSG_SetMsgId].
    + rewrite HV1. apply setsize_bytes. lia.
    + erewrite setmsgid_v2_bytes by done. apply setsize_bytes. lia.
Qed.

Lemma init_layout_witness :
  CFE_MSG_Init Hdr_Pri MsgId_V1 0x42 (Some (replicate 12 0xAA)) 0x1806 8 =
    (CFE_SUCCESS, Some [0x18; 0x06; 0xC0; 0; 0; 1; 0; 0; 0xAA; 0xAA; 0xAA; 0xAA]).
Proof.
  etransitivity; [apply init_layout; unfold hdr_ok, CFE_PLATFORM_SB_HIGHEST_VALID_MSGID; cbn; lia|]. reflexivity.
Defined.

(** ** Secondary header fields *)

(** The time stamp of a telemetry packet with a secondary header: setting
    and getting it returns the seconds and the upper 16 bits of the subseconds (the
    field has six bytes), and no byte outside the six is written.  On any other
    packet both calls report the wrong type; the packet is unchanged and the time
    read is zero. *)
Theorem msgtime_roundtrip h m sec sub
    (Hm : Forall is_u8 m) (Hl : (off_Time h + 6 ≤ length m)%nat) (Hs : is_u32 sec) (Hb : is_u32 sub) :
  if sechdr_is m CFE_MSG_Type_Tlm then
    ∃ m', CFE_MSG_SetMsgTime h (Some m) (sec, sub) = (CFE_SUCCESS, Some m') ∧
      Forall is_u8 m' ∧
      (∀ i, ¬ (off_Time h ≤ i < off_Time h + 6)%nat → m' !! i = m !! i) ∧
      ∀ d, CFE_MSG_GetMsgTime h (Some m') (Some d) =
             (CFE_SUCCESS, Some (sec, sub / 2 ^ 16 * 2 ^ 16))
  else
    CFE_MSG_SetMsgTime h (Some m) (sec, sub) = (CFE_MSG_WRONG_MSG_TYPE, Some m) ∧
    ∀ d, CFE_MSG_GetMsgTime h (Some m) (Some d) = (CFE_MSG_WRONG_MSG_TYPE, Some (0, 0)).
Proof.
  unfold CFE_MSG_SetMsgTime. destruct (sechdr_is m CFE_MSG_Type_Tlm) eqn:Ht.
  - assert (off_Time h ≠ 0)%nat as H0 by (by destruct h).
    eexists; split; [done|]. split_and!.
    + repeat apply Forall_u8_insert; try done; rewrite land_FF; apply u8_range.
    + intros i Hi. rewrite !list_lookup_insert_ne by lia. done.
    + intros d. unfold CFE_MSG_GetMsgTime. rewrite !sechdr_is_insert, Ht by lia.
      set (t := off_Time h) in *. autorewrite with msg. cbn [Nat.add].
      autorewrite with msg. rewrite !land_FF, !Z.shiftl_mul_pow2, !Z.shiftr_div_pow2 by lia.
      unfold is_u32, u32 in *.
      rewrite !(Z.mod_small (_ + _)) by (Z.div_mod_to_equations; lia).
      do 3 f_equal; Z.div_mod_to_equations; lia.
  - split; [done|]. intros d. unfold CFE_MSG_GetMsgTime. by rewrite Ht.
Qed.

Definition tlm0 : Message := [0x08; 0x06; 0xC0; 0; 0; 7; 0; 0; 0; 0; 0; 0; 0xEE; 0xEE].

Lemma msgtime_roundtrip_witness :
  Forall is_u8 tlm0 ∧ ∃ m', CFE_MSG_SetMsgTime Hdr_Pri (Some tlm0) (1000000, 0x80004001) = (CFE_SUCCESS, Some m') ∧
    CFE_MSG_GetMsgTime Hdr_Pri (Some m') (Some (0, 0)) = (CFE_SUCCESS, Some (1000000, 0x80000000)).
Proof.
  assert (Forall is_u8 tlm0) as Hm by (repeat constructor; cbn; lia). split; [exact Hm|].
  destruct (msgtime_roundtrip Hdr_Pri tlm0 1000000 0x80004001 Hm ltac:(cbn; lia)
    ltac:(unfold is_u32; lia) ltac:(unfold is_u32; lia)) as (m' & E & _ & _ & Hg).
  exists m'. split; [exact E | apply Hg].
Defined.

(** The function code of a command with a secondary header: values up to
    0x7F are stored in their byte only and read back; greater ones are refused;
    on any other packet the call reports the wrong type and reads zero. *)
Theorem fcncode_roundtrip h m fc
    (Hl : (off_FunctionCode h < length m)%nat) (Hf : is_u16 fc) :
  CFE_MSG_SetFcnCode h (Some m) fc =
    (if 0x7F <? fc then (CFE_MSG_BAD_ARGUMENT, Some m)
     else if sechdr_is m CFE_MSG_Type_Cmd then (CFE_SUCCESS, Some (<[off_FunctionCode h := fc]> m))
     else (CFE_MSG_WRONG_MSG_TYPE, Some m)) ∧
  (fc <= 0x7F → ∀ d,
   CFE_MSG_GetFcnCode h (CFE_MSG_SetFcnCode h (Some m) fc).2 (Some d) =
     if sechdr_is m CFE_MSG_Type_Cmd then (CFE_SUCCESS, Some fc) else (CFE_MSG_WRONG_MSG_TYPE, Some 0)).
Proof.
  unfold CFE_MSG_SetFcnCode, is_u16, CFE_MSG_FC_MASK in *.
  destruct (Z.ltb_spec 0x7F fc) as [?|Hfc]; [split; [done|lia]|].
  rewrite (u8_small fc) by (unfold is_u8; lia). split; [done|]. intros _ d.
  unfold CFE_MSG_GetFcnCode. destruct (sechdr_is m CFE_MSG_Type_Cmd) eqn:E; cbn [snd].
  - rewrite sechdr_is_insert, E by by destruct h. rewrite lookup_total_insert_eq' by done.
    unfold CFE_MSG_FC_MASK. change 0x7F with (Z.ones 7). by rewrite land_ones_small by lia.
  - by rewrite E.
Qed.

Lemma fcncode_roundtrip_witness :
  CFE_MSG_GetFcnCode Hdr_Pri (CFE_MSG_SetFcnCode Hdr_Pri (Some pkt0) 5).2 (Some 0) = (CFE_SUCCESS, Some 5).
Proof.
  destruct (fcncode_roundtrip Hdr_Pri pkt0 5 ltac:(cbn; lia) ltac:(unfold is_u16; lia)) as [_ H].
  exact (H ltac:(lia) 0).
Defined.
