(* ===== verification/ResourceId.v ===== *)
(** * Resource identifiers (cfe/modules/resourceid)

    A resource identifier is a 32 bit word: a base value naming the kind of
    resource above a 16 bit serial number.  The serial number modulo the size of
    a table is the resource's slot; CFE_ResourceId_FindNext picks the identifier
    of a new resource. *)
From S2P Require Import Prelude Config.

Definition CFE_RESOURCEID_SHIFT : Z := 16.
Definition CFE_RESOURCEID_MAX : Z := Z.shiftl 1 CFE_RESOURCEID_SHIFT - 1.
Definition CFE_RESOURCEID_UNDEFINED : Z := 0.
Definition CFE_RESOURCEID_RESERVED : Z := u32 (-1).

(** CFE_RESOURCEID_MAKE_BASE in the default (simple) mode, where the mark bit is
    zero. *)
Definition CFE_RESOURCEID_MAKE_BASE (offset : Z) : Z := Z.shiftl offset CFE_RESOURCEID_SHIFT.
Definition OS_OBJECT_TYPE_USER : Z := 0x10.
Definition CFE_ES_APPID_BASE : Z := CFE_RESOURCEID_MAKE_BASE (OS_OBJECT_TYPE_USER + 1).
Definition CFE_ES_POOLID_BASE : Z := CFE_RESOURCEID_MAKE_BASE (OS_OBJECT_TYPE_USER + 4).
Definition CFE_SB_PIPEID_BASE : Z := CFE_RESOURCEID_MAKE_BASE (OS_OBJECT_TYPE_USER + 6).

Definition CFE_ResourceId_GetBase (ResourceId : Z) : Z :=
  Z.land ResourceId (u32 (Z.lnot CFE_RESOURCEID_MAX)).

Definition CFE_ResourceId_GetSerial (ResourceId : Z) : Z :=
  Z.land ResourceId CFE_RESOURCEID_MAX.

Definition CFE_ResourceId_ToIndex (Id BaseValue TableSize : Z) (Idx : ptr Z) : Z * ptr Z :=
  match Idx with
  | None => (CFE_ES_ERR_BUFFER, Idx)
  | Some _ =>
      let Serial := u32 (Id - BaseValue) in
      if (CFE_RESOURCEID_MAX <? Serial) || (TableSize =? 0)
      then (CFE_ES_ERR_RESOURCEID_NOT_VALID, Idx)
      else (CFE_SUCCESS, Some (Serial mod TableSize))
  end.

(** The loop of CFE_ResourceId_FindNext; [Count] is the loop's own counter.  The check
    function is the caller's; [None] is an access it must not make. *)
Fixpoint FindNext_loop (ResourceType TableSize : Z) (CheckFunc : Z → option bool)
    (Serial : Z) (Count : nat) : option Z :=
  match Count with
  | O => Some CFE_RESOURCEID_UNDEFINED
  | S Count =>
      let Serial := u32 (Serial + 1) in
      let Serial := if CFE_RESOURCEID_MAX <=? Serial then Serial mod TableSize else Serial in
      let CheckId := u32 (ResourceType + Serial) in
      used ← CheckFunc CheckId;
      if used : bool then FindNext_loop ResourceType TableSize CheckFunc Serial Count
      else Some CheckId
  end.

Definition CFE_ResourceId_FindNext (StartId TableSize : Z) (CheckFunc : Z → option bool) : option Z :=
  FindNext_loop (CFE_ResourceId_GetBase StartId) TableSize CheckFunc
    (CFE_ResourceId_GetSerial StartId) (Z.to_nat TableSize).

(** ** Properties *)

Lemma GetBase_div id : is_u32 id → CFE_ResourceId_GetBase id = id / 2 ^ 16 * 2 ^ 16.
Proof.
  intros Hid. unfold CFE_ResourceId_GetBase.
  change (u32 (Z.lnot CFE_RESOURCEID_MAX)) with (Z.shiftl (Z.ones 16) 16).
  rewrite <- Z.shiftr_div_pow2, <- Z.shiftl_mul_pow2 by lia.
  Z_bits i Hi. rewrite Z.land_spec, !Z.shiftl_spec by lia.
  destruct (Z.ltb_spec i 16); [by rewrite !(Z.testbit_neg_r _ (i - 16)), andb_false_r by lia|].
  rewrite Z.shiftr_spec by lia. replace (i - 16 + 16) with i by lia.
  destruct (Z.ltb_spec i 32); [by rewrite Z.ones_spec_low, andb_true_r by lia|].
  by rewrite (testbit_above id 32) by (unfold is_u32 in *; lia).
Qed.

Lemma GetSerial_mod id : CFE_ResourceId_GetSerial id = id mod 2 ^ 16.
Proof.
  unfold CFE_ResourceId_GetSerial. change CFE_RESOURCEID_MAX with (Z.ones 16).
  by rewrite Z.land_ones by lia.
Qed.

(** The base and the serial number are the two halves of the identifier. *)
Lemma base_serial id : is_u32 id →
  CFE_ResourceId_GetBase id + CFE_ResourceId_GetSerial id = id.
Proof. intros. rewrite GetBase_div, GetSerial_mod by done. Z.div_mod_to_equations. lia. Qed.

Lemma ToIndex_spec base serial size d :
  0 <= base → 0 <= serial <= CFE_RESOURCEID_MAX → 0 < size →
  base + serial < 2 ^ 32 →
  CFE_ResourceId_ToIndex (base + serial) base size (Some d) = (CFE_SUCCESS, Some (serial mod size)).
Proof.
  intros Hb Hs Ht Hu. unfold CFE_ResourceId_ToIndex, CFE_RESOURCEID_MAX in *. cbn in Hs.
  rewrite u32_small by (unfold is_u32; lia). replace (base + serial - base) with serial by lia.
  by replace ((_ <? serial) || (size =? 0)) with false by (cbn; lia).
Qed.

(** The slot an identifier of a given base selects. *)
Definition slot (base size id : Z) : Z :=
  default 0 (CFE_ResourceId_ToIndex id base size (Some 0)).2.

Lemma slot_base_serial base serial size :
  0 <= base → 0 <= serial <= CFE_RESOURCEID_MAX → 0 < size → base + serial < 2 ^ 32 →
  slot base size (base + serial) = serial mod size.
Proof. intros. unfold slot. by rewrite ToIndex_spec. Qed.

(** [serial] after one round of the loop. *)
Lemma next_serial serial size :
  0 <= serial <= CFE_RESOURCEID_MAX → 0 < size <= CFE_RESOURCEID_MAX →
  let s := if CFE_RESOURCEID_MAX <=? u32 (serial + 1) then u32 (serial + 1) mod size
           else u32 (serial + 1) in
  0 <= s < CFE_RESOURCEID_MAX ∧ s mod size = (serial + 1) mod size.
Proof.
  intros Hs Hz. change CFE_RESOURCEID_MAX with 0xFFFF in *. cbv zeta.
  rewrite u32_small by (unfold is_u32; lia).
  pose proof (Z.mod_pos_bound (serial + 1) size ltac:(lia)).
  destruct (Z.leb_spec 0xFFFF (serial + 1)); [rewrite Z.mod_mod by lia|]; lia.
Qed.

Lemma FindNext_loop_spec base size (taken : Z → bool) serial n :
  0 <= base < 2 ^ 32 → base mod 2 ^ 16 = 0 → 0 < size <= CFE_RESOURCEID_MAX →
  0 <= serial <= CFE_RESOURCEID_MAX →
  ∃ r, FindNext_loop base size (λ id, Some (taken (slot base size id))) serial n = Some r ∧
  ((r = CFE_RESOURCEID_UNDEFINED ∧
   ∀ k, 1 <= k <= Z.of_nat n → taken ((serial + k) mod size) = true) ∨
  (∃ k, 1 <= k <= Z.of_nat n ∧ slot base size r = (serial + k) mod size ∧
     taken ((serial + k) mod size) = false ∧
     (∀ j, 1 <= j < k → taken ((serial + j) mod size) = true) ∧
     base <= r < base + CFE_RESOURCEID_MAX)).
Proof.
  intros Hb Hb16 Hz. revert serial. induction n as [|n IH]; intros serial Hs.
  { exists CFE_RESOURCEID_UNDEFINED. split; [done|]. left. split; [done|]. lia. }
  destruct (next_serial serial size Hs Hz) as [Hn Hm].
  cbn [FindNext_loop]. set (s' := if CFE_RESOURCEID_MAX <=? u32 (serial + 1) then _ else _ : Z) in *.
  assert (base + 0xFFFF < 2 ^ 32) as Hmax by (Z.div_mod_to_equations; lia).
  change CFE_RESOURCEID_MAX with 0xFFFF in *.
  rewrite u32_small by (unfold is_u32; lia). cbv zeta.
  assert (slot base size (base + s') = (serial + 1) mod size) as Hsl.
  { rewrite slot_base_serial; change CFE_RESOURCEID_MAX with 0xFFFF; lia. }
  assert (∀ k, (s' + k) mod size = (serial + (k + 1)) mod size) as Hk.
  { intros k. rewrite <- Z.add_mod_idemp_l, Hm, Z.add_mod_idemp_l by lia. f_equal. lia. }
  rewrite Hsl. cbn [mbind option_bind]. destruct (taken ((serial + 1) mod size)) eqn:Et.
  - destruct (IH s' ltac:(lia)) as (r & Er & [[Hr Ha]|(k & Hk1 & Hk2 & Hk3 & Hk4 & Hk5)]); exists r; (split; [exact Er|]).
    + left. split; [done|]. intros k Hkr. destruct (decide (k = 1)) as [->|]; [done|].
      specialize (Ha (k - 1)). rewrite Hk in Ha. replace (k - 1 + 1) with k in Ha by lia. apply Ha. lia.
    + right. exists (k + 1). rewrite <- Hk. split_and!; try done; try lia.
      intros j Hj. destruct (decide (j = 1)) as [->|]; [done|].
      specialize (Hk4 (j - 1)). rewrite Hk in Hk4. replace (j - 1 + 1) with j in Hk4 by lia.
      apply Hk4. lia.
  - eexists. split; [done|]. right. exists 1. split_and!; try done; lia.
Qed.

(** CFE_ResourceId_FindNext over a table whose slot test looks only at the
    slot an identifier selects: if every slot is taken it returns the undefined
    identifier; otherwise it returns an identifier of the start identifier's base
    whose slot is the first free one in cyclic order after the start identifier's,
    also when the serial numbers wrap around. *)
Theorem FindNext_first_free StartId size (taken : Z → bool)
    (Hid : is_u32 StartId) (Hb : 0 < CFE_ResourceId_GetBase StartId)
    (Hz : 0 < size <= CFE_RESOURCEID_MAX) :
  let base := CFE_ResourceId_GetBase StartId in
  ∃ r, CFE_ResourceId_FindNext StartId size (λ id, Some (taken (slot base size id))) = Some r ∧
  if forallb taken (seqZ 0 size) then r = CFE_RESOURCEID_UNDEFINED
  else ∃ k, 1 <= k <= size ∧ CFE_ResourceId_GetBase r = base ∧ r ≠ CFE_RESOURCEID_UNDEFINED ∧
    slot base size r = (CFE_ResourceId_GetSerial StartId + k) mod size ∧
    taken (slot base size r) = false ∧
    ∀ j, 1 <= j < k → taken ((CFE_ResourceId_GetSerial StartId + j) mod size) = true.
Proof.
  intros base. unfold is_u32 in Hid.
  assert (0 <= base < 2 ^ 32 ∧ base mod 2 ^ 16 = 0) as [Hr Hm].
  { unfold base. rewrite GetBase_div by done. split; Z.div_mod_to_equations; lia. }
  set (s := CFE_ResourceId_GetSerial StartId).
  assert (0 <= s <= CFE_RESOURCEID_MAX) as Hs.
  { unfold s. rewrite GetSerial_mod. change CFE_RESOURCEID_MAX with 0xFFFF.
    pose proof (Z.mod_pos_bound StartId (2 ^ 16) ltac:(lia)). lia. }
  destruct (FindNext_loop_spec base size taken s (Z.to_nat size) Hr Hm Hz Hs) as (r & Er & Hspec).
  exists r. split; [exact Er|]. rewrite Z2Nat.id in Hspec by lia.
  destruct (forallb taken (seqZ 0 size)) eqn:Ef.
  - destruct Hspec as [[? _]|(k & Hk & _ & Hf & _)]; [done|]. rewrite forallb_forall in Ef.
    rewrite Ef in Hf; [done|]. apply list_elem_of_In, elem_of_seqZ.
    pose proof (Z.mod_pos_bound (s + k) size ltac:(lia)). lia.
  - destruct Hspec as [[_ Ha]|(k & Hk & Hsl & Hf & Hlt & Hrr)].
    + exfalso. apply not_true_iff_false in Ef. apply Ef, forallb_forall.
      intros i Hi%list_elem_of_In%elem_of_seqZ.
      specialize (Ha ((i - s - 1) mod size + 1)).
      replace (s + ((i - s - 1) mod size + 1)) with ((s + 1) + (i - s - 1) mod size) in Ha by lia.
      rewrite Z.add_mod_idemp_r in Ha by lia. replace (s + 1 + (i - s - 1)) with i in Ha by lia.
      rewrite (Z.mod_small i size) in Ha by lia.
      apply Ha. pose proof (Z.mod_pos_bound (i - s - 1) size ltac:(lia)). lia.
    + change CFE_RESOURCEID_MAX with 0xFFFF in *. exists k. split; [done|].
      assert (0 < base) as Hb0 by done. clearbody s base. clear Hid Hb. split_and!; try done.
        rewrite GetBase_div by (unfold is_u32; Z.div_mod_to_equations; lia).
        Z.div_mod_to_equations. lia.
      * unfold CFE_RESOURCEID_UNDEFINED. lia.
      * by rewrite Hsl.
Qed.

Lemma FindNext_first_free_witness :
  is_u32 (CFE_SB_PIPEID_BASE + 0xFFFE) ∧
  ∃ k, 1 <= k <= 64 ∧
    slot CFE_SB_PIPEID_BASE 64 <$>
      CFE_ResourceId_FindNext (CFE_SB_PIPEID_BASE + 0xFFFE) 64
         (λ id, Some ((slot CFE_SB_PIPEID_BASE 64 id) <? 5)) = Some ((0xFFFE + k) mod 64).
Proof.
  split; [unfold is_u32; vm_compute; split; congruence|].
  destruct (FindNext_first_free (CFE_SB_PIPEID_BASE + 0xFFFE) 64 (λ i, i <? 5)
    ltac:(unfold is_u32; vm_compute; split; congruence) eq_refl
    ltac:(vm_compute; split; congruence)) as (r & Er & k & Hk & _ & _ & Hs & _).
  exists k. split; [exact Hk|]. transitivity (slot CFE_SB_PIPEID_BASE 64 <$> Some r); [exact (f_equal (fmap (slot CFE_SB_PIPEID_BASE 64)) Er)|exact (f_equal Some Hs)].
Defined.
