(* ===== verification/Cstring.v ===== *)
(** * Character strings

    C strings are lists of character codes, in memory ended by a zero.  This file has
    what the sources use of the C library, [vsnprintf] for the conversions %s, %d, %i,
    %u, %x and %X with a width, zero padding and the length modifier l, [strcmp] and
    [strncpy], and the conversions between strings and message fields of
    cfe_sb_util.c. *)
From Stdlib Require Import Ascii String.
From S2P Require Import Prelude Config.
Import ListNotations.

Definition chars (s : string) : list Z := (λ a, Z.of_N (N_of_ascii a)) <$> list_ascii_of_string s.

(** The string that starts a buffer. *)
Fixpoint cstr (b : list Z) : list Z :=
  match b with
  | [] => []
  | c :: b => if c =? 0 then [] else c :: cstr b
  end.

Definition strcmp_eq (a b : list Z) : bool := bool_decide (cstr a = cstr b).

(** [strncpy] to the first [n] bytes of a buffer: what remains of them is zeroed. *)
Definition strncpy (dest src : list Z) (n : nat) : list Z :=
  take n (cstr src) ++ replicate (n - List.length (cstr src)) 0 ++ drop n dest.

(** ** Formatted output *)

Inductive CArg := AStr (s : list Z) | AInt (z : Z).

Definition digit_of (upper : bool) (d : Z) : Z := if d <? 10 then 48 + d else if upper then 55 + d else 87 + d.

(** The digits of a number; 20 digits are enough for 64 bits in base 10. *)
Fixpoint digits_of (fuel : nat) (upper : bool) (base z : Z) : list Z :=
  match fuel with
  | O => []
  | S fuel => if z <? base then [digit_of upper z] else digits_of fuel upper base (z / base) ++ [digit_of upper (z mod base)]
  end.

Definition decimal (z : Z) : list Z := if z <? 0 then 45 :: digits_of 20 false 10 (- z) else digits_of 20 false 10 z.

Definition padded (zero : bool) (width : nat) (l : list Z) : list Z :=
  replicate (width - List.length l) (if zero then 48 else 32) ++ l.

(** One conversion; [c] is the conversion character. *)
Definition convert (zero : bool) (width : nat) (c : Z) (a : CArg) : list Z :=
  padded zero width
    match a with
    | AStr s => cstr s
    | AInt z => if c =? 120 then digits_of 20 false 16 z else if c =? 88 then digits_of 20 true 16 z else decimal z
    end.

(** The expansion of a format; [st] is the flag and the width read since a percent
    sign. *)
Fixpoint format (st : option (bool * nat)) (spec : list Z) (args : list CArg) : list Z :=
  match spec with
  | [] => []
  | c :: spec =>
      match st with
      | None => if c =? 37 then format (Some (false, 0%nat)) spec args else c :: format None spec args
      | Some (zero, width) =>
          if (c =? 48) && (width =? 0)%nat then format (Some (true, width)) spec args
          else if (48 <=? c) && (c <=? 57) then format (Some (zero, width * 10 + Z.to_nat (c - 48))%nat) spec args
          else if c =? 108 then format st spec args
          else match args with
               | [] => []
               | a :: args => convert zero width c a ++ format None spec args
               end
      end
  end.

Definition expand (spec : string) (args : list CArg) : list Z := format None (chars spec) args.

(** [vsnprintf] returns the length of the expansion and writes what fits, ended by a
    zero. *)
Definition vsnprintf (buf : list Z) (size : nat) (expansion : list Z) : Z * list Z :=
  (Z.of_nat (List.length expansion),
   match size with
   | O => buf
   | S n => take n expansion ++ 0 :: drop (S (List.length expansion `min` n)) buf
   end).

(** ** Message fields: cfe_sb_util.c *)

(** The loop of both functions: the characters it copies. *)
Fixpoint StringGet_loop (Source : list Z) (SourceMaxSize DestMaxSize : nat) : option (list Z) :=
  match SourceMaxSize with
  | O => Some []
  | S n =>
      match Source with
      | [] => None
      | c :: Source =>
          if c =? 0 then Some []
          else match DestMaxSize with
               | O => Some []
               | S d => cons c <$> StringGet_loop Source n d
               end
      end
  end.

Definition CFE_SB_MessageStringGet (Dest : ptr (list Z)) (Source : list Z) (Default : ptr (list Z)) (DestMaxSize SourceMaxSize : nat) :
    option (Z * ptr (list Z)) :=
  match Dest, DestMaxSize with
  | Some dest, S d =>
      (use ← match Default with
             | Some _ => if (SourceMaxSize =? 0)%nat then Some true else c ← head Source; Some (c =? 0)
             | None => Some false
             end;
       copied ← if use : bool then StringGet_loop (default [] Default) DestMaxSize d else StringGet_loop Source SourceMaxSize d;
       Some (Z.of_nat (List.length copied), Some (copied ++ 0 :: drop (S (List.length copied)) dest)))
  | _, _ => Some (CFE_SB_BAD_ARGUMENT, Dest)
  end.

Definition CFE_SB_MessageStringSet (Dest Source : ptr (list Z)) (DestMaxSize SourceMaxSize : nat) : option (Z * ptr (list Z)) :=
  match Dest, Source with
  | Some dest, Some source =>
      copied ← StringGet_loop source SourceMaxSize DestMaxSize;
      Some (Z.of_nat (List.length copied),
            Some (copied ++ replicate (DestMaxSize - List.length copied) 0 ++ drop DestMaxSize dest))
  | _, _ => Some (CFE_SB_BAD_ARGUMENT, Dest)
  end.

Arguments expand spec%_string args.
#[global] Arguments expand : simpl never.
#[global] Arguments vsnprintf : simpl never.

Lemma StringGet_loop_spec src n d : (n <= List.length src)%nat → StringGet_loop src n d = Some (take d (cstr (take n src))).
Proof.
  revert n d. induction src as [|c src IH]; intros [|n] d H; cbn in *; try lia; try (by rewrite take_nil).
  destruct (c =? 0); [by rewrite take_nil|]. destruct d as [|d]; [done|]. by rewrite IH by lia.
Qed.
