(* ===== verification/EsApp.v ===== *)
(** * Applications: the table of executive services that the other services read
    (cfe_es_resource.c, cfe_es_resource.h, cfe_es_api.c)

    An application has the entry of the table its identifier selects, which holds its
    identifier and name.  The rest of the record, and starting and stopping
    applications, are not modelled. *)
From S2P Require Import Prelude Config ResourceId Cstring.
Import ListNotations.

Definition CFE_PLATFORM_ES_MAX_APPLICATIONS : Z := 32.
Definition CFE_ES_ERR_NAME_NOT_FOUND : Z := s32 0xc4000002.
Definition OS_MAX_API_NAME : nat := 20.

Record CFE_ES_AppRecord_t := mkAppRecord { ar_AppId : Z; ar_AppName : list Z }.

Definition CFE_ES_AppID_ToIndex (AppID : Z) (Idx : ptr Z) : Z * ptr Z :=
  CFE_ResourceId_ToIndex AppID CFE_ES_APPID_BASE CFE_PLATFORM_ES_MAX_APPLICATIONS Idx.

Definition CFE_ES_AppRecordIsUsed (r : CFE_ES_AppRecord_t) : bool := negb (ar_AppId r =? CFE_RESOURCEID_UNDEFINED).

Definition CFE_ES_AppRecordIsMatch (r : ptr CFE_ES_AppRecord_t) (AppID : Z) : bool :=
  match r with Some r => ar_AppId r =? AppID | None => false end.

Section table.
Context (AppTable : list CFE_ES_AppRecord_t).

Definition CFE_ES_LocateAppRecordByID (AppID : Z) : ptr CFE_ES_AppRecord_t :=
  let '(Status, Idx) := CFE_ES_AppID_ToIndex AppID (Some 0) in
  if Status =? CFE_SUCCESS then AppTable !! Z.to_nat (default 0 Idx) else None.

(** The search of CFE_ES_LocateAppRecordByName in the entries that are left. *)
Fixpoint LocateByName_loop (Name : list Z) (l : list CFE_ES_AppRecord_t) : ptr CFE_ES_AppRecord_t :=
  match l with
  | [] => None
  | r :: l => if CFE_ES_AppRecordIsUsed r && strcmp_eq Name (ar_AppName r) then Some r else LocateByName_loop Name l
  end.

Definition CFE_ES_LocateAppRecordByName (Name : list Z) : ptr CFE_ES_AppRecord_t := LocateByName_loop Name AppTable.

Definition CFE_ES_GetAppIDByName (AppIdPtr : ptr Z) (AppName : ptr (list Z)) : Z * ptr Z :=
  match AppName, AppIdPtr with
  | Some Name, Some _ =>
      match CFE_ES_LocateAppRecordByName Name with
      | None => (CFE_ES_ERR_NAME_NOT_FOUND, Some CFE_RESOURCEID_UNDEFINED)
      | Some r => (CFE_SUCCESS, Some (ar_AppId r))
      end
  | _, _ => (CFE_ES_BAD_ARGUMENT, AppIdPtr)
  end.

Definition CFE_ES_GetAppName (AppName : ptr (list Z)) (AppId : Z) (BufferLength : nat) : Z * ptr (list Z) :=
  match AppName, BufferLength with
  | Some buf, S n =>
      let r := CFE_ES_LocateAppRecordByID AppId in
      match r with
      | Some rec =>
          if CFE_ES_AppRecordIsMatch r AppId then (CFE_SUCCESS, Some (<[n := 0]> (strncpy buf (ar_AppName rec) n)))
          else (CFE_ES_ERR_RESOURCEID_NOT_VALID, Some (<[0%nat := 0]> buf))
      | None => (CFE_ES_ERR_RESOURCEID_NOT_VALID, Some (<[0%nat := 0]> buf))
      end
  | _, _ => (CFE_ES_BAD_ARGUMENT, AppName)
  end.
End table.

#[global] Arguments CFE_ES_GetAppName : simpl never.
#[global] Arguments CFE_ES_AppID_ToIndex : simpl never.
