(* ===== verification/Sbr.v ===== *)
(** * Software bus routing (cfe/modules/sbr)

    The routing table and the map from message identifiers to route identifiers,
    in the two implementations the build can select: a direct table indexed by
    the identifier and an open-addressing hash table.  [Direct] and [Hash] are
    instances of the interface [MsgMap]; the route table operations are shared. *)
From S2P Require Import Prelude Config.

(** ** Identifiers (cfe_sb.h, cfe_sb_msg_id_util.c, private/cfe_sbr.h) *)

Definition CFE_SB_INVALID_MSG_ID : Z := u32 (-1).
Definition CFE_SBR_INVALID_ROUTE_ID : Z := 0.

Definition CFE_SB_IsValidMsgId (MsgId : Z) : bool :=
  negb (MsgId =? CFE_SB_INVALID_MSG_ID) && (MsgId <=? CFE_PLATFORM_SB_HIGHEST_VALID_MSGID).

Definition CFE_SBR_IsValidRouteId (RouteId : Z) : bool :=
  negb (RouteId =? 0) && (RouteId <=? CFE_PLATFORM_SB_MAX_MSG_IDS).

Definition CFE_SBR_ValueToRouteId (Value : Z) : Z := u16 (1 + Value).
Definition CFE_SBR_RouteIdToValue (RouteId : Z) : Z := u16 (RouteId - 1).

(** ** State

    [CFE_SBR_RDATA] and [CFE_SBR_MSGMAP], the module's static data. *)

Record CFE_SBR_RouteEntry_t := mkRouteEntry {
  ListHeadPtr : addr;
  MsgId : Z;
  SeqCnt : Z;
}.

Record SBR := mkSBR {
  RoutingTbl : list CFE_SBR_RouteEntry_t;
  RouteIdxTop : Z;
  MSGMAP : list Z;
}.

#[export] Instance RouteEntry_eta : Eta CFE_SBR_RouteEntry_t := mkEta (λ r,
  mkRouteEntry (ListHeadPtr r) (MsgId r) (SeqCnt r)).
#[export] Instance SBR_eta : Eta SBR := mkEta (λ r,
  mkSBR (RoutingTbl r) (RouteIdxTop r) (MSGMAP r)).

(** Writing an element of the two tables. *)
Definition upd_RoutingTbl (i : Z) (f : CFE_SBR_RouteEntry_t → CFE_SBR_RouteEntry_t) : M SBR unit :=
  tbl ← gets RoutingTbl;
  tbl ← of_option (tbl_upd f i tbl);
  modify (λ s, s <| RoutingTbl := tbl |>).

Definition set_MSGMAP (i RouteId : Z) : M SBR unit :=
  map ← gets MSGMAP;
  map ← of_option (tbl_upd (λ _, RouteId) i map);
  modify (λ s, s <| MSGMAP := map |>).

(** ** Reading the route table (cfe_sbr_route_unsorted.c) *)

Definition CFE_SBR_GetMsgId (RouteId : Z) : M SBR Z :=
  if CFE_SBR_IsValidRouteId RouteId then
    tbl ← gets RoutingTbl;
    e ← tbl_get tbl (CFE_SBR_RouteIdToValue RouteId);
    mret (MsgId e)
  else mret CFE_SB_INVALID_MSG_ID.

(** ** The identifier map

    Init_Map's result is the cleared map; [SetRouteId] returns the number of
    collisions. *)

Class MsgMap := {
  CFE_SBR_Init_Map : list Z;
  CFE_SBR_SetRouteId : Z → Z → M SBR Z;
  CFE_SBR_GetRouteId : Z → M SBR Z;
}.

(** cfe_sbr_map_direct.c *)
Module Direct.

Definition CFE_SBR_MSG_MAP_SIZE : Z := CFE_PLATFORM_SB_HIGHEST_VALID_MSGID + 1.

Definition CFE_SBR_Init_Map : list Z := replicate (Z.to_nat CFE_SBR_MSG_MAP_SIZE) 0.

Definition CFE_SBR_SetRouteId (MsgId RouteId : Z) : M SBR Z :=
  when (CFE_SB_IsValidMsgId MsgId) (set_MSGMAP MsgId RouteId);;
  mret 0.

Definition CFE_SBR_GetRouteId (MsgId : Z) : M SBR Z :=
  if CFE_SB_IsValidMsgId MsgId then
    map ← gets MSGMAP;
    tbl_get map MsgId
  else mret CFE_SBR_INVALID_ROUTE_ID.

End Direct.

(** cfe_sbr_map_hash.c *)
Module Hash.

Definition CFE_SBR_MSG_MAP_SIZE : Z := 4 * CFE_PLATFORM_SB_MAX_MSG_IDS.
Definition CFE_SBR_HASH_MAGIC : Z := 0x45d9f3b.

Definition CFE_SBR_MsgIdHash (MsgId : Z) : Z :=
  let hash := MsgId in
  let hash := u32 (Z.lxor (Z.shiftr hash 16) hash * CFE_SBR_HASH_MAGIC) in
  let hash := u32 (Z.lxor (Z.shiftr hash 16) hash * CFE_SBR_HASH_MAGIC) in
  let hash := Z.lxor (Z.shiftr hash 16) hash in
  Z.land hash (CFE_SBR_MSG_MAP_SIZE - 1).

Definition CFE_SBR_Init_Map : list Z := replicate (Z.to_nat CFE_SBR_MSG_MAP_SIZE) 0.

(** "Increment or loop to start of array" *)
Definition next_hash (hash : Z) : Z := Z.land (u32 (hash + 1)) (CFE_SBR_MSG_MAP_SIZE - 1).

(** The two probe loops; the fuel is the number of cells, and running out of it
    stands for a loop that does not end. *)
Fixpoint set_probe (fuel : nat) (hash collisions : Z) : M SBR (Z * Z) :=
  map ← gets MSGMAP;
  cell ← tbl_get map hash;
  if CFE_SBR_IsValidRouteId cell then
    match fuel with
    | O => undef
    | S fuel => set_probe fuel (next_hash hash) (u32 (collisions + 1))
    end
  else mret (hash, collisions).

Fixpoint get_probe (fuel : nat) (MsgId hash routeid : Z) : M SBR Z :=
  rmsgid ← CFE_SBR_GetMsgId routeid;
  if CFE_SBR_IsValidRouteId routeid && negb (rmsgid =? MsgId) then
    match fuel with
    | O => undef
    | S fuel =>
        let hash := next_hash hash in
        map ← gets MSGMAP;
        routeid ← tbl_get map hash;
        get_probe fuel MsgId hash routeid
    end
  else mret routeid.

Definition CFE_SBR_SetRouteId (MsgId RouteId : Z) : M SBR Z :=
  if CFE_SB_IsValidMsgId MsgId then
    '(hash, collisions) ← set_probe (Z.to_nat CFE_SBR_MSG_MAP_SIZE) (CFE_SBR_MsgIdHash MsgId) 0;
    set_MSGMAP hash RouteId;;
    mret collisions
  else mret 0.

Definition CFE_SBR_GetRouteId (MsgId : Z) : M SBR Z :=
  if CFE_SB_IsValidMsgId MsgId then
    let hash := CFE_SBR_MsgIdHash MsgId in
    map ← gets MSGMAP;
    routeid ← tbl_get map hash;
    get_probe (Z.to_nat CFE_SBR_MSG_MAP_SIZE) MsgId hash routeid
  else mret CFE_SBR_INVALID_ROUTE_ID.

End Hash.

Definition DirectMap : MsgMap := {|
  CFE_SBR_Init_Map := Direct.CFE_SBR_Init_Map;
  CFE_SBR_SetRouteId := Direct.CFE_SBR_SetRouteId;
  CFE_SBR_GetRouteId := Direct.CFE_SBR_GetRouteId;
|}.

Definition HashMap : MsgMap := {|
  CFE_SBR_Init_Map := Hash.CFE_SBR_Init_Map;
  CFE_SBR_SetRouteId := Hash.CFE_SBR_SetRouteId;
  CFE_SBR_GetRouteId := Hash.CFE_SBR_GetRouteId;
|}.

(** ** The route table (cfe_sbr_route_unsorted.c) *)

Section routes.
Context `{MsgMap}.

Definition CFE_SBR_Init : SBR :=
  mkSBR (replicate (Z.to_nat CFE_PLATFORM_SB_MAX_MSG_IDS) (mkRouteEntry NULL CFE_SB_INVALID_MSG_ID 0))
    0 CFE_SBR_Init_Map.

(** The result pair is the route id and the value written through CollisionsPtr. *)
Definition CFE_SBR_AddRoute (MsgId : Z) (CollisionsPtr : ptr Z) : M SBR (Z * ptr Z) :=
  top ← gets RouteIdxTop;
  '(routeid, collisions) ←
    (if CFE_SB_IsValidMsgId MsgId && (top <? CFE_PLATFORM_SB_MAX_MSG_IDS) then
       let routeid := CFE_SBR_ValueToRouteId top in
       collisions ← CFE_SBR_SetRouteId MsgId routeid;
       upd_RoutingTbl top (λ e, mkRouteEntry (ListHeadPtr e) MsgId (SeqCnt e));;
       modify (λ s, s <| RouteIdxTop := u16 (top + 1) |>);;
       mret (routeid, collisions)
     else mret (CFE_SBR_INVALID_ROUTE_ID, 0));
  mret (routeid, (λ _, collisions) <$> CollisionsPtr).

Definition CFE_SBR_GetDestListHeadPtr (RouteId : Z) : M SBR addr :=
  if CFE_SBR_IsValidRouteId RouteId then
    tbl ← gets RoutingTbl;
    e ← tbl_get tbl (CFE_SBR_RouteIdToValue RouteId);
    mret (ListHeadPtr e)
  else mret NULL.

Definition CFE_SBR_SetDestListHeadPtr (RouteId : Z) (DestPtr : addr) : M SBR unit :=
  when (CFE_SBR_IsValidRouteId RouteId)
    (upd_RoutingTbl (CFE_SBR_RouteIdToValue RouteId) (λ e, e <| ListHeadPtr := DestPtr |>)).

Definition CFE_SBR_IncrementSequenceCounter (RouteId : Z) : M SBR unit :=
  when (CFE_SBR_IsValidRouteId RouteId)
    (upd_RoutingTbl (CFE_SBR_RouteIdToValue RouteId) (λ e, e <| SeqCnt ::= λ c, u16 (c + 1) |>)).

Definition CFE_SBR_GetSequenceCounter (RouteId : Z) : M SBR Z :=
  if CFE_SBR_IsValidRouteId RouteId then
    tbl ← gets RoutingTbl;
    e ← tbl_get tbl (CFE_SBR_RouteIdToValue RouteId);
    mret (SeqCnt e)
  else mret 0.

End routes.

(** ** Iteration over the routes

    The callback runs in the caller's state [S], of which [top] reads
    RouteIdxTop once, as the code does. *)

Record CFE_SBR_Throttle_t := mkThrottle {
  StartIndex : Z;
  MaxLoop : Z;
  NextIndex : Z;
}.
#[export] Instance Throttle_eta : Eta CFE_SBR_Throttle_t := mkEta (λ r,
  mkThrottle (StartIndex r) (MaxLoop r) (NextIndex r)).

Section foreach.
Context {S : Type} (top : S → Z).

Fixpoint foreach_loop (CallbackPtr : Z → M S unit) (routeidx : Z) (n : nat) : M S unit :=
  match n with
  | O => mret tt
  | Datatypes.S n =>
      CallbackPtr (CFE_SBR_ValueToRouteId routeidx);;
      foreach_loop CallbackPtr (u16 (routeidx + 1)) n
  end.

Definition CFE_SBR_ForEachRouteId (CallbackPtr : Z → M S unit) (ThrottlePtr : ptr CFE_SBR_Throttle_t)
  : M S (ptr CFE_SBR_Throttle_t) :=
  endidx ← gets top;
  let '(startidx, endidx, ThrottlePtr) :=
    match ThrottlePtr with
    | None => (0, endidx, ThrottlePtr)
    | Some t =>
        let startidx := u16 (StartIndex t) in
        if u32 (startidx + MaxLoop t) <? endidx then
          let endidx := u16 (startidx + MaxLoop t) in
          (startidx, endidx, Some (t <| NextIndex := endidx |>))
        else (startidx, endidx, Some (t <| NextIndex := 0 |>))
    end in
  foreach_loop CallbackPtr startidx (Z.to_nat (endidx - startidx));;
  mret ThrottlePtr.

End foreach.
