(* ===== verification/SbrProps.v ===== *)
(** * Properties of the routing module

    The two identifier maps implement one abstract table: the list of registered
    routes in order of registration. *)
From S2P Require Import Prelude Config Sbr.

(** ** Running computations *)

Ltac run :=
  unfold mbind, M_bind, mret, M_ret, gets, modify, when, of_option, undef in *; cbn beta iota in *.

Lemma tbl_get_Some {S A} (l : list A) i x (s : S) :
  0 <= i → l !! Z.to_nat i = Some x → tbl_get l i s = Some (x, s).
Proof. intros Hi Hx. unfold tbl_get. replace (i <? 0) with false by lia. by rewrite Hx. Qed.

Lemma tbl_upd_Some {A} (f : A → A) i (l : list A) :
  0 <= i < Z.of_nat (length l) → tbl_upd f i l = Some (alter f (Z.to_nat i) l).
Proof.
  intros. unfold tbl_upd. by replace ((i <? 0) || (Z.of_nat (length l) <=? i)) with false by lia.
Qed.

(** ** The abstract routing table *)

Definition route_of (ids : list Z) (id : Z) : Z :=
  match list_find (id =.) ids with Some (i, _) => 1 + Z.of_nat i | None => 0 end.

Lemma route_of_absent ids id : id ∉ ids → route_of ids id = 0.
Proof.
  intros Hid. unfold route_of. destruct (list_find _ ids) as [[i x]|] eqn:E; [|done].
  apply list_find_Some in E as (Hx & <- & _). by apply list_elem_of_lookup_2 in Hx.
Qed.

Lemma route_of_lookup ids i id : NoDup ids → ids !! i = Some id → route_of ids id = 1 + Z.of_nat i.
Proof.
  intros Hnd Hi. unfold route_of. destruct (list_find _ ids) as [[j x]|] eqn:E.
  - apply list_find_Some in E as (Hx & <- & _). by rewrite (NoDup_lookup ids i j id).
  - apply list_find_None in E. rewrite Forall_lookup in E. by specialize (E _ _ Hi).
Qed.

Lemma route_of_range ids id : 0 <= route_of ids id <= Z.of_nat (length ids).
Proof.
  unfold route_of. destruct (list_find _ ids) as [[i x]|] eqn:E; [|lia].
  apply list_find_Some in E as (Hx%lookup_lt_Some & _). lia.
Qed.

Lemma route_of_inv ids id : route_of ids id ≠ 0 →
  ids !! Z.to_nat (route_of ids id - 1) = Some id.
Proof.
  unfold route_of. destruct (list_find _ ids) as [[i x]|] eqn:E; [|done].
  apply list_find_Some in E as (Hx & <- & _). intros _.
  by replace (Z.to_nat (1 + Z.of_nat i - 1)) with i by lia.
Qed.

Lemma route_of_snoc ids id id' : id' ∉ ids →
  route_of (ids ++ [id']) id = if decide (id = id') then 1 + Z.of_nat (length ids) else route_of ids id.
Proof.
  intros Hn. unfold route_of. destruct (list_find (id =.) ids) as [[i x]|] eqn:E.
  - rewrite (list_find_app_l _ _ _ _ _ E). apply list_find_Some in E as (Hx & <- & _).
    destruct decide as [->|]; [|done]. by apply list_elem_of_lookup_2 in Hx.
  - rewrite list_find_app_r by done. cbn.
    destruct decide as [->|]; cbn; [f_equal; lia|done].
Qed.

Definition msgids (s : SBR) : list Z :=
  MsgId <$> take (Z.to_nat (RouteIdxTop s)) (RoutingTbl s).

(** The routing table is well-formed: the entries in use come first, with
    distinct valid identifiers; the others are as CFE_SBR_Init left them. *)
Record sbr_wf (s : SBR) : Prop := {
  wf_len : length (RoutingTbl s) = 256%nat;
  wf_top : 0 <= RouteIdxTop s <= 256;
  wf_nodup : NoDup (msgids s);
  wf_valid : Forall (λ id, 0 <= id ∧ CFE_SB_IsValidMsgId id = true) (msgids s);
  wf_free : drop (Z.to_nat (RouteIdxTop s)) (RoutingTbl s) =
              replicate (256 - Z.to_nat (RouteIdxTop s)) (mkRouteEntry NULL CFE_SB_INVALID_MSG_ID 0);
}.

Lemma msgids_length s : sbr_wf s → length (msgids s) = Z.to_nat (RouteIdxTop s).
Proof. intros [? ? _ _]. unfold msgids. rewrite length_fmap, length_take. lia. Qed.

Lemma msgids_lookup s i id : sbr_wf s → msgids s !! i = Some id →
  ∃ e, RoutingTbl s !! i = Some e ∧ MsgId e = id.
Proof.
  intros Hwf Hi. unfold msgids in Hi. rewrite list_lookup_fmap in Hi.
  apply fmap_Some in Hi as (e & He & ->). apply lookup_take_Some in He as [He _]. eauto.
Qed.

Lemma IsValidRouteId_spec r : 0 <= r → CFE_SBR_IsValidRouteId r = true ↔ 1 <= r <= 256.
Proof. intros. unfold CFE_SBR_IsValidRouteId, CFE_PLATFORM_SB_MAX_MSG_IDS. lia. Qed.

Lemma IsValidMsgId_spec id : is_u32 id →
  CFE_SB_IsValidMsgId id = (id <=? CFE_PLATFORM_SB_HIGHEST_VALID_MSGID).
Proof.
  intros. unfold CFE_SB_IsValidMsgId, CFE_PLATFORM_SB_HIGHEST_VALID_MSGID.
  change CFE_SB_INVALID_MSG_ID with 0xFFFFFFFF.
  destruct (Z.leb_spec id 0x1FFF); [|apply andb_false_r].
  rewrite andb_true_r. apply negb_true_iff, Z.eqb_neq. lia.
Qed.

(** Reading the message identifier of a route in use. *)
Lemma GetMsgId_spec s r id : sbr_wf s → 1 <= r → msgids s !! Z.to_nat (r - 1) = Some id →
  CFE_SBR_GetMsgId r s = Some (id, s).
Proof.
  intros Hwf Hr Hid. pose proof (msgids_length s Hwf). pose proof (wf_top s Hwf).
  pose proof (lookup_lt_Some _ _ _ Hid). destruct (msgids_lookup s _ _ Hwf Hid) as (e & He & <-).
  unfold CFE_SBR_GetMsgId. replace (CFE_SBR_IsValidRouteId r) with true
    by (symmetry; apply IsValidRouteId_spec; lia).
  unfold CFE_SBR_RouteIdToValue. rewrite u16_small by (unfold is_u16; lia).
  run. by rewrite (tbl_get_Some _ _ e) by (try done; lia).
Qed.

(** ** What the identifier map promises to the routing table *)

Class MsgMapOK (I : MsgMap) := {
  map_ok : list Z → list Z → Prop;
  map_init : map_ok [] CFE_SBR_Init_Map;
  map_get s id : sbr_wf s → map_ok (msgids s) (MSGMAP s) → is_u32 id →
    CFE_SBR_GetRouteId id s = Some (route_of (msgids s) id, s);
  map_set s id : sbr_wf s → map_ok (msgids s) (MSGMAP s) →
    0 <= id → CFE_SB_IsValidMsgId id = true → id ∉ msgids s → RouteIdxTop s < 256 →
    ∃ c m', CFE_SBR_SetRouteId id (1 + RouteIdxTop s) s = Some (c, s <| MSGMAP := m' |>) ∧
      map_ok (msgids s ++ [id]) m';
}.

(** An invalid identifier has no route. *)
Lemma route_of_invalid s id : sbr_wf s → CFE_SB_IsValidMsgId id = false → route_of (msgids s) id = 0.
Proof.
  intros Hwf Hv. apply route_of_absent. intros Hin.
  pose proof (wf_valid s Hwf) as Hf. rewrite Forall_forall in Hf.
  destruct (Hf _ Hin) as [_ E]. congruence.
Qed.

(** ** The direct map *)

Definition direct_ok (ids m : list Z) : Prop :=
  length m = Z.to_nat Direct.CFE_SBR_MSG_MAP_SIZE ∧
  ∀ id, 0 <= id < Direct.CFE_SBR_MSG_MAP_SIZE → m !! Z.to_nat id = Some (route_of ids id).

#[export] Instance DirectMap_ok : MsgMapOK DirectMap.
Proof.
  refine {| map_ok := direct_ok |}.
  - split; [apply length_replicate|]. intros id Hid. apply lookup_replicate_2. lia.
  - intros s id Hwf [Hl Hm] Hid. cbn. unfold Direct.CFE_SBR_GetRouteId.
    rewrite IsValidMsgId_spec by done. unfold is_u32 in *.
    unfold Direct.CFE_SBR_MSG_MAP_SIZE, CFE_PLATFORM_SB_HIGHEST_VALID_MSGID in *.
    destruct (Z.leb_spec id 0x1FFF).
    + run. apply tbl_get_Some; [lia|]. apply Hm. lia.
    + run. rewrite (route_of_invalid s id) by (try done; unfold CFE_SB_IsValidMsgId,
        CFE_PLATFORM_SB_HIGHEST_VALID_MSGID; lia). done.
  - intros s id Hwf [Hl Hm] Hid Hv Hn Ht. cbn. unfold Direct.CFE_SBR_SetRouteId. rewrite Hv.
    assert (0 <= id < Direct.CFE_SBR_MSG_MAP_SIZE) as Hr.
    { unfold CFE_SB_IsValidMsgId in Hv. unfold Direct.CFE_SBR_MSG_MAP_SIZE. lia. }
    exists 0, (alter (λ _, 1 + RouteIdxTop s) (Z.to_nat id) (MSGMAP s)). split.
    + unfold set_MSGMAP. run. by rewrite tbl_upd_Some by lia.
    + split; [by rewrite length_alter|]. intros id' Hid'. rewrite route_of_snoc by done.
      rewrite (msgids_length s Hwf), Z2Nat.id by (pose proof (wf_top s Hwf); lia).
      destruct decide as [->|Hne].
      * by rewrite list_lookup_alter_eq, Hm by done.
      * by rewrite list_lookup_alter_ne, Hm by (try done; lia).
Qed.

(** ** The hash map *)

Definition cell (m : list Z) (k : Z) : option Z := m !! Z.to_nat (k mod 1024).

(** Every registered identifier is found by probing from its hash over cells in
    use, and the map has no more cells in use than there are routes. *)
Record hash_ok (ids m : list Z) : Prop := {
  h_len : length m = 1024%nat;
  h_range : Forall (λ c, 0 <= c <= Z.of_nat (length ids)) m;
  h_count : length (filter (λ c, c ≠ 0) m) = length ids;
  h_found i id : ids !! i = Some id → ∃ d : nat,
    cell m (Hash.CFE_SBR_MsgIdHash id + Z.of_nat d) = Some (1 + Z.of_nat i) ∧ (d < 1024)%nat ∧
    ∀ e : nat, (e < d)%nat → ∃ c, cell m (Hash.CFE_SBR_MsgIdHash id + Z.of_nat e) = Some c ∧ c ≠ 0;
}.

Lemma hash_range id : 0 <= id → 0 <= Hash.CFE_SBR_MsgIdHash id < 1024.
Proof.
  intros Hid. unfold Hash.CFE_SBR_MsgIdHash.
  apply (land_small _ _ 10); [lia| |by vm_compute].
  apply Z.lxor_nonneg. rewrite Z.shiftr_nonneg. split; auto.
Qed.

Lemma next_hash_mod h : 0 <= h < 1024 → Hash.next_hash h = (h + 1) mod 1024.
Proof.
  intros. unfold Hash.next_hash. rewrite u32_small by (unfold is_u32; lia).
  change (Hash.CFE_SBR_MSG_MAP_SIZE - 1) with (Z.ones 10). by rewrite Z.land_ones by lia.
Qed.

Lemma next_hash_range h : 0 <= h < 1024 → 0 <= Hash.next_hash h < 1024.
Proof. intros. rewrite next_hash_mod by done. by apply Z.mod_pos_bound. Qed.

Lemma cell_next m h e : 0 <= h < 1024 → cell m (Hash.next_hash h + e) = cell m (h + (e + 1)).
Proof.
  intros. unfold cell. rewrite next_hash_mod by done.
  rewrite Z.add_mod_idemp_l by lia. do 3 f_equal. lia.
Qed.

Lemma cell_0 m h : 0 <= h < 1024 → cell m h = m !! Z.to_nat h.
Proof. intros. unfold cell. by rewrite Z.mod_small. Qed.

Lemma tbl_get_cell {S} (m : list Z) h c (s : S) :
  0 <= h < 1024 → cell m h = Some c → tbl_get m h s = Some (c, s).
Proof. intros Hh Hc. rewrite cell_0 in Hc by done. apply tbl_get_Some; [lia|done]. Qed.

(** A cell on which the lookup of [id] stops: free, or the route of [id]. *)
Definition stops (ids : list Z) (id c : Z) : Prop := c = 0 ∨ ids !! Z.to_nat (c - 1) = Some id.

Lemma get_probe_spec s id R d : ∀ fuel h r,
  sbr_wf s → (d ≤ fuel)%nat → 0 <= h < 1024 → cell (MSGMAP s) h = Some r →
  (∀ e : nat, (e ≤ d)%nat → ∃ c, cell (MSGMAP s) (h + Z.of_nat e) = Some c ∧
     0 <= c <= Z.of_nat (length (msgids s)) ∧ (stops (msgids s) id c → c = R) ∧
     (e = d → stops (msgids s) id c)) →
  Hash.get_probe fuel id h r s = Some (R, s).
Proof.
  induction d as [|d IH]; intros fuel h r Hwf Hf Hh Hr Hc.
  all: destruct (Hc 0%nat ltac:(lia)) as (c & Hc0 & Hrange & HR & Hstop);
    rewrite Z.add_0_r, Hr in Hc0; injection Hc0 as <-.
  all: pose proof (msgids_length s Hwf) as Hlen; pose proof (wf_top s Hwf).
  all: assert (Hstep : r = 0 ∨ ∃ id', 1 <= r ∧ msgids s !! Z.to_nat (r - 1) = Some id' ∧
               CFE_SBR_GetMsgId r s = Some (id', s) ∧ CFE_SBR_IsValidRouteId r = true).
  1,3: (destruct (decide (r = 0)) as [|Hr0]; [by left|right];
    destruct (lookup_lt_is_Some_2 (msgids s) (Z.to_nat (r - 1))) as [id' Hid']; [lia|];
    exists id'; split_and!; [lia|done|apply GetMsgId_spec; try done; lia|
      apply IsValidRouteId_spec; lia]).
  - destruct (Hstep) as [->|(id' & H1 & Hid' & Hg & Hv)].
    + rewrite <- (HR (or_introl eq_refl)). by destruct fuel.
    + destruct (Hstop eq_refl) as [->|Heq]; [lia|].
      assert (id' = id) as -> by congruence. rewrite <- (HR (or_intror Heq)).
      destruct fuel; cbn; run; rewrite Hg, Hv, Z.eqb_refl; done.
  - destruct fuel as [|fuel]; [lia|]. destruct (Hstep) as [->|(id' & H1 & Hid' & Hg & Hv)].
    + rewrite <- (HR (or_introl eq_refl)). done.
    + cbn [Hash.get_probe]. unfold mbind, M_bind. rewrite Hg, Hv. cbn [andb].
      destruct (Z.eqb_spec id' id) as [->|Hne]; cbn [negb].
      { rewrite <- (HR (or_intror Hid')). done. }
      destruct (Hc 1%nat ltac:(lia)) as (c1 & Hc1 & _).
      replace (h + Z.of_nat 1) with (h + (0 + 1)) in Hc1 by lia.
      rewrite <- cell_next, Z.add_0_r in Hc1 by done. unfold gets.
      rewrite (tbl_get_cell _ _ c1) by (try done; by apply next_hash_range).
      apply IH; [done|lia|by apply next_hash_range|done|].
      intros e He. destruct (Hc (S e) ltac:(lia)) as (c & Hce & Hcr & HcR & Hcs).
      exists c. rewrite cell_next by done. replace (Z.of_nat e + 1) with (Z.of_nat (S e)) by lia.
      split_and!; try done; try lia. intros ->. auto.
Qed.

Lemma set_probe_spec s d : ∀ fuel h col,
  (d ≤ fuel)%nat → 0 <= h < 1024 → length (MSGMAP s) = 1024%nat →
  Forall (λ c, 0 <= c <= 256) (MSGMAP s) →
  cell (MSGMAP s) (h + Z.of_nat d) = Some 0 →
  ∃ (n : nat) col', (n ≤ d)%nat ∧
    Hash.set_probe fuel h col s = Some (((h + Z.of_nat n) mod 1024, col'), s) ∧
    cell (MSGMAP s) (h + Z.of_nat n) = Some 0 ∧
    ∀ e : nat, (e < n)%nat → ∃ c, cell (MSGMAP s) (h + Z.of_nat e) = Some c ∧ c ≠ 0.
Proof.
  induction d as [|d IH]; intros fuel h col Hf Hh Hl Hall Hd.
  - exists 0%nat, col. rewrite Z.add_0_r in *. split_and!; try done; try lia.
    rewrite Z.mod_small by done.
    destruct fuel; cbn [Hash.set_probe]; unfold mbind, M_bind, gets;
      by rewrite (tbl_get_cell _ _ 0) by done.
  - destruct fuel as [|fuel]; [lia|]. cbn [Hash.set_probe]. unfold mbind, M_bind, gets.
    destruct (cell (MSGMAP s) h) as [c|] eqn:Ec; cycle 1.
    { exfalso. rewrite cell_0 in Ec by done. apply lookup_ge_None in Ec. lia. }
    rewrite (tbl_get_cell _ _ c) by done.
    assert (0 <= c <= 256) as Hc by (rewrite cell_0 in Ec by done; by eapply Forall_lookup_1 in Hall).
    destruct (CFE_SBR_IsValidRouteId c) eqn:Ev.
    + apply IsValidRouteId_spec in Ev; [|lia].
      rewrite Nat2Z.inj_succ, <- Z.add_1_r, <- cell_next in Hd by done.
      destruct (IH fuel (Hash.next_hash h) (u32 (col + 1)) ltac:(lia) (next_hash_range h Hh) Hl Hall Hd)
        as (n & col' & Hn & E & H0 & He).
      exists (S n), col'. rewrite E. rewrite cell_next in H0 by done.
      replace (h + Z.of_nat (S n)) with (h + (Z.of_nat n + 1)) by lia. split_and!; [lia| |done|].
      * rewrite next_hash_mod, Z.add_mod_idemp_l by lia. do 4 f_equal. lia.
      * intros [|e] Hlt; [exists c; rewrite Z.add_0_r; split; [done|lia]|].
        destruct (He e ltac:(lia)) as (c' & Hc' & ?). rewrite cell_next in Hc' by done.
        exists c'. by replace (h + Z.of_nat (S e)) with (h + (Z.of_nat e + 1)) by lia.
    + exists 0%nat, col. rewrite Z.add_0_r, Z.mod_small by done.
      assert (c = 0) as ->.
      { destruct (decide (c = 0)) as [|]; [done|]. exfalso.
        rewrite (proj2 (IsValidRouteId_spec c ltac:(lia))) in Ev; [done|lia]. }
      split_and!; try done; lia.
Qed.

Lemma filter_all {A} (P : A → Prop) `{!∀ x, Decision (P x)} (l : list A) :
  Forall P l → filter P l = l.
Proof. induction 1; [done|]. rewrite filter_cons_True by done. by f_equal. Qed.

Lemma hash_free ids m h : hash_ok ids m → (length ids < 1024)%nat → 0 <= h < 1024 →
  ∃ d : nat, (d < 1024)%nat ∧ cell m (h + Z.of_nat d) = Some 0.
Proof.
  intros Hok Hl Hh. destruct (decide (0 ∈ m)) as [[k Hk]%list_elem_of_lookup_1|Hn].
  - pose proof (lookup_lt_Some _ _ _ Hk) as Hlt. rewrite (h_len _ _ Hok) in Hlt.
    pose proof (Z.mod_pos_bound (Z.of_nat k - h) 1024 ltac:(lia)).
    exists (Z.to_nat ((Z.of_nat k - h) mod 1024)). split; [lia|].
    unfold cell. rewrite Z2Nat.id, Z.add_mod_idemp_r by lia.
    replace (h + (Z.of_nat k - h)) with (Z.of_nat k) by lia.
    by rewrite Z.mod_small, Nat2Z.id by lia.
  - pose proof (h_count _ _ Hok) as Hc. rewrite filter_all in Hc.
    { rewrite (h_len _ _ Hok) in Hc. lia. }
    apply Forall_lookup. intros i x Hx ->. apply Hn. by eapply list_elem_of_lookup_2.
Qed.

Lemma hash_init : hash_ok [] Hash.CFE_SBR_Init_Map.
Proof.
  split; [by apply length_replicate| | |done].
  - apply Forall_replicate. cbn. lia.
  - unfold Hash.CFE_SBR_Init_Map. induction (Z.to_nat _); done.
Qed.

Lemma filter_alter_zero (m : list Z) i x : m !! i = Some 0 → x ≠ 0 →
  length (filter (λ c, c ≠ 0) (alter (λ _, x) i m)) = S (length (filter (λ c, c ≠ 0) m)).
Proof.
  intros Hi Hx. revert i Hi. induction m as [|y m IH]; intros [|i] Hi; try done.
  - injection Hi as ->. change (alter (λ _, x) 0%nat (0 :: m)) with (x :: m).
    rewrite filter_cons_True by done. rewrite filter_cons_False by (intros H; by apply H). done.
  - cbn in Hi. specialize (IH _ Hi).
    change (alter (λ _, x) (S i) (y :: m)) with (y :: alter (λ _, x) i m). rewrite !filter_cons.
    case_decide; cbn; auto.
Qed.

Lemma cell_alter_ne m k j x c : cell m j = Some c → cell m k = Some 0 → c ≠ 0 →
  cell (alter (λ _, x) (Z.to_nat (k mod 1024)) m) j = Some c.
Proof.
  intros Hj Hk Hc. unfold cell in *. rewrite list_lookup_alter_ne; [done|].
  intros E. rewrite E in Hk. congruence.
Qed.

(** Filling the first free cell of [id]'s probe sequence registers [id]. *)
Lemma hash_set ids m id (n : nat) :
  hash_ok ids m → (length ids < 256)%nat → 0 <= id → (n < 1024)%nat →
  let h := Hash.CFE_SBR_MsgIdHash id in
  cell m (h + Z.of_nat n) = Some 0 →
  (∀ e : nat, (e < n)%nat → ∃ c, cell m (h + Z.of_nat e) = Some c ∧ c ≠ 0) →
  hash_ok (ids ++ [id])
    (alter (λ _, 1 + Z.of_nat (length ids)) (Z.to_nat ((h + Z.of_nat n) mod 1024)) m).
Proof.
  intros Hok Hl Hid Hn h H0 He. destruct Hok as [Hlen Hr Hc Hf].
  set (x := 1 + Z.of_nat (length ids)). set (k := Z.to_nat _).
  assert (∀ j c, cell m j = Some c → c ≠ 0 → cell (alter (λ _, x) k m) j = Some c) as Hkeep.
  { intros. by eapply cell_alter_ne. }
  split.
  - by rewrite length_alter.
  - rewrite length_app. cbn. apply Forall_lookup. intros i y Hy.
    destruct (decide (i = k)) as [->|Hne].
    + rewrite list_lookup_alter_eq in Hy. unfold cell in H0. fold k in H0. rewrite H0 in Hy.
      injection Hy as <-. unfold x. lia.
    + rewrite list_lookup_alter_ne in Hy by done. eapply Forall_lookup_1 in Hr; [|done]. lia.
  - rewrite filter_alter_zero by (done || (unfold x; lia)). rewrite length_app. cbn. lia.
  - intros i id' Hi. apply lookup_app_Some in Hi as [Hi|[Hge Hi]].
    + destruct (Hf _ _ Hi) as (d & Hd & Hd1 & Hde). exists d. split_and!; [|done|].
      * apply Hkeep; [done|lia].
      * intros e Hlt. destruct (Hde e Hlt) as (c & ? & ?). eauto.
    + apply list_lookup_singleton_Some in Hi as [Hi <-].
      replace i with (length ids) by lia. exists n. split_and!; [|done|].
      * unfold cell. fold h k. rewrite list_lookup_alter_eq. unfold cell in H0. fold k in H0.
        by rewrite H0.
      * intros e Hlt. destruct (He e Hlt) as (c & ? & ?). eauto.
Qed.

Lemma hash_get s id : sbr_wf s → hash_ok (msgids s) (MSGMAP s) → is_u32 id →
  Hash.CFE_SBR_GetRouteId id s = Some (route_of (msgids s) id, s).
Proof.
  intros Hwf Hok Hid. unfold Hash.CFE_SBR_GetRouteId, is_u32 in *.
  pose proof (msgids_length s Hwf). pose proof (wf_top s Hwf). pose proof (h_range _ _ Hok) as Hr.
  destruct (CFE_SB_IsValidMsgId id) eqn:Hv; [|by rewrite route_of_invalid].
  pose proof (hash_range id ltac:(lia)) as Hh.
  set (h := Hash.CFE_SBR_MsgIdHash id) in *. unfold mbind, M_bind, gets.
  assert (∀ k, ∃ c, cell (MSGMAP s) k = Some c ∧ 0 <= c <= Z.of_nat (length (msgids s))) as Hcell.
  { intros k. pose proof (Z.mod_pos_bound k 1024 ltac:(lia)).
    destruct (lookup_lt_is_Some_2 (MSGMAP s) (Z.to_nat (k mod 1024))) as [c Hc];
      [rewrite (h_len _ _ Hok); lia|]. exists c. split; [done|]. by eapply Forall_lookup_1 in Hr. }
  destruct (Hcell h) as (r & Hr0 & _). rewrite (tbl_get_cell _ _ r) by done.
  destruct (decide (id ∈ msgids s)) as [[i Hi]%list_elem_of_lookup_1|Hn].
  + rewrite (route_of_lookup _ i) by (try done; by apply wf_nodup).
    destruct (h_found _ _ Hok _ _ Hi) as (d & Hd & Hd1 & Hde). fold h in Hd, Hde.
    apply (get_probe_spec s id _ d); [done|vm_compute Z.to_nat; lia|done|done|].
    intros e He. destruct (Hcell (h + Z.of_nat e)) as (c & Hc & Hcr). exists c.
    assert (c ≠ 0).
    { destruct (decide (e = d)) as [->|].
      - rewrite Hd in Hc. injection Hc. lia.
      - destruct (Hde e ltac:(lia)) as (c' & ? & ?). congruence. }
    split_and!; try done; try lia.
    * intros [->|Hs]; [done|].
      pose proof (NoDup_lookup _ _ _ _ (wf_nodup s Hwf) Hs Hi). lia.
    * intros ->. right. rewrite Hd in Hc. injection Hc as <-.
      by replace (Z.to_nat (1 + Z.of_nat i - 1)) with i by lia.
  + rewrite route_of_absent by done.
    destruct (hash_free _ _ h Hok ltac:(lia) Hh) as (d & Hd1 & Hd).
    apply (get_probe_spec s id _ d); [done|vm_compute Z.to_nat; lia|done|done|].
    intros e He. destruct (Hcell (h + Z.of_nat e)) as (c & Hc & Hcr). exists c.
    split_and!; try done; try lia.
    * intros [->|Hs]; [done|]. exfalso. apply Hn. by eapply list_elem_of_lookup_2.
    * intros ->. left. congruence.
Qed.

Lemma hash_setroute s id : sbr_wf s → hash_ok (msgids s) (MSGMAP s) →
  0 <= id → CFE_SB_IsValidMsgId id = true → id ∉ msgids s → RouteIdxTop s < 256 →
  ∃ c m', Hash.CFE_SBR_SetRouteId id (1 + RouteIdxTop s) s = Some (c, s <| MSGMAP := m' |>) ∧
    hash_ok (msgids s ++ [id]) m'.
Proof.
  intros Hwf Hok Hid Hv Hn Ht. unfold Hash.CFE_SBR_SetRouteId. rewrite Hv.
  pose proof (msgids_length s Hwf) as Hl. pose proof (wf_top s Hwf).
  pose proof (hash_range id Hid) as Hh.
  destruct (hash_free _ _ _ Hok ltac:(lia) Hh) as (d & Hd1 & Hd).
  destruct (set_probe_spec s d (Z.to_nat Hash.CFE_SBR_MSG_MAP_SIZE) _ 0 ltac:(vm_compute Z.to_nat; lia)
    Hh (h_len _ _ Hok)) as (n & col & Hnd & E & H0 & He).
  { eapply Forall_impl; [apply (h_range _ _ Hok)|]. cbn. lia. }
  { done. }
  exists col, (alter (λ _, 1 + RouteIdxTop s)
    (Z.to_nat ((Hash.CFE_SBR_MsgIdHash id + Z.of_nat n) mod 1024)) (MSGMAP s)).
  split.
  + unfold mbind, M_bind. rewrite E. unfold set_MSGMAP. run.
    rewrite tbl_upd_Some; [done|]. rewrite (h_len _ _ Hok). apply Z.mod_pos_bound. lia.
  + replace (RouteIdxTop s) with (Z.of_nat (length (msgids s))) by lia.
    apply hash_set; try done; lia.
Qed.

#[export] Instance HashMap_ok : MsgMapOK HashMap.
Proof.
  refine {| map_ok := hash_ok |}; [apply hash_init|apply hash_get|apply hash_setroute].
Qed.

(** ** The route table over any identifier map *)

(** Operations by message identifier, and what they do to the abstract table. *)

Inductive sbr_op :=
| Op_Route (id : Z) | Op_Register (id : Z) | Op_SetHead (id : Z) (p : addr) | Op_GetHead (id : Z)
| Op_Sent (id : Z) | Op_SeqCnt (id : Z) | Op_MsgId (id : Z).

Definition op_id (op : sbr_op) : Z :=
  match op with
  | Op_Route id | Op_Register id | Op_SetHead id _ | Op_GetHead id
  | Op_Sent id | Op_SeqCnt id | Op_MsgId id => id
  end.

Abbreviation routes := (list CFE_SBR_RouteEntry_t).

Definition abs_op (op : sbr_op) (es : routes) : Z * routes :=
  let r := route_of (MsgId <$> es) (op_id op) in
  let i := Z.to_nat (r - 1) in
  if decide (r = 0) then
    match op with
    | Op_Register id =>
        if CFE_SB_IsValidMsgId id && (Z.of_nat (length es) <? 256)
        then (1 + Z.of_nat (length es), es ++ [mkRouteEntry NULL id 0]) else (0, es)
    | Op_MsgId _ => (CFE_SB_INVALID_MSG_ID, es)
    | _ => (0, es)
    end
  else
    match op with
    | Op_Route _ | Op_Register _ => (r, es)
    | Op_SetHead _ p => (0, alter (λ e, e <| ListHeadPtr := p |>) i es)
    | Op_GetHead _ => (from_option ListHeadPtr NULL (es !! i), es)
    | Op_Sent _ => (0, alter (λ e, e <| SeqCnt ::= λ c, u16 (c + 1) |>) i es)
    | Op_SeqCnt _ => (from_option SeqCnt 0 (es !! i), es)
    | Op_MsgId id => (id, es)
    end.

Fixpoint abs_ops (ops : list sbr_op) (es : routes) : list Z * routes :=
  match ops with
  | [] => ([], es)
  | op :: ops =>
      let '(x, es) := abs_op op es in
      let '(xs, es) := abs_ops ops es in
      (x :: xs, es)
  end.

Section routes.
Context {I : MsgMap} {OK : MsgMapOK I}.

Record sbr_inv (s : SBR) : Prop := {
  inv_wf : sbr_wf s;
  inv_map : map_ok (msgids s) (MSGMAP s);
}.

(** The abstract table: the entries in use. *)
Definition entries (s : SBR) : list CFE_SBR_RouteEntry_t :=
  take (Z.to_nat (RouteIdxTop s)) (RoutingTbl s).

Lemma entries_length s : sbr_wf s → length (entries s) = Z.to_nat (RouteIdxTop s).
Proof. intros [? ? _ _]. unfold entries. rewrite length_take. lia. Qed.

Lemma Init_inv : sbr_inv CFE_SBR_Init.
Proof.
  split; [split|apply map_init]; cbn -[Z.to_nat].
  - by apply length_replicate.
  - lia.
  - constructor.
  - constructor.
  - done.
Qed.

Lemma Init_entries : entries CFE_SBR_Init = [].
Proof. done. Qed.

Lemma GetRouteId_spec s id : sbr_inv s → is_u32 id →
  CFE_SBR_GetRouteId id s = Some (route_of (MsgId <$> entries s) id, s).
Proof. intros [Hwf Hm] Hid. by apply map_get. Qed.

(** An update of an entry in use that keeps its identifier. *)
Lemma upd_entry s r (f : CFE_SBR_RouteEntry_t → CFE_SBR_RouteEntry_t) :
  sbr_inv s → (∀ e, MsgId (f e) = MsgId e) → 1 <= r <= RouteIdxTop s →
  let s' := s <| RoutingTbl := alter f (Z.to_nat (r - 1)) (RoutingTbl s) |> in
  upd_RoutingTbl (CFE_SBR_RouteIdToValue r) f s = Some (tt, s') ∧ sbr_inv s' ∧
  entries s' = alter f (Z.to_nat (r - 1)) (entries s).
Proof.
  intros [Hwf Hm] Hf Hr s'. destruct Hwf as [Hl Ht Hnd Hv Hfr].
  assert (entries s' = alter f (Z.to_nat (r - 1)) (entries s)) as He.
  { unfold entries. change (RoutingTbl s') with (alter f (Z.to_nat (r - 1)) (RoutingTbl s)).
    change (RouteIdxTop s') with (RouteIdxTop s).
    by rewrite take_alter_lt by lia. }
  assert (msgids s' = msgids s) as Hids.
  { change (msgids s') with (MsgId <$> entries s'). change (msgids s) with (MsgId <$> entries s).
    rewrite He. apply list_eq. intros i. rewrite !list_lookup_fmap.
    destruct (decide (Z.to_nat (r - 1) = i)) as [<-|Hne].
    - rewrite list_lookup_alter_eq. destruct (entries s !! _); cbn; by rewrite ?Hf.
    - by rewrite list_lookup_alter_ne by done. }
  split_and!; [| |done].
  - unfold upd_RoutingTbl, CFE_SBR_RouteIdToValue. rewrite u16_small by (unfold is_u16; lia).
    run. by rewrite tbl_upd_Some by lia.
  - split; [split|]; rewrite ?Hids; try done.
    + cbn. by rewrite length_alter.
    + change (RoutingTbl s') with (alter f (Z.to_nat (r - 1)) (RoutingTbl s)).
      change (RouteIdxTop s') with (RouteIdxTop s). by rewrite drop_alter_lt by lia.
Qed.

(** Registering an identifier that has no route. *)
Lemma AddRoute_spec s id p : sbr_inv s → is_u32 id → id ∉ msgids s →
  if CFE_SB_IsValidMsgId id && (RouteIdxTop s <? 256) then
    ∃ c s', CFE_SBR_AddRoute id p s = Some ((1 + RouteIdxTop s, (λ _, c) <$> p), s') ∧ sbr_inv s' ∧
      entries s' = entries s ++ [mkRouteEntry NULL id 0] ∧ RouteIdxTop s' = RouteIdxTop s + 1
  else CFE_SBR_AddRoute id p s = Some ((CFE_SBR_INVALID_ROUTE_ID, (λ _, 0) <$> p), s).
Proof.
  intros [Hwf Hm] Hid Hn. unfold CFE_SBR_AddRoute, CFE_PLATFORM_SB_MAX_MSG_IDS, is_u32 in *.
  destruct (CFE_SB_IsValidMsgId id) eqn:Hv; cbn [andb]; [|by run].
  destruct (Z.ltb_spec (RouteIdxTop s) 256) as [Ht|Ht]; [|run; by replace (_ <? 256) with false by lia].
  destruct (map_set s id Hwf Hm ltac:(lia) Hv Hn Ht) as (c & m' & E & Hm').
  destruct Hwf as [Hl Ht' Hnd Hva Hfr].
  unfold mbind, M_bind, gets. replace (_ <? 256) with true by lia. cbn [andb].
  unfold CFE_SBR_ValueToRouteId. rewrite u16_small, E by (unfold is_u16; lia).
  unfold upd_RoutingTbl. run. cbn. rewrite tbl_upd_Some by lia.
  rewrite u16_small by (unfold is_u16; lia).
  eexists _, _. split; [done|].
  set (t := Z.to_nat (RouteIdxTop s)) in *.
  assert (∃ rest, RoutingTbl s = take t (RoutingTbl s) ++ mkRouteEntry NULL CFE_SB_INVALID_MSG_ID 0 :: rest ∧
    rest = replicate (255 - t) (mkRouteEntry NULL CFE_SB_INVALID_MSG_ID 0)) as (rest & Hsplit & Hrest).
  { eexists. split; [|done]. rewrite <- (take_drop t (RoutingTbl s)) at 1. rewrite Hfr.
    by replace (256 - t)%nat with (S (255 - t)) by lia. }
  assert (length (take t (RoutingTbl s)) = t) as Hlt by (rewrite length_take; lia).
  assert (alter (λ e, mkRouteEntry (ListHeadPtr e) id (SeqCnt e)) t (RoutingTbl s) =
    (take t (RoutingTbl s) ++ [mkRouteEntry NULL id 0]) ++ rest) as Htbl.
  { rewrite Hsplit at 1. rewrite <- Hlt at 1.
    rewrite <- (Nat.add_0_r (length _)), alter_app_r. by rewrite <- (assoc_L (++)). }
  assert (Z.to_nat (RouteIdxTop s + 1) = length (take t (RoutingTbl s) ++ [mkRouteEntry NULL id 0])) as Hn1.
  { rewrite length_app, Hlt. cbn. lia. }
  match goal with |- sbr_inv ?x ∧ _ => set (s' := x) end.
  assert (entries s' = entries s ++ [mkRouteEntry NULL id 0]) as He.
  { unfold entries, s'. cbn. fold t. rewrite Htbl, Hn1. apply take_app_length. }
  assert (msgids s' = msgids s ++ [id]) as Hids.
  { change (msgids s') with (MsgId <$> entries s'). by rewrite He, fmap_app. }
  split_and!; [|done|done]. split; [split|]; rewrite ?Hids; cbn.
  - by rewrite length_alter.
  - lia.
  - apply NoDup_app. split_and!; [done| |apply NoDup_singleton]. intros x Hx ->%list_elem_of_singleton. done.
  - apply Forall_app. split; [done|]. constructor; [split; [lia|done]|constructor].
  - fold t. rewrite Htbl, Hn1, drop_app_length, Hrest. f_equal. rewrite length_app, Hlt. cbn. lia.
  - done.
Qed.

(** ** Client programs

    The operations the software bus performs, by message identifier: it looks a
    route up first and registers one only when there is none. *)

Definition run_op (op : sbr_op) : M SBR Z :=
  r ← CFE_SBR_GetRouteId (op_id op);
  match op with
  | Op_Route _ => mret r
  | Op_Register id =>
      if CFE_SBR_IsValidRouteId r then mret r else
      '(r, _) ← CFE_SBR_AddRoute id None;
      mret r
  | Op_SetHead _ p => CFE_SBR_SetDestListHeadPtr r p;; mret 0
  | Op_GetHead _ => CFE_SBR_GetDestListHeadPtr r
  | Op_Sent _ => CFE_SBR_IncrementSequenceCounter r;; mret 0
  | Op_SeqCnt _ => CFE_SBR_GetSequenceCounter r
  | Op_MsgId _ => CFE_SBR_GetMsgId r
  end.

Fixpoint run_ops (ops : list sbr_op) : M SBR (list Z) :=
  match ops with
  | [] => mret []
  | op :: ops => x ← run_op op; xs ← run_ops ops; mret (x :: xs)
  end.

Lemma route_entry s id : sbr_inv s → let r := route_of (MsgId <$> entries s) id in
  r ≠ 0 → 1 <= r <= RouteIdxTop s ∧ CFE_SBR_IsValidRouteId r = true ∧
    ∃ e, RoutingTbl s !! Z.to_nat (r - 1) = Some e ∧ entries s !! Z.to_nat (r - 1) = Some e ∧ MsgId e = id.
Proof.
  intros [Hwf Hm] r Hr. pose proof (route_of_range (MsgId <$> entries s) id) as Hrange.
  fold r in Hrange. rewrite length_fmap, entries_length in Hrange by done.
  pose proof (wf_top s Hwf). pose proof (route_of_inv _ _ Hr) as Hi. fold r in Hi.
  rewrite list_lookup_fmap in Hi. apply fmap_Some in Hi as (e & He & ->).
  split; [lia|]. split; [apply IsValidRouteId_spec; lia|].
  exists e. split_and!; [|done|done]. by apply lookup_take_Some in He as [He _].
Qed.

Lemma run_op_spec s op : sbr_inv s → is_u32 (op_id op) →
  ∃ s', run_op op s = Some ((abs_op op (entries s)).1, s') ∧ sbr_inv s' ∧
    entries s' = (abs_op op (entries s)).2.
Proof.
  intros Hinv Hid. unfold run_op. unfold mbind at 1, M_bind at 1.
  rewrite GetRouteId_spec by done. set (r := route_of _ (op_id op)).
  pose proof (inv_wf s Hinv) as Hwf. unfold abs_op. fold r.
  destruct (decide (r = 0)) as [Hr|Hr].
  - rewrite Hr. destruct op as [id|id|id p|id|id|id|id]; cbn; try (run; by eauto).
    assert (id ∉ msgids s) as Hn.
    { intros [i Hi]%list_elem_of_lookup_1.
      assert (r = 1 + Z.of_nat i) by exact (route_of_lookup _ i id (wf_nodup s Hwf) Hi). lia. }
    pose proof (AddRoute_spec s id None Hinv Hid Hn) as Ha.
    rewrite entries_length, Z2Nat.id by (pose proof (wf_top s Hwf); done || lia).
    destruct (CFE_SB_IsValidMsgId id && (RouteIdxTop s <? 256)) eqn:E.
    + destruct Ha as (c & s' & E' & Hs' & He & Ht). exists s'.
      unfold mbind, M_bind. rewrite E'. done.
    + exists s. unfold mbind, M_bind. rewrite Ha. done.
  - destruct (route_entry s _ Hinv Hr) as (Hrange & Hv & e & He & He' & Hid').
    pose proof (wf_top s Hwf).
    destruct op as [id|id|id p|id|id|id|id]; cbn [op_id fst snd] in *; fold r in Hv, He, He', Hrange;
      try (run; rewrite Hv; by eauto);
      unfold CFE_SBR_SetDestListHeadPtr, CFE_SBR_GetDestListHeadPtr, CFE_SBR_IncrementSequenceCounter,
        CFE_SBR_GetSequenceCounter, CFE_SBR_GetMsgId; rewrite ?Hv, ?He'; cbn [when].
    1: by eauto.
    1,3: match goal with |- context [upd_RoutingTbl _ ?f] =>
           destruct (upd_entry s r f Hinv (λ _, eq_refl) ltac:(lia)) as (Eu & Hs' & Hen) end;
         eexists; unfold mbind, M_bind; rewrite Eu; (split; [reflexivity|]); split; done.
    all: unfold CFE_SBR_RouteIdToValue; rewrite u16_small by (unfold is_u16; lia);
      unfold mbind, M_bind, gets; rewrite (tbl_get_Some _ _ e) by (try done; lia); eexists;
      (split; [try reflexivity; by rewrite Hid'|]); split; done.
Qed.

Lemma run_ops_spec ops s : sbr_inv s → Forall (λ op, is_u32 (op_id op)) ops →
  ∃ s', run_ops ops s = Some ((abs_ops ops (entries s)).1, s') ∧ sbr_inv s' ∧
    entries s' = (abs_ops ops (entries s)).2.
Proof.
  revert s. induction ops as [|op ops IH]; intros s Hinv Hids; [by exists s|].
  inversion_clear Hids as [|? ? Hid Hids']. cbn [run_ops abs_ops].
  destruct (run_op_spec s op Hinv Hid) as (s1 & E1 & Hinv1 & He1).
  destruct (IH s1 Hinv1 Hids') as (s2 & E2 & Hinv2 & He2). rewrite He1 in *.
  destruct (abs_op op (entries s)) as [x es]. cbn [fst snd] in *.
  destruct (abs_ops ops es) as [xs es']. cbn [fst snd] in *.
  exists s2. unfold mbind, M_bind. rewrite E1, E2. done.
Qed.

End routes.

(** [C40] The routing module over either identifier map refines the abstract
    table: every sequence of software bus operations from CFE_SBR_Init runs without
    an access out of bounds or an endless probe, and returns what the list of
    routes in registration order gives. *)
Theorem sbr_refines {I : MsgMap} {OK : MsgMapOK I} ops
    (Hids : Forall (λ op, is_u32 (op_id op)) ops) :
  ∃ s, run_ops ops CFE_SBR_Init = Some ((abs_ops ops []).1, s) ∧ entries s = (abs_ops ops []).2 ∧
    NoDup (MsgId <$> entries s) ∧ (length (entries s) ≤ 256)%nat.
Proof.
  destruct (run_ops_spec ops CFE_SBR_Init Init_inv Hids) as (s & E & [Hwf _] & He).
  rewrite Init_entries in *. exists s. split_and!; try done; [apply Hwf|].
  rewrite entries_length by done. pose proof (wf_top s Hwf). lia.
Qed.

(** Three registrations, two of which collide in the hash map. *)
Definition sbr_prog : list sbr_op :=
  [Op_Register 0x1806; Op_Register 0x800; Op_Register 0x1806; Op_Sent 0x800; Op_SeqCnt 0x800;
   Op_SetHead 0x1806 16; Op_GetHead 0x1806; Op_Route 0x801; Op_Register 0x2000; Op_MsgId 0x800].

Lemma sbr_prog_u32 : Forall (λ op, is_u32 (op_id op)) sbr_prog.
Proof. repeat constructor; cbn; lia. Qed.

Lemma sbr_refines_witness :
  ∃ s, run_ops (I := HashMap) sbr_prog (CFE_SBR_Init (H := HashMap)) =
         Some ([1; 2; 1; 0; 1; 0; 16; 0; 0; 0x800], s).
Proof.
  destruct (sbr_refines (I := HashMap) sbr_prog sbr_prog_u32) as (s & E & _).
  exists s. rewrite E. reflexivity.
Defined.

Lemma RoutingTbl_entries s : sbr_wf s →
  RoutingTbl s = entries s ++ replicate (256 - length (entries s)) (mkRouteEntry NULL CFE_SB_INVALID_MSG_ID 0).
Proof.
  intros Hwf. rewrite entries_length by done. unfold entries.
  by rewrite <- (wf_free s Hwf), take_drop.
Qed.

(** The two identifier maps cannot be told apart but by the number of collisions that
    adding a route reports: any sequence of software bus operations gives the same other
    results and the same routing table with the direct table and with the hash table. *)
Theorem direct_hash_equiv ops (Hids : Forall (λ op, is_u32 (op_id op)) ops) :
  ∃ out sd sh, run_ops (I := DirectMap) ops (CFE_SBR_Init (H := DirectMap)) = Some (out, sd) ∧
    run_ops (I := HashMap) ops (CFE_SBR_Init (H := HashMap)) = Some (out, sh) ∧
    RoutingTbl sd = RoutingTbl sh ∧ RouteIdxTop sd = RouteIdxTop sh.
Proof.
  destruct (run_ops_spec (I := DirectMap) ops _ Init_inv Hids) as (sd & Ed & [Hd _] & Hed).
  destruct (run_ops_spec (I := HashMap) ops _ Init_inv Hids) as (sh & Eh & [Hh _] & Heh).
  rewrite Init_entries in *. exists (abs_ops ops []).1, sd, sh. split_and!; try done.
  - rewrite (RoutingTbl_entries sd), (RoutingTbl_entries sh) by done. by rewrite Hed, Heh.
  - pose proof (entries_length sd Hd). pose proof (entries_length sh Hh).
    pose proof (wf_top sd Hd). pose proof (wf_top sh Hh).
    assert (length (entries sd) = length (entries sh)) by by rewrite Hed, Heh. lia.
Qed.

Lemma direct_hash_equiv_witness :
  ∃ out sd sh, run_ops (I := DirectMap) sbr_prog (CFE_SBR_Init (H := DirectMap)) = Some (out, sd) ∧
    run_ops (I := HashMap) sbr_prog (CFE_SBR_Init (H := HashMap)) = Some (out, sh) ∧
    RoutingTbl sd = RoutingTbl sh ∧ RouteIdxTop sd = RouteIdxTop sh.
Proof. exact (direct_hash_equiv sbr_prog sbr_prog_u32). Defined.

(** ** Iteration *)

Section iteration.
Context {S : Type} (top : S → Z) (cb : Z → M S unit).

Fixpoint iterM (l : list Z) : M S unit :=
  match l with [] => mret tt | r :: l => cb r;; iterM l end.

(** A client that sweeps the table in portions, as the throttle is meant for: the
    next call starts at the index the previous one returned. *)
Fixpoint sweep (fuel : nat) (start maxloop : Z) : M S unit :=
  match fuel with
  | O => undef
  | Datatypes.S fuel =>
      t ← CFE_SBR_ForEachRouteId top cb (Some (mkThrottle start maxloop 0));
      match t with
      | Some t => if NextIndex t =? 0 then mret tt else sweep fuel (NextIndex t) maxloop
      | None => undef
      end
  end.

Context (Htop : ∀ r s s', cb r s = Some (tt, s') → top s' = top s).

Lemma iterM_app l1 l2 s : iterM (l1 ++ l2) s = (iterM l1;; iterM l2) s.
Proof.
  revert s. induction l1 as [|r l1 IH]; intros s; [done|]. cbn [iterM app].
  unfold mbind, M_bind. destruct (cb r s) as [[[] s']|]; [|done]. rewrite IH. done.
Qed.

Lemma iterM_top l s s' : iterM l s = Some (tt, s') → top s' = top s.
Proof.
  revert s. induction l as [|r l IH]; intros s; cbn [iterM]; [by intros [= ->]|].
  intros ([] & s1 & H1 & H2)%bind_inv. rewrite (IH _ H2). by eapply Htop.
Qed.

Lemma foreach_loop_iter i n s : 0 <= i → i + Z.of_nat n < 2 ^ 16 →
  foreach_loop cb i n s = iterM (seqZ (i + 1) (Z.of_nat n)) s.
Proof.
  revert i s. induction n as [|n IH]; intros i s Hi Hn; [done|].
  cbn [foreach_loop]. rewrite seqZ_cons by lia. cbn [iterM].
  unfold CFE_SBR_ValueToRouteId. rewrite (Z.add_comm 1 i), !u16_small by (unfold is_u16; lia).
  unfold mbind, M_bind. destruct (cb (i + 1) s) as [[[] s']|]; [|done].
  rewrite IH by lia. do 2 f_equal; lia.
Qed.

Lemma sweep_iter fuel start maxloop s :
  0 <= start <= top s → top s <= 256 → 1 <= maxloop < 2 ^ 31 → (Z.to_nat (top s - start) < fuel)%nat →
  sweep fuel start maxloop s = iterM (seqZ (start + 1) (top s - start)) s.
Proof.
  revert start s. induction fuel as [|fuel IH]; intros start s Hs Ht Hm Hf; [lia|].
  cbn [sweep]. unfold CFE_SBR_ForEachRouteId. unfold mbind, M_bind, gets. cbn [StartIndex MaxLoop].
  rewrite (u16_small start), (u32_small (start + maxloop)) by (unfold is_u16, is_u32; lia).
  destruct (Z.ltb_spec (start + maxloop) (top s)) as [Hlt|Hge].
  - rewrite u16_small by (unfold is_u16; lia).
    replace (start + maxloop - start) with maxloop by lia.
    rewrite foreach_loop_iter, Z2Nat.id by lia.
    replace (top s - start) with (maxloop + (top s - (start + maxloop))) by lia.
    rewrite seqZ_app, iterM_app by lia. unfold mbind, M_bind.
    destruct (iterM (seqZ (start + 1) maxloop) s) as [[[] s']|] eqn:E; [|done].
    apply iterM_top in E. cbn -[sweep]. replace (start + maxloop =? 0) with false by lia.
    rewrite IH by lia. rewrite E. do 2 f_equal; lia.
  - rewrite foreach_loop_iter, Z2Nat.id by lia.
    by destruct (iterM (seqZ (start + 1) (top s - start)) s) as [[[] s']|].
Qed.

(** Sweeping the routing table in throttled portions of any size calls the
    callback on every route in use exactly once and in order, as one call without
    throttle does. *)
Theorem sweep_complete maxloop s (Hm : 1 <= maxloop < 2 ^ 31) (Ht : 0 <= top s <= 256) :
  sweep 257 0 maxloop s = iterM (seqZ 1 (top s)) s ∧
  (CFE_SBR_ForEachRouteId top cb None;; mret tt) s = iterM (seqZ 1 (top s)) s.
Proof.
  split.
  - rewrite sweep_iter by lia. by rewrite Z.sub_0_r.
  - unfold CFE_SBR_ForEachRouteId. unfold mbind, M_bind, gets.
    rewrite foreach_loop_iter, Z2Nat.id, Z.sub_0_r by lia. change (0 + 1) with 1.
    by destruct (iterM (seqZ 1 (top s)) s) as [[[] s']|].
Qed.

End iteration.

Lemma sweep_complete_witness :
  sweep (S := list Z) (λ _, 5) (λ r, modify (λ l, l ++ [r])) 257 0 2 [] = Some (tt, [1; 2; 3; 4; 5]).
Proof.
  rewrite (proj1 (sweep_complete (S := list Z) (λ _, 5) (λ r, modify (λ l, l ++ [r]))
    (λ _ _ _ _, eq_refl) 2 [] ltac:(lia) ltac:(lia))). reflexivity.
Defined.
