(* ===== verification/SbState.v ===== *)
(** * State of the software bus (cfe/fsw/cfe-core/src/sb)

    CFE_SB_Global with the memory it points into, the services the bus calls, and
    the primitive reads and writes of that state.

    Descriptors live in maps from addresses: an access to an address that is not
    allocated has no result.  The services are type classes: the ES memory pool
    and the OSAL queues, each with a view ([p_live], [q_items]) in which its laws
    are stated; the bus is modelled and verified over any implementation that has
    the laws. *)
From stdpp Require Import strings.
From S2P Require Import Prelude Config Msg ResourceId Sbr.

(** ** Services *)

(** CFE_ES_GetPoolBuf, CFE_ES_PutPoolBuf: the status is the size of the block when
    positive; [p_live] is the set of blocks handed out. *)
Class MemPool (PS : Type) := {
  CFE_ES_GetPoolBuf : Z → PS → (Z * addr) * PS;
  CFE_ES_PutPoolBuf : addr → PS → Z * PS;
  p_live : PS → gmap addr Z;
}.

Class MemPoolOK (PS : Type) `{MemPool PS} := {
  get_fail size p st a p' : CFE_ES_GetPoolBuf size p = ((st, a), p') → st < 0 → p_live p' = p_live p;
  get_ok size p st a p' : 0 < size → CFE_ES_GetPoolBuf size p = ((st, a), p') → 0 <= st →
    0 < a ∧ size <= st ∧ p_live p !! a = None ∧ p_live p' = <[a := st]> (p_live p);
  put_ok a n p : p_live p !! a = Some n →
    ∃ p', CFE_ES_PutPoolBuf a p = (n, p') ∧ p_live p' = delete a (p_live p);
}.

(** OSAL queues of pointers, each with the depth it was created with.  [OS_QueueGet]
    returns [None] when the call does not return (a pend on an empty queue); its
    result is the status, the pointer read and the number of bytes copied.

    The laws are those of a queue that works: [put_room] and [delete_ok] leave out the
    OS_ERROR that OSAL documents for a failure of the operating system below it. *)
Class OSQueue (QS : Type) := {
  OS_QueueCreate : ptr string → Z → QS → (Z * Z) * QS;
  OS_QueueDelete : Z → QS → Z * QS;
  OS_QueuePut : Z → addr → QS → Z * QS;
  OS_QueueGet : Z → Z → QS → option ((Z * addr * Z) * QS);
  OS_GetResourceName : Z → Z → QS → Z * string;
  OS_QueueGetIdByName : string → QS → Z * Z;
  q_items : QS → gmap Z (list addr);
  q_depth : QS → Z → Z;
}.

Class OSQueueOK (QS : Type) `{OSQueue QS} := {
  create_ok name depth q id q' : OS_QueueCreate name depth q = ((OS_SUCCESS, id), q') →
    q_items q !! id = None ∧ q_items q' = <[id := []]> (q_items q) ∧ q_depth q' id = depth;
  create_fail name depth q st id q' : OS_QueueCreate name depth q = ((st, id), q') → st ≠ OS_SUCCESS →
    q_items q' = q_items q;
  delete_ok id q st q' : OS_QueueDelete id q = (st, q') → is_Some (q_items q !! id) →
    q_items q' = delete id (q_items q);
  put_queue id a q st q' l : OS_QueuePut id a q = (st, q') → q_items q !! id = Some l →
    q_items q' = if decide (st = OS_SUCCESS) then <[id := l ++ [a]]> (q_items q) else q_items q;
  put_depth id a q : q_depth (OS_QueuePut id a q).2 = q_depth q;
  put_room id a q l : q_items q !! id = Some l → Z.of_nat (length l) < q_depth q id →
    (OS_QueuePut id a q).1 = OS_SUCCESS;
  get_item id t q a l : q_items q !! id = Some (a :: l) →
    ∃ q', OS_QueueGet id t q = Some ((OS_SUCCESS, a, sizeof_ptr), q') ∧
      q_items q' = <[id := l]> (q_items q);
  get_empty id t q r : q_items q !! id = Some [] → OS_QueueGet id t q = Some r →
    r.1.1.1 ≠ OS_SUCCESS ∧ q_items r.2 = q_items q;
  get_check id q : q_items q !! id = Some [] →
    ∃ a n q', OS_QueueGet id OS_CHECK q = Some ((OS_QUEUE_EMPTY, a, n), q');
  get_timed id t q : q_items q !! id = Some [] → t ≠ OS_PEND → is_Some (OS_QueueGet id t q);
}.

(** ** Data structures (cfe_sb_priv.h, cfe_sb_destination_typedef.h) *)

Definition CFE_ES_APPID_UNDEFINED : Z := CFE_RESOURCEID_UNDEFINED.
Definition CFE_SB_INVALID_PIPE : Z := CFE_RESOURCEID_UNDEFINED.
Definition CFE_SB_ACTIVE : Z := 1.
Definition CFE_SB_INACTIVE : Z := 0.
Definition CFE_SB_MSG_GLOBAL : Z := 0.
Definition CFE_SB_MSG_LOCAL : Z := 1.
Definition CFE_SB_PIPEOPTS_IGNOREMINE : Z := 1.
Definition CFE_SB_POLL : Z := 0.
Definition CFE_SB_PEND_FOREVER : Z := -1.

(** The link is the descriptor's first member, so a descriptor and its link have
    the same address; the two list heads are members of CFE_SB_Global. *)
Record CFE_SB_BufferLink_t := mkLink { lk_Next : addr; lk_Prev : addr }.

Definition InTransitList : addr := -1.
Definition ZeroCopyList : addr := -2.

Record CFE_SB_BufferD_t := mkBufferD {
  bd_MsgId : Z;
  bd_AppId : Z;
  bd_AllocatedSize : Z;
  bd_ContentSize : Z;
  bd_ContentType : CFE_MSG_Type;
  bd_AutoSequence : bool;
  bd_UseCount : Z;
  bd_Content : list Z;
}.

Record CFE_SB_DestinationD_t := mkDestinationD {
  dd_PipeId : Z;
  dd_Active : Z;
  dd_MsgId2PipeLim : Z;
  dd_BuffCount : Z;
  dd_DestCnt : Z;
  dd_Scope : Z;
  dd_Prev : addr;
  dd_Next : addr;
}.

Record CFE_SB_PipeD_t := mkPipeD {
  pd_PipeId : Z;
  pd_Opts : Z;
  pd_AppId : Z;
  pd_SysQueueId : Z;
  pd_SendErrors : Z;
  pd_MaxQueueDepth : Z;
  pd_CurrentQueueDepth : Z;
  pd_PeakQueueDepth : Z;
  pd_LastBuffer : addr;
}.

(** The counters of the housekeeping and statistics telemetry (cfe_sb_msg.h). *)

Record HKTlm_Payload := mkHK {
  CommandCounter : Z;
  CommandErrorCounter : Z;
  NoSubscribersCounter : Z;
  MsgSendErrorCounter : Z;
  MsgReceiveErrorCounter : Z;
  InternalErrorCounter : Z;
  CreatePipeErrorCounter : Z;
  SubscribeErrorCounter : Z;
  PipeOptsErrorCounter : Z;
  DuplicateSubscriptionsCounter : Z;
  GetPipeIdByNameErrorCounter : Z;
  PipeOverflowErrorCounter : Z;
  MsgLimitErrorCounter : Z;
}.

Record StatTlm_Payload := mkStat {
  MsgIdsInUse : Z;
  PeakMsgIdsInUse : Z;
  PipesInUse : Z;
  PeakPipesInUse : Z;
  MemInUse : Z;
  PeakMemInUse : Z;
  SubscriptionsInUse : Z;
  PeakSubscriptionsInUse : Z;
  SBBuffersInUse : Z;
  PeakSBBuffersInUse : Z;
}.

Inductive CFE_EVS_EventType :=
| CFE_EVS_EventType_DEBUG | CFE_EVS_EventType_INFORMATION | CFE_EVS_EventType_ERROR.

(** An event: its identifier, its type and, for the delivery errors, the message
    identifier read for the text. *)
Record Event := mkEvent { ev_Id : Z; ev_Type : CFE_EVS_EventType; ev_MsgId : option Z }.

(** CFE_SB_Global with the pool memory, the routing module's data and the services'
    states.  [Locked] is the shared data mutex, [Stale] what the descriptors
    returned to the pool held (their memory stays mapped), [Events] the events
    sent, latest last. *)
Record CFE_SB_Global_t {PS QS : Type} := mkGlobal {
  Locked : bool;
  SubscriptionReporting : bool;
  StopRecurseFlags : list Z;
  PipeTbl : list CFE_SB_PipeD_t;
  HK : HKTlm_Payload;
  Stat : StatTlm_Payload;
  LastPipeId : Z;
  Routes : SBR;
  Dests : gmap addr CFE_SB_DestinationD_t;
  Bufs : gmap addr CFE_SB_BufferD_t;
  Links : gmap addr CFE_SB_BufferLink_t;
  Stale : gmap addr CFE_SB_BufferD_t;
  Pool : PS;
  Queues : QS;
  Events : list Event;
}.
Arguments CFE_SB_Global_t : clear implicits.

(** What CFE_ES_GetAppID and CFE_ES_GetTaskID report for the calling task, and the
    index CFE_ES_TaskID_ToIndex gives for it, if any. *)
Record Caller := mkCaller { c_Status : Z; c_AppId : Z; c_TaskIndex : option Z }.

#[export] Instance Link_eta : Eta CFE_SB_BufferLink_t := mkEta (λ r,
  mkLink (lk_Next r) (lk_Prev r)).
#[export] Instance BufferD_eta : Eta CFE_SB_BufferD_t := mkEta (λ r,
  mkBufferD (bd_MsgId r) (bd_AppId r) (bd_AllocatedSize r) (bd_ContentSize r) (bd_ContentType r)
    (bd_AutoSequence r) (bd_UseCount r) (bd_Content r)).
#[export] Instance DestinationD_eta : Eta CFE_SB_DestinationD_t := mkEta (λ r,
  mkDestinationD (dd_PipeId r) (dd_Active r) (dd_MsgId2PipeLim r) (dd_BuffCount r) (dd_DestCnt r)
    (dd_Scope r) (dd_Prev r) (dd_Next r)).
#[export] Instance PipeD_eta : Eta CFE_SB_PipeD_t := mkEta (λ r,
  mkPipeD (pd_PipeId r) (pd_Opts r) (pd_AppId r) (pd_SysQueueId r) (pd_SendErrors r)
    (pd_MaxQueueDepth r) (pd_CurrentQueueDepth r) (pd_PeakQueueDepth r) (pd_LastBuffer r)).
#[export] Instance HK_eta : Eta HKTlm_Payload := mkEta (λ r,
  mkHK (CommandCounter r) (CommandErrorCounter r) (NoSubscribersCounter r) (MsgSendErrorCounter r) (MsgReceiveErrorCounter r)
    (InternalErrorCounter r) (CreatePipeErrorCounter r) (SubscribeErrorCounter r)
    (PipeOptsErrorCounter r) (DuplicateSubscriptionsCounter r) (GetPipeIdByNameErrorCounter r)
    (PipeOverflowErrorCounter r) (MsgLimitErrorCounter r)).
#[export] Instance Stat_eta : Eta StatTlm_Payload := mkEta (λ r,
  mkStat (MsgIdsInUse r) (PeakMsgIdsInUse r) (PipesInUse r) (PeakPipesInUse r) (MemInUse r)
    (PeakMemInUse r) (SubscriptionsInUse r) (PeakSubscriptionsInUse r) (SBBuffersInUse r)
    (PeakSBBuffersInUse r)).
#[export] Instance Global_eta PS QS : Eta (CFE_SB_Global_t PS QS) := mkEta (λ r,
  mkGlobal PS QS (Locked r) (SubscriptionReporting r) (StopRecurseFlags r) (PipeTbl r) (HK r)
    (Stat r) (LastPipeId r) (Routes r) (Dests r) (Bufs r) (Links r) (Stale r) (Pool r) (Queues r)
    (Events r)).

(** [++counter] on a field of [n] bits. *)
Definition incr (n : Z) (c : Z) : Z := (c + 1) mod 2 ^ n.
Definition decr (n : Z) (c : Z) : Z := (c - 1) mod 2 ^ n.

(** ** Primitive operations *)

Section prims.
Context {PS QS : Type}.
Abbreviation G := (CFE_SB_Global_t PS QS).

Definition hk (f : HKTlm_Payload → HKTlm_Payload) : M G unit := modify (λ s, s <| HK ::= f |>).
Definition stat (f : StatTlm_Payload → StatTlm_Payload) : M G unit := modify (λ s, s <| Stat ::= f |>).

(** The shared data mutex is not recursive: taking it twice does not return. *)
Definition CFE_SB_LockSharedData : M G unit :=
  l ← gets Locked;
  if l : bool then undef else modify (λ s, s <| Locked := true |>).

Definition CFE_SB_UnlockSharedData : M G unit :=
  l ← gets Locked;
  if l : bool then modify (λ s, s <| Locked := false |>) else undef.

(** Events must not be sent while the bus is locked (EVS sends them on the bus). *)
Definition SendEvent (id : Z) (type : CFE_EVS_EventType) (msgid : option Z) : M G unit :=
  l ← gets Locked;
  if l : bool then undef else modify (λ s, s <| Events ::= λ es, es ++ [mkEvent id type msgid] |>).

Definition CFE_EVS_SendEventWithAppID (id : Z) (type : CFE_EVS_EventType) : M G unit :=
  SendEvent id type None.

(** Reads and writes through descriptor pointers. *)

Definition rd_dest (a : addr) : M G CFE_SB_DestinationD_t := λ s,
  of_option (Dests s !! a) s.
Definition wr_dest (a : addr) (f : CFE_SB_DestinationD_t → CFE_SB_DestinationD_t) : M G unit :=
  d ← rd_dest a; modify (λ s, s <| Dests ::= <[a := f d]> |>).

Definition rd_buf (a : addr) : M G CFE_SB_BufferD_t := λ s, of_option (Bufs s !! a) s.
Definition wr_buf (a : addr) (f : CFE_SB_BufferD_t → CFE_SB_BufferD_t) : M G unit :=
  b ← rd_buf a; modify (λ s, s <| Bufs ::= <[a := f b]> |>).

(** A read of descriptor memory whether or not the block is still allocated: only the
    events of failed deliveries (SbApi.send_errs) read so, after the broadcast may have
    given the descriptor back; [Stale] is what the block held then. *)
Definition peek_buf (a : addr) : M G CFE_SB_BufferD_t := λ s,
  of_option (match Bufs s !! a with Some b => Some b | None => Stale s !! a end) s.

Definition rd_link (a : addr) : M G CFE_SB_BufferLink_t := λ s, of_option (Links s !! a) s.
Definition wr_link (a : addr) (f : CFE_SB_BufferLink_t → CFE_SB_BufferLink_t) : M G unit :=
  l ← rd_link a; modify (λ s, s <| Links ::= <[a := f l]> |>).

(** A pipe descriptor pointer is the index in PipeTbl, [None] for NULL. *)
Definition rd_pipe (i : Z) : M G CFE_SB_PipeD_t := tbl ← gets PipeTbl; tbl_get tbl i.
Definition wr_pipe (i : Z) (f : CFE_SB_PipeD_t → CFE_SB_PipeD_t) : M G unit :=
  tbl ← gets PipeTbl;
  tbl ← of_option (tbl_upd f i tbl);
  modify (λ s, s <| PipeTbl := tbl |>).

(** Calls into the routing module and the services. *)
Definition sbr {A} (c : M SBR A) : M G A := λ s,
  match c (Routes s) with Some (a, r) => Some (a, s <| Routes := r |>) | None => None end.
Definition pool {A} (f : PS → A * PS) : M G A := λ s,
  let '(a, p) := f (Pool s) in Some (a, s <| Pool := p |>).
Definition queues {A} (f : QS → A * QS) : M G A := λ s,
  let '(a, q) := f (Queues s) in Some (a, s <| Queues := q |>).
Definition queues_opt {A} (f : QS → option (A * QS)) : M G A := λ s,
  match f (Queues s) with Some (a, q) => Some (a, s <| Queues := q |>) | None => None end.

End prims.
