(* ===== verification/SbBuf.v ===== *)
(** * Buffers, destinations and pipe descriptors (cfe_sb_buf.c, cfe_sb_priv.c)

    The internal operations the software bus API is made of. *)
From S2P Require Import Prelude Config Msg ResourceId Sbr SbState.

Section sb.
Context {PS QS : Type} `{MemPool PS} `{OSQueue QS} `{MsgMap}.
Abbreviation G := (CFE_SB_Global_t PS QS).

(** ** Tracking lists (cfe_sb_buf.c) *)

Definition CFE_SB_TrackingListReset (Link : addr) : M G unit :=
  wr_link Link (λ l, l <| lk_Prev := Link |>);;
  wr_link Link (λ l, l <| lk_Next := Link |>).

Definition CFE_SB_TrackingListRemove (Node : addr) : M G unit :=
  (* Node->Prev->Next = Node->Next *)
  n ← rd_link Node;
  wr_link (lk_Prev n) (λ l, l <| lk_Next := lk_Next n |>);;
  (* Node->Next->Prev = Node->Prev *)
  n ← rd_link Node;
  wr_link (lk_Next n) (λ l, l <| lk_Prev := lk_Prev n |>);;
  CFE_SB_TrackingListReset Node.

Definition CFE_SB_TrackingListAdd (List Node : addr) : M G unit :=
  h ← rd_link List;
  wr_link Node (λ l, l <| lk_Prev := lk_Prev h |>);;
  wr_link Node (λ l, l <| lk_Next := List |>);;
  n ← rd_link Node;
  wr_link (lk_Prev n) (λ l, l <| lk_Next := Node |>);;
  n ← rd_link Node;
  wr_link (lk_Next n) (λ l, l <| lk_Prev := Node |>).

(** ** Buffer descriptors *)

(** A write to the first [n] bytes of a block; a smaller block has no defined result. *)
Definition in_block (a : addr) (n : Z) : M G unit :=
  p ← gets Pool;
  match p_live p !! a with Some k => if n <=? k then mret tt else undef | None => undef end.

(** The memory of a new block, cleared up to the content; the content is written
    by every caller before it is read. *)
Definition alloc_buf (bd : addr) : M G unit :=
  in_block bd CFE_SB_BUFFERD_CONTENT_OFFSET;;
  modify (λ s, s <| Bufs ::= <[bd := mkBufferD 0 0 0 0 CFE_MSG_Type_Invalid false 0 []]> |>
                 <| Links ::= <[bd := mkLink NULL NULL]> |>
                 <| Stale ::= delete bd |>).

Definition CFE_SB_GetBufferFromPool (MaxMsgSize : Z) : M G addr :=
  let AllocSize := MaxMsgSize + CFE_SB_BUFFERD_CONTENT_OFFSET in
  '(stat1, bd) ← pool (CFE_ES_GetPoolBuf AllocSize);
  if stat1 <? 0 then mret NULL else
  stat (λ t, t <| SBBuffersInUse ::= incr 32 |>);;
  stat (λ t, if PeakSBBuffersInUse t <? SBBuffersInUse t
             then t <| PeakSBBuffersInUse := SBBuffersInUse t |> else t);;
  stat (λ t, t <| MemInUse ::= λ n, u32 (n + AllocSize) |>);;
  stat (λ t, if PeakMemInUse t <? MemInUse t then t <| PeakMemInUse := MemInUse t |> else t);;
  alloc_buf bd;;
  wr_buf bd (λ b, b <| bd_MsgId := CFE_SB_INVALID_MSG_ID |>);;
  wr_buf bd (λ b, b <| bd_UseCount := 1 |>);;
  wr_buf bd (λ b, b <| bd_AllocatedSize := AllocSize |>);;
  CFE_SB_TrackingListReset bd;;
  mret bd.

Definition free_buf (bd : addr) : M G unit :=
  b ← rd_buf bd;
  modify (λ s, s <| Bufs ::= delete bd |> <| Links ::= delete bd |> <| Stale ::= <[bd := b]> |>).

Definition CFE_SB_ReturnBufferToPool (bd : addr) : M G unit :=
  CFE_SB_TrackingListRemove bd;;
  stat (λ t, t <| SBBuffersInUse ::= decr 32 |>);;
  b ← rd_buf bd;
  stat (λ t, t <| MemInUse ::= λ n, u32 (n - bd_AllocatedSize b) |>);;
  _ ← pool (CFE_ES_PutPoolBuf bd);
  free_buf bd.

Definition CFE_SB_IncrBufUseCnt (bd : addr) : M G unit :=
  b ← rd_buf bd;
  when (bd_UseCount b <? 0x7FFF) (wr_buf bd (λ b, b <| bd_UseCount ::= incr 16 |>)).

Definition CFE_SB_DecrBufUseCnt (bd : addr) : M G unit :=
  b ← rd_buf bd;
  when (0 <? bd_UseCount b)
    (wr_buf bd (λ b, b <| bd_UseCount ::= decr 16 |>);;
     b ← rd_buf bd;
     when (bd_UseCount b =? 0) (CFE_SB_ReturnBufferToPool bd)).

(** ** Destination descriptors *)

Definition alloc_dest (a : addr) : M G unit :=
  in_block a sizeof_DestinationD;;
  modify (λ s, s <| Dests ::= <[a := mkDestinationD 0 0 0 0 0 0 NULL NULL]> |>).
Definition free_dest (a : addr) : M G unit := modify (λ s, s <| Dests ::= delete a |>).

Definition CFE_SB_GetDestinationBlk : M G addr :=
  '(Stat, Dest) ← pool (CFE_ES_GetPoolBuf sizeof_DestinationD);
  if Stat <? 0 then mret NULL else
  stat (λ t, t <| MemInUse ::= λ n, u32 (n + Stat) |>);;
  stat (λ t, if PeakMemInUse t <? MemInUse t then t <| PeakMemInUse := MemInUse t |> else t);;
  alloc_dest Dest;;
  mret Dest.

Definition CFE_SB_PutDestinationBlk (Dest : addr) : M G Z :=
  if Dest =? NULL then mret CFE_SB_BAD_ARGUMENT else
  Stat ← pool (CFE_ES_PutPoolBuf Dest);
  free_dest Dest;;
  when (0 <? Stat) (stat (λ t, t <| MemInUse ::= λ n, u32 (n - Stat) |>));;
  mret CFE_SUCCESS.

(** The list walks' fuel: the number of destination descriptors in memory. *)
Definition dest_fuel : M G nat := gets (λ s, S (size (Dests s))).

Fixpoint GetDestPtr_loop (fuel : nat) (destptr : addr) (PipeId : Z) : M G addr :=
  if destptr =? NULL then mret NULL else
  d ← rd_dest destptr;
  if dd_PipeId d =? PipeId then mret destptr else
  match fuel with
  | O => undef
  | S fuel => GetDestPtr_loop fuel (dd_Next d) PipeId
  end.

Definition CFE_SB_GetDestPtr (RouteId PipeId : Z) : M G addr :=
  destptr ← sbr (CFE_SBR_GetDestListHeadPtr RouteId);
  fuel ← dest_fuel;
  GetDestPtr_loop fuel destptr PipeId.

Definition CFE_SB_AddDestNode (RouteId : Z) (NewNode : addr) : M G Z :=
  listheadptr ← sbr (CFE_SBR_GetDestListHeadPtr RouteId);
  (if listheadptr =? NULL then
     wr_dest NewNode (λ d, d <| dd_Next := NULL |>);;
     wr_dest NewNode (λ d, d <| dd_Prev := NULL |>)
   else
     let WBS := listheadptr in
     wr_dest NewNode (λ d, d <| dd_Next := WBS |>);;
     wr_dest NewNode (λ d, d <| dd_Prev := NULL |>);;
     wr_dest WBS (λ d, d <| dd_Prev := NewNode |>));;
  sbr (CFE_SBR_SetDestListHeadPtr RouteId NewNode);;
  mret CFE_SUCCESS.

Definition CFE_SB_RemoveDestNode (RouteId : Z) (NodeToRemove : addr) : M G unit :=
  n ← rd_dest NodeToRemove;
  (if (dd_Prev n =? NULL) && (dd_Next n =? NULL) then
     sbr (CFE_SBR_SetDestListHeadPtr RouteId NULL)
   else if dd_Prev n =? NULL then
     let NextNode := dd_Next n in
     wr_dest NextNode (λ d, d <| dd_Prev := NULL |>);;
     sbr (CFE_SBR_SetDestListHeadPtr RouteId NextNode)
   else if dd_Next n =? NULL then
     let PrevNode := dd_Prev n in
     wr_dest PrevNode (λ d, d <| dd_Next := NULL |>)
   else
     let PrevNode := dd_Prev n in
     let NextNode := dd_Next n in
     wr_dest PrevNode (λ d, d <| dd_Next := NextNode |>);;
     wr_dest NextNode (λ d, d <| dd_Prev := PrevNode |>));;
  wr_dest NodeToRemove (λ d, d <| dd_Next := NULL |>);;
  wr_dest NodeToRemove (λ d, d <| dd_Prev := NULL |>).

Definition CFE_SB_RemoveDest (RouteId : Z) (DestPtr : addr) : M G unit :=
  CFE_SB_RemoveDestNode RouteId DestPtr;;
  _ ← CFE_SB_PutDestinationBlk DestPtr;
  stat (λ t, t <| SubscriptionsInUse ::= decr 32 |>).

(** ** Pipe descriptors *)

Definition CFE_SB_PipeId_ToIndex (PipeID : Z) (Idx : ptr Z) : Z * ptr Z :=
  CFE_ResourceId_ToIndex PipeID CFE_SB_PIPEID_BASE CFE_PLATFORM_SB_MAX_PIPES Idx.

(** The pointer into PipeTbl as an index. *)
Definition CFE_SB_LocatePipeDescByID (PipeId : Z) : ptr Z :=
  let '(status, Idx) := CFE_SB_PipeId_ToIndex PipeId (Some 0) in
  if status =? CFE_SUCCESS then Idx else None.

Definition CFE_SB_PipeDescIsMatch (PipeDscPtr : ptr Z) (PipeID : Z) : M G bool :=
  match PipeDscPtr with
  | None => mret false
  | Some i => p ← rd_pipe i; mret (pd_PipeId p =? PipeID)
  end.

Definition CFE_SB_PipeDescSetUsed (PipeDscPtr : Z) (PendingID : Z) : M G unit :=
  wr_pipe PipeDscPtr (λ p, p <| pd_PipeId := PendingID |>).

Definition CFE_SB_PipeDescSetFree (PipeDscPtr : Z) : M G unit :=
  wr_pipe PipeDscPtr (λ p, p <| pd_PipeId := CFE_SB_INVALID_PIPE |>).

(** CFE_ResourceId_FindNext calls this with the pipe table as it is; an identifier that has
    no descriptor would be followed to NULL. *)
Definition CFE_SB_CheckPipeDescSlotUsed (tbl : list CFE_SB_PipeD_t) (CheckId : Z) : option bool :=
  i ← CFE_SB_LocatePipeDescByID CheckId;
  p ← tbl !! Z.to_nat i;
  Some (negb (pd_PipeId p =? CFE_RESOURCEID_UNDEFINED)).

(** ** The recursive event guard *)

Definition CFE_SB_SEND_NO_SUBS_EID_BIT : Z := 0.
Definition CFE_SB_GET_BUF_ERR_EID_BIT : Z := 1.
Definition CFE_SB_MSGID_LIM_ERR_EID_BIT : Z := 2.
Definition CFE_SB_Q_FULL_ERR_EID_BIT : Z := 3.
Definition CFE_SB_Q_WR_ERR_EID_BIT : Z := 4.

Definition upd_flags (i : Z) (f : Z → Z) : M G unit :=
  fl ← gets StopRecurseFlags;
  fl ← of_option (tbl_upd f i fl);
  modify (λ s, s <| StopRecurseFlags := fl |>).

(** The result is CFE_SB_GRANTED. *)
Definition CFE_SB_RequestToSendEvent (c : Caller) (Bit : Z) : M G bool :=
  match c_TaskIndex c with
  | None => mret false
  | Some Indx =>
      fl ← gets StopRecurseFlags;
      x ← tbl_get fl Indx;
      if negb (Z.land x (Z.shiftl 1 Bit) =? 0) then mret false
      else upd_flags Indx (λ x, Z.lor x (Z.shiftl 1 Bit));; mret true
  end.

Definition CFE_SB_FinishSendEvent (c : Caller) (Bit : Z) : M G unit :=
  match c_TaskIndex c with
  | None => mret tt
  | Some Indx => upd_flags Indx (λ x, Z.land x (u32 (Z.lnot (Z.shiftl 1 Bit))))
  end.

End sb.
