(* ===== verification/SbApi.v ===== *)
(** * The software bus API (cfe_sb_api.c)

    Every API function, in the order of its critical sections: the shared data
    mutex is taken and given where the code does, and events are sent after the
    last unlock.  [c] is the calling task. *)
From stdpp Require Import strings.
From S2P Require Import Prelude Config Msg ResourceId Sbr SbState SbBuf.

(** Build time choices: header format, message identifier version, and
    CFE_PSP_GetSpacecraftId. *)
Class BuildCfg := { cfg_hdr : HdrFormat; cfg_msgid : MsgIdVersion; cfg_spacecraft : Z }.

(** The address of a descriptor's content. *)
Definition content_ptr (bd : addr) : addr := bd + CFE_SB_BUFFERD_CONTENT_OFFSET.

Section api.
Context {PS QS : Type} `{MemPool PS} `{OSQueue QS} `{MsgMap} `{BuildCfg}.
Abbreviation G := (CFE_SB_Global_t PS QS).
Abbreviation ERROR := CFE_EVS_EventType_ERROR.
Abbreviation DEBUG := CFE_EVS_EventType_DEBUG.
Abbreviation INFORMATION := CFE_EVS_EventType_INFORMATION.

(** ** Pipes *)

(** The caller's buffer is [None] for NULL. *)
Definition CFE_SB_GetPipeName (PipeNameBuf : ptr string) (PipeNameSize PipeId : Z)
  : M G (Z * ptr string) :=
  CFE_SB_LockSharedData;;
  let PipeDscPtr := CFE_SB_LocatePipeDescByID PipeId in
  m ← CFE_SB_PipeDescIsMatch PipeDscPtr PipeId;
  '(Status, PendingEventID, SysQueueId) ←
    (match PipeDscPtr, m with
     | Some i, true => p ← rd_pipe i; mret (CFE_SUCCESS, 0, pd_SysQueueId p)
     | _, _ => mret (CFE_SB_BAD_ARGUMENT, CFE_SB_GETPIPENAME_ID_ERR_EID, 0)
     end);
  CFE_SB_UnlockSharedData;;
  '(Status, PendingEventID, PipeNameBuf) ←
    (if Status =? CFE_SUCCESS then
       match PipeNameBuf with
       | None => mret (CFE_SB_BAD_ARGUMENT, CFE_SB_GETPIPENAME_NULL_PTR_EID, PipeNameBuf)
       | Some _ =>
           if PipeNameSize =? 0
           then mret (CFE_SB_BAD_ARGUMENT, CFE_SB_GETPIPENAME_NULL_PTR_EID, PipeNameBuf)
           else
             '(Status, name) ← gets (λ s, OS_GetResourceName SysQueueId PipeNameSize (Queues s));
             if Status =? OS_SUCCESS then mret (CFE_SUCCESS, 0, Some name)
             else mret (CFE_SB_BAD_ARGUMENT, CFE_SB_GETPIPENAME_ID_ERR_EID, Some name)
       end
     else mret (Status, PendingEventID, PipeNameBuf));
  if Status =? CFE_SUCCESS then
    CFE_EVS_SendEventWithAppID CFE_SB_GETPIPENAME_EID DEBUG;;
    mret (Status, PipeNameBuf)
  else
    CFE_EVS_SendEventWithAppID PendingEventID ERROR;;
    mret (Status, match PipeNameBuf with
                  | Some n => Some (if 0 <? PipeNameSize then EmptyString else n)
                  | None => None
                  end).

Definition CFE_SB_CreatePipe (c : Caller) (PipeIdPtr : ptr Z) (Depth : Z) (PipeName : ptr string)
  : M G (Z * ptr Z) :=
  let AppId := c_AppId c in
  (* check arguments, then reserve a pipe table entry *)
  '(Status, PendingEventId, PipeDscPtr, PendingPipeId) ←
    (if negb (bool_decide (is_Some PipeIdPtr)) || (OS_QUEUE_MAX_DEPTH <? Depth) || (Depth =? 0) then
       mret (CFE_SB_BAD_ARGUMENT, CFE_SB_CR_PIPE_BAD_ARG_EID, None, CFE_RESOURCEID_UNDEFINED)
     else
       CFE_SB_LockSharedData;;
       last ← gets LastPipeId;
       tbl ← gets PipeTbl;
       PendingPipeId ← of_option (CFE_ResourceId_FindNext last CFE_PLATFORM_SB_MAX_PIPES (CFE_SB_CheckPipeDescSlotUsed tbl));
       let PipeDscPtr := CFE_SB_LocatePipeDescByID PendingPipeId in
       r ← (match PipeDscPtr with
            | None => mret (CFE_SB_MAX_PIPES_MET, CFE_SB_MAX_PIPES_MET_EID, PipeDscPtr, PendingPipeId)
            | Some i =>
                wr_pipe i (λ _, mkPipeD 0 0 0 0 0 0 0 0 NULL);;
                CFE_SB_PipeDescSetUsed i CFE_RESOURCEID_RESERVED;;
                modify (λ s, s <| LastPipeId := PendingPipeId |>);;
                mret (CFE_SUCCESS, 0, PipeDscPtr, PendingPipeId)
            end);
       CFE_SB_UnlockSharedData;;
       mret r);
  (* create the queue *)
  '(Status, PendingEventId, SysQueueId) ←
    (if Status =? CFE_SUCCESS then
       '(Status, SysQueueId) ← queues (OS_QueueCreate PipeName Depth);
       if Status =? OS_SUCCESS then mret (CFE_SUCCESS, PendingEventId, SysQueueId)
       else
         let PendingEventId :=
           if Status =? OS_ERR_NAME_TAKEN then CFE_SB_CR_PIPE_NAME_TAKEN_EID
           else if Status =? OS_ERR_NO_FREE_IDS then CFE_SB_CR_PIPE_NO_FREE_EID
           else CFE_SB_CR_PIPE_ERR_EID in
         mret (CFE_SB_PIPE_CR_ERR, PendingEventId, SysQueueId)
     else mret (Status, PendingEventId, 0));
  (* fill in or free the entry *)
  CFE_SB_LockSharedData;;
  (if Status =? CFE_SUCCESS then
     match PipeDscPtr with
     | Some i =>
         wr_pipe i (λ p, p <| pd_SysQueueId := SysQueueId |>);;
         wr_pipe i (λ p, p <| pd_MaxQueueDepth := Depth |>);;
         wr_pipe i (λ p, p <| pd_AppId := AppId |>);;
         CFE_SB_PipeDescSetUsed i PendingPipeId;;
         stat (λ t, t <| PipesInUse ::= incr 32 |>);;
         stat (λ t, if PeakPipesInUse t <? PipesInUse t then t <| PeakPipesInUse := PipesInUse t |> else t)
     | None => undef
     end
   else
     match PipeDscPtr with Some i => CFE_SB_PipeDescSetFree i | None => mret tt end;;
     when (PendingEventId =? CFE_SB_CR_PIPE_BAD_ARG_EID)
       (hk (λ k, k <| CreatePipeErrorCounter ::= incr 8 |>)));;
  CFE_SB_UnlockSharedData;;
  if Status =? CFE_SUCCESS then
    CFE_EVS_SendEventWithAppID CFE_SB_PIPE_ADDED_EID DEBUG;;
    mret (Status, (λ _, PendingPipeId) <$> PipeIdPtr)
  else
    CFE_EVS_SendEventWithAppID PendingEventId ERROR;;
    mret (Status, PipeIdPtr).

(** *** Deleting *)

Definition CFE_SB_RemovePipeFromRoute (PipeId RouteId : Z) : M G unit :=
  destptr ← CFE_SB_GetDestPtr RouteId PipeId;
  when (negb (destptr =? NULL)) (CFE_SB_RemoveDest RouteId destptr).

(** The loop that empties the queue of a deleted pipe; [BufDscPtr] is the buffer
    whose reference is to be dropped next.  The fuel is the number of buffers on
    the queue. *)
Fixpoint drain_loop (fuel : nat) (SysQueueId : Z) (BufDscPtr : addr) : M G unit :=
  when (negb (BufDscPtr =? NULL))
    (CFE_SB_LockSharedData;; CFE_SB_DecrBufUseCnt BufDscPtr;; CFE_SB_UnlockSharedData);;
  '(st, bd, _) ← queues_opt (OS_QueueGet SysQueueId OS_CHECK);
  if st =? OS_SUCCESS then
    match fuel with
    | O => undef
    | S fuel => drain_loop fuel SysQueueId bd
    end
  else mret tt.

Definition drain_fuel (SysQueueId : Z) : M G nat :=
  gets (λ s, length (default [] (q_items (Queues s) !! SysQueueId))).

Definition CFE_SB_DeletePipeFull (PipeId AppId : Z) : M G Z :=
  CFE_SB_LockSharedData;;
  let PipeDscPtr := CFE_SB_LocatePipeDescByID PipeId in
  m ← CFE_SB_PipeDescIsMatch PipeDscPtr PipeId;
  '(Status, PendingEventID, i, SysQueueId, BufDscPtr) ←
    (match PipeDscPtr, m with
     | Some i, true =>
         p ← rd_pipe i;
         if negb (AppId =? pd_AppId p) then
           mret (CFE_SB_BAD_ARGUMENT, CFE_SB_DEL_PIPE_ERR2_EID, 0, 0, NULL)
         else
           _ ← CFE_SBR_ForEachRouteId (λ s, RouteIdxTop (Routes s)) (CFE_SB_RemovePipeFromRoute PipeId) None;
           p ← rd_pipe i;
           let SysQueueId := pd_SysQueueId p in
           let BufDscPtr := pd_LastBuffer p in
           CFE_SB_PipeDescSetUsed i CFE_RESOURCEID_RESERVED;;
           mret (CFE_SUCCESS, 0, i, SysQueueId, BufDscPtr)
     | _, _ => mret (CFE_SB_BAD_ARGUMENT, CFE_SB_DEL_PIPE_ERR1_EID, 0, 0, NULL)
     end);
  CFE_SB_UnlockSharedData;;
  when (Status =? CFE_SUCCESS)
    (fuel ← drain_fuel SysQueueId;
     drain_loop fuel SysQueueId BufDscPtr;;
     _ ← queues (OS_QueueDelete SysQueueId);
     mret tt);;
  CFE_SB_LockSharedData;;
  (if Status =? CFE_SUCCESS then
     CFE_SB_PipeDescSetFree i;;
     stat (λ t, t <| PipesInUse ::= decr 32 |>)
   else when (negb (PendingEventID =? 0)) (hk (λ k, k <| CreatePipeErrorCounter ::= incr 8 |>)));;
  CFE_SB_UnlockSharedData;;
  (if Status =? CFE_SUCCESS then CFE_EVS_SendEventWithAppID CFE_SB_PIPE_DELETED_EID DEBUG
   else CFE_EVS_SendEventWithAppID PendingEventID ERROR);;
  mret Status.

Definition CFE_SB_DeletePipe (c : Caller) (PipeId : Z) : M G Z :=
  CFE_SB_DeletePipeFull PipeId (c_AppId c).

Definition CFE_SB_DeletePipeWithAppId (PipeId AppId : Z) : M G Z :=
  CFE_SB_DeletePipeFull PipeId AppId.

(** *** Options and names *)

Definition CFE_SB_SetPipeOpts (c : Caller) (PipeId Opts : Z) : M G Z :=
  if negb (c_Status c =? CFE_SUCCESS) then mret (c_Status c) else
  CFE_SB_LockSharedData;;
  let PipeDscPtr := CFE_SB_LocatePipeDescByID PipeId in
  m ← CFE_SB_PipeDescIsMatch PipeDscPtr PipeId;
  '(Status, PendingEventID) ←
    (match PipeDscPtr, m with
     | Some i, true =>
         p ← rd_pipe i;
         if negb (c_AppId c =? pd_AppId p) then
           mret (CFE_SB_BAD_ARGUMENT, CFE_SB_SETPIPEOPTS_OWNER_ERR_EID)
         else wr_pipe i (λ p, p <| pd_Opts := Opts |>);; mret (CFE_SUCCESS, 0)
     | _, _ => mret (CFE_SB_BAD_ARGUMENT, CFE_SB_SETPIPEOPTS_ID_ERR_EID)
     end);
  when (negb (Status =? CFE_SUCCESS)) (hk (λ k, k <| PipeOptsErrorCounter ::= incr 8 |>));;
  CFE_SB_UnlockSharedData;;
  (if Status =? CFE_SUCCESS then CFE_EVS_SendEventWithAppID CFE_SB_SETPIPEOPTS_EID DEBUG
   else CFE_EVS_SendEventWithAppID PendingEventID ERROR);;
  mret Status.

Definition CFE_SB_GetPipeOpts (PipeId : Z) (OptsPtr : ptr Z) : M G (Z * ptr Z) :=
  CFE_SB_LockSharedData;;
  let PipeDscPtr := CFE_SB_LocatePipeDescByID PipeId in
  m ← CFE_SB_PipeDescIsMatch PipeDscPtr PipeId;
  '(Status, PendingEventID, OptsPtr) ←
    (match PipeDscPtr, m with
     | Some i, true =>
         match OptsPtr with
         | None => mret (CFE_SB_BAD_ARGUMENT, CFE_SB_GETPIPEOPTS_PTR_ERR_EID, OptsPtr)
         | Some _ => p ← rd_pipe i; mret (CFE_SUCCESS, 0, Some (pd_Opts p))
         end
     | _, _ => mret (CFE_SB_BAD_ARGUMENT, CFE_SB_GETPIPEOPTS_ID_ERR_EID, OptsPtr)
     end);
  when (negb (Status =? CFE_SUCCESS)) (hk (λ k, k <| PipeOptsErrorCounter ::= incr 8 |>));;
  CFE_SB_UnlockSharedData;;
  (if Status =? CFE_SUCCESS then CFE_EVS_SendEventWithAppID CFE_SB_GETPIPEOPTS_EID DEBUG
   else CFE_EVS_SendEventWithAppID PendingEventID ERROR);;
  mret (Status, OptsPtr).

(** The table search: the code compares the queue identifier of every entry. *)
Fixpoint find_queue (tbl : list CFE_SB_PipeD_t) (SysQueueId : Z) : option Z :=
  match tbl with
  | [] => None
  | p :: tbl => if pd_SysQueueId p =? SysQueueId then Some (pd_PipeId p) else find_queue tbl SysQueueId
  end.

Definition CFE_SB_GetPipeIdByName (PipeIdPtr : ptr Z) (PipeName : ptr string) : M G (Z * ptr Z) :=
  '(Status, PendingEventID, SysQueueId) ←
    (match PipeName, PipeIdPtr with
     | Some name, Some _ =>
         '(Status, q) ← gets (λ s, OS_QueueGetIdByName name (Queues s));
         if Status =? OS_SUCCESS then mret (CFE_SUCCESS, 0, q)
         else mret (CFE_SB_BAD_ARGUMENT, CFE_SB_GETPIPEIDBYNAME_NAME_ERR_EID, q)
     | _, _ => mret (CFE_SB_BAD_ARGUMENT, CFE_SB_GETPIPEIDBYNAME_NULL_ERR_EID, 0)
     end);
  CFE_SB_LockSharedData;;
  tbl ← gets PipeTbl;
  let '(Status, PendingEventID, PipeIdPtr) :=
    if Status =? CFE_SUCCESS then
      match find_queue tbl SysQueueId with
      | Some id => (CFE_SUCCESS, PendingEventID, (λ _, id) <$> PipeIdPtr)
      | None => (CFE_SB_BAD_ARGUMENT, CFE_SB_GETPIPEIDBYNAME_NAME_ERR_EID, PipeIdPtr)
      end
    else (Status, PendingEventID, PipeIdPtr) in
  when (negb (Status =? CFE_SUCCESS)) (hk (λ k, k <| GetPipeIdByNameErrorCounter ::= incr 8 |>));;
  CFE_SB_UnlockSharedData;;
  (if Status =? CFE_SUCCESS then CFE_EVS_SendEventWithAppID CFE_SB_GETPIPEIDBYNAME_EID DEBUG
   else CFE_EVS_SendEventWithAppID PendingEventID ERROR);;
  mret (Status, PipeIdPtr).

(** ** Sending *)

(** The results are the status and the values of the out parameters MsgIdPtr,
    SizePtr and RouteIdPtr, which the arguments initialise. *)
Definition CFE_SB_TransmitMsgValidate (c : Caller) (MsgPtr : ptr Message) (MsgId Size RouteId : Z)
  : M G (Z * Z * Z * Z) :=
  let '(Status, PendingEventID) :=
    match MsgPtr with
    | None => (CFE_SB_BAD_ARGUMENT, CFE_SB_SEND_BAD_ARG_EID)
    | Some _ => (CFE_SUCCESS, 0)
    end in
  let '(Status, PendingEventID, MsgId) :=
    if Status =? CFE_SUCCESS then
      let MsgId := default MsgId (CFE_MSG_GetMsgId cfg_msgid MsgPtr (Some MsgId)).2 in
      if negb (CFE_SB_IsValidMsgId MsgId) then (CFE_SB_BAD_ARGUMENT, CFE_SB_SEND_INV_MSGID_EID, MsgId)
      else (Status, PendingEventID, MsgId)
    else (Status, PendingEventID, MsgId) in
  let '(Status, PendingEventID, Size) :=
    if Status =? CFE_SUCCESS then
      let Size := default Size (CFE_MSG_GetSize MsgPtr (Some Size)).2 in
      if CFE_MISSION_SB_MAX_SB_MSG_SIZE <? Size then (CFE_SB_MSG_TOO_BIG, CFE_SB_MSG_TOO_BIG_EID, Size)
      else (Status, PendingEventID, Size)
    else (Status, PendingEventID, Size) in
  '(PendingEventID, RouteId) ←
    (if Status =? CFE_SUCCESS then
       CFE_SB_LockSharedData;;
       RouteId ← sbr (CFE_SBR_GetRouteId MsgId);
       PendingEventID ←
         (if negb (CFE_SBR_IsValidRouteId RouteId) then
            hk (λ k, k <| NoSubscribersCounter ::= incr 8 |>);;
            mret CFE_SB_SEND_NO_SUBS_EID
          else mret PendingEventID);
       CFE_SB_UnlockSharedData;;
       mret (PendingEventID, RouteId)
     else mret (PendingEventID, RouteId));
  (if PendingEventID =? 0 then mret tt
   else if PendingEventID =? CFE_SB_SEND_NO_SUBS_EID then
     granted ← CFE_SB_RequestToSendEvent c CFE_SB_SEND_NO_SUBS_EID_BIT;
     when granted
       (CFE_EVS_SendEventWithAppID CFE_SB_SEND_NO_SUBS_EID INFORMATION;;
        CFE_SB_FinishSendEvent c CFE_SB_SEND_NO_SUBS_EID_BIT)
   else CFE_EVS_SendEventWithAppID PendingEventID ERROR);;
  mret (Status, MsgId, Size, RouteId).

(** CFE_SB_SendErrEventBuf_t ([ErrStat] is set for write errors only, and read for
    the text of their event); EvtBuf has CFE_PLATFORM_SB_MAX_DEST_PER_PKT entries. *)
Record CFE_SB_SendErrEventBuf_t := mkSendErr { se_EventId : Z; se_ErrStat : option Z; se_PipeId : Z }.

Definition push_err (e : CFE_SB_SendErrEventBuf_t) (errs : list CFE_SB_SendErrEventBuf_t)
  : M G (list CFE_SB_SendErrEventBuf_t) :=
  if Z.of_nat (length errs) <? CFE_PLATFORM_SB_MAX_DEST_PER_PKT then mret (errs ++ [e]) else undef.

(** One round of the loop over the destinations. *)
Definition broadcast_dest (AppId : Z) (BufDscPtr DestPtr : addr) (errs : list CFE_SB_SendErrEventBuf_t)
  : M G (list CFE_SB_SendErrEventBuf_t) :=
  d ← rd_dest DestPtr;
  let PipeDscPtr := if dd_Active d =? CFE_SB_ACTIVE then CFE_SB_LocatePipeDescByID (dd_PipeId d) else None in
  m ← CFE_SB_PipeDescIsMatch PipeDscPtr (dd_PipeId d);
  match PipeDscPtr, m with
  | Some i, true =>
      p ← rd_pipe i;
      if negb (Z.land (pd_Opts p) CFE_SB_PIPEOPTS_IGNOREMINE =? 0) && (pd_AppId p =? AppId) then mret errs
      else if dd_MsgId2PipeLim d <=? dd_BuffCount d then
        errs ← push_err (mkSendErr CFE_SB_MSGID_LIM_ERR_EID None (dd_PipeId d)) errs;
        hk (λ k, k <| MsgLimitErrorCounter ::= incr 16 |>);;
        wr_pipe i (λ p, p <| pd_SendErrors ::= incr 16 |>);;
        mret errs
      else
        Status ← queues (OS_QueuePut (pd_SysQueueId p) BufDscPtr);
        if Status =? OS_SUCCESS then
          CFE_SB_IncrBufUseCnt BufDscPtr;;
          wr_dest DestPtr (λ d, d <| dd_BuffCount ::= incr 16 |>);;
          wr_dest DestPtr (λ d, d <| dd_DestCnt ::= incr 16 |>);;
          wr_pipe i (λ p, p <| pd_CurrentQueueDepth ::= incr 16 |>);;
          wr_pipe i (λ p, if pd_PeakQueueDepth p <=? pd_CurrentQueueDepth p
                          then p <| pd_PeakQueueDepth := pd_CurrentQueueDepth p |> else p);;
          mret errs
        else if Status =? OS_QUEUE_FULL then
          errs ← push_err (mkSendErr CFE_SB_Q_FULL_ERR_EID None (dd_PipeId d)) errs;
          hk (λ k, k <| PipeOverflowErrorCounter ::= incr 16 |>);;
          wr_pipe i (λ p, p <| pd_SendErrors ::= incr 16 |>);;
          mret errs
        else
          errs ← push_err (mkSendErr CFE_SB_Q_WR_ERR_EID (Some Status) (dd_PipeId d)) errs;
          hk (λ k, k <| InternalErrorCounter ::= incr 8 |>);;
          wr_pipe i (λ p, p <| pd_SendErrors ::= incr 16 |>);;
          mret errs
  | _, _ => mret errs
  end.

Fixpoint broadcast_loop (fuel : nat) (AppId : Z) (BufDscPtr DestPtr : addr)
    (errs : list CFE_SB_SendErrEventBuf_t) : M G (list CFE_SB_SendErrEventBuf_t) :=
  if DestPtr =? NULL then mret errs else
  match fuel with
  | O => undef
  | S fuel =>
      errs ← broadcast_dest AppId BufDscPtr DestPtr errs;
      d ← rd_dest DestPtr;
      broadcast_loop fuel AppId BufDscPtr (dd_Next d) errs
  end.

(** The events for delivery errors, sent after the unlock: the message identifier
    of the text is read from the descriptor, which may have been returned to the
    pool by then. *)
Definition err_event_bit (EventId : Z) : Z :=
  if EventId =? CFE_SB_MSGID_LIM_ERR_EID then CFE_SB_MSGID_LIM_ERR_EID_BIT
  else if EventId =? CFE_SB_Q_FULL_ERR_EID then CFE_SB_Q_FULL_ERR_EID_BIT
  else CFE_SB_Q_WR_ERR_EID_BIT.

Fixpoint send_errs (c : Caller) (BufDscPtr : addr) (errs : list CFE_SB_SendErrEventBuf_t) : M G unit :=
  match errs with
  | [] => mret tt
  | e :: errs =>
      granted ← CFE_SB_RequestToSendEvent c (err_event_bit (se_EventId e));
      when granted
        (_ ← CFE_SB_GetPipeName (Some EmptyString) 20 (se_PipeId e);
         b ← peek_buf BufDscPtr;
         SendEvent (se_EventId e) ERROR (Some (bd_MsgId b));;
         CFE_SB_FinishSendEvent c (err_event_bit (se_EventId e)));;
      send_errs c BufDscPtr errs
  end.

(** The sequence count is written into the header of the content. *)
Definition set_sequence (RouteId : Z) (BufDscPtr : addr) : M G unit :=
  b ← rd_buf BufDscPtr;
  when (bd_AutoSequence b && bool_decide (bd_ContentType b = CFE_MSG_Type_Tlm))
    (sbr (CFE_SBR_IncrementSequenceCounter RouteId);;
     n ← sbr (CFE_SBR_GetSequenceCounter RouteId);
     wr_buf BufDscPtr (λ b, b <| bd_Content ::= λ m, default m (CFE_MSG_SetSequenceCount (Some m) n).2 |>)).

Definition CFE_SB_BroadcastBufferToRoute (c : Caller) (BufDscPtr : addr) (RouteId : Z) : M G unit :=
  let AppId := c_AppId c in
  CFE_SB_LockSharedData;;
  errs ←
    (if CFE_SBR_IsValidRouteId RouteId then
       set_sequence RouteId BufDscPtr;;
       DestPtr ← sbr (CFE_SBR_GetDestListHeadPtr RouteId);
       fuel ← dest_fuel;
       broadcast_loop fuel AppId BufDscPtr DestPtr []
     else mret []);
  when (0 <? Z.of_nat (length errs)) (hk (λ k, k <| MsgSendErrorCounter ::= incr 8 |>));;
  CFE_SB_TrackingListRemove BufDscPtr;;
  wr_buf BufDscPtr (λ b, b <| bd_AppId := CFE_ES_APPID_UNDEFINED |>);;
  CFE_SB_TrackingListAdd InTransitList BufDscPtr;;
  CFE_SB_DecrBufUseCnt BufDscPtr;;
  CFE_SB_UnlockSharedData;;
  send_errs c BufDscPtr errs.

(** [memcpy(&BufDscPtr->Content, MsgPtr, Size)] reads [Size] bytes of the caller's
    message and writes them behind the descriptor in its block. *)
Definition memcpy_content (BufDscPtr : addr) (m : Message) (Size : Z) : M G unit :=
  if Z.of_nat (length m) <? Size then undef
  else in_block BufDscPtr (CFE_SB_BUFFERD_CONTENT_OFFSET + Size);;
       wr_buf BufDscPtr (λ b, b <| bd_Content := take (Z.to_nat Size) m |>).

Definition CFE_SB_TransmitMsg (c : Caller) (MsgPtr : ptr Message) (IncrementSequenceCount : bool) : M G Z :=
  '(Status, MsgId, Size, RouteId) ←
    CFE_SB_TransmitMsgValidate c MsgPtr CFE_SB_INVALID_MSG_ID 0 CFE_SBR_INVALID_ROUTE_ID;
  CFE_SB_LockSharedData;;
  '(Status, PendingEventID, BufDscPtr) ←
    (if (Status =? CFE_SUCCESS) && CFE_SBR_IsValidRouteId RouteId then
       BufDscPtr ← CFE_SB_GetBufferFromPool Size;
       if BufDscPtr =? NULL then mret (CFE_SB_BUF_ALOC_ERR, CFE_SB_GET_BUF_ERR_EID, BufDscPtr)
       else mret (Status, 0, BufDscPtr)
     else mret (Status, 0, NULL));
  when (negb (Status =? CFE_SUCCESS)) (hk (λ k, k <| MsgSendErrorCounter ::= incr 8 |>));;
  CFE_SB_UnlockSharedData;;
  match MsgPtr with
  | Some m =>
      when (negb (BufDscPtr =? NULL))
        (memcpy_content BufDscPtr m Size;;
         wr_buf BufDscPtr (λ b, b <| bd_MsgId := MsgId |>);;
         wr_buf BufDscPtr (λ b, b <| bd_ContentSize := Size |>);;
         wr_buf BufDscPtr (λ b, b <| bd_AutoSequence := IncrementSequenceCount |>);;
         wr_buf BufDscPtr (λ b, b <| bd_ContentType ::= λ t, default t (CFE_MSG_GetType MsgPtr (Some t)).2 |>);;
         CFE_SB_BroadcastBufferToRoute c BufDscPtr RouteId)
  | None => mret tt
  end;;
  when (PendingEventID =? CFE_SB_GET_BUF_ERR_EID)
    (granted ← CFE_SB_RequestToSendEvent c CFE_SB_GET_BUF_ERR_EID_BIT;
     when granted
       (CFE_EVS_SendEventWithAppID CFE_SB_GET_BUF_ERR_EID ERROR;;
        CFE_SB_FinishSendEvent c CFE_SB_GET_BUF_ERR_EID_BIT));;
  mret Status.

Definition CFE_SB_SendMsg (c : Caller) (MsgPtr : ptr Message) : M G Z := CFE_SB_TransmitMsg c MsgPtr true.
Definition CFE_SB_PassMsg (c : Caller) (MsgPtr : ptr Message) : M G Z := CFE_SB_TransmitMsg c MsgPtr false.

(** *** Subscription reports (cfe_sb_task.c) *)

Definition CFE_SB_ONESUB_TLM_MID : Z := 0x080E.
Definition CFE_SB_SUBSCRIPTION : Z := 0.
Definition sizeof_SingleSubscriptionTlm : Z := 32.

(** A 32 bit word as the machine stores it. *)
Definition le32 (z : Z) : Message := [u8 z; u8 (Z.shiftr z 8); u8 (Z.shiftr z 16); u8 (Z.shiftr z 24)].

(** The message of the report: the initialised header followed by the payload (SubType,
    MsgId, Qos, Pipe) at its offsets; Qos is the pair of its two bytes.  [SubRptMsg]
    is the uninitialised automatic variable. *)
Definition sub_report (SubRptMsg : Message) (MsgId PipeId : Z) (Quality : Z * Z) : Message :=
  let m := default [] (CFE_MSG_Init cfg_hdr cfg_msgid cfg_spacecraft (Some SubRptMsg)
                         CFE_SB_ONESUB_TLM_MID sizeof_SingleSubscriptionTlm).2 in
  take 16 m ++ [u8 CFE_SB_SUBSCRIPTION; 0; 0; 0] ++ le32 MsgId ++ [u8 Quality.1; u8 Quality.2; 0; 0] ++ le32 PipeId.

Definition CFE_SB_SendSubscriptionReport (c : Caller) (MsgId PipeId : Z) (Quality : Z * Z) : M G Z :=
  on ← gets SubscriptionReporting;
  if on : bool then
    let SubRptMsg := sub_report (replicate 32 0) MsgId PipeId Quality in
    Status ← CFE_SB_TransmitMsg c (Some SubRptMsg) true;
    CFE_EVS_SendEventWithAppID CFE_SB_SUBSCRIPTION_RPT_EID DEBUG;;
    mret Status
  else mret CFE_SUCCESS.

(** ** Subscriptions *)

(** The loop over the destinations of the route: [Some e] with the pending event
    when it stops early at a duplicate or at the limit. *)
Fixpoint subscribe_loop (fuel : nat) (DestPtr : addr) (PipeId DestCount : Z) : M G (option Z) :=
  if DestPtr =? NULL then mret None else
  d ← rd_dest DestPtr;
  let DestCount := u32 (DestCount + 1) in
  if dd_PipeId d =? PipeId then mret (Some CFE_SB_DUP_SUBSCRIP_EID)
  else if CFE_PLATFORM_SB_MAX_DEST_PER_PKT <=? DestCount then mret (Some CFE_SB_MAX_DESTS_MET_EID)
  else
    match fuel with
    | O => undef
    | S fuel => subscribe_loop fuel (dd_Next d) PipeId DestCount
    end.

(** The critical section of CFE_SB_SubscribeFull in three parts.  First the checks
    and the route, added when there is none: status, pending event, route and the
    collisions reported by the routing module. *)
Definition subscribe_route (c : Caller) (MsgId PipeId Scope : Z) : M G (Z * Z * Z * Z) :=
  let PipeDscPtr := CFE_SB_LocatePipeDescByID PipeId in
  m ← CFE_SB_PipeDescIsMatch PipeDscPtr PipeId;
  match PipeDscPtr, m with
  | Some i, true =>
      p ← rd_pipe i;
      if negb (pd_AppId p =? c_AppId c) then
        mret (CFE_SB_BAD_ARGUMENT, CFE_SB_SUB_INV_CALLER_EID, 0, 0)
      else if negb (CFE_SB_IsValidMsgId MsgId) || (1 <? Scope) then
        mret (CFE_SB_BAD_ARGUMENT, CFE_SB_SUB_ARG_ERR_EID, 0, 0)
      else
        RouteId ← sbr (CFE_SBR_GetRouteId MsgId);
        if negb (CFE_SBR_IsValidRouteId RouteId) then
          '(RouteId, Collisions) ← sbr (CFE_SBR_AddRoute MsgId (Some 0));
          let Collisions := default 0 Collisions in
          if negb (CFE_SBR_IsValidRouteId RouteId) then
            mret (CFE_SB_MAX_MSGS_MET, CFE_SB_MAX_MSGS_MET_EID, RouteId, Collisions)
          else
            stat (λ t, t <| MsgIdsInUse ::= incr 32 |>);;
            stat (λ t, if PeakMsgIdsInUse t <? MsgIdsInUse t
                       then t <| PeakMsgIdsInUse := MsgIdsInUse t |> else t);;
            mret (CFE_SUCCESS, 0, RouteId, Collisions)
        else mret (CFE_SUCCESS, 0, RouteId, 0)
  | _, _ => mret (CFE_SB_BAD_ARGUMENT, CFE_SB_SUB_INV_PIPE_EID, 0, 0)
  end.

(** Then the destination, unless there is one already or the limit is reached:
    status and pending event. *)
Definition subscribe_dest (RouteId PipeId MsgLim Scope : Z) : M G (Z * Z) :=
  DestPtr ← sbr (CFE_SBR_GetDestListHeadPtr RouteId);
  fuel ← dest_fuel;
  stop ← subscribe_loop fuel DestPtr PipeId 0;
  match stop with
  | Some e => mret (if e =? CFE_SB_DUP_SUBSCRIP_EID then CFE_SUCCESS else CFE_SB_MAX_DESTS_MET, e)
  | None =>
      DestPtr ← CFE_SB_GetDestinationBlk;
      if DestPtr =? NULL then mret (CFE_SB_BUF_ALOC_ERR, CFE_SB_DEST_BLK_ERR_EID)
      else
        wr_dest DestPtr (λ d, d <| dd_PipeId := PipeId |>);;
        wr_dest DestPtr (λ d, d <| dd_MsgId2PipeLim := MsgLim |>);;
        wr_dest DestPtr (λ d, d <| dd_Active := CFE_SB_ACTIVE |>);;
        wr_dest DestPtr (λ d, d <| dd_BuffCount := 0 |>);;
        wr_dest DestPtr (λ d, d <| dd_DestCnt := 0 |>);;
        wr_dest DestPtr (λ d, d <| dd_Scope := Scope |>);;
        wr_dest DestPtr (λ d, d <| dd_Prev := NULL |>);;
        wr_dest DestPtr (λ d, d <| dd_Next := NULL |>);;
        _ ← CFE_SB_AddDestNode RouteId DestPtr;
        stat (λ t, t <| SubscriptionsInUse ::= incr 32 |>);;
        stat (λ t, if PeakSubscriptionsInUse t <? SubscriptionsInUse t
                   then t <| PeakSubscriptionsInUse := SubscriptionsInUse t |> else t);;
        mret (CFE_SUCCESS, 0)
  end.

(** Last the counter of the pending event. *)
Definition subscribe_count (PendingEventID : Z) (k : HKTlm_Payload) : HKTlm_Payload :=
  if PendingEventID =? 0 then k
  else if PendingEventID =? CFE_SB_DUP_SUBSCRIP_EID then k <| DuplicateSubscriptionsCounter ::= incr 8 |>
  else k <| SubscribeErrorCounter ::= incr 8 |>.

Definition subscribe_locked (c : Caller) (MsgId PipeId MsgLim Scope : Z) : M G (Z * Z * Z) :=
  '(Status, PendingEventID, RouteId, Collisions) ← subscribe_route c MsgId PipeId Scope;
  '(Status, PendingEventID) ←
    (if Status =? CFE_SUCCESS then subscribe_dest RouteId PipeId MsgLim Scope
     else mret (Status, PendingEventID));
  hk (subscribe_count PendingEventID);;
  mret (Status, PendingEventID, Collisions).

Definition CFE_SB_SubscribeFull (c : Caller) (MsgId PipeId : Z) (Quality : Z * Z) (MsgLim Scope : Z) : M G Z :=
  CFE_SB_LockSharedData;;
  '(Status, PendingEventID, Collisions) ← subscribe_locked c MsgId PipeId MsgLim Scope;
  CFE_SB_UnlockSharedData;;
  (if negb (PendingEventID =? 0) then
     _ ← CFE_SB_GetPipeName (Some EmptyString) 20 PipeId;
     CFE_EVS_SendEventWithAppID PendingEventID
       (if PendingEventID =? CFE_SB_DUP_SUBSCRIP_EID then INFORMATION else ERROR)
   else when (Status =? CFE_SUCCESS) (CFE_EVS_SendEventWithAppID CFE_SB_SUBSCRIPTION_RCVD_EID DEBUG));;
  when ((Status =? CFE_SUCCESS) && (Scope =? CFE_SB_MSG_GLOBAL))
    (_ ← CFE_SB_SendSubscriptionReport c MsgId PipeId Quality; mret tt);;
  when (negb (Collisions =? 0)) (CFE_EVS_SendEventWithAppID CFE_SB_HASHCOLLISION_EID DEBUG);;
  mret Status.

Definition CFE_SB_DEFAULT_QOS : Z * Z := (0, 0).

Definition CFE_SB_SubscribeEx (c : Caller) (MsgId PipeId : Z) (Quality : Z * Z) (MsgLim : Z) : M G Z :=
  CFE_SB_SubscribeFull c MsgId PipeId Quality MsgLim CFE_SB_MSG_GLOBAL.
Definition CFE_SB_SubscribeLocal (c : Caller) (MsgId PipeId MsgLim : Z) : M G Z :=
  CFE_SB_SubscribeFull c MsgId PipeId CFE_SB_DEFAULT_QOS MsgLim CFE_SB_MSG_LOCAL.
Definition CFE_SB_Subscribe (c : Caller) (MsgId PipeId : Z) : M G Z :=
  CFE_SB_SubscribeFull c MsgId PipeId CFE_SB_DEFAULT_QOS CFE_PLATFORM_SB_DEFAULT_MSG_LIMIT CFE_SB_MSG_GLOBAL.

(** The critical section of CFE_SB_UnsubscribeFull. *)
Definition unsubscribe_locked (MsgId PipeId Scope AppId : Z) : M G (Z * Z) :=
  let PipeDscPtr := CFE_SB_LocatePipeDescByID PipeId in
  m ← CFE_SB_PipeDescIsMatch PipeDscPtr PipeId;
  match PipeDscPtr, m with
  | Some i, true =>
      p ← rd_pipe i;
      if negb (pd_AppId p =? AppId) then mret (CFE_SB_BAD_ARGUMENT, CFE_SB_UNSUB_INV_CALLER_EID)
      else if negb (CFE_SB_IsValidMsgId MsgId) || (1 <? Scope) then
        mret (CFE_SB_BAD_ARGUMENT, CFE_SB_UNSUB_ARG_ERR_EID)
      else
        RouteId ← sbr (CFE_SBR_GetRouteId MsgId);
        if negb (CFE_SBR_IsValidRouteId RouteId) then mret (CFE_SUCCESS, CFE_SB_UNSUB_NO_SUBS_EID)
        else
          DestPtr ← CFE_SB_GetDestPtr RouteId PipeId;
          if negb (DestPtr =? NULL) then CFE_SB_RemoveDest RouteId DestPtr;; mret (CFE_SUCCESS, 0)
          else mret (CFE_SUCCESS, CFE_SB_UNSUB_NO_SUBS_EID)
  | _, _ => mret (CFE_SB_BAD_ARGUMENT, CFE_SB_UNSUB_INV_PIPE_EID)
  end.

Definition CFE_SB_UnsubscribeFull (MsgId PipeId Scope AppId : Z) : M G Z :=
  CFE_SB_LockSharedData;;
  '(Status, PendingEventID) ← unsubscribe_locked MsgId PipeId Scope AppId;
  CFE_SB_UnlockSharedData;;
  (if PendingEventID =? CFE_SB_UNSUB_NO_SUBS_EID then
     _ ← CFE_SB_GetPipeName (Some EmptyString) 20 PipeId;
     CFE_EVS_SendEventWithAppID CFE_SB_UNSUB_NO_SUBS_EID INFORMATION
   else if negb (PendingEventID =? 0) then CFE_EVS_SendEventWithAppID PendingEventID ERROR
   else when (Status =? CFE_SUCCESS) (CFE_EVS_SendEventWithAppID CFE_SB_SUBSCRIPTION_REMOVED_EID DEBUG));;
  mret Status.

Definition CFE_SB_Unsubscribe (c : Caller) (MsgId PipeId : Z) : M G Z :=
  CFE_SB_UnsubscribeFull MsgId PipeId CFE_SB_MSG_GLOBAL (c_AppId c).
Definition CFE_SB_UnsubscribeLocal (c : Caller) (MsgId PipeId : Z) : M G Z :=
  CFE_SB_UnsubscribeFull MsgId PipeId CFE_SB_MSG_LOCAL (c_AppId c).
Definition CFE_SB_UnsubscribeWithAppId (MsgId PipeId AppId : Z) : M G Z :=
  CFE_SB_UnsubscribeFull MsgId PipeId CFE_SB_MSG_LOCAL AppId.

(** ** Receiving *)

(** Argument check and timeout translation: status, pending event, system timeout. *)
Definition receive_args (BufPtr : ptr addr) (TimeOut : Z) : Z * Z * Z :=
  match BufPtr with
  | None => (CFE_SB_BAD_ARGUMENT, CFE_SB_RCV_BAD_ARG_EID, OS_PEND)
  | Some _ =>
      if 0 <? TimeOut then (CFE_SUCCESS, 0, TimeOut)
      else if TimeOut =? CFE_SB_POLL then (CFE_SUCCESS, 0, OS_CHECK)
      else if negb (TimeOut =? CFE_SB_PEND_FOREVER) then (CFE_SB_BAD_ARGUMENT, CFE_SB_RCV_BAD_ARG_EID, OS_PEND)
      else (CFE_SUCCESS, 0, OS_PEND)
  end.

(** First critical section: find the pipe and drop the reference of the last buffer. *)
Definition receive_begin (PipeId : Z) : M G (Z * Z * ptr Z * Z) :=
  let PipeDscPtr := CFE_SB_LocatePipeDescByID PipeId in
  m ← CFE_SB_PipeDescIsMatch PipeDscPtr PipeId;
  match PipeDscPtr, m with
  | Some i, true =>
      p ← rd_pipe i;
      when (negb (pd_LastBuffer p =? NULL))
        (CFE_SB_DecrBufUseCnt (pd_LastBuffer p);;
         wr_pipe i (λ p, p <| pd_LastBuffer := NULL |>));;
      mret (CFE_SUCCESS, 0, PipeDscPtr, pd_SysQueueId p)
  | _, _ => mret (CFE_SB_BAD_ARGUMENT, CFE_SB_BAD_PIPEID_EID, PipeDscPtr, 0)
  end.

(** Second critical section: the buffer read becomes the pipe's last buffer. *)
Definition receive_end (PipeId : Z) (PipeDscPtr : ptr Z) (BufDscPtr : addr) (BufPtr : ptr addr)
  : M G (Z * Z * ptr addr) :=
  m ← CFE_SB_PipeDescIsMatch PipeDscPtr PipeId;
  r ← (match PipeDscPtr, m with
       | Some i, true =>
           CFE_SB_IncrBufUseCnt BufDscPtr;;
           wr_pipe i (λ p, p <| pd_LastBuffer := BufDscPtr |>);;
           b ← rd_buf BufDscPtr;
           RouteId ← sbr (CFE_SBR_GetRouteId (bd_MsgId b));
           DestPtr ← CFE_SB_GetDestPtr RouteId PipeId;
           (if DestPtr =? NULL then mret tt
            else
              d ← rd_dest DestPtr;
              when (0 <? dd_BuffCount d) (wr_dest DestPtr (λ d, d <| dd_BuffCount ::= decr 16 |>)));;
           p ← rd_pipe i;
           when (0 <? pd_CurrentQueueDepth p) (wr_pipe i (λ p, p <| pd_CurrentQueueDepth ::= decr 16 |>));;
           mret (CFE_SUCCESS, 0, (λ _, content_ptr BufDscPtr) <$> BufPtr)
       | _, _ => mret (CFE_SB_PIPE_RD_ERR, CFE_SB_BAD_PIPEID_EID, BufPtr)
       end);
  CFE_SB_DecrBufUseCnt BufDscPtr;;
  mret r.

Definition CFE_SB_ReceiveBuffer (BufPtr : ptr addr) (PipeId TimeOut : Z) : M G (Z * ptr addr) :=
  let '(Status, PendingEventID, SysTimeout) := receive_args BufPtr TimeOut in
  '(Status, PendingEventID, PipeDscPtr, SysQueueId) ←
    (if Status =? CFE_SUCCESS then
       CFE_SB_LockSharedData;;
       r ← receive_begin PipeId;
       CFE_SB_UnlockSharedData;;
       mret r
     else mret (Status, PendingEventID, None, 0));
  '(Status, PendingEventID, BufDscPtr) ←
    (if Status =? CFE_SUCCESS then
       '(RcvStatus, BufDscPtr, BufDscSize) ← queues_opt (OS_QueueGet SysQueueId SysTimeout);
       if (RcvStatus =? OS_SUCCESS) && negb (BufDscPtr =? NULL) && (BufDscSize =? sizeof_ptr)
       then mret (Status, PendingEventID, BufDscPtr)
       else if RcvStatus =? OS_QUEUE_EMPTY then mret (CFE_SB_NO_MESSAGE, PendingEventID, BufDscPtr)
       else if RcvStatus =? OS_QUEUE_TIMEOUT then mret (CFE_SB_TIME_OUT, PendingEventID, BufDscPtr)
       else mret (CFE_SB_PIPE_RD_ERR, CFE_SB_Q_RD_ERR_EID, BufDscPtr)
     else mret (Status, PendingEventID, NULL));
  CFE_SB_LockSharedData;;
  '(Status, PendingEventID, BufPtr) ←
    (if Status =? CFE_SUCCESS then receive_end PipeId PipeDscPtr BufDscPtr BufPtr
     else mret (Status, PendingEventID, BufPtr));
  when (negb (Status =? CFE_SUCCESS))
    (if (PendingEventID =? CFE_SB_RCV_BAD_ARG_EID) || (PendingEventID =? CFE_SB_BAD_PIPEID_EID)
     then hk (λ k, k <| MsgReceiveErrorCounter ::= incr 8 |>)
     else hk (λ k, k <| InternalErrorCounter ::= incr 8 |>));;
  CFE_SB_UnlockSharedData;;
  when (negb (PendingEventID =? 0)) (CFE_EVS_SendEventWithAppID PendingEventID ERROR);;
  mret (Status, if Status =? CFE_SUCCESS then BufPtr else (λ _, NULL) <$> BufPtr).

Definition CFE_SB_RcvMsg (BufPtr : ptr addr) (PipeId TimeOut : Z) : M G (Z * ptr addr) :=
  CFE_SB_ReceiveBuffer BufPtr PipeId TimeOut.

(** ** Zero copy *)

(** The result is the returned message pointer and the handle's BufDscPtr. *)
Definition CFE_SB_ZeroCopyGetPtr (c : Caller) (MsgSize : Z) (BufferHandle : ptr addr) : M G (addr * ptr addr) :=
  if CFE_MISSION_SB_MAX_SB_MSG_SIZE <? MsgSize then mret (NULL, BufferHandle) else
  match BufferHandle with
  | None => mret (NULL, BufferHandle)
  | Some _ =>
      '(BufDscPtr, BufPtr) ←
        (if c_Status c =? CFE_SUCCESS then
           CFE_SB_LockSharedData;;
           BufDscPtr ← CFE_SB_GetBufferFromPool MsgSize;
           BufPtr ←
             (if BufDscPtr =? NULL then mret NULL
              else
                wr_buf BufDscPtr (λ b, b <| bd_AppId := c_AppId c |>);;
                CFE_SB_TrackingListAdd ZeroCopyList BufDscPtr;;
                mret (content_ptr BufDscPtr));
           CFE_SB_UnlockSharedData;;
           mret (BufDscPtr, BufPtr)
         else mret (NULL, NULL));
      when (negb (BufPtr =? NULL))
        (in_block BufDscPtr (CFE_SB_BUFFERD_CONTENT_OFFSET + MsgSize);;
         wr_buf BufDscPtr (λ b, b <| bd_Content := replicate (Z.to_nat MsgSize) 0 |>));;
      mret (BufPtr, Some BufDscPtr)
  end.

Definition CFE_SB_ZeroCopyHandleValidate (BufPtr Handle : addr) : M G Z :=
  if (BufPtr =? NULL) || (Handle =? NULL) then mret CFE_SB_BAD_ARGUMENT else
  b ← rd_buf Handle;
  if (bd_AppId b =? CFE_RESOURCEID_UNDEFINED) || negb (content_ptr Handle =? BufPtr)
  then mret CFE_SB_BUFFER_INVALID else mret CFE_SUCCESS.

Definition CFE_SB_ZeroCopyReleasePtr (Ptr2Release Handle : addr) : M G Z :=
  Status ← CFE_SB_ZeroCopyHandleValidate Ptr2Release Handle;
  CFE_SB_LockSharedData;;
  when (Status =? CFE_SUCCESS)
    (wr_buf Handle (λ b, b <| bd_AppId := CFE_ES_APPID_UNDEFINED |>);;
     CFE_SB_DecrBufUseCnt Handle);;
  CFE_SB_UnlockSharedData;;
  mret Status.

Definition CFE_SB_TransmitBuffer (c : Caller) (BufPtr Handle : addr) (IncrementSequenceCount : bool) : M G Z :=
  Status ← CFE_SB_ZeroCopyHandleValidate BufPtr Handle;
  Status ←
    (if Status =? CFE_SUCCESS then
       let BufDscPtr := Handle in
       b ← rd_buf BufDscPtr;
       '(Status, MsgId, Size, RouteId) ←
         CFE_SB_TransmitMsgValidate c (Some (bd_Content b)) (bd_MsgId b) (bd_ContentSize b) 0;
       wr_buf BufDscPtr (λ b, b <| bd_MsgId := MsgId |>);;
       wr_buf BufDscPtr (λ b, b <| bd_ContentSize := Size |>);;
       when (Status =? CFE_SUCCESS)
         (wr_buf BufDscPtr (λ b, b <| bd_AutoSequence := IncrementSequenceCount |>);;
          wr_buf BufDscPtr (λ b, b <| bd_ContentType :=
             default (bd_ContentType b) (CFE_MSG_GetType (Some (bd_Content b)) (Some (bd_ContentType b))).2 |>);;
          CFE_SB_BroadcastBufferToRoute c BufDscPtr RouteId);;
       mret Status
     else mret Status);
  when (negb (Status =? CFE_SUCCESS))
    (CFE_SB_LockSharedData;;
     hk (λ k, k <| MsgSendErrorCounter ::= incr 8 |>);;
     CFE_SB_UnlockSharedData);;
  mret Status.

Definition CFE_SB_ZeroCopySend (c : Caller) (BufPtr Handle : addr) : M G Z := CFE_SB_TransmitBuffer c BufPtr Handle true.
Definition CFE_SB_ZeroCopyPass (c : Caller) (BufPtr Handle : addr) : M G Z := CFE_SB_TransmitBuffer c BufPtr Handle false.

(** ** Clean up of an application (cfe_sb_priv.c) *)

Fixpoint zerocopy_loop (fuel : nat) (AppId NextLink : addr) : M G unit :=
  if (NextLink =? NULL) || (NextLink =? ZeroCopyList) then mret tt else
  match fuel with
  | O => undef
  | S fuel =>
      let DscPtr := NextLink in
      l ← rd_link NextLink;
      b ← rd_buf DscPtr;
      when (bd_AppId b =? AppId) (CFE_SB_DecrBufUseCnt DscPtr);;
      zerocopy_loop fuel AppId (lk_Next l)
  end.

Definition CFE_SB_ZeroCopyReleaseAppId (AppId : Z) : M G Z :=
  when (negb (AppId =? CFE_RESOURCEID_UNDEFINED))
    (CFE_SB_LockSharedData;;
     l ← rd_link ZeroCopyList;
     fuel ← gets (λ s, size (Links s));
     zerocopy_loop fuel AppId (lk_Next l);;
     CFE_SB_UnlockSharedData);;
  mret CFE_SUCCESS.

Definition owned_pipes (tbl : list CFE_SB_PipeD_t) (AppId : Z) : list Z :=
  pd_PipeId <$> filter (λ p, pd_PipeId p ≠ CFE_RESOURCEID_UNDEFINED ∧ pd_AppId p = AppId) tbl.

Fixpoint delete_all (DelList : list Z) (AppId : Z) : M G unit :=
  match DelList with
  | [] => mret tt
  | id :: DelList => _ ← CFE_SB_DeletePipeWithAppId id AppId; delete_all DelList AppId
  end.

Definition CFE_SB_CleanUpApp (AppId : Z) : M G Z :=
  CFE_SB_LockSharedData;;
  tbl ← gets PipeTbl;
  let DelList := owned_pipes tbl AppId in
  CFE_SB_UnlockSharedData;;
  delete_all DelList AppId;;
  _ ← CFE_SB_ZeroCopyReleaseAppId AppId;
  mret CFE_SUCCESS.

(** ** Start up (cfe_sb_init.c)

    Inputs are the status of OS_MutSemCreate, and the status of CFE_ES_PoolCreateEx with
    the pool it makes. *)

(** memset of CFE_SB_Global; the routing module and the queues are not part of it.  The
    heads of the tracking lists are links of the global; the record of events starts here. *)
Definition clear_global (s : G) : G :=
  mkGlobal PS QS false false (replicate (Z.to_nat OS_MAX_TASKS) 0)
    (replicate (Z.to_nat CFE_PLATFORM_SB_MAX_PIPES) (mkPipeD 0 0 0 0 0 0 0 0 NULL))
    (mkHK 0 0 0 0 0 0 0 0 0 0 0 0 0) (mkStat 0 0 0 0 0 0 0 0 0 0) 0 (Routes s) ∅ ∅
    (<[InTransitList := mkLink NULL NULL]> (<[ZeroCopyList := mkLink NULL NULL]> ∅)) ∅ (Pool s) (Queues s) [].

Definition CFE_SB_InitBuffers (PoolCreate : Z * PS) : M G Z :=
  let '(Stat, pool) := PoolCreate in
  if negb (Stat =? CFE_SUCCESS) then mret Stat
  else
    modify (λ s, s <| Pool := pool |>);;
    CFE_SB_TrackingListReset InTransitList;;
    CFE_SB_TrackingListReset ZeroCopyList;;
    mret CFE_SUCCESS.

Definition CFE_SB_InitPipeTbl : M G unit := modify (λ s, s <| LastPipeId := CFE_SB_PIPEID_BASE |>).

Definition CFE_SB_EarlyInit (MutSemCreate : Z) (PoolCreate : Z * PS) : M G Z :=
  modify clear_global;;
  if negb (MutSemCreate =? OS_SUCCESS) then mret MutSemCreate
  else
    modify (λ s, s <| SubscriptionReporting := false |>);;
    Stat ← CFE_SB_InitBuffers PoolCreate;
    if negb (Stat =? CFE_SUCCESS) then mret Stat
    else
      CFE_SB_InitPipeTbl;;
      modify (λ s, s <| Routes := CFE_SBR_Init |>);;
      (* the header of the statistics packet is set in SbTask.early_task *)
      mret Stat.

End api.
