(* ===== verification/SbTask.v ===== *)
(** * The software bus task (cfe_sb_task.c)

    The start of the task, the commands of its pipe, its telemetry, and the records of
    the files the commands write.  The part of CFE_SB_Global that only the task uses is
    a record of its own beside the bus.  A packet is kept as its header and the fields
    of its payload, and put together when it is sent. *)
From stdpp Require Import strings.
From S2P Require Import Prelude Config Msg ResourceId Cstring EsApp Sbr SbState SbBuf SbApi.

(** ** Constants (cfe_sb.h, cfe_sb_priv.h, cfe_sb_msg.h, cfe_sb_events.h, cpu1_msgids.h, cpu1_platform_cfg.h) *)

Definition CFE_SB_CMD_MID : Z := 0x1803.
Definition CFE_SB_SEND_HK_MID : Z := 0x180B.
Definition CFE_SB_SUB_RPT_CTRL_MID : Z := 0x180E.
Definition CFE_SB_HK_TLM_MID : Z := 0x0803.
Definition CFE_SB_STATS_TLM_MID : Z := 0x080A.
Definition CFE_SB_ALLSUBS_TLM_MID : Z := 0x080D.

Definition CFE_SB_NOOP_CC : Z := 0.
Definition CFE_SB_RESET_COUNTERS_CC : Z := 1.
Definition CFE_SB_SEND_SB_STATS_CC : Z := 2.
Definition CFE_SB_WRITE_ROUTING_INFO_CC : Z := 3.
Definition CFE_SB_ENABLE_ROUTE_CC : Z := 4.
Definition CFE_SB_DISABLE_ROUTE_CC : Z := 5.
Definition CFE_SB_WRITE_PIPE_INFO_CC : Z := 7.
Definition CFE_SB_WRITE_MAP_INFO_CC : Z := 8.
Definition CFE_SB_ENABLE_SUB_REPORTING_CC : Z := 9.
Definition CFE_SB_DISABLE_SUB_REPORTING_CC : Z := 10.
Definition CFE_SB_SEND_PREV_SUBS_CC : Z := 11.

Definition CFE_SB_INIT_EID : Z := 1.
Definition CFE_SB_CMD0_RCVD_EID : Z := 28.
Definition CFE_SB_CMD1_RCVD_EID : Z := 29.
Definition CFE_SB_SND_STATS_EID : Z := 32.
Definition CFE_SB_ENBL_RTE1_EID : Z := 33.
Definition CFE_SB_ENBL_RTE2_EID : Z := 34.
Definition CFE_SB_ENBL_RTE3_EID : Z := 35.
Definition CFE_SB_DSBL_RTE1_EID : Z := 36.
Definition CFE_SB_DSBL_RTE2_EID : Z := 37.
Definition CFE_SB_DSBL_RTE3_EID : Z := 38.
Definition CFE_SB_SND_RTG_EID : Z := 39.
Definition CFE_SB_SND_RTG_ERR1_EID : Z := 40.
Definition CFE_SB_BAD_CMD_CODE_EID : Z := 42.
Definition CFE_SB_BAD_MSGID_EID : Z := 43.
Definition CFE_SB_FULL_SUB_PKT_EID : Z := 44.
Definition CFE_SB_PART_SUB_PKT_EID : Z := 45.
Definition CFE_SB_FILEWRITE_ERR_EID : Z := 49.
Definition CFE_SB_LEN_ERR_EID : Z := 61.

Definition CFE_SB_CMD_PIPE_DEPTH : Z := 32.
Definition CFE_SB_CMD_PIPE_NAME : string := "SB_CMD_PIPE".
Definition CFE_SB_SUB_ENTRIES_PER_PKT : Z := 20.
Definition CFE_MISSION_SB_MAX_PIPES : Z := 64.
Definition CFE_SB_MAX_CFG_FILE_EVENTS_TO_FILTER : nat := 8.
Definition CFE_PLATFORM_SB_DEFAULT_ROUTING_FILENAME : list Z := chars "/ram/cfe_sb_route.dat" ++ [0].
Definition CFE_PLATFORM_SB_DEFAULT_PIPE_FILENAME : list Z := chars "/ram/cfe_sb_pipe.dat" ++ [0].
Definition CFE_PLATFORM_SB_DEFAULT_MAP_FILENAME : list Z := chars "/ram/cfe_sb_msgmap.dat" ++ [0].
Definition CFE_FS_SubType_SB_PIPEDATA : Z := 20.
Definition CFE_FS_SubType_SB_ROUTEDATA : Z := 21.
Definition CFE_FS_SubType_SB_MAPDATA : Z := 22.
Definition CFE_STATUS_REQUEST_ALREADY_PENDING : Z := s32 0xc8000004.
Definition sb_path_len : nat := 64.
Definition sb_api_len : nat := 20.

(** The events of the platform file with their masks; an identifier of zero is none. *)
Definition CFE_PLATFORM_SB_FILTERED_EVENTS : list (Z * Z) :=
  [(CFE_SB_SEND_NO_SUBS_EID, 0xFFFC); (CFE_SB_DUP_SUBSCRIP_EID, 0xFFFC); (CFE_SB_MSGID_LIM_ERR_EID, 0xFFF0);
   (CFE_SB_Q_FULL_ERR_EID, 0xFFF0); (0, 0); (0, 0); (0, 0); (0, 0)].

(** ** Data (cfe_sb_msg.h, cfe_sb_priv.h) *)

Record CFE_SB_PipeDepthStats_t := mkDepth { ps_PipeId : Z; ps_MaxQueueDepth : Z; ps_CurrentQueueDepth : Z; ps_PeakQueueDepth : Z }.

Record CFE_SB_SubEntries_t := mkSubEntry { se_MsgId : Z; se_Priority : Z; se_Reliability : Z; se_Pipe : Z }.

(** The names are those of the application and of the pipe. *)
Record CFE_SB_RoutingFileEntry_t := mkRouting {
  re_MsgId : Z; re_PipeId : Z; re_State : Z; re_MsgCnt : Z; re_AppName : list Z; re_PipeName : string }.

Record CFE_SB_PipeInfoEntry_t := mkPipeInfo {
  pi_PipeId : Z; pi_AppId : Z; pi_PipeName : string; pi_AppName : list Z; pi_MaxQueueDepth : Z; pi_CurrentQueueDepth : Z;
  pi_PeakQueueDepth : Z; pi_SendErrors : Z; pi_Opts : Z }.

Record CFE_SB_MsgMapFileEntry_t := mkMapEntry { me_MsgId : Z; me_Index : Z }.

(** The request of a file; the functions that give the records are named by the kind of the file. *)
Inductive SB_FileKind := RouteFile | PipeFile | MapFile.

Record CFE_FS_FileWriteMetaData_t := mkFileWrite {
  fw_IsPending : bool; fw_FileName : list Z; fw_FileSubType : Z; fw_Description : list Z; fw_GetData : option SB_FileKind }.

(** The buffer of the records is a union; every getter writes the member it uses before
    it reads it, so the members are kept apart.  The entries of a route are the first
    NumDestinations ones. *)
Record SB_Task_t := mkSBTask {
  ta_AppId : Z;
  ta_CmdPipe : Z;
  ta_EventFilters : list (Z * Z);
  ta_HKHdr : Message;
  ta_MemPoolHandle : Z;
  ta_MemInUse : Z;
  ta_UnmarkedMem : Z;
  ta_StatHdr : Message;
  ta_MaxMsgIdsAllowed : Z;
  ta_MaxPipesAllowed : Z;
  ta_MaxMemAllowed : Z;
  ta_MaxPipeDepthAllowed : Z;
  ta_MaxSubscriptionsAllowed : Z;
  ta_PipeDepthStats : list CFE_SB_PipeDepthStats_t;
  ta_PrevHdr : Message;
  ta_PktSegment : Z;
  ta_TotalSegments : Z;
  ta_Entries : Z;
  ta_Entry : list CFE_SB_SubEntries_t;
  ta_FileWrite : CFE_FS_FileWriteMetaData_t;
  ta_DestEntries : list CFE_SB_RoutingFileEntry_t;
  ta_MsgMapInfo : CFE_SB_MsgMapFileEntry_t;
}.

Record SBSys {PS QS : Type} := mkSBSys { Bus : CFE_SB_Global_t PS QS; Task : SB_Task_t }.
Arguments SBSys : clear implicits.
Arguments mkSBSys {PS QS} _ _.

#[export] Instance SubEntry_eta : Eta CFE_SB_SubEntries_t := mkEta (λ r, mkSubEntry (se_MsgId r) (se_Priority r) (se_Reliability r) (se_Pipe r)).
#[export] Instance MapEntry_eta : Eta CFE_SB_MsgMapFileEntry_t := mkEta (λ r, mkMapEntry (me_MsgId r) (me_Index r)).
#[export] Instance Routing_eta : Eta CFE_SB_RoutingFileEntry_t := mkEta (λ r,
  mkRouting (re_MsgId r) (re_PipeId r) (re_State r) (re_MsgCnt r) (re_AppName r) (re_PipeName r)).
#[export] Instance FileWrite_eta : Eta CFE_FS_FileWriteMetaData_t := mkEta (λ r,
  mkFileWrite (fw_IsPending r) (fw_FileName r) (fw_FileSubType r) (fw_Description r) (fw_GetData r)).
#[export] Instance SBTask_eta : Eta SB_Task_t := mkEta (λ r,
  mkSBTask (ta_AppId r) (ta_CmdPipe r) (ta_EventFilters r) (ta_HKHdr r) (ta_MemPoolHandle r) (ta_MemInUse r) (ta_UnmarkedMem r)
    (ta_StatHdr r) (ta_MaxMsgIdsAllowed r) (ta_MaxPipesAllowed r) (ta_MaxMemAllowed r) (ta_MaxPipeDepthAllowed r)
    (ta_MaxSubscriptionsAllowed r) (ta_PipeDepthStats r) (ta_PrevHdr r) (ta_PktSegment r) (ta_TotalSegments r) (ta_Entries r)
    (ta_Entry r) (ta_FileWrite r) (ta_DestEntries r) (ta_MsgMapInfo r)).
#[export] Instance SBSys_eta PS QS : Eta (SBSys PS QS) := mkEta (λ r, mkSBSys (Bus r) (Task r)).

(** ** Bytes of packets and commands *)

Definition le16 (z : Z) : Message := [u8 z; u8 (Z.shiftr z 8)].
Definition get32 (m : Message) (off : nat) : Z :=
  m !!! off + 2 ^ 8 * m !!! (off + 1)%nat + 2 ^ 16 * m !!! (off + 2)%nat + 2 ^ 24 * m !!! (off + 3)%nat.

Definition sizeof_TlmHeader : nat := 16.
Definition sizeof_HKTlm : Z := 44.
Definition sizeof_StatTlm : Z := 844.
Definition sizeof_AllSubsTlm : Z := 268.

Definition hk_packet (h : HKTlm_Payload) (t : SB_Task_t) : Message :=
  ta_HKHdr t ++ (u8 <$> [CommandCounter h; CommandErrorCounter h; NoSubscribersCounter h; MsgSendErrorCounter h; MsgReceiveErrorCounter h;
    InternalErrorCounter h; CreatePipeErrorCounter h; SubscribeErrorCounter h; PipeOptsErrorCounter h; DuplicateSubscriptionsCounter h;
    GetPipeIdByNameErrorCounter h; 0]) ++ le16 (PipeOverflowErrorCounter h) ++ le16 (MsgLimitErrorCounter h) ++
  le32 (ta_MemPoolHandle t) ++ le32 (ta_MemInUse t) ++ le32 (ta_UnmarkedMem t).

Definition depth_bytes (p : CFE_SB_PipeDepthStats_t) : Message :=
  le32 (ps_PipeId p) ++ le16 (ps_MaxQueueDepth p) ++ le16 (ps_CurrentQueueDepth p) ++ le16 (ps_PeakQueueDepth p) ++ le16 0.

Definition stat_packet (k : StatTlm_Payload) (t : SB_Task_t) : Message :=
  ta_StatHdr t ++ ([MsgIdsInUse k; PeakMsgIdsInUse k; ta_MaxMsgIdsAllowed t; PipesInUse k; PeakPipesInUse k; ta_MaxPipesAllowed t;
    MemInUse k; PeakMemInUse k; ta_MaxMemAllowed t; SubscriptionsInUse k; PeakSubscriptionsInUse k; ta_MaxSubscriptionsAllowed t;
    SBBuffersInUse k; PeakSBBuffersInUse k; ta_MaxPipeDepthAllowed t] ≫= le32) ++ (ta_PipeDepthStats t ≫= depth_bytes).

Definition entry_bytes (e : CFE_SB_SubEntries_t) : Message :=
  le32 (se_MsgId e) ++ [u8 (se_Priority e); u8 (se_Reliability e); 0; 0] ++ le32 (se_Pipe e).

Definition prev_packet (t : SB_Task_t) : Message :=
  ta_PrevHdr t ++ le32 (ta_PktSegment t) ++ le32 (ta_TotalSegments t) ++ le32 (ta_Entries t) ++ (ta_Entry t ≫= entry_bytes).

Section task.
Context {PS QS : Type} `{MemPool PS} `{OSQueue QS} `{MsgMap} `{BuildCfg}.
Abbreviation G := (CFE_SB_Global_t PS QS).
Abbreviation ERROR := CFE_EVS_EventType_ERROR.
Abbreviation DEBUG := CFE_EVS_EventType_DEBUG.
Abbreviation INFORMATION := CFE_EVS_EventType_INFORMATION.

(** The size of the command header, which is where the payload of a command starts. *)
Definition sizeof_CmdHeader : nat := match cfg_hdr with Hdr_Pri => 8 | Hdr_PriExt => 16 end.
Definition sizeof_NoArgsCmd : Z := Z.of_nat sizeof_CmdHeader.
Definition sizeof_RouteCmd : Z := Z.of_nat sizeof_CmdHeader + 12.
Definition sizeof_WriteFileCmd : Z := Z.of_nat (sizeof_CmdHeader + sb_path_len).
Definition sizeof_RestartCmd : Z := Z.of_nat sizeof_CmdHeader + 2.

(** A header made by CFE_MSG_Init in a packet of [size] bytes; the rest of the packet is cleared. *)
Definition tlm_header (mid size : Z) : Message :=
  take sizeof_TlmHeader (default [] (CFE_MSG_Init cfg_hdr cfg_msgid cfg_spacecraft (Some (replicate (Z.to_nat size) 0)) mid size).2).

Definition clear_filewrite : CFE_FS_FileWriteMetaData_t := mkFileWrite false (replicate sb_path_len 0) 0 [] None.
Definition clear_header : Message := replicate sizeof_TlmHeader 0.

(** The part of the task after CFE_SB_EarlyInit: cleared, with the header of the statistics. *)
Definition early_task : SB_Task_t :=
  mkSBTask 0 0 (replicate CFE_SB_MAX_CFG_FILE_EVENTS_TO_FILTER (0, 0)) clear_header 0 0 0
    (tlm_header CFE_SB_STATS_TLM_MID sizeof_StatTlm) 0 0 0 0 0
    (replicate (Z.to_nat CFE_MISSION_SB_MAX_PIPES) (mkDepth 0 0 0 0)) clear_header 0 0 0
    (replicate (Z.to_nat CFE_SB_SUB_ENTRIES_PER_PKT) (mkSubEntry 0 0 0 0)) clear_filewrite [] (mkMapEntry 0 0).

Abbreviation S := (SBSys PS QS).

Definition bus {A} (c : M G A) : M S A := λ s,
  match c (Bus s) with Some (a, g) => Some (a, s <| Bus := g |>) | None => None end.
Definition task (f : SB_Task_t → SB_Task_t) : M S unit := modify (λ s, s <| Task ::= f |>).
Definition event (id : Z) (type : CFE_EVS_EventType) : M S unit := bus (SendEvent id type None).

(** CFE_SB_TimeStampMsg on the header of a packet (cfe_sb_util.c). *)
Definition CFE_SB_TimeStampMsg (now : Z * Z) (Hdr : Message) : Message := default Hdr (CFE_MSG_SetMsgTime cfg_hdr (Some Hdr) now).2.

(** ** Counters *)

Definition CFE_SB_IncrCmdCtr (status : Z) : M S unit :=
  if status =? CFE_SUCCESS then bus (hk (λ k, k <| CommandCounter ::= incr 8 |>))
  else bus (hk (λ k, k <| CommandErrorCounter ::= incr 8 |>)).

Definition CFE_SB_ResetCounters : M S unit :=
  bus (hk (λ k, k <| CommandCounter := 0 |> <| CommandErrorCounter := 0 |> <| NoSubscribersCounter := 0 |>
                  <| DuplicateSubscriptionsCounter := 0 |> <| MsgSendErrorCounter := 0 |> <| MsgReceiveErrorCounter := 0 |>
                  <| InternalErrorCounter := 0 |> <| CreatePipeErrorCounter := 0 |> <| SubscribeErrorCounter := 0 |>
                  <| PipeOverflowErrorCounter := 0 |> <| MsgLimitErrorCounter := 0 |>)).

Definition CFE_SB_NoopCmd : M S Z :=
  event CFE_SB_CMD0_RCVD_EID INFORMATION;;
  bus (hk (λ k, k <| CommandCounter ::= incr 8 |>));;
  mret CFE_SUCCESS.

Definition CFE_SB_ResetCountersCmd : M S Z :=
  event CFE_SB_CMD1_RCVD_EID DEBUG;;
  CFE_SB_ResetCounters;;
  mret CFE_SUCCESS.

Definition CFE_SB_SetSubscriptionReporting (state : bool) : M S unit :=
  bus (modify (λ s, s <| SubscriptionReporting := state |>)).
Definition CFE_SB_EnableSubReportingCmd : M S Z := CFE_SB_SetSubscriptionReporting true;; mret CFE_SUCCESS.
Definition CFE_SB_DisableSubReportingCmd : M S Z := CFE_SB_SetSubscriptionReporting false;; mret CFE_SUCCESS.

(** ** Routes *)

(** The two commands differ in the state and the events: the route does not exist, the
    route is changed, a parameter is not valid. *)
Definition route_cmd (Active E1 E2 E3 : Z) (MsgId Pipe : Z) : M S Z :=
  PendingEventID ← bus (
    CFE_SB_LockSharedData;;
    let PipeDscPtr := CFE_SB_LocatePipeDescByID Pipe in
    m ← CFE_SB_PipeDescIsMatch PipeDscPtr Pipe;
    PendingEventID ← (if negb (CFE_SB_IsValidMsgId MsgId) || negb m then
        hk (λ k, k <| CommandErrorCounter ::= incr 8 |>);; mret E3
      else
        RouteId ← sbr (CFE_SBR_GetRouteId MsgId);
        DestPtr ← CFE_SB_GetDestPtr RouteId Pipe;
        if DestPtr =? NULL then hk (λ k, k <| CommandErrorCounter ::= incr 8 |>);; mret E1
        else wr_dest DestPtr (λ d, d <| dd_Active := Active |>);; hk (λ k, k <| CommandCounter ::= incr 8 |>);; mret E2);
    CFE_SB_UnlockSharedData;;
    mret PendingEventID);
  event PendingEventID (if PendingEventID =? E2 then DEBUG else ERROR);;
  mret CFE_SUCCESS.

Definition CFE_SB_EnableRouteCmd (MsgId Pipe : Z) : M S Z :=
  route_cmd CFE_SB_ACTIVE CFE_SB_ENBL_RTE1_EID CFE_SB_ENBL_RTE2_EID CFE_SB_ENBL_RTE3_EID MsgId Pipe.
Definition CFE_SB_DisableRouteCmd (MsgId Pipe : Z) : M S Z :=
  route_cmd CFE_SB_INACTIVE CFE_SB_DSBL_RTE1_EID CFE_SB_DSBL_RTE2_EID CFE_SB_DSBL_RTE3_EID MsgId Pipe.

(** ** Telemetry *)

Definition CFE_SB_SendHKTlmCmd (c : Caller) (now : Z * Z) : M S Z :=
  bus CFE_SB_LockSharedData;;
  k ← gets (λ s, Stat (Bus s));
  task (λ t, t <| ta_MemInUse := MemInUse k |> <| ta_UnmarkedMem := u32 (CFE_PLATFORM_SB_BUF_MEMORY_BYTES - PeakMemInUse k) |>);;
  bus CFE_SB_UnlockSharedData;;
  task (λ t, t <| ta_HKHdr ::= CFE_SB_TimeStampMsg now |>);;
  s ← gets id;
  _ ← bus (CFE_SB_TransmitMsg c (Some (hk_packet (HK (Bus s)) (Task s))) true);
  mret CFE_SUCCESS.

Definition CFE_SB_PipeDescIsUsed (p : CFE_SB_PipeD_t) : bool := negb (pd_PipeId p =? CFE_RESOURCEID_UNDEFINED).

(** The pipes in use, at most [PipeStatCount]; the code goes through the table and the
    array of the packet with one pointer each. *)
Fixpoint depth_loop (PipeTbl : list CFE_SB_PipeD_t) (PipeStatCount : nat) : list CFE_SB_PipeDepthStats_t :=
  match PipeTbl, PipeStatCount with
  | [], _ | _, O => []
  | p :: PipeTbl, Datatypes.S n =>
      if CFE_SB_PipeDescIsUsed p
      then mkDepth (pd_PipeId p) (pd_MaxQueueDepth p) (pd_CurrentQueueDepth p) (pd_PeakQueueDepth p) :: depth_loop PipeTbl n
      else depth_loop PipeTbl (Datatypes.S n)
  end.

Definition CFE_SB_SendStatsCmd (c : Caller) (now : Z * Z) : M S Z :=
  bus CFE_SB_LockSharedData;;
  tbl ← gets (λ s, PipeTbl (Bus s));
  let l := depth_loop (take (Z.to_nat CFE_PLATFORM_SB_MAX_PIPES) tbl) (Z.to_nat CFE_MISSION_SB_MAX_PIPES) in
  bus CFE_SB_UnlockSharedData;;
  task (λ t, t <| ta_PipeDepthStats := l ++ replicate (Z.to_nat CFE_MISSION_SB_MAX_PIPES - List.length l) (mkDepth 0 0 0 0) |>);;
  task (λ t, t <| ta_StatHdr ::= CFE_SB_TimeStampMsg now |>);;
  s ← gets id;
  _ ← bus (CFE_SB_TransmitMsg c (Some (stat_packet (Stat (Bus s)) (Task s))) true);
  event CFE_SB_SND_STATS_EID DEBUG;;
  bus (hk (λ k, k <| CommandCounter ::= incr 8 |>));;
  mret CFE_SUCCESS.

(** ** All subscriptions *)

Definition wr_entry (i : Z) (f : CFE_SB_SubEntries_t → CFE_SB_SubEntries_t) : M S unit :=
  l ← gets (λ s, ta_Entry (Task s));
  l ← of_option (tbl_upd f i l);
  task (λ t, t <| ta_Entry := l |>).

(** The packet is sent without the mutex. *)
Definition send_full (c : Caller) : M S unit :=
  bus CFE_SB_UnlockSharedData;;
  t ← gets Task;
  _ ← bus (CFE_SB_TransmitMsg c (Some (prev_packet t)) true);
  event CFE_SB_FULL_SUB_PKT_EID DEBUG;;
  bus CFE_SB_LockSharedData;;
  task (λ t, t <| ta_Entries := 0 |>);;
  task (λ t, t <| ta_PktSegment ::= λ n, u32 (n + 1) |>).

Definition add_entry (c : Caller) (RouteId : Z) : M S unit :=
  i ← gets (λ s, ta_Entries (Task s));
  m ← bus (sbr (CFE_SBR_GetMsgId RouteId));
  wr_entry i (λ e, e <| se_MsgId := m |>);;
  wr_entry i (λ e, e <| se_Priority := 0 |>);;
  wr_entry i (λ e, e <| se_Reliability := 0 |>);;
  task (λ t, t <| ta_Entries ::= λ n, u32 (n + 1) |>);;
  n ← gets (λ s, ta_Entries (Task s));
  when (CFE_SB_SUB_ENTRIES_PER_PKT <=? n) (send_full c).

Fixpoint route_sub_loop (fuel : nat) (c : Caller) (RouteId : Z) (destptr : addr) : M S unit :=
  if destptr =? NULL then mret tt else
  d ← bus (rd_dest destptr);
  if dd_Scope d =? CFE_SB_MSG_GLOBAL then add_entry c RouteId
  else
    match fuel with
    | O => undef
    | Datatypes.S fuel => route_sub_loop fuel c RouteId (dd_Next d)
    end.

Definition CFE_SB_SendRouteSub (c : Caller) (RouteId : Z) : M S unit :=
  destptr ← bus (sbr (CFE_SBR_GetDestListHeadPtr RouteId));
  fuel ← bus dest_fuel;
  route_sub_loop fuel c RouteId destptr.

Definition route_top (s : S) : Z := RouteIdxTop (Routes (Bus s)).

Definition CFE_SB_SendPrevSubsCmd (c : Caller) : M S Z :=
  bus CFE_SB_LockSharedData;;
  task (λ t, t <| ta_PktSegment := 1 |> <| ta_Entries := 0 |>);;
  _ ← CFE_SBR_ForEachRouteId route_top (CFE_SB_SendRouteSub c) None;
  bus CFE_SB_UnlockSharedData;;
  t ← gets Task;
  when (0 <? ta_Entries t)
    (_ ← bus (CFE_SB_TransmitMsg c (Some (prev_packet t)) true);
     event CFE_SB_PART_SUB_PKT_EID DEBUG);;
  mret CFE_SUCCESS.

(** ** Files *)

(** The record function of a file gives the data to write and whether the file is complete. *)

Section getters.
Context (AppTable : list CFE_ES_AppRecord_t).

Definition app_name (AppId : Z) : list Z := default [] (CFE_ES_GetAppName AppTable (Some (replicate sb_api_len 0)) AppId sb_api_len).2.

(** The destinations of a route, each with the owner of its pipe. *)
Fixpoint collect_loop (fuel : nat) (DestPtr : addr) (found : list (CFE_SB_RoutingFileEntry_t * Z)) : M S (list (CFE_SB_RoutingFileEntry_t * Z)) :=
  if (DestPtr =? NULL) || (CFE_PLATFORM_SB_MAX_DEST_PER_PKT <=? Z.of_nat (List.length found)) then mret found else
  d ← bus (rd_dest DestPtr);
  let PipeDscPtr := CFE_SB_LocatePipeDescByID (dd_PipeId d) in
  m ← bus (CFE_SB_PipeDescIsMatch PipeDscPtr (dd_PipeId d));
  found ← (match PipeDscPtr, m with
           | Some i, true => p ← bus (rd_pipe i); mret (found ++ [(mkRouting 0 (dd_PipeId d) (dd_Active d) (dd_DestCnt d) [] "", pd_AppId p)])
           | _, _ => mret found
           end);
  match fuel with
  | O => undef
  | Datatypes.S fuel => collect_loop fuel (dd_Next d) found
  end.

Fixpoint name_loop (RouteMsgId : Z) (found : list (CFE_SB_RoutingFileEntry_t * Z)) : M S (list CFE_SB_RoutingFileEntry_t) :=
  match found with
  | [] => mret []
  | (e, AppId) :: found =>
      '(_, name) ← bus (CFE_SB_GetPipeName (Some (re_PipeName e)) (Z.of_nat sb_api_len) (re_PipeId e));
      l ← name_loop RouteMsgId found;
      mret (mkRouting RouteMsgId (re_PipeId e) (re_State e) (re_MsgCnt e) (app_name AppId) (default ""%string name) :: l)
  end.

Definition CFE_SB_CollectRouteInfo (RouteId : Z) : M S unit :=
  bus CFE_SB_LockSharedData;;
  RouteMsgId ← bus (sbr (CFE_SBR_GetMsgId RouteId));
  found ← (if CFE_SB_IsValidMsgId RouteMsgId then
      DestPtr ← bus (sbr (CFE_SBR_GetDestListHeadPtr RouteId));
      fuel ← bus dest_fuel;
      collect_loop fuel DestPtr []
    else mret []);
  bus CFE_SB_UnlockSharedData;;
  l ← name_loop RouteMsgId found;
  task (λ t, t <| ta_DestEntries := l |>).

Definition CFE_SB_WriteRouteInfoDataGetter (RecordNum : Z) : M S (list CFE_SB_RoutingFileEntry_t * bool) :=
  task (λ t, t <| ta_DestEntries := [] |>);;
  t ← CFE_SBR_ForEachRouteId route_top CFE_SB_CollectRouteInfo (Some (mkThrottle RecordNum 1 0));
  l ← gets (λ s, ta_DestEntries (Task s));
  mret (l, default 0 (NextIndex <$> t) =? 0).

Definition CFE_SB_WritePipeInfoDataGetter (RecordNum : Z) : M S (option CFE_SB_PipeInfoEntry_t * bool) :=
  r ← (if RecordNum <? CFE_PLATFORM_SB_MAX_PIPES then
      bus CFE_SB_LockSharedData;;
      p ← bus (rd_pipe RecordNum);
      bus CFE_SB_UnlockSharedData;;
      if CFE_SB_PipeDescIsUsed p then
        '(_, name) ← gets (λ s, OS_GetResourceName (pd_SysQueueId p) (Z.of_nat sb_api_len) (Queues (Bus s)));
        mret (Some (mkPipeInfo (pd_PipeId p) (pd_AppId p) name (app_name (pd_AppId p)) (pd_MaxQueueDepth p) (pd_CurrentQueueDepth p)
                      (pd_PeakQueueDepth p) (pd_SendErrors p) (pd_Opts p)))
      else mret None
    else mret None);
  mret (r, CFE_PLATFORM_SB_MAX_PIPES - 1 <=? RecordNum).

Definition CFE_SB_CollectMsgMapInfo (RouteId : Z) : M S unit :=
  bus CFE_SB_LockSharedData;;
  m ← bus (sbr (CFE_SBR_GetMsgId RouteId));
  task (λ t, t <| ta_MsgMapInfo := mkMapEntry m (CFE_SBR_RouteIdToValue RouteId) |>);;
  bus CFE_SB_UnlockSharedData.

Definition CFE_SB_WriteMsgMapInfoDataGetter (RecordNum : Z) : M S (option CFE_SB_MsgMapFileEntry_t * bool) :=
  task (λ t, t <| ta_MsgMapInfo ::= λ e, e <| me_MsgId := CFE_SB_INVALID_MSG_ID |> |>);;
  t ← CFE_SBR_ForEachRouteId route_top CFE_SB_CollectMsgMapInfo (Some (mkThrottle RecordNum 1 0));
  e ← gets (λ s, ta_MsgMapInfo (Task s));
  mret (if CFE_SB_IsValidMsgId (me_MsgId e) then Some e else None, default 0 (NextIndex <$> t) =? 0).
End getters.

(** The events of the background writer. *)
Inductive CFE_FS_FileWriteEvent_t :=
| CFE_FS_FileWriteEvent_UNDEFINED | CFE_FS_FileWriteEvent_COMPLETE | CFE_FS_FileWriteEvent_CREATE_ERROR | CFE_FS_FileWriteEvent_HEADER_WRITE_ERROR | CFE_FS_FileWriteEvent_RECORD_WRITE_ERROR.

Definition CFE_SB_BackgroundFileEventHandler (Event : CFE_FS_FileWriteEvent_t) : M S unit :=
  match Event with
  | CFE_FS_FileWriteEvent_COMPLETE => event CFE_SB_SND_RTG_EID DEBUG
  | CFE_FS_FileWriteEvent_HEADER_WRITE_ERROR | CFE_FS_FileWriteEvent_RECORD_WRITE_ERROR => event CFE_SB_FILEWRITE_ERR_EID ERROR
  | CFE_FS_FileWriteEvent_CREATE_ERROR => event CFE_SB_SND_RTG_ERR1_EID ERROR
  | CFE_FS_FileWriteEvent_UNDEFINED => mret tt
  end.

(** The commands that write files differ in the default name and the description of the
    file.  [Request] is the status of CFE_FS_BackgroundFileDumpRequest, which on success
    leaves the request pending. *)
Definition write_file_cmd (k : SB_FileKind) (SubType : Z) (Default Description : list Z) (Request : Z) (Filename : list Z) : M S Z :=
  w ← gets (λ s, ta_FileWrite (Task s));
  Status ← (if negb (fw_IsPending w) then
      r ← of_option (CFE_SB_MessageStringGet (Some (replicate sb_path_len 0)) Filename (Some Default) sb_path_len sb_path_len);
      task (λ t, t <| ta_FileWrite := mkFileWrite (Request =? CFE_SUCCESS) (default [] r.2) SubType Description (Some k) |>
                   <| ta_DestEntries := [] |> <| ta_MsgMapInfo := mkMapEntry 0 0 |>);;
      mret Request
    else mret CFE_STATUS_REQUEST_ALREADY_PENDING);
  when (negb (Status =? CFE_SUCCESS)) (CFE_SB_BackgroundFileEventHandler CFE_FS_FileWriteEvent_CREATE_ERROR);;
  CFE_SB_IncrCmdCtr Status;;
  mret CFE_SUCCESS.

Definition CFE_SB_WriteRoutingInfoCmd (Request : Z) (Filename : list Z) : M S Z :=
  write_file_cmd RouteFile CFE_FS_SubType_SB_ROUTEDATA CFE_PLATFORM_SB_DEFAULT_ROUTING_FILENAME (chars "SB Routing Information") Request Filename.
Definition CFE_SB_WritePipeInfoCmd (Request : Z) (Filename : list Z) : M S Z :=
  write_file_cmd PipeFile CFE_FS_SubType_SB_PIPEDATA CFE_PLATFORM_SB_DEFAULT_PIPE_FILENAME (chars "SB Pipe Information") Request Filename.
Definition CFE_SB_WriteMapInfoCmd (Request : Z) (Filename : list Z) : M S Z :=
  write_file_cmd MapFile CFE_FS_SubType_SB_MAPDATA CFE_PLATFORM_SB_DEFAULT_MAP_FILENAME (chars "SB Map Information") Request Filename.

(** ** The command pipe *)

Definition CFE_SB_VerifyCmdLength (m : Message) (ExpectedLength : Z) : M S bool :=
  let ActualLength := default 0 (CFE_MSG_GetSize (Some m) (Some 0)).2 in
  if negb (ExpectedLength =? ActualLength) then
    event CFE_SB_LEN_ERR_EID ERROR;;
    bus (hk (λ k, k <| CommandErrorCounter ::= incr 8 |>));;
    mret false
  else mret true.

Definition verified (m : Message) (ExpectedLength : Z) (c : M S Z) : M S unit :=
  ok ← CFE_SB_VerifyCmdLength m ExpectedLength;
  when ok (_ ← c; mret tt).

(** [now] is the time, [Request] the status of a request to write a file. *)
Definition CFE_SB_ProcessCmdPipePkt (c : Caller) (now : Z * Z) (Request : Z) (m : Message) : M S unit :=
  let MessageID := default CFE_SB_INVALID_MSG_ID (CFE_MSG_GetMsgId cfg_msgid (Some m) (Some CFE_SB_INVALID_MSG_ID)).2 in
  let FcnCode := default 0 (CFE_MSG_GetFcnCode cfg_hdr (Some m) (Some 0)).2 in
  let MsgId := get32 m sizeof_CmdHeader in
  let Pipe := get32 m (sizeof_CmdHeader + 4) in
  let Filename := take sb_path_len (drop sizeof_CmdHeader m) in
  let bad id := event id ERROR;; bus (hk (λ k, k <| CommandErrorCounter ::= incr 8 |>)) in
  if MessageID =? CFE_SB_SEND_HK_MID then _ ← CFE_SB_SendHKTlmCmd c now; mret tt
  else if MessageID =? CFE_SB_SUB_RPT_CTRL_MID then
    if FcnCode =? CFE_SB_SEND_PREV_SUBS_CC then verified m sizeof_NoArgsCmd (CFE_SB_SendPrevSubsCmd c)
    else if FcnCode =? CFE_SB_ENABLE_SUB_REPORTING_CC then verified m sizeof_NoArgsCmd CFE_SB_EnableSubReportingCmd
    else if FcnCode =? CFE_SB_DISABLE_SUB_REPORTING_CC then verified m sizeof_NoArgsCmd CFE_SB_DisableSubReportingCmd
    else bad CFE_SB_BAD_CMD_CODE_EID
  else if MessageID =? CFE_SB_CMD_MID then
    if FcnCode =? CFE_SB_NOOP_CC then verified m sizeof_NoArgsCmd CFE_SB_NoopCmd
    else if FcnCode =? CFE_SB_RESET_COUNTERS_CC then verified m sizeof_NoArgsCmd CFE_SB_ResetCountersCmd
    else if FcnCode =? CFE_SB_SEND_SB_STATS_CC then verified m sizeof_NoArgsCmd (CFE_SB_SendStatsCmd c now)
    else if FcnCode =? CFE_SB_WRITE_ROUTING_INFO_CC then verified m sizeof_WriteFileCmd (CFE_SB_WriteRoutingInfoCmd Request Filename)
    else if FcnCode =? CFE_SB_ENABLE_ROUTE_CC then verified m sizeof_RouteCmd (CFE_SB_EnableRouteCmd MsgId Pipe)
    else if FcnCode =? CFE_SB_DISABLE_ROUTE_CC then verified m sizeof_RouteCmd (CFE_SB_DisableRouteCmd MsgId Pipe)
    else if FcnCode =? CFE_SB_WRITE_PIPE_INFO_CC then verified m sizeof_WriteFileCmd (CFE_SB_WritePipeInfoCmd Request Filename)
    else if FcnCode =? CFE_SB_WRITE_MAP_INFO_CC then verified m sizeof_WriteFileCmd (CFE_SB_WriteMapInfoCmd Request Filename)
    else bad CFE_SB_BAD_CMD_CODE_EID
  else bad CFE_SB_BAD_MSGID_EID.

(** ** The start of the task *)

(** What the calls of CFE_SB_AppInit into the other services give: the status of the
    registrations, the identifier of the application, the handle of the pool and the
    status of the last event. *)
Record AppInitEnv := mkAppInit { ai_RegisterApp : Z; ai_AppId : Z; ai_EvsRegister : Z; ai_PoolHdl : Z; ai_SendEvent : Z }.

Definition event_filters : list (Z * Z) := filter (λ e, e.1 ≠ 0) CFE_PLATFORM_SB_FILTERED_EVENTS.

(** The subscriptions of the task, up to the first that fails. *)
Fixpoint subscribe_all (c : Caller) (mids : list Z) : M S Z :=
  match mids with
  | [] => mret CFE_SUCCESS
  | mid :: mids =>
      pipe ← gets (λ s, ta_CmdPipe (Task s));
      Status ← bus (CFE_SB_Subscribe c mid pipe);
      if negb (Status =? CFE_SUCCESS) then mret Status else subscribe_all c mids
  end.

Definition init_packets (e : AppInitEnv) (t : SB_Task_t) : SB_Task_t :=
  t <| ta_HKHdr := tlm_header CFE_SB_HK_TLM_MID sizeof_HKTlm |>
    <| ta_MemInUse := 0 |> <| ta_UnmarkedMem := 0 |>
    <| ta_PrevHdr := tlm_header CFE_SB_ALLSUBS_TLM_MID sizeof_AllSubsTlm |>
    <| ta_PktSegment := 0 |> <| ta_TotalSegments := 0 |> <| ta_Entries := 0 |>
    <| ta_Entry := replicate (Z.to_nat CFE_SB_SUB_ENTRIES_PER_PKT) (mkSubEntry 0 0 0 0) |>
    <| ta_MemPoolHandle := ai_PoolHdl e |>
    <| ta_MaxMsgIdsAllowed := CFE_PLATFORM_SB_MAX_MSG_IDS |> <| ta_MaxPipesAllowed := CFE_PLATFORM_SB_MAX_PIPES |>
    <| ta_MaxMemAllowed := CFE_PLATFORM_SB_BUF_MEMORY_BYTES |> <| ta_MaxPipeDepthAllowed := OS_QUEUE_MAX_DEPTH |>
    <| ta_MaxSubscriptionsAllowed := CFE_PLATFORM_SB_MAX_MSG_IDS * CFE_PLATFORM_SB_MAX_DEST_PER_PKT |>.

Definition CFE_SB_AppInit (c : Caller) (e : AppInitEnv) : M S Z :=
  if negb (ai_RegisterApp e =? CFE_SUCCESS) then mret (ai_RegisterApp e) else
  task (λ t, t <| ta_AppId := ai_AppId e |> <| ta_EventFilters ::= λ l, event_filters ++ drop (List.length event_filters) l |>);;
  if negb (ai_EvsRegister e =? CFE_SUCCESS) then mret (ai_EvsRegister e) else
  (* the initialization of the packet clears its counters *)
  bus (hk (λ _, mkHK 0 0 0 0 0 0 0 0 0 0 0 0 0));;
  task (init_packets e);;
  pipe ← gets (λ s, ta_CmdPipe (Task s));
  '(Status, pipe) ← bus (CFE_SB_CreatePipe c (Some pipe) CFE_SB_CMD_PIPE_DEPTH (Some CFE_SB_CMD_PIPE_NAME));
  task (λ t, t <| ta_CmdPipe ::= λ p, default p pipe |>);;
  if negb (Status =? CFE_SUCCESS) then mret Status else
  Status ← subscribe_all c [CFE_SB_CMD_MID; CFE_SB_SEND_HK_MID; CFE_SB_SUB_RPT_CTRL_MID];
  if negb (Status =? CFE_SUCCESS) then mret Status else
  (* a block of the size of the reset command stays in the pool *)
  '(Status, TmpPtr) ← bus (pool (CFE_ES_GetPoolBuf sizeof_RestartCmd));
  if Status <? 0 then mret Status else
  Status ← bus (pool (CFE_ES_PutPoolBuf TmpPtr));
  if Status <? 0 then mret Status else
  event CFE_SB_INIT_EID INFORMATION;;
  if negb (ai_SendEvent e =? CFE_SUCCESS) then mret (ai_SendEvent e) else mret CFE_SUCCESS.

End task.
