(* ===== verification/EsPool.v ===== *)
(** * Memory pools (cfe_es_generic_pool.c)

    A pool hands out blocks of a few fixed sizes (buckets) from a region of memory.
    Every block is preceded by a descriptor in that memory; blocks that were put back
    form one stack per bucket, linked through their descriptors.  The pool record is
    outside the region.  The state is the record and the memory; the region starts at
    [BaseAddr], and a descriptor access outside of it has no result.  Retrieve and
    Commit are those of directly addressed pools (cfe_es_mempool.c). *)
From S2P Require Import Prelude Bytes Config.

Definition CFE_ES_CHECK_PATTERN : Z := 0x5a5a.
Definition CFE_ES_MEMORY_ALLOCATED : Z := 0xaaaa.
Definition CFE_ES_MEMORY_DEALLOCATED : Z := 0xdddd.

(** sizeof(CFE_ES_GenPoolBD_t): two 16 bit fields, padding, two [size_t]. *)
Definition CFE_ES_GENERIC_POOL_DESCRIPTOR_SIZE : Z := 24.

Record CFE_ES_GenPoolBD_t := mkBD { CheckBits : Z; Allocated : Z; ActualSize : Z; NextOffset : Z }.

Record CFE_ES_GenPoolBucket_t := mkBucket {
  BlockSize : Z;
  FirstOffset : Z;
  AllocationCount : Z;
  ReleaseCount : Z;
  RecycleCount : Z;
}.

Record CFE_ES_GenPoolRecord_t := mkGenPool {
  PoolTotalSize : Z;
  PoolMaxOffset : Z;
  AlignMask : Z;
  TailPosition : Z;
  PoolAllocationCount : Z;
  ValidationErrorCount : Z;
  NumBuckets : Z;
  Buckets : list CFE_ES_GenPoolBucket_t;
}.

Record PoolState := mkPoolState { Rec : CFE_ES_GenPoolRecord_t; Mem : bytes }.

#[export] Instance BD_eta : Eta CFE_ES_GenPoolBD_t := mkEta (λ r,
  mkBD (CheckBits r) (Allocated r) (ActualSize r) (NextOffset r)).
#[export] Instance Bucket_eta : Eta CFE_ES_GenPoolBucket_t := mkEta (λ r,
  mkBucket (BlockSize r) (FirstOffset r) (AllocationCount r) (ReleaseCount r) (RecycleCount r)).
#[export] Instance GenPool_eta : Eta CFE_ES_GenPoolRecord_t := mkEta (λ r,
  mkGenPool (PoolTotalSize r) (PoolMaxOffset r) (AlignMask r) (TailPosition r) (PoolAllocationCount r)
    (ValidationErrorCount r) (NumBuckets r) (Buckets r)).
#[export] Instance PoolState_eta : Eta PoolState := mkEta (λ r, mkPoolState (Rec r) (Mem r)).

(** ** Descriptors in memory *)

Definition bd_at (m : bytes) (a : Z) : CFE_ES_GenPoolBD_t :=
  mkBD (load 2 a m) (load 2 (a + 2) m) (load 8 (a + 8) m) (load 8 (a + 16) m).

#[global] Arguments bd_at : simpl never.

Section pool.
Context (BaseAddr : Z).
Implicit Types (Offset : Z).

Definition rec_upd (f : CFE_ES_GenPoolRecord_t → CFE_ES_GenPoolRecord_t) : M PoolState unit :=
  modify (λ s, s <| Rec ::= f |>).

(** CFE_ES_MemPoolDirectRetrieve: the descriptor pointer is its address.  The
    pointer must be into the region of the pool. *)
Definition CFE_ES_MemPoolDirectRetrieve Offset : M PoolState (Z * addr) :=
  r ← gets Rec;
  if (0 <=? Offset) && (Offset + CFE_ES_GENERIC_POOL_DESCRIPTOR_SIZE <=? PoolMaxOffset r)
  then mret (CFE_SUCCESS, BaseAddr + Offset) else undef.

Definition CFE_ES_MemPoolDirectCommit Offset (BdPtr : addr) : M PoolState Z := mret CFE_SUCCESS.

Definition rd_bd (BdPtr : addr) : M PoolState CFE_ES_GenPoolBD_t := gets (λ s, bd_at (Mem s) BdPtr).
Definition wr_CheckBits (BdPtr : addr) (v : Z) : M PoolState unit := modify (λ s, s <| Mem ::= store 2 BdPtr v |>).
Definition wr_Allocated (BdPtr : addr) (v : Z) : M PoolState unit := modify (λ s, s <| Mem ::= store 2 (BdPtr + 2) v |>).
Definition wr_ActualSize (BdPtr : addr) (v : Z) : M PoolState unit := modify (λ s, s <| Mem ::= store 8 (BdPtr + 8) v |>).
Definition wr_NextOffset (BdPtr : addr) (v : Z) : M PoolState unit := modify (λ s, s <| Mem ::= store 8 (BdPtr + 16) v |>).

Definition rd_bucket (i : Z) : M PoolState CFE_ES_GenPoolBucket_t := r ← gets Rec; tbl_get (Buckets r) i.
Definition wr_bucket (i : Z) (f : CFE_ES_GenPoolBucket_t → CFE_ES_GenPoolBucket_t) : M PoolState unit :=
  r ← gets Rec;
  bs ← of_option (tbl_upd f i (Buckets r));
  rec_upd (λ r, r <| Buckets := bs |>).

(** ** Buckets *)

(** The loop of CFE_ES_GenPoolFindBucket over the buckets in use. *)
Fixpoint FindBucket_loop (bs : list CFE_ES_GenPoolBucket_t) (Index ReqSize : Z) : Z :=
  match bs with
  | [] => Index
  | b :: bs => if ReqSize <=? BlockSize b then Index else FindBucket_loop bs (Index + 1) ReqSize
  end.

(** A bucket identifier counts from the end of the table, so that zero is none. *)
Definition CFE_ES_GenPoolFindBucket (r : CFE_ES_GenPoolRecord_t) (ReqSize : Z) : Z :=
  u16 (NumBuckets r - FindBucket_loop (take (Z.to_nat (NumBuckets r)) (Buckets r)) 0 ReqSize).

Definition CFE_ES_GenPoolGetBucketState (r : CFE_ES_GenPoolRecord_t) (BucketId : Z) : ptr Z :=
  let Index := u16 (NumBuckets r - BucketId) in
  if NumBuckets r <=? Index then None else Some Index.

(** ** Getting a block

    The results are the status and what is left in [*BlockOffsetPtr]. *)

Definition CFE_ES_GenPoolRecyclePoolBlock (BucketId NewSize BlockOffsetPtr : Z) : M PoolState (Z * Z) :=
  r ← gets Rec;
  match CFE_ES_GenPoolGetBucketState r BucketId with
  | None => mret (CFE_ES_BUFFER_NOT_IN_POOL, BlockOffsetPtr)
  | Some i =>
      b ← rd_bucket i;
      if (RecycleCount b =? ReleaseCount b) || (FirstOffset b =? 0) then mret (CFE_ES_BUFFER_NOT_IN_POOL, BlockOffsetPtr)
      else
        let BlockOffset := FirstOffset b in
        let DescOffset := u64 (BlockOffset - CFE_ES_GENERIC_POOL_DESCRIPTOR_SIZE) in
        '(Status, BdPtr) ← CFE_ES_MemPoolDirectRetrieve DescOffset;
        if Status =? CFE_SUCCESS then
          bd ← rd_bd BdPtr;
          let RecycleBucketId := u16 (Allocated bd - CFE_ES_MEMORY_DEALLOCATED) in
          if negb (CheckBits bd =? CFE_ES_CHECK_PATTERN) || negb (RecycleBucketId =? BucketId)
          then mret (CFE_ES_BUFFER_NOT_IN_POOL, BlockOffsetPtr)
          else
            let NextOffset := NextOffset bd in
            wr_Allocated BdPtr (u16 (CFE_ES_MEMORY_ALLOCATED + BucketId));;
            wr_ActualSize BdPtr NewSize;;
            wr_NextOffset BdPtr 0;;
            Status ← CFE_ES_MemPoolDirectCommit DescOffset BdPtr;
            if Status =? CFE_SUCCESS then
              wr_bucket i (λ b, b <| FirstOffset := NextOffset |>);;
              wr_bucket i (λ b, b <| RecycleCount ::= λ n, u32 (n + 1) |>);;
              mret (Status, BlockOffset)
            else mret (Status, BlockOffsetPtr)
        else mret (Status, BlockOffsetPtr)
  end.

(** The offset of the block after [Tail]. *)
Definition next_block (r : CFE_ES_GenPoolRecord_t) : Z :=
  Z.land (u64 (u64 (TailPosition r + CFE_ES_GENERIC_POOL_DESCRIPTOR_SIZE) + AlignMask r)) (u64 (Z.lnot (AlignMask r))).

Definition CFE_ES_GenPoolCreatePoolBlock (BucketId NewSize BlockOffsetPtr : Z) : M PoolState (Z * Z) :=
  r ← gets Rec;
  match CFE_ES_GenPoolGetBucketState r BucketId with
  | None => mret (CFE_ES_BUFFER_NOT_IN_POOL, BlockOffsetPtr)
  | Some i =>
      b ← rd_bucket i;
      let BlockOffset := next_block r in
      let DescOffset := u64 (BlockOffset - CFE_ES_GENERIC_POOL_DESCRIPTOR_SIZE) in
      let NextTailPosition := u64 (BlockOffset + BlockSize b) in
      if PoolMaxOffset r <? NextTailPosition then mret (CFE_ES_ERR_MEM_BLOCK_SIZE, BlockOffsetPtr)
      else
        '(Status, BdPtr) ← CFE_ES_MemPoolDirectRetrieve DescOffset;
        if Status =? CFE_SUCCESS then
          wr_CheckBits BdPtr CFE_ES_CHECK_PATTERN;;
          wr_Allocated BdPtr (u16 (CFE_ES_MEMORY_ALLOCATED + BucketId));;
          wr_ActualSize BdPtr NewSize;;
          wr_NextOffset BdPtr 0;;
          Status ← CFE_ES_MemPoolDirectCommit DescOffset BdPtr;
          if Status =? CFE_SUCCESS then
            rec_upd (λ r, r <| TailPosition := NextTailPosition |>);;
            wr_bucket i (λ b, b <| AllocationCount ::= λ n, u32 (n + 1) |>);;
            rec_upd (λ r, r <| PoolAllocationCount ::= λ n, u32 (n + 1) |>);;
            mret (Status, BlockOffset)
          else mret (Status, BlockOffsetPtr)
        else mret (Status, BlockOffsetPtr)
  end.

(** The log entry for a request beyond the largest block reads its size. *)
Definition CFE_ES_GenPoolGetBlock (BlockOffsetPtr ReqSize : Z) : M PoolState (Z * Z) :=
  r ← gets Rec;
  let BucketId := CFE_ES_GenPoolFindBucket r ReqSize in
  if BucketId =? 0 then
    _ ← rd_bucket (NumBuckets r - 1);
    mret (CFE_ES_ERR_MEM_BLOCK_SIZE, BlockOffsetPtr)
  else
    '(Status, BlockOffsetPtr) ← CFE_ES_GenPoolRecyclePoolBlock BucketId ReqSize BlockOffsetPtr;
    if negb (Status =? CFE_SUCCESS) then CFE_ES_GenPoolCreatePoolBlock BucketId ReqSize BlockOffsetPtr
    else mret (Status, BlockOffsetPtr).

(** ** Inspecting and putting back a block *)

(** The checks of a block: the descriptor and the bucket, if the descriptor is that
    of an allocated block. *)
Definition block_valid (r : CFE_ES_GenPoolRecord_t) (bd : CFE_ES_GenPoolBD_t) (i : ptr Z) : M PoolState bool :=
  if negb (CheckBits bd =? CFE_ES_CHECK_PATTERN) then mret false else
  match i with
  | None => mret false
  | Some i => b ← rd_bucket i; mret (negb ((ActualSize bd =? 0) || (BlockSize b <? ActualSize bd)))
  end.

Definition CFE_ES_GenPoolGetBlockSize (BlockSizePtr BlockOffset : Z) : M PoolState (Z * Z) :=
  r ← gets Rec;
  if (TailPosition r <=? BlockOffset) || (BlockOffset <? CFE_ES_GENERIC_POOL_DESCRIPTOR_SIZE)
  then mret (CFE_ES_BUFFER_NOT_IN_POOL, BlockSizePtr)
  else
    let DescOffset := u64 (BlockOffset - CFE_ES_GENERIC_POOL_DESCRIPTOR_SIZE) in
    '(Status, BdPtr) ← CFE_ES_MemPoolDirectRetrieve DescOffset;
    if Status =? CFE_SUCCESS then
      bd ← rd_bd BdPtr;
      let BucketId := u16 (Allocated bd - CFE_ES_MEMORY_ALLOCATED) in
      let BucketPtr := CFE_ES_GenPoolGetBucketState r BucketId in
      ok ← block_valid r bd BucketPtr;
      if negb ok then mret (CFE_ES_POOL_BLOCK_INVALID, BlockSizePtr)
      else mret (CFE_SUCCESS, ActualSize bd)
    else mret (Status, BlockSizePtr).

Definition CFE_ES_GenPoolPutBlock (BlockSizePtr BlockOffset : Z) : M PoolState (Z * Z) :=
  r ← gets Rec;
  if (TailPosition r <=? BlockOffset) || (BlockOffset <? CFE_ES_GENERIC_POOL_DESCRIPTOR_SIZE)
  then mret (CFE_ES_BUFFER_NOT_IN_POOL, BlockSizePtr)
  else
    let DescOffset := u64 (BlockOffset - CFE_ES_GENERIC_POOL_DESCRIPTOR_SIZE) in
    '(Status, BdPtr) ← CFE_ES_MemPoolDirectRetrieve DescOffset;
    if Status =? CFE_SUCCESS then
      bd ← rd_bd BdPtr;
      let BucketId := u16 (Allocated bd - CFE_ES_MEMORY_ALLOCATED) in
      let BucketPtr := CFE_ES_GenPoolGetBucketState r BucketId in
      ok ← block_valid r bd BucketPtr;
      match BucketPtr, ok with
      | Some i, true =>
          wr_Allocated BdPtr (u16 (CFE_ES_MEMORY_DEALLOCATED + BucketId));;
          b ← rd_bucket i;
          wr_NextOffset BdPtr (FirstOffset b);;
          bd ← rd_bd BdPtr;
          let BlockSizePtr := ActualSize bd in
          Status ← CFE_ES_MemPoolDirectCommit DescOffset BdPtr;
          when (Status =? CFE_SUCCESS)
            (wr_bucket i (λ b, b <| FirstOffset := BlockOffset |>);;
             wr_bucket i (λ b, b <| ReleaseCount ::= λ n, u32 (n + 1) |>));;
          mret (Status, BlockSizePtr)
      | _, _ =>
          rec_upd (λ r, r <| ValidationErrorCount ::= λ n, u32 (n + 1) |>);;
          mret (CFE_ES_POOL_BLOCK_INVALID, BlockSizePtr)
      end
    else mret (Status, BlockSizePtr).

(** ** Recovering a pool from its memory *)

(** One round of the loop of CFE_ES_GenPoolRebuild: [None] when it goes on, the
    status when it stops. *)
Definition rebuild_step : M PoolState (option Z) :=
  r ← gets Rec;
  let BlockOffset := next_block r in
  if PoolMaxOffset r <? BlockOffset then mret (Some CFE_SUCCESS)
  else
    let DescOffset := u64 (BlockOffset - CFE_ES_GENERIC_POOL_DESCRIPTOR_SIZE) in
    '(Status, BdPtr) ← CFE_ES_MemPoolDirectRetrieve DescOffset;
    if negb (Status =? CFE_SUCCESS) then mret (Some Status)
    else
      bd ← rd_bd BdPtr;
      let '(BucketPtr, BucketId, IsDeallocatedBlock) :=
        if CheckBits bd =? CFE_ES_CHECK_PATTERN then
          let BucketId := u16 (Allocated bd - CFE_ES_MEMORY_DEALLOCATED) in
          match CFE_ES_GenPoolGetBucketState r BucketId with
          | Some i => (Some i, BucketId, true)
          | None =>
              let BucketId := u16 (Allocated bd - CFE_ES_MEMORY_ALLOCATED) in
              (CFE_ES_GenPoolGetBucketState r BucketId, BucketId, false)
          end
        else (None, 0, false) in
      match BucketPtr with
      | None => mret (Some Status)
      | Some i =>
          b ← rd_bucket i;
          if BlockSize b <? ActualSize bd then mret (Some Status)
          else
            rec_upd (λ r, r <| TailPosition := u64 (BlockOffset + BlockSize b) |>);;
            wr_bucket i (λ b, b <| AllocationCount ::= λ n, u32 (n + 1) |>);;
            rec_upd (λ r, r <| PoolAllocationCount ::= λ n, u32 (n + 1) |>);;
            if IsDeallocatedBlock then
              wr_bucket i (λ b, b <| ReleaseCount ::= λ n, u32 (n + 1) |>);;
              b ← rd_bucket i;
              wr_NextOffset BdPtr (FirstOffset b);;
              wr_bucket i (λ b, b <| FirstOffset := BlockOffset |>);;
              Status ← CFE_ES_MemPoolDirectCommit DescOffset BdPtr;
              if negb (Status =? CFE_SUCCESS) then mret (Some Status) else mret None
            else mret None
      end.

(** The fuel is the size of the pool: every round moves the tail. *)
Fixpoint rebuild_loop (fuel : nat) : M PoolState Z :=
  stop ← rebuild_step;
  match stop with
  | Some Status => mret Status
  | None => match fuel with O => undef | S fuel => rebuild_loop fuel end
  end.

Definition CFE_ES_GenPoolRebuild : M PoolState Z :=
  r ← gets Rec;
  rebuild_loop (S (Z.to_nat (PoolMaxOffset r))).

End pool.

(** ** Creating a pool *)

(** The mask of an alignment: all bits below its highest are set. *)
Definition align_mask (AlignSize : Z) : Z :=
  if AlignSize <=? 1 then 0 else
  let m := AlignSize - 1 in
  let m := Z.lor m (Z.shiftr m 1) in
  let m := Z.lor m (Z.shiftr m 2) in
  let m := Z.lor m (Z.shiftr m 4) in
  let m := Z.lor m (Z.shiftr m 8) in
  Z.lor m (Z.shiftr m 16).

(** One pass of the bubble sort over the block sizes, with its number of swaps.  A
    swap is three exclusive ors. *)
Fixpoint sort_pass (x : Z) (l : list Z) : list Z * nat :=
  match l with
  | [] => ([x], O)
  | y :: l =>
      if y <? x then
        let x := Z.lxor x y in
        let y := Z.lxor y x in
        let x := Z.lxor x y in
        let '(l, n) := sort_pass y l in (x :: l, S n)
      else let '(l, n) := sort_pass y l in (x :: l, n)
  end.

(** The [do] loop: passes until one makes no swap. *)
Fixpoint sort_loop (fuel : nat) (l : list Z) : option (list Z) :=
  match l with
  | [] => Some []
  | x :: l =>
      let '(l, n) := sort_pass x l in
      match n with
      | O => Some l
      | S _ => match fuel with O => None | S fuel => sort_loop fuel l end
      end
  end.

Definition zero_bucket : CFE_ES_GenPoolBucket_t := mkBucket 0 0 0 0 0.

(** The record after CFE_ES_GenPoolInitialize, with the status.  [None] when the
    block sizes do not fit into the table or are not all given. *)
Definition CFE_ES_GenPoolInitialize (StartOffset PoolSize AlignSize NumBlockSizes : Z) (BlockSizeList : list Z)
  : option (Z * CFE_ES_GenPoolRecord_t) :=
  if (CFE_PLATFORM_ES_POOL_MAX_BUCKETS <? NumBlockSizes) || (Z.of_nat (length BlockSizeList) <? NumBlockSizes) then None else
  let sizes := take (Z.to_nat NumBlockSizes) BlockSizeList in
  sorted ← sort_loop (length sizes * length sizes) sizes;
  let bs := ((λ n, mkBucket n 0 0 0 0) <$> sorted)
            ++ replicate (Z.to_nat (CFE_PLATFORM_ES_POOL_MAX_BUCKETS - NumBlockSizes)) zero_bucket in
  let r := mkGenPool PoolSize (u64 (PoolSize + StartOffset)) (align_mask AlignSize) StartOffset 0 0 NumBlockSizes bs in
  b ← head bs;
  Some (if BlockSize b =? 0 then CFE_ES_ERR_MEM_BLOCK_SIZE else CFE_SUCCESS, r).

Definition CFE_ES_GenPoolCalcMinSize (NumBlockSizes : Z) (BlockSizeList : list Z) (NumBlocks : Z) : option Z :=
  if Z.of_nat (length BlockSizeList) <? NumBlockSizes then None else
  let MinBlockSize :=
    match take (Z.to_nat NumBlockSizes) BlockSizeList with
    | [] => 0
    | n :: l => foldl (λ m n, if n <? m then n else m) n l
    end in
  Some (u64 (NumBlocks * u64 (MinBlockSize + CFE_ES_GENERIC_POOL_DESCRIPTOR_SIZE))).

(** ** Reports *)

Definition CFE_ES_GenPoolValidateState (r : CFE_ES_GenPoolRecord_t) : bool :=
  (0 <? PoolTotalSize r) && (TailPosition r <=? PoolMaxOffset r) && (0 <? NumBuckets r) &&
  (NumBuckets r <? CFE_PLATFORM_ES_POOL_MAX_BUCKETS).

(** Free and total size, as 32 bit offsets. *)
Definition CFE_ES_GenPoolGetUsage (r : CFE_ES_GenPoolRecord_t) (FreeSizeBuf TotalSizeBuf : ptr Z) : ptr Z * ptr Z :=
  ((λ _, u32 (u64 (PoolMaxOffset r - TailPosition r))) <$> FreeSizeBuf, (λ _, u32 (PoolTotalSize r)) <$> TotalSizeBuf).

Definition CFE_ES_GenPoolGetCounts (r : CFE_ES_GenPoolRecord_t) (NumBucketsBuf AllocCountBuf ValidationErrorCountBuf : ptr Z)
  : ptr Z * ptr Z * ptr Z :=
  ((λ _, NumBuckets r) <$> NumBucketsBuf, (λ _, PoolAllocationCount r) <$> AllocCountBuf,
   (λ _, ValidationErrorCount r) <$> ValidationErrorCountBuf).

Record CFE_ES_BlockStats_t := mkBlockStats { bs_BlockSize : Z; bs_NumCreated : Z; bs_NumFree : Z }.

Definition CFE_ES_GenPoolGetBucketUsage (r : CFE_ES_GenPoolRecord_t) (BucketId : Z) (BlockStatsBuf : ptr CFE_ES_BlockStats_t)
  : option (ptr CFE_ES_BlockStats_t) :=
  b ← (match CFE_ES_GenPoolGetBucketState r BucketId with
       | None => Some zero_bucket
       | Some i => Buckets r !! Z.to_nat i
       end);
  Some ((λ _, mkBlockStats (u32 (BlockSize b)) (AllocationCount b) (u32 (ReleaseCount b - RecycleCount b))) <$> BlockStatsBuf).
