(* ===== verification/EsPoolInv.v ===== *)
(** * The invariant of a memory pool

    The blocks of a pool lie one after the other, each after its descriptor, in the
    order of creation.  A block belongs to a bucket and is allocated with the size that
    was asked for, or free; the free blocks of a bucket are its stack. *)
From S2P Require Import Prelude Bytes Config EsPool.

(** ** Alignment *)

Definition up (k x : Z) : Z := (x + 2 ^ k - 1) / 2 ^ k * 2 ^ k.

Lemma up_spec k x : 0 <= k → x <= up k x < x + 2 ^ k ∧ up k x mod 2 ^ k = 0.
Proof.
  intros Hk. unfold up. pose proof (Z.pow_pos_nonneg 2 k). split; [|apply Z.mod_mul; lia].
  pose proof (Z.div_mod (x + 2 ^ k - 1) (2 ^ k)). pose proof (Z.mod_pos_bound (x + 2 ^ k - 1) (2 ^ k)). nia.
Qed.

Lemma land_not_ones x k : 0 <= k <= 64 → 0 <= x < 2 ^ 64 → Z.land x (u64 (Z.lnot (2 ^ k - 1))) = x / 2 ^ k * 2 ^ k.
Proof.
  intros Hk Hx. rewrite <- Z.shiftr_div_pow2, <- Z.shiftl_mul_pow2 by lia.
  replace (2 ^ k - 1) with (Z.ones k) by (rewrite Z.ones_equiv; lia).
  Z_bits i Hi. unfold u64. rewrite Z.land_spec, testbit_mod_pow2, Z.lnot_spec, Z.shiftl_spec by lia.
  destruct (Z.ltb_spec i k).
  - rewrite Z.ones_spec_low, (Z.testbit_neg_r _ (i - k)) by lia. cbn. by rewrite !andb_false_r.
  - rewrite Z.ones_spec_high, Z.shiftr_spec by lia. replace (i - k + k) with i by lia. cbn. rewrite andb_true_r.
    destruct (Z.ltb_spec i 64); [by rewrite andb_true_r|]. by rewrite (testbit_above x 64) by lia.
Qed.

(** ** Blocks *)

Record blk := mkBlk { off : Z; bkt : nat; st : option Z }.
#[export] Instance blk_eta : Eta blk := mkEta (λ r, mkBlk (off r) (bkt r) (st r)).
#[export] Instance blk_eq_dec : EqDecision blk.
Proof. solve_decision. Defined.

Implicit Types (l : list blk) (sizes : list Z) (m : bytes).

(** The blocks from [start] on, up to [tail]. *)
Fixpoint layout (k start : Z) sizes l (tail : Z) : Prop :=
  match l with
  | [] => tail = start
  | x :: l => off x = up k (start + 24) ∧ ∃ n, sizes !! bkt x = Some n ∧ layout k (off x + n) sizes l tail
  end.

Definition sz sizes (x : blk) : Z := default 0 (sizes !! bkt x).

Lemma layout_snoc k start sizes l tail x n : layout k start sizes l tail → off x = up k (tail + 24) →
  sizes !! bkt x = Some n → layout k start sizes (l ++ [x]) (off x + n).
Proof.
  revert start. induction l as [|y l IH]; intros start Hl Hx Hn; cbn in *.
  - subst. eauto.
  - destruct Hl as (Hy & n' & Hn' & Hl). split; [done|]. exists n'. split; [done|]. by apply IH.
Qed.

Section layout.
Context (k : Z) (sizes : list Z) (Hk : 0 <= k) (Hpos : Forall (λ n, 0 < n) sizes).

Lemma sz_pos x n : sizes !! bkt x = Some n → sz sizes x = n ∧ 0 < n.
Proof using Hpos. intros E. unfold sz. rewrite E. split; [done|]. exact (Forall_lookup_1 _ _ _ _ Hpos E). Qed.

Lemma layout_tail start l tail : layout k start sizes l tail → start + 25 * Z.of_nat (length l) <= tail.
Proof using Hk Hpos.
  revert start. induction l as [|x l IH]; intros start Hl; cbn in *; [lia|].
  destruct Hl as (Hx & n & Hn & Hl). apply IH in Hl. destruct (sz_pos x n Hn). pose proof (up_spec k (start + 24) Hk). lia.
Qed.

Lemma layout_bound start l tail x : layout k start sizes l tail → x ∈ l →
  start + 24 <= off x ∧ off x + sz sizes x <= tail ∧ off x mod 2 ^ k = 0 ∧ is_Some (sizes !! bkt x).
Proof using Hk Hpos.
  revert start. induction l as [|y l IH]; intros start Hl Hx; [by apply elem_of_nil in Hx|].
  destruct Hl as (Hy & n & Hn & Hl). destruct (sz_pos y n Hn) as [Ey Hn0]. pose proof (up_spec k (start + 24) Hk).
  apply elem_of_cons in Hx as [->|Hx].
  - pose proof (layout_tail _ _ _ Hl). rewrite Ey, Hy in *. split_and!; [lia|lia|tauto|eauto].
  - destruct (IH _ Hl Hx) as (H1 & H2 & H3 & H4). split_and!; [lia|done..].
Qed.

Lemma layout_sep start l1 x l2 y tail : layout k start sizes (l1 ++ x :: l2) tail → y ∈ l2 →
  off x + sz sizes x + 24 <= off y.
Proof using Hk Hpos.
  revert start. induction l1 as [|z l1 IH]; intros start Hl Hy; cbn in Hl.
  - destruct Hl as (Hx & n & Hn & Hl). destruct (sz_pos x n Hn) as [-> _]. destruct (layout_bound _ _ _ _ Hl Hy). lia.
  - destruct Hl as (_ & n & _ & Hl). by eapply IH.
Qed.

(** Two different places in the list are disjoint, descriptors included. *)
Lemma layout_apart start l tail x y : layout k start sizes l tail → x ∈ l → y ∈ l → off x ≠ off y →
  off x + sz sizes x + 24 <= off y ∨ off y + sz sizes y + 24 <= off x.
Proof using Hk Hpos.
  intros Hl Hx Hy Hne. apply list_elem_of_split in Hx as (l1 & l2 & ->).
  apply elem_of_app in Hy as [Hy|Hy].
  - apply list_elem_of_split in Hy as (l3 & l4 & ->). right. rewrite <- app_assoc in Hl. cbn in Hl.
    eapply layout_sep; [exact Hl|]. apply elem_of_app. right. apply elem_of_cons. by left.
  - apply elem_of_cons in Hy as [->|Hy]; [done|]. left. by eapply layout_sep.
Qed.

Lemma layout_NoDup start l tail : layout k start sizes l tail → NoDup (off <$> l).
Proof using Hk Hpos.
  revert start. induction l as [|x l IH]; intros start Hl; cbn; [constructor|].
  pose proof Hl as Hl'. destruct Hl as (_ & n & Hn & Hl). constructor; [|by eapply IH].
  intros (y & E & Hy)%list_elem_of_fmap. destruct (sz_pos x n Hn) as [Ex Hn0].
  pose proof (layout_sep start [] x l y tail Hl' Hy). lia.
Qed.

End layout.

(** Only the places and buckets matter. *)
Lemma layout_ext k start sizes l l' tail : (λ x, (off x, bkt x)) <$> l = (λ x, (off x, bkt x)) <$> l' →
  layout k start sizes l tail → layout k start sizes l' tail.
Proof.
  revert start l'. induction l as [|x l IH]; intros start [|x' l'] E Hl; try done.
  cbn in E. injection E as E1 E2 E. destruct Hl as (Hx & n & Hn & Hl). cbn. rewrite <- E1, <- E2.
  split; [done|]. exists n. split; [done|]. rewrite E1. apply IH; [done|]. by rewrite <- E1.
Qed.

(** ** Descriptors *)

Lemma bd_at_agree m m' a : agree a (a + 24) m m' → bd_at m a = bd_at m' a.
Proof.
  intros H. unfold bd_at. f_equal; apply load_agree; (eapply agree_sub; [exact H|cbn; lia..]).
Qed.

Lemma bd_at_CheckBits m a v : 0 <= v < 2 ^ 16 → bd_at (store 2 a v m) a = (bd_at m a) <| CheckBits := v |>.
Proof. intros. unfold bd_at. cbn [set CheckBits]. rewrite load_store, !load_store_out by (cbn; lia). done. Qed.

Lemma bd_at_Allocated m a v : 0 <= v < 2 ^ 16 → bd_at (store 2 (a + 2) v m) a = (bd_at m a) <| Allocated := v |>.
Proof. intros. unfold bd_at. rewrite (load_store 2 (a + 2)), !load_store_out by (cbn; lia). done. Qed.

Lemma bd_at_ActualSize m a v : 0 <= v < 2 ^ 64 → bd_at (store 8 (a + 8) v m) a = (bd_at m a) <| ActualSize := v |>.
Proof. intros. unfold bd_at. rewrite (load_store 8 (a + 8)), !load_store_out by (cbn; lia). done. Qed.

Lemma bd_at_NextOffset m a v : 0 <= v < 2 ^ 64 → bd_at (store 8 (a + 16) v m) a = (bd_at m a) <| NextOffset := v |>.
Proof. intros. unfold bd_at. rewrite (load_store 8 (a + 16)), !load_store_out by (cbn; lia). done. Qed.

(** A memory that differs only in the descriptor at [a]. *)
Definition same_but (a : Z) m m' : Prop := ∀ c d, d <= a ∨ a + 24 <= c → agree c d m m'.

Lemma same_but_refl a m : same_but a m m.
Proof. done. Qed.

Lemma same_but_store a m m' n b v : same_but a m m' → a <= b → b + Z.of_nat n <= a + 24 → same_but a m (store n b v m').
Proof.
  intros H H1 H2 c d Hcd. eapply agree_trans; [by apply H|]. intros i Hi. symmetry. apply store_out. lia.
Qed.

(** ** The state of a block *)

Section inv.
Context (B : Z).
Implicit Types (x : blk).

Definition tag (nb : Z) x : Z :=
  (match st x with Some _ => CFE_ES_MEMORY_ALLOCATED | None => CFE_ES_MEMORY_DEALLOCATED end) + (nb - Z.of_nat (bkt x)).

Definition desc (m : bytes) x : CFE_ES_GenPoolBD_t := bd_at m (B + off x - 24).

Record desc_ok sizes m x : Prop := {
  do_check : CheckBits (desc m x) = CFE_ES_CHECK_PATTERN;
  do_tag : Allocated (desc m x) = tag (Z.of_nat (length sizes)) x;
  do_size : 0 <= ActualSize (desc m x) <= sz sizes x;
  do_live n : st x = Some n → ActualSize (desc m x) = n;
}.

(** The stack of a bucket from its top. *)
Fixpoint chain (m : bytes) (first : Z) (fl : list Z) : Prop :=
  match fl with
  | [] => first = 0
  | o :: fl => first = o ∧ chain m (NextOffset (bd_at m (B + o - 24))) fl
  end.

Definition free_in (i : nat) l : list Z := off <$> filter (λ x, bkt x = i ∧ st x = None) l.
Definition num_in (i : nat) l : Z := Z.of_nat (length (filter (λ x, bkt x = i) l)).

Record bucket_ok m l (i : nat) (n : Z) (b : CFE_ES_GenPoolBucket_t) (fl : list Z) : Prop := {
  bo_size : BlockSize b = n;
  bo_chain : chain m (FirstOffset b) fl;
  bo_free : fl ≡ₚ free_in i l;
  bo_count : u32 (ReleaseCount b - RecycleCount b) = Z.of_nat (length fl);
  bo_range : is_u32 (ReleaseCount b) ∧ is_u32 (RecycleCount b);
  bo_alloc : AllocationCount b = u32 (num_in i l);
}.

Record pool_inv (k start : Z) sizes l (fs : list (list Z)) (s : PoolState) : Prop := {
  pi_mask : AlignMask (Rec s) = 2 ^ k - 1 ∧ 0 <= k <= 31;
  pi_nb : NumBuckets (Rec s) = Z.of_nat (length sizes) ∧ (0 < length sizes ≤ 17)%nat;
  pi_len : length (Buckets (Rec s)) = 17%nat;
  pi_sizes : Forall (λ n, 0 < n < 2 ^ 31) sizes;
  pi_range : 0 <= start ∧ TailPosition (Rec s) <= PoolMaxOffset (Rec s) < 2 ^ 32;
  pi_layout : layout k start sizes l (TailPosition (Rec s));
  pi_desc : Forall (desc_ok sizes (Mem s)) l;
  pi_fs : length fs = length sizes;
  pi_bkt i n b fl : sizes !! i = Some n → Buckets (Rec s) !! i = Some b → fs !! i = Some fl →
    bucket_ok (Mem s) l i n b fl;
  pi_cnt : PoolAllocationCount (Rec s) = u32 (Z.of_nat (length l));
}.

Lemma pi_pos k start sizes l fs s : pool_inv k start sizes l fs s → Forall (λ n, 0 < n) sizes.
Proof. intros Hi. eapply Forall_impl; [apply (pi_sizes _ _ _ _ _ _ Hi)|]. cbn. tauto. Qed.

(** ** Frames *)

Lemma free_chain_frame m m' first fl : (∀ o, o ∈ fl → bd_at m (B + o - 24) = bd_at m' (B + o - 24)) → chain m first fl → chain m' first fl.
Proof.
  revert first. induction fl as [|o fl IH]; intros first Hm Hc; [done|]. destruct Hc as [-> Hc]. split; [done|].
  rewrite <- (Hm o) by (apply elem_of_cons; auto). apply IH; [|done]. intros p Hp. apply Hm, elem_of_cons. auto.
Qed.

Lemma desc_ok_frame sizes m m' x : desc m x = desc m' x → desc_ok sizes m x → desc_ok sizes m' x.
Proof. intros E [H1 H2 H3 H4]. split; rewrite <- E; auto. Qed.

(** Descriptors other than the one that was changed are as they were. *)
Lemma desc_other k start sizes l tail m m' x y : 0 <= k → Forall (λ n, 0 < n) sizes → layout k start sizes l tail →
  x ∈ l → y ∈ l → off x ≠ off y → same_but (B + off x - 24) m m' → desc m y = desc m' y.
Proof.
  intros Hk Hpos Hl Hx Hy Hne Hs. apply bd_at_agree, Hs.
  assert (∀ z, z ∈ l → 0 < sz sizes z) as Hz.
  { intros z Hz. destruct (layout_bound _ _ Hk Hpos _ _ _ _ Hl Hz) as (_ & _ & _ & n & Hn). destruct (sz_pos _ Hpos z n Hn). lia. }
  pose proof (Hz _ Hx). pose proof (Hz _ Hy). destruct (layout_apart _ _ Hk Hpos _ _ _ _ _ Hl Hx Hy Hne); lia.
Qed.

End inv.
