(* ===== verification/EsPoolOps.v ===== *)
(** * The operations of a memory pool

    What getting, putting back and recovering blocks does to the list of blocks and to
    the stacks of the buckets. *)
From S2P Require Import Prelude Bytes Config EsPool EsPoolInv.

Implicit Types (l : list blk) (sizes : list Z) (m : bytes) (fs : list (list Z)) (s : PoolState).

(** ** Bucket identifiers *)

Lemma bucket_state r nb (i : nat) : NumBuckets r = nb → 0 < nb <= 17 → Z.of_nat i < nb →
  CFE_ES_GenPoolGetBucketState r (nb - Z.of_nat i) = Some (Z.of_nat i).
Proof.
  intros E Hnb Hi. unfold CFE_ES_GenPoolGetBucketState. rewrite E. replace (nb - (nb - Z.of_nat i)) with (Z.of_nat i) by lia.
  rewrite u16_small by (unfold is_u16; lia). destruct (Z.leb_spec nb (Z.of_nat i)); [lia|done].
Qed.

Lemma bucket_state_bad r nb id : NumBuckets r = nb → 0 < nb <= 17 → nb < id < 2 ^ 16 → CFE_ES_GenPoolGetBucketState r id = None.
Proof.
  intros E Hnb Hi. unfold CFE_ES_GenPoolGetBucketState. rewrite E.
  assert (u16 (nb - id) = nb - id + 2 ^ 16) as ->.
  { unfold u16. rewrite <- (Z.mod_add _ 1) by lia. apply Z.mod_small. lia. }
  destruct (Z.leb_spec nb (nb - id + 2 ^ 16)); [done|lia].
Qed.

(** The first bucket, from [i] on, whose blocks are large enough. *)
Fixpoint fits sizes (i : nat) (n : Z) : option nat :=
  match sizes with
  | [] => None
  | z :: sizes => if n <=? z then Some i else fits sizes (S i) n
  end.

Lemma fits_Some sizes i n j : fits sizes i n = Some j →
  (i ≤ j)%nat ∧ ∃ z, sizes !! (j - i)%nat = Some z ∧ n <= z ∧ ∀ h z', (h < j - i)%nat → sizes !! h = Some z' → z' < n.
Proof.
  revert i. induction sizes as [|z sizes IH]; intros i E; [done|]. cbn in E. destruct (Z.leb_spec n z) as [Hle|Hgt].
  - injection E as <-. split; [lia|]. exists z. rewrite Nat.sub_diag. split_and!; [done|done|]. intros h z' Hh. lia.
  - apply IH in E as (Hij & z' & Hz & Hn & Hh). split; [lia|]. exists z'. replace (j - i)%nat with (S (j - S i))%nat by lia.
    split_and!; [done|done|]. intros [|h] y Hl Hy; [cbn in Hy; congruence|]. apply (Hh h); [lia|done].
Qed.

Lemma fits_None sizes i n : fits sizes i n = None → Forall (λ z, z < n) sizes.
Proof.
  revert i. induction sizes as [|z sizes IH]; intros i E; [constructor|]. cbn in E. destruct (Z.leb_spec n z); [done|].
  constructor; [lia|]. by eapply IH.
Qed.

Lemma FindBucket_fits bs (i : nat) n : FindBucket_loop bs (Z.of_nat i) n =
  match fits (BlockSize <$> bs) i n with Some j => Z.of_nat j | None => Z.of_nat i + Z.of_nat (length bs) end.
Proof.
  revert i. induction bs as [|b bs IH]; intros i; cbn; [lia|]. destruct (n <=? BlockSize b); [done|].
  replace (Z.of_nat i + 1) with (Z.of_nat (S i)) by lia. rewrite IH. destruct (fits _ (S i) n); [done|]. lia.
Qed.

(** ** Changing one block *)

Section ops.
Context (B : Z).

Lemma NoDup_off l x y : NoDup (off <$> l) → x ∈ l → y ∈ l → off x = off y → x = y.
Proof.
  intros Hnd Hx Hy E. apply list_elem_of_lookup in Hx as [i Hi], Hy as [j Hj].
  assert (i = j) as ->; [|congruence]. eapply (NoDup_lookup _ i j (off x)); [exact Hnd|..]; rewrite list_lookup_fmap, ?Hi, ?Hj; cbn; congruence.
Qed.

Lemma mid_ne k start sizes l1 x l2 tail y : 0 <= k → Forall (λ n, 0 < n) sizes → layout k start sizes (l1 ++ x :: l2) tail →
  y ∈ l1 ++ l2 → off x ≠ off y.
Proof.
  intros Hk Hpos Hl Hy E. pose proof (layout_NoDup _ _ Hk Hpos _ _ _ Hl) as Hnd. rewrite fmap_app in Hnd. cbn in Hnd.
  apply NoDup_app in Hnd as (_ & Hnd1 & [Hnd2 _]%NoDup_cons). apply elem_of_app in Hy as [Hy|Hy].
  - eapply (Hnd1 (off y)); [by apply list_elem_of_fmap_2|]. rewrite E. apply elem_of_cons. by left.
  - apply Hnd2. rewrite E. by apply list_elem_of_fmap_2.
Qed.

Lemma elem_of_mid {A} (l1 l2 : list A) (x y : A) : y ∈ l1 ++ l2 → y ∈ l1 ++ x :: l2.
Proof. rewrite !elem_of_app, elem_of_cons. tauto. Qed.

Lemma desc_mid k start sizes l1 x l2 tail m m' y : 0 <= k → Forall (λ n, 0 < n) sizes → layout k start sizes (l1 ++ x :: l2) tail →
  y ∈ l1 ++ l2 → same_but (B + off x - 24) m m' → desc B m y = desc B m' y.
Proof.
  intros Hk Hpos Hl Hy Hs. eapply (desc_other B k start sizes (l1 ++ x :: l2) tail m m' x y); try done.
  - apply elem_of_app. right. apply elem_of_cons. by left.
  - by apply elem_of_mid.
  - by eapply mid_ne.
Qed.

Lemma free_in_elem i l o : o ∈ free_in i l → ∃ y, y ∈ l ∧ off y = o ∧ bkt y = i ∧ st y = None.
Proof. intros (y & -> & [[H1 H2] H3]%list_elem_of_filter)%list_elem_of_fmap. eauto. Qed.

Lemma bucket_other k start sizes lN tail m m' l j n b fl x :
  0 <= k → Forall (λ n, 0 < n) sizes → layout k start sizes lN tail → x ∈ lN → same_but (B + off x - 24) m m' → bkt x ≠ j →
  free_in j l = free_in j lN → num_in j l = num_in j lN → bucket_ok B m l j n b fl → bucket_ok B m' lN j n b fl.
Proof.
  intros Hk Hpos Hl Hx Hs Hj Ef En [H1 H2 H3 H4 H5 H6]. split; try done; [|by rewrite <- Ef|by rewrite <- En].
  eapply free_chain_frame; [|done]. intros o Ho. rewrite H3, Ef in Ho. apply free_in_elem in Ho as (y & Hy & <- & Hyj & _).
  eapply (desc_other B k start sizes lN tail m m' x y); try done.
  intros E. assert (x = y) as ->; [|done]. eapply NoDup_off; eauto using layout_NoDup.
Qed.

Lemma free_in_app i l1 l2 : free_in i (l1 ++ l2) = free_in i l1 ++ free_in i l2.
Proof. unfold free_in. by rewrite filter_app, fmap_app. Qed.

Lemma num_in_app i l1 l2 : num_in i (l1 ++ l2) = num_in i l1 + num_in i l2.
Proof. unfold num_in. rewrite filter_app, length_app. lia. Qed.

Lemma free_in_one i x : free_in i [x] = if decide (bkt x = i ∧ st x = None) then [off x] else [].
Proof. unfold free_in. cbn. by case_decide. Qed.

Lemma num_in_one i x : num_in i [x] = if decide (bkt x = i) then 1 else 0.
Proof. unfold num_in. cbn. by case_decide. Qed.

Lemma in_free i l1 x l2 : bkt x = i → st x = None → free_in i (l1 ++ x :: l2) ≡ₚ off x :: free_in i (l1 ++ l2).
Proof.
  intros Hb Hst. rewrite (cons_middle x l1 l2), app_assoc, !free_in_app, free_in_one, decide_True by done.
  rewrite <- app_assoc. cbn. by rewrite Permutation_middle.
Qed.

Lemma not_free i l1 x l2 : ¬ (bkt x = i ∧ st x = None) → free_in i (l1 ++ x :: l2) = free_in i (l1 ++ l2).
Proof.
  intros Hn. rewrite (cons_middle x l1 l2), app_assoc, !free_in_app, free_in_one, decide_False by done. by rewrite app_nil_r.
Qed.

Lemma num_in_mid i l1 x l2 : num_in i (l1 ++ x :: l2) = num_in i (l1 ++ l2) + (if decide (bkt x = i) then 1 else 0).
Proof. rewrite (cons_middle x l1 l2), !num_in_app, num_in_one. lia. Qed.

(** The state of the block [x] changes, its descriptor and its bucket with it. *)
Lemma inv_change k start sizes l1 x x' l2 fs s m' b' fl' n :
  pool_inv B k start sizes (l1 ++ x :: l2) fs s → off x' = off x → bkt x' = bkt x →
  same_but (B + off x - 24) (Mem s) m' → desc_ok B sizes m' x' →
  sizes !! bkt x = Some n → bucket_ok B m' (l1 ++ x' :: l2) (bkt x) n b' fl' →
  pool_inv B k start sizes (l1 ++ x' :: l2) (<[bkt x := fl']> fs) (mkPoolState ((Rec s) <| Buckets ::= <[bkt x := b']> |>) m').
Proof.
  intros Hi Eo Eb Hs Hd Hn Hbk. pose proof (pi_pos _ _ _ _ _ _ _ Hi) as Hpos. destruct Hi as [M1 [M2 M2'] M3 M4 M5 M6 M7 M8 M9 M10].
  assert (layout k start sizes (l1 ++ x' :: l2) (TailPosition (Rec s))) as Hl'.
  { eapply layout_ext; [|exact M6]. rewrite !fmap_app. cbn. by rewrite Eo, Eb. }
  assert (x' ∈ l1 ++ x' :: l2) as Hx' by (apply elem_of_app; right; apply elem_of_cons; by left).
  split; cbn; try done.
  - by rewrite length_insert.
  - apply Forall_app in M7 as [D1 [_ D2]%Forall_cons].
    assert (∀ y, y ∈ l1 ++ l2 → desc B (Mem s) y = desc B m' y) as Hfr.
    { intros y Hy. eapply (desc_mid k start sizes l1 x' l2); [lia|done..|by rewrite Eo]. }
    apply Forall_app. split; [|constructor; [done|]];
      (eapply Forall_forall; intros y Hy; eapply desc_ok_frame; [apply Hfr; apply elem_of_app; auto|]; by eapply Forall_forall in Hy; [|eassumption]).
  - by rewrite length_insert.
  - intros j n' b fl Hn' Hb Hfl. destruct (decide (bkt x = j)) as [<-|Hne].
    + rewrite list_lookup_insert_eq in Hfl by (rewrite M8; eapply lookup_lt_Some; eauto).
      rewrite list_lookup_insert_eq in Hb by (rewrite M3; apply lookup_lt_Some in Hn; lia). congruence.
    + rewrite list_lookup_insert_ne in Hfl by done. rewrite list_lookup_insert_ne in Hb by done.
      eapply (bucket_other k start sizes _ _ (Mem s) m' (l1 ++ x :: l2) j n' b fl x'); try done; [lia|by rewrite Eo|congruence|..].
      * rewrite !not_free; [done|rewrite ?Eb; tauto..].
      * rewrite !num_in_mid, Eb. by rewrite !decide_False.
      * by eapply M9.
  - rewrite M10. by rewrite !length_app.
Qed.

(** A new block [x] after the tail. *)
Lemma inv_append k start sizes l x fs s m' b' fl' n :
  pool_inv B k start sizes l fs s → off x = up k (TailPosition (Rec s) + 24) → sizes !! bkt x = Some n →
  off x + n <= PoolMaxOffset (Rec s) → same_but (B + off x - 24) (Mem s) m' → desc_ok B sizes m' x →
  bucket_ok B m' (l ++ [x]) (bkt x) n b' fl' →
  pool_inv B k start sizes (l ++ [x]) (<[bkt x := fl']> fs)
    (mkPoolState ((Rec s) <| TailPosition := off x + n |> <| Buckets ::= <[bkt x := b']> |>
       <| PoolAllocationCount := u32 (Z.of_nat (length l) + 1) |>) m').
Proof.
  intros Hi Eo Hn Hmax Hs Hd Hbk. pose proof (pi_pos _ _ _ _ _ _ _ Hi) as Hpos. destruct Hi as [M1 [M2 M2'] M3 M4 M5 M6 M7 M8 M9 M10].
  pose proof (layout_snoc _ _ _ _ _ _ _ M6 Eo Hn) as Hl'. destruct (sz_pos _ Hpos x n Hn) as [Ez Hn0].
  assert (x ∈ l ++ [x]) as Hx by (apply elem_of_app; right; by apply list_elem_of_singleton).
  split; cbn; try done; [by rewrite length_insert|lia|..].
  - apply Forall_app. split; [|by constructor]. eapply Forall_forall. intros y Hy. eapply desc_ok_frame; [|by eapply Forall_forall in Hy].
    destruct (layout_bound _ _ (proj1 (proj2 M1)) Hpos _ _ _ _ M6 Hy) as (H1 & H2 & _ & n' & Hn'). destruct (sz_pos _ Hpos y n' Hn').
    destruct (up_spec k (TailPosition (Rec s) + 24)) as [Hup _]; [lia|]. apply bd_at_agree, Hs. lia.
  - by rewrite length_insert.
  - intros j n' b fl Hn' Hb Hfl. destruct (decide (bkt x = j)) as [<-|Hne].
    + rewrite list_lookup_insert_eq in Hfl by (rewrite M8; eapply lookup_lt_Some; eauto).
      rewrite list_lookup_insert_eq in Hb by (rewrite M3; apply lookup_lt_Some in Hn; lia). congruence.
    + rewrite list_lookup_insert_ne in Hfl by done. rewrite list_lookup_insert_ne in Hb by done.
      eapply (bucket_other k start sizes _ _ (Mem s) m' l j n' b fl x); try done; [lia|..].
      * rewrite not_free by tauto. by rewrite app_nil_r.
      * rewrite num_in_mid, decide_False, app_nil_r by done. lia.
      * by eapply M9.
  - rewrite length_app. cbn. f_equal. lia.
Qed.

(** ** Executing the operations *)

Lemma next_block_up k start sizes l fs s : pool_inv B k start sizes l fs s → next_block (Rec s) = up k (TailPosition (Rec s) + 24).
Proof.
  intros Hi. pose proof (pi_pos _ _ _ _ _ _ _ Hi) as Hpos. destruct Hi as [[M1 Hk] _ _ _ [M5 M5'] M6 _ _ _ _]. unfold next_block, CFE_ES_GENERIC_POOL_DESCRIPTOR_SIZE.
  pose proof (layout_tail k sizes (proj1 Hk) Hpos _ _ _ M6). assert (2 ^ k <= 2 ^ 31) by (apply Z.pow_le_mono_r; lia).
  assert (0 < 2 ^ k) by (apply Z.pow_pos_nonneg; lia).
  rewrite M1, !u64_small by (unfold is_u64; rewrite ?u64_small; unfold is_u64; lia).
  rewrite land_not_ones by lia. unfold up. do 2 f_equal. lia.
Qed.

Lemma next_ok k start sizes l fs s : pool_inv B k start sizes l fs s →
  24 <= TailPosition (Rec s) + 24 <= up k (TailPosition (Rec s) + 24) ∧ up k (TailPosition (Rec s) + 24) < 2 ^ 34.
Proof.
  intros Hi. pose proof (pi_pos _ _ _ _ _ _ _ Hi) as Hpos. destruct Hi as [[M1 Hk] _ _ _ [M5 M5'] M6 _ _ _ _].
  pose proof (layout_tail k sizes (proj1 Hk) Hpos _ _ _ M6). assert (2 ^ k <= 2 ^ 31) by (apply Z.pow_le_mono_r; lia).
  destruct (up_spec k (TailPosition (Rec s) + 24)) as [Hu _]; [lia|]. lia.
Qed.

(** The blocks there are lie before the next one's descriptor. *)
Lemma below_next k start sizes l fs s y : pool_inv B k start sizes l fs s → y ∈ l →
  24 <= off y ∧ off y + sz sizes y <= up k (TailPosition (Rec s) + 24) - 24 ∧ 0 < sz sizes y.
Proof.
  intros Hi Hy. pose proof (pi_pos _ _ _ _ _ _ _ Hi) as Hpos. pose proof (next_ok _ _ _ _ _ _ Hi).
  destruct (pi_mask _ _ _ _ _ _ _ Hi) as [_ Hk]. pose proof (pi_range _ _ _ _ _ _ _ Hi).
  destruct (layout_bound _ _ (proj1 Hk) Hpos _ _ _ _ (pi_layout _ _ _ _ _ _ _ Hi) Hy) as (H1 & H2 & _ & n & Hn).
  destruct (sz_pos _ Hpos y n Hn). lia.
Qed.

Lemma wp_Retrieve o Q s : 24 <= o → o <= PoolMaxOffset (Rec s) < 2 ^ 32 → Q (CFE_SUCCESS, B + o - 24) s →
  wp (CFE_ES_MemPoolDirectRetrieve B (u64 (o - CFE_ES_GENERIC_POOL_DESCRIPTOR_SIZE))) Q s.
Proof.
  intros H1 H2 HQ. unfold CFE_ES_MemPoolDirectRetrieve, CFE_ES_GENERIC_POOL_DESCRIPTOR_SIZE. wp_step. wp_step.
  rewrite u64_small by (unfold is_u64; lia). destruct (Z.leb_spec 0 (o - 24)); [|lia].
  destruct (Z.leb_spec (o - 24 + 24) (PoolMaxOffset (Rec s))); [|lia]. cbn [andb]. wp_step. by rewrite Z.add_sub_assoc.
Qed.

Lemma wp_rd_bucket (i : nat) b Q s : Buckets (Rec s) !! i = Some b → Q b s → wp (rd_bucket (Z.of_nat i)) Q s.
Proof.
  intros E HQ. unfold rd_bucket. wp_step. wp_step. unfold tbl_get.
  destruct (Z.ltb_spec (Z.of_nat i) 0); [lia|]. by rewrite Nat2Z.id, E.
Qed.

Lemma wp_wr_bucket (i : nat) f b (Q : unit → PoolState → Prop) s : Buckets (Rec s) !! i = Some b →
  Q tt (s <| Rec ::= λ r, r <| Buckets ::= <[i := f b]> |> |>) → wp (wr_bucket (Z.of_nat i) f) Q s.
Proof.
  intros E HQ. unfold wr_bucket. wp_step. wp_step. unfold tbl_upd. pose proof (lookup_lt_Some _ _ _ E).
  destruct (Z.ltb_spec (Z.of_nat i) 0); [lia|]. destruct (Z.leb_spec (Z.of_nat (length (Buckets (Rec s)))) (Z.of_nat i)); [lia|].
  cbn [orb]. rewrite Nat2Z.id. wp_step. cbn [of_option]. wp_step. unfold rec_upd. wp_step. destruct s as [[] mem]. cbn in *.
  by rewrite (list_alter_at _ _ _ _ E).
Qed.

(** What an operation leaves alone: the bounds of the pool, and all memory but the
    descriptor of the block at [o]. *)
Record unmoved (o : Z) s s' : Prop := {
  um_max : PoolMaxOffset (Rec s') = PoolMaxOffset (Rec s);
  um_total : PoolTotalSize (Rec s') = PoolTotalSize (Rec s);
  um_mem : same_but (B + o - 24) (Mem s) (Mem s');
}.

Lemma stack_top k start sizes l fs s i n b o fl : pool_inv B k start sizes l fs s → sizes !! i = Some n →
  Buckets (Rec s) !! i = Some b → fs !! i = Some (o :: fl) →
  FirstOffset b = o ∧ RecycleCount b ≠ ReleaseCount b ∧
  ∃ l1 x l2, l = l1 ++ x :: l2 ∧ off x = o ∧ bkt x = i ∧ st x = None ∧ 24 <= o <= PoolMaxOffset (Rec s) ∧ sz sizes x = n ∧
    chain B (Mem s) (NextOffset (desc B (Mem s) x)) fl ∧ free_in i (l1 ++ l2) ≡ₚ fl.
Proof.
  intros Hi Hn Hb Hfl. pose proof (pi_pos _ _ _ _ _ _ _ Hi) as Hpos.
  destruct (pi_bkt _ _ _ _ _ _ _ Hi _ _ _ _ Hn Hb Hfl) as [E1 [E2 Hch] E3 E4 E5 E6]. split; [done|]. split.
  { intros E. rewrite E, Z.sub_diag in E4. change (u32 0) with 0 in E4. cbn [length] in E4. lia. }
  assert (o ∈ free_in i l) as Ho by (rewrite <- E3; apply elem_of_cons; by left).
  apply free_in_elem in Ho as (x & Hx & <- & Hxi & Hst). pose proof (pi_mask _ _ _ _ _ _ _ Hi) as [_ Hk].
  destruct (layout_bound _ _ (proj1 Hk) Hpos _ _ _ _ (pi_layout _ _ _ _ _ _ _ Hi) Hx) as (H1 & H2 & _ & n' & Hn').
  pose proof (pi_range _ _ _ _ _ _ _ Hi). destruct (sz_pos _ Hpos x n' Hn') as [Ez Hz]. rewrite Hxi in Hn'.
  apply list_elem_of_split in Hx as (l1 & l2 & ->). exists l1, x, l2. split_and!; try done; try lia; [congruence|].
  rewrite (in_free i) in E3 by done. by apply Permutation_cons_inv in E3.
Qed.

Lemma u32_pred_len a b n : u32 (a - b) = n + 1 → 0 <= n → u32 (a - u32 (b + 1)) = n.
Proof.
  intros E Hn. pose proof (u32_range (a - b)) as Hr. unfold is_u32, u32 in *. rewrite Zminus_mod_idemp_r.
  replace (a - (b + 1)) with (a - b - 1) by lia. rewrite <- Zminus_mod_idemp_l, E. rewrite Z.mod_small; lia.
Qed.

Lemma u32_succ_len a b n : u32 (a - b) = n → n + 1 < 2 ^ 32 → u32 (u32 (a + 1) - b) = n + 1.
Proof.
  intros E Hn. pose proof (u32_range (a - b)) as Hr. unfold is_u32, u32 in *. rewrite Zminus_mod_idemp_l.
  replace (a + 1 - b) with (a - b + 1) by lia. rewrite <- Zplus_mod_idemp_l, E. rewrite Z.mod_small; lia.
Qed.

Lemma tag_range sizes x n : (0 < length sizes ≤ 17)%nat → sizes !! bkt x = Some n →
  1 <= Z.of_nat (length sizes) - Z.of_nat (bkt x) <= 17.
Proof. intros H1 H2%lookup_lt_Some. lia. Qed.

(** Nothing to recycle. *)
Lemma wp_Recycle_none k start sizes l fs s i n size p (Q : Z * Z → PoolState → Prop) :
  pool_inv B k start sizes l fs s → sizes !! i = Some n → fs !! i = Some [] → Q (CFE_ES_BUFFER_NOT_IN_POOL, p) s →
  wp (CFE_ES_GenPoolRecyclePoolBlock B (Z.of_nat (length sizes) - Z.of_nat i) size p) Q s.
Proof.
  intros Hi Hn Hfl HQ. unfold CFE_ES_GenPoolRecyclePoolBlock. wp_step. wp_step. destruct (pi_nb _ _ _ _ _ _ _ Hi) as [Enb Hnb].
  pose proof (lookup_lt_Some _ _ _ Hn). rewrite (bucket_state _ (Z.of_nat (length sizes))) by (done || lia).
  destruct (lookup_lt_is_Some_2 (Buckets (Rec s)) i) as [b Hb]; [rewrite (pi_len _ _ _ _ _ _ _ Hi); lia|].
  wp_step. eapply wp_rd_bucket; [done|]. destruct (pi_bkt _ _ _ _ _ _ _ Hi _ _ _ _ Hn Hb Hfl) as [_ E _ _ _ _].
  cbn in E. rewrite E, orb_true_r. by wp_step.
Qed.

Lemma wp_Recycle k start sizes l fs s i n size p o fl (Q : Z * Z → PoolState → Prop) :
  pool_inv B k start sizes l fs s → sizes !! i = Some n → fs !! i = Some (o :: fl) → 0 <= size <= n →
  (∀ l1 x l2 s', l = l1 ++ x :: l2 → off x = o → bkt x = i → st x = None →
     pool_inv B k start sizes (l1 ++ x <| st := Some size |> :: l2) (<[i := fl]> fs) s' → unmoved o s s' →
     TailPosition (Rec s') = TailPosition (Rec s) → Q (CFE_SUCCESS, o) s') →
  wp (CFE_ES_GenPoolRecyclePoolBlock B (Z.of_nat (length sizes) - Z.of_nat i) size p) Q s.
Proof.
  intros Hi Hn Hfl Hsz HQ. unfold CFE_ES_GenPoolRecyclePoolBlock. wp_step. wp_step. destruct (pi_nb _ _ _ _ _ _ _ Hi) as [Enb Hnb].
  pose proof (lookup_lt_Some _ _ _ Hn). rewrite (bucket_state _ (Z.of_nat (length sizes))) by (done || lia).
  destruct (lookup_lt_is_Some_2 (Buckets (Rec s)) i) as [b Hb]; [rewrite (pi_len _ _ _ _ _ _ _ Hi); lia|].
  wp_step. eapply wp_rd_bucket; [done|].
  destruct (stack_top _ _ _ _ _ _ _ _ _ _ _ Hi Hn Hb Hfl) as (EF & ER & l1 & x & l2 & -> & Eo & Ei & Est & Hor & Ez & Hch & Hfr).
  destruct (Z.eqb_spec (RecycleCount b) (ReleaseCount b)); [done|]. rewrite EF. destruct (Z.eqb_spec o 0); [lia|]. cbn [orb].
  pose proof (pi_range _ _ _ _ _ _ _ Hi) as [_ Hmax]. wp_step. apply wp_Retrieve; [lia|lia|]. wp_go. unfold rd_bd. wp_step.
  pose proof (pi_desc _ _ _ _ _ _ _ Hi) as Hd. apply Forall_app in Hd as [_ [Hd _]%Forall_cons]. rewrite <- Eo. fold (desc B (Mem s) x).
  destruct Hd as [D1 D2 D3 D4]. pose proof (tag_range sizes x n Hnb) as Ht. rewrite Ei in Ht. specialize (Ht Hn).
  assert (u16 (Allocated (desc B (Mem s) x) - CFE_ES_MEMORY_DEALLOCATED) = Z.of_nat (length sizes) - Z.of_nat i) as ->.
  { rewrite D2. unfold tag. rewrite Est, Ei. rewrite u16_small by (unfold is_u16; lia). lia. }
  rewrite D1, !Z.eqb_refl. cbn [negb orb]. unfold wr_Allocated, wr_ActualSize, wr_NextOffset. wp_steps.
  unfold CFE_ES_MemPoolDirectCommit. wp_go. eapply wp_wr_bucket; [done|]. wp_step.
  eapply wp_wr_bucket; [cbn; apply list_lookup_insert_eq; by eapply lookup_lt_Some|]. wp_step.
  set (a := B + off x - 24). set (id := Z.of_nat (length sizes) - Z.of_nat i) in *.
  set (m' := store 8 (a + 16) 0 (store 8 (a + 8) size (store 2 (a + 2) (u16 (CFE_ES_MEMORY_ALLOCATED + id)) (Mem s)))).
  assert (same_but a (Mem s) m') as Hsame by (repeat (apply same_but_store; [|cbn; lia..]); apply same_but_refl).
  assert (0 <= size < 2 ^ 64) as Hs64. { pose proof (pi_sizes _ _ _ _ _ _ _ Hi) as Hf. eapply Forall_lookup_1 in Hf; [|exact Hn]. cbn in Hf. lia. }
  assert (desc B m' x = mkBD CFE_ES_CHECK_PATTERN (CFE_ES_MEMORY_ALLOCATED + id) size 0) as Ed.
  { unfold desc, m', a. rewrite bd_at_NextOffset, bd_at_ActualSize, bd_at_Allocated by (lia || apply u16_range).
    change (bd_at (Mem s) (B + off x - 24)) with (desc B (Mem s) x). rewrite u16_small by (unfold is_u16, CFE_ES_MEMORY_ALLOCATED; lia).
    destruct (desc B (Mem s) x). cbn in *. congruence. }
  eassert (pool_inv B k start sizes (l1 ++ x <| st := Some size |> :: l2) (<[bkt x := fl]> fs) _) as Hi'.
  { eapply (inv_change k start sizes l1 x (x <| st := Some size |>) l2 fs s m'
      (b <| FirstOffset := NextOffset (desc B (Mem s) x) |> <| RecycleCount ::= λ n, u32 (n + 1) |>) fl n); try done.
    - split; change (desc B m' x <| st := Some size |>) with (desc B m' x); rewrite Ed; cbn; try done.
      + unfold tag. cbn. by rewrite Ei.
      + unfold sz. cbn. fold (sz sizes x). lia.
      + by intros ? [= ->].
    - by rewrite Ei.
    - destruct (pi_bkt _ _ _ _ _ _ _ Hi _ _ _ _ Hn Hb Hfl) as [E1 E2 E3 E4 E5 E6]. rewrite Ei. split; cbn; try done.
      + eapply free_chain_frame; [|exact Hch]. intros o' Ho'.
        rewrite <- Hfr in Ho'. apply free_in_elem in Ho' as (y & Hy & <- & _ & _). destruct (pi_mask _ _ _ _ _ _ _ Hi) as [_ Hk].
        exact (desc_mid _ _ _ _ _ _ _ _ _ _ (proj1 Hk) (pi_pos _ _ _ _ _ _ _ Hi) (pi_layout _ _ _ _ _ _ _ Hi) Hy Hsame).
      + rewrite (not_free i); [by rewrite Hfr|]. cbn. by intros [_ ?].
      + apply u32_pred_len; [|lia]. rewrite E4. cbn. lia.
      + split; [apply E5|apply u32_range].
      + rewrite E6, !num_in_mid. by cbn. }
  rewrite Ei in Hi'. match type of Hi' with pool_inv _ _ _ _ _ _ ?s1 => match goal with |- Q _ ?s2 => replace s2 with s1; [|destruct s as [[] mm]; cbn; by rewrite list_insert_insert_eq] end end.
  rewrite Eo. eapply HQ; [done..|split; try done; by rewrite <- Eo|done].
Qed.

Lemma wp_Create_full k start sizes l fs s i n size p (Q : Z * Z → PoolState → Prop) :
  pool_inv B k start sizes l fs s → sizes !! i = Some n →
  PoolMaxOffset (Rec s) < up k (TailPosition (Rec s) + 24) + n → Q (CFE_ES_ERR_MEM_BLOCK_SIZE, p) s →
  wp (CFE_ES_GenPoolCreatePoolBlock B (Z.of_nat (length sizes) - Z.of_nat i) size p) Q s.
Proof.
  intros Hi Hn Hfull HQ. unfold CFE_ES_GenPoolCreatePoolBlock. wp_step. wp_step. destruct (pi_nb _ _ _ _ _ _ _ Hi) as [Enb Hnb].
  pose proof (lookup_lt_Some _ _ _ Hn). rewrite (bucket_state _ (Z.of_nat (length sizes))) by (done || lia).
  destruct (lookup_lt_is_Some_2 (Buckets (Rec s)) i) as [b Hb]; [rewrite (pi_len _ _ _ _ _ _ _ Hi); lia|].
  wp_step. eapply wp_rd_bucket; [done|]. rewrite (next_block_up _ _ _ _ _ _ Hi). pose proof (next_ok _ _ _ _ _ _ Hi).
  destruct (lookup_lt_is_Some_2 fs i) as [fl Hfl]; [rewrite (pi_fs _ _ _ _ _ _ _ Hi); lia|].
  rewrite (bo_size _ _ _ _ _ _ _ (pi_bkt _ _ _ _ _ _ _ Hi _ _ _ _ Hn Hb Hfl)).
  pose proof (Forall_lookup_1 _ _ _ _ (pi_sizes _ _ _ _ _ _ _ Hi) Hn) as Hn'. cbn in Hn'.
  rewrite (u64_small (_ + n)) by (unfold is_u64; lia).
  destruct (Z.ltb_spec (PoolMaxOffset (Rec s)) (up k (TailPosition (Rec s) + 24) + n)); [|lia]. by wp_step.
Qed.

Lemma wp_Create k start sizes l fs s i n size p (Q : Z * Z → PoolState → Prop) :
  pool_inv B k start sizes l fs s → sizes !! i = Some n → 0 <= size <= n →
  let o := up k (TailPosition (Rec s) + 24) in o + n <= PoolMaxOffset (Rec s) →
  (∀ s', pool_inv B k start sizes (l ++ [mkBlk o i (Some size)]) fs s' → unmoved o s s' → TailPosition (Rec s') = o + n → Q (CFE_SUCCESS, o) s') →
  wp (CFE_ES_GenPoolCreatePoolBlock B (Z.of_nat (length sizes) - Z.of_nat i) size p) Q s.
Proof.
  intros Hi Hn Hsz o Hfit HQ. unfold CFE_ES_GenPoolCreatePoolBlock. wp_step. wp_step. destruct (pi_nb _ _ _ _ _ _ _ Hi) as [Enb Hnb].
  pose proof (lookup_lt_Some _ _ _ Hn). rewrite (bucket_state _ (Z.of_nat (length sizes))) by (done || lia).
  destruct (lookup_lt_is_Some_2 (Buckets (Rec s)) i) as [b Hb]; [rewrite (pi_len _ _ _ _ _ _ _ Hi); lia|].
  wp_step. eapply wp_rd_bucket; [done|]. rewrite (next_block_up _ _ _ _ _ _ Hi). fold o. pose proof (next_ok _ _ _ _ _ _ Hi) as Ho. fold o in Ho.
  destruct (lookup_lt_is_Some_2 fs i) as [fl Hfl]; [rewrite (pi_fs _ _ _ _ _ _ _ Hi); lia|].
  destruct (pi_bkt _ _ _ _ _ _ _ Hi _ _ _ _ Hn Hb Hfl) as [E1 E2 E3 E4 E5 E6]. rewrite E1.
  pose proof (Forall_lookup_1 _ _ _ _ (pi_sizes _ _ _ _ _ _ _ Hi) Hn) as Hn'. cbn in Hn'. pose proof (pi_range _ _ _ _ _ _ _ Hi) as [_ Hmax].
  rewrite (u64_small (o + n)) by (unfold is_u64; lia). destruct (Z.ltb_spec (PoolMaxOffset (Rec s)) (o + n)); [lia|].
  wp_step. apply wp_Retrieve; [lia|lia|]. wp_go. unfold wr_CheckBits, wr_Allocated, wr_ActualSize, wr_NextOffset. wp_steps.
  unfold CFE_ES_MemPoolDirectCommit. wp_go. unfold rec_upd. wp_steps. eapply wp_wr_bucket; [done|]. wp_steps.
  set (a := B + o - 24). set (id := Z.of_nat (length sizes) - Z.of_nat i) in *.
  set (m' := store 8 (a + 16) 0 (store 8 (a + 8) size (store 2 (a + 2) (u16 (CFE_ES_MEMORY_ALLOCATED + id)) (store 2 a CFE_ES_CHECK_PATTERN (Mem s))))).
  assert (same_but a (Mem s) m') as Hsame by (repeat (apply same_but_store; [|cbn; lia..]); apply same_but_refl).
  set (x := mkBlk o i (Some size)). pose proof (tag_range sizes x n Hnb Hn) as Ht. cbn in Ht. fold id in Ht.
  assert (desc B m' x = mkBD CFE_ES_CHECK_PATTERN (CFE_ES_MEMORY_ALLOCATED + id) size 0) as Ed.
  { unfold desc, m'. cbn [off x]. fold a. rewrite bd_at_NextOffset, bd_at_ActualSize, bd_at_Allocated, bd_at_CheckBits by (lia || done || apply u16_range).
    rewrite u16_small by (unfold is_u16, CFE_ES_MEMORY_ALLOCATED; lia). by destruct (bd_at (Mem s) a). }
  eassert (pool_inv B k start sizes (l ++ [x]) (<[i := fl]> fs) _) as Hi'.
  { apply (inv_append k start sizes l x fs s m' (b <| AllocationCount ::= λ n, u32 (n + 1) |>) fl n); try done.
    - split; rewrite Ed; cbn; try done; [|by intros ? [= ->]]. unfold sz. cbn. rewrite Hn. cbn. lia.
    - split; cbn; try done.
      + eapply free_chain_frame; [|exact E2]. intros o' Ho'. rewrite E3 in Ho'. apply free_in_elem in Ho' as (y & Hy & <- & _ & _).
        apply bd_at_agree, Hsame. eapply below_next in Hy; [|exact Hi]. fold o in Hy. cbn. lia.
      + rewrite not_free by (by intros [_ ?]). by rewrite app_nil_r.
      + rewrite E6, num_in_mid, decide_True, app_nil_r by done. unfold u32. by rewrite Zplus_mod_idemp_l. }
  rewrite list_insert_id in Hi' by done. pose proof (pi_cnt _ _ _ _ _ _ _ Hi) as Ec.
  match type of Hi' with pool_inv _ _ _ _ _ _ ?s1 => match goal with |- Q _ ?s2 => replace s2 with s1 end end.
  2: { destruct s as [[] mm]; cbn in *. rewrite Ec. unfold u32. by rewrite Zplus_mod_idemp_l. }
  eapply HQ; [done|split; try done|done].
Qed.

(** ** Getting a block *)

Lemma bucket_sizes k start sizes l fs s : pool_inv B k start sizes l fs s → BlockSize <$> take (length sizes) (Buckets (Rec s)) = sizes.
Proof.
  intros Hi. destruct (pi_nb _ _ _ _ _ _ _ Hi) as [_ Hnb]. pose proof (pi_len _ _ _ _ _ _ _ Hi) as Hlen. apply list_eq. intros i.
  destruct (decide (i < length sizes)%nat) as [Hlt|Hge].
  - rewrite list_lookup_fmap, lookup_take_lt by done.
    destruct (lookup_lt_is_Some_2 (Buckets (Rec s)) i) as [b Hb]; [lia|]. destruct (lookup_lt_is_Some_2 sizes i) as [n Hn]; [lia|].
    destruct (lookup_lt_is_Some_2 fs i) as [fl Hfl]; [rewrite (pi_fs _ _ _ _ _ _ _ Hi); lia|].
    rewrite Hb, Hn. cbn. f_equal. apply (bo_size _ _ _ _ _ _ _ (pi_bkt _ _ _ _ _ _ _ Hi _ _ _ _ Hn Hb Hfl)).
  - rewrite (lookup_ge_None_2 sizes i), lookup_ge_None_2; [done|rewrite length_fmap, length_take; lia|lia].
Qed.

Lemma FindBucket_spec k start sizes l fs s n : pool_inv B k start sizes l fs s →
  CFE_ES_GenPoolFindBucket (Rec s) n = match fits sizes 0 n with Some i => Z.of_nat (length sizes) - Z.of_nat i | None => 0 end.
Proof.
  intros Hi. unfold CFE_ES_GenPoolFindBucket. destruct (pi_nb _ _ _ _ _ _ _ Hi) as [-> Hnb]. rewrite Nat2Z.id.
  rewrite (FindBucket_fits _ 0), (bucket_sizes _ _ _ _ _ _ Hi). destruct (fits sizes 0 n) as [i|] eqn:E.
  - apply fits_Some in E as (_ & z & Hz & _). apply lookup_lt_Some in Hz. apply u16_small. unfold is_u16. lia.
  - rewrite length_take, (pi_len _ _ _ _ _ _ _ Hi), u16_small by (unfold is_u16; lia). lia.
Qed.

(** What CFE_ES_GenPoolGetBlock leaves: a request beyond the largest block and one
    for which nothing is free and no room is left are refused; otherwise the top of the
    stack of the smallest bucket that fits, or a new block of it. *)
Inductive get_post (k start : Z) sizes l fs s (size p : Z) : Z * Z → PoolState → Prop :=
| get_too_big : Forall (λ z, z < size) sizes → get_post k start sizes l fs s size p (CFE_ES_ERR_MEM_BLOCK_SIZE, p) s
| get_full i n : fits sizes 0 size = Some i → sizes !! i = Some n → fs !! i = Some [] →
    PoolMaxOffset (Rec s) < up k (TailPosition (Rec s) + 24) + n → get_post k start sizes l fs s size p (CFE_ES_ERR_MEM_BLOCK_SIZE, p) s
| get_recycled i n fl l1 x l2 s' : fits sizes 0 size = Some i → sizes !! i = Some n → fs !! i = Some (off x :: fl) →
    l = l1 ++ x :: l2 → bkt x = i → st x = None →
    pool_inv B k start sizes (l1 ++ x <| st := Some size |> :: l2) (<[i := fl]> fs) s' →
    unmoved (off x) s s' → TailPosition (Rec s') = TailPosition (Rec s) → get_post k start sizes l fs s size p (CFE_SUCCESS, off x) s'
| get_created i n o s' : fits sizes 0 size = Some i → sizes !! i = Some n → fs !! i = Some [] →
    o = up k (TailPosition (Rec s) + 24) → o + n <= PoolMaxOffset (Rec s) →
    pool_inv B k start sizes (l ++ [mkBlk o i (Some size)]) fs s' →
    unmoved o s s' → TailPosition (Rec s') = o + n → get_post k start sizes l fs s size p (CFE_SUCCESS, o) s'.

Lemma wp_GetBlock k start sizes l fs s size p : pool_inv B k start sizes l fs s → 0 <= size →
  wp (CFE_ES_GenPoolGetBlock B p size) (get_post k start sizes l fs s size p) s.
Proof.
  intros Hi Hsz. unfold CFE_ES_GenPoolGetBlock. wp_step. wp_step. rewrite (FindBucket_spec _ _ _ _ _ _ _ Hi).
  destruct (pi_nb _ _ _ _ _ _ _ Hi) as [Enb Hnb]. destruct (fits sizes 0 size) as [i|] eqn:Ef.
  - pose proof Ef as (_ & n & Hn & Hle & _)%fits_Some. rewrite Nat.sub_0_r in Hn. pose proof (lookup_lt_Some _ _ _ Hn).
    destruct (Z.eqb_spec (Z.of_nat (length sizes) - Z.of_nat i) 0); [lia|]. wp_step.
    destruct (lookup_lt_is_Some_2 fs i) as [[|o fl] Hfl]; [rewrite (pi_fs _ _ _ _ _ _ _ Hi); lia|..].
    + eapply wp_Recycle_none; [done..|]. wp_go.
      destruct (Z.le_gt_cases (up k (TailPosition (Rec s) + 24) + n) (PoolMaxOffset (Rec s))).
      * eapply wp_Create; [done..|]. intros s' Hi' Hu Ht. by eapply get_created.
      * eapply wp_Create_full; [done..|lia|]. by eapply get_full.
    + eapply wp_Recycle; [done..|]. intros l1 x l2 s' El Eo Ei Est Hi' Hu Ht. wp_go. subst o i. by eapply get_recycled.
  - rewrite Z.eqb_refl. apply fits_None in Ef. wp_step.
    destruct (lookup_lt_is_Some_2 (Buckets (Rec s)) (length sizes - 1)%nat) as [b Hb]; [rewrite (pi_len _ _ _ _ _ _ _ Hi); lia|].
    rewrite Enb. replace (Z.of_nat (length sizes) - 1) with (Z.of_nat (length sizes - 1)) by lia.
    eapply wp_rd_bucket; [done|]. wp_step. by apply get_too_big.
Qed.

(** ** Putting a block back *)

Lemma wp_block_valid k start sizes l fs s x (Q : bool → PoolState → Prop) : pool_inv B k start sizes l fs s → x ∈ l →
  Q (match st x with Some n => negb (n =? 0) | None => false end) s →
  wp (block_valid (Rec s) (desc B (Mem s) x)
       (CFE_ES_GenPoolGetBucketState (Rec s) (u16 (Allocated (desc B (Mem s) x) - CFE_ES_MEMORY_ALLOCATED)))) Q s.
Proof.
  intros Hi Hx HQ. pose proof (pi_pos _ _ _ _ _ _ _ Hi) as Hpos. destruct (pi_nb _ _ _ _ _ _ _ Hi) as [Enb Hnb].
  pose proof (pi_desc _ _ _ _ _ _ _ Hi) as Hd. eapply Forall_forall in Hd; [|exact Hx]. destruct Hd as [D1 D2 D3 D4].
  destruct (pi_mask _ _ _ _ _ _ _ Hi) as [_ Hk].
  destruct (layout_bound _ _ (proj1 Hk) Hpos _ _ _ _ (pi_layout _ _ _ _ _ _ _ Hi) Hx) as (_ & _ & _ & n & Hn).
  pose proof (tag_range sizes x n Hnb Hn) as Ht. unfold block_valid. rewrite D1, Z.eqb_refl, D2. cbn [negb]. unfold tag.
  destruct (st x) as [c|] eqn:Est.
  - rewrite u16_small by (unfold is_u16; lia). rewrite Z.add_simpl_l. rewrite (bucket_state _ (Z.of_nat (length sizes))) by (done || lia).
    destruct (lookup_lt_is_Some_2 (Buckets (Rec s)) (bkt x)) as [b Hb]; [rewrite (pi_len _ _ _ _ _ _ _ Hi); lia|].
    destruct (lookup_lt_is_Some_2 fs (bkt x)) as [fl Hfl]; [rewrite (pi_fs _ _ _ _ _ _ _ Hi); lia|].
    wp_step. eapply wp_rd_bucket; [done|]. wp_step. rewrite (D4 c) by done.
    rewrite (bo_size _ _ _ _ _ _ _ (pi_bkt _ _ _ _ _ _ _ Hi _ _ _ _ Hn Hb Hfl)). rewrite (D4 c) in D3 by done.
    destruct (sz_pos _ Hpos x n Hn) as [Ez _]. destruct (Z.ltb_spec n c); [lia|]. by rewrite orb_false_r.
  - rewrite (bucket_state_bad _ (Z.of_nat (length sizes))); [by wp_step|done|lia|].
    rewrite u16_small by (unfold is_u16, CFE_ES_MEMORY_ALLOCATED, CFE_ES_MEMORY_DEALLOCATED; lia).
    unfold CFE_ES_MEMORY_ALLOCATED, CFE_ES_MEMORY_DEALLOCATED. lia.
Qed.

Lemma wp_GetBlockSize k start sizes l fs s p x (Q : Z * Z → PoolState → Prop) : pool_inv B k start sizes l fs s → x ∈ l →
  Q (match st x with Some (Zpos n) => (CFE_SUCCESS, Zpos n) | _ => (CFE_ES_POOL_BLOCK_INVALID, p) end) s →
  wp (CFE_ES_GenPoolGetBlockSize B p (off x)) Q s.
Proof.
  intros Hi Hx HQ. pose proof (below_next _ _ _ _ _ _ _ Hi Hx) as [H24 H0]. pose proof (pi_range _ _ _ _ _ _ _ Hi) as [_ Hmax].
  destruct (pi_mask _ _ _ _ _ _ _ Hi) as [_ Hk]. pose proof (pi_pos _ _ _ _ _ _ _ Hi) as Hpos.
  destruct (layout_bound _ _ (proj1 Hk) Hpos _ _ _ _ (pi_layout _ _ _ _ _ _ _ Hi) Hx) as (_ & Hb & _).
  unfold CFE_ES_GenPoolGetBlockSize, CFE_ES_GENERIC_POOL_DESCRIPTOR_SIZE. wp_step. wp_step.
  destruct (Z.leb_spec (TailPosition (Rec s)) (off x)); [lia|]. destruct (Z.ltb_spec (off x) 24); [lia|]. cbn [orb].
  wp_step. apply wp_Retrieve; [lia|lia|]. wp_go. unfold rd_bd. wp_step. fold (desc B (Mem s) x). wp_step.
  eapply wp_block_valid; [done|done|]. pose proof (pi_desc _ _ _ _ _ _ _ Hi) as Hd. eapply Forall_forall in Hd; [|exact Hx].
  destruct (st x) as [c|] eqn:Est; cbn [negb]; [|by wp_step]. pose proof (do_live _ _ _ _ Hd _ Est) as Ec. pose proof (do_size _ _ _ _ Hd).
  destruct c as [|c|c]; cbn [negb Z.eqb]; wp_step; [done|by rewrite Ec|lia].
Qed.

(** What CFE_ES_GenPoolPutBlock leaves: addresses outside of the blocks and blocks
    that are free already are refused and counted; a block in use becomes the top of its
    bucket's stack. *)
Inductive put_post (k start : Z) sizes l fs s (p o : Z) : Z * Z → PoolState → Prop :=
| put_outside : o < 24 ∨ TailPosition (Rec s) <= o → put_post k start sizes l fs s p o (CFE_ES_BUFFER_NOT_IN_POOL, p) s
| put_invalid x : x ∈ l → off x = o → st x = None ∨ st x = Some 0 →
    put_post k start sizes l fs s p o (CFE_ES_POOL_BLOCK_INVALID, p) (s <| Rec ::= λ r, r <| ValidationErrorCount ::= λ n, u32 (n + 1) |> |>)
| put_freed l1 x l2 n fl s' : l = l1 ++ x :: l2 → off x = o → st x = Some n → n ≠ 0 → fs !! bkt x = Some fl →
    pool_inv B k start sizes (l1 ++ x <| st := None |> :: l2) (<[bkt x := o :: fl]> fs) s' →
    unmoved o s s' → TailPosition (Rec s') = TailPosition (Rec s) → put_post k start sizes l fs s p o (CFE_SUCCESS, n) s'.

Lemma free_in_length i l : Z.of_nat (length (free_in i l)) <= Z.of_nat (length l).
Proof. unfold free_in. rewrite length_fmap. pose proof (length_filter (λ x, bkt x = i ∧ st x = None) l). lia. Qed.

(** The memory and the bucket after a block was put on the stack. *)
Lemma inv_push k start sizes l1 x l2 c fs s n b fl m' a :
  pool_inv B k start sizes (l1 ++ x :: l2) fs s → st x = Some c → sizes !! bkt x = Some n → Buckets (Rec s) !! bkt x = Some b →
  fs !! bkt x = Some fl → a = B + off x - 24 →
  m' = store 8 (a + 16) (FirstOffset b) (store 2 (a + 2) (CFE_ES_MEMORY_DEALLOCATED + (Z.of_nat (length sizes) - Z.of_nat (bkt x))) (Mem s)) →
  same_but a (Mem s) m' ∧ desc B m' x = (desc B (Mem s) x) <| Allocated := CFE_ES_MEMORY_DEALLOCATED + (Z.of_nat (length sizes) - Z.of_nat (bkt x)) |> <| NextOffset := FirstOffset b |> ∧
  pool_inv B k start sizes (l1 ++ x <| st := None |> :: l2) (<[bkt x := off x :: fl]> fs)
    (mkPoolState ((Rec s) <| Buckets ::= <[bkt x := b <| FirstOffset := off x |> <| ReleaseCount ::= λ n, u32 (n + 1) |>]> |>) m').
Proof.
  intros Hi Est Hn Hb Hfl Ea Em. pose proof (pi_pos _ _ _ _ _ _ _ Hi) as Hpos. destruct (pi_nb _ _ _ _ _ _ _ Hi) as [Enb Hnb].
  destruct (pi_mask _ _ _ _ _ _ _ Hi) as [_ Hk]. pose proof (pi_layout _ _ _ _ _ _ _ Hi) as Hl. pose proof (pi_range _ _ _ _ _ _ _ Hi) as Hr.
  assert (same_but a (Mem s) m') as Hsame by (subst m'; repeat (apply same_but_store; [|cbn; lia..]); apply same_but_refl).
  pose proof (tag_range sizes x n Hnb Hn) as Ht. destruct (pi_bkt _ _ _ _ _ _ _ Hi _ _ _ _ Hn Hb Hfl) as [E1 E2 E3 E4 E5 E6].
  assert (∀ y, y ∈ l1 ++ x :: l2 → 24 <= off y < 2 ^ 32) as Hob.
  { intros y Hy. destruct (layout_bound _ _ (proj1 Hk) Hpos _ _ _ _ Hl Hy) as (H1 & H2 & _ & n' & Hn'). destruct (sz_pos _ Hpos y n' Hn'). lia. }
  assert (0 <= FirstOffset b < 2 ^ 32) as HF.
  { destruct fl as [|o fl]; cbn in E2; [lia|]. destruct E2 as [-> _].
    assert (o ∈ free_in (bkt x) (l1 ++ x :: l2)) as (y & Hy & <- & _)%free_in_elem by (rewrite <- E3; apply elem_of_cons; by left).
    pose proof (Hob y Hy). lia. }
  assert (desc B m' x = (desc B (Mem s) x) <| Allocated := CFE_ES_MEMORY_DEALLOCATED + (Z.of_nat (length sizes) - Z.of_nat (bkt x)) |> <| NextOffset := FirstOffset b |>) as Ed.
  { subst a m'. unfold desc. rewrite bd_at_NextOffset, bd_at_Allocated; [done|unfold CFE_ES_MEMORY_DEALLOCATED; lia|lia]. }
  split_and!; [done|done|]. pose proof (pi_desc _ _ _ _ _ _ _ Hi) as Hd. apply Forall_app in Hd as [_ [Hd _]%Forall_cons]. destruct Hd as [D1 D2 D3 D4].
  subst a. apply (inv_change k start sizes l1 x (x <| st := None |>) l2 fs s m' _ _ n); try done.
  - split; change (desc B m' x <| st := None |>) with (desc B m' x); rewrite Ed; cbn; done.
  - split; cbn; try done.
    + split; [done|]. fold (desc B m' x). rewrite Ed. cbn. eapply free_chain_frame; [|exact E2]. intros o' Ho'.
      rewrite E3 in Ho'. rewrite (not_free (bkt x) l1 x l2) in Ho' by (rewrite Est; by intros [_ ?]).
      apply free_in_elem in Ho' as (y & Hy & <- & _ & _). by eapply desc_mid; [|exact Hpos|exact Hl|exact Hy|]; [lia|].
    + rewrite (in_free (bkt x)) by done. cbn. f_equiv. rewrite E3. by rewrite (not_free (bkt x) l1 x l2) by (rewrite Est; by intros [_ ?]).
    + rewrite Nat2Z.inj_succ, <- Z.add_1_r. apply u32_succ_len; [done|].
      pose proof (layout_tail _ _ (proj1 Hk) Hpos _ _ _ Hl). rewrite E3. pose proof (free_in_length (bkt x) (l1 ++ x :: l2)). lia.
    + split; [apply u32_range|apply E5].
    + rewrite E6, !num_in_mid. done.
Qed.

Lemma wp_PutBlock k start sizes l fs s p o : pool_inv B k start sizes l fs s → (o < 24 ∨ TailPosition (Rec s) <= o ∨ ∃ x, x ∈ l ∧ off x = o) →
  wp (CFE_ES_GenPoolPutBlock B p o) (put_post k start sizes l fs s p o) s.
Proof.
  intros Hi Ho. unfold CFE_ES_GenPoolPutBlock. wp_step. wp_step.
  destruct (Z.leb_spec (TailPosition (Rec s)) o); [cbn [orb]; wp_step; apply put_outside; lia|].
  destruct (Z.ltb_spec o CFE_ES_GENERIC_POOL_DESCRIPTOR_SIZE) as [|Hge]; [cbn [orb]; wp_step; apply put_outside; left; done|].
  destruct Ho as [Ho|[Ho|(x & Hx & <-)]]; [unfold CFE_ES_GENERIC_POOL_DESCRIPTOR_SIZE in Hge; lia|lia|]. cbn [orb].
  pose proof (below_next _ _ _ _ _ _ _ Hi Hx) as [H24 _]. pose proof (pi_range _ _ _ _ _ _ _ Hi) as [_ Hmax].
  wp_step. apply wp_Retrieve; [lia|lia|]. wp_go. unfold rd_bd. wp_step. fold (desc B (Mem s) x). wp_step.
  eapply wp_block_valid; [done|done|]. pose proof (pi_pos _ _ _ _ _ _ _ Hi) as Hpos. destruct (pi_nb _ _ _ _ _ _ _ Hi) as [Enb Hnb].
  destruct (pi_mask _ _ _ _ _ _ _ Hi) as [_ Hk].
  destruct (layout_bound _ _ (proj1 Hk) Hpos _ _ _ _ (pi_layout _ _ _ _ _ _ _ Hi) Hx) as (_ & _ & _ & n & Hn).
  pose proof (tag_range sizes x n Hnb Hn) as Ht. pose proof (pi_desc _ _ _ _ _ _ _ Hi) as Hd. eapply Forall_forall in Hd; [|exact Hx].
  rewrite (do_tag _ _ _ _ Hd). unfold tag. destruct (st x) as [c|] eqn:Est.
  2: { destruct (CFE_ES_GenPoolGetBucketState _ _); unfold rec_upd; wp_steps; eapply put_invalid; eauto. }
  rewrite u16_small by (unfold is_u16; lia). rewrite Z.add_simpl_l. rewrite (bucket_state _ (Z.of_nat (length sizes))) by (done || lia).
  destruct (Z.eqb_spec c 0) as [->|Hc]; cbn [negb]; [unfold rec_upd; wp_steps; eapply put_invalid; eauto|].
  destruct (lookup_lt_is_Some_2 (Buckets (Rec s)) (bkt x)) as [b Hb]; [rewrite (pi_len _ _ _ _ _ _ _ Hi); lia|].
  destruct (lookup_lt_is_Some_2 fs (bkt x)) as [fl Hfl]; [rewrite (pi_fs _ _ _ _ _ _ _ Hi); lia|].
  unfold wr_Allocated, wr_NextOffset. wp_steps. eapply wp_rd_bucket; [done|]. wp_steps.
  unfold CFE_ES_MemPoolDirectCommit. wp_go. eapply wp_wr_bucket; [done|]. cbn beta.
  eapply wp_wr_bucket; [cbn; apply list_lookup_insert_eq; by eapply lookup_lt_Some|]. wp_step.
  apply list_elem_of_split in Hx as (l1 & l2 & ->). cbn [Mem set PoolState_eta eta].
  rewrite (u16_small (CFE_ES_MEMORY_DEALLOCATED + _)) by (unfold is_u16, CFE_ES_MEMORY_DEALLOCATED; lia).
  destruct (inv_push _ _ _ _ _ _ _ _ _ _ _ _ _ _ Hi Est Hn Hb Hfl eq_refl eq_refl) as (Hsame & Ed & Hi').
  match goal with |- put_post _ _ _ _ _ _ _ _ (_, ?z) _ => replace z with c end.
  2: { unfold desc in Ed. rewrite Ed. cbn. symmetry. by apply (do_live _ _ _ _ Hd). }
  match type of Hi' with pool_inv _ _ _ _ _ _ ?s1 => match goal with |- put_post _ _ _ _ _ _ _ _ _ ?s2 => replace s2 with s1 end end.
  2: { destruct s as [[] mm]. cbn. by rewrite list_insert_insert_eq. }
  by eapply put_freed; try done.
Qed.
End ops.
