(* ===== verification/EsPoolInit.v ===== *)
(** * Creating and recovering a memory pool

    The sort of the block sizes, the alignment mask, the fresh pool, and the recovery of
    the blocks from the memory of a pool whose record was lost. *)
From Stdlib Require Import Sorted.
From S2P Require Import Prelude Bytes Config EsPool EsPoolInv EsPoolOps.

(** ** Sorting the block sizes *)

Definition below (x : Z) (l : list Z) : nat := length (filter (λ y, y < x) l).

(** The number of pairs in the wrong order. *)
Fixpoint inversions (l : list Z) : nat :=
  match l with [] => 0 | x :: l => below x l + inversions l end.

Lemma below_perm x l l' : l ≡ₚ l' → below x l = below x l'.
Proof. intros H. unfold below. by rewrite H. Qed.

Lemma inversions_bound l : (inversions l ≤ length l * length l)%nat.
Proof.
  induction l as [|x l IH]; cbn; [lia|]. pose proof (length_filter (λ y, y < x) l) as H. unfold below. nia.
Qed.

Lemma xor_swap x y : let x' := Z.lxor x y in let y' := Z.lxor y x' in Z.lxor x' y' = y ∧ y' = x.
Proof.
  cbn. split; Z_bits i Hi; rewrite !Z.lxor_spec; by destruct (Z.testbit x i), (Z.testbit y i).
Qed.

Lemma sort_pass_spec x l : let '(l', n) := sort_pass x l in
  l' ≡ₚ x :: l ∧ (inversions l' + n = inversions (x :: l))%nat ∧ (n = 0%nat → l' = x :: l ∧ Sorted Z.le (x :: l)).
Proof.
  revert x. induction l as [|y l IH]; intros x; cbn [sort_pass].
  { split_and!; [done|done|]. intros _. split; [done|]. by repeat constructor. }
  destruct (Z.ltb_spec y x) as [Hlt|Hge].
  - destruct (xor_swap x y) as [E1 E2]. cbn in E1, E2. rewrite E1, E2. specialize (IH x). destruct (sort_pass x l) as [l' n].
    destruct IH as (Hp & Hi & _). split_and!; [|cbn [inversions]|done].
    + rewrite Hp. apply perm_swap.
    + rewrite (below_perm _ _ _ Hp). cbn [inversions] in Hi. unfold below in *. rewrite !filter_cons.
      rewrite (decide_False (P := x < y)), (decide_True (P := y < x)) by lia. cbn. lia.
  - specialize (IH y). destruct (sort_pass y l) as [l' n]. destruct IH as (Hp & Hi & Hs). split_and!.
    + by rewrite Hp.
    + cbn [inversions]. rewrite (below_perm _ _ _ Hp). cbn [inversions] in Hi. lia.
    + intros ->. destruct Hs as [-> Hs]; [done|]. split; [done|]. constructor; [done|]. by constructor.
Qed.

Lemma sort_loop_spec fuel l : (inversions l ≤ fuel)%nat → ∃ l', sort_loop fuel l = Some l' ∧ l' ≡ₚ l ∧ Sorted Z.le l'.
Proof.
  revert l. induction fuel as [|fuel IH]; intros [|x l] Hf; try by (exists []; repeat constructor).
  all: cbn [sort_loop]; pose proof (sort_pass_spec x l) as Hs; destruct (sort_pass x l) as [l' n]; destruct Hs as (Hp & Hi & Hs).
  all: destruct n as [|n]; [destruct Hs as [-> Hs]; [done|]; by exists (x :: l)|].
  - lia.
  - destruct (IH l') as (l'' & -> & Hp' & Hs'); [lia|]. exists l''. by rewrite <- Hp.
Qed.

(** ** The alignment mask *)

(** Bit [i] of [m'] tells whether [m] has one of the [w] bits from [i] on. *)
Definition smeared (w m m' : Z) : Prop :=
  ∀ i, 0 <= i → Z.testbit m' i = true ↔ ∃ d, 0 <= d < w ∧ Z.testbit m (i + d) = true.

Lemma smeared_double w m m' : 0 < w → smeared w m m' → smeared (2 * w) m (Z.lor m' (Z.shiftr m' w)).
Proof.
  intros Hw H i Hi. rewrite Z.lor_spec, Z.shiftr_spec, orb_true_iff, (H i), (H (i + w)) by lia. split.
  - intros [(d & Hd & E)|(d & Hd & E)]; [exists d|exists (w + d); rewrite Z.add_assoc]; (split; [lia|done]).
  - intros (d & Hd & E). destruct (Z.lt_ge_cases d w); [left; exists d; split; [lia|done]|right].
    exists (d - w). split; [lia|]. by replace (i + w + (d - w)) with (i + d) by lia.
Qed.

Lemma align_mask_spec n : 1 < n <= 2 ^ 32 → align_mask n = 2 ^ Z.log2_up n - 1.
Proof.
  intros Hn. unfold align_mask. destruct (Z.leb_spec n 1); [lia|]. set (m := n - 1).
  assert (smeared 1 m m) as H1.
  { intros i Hi. split; [intros E; exists 0; rewrite Z.add_0_r; split; [lia|done]|]. intros (d & Hd & E). by replace d with 0 in E by lia; rewrite Z.add_0_r in E. }
  apply smeared_double in H1; [|lia]. apply smeared_double in H1; [|lia]. apply smeared_double in H1; [|lia].
  apply smeared_double in H1; [|lia]. apply smeared_double in H1; [|lia].
  replace (2 ^ Z.log2_up n - 1) with (Z.ones (Z.succ (Z.log2 m))).
  2: { rewrite Z.ones_equiv, Z.log2_up_eqn by lia. unfold m. replace (Z.pred n) with (n - 1) by lia. lia. }
  assert (0 <= Z.log2 m < 32) as Hlog by (split; [apply Z.log2_nonneg|]; apply Z.log2_lt_pow2; unfold m; lia).
  Z_bits i Hi. apply eq_true_iff_eq. etransitivity; [exact (H1 i Hi)|]. rewrite Z.testbit_ones_nonneg, Z.ltb_lt by lia. split.
  - intros (d & Hd & E). destruct (Z.lt_ge_cases (Z.log2 m) (i + d)); [|lia]. rewrite Z.bits_above_log2 in E; [done|unfold m; lia|lia].
  - intros Hlt. exists (Z.log2 m - i). split; [lia|]. replace (i + (Z.log2 m - i)) with (Z.log2 m) by lia. apply Z.bit_log2. unfold m. lia.
Qed.

(** ** A fresh pool *)

Lemma lookup_zero (n : nat) i (fl : list Z) : replicate n [] !! i = Some fl → fl = [].
Proof. intros [-> _]%lookup_replicate_1. done. Qed.

(** The record CFE_ES_GenPoolInitialize leaves for valid arguments. *)
Definition fresh_rec (start size mask : Z) (sizes : list Z) : CFE_ES_GenPoolRecord_t :=
  mkGenPool size (size + start) mask start 0 0 (Z.of_nat (length sizes))
    (((λ n, mkBucket n 0 0 0 0) <$> sizes) ++ replicate (17 - length sizes)%nat zero_bucket).

Lemma fresh_inv B k start size sizes m : 0 <= k <= 31 → (0 < length sizes ≤ 17)%nat → Forall (λ n, 0 < n < 2 ^ 31) sizes →
  0 <= start → 0 <= size → size + start < 2 ^ 32 →
  pool_inv B k start sizes [] (replicate (length sizes) []) (mkPoolState (fresh_rec start size (2 ^ k - 1) sizes) m).
Proof.
  intros Hk Hl Hs H1 H2 H3. split; cbn; try done; try lia.
  - rewrite length_app, length_fmap, length_replicate. lia.
  - by rewrite length_replicate.
  - intros i n b fl Hn Hb Hfl. apply lookup_zero in Hfl as ->. pose proof (lookup_lt_Some _ _ _ Hn).
    rewrite lookup_app_l, list_lookup_fmap, Hn in Hb by (rewrite length_fmap; lia). injection Hb as <-. by split.
Qed.

Lemma Initialize_spec start size align nb list : Z.of_nat (length list) = nb → 0 < nb <= 17 → Forall (λ n, 0 < n) list →
  0 <= start → 0 <= size → size + start < 2 ^ 32 →
  ∃ sizes, CFE_ES_GenPoolInitialize start size align nb list = Some (CFE_SUCCESS, fresh_rec start size (align_mask align) sizes) ∧
    sizes ≡ₚ list ∧ Sorted Z.le sizes.
Proof.
  intros E Hnb Hpos H1 H2 H3. unfold CFE_ES_GenPoolInitialize. rewrite <- E.
  destruct (Z.ltb_spec CFE_PLATFORM_ES_POOL_MAX_BUCKETS (Z.of_nat (length list))) as [Hgt|_]; [unfold CFE_PLATFORM_ES_POOL_MAX_BUCKETS in Hgt; lia|].
  rewrite Z.ltb_irrefl, Nat2Z.id, firstn_all. cbn [orb].
  destruct (sort_loop_spec (length list * length list) list (inversions_bound list)) as (sizes & -> & Hp & Hs). cbn.
  exists sizes. split; [|done]. pose proof (Permutation_length Hp) as El. destruct sizes as [|n sizes]; [cbn in El; lia|].
  unfold fresh_rec. rewrite El, u64_small by (unfold is_u64; lia).
  replace (Z.to_nat (CFE_PLATFORM_ES_POOL_MAX_BUCKETS - Z.of_nat (length list))) with (17 - length list)%nat by (unfold CFE_PLATFORM_ES_POOL_MAX_BUCKETS; lia).
  cbn. rewrite <- Hp in Hpos. apply Forall_cons in Hpos as [Hn _]. destruct (Z.eqb_spec n 0); [lia|]. done.
Qed.

(** A size list with a zero is refused. *)
Lemma Initialize_zero start size align nb list : Z.of_nat (length list) = nb → 0 < nb <= 17 → Forall (λ n, 0 <= n) list → 0 ∈ list →
  ∃ r, CFE_ES_GenPoolInitialize start size align nb list = Some (CFE_ES_ERR_MEM_BLOCK_SIZE, r).
Proof.
  intros E Hnb Hpos H0. unfold CFE_ES_GenPoolInitialize. rewrite <- E.
  destruct (Z.ltb_spec CFE_PLATFORM_ES_POOL_MAX_BUCKETS (Z.of_nat (length list))) as [Hgt|_]; [unfold CFE_PLATFORM_ES_POOL_MAX_BUCKETS in Hgt; lia|].
  rewrite Z.ltb_irrefl, Nat2Z.id, firstn_all. cbn [orb].
  destruct (sort_loop_spec (length list * length list) list (inversions_bound list)) as (sizes & -> & Hp & Hs). cbn.
  rewrite <- Hp in H0, Hpos. destruct sizes as [|n sizes]; [by apply elem_of_nil in H0|]. cbn.
  assert (n = 0) as ->; [|eauto]. apply Sorted_StronglySorted in Hs; [|intros ???; lia]. apply StronglySorted_inv in Hs as [_ Hs].
  apply elem_of_cons in H0 as [<-|H0]; [done|]. rewrite Forall_cons in Hpos. destruct Hpos as [Hn _].
  rewrite Forall_forall in Hs. specialize (Hs 0 H0). lia.
Qed.

(** ** Recovery *)

Lemma layout_split k start sizes l1 l2 t tail : layout k start sizes (l1 ++ l2) tail → layout k start sizes l1 t → layout k t sizes l2 tail.
Proof.
  revert start. induction l1 as [|x l1 IH]; intros start H1 H2; cbn in *; [by subst|].
  destruct H1 as (_ & n & Hn & H1), H2 as (_ & n' & Hn' & H2). assert (n' = n) as -> by congruence. by eapply IH.
Qed.

Section rebuild.
Context (B : Z).

(** The bucket of a block from its descriptor. *)
Lemma tag_bucket sizes r m x n : desc_ok B sizes m x → NumBuckets r = Z.of_nat (length sizes) → (0 < length sizes ≤ 17)%nat → sizes !! bkt x = Some n →
  match CFE_ES_GenPoolGetBucketState r (u16 (Allocated (desc B m x) - CFE_ES_MEMORY_DEALLOCATED)) with
  | Some i => (Some i, u16 (Allocated (desc B m x) - CFE_ES_MEMORY_DEALLOCATED), true)
  | None => (CFE_ES_GenPoolGetBucketState r (u16 (Allocated (desc B m x) - CFE_ES_MEMORY_ALLOCATED)),
             u16 (Allocated (desc B m x) - CFE_ES_MEMORY_ALLOCATED), false)
  end = (Some (Z.of_nat (bkt x)), Z.of_nat (length sizes) - Z.of_nat (bkt x), match st x with Some _ => false | None => true end).
Proof.
  intros Hd Enb Hnb Hn. pose proof (tag_range sizes x n Hnb Hn) as Ht. pose proof (lookup_lt_Some _ _ _ Hn).
  rewrite (do_tag _ _ _ _ Hd). unfold tag. destruct (st x).
  - rewrite (bucket_state_bad r (Z.of_nat (length sizes))); [|done|lia|].
    + rewrite u16_small by (unfold is_u16; lia). rewrite Z.add_simpl_l, (bucket_state _ (Z.of_nat (length sizes))) by (done || lia). done.
    + unfold CFE_ES_MEMORY_ALLOCATED, CFE_ES_MEMORY_DEALLOCATED, u16. rewrite <- (Z.mod_add _ 1) by lia. rewrite Z.mod_small; lia.
  - rewrite u16_small by (unfold is_u16; lia). rewrite Z.add_simpl_l, (bucket_state _ (Z.of_nat (length sizes))) by (done || lia). done.
Qed.

Lemma desc_ok_next sizes m x v : desc_ok B sizes m x → 0 <= v < 2 ^ 64 → desc_ok B sizes (store 8 (B + off x - 24 + 16) v m) x.
Proof. intros [D1 D2 D3 D4] Hv. split; unfold desc in *; rewrite bd_at_NextOffset by done; cbn; done. Qed.

Lemma stack_range k start sizes l fs s i n b fl : pool_inv B k start sizes l fs s → sizes !! i = Some n → Buckets (Rec s) !! i = Some b →
  fs !! i = Some fl → 0 <= FirstOffset b < 2 ^ 34.
Proof.
  intros Hi Hn Hb Hfl. destruct (pi_bkt _ _ _ _ _ _ _ Hi _ _ _ _ Hn Hb Hfl) as [_ E2 E3 _ _ _]. destruct fl as [|o fl]; cbn in E2; [lia|].
  destruct E2 as [-> _]. assert (o ∈ free_in i l) as (y & Hy & <- & _)%free_in_elem by (rewrite <- E3; apply elem_of_cons; by left).
  pose proof (below_next _ _ _ _ _ _ _ _ Hi Hy). pose proof (next_ok _ _ _ _ _ _ _ Hi). lia.
Qed.

(** A block found in memory is added to the pool: with its bucket's stack if it is
    free. *)
Lemma inv_found k start sizes l1 x fs s n b fl : pool_inv B k start sizes l1 fs s → off x = up k (TailPosition (Rec s) + 24) →
  sizes !! bkt x = Some n → off x + n <= PoolMaxOffset (Rec s) → desc_ok B sizes (Mem s) x → Buckets (Rec s) !! bkt x = Some b → fs !! bkt x = Some fl →
  let r := (Rec s) <| TailPosition := off x + n |> <| PoolAllocationCount := u32 (Z.of_nat (length l1) + 1) |> in
  let b1 := b <| AllocationCount ::= λ n, u32 (n + 1) |> in
  match st x with
  | Some _ => pool_inv B k start sizes (l1 ++ [x]) fs (mkPoolState (r <| Buckets ::= <[bkt x := b1]> |>) (Mem s))
  | None => pool_inv B k start sizes (l1 ++ [x]) (<[bkt x := off x :: fl]> fs)
      (mkPoolState (r <| Buckets ::= <[bkt x := b1 <| ReleaseCount ::= λ n, u32 (n + 1) |> <| FirstOffset := off x |>]> |>)
        (store 8 (B + off x - 24 + 16) (FirstOffset b) (Mem s)))
  end.
Proof.
  intros Hi Eo Hn Hfit Hd Hb Hfl. pose proof (stack_range _ _ _ _ _ _ _ _ _ _ Hi Hn Hb Hfl) as HF.
  destruct (pi_bkt _ _ _ _ _ _ _ Hi _ _ _ _ Hn Hb Hfl) as [E1 E2 E3 E4 E5 E6].
  assert (∀ m', same_but (B + off x - 24) (Mem s) m' → chain B m' (FirstOffset b) fl) as Hch.
  { intros m' Hs. eapply free_chain_frame; [|exact E2]. intros o' Ho'. rewrite E3 in Ho'. apply free_in_elem in Ho' as (y & Hy & <- & _ & _).
    apply bd_at_agree, Hs. pose proof (below_next _ _ _ _ _ _ _ _ Hi Hy). lia. }
  assert (u32 (AllocationCount b + 1) = u32 (num_in (bkt x) (l1 ++ [x]))) as Ha.
  { rewrite E6, num_in_mid, decide_True, app_nil_r by done. unfold u32. by rewrite Zplus_mod_idemp_l. }
  destruct (st x) as [c|] eqn:Est; cbv zeta.
  - rewrite <- (list_insert_id fs (bkt x) fl Hfl). eapply (inv_append B k start sizes l1 x fs s (Mem s)); try done.
    split; cbn; try done; try (apply Hch, same_but_refl). rewrite not_free by (rewrite Est; by intros [_ ?]). by rewrite app_nil_r.
  - assert (same_but (B + off x - 24) (Mem s) (store 8 (B + off x - 24 + 16) (FirstOffset b) (Mem s))) as Hs.
    { apply same_but_store; [apply same_but_refl|lia..]. }
    eapply (inv_append B k start sizes l1 x fs s); try done; [apply desc_ok_next; [done|lia]|].
    split; cbn; try done.
    + split; [done|]. rewrite bd_at_NextOffset by lia. cbn. by apply Hch.
    + rewrite (in_free (bkt x) l1 x []), app_nil_r by done. by rewrite E3.
    + rewrite Nat2Z.inj_succ, <- Z.add_1_r. apply u32_succ_len; [done|].
      destruct (pi_mask _ _ _ _ _ _ _ Hi) as [_ Hk]. pose proof (pi_range _ _ _ _ _ _ _ Hi).
      pose proof (layout_tail _ _ (proj1 Hk) (pi_pos _ _ _ _ _ _ _ Hi) _ _ _ (pi_layout _ _ _ _ _ _ _ Hi)).
      rewrite E3. pose proof (free_in_length (bkt x) l1). lia.
    + split; [apply u32_range|apply E5].
Qed.

(** One block recovered. *)
Lemma wp_rebuild_block k start sizes l1 x l2 tail fs s (Q : option Z → PoolState → Prop) :
  pool_inv B k start sizes l1 fs s → layout k start sizes (l1 ++ x :: l2) tail → tail <= PoolMaxOffset (Rec s) →
  Forall (desc_ok B sizes (Mem s)) (x :: l2) →
  (∀ fs' s', pool_inv B k start sizes (l1 ++ [x]) fs' s' → Forall (desc_ok B sizes (Mem s')) l2 →
     unmoved B (off x) s s' → Q None s') →
  wp (rebuild_step B) Q s.
Proof.
  intros Hi Hl Hmax Hds HQ. pose proof (pi_pos _ _ _ _ _ _ _ Hi) as Hpos. destruct (pi_nb _ _ _ _ _ _ _ Hi) as [Enb Hnb].
  destruct (pi_mask _ _ _ _ _ _ _ Hi) as [_ Hk]. pose proof (layout_split _ _ _ _ _ _ _ Hl (pi_layout _ _ _ _ _ _ _ Hi)) as Hx.
  cbn in Hx. destruct Hx as (Eo & n & Hn & Hl2). pose proof (layout_tail _ _ (proj1 Hk) Hpos _ _ _ Hl2) as Ht2. destruct (sz_pos _ Hpos x n Hn) as [_ Hn0].
  apply Forall_cons in Hds as [Hd Hds]. pose proof (next_ok _ _ _ _ _ _ _ Hi) as Hnx. pose proof (pi_range _ _ _ _ _ _ _ Hi) as Hr.
  destruct (lookup_lt_is_Some_2 (Buckets (Rec s)) (bkt x)) as [b Hb]; [rewrite (pi_len _ _ _ _ _ _ _ Hi); apply lookup_lt_Some in Hn; lia|].
  destruct (lookup_lt_is_Some_2 fs (bkt x)) as [fl Hfl]; [rewrite (pi_fs _ _ _ _ _ _ _ Hi); by eapply lookup_lt_Some|].
  unfold rebuild_step. wp_step. wp_step. rewrite (next_block_up _ _ _ _ _ _ _ Hi), <- Eo.
  destruct (Z.ltb_spec (PoolMaxOffset (Rec s)) (off x)); [lia|]. wp_step. apply wp_Retrieve; [lia|lia|]. wp_go. unfold rd_bd. wp_step.
  fold (desc B (Mem s) x). rewrite (do_check _ _ _ _ Hd), Z.eqb_refl, (tag_bucket _ _ _ _ _ Hd Enb Hnb Hn). wp_step. eapply wp_rd_bucket; [done|].
  rewrite (bo_size _ _ _ _ _ _ _ (pi_bkt _ _ _ _ _ _ _ Hi _ _ _ _ Hn Hb Hfl)). destruct (sz_pos _ Hpos x n Hn) as [Ez _].
  pose proof (do_size _ _ _ _ Hd) as Hsz. destruct (Z.ltb_spec n (ActualSize (desc B (Mem s) x))); [lia|].
  pose proof (Forall_lookup_1 _ _ _ _ (pi_sizes _ _ _ _ _ _ _ Hi) Hn) as Hn'. cbn in Hn'.
  rewrite (u64_small (off x + n)) by (unfold is_u64; lia). unfold rec_upd. wp_steps. eapply wp_wr_bucket; [done|]. wp_steps.
  pose proof (inv_found _ _ _ _ _ _ _ _ _ _ Hi Eo Hn ltac:(lia) Hd Hb Hfl) as Hi'. cbv zeta in Hi'. pose proof (pi_cnt _ _ _ _ _ _ _ Hi) as Ec.
  assert (u32 (PoolAllocationCount (Rec s) + 1) = u32 (Z.of_nat (length l1) + 1)) as Ec' by (rewrite Ec; unfold u32; by rewrite Zplus_mod_idemp_l).
  destruct (st x) as [c|] eqn:Est.
  - wp_step. eapply HQ; [|done|split; done].
    match type of Hi' with pool_inv _ _ _ _ _ _ ?s1 => match goal with |- pool_inv _ _ _ _ _ _ ?s2 => replace s2 with s1; [done|] end end.
    destruct s as [[] mm]. cbn in *. by rewrite Ec'.
  - wp_step. eapply wp_wr_bucket; [cbn; apply list_lookup_insert_eq; by eapply lookup_lt_Some|]. wp_step.
    eapply wp_rd_bucket; [cbn; apply list_lookup_insert_eq; rewrite length_insert; by eapply lookup_lt_Some|]. unfold wr_NextOffset. wp_steps.
    eapply wp_wr_bucket; [cbn; apply list_lookup_insert_eq; rewrite length_insert; by eapply lookup_lt_Some|].
    unfold CFE_ES_MemPoolDirectCommit. wp_go.
    assert (same_but (B + off x - 24) (Mem s) (store 8 (B + off x - 24 + 16) (FirstOffset b) (Mem s))) as Hs.
    { apply same_but_store; [apply same_but_refl|lia..]. }
    match type of Hi' with pool_inv _ _ _ _ _ _ ?s1 => match goal with |- Q _ ?s2 => replace s2 with s1 end end.
    2: { destruct s as [[] mm]. cbn in *. rewrite !list_insert_insert_eq. cbn. by rewrite Ec'. }
    eapply HQ; [exact Hi'| |split; done].
    eapply Forall_forall. intros y Hy. eapply desc_ok_frame; [|by eapply Forall_forall in Hy; [|exact Hds]].
    eapply desc_mid; [|exact Hpos|exact Hl|apply elem_of_app; right; exact Hy|done]. lia.
Qed.

(** The scan stops where there is no descriptor. *)
Lemma wp_rebuild_stop k start sizes l fs s (Q : option Z → PoolState → Prop) : pool_inv B k start sizes l fs s →
  let o := up k (TailPosition (Rec s) + 24) in
  PoolMaxOffset (Rec s) < o ∨ CheckBits (bd_at (Mem s) (B + o - 24)) ≠ CFE_ES_CHECK_PATTERN →
  Q (Some CFE_SUCCESS) s → wp (rebuild_step B) Q s.
Proof.
  intros Hi o Hstop HQ. unfold rebuild_step. wp_step. wp_step. rewrite (next_block_up _ _ _ _ _ _ _ Hi). fold o.
  pose proof (next_ok _ _ _ _ _ _ _ Hi) as Ho. fold o in Ho. pose proof (pi_range _ _ _ _ _ _ _ Hi) as Hr.
  destruct (Z.ltb_spec (PoolMaxOffset (Rec s)) o); [by wp_step|]. destruct Hstop as [|Hc]; [lia|].
  wp_step. apply wp_Retrieve; [lia|lia|]. wp_go. unfold rd_bd. wp_step.
  destruct (Z.eqb_spec (CheckBits (bd_at (Mem s) (B + o - 24))) CFE_ES_CHECK_PATTERN); [done|]. by wp_step.
Qed.

(** Memories that differ only in the descriptors of the given blocks. *)
Definition outside_descs (l : list blk) (m m' : bytes) : Prop :=
  ∀ a, (∀ x, x ∈ l → a < B + off x - 24 ∨ B + off x <= a) → byte_at m' a = byte_at m a.

Lemma wp_rebuild_loop k start sizes l1 l2 tail fs fuel s (Q : Z → PoolState → Prop) :
  pool_inv B k start sizes l1 fs s → layout k start sizes (l1 ++ l2) tail → tail <= PoolMaxOffset (Rec s) →
  Forall (desc_ok B sizes (Mem s)) l2 → (length l2 ≤ fuel)%nat →
  PoolMaxOffset (Rec s) < up k (tail + 24) ∨ CheckBits (bd_at (Mem s) (B + up k (tail + 24) - 24)) ≠ CFE_ES_CHECK_PATTERN →
  (∀ fs' s', pool_inv B k start sizes (l1 ++ l2) fs' s' → TailPosition (Rec s') = tail → PoolMaxOffset (Rec s') = PoolMaxOffset (Rec s) → PoolTotalSize (Rec s') = PoolTotalSize (Rec s) →
     outside_descs l2 (Mem s) (Mem s') → Q CFE_SUCCESS s') →
  wp (rebuild_loop B fuel) Q s.
Proof.
  revert l1 fs fuel s. induction l2 as [|x l2 IH]; intros l1 fs fuel s Hi Hl Hmax Hd Hf Hstop HQ.
  - rewrite app_nil_r in *. pose proof (layout_split k start sizes l1 [] (TailPosition (Rec s)) tail) as Ht. rewrite app_nil_r in Ht.
    specialize (Ht Hl (pi_layout _ _ _ _ _ _ _ Hi)). cbn in Ht.
    destruct fuel; cbn [rebuild_loop]; wp_step; (eapply wp_rebuild_stop; [exact Hi|by rewrite <- Ht|]); wp_step; by eapply HQ.
  - destruct fuel as [|fuel]; [cbn in Hf; lia|]. cbn [rebuild_loop]. wp_step. eapply wp_rebuild_block; [done..|].
    intros fs' s' Hi' Hd' [U1 U2 U3].
    assert (∀ s'', outside_descs l2 (Mem s') (Mem s'') → outside_descs (x :: l2) (Mem s) (Mem s'')) as Hout.
    { intros s'' H a Ha. rewrite H by (intros y Hy; apply Ha, elem_of_cons; by right).
      symmetry. destruct (Ha x) as [|]; [apply elem_of_cons; by left|..]; apply (U3 a (a + 1)); lia. } replace (l1 ++ x :: l2) with ((l1 ++ [x]) ++ l2) in * by (by rewrite <- app_assoc).
    eapply IH; [exact Hi'|done|by rewrite U1|done|cbn in Hf; lia| |intros fs2 s2 Hi2 Ht2 Hm2 Hm3 Ho2; eapply HQ; eauto; congruence].
    rewrite U1. destruct Hstop as [|Hc]; [by left|right]. intros E. apply Hc. rewrite <- E. f_equal. apply bd_at_agree, U3.
    pose proof (pi_pos _ _ _ _ _ _ _ Hi) as Hpos. destruct (pi_mask _ _ _ _ _ _ _ Hi) as [_ Hk].
    destruct (layout_bound _ _ (proj1 Hk) Hpos _ _ _ x Hl) as (_ & H2 & _ & n & Hn).
    { rewrite <- app_assoc. apply elem_of_app. right. apply elem_of_cons. by left. }
    destruct (sz_pos _ Hpos x n Hn). destruct (up_spec k (tail + 24)) as [Hu _]; [lia|]. lia.
Qed.
End rebuild.
