(* ===== verification/EsMemPool.v ===== *)
(** * The memory pool service (cfe_es_mempool.c)

    The table of pools and the functions applications call with a pool's handle.  The
    memory is that of the whole system; a pool's region in it starts at its base
    address.  The pool mutex and the shared data mutex only keep other tasks out
    during a call, and are not part of the state. *)
From S2P Require Import Prelude Bytes Config ResourceId EsPool.

Definition CFE_ES_MEMHANDLE_UNDEFINED : Z := CFE_RESOURCEID_UNDEFINED.
Definition OS_OBJECT_ID_UNDEFINED : Z := 0.
Definition CFE_PSP_SUCCESS : Z := 0.

(** ALIGN_OF(CFE_ES_PoolAlign_t) with 16 byte [long double]. *)
Definition ALIGN_OF_PoolAlign : Z := 16.

Record CFE_ES_MemPoolRecord_t := mkMemPool {
  mp_Pool : CFE_ES_GenPoolRecord_t;
  mp_PoolID : Z;
  mp_BaseAddr : Z;
  mp_OwnerAppID : Z;
  mp_MutexId : Z;
}.

Record ES_Pools := mkPools {
  MemPoolTable : list CFE_ES_MemPoolRecord_t;
  LastMemPoolId : Z;
  Memory : bytes;
}.

#[export] Instance MemPoolRecord_eta : Eta CFE_ES_MemPoolRecord_t := mkEta (λ r,
  mkMemPool (mp_Pool r) (mp_PoolID r) (mp_BaseAddr r) (mp_OwnerAppID r) (mp_MutexId r)).
#[export] Instance ES_Pools_eta : Eta ES_Pools := mkEta (λ r, mkPools (MemPoolTable r) (LastMemPoolId r) (Memory r)).

Definition zero_pool : CFE_ES_GenPoolRecord_t :=
  mkGenPool 0 0 0 0 0 0 0 (replicate (Z.to_nat CFE_PLATFORM_ES_POOL_MAX_BUCKETS) zero_bucket).

Definition CFE_ES_MemPoolDefSize : list Z :=
  [80000; 32768; 16384; 8192; 4096; 2048; 1024; 512; 256; 160; 128; 96; 64; 48; 32; 16; 8].

(** ** Handles *)

Definition CFE_ES_MemPoolID_ToIndex (PoolID : Z) (Idx : ptr Z) : Z * ptr Z :=
  CFE_ResourceId_ToIndex PoolID CFE_ES_POOLID_BASE CFE_PLATFORM_ES_MAX_MEMORY_POOLS Idx.

(** The record pointer is its index in the table. *)
Definition CFE_ES_LocateMemPoolRecordByID (PoolID : Z) : ptr Z :=
  let '(Status, Idx) := CFE_ES_MemPoolID_ToIndex PoolID (Some 0) in
  if Status =? CFE_SUCCESS then Idx else None.

(** The slot test of CFE_ResourceId_FindNext; an identifier that has no record would be
    followed to NULL. *)
Definition CFE_ES_CheckMemPoolSlotUsed (tbl : list CFE_ES_MemPoolRecord_t) (CheckId : Z) : option bool :=
  i ← CFE_ES_LocateMemPoolRecordByID CheckId;
  r ← tbl !! Z.to_nat i;
  Some (negb (mp_PoolID r =? CFE_RESOURCEID_UNDEFINED)).

Definition rd_rec (i : Z) : M ES_Pools CFE_ES_MemPoolRecord_t := tbl ← gets MemPoolTable; tbl_get tbl i.
Definition wr_rec (i : Z) (f : CFE_ES_MemPoolRecord_t → CFE_ES_MemPoolRecord_t) : M ES_Pools unit :=
  tbl ← gets MemPoolTable;
  tbl ← of_option (tbl_upd f i tbl);
  modify (λ s, s <| MemPoolTable := tbl |>).

Definition CFE_ES_MemPoolRecordIsMatch (PoolRecPtr : ptr Z) (PoolID : Z) : M ES_Pools bool :=
  match PoolRecPtr with
  | None => mret false
  | Some i => r ← rd_rec i; mret (mp_PoolID r =? PoolID)
  end.

(** An operation of the generic pool on the pool of a record. *)
Definition on_pool {A} (i : Z) (c : Z → M PoolState A) : M ES_Pools A :=
  r ← rd_rec i;
  m ← gets Memory;
  '(a, p) ← of_option (c (mp_BaseAddr r) (mkPoolState (mp_Pool r) m));
  wr_rec i (λ r, r <| mp_Pool := Rec p |>);;
  modify (λ s, s <| Memory := Mem p |>);;
  mret a.

(** ** Creating and deleting pools *)

(** [AppId] is what CFE_ES_GetAppID reports, [MutSem] the status and identifier that
    OS_MutSemCreate gives. *)
Definition CFE_ES_PoolCreateEx (AppId : Z) (MutSem : Z * Z) (PoolID : ptr Z) (MemPtr : addr) (Size NumBlockSizes : Z)
    (BlockSizes : ptr (list Z)) (UseMutex : bool) : M ES_Pools (Z * ptr Z) :=
  match PoolID with
  | None => mret (CFE_ES_BAD_ARGUMENT, PoolID)
  | Some _ =>
    if MemPtr =? NULL then mret (CFE_ES_BAD_ARGUMENT, PoolID)
    else if CFE_PLATFORM_ES_POOL_MAX_BUCKETS <? NumBlockSizes then mret (CFE_ES_BAD_ARGUMENT, PoolID)
    else
      let '(BlockSizes, NumBlockSizes) :=
        match BlockSizes with
        | Some l => (l, NumBlockSizes)
        | None => (CFE_ES_MemPoolDefSize,
                   if (NumBlockSizes =? 0) || (CFE_PLATFORM_ES_POOL_MAX_BUCKETS <? NumBlockSizes)
                   then CFE_PLATFORM_ES_POOL_MAX_BUCKETS else NumBlockSizes)
        end in
      MinimumSize ← of_option (CFE_ES_GenPoolCalcMinSize NumBlockSizes BlockSizes 1);
      if Size <? MinimumSize then mret (CFE_ES_BAD_ARGUMENT, PoolID)
      else
        tbl ← gets MemPoolTable;
        last ← gets LastMemPoolId;
        PendingID ← of_option (CFE_ResourceId_FindNext last CFE_PLATFORM_ES_MAX_MEMORY_POOLS (CFE_ES_CheckMemPoolSlotUsed tbl));
        match CFE_ES_LocateMemPoolRecordByID PendingID with
        | None => mret (CFE_ES_NO_RESOURCE_IDS_AVAILABLE, PoolID)
        | Some i =>
            wr_rec i (λ _, mkMemPool zero_pool CFE_RESOURCEID_RESERVED 0 0 0);;
            modify (λ s, s <| LastMemPoolId := PendingID |>);;
            let Alignment := ALIGN_OF_PoolAlign in
            let Alignment := if Alignment <? CFE_PLATFORM_ES_MEMPOOL_ALIGN_SIZE_MIN
                             then CFE_PLATFORM_ES_MEMPOOL_ALIGN_SIZE_MIN else Alignment in
            '(Status, pool) ← of_option (CFE_ES_GenPoolInitialize 0 Size Alignment NumBlockSizes BlockSizes);
            wr_rec i (λ r, r <| mp_Pool := pool |>);;
            Status ← (if (Status =? CFE_SUCCESS) && UseMutex then
                        let '(st, id) := MutSem in
                        wr_rec i (λ r, r <| mp_MutexId := id |>);;
                        mret (if st =? OS_SUCCESS then st else CFE_STATUS_EXTERNAL_RESOURCE_FAIL)
                      else mret Status);
            if Status =? CFE_SUCCESS then
              wr_rec i (λ r, r <| mp_BaseAddr := MemPtr |>);;
              wr_rec i (λ r, r <| mp_OwnerAppID := AppId |>);;
              wr_rec i (λ r, r <| mp_PoolID := PendingID |>);;
              mret (Status, Some PendingID)
            else
              wr_rec i (λ r, r <| mp_PoolID := CFE_ES_MEMHANDLE_UNDEFINED |>);;
              mret (Status, Some CFE_RESOURCEID_UNDEFINED)
        end
  end.

Definition CFE_ES_PoolCreateNoSem (AppId : Z) (PoolID : ptr Z) (MemPtr : addr) (Size : Z) : M ES_Pools (Z * ptr Z) :=
  CFE_ES_PoolCreateEx AppId (OS_SUCCESS, 0) PoolID MemPtr Size CFE_PLATFORM_ES_POOL_MAX_BUCKETS (Some CFE_ES_MemPoolDefSize) false.

Definition CFE_ES_PoolCreate (AppId : Z) (MutSem : Z * Z) (PoolID : ptr Z) (MemPtr : addr) (Size : Z) : M ES_Pools (Z * ptr Z) :=
  CFE_ES_PoolCreateEx AppId MutSem PoolID MemPtr Size CFE_PLATFORM_ES_POOL_MAX_BUCKETS (Some CFE_ES_MemPoolDefSize) true.

Definition CFE_ES_PoolDelete (PoolID : Z) : M ES_Pools Z :=
  let PoolRecPtr := CFE_ES_LocateMemPoolRecordByID PoolID in
  m ← CFE_ES_MemPoolRecordIsMatch PoolRecPtr PoolID;
  match PoolRecPtr, m with
  | Some i, true => wr_rec i (λ r, r <| mp_PoolID := CFE_ES_MEMHANDLE_UNDEFINED |>);; mret CFE_SUCCESS
  | _, _ => mret CFE_ES_ERR_RESOURCEID_NOT_VALID
  end.

(** ** Buffers

    The status is the size of the buffer on success. *)

Definition CFE_ES_GetPoolBuf (BufPtr : ptr addr) (Handle Size : Z) : M ES_Pools (Z * ptr addr) :=
  match BufPtr with
  | None => mret (CFE_ES_BAD_ARGUMENT, BufPtr)
  | Some _ =>
      let PoolRecPtr := CFE_ES_LocateMemPoolRecordByID Handle in
      m ← CFE_ES_MemPoolRecordIsMatch PoolRecPtr Handle;
      match PoolRecPtr, m with
      | Some i, true =>
          '(Status, DataOffset) ← on_pool i (λ BaseAddr, CFE_ES_GenPoolGetBlock BaseAddr 0 Size);
          if negb (Status =? CFE_SUCCESS) then mret (Status, BufPtr)
          else
            r ← rd_rec i;
            mret (s32 Size, Some (u64 (mp_BaseAddr r + DataOffset)))
      | _, _ => mret (CFE_ES_ERR_RESOURCEID_NOT_VALID, BufPtr)
      end
  end.

Definition CFE_ES_GetPoolBufInfo (Handle : Z) (BufPtr : addr) : M ES_Pools Z :=
  if BufPtr =? NULL then mret CFE_ES_BAD_ARGUMENT else
  let PoolRecPtr := CFE_ES_LocateMemPoolRecordByID Handle in
  m ← CFE_ES_MemPoolRecordIsMatch PoolRecPtr Handle;
  match PoolRecPtr, m with
  | Some i, true =>
      '(Status, DataSize) ← on_pool i (λ BaseAddr, CFE_ES_GenPoolGetBlockSize BaseAddr 0 (u64 (BufPtr - BaseAddr)));
      mret (if Status =? CFE_SUCCESS then s32 DataSize else Status)
  | _, _ => mret CFE_ES_ERR_RESOURCEID_NOT_VALID
  end.

Definition CFE_ES_PutPoolBuf (Handle : Z) (BufPtr : addr) : M ES_Pools Z :=
  if BufPtr =? NULL then mret CFE_ES_BAD_ARGUMENT else
  let PoolRecPtr := CFE_ES_LocateMemPoolRecordByID Handle in
  m ← CFE_ES_MemPoolRecordIsMatch PoolRecPtr Handle;
  match PoolRecPtr, m with
  | Some i, true =>
      '(Status, DataSize) ← on_pool i (λ BaseAddr, CFE_ES_GenPoolPutBlock BaseAddr 0 (u64 (BufPtr - BaseAddr)));
      mret (if Status =? CFE_SUCCESS then s32 DataSize else Status)
  | _, _ => mret CFE_ES_ERR_RESOURCEID_NOT_VALID
  end.

(** ** Reports *)

Record CFE_ES_MemPoolStats_t := mkStats {
  ps_PoolSize : Z;
  ps_NumBlocksRequested : Z;
  ps_CheckErrCtr : Z;
  ps_NumFreeBytes : Z;
  ps_BlockStats : list CFE_ES_BlockStats_t;
}.

(** The loop over the block statistics: one entry per bucket from the first, zeros
    after the last. *)
Fixpoint block_stats (r : CFE_ES_GenPoolRecord_t) (n : nat) (NumBuckets : Z) : option (list CFE_ES_BlockStats_t) :=
  match n with
  | O => Some []
  | S n =>
      b ← CFE_ES_GenPoolGetBucketUsage r NumBuckets (Some (mkBlockStats 0 0 0));
      b ← b;
      l ← block_stats r n (if 0 <? NumBuckets then NumBuckets - 1 else NumBuckets);
      Some (b :: l)
  end.

Definition CFE_ES_GetMemPoolStats (BufPtr : ptr CFE_ES_MemPoolStats_t) (Handle : Z) : M ES_Pools (Z * ptr CFE_ES_MemPoolStats_t) :=
  match BufPtr with
  | None => mret (CFE_ES_BAD_ARGUMENT, BufPtr)
  | Some _ =>
      let PoolRecPtr := CFE_ES_LocateMemPoolRecordByID Handle in
      m ← CFE_ES_MemPoolRecordIsMatch PoolRecPtr Handle;
      match PoolRecPtr, m with
      | Some i, true =>
          rec ← rd_rec i;
          let r := mp_Pool rec in
          let '(free, total) := CFE_ES_GenPoolGetUsage r (Some 0) (Some 0) in
          let '(nb, allocs, errs) := CFE_ES_GenPoolGetCounts r (Some 0) (Some 0) (Some 0) in
          l ← of_option (block_stats r (Z.to_nat CFE_MISSION_ES_POOL_MAX_BUCKETS) (default 0 nb));
          mret (CFE_SUCCESS, Some (mkStats (default 0 total) (default 0 allocs) (default 0 errs) (default 0 free) l))
      | _, _ => mret (CFE_ES_ERR_RESOURCEID_NOT_VALID, BufPtr)
      end
  end.

(** [psp] is CFE_PSP_MemValidateRange for memory of any type. *)
Definition CFE_ES_ValidateHandle (psp : Z → Z → Z) (Handle : Z) : M ES_Pools bool :=
  let PoolRecPtr := CFE_ES_LocateMemPoolRecordByID Handle in
  m ← CFE_ES_MemPoolRecordIsMatch PoolRecPtr Handle;
  match PoolRecPtr, m with
  | Some i, true =>
      r ← rd_rec i;
      if negb (CFE_ES_GenPoolValidateState (mp_Pool r)) then mret false
      else
        let TotalSize := default 0 (CFE_ES_GenPoolGetUsage (mp_Pool r) None (Some 0)).2 in
        mret (psp (mp_BaseAddr r) TotalSize =? CFE_PSP_SUCCESS)
  | _, _ => mret false
  end.
