(* ===== verification/EsPoolProps.v ===== *)
(** * What a memory pool guarantees

    A pool and its clients as a state machine: the clients get blocks, put back what
    they were given (and addresses outside of the pool), and write into the blocks they
    hold. *)
From Stdlib Require Import Sorted.
From S2P Require Import Prelude Bytes Config EsPool EsPoolInv EsPoolOps EsPoolInit EsMemPool.

Implicit Types (l : list blk) (s : PoolState).

(** ** The clients' view *)

(** The blocks clients hold, with the sizes they asked for, are the allocated ones; the
    offsets ever given out are those of the blocks there are, and a block is of the
    smallest bucket for its size. *)
Record view (sizes : list Z) l (live : gmap Z Z) (given : gset Z) : Prop := {
  vw_live o n : live !! o = Some n ↔ ∃ x, x ∈ l ∧ off x = o ∧ st x = Some n;
  vw_given o : o ∈ given ↔ ∃ x, x ∈ l ∧ off x = o;
  vw_fits x n : x ∈ l → st x = Some n → fits sizes 0 n = Some (bkt x);
}.

Lemma elem_mid_inv {A} (l1 l2 : list A) (x y : A) : y ∈ l1 ++ x :: l2 ↔ y = x ∨ y ∈ l1 ++ l2.
Proof. rewrite !elem_of_app, elem_of_cons. tauto. Qed.

Lemma view_set sizes l1 x v l2 live given : view sizes (l1 ++ x :: l2) live given → (∀ y, y ∈ l1 ++ l2 → off x ≠ off y) →
  (∀ n, v = Some n → fits sizes 0 n = Some (bkt x)) →
  view sizes (l1 ++ x <| st := v |> :: l2) (partial_alter (λ _, v) (off x) live) given.
Proof.
  intros [Hl Hg Hf] Hne Hv. split.
  - intros o n. destruct (decide (off x = o)) as [<-|Ho].
    + rewrite lookup_partial_alter_eq. split.
      * intros ->. exists (x <| st := Some n |>). by rewrite elem_mid_inv; split; [left|].
      * intros (y & [->|Hy]%elem_mid_inv & E & Est); [done|]. by destruct (Hne y Hy).
    + rewrite lookup_partial_alter_ne, Hl by done. split; intros (y & [->|Hy]%elem_mid_inv & E & Est); try done;
        (exists y; rewrite elem_mid_inv; auto).
  - intros o. rewrite Hg. split; intros (y & [->|Hy]%elem_mid_inv & E); eexists; rewrite elem_mid_inv; eauto.
  - intros y n [->|Hy]%elem_mid_inv Hst; [by apply Hv|]. apply Hf; [|done]. rewrite elem_mid_inv. by right.
Qed.

Lemma view_snoc sizes l x n live given : view sizes l live given → st x = Some n → (∀ y, y ∈ l → off x ≠ off y) →
  fits sizes 0 n = Some (bkt x) → view sizes (l ++ [x]) (<[off x := n]> live) ({[off x]} ∪ given).
Proof.
  intros [Hl Hg Hf] Hst Hne Hx. split.
  - intros o n'. destruct (decide (off x = o)) as [<-|Ho].
    + rewrite lookup_insert_eq. split.
      * intros [= ->]. exists x. by rewrite elem_mid_inv; auto.
      * intros (y & [->|Hy]%elem_mid_inv & E & Est); [congruence|]. rewrite app_nil_r in Hy. by destruct (Hne y Hy).
    + rewrite lookup_insert_ne, Hl by done. split; intros (y & Hy & E & Est).
      * exists y. rewrite elem_mid_inv, app_nil_r. auto.
      * apply elem_mid_inv in Hy as [->|Hy]; [done|]. rewrite app_nil_r in Hy. eauto.
  - intros o. rewrite elem_of_union, elem_of_singleton, Hg. split.
    + intros [->|(y & Hy & E)]; [exists x|exists y]; rewrite elem_mid_inv, ?app_nil_r; auto.
    + intros (y & [->|Hy]%elem_mid_inv & E); [by left|]. rewrite app_nil_r in Hy. eauto.
  - intros y n' [->|Hy]%elem_mid_inv Hst'; [congruence|]. rewrite app_nil_r in Hy. by apply Hf.
Qed.

Section machine.
Context (B : Z).

(** A client writes a byte of a block it holds. *)
Definition client_write (a v : Z) s : PoolState := s <| Mem ::= <[a := v]> |>.

(** No descriptor after the last block: nothing was left there when the pool was
    created. *)
Definition ends_here s : Prop :=
  let o := next_block (Rec s) in
  PoolMaxOffset (Rec s) < o ∨ CheckBits (bd_at (Mem s) (B + o - 24)) ≠ CFE_ES_CHECK_PATTERN.

Inductive pool_reach (r0 : CFE_ES_GenPoolRecord_t) : PoolState → gmap Z Z → gset Z → Prop :=
| reach_init m : pool_reach r0 (mkPoolState r0 m) ∅ ∅
| reach_get s live given size o s' : pool_reach r0 s live given → 0 <= size →
    CFE_ES_GenPoolGetBlock B 0 size s = Some ((CFE_SUCCESS, o), s') →
    pool_reach r0 s' (<[o := size]> live) ({[o]} ∪ given)
| reach_refused s live given size o status s' : pool_reach r0 s live given → 0 <= size →
    CFE_ES_GenPoolGetBlock B 0 size s = Some ((status, o), s') → status ≠ CFE_SUCCESS → pool_reach r0 s' live given
| reach_put s live given o status n s' : pool_reach r0 s live given →
    (o ∈ given ∨ o < 24 ∨ TailPosition (Rec s) <= o) →
    CFE_ES_GenPoolPutBlock B 0 o s = Some ((status, n), s') →
    pool_reach r0 s' (if status =? CFE_SUCCESS then delete o live else live) given
| reach_write s live given o n a v : pool_reach r0 s live given → live !! o = Some n → B + o <= a < B + o + n →
    pool_reach r0 (client_write a v s) live given
| reach_rebuild s live given status s' : pool_reach r0 s live given → ends_here s →
    CFE_ES_GenPoolRebuild B (mkPoolState r0 (Mem s)) = Some (status, s') → pool_reach r0 s' live given.

(** Writes outside of the descriptors do not matter. *)
Lemma inv_frame k start sizes l fs s m' : pool_inv B k start sizes l fs s → (∀ x, x ∈ l → desc B (Mem s) x = desc B m' x) →
  pool_inv B k start sizes l fs (s <| Mem := m' |>).
Proof.
  intros [M1 M2 M3 M4 M5 M6 M7 M8 M9 M10] Hm. split; try done.
  - eapply Forall_forall. intros x Hx. eapply desc_ok_frame; [by apply Hm|]. by eapply Forall_forall in Hx.
  - intros i n b fl Hn Hb Hfl. destruct (M9 i n b fl Hn Hb Hfl) as [E1 E2 E3 E4 E5 E6]. split; try done.
    eapply free_chain_frame; [|exact E2]. intros o Ho. rewrite E3 in Ho. apply free_in_elem in Ho as (y & Hy & <- & _). by apply Hm.
Qed.

Lemma inv_error k start sizes l fs s f : pool_inv B k start sizes l fs s →
  pool_inv B k start sizes l fs (s <| Rec ::= λ r, r <| ValidationErrorCount ::= f |> |>).
Proof. by intros [M1 M2 M3 M4 M5 M6 M7 M8 M9 M10]. Qed.

Lemma write_desc k start sizes l fs s x y a v : pool_inv B k start sizes l fs s → x ∈ l → y ∈ l →
  B + off x <= a < B + off x + sz sizes x → desc B (Mem s) y = desc B (<[a := v]> (Mem s)) y.
Proof.
  intros Hi Hx Hy Ha. apply bd_at_agree. intros j Hj. symmetry. apply byte_insert_ne. intros ->.
  pose proof (pi_pos _ _ _ _ _ _ _ Hi) as Hpos. destruct (pi_mask _ _ _ _ _ _ _ Hi) as [_ Hk]. pose proof (pi_layout _ _ _ _ _ _ _ Hi) as Hl.
  pose proof (below_next _ _ _ _ _ _ _ _ Hi Hy). destruct (decide (off x = off y)); [lia|].
  destruct (layout_apart _ _ (proj1 Hk) Hpos _ _ _ _ _ Hl Hx Hy); [done|lia..].
Qed.

Section reachable.
Context (k size : Z) (sizes : list Z).
Context (Hk : 0 <= k <= 31) (Hn : (0 < length sizes ≤ 17)%nat) (Hs : Forall (λ n, 0 < n < 2 ^ 31) sizes) (Hsize : 0 <= size < 2 ^ 32).
Abbreviation r0 := (fresh_rec 0 size (2 ^ k - 1) sizes).

(** The size of the pool stays. *)
Definition bounds s : Prop := PoolMaxOffset (Rec s) = size ∧ PoolTotalSize (Rec s) = size.

Lemma bounds_unmoved o s s' : unmoved B o s s' → bounds s → bounds s'.
Proof. intros [H1 H2 _] [? ?]. split; congruence. Qed.

(** The record is lost and made anew from the memory. *)
Lemma rebuild_inv l fs s : pool_inv B k 0 sizes l fs s → bounds s → ends_here s →
  wp (CFE_ES_GenPoolRebuild B) (λ status s', status = CFE_SUCCESS ∧ TailPosition (Rec s') = TailPosition (Rec s) ∧
    bounds s' ∧ outside_descs B l (Mem s) (Mem s') ∧ ∃ fs', pool_inv B k 0 sizes l fs' s') (mkPoolState r0 (Mem s)).
Proof using Hk Hn Hs Hsize.
  intros Hi [Em Em2] Hend. unfold CFE_ES_GenPoolRebuild. wp_step. wp_step. pose proof (pi_pos _ _ _ _ _ _ _ Hi) as Hpos.
  pose proof (pi_layout _ _ _ _ _ _ _ Hi) as Hl. pose proof (layout_tail _ _ (proj1 Hk) Hpos _ _ _ Hl) as Ht. pose proof (pi_range _ _ _ _ _ _ _ Hi).
  eapply (wp_rebuild_loop B k 0 sizes [] l (TailPosition (Rec s))); cbn [Rec Mem app PoolMaxOffset fresh_rec].
  - apply fresh_inv; (done || lia).
  - done.
  - lia.
  - exact (pi_desc _ _ _ _ _ _ _ Hi).
  - lia.
  - unfold ends_here in Hend. rewrite (next_block_up _ _ _ _ _ _ _ Hi), Em in Hend. by rewrite Z.add_0_r.
  - rewrite Z.add_0_r. intros fs' s' Hi' Et Em' Em2' Ho. unfold bounds. split_and!; eauto.
Qed.

Lemma reach_inv s live given : pool_reach r0 s live given →
  ∃ l fs, pool_inv B k 0 sizes l fs s ∧ view sizes l live given ∧ bounds s.
Proof using Hk Hn Hs Hsize.
  induction 1 as [m|s live given req o s' Hr IH Hreq E|s live given req o status s' Hr IH Hreq E Hst|s live given o status n s' Hr IH Ho E|s live given o n a v Hr IH Ho Ha|s live given status s' Hr IH Hend E].
  - exists [], (replicate (length sizes) []). split; [apply fresh_inv; (done || lia)|]. split; [|unfold bounds; cbn; lia].
    split; [intros o n; rewrite lookup_empty|intros o; rewrite elem_of_empty|by intros x n Hx%elem_of_nil]; (split; [done|]); intros (x & Hx & _); by apply elem_of_nil in Hx.
  - destruct IH as (l & fs & Hi & Hv & Em). pose proof (wp_GetBlock B _ _ _ _ _ _ req 0 Hi Hreq) as Hw. unfold wp in Hw. rewrite E in Hw.
    inversion Hw as [| |i n fl l1 x l2 s1 Ef Hi1 Hfl El Ei Est Hi' Hu Ht|i n o1 s1 Ef Hi1 Hfl Eo Hfit Hi' Hu Ht]; subst.
    + eexists _, _. split; [exact Hi'|]. split; [|by eapply bounds_unmoved].
      assert (∀ y, y ∈ l1 ++ l2 → off x ≠ off y) as Hne.
      { intros y Hy. eapply mid_ne; [|exact (pi_pos _ _ _ _ _ _ _ Hi)|exact (pi_layout _ _ _ _ _ _ _ Hi)|done]. lia. }
      replace ({[off x]} ∪ given) with given; [apply view_set; [done..|congruence]|]. apply set_eq. intros o. rewrite elem_of_union, elem_of_singleton.
      split; [by right|]. intros [->|?]; [|done]. apply (vw_given _ _ _ _ Hv). exists x. by rewrite elem_mid_inv; auto.
    + eexists _, _. split; [exact Hi'|]. split; [|by eapply bounds_unmoved]. apply (view_snoc sizes l (mkBlk (up k (TailPosition (Rec s) + 24)) i (Some req)) req); [done|done| |done]. cbn. intros y Hy.
      pose proof (below_next _ _ _ _ _ _ _ _ Hi Hy). lia.
  - destruct IH as (l & fs & Hi & Hv & Em). pose proof (wp_GetBlock B _ _ _ _ _ _ req 0 Hi Hreq) as Hw. unfold wp in Hw. rewrite E in Hw.
    inversion Hw; subst; try done; eauto.
  - destruct IH as (l & fs & Hi & Hv & Em).
    assert (o < 24 ∨ TailPosition (Rec s) <= o ∨ ∃ x, x ∈ l ∧ off x = o) as Ho' by (destruct Ho as [Ho|Ho]; [apply (vw_given _ _ _ _ Hv) in Ho; auto|tauto]).
    pose proof (wp_PutBlock B _ _ _ _ _ _ 0 o Hi Ho') as Hw. unfold wp in Hw. rewrite E in Hw.
    inversion Hw as [Hout|x Hx Eo Est|l1 x l2 n' fl s1 El Eo Est Hn0 Hfl Hi' Hu Ht]; subst.
    + eauto.
    + eexists _, _. split; [by apply inv_error|]. by split.
    + eexists _, _. split; [exact Hi'|]. split; [|by eapply bounds_unmoved]. cbn. apply view_set; [done| |done]. intros y Hy.
      eapply mid_ne; [|exact (pi_pos _ _ _ _ _ _ _ Hi)|exact (pi_layout _ _ _ _ _ _ _ Hi)|done]. lia.
  - destruct IH as (l & fs & Hi & Hv & Em). exists l, fs. split; [|done]. apply (vw_live _ _ _ _ Hv) in Ho as (x & Hx & <- & Est).
    apply inv_frame; [done|]. intros y Hy. eapply write_desc; [done|exact Hx|done|].
    pose proof (pi_desc _ _ _ _ _ _ _ Hi) as Hd. eapply Forall_forall in Hd; [|exact Hx]. pose proof (do_live _ _ _ _ Hd _ Est). pose proof (do_size _ _ _ _ Hd). lia.
  - destruct IH as (l & fs & Hi & Hv & Em). pose proof (rebuild_inv l fs s Hi Em Hend) as Hw. unfold wp in Hw. rewrite E in Hw.
    destruct Hw as (_ & _ & Em' & _ & fs' & Hi'). eauto.
Qed.

(** A client's blocks are as it wrote them. *)
Definition blocks_kept (live : gmap Z Z) (except : Z) s s' : Prop :=
  ∀ o n a, live !! o = Some n → o ≠ except → B + o <= a < B + o + n → byte_at (Mem s') a = byte_at (Mem s) a.

Lemma kept_unmoved l fs live given o x s s' : pool_inv B k 0 sizes l fs s → view sizes l live given →
  unmoved B o s s' → x ∈ l → off x = o → blocks_kept live o s s'.
Proof.
  intros Hi Hv Hu Hx <- o' n a Ho' Hne Ha. apply (vw_live _ _ _ _ Hv) in Ho' as (y & Hy & <- & Est).
  pose proof (pi_desc _ _ _ _ _ _ _ Hi) as Hd. eapply Forall_forall in Hd; [|exact Hy].
  pose proof (do_live _ _ _ _ Hd _ Est). pose proof (do_size _ _ _ _ Hd).
  destruct (pi_mask _ _ _ _ _ _ _ Hi) as [_ Hk']. pose proof (pi_pos _ _ _ _ _ _ _ Hi) as Hpos.
  pose proof (below_next _ _ _ _ _ _ _ _ Hi Hx). symmetry. apply (um_mem _ _ _ _ Hu a (a + 1)); [|lia].
  destruct (layout_apart _ _ (proj1 Hk') Hpos _ _ _ _ _ (pi_layout _ _ _ _ _ _ _ Hi) Hy Hx); [done|lia..].
Qed.

Lemma live_block s live given o n : pool_reach r0 s live given → live !! o = Some n →
  24 <= o ∧ o mod 2 ^ k = 0 ∧ 0 <= n < 2 ^ 31 ∧ o + n <= size.
Proof using Hk Hn Hs Hsize.
  intros Hr Ho. destruct (reach_inv _ _ _ Hr) as (l & fs & Hi & Hv & Em & _). pose proof (pi_range _ _ _ _ _ _ _ Hi) as Hrg.
  destruct (proj1 (vw_live _ _ _ _ Hv _ _) Ho) as (x & Hx & <- & Est). pose proof (pi_desc _ _ _ _ _ _ _ Hi) as Hd. eapply Forall_forall in Hd; [|exact Hx].
  pose proof (do_live _ _ _ _ Hd _ Est). pose proof (do_size _ _ _ _ Hd). pose proof (pi_pos _ _ _ _ _ _ _ Hi) as Hpos.
  destruct (layout_bound _ _ (proj1 Hk) Hpos _ _ _ _ (pi_layout _ _ _ _ _ _ _ Hi) Hx) as (H1 & H2 & H3 & z & Hz).
  destruct (sz_pos _ Hpos _ _ Hz) as [Ez _]. pose proof (Forall_lookup_1 _ _ _ _ Hs Hz) as Hz'. cbn in Hz'. split_and!; (done || lia).
Qed.

Lemma live_given s live given o n : pool_reach r0 s live given → live !! o = Some n → o ∈ given.
Proof using Hk Hn Hs Hsize.
  intros Hr Ho. destruct (reach_inv _ _ _ Hr) as (l & fs & Hi & Hv & _). destruct (proj1 (vw_live _ _ _ _ Hv _ _) Ho) as (x & Hx & Eo & _).
  apply (vw_given _ _ _ _ Hv). eauto.
Qed.

Lemma live_apart s live given o1 n1 o2 n2 : pool_reach r0 s live given → live !! o1 = Some n1 → live !! o2 = Some n2 → o1 ≠ o2 →
  o1 + n1 <= o2 - 24 ∨ o2 + n2 <= o1 - 24.
Proof using Hk Hn Hs Hsize.
  intros Hr H1 H2 Hne. destruct (reach_inv _ _ _ Hr) as (l & fs & Hi & Hv & _).
  assert (∀ o n, live !! o = Some n → ∃ x, x ∈ l ∧ off x = o ∧ n <= sz sizes x) as Hlive.
  { intros o n (x & Hx & Eo & Est)%(vw_live _ _ _ _ Hv). exists x. split_and!; [done|done|].
    pose proof (pi_desc _ _ _ _ _ _ _ Hi) as Hd. eapply Forall_forall in Hd; [|exact Hx].
    pose proof (do_live _ _ _ _ Hd _ Est). pose proof (do_size _ _ _ _ Hd). lia. }
  destruct (Hlive _ _ H1) as (x & Hx & <- & Hx'), (Hlive _ _ H2) as (y & Hy & <- & Hy').
  destruct (layout_apart _ _ (proj1 Hk) (pi_pos _ _ _ _ _ _ _ Hi) _ _ _ _ _ (pi_layout _ _ _ _ _ _ _ Hi) Hx Hy Hne); lia.
Qed.


(** What a request does: it gives a block that is not held, or refuses. *)
Inductive get_result (live : gmap Z Z) req s : Z * Z → PoolState → Prop :=
| got o s' : live !! o = None → blocks_kept live o s s' → get_result live req s (CFE_SUCCESS, o) s'
| too_large o : Forall (λ z, z < req) sizes → get_result live req s (CFE_ES_ERR_MEM_BLOCK_SIZE, o) s
| pool_full o i n : fits sizes 0 req = Some i → sizes !! i = Some n → FirstOffset <$> Buckets (Rec s) !! i = Some 0 →
    size < up k (TailPosition (Rec s) + 24) + n → get_result live req s (CFE_ES_ERR_MEM_BLOCK_SIZE, o) s.

Lemma wp_get_reach s live given req : pool_reach r0 s live given → 0 <= req →
  wp (CFE_ES_GenPoolGetBlock B 0 req) (get_result live req s) s.
Proof using Hk Hn Hs Hsize.
  intros Hr Hreq. destruct (reach_inv _ _ _ Hr) as (l & fs & Hi & Hv & Em & Em2). eapply wp_mono; [exact (wp_GetBlock B _ _ _ _ _ _ req 0 Hi Hreq)|].
  intros [status o] s' Hp.
  inversion Hp as [Hbig|i n Ef Hi1 Hfl Hfull|i n fl l1 x l2 s1 Ef Hi1 Hfl El Ei Est Hi' Hu Ht|i n o1 s1 Ef Hi1 Hfl Eo Hfit Hi' Hu Ht]; subst.
  - by apply too_large.
  - apply (pool_full _ _ _ _ i n); [done|done| |lia].
    destruct (lookup_lt_is_Some_2 (Buckets (Rec s')) i) as [b Hb]; [rewrite (pi_len _ _ _ _ _ _ _ Hi); apply lookup_lt_Some in Hi1; lia|].
    rewrite Hb. cbn. f_equal. apply (bo_chain _ _ _ _ _ _ _ (pi_bkt _ _ _ _ _ _ _ Hi _ _ _ _ Hi1 Hb Hfl)).
  - assert (x ∈ l1 ++ x :: l2) as Hx by (rewrite elem_mid_inv; by left). apply got; [|by eapply kept_unmoved].
    apply eq_None_not_Some. intros [n' (y & Hy & E' & Est')%(vw_live _ _ _ _ Hv)].
    apply elem_mid_inv in Hy as [->|Hy]; [congruence|]. symmetry in E'. revert E'.
    eapply mid_ne; [|exact (pi_pos _ _ _ _ _ _ _ Hi)|exact (pi_layout _ _ _ _ _ _ _ Hi)|done]. lia.
  - assert (∀ y, y ∈ l → off y + sz sizes y <= up k (TailPosition (Rec s) + 24) - 24 ∧ 0 < sz sizes y) as Hb by (intros y Hy; apply (below_next _ _ _ _ _ _ _ _ Hi Hy)).
    apply got.
    + apply eq_None_not_Some. intros [n' (y & Hy & E' & _)%(vw_live _ _ _ _ Hv)]. specialize (Hb y Hy). lia.
    + intros o n' a Ho Hne Ha. apply (vw_live _ _ _ _ Hv) in Ho as (y & Hy & <- & Est'). specialize (Hb y Hy).
      pose proof (pi_desc _ _ _ _ _ _ _ Hi) as Hd. eapply Forall_forall in Hd; [|exact Hy].
      pose proof (do_live _ _ _ _ Hd _ Est'). pose proof (do_size _ _ _ _ Hd).
      symmetry. apply (um_mem _ _ _ _ Hu a (a + 1)); lia.
Qed.

(** [C21] CFE_ES_GenPoolGetBlock returns, without an access outside of the pool: it
    gives a block that no client holds, and leaves the contents of all blocks that are
    held; or it refuses, changing nothing, because no bucket is large enough, or because
    in the smallest that is no block is free and a new one does not fit into the pool. *)
Theorem pool_get_spec s live given req (Hr : pool_reach r0 s live given) (Hreq : 0 <= req) :
  ∃ res s', CFE_ES_GenPoolGetBlock B 0 req s = Some (res, s') ∧ get_result live req s res s'.
Proof using Hk Hn Hs Hsize. exact (wp_inv _ _ _ (wp_get_reach s live given req Hr Hreq)). Qed.

(** What putting a block back does, for a block of the given size, if it is held. *)
Definition put_result (live : gmap Z Z) (o : Z) s (res : Z * Z) s' : Prop :=
  match live !! o with
  | Some (Zpos m) => res = (CFE_SUCCESS, Zpos m) ∧ blocks_kept live o s s' ∧
      ∃ s'', CFE_ES_GenPoolGetBlock B 0 (Zpos m) s' = Some ((CFE_SUCCESS, o), s'')
  | _ => res.1 = CFE_ES_POOL_BLOCK_INVALID ∧ s' = s <| Rec ::= λ r, r <| ValidationErrorCount ::= λ n, u32 (n + 1) |> |>
  end.

Lemma wp_put_reach s live given o : pool_reach r0 s live given → o ∈ given →
  wp (CFE_ES_GenPoolPutBlock B 0 o) (put_result live o s) s.
Proof using Hk Hn Hs Hsize.
  intros Hr Ho. destruct (reach_inv _ _ _ Hr) as (l & fs & Hi & Hv & Em). destruct (proj1 (vw_given _ _ _ _ Hv _) Ho) as (x & Hx & <-).
  eapply wp_mono; [exact (wp_PutBlock B _ _ _ _ _ _ 0 (off x) Hi ltac:(eauto))|].
  intros [status n] s' Hp. unfold put_result. assert (live !! off x = st x) as ->.
  { destruct (st x) as [c|] eqn:Est; [apply (vw_live _ _ _ _ Hv); eauto|]. apply eq_None_not_Some. intros [c (y & Hy & E' & Est')%(vw_live _ _ _ _ Hv)].
    assert (y = x) as ->; [|congruence]. eapply NoDup_off; [|done..]. by eapply layout_NoDup; [|exact (pi_pos _ _ _ _ _ _ _ Hi)|exact (pi_layout _ _ _ _ _ _ _ Hi)]; lia. }
  inversion Hp as [Hout|y Hy Eo Est|l1 y l2 n' fl s1 El Eo Est Hn0 Hfl Hi' Hu Ht]; subst.
  - pose proof (below_next _ _ _ _ _ _ _ _ Hi Hx). destruct Hout; [lia|].
    destruct (layout_bound _ _ (proj1 Hk) (pi_pos _ _ _ _ _ _ _ Hi) _ _ _ _ (pi_layout _ _ _ _ _ _ _ Hi) Hx). lia.
  - assert (y = x) as ->; [|by destruct Est as [-> | ->]]. eapply NoDup_off; [|done..].
    by eapply layout_NoDup; [|exact (pi_pos _ _ _ _ _ _ _ Hi)|exact (pi_layout _ _ _ _ _ _ _ Hi)]; lia.
  - assert (y = x) as ->.
    { eapply (NoDup_off (l1 ++ y :: l2)); [|rewrite elem_mid_inv; by left|done|done]. by eapply layout_NoDup; [|exact (pi_pos _ _ _ _ _ _ _ Hi)|exact (pi_layout _ _ _ _ _ _ _ Hi)]; lia. }
    rewrite Est. pose proof (pi_desc _ _ _ _ _ _ _ Hi) as Hd. eapply Forall_forall in Hd; [|exact Hx].
    pose proof (do_live _ _ _ _ Hd _ Est). pose proof (do_size _ _ _ _ Hd). destruct n as [|m|m]; [lia| |lia].
    split_and!; [done|by eapply kept_unmoved|]. pose proof (wp_GetBlock B _ _ _ _ _ _ (Zpos m) 0 Hi' ltac:(lia)) as Hw.
    apply wp_inv in Hw as ([status o] & s'' & E' & Hp'). exists s''. rewrite E'. pose proof (vw_fits _ _ _ _ Hv x _ Hx Est) as Hf.
    assert (bkt x < length fs)%nat as Hlt by by eapply lookup_lt_Some.
    inversion Hp' as [Hbig|i n Ef Hi1 Hfl' Hfull|i n fl' l3 z l4 s2 Ef Hi1 Hfl' El Ei Estz _ _ _|i n o1 s2 Ef Hi1 Hfl' Eo2 _ _ _ _]; subst.
    + apply fits_Some in Hf as (_ & z & Hz & Hle & _). rewrite Forall_forall in Hbig. pose proof (Hbig z ltac:(by eapply list_elem_of_lookup_2)). cbn in *. lia.
    + rewrite Hf in Ef. injection Ef as <-. rewrite list_lookup_insert_eq in Hfl' by done. done.
    + rewrite Hf in Ef. injection Ef as Eb. rewrite <- Eb, list_lookup_insert_eq in Hfl' by done. injection Hfl' as <- _. done.
    + rewrite Hf in Ef. injection Ef as <-. rewrite list_lookup_insert_eq in Hfl' by done. done.
Qed.
(** [C22] CFE_ES_GenPoolPutBlock, for any block that was ever given out: one that is
    held is released, the other blocks keep their contents, and the next request of the
    same size gets it back; one that was released before, or was requested with zero
    bytes, is refused as invalid, counted as a validation error, and nothing else
    changes. *)
Theorem pool_put_spec s live given o (Hr : pool_reach r0 s live given) (Ho : o ∈ given) :
  ∃ res s', CFE_ES_GenPoolPutBlock B 0 o s = Some (res, s') ∧ put_result live o s res s'.
Proof using Hk Hn Hs Hsize. exact (wp_inv _ _ _ (wp_put_reach s live given o Hr Ho)). Qed.

Lemma same_usage l fs fs' s s' id b : pool_inv B k 0 sizes l fs s → pool_inv B k 0 sizes l fs' s' →
  CFE_ES_GenPoolGetBucketUsage (Rec s') id b = CFE_ES_GenPoolGetBucketUsage (Rec s) id b.
Proof.
  intros Hi Hi'. unfold CFE_ES_GenPoolGetBucketUsage, CFE_ES_GenPoolGetBucketState.
  destruct (pi_nb _ _ _ _ _ _ _ Hi) as [En Hnb], (pi_nb _ _ _ _ _ _ _ Hi') as [-> _]. rewrite En.
  pose proof (u16_range (Z.of_nat (length sizes) - id)) as Hu. set (j := u16 _) in *.
  destruct (Z.leb_spec (Z.of_nat (length sizes)) j); [done|]. unfold is_u16 in Hu.
  destruct (lookup_lt_is_Some_2 sizes (Z.to_nat j)) as [n Hn']; [lia|].
  destruct (lookup_lt_is_Some_2 (Buckets (Rec s)) (Z.to_nat j)) as [c Hc]; [rewrite (pi_len _ _ _ _ _ _ _ Hi); lia|].
  destruct (lookup_lt_is_Some_2 (Buckets (Rec s')) (Z.to_nat j)) as [c' Hc']; [rewrite (pi_len _ _ _ _ _ _ _ Hi'); lia|].
  destruct (lookup_lt_is_Some_2 fs (Z.to_nat j)) as [fl Hfl]; [rewrite (pi_fs _ _ _ _ _ _ _ Hi); lia|].
  destruct (lookup_lt_is_Some_2 fs' (Z.to_nat j)) as [fl' Hfl']; [rewrite (pi_fs _ _ _ _ _ _ _ Hi'); lia|].
  rewrite Hc, Hc'. cbn. destruct (pi_bkt _ _ _ _ _ _ _ Hi _ _ _ _ Hn' Hc Hfl) as [-> _ P1 -> _ ->].
  destruct (pi_bkt _ _ _ _ _ _ _ Hi' _ _ _ _ Hn' Hc' Hfl') as [-> _ P2 -> _ ->]. assert (length fl' = length fl) as -> by (by rewrite P1, P2). done.
Qed.

(** [C23] CFE_ES_GenPoolRebuild, on a record that CFE_ES_GenPoolInitialize just made and
    the memory of a pool in use, when the word behind the last block is not by chance the
    signature of a descriptor: it terminates within the fuel, and recovers the pool.
    Every block has the size or is free as before, the contents are kept, and the tail,
    the count of allocations and the usage of every bucket are those of the lost record.
    (The count of validation errors is not in the memory and is not recovered.) *)
Theorem pool_rebuild_spec s live given (Hr : pool_reach r0 s live given) (Hend : ends_here s) :
  ∃ s', CFE_ES_GenPoolRebuild B (mkPoolState r0 (Mem s)) = Some (CFE_SUCCESS, s') ∧
    (∀ o p, o ∈ given → ∃ res, CFE_ES_GenPoolGetBlockSize B p o s' = Some (res, s') ∧ CFE_ES_GenPoolGetBlockSize B p o s = Some (res, s)) ∧
    (∀ o n a, live !! o = Some n → B + o <= a < B + o + n → byte_at (Mem s') a = byte_at (Mem s) a) ∧
    TailPosition (Rec s') = TailPosition (Rec s) ∧ PoolAllocationCount (Rec s') = PoolAllocationCount (Rec s) ∧
    (∀ id b, CFE_ES_GenPoolGetBucketUsage (Rec s') id b = CFE_ES_GenPoolGetBucketUsage (Rec s) id b).
Proof using Hk Hn Hs Hsize.
  destruct (reach_inv _ _ _ Hr) as (l & fs & Hi & Hv & Em).
  destruct (wp_inv _ _ _ (rebuild_inv l fs s Hi Em Hend)) as (status & s' & E & -> & Ht & Em' & Ho & fs' & Hi').
  exists s'. split_and!; [done|..|done| |].
  - intros o p (x & Hx & <-)%(vw_given _ _ _ _ Hv).
    destruct (wp_inv _ _ _ (wp_GetBlockSize B k 0 sizes l fs s p x (λ res s1, res = _ ∧ s1 = s) Hi Hx ltac:(done))) as (? & ? & E1 & -> & ->).
    destruct (wp_inv _ _ _ (wp_GetBlockSize B k 0 sizes l fs' s' p x (λ res s1, res = _ ∧ s1 = s') Hi' Hx ltac:(done))) as (? & ? & E2 & -> & ->).
    eauto.
  - intros o n a (x & Hx & <- & Est)%(vw_live _ _ _ _ Hv) Ha. apply Ho. intros y Hy.
    pose proof (pi_desc _ _ _ _ _ _ _ Hi) as Hd. eapply Forall_forall in Hd; [|exact Hx].
    pose proof (do_live _ _ _ _ Hd _ Est). pose proof (do_size _ _ _ _ Hd).
    destruct (decide (off y = off x)) as [->|Hne]; [lia|]. pose proof (below_next _ _ _ _ _ _ _ _ Hi Hy).
    destruct (layout_apart _ _ (proj1 Hk) (pi_pos _ _ _ _ _ _ _ Hi) _ _ _ _ _ (pi_layout _ _ _ _ _ _ _ Hi) Hx Hy); [done|lia..].
  - by rewrite (pi_cnt _ _ _ _ _ _ _ Hi), (pi_cnt _ _ _ _ _ _ _ Hi').
  - intros id b. by eapply same_usage.
Qed.
(** CFE_ES_GenPoolValidateState, which decides whether a handle may be used in a
    command: it accepts a pool in use when its table of buckets is not full.  A pool of
    the default block sizes, as that of the software bus, has all 17 buckets and is
    refused. *)
Theorem pool_validate_spec s live given (Hr : pool_reach r0 s live given) :
  CFE_ES_GenPoolValidateState (Rec s) = (0 <? size) && (Z.of_nat (length sizes) <? 17).
Proof using Hk Hn Hs Hsize.
  destruct (reach_inv _ _ _ Hr) as (l & fs & Hi & _ & _ & Et). unfold CFE_ES_GenPoolValidateState, CFE_PLATFORM_ES_POOL_MAX_BUCKETS.
  destruct (pi_nb _ _ _ _ _ _ _ Hi) as [-> Hnb]. destruct (pi_range _ _ _ _ _ _ _ Hi) as [_ [Hle%Z.leb_le _]]. rewrite Et, Hle, andb_true_r.
  rewrite (proj2 (Z.ltb_lt 0 (Z.of_nat (length sizes)))) by lia. by rewrite andb_true_r.
Qed.
End reachable.

(** CFE_ES_GenPoolInitialize, for block sizes that are not zero: it terminates
    (the bubble sort that swaps by exclusive or within [n * n] passes), the buckets are
    the block sizes in ascending order, and the alignment mask is that of the next power
    of two. *)
Theorem pool_init_spec size align list (Hlen : (0 < length list ≤ 17)%nat) (Hpos : Forall (λ n, 0 < n) list)
    (Hal : 1 < align <= 2 ^ 32) (Hsize : 0 <= size < 2 ^ 32) :
  ∃ sizes, sizes ≡ₚ list ∧ Sorted Z.le sizes ∧
    CFE_ES_GenPoolInitialize 0 size align (Z.of_nat (length list)) list =
      Some (CFE_SUCCESS, fresh_rec 0 size (2 ^ Z.log2_up align - 1) sizes).
Proof.
  destruct (Initialize_spec 0 size align (Z.of_nat (length list)) list) as (sizes & E & Hp & Hs); try done; try lia.
  exists sizes. rewrite E, align_mask_spec by done. done.
Qed.
End machine.

(** ** A small pool *)

Module PoolExamples.

(** Blocks of 8 and 64 bytes in 512 bytes at 0x1000. *)
Definition base : Z := 0x1000.
Definition rec0 : CFE_ES_GenPoolRecord_t := fresh_rec 0 512 (2 ^ 4 - 1) [8; 64].

Definition after {A} (c : M PoolState A) s : PoolState := match c s with Some (_, s') => s' | None => s end.

Definition pool0 : PoolState := mkPoolState rec0 ∅.
Definition pool1 : PoolState := after (CFE_ES_GenPoolGetBlock base 0 5) pool0.
Definition pool2 : PoolState := after (CFE_ES_GenPoolGetBlock base 0 60) pool1.
Definition pool3 : PoolState := after (CFE_ES_GenPoolPutBlock base 0 32) pool2.

Lemma sizes_ok : (0 < length [8; 64] ≤ 17)%nat ∧ Forall (λ n, 0 < n < 2 ^ 31) [8; 64].
Proof. split; [cbn; lia|]. repeat constructor. Qed.

Lemma reach2 : pool_reach base rec0 pool2 {[64 := 60; 32 := 5]} {[64; 32]}.
Proof.
  replace ({[64; 32]} : gset Z) with ({[64]} ∪ ({[32]} ∪ ∅) : gset Z) by (by vm_compute).
  eapply (reach_get base rec0 pool1 (<[32 := 5]> ∅)); [|done|by vm_compute].
  eapply (reach_get base rec0 pool0 ∅); [apply reach_init|done|by vm_compute].
Qed.

Lemma reach3 : pool_reach base rec0 pool3 {[64 := 60]} {[64; 32]}.
Proof.
  replace ({[64 := 60]} : gmap Z Z) with (if CFE_SUCCESS =? CFE_SUCCESS then delete 32 {[64 := 60; 32 := 5]} else {[64 := 60; 32 := 5]} : gmap Z Z)
    by (by vm_compute).
  eapply (reach_put base rec0 pool2); [apply reach2|left; set_solver|by vm_compute].
Qed.


(** The first free block is given again. *)
Lemma pool_get_spec_witness : ∃ res s', CFE_ES_GenPoolGetBlock base 0 7 pool3 = Some (res, s') ∧
  res = (CFE_SUCCESS, 32) ∧ blocks_kept base {[64 := 60]} 32 pool3 s'.
Proof.
  destruct sizes_ok as [Hn Hs].
  destruct (pool_get_spec base 4 512 [8; 64] ltac:(lia) Hn Hs ltac:(lia) pool3 _ _ 7 reach3 ltac:(lia)) as (res & s' & E & H).
  exists res, s'. split; [exact E|]. assert (res = (CFE_SUCCESS, 32)) as ->.
  { assert (fst <$> CFE_ES_GenPoolGetBlock base 0 7 pool3 = Some (CFE_SUCCESS, 32)) as E' by (by vm_compute). rewrite E in E'. by injection E'. }
  split; [reflexivity|]. by inversion H.
Defined.

Lemma pool_put_spec_witness : ∃ res s', CFE_ES_GenPoolPutBlock base 0 32 pool3 = Some (res, s') ∧
  res.1 = CFE_ES_POOL_BLOCK_INVALID ∧ ValidationErrorCount (Rec s') = 1.
Proof.
  destruct sizes_ok as [Hn Hs].
  destruct (pool_put_spec base 4 512 [8; 64] ltac:(lia) Hn Hs ltac:(lia) pool3 _ _ 32 reach3 ltac:(set_solver)) as (res & s' & E & H).
  exists res, s'. split; [exact E|]. unfold put_result in H. change (({[64 := 60]} : gmap Z Z) !! 32) with (@None Z) in H. destruct H as [H ->]. by split.
Defined.

Lemma pool_rebuild_spec_witness : ∃ s', CFE_ES_GenPoolRebuild base (mkPoolState rec0 (Mem pool3)) = Some (CFE_SUCCESS, s') ∧
  TailPosition (Rec s') = 128 ∧ ∃ res, CFE_ES_GenPoolGetBlockSize base 0 64 s' = Some (res, s') ∧ res = (CFE_SUCCESS, 60).
Proof.
  destruct sizes_ok as [Hn Hs].
  destruct (pool_rebuild_spec base 4 512 [8; 64] ltac:(lia) Hn Hs ltac:(lia) pool3 _ _ reach3 ltac:(right; by vm_compute)) as (s' & E & H1 & _ & H2 & _).
  exists s'. split; [exact E|]. split; [rewrite H2; by vm_compute|]. destruct (H1 64 0 ltac:(set_solver)) as (res & E1 & E2).
  exists res. split; [exact E1|]. vm_compute in E2. by injection E2 as <-.
Defined.

Lemma pool_validate_spec_witness : CFE_ES_GenPoolValidateState (Rec pool3) = true.
Proof.
  destruct sizes_ok as [Hn Hs].
  by rewrite (pool_validate_spec base 4 512 [8; 64] ltac:(lia) Hn Hs ltac:(lia) pool3 _ _ reach3).
Defined.

(** The pool of the default sizes. *)
Lemma pool_init_spec_witness : ∃ sizes, sizes ≡ₚ CFE_ES_MemPoolDefSize ∧ Sorted Z.le sizes ∧
  CFE_ES_GenPoolInitialize 0 524288 16 17 CFE_ES_MemPoolDefSize = Some (CFE_SUCCESS, fresh_rec 0 524288 (2 ^ 4 - 1) sizes).
Proof.
  apply (pool_init_spec 524288 16 CFE_ES_MemPoolDefSize); [cbn; lia|repeat constructor|lia|lia].
Defined.
End PoolExamples.
