(* ===== verification/SbRoutes.v ===== *)
(** * Doubly linked chains in memory

    [chain mk D p l q]: the nodes of [l], each an address with a payload, are in
    memory [D], linked to one another in order; the first one's back link is [p]
    and the last one's forward link is [q].  [mk] builds a node from its payload,
    its back link and its forward link. *)
From S2P Require Import Prelude Config Sbr SbrProps SbState SbBuf.

Section chain.
Context {T P : Type} (mk : P → addr → addr → T).
Implicit Types (D : gmap addr T) (l : list (addr * P)).

Fixpoint chain D (p : addr) l (q : addr) : Prop :=
  match l with
  | [] => True
  | (a, y) :: l => D !! a = Some (mk y p (hd q l.*1)) ∧ chain D a l q
  end.

(** The last node's address, or [p] for the empty chain. *)
Definition lst (p : addr) l : addr := List.last l.*1 p.

Lemma lst_snoc p l a y : lst p (l ++ [(a, y)]) = a.
Proof. unfold lst. rewrite fmap_app. apply List.last_last. Qed.

Lemma lst_cons p a y l : lst p ((a, y) :: l) = lst a l.
Proof.
  unfold lst. cbn. destruct (l.*1) as [|b m] eqn:E; [done|].
  clear. revert b. induction m as [|c m IH]; intros b; [done|]. apply (IH c).
Qed.

Lemma hd_app q l1 l2 : hd q (l1 ++ l2).*1 = hd (hd q l2.*1) l1.*1.
Proof. by destruct l1 as [|[a y] l1]. Qed.

Lemma chain_app D p l1 l2 q :
  chain D p (l1 ++ l2) q ↔ chain D p l1 (hd q l2.*1) ∧ chain D (lst p l1) l2 q.
Proof.
  revert p. induction l1 as [|[a y] l1 IH]; intros p; cbn [app chain].
  - unfold lst. cbn. tauto.
  - rewrite IH, hd_app, lst_cons. tauto.
Qed.

Lemma chain_frame D D' p l q :
  (∀ a, a ∈ l.*1 → D' !! a = D !! a) → chain D p l q → chain D' p l q.
Proof.
  revert p. induction l as [|[a y] l IH]; intros p Hf; [done|]. cbn.
  intros [Ha Hl]. split.
  - rewrite Hf; [done|]. cbn. by left.
  - apply IH; [|done]. intros b Hb. apply Hf. cbn. by right.
Qed.

Lemma chain_insert_out D p l q a x :
  a ∉ l.*1 → chain D p l q → chain (<[a := x]> D) p l q.
Proof. intros Ha. apply chain_frame. intros b Hb. apply lookup_insert_ne. naive_solver. Qed.

Lemma chain_delete_out D p l q a : a ∉ l.*1 → chain D p l q → chain (delete a D) p l q.
Proof. intros Ha. apply chain_frame. intros b Hb. apply lookup_delete_ne. naive_solver. Qed.

Lemma chain_lookup D p l q a y :
  (a, y) ∈ l → chain D p l q → ∃ p' q', D !! a = Some (mk y p' q').
Proof.
  revert p. induction l as [|[b z] l IH]; intros p; cbn; [by intros ?%elem_of_nil|].
  intros [[= -> ->]|Hin]%elem_of_cons [Hb Hl]; eauto.
Qed.

Lemma chain_dom D p l q a : a ∈ l.*1 → chain D p l q → is_Some (D !! a).
Proof.
  intros ([a' y] & -> & Hin)%list_elem_of_fmap Hc.
  destruct (chain_lookup _ _ _ _ _ _ Hin Hc) as (p' & q' & E). cbn. eauto.
Qed.

(** Relinking the two ends. *)

Lemma chain_set_prev D p p' a y l q :
  a ∉ l.*1 → chain D p ((a, y) :: l) q →
  chain (<[a := mk y p' (hd q l.*1)]> D) p' ((a, y) :: l) q.
Proof.
  intros Hn [Ha Hl]. split; [apply lookup_insert_eq|]. by apply chain_insert_out.
Qed.

Lemma chain_set_next D p l a y q q' :
  a ∉ l.*1 → chain D p (l ++ [(a, y)]) q →
  chain (<[a := mk y (lst p l) q']> D) p (l ++ [(a, y)]) q'.
Proof.
  intros Hn. rewrite !chain_app. cbn. intros [Hl [Ha _]]. split_and!; [|by rewrite lookup_insert_eq|done].
  by apply chain_insert_out.
Qed.

(** A payload update. *)
Lemma chain_upd D p l1 a y y' l2 q :
  a ∉ l1.*1 → a ∉ l2.*1 → chain D p (l1 ++ (a, y) :: l2) q →
  chain (<[a := mk y' (lst p l1) (hd q l2.*1)]> D) p (l1 ++ (a, y') :: l2) q.
Proof.
  intros H1 H2. rewrite !chain_app. cbn. intros [Hl [Ha Hr]].
  split_and!; [by apply chain_insert_out|apply lookup_insert_eq|by apply chain_insert_out].
Qed.

End chain.

(** ** The subscription table

    The routing module's entries and the destination descriptors in memory
    represent a table: for every route, in registration order, the list of its
    destinations.  The operations on destination lists refine list operations on
    that table. *)

(** ** Primitive steps *)

Section prim_wp.
Context {PS QS : Type}.
Abbreviation G := (CFE_SB_Global_t PS QS).
Implicit Types (s : G).

Lemma wp_rd_dest a d Q s : Dests s !! a = Some d → Q d s → wp (rd_dest a) Q s.
Proof. intros E HQ. unfold wp, rd_dest. by rewrite E. Qed.

Lemma wp_wr_dest a d f Q s :
  Dests s !! a = Some d → Q tt (s <| Dests ::= <[a := f d]> |>) → wp (wr_dest a f) Q s.
Proof. intros E HQ. unfold wr_dest. apply wp_bind. by eapply wp_rd_dest. Qed.

Lemma wp_rd_buf a b Q s : Bufs s !! a = Some b → Q b s → wp (rd_buf a) Q s.
Proof. intros E HQ. unfold wp, rd_buf. by rewrite E. Qed.

Lemma wp_wr_buf a b f Q s :
  Bufs s !! a = Some b → Q tt (s <| Bufs ::= <[a := f b]> |>) → wp (wr_buf a f) Q s.
Proof. intros E HQ. unfold wr_buf. apply wp_bind. by eapply wp_rd_buf. Qed.

Lemma wp_rd_link a l Q s : Links s !! a = Some l → Q l s → wp (rd_link a) Q s.
Proof. intros E HQ. unfold wp, rd_link. by rewrite E. Qed.

Lemma wp_wr_link a l f Q s :
  Links s !! a = Some l → Q tt (s <| Links ::= <[a := f l]> |>) → wp (wr_link a f) Q s.
Proof. intros E HQ. unfold wr_link. apply wp_bind. by eapply wp_rd_link. Qed.

Lemma wp_rd_pipe i p Q s : 0 <= i → PipeTbl s !! Z.to_nat i = Some p → Q p s → wp (rd_pipe i) Q s.
Proof.
  intros Hi E HQ. unfold rd_pipe. wp_steps. eapply wp_eq; [by apply tbl_get_Some|done].
Qed.

Lemma wp_wr_pipe i f Q s : 0 <= i < Z.of_nat (length (PipeTbl s)) →
  Q tt (s <| PipeTbl ::= alter f (Z.to_nat i) |>) → wp (wr_pipe i f) Q s.
Proof.
  intros Hi HQ. unfold wr_pipe. wp_steps.
  eapply wp_of_option; [by apply tbl_upd_Some|]. by wp_steps.
Qed.

Lemma wp_sbr {A} (c : M SBR A) a r Q s :
  c (Routes s) = Some (a, r) → Q a (s <| Routes := r |>) → wp (sbr c) Q s.
Proof. intros E HQ. unfold wp, sbr. by rewrite E. Qed.

Lemma wp_stat f Q s : Q tt (s <| Stat ::= f |>) → wp (stat f) Q s.
Proof. done. Qed.

Lemma wp_hk f Q s : Q tt (s <| HK ::= f |>) → wp (hk f) Q s.
Proof. done. Qed.

Lemma wp_pool {A} (f : PS → A * PS) Q s :
  Q (f (Pool s)).1 (s <| Pool := (f (Pool s)).2 |>) → wp (pool f) Q s.
Proof. unfold wp, pool. by destruct (f (Pool s)). Qed.

Lemma wp_queues {A} (f : QS → A * QS) Q s :
  Q (f (Queues s)).1 (s <| Queues := (f (Queues s)).2 |>) → wp (queues f) Q s.
Proof. unfold wp, queues. by destruct (f (Queues s)). Qed.

Lemma wp_queues_opt {A} (f : QS → option (A * QS)) a q Q s :
  f (Queues s) = Some (a, q) → Q a (s <| Queues := q |>) → wp (queues_opt f) Q s.
Proof. intros E HQ. unfold wp, queues_opt. by rewrite E. Qed.

Lemma wp_lock Q s : Locked s = false → Q tt (s <| Locked := true |>) → wp CFE_SB_LockSharedData Q s.
Proof. intros E HQ. unfold CFE_SB_LockSharedData. wp_steps. by rewrite E. Qed.

Lemma wp_unlock Q s : Locked s = true → Q tt (s <| Locked := false |>) → wp CFE_SB_UnlockSharedData Q s.
Proof. intros E HQ. unfold CFE_SB_UnlockSharedData. wp_steps. by rewrite E. Qed.

Lemma wp_event id t m Q s : Locked s = false →
  Q tt (s <| Events ::= λ es, es ++ [mkEvent id t m] |>) → wp (SendEvent id t m) Q s.
Proof. intros E HQ. unfold SendEvent. wp_steps. by rewrite E. Qed.

End prim_wp.

(** ** Representation *)

Definition mkd (y : CFE_SB_DestinationD_t) (p n : addr) : CFE_SB_DestinationD_t :=
  y <| dd_Prev := p |> <| dd_Next := n |>.

Abbreviation dlist := (list (addr * CFE_SB_DestinationD_t)).
Abbreviation dmem := (gmap addr CFE_SB_DestinationD_t).

(** The destination of a pipe in a list, as a pointer. *)
Definition find_dest (l : dlist) (PipeId : Z) : addr :=
  match list_find (λ x, dd_PipeId x.2 = PipeId) l with Some (_, (a, _)) => a | None => NULL end.

Definition dest_pipes (l : dlist) : list Z := (λ x, dd_PipeId x.2) <$> l.

Section routes.
Context {I : MsgMap} {OK : MsgMapOK I}.

Record routes_inv (r : SBR) (D : dmem) (tb : list dlist) : Prop := {
  ri_sbr : sbr_inv r;
  ri_rep : Forall2 (λ e l, ListHeadPtr e = hd NULL l.*1 ∧ chain mkd D NULL l NULL) (entries r) tb;
  ri_nodup : NoDup (concat tb).*1;
  ri_dom a : is_Some (D !! a) ↔ a ∈ (concat tb).*1;
  ri_pos a : is_Some (D !! a) → 0 < a;
  ri_len : Forall (λ l, (length l ≤ 16)%nat) tb;
  ri_pipes : Forall (λ l, NoDup (dest_pipes l)) tb;
}.

(** ** The routing module through the table *)

Lemma GetHead_spec r rid e :
  sbr_inv r → 1 <= rid → entries r !! Z.to_nat (rid - 1) = Some e →
  CFE_SBR_GetDestListHeadPtr rid r = Some (ListHeadPtr e, r).
Proof.
  intros [Hwf _] Hr He. pose proof (wf_top r Hwf). pose proof (entries_length r Hwf).
  pose proof (lookup_lt_Some _ _ _ He). apply lookup_take_Some in He as [He _].
  unfold CFE_SBR_GetDestListHeadPtr, CFE_SBR_RouteIdToValue.
  rewrite (proj2 (IsValidRouteId_spec rid ltac:(lia))) by lia.
  rewrite u16_small by (unfold is_u16; lia). run. by rewrite (tbl_get_Some _ _ e) by (done || lia).
Qed.

Lemma SetHead_spec r rid p :
  sbr_inv r → 1 <= rid <= RouteIdxTop r →
  ∃ r', CFE_SBR_SetDestListHeadPtr rid p r = Some (tt, r') ∧ sbr_inv r' ∧
    entries r' = alter (λ e, e <| ListHeadPtr := p |>) (Z.to_nat (rid - 1)) (entries r) ∧
    RouteIdxTop r' = RouteIdxTop r ∧ msgids r' = msgids r.
Proof.
  intros Hinv Hr. pose proof (wf_top r (inv_wf r Hinv)).
  assert (∀ e, MsgId (e <| ListHeadPtr := p |>) = MsgId e) as Hf by done.
  destruct (upd_entry r rid _ Hinv Hf Hr) as (E & Hi & He).
  eexists. unfold CFE_SBR_SetDestListHeadPtr.
  rewrite (proj2 (IsValidRouteId_spec rid ltac:(lia))) by lia. cbn [when].
  split; [exact E|]. split_and!; [done|done|done|].
  change (msgids ?x) with (MsgId <$> entries x). rewrite He.
  apply list_eq. intros i. rewrite !list_lookup_fmap.
  destruct (decide (Z.to_nat (rid - 1) = i)) as [<-|Hne].
  - rewrite list_lookup_alter_eq. by destruct (entries r !! _).
  - by rewrite list_lookup_alter_ne by done.
Qed.

Lemma tb_length r D tb : routes_inv r D tb → length tb = Z.to_nat (RouteIdxTop r).
Proof.
  intros Hri. rewrite <- (Forall2_length _ _ _ (ri_rep _ _ _ Hri)).
  apply entries_length, Hri.
Qed.

Lemma tb_route r D tb i l : routes_inv r D tb → tb !! i = Some l →
  ∃ e, entries r !! i = Some e ∧ ListHeadPtr e = hd NULL l.*1 ∧ chain mkd D NULL l NULL ∧
    1 <= Z.of_nat i + 1 <= RouteIdxTop r.
Proof.
  intros Hri Hl. pose proof (tb_length _ _ _ Hri). pose proof (lookup_lt_Some _ _ _ Hl).
  destruct (Forall2_lookup_r _ _ _ _ _ (ri_rep _ _ _ Hri) Hl) as (e & He & Hh & Hc).
  exists e. split_and!; try done; lia.
Qed.

(** *** Membership in the whole table *)

Lemma concat_lookup {A} (ls : list (list A)) i l x : ls !! i = Some l → x ∈ l → x ∈ concat ls.
Proof. intros Hl Hx. apply list_elem_of_In, in_concat. exists l. rewrite <- !list_elem_of_In.
  split; [by eapply list_elem_of_lookup_2|done]. Qed.

Lemma concat_split {A} (ls : list (list A)) i l : ls !! i = Some l →
  concat ls = concat (take i ls) ++ l ++ concat (drop (S i) ls) ∧
  ∀ l', concat (<[i := l']> ls) = concat (take i ls) ++ l' ++ concat (drop (S i) ls).
Proof.
  intros Hl. pose proof (lookup_lt_Some _ _ _ Hl). split.
  - rewrite <- (take_drop_middle ls i l Hl) at 1. by rewrite concat_app.
  - intros l'. rewrite insert_take_drop by done. by rewrite concat_app.
Qed.

(** Two routes share no destination. *)
Lemma tb_disjoint (tb : list dlist) i j l k : NoDup (concat tb).*1 → tb !! i = Some l → tb !! j = Some k → i ≠ j →
  ∀ a, a ∈ l.*1 → a ∉ k.*1.
Proof.
  intros Hnd Hi Hj Hij a Ha Hb.
  destruct (concat_split tb i l Hi) as [E _]. rewrite E, !fmap_app in Hnd.
  apply NoDup_app in Hnd as (_ & Hd1 & Hnd). apply NoDup_app in Hnd as (_ & Hd2 & _).
  assert (∀ ls n, ls !! n = Some k → a ∈ (concat ls).*1) as Hin.
  { intros ls n Hn. apply list_elem_of_fmap in Hb as (x & -> & Hx).
    apply list_elem_of_fmap. exists x. split; [done|]. by eapply concat_lookup. }
  destruct (decide (j < i)%nat).
  - eapply Hd1; [apply (Hin (take i tb) j); by rewrite lookup_take_lt by done|].
    apply elem_of_app. by left.
  - eapply Hd2; [done|]. apply (Hin _ (j - S i)%nat). rewrite lookup_drop. by replace (S i + (j - S i))%nat with j by lia.
Qed.

Lemma tb_nodup_l (tb : list dlist) i l : NoDup (concat tb).*1 → tb !! i = Some l → NoDup l.*1.
Proof.
  intros Hnd Hi. destruct (concat_split tb i l Hi) as [E _]. rewrite E, !fmap_app in Hnd.
  apply NoDup_app in Hnd as (_ & _ & Hnd). by apply NoDup_app in Hnd as (? & _ & _).
Qed.

Lemma tb_size r D tb i l : routes_inv r D tb → tb !! i = Some l → (length l ≤ size D)%nat.
Proof.
  intros Hri Hl. pose proof (tb_nodup_l _ _ _ (ri_nodup _ _ _ Hri) Hl) as Hnd.
  rewrite <- (length_fmap fst l), <- size_dom, <- (size_list_to_set (C := gset addr) l.*1 Hnd).
  apply subseteq_size. intros a Ha%elem_of_list_to_set. apply elem_of_dom.
  apply (ri_dom _ _ _ Hri). apply list_elem_of_fmap in Ha as (x & -> & Hx).
  apply list_elem_of_fmap. exists x. split; [done|]. by eapply concat_lookup.
Qed.

Lemma tb_pos r D tb i l a : routes_inv r D tb → tb !! i = Some l → a ∈ l.*1 → 0 < a.
Proof.
  intros Hri Hl Ha. apply (ri_pos _ _ _ Hri), (ri_dom _ _ _ Hri).
  apply list_elem_of_fmap in Ha as (x & -> & Hx).
  apply list_elem_of_fmap. exists x. split; [done|]. by eapply concat_lookup.
Qed.

(** Replacing the list of one route. *)
Lemma routes_update r D tb i l r' D' l' :
  routes_inv r D tb → tb !! i = Some l → sbr_inv r' →
  entries r' = alter (λ e, e <| ListHeadPtr := (hd NULL l'.*1) |>) i (entries r) →
  (∀ b, b ∉ l.*1 → b ∉ l'.*1 → D' !! b = D !! b) →
  (∀ b, b ∈ l.*1 → b ∉ l'.*1 → D' !! b = None) →
  (∀ b, b ∈ l'.*1 → b ∈ l.*1 ∨ (D !! b = None ∧ 0 < b)) →
  chain mkd D' NULL l' NULL → NoDup l'.*1 → (length l' ≤ 16)%nat → NoDup (dest_pipes l') →
  routes_inv r' D' (<[i := l']> tb).
Proof.
  intros Hri Hl Hr' He Hsame Hgone Hnew Hc Hnd Hlen Hp.
  pose proof (ri_nodup _ _ _ Hri) as Hndtb. pose proof (lookup_lt_Some _ _ _ Hl) as Hi.
  destruct (concat_split tb i l Hl) as [E1 E2]. specialize (E2 l').
  assert (∀ b, b ∈ (concat tb).*1 → is_Some (D !! b)) as Hdom by (intros; by apply (ri_dom _ _ _ Hri)).
  rewrite E1, !fmap_app in Hndtb. apply NoDup_app in Hndtb as (Hn1 & Hd1 & Hndtb).
  apply NoDup_app in Hndtb as (Hnl & Hd2 & Hn3).
  set (A := (concat (take i tb)).*1) in *. set (C := (concat (drop (S i) tb)).*1) in *.
  assert (∀ b, D !! b = None → (b ∉ A) ∧ (b ∉ C)) as Hfresh.
  { intros b Hb. assert (b ∉ (concat tb).*1) as Hn by (intros [? ?]%Hdom; congruence).
    rewrite E1, !fmap_app, !elem_of_app in Hn. tauto. }
  assert (∀ b, b ∈ l'.*1 → (b ∉ A) ∧ (b ∉ C)) as Hout.
  { intros b [Hb|[Hb _]]%Hnew; [|by apply Hfresh]. split; [|by apply Hd2].
    intros Hin. eapply Hd1; [done|]. apply elem_of_app. by left. }
  split; try done.
  - apply Forall2_lookup. intros j. rewrite He. destruct (decide (i = j)) as [<-|Hij].
    + rewrite list_lookup_alter_eq, list_lookup_insert_eq by done.
      destruct (Forall2_lookup_r _ _ _ _ _ (ri_rep _ _ _ Hri) Hl) as (e & -> & _). cbn. constructor. by split.
    + rewrite list_lookup_alter_ne, list_lookup_insert_ne by done.
      pose proof (proj1 (Forall2_lookup _ _ _) (ri_rep _ _ _ Hri) j) as Hj.
      destruct (tb !! j) as [k|] eqn:Hk; [|inversion Hj; constructor].
      inversion Hj as [e k' [Hh Hck] He' Hk'|]; subst.
      constructor. split; [done|]. eapply chain_frame; [|exact Hck].
      intros b Hb. apply Hsame.
      * intros Hbl. eapply (tb_disjoint tb i j); eauto. apply (ri_nodup _ _ _ Hri).
      * intros Hbl. destruct (Hout b Hbl) as [HA HC].
        assert (b ∈ A ∨ b ∈ C) as [|]; [|done|done].
        apply list_elem_of_fmap in Hb as (x & -> & Hx). unfold A, C. rewrite !list_elem_of_fmap.
        destruct (decide (j < i)%nat).
        { left. exists x. split; [done|]. eapply (concat_lookup _ j); [|done]. by rewrite lookup_take_lt. }
        { right. exists x. split; [done|]. eapply (concat_lookup _ (j - S i)); [|done].
          rewrite lookup_drop. by replace (S i + (j - S i))%nat with j by lia. }
  - rewrite E2, !fmap_app. apply NoDup_app. split_and!; [done| |].
    + intros b HA [Hb|Hb]%elem_of_app; [by destruct (Hout b Hb)|].
      eapply Hd1; [done|]. apply elem_of_app. by right.
    + apply NoDup_app. split_and!; [done| |done]. intros b Hb. by destruct (Hout b Hb).
  - intros b. rewrite E2, !fmap_app, !elem_of_app. fold A C.
    assert (is_Some (D !! b) ↔ b ∈ A ∨ b ∈ l.*1 ∨ b ∈ C) as Hb.
    { rewrite (ri_dom _ _ _ Hri), E1, !fmap_app, !elem_of_app. done. }
    destruct (decide (b ∈ l'.*1)) as [Hin|Hnin].
    { split; [auto|]. intros _. by eapply chain_dom. }
    destruct (decide (b ∈ l.*1)) as [Hin|Hnin'].
    + rewrite Hgone by done. split; [by intros [? ?]|].
      intros [HA|[?|HC]]; [|done|].
      * exfalso. eapply Hd1; [done|]. apply elem_of_app. by left.
      * exfalso. by eapply Hd2.
    + rewrite Hsame, Hb by done. tauto.
  - intros b Hb. destruct (decide (b ∈ l'.*1)) as [Hin|Hnin].
    + destruct (Hnew b Hin) as [Hbl|[_ ?]]; [|done]. by eapply tb_pos.
    + destruct (decide (b ∈ l.*1)) as [Hin|Hnin'].
      * rewrite Hgone in Hb by done. by destruct Hb.
      * rewrite Hsame in Hb by done. by apply (ri_pos _ _ _ Hri).
  - apply Forall_insert; [apply Hri|done].
  - apply Forall_insert; [apply Hri|done].
Qed.

End routes.

(** ** List operations in memory *)

Section ops.
Context {PS QS : Type} {I : MsgMap} {OK : MsgMapOK I}.
Abbreviation G := (CFE_SB_Global_t PS QS).
Implicit Types (s : G) (tb : list dlist) (l : dlist).

Lemma GetDestPtr_loop_spec s l p fuel PipeId :
  chain mkd (Dests s) p l NULL → Forall (λ x, x.1 ≠ NULL) l → (length l ≤ fuel)%nat →
  GetDestPtr_loop fuel (hd NULL l.*1) PipeId s = Some (find_dest l PipeId, s).
Proof.
  revert p fuel. induction l as [|[a y] l IH]; intros p fuel Hc Hz Hf; [by destruct fuel|].
  destruct fuel as [|fuel]; [cbn in Hf; lia|]. inversion_clear Hz as [|? ? Ha Hz']. cbn in Ha.
  destruct Hc as [E Hc]. cbn [hd fst snd fmap list_fmap map GetDestPtr_loop].
  rewrite (proj2 (Z.eqb_neq a NULL)) by done. unfold mbind, M_bind, rd_dest. rewrite E. cbn [of_option].
  unfold mret, M_ret. cbn [mkd].
  change (dd_PipeId (mkd y p (hd NULL l.*1))) with (dd_PipeId y).
  change (dd_Next (mkd y p (hd NULL l.*1))) with (hd NULL l.*1).
  unfold find_dest. cbn [list_find snd].
  destruct (Z.eqb_spec (dd_PipeId y) PipeId) as [->|Hne].
  - by rewrite decide_True.
  - rewrite decide_False by done. rewrite (IH a) by (done || (cbn in Hf; lia)).
    unfold find_dest. by destruct (list_find _ l) as [[? []]|].
Qed.

Lemma dlist_nonnull r D tb i l : routes_inv r D tb → tb !! i = Some l → Forall (λ x, x.1 ≠ NULL) l.
Proof.
  intros Hri Hl. apply Forall_forall. intros x Hx Hz.
  assert (0 < x.1) by (eapply tb_pos; eauto; by apply list_elem_of_fmap_2). unfold NULL in Hz. lia.
Qed.

Lemma wp_sbr_head i l tb Q s :
  routes_inv (Routes s) (Dests s) tb → tb !! i = Some l →
  Q (hd NULL l.*1) s → wp (sbr (CFE_SBR_GetDestListHeadPtr (Z.of_nat i + 1))) Q s.
Proof.
  intros Hri Hl HQ. destruct (tb_route _ _ _ _ _ Hri Hl) as (e & He & Hh & _ & Hr).
  eapply wp_sbr.
  - apply GetHead_spec; [apply Hri|lia|]. by replace (Z.to_nat (Z.of_nat i + 1 - 1)) with i by lia.
  - rewrite Hh. by destruct s.
Qed.

Lemma wp_GetDestPtr i l tb PipeId Q s :
  routes_inv (Routes s) (Dests s) tb → tb !! i = Some l →
  Q (find_dest l PipeId) s → wp (CFE_SB_GetDestPtr (Z.of_nat i + 1) PipeId) Q s.
Proof.
  intros Hri Hl HQ. unfold CFE_SB_GetDestPtr. wp_step. eapply wp_sbr_head; [done..|].
  unfold dest_fuel. wp_steps. destruct (tb_route _ _ _ _ _ Hri Hl) as (e & _ & _ & Hc & _).
  eapply wp_eq; [|exact HQ]. eapply GetDestPtr_loop_spec; [done|by eapply dlist_nonnull|].
  pose proof (tb_size _ _ _ _ _ Hri Hl). lia.
Qed.

(** An identifier without a route has no destinations. *)
Lemma wp_GetDestPtr_invalid PipeId Q s : Q NULL s → wp (CFE_SB_GetDestPtr 0 PipeId) Q s.
Proof.
  intros HQ. unfold CFE_SB_GetDestPtr. wp_step. eapply wp_sbr; [done|].
  unfold dest_fuel. wp_steps. by destruct s.
Qed.

Lemma find_dest_split l PipeId : Forall (λ x, x.1 ≠ NULL) l → find_dest l PipeId ≠ NULL →
  ∃ l1 y l2, l = l1 ++ (find_dest l PipeId, y) :: l2 ∧ dd_PipeId y = PipeId ∧ PipeId ∉ dest_pipes l1.
Proof.
  intros Hz. unfold find_dest. destruct (list_find _ l) as [[n [a y]]|] eqn:E; [|done]. intros _.
  apply list_find_Some in E as (Hn & Hp & Hb). exists (take n l), y, (drop (S n) l).
  split_and!; [by rewrite take_drop_middle|done|].
  intros (x & -> & Hx)%list_elem_of_fmap. apply list_elem_of_lookup in Hx as [j Hj].
  apply lookup_take_Some in Hj as [Hj Hlt]. by eapply Hb.
Qed.

Lemma find_dest_null l PipeId : Forall (λ x, x.1 ≠ NULL) l →
  find_dest l PipeId = NULL ↔ PipeId ∉ dest_pipes l.
Proof.
  intros Hz. unfold find_dest, dest_pipes. destruct (list_find _ l) as [[n [a y]]|] eqn:E.
  - apply list_find_Some in E as (Hn & Hp & _). split.
    + intros ->. rewrite Forall_lookup in Hz. by specialize (Hz _ _ Hn).
    + intros Hnot. exfalso. apply Hnot, list_elem_of_fmap. exists (a, y). split; [done|].
      by eapply list_elem_of_lookup_2.
  - split; [|done]. intros _ (x & -> & Hx)%list_elem_of_fmap. apply list_find_None in E.
    rewrite Forall_forall in E. by specialize (E _ Hx).
Qed.

(** Adding a fresh descriptor puts it at the head of the route's list. *)
Lemma wp_AddDestNode i l tb a d D0 Q s :
  routes_inv (Routes s) D0 tb → tb !! i = Some l → Dests s = <[a := d]> D0 → D0 !! a = None → 0 < a →
  (length l < 16)%nat → dd_PipeId d ∉ dest_pipes l →
  (∀ r' D', routes_inv r' D' (<[i := (a, d) :: l]> tb) → RouteIdxTop r' = RouteIdxTop (Routes s) →
     msgids r' = msgids (Routes s) → dom D' = {[a]} ∪ dom D0 →
     Q CFE_SUCCESS (s <| Routes := r' |> <| Dests := D' |>)) →
  wp (CFE_SB_AddDestNode (Z.of_nat i + 1) a) Q s.
Proof.
  intros Hri Hl HD Hfr Hpos Hlen Hp HQ.
  destruct (tb_route _ _ _ _ _ Hri Hl) as (e & He & Hh & Hc & Hr).
  assert (a ∉ l.*1) as Hal  by (intros Hin; destruct (chain_dom _ _ _ _ _ _ Hin Hc); congruence).
  destruct (SetHead_spec (Routes s) (Z.of_nat i + 1) a (ri_sbr _ _ _ Hri) Hr)
    as (r' & Er & Hr' & Hen & Ht & Hm).
  replace (Z.to_nat (Z.of_nat i + 1 - 1)) with i in Hen by lia.
  pose proof (tb_nodup_l _ _ _ (ri_nodup _ _ _ Hri) Hl) as Hnd.
  assert (∀ D', (∀ b, b ∉ l.*1 → b ≠ a → D' !! b = D0 !! b) → chain mkd D' NULL ((a, d) :: l) NULL →
    dom D' = {[a]} ∪ dom D0 → Q CFE_SUCCESS (s <| Routes := r' |> <| Dests := D' |>)) as Hfin.
  { intros D' Hsame Hc' Hdom. apply HQ; try done.
    apply (routes_update (Routes s) D0 tb i l); try done.
    - intros b Hb1 Hb2. apply Hsame; [done|]. intros ->. apply Hb2. by left.
    - intros b Hb1 Hb2. exfalso. apply Hb2. by right.
    - intros b [->|Hb]%elem_of_cons; auto.
    - apply NoDup_cons. by split.
    - apply NoDup_cons. split; [done|]. pose proof (ri_pipes _ _ _ Hri) as HF.
      by eapply Forall_lookup_1 in HF. }
  unfold CFE_SB_AddDestNode. wp_step. eapply wp_sbr.
  { apply (GetHead_spec _ _ e); [apply Hri|lia|]. by replace (Z.to_nat (Z.of_nat i + 1 - 1)) with i by lia. }
  replace (s <| Routes := Routes s |>) with s by by destruct s. rewrite Hh. wp_step.
  destruct l as [|[b y] l].
  - cbn [hd]. rewrite Z.eqb_refl. wp_step.
    eapply wp_wr_dest; [rewrite HD; apply lookup_insert_eq|]. cbn beta.
    eapply wp_wr_dest; [apply lookup_insert_eq|]. wp_step. eapply wp_sbr; [exact Er|]. wp_step.
    match goal with |- Q _ ?x => set (s' := x) end.
    replace s' with (s <| Routes := r' |> <| Dests := <[a := mkd d NULL NULL]> D0 |>).
    { apply Hfin; [|cbn; by rewrite lookup_insert_eq|by rewrite dom_insert_L].
      intros b _ Hb. by apply lookup_insert_ne. }
    unfold s'. cbn. by rewrite HD, !insert_insert_eq.
  - assert (b ≠ NULL) as Hb by (pose proof (dlist_nonnull _ _ _ _ _ Hri Hl) as HF; by inversion HF).
    cbn [hd fst fmap list_fmap map]. rewrite (proj2 (Z.eqb_neq b NULL)) by done. wp_step.
    eapply wp_wr_dest; [rewrite HD; apply lookup_insert_eq|]. wp_step.
    eapply wp_wr_dest; [apply lookup_insert_eq|].
    destruct Hc as [Eb Hc]. assert (a ≠ b) by (intros ->; congruence).
    eapply wp_wr_dest; [cbn; rewrite HD, !lookup_insert_ne by done; exact Eb|]. wp_step.
    eapply wp_sbr; [exact Er|]. wp_step.
    match goal with |- Q _ ?x => set (s' := x) end.
    replace s' with (s <| Routes := r' |>
      <| Dests := <[b := mkd y a (hd NULL l.*1)]> (<[a := mkd d NULL b]> D0) |>).
    { apply Hfin.
      - intros x Hx Hxa. cbn in Hx. rewrite !lookup_insert_ne; [done|done|].
        intros ->. apply Hx. by left.
      - cbn. split; [by rewrite lookup_insert_ne, lookup_insert_eq by done|].
        cbn in Hnd, Hal. apply NoDup_cons in Hnd as [Hbl Hnd]. rewrite not_elem_of_cons in Hal.
        destruct Hal as [_ Hal]. split; [apply lookup_insert_eq|].
        apply chain_insert_out; [done|]. by apply chain_insert_out.
      - rewrite !dom_insert_L. assert (b ∈ dom D0) by (apply elem_of_dom; eauto). set_solver. }
    unfold s'. cbn. by rewrite HD, !insert_insert_eq.
Qed.

Lemma entries_same_head r i e h : entries r !! i = Some e → ListHeadPtr e = h →
  alter (λ e, e <| ListHeadPtr := h |>) i (entries r) = entries r.
Proof.
  intros He Hh. apply list_eq. intros j. destruct (decide (i = j)) as [<-|].
  - rewrite list_lookup_alter_eq, He. cbn. subst h. by destruct e.
  - by rewrite list_lookup_alter_ne by done.
Qed.

(** The memory with the two neighbours of a node between [l1] and [l2] relinked. *)
Definition relink_next D l1 l2 : dmem :=
  match l2 with
  | [] => D
  | (b, z) :: l2' => <[b := mkd z (lst NULL l1) (hd NULL l2'.*1)]> D
  end.
Definition relink D l1 l2 : dmem :=
  match rev l1 with
  | [] => relink_next D l1 l2
  | (c, w) :: l1' => <[c := mkd w (lst NULL (rev l1')) (hd NULL l2.*1)]> (relink_next D l1 l2)
  end.

Lemma rev_cons_inv {A} (l : list A) x k : rev l = x :: k → l = rev k ++ [x].
Proof. intros E. apply (f_equal (@rev A)) in E. by rewrite rev_involutive in E. Qed.

Lemma relink_chain D a y l1 l2 :
  NoDup (l1 ++ (a, y) :: l2).*1 → chain mkd D NULL (l1 ++ (a, y) :: l2) NULL →
  chain mkd (relink D l1 l2) NULL (l1 ++ l2) NULL ∧
  (∀ b, b ∉ l1.*1 → b ∉ l2.*1 → relink D l1 l2 !! b = D !! b).
Proof.
  intros Hnd Hc. rewrite fmap_app in Hnd. cbn in Hnd.
  apply NoDup_app in Hnd as (Hn1 & Hd & Hn2). apply NoDup_cons in Hn2 as [Ha2 Hn2].
  apply chain_app in Hc as [Hc1 [Ea Hc2]]. cbn in Hc1. set (D1 := relink_next D l1 l2).
  assert (∀ b, b ∈ l1.*1 → b ∉ l2.*1) as Hd' by (intros b Hb Hb'; eapply Hd; [done|by right]).
  assert (chain mkd D1 (lst NULL l1) l2 NULL ∧ (∀ b, b ∉ l2.*1 → D1 !! b = D !! b)) as [Hc2' Hs1].
  { unfold D1. destruct l2 as [|[b z] l2']; [done|]. cbn in Hn2. apply NoDup_cons in Hn2 as [Hb Hn2]. split.
    - eapply chain_set_prev; [done|exact Hc2].
    - intros x Hx. apply lookup_insert_ne. intros ->. apply Hx. by left. }
  assert (chain mkd D1 NULL l1 a) as Hc1'.
  { eapply chain_frame; [|exact Hc1]. intros b Hb. apply Hs1. by apply Hd'. }
  unfold relink. fold D1. destruct (rev l1) as [|[c w] l1'] eqn:Er.
  - assert (l1 = []) as -> by by apply (f_equal (@rev _)) in Er; rewrite rev_involutive in Er.
    split; [done|]. intros b _ Hb. by apply Hs1.
  - apply rev_cons_inv in Er as ->.
    rewrite !fmap_app in Hn1. cbn in Hn1. apply NoDup_app in Hn1 as (_ & Hcn & _).
    assert (c ∉ (rev l1').*1) as Hcr by (intros Hin; apply (Hcn c Hin); by left).
    rewrite lst_snoc in Hc2'. split.
    + apply chain_app. rewrite lst_snoc. split.
      * eapply chain_set_next; [done|exact Hc1'].
      * apply chain_insert_out; [|done]. apply Hd'. rewrite fmap_app, elem_of_app. right. by left.
    + intros b Hb Hb2. rewrite lookup_insert_ne; [by apply Hs1|]. intros ->. apply Hb.
      rewrite fmap_app, elem_of_app. right. by left.
Qed.

Lemma dom_insert_same (D : dmem) b x : b ∈ dom D → dom (<[b := x]> D) = dom D.
Proof. intros Hb. rewrite dom_insert_L. by apply subseteq_union_1_L, singleton_subseteq_l. Qed.

Lemma relink_dom D l1 l2 : (∀ b, b ∈ l1.*1 → b ∈ dom D) → (∀ b, b ∈ l2.*1 → b ∈ dom D) →
  dom (relink D l1 l2) = dom D.
Proof.
  intros H1 H2.
  assert (dom (relink_next D l1 l2) = dom D) as E.
  { destruct l2 as [|[b z] l2']; [done|]. apply dom_insert_same, H2. by left. }
  unfold relink. destruct (rev l1) as [|[c w] l1'] eqn:Er; [done|]. apply rev_cons_inv in Er as ->.
  rewrite dom_insert_same; rewrite E; [done|]. apply H1. rewrite fmap_app, elem_of_app. right. by left.
Qed.

(** Unlinking a node and freeing it removes it from the table. *)
Lemma routes_remove r D tb i l1 a y l2 r' :
  routes_inv r D tb → tb !! i = Some (l1 ++ (a, y) :: l2) → sbr_inv r' →
  entries r' = alter (λ e, e <| ListHeadPtr := (hd NULL (l1 ++ l2).*1) |>) i (entries r) →
  routes_inv r' (delete a (relink D l1 l2)) (<[i := l1 ++ l2]> tb).
Proof.
  intros Hri Hl Hr' Hen. destruct (tb_route _ _ _ _ _ Hri Hl) as (e & _ & _ & Hc & _).
  pose proof (tb_nodup_l _ _ _ (ri_nodup _ _ _ Hri) Hl) as Hnd.
  destruct (relink_chain D a y l1 l2 Hnd Hc) as [Hc2 Hs2].
  assert (∀ b, b ∈ (l1 ++ (a, y) :: l2).*1 ↔ b ∈ l1.*1 ∨ b = a ∨ b ∈ l2.*1) as Hin.
  { intros b. rewrite fmap_app. cbn. by rewrite elem_of_app, elem_of_cons. }
  assert (∀ b, b ∈ (l1 ++ l2).*1 ↔ b ∈ l1.*1 ∨ b ∈ l2.*1) as Hin'.
  { intros b. by rewrite fmap_app, elem_of_app. }
  rewrite fmap_app in Hnd. cbn in Hnd. apply NoDup_app in Hnd as (Hn1 & Hd & Hn2).
  apply NoDup_cons in Hn2 as [Ha2 Hn2].
  assert (a ∉ l1.*1) as Ha1 by (intros Ha; apply (Hd a Ha); by left).
  apply (routes_update r D tb i (l1 ++ (a, y) :: l2)); try done.
  - intros b. rewrite Hin, Hin'. intros H1 H2. rewrite lookup_delete_ne by naive_solver. apply Hs2; naive_solver.
  - intros b. rewrite Hin, Hin'. intros H1 H2. assert (b = a) as -> by tauto. apply lookup_delete_eq.
  - intros b. rewrite Hin, Hin'. tauto.
  - apply chain_delete_out; [|done]. rewrite Hin'. tauto.
  - rewrite fmap_app. apply NoDup_app. split_and!; [done| |done].
    intros b Hb Hb'. apply (Hd b Hb). by right.
  - pose proof (ri_len _ _ _ Hri) as HF. eapply Forall_lookup_1 in HF; [|exact Hl].
    rewrite !length_app in *. cbn in HF. lia.
  - pose proof (ri_pipes _ _ _ Hri) as HF. eapply Forall_lookup_1 in HF; [|exact Hl].
    unfold dest_pipes in *. rewrite !fmap_app in *. cbn in HF.
    apply NoDup_app in HF as (H1 & H2 & H3). apply NoDup_cons in H3 as [H3 H4].
    apply NoDup_app. split_and!; [done| |done]. intros b Hb Hb'. apply (H2 b Hb). by right.
Qed.

(** The pointer surgery of CFE_SB_RemoveDestNode is [relink]. *)
Lemma wp_relink i l1 a y l2 tb Q s :
  routes_inv (Routes s) (Dests s) tb → tb !! i = Some (l1 ++ (a, y) :: l2) →
  (∀ r', sbr_inv r' →
     entries r' = alter (λ e, e <| ListHeadPtr := (hd NULL (l1 ++ l2).*1) |>) i (entries (Routes s)) →
     RouteIdxTop r' = RouteIdxTop (Routes s) → msgids r' = msgids (Routes s) →
     Q tt (s <| Routes := r' |> <| Dests := relink (Dests s) l1 l2 |>)) →
  wp (if (lst NULL l1 =? NULL) && (hd NULL l2.*1 =? NULL) then
        sbr (CFE_SBR_SetDestListHeadPtr (Z.of_nat i + 1) NULL)
      else if lst NULL l1 =? NULL then
        wr_dest (hd NULL l2.*1) (λ d, d <| dd_Prev := NULL |>);;
        sbr (CFE_SBR_SetDestListHeadPtr (Z.of_nat i + 1) (hd NULL l2.*1))
      else if hd NULL l2.*1 =? NULL then
        wr_dest (lst NULL l1) (λ d, d <| dd_Next := NULL |>)
      else
        wr_dest (lst NULL l1) (λ d, d <| dd_Next := (hd NULL l2.*1) |>);;
        wr_dest (hd NULL l2.*1) (λ d, d <| dd_Prev := lst NULL l1 |>)) Q s.
Proof.
  intros Hri Hl HQ. destruct (tb_route _ _ _ _ _ Hri Hl) as (e & He & Hh & Hc & Hr).
  pose proof (dlist_nonnull _ _ _ _ _ Hri Hl) as Hz. apply Forall_app in Hz as [Hz1 Hz2].
  apply Forall_cons in Hz2 as [_ Hz2].
  pose proof (tb_nodup_l _ _ _ (ri_nodup _ _ _ Hri) Hl) as Hnd. rewrite fmap_app in Hnd. cbn in Hnd.
  apply NoDup_app in Hnd as (_ & Hd & _). rewrite hd_app in Hh. cbn in Hh.
  apply chain_app in Hc as [Hc1 [_ Hc2]].
  assert (∀ p, ∃ r', CFE_SBR_SetDestListHeadPtr (Z.of_nat i + 1) p (Routes s) = Some (tt, r') ∧ sbr_inv r' ∧
    entries r' = alter (λ e, e <| ListHeadPtr := p |>) i (entries (Routes s)) ∧
    RouteIdxTop r' = RouteIdxTop (Routes s) ∧ msgids r' = msgids (Routes s)) as HS.
  { intros p. destruct (SetHead_spec (Routes s) (Z.of_nat i + 1) p (ri_sbr _ _ _ Hri) Hr) as (r' & ? & ? & Hen & ?).
    replace (Z.to_nat (Z.of_nat i + 1 - 1)) with i in Hen by lia. eauto 10. }
  assert (∀ p, ListHeadPtr e = p → Q tt (s <| Routes := Routes s |> <| Dests := relink (Dests s) l1 l2 |>) ∨
    p ≠ hd NULL (l1 ++ l2).*1) as Hsame.
  { intros p Hp. destruct (decide (p = hd NULL (l1 ++ l2).*1)) as [->|]; [left|by right].
    apply HQ; [apply Hri| |done|done]. symmetry. by eapply entries_same_head. }
  destruct (rev l1) as [|[c w] l1'] eqn:Er.
  - assert (l1 = []) as -> by by apply (f_equal (@rev _)) in Er; rewrite rev_involutive in Er.
    destruct l2 as [|[b z] l2]; cbn [hd fmap list_fmap map fst lst List.last].
    + destruct (HS NULL) as (r' & E & Hr' & Hen & Ht & Hm).
      eapply wp_sbr; [exact E|]. exact (HQ r' Hr' Hen Ht Hm).
    + assert (b ≠ NULL) as Hb by by inversion Hz2. rewrite (proj2 (Z.eqb_neq b NULL)) by done.
      change (NULL =? NULL) with true. cbn [andb].
      destruct Hc2 as [Eb _]. destruct (HS b) as (r' & E & Hr' & Hen & Ht & Hm).
      wp_step. eapply wp_wr_dest; [exact Eb|]. eapply wp_sbr; [exact E|]. exact (HQ r' Hr' Hen Ht Hm).
  - pose proof Er as Er'. apply rev_cons_inv in Er as ->. rewrite lst_snoc in *.
    assert (c ≠ NULL) as Hcz by (apply Forall_app in Hz1 as [_ Hz1]; by inversion Hz1).
    rewrite (proj2 (Z.eqb_neq c NULL)) by done. cbn [andb].
    apply chain_app in Hc1 as [_ [Ec _]].
    assert (ListHeadPtr e = hd NULL ((rev l1' ++ [(c, w)]) ++ l2).*1) as Hh'.
    { rewrite Hh, !hd_app. cbn. by destruct (rev l1') as [|[? ?] ?]. }
    destruct (Hsame _ Hh') as [HQ'|?]; [|done]. unfold relink in HQ'. rewrite Er' in HQ'.
    unfold relink_next in HQ'. rewrite lst_snoc in HQ'.
    destruct l2 as [|[b z] l2]; cbn [hd fmap list_fmap map fst] in *.
    + eapply wp_wr_dest; [exact Ec|]. exact HQ'.
    + assert (b ≠ NULL) as Hb by by inversion Hz2. rewrite (proj2 (Z.eqb_neq b NULL)) by done.
      destruct Hc2 as [Eb _].
      assert (c ≠ b) as Hcb.
      { intros ->. apply (Hd b); [rewrite fmap_app, elem_of_app; right; by left|]. right. by left. }
      wp_step. eapply wp_wr_dest; [exact Ec|]. eapply wp_wr_dest; [cbn; rewrite lookup_insert_ne by done; exact Eb|].
      match goal with |- Q _ ?x => match type of HQ' with Q _ ?y => replace x with y; [exact HQ'|] end end.
      cbn. by rewrite insert_insert_ne by done.
Qed.

Lemma wp_RemoveDestNode i l1 a y l2 tb Q s :
  routes_inv (Routes s) (Dests s) tb → tb !! i = Some (l1 ++ (a, y) :: l2) →
  (∀ r' D', routes_inv r' (delete a D') (<[i := l1 ++ l2]> tb) →
     RouteIdxTop r' = RouteIdxTop (Routes s) → msgids r' = msgids (Routes s) →
     dom D' = dom (Dests s) → Q tt (s <| Routes := r' |> <| Dests := D' |>)) →
  wp (CFE_SB_RemoveDestNode (Z.of_nat i + 1) a) Q s.
Proof.
  intros Hri Hl HQ. destruct (tb_route _ _ _ _ _ Hri Hl) as (e & _ & _ & Hc & _).
  pose proof (tb_nodup_l _ _ _ (ri_nodup _ _ _ Hri) Hl) as Hnd.
  assert (∀ b, b ∈ (l1 ++ (a, y) :: l2).*1 → b ∈ dom (Dests s)) as Hin
    by (intros b Hb; apply elem_of_dom; by eapply chain_dom).
  destruct (relink_chain _ _ _ _ _ Hnd Hc) as [_ Hs]. apply chain_app in Hc as [_ [Ea _]].
  unfold CFE_SB_RemoveDestNode. wp_step. eapply wp_rd_dest; [exact Ea|]. wp_step.
  rewrite fmap_app in Hnd, Hin. cbn in Hnd, Hin. apply NoDup_app in Hnd as (_ & Hd & Hn2).
  apply NoDup_cons in Hn2 as [Ha2 _].
  apply (wp_relink i l1 a y l2 tb); [done|done|]. intros r' Hr' Hen Ht Hm. wp_step.
  eapply wp_wr_dest.
  { cbn. rewrite Hs; [exact Ea| |done]. intros Ha. apply (Hd a Ha). by left. }
  eapply wp_wr_dest; [apply lookup_insert_eq|].
  match goal with |- Q _ ?x => replace x with
    (s <| Routes := r' |> <| Dests := <[a := mkd y NULL NULL]> (relink (Dests s) l1 l2) |>) end.
  2: { cbn. by rewrite insert_insert_eq. }
  assert (dom (relink (Dests s) l1 l2) = dom (Dests s)) as Hdom.
  { apply relink_dom; intros b Hb; apply Hin; rewrite elem_of_app, elem_of_cons; auto. }
  apply HQ; try done.
  - rewrite delete_insert_eq. by eapply routes_remove.
  - rewrite dom_insert_same; [done|]. rewrite Hdom. apply Hin. rewrite elem_of_app, elem_of_cons. auto.
Qed.

(** An update of a destination that keeps its links and its pipe. *)
Lemma routes_payload r D tb i l1 a y l2 y' :
  routes_inv r D tb → tb !! i = Some (l1 ++ (a, y) :: l2) → dd_PipeId y' = dd_PipeId y →
  D !! a = Some (mkd y (lst NULL l1) (hd NULL l2.*1)) ∧
  routes_inv r (<[a := mkd y' (lst NULL l1) (hd NULL l2.*1)]> D) (<[i := l1 ++ (a, y') :: l2]> tb).
Proof.
  intros Hri Hl Hp. destruct (tb_route _ _ _ _ _ Hri Hl) as (e & He & Hh & Hc & _).
  pose proof (tb_nodup_l _ _ _ (ri_nodup _ _ _ Hri) Hl) as Hnd. pose proof Hnd as Hnd'.
  rewrite fmap_app in Hnd. cbn in Hnd. apply NoDup_app in Hnd as (_ & Hd & Hn2).
  apply NoDup_cons in Hn2 as [Ha2 _].
  assert (a ∉ l1.*1) as Ha1 by (intros Ha; apply (Hd a Ha); by left).
  assert ((l1 ++ (a, y') :: l2).*1 = (l1 ++ (a, y) :: l2).*1) as Efst by by rewrite !fmap_app.
  assert (dest_pipes (l1 ++ (a, y') :: l2) = dest_pipes (l1 ++ (a, y) :: l2)) as Epipes.
  { unfold dest_pipes. rewrite !fmap_app. cbn. by rewrite Hp. }
  split; [by apply chain_app in Hc as [_ [Ea _]]|].
  apply (routes_update r D tb i (l1 ++ (a, y) :: l2)); rewrite ?Efst, ?Epipes; try done.
  - apply Hri.
  - symmetry. by eapply entries_same_head.
  - intros b Hb _. apply lookup_insert_ne. intros ->. apply Hb.
    rewrite fmap_app, elem_of_app. right. by left.
  - intros b Hb. by left.
  - eapply chain_upd; [done|done|exact Hc].
  - pose proof (ri_len _ _ _ Hri) as HF. eapply Forall_lookup_1 in HF; [|exact Hl].
    by rewrite length_app in *.
  - pose proof (ri_pipes _ _ _ Hri) as HF. by eapply Forall_lookup_1 in HF.
Qed.

End ops.
