(* ===== verification/SbBufs.v ===== *)
(** * Buffer descriptors: tracking lists and reference counts

    The two tracking lists are rings through the descriptors' links.  The use
    count of a descriptor is the number of references to it: the queues of the
    pipes, the pipes' last buffers, the callers in the middle of a call, and the
    owner of a zero copy buffer. *)
From S2P Require Import Prelude Config Msg Sbr SbrProps SbState SbBuf SbRoutes.

(** ** Rings *)

Definition mkl (_ : unit) (p n : addr) : CFE_SB_BufferLink_t := mkLink n p.
Abbreviation lmem := (gmap addr CFE_SB_BufferLink_t).

Definition un (l : list addr) : list (addr * unit) := (λ a, (a, tt)) <$> l.

Lemma un_fst l : (un l).*1 = l.
Proof. unfold un. rewrite <- list_fmap_compose. cbn. apply list_fmap_id. Qed.

Lemma un_app l k : un (l ++ k) = un l ++ un k.
Proof. apply fmap_app. Qed.

(** The list with head [h] and nodes [l] in order. *)
Definition ring (L : lmem) (h : addr) (l : list addr) : Prop :=
  chain mkl L (List.last l h) (un (h :: l)) h.

Lemma ring_frame L L' h l : (∀ b, b ∈ h :: l → L' !! b = L !! b) → ring L h l → ring L' h l.
Proof. intros Hf. apply chain_frame. rewrite un_fst. exact Hf. Qed.

Lemma ring_dom L h l b : ring L h l → b ∈ h :: l → is_Some (L !! b).
Proof. intros Hr Hb. eapply chain_dom; [|exact Hr]. by rewrite un_fst. Qed.

Lemma last_cons {A} (l : list A) x d : List.last (x :: l) d = List.last l x.
Proof. revert x d. induction l as [|y l IH]; intros x d; [done|]. by rewrite (IH y x), <- (IH y d). Qed.

Lemma last_app_cons {A} (l1 l2 : list A) x d : List.last (l1 ++ x :: l2) d = List.last l2 x.
Proof. revert d. induction l1 as [|y l1 IH]; intros d; cbn [app]; rewrite last_cons; auto. Qed.

Lemma last_in {A} (l : list A) d : l ≠ [] → List.last l d ∈ l.
Proof.
  intros Hne. destruct (exists_last Hne) as (k & c & ->). rewrite List.last_last, elem_of_app. right. by left.
Qed.

Lemma lst_un p l : lst p (un l) = List.last l p.
Proof. unfold lst. by rewrite un_fst. Qed.

Lemma un_cons a l : un (a :: l) = (a, tt) :: un l.
Proof. done. Qed.

Lemma ring_node L h l1 x l2 : ring L h (l1 ++ x :: l2) →
  L !! x = Some (mkLink (hd h l2) (List.last l1 h)).
Proof.
  unfold ring. change (h :: l1 ++ x :: l2) with ((h :: l1) ++ x :: l2).
  rewrite un_app. intros [_ Hc]%chain_app. rewrite un_cons, lst_cons, lst_un in Hc.
  rewrite un_cons in Hc. destruct Hc as [E _]. by rewrite E, un_fst.
Qed.

Lemma ring_head L h l : ring L h l → L !! h = Some (mkLink (hd h l) (List.last l h)).
Proof. unfold ring. rewrite un_cons. intros [E _]. by rewrite E, un_fst. Qed.

(** The ring with a node taken out. *)
Definition unring (L : lmem) (h : addr) (l1 : list addr) (x : addr) (l2 : list addr) : lmem :=
  let c := List.last l1 h in
  let n := hd h l2 in
  let L1 := alter (λ k, k <| lk_Next := n |>) c L in
  let L2 := alter (λ k, k <| lk_Prev := c |>) n L1 in
  <[x := mkLink x x]> L2.

Lemma unring_out L h l1 x l2 b : b ∉ h :: l1 ++ x :: l2 → unring L h l1 x l2 !! b = L !! b.
Proof.
  intros Hb. rewrite elem_of_cons, elem_of_app, elem_of_cons in Hb.
  unfold unring. rewrite lookup_insert_ne by (intros ->; tauto).
  rewrite lookup_alter_ne, lookup_alter_ne; [done| |].
  - intros <-. apply Hb. destruct (decide (l1 = [])) as [->|Hne]; [by left|].
    right. left. by apply last_in.
  - intros <-. apply Hb. destruct l2; cbn; [by left|]. right. right. right. by left.
Qed.

Lemma unring_dom L h l1 x l2 : x ∈ dom L → dom (unring L h l1 x l2) = dom L.
Proof.
  intros Hx. unfold unring. rewrite dom_insert_L, !dom_alter_L.
  by apply subseteq_union_1_L, singleton_subseteq_l.
Qed.

Lemma unring_self L h l1 x l2 : unring L h l1 x l2 !! x = Some (mkLink x x).
Proof. apply lookup_insert_eq. Qed.

(** A ring is determined by its nodes. *)
Lemma ring_intro L h l :
  L !! h = Some (mkLink (hd h l) (List.last l h)) →
  (∀ l1 x l2, l = l1 ++ x :: l2 → L !! x = Some (mkLink (hd h l2) (List.last l1 h))) →
  ring L h l.
Proof.
  intros Hh Hx. unfold ring. rewrite un_cons. cbn [chain]. rewrite un_fst. split; [exact Hh|]. clear Hh.
  assert (∀ m k, l = k ++ m → chain mkl L (List.last k h) (un m) h) as Hgen; [|by apply (Hgen l [])].
  induction m as [|x m IH]; intros k E; [done|].
  rewrite un_cons. cbn [chain]. rewrite un_fst. split; [by apply Hx|].
  specialize (IH (k ++ [x])). rewrite List.last_last in IH. apply IH.
  by rewrite <- (assoc_L (++)).
Qed.

Lemma unring_lookup L h l1 x l2 y k : y ≠ x → L !! y = Some k →
  unring L h l1 x l2 !! y =
    Some (mkLink (if decide (y = List.last l1 h) then hd h l2 else lk_Next k)
                 (if decide (y = hd h l2) then List.last l1 h else lk_Prev k)).
Proof.
  intros Hy E. unfold unring. rewrite lookup_insert_ne by done.
  destruct (decide (y = hd h l2)) as [->|Hn]; [rewrite lookup_alter_eq|rewrite lookup_alter_ne by done];
    (destruct (decide (_ = List.last l1 h)) as [Hc|Hc];
     [rewrite <- Hc, lookup_alter_eq|rewrite lookup_alter_ne by done]); rewrite E; cbn; by destruct k.
Qed.

Lemma unring_ring L h l1 x l2 : NoDup (h :: l1 ++ x :: l2) → ring L h (l1 ++ x :: l2) →
  ring (unring L h l1 x l2) h (l1 ++ l2).
Proof.
  intros Hnd Hr. apply NoDup_cons in Hnd as [Hh Hnd]. apply NoDup_app in Hnd as (Hn1 & Hd & Hn2).
  apply NoDup_cons in Hn2 as [Hx2 Hn2]. rewrite elem_of_app, elem_of_cons in Hh.
  assert (h ≠ x ∧ (h ∉ l1) ∧ (h ∉ l2)) as (Hhx & Hh1 & Hh2) by tauto.
  assert (∀ y, y ∈ l1 → (y ∉ l2) ∧ y ≠ x) as Hd1.
  { intros y Hy. specialize (Hd y Hy). rewrite elem_of_cons in Hd. tauto. }
  assert (∀ y, y ∈ l1 → y ≠ hd h l2) as Hln.
  { intros y Hy ->. destruct l2 as [|b l2]; [done|]. apply (proj1 (Hd1 _ Hy)). by left. }
  assert (∀ y, y ∈ l2 → y ≠ List.last l1 h) as Hlc.
  { intros y Hy ->. destruct (decide (l1 = [])) as [->|Hne]; [done|].
    by apply (proj1 (Hd1 _ (last_in l1 h Hne))). }
  assert (∀ y, y ∈ l2 → y ≠ x) as H2x by (intros y Hy ->; done).
  apply ring_intro.
  - rewrite (unring_lookup _ _ _ _ _ _ _ Hhx (ring_head _ _ _ Hr)). cbn [lk_Next lk_Prev]. do 2 f_equal.
    + destruct l1 as [|a l1]; cbn [app hd].
      * by rewrite decide_True.
      * rewrite decide_False; [done|]. intros E. apply Hh1. rewrite E. by apply last_in.
    + destruct l2 as [|b l2]; cbn [hd].
      * rewrite decide_True by done. by rewrite app_nil_r.
      * rewrite decide_False by (intros ->; apply Hh2; by left). by rewrite !last_app_cons, last_cons.
  - intros j1 y j2 E. apply app_eq_inv in E as [(k & E1 & E2)|(k & -> & ->)].
    + destruct k as [|z k]; cbn in E2.
      * rewrite app_nil_r in E1. subst j1 l2. pose proof (ring_node L h (l1 ++ [x]) y j2) as Hnode.
        rewrite <- (assoc_L (++)) in Hnode. specialize (Hnode Hr).
        rewrite (unring_lookup _ _ _ _ _ _ _ (H2x y ltac:(by left)) Hnode). cbn [lk_Next lk_Prev hd].
        rewrite (decide_True (P := y = y)) by done. by rewrite decide_False by (apply Hlc; by left).
      * injection E2 as -> ->. subst l1. pose proof (ring_node L h j1 z (k ++ x :: l2)) as Hnode.
        rewrite <- (assoc_L (++)) in Hr. specialize (Hnode Hr).
        assert (z ∈ j1 ++ z :: k) as Hz by (rewrite elem_of_app; right; by left).
        rewrite (unring_lookup _ _ _ _ _ _ _ (proj2 (Hd1 z Hz)) Hnode). cbn [lk_Next lk_Prev].
        rewrite (decide_False (P := z = hd h l2)) by by apply Hln. do 2 f_equal.
        rewrite last_app_cons. destruct k as [|w k]; cbn [app hd]; [by rewrite decide_True|].
        rewrite decide_False; [done|]. intros E.
        apply NoDup_app in Hn1 as (_ & _ & Hn1). apply NoDup_cons in Hn1 as [Hn1 _]. apply Hn1.
        rewrite E. by apply last_in.
    + pose proof (ring_node L h (l1 ++ x :: k) y j2) as Hnode.
      rewrite <- (assoc_L (++)) in Hnode. specialize (Hnode Hr).
      assert (y ∈ k ++ y :: j2) as Hy by (rewrite elem_of_app; right; by left).
      rewrite (unring_lookup _ _ _ _ _ _ _ (H2x y Hy) Hnode). cbn [lk_Next lk_Prev].
      rewrite (decide_False (P := y = List.last l1 h)) by by apply Hlc. do 2 f_equal.
      rewrite last_app_cons. destruct k as [|w k]; cbn [hd app].
      * rewrite decide_True by done. by rewrite app_nil_r.
      * rewrite decide_False; [by rewrite last_app_cons, last_cons|].
        intros ->. cbn in Hn2. apply NoDup_cons in Hn2 as [Hn2 _]. apply Hn2.
        rewrite elem_of_app. right. by left.
Qed.

(** The ring with a node put in at the tail. *)
Definition addring (L : lmem) (h : addr) (l : list addr) (x : addr) : lmem :=
  let c := List.last l h in
  alter (λ k, k <| lk_Prev := x |>) h
    (alter (λ k, k <| lk_Next := x |>) c (<[x := mkLink h c]> L)).

Lemma addring_lookup L h l x y k : y ≠ x → L !! y = Some k →
  addring L h l x !! y =
    Some (mkLink (if decide (y = List.last l h) then x else lk_Next k)
                 (if decide (y = h) then x else lk_Prev k)).
Proof.
  intros Hy E. unfold addring.
  destruct (decide (y = h)) as [->|Hn]; [rewrite lookup_alter_eq|rewrite lookup_alter_ne by done];
    (destruct (decide (_ = List.last l h)) as [Hc|Hc];
     [rewrite <- Hc, lookup_alter_eq|rewrite lookup_alter_ne by done]);
    rewrite lookup_insert_ne, E by done; cbn; by destruct k.
Qed.

Lemma addring_self L h l x : x ≠ h → x ∉ l → addring L h l x !! x = Some (mkLink h (List.last l h)).
Proof.
  intros Hh Hl. assert (List.last l h ≠ x).
  { intros E. destruct (decide (l = [])) as [->|Hne]; [done|]. apply Hl. rewrite <- E. by apply last_in. }
  unfold addring. by rewrite !lookup_alter_ne, lookup_insert_eq by done.
Qed.

Lemma addring_out L h l x b : b ∉ h :: l → b ≠ x → addring L h l x !! b = L !! b.
Proof.
  rewrite elem_of_cons. intros Hb Hx. unfold addring.
  rewrite !lookup_alter_ne, lookup_insert_ne; [done|done| |].
  - intros <-. apply Hb. destruct (decide (l = [])) as [->|Hne]; [by left|]. right. by apply last_in.
  - intros <-. tauto.
Qed.

Lemma addring_dom L h l x : x ∈ dom L → dom (addring L h l x) = dom L.
Proof.
  intros Hx. unfold addring. rewrite !dom_alter_L, dom_insert_L.
  by apply subseteq_union_1_L, singleton_subseteq_l.
Qed.

Lemma addring_ring L h l x : NoDup (h :: l) → x ∉ h :: l → ring L h l → ring (addring L h l x) h (l ++ [x]).
Proof.
  intros Hnd Hx Hr. apply NoDup_cons in Hnd as [Hh Hnd]. rewrite elem_of_cons in Hx.
  assert (x ≠ h ∧ (x ∉ l)) as [Hxh Hxl] by tauto. apply ring_intro.
  - rewrite (addring_lookup _ _ _ _ _ _ (not_eq_sym Hxh) (ring_head _ _ _ Hr)). cbn [lk_Next lk_Prev].
    rewrite (decide_True (P := h = h)) by done. rewrite List.last_last. do 2 f_equal.
    destruct l as [|a l]; [by rewrite decide_True|]. rewrite decide_False; [done|].
    intros E. apply Hh. rewrite E. by apply last_in.
  - intros j1 y j2 E. destruct (decide (j2 = [])) as [->|Hj].
    + apply app_inj_2 in E as [-> [= ->]]; [|done]. by rewrite addring_self.
    + destruct (exists_last Hj) as (j & z & ->). rewrite app_comm_cons, (assoc_L (++)) in E.
      apply app_inj_2 in E as [-> [= ->]]; [|done].
      assert (y ∈ j1 ++ y :: j) as Hy by (rewrite elem_of_app; right; by left).
      assert (y ≠ z) as Hyz by (intros ->; done).
      rewrite (addring_lookup _ _ _ _ _ _ Hyz (ring_node _ _ _ _ _ Hr)). cbn [lk_Next lk_Prev].
      rewrite (decide_False (P := y = h)) by (intros ->; done). do 2 f_equal.
      rewrite last_app_cons. destruct j as [|w j]; cbn [app hd]; [by rewrite decide_True|].
      rewrite decide_False; [done|]. intros E.
      apply NoDup_app in Hnd as (_ & _ & Hnd). apply NoDup_cons in Hnd as [Hnd _]. apply Hnd.
      rewrite E. by apply last_in.
Qed.

(** ** The tracking list operations *)

Section tracking.
Context {PS QS : Type}.
Abbreviation G := (CFE_SB_Global_t PS QS).
Implicit Types (s : G).

Lemma wp_TrackingListReset x k Q s : Links s !! x = Some k →
  Q tt (s <| Links ::= <[x := mkLink x x]> |>) → wp (CFE_SB_TrackingListReset x) Q s.
Proof.
  intros E HQ. unfold CFE_SB_TrackingListReset. wp_step. eapply wp_wr_link; [exact E|].
  eapply wp_wr_link; [apply lookup_insert_eq|].
  match goal with |- Q _ ?y => match type of HQ with Q _ ?z => replace y with z; [exact HQ|] end end.
  cbn. by rewrite insert_insert_eq.
Qed.

(** A descriptor that is in no list. *)
Lemma wp_TrackingListRemove_single x Q s : Links s !! x = Some (mkLink x x) →
  Q tt s → wp (CFE_SB_TrackingListRemove x) Q s.
Proof.
  intros E HQ. unfold CFE_SB_TrackingListRemove.
  wp_step. eapply wp_rd_link; [exact E|]. wp_step. cbn [lk_Prev lk_Next].
  eapply wp_wr_link; [exact E|]. wp_step. eapply wp_rd_link; [apply lookup_insert_eq|]. wp_step.
  cbn [lk_Prev lk_Next]. eapply wp_wr_link; [apply lookup_insert_eq|].
  eapply wp_TrackingListReset; [apply lookup_insert_eq|].
  match goal with |- Q _ ?y => replace y with s; [exact HQ|] end.
  destruct s. cbn in *. by rewrite !insert_insert_eq, insert_id.
Qed.

Lemma alter_insert_lookup (L : lmem) i f k : L !! i = Some k → <[i := f k]> L = alter f i L.
Proof.
  intros E. apply map_eq. intros j. destruct (decide (i = j)) as [<-|].
  - by rewrite lookup_insert_eq, lookup_alter_eq, E.
  - by rewrite lookup_insert_ne, lookup_alter_ne.
Qed.

Lemma ring_neighbours L h l1 x l2 : NoDup (h :: l1 ++ x :: l2) → ring L h (l1 ++ x :: l2) →
  is_Some (L !! List.last l1 h) ∧ is_Some (L !! hd h l2) ∧ List.last l1 h ≠ x ∧ hd h l2 ≠ x.
Proof.
  intros Hnd Hr. apply NoDup_cons in Hnd as [Hh Hnd]. apply NoDup_app in Hnd as (_ & Hd & Hn2).
  apply NoDup_cons in Hn2 as [Hx2 _]. rewrite elem_of_app, elem_of_cons in Hh.
  assert (List.last l1 h ∈ h :: l1) as H1.
  { rewrite <- (last_cons l1 h h). by apply last_in. }
  assert (hd h l2 ∈ h :: l2) as H2 by (destruct l2; cbn; [by left|right; by left]).
  split_and!.
  - eapply ring_dom; [done|]. rewrite elem_of_cons, elem_of_app in *. tauto.
  - eapply ring_dom; [done|]. rewrite elem_of_cons, elem_of_app, elem_of_cons in *. tauto.
  - intros E. rewrite E, elem_of_cons in H1. destruct H1 as [->|H1]; [tauto|].
    apply (Hd x H1). by left.
  - intros E. rewrite E, elem_of_cons in H2. destruct H2 as [->|H2]; tauto.
Qed.

Lemma wp_TrackingListRemove h l1 x l2 Q s :
  NoDup (h :: l1 ++ x :: l2) → ring (Links s) h (l1 ++ x :: l2) →
  Q tt (s <| Links := unring (Links s) h l1 x l2 |>) → wp (CFE_SB_TrackingListRemove x) Q s.
Proof.
  intros Hnd Hr HQ. pose proof (ring_node _ _ _ _ _ Hr) as Ex.
  destruct (ring_neighbours _ _ _ _ _ Hnd Hr) as ([kc Ec] & [kn En] & Hc & Hn).
  unfold CFE_SB_TrackingListRemove. wp_step. eapply wp_rd_link; [exact Ex|]. wp_step.
  cbn [lk_Prev lk_Next]. eapply wp_wr_link; [exact Ec|]. wp_step.
  eapply wp_rd_link; [cbn; rewrite lookup_insert_ne by done; exact Ex|]. wp_step. cbn [lk_Prev lk_Next].
  set (L1 := <[List.last l1 h := kc <| lk_Next := hd h l2 |>]> (Links s)).
  assert (is_Some (L1 !! hd h l2)) as [k1 E1].
  { unfold L1. destruct (decide (List.last l1 h = hd h l2)) as [->|]; [rewrite lookup_insert_eq; eauto|].
    rewrite lookup_insert_ne by done. eauto. }
  eapply wp_wr_link; [exact E1|].
  eapply (wp_TrackingListReset x (mkLink (hd h l2) (List.last l1 h))).
  { cbn. rewrite lookup_insert_ne by done. unfold L1. by rewrite lookup_insert_ne by done. }
  assert (unring (Links s) h l1 x l2 =
    <[x := mkLink x x]> (<[hd h l2 := k1 <| lk_Prev := List.last l1 h |>]> L1)) as EL.
  { unfold unring. f_equal.
    rewrite (alter_insert_lookup L1 (hd h l2) (λ k, k <| lk_Prev := List.last l1 h |>)) by done.
    f_equal. symmetry. by apply (alter_insert_lookup (Links s) _ (λ k, k <| lk_Next := hd h l2 |>)). }
  rewrite EL in HQ. exact HQ.
Qed.

Lemma wp_TrackingListAdd h l x Q s :
  NoDup (h :: l) → x ∉ h :: l → ring (Links s) h l → is_Some (Links s !! x) →
  Q tt (s <| Links := addring (Links s) h l x |>) → wp (CFE_SB_TrackingListAdd h x) Q s.
Proof.
  intros Hnd Hx Hr [k Ek] HQ. pose proof (ring_head _ _ _ Hr) as Eh. rewrite elem_of_cons in Hx.
  assert (List.last l h ∈ h :: l) as Hin by (rewrite <- (last_cons l h h); by apply last_in).
  assert (List.last l h ≠ x) as Hcx by (intros E; rewrite E, elem_of_cons in Hin; tauto).
  destruct (ring_dom _ _ _ _ Hr Hin) as [kc Ec].
  unfold CFE_SB_TrackingListAdd. wp_step. eapply wp_rd_link; [exact Eh|]. wp_step. cbn [lk_Prev].
  eapply wp_wr_link; [exact Ek|]. wp_step. eapply wp_wr_link; [apply lookup_insert_eq|]. wp_step.
  eapply wp_rd_link; [apply lookup_insert_eq|]. wp_step. cbn [lk_Prev lk_Next].
  eapply wp_wr_link; [cbn; rewrite !lookup_insert_ne by done; exact Ec|]. wp_step.
  eapply wp_rd_link; [cbn; rewrite lookup_insert_ne by done; apply lookup_insert_eq|]. cbn [lk_Prev lk_Next].
  match goal with |- wp (wr_link h _) _ ?y => set (s1 := y) end.
  assert (Links s1 = alter (λ j, j <| lk_Next := x |>) (List.last l h) (<[x := mkLink h (List.last l h)]> (Links s))) as E1.
  { transitivity (<[List.last l h := kc <| lk_Next := x |>]> (<[x := mkLink h (List.last l h)]> (Links s))).
    - unfold s1. cbn. by rewrite insert_insert_eq.
    - apply (alter_insert_lookup _ _ (λ j, j <| lk_Next := x |>)). by rewrite lookup_insert_ne. }
  assert (is_Some (Links s1 !! h)) as [k1 Ek1].
  { rewrite E1, lookup_alter_is_Some, lookup_insert_ne by naive_solver. eauto. }
  eapply wp_wr_link; [exact Ek1|].
  assert (addring (Links s) h l x = <[h := k1 <| lk_Prev := x |>]> (Links s1)) as EL.
  { unfold addring. rewrite <- E1. symmetry. by apply (alter_insert_lookup _ h (λ j, j <| lk_Prev := x |>)). }
  rewrite EL in HQ. exact HQ.
Qed.

End tracking.
