(* ===== verification/SbInv.v ===== *)
(** * Reference counts

    The use count of a buffer descriptor is the number of references to it, and a
    descriptor without references is back in the pool. *)
From S2P Require Import Prelude Config Msg ResourceId Sbr SbrProps SbState SbBuf SbRoutes SbBufs.

(** ** Counting *)

Definition cnt (a : addr) (l : list addr) : Z := Z.of_nat (length (filter (λ x, x = a) l)).

Lemma cnt_nil a : cnt a [] = 0.
Proof. done. Qed.

Lemma cnt_cons a x l : cnt a (x :: l) = (if decide (x = a) then 1 else 0) + cnt a l.
Proof. unfold cnt. rewrite filter_cons. destruct (decide (x = a)); cbn [length]; lia. Qed.

Lemma cnt_app a l k : cnt a (l ++ k) = cnt a l + cnt a k.
Proof. unfold cnt. rewrite filter_app, length_app. lia. Qed.

Lemma cnt_nonneg a l : 0 <= cnt a l.
Proof. unfold cnt. lia. Qed.

#[export] Instance cnt_perm a : Proper ((≡ₚ) ==> eq) (cnt a).
Proof. intros l k E. unfold cnt. by rewrite E. Qed.

Lemma cnt_elem a l : a ∈ l ↔ 0 < cnt a l.
Proof.
  induction l as [|x l IH]; [rewrite cnt_nil; split; [by intros ?%elem_of_nil|lia]|].
  rewrite elem_of_cons, cnt_cons, IH. pose proof (cnt_nonneg a l).
  destruct (decide (x = a)); split; intros; try lia; naive_solver lia.
Qed.

Lemma cnt_not a l : a ∉ l → cnt a l = 0.
Proof. rewrite cnt_elem. pose proof (cnt_nonneg a l). lia. Qed.

(** [l] without [a]. *)
Definition without (a : addr) (l : list addr) : list addr := filter (λ x, x ≠ a) l.

Lemma without_elem a l x : x ∈ without a l ↔ x ≠ a ∧ x ∈ l.
Proof. unfold without. by rewrite list_elem_of_filter. Qed.

Lemma without_notin a l : a ∉ l → without a l = l.
Proof.
  unfold without. induction l as [|x l IH]; [done|]. rewrite elem_of_cons. intros Ha.
  rewrite filter_cons_True by naive_solver. f_equal. apply IH. tauto.
Qed.

Lemma without_split l1 a l2 : NoDup (l1 ++ a :: l2) → without a (l1 ++ a :: l2) = l1 ++ l2.
Proof.
  intros (H1 & Hd & H2)%NoDup_app. apply NoDup_cons in H2 as [H2 _].
  assert (a ∉ l1) by (intros Ha; apply (Hd a Ha); by left).
  unfold without. rewrite filter_app, filter_cons_False by naive_solver.
  f_equal; by apply without_notin.
Qed.

(** ** Tracking lists over the allocated descriptors *)

Record links_ok (L : lmem) (zs ts : list addr) (D : gset addr) : Prop := {
  lo_z : ring L ZeroCopyList zs;
  lo_t : ring L InTransitList ts;
  lo_nodup : NoDup (zs ++ ts);
  lo_in a : a ∈ zs ++ ts → a ∈ D;
  lo_single a : a ∈ D → a ∈ zs ∨ a ∈ ts ∨ L !! a = Some (mkLink a a);
  lo_dom : dom L = {[ZeroCopyList; InTransitList]} ∪ D;
  lo_pos a : a ∈ D → 0 < a;
}.

Lemma links_nodup L zs ts D : links_ok L zs ts D →
  NoDup (ZeroCopyList :: zs) ∧ NoDup (InTransitList :: ts) ∧
  (∀ b, b ∈ ZeroCopyList :: zs → b ∉ InTransitList :: ts).
Proof.
  intros Hl. pose proof (lo_nodup _ _ _ _ Hl) as (Hz & Hd & Ht)%NoDup_app.
  assert (∀ b, b ∈ zs → 0 < b) as Hpz.
  { intros b Hb. eapply lo_pos, lo_in; [done..|]. apply elem_of_app. by left. }
  assert (∀ b, b ∈ ts → 0 < b) as Hpt.
  { intros b Hb. eapply lo_pos, lo_in; [done..|]. apply elem_of_app. by right. }
  split_and!.
  - apply NoDup_cons. split; [|done]. intros H%Hpz. done.
  - apply NoDup_cons. split; [|done]. intros H%Hpt. done.
  - intros b [->|Hb]%elem_of_cons [E|Hb']%elem_of_cons.
    + done.
    + by apply Hpt in Hb'.
    + subst b. by apply Hpz in Hb.
    + by eapply Hd.
Qed.

Lemma links_alloc L zs ts D a : links_ok L zs ts D → a ∉ D → 0 < a →
  links_ok (<[a := mkLink a a]> L) zs ts ({[a]} ∪ D).
Proof.
  intros Hl Ha Hp. assert (a ∉ zs ++ ts) as Hn by (intros Hin; by apply Ha, (lo_in _ _ _ _ Hl)).
  rewrite elem_of_app in Hn.
  assert (∀ h, h < 0 → a ≠ h) as Hh by lia.
  split.
  - apply (ring_frame L); [|apply Hl]. intros b Hb. apply lookup_insert_ne. intros <-.
    apply elem_of_cons in Hb as [->|Hb]; [done|tauto].
  - apply (ring_frame L); [|apply Hl]. intros b Hb. apply lookup_insert_ne. intros <-.
    apply elem_of_cons in Hb as [->|Hb]; [done|tauto].
  - apply Hl.
  - intros b Hb. apply elem_of_union_r. by apply Hl.
  - intros b [->%elem_of_singleton|Hb]%elem_of_union; [rewrite lookup_insert_eq; auto|].
    rewrite lookup_insert_ne by (intros ->; done). by apply Hl.
  - rewrite dom_insert_L, (lo_dom _ _ _ _ Hl). apply set_eq. intros b. rewrite !elem_of_union. tauto.
  - intros b [->%elem_of_singleton|Hb]%elem_of_union; [done|]. by eapply lo_pos.
Qed.

Lemma links_free L zs ts D a : links_ok L zs ts D → a ∈ D → a ∉ zs → a ∉ ts →
  links_ok (delete a L) zs ts (D ∖ {[a]}).
Proof.
  intros Hl Ha Hz Ht. pose proof (lo_pos _ _ _ _ Hl a Ha) as Hp. split.
  - apply (ring_frame L); [|apply Hl]. intros b Hb. apply lookup_delete_ne. intros <-.
    apply elem_of_cons in Hb as [->|Hb]; done.
  - apply (ring_frame L); [|apply Hl]. intros b Hb. apply lookup_delete_ne. intros <-.
    apply elem_of_cons in Hb as [->|Hb]; done.
  - apply Hl.
  - intros b Hb. rewrite elem_of_difference, elem_of_singleton. split; [by apply Hl|].
    intros ->. apply elem_of_app in Hb. tauto.
  - intros b (Hb & Hn)%elem_of_difference. rewrite elem_of_singleton in Hn.
    rewrite lookup_delete_ne by done. by apply Hl.
  - rewrite dom_delete_L, (lo_dom _ _ _ _ Hl). apply set_eq. intros b.
    rewrite !elem_of_difference, !elem_of_union, !elem_of_difference, !elem_of_singleton.
    assert (ZeroCopyList ≠ a ∧ InTransitList ≠ a) by (split; intros <-; done). intuition congruence.
  - intros b [Hb _]%elem_of_difference. by eapply lo_pos.
Qed.

(** A permutation of the roles: which list a descriptor is in. *)
Section unlink.
Context {PS QS : Type}.
Abbreviation G := (CFE_SB_Global_t PS QS).
Implicit Types (s : G).

Lemma wp_unlink a zs ts D Q s :
  links_ok (Links s) zs ts D → a ∈ D →
  (∀ L', links_ok L' (without a zs) (without a ts) D → L' !! a = Some (mkLink a a) →
     Q tt (s <| Links := L' |>)) →
  wp (CFE_SB_TrackingListRemove a) Q s.
Proof.
  intros Hl Ha HQ. destruct (links_nodup _ _ _ _ Hl) as (Hnz & Hnt & Hd).
  pose proof (lo_nodup _ _ _ _ Hl) as (Hz & Hdj & Ht)%NoDup_app.
  assert (a ∈ dom (Links s)) as HaL by (rewrite (lo_dom _ _ _ _ Hl); by apply elem_of_union_r).
  assert (∀ L', ring L' ZeroCopyList (without a zs) → ring L' InTransitList (without a ts) →
    L' !! a = Some (mkLink a a) → dom L' = dom (Links s) →
    (∀ b, b ∉ zs → b ∉ ts → b ∈ D → Links s !! b = Some (mkLink b b) → L' !! b = Some (mkLink b b)) →
    links_ok L' (without a zs) (without a ts) D) as Hok.
  { intros L' H1 H2 H3 H4 H5. split; try done.
    - unfold without. rewrite <- filter_app. apply NoDup_filter, Hl.
    - intros b. unfold without. rewrite <- filter_app. intros [_ Hb]%list_elem_of_filter. by apply Hl.
    - intros b Hb. rewrite !without_elem. destruct (decide (b = a)) as [->|Hne]; [auto|].
      destruct (decide (b ∈ zs)); [auto|]. destruct (decide (b ∈ ts)); [auto|].
      destruct (lo_single _ _ _ _ Hl b Hb) as [?|[?|E]]; [done..|]. auto.
    - by rewrite H4, (lo_dom _ _ _ _ Hl).
    - apply Hl. }
  destruct (lo_single _ _ _ _ Hl a Ha) as [Hin|[Hin|Hs]].
  - apply list_elem_of_split in Hin as (l1 & l2 & ->).
    eapply wp_TrackingListRemove; [exact Hnz|apply Hl|]. apply HQ; [|apply unring_self].
    assert (a ∉ ts) as Hat by (apply Hdj; rewrite elem_of_app; right; by left).
    apply Hok.
    + rewrite without_split by done. apply unring_ring; [done|apply Hl].
    + rewrite without_notin by done. apply (ring_frame (Links s)); [|apply Hl].
      intros b Hb. apply unring_out. intros Hb'. by eapply Hd.
    + apply unring_self.
    + by apply unring_dom.
    + intros b Hb1 _ Hb2 E. rewrite unring_out; [done|]. rewrite elem_of_cons. intros [->|?]; [|done].
      by apply (lo_pos _ _ _ _ Hl) in Hb2.
  - apply list_elem_of_split in Hin as (l1 & l2 & ->).
    eapply wp_TrackingListRemove; [exact Hnt|apply Hl|]. apply HQ; [|apply unring_self].
    assert (a ∉ zs) as Hat by (intros Haz; apply (Hdj _ Haz); rewrite elem_of_app; right; by left).
    apply Hok.
    + rewrite without_notin by done. apply (ring_frame (Links s)); [|apply Hl].
      intros b Hb. apply unring_out. by apply Hd.
    + rewrite without_split by done. apply unring_ring; [done|apply Hl].
    + apply unring_self.
    + by apply unring_dom.
    + intros b _ Hb1 Hb2 E. rewrite unring_out; [done|]. rewrite elem_of_cons. intros [->|?]; [|done].
      by apply (lo_pos _ _ _ _ Hl) in Hb2.
  - apply wp_TrackingListRemove_single; [done|].
    assert (((a ∉ zs) ∧ (a ∉ ts)) ∨ (a ∈ zs ∨ a ∈ ts)) as [[Hz' Ht']|Hin] by
      (destruct (decide (a ∈ zs)), (decide (a ∈ ts)); tauto).
    + specialize (HQ (Links s)). replace (s <| Links := Links s |>) with s in HQ by by destruct s.
      apply HQ; [|done]. apply Hok; rewrite ?without_notin by done; try done; apply Hl.
    + (* a node of a list is not linked to itself *)
      exfalso. destruct Hin as [Hin|Hin]; apply list_elem_of_split in Hin as (l1 & l2 & ->).
      * pose proof (ring_node _ _ _ _ _ (lo_z _ _ _ _ Hl)) as E. rewrite Hs in E. injection E as E1 E2.
        destruct (ring_neighbours _ _ _ _ _ Hnz (lo_z _ _ _ _ Hl)) as (_ & _ & H1 & _). congruence.
      * pose proof (ring_node _ _ _ _ _ (lo_t _ _ _ _ Hl)) as E. rewrite Hs in E. injection E as E1 E2.
        destruct (ring_neighbours _ _ _ _ _ Hnt (lo_t _ _ _ _ Hl)) as (_ & _ & H1 & _). congruence.
Qed.

Lemma links_add L h l zs ts D a :
  links_ok L zs ts D → a ∈ D → a ∉ zs → a ∉ ts →
  (h, l) = (ZeroCopyList, zs) ∨ (h, l) = (InTransitList, ts) →
  links_ok (addring L h l a) (if decide (h = ZeroCopyList) then zs ++ [a] else zs)
    (if decide (h = ZeroCopyList) then ts else ts ++ [a]) D.
Proof.
  intros Hl Ha Hz Ht Hh. destruct (links_nodup _ _ _ _ Hl) as (Hnz & Hnt & Hd).
  pose proof (lo_pos _ _ _ _ Hl a Ha) as Hp.
  assert (a ∈ dom L) as HaL by (rewrite (lo_dom _ _ _ _ Hl); by apply elem_of_union_r).
  assert (a ∉ ZeroCopyList :: zs) as Hz' by (rewrite elem_of_cons; intros [->|?]; done).
  assert (a ∉ InTransitList :: ts) as Ht' by (rewrite elem_of_cons; intros [->|?]; done).
  assert (∀ b, b ∈ D → b ∉ l → b ≠ a → addring L h l a !! b = L !! b) as Hout.
  { intros b Hb Hbl Hba. apply addring_out; [|done]. rewrite elem_of_cons. intros [->|?]; [|done].
    apply (lo_pos _ _ _ _ Hl) in Hb. destruct Hh as [[= -> ->]|[= -> ->]]; done. }
  destruct Hh as [[= -> ->]|[= -> ->]].
  - rewrite !decide_True by done. split.
    + apply addring_ring; [done|done|apply Hl].
    + apply (ring_frame L); [|apply Hl]. intros b Hb. apply addring_out; [|by intros ->].
      intros Hb'. by eapply Hd.
    + rewrite <- (assoc_L (++)). apply (NoDup_Permutation_proper (zs ++ ts ++ [a])).
      { by rewrite (Permutation_app_comm [a] ts). }
      rewrite (assoc_L (++)). apply NoDup_app. split_and!; [apply Hl| |apply NoDup_singleton].
      intros b Hb ->%list_elem_of_singleton. apply elem_of_app in Hb. tauto.
    + intros b. rewrite !elem_of_app, list_elem_of_singleton. intros [[Hb| ->]|Hb]; [|done|];
        apply (lo_in _ _ _ _ Hl); rewrite elem_of_app; auto.
    + intros b Hb. rewrite elem_of_app, list_elem_of_singleton. destruct (decide (b = a)); [auto|].
      destruct (decide (b ∈ zs)); [auto|]. rewrite Hout by done.
      destruct (lo_single _ _ _ _ Hl b Hb); auto.
    + by rewrite addring_dom, (lo_dom _ _ _ _ Hl).
    + apply Hl.
  - rewrite !decide_False by done. split.
    + apply (ring_frame L); [|apply Hl]. intros b Hb. apply addring_out; [by apply Hd|by intros ->].
    + apply addring_ring; [done|done|apply Hl].
    + rewrite (assoc_L (++)). apply NoDup_app. split_and!; [apply Hl| |apply NoDup_singleton].
      intros b Hb ->%list_elem_of_singleton. apply elem_of_app in Hb. tauto.
    + intros b. rewrite !elem_of_app, list_elem_of_singleton. intros [Hb|[Hb| ->]]; [| |done];
        apply (lo_in _ _ _ _ Hl); rewrite elem_of_app; auto.
    + intros b Hb. rewrite elem_of_app, list_elem_of_singleton. destruct (decide (b = a)); [auto|].
      destruct (decide (b ∈ ts)); [auto|]. rewrite Hout by done.
      destruct (lo_single _ _ _ _ Hl b Hb) as [?|[?|?]]; auto.
    + by rewrite addring_dom, (lo_dom _ _ _ _ Hl).
    + apply Hl.
Qed.

End unlink.

(** ** The invariant of the software bus

    What holds between two API calls, and inside one with the references the call
    holds ([held]), the pipe table entry it has reserved ([rsv]) and the buffer it is
    sending ([tx], NULL for none) made explicit. *)

(** ** Pipes and references *)

Definition active (p : CFE_SB_PipeD_t) : Prop :=
  pd_PipeId p ≠ CFE_RESOURCEID_UNDEFINED ∧ pd_PipeId p ≠ CFE_RESOURCEID_RESERVED.

#[export] Instance active_dec p : Decision (active p).
Proof. unfold active. apply _. Defined.

Abbreviation qmem := (gmap Z (list addr)).
Abbreviation ptable := (list CFE_SB_PipeD_t).

Definition last_ref (p : CFE_SB_PipeD_t) : list addr :=
  if decide (pd_LastBuffer p = NULL) then [] else [pd_LastBuffer p].

(** The references of a pipe: the buffers on its queue and its last buffer. *)
Definition pipe_refs (q : qmem) (p : CFE_SB_PipeD_t) : list addr :=
  if decide (active p) then default [] (q !! pd_SysQueueId p) ++ last_ref p else [].

Definition refs (q : qmem) (tbl : ptable) : list addr := tbl ≫= pipe_refs q.

Definition nactive (tbl : ptable) : Z := Z.of_nat (length (filter active tbl)).

(** The pipe identifiers in use. *)
Definition pipe_ids (tbl : ptable) : list Z := pd_PipeId <$> filter active tbl.

Arguments refs : simpl never.
Arguments nactive : simpl never.
Arguments pipe_ids : simpl never.

Definition rest {A} (i : nat) (l : list A) : list A := take i l ++ drop (S i) l.

Lemma rest_split {A} (l : list A) i x : l !! i = Some x → l ≡ₚ x :: rest i l.
Proof. intros Hi. unfold rest. rewrite <- (take_drop_middle l i x Hi) at 1. by rewrite Permutation_middle. Qed.

Lemma rest_alter {A} (l : list A) i f x : l !! i = Some x → alter f i l ≡ₚ f x :: rest i l.
Proof.
  intros Hi. pose proof (lookup_lt_Some _ _ _ Hi).
  rewrite (rest_split (alter f i l) i (f x)) by by rewrite list_lookup_alter_eq, Hi.
  unfold rest. by rewrite take_alter, drop_alter, !decide_False by lia.
Qed.

#[export] Instance refs_perm q : Proper ((≡ₚ) ==> (≡ₚ)) (refs q).
Proof. intros l k E. unfold refs. by rewrite E. Qed.

Lemma refs_split q tbl i p : tbl !! i = Some p → refs q tbl ≡ₚ pipe_refs q p ++ refs q (rest i tbl).
Proof. intros Hi. exact (refs_perm q _ _ (rest_split tbl i p Hi)). Qed.

Lemma refs_alter q tbl i f p : tbl !! i = Some p →
  refs q (alter f i tbl) ≡ₚ pipe_refs q (f p) ++ refs q (rest i tbl).
Proof. intros Hi. exact (refs_perm q _ _ (rest_alter tbl i f p Hi)). Qed.

Lemma rest_elem {A} (l : list A) i x : x ∈ rest i l → ∃ j, j ≠ i ∧ l !! j = Some x.
Proof.
  unfold rest. rewrite elem_of_app. intros [Hx|Hx]; apply list_elem_of_lookup in Hx as [j Hj].
  - apply lookup_take_Some in Hj as [Hj ?]. exists j. split; [lia|done].
  - rewrite lookup_drop in Hj. exists (S i + j)%nat. split; [lia|done].
Qed.

Lemma nactive_cons p tbl : nactive (p :: tbl) = (if decide (active p) then 1 else 0) + nactive tbl.
Proof. unfold nactive. rewrite filter_cons. destruct (decide (active p)); cbn [length]; lia. Qed.

#[export] Instance nactive_perm : Proper ((≡ₚ) ==> eq) nactive.
Proof. intros l k E. unfold nactive. by rewrite E. Qed.

Lemma nactive_split tbl i p : tbl !! i = Some p →
  nactive tbl = (if decide (active p) then 1 else 0) + nactive (rest i tbl).
Proof. intros Hi. rewrite (nactive_perm _ _ (rest_split tbl i p Hi)). apply nactive_cons. Qed.

Lemma nactive_alter tbl i f p : tbl !! i = Some p →
  nactive (alter f i tbl) = (if decide (active (f p)) then 1 else 0) + nactive (rest i tbl).
Proof. intros Hi. rewrite (nactive_perm _ _ (rest_alter tbl i f p Hi)). apply nactive_cons. Qed.

Record pipes_inv (tbl : ptable) (q : qmem) (last : Z) (rsv : option nat) : Prop := {
  pi_len : length tbl = 64%nat;
  pi_id i p : tbl !! i = Some p →
    pd_PipeId p = CFE_RESOURCEID_UNDEFINED ∨
    (pd_PipeId p = CFE_RESOURCEID_RESERVED ∧ rsv = Some i) ∨
    (active p ∧ CFE_SB_LocatePipeDescByID (pd_PipeId p) = Some (Z.of_nat i) ∧ is_Some (q !! pd_SysQueueId p));
  pi_queue i j p p' : tbl !! i = Some p → tbl !! j = Some p' → active p → active p' →
    pd_SysQueueId p = pd_SysQueueId p' → i = j;
  pi_rsv i : rsv = Some i → ∃ p, tbl !! i = Some p ∧ pd_PipeId p = CFE_RESOURCEID_RESERVED;
  pi_last : is_u32 last ∧ CFE_ResourceId_GetBase last = CFE_SB_PIPEID_BASE;
}.

Lemma refs_ext q q' l : (∀ p, p ∈ l → pipe_refs q p = pipe_refs q' p) → refs q l = refs q' l.
Proof.
  induction l as [|p l IH]; intros Hl; [done|]. unfold refs. cbn. rewrite Hl by by left.
  f_equal. apply IH. intros p' Hp'. apply Hl. by right.
Qed.

(** The queue of one pipe changes: the references of the others do not. *)
Lemma refs_queue tbl q last rsv i p l : pipes_inv tbl q last rsv → tbl !! i = Some p → active p →
  refs (<[pd_SysQueueId p := l]> q) (rest i tbl) = refs q (rest i tbl).
Proof.
  intros Hp Hi Ha. apply refs_ext. intros p' Hp'.
  apply rest_elem in Hp' as (j & Hj & Hj'). unfold pipe_refs. destruct (decide (active p')) as [Ha'|]; [|done].
  rewrite lookup_insert_ne; [done|]. intros E. apply Hj. symmetry. by eapply pi_queue.
Qed.

(** ** Buffers *)

Definition owned (b : CFE_SB_BufferD_t) : Z := if decide (bd_AppId b = CFE_ES_APPID_UNDEFINED) then 0 else 1.

Record counts_ok (B : gmap addr CFE_SB_BufferD_t) (zs rs : list addr) (tx : addr) : Prop := {
  co_ref a : a ∈ rs → is_Some (B !! a);
  co_cnt a b : B !! a = Some b → bd_UseCount b = cnt a rs + owned b;
  co_pos a b : B !! a = Some b → 0 < bd_UseCount b;
  co_zs a b : B !! a = Some b → (bd_AppId b ≠ CFE_ES_APPID_UNDEFINED ↔ a ∈ zs);
  co_own a : a ∈ zs → a ≠ tx → a ∉ rs;
}.

Lemma counts_perm B zs rs rs' tx : rs ≡ₚ rs' → counts_ok B zs rs tx → counts_ok B zs rs' tx.
Proof.
  intros E [H1 H2 H3 H4 H5]. split; [|intros a b Hb; rewrite <- E; auto|done|done|]; intros a; rewrite <- E; auto.
Qed.

(** ** Statistics *)

Record stats_ok (t : StatTlm_Payload) (nb nd nr np : Z) : Prop := {
  st_bufs : SBBuffersInUse t = u32 nb;
  st_subs : SubscriptionsInUse t = u32 nd;
  st_ids : MsgIdsInUse t = u32 nr;
  st_pipes : PipesInUse t = u32 np;
}.

(** ** The invariant *)

Section inv.
Context {PS QS : Type} `{MemPool PS} `{OSQueue QS} `{MsgMapOK}.
Abbreviation G := (CFE_SB_Global_t PS QS).

Definition grefs (s : G) : list addr := refs (q_items (Queues s)) (PipeTbl s).

Record sb_inv (tb : list dlist) (held : list addr) (rsv : option (nat * Z)) (tx : addr) (s : G) : Prop := {
  in_routes : routes_inv (Routes s) (Dests s) tb;
  in_pipes : pipes_inv (PipeTbl s) (q_items (Queues s)) (LastPipeId s) (fst <$> rsv);
  in_dests l x : l ∈ tb → x ∈ dest_pipes l → x ∈ pipe_ids (PipeTbl s);
  in_bufs : ∃ zs ts, links_ok (Links s) zs ts (dom (Bufs s)) ∧ counts_ok (Bufs s) zs (grefs s ++ held) tx;
  in_cnt a : cnt a (grefs s ++ held) <= if decide (a = tx) then 17 else 16;
  in_pool : dom (p_live (Pool s)) = dom (Bufs s) ∪ dom (Dests s) ∧ dom (Bufs s) ## dom (Dests s);
  in_stats : stats_ok (Stat s) (Z.of_nat (size (Bufs s))) (Z.of_nat (size (Dests s)))
               (RouteIdxTop (Routes s)) (nactive (PipeTbl s) + from_option snd 0 rsv);
  in_ids : map_Forall (λ _ b, is_u32 (bd_MsgId b)) (Bufs s);
  in_flags : length (StopRecurseFlags s) = 64%nat ∧ Forall is_u32 (StopRecurseFlags s);
}.

(** Between two calls nothing is held or reserved, and the mutex is free. *)
Definition sb_ok (s : G) : Prop := Locked s = false ∧ ∃ tb, sb_inv tb [] None NULL s.

End inv.
