(* ===== verification/SbMem.v ===== *)
(** * Buffer and destination memory under the invariant *)
From stdpp Require Import strings.
From S2P Require Import Prelude Config Msg ResourceId Sbr SbrProps SbState SbBuf SbApi SbRoutes SbBufs SbInv.

Lemma incr_u32 n : incr 32 (u32 n) = u32 (n + 1).
Proof. unfold incr, u32. by rewrite Zplus_mod_idemp_l. Qed.

Lemma decr_u32 n : decr 32 (u32 n) = u32 (n - 1).
Proof. unfold decr, u32. by rewrite Zminus_mod_idemp_l. Qed.

Lemma size_insert_new {A} (m : gmap addr A) a x : m !! a = None → Z.of_nat (size (<[a := x]> m)) = Z.of_nat (size m) + 1.
Proof. intros E. rewrite map_size_insert_None by done. lia. Qed.

Lemma size_insert_old {A} (m : gmap addr A) a x y : m !! a = Some y → size (<[a := x]> m) = size m.
Proof. intros E. by rewrite map_size_insert_Some by eauto. Qed.

Lemma size_delete_old {A} (m : gmap addr A) a x : m !! a = Some x → Z.of_nat (size (delete a m)) = Z.of_nat (size m) - 1.
Proof.
  intros E. rewrite map_size_delete_Some by eauto.
  assert (size m ≠ 0%nat); [|lia]. rewrite map_size_non_empty_iff. intros ->. by rewrite lookup_empty in E.
Qed.

Lemma dom_insert_old {A} (m : gmap addr A) a x y : m !! a = Some y → dom (<[a := x]> m) = dom m.
Proof.
  intros E. rewrite dom_insert_L. apply subseteq_union_1_L, singleton_subseteq_l, elem_of_dom. eauto.
Qed.

Lemma dom_split_minus (X Y : gset addr) a : X ## Y → a ∈ X → (X ∪ Y) ∖ {[a]} = X ∖ {[a]} ∪ Y ∧ X ∖ {[a]} ## Y.
Proof.
  intros Hd Ha. split.
  - apply set_eq. intros b. rewrite elem_of_union, !elem_of_difference, elem_of_union, elem_of_singleton.
    specialize (Hd a Ha). split; [tauto|]. intros [?|?]; [tauto|]. split; [tauto|]. by intros ->.
  - intros b [Hb _]%elem_of_difference. by apply Hd.
Qed.

Lemma dom_split_minus_r (X Y : gset addr) a : X ## Y → a ∈ Y → (X ∪ Y) ∖ {[a]} = X ∪ Y ∖ {[a]} ∧ X ## Y ∖ {[a]}.
Proof.
  intros Hd Ha. split.
  - apply set_eq. intros b. rewrite elem_of_union, !elem_of_difference, elem_of_union, elem_of_singleton.
    split; [tauto|]. intros [Hb|?]; [|tauto]. split; [tauto|]. intros ->. by apply (Hd a).
  - intros b Hb [Hb' _]%elem_of_difference. by apply (Hd b).
Qed.

(** The statistics other than the buffer count. *)
Lemma stats_shift t t' nb nd nr np nb' : stats_ok t nb nd nr np →
  SBBuffersInUse t' = u32 nb' → SubscriptionsInUse t' = SubscriptionsInUse t →
  MsgIdsInUse t' = MsgIdsInUse t → PipesInUse t' = PipesInUse t → stats_ok t' nb' nd nr np.
Proof. intros [H1 H2 H3 H4] E1 E2 E3 E4. split; congruence. Qed.

Lemma self_single L zs ts D a : links_ok L zs ts D → L !! a = Some (mkLink a a) → (a ∉ zs) ∧ (a ∉ ts).
Proof.
  intros Hl Hs. destruct (links_nodup _ _ _ _ Hl) as (Hnz & Hnt & _). split; intros Hin;
    apply list_elem_of_split in Hin as (l1 & l2 & ->).
  - pose proof (ring_node _ _ _ _ _ (lo_z _ _ _ _ Hl)) as E. rewrite Hs in E. injection E as E1 E2.
    destruct (ring_neighbours _ _ _ _ _ Hnz (lo_z _ _ _ _ Hl)) as (_ & _ & H1 & _). congruence.
  - pose proof (ring_node _ _ _ _ _ (lo_t _ _ _ _ Hl)) as E. rewrite Hs in E. injection E as E1 E2.
    destruct (ring_neighbours _ _ _ _ _ Hnt (lo_t _ _ _ _ Hl)) as (_ & _ & H1 & _). congruence.
Qed.

(** A reference dropped: the last one frees the buffer. *)
Definition drop_ref (B : gmap addr CFE_SB_BufferD_t) (a : addr) : gmap addr CFE_SB_BufferD_t :=
  match B !! a with
  | Some b => if decide (bd_UseCount b = 1) then delete a B
              else <[a := b <| bd_UseCount := bd_UseCount b - 1 |>]> B
  | None => B
  end.

(** A new descriptor. *)
Definition new_buf (AllocSize : Z) : CFE_SB_BufferD_t :=
  mkBufferD CFE_SB_INVALID_MSG_ID 0 AllocSize 0 CFE_MSG_Type_Invalid false 1 [].

Lemma drop_ref_ids (P : CFE_SB_BufferD_t → Prop) B a : (∀ b n, P b → P (b <| bd_UseCount := n |>)) →
  map_Forall (λ _ b, P b) B → map_Forall (λ _ b, P b) (drop_ref B a).
Proof.
  intros HP HB. unfold drop_ref. destruct (B !! a) as [b|] eqn:Eb; [|done].
  case_decide; [by apply map_Forall_delete|]. apply map_Forall_insert_2; [|done]. apply HP. by apply (HB a).
Qed.

Lemma drop_ref_ne B a x : x ≠ a → drop_ref B a !! x = B !! x.
Proof.
  intros Hx. unfold drop_ref. destruct (B !! a); [|done].
  destruct (decide _); [by apply lookup_delete_ne|by apply lookup_insert_ne].
Qed.

Lemma counts_drop B zs rs tx a b : counts_ok B zs (a :: rs) tx → B !! a = Some b → bd_AppId b = CFE_ES_APPID_UNDEFINED →
  counts_ok (drop_ref B a) zs rs tx.
Proof.
  intros Hc Hb Happ. pose proof (co_cnt _ _ _ _ Hc a b Hb) as Hn. pose proof (co_pos _ _ _ _ Hc a b Hb) as Hpos.
  rewrite cnt_cons, decide_True in Hn by done. pose proof (cnt_nonneg a rs).
  assert (owned b = 0) as Hown by (unfold owned; by rewrite decide_True).
  assert (∀ x d, drop_ref B a !! x = Some d →
    (x = a ∧ bd_UseCount b ≠ 1 ∧ d = b <| bd_UseCount := bd_UseCount b - 1 |>) ∨ (x ≠ a ∧ B !! x = Some d)) as Hinv.
  { intros x d. destruct (decide (x = a)) as [->|Hx]; [|rewrite drop_ref_ne by done; auto].
    unfold drop_ref. rewrite Hb. destruct (decide (bd_UseCount b = 1)).
    - by rewrite lookup_delete_eq.
    - rewrite lookup_insert_eq. intros [= <-]. auto. }
  split.
  - intros x Hx. destruct (decide (x = a)) as [->|Hne].
    + apply cnt_elem in Hx. unfold drop_ref. rewrite Hb, decide_False by lia. rewrite lookup_insert_eq. eauto.
    + rewrite drop_ref_ne by done. apply (co_ref _ _ _ _ Hc). by right.
  - intros x d [(-> & _ & ->)|[Hne Hd]]%Hinv.
    + change (owned _) with (owned b). cbn. lia.
    + pose proof (co_cnt _ _ _ _ Hc x d Hd) as E. rewrite cnt_cons, decide_False in E by done. lia.
  - intros x d [(-> & Hne & ->)|[Hne Hd]]%Hinv; [cbn; lia|]. by eapply co_pos.
  - intros x d [(-> & Hne & ->)|[Hne Hd]]%Hinv; [cbn; by apply Hc|]. by eapply co_zs.
  - intros x Hx Htx Hin. apply (co_own _ _ _ _ Hc x Hx Htx). by right.
Qed.

Lemma counts_add B zs rs tx a b : counts_ok B zs rs tx → B !! a = Some b → bd_AppId b = CFE_ES_APPID_UNDEFINED ∨ a = tx →
  counts_ok (<[a := b <| bd_UseCount := bd_UseCount b + 1 |>]> B) zs (a :: rs) tx.
Proof.
  intros Hc Hb Happ.
  assert (a ∈ zs → a = tx) as Hz by (intros Ha%(co_zs _ _ _ _ Hc a b Hb); destruct Happ; done).
  split.
  - intros x [->|Hx]%elem_of_cons; [rewrite lookup_insert_eq; eauto|].
    destruct (decide (x = a)) as [->|]; [rewrite lookup_insert_eq; eauto|].
    rewrite lookup_insert_ne by done. by apply Hc.
  - intros x d. rewrite lookup_insert_Some. intros [[<- <-]|[Hne Hd]].
    + change (owned _) with (owned b). rewrite cnt_cons, decide_True by done. cbn.
      pose proof (co_cnt _ _ _ _ Hc a b Hb). lia.
    + rewrite cnt_cons, decide_False by done. by apply (co_cnt _ _ _ _ Hc).
  - intros x d. rewrite lookup_insert_Some. intros [[<- <-]|[Hne Hd]]; [|by eapply co_pos].
    cbn. pose proof (co_pos _ _ _ _ Hc a b Hb). lia.
  - intros x d. rewrite lookup_insert_Some. intros [[<- <-]|[Hne Hd]]; [|by eapply co_zs]. cbn. by apply Hc.
  - intros x Hx Htx. rewrite elem_of_cons. intros [->|Hin]; [by apply Htx, Hz|]. by apply (co_own _ _ _ _ Hc) in Hin.
Qed.

(** An update of a descriptor that keeps its owner and its use count. *)
Lemma counts_upd B zs rs tx a b b' : counts_ok B zs rs tx → B !! a = Some b →
  bd_AppId b' = bd_AppId b → bd_UseCount b' = bd_UseCount b → counts_ok (<[a := b']> B) zs rs tx.
Proof.
  intros Hc Hb Ha Hu.
  assert (∀ x d, <[a := b']> B !! x = Some d → ∃ d0, B !! x = Some d0 ∧ bd_AppId d = bd_AppId d0 ∧ bd_UseCount d = bd_UseCount d0)
    as Hinv.
  { intros x d. rewrite lookup_insert_Some. intros [[<- <-]|[_ Hd]]; eauto. }
  split.
  - intros x Hx. destruct (decide (x = a)) as [->|]; [rewrite lookup_insert_eq; eauto|].
    rewrite lookup_insert_ne by done. by apply Hc.
  - intros x d (d0 & Hd & E1 & E2)%Hinv. unfold owned. rewrite E1, E2. by apply (co_cnt _ _ _ _ Hc).
  - intros x d (d0 & Hd & E1 & E2)%Hinv. rewrite E2. by eapply co_pos.
  - intros x d (d0 & Hd & E1 & E2)%Hinv. rewrite E1. by eapply co_zs.
  - apply Hc.
Qed.

Lemma counts_new B zs rs tx a b : counts_ok B zs rs tx → B !! a = None → a ∉ zs →
  bd_AppId b = CFE_ES_APPID_UNDEFINED → bd_UseCount b = 1 → counts_ok (<[a := b]> B) zs (a :: rs) tx.
Proof.
  intros Hc Hb Hz Happ Hu.
  assert (a ∉ rs) as Hn by (intros [? ?]%(co_ref _ _ _ _ Hc); congruence).
  split.
  - intros x [->|Hx]%elem_of_cons; [rewrite lookup_insert_eq; eauto|].
    rewrite lookup_insert_ne by (intros ->; done). by apply Hc.
  - intros x d. rewrite lookup_insert_Some. intros [[<- <-]|[Hne Hd]].
    + unfold owned. rewrite cnt_cons, !decide_True, (cnt_not a) by done. lia.
    + rewrite cnt_cons, decide_False by done. by apply (co_cnt _ _ _ _ Hc).
  - intros x d. rewrite lookup_insert_Some. intros [[<- <-]|[Hne Hd]]; [lia|by eapply co_pos].
  - intros x d. rewrite lookup_insert_Some. intros [[<- <-]|[Hne Hd]]; [|by eapply co_zs].
    split; [done|]. by intros ?%Hz.
  - intros x Hx Htx. rewrite elem_of_cons. intros [->|Hin]; [done|]. by apply (co_own _ _ _ _ Hc) in Hin.
Qed.

(** A held reference becomes the ownership of an application. *)
Lemma counts_own B zs rs tx a b app : counts_ok B zs (a :: rs) tx → B !! a = Some b → a ∉ rs → bd_AppId b = CFE_ES_APPID_UNDEFINED →
  app ≠ CFE_ES_APPID_UNDEFINED →
  counts_ok (<[a := b <| bd_AppId := app |>]> B) (zs ++ [a]) rs tx.
Proof.
  intros Hc Hb Hn Hb0 Happ. assert (a ∉ zs) as Hz by by intros Ha%(co_zs _ _ _ _ Hc a b Hb).
  assert (owned b = 0) as Hown by (unfold owned; by rewrite decide_True).
  pose proof (co_cnt _ _ _ _ Hc a b Hb) as Hu. rewrite cnt_cons, decide_True, (cnt_not a) in Hu by done.
  split.
  - intros x Hx. rewrite lookup_insert_ne by (intros ->; done). apply Hc. by right.
  - intros x d. rewrite lookup_insert_Some. intros [[<- <-]|[Hne Hd]].
    + unfold owned. cbn. rewrite decide_False, (cnt_not a) by done. lia.
    + pose proof (co_cnt _ _ _ _ Hc x d Hd) as E. rewrite cnt_cons, decide_False in E by done. lia.
  - intros x d. rewrite lookup_insert_Some. intros [[<- <-]|[Hne Hd]]; [cbn; lia|by eapply co_pos].
  - intros x d. rewrite lookup_insert_Some, elem_of_app, list_elem_of_singleton.
    intros [[<- <-]|[Hne Hd]]; [cbn; tauto|]. rewrite (co_zs _ _ _ _ Hc x d Hd). intuition congruence.
  - intros x. rewrite elem_of_app, list_elem_of_singleton. intros [Hx| ->] Htx; [|done].
    intros Hin. apply (co_own _ _ _ _ Hc x Hx Htx). by right.
Qed.

(** The converse: the owner's reference becomes a held one. *)
Lemma counts_publish B zs rs a b : counts_ok B zs rs a → B !! a = Some b → bd_AppId b ≠ CFE_ES_APPID_UNDEFINED →
  counts_ok (<[a := b <| bd_AppId := CFE_ES_APPID_UNDEFINED |>]> B) (without a zs) (a :: rs) a.
Proof.
  intros Hc Hb Happ. assert (a ∈ zs) as Hz by by apply (co_zs _ _ _ _ Hc a b Hb).
  pose proof (co_cnt _ _ _ _ Hc a b Hb) as Hu. unfold owned in Hu. rewrite decide_False in Hu by done.
  pose proof (cnt_nonneg a rs). split.
  - intros x [->|Hx]%elem_of_cons; [rewrite lookup_insert_eq; eauto|].
    destruct (decide (x = a)) as [->|]; [rewrite lookup_insert_eq; eauto|].
    rewrite lookup_insert_ne by done. by apply Hc.
  - intros x d. rewrite lookup_insert_Some. intros [[<- <-]|[Hne Hd]].
    + unfold owned. cbn. rewrite decide_True, cnt_cons, decide_True by done. lia.
    + rewrite cnt_cons, decide_False by done. by apply (co_cnt _ _ _ _ Hc).
  - intros x d. rewrite lookup_insert_Some. intros [[<- <-]|[Hne Hd]]; [cbn; lia|by eapply co_pos].
  - intros x d. rewrite lookup_insert_Some, without_elem.
    intros [[<- <-]|[Hne Hd]]; [cbn; tauto|]. rewrite (co_zs _ _ _ _ Hc x d Hd). intuition congruence.
  - intros x. rewrite without_elem, elem_of_cons. intros [Hx Hin] Htx [->|Hr]; [done|]. by apply (co_own _ _ _ _ Hc x).
Qed.

Lemma counts_begin B zs rs a : counts_ok B zs rs NULL → (∀ x, is_Some (B !! x) → 0 < x) → counts_ok B zs rs a.
Proof.
  intros [H1 H2 H3 H4 H5] Hpos. split; try done. intros x Hx _ Hr. apply (H5 x Hx); [|done].
  apply H1, Hpos in Hr. unfold NULL. lia.
Qed.

Lemma counts_end B zs rs a : counts_ok B zs rs a → a ∉ zs → counts_ok B zs rs NULL.
Proof. intros [H1 H2 H3 H4 H5] Ha. split; try done. intros x Hx _ Hr. apply (H5 x Hx); [by intros ->|done]. Qed.

Section mem.
Context {PS QS : Type} `{MemPoolOK PS} `{OSQueueOK QS} `{MsgMapOK}.
Abbreviation G := (CFE_SB_Global_t PS QS).
Implicit Types (s : G).

Lemma sb_inv_perm tb held held' rsv tx s : held ≡ₚ held' → sb_inv tb held rsv tx s → sb_inv tb held' rsv tx s.
Proof.
  intros E [? ? ? (zs & ts & Hl & Hc) Hcnt ? ? ? ?]. split; try done.
  - exists zs, ts. split; [done|]. eapply counts_perm; [|exact Hc]. by rewrite E.
  - intros a. rewrite <- E. apply Hcnt.
Qed.

Lemma wp_Return a b zs ts Q s :
  links_ok (Links s) zs ts (dom (Bufs s)) → Bufs s !! a = Some b → a ∈ dom (p_live (Pool s)) →
  (∀ L p t, links_ok L (without a zs) (without a ts) (dom (delete a (Bufs s))) →
     dom (p_live p) = dom (p_live (Pool s)) ∖ {[a]} →
     (∀ nb nd nr np, stats_ok (Stat s) nb nd nr np → stats_ok t (nb - 1) nd nr np) →
     Q tt (s <| Bufs := delete a (Bufs s) |> <| Links := L |> <| Stat := t |> <| Pool := p |>
             <| Stale := <[a := b]> (Stale s) |>)) →
  wp (CFE_SB_ReturnBufferToPool a) Q s.
Proof.
  intros Hl Hb Hlive HQ. assert (a ∈ dom (Bufs s)) as Ha by (apply elem_of_dom; eauto).
  unfold CFE_SB_ReturnBufferToPool. wp_step. eapply wp_unlink; [exact Hl|done|].
  intros L Hl' Es. wp_step. apply wp_stat. wp_step. eapply wp_rd_buf; [exact Hb|]. wp_step. apply wp_stat.
  wp_step. apply wp_pool. unfold free_buf. cbn beta. wp_step. eapply wp_rd_buf; [exact Hb|]. wp_step.
  apply elem_of_dom in Hlive as [n Hn]. destruct (put_ok a n _ Hn) as (p' & Ep & Ep').
  destruct (self_single _ _ _ _ _ Hl' Es) as [Hz Ht].
  pose proof (links_free _ _ _ _ _ Hl' Ha Hz Ht) as Hfree. rewrite <- dom_delete_L in Hfree.
  refine (HQ (delete a L) _ _ Hfree _ _).
  - cbn [Pool]. change (Pool (_ <| Stat ::= _ |>)) with (Pool s). cbn. rewrite Ep. cbn. rewrite Ep'. by rewrite dom_delete_L.
  - intros nb nd nr np Hst. eapply stats_shift; [exact Hst|..]; try done. cbn.
    rewrite (st_bufs _ _ _ _ _ Hst). apply decr_u32.
Qed.

Lemma inv_ref tb held rsv tx s a : sb_inv tb held rsv tx s → a ∈ grefs s ++ held →
  ∃ b, Bufs s !! a = Some b ∧ (a ≠ tx → bd_AppId b = CFE_ES_APPID_UNDEFINED) ∧
    bd_UseCount b = cnt a (grefs s ++ held) + owned b.
Proof.
  intros Hi Ha. destruct (in_bufs _ _ _ _ _ Hi) as (zs & ts & Hl & Hc).
  destruct (co_ref _ _ _ _ Hc a Ha) as [b Hb]. exists b. split_and!; [done| |by apply (co_cnt _ _ _ _ Hc)].
  intros Htx. destruct (decide (bd_AppId b = CFE_ES_APPID_UNDEFINED)) as [E|E]; [done|].
  apply (co_zs _ _ _ _ Hc a b Hb) in E. by apply (co_own _ _ _ _ Hc) in E.
Qed.

(** The buffers with their lists, the references [rs] to them, and the pool. *)
Definition bufs_ok (rs : list addr) (tx : addr) (s : G) : Prop :=
  ∃ zs ts, links_ok (Links s) zs ts (dom (Bufs s)) ∧ counts_ok (Bufs s) zs rs tx.
Definition pool_ok (s : G) : Prop :=
  dom (p_live (Pool s)) = dom (Bufs s) ∪ dom (Dests s) ∧ dom (Bufs s) ## dom (Dests s).

Lemma wp_Decr_raw rs tx a b Q s :
  bufs_ok (a :: rs) tx s → pool_ok s → Bufs s !! a = Some b → bd_AppId b = CFE_ES_APPID_UNDEFINED → cnt a rs <= 100 →
  (∀ L t p sl, let s' := s <| Bufs := drop_ref (Bufs s) a |> <| Links := L |> <| Stat := t |> <| Pool := p |> <| Stale := sl |> in
     bufs_ok rs tx s' → pool_ok s' →
     (∀ nd nr np, stats_ok (Stat s) (Z.of_nat (size (Bufs s))) nd nr np → stats_ok t (Z.of_nat (size (Bufs s'))) nd nr np) →
     is_Some (Bufs s' !! a) ∨ is_Some (Stale s' !! a) → Q tt s') →
  wp (CFE_SB_DecrBufUseCnt a) Q s.
Proof.
  intros (zs & ts & Hl & Hc) [Hpool Hdj] Hb Happ Hmax HQ.
  pose proof (co_pos _ _ _ _ Hc a b Hb) as Hpos. pose proof (co_cnt _ _ _ _ Hc a b Hb) as Hn.
  rewrite cnt_cons, decide_True in Hn by done. pose proof (cnt_nonneg a rs).
  assert (owned b = 0) as Hown by (unfold owned; by rewrite decide_True).
  pose proof (counts_drop _ _ _ _ _ _ Hc Hb Happ) as Hc'.
  assert (a ∉ zs) as Hz by by intros Ha%(co_zs _ _ _ _ Hc a b Hb).
  assert (decr 16 (bd_UseCount b) = bd_UseCount b - 1) as Edec by (apply Z.mod_small; lia).
  unfold CFE_SB_DecrBufUseCnt. wp_step. eapply wp_rd_buf; [exact Hb|]. apply wp_when_true; [lia|].
  wp_step. eapply wp_wr_buf; [exact Hb|]. wp_step. eapply wp_rd_buf; [apply lookup_insert_eq|].
  change (bd_UseCount (b <| bd_UseCount ::= decr 16 |>)) with (decr 16 (bd_UseCount b)). rewrite Edec.
  destruct (decide (bd_UseCount b = 1)) as [E1|E1].
  - apply wp_when_true; [lia|].
    assert (drop_ref (Bufs s) a = delete a (Bufs s)) as Edrop by (unfold drop_ref; by rewrite Hb, decide_True).
    eapply (wp_Return _ _ zs ts).
    { cbn. rewrite (dom_insert_old _ _ _ _ Hb). exact Hl. }
    { apply lookup_insert_eq. }
    { cbn. rewrite Hpool, elem_of_union, elem_of_dom. eauto. }
    cbn. rewrite delete_insert_eq, <- Edrop. intros L p t Hl' Hp' Ht.
    apply HQ; [| | |right; cbn; rewrite lookup_insert_eq; eauto].
    + exists zs, (without a ts). rewrite without_notin in Hl' by done. done.
    + unfold pool_ok. cbn. rewrite Hp', Hpool, Edrop, dom_delete_L.
      by apply dom_split_minus; [done|apply elem_of_dom; eauto].
    + intros nd nr np Hst. cbn. rewrite Edrop, (size_delete_old _ _ _ Hb). by apply Ht.
  - apply wp_when_false; [lia|].
    assert (drop_ref (Bufs s) a = <[a := b <| bd_UseCount := bd_UseCount b - 1 |>]> (Bufs s)) as Edrop
      by (unfold drop_ref; by rewrite Hb, decide_False).
    match goal with |- Q _ ?x => replace x with
      (s <| Bufs := drop_ref (Bufs s) a |> <| Links := Links s |> <| Stat := Stat s |> <| Pool := Pool s |>
         <| Stale := Stale s |>) end.
    2: { rewrite Edrop. destruct s. cbn. by rewrite Edec. }
    assert (dom (drop_ref (Bufs s) a) = dom (Bufs s)) as Edom by by rewrite Edrop; eapply dom_insert_old.
    apply HQ; [| | |left; cbn; rewrite Edrop, lookup_insert_eq; eauto].
    + exists zs, ts. split; [|done]. cbn. by rewrite Edom.
    + unfold pool_ok. cbn. by rewrite Edom.
    + intros nd nr np Hst. cbn. by rewrite Edrop, (size_insert_old _ _ _ _ Hb).
Qed.

Lemma wp_Decr tb held rsv tx a Q s :
  sb_inv tb (a :: held) rsv tx s → (a = tx → bd_AppId <$> Bufs s !! a = Some CFE_ES_APPID_UNDEFINED) →
  (∀ L t p sl, let s' := s <| Bufs := drop_ref (Bufs s) a |> <| Links := L |> <| Stat := t |> <| Pool := p |> <| Stale := sl |> in
     sb_inv tb held rsv tx s' → is_Some (Bufs s' !! a) ∨ is_Some (Stale s' !! a) → Q tt s') →
  wp (CFE_SB_DecrBufUseCnt a) Q s.
Proof.
  intros Hi Htx HQ. destruct (inv_ref _ _ _ _ _ a Hi) as (b & Hb & Happ & Hn).
  { rewrite elem_of_app. right. by left. }
  assert (bd_AppId b = CFE_ES_APPID_UNDEFINED) as Happ'.
  { destruct (decide (a = tx)) as [E|E]; [|by apply Happ]. specialize (Htx E). rewrite Hb in Htx. by injection Htx. }
  destruct Hi as [Hr Hp Hd (zs & ts & Hl & Hc) Hcnt Hpool Hst Hids Hfl].
  assert (∀ x, cnt x (grefs s ++ held) <= if decide (x = tx) then 17 else 16) as Hcnt'.
  { intros x. specialize (Hcnt x). rewrite cnt_app in *. rewrite cnt_cons in Hcnt. destruct (decide (a = x)); lia. }
  eapply (wp_Decr_raw (grefs s ++ held) tx); [|exact Hpool|exact Hb|done|specialize (Hcnt' a); case_decide; lia|].
  { exists zs, ts. split; [done|]. eapply counts_perm; [|exact Hc]. by rewrite Permutation_middle. }
  intros L t p sl s' Hbufs Hpool' Hst' Hsome. apply HQ; [|done]. split; try done; [by apply Hst'|]. by apply (drop_ref_ids (λ b, is_u32 (bd_MsgId b))).
Qed.

(** An update of a descriptor that keeps its owner and its use count. *)
Lemma inv_upd_buf tb held rsv tx s a b b' : sb_inv tb held rsv tx s → Bufs s !! a = Some b →
  bd_AppId b' = bd_AppId b → bd_UseCount b' = bd_UseCount b → is_u32 (bd_MsgId b') →
  sb_inv tb held rsv tx (s <| Bufs ::= <[a := b']> |>).
Proof.
  intros [Hr Hp Hd (zs & ts & Hl & Hc) Hcnt Hpool Hst Hids Hfl] Hb Ha Hu Hid. split; try done.
  - exists zs, ts. cbn. rewrite (dom_insert_old _ _ _ _ Hb). split; [done|]. by eapply counts_upd.
  - cbn. by rewrite (dom_insert_old _ _ _ _ Hb).
  - cbn. by rewrite (size_insert_old _ _ _ _ Hb).
  - by apply map_Forall_insert_2.
Qed.

Lemma inv_fresh tb held rsv tx s a : sb_inv tb held rsv tx s → p_live (Pool s) !! a = None →
  Bufs s !! a = None ∧ Dests s !! a = None.
Proof.
  intros Hi Ha. destruct (in_pool _ _ _ _ _ Hi) as [E _]. apply not_elem_of_dom in Ha.
  rewrite E, elem_of_union in Ha. rewrite <- !not_elem_of_dom. tauto.
Qed.

Lemma inv_pool tb held rsv tx s p : sb_inv tb held rsv tx s → p_live p = p_live (Pool s) →
  sb_inv tb held rsv tx (s <| Pool := p |>).
Proof. intros [] E. split; try done. cbn. by rewrite E. Qed.

Lemma wp_in_block a n k Q s : p_live (Pool s) !! a = Some k → n <= k → Q tt s → wp (in_block a n) Q s.
Proof. intros E Hn HQ. unfold in_block. wp_step. wp_step. rewrite E. replace (n <=? k) with true by lia. by wp_step. Qed.

(** The block of a buffer has room for the descriptor and [n] bytes of content. *)
Definition has_room (a : addr) (n : Z) (p : PS) : Prop := ∃ k, p_live p !! a = Some k ∧ CFE_SB_BUFFERD_CONTENT_OFFSET + n <= k.

Lemma wp_GetBuffer tb held rsv tx size Q s :
  sb_inv tb held rsv tx s → 0 <= size →
  (∀ p, sb_inv tb held rsv tx (s <| Pool := p |>) → Q NULL (s <| Pool := p |>)) →
  (∀ a L t p sl, let s' := s <| Bufs ::= <[a := new_buf (size + CFE_SB_BUFFERD_CONTENT_OFFSET)]> |> <| Links := L |>
       <| Stat := t |> <| Pool := p |> <| Stale := sl |> in
     Bufs s !! a = None → 0 < a → has_room a size p → L !! a = Some (mkLink a a) → sb_inv tb (a :: held) rsv tx s' → Q a s') →
  wp (CFE_SB_GetBufferFromPool size) Q s.
Proof.
  intros Hi Hsize HQ1 HQ2. unfold CFE_SB_GetBufferFromPool. wp_step. apply wp_pool.
  set (n := size + CFE_SB_BUFFERD_CONTENT_OFFSET) in *.
  destruct (CFE_ES_GetPoolBuf n (Pool s)) as [[st a] p'] eqn:Eg. cbn [fst snd].
  destruct (Z.ltb_spec st 0) as [Hst|Hst].
  { wp_step. apply HQ1. apply inv_pool; [done|]. by eapply get_fail. }
  destruct (get_ok n _ _ _ _ ltac:(unfold n, CFE_SB_BUFFERD_CONTENT_OFFSET; lia) Eg Hst) as (Hpos & Hge & Hfree & Elive).
  assert (p_live p' !! a = Some st) as Hblk by by rewrite Elive, lookup_insert_eq.
  destruct (inv_fresh _ _ _ _ _ _ Hi Hfree) as [HB HD].
  destruct Hi as [Hr Hp Hd (zs & ts & Hl & Hc) Hcnt [Hpool Hdj] Hstat Hids Hfl].
  assert (a ∉ dom (Bufs s)) as HBd by by apply not_elem_of_dom.
  assert (a ∉ dom (Dests s)) as HDd by by apply not_elem_of_dom.
  do 4 (wp_step; apply wp_stat). wp_step. unfold alloc_buf. wp_step. eapply wp_in_block; [exact Hblk|unfold n in Hge; lia|]. wp_step.
  wp_step. eapply wp_wr_buf; [apply lookup_insert_eq|]. wp_step. eapply wp_wr_buf; [apply lookup_insert_eq|].
  wp_step. eapply wp_wr_buf; [apply lookup_insert_eq|]. wp_step.
  eapply wp_TrackingListReset; [apply lookup_insert_eq|]. wp_step.
  match goal with |- Q _ (?x <| Links ::= _ |>) => set (t' := Stat x) end.
  match goal with |- Q _ ?x => replace x with
    (s <| Bufs ::= <[a := new_buf n]> |> <| Links := <[a := mkLink a a]> (Links s) |> <| Stat := t' |>
       <| Pool := p' |> <| Stale := delete a (Stale s) |>) end.
  2: { unfold t'. cbn. by rewrite !insert_insert_eq. }
  apply HQ2; [done|done|exists st; split; [done|unfold n in Hge; lia]|apply lookup_insert_eq|].
  assert (a ∉ zs) as Haz by (intros Ha; apply HBd, (lo_in _ _ _ _ Hl); rewrite elem_of_app; auto).
  pose proof (counts_new _ _ _ _ a (new_buf n) Hc HB Haz eq_refl eq_refl) as Hc'.
  assert (a ∉ grefs s ++ held) as Hna by (intros [? ?]%(co_ref _ _ _ _ Hc); congruence).
  split; try done.
  - exists zs, ts. cbn. rewrite dom_insert_L. split; [by apply links_alloc|].
    eapply counts_perm; [|exact Hc']. by rewrite Permutation_middle.
  - intros x. rewrite <- Permutation_middle, cnt_cons. change (grefs _) with (grefs s).
    destruct (decide (a = x)) as [<-|]; [rewrite (cnt_not a) by done; case_decide; lia|]. apply Hcnt.
  - cbn. rewrite Elive, !dom_insert_L, Hpool. split; [by rewrite (assoc_L (∪))|].
    intros b [->%elem_of_singleton|Hb]%elem_of_union; [done|]. by apply Hdj.
  - cbn. rewrite size_insert_new by done.
    eapply stats_shift; [exact Hstat|..]; unfold t'; cbn; repeat (case_match; try done).
    all: cbn; rewrite (st_bufs _ _ _ _ _ Hstat); apply incr_u32.
  - by apply map_Forall_insert_2.
Qed.

Lemma wp_GetDestinationBlk tb held rsv tx Q s :
  sb_inv tb held rsv tx s →
  (∀ p, sb_inv tb held rsv tx (s <| Pool := p |>) → Q NULL (s <| Pool := p |>)) →
  (∀ a t p, 0 < a → Bufs s !! a = None → Dests s !! a = None →
     dom (p_live p) = {[a]} ∪ dom (p_live (Pool s)) →
     (∀ nb nd nr np, stats_ok (Stat s) nb nd nr np → stats_ok t nb nd nr np) →
     Q a (s <| Dests ::= <[a := mkDestinationD 0 0 0 0 0 0 NULL NULL]> |> <| Stat := t |> <| Pool := p |>)) →
  wp CFE_SB_GetDestinationBlk Q s.
Proof.
  intros Hi HQ1 HQ2. unfold CFE_SB_GetDestinationBlk. wp_step. apply wp_pool.
  destruct (CFE_ES_GetPoolBuf _ (Pool s)) as [[st a] p'] eqn:Eg. cbn [fst snd].
  destruct (Z.ltb_spec st 0) as [Hst|Hst].
  { wp_step. apply HQ1. apply inv_pool; [done|]. by eapply get_fail. }
  destruct (get_ok sizeof_DestinationD _ _ _ _ ltac:(done) Eg Hst) as (Hpos & Hge & Hfree & Elive).
  assert (p_live p' !! a = Some st) as Hblk by by rewrite Elive, lookup_insert_eq.
  destruct (inv_fresh _ _ _ _ _ _ Hi Hfree) as [HB HD].
  do 2 (wp_step; apply wp_stat). unfold alloc_dest. wp_step. wp_step. eapply wp_in_block; [exact Hblk|done|]. do 2 wp_step.
  match goal with |- Q _ (?x <| Dests ::= _ |>) => apply (HQ2 a (Stat x) p') end; try done.
  - by rewrite Elive, dom_insert_L.
  - intros nb nd nr np []. split; cbn; by case_match.
Qed.

Lemma in_dests_sub (tb : list dlist) (l : dlist) l' i x : tb !! i = Some l →
  (∀ x, x ∈ dest_pipes l' → x ∈ dest_pipes l) → l ∈ tb →
  ∀ k, k ∈ <[i := l']> tb → x ∈ dest_pipes k → ∃ k', k' ∈ tb ∧ x ∈ dest_pipes k'.
Proof.
  intros Hl Hsub Hin k Hk Hx. apply list_elem_of_lookup in Hk as [j Hj].
  rewrite list_lookup_insert_Some in Hj. destruct Hj as [(-> & -> & _)|[_ Hj]]; [eauto|].
  exists k. split; [by eapply list_elem_of_lookup_2|done].
Qed.

Lemma wp_RemoveDest tb held rsv tx i l1 a y l2 Q s :
  sb_inv tb held rsv tx s → tb !! i = Some (l1 ++ (a, y) :: l2) →
  (∀ r D t p, let s' := s <| Routes := r |> <| Dests := D |> <| Stat := t |> <| Pool := p |> in
     sb_inv (<[i := l1 ++ l2]> tb) held rsv tx s' → msgids r = msgids (Routes s) →
     RouteIdxTop r = RouteIdxTop (Routes s) → Q tt s') →
  wp (CFE_SB_RemoveDest (Z.of_nat i + 1) a) Q s.
Proof.
  intros Hi Hl HQ. destruct Hi as [Hr Hp Hd Hb Hcnt [Hpool Hdj] Hst Hids Hfl].
  destruct (tb_route _ _ _ _ _ Hr Hl) as (e & _ & _ & Hc & _).
  assert (a ∈ dom (Dests s)) as Ha.
  { apply elem_of_dom. eapply chain_dom; [|exact Hc]. rewrite fmap_app, elem_of_app. right. by left. }
  assert (0 < a) as Hpos by (apply (ri_pos _ _ _ Hr); by apply elem_of_dom).
  assert (a ∈ dom (p_live (Pool s))) as Hlive by (rewrite Hpool, elem_of_union; auto).
  apply elem_of_dom in Hlive as [n Hn]. destruct (put_ok a n _ Hn) as (p' & Ep & Ep').
  unfold CFE_SB_RemoveDest. wp_step. eapply wp_RemoveDestNode; [done|done|].
  intros r' D' Hr' Ht' Hm' Hdom. wp_step. unfold CFE_SB_PutDestinationBlk.
  rewrite (proj2 (Z.eqb_neq a NULL)) by (unfold NULL; lia). wp_step. apply wp_pool.
  change (Pool (s <| Routes := r' |> <| Dests := D' |>)) with (Pool s). rewrite Ep. cbn [fst snd].
  unfold free_dest. do 2 wp_step. wp_step.
  match goal with |- wp (when ?b _) _ ?x => set (s1 := x) end.
  assert (∀ t, (∀ nb nd nr np, stats_ok (Stat s) nb nd nr np → stats_ok t nb nd nr np) →
    Q tt (s1 <| Stat := t |> <| Stat ::= λ t, t <| SubscriptionsInUse ::= decr 32 |> |>)) as Hfin.
  { intros t Ht.
    refine (HQ r' (delete a D') (t <| SubscriptionsInUse ::= decr 32 |>) p' _ Hm' Ht'). split; try done.
    - intros k x Hk Hx. destruct (in_dests_sub tb _ (l1 ++ l2) i x Hl) with (k := k) as (k' & ? & ?); try done.
      + intros z. unfold dest_pipes. rewrite !fmap_app, !elem_of_app. cbn. rewrite elem_of_cons. tauto.
      + by eapply list_elem_of_lookup_2.
      + by eapply Hd.
    - cbn. rewrite Ep', !dom_delete_L, Hpool, Hdom. by apply dom_split_minus_r.
    - cbn. specialize (Ht _ _ _ _ Hst). destruct Ht as [E1 E2 E3 E4]. split; cbn; try done.
      + rewrite E2. assert (a ∈ dom D') as [d Ed]%elem_of_dom by by rewrite Hdom.
        rewrite (size_delete_old _ _ _ Ed), <- decr_u32. by rewrite <- (size_dom D'), Hdom, size_dom.
      + by rewrite Ht'. }
  destruct (0 <? n); cbn [when].
  - apply wp_stat. wp_step. apply wp_stat. apply (Hfin ((Stat s) <| MemInUse ::= λ n0, u32 (n0 - n) |>)).
    intros nb nd nr np []. by split.
  - do 2 wp_step. apply wp_stat. by apply (Hfin (Stat s)).
Qed.

(** The buffer being sent. *)
Lemma inv_begin tb held rsv s a : sb_inv tb held rsv NULL s → sb_inv tb held rsv a s.
Proof.
  intros [Hr Hp Hd (zs & ts & Hl & Hc) Hcnt Hpool Hst Hids Hfl]. split; try done.
  - exists zs, ts. split; [done|]. apply counts_begin; [done|]. intros x Hx. eapply lo_pos; [done|]. by apply elem_of_dom.
  - intros x. specialize (Hcnt x). destruct (decide (x = a)), (decide (x = NULL)) as [->|]; try lia.
    rewrite cnt_not; [lia|]. intros [b Hb]%(co_ref _ _ _ _ Hc). apply elem_of_dom_2 in Hb. apply (lo_pos _ _ _ _ Hl) in Hb. done.
Qed.

Lemma inv_end tb held rsv s a : sb_inv tb held rsv a s → cnt a (grefs s ++ held) <= 16 →
  (∀ b, Bufs s !! a = Some b → bd_AppId b = CFE_ES_APPID_UNDEFINED) → sb_inv tb held rsv NULL s.
Proof.
  intros [Hr Hp Hd (zs & ts & Hl & Hc) Hcnt Hpool Hst Hids Hfl] Ha Hb. split; try done.
  - exists zs, ts. split; [done|]. eapply counts_end; [done|]. intros Hz.
    assert (is_Some (Bufs s !! a)) as [b Hb'] by (apply elem_of_dom, (lo_in _ _ _ _ Hl), elem_of_app; auto).
    apply (co_zs _ _ _ _ Hc a b Hb') in Hz. by apply Hz, Hb.
  - intros x. specialize (Hcnt x). destruct (decide (x = a)) as [->|]; case_decide; lia.
Qed.

End mem.

(** ** Pipe descriptors: lookup by identifier, names and options *)

(** The pipe with an identifier, and its place in the table. *)
Definition find_pipe (tbl : list CFE_SB_PipeD_t) (PipeId : Z) : option (nat * CFE_SB_PipeD_t) :=
  match CFE_SB_LocatePipeDescByID PipeId with
  | Some i => match tbl !! Z.to_nat i with
              | Some p => if decide (pd_PipeId p = PipeId) then Some (Z.to_nat i, p) else None
              | None => None
              end
  | None => None
  end.

Lemma locate_range id i : CFE_SB_LocatePipeDescByID id = Some i → 0 <= i < 64.
Proof.
  unfold CFE_SB_LocatePipeDescByID, CFE_SB_PipeId_ToIndex, CFE_ResourceId_ToIndex.
  destruct (_ || _); cbn; [done|]. intros [= <-]. apply Z.mod_pos_bound. done.
Qed.

Lemma locate_special : CFE_SB_LocatePipeDescByID CFE_RESOURCEID_UNDEFINED = None ∧
  CFE_SB_LocatePipeDescByID CFE_RESOURCEID_RESERVED = None.
Proof. by vm_compute. Qed.

Lemma find_pipe_Some tbl id i p : find_pipe tbl id = Some (i, p) →
  CFE_SB_LocatePipeDescByID id = Some (Z.of_nat i) ∧ tbl !! i = Some p ∧ pd_PipeId p = id ∧ active p.
Proof.
  unfold find_pipe. destruct (CFE_SB_LocatePipeDescByID id) as [k|] eqn:E; [|done].
  destruct (tbl !! Z.to_nat k) as [p'|] eqn:Ep; [|done]. destruct (decide _) as [E2|]; [|done].
  intros [= <- <-]. pose proof (locate_range _ _ E). split_and!; [f_equal; lia|done|done|].
  destruct locate_special as [H1 H2]. subst id. split; intros E3; rewrite E3 in E; congruence.
Qed.

Lemma find_pipe_active tbl q last rsv i p : pipes_inv tbl q last rsv → tbl !! i = Some p → active p →
  find_pipe tbl (pd_PipeId p) = Some (i, p).
Proof.
  intros Hp Hi [H1 H2]. destruct (pi_id _ _ _ _ Hp i p Hi) as [?|[[? _]|(_ & E & _)]]; [done|done|].
  unfold find_pipe. rewrite E, Nat2Z.id, Hi. by rewrite decide_True.
Qed.

Lemma find_pipe_ids tbl q last rsv id : pipes_inv tbl q last rsv →
  id ∈ pipe_ids tbl ↔ is_Some (find_pipe tbl id).
Proof.
  intros Hp. unfold pipe_ids. split.
  - intros (p & -> & [Ha Hin]%list_elem_of_filter)%list_elem_of_fmap.
    apply list_elem_of_lookup in Hin as [i Hi]. erewrite find_pipe_active; eauto.
  - intros [[i p] E]. apply find_pipe_Some in E as (_ & Hi & <- & Ha). apply list_elem_of_fmap_2.
    apply list_elem_of_filter. split; [done|]. by eapply list_elem_of_lookup_2.
Qed.

Section pipes.
Context {PS QS : Type} `{MemPoolOK PS} `{OSQueueOK QS} `{MsgMapOK} `{BuildCfg}.
Abbreviation G := (CFE_SB_Global_t PS QS).
Implicit Types (s : G).

Lemma wp_match_true id i p Q s : PipeTbl s !! i = Some p → pd_PipeId p = id →
  Q true s → wp (CFE_SB_PipeDescIsMatch (Some (Z.of_nat i)) id) Q s.
Proof.
  intros Hi E HQ. unfold CFE_SB_PipeDescIsMatch. wp_step. eapply wp_rd_pipe; [lia|by rewrite Nat2Z.id|].
  wp_step. by rewrite (proj2 (Z.eqb_eq _ _)).
Qed.

Lemma wp_match_false id Q s : length (PipeTbl s) = 64%nat → find_pipe (PipeTbl s) id = None →
  Q false s → wp (CFE_SB_PipeDescIsMatch (CFE_SB_LocatePipeDescByID id) id) Q s.
Proof.
  intros Hl E HQ. unfold find_pipe in E. unfold CFE_SB_PipeDescIsMatch.
  destruct (CFE_SB_LocatePipeDescByID id) as [k|] eqn:Ek; [|by wp_step].
  pose proof (locate_range _ _ Ek). destruct (lookup_lt_is_Some_2 (PipeTbl s) (Z.to_nat k)) as [p Hp]; [lia|].
  rewrite Hp in E. destruct (decide _); [done|]. wp_step. eapply wp_rd_pipe; [lia|done|]. wp_step.
  by rewrite (proj2 (Z.eqb_neq _ _)).
Qed.

(** The lookup every operation on a pipe starts with, and the branch it takes. *)
Lemma wp_lookup {A} id (k : Z → M G A) (e : M G A) Q s :
  length (PipeTbl s) = 64%nat →
  (∀ i p, find_pipe (PipeTbl s) id = Some (i, p) → wp (k (Z.of_nat i)) Q s) →
  (find_pipe (PipeTbl s) id = None → wp e Q s) →
  wp (m ← CFE_SB_PipeDescIsMatch (CFE_SB_LocatePipeDescByID id) id;
      match CFE_SB_LocatePipeDescByID id, m with Some i, true => k i | _, _ => e end) Q s.
Proof.
  intros Hl H1' H2'. wp_step. destruct (find_pipe (PipeTbl s) id) as [[i p]|] eqn:E.
  - destruct (find_pipe_Some _ _ _ _ E) as (-> & Hi & Hid & _). eapply wp_match_true; [done..|]. by eapply H1'.
  - apply wp_match_false; [done..|]. destruct (CFE_SB_LocatePipeDescByID id); by apply H2'.
Qed.

Lemma wp_rd_pipe_nat i p Q s : PipeTbl s !! i = Some p → Q p s → wp (rd_pipe (Z.of_nat i)) Q s.
Proof. intros Hi HQ. eapply wp_rd_pipe; [lia|by rewrite Nat2Z.id|done]. Qed.

Lemma wp_wr_pipe_nat i p f Q s : PipeTbl s !! i = Some p →
  Q tt (s <| PipeTbl ::= alter f i |>) → wp (wr_pipe (Z.of_nat i) f) Q s.
Proof.
  intros Hi HQ. pose proof (lookup_lt_Some _ _ _ Hi). apply wp_wr_pipe; [lia|]. by rewrite Nat2Z.id.
Qed.

(** CFE_SB_GetPipeName only sends one event. *)
Lemma wp_GetPipeName buf size id Q s : Locked s = false → length (PipeTbl s) = 64%nat →
  (∀ st name e, (st = CFE_SUCCESS ↔ ev_Id e = CFE_SB_GETPIPENAME_EID) →
     (st = CFE_SUCCESS → ∃ i p, find_pipe (PipeTbl s) id = Some (i, p) ∧
        OS_GetResourceName (pd_SysQueueId p) size (Queues s) = (OS_SUCCESS, default EmptyString name)) →
     Q (st, name) (s <| Events ::= λ es, es ++ [e] |>)) →
  wp (CFE_SB_GetPipeName buf size id) Q s.
Proof.
  intros Hlk Hl HQ. unfold CFE_SB_GetPipeName. wp_step. apply wp_lock; [done|]. cbv zeta.
  set (s1 := s <| Locked := true |>).
  assert (∀ b, s1 <| Locked := false |> <| Events ::= b |> = s <| Events ::= b |>) as Es.
  { intros b. unfold s1. destruct s. cbn in *. by subst. }
  assert (∀ e t (name : ptr string) (st : Z), st ≠ CFE_SUCCESS → e ≠ CFE_SB_GETPIPENAME_EID → 
    wp (CFE_EVS_SendEventWithAppID e t;; mret (st, name)) Q (s1 <| Locked := false |>)) as Herr.
  { intros e t name st Hst He. wp_step. apply wp_event; [done|]. wp_step. rewrite Es. apply HQ; [|done].
    split; [done|]. cbn. done. }
  destruct (find_pipe (PipeTbl s) id) as [[i p]|] eqn:E.
  - destruct (find_pipe_Some _ _ _ _ E) as (-> & Hi & Hid & _).
    wp_go. eapply wp_match_true; [exact Hi|done|]. wp_go. eapply wp_rd_pipe_nat; [exact Hi|]. wp_go.
    apply wp_unlock; [done|]. wp_go.
    destruct buf as [n|]; [|wp_go; by apply Herr].
    destruct (size =? 0); [wp_go; by apply Herr|]. wp_go.
    change (Queues (s1 <| Locked := false |>)) with (Queues s).
    destruct (OS_GetResourceName (pd_SysQueueId p) size (Queues s)) as [st name] eqn:En.
    destruct (Z.eqb_spec st OS_SUCCESS) as [->|]; wp_go; [|by apply Herr].
    apply wp_event; [done|]. wp_go. rewrite Es. apply HQ; [done|]. intros _. by exists i, p.
  - wp_go. apply wp_match_false; [done..|].
    destruct (CFE_SB_LocatePipeDescByID id); wp_go; (apply wp_unlock; [done|]; wp_go; by apply Herr).
Qed.

End pipes.
