(* ===== verification/SbSubs.v ===== *)
(** * Subscriptions

    The subscription table of the bus is the list of registered message
    identifiers with, for each, the list of its destinations.  [sub_step] and
    [unsub_step] say what a request does to it on every branch; the critical
    sections of CFE_SB_SubscribeFull and CFE_SB_UnsubscribeFull refine them. *)
From stdpp Require Import strings.
From S2P Require Import Prelude Config Msg ResourceId Sbr SbrProps SbState SbBuf SbApi SbRoutes SbBufs SbInv SbMem.

(** ** Abstract requests *)

(** The table with a route for an identifier, and its index. *)
Definition with_route (ids : list Z) (tb : list dlist) (MsgId : Z) : nat * list Z * list dlist :=
  if decide (MsgId ∈ ids) then (Z.to_nat (route_of ids MsgId - 1), ids, tb)
  else (length ids, ids ++ [MsgId], tb ++ [[]]).

Inductive sub_step (tbl : list CFE_SB_PipeD_t) (AppId : Z) (ids : list Z) (tb : list dlist)
    (MsgId PipeId MsgLim Scope : Z) : Z → Z → list Z → list dlist → Prop :=
| sub_no_pipe :
    find_pipe tbl PipeId = None →
    sub_step tbl AppId ids tb MsgId PipeId MsgLim Scope CFE_SB_BAD_ARGUMENT CFE_SB_SUB_INV_PIPE_EID ids tb
| sub_not_owner i p :
    find_pipe tbl PipeId = Some (i, p) → pd_AppId p ≠ AppId →
    sub_step tbl AppId ids tb MsgId PipeId MsgLim Scope CFE_SB_BAD_ARGUMENT CFE_SB_SUB_INV_CALLER_EID ids tb
| sub_bad_arg i p :
    find_pipe tbl PipeId = Some (i, p) → pd_AppId p = AppId →
    CFE_SB_IsValidMsgId MsgId = false ∨ 1 < Scope →
    sub_step tbl AppId ids tb MsgId PipeId MsgLim Scope CFE_SB_BAD_ARGUMENT CFE_SB_SUB_ARG_ERR_EID ids tb
| sub_max_msgs i p :
    find_pipe tbl PipeId = Some (i, p) → pd_AppId p = AppId → CFE_SB_IsValidMsgId MsgId = true → Scope <= 1 →
    MsgId ∉ ids → length ids = 256%nat →
    sub_step tbl AppId ids tb MsgId PipeId MsgLim Scope CFE_SB_MAX_MSGS_MET CFE_SB_MAX_MSGS_MET_EID ids tb
| sub_duplicate i p r l :
    find_pipe tbl PipeId = Some (i, p) → pd_AppId p = AppId → CFE_SB_IsValidMsgId MsgId = true → Scope <= 1 →
    ids !! r = Some MsgId → tb !! r = Some l → PipeId ∈ dest_pipes l →
    sub_step tbl AppId ids tb MsgId PipeId MsgLim Scope CFE_SUCCESS CFE_SB_DUP_SUBSCRIP_EID ids tb
| sub_max_dests i p r l :
    find_pipe tbl PipeId = Some (i, p) → pd_AppId p = AppId → CFE_SB_IsValidMsgId MsgId = true → Scope <= 1 →
    ids !! r = Some MsgId → tb !! r = Some l → PipeId ∉ dest_pipes l → length l = 16%nat →
    sub_step tbl AppId ids tb MsgId PipeId MsgLim Scope CFE_SB_MAX_DESTS_MET CFE_SB_MAX_DESTS_MET_EID ids tb
| sub_no_memory i p r l ids' tb' :
    find_pipe tbl PipeId = Some (i, p) → pd_AppId p = AppId → CFE_SB_IsValidMsgId MsgId = true → Scope <= 1 →
    with_route ids tb MsgId = (r, ids', tb') → (length ids' ≤ 256)%nat →
    tb' !! r = Some l → PipeId ∉ dest_pipes l → (length l < 16)%nat →
    sub_step tbl AppId ids tb MsgId PipeId MsgLim Scope CFE_SB_BUF_ALOC_ERR CFE_SB_DEST_BLK_ERR_EID ids' tb'
| sub_added i p r l ids' tb' a :
    find_pipe tbl PipeId = Some (i, p) → pd_AppId p = AppId → CFE_SB_IsValidMsgId MsgId = true → Scope <= 1 →
    with_route ids tb MsgId = (r, ids', tb') → (length ids' ≤ 256)%nat →
    tb' !! r = Some l → PipeId ∉ dest_pipes l → (length l < 16)%nat →
    sub_step tbl AppId ids tb MsgId PipeId MsgLim Scope CFE_SUCCESS 0 ids'
      (<[r := (a, mkDestinationD PipeId CFE_SB_ACTIVE MsgLim 0 0 Scope NULL NULL) :: l]> tb').

Inductive unsub_step (tbl : list CFE_SB_PipeD_t) (AppId : Z) (ids : list Z) (tb : list dlist)
    (MsgId PipeId Scope : Z) : Z → Z → list dlist → Prop :=
| unsub_no_pipe :
    find_pipe tbl PipeId = None →
    unsub_step tbl AppId ids tb MsgId PipeId Scope CFE_SB_BAD_ARGUMENT CFE_SB_UNSUB_INV_PIPE_EID tb
| unsub_not_owner i p :
    find_pipe tbl PipeId = Some (i, p) → pd_AppId p ≠ AppId →
    unsub_step tbl AppId ids tb MsgId PipeId Scope CFE_SB_BAD_ARGUMENT CFE_SB_UNSUB_INV_CALLER_EID tb
| unsub_bad_arg i p :
    find_pipe tbl PipeId = Some (i, p) → pd_AppId p = AppId →
    CFE_SB_IsValidMsgId MsgId = false ∨ 1 < Scope →
    unsub_step tbl AppId ids tb MsgId PipeId Scope CFE_SB_BAD_ARGUMENT CFE_SB_UNSUB_ARG_ERR_EID tb
| unsub_no_route i p :
    find_pipe tbl PipeId = Some (i, p) → pd_AppId p = AppId → CFE_SB_IsValidMsgId MsgId = true → Scope <= 1 →
    MsgId ∉ ids →
    unsub_step tbl AppId ids tb MsgId PipeId Scope CFE_SUCCESS CFE_SB_UNSUB_NO_SUBS_EID tb
| unsub_no_subs i p r l :
    find_pipe tbl PipeId = Some (i, p) → pd_AppId p = AppId → CFE_SB_IsValidMsgId MsgId = true → Scope <= 1 →
    ids !! r = Some MsgId → tb !! r = Some l → PipeId ∉ dest_pipes l →
    unsub_step tbl AppId ids tb MsgId PipeId Scope CFE_SUCCESS CFE_SB_UNSUB_NO_SUBS_EID tb
| unsub_removed i p r l1 a d l2 :
    find_pipe tbl PipeId = Some (i, p) → pd_AppId p = AppId → CFE_SB_IsValidMsgId MsgId = true → Scope <= 1 →
    ids !! r = Some MsgId → tb !! r = Some (l1 ++ (a, d) :: l2) → dd_PipeId d = PipeId →
    unsub_step tbl AppId ids tb MsgId PipeId Scope CFE_SUCCESS 0 (<[r := l1 ++ l2]> tb).

(** ** Routes *)

Section routes.
Context {I : MsgMap} {OK : MsgMapOK I}.

Lemma routes_add_route r D tb r' id : routes_inv r D tb → sbr_inv r' →
  entries r' = entries r ++ [mkRouteEntry NULL id 0] → routes_inv r' D (tb ++ [[]]).
Proof.
  intros [H1 H2 H3 H4 H5 H6 H7] Hr' He.
  assert (concat (tb ++ [[]]) = concat tb) as Ec by (rewrite concat_app; cbn; by rewrite app_nil_r).
  split; rewrite ?Ec; try done.
  - rewrite He. apply Forall2_app; [done|]. constructor; [done|constructor].
  - apply Forall_app. split; [done|]. constructor; [cbn; lia|constructor].
  - apply Forall_app. split; [done|]. constructor; [constructor|constructor].
Qed.

(** The index of a registered identifier's route. *)
Lemma route_index r D tb id : routes_inv r D tb → id ∈ msgids r →
  ∃ i l, route_of (msgids r) id = Z.of_nat i + 1 ∧ msgids r !! i = Some id ∧ tb !! i = Some l.
Proof.
  intros Hri Hin. pose proof (ri_sbr _ _ _ Hri) as [Hwf _]. apply list_elem_of_lookup in Hin as [i Hi].
  pose proof (lookup_lt_Some _ _ _ Hi) as Hlt. rewrite (msgids_length r Hwf), <- (tb_length _ _ _ Hri) in Hlt.
  destruct (lookup_lt_is_Some_2 tb i Hlt) as [l Hl]. exists i, l. split_and!; try done.
  rewrite (route_of_lookup _ _ _ (wf_nodup r Hwf) Hi). lia.
Qed.

End routes.

Section subs.
Context {PS QS : Type} `{MemPoolOK PS} `{OSQueueOK QS} `{MsgMapOK} `{BuildCfg}.
Abbreviation G := (CFE_SB_Global_t PS QS).
Implicit Types (s : G).

Lemma subscribe_loop_spec s l p fuel PipeId k :
  chain mkd (Dests s) p l NULL → Forall (λ x, x.1 ≠ NULL) l → (length l ≤ fuel)%nat →
  0 <= k < 16 → k + Z.of_nat (length l) <= 16 →
  subscribe_loop fuel (hd NULL l.*1) PipeId k s =
    Some (if decide (PipeId ∈ dest_pipes l) then Some CFE_SB_DUP_SUBSCRIP_EID
          else if decide (k + Z.of_nat (length l) = 16) then Some CFE_SB_MAX_DESTS_MET_EID else None, s).
Proof.
  revert p fuel k. induction l as [|[a y] l IH]; intros p fuel k Hc Hz Hf Hk Hlen.
  { rewrite decide_False by apply not_elem_of_nil. rewrite decide_False by (cbn; lia). by destruct fuel. }
  destruct fuel as [|fuel]; [cbn in Hf; lia|]. inversion_clear Hz as [|? ? Ha Hz']. cbn in Ha.
  destruct Hc as [E Hc]. cbn [hd fst snd fmap list_fmap map subscribe_loop].
  rewrite (proj2 (Z.eqb_neq a NULL)) by done. unfold mbind, M_bind, rd_dest. rewrite E. cbn [of_option].
  unfold mret, M_ret.
  change (dd_PipeId (mkd y p (hd NULL l.*1))) with (dd_PipeId y).
  change (dd_Next (mkd y p (hd NULL l.*1))) with (hd NULL l.*1).
  change (dest_pipes ((a, y) :: l)) with (dd_PipeId y :: dest_pipes l).
  rewrite u32_small by (unfold is_u32; lia). cbn [length] in *. unfold CFE_PLATFORM_SB_MAX_DEST_PER_PKT.
  destruct (Z.eqb_spec (dd_PipeId y) PipeId) as [->|Hne]; [by rewrite decide_True by (by left)|].
  destruct (Z.leb_spec 16 (k + 1)) as [Hge|Hlt].
  - clear IH. assert (l = []) as -> by (destruct l; [done|cbn in Hlen; lia]).
    destruct (decide (PipeId ∈ _ :: _)) as [[|Hin]%elem_of_cons|]; [congruence|by apply not_elem_of_nil in Hin|].
    case_decide as Hd; [done|]. cbn in *. lia.
  - rewrite (IH a) by (done || lia). do 2 f_equal.
    destruct (decide (PipeId ∈ dest_pipes l)) as [Hin|Hin].
    + by rewrite decide_True by by right.
    + rewrite (decide_False (P := PipeId ∈ _ :: _)); [|rewrite elem_of_cons; naive_solver].
      repeat case_decide; try done; lia.
Qed.

Definition new_dest (PipeId MsgLim Scope : Z) : CFE_SB_DestinationD_t :=
  mkDestinationD PipeId CFE_SB_ACTIVE MsgLim 0 0 Scope NULL NULL.

Lemma in_dests_add (tb : list dlist) (l : dlist) i a d (P : Z → Prop) : tb !! i = Some l → P (dd_PipeId d) →
  (∀ k x, k ∈ tb → x ∈ dest_pipes k → P x) →
  ∀ k x, k ∈ <[i := (a, d) :: l]> tb → x ∈ dest_pipes k → P x.
Proof.
  intros Hl Hd HP k x Hk Hx. apply list_elem_of_lookup in Hk as [j Hj].
  rewrite list_lookup_insert_Some in Hj. destruct Hj as [(-> & <- & _)|[_ Hj]].
  - apply elem_of_cons in Hx as [->|Hx]; [done|]. eapply HP; [by eapply list_elem_of_lookup_2|done].
  - eapply HP; [by eapply list_elem_of_lookup_2|done].
Qed.

Lemma wp_subscribe_dest tb held rsv tx i l PipeId MsgLim Scope Q s :
  sb_inv tb held rsv tx s → tb !! i = Some l → PipeId ∈ pipe_ids (PipeTbl s) →
  (PipeId ∈ dest_pipes l → Q (CFE_SUCCESS, CFE_SB_DUP_SUBSCRIP_EID) s) →
  (PipeId ∉ dest_pipes l → length l = 16%nat → Q (CFE_SB_MAX_DESTS_MET, CFE_SB_MAX_DESTS_MET_EID) s) →
  (PipeId ∉ dest_pipes l → (length l < 16)%nat →
    (∀ p, sb_inv tb held rsv tx (s <| Pool := p |>) → Q (CFE_SB_BUF_ALOC_ERR, CFE_SB_DEST_BLK_ERR_EID) (s <| Pool := p |>)) ∧
    (∀ a r D t p, let s' := s <| Routes := r |> <| Dests := D |> <| Stat := t |> <| Pool := p |> in
       sb_inv (<[i := (a, new_dest PipeId MsgLim Scope) :: l]> tb) held rsv tx s' →
       msgids r = msgids (Routes s) → Q (CFE_SUCCESS, 0) s')) →
  wp (subscribe_dest (Z.of_nat i + 1) PipeId MsgLim Scope) Q s.
Proof.
  intros Hi Hl Hpipe HQ1 HQ2 HQ3. pose proof (in_routes _ _ _ _ _ Hi) as Hri.
  destruct (tb_route _ _ _ _ _ Hri Hl) as (e & _ & _ & Hc & _).
  pose proof (tb_size _ _ _ _ _ Hri Hl). pose proof (dlist_nonnull _ _ _ _ _ Hri Hl) as Hnn.
  pose proof (ri_len _ _ _ Hri) as Hlen. eapply Forall_lookup_1 in Hlen; [|exact Hl].
  unfold subscribe_dest. wp_step. eapply wp_sbr_head; [done..|]. unfold dest_fuel. do 3 wp_step.
  eapply wp_eq; [apply (subscribe_loop_spec s l NULL); done || lia|].
  destruct (decide (PipeId ∈ dest_pipes l)) as [Hin|Hin]; [wp_go; by apply HQ1|].
  case_decide; [wp_go; apply HQ2; [done|lia]|].
  destruct HQ3 as [HQ3 HQ4]; [done|lia|]. wp_step. eapply wp_GetDestinationBlk; [exact Hi|..].
  { intros p Hp. wp_go. by apply HQ3. }
  intros a t p Hpos HB HD Hdom Ht. rewrite (proj2 (Z.eqb_neq a NULL)) by (unfold NULL; lia).
  do 8 (wp_step; eapply wp_wr_dest; [apply lookup_insert_eq|]). wp_step.
  match goal with |- wp _ _ ?x => set (s1 := x) end.
  eapply (wp_AddDestNode i l tb a (new_dest PipeId MsgLim Scope) (Dests s)); try done; [|lia|].
  { unfold s1. cbn. by rewrite !insert_insert_eq. }
  intros r' D' Hr' Htop Hm Hdom'. do 2 (wp_step; apply wp_stat). wp_step.
  match goal with |- Q _ (?x <| Stat ::= _ |> <| Stat ::= _ |>) =>
    match goal with |- Q _ ?y => refine (HQ4 a r' D' (Stat y) p _ Hm) end end.
  destruct Hi as [_ Hp Hd Hb Hcnt [Hpool Hdj] Hst Hids Hfl]. split; try done.
  - apply (in_dests_add tb l i a (new_dest PipeId MsgLim Scope) _ Hl); done.
  - cbn. rewrite Hdom, Hdom', Hpool. split; [apply set_eq; intros b; rewrite !elem_of_union; tauto|].
    intros b Hb'. rewrite elem_of_union, elem_of_singleton. intros [->|Hb'']; [|by apply (Hdj b)].
    apply elem_of_dom in Hb' as [? ?]. congruence.
  - destruct (Ht _ _ _ _ Hst) as [E1 E2 E3 E4].
    assert (Z.of_nat (size D') = Z.of_nat (size (Dests s)) + 1) as Es.
    { rewrite <- size_dom, Hdom', size_union, size_singleton, size_dom; [lia|].
      apply disjoint_singleton_l. by apply not_elem_of_dom. }
    split; cbn; (case_match; cbn; try done). all: rewrite ?Htop; try done; rewrite Es, <- incr_u32; by rewrite E2.
Qed.

Lemma inv_route tb held rsv tx s MsgId : sb_inv tb held rsv tx s → MsgId ∈ msgids (Routes s) →
  ∃ i l, route_of (msgids (Routes s)) MsgId = Z.of_nat i + 1 ∧ msgids (Routes s) !! i = Some MsgId ∧ tb !! i = Some l ∧
    CFE_SBR_IsValidRouteId (Z.of_nat i + 1) = true.
Proof.
  intros Hi Hin. pose proof (in_routes _ _ _ _ _ Hi) as Hri.
  destruct (route_index _ _ _ _ Hri Hin) as (i & l & E1 & E2 & E3). exists i, l. split_and!; try done.
  destruct (tb_route _ _ _ _ _ Hri E3) as (_ & _ & _ & _ & Hr).
  pose proof (wf_top _ (inv_wf _ (ri_sbr _ _ _ Hri))). apply IsValidRouteId_spec; lia.
Qed.

Lemma wp_GetRouteId tb held rsv tx MsgId Q s : sb_inv tb held rsv tx s → is_u32 MsgId →
  Q (route_of (msgids (Routes s)) MsgId) s → wp (sbr (CFE_SBR_GetRouteId MsgId)) Q s.
Proof.
  intros Hi Hid HQ. eapply wp_sbr.
  - apply GetRouteId_spec; [|done]. apply (in_routes _ _ _ _ _ Hi).
  - by destruct s.
Qed.

Lemma wp_subscribe_route c tb held rsv tx MsgId PipeId MsgLim Scope Q s :
  sb_inv tb held rsv tx s → is_u32 MsgId →
  (∀ st ev rid col,
    sub_step (PipeTbl s) (c_AppId c) (msgids (Routes s)) tb MsgId PipeId MsgLim Scope st ev (msgids (Routes s)) tb →
    st ≠ CFE_SUCCESS → Q (st, ev, rid, col) s) →
  (∀ i p r l ids' tb' R t col, let s' := s <| Routes := R |> <| Stat := t |> in
    find_pipe (PipeTbl s) PipeId = Some (i, p) → pd_AppId p = c_AppId c → CFE_SB_IsValidMsgId MsgId = true →
    Scope <= 1 → with_route (msgids (Routes s)) tb MsgId = (r, ids', tb') → (length ids' ≤ 256)%nat →
    (MsgId ∈ msgids (Routes s) → msgids (Routes s) !! r = Some MsgId) → tb' !! r = Some l →
    sb_inv tb' held rsv tx s' → msgids R = ids' →
    Q (CFE_SUCCESS, 0, Z.of_nat r + 1, col) s') →
  wp (subscribe_route c MsgId PipeId Scope) Q s.
Proof.
  intros Hi Hid HQ1 HQ2. pose proof (in_routes _ _ _ _ _ Hi) as Hri. pose proof (ri_sbr _ _ _ Hri) as [Hwf _].
  pose proof (pi_len _ _ _ _ (in_pipes _ _ _ _ _ Hi)) as Hlen.
  pose proof (msgids_length _ Hwf) as Hml. pose proof (wf_top _ Hwf) as Htop.
  unfold subscribe_route. apply wp_lookup; [done| |].
  2: { intros E. wp_go. apply HQ1; [by constructor|done]. }
  intros i p E. destruct (find_pipe_Some _ _ _ _ E) as (_ & Hp & _ & _).
  wp_step. eapply wp_rd_pipe_nat; [exact Hp|].
  destruct (Z.eqb_spec (pd_AppId p) (c_AppId c)) as [Ha|Ha]; cbn [negb].
  2: { wp_go. apply HQ1; [by eapply sub_not_owner|done]. }
  destruct (CFE_SB_IsValidMsgId MsgId) eqn:Hv; cbn [negb orb].
  2: { wp_go. apply HQ1; [eapply sub_bad_arg; eauto|done]. }
  destruct (Z.ltb_spec 1 Scope) as [Hs|Hs].
  { wp_go. apply HQ1; [eapply sub_bad_arg; eauto|done]. }
  wp_step. eapply wp_GetRouteId; [exact Hi|done|].
  destruct (decide (MsgId ∈ msgids (Routes s))) as [Hin|Hin].
  - destruct (inv_route _ _ _ _ _ _ Hi Hin) as (r & l & E1 & E2 & E3 & Hvr). rewrite E1, Hvr. wp_go.
    replace s with (s <| Routes := Routes s |> <| Stat := Stat s |>) by by destruct s.
    apply (HQ2 i p r l (msgids (Routes s)) tb); try done; [|rewrite Hml; lia|by destruct s].
    unfold with_route. rewrite decide_True, E1 by done. by replace (Z.to_nat _) with r by lia.
  - rewrite (route_of_absent _ _ Hin). change (CFE_SBR_IsValidRouteId 0) with false. wp_go.
    pose proof (AddRoute_spec _ _ (Some 0) (ri_sbr _ _ _ Hri) Hid Hin) as Hadd. rewrite Hv in Hadd. cbn [andb] in Hadd.
    destruct (Z.ltb_spec (RouteIdxTop (Routes s)) 256) as [Ht|Ht].
    + destruct Hadd as (col & r' & Eadd & Hr' & He & Ht'). eapply wp_sbr; [exact Eadd|]. wp_go.
      rewrite (proj2 (IsValidRouteId_spec (1 + RouteIdxTop (Routes s)) ltac:(lia))) by lia. cbn [negb].
      do 2 (wp_step; apply wp_stat). wp_step.
      replace (1 + RouteIdxTop (Routes s)) with (Z.of_nat (Z.to_nat (RouteIdxTop (Routes s))) + 1) by lia.
      match goal with |- Q _ ?y => refine (HQ2 i p (Z.to_nat (RouteIdxTop (Routes s))) [] (msgids (Routes s) ++ [MsgId])
         (tb ++ [[]]) r' (Stat y) col E Ha eq_refl Hs _ _ _ _ _ _) end; try done.
      * unfold with_route. rewrite decide_False by done. by rewrite Hml.
      * rewrite length_app, Hml. cbn. lia.
      * rewrite lookup_app_r by (rewrite (tb_length _ _ _ Hri); lia).
        by rewrite (tb_length _ _ _ Hri), Nat.sub_diag.
      * destruct Hi as [_ Hp' Hd Hb Hcnt Hpool Hst Hids Hfl]. split; try done.
        -- by eapply routes_add_route.
        -- intros k x [Hk|Hk]%elem_of_app Hx; [by eapply Hd|]. apply list_elem_of_singleton in Hk as ->.
           by apply not_elem_of_nil in Hx.
        -- cbn. destruct Hst as [S1 S2 S3 S4]. rewrite Ht'.
           split; cbn; (case_match; cbn; try done). all: by rewrite S3, incr_u32.
      * change (msgids r') with (Sbr.MsgId <$> entries r'). by rewrite He, fmap_app.
    + eapply wp_sbr; [exact Hadd|]. wp_go. change (CFE_SBR_IsValidRouteId CFE_SBR_INVALID_ROUTE_ID) with false. wp_go.
      replace (s <| Routes := Routes s |>) with s by by destruct s.
      apply HQ1; [|done]. eapply sub_max_msgs; eauto. rewrite Hml. lia.
Qed.

Lemma wp_subscribe_locked c tb held rsv tx MsgId PipeId MsgLim Scope Q s :
  sb_inv tb held rsv tx s → is_u32 MsgId →
  (∀ st ev col ids' tb' r D t p,
     let s' := s <| Routes := r |> <| Dests := D |> <| Stat := t |> <| Pool := p |> <| HK ::= subscribe_count ev |> in
     sub_step (PipeTbl s) (c_AppId c) (msgids (Routes s)) tb MsgId PipeId MsgLim Scope st ev ids' tb' →
     sb_inv tb' held rsv tx s' → msgids r = ids' → Q (st, ev, col) s') →
  wp (subscribe_locked c MsgId PipeId MsgLim Scope) Q s.
Proof.
  intros Hi Hid HQ. unfold subscribe_locked. wp_step. eapply (wp_subscribe_route _ _ _ _ _ _ _ MsgLim); [done|done|..].
  - intros st ev rid col Hstep Hne. rewrite (proj2 (Z.eqb_neq _ _) Hne). wp_go. apply wp_hk. wp_step.
    destruct Hi. apply (HQ st ev col (msgids (Routes s)) tb (Routes s) (Dests s) (Stat s) (Pool s)); by try split.
  - intros i p r l ids' tb' R t col s1 Hf Ha Hv Hs Hw Hlen Hin Hl Hi1 Hm. wp_go.
    assert (∀ st ev tb'' R' D' t' p', 
      sub_step (PipeTbl s) (c_AppId c) (msgids (Routes s)) tb MsgId PipeId MsgLim Scope st ev ids' tb'' →
      sb_inv tb'' held rsv tx (s <| Routes := R' |> <| Dests := D' |> <| Stat := t' |> <| Pool := p' |>) → msgids R' = ids' →
      wp (hk (subscribe_count ev);; mret (st, ev, col)) Q
        (s <| Routes := R' |> <| Dests := D' |> <| Stat := t' |> <| Pool := p' |>)) as Hfin.
    { intros st ev tb'' R' D' t' p' Hstep Hinv Hm'. wp_go. apply wp_hk. wp_go.
      eapply (HQ st ev col ids' tb'' R' D' t' p'); try done. destruct Hinv. by split. }
    assert (∀ st ev, sub_step (PipeTbl s) (c_AppId c) (msgids (Routes s)) tb MsgId PipeId MsgLim Scope st ev ids' tb' →
      wp (hk (subscribe_count ev);; mret (st, ev, col)) Q s1) as Hsame.
    { intros st ev Hstep. apply (Hfin st ev tb' R (Dests s) t (Pool s)); done. }
    assert (∀ k, tb' !! r = Some k → k ≠ [] → ids' = msgids (Routes s) ∧ tb' = tb ∧ msgids (Routes s) !! r = Some MsgId) as Hold.
    { intros k Hk Hne. unfold with_route in Hw. destruct (decide (MsgId ∈ msgids (Routes s))) as [Hm'|Hm'].
      - injection Hw as <- <- <-. auto.
      - injection Hw as <- <- <-. exfalso.
        pose proof (tb_length _ _ _ (in_routes _ _ _ _ _ Hi)) as Htl.
        rewrite <- (msgids_length _ (inv_wf _ (ri_sbr _ _ _ (in_routes _ _ _ _ _ Hi)))) in Htl.
        rewrite <- Htl, lookup_app_r, Nat.sub_diag in Hk by done. injection Hk as <-. done. }
    eapply wp_subscribe_dest; [exact Hi1|exact Hl| |..].
    + eapply find_pipe_ids; [apply (in_pipes _ _ _ _ _ Hi)|]. change (PipeTbl s1) with (PipeTbl s). by rewrite Hf.
    + intros Hdup. destruct (Hold l Hl) as (-> & -> & Hr).
      { intros ->. by apply not_elem_of_nil in Hdup. }
      apply Hsame. eapply sub_duplicate; eauto.
    + intros Hnd Hfull. destruct (Hold l Hl) as (-> & -> & Hr); [by intros ->|].
      apply Hsame. eapply sub_max_dests; eauto.
    + intros Hnd Hlt. split.
      * intros p' Hi'. apply (Hfin _ _ tb' R (Dests s) t p'); [by eapply sub_no_memory|done..].
      * intros a R' D t' p' s2 Hi' Hm'. eapply (Hfin _ _ _ R' D t' p'); [by eapply sub_added|exact Hi'|]. by rewrite Hm'.
Qed.

Lemma wp_unsubscribe_locked tb held rsv tx MsgId PipeId Scope AppId Q s :
  sb_inv tb held rsv tx s → is_u32 MsgId →
  (∀ st ev tb' r D t p, let s' := s <| Routes := r |> <| Dests := D |> <| Stat := t |> <| Pool := p |> in
     unsub_step (PipeTbl s) AppId (msgids (Routes s)) tb MsgId PipeId Scope st ev tb' →
     sb_inv tb' held rsv tx s' → msgids r = msgids (Routes s) → Q (st, ev) s') →
  wp (unsubscribe_locked MsgId PipeId Scope AppId) Q s.
Proof.
  intros Hi Hid HQ. pose proof (in_routes _ _ _ _ _ Hi) as Hri.
  pose proof (pi_len _ _ _ _ (in_pipes _ _ _ _ _ Hi)) as Hlen.
  assert (∀ st ev, unsub_step (PipeTbl s) AppId (msgids (Routes s)) tb MsgId PipeId Scope st ev tb → Q (st, ev) s) as Hsame.
  { intros st ev Hstep. replace s with (s <| Routes := Routes s |> <| Dests := Dests s |> <| Stat := Stat s |> <| Pool := Pool s |>)
      by by destruct s. eapply HQ; [done| |done]. by destruct s. }
  unfold unsubscribe_locked. apply wp_lookup; [done| |].
  2: { intros E. wp_go. apply Hsame. by constructor. }
  intros i p E. destruct (find_pipe_Some _ _ _ _ E) as (_ & Hp & _ & _).
  wp_step. eapply wp_rd_pipe_nat; [exact Hp|].
  destruct (Z.eqb_spec (pd_AppId p) AppId) as [Ha|Ha]; cbn [negb].
  2: { wp_go. apply Hsame. by eapply unsub_not_owner. }
  destruct (CFE_SB_IsValidMsgId MsgId) eqn:Hv; cbn [negb orb].
  2: { wp_go. apply Hsame. eapply unsub_bad_arg; eauto. }
  destruct (Z.ltb_spec 1 Scope) as [Hs|Hs].
  { wp_go. apply Hsame. eapply unsub_bad_arg; eauto. }
  wp_step. eapply wp_GetRouteId; [exact Hi|done|].
  destruct (decide (MsgId ∈ msgids (Routes s))) as [Hin|Hin].
  - destruct (inv_route _ _ _ _ _ _ Hi Hin) as (r & l & E1 & E2 & E3 & Hvr). rewrite E1, Hvr. wp_go.
    eapply wp_GetDestPtr; [done..|]. pose proof (dlist_nonnull _ _ _ _ _ Hri E3) as Hnn.
    destruct (Z.eqb_spec (find_dest l PipeId) NULL) as [En|En]; cbn [negb].
    + wp_go. apply Hsame. eapply unsub_no_subs; eauto. by apply find_dest_null.
    + destruct (find_dest_split l PipeId Hnn En) as (l1 & y & l2 & El & Hy & _). rewrite El in E3.
      wp_go. eapply wp_RemoveDest; [done..|]. intros R D t p' s' Hi' Hm _. wp_go.
      eapply HQ; [|exact Hi'|done]. by eapply unsub_removed.
  - rewrite (route_of_absent _ _ Hin). change (CFE_SBR_IsValidRouteId 0) with false. wp_go.
    apply Hsame. eapply unsub_no_route; eauto.
Qed.

End subs.
