(* ===== verification/SbSend.v ===== *)
(** * Sending

    What the loop of CFE_SB_BroadcastBufferToRoute does to each destination, and
    the whole of CFE_SB_TransmitMsg. *)
From stdpp Require Import strings.
From S2P Require Import Prelude Config Msg ResourceId Sbr SbrProps SbState SbBuf SbApi SbRoutes SbBufs SbInv SbMem SbSubs.

(** ** Outcomes *)

(** What happened at a destination: skipped (disabled, or the pipe ignores its own
    application's messages), delivered, or one of the three errors. *)
Inductive outcome := Skipped | Delivered | Limited | Overflow | WriteErr (st : Z).

#[export] Instance outcome_eq_dec : EqDecision outcome.
Proof. solve_decision. Defined.

Definition upd_dest (o : outcome) (y : CFE_SB_DestinationD_t) : CFE_SB_DestinationD_t :=
  match o with
  | Delivered => y <| dd_BuffCount ::= incr 16 |> <| dd_DestCnt ::= incr 16 |>
  | _ => y
  end.

Definition out_err (o : outcome) (y : CFE_SB_DestinationD_t) : list CFE_SB_SendErrEventBuf_t :=
  match o with
  | Limited => [mkSendErr CFE_SB_MSGID_LIM_ERR_EID None (dd_PipeId y)]
  | Overflow => [mkSendErr CFE_SB_Q_FULL_ERR_EID None (dd_PipeId y)]
  | WriteErr st => [mkSendErr CFE_SB_Q_WR_ERR_EID (Some st) (dd_PipeId y)]
  | _ => []
  end.

(** The destinations the sender does not reach by choice. *)
Definition dest_skips (AppId : Z) (tbl : list CFE_SB_PipeD_t) (y : CFE_SB_DestinationD_t) : bool :=
  negb (dd_Active y =? CFE_SB_ACTIVE) ||
  match find_pipe tbl (dd_PipeId y) with
  | Some (_, p) => negb (Z.land (pd_Opts p) CFE_SB_PIPEOPTS_IGNOREMINE =? 0) && (pd_AppId p =? AppId)
  | None => true
  end.

(** The queue of a pipe. *)
Definition queue_of (tbl : list CFE_SB_PipeD_t) (PipeId : Z) : Z :=
  match find_pipe tbl PipeId with Some (_, p) => pd_SysQueueId p | None => 0 end.

(** [out_ok]: the outcome is the one the destination's state and its queue's room
    call for; a write fails only when the queue is full. *)
Definition out_ok (AppId : Z) (tbl : list CFE_SB_PipeD_t) (q : qmem) (depth : Z → Z)
    (y : CFE_SB_DestinationD_t) (o : outcome) : Prop :=
  match o with
  | Skipped => dest_skips AppId tbl y = true
  | Limited => dest_skips AppId tbl y = false ∧ dd_MsgId2PipeLim y <= dd_BuffCount y
  | Delivered => dest_skips AppId tbl y = false ∧ dd_BuffCount y < dd_MsgId2PipeLim y
  | Overflow | WriteErr _ =>
      dest_skips AppId tbl y = false ∧ dd_BuffCount y < dd_MsgId2PipeLim y ∧
      ∃ l, q !! queue_of tbl (dd_PipeId y) = Some l ∧ depth (queue_of tbl (dd_PipeId y)) <= Z.of_nat (length l)
  end.

(** The queues after an outcome. *)
Definition out_queue (a : addr) (tbl : list CFE_SB_PipeD_t) (y : CFE_SB_DestinationD_t) (o : outcome) (q : qmem) : qmem :=
  match o with
  | Delivered => alter (λ l, l ++ [a]) (queue_of tbl (dd_PipeId y)) q
  | _ => q
  end.

(** The same for all destinations of a route, in the order of the list. *)
Fixpoint out_queues (a : addr) (tbl : list CFE_SB_PipeD_t) (outs : list outcome) (l : dlist) (q : qmem) : qmem :=
  match outs, l with
  | o :: outs, x :: l => out_queues a tbl outs l (out_queue a tbl x.2 o q)
  | _, _ => q
  end.

Definition upd_dests (outs : list outcome) (l : dlist) : dlist := zip_with (λ o x, (x.1, upd_dest o x.2)) outs l.
Definition out_errs (outs : list outcome) (l : dlist) : list CFE_SB_SendErrEventBuf_t :=
  concat (zip_with (λ o x, out_err o x.2) outs l).
Definition ndelivered (outs : list outcome) : nat := length (filter (λ o, o = Delivered) outs).

(** ** Pipe counters

    Sending changes only the counters of the pipe descriptors. *)

Definition pcore (p : CFE_SB_PipeD_t) : CFE_SB_PipeD_t :=
  p <| pd_SendErrors := 0 |> <| pd_CurrentQueueDepth := 0 |> <| pd_PeakQueueDepth := 0 |>.

Arguments pcore : simpl never.

Lemma pcore_eq p p' : pcore p = pcore p' →
  pd_PipeId p = pd_PipeId p' ∧ pd_Opts p = pd_Opts p' ∧ pd_AppId p = pd_AppId p' ∧
  pd_SysQueueId p = pd_SysQueueId p' ∧ pd_LastBuffer p = pd_LastBuffer p'.
Proof. destruct p, p'. cbv. intros [= -> -> -> -> -> ->]. done. Qed.

Lemma pcore_alter (tbl : ptable) i p f : tbl !! i = Some p → pcore (f p) = pcore p → pcore <$> alter f i tbl = pcore <$> tbl.
Proof.
  intros Hi Hf. apply list_eq. intros j. rewrite !list_lookup_fmap. destruct (decide (i = j)) as [<-|].
  - rewrite list_lookup_alter_eq, Hi. cbn. by rewrite Hf.
  - by rewrite list_lookup_alter_ne.
Qed.

Lemma pcore_lookup (tbl tbl' : ptable) i p : pcore <$> tbl' = pcore <$> tbl → tbl !! i = Some p →
  ∃ p', tbl' !! i = Some p' ∧ pcore p' = pcore p.
Proof.
  intros E Hi. apply (f_equal (lookup i)) in E. rewrite !list_lookup_fmap, Hi in E. cbn in E.
  destruct (tbl' !! i) as [p'|]; [|done]. apply Some_inj in E. by exists p'.
Qed.

Lemma pcore_find tbl tbl' id : pcore <$> tbl' = pcore <$> tbl →
  match find_pipe tbl id, find_pipe tbl' id with
  | Some (i, p), Some (i', p') => i = i' ∧ pcore p = pcore p'
  | None, None => True
  | _, _ => False
  end.
Proof.
  intros E. unfold find_pipe. destruct (CFE_SB_LocatePipeDescByID id) as [k|]; [|done].
  apply (f_equal (lookup (Z.to_nat k))) in E. rewrite !list_lookup_fmap in E.
  destruct (tbl !! Z.to_nat k) as [p|], (tbl' !! Z.to_nat k) as [p'|]; try done. apply Some_inj in E.
  destruct (pcore_eq _ _ E) as (-> & _). by destruct (decide _).
Qed.

Lemma pcore_skips tbl tbl' AppId y : pcore <$> tbl' = pcore <$> tbl → dest_skips AppId tbl' y = dest_skips AppId tbl y.
Proof.
  intros E. unfold dest_skips. pose proof (pcore_find _ _ (dd_PipeId y) E) as Hf.
  destruct (find_pipe tbl _) as [[i p]|], (find_pipe tbl' _) as [[i' p']|]; try done.
  destruct Hf as [_ Ep]. destruct (pcore_eq _ _ Ep) as (_ & -> & -> & _). done.
Qed.

Lemma pcore_queue tbl tbl' id : pcore <$> tbl' = pcore <$> tbl → queue_of tbl' id = queue_of tbl id.
Proof.
  intros E. unfold queue_of. pose proof (pcore_find _ _ id E) as Hf.
  destruct (find_pipe tbl _) as [[i p]|], (find_pipe tbl' _) as [[i' p']|]; try done.
  destruct Hf as [_ Ep]. by destruct (pcore_eq _ _ Ep) as (_ & _ & _ & -> & _).
Qed.

(** The invariant depends on a descriptor's identifier and queue, and its references
    also on the last buffer. *)
Definition pid_eq (p p' : CFE_SB_PipeD_t) : Prop :=
  pd_PipeId p' = pd_PipeId p ∧ pd_SysQueueId p' = pd_SysQueueId p.
Definition pkey (p p' : CFE_SB_PipeD_t) : Prop := pid_eq p p' ∧ pd_LastBuffer p' = pd_LastBuffer p.

Lemma pid_active p p' : pid_eq p p' → active p' ↔ active p.
Proof. intros (E & _). unfold active. by rewrite E. Qed.

Lemma pkey_refs q p p' : pkey p p' → pipe_refs q p' = pipe_refs q p.
Proof.
  intros [Hk E3]. pose proof (pid_active _ _ Hk). destruct Hk as (_ & E2). unfold pipe_refs, last_ref.
  rewrite E2, E3. destruct (decide (active p)), (decide (active p')); tauto.
Qed.

Lemma pipes_inv_alter tbl q last rsv i p f : pipes_inv tbl q last rsv → tbl !! i = Some p → pid_eq p (f p) →
  pipes_inv (alter f i tbl) q last rsv.
Proof.
  intros [H1 H2 H3 H4 H5] Hi Hk.
  assert (∀ j p', alter f i tbl !! j = Some p' → ∃ p0, tbl !! j = Some p0 ∧ pid_eq p0 p') as Hinv.
  { intros j p' Hj. destruct (decide (i = j)) as [<-|].
    - rewrite list_lookup_alter_eq, Hi in Hj. injection Hj as <-. eauto.
    - rewrite list_lookup_alter_ne in Hj by done. exists p'. done. }
  split.
  - by rewrite length_alter.
  - intros j p' (p0 & Hj & Hk')%Hinv. rewrite (pid_active _ _ Hk'). destruct Hk' as (-> & ->). by apply H2.
  - intros j k p1 p2 (q1 & Hj & Hk1)%Hinv (q2 & Hk' & Hk2)%Hinv.
    rewrite (pid_active _ _ Hk1), (pid_active _ _ Hk2).
    destruct Hk1 as (_ & ->), Hk2 as (_ & ->). by apply H3.
  - intros j Hj. destruct (H4 j Hj) as (p0 & Hp0 & Ep0). destruct (decide (i = j)) as [<-|].
    + exists (f p). rewrite list_lookup_alter_eq, Hi. split; [done|]. destruct Hk as (-> & _). congruence.
    + exists p0. by rewrite list_lookup_alter_ne.
  - done.
Qed.

Lemma pipe_ids_alter tbl i p f x : tbl !! i = Some p → pid_eq p (f p) → x ∈ pipe_ids tbl → x ∈ pipe_ids (alter f i tbl).
Proof.
  intros Hi Hk. unfold pipe_ids. rewrite !list_elem_of_fmap. intros (p0 & -> & [Ha Hin]%list_elem_of_filter).
  apply list_elem_of_lookup in Hin as [j Hj]. destruct (decide (i = j)) as [<-|].
  - assert (p0 = p) as -> by congruence. exists (f p). split; [by destruct Hk as (-> & _)|].
    apply list_elem_of_filter. split; [by apply (pid_active p)|].
    apply (list_elem_of_lookup_2 _ i). by rewrite list_lookup_alter_eq, Hi.
  - exists p0. split; [done|]. apply list_elem_of_filter. split; [done|].
    apply (list_elem_of_lookup_2 _ j). by rewrite list_lookup_alter_ne.
Qed.

Lemma nactive_pid tbl i p f : tbl !! i = Some p → pid_eq p (f p) → nactive (alter f i tbl) = nactive tbl.
Proof.
  intros Hi Hk. rewrite (nactive_alter _ _ _ _ Hi), (nactive_split _ _ _ Hi). pose proof (pid_active _ _ Hk).
  destruct (decide (active p)), (decide (active (f p))); tauto.
Qed.

Section send.
Context {PS QS : Type} `{MemPoolOK PS} `{OSQueueOK QS} `{MsgMapOK} `{BuildCfg}.
Abbreviation G := (CFE_SB_Global_t PS QS).
Implicit Types (s : G).

Lemma inv_upd_pipe tb held rsv tx s i p f : sb_inv tb held rsv tx s → PipeTbl s !! i = Some p → pkey p (f p) →
  sb_inv tb held rsv tx (s <| PipeTbl ::= alter f i |>) ∧ grefs (s <| PipeTbl ::= alter f i |>) ≡ₚ grefs s.
Proof.
  intros [Hr Hp Hd (zs & ts & Hl & Hc) Hcnt Hpool Hst Hids Hfl] Hi Hk.
  assert (grefs (s <| PipeTbl ::= alter f i |>) ≡ₚ grefs s) as Eg.
  { unfold grefs. cbn. rewrite (refs_alter _ _ _ _ _ Hi), (refs_split _ _ _ _ Hi). by rewrite (pkey_refs _ _ _ Hk). }
  split; [|done]. split; try done.
  - eapply pipes_inv_alter; [done..|apply Hk].
  - intros l x Hl' Hx. eapply pipe_ids_alter; [done|apply Hk|]. eauto.
  - exists zs, ts. split; [done|]. eapply counts_perm; [|exact Hc]. by rewrite Eg.
  - intros a. rewrite Eg. apply Hcnt.
  - cbn. by rewrite (nactive_pid _ _ _ _ Hi) by apply Hk.
Qed.

Lemma inv_hk tb held rsv tx s f : sb_inv tb held rsv tx s → sb_inv tb held rsv tx (s <| HK ::= f |>).
Proof. by intros []. Qed.

Lemma inv_events tb held rsv tx s f : sb_inv tb held rsv tx s → sb_inv tb held rsv tx (s <| Events ::= f |>).
Proof. by intros []. Qed.

Lemma inv_locked tb held rsv tx s b : sb_inv tb held rsv tx s → sb_inv tb held rsv tx (s <| Locked := b |>).
Proof. by intros []. Qed.

(** ** One destination *)

(** A write to the queue of pipe [i] that succeeded, with the reference counted. *)
Lemma inv_put tb held rsv a b i p qs s l :
  sb_inv tb held rsv a s → PipeTbl s !! i = Some p → active p →
  q_items (Queues s) !! pd_SysQueueId p = Some l → q_items qs = <[pd_SysQueueId p := l ++ [a]]> (q_items (Queues s)) →
  Bufs s !! a = Some b → cnt a (grefs s ++ held) < 17 →
  let s' := s <| Queues := qs |> <| Bufs ::= <[a := b <| bd_UseCount := bd_UseCount b + 1 |>]> |> in
  sb_inv tb held rsv a s' ∧ grefs s' ≡ₚ a :: grefs s.
Proof.
  intros [Hr Hp Hd (zs & ts & Hl & Hc) Hcnt Hpool Hst Hids Hfl] Hi Ha Hq Hqs Hb Hlt s'.
  assert (grefs s' ≡ₚ a :: grefs s) as Eg.
  { unfold grefs. change (PipeTbl s') with (PipeTbl s). change (Queues s') with qs. rewrite Hqs.
    rewrite !(refs_split _ _ _ _ Hi), (refs_queue _ _ _ _ _ _ _ Hp Hi Ha).
    unfold pipe_refs. rewrite !decide_True by done. rewrite lookup_insert_eq, Hq. cbn [default from_option id].
    rewrite <- !(assoc_L (++)). symmetry. by rewrite Permutation_middle. }
  split; [|done].
  assert (counts_ok (Bufs s') zs (grefs s' ++ held) a) as Hc'.
  { eapply counts_perm; [|apply (counts_add _ _ _ _ _ _ Hc Hb); by right]. by rewrite Eg. }
  split; try done.
  - destruct Hp as [P1 P2 P3 P4 P5]. split; try done. intros j p' Hj.
    destruct (P2 j p' Hj) as [?|[?|(? & ? & Hs)]]; [auto|auto|]. right. right. split_and!; try done.
    change (Queues s') with qs. rewrite Hqs. apply lookup_insert_is_Some'. by right.
  - exists zs, ts. split; [|done]. cbn. by rewrite (dom_insert_old _ _ _ _ Hb).
  - intros x. rewrite Eg. cbn [app]. rewrite cnt_cons. specialize (Hcnt x).
    destruct (decide (a = x)) as [<-|Hne]; [rewrite decide_True by done; lia|].
    rewrite decide_False in * by congruence. lia.
  - cbn. by rewrite (dom_insert_old _ _ _ _ Hb).
  - cbn. by rewrite (size_insert_old _ _ _ _ Hb).
  - apply map_Forall_insert_2; [|done]. by apply (Hids a b).
Qed.

Lemma inv_payload tb held rsv tx s i l1 d y l2 y' :
  sb_inv tb held rsv tx s → tb !! i = Some (l1 ++ (d, y) :: l2) → dd_PipeId y' = dd_PipeId y →
  sb_inv (<[i := l1 ++ (d, y') :: l2]> tb) held rsv tx
    (s <| Dests ::= <[d := mkd y' (lst NULL l1) (hd NULL l2.*1)]> |>).
Proof.
  intros [Hr Hp Hd Hb Hcnt Hpool Hst Hids Hfl] Hl Hy.
  destruct (routes_payload _ _ _ _ _ _ _ _ y' Hr Hl Hy) as [Ed Hr']. split; try done.
  - intros k x Hk Hx. apply list_elem_of_lookup in Hk as [j Hj].
    rewrite list_lookup_insert_Some in Hj. destruct Hj as [(-> & <- & _)|[_ Hj]].
    + apply (Hd (l1 ++ (d, y) :: l2)); [by eapply list_elem_of_lookup_2|].
      unfold dest_pipes in *. rewrite fmap_app in *. cbn in *. by rewrite Hy in Hx.
    + apply (Hd k); [by eapply list_elem_of_lookup_2|done].
  - cbn. by rewrite (dom_insert_old _ _ _ _ Ed).
  - cbn. by rewrite (size_insert_old _ _ _ _ Ed).
Qed.

Lemma wp_Incr a b Q s : Bufs s !! a = Some b → 0 <= bd_UseCount b < 1000 →
  Q tt (s <| Bufs ::= <[a := b <| bd_UseCount := bd_UseCount b + 1 |>]> |>) → wp (CFE_SB_IncrBufUseCnt a) Q s.
Proof.
  intros Hb Hr HQ. unfold CFE_SB_IncrBufUseCnt. wp_step. eapply wp_rd_buf; [exact Hb|].
  apply wp_when_true; [lia|]. eapply wp_wr_buf; [exact Hb|].
  assert (incr 16 (bd_UseCount b) = bd_UseCount b + 1) as E by (apply Z.mod_small; lia).
  replace (b <| bd_UseCount ::= incr 16 |>) with (b <| bd_UseCount := bd_UseCount b + 1 |>); [done|].
  destruct b. cbn in *. by rewrite E.
Qed.

Lemma dest_lookup tb held rsv tx s i l1 d y l2 : sb_inv tb held rsv tx s → tb !! i = Some (l1 ++ (d, y) :: l2) →
  Dests s !! d = Some (mkd y (lst NULL l1) (hd NULL l2.*1)).
Proof.
  intros Hi Hl. destruct (tb_route _ _ _ _ _ (in_routes _ _ _ _ _ Hi) Hl) as (e & _ & _ & Hc & _).
  by apply chain_app in Hc as [_ [Ed _]].
Qed.

Lemma wp_push_err e errs Q s : (length errs < 16)%nat → Q (errs ++ [e]) s → wp (push_err e errs) Q s.
Proof.
  intros Hl HQ. unfold push_err, CFE_PLATFORM_SB_MAX_DEST_PER_PKT.
  by replace (Z.of_nat (length errs) <? 16) with true by lia.
Qed.

(** The state changes one destination can make. *)
Definition sent (h : HKTlm_Payload) (T : ptable) (qs : QS) (B : gmap addr CFE_SB_BufferD_t) (D : dmem) (s : G) : G :=
  s <| HK := h |> <| PipeTbl := T |> <| Queues := qs |> <| Bufs := B |> <| Dests := D |>.

Definition count_up (a : addr) (o : outcome) (B : gmap addr CFE_SB_BufferD_t) : gmap addr CFE_SB_BufferD_t :=
  match o with Delivered => alter (λ b, b <| bd_UseCount := bd_UseCount b + 1 |>) a B | _ => B end.

(** The two writes of the depth counters after a delivery. *)
Definition depth_up (p : CFE_SB_PipeD_t) : CFE_SB_PipeD_t := p <| pd_CurrentQueueDepth ::= incr 16 |>.
Definition peak_up (p : CFE_SB_PipeD_t) : CFE_SB_PipeD_t :=
  if pd_PeakQueueDepth p <=? pd_CurrentQueueDepth p then p <| pd_PeakQueueDepth := pd_CurrentQueueDepth p |> else p.
Definition err_up (p : CFE_SB_PipeD_t) : CFE_SB_PipeD_t := p <| pd_SendErrors ::= incr 16 |>.

Lemma pkey_peak p : pkey p (peak_up p) ∧ pcore (peak_up p) = pcore p.
Proof. unfold peak_up. by case_match. Qed.

(** What one round leaves. *)
Definition round_post AppId a d y tb held rsv i l1 l2 errs (Q : list CFE_SB_SendErrEventBuf_t → G → Prop) s : Prop :=
  ∀ o h T qs D, let s' := sent h T qs (count_up a o (Bufs s)) D s in
     out_ok AppId (PipeTbl s) (q_items (Queues s)) (q_depth (Queues s)) y o →
     sb_inv (<[i := l1 ++ (d, upd_dest o y) :: l2]> tb) held rsv a s' →
     pcore <$> T = pcore <$> PipeTbl s →
     q_items qs = out_queue a (PipeTbl s) y o (q_items (Queues s)) → q_depth qs = q_depth (Queues s) →
     grefs s' ≡ₚ (if decide (o = Delivered) then [a] else []) ++ grefs s →
     D !! d = Some (mkd (upd_dest o y) (lst NULL l1) (hd NULL l2.*1)) →
     Q (errs ++ out_err o y) s'.

Lemma round_skip AppId a d y tb held rsv i l1 l2 errs Q s :
  round_post AppId a d y tb held rsv i l1 l2 errs Q s → sb_inv tb held rsv a s → tb !! i = Some (l1 ++ (d, y) :: l2) →
  dest_skips AppId (PipeTbl s) y = true → Q errs s.
Proof.
  intros HQ Hi Hl Hs. specialize (HQ Skipped (HK s) (PipeTbl s) (Queues s) (Dests s)). cbn [out_err upd_dest] in HQ.
  rewrite list_insert_id, app_nil_r in HQ by done. replace (sent _ _ _ _ _ s) with s in HQ by by destruct s.
  apply HQ; try done. by eapply dest_lookup.
Qed.

Lemma round_error AppId a d y tb held rsv i l1 l2 errs Q k p o qs g s :
  round_post AppId a d y tb held rsv i l1 l2 errs Q s → sb_inv tb held rsv a s → tb !! i = Some (l1 ++ (d, y) :: l2) →
  PipeTbl s !! k = Some p → (o = Limited ∨ o = Overflow ∨ ∃ st, o = WriteErr st) →
  out_ok AppId (PipeTbl s) (q_items (Queues s)) (q_depth (Queues s)) y o →
  q_items qs = q_items (Queues s) → q_depth qs = q_depth (Queues s) →
  Q (errs ++ out_err o y) (s <| Queues := qs |> <| HK ::= g |> <| PipeTbl ::= alter err_up k |>).
Proof.
  intros HQ Hi Hl Hp Ho Hok Hq Hdep. destruct (inv_upd_pipe _ _ _ _ _ k p err_up Hi Hp) as [Hi' Eg]; [done|].
  specialize (HQ o (g (HK s)) (alter err_up k (PipeTbl s)) qs (Dests s)).
  replace (upd_dest o y) with y in HQ by (destruct Ho as [->|[->|[? ->]]]; done).
  replace (count_up a o (Bufs s)) with (Bufs s) in HQ by (destruct Ho as [->|[->|[? ->]]]; done).
  rewrite list_insert_id in HQ by done. apply HQ; try done.
  - destruct Hi' as [R1 R2 R3 R4 R5 R6 R7 R8 R9]. unfold sent. split; try done; unfold grefs in *; cbn in *; by rewrite Hq.
  - by eapply pcore_alter.
  - by destruct Ho as [->|[->|[? ->]]].
  - rewrite decide_False by (destruct Ho as [->|[->|[? ->]]]; done). cbn [app]. rewrite <- Eg. unfold grefs, sent. cbn. by rewrite Hq.
  - by eapply dest_lookup.
Qed.

Lemma round_deliver AppId a d y tb held rsv i l1 l2 errs b Q k p l qs s :
  round_post AppId a d y tb held rsv i l1 l2 errs Q s → sb_inv tb held rsv a s → tb !! i = Some (l1 ++ (d, y) :: l2) →
  find_pipe (PipeTbl s) (dd_PipeId y) = Some (k, p) → Bufs s !! a = Some b → cnt a (grefs s ++ held) < 17 →
  dest_skips AppId (PipeTbl s) y = false → dd_BuffCount y < dd_MsgId2PipeLim y →
  q_items (Queues s) !! pd_SysQueueId p = Some l → q_items qs = <[pd_SysQueueId p := l ++ [a]]> (q_items (Queues s)) →
  q_depth qs = q_depth (Queues s) →
  Q errs (s <| Queues := qs |> <| Bufs ::= <[a := b <| bd_UseCount := bd_UseCount b + 1 |>]> |>
     <| Dests ::= <[d := mkd (upd_dest Delivered y) (lst NULL l1) (hd NULL l2.*1)]> |>
     <| PipeTbl ::= alter depth_up k |> <| PipeTbl ::= alter peak_up k |>).
Proof.
  intros HQ Hi Hl E Hb Hlt Hns Hlim Hq Hqs Hdep. destruct (find_pipe_Some _ _ _ _ E) as (_ & Hp & _ & Hact).
  destruct (inv_put _ _ _ _ _ _ _ qs _ _ Hi Hp Hact Hq Hqs Hb Hlt) as [Hi1 Eg1].
  pose proof (inv_payload _ _ _ _ _ _ _ _ _ _ (upd_dest Delivered y) Hi1 Hl eq_refl) as Hi2.
  destruct (inv_upd_pipe _ _ _ _ _ k p depth_up Hi2 Hp) as [Hi3 Eg3]; [done|].
  destruct (inv_upd_pipe _ _ _ _ _ k (depth_up p) peak_up Hi3) as [Hi4 Eg4].
  { cbn. by rewrite list_lookup_alter_eq, Hp. }
  { apply pkey_peak. }
  specialize (HQ Delivered (HK s) (alter peak_up k (alter depth_up k (PipeTbl s))) qs
    (<[d := mkd (upd_dest Delivered y) (lst NULL l1) (hd NULL l2.*1)]> (Dests s))).
  cbn [out_err] in HQ. rewrite app_nil_r in HQ.
  assert (count_up a Delivered (Bufs s) = <[a := b <| bd_UseCount := bd_UseCount b + 1 |>]> (Bufs s)) as EB.
  { apply map_eq. intros x. unfold count_up. destruct (decide (a = x)) as [<-|].
    - by rewrite lookup_alter_eq, lookup_insert_eq, Hb.
    - by rewrite lookup_alter_ne, lookup_insert_ne. }
  rewrite EB in HQ. apply HQ.
  - done.
  - exact Hi4.
  - rewrite (pcore_alter _ _ (depth_up p)); [by apply (pcore_alter _ _ p)| |apply pkey_peak].
    by rewrite list_lookup_alter_eq, Hp.
  - cbn [out_queue]. unfold queue_of. rewrite E, Hqs. apply map_eq. intros x.
    destruct (decide (pd_SysQueueId p = x)) as [<-|]; [by rewrite lookup_alter_eq, lookup_insert_eq, Hq|].
    by rewrite lookup_alter_ne, lookup_insert_ne.
  - done.
  - rewrite decide_True by done. cbn [app]. rewrite <- Eg1.
    transitivity (grefs (s <| Queues := qs |> <| Bufs ::= <[a := b <| bd_UseCount := bd_UseCount b + 1 |>]> |>
      <| Dests ::= <[d := mkd (upd_dest Delivered y) (lst NULL l1) (hd NULL l2.*1)]> |>
      <| PipeTbl ::= alter depth_up k |>)); [exact Eg4|exact Eg3].
  - apply lookup_insert_eq.
Qed.

Lemma wp_broadcast_dest AppId a d y tb held rsv i l1 l2 errs b Q s :
  sb_inv tb held rsv a s → tb !! i = Some (l1 ++ (d, y) :: l2) →
  Bufs s !! a = Some b → cnt a (grefs s ++ held) < 17 → (length errs < 16)%nat →
  round_post AppId a d y tb held rsv i l1 l2 errs Q s →
  wp (broadcast_dest AppId a d errs) Q s.
Proof.
  intros Hi Hl Hb Hlt Hlen HQ. pose proof (dest_lookup _ _ _ _ _ _ _ _ _ _ Hi Hl) as Ed.
  pose proof (in_pipes _ _ _ _ _ Hi) as Hpi.
  pose proof (round_skip _ _ _ _ _ _ _ _ _ _ _ _ _ HQ Hi Hl) as Hskip.
  unfold broadcast_dest. wp_step. eapply wp_rd_dest; [exact Ed|].
  change (dd_PipeId (mkd y (lst NULL l1) (hd NULL l2.*1))) with (dd_PipeId y).
  change (dd_Active (mkd y (lst NULL l1) (hd NULL l2.*1))) with (dd_Active y).
  change (dd_MsgId2PipeLim (mkd y (lst NULL l1) (hd NULL l2.*1))) with (dd_MsgId2PipeLim y).
  change (dd_BuffCount (mkd y (lst NULL l1) (hd NULL l2.*1))) with (dd_BuffCount y).
  cbv zeta.
  destruct (Z.eqb_spec (dd_Active y) CFE_SB_ACTIVE) as [Eact|Eact].
  2: { wp_go. apply Hskip. unfold dest_skips. by rewrite (proj2 (Z.eqb_neq _ _) Eact). }
  apply wp_lookup; [apply Hpi| |].
  2: { intros E. wp_go. apply Hskip. unfold dest_skips. rewrite E. by apply orb_true_r. }
  intros k p E. destruct (find_pipe_Some _ _ _ _ E) as (_ & Hp & Hpid & Hact).
  wp_step. eapply wp_rd_pipe_nat; [exact Hp|].
  destruct (negb (Z.land (pd_Opts p) CFE_SB_PIPEOPTS_IGNOREMINE =? 0) && (pd_AppId p =? AppId)) eqn:Eign.
  { wp_go. apply Hskip. unfold dest_skips. rewrite E, Eign. by apply orb_true_r. }
  assert (dest_skips AppId (PipeTbl s) y = false) as Hns by (unfold dest_skips; by rewrite Eact, E, Eign).
  assert (queue_of (PipeTbl s) (dd_PipeId y) = pd_SysQueueId p) as Eq by by unfold queue_of; rewrite E.
  destruct (Z.leb_spec (dd_MsgId2PipeLim y) (dd_BuffCount y)) as [Hlim|Hlim].
  { wp_step. apply wp_push_err; [done|]. wp_step. apply wp_hk. wp_step. eapply wp_wr_pipe_nat; [exact Hp|]. wp_step.
    refine (round_error _ _ _ _ _ _ _ _ _ _ _ _ _ _ Limited (Queues s) _ _ HQ Hi Hl Hp _ _ _ _); auto. done. }
  wp_step. apply wp_queues.
  destruct (pi_id _ _ _ _ Hpi k p Hp) as [Hx|[[Hx _]|(_ & _ & [l Hq])]]; [by destruct Hact|by destruct Hact|].
  destruct (OS_QueuePut (pd_SysQueueId p) a (Queues s)) as [st qs] eqn:Eput.
  pose proof (put_queue _ _ _ _ _ _ Eput Hq) as Hqs. pose proof (put_depth (pd_SysQueueId p) a (Queues s)) as Hdep.
  pose proof (put_room (pd_SysQueueId p) a (Queues s) l Hq) as Hroom. rewrite Eput in Hdep, Hroom. cbn in Hdep, Hroom.
  cbn [fst snd]. destruct (Z.eqb_spec st OS_SUCCESS) as [->|Hst].
  - rewrite decide_True in Hqs by done. wp_step.
    assert (0 <= bd_UseCount b < 1000) as Huse.
    { destruct (in_bufs _ _ _ _ _ Hi) as (zs & ts & _ & Hc). pose proof (co_cnt _ _ _ _ Hc _ _ Hb).
      pose proof (co_pos _ _ _ _ Hc _ _ Hb). unfold owned in *. case_decide; lia. }
    eapply wp_Incr; [exact Hb|done|]. wp_step.
    eapply wp_wr_dest; [exact Ed|]. wp_step. eapply wp_wr_dest; [apply lookup_insert_eq|]. wp_step.
    eapply wp_wr_pipe_nat; [exact Hp|]. wp_step.
    eapply wp_wr_pipe_nat; [cbn; by rewrite list_lookup_alter_eq, Hp|]. wp_step.
    pose proof (round_deliver _ _ _ _ _ _ _ _ _ _ _ _ _ _ _ _ _ _ HQ Hi Hl E Hb Hlt Hns Hlim Hq Hqs Hdep) as HQ'.
    match goal with |- Q _ ?x => match type of HQ' with Q _ ?z => replace x with z; [exact HQ'|] end end.
    cbn. by rewrite insert_insert_eq.
  - rewrite decide_False in Hqs by done.
    assert (∀ o, (o = Overflow ∨ ∃ st, o = WriteErr st) → out_ok AppId (PipeTbl s) (q_items (Queues s)) (q_depth (Queues s)) y o) as Hok.
    { intros o Ho. assert (q_depth (Queues s) (pd_SysQueueId p) <= Z.of_nat (length l)) as Hfull.
      { destruct (Z.le_gt_cases (q_depth (Queues s) (pd_SysQueueId p)) (Z.of_nat (length l))); [done|]. exfalso. apply Hst, Hroom. lia. }
      destruct Ho as [->|[? ->]]; cbn; rewrite Eq; eauto. }
    destruct (Z.eqb_spec st OS_QUEUE_FULL) as [_|_];
      (wp_step; apply wp_push_err; [done|]; wp_step; apply wp_hk; wp_step; eapply wp_wr_pipe_nat; [exact Hp|]; wp_step).
    + refine (round_error _ _ _ _ _ _ _ _ _ _ _ _ _ _ Overflow qs _ _ HQ Hi Hl Hp _ _ _ _); auto.
    + refine (round_error _ _ _ _ _ _ _ _ _ _ _ _ _ _ (WriteErr st) qs _ _ HQ Hi Hl Hp _ _ _ _); eauto.
Qed.

(** ** The loop over the destinations *)

Lemma skips_find AppId (tbl : ptable) y : dest_skips AppId tbl y = false → ∃ i p, find_pipe tbl (dd_PipeId y) = Some (i, p).
Proof.
  unfold dest_skips. destruct (find_pipe tbl (dd_PipeId y)) as [[i p]|]; [eauto|]. by rewrite orb_true_r.
Qed.

Lemma queue_of_inj tbl q last rsv id id' i i' p p' : pipes_inv tbl q last rsv →
  find_pipe tbl id = Some (i, p) → find_pipe tbl id' = Some (i', p') → id ≠ id' → queue_of tbl id ≠ queue_of tbl id'.
Proof.
  intros Hp E E' Hne Hq. unfold queue_of in Hq. rewrite E, E' in Hq.
  destruct (find_pipe_Some _ _ _ _ E) as (_ & Hi & <- & Ha), (find_pipe_Some _ _ _ _ E') as (_ & Hi' & <- & Ha').
  assert (i = i') as -> by by eapply pi_queue. congruence.
Qed.

(** A delivery does not change what is due at the other destinations. *)
Lemma out_ok_frame AppId tbl tbl' q last rsv depth a y o y' o' : pipes_inv tbl q last rsv →
  pcore <$> tbl' = pcore <$> tbl → out_ok AppId tbl q depth y o → dd_PipeId y ≠ dd_PipeId y' →
  out_ok AppId tbl' (out_queue a tbl y o q) depth y' o' → out_ok AppId tbl q depth y' o'.
Proof.
  intros Hp Hc Hok Hne.
  assert (dest_skips AppId tbl y' = false →
    out_queue a tbl y o q !! queue_of tbl (dd_PipeId y') = q !! queue_of tbl (dd_PipeId y')) as Hq.
  { intros (i' & p' & E')%skips_find. destruct o; try done. destruct Hok as [(i & p & E)%skips_find _].
    apply lookup_alter_ne. by eapply queue_of_inj. }
  unfold out_ok. rewrite (pcore_skips _ _ _ _ Hc), (pcore_queue _ _ _ Hc).
  destruct o'; try done; intros (Hs & Hlim & l & Hl & Hfull); (split_and!; [done|done|]); exists l; by rewrite Hq in Hl.
Qed.

Lemma out_queues_core a tbl tbl' outs l q : pcore <$> tbl' = pcore <$> tbl →
  out_queues a tbl' outs l q = out_queues a tbl outs l q.
Proof.
  intros Hc. revert l q. induction outs as [|o outs IH]; intros [|x l] q; try done. cbn. rewrite IH. f_equal.
  unfold out_queue. destruct o; try done. by rewrite (pcore_queue _ _ _ Hc).
Qed.

Lemma count_up_lookup (B : gmap addr CFE_SB_BufferD_t) a b o : B !! a = Some b →
  count_up a o B !! a = Some (b <| bd_UseCount := bd_UseCount b + Z.of_nat (ndelivered [o]) |>).
Proof.
  intros Hb. assert (b <| bd_UseCount := bd_UseCount b + 0 |> = b) as E by (destruct b; cbv [set]; cbn; by rewrite Z.add_0_r).
  destruct o; cbn [count_up]; try (change (Z.of_nat (ndelivered [_])) with 0; by rewrite Hb, E).
  by rewrite lookup_alter_eq, Hb.
Qed.

Definition loop_post AppId a held rsv i b errs (tb : list dlist) (l1 l2 : dlist) (Q : list CFE_SB_SendErrEventBuf_t → G → Prop) s : Prop :=
  ∀ outs h T qs D,
    let n := ndelivered outs in
    let s' := sent h T qs (<[a := b <| bd_UseCount := bd_UseCount b + Z.of_nat n |>]> (Bufs s)) D s in
    Forall2 (out_ok AppId (PipeTbl s) (q_items (Queues s)) (q_depth (Queues s))) l2.*2 outs →
    sb_inv (<[i := l1 ++ upd_dests outs l2]> tb) held rsv a s' →
    pcore <$> T = pcore <$> PipeTbl s →
    q_items qs = out_queues a (PipeTbl s) outs l2 (q_items (Queues s)) → q_depth qs = q_depth (Queues s) →
    grefs s' ≡ₚ replicate n a ++ grefs s →
    Q (errs ++ out_errs outs l2) s'.

Lemma loop_post_cons AppId a held rsv i b errs tb l1 d y l2 Q s o h T qs D :
  sb_inv tb held rsv a s → Bufs s !! a = Some b → NoDup (dest_pipes ((d, y) :: l2)) →
  loop_post AppId a held rsv i b errs tb l1 ((d, y) :: l2) Q s →
  let s1 := sent h T qs (count_up a o (Bufs s)) D s in
  let b1 := b <| bd_UseCount := bd_UseCount b + Z.of_nat (ndelivered [o]) |> in
  out_ok AppId (PipeTbl s) (q_items (Queues s)) (q_depth (Queues s)) y o →
  pcore <$> T = pcore <$> PipeTbl s →
  q_items qs = out_queue a (PipeTbl s) y o (q_items (Queues s)) → q_depth qs = q_depth (Queues s) →
  grefs s1 ≡ₚ (if decide (o = Delivered) then [a] else []) ++ grefs s →
  loop_post AppId a held rsv i b1 (errs ++ out_err o y) (<[i := l1 ++ (d, upd_dest o y) :: l2]> tb)
    (l1 ++ [(d, upd_dest o y)]) l2 Q s1.
Proof.
  intros Hi Hb Hnd HQ s1 b1 Hok Hc Hq Hdep Hg outs h' T' qs' D' n s' Hoks Hi' Hc' Hq' Hdep' Hg'.
  rewrite <- (assoc_L (++)). rewrite list_insert_insert_eq in Hi'. rewrite <- (assoc_L (++)) in Hi'.
  assert (Z.of_nat (ndelivered (o :: outs)) = Z.of_nat (ndelivered [o]) + Z.of_nat n) as En.
  { unfold n, ndelivered. rewrite !filter_cons, filter_nil. destruct (decide (o = Delivered)); cbn [length]; lia. }
  assert (sent h' T' qs' (<[a := b <| bd_UseCount := bd_UseCount b + Z.of_nat (ndelivered (o :: outs)) |>]> (Bufs s)) D' s = s') as Es.
  { transitivity (sent h' T' qs' (Bufs s') D' s); [|done]. f_equal. apply map_eq. intros x.
    change (Bufs s') with (<[a := b1 <| bd_UseCount := bd_UseCount b1 + Z.of_nat n |>]> (Bufs s1)). destruct (decide (a = x)) as [<-|Hx].
    - rewrite !lookup_insert_eq, En. unfold b1. f_equal. destruct b. unfold set. cbn. f_equal. lia.
    - rewrite !lookup_insert_ne by done. unfold s1, sent, count_up. cbn.
      destruct o; try done. by rewrite lookup_alter_ne. }
  refine (eq_ind _ (Q _) (HQ (o :: outs) h' T' qs' D' _ _ _ _ _ _) _ Es).
  - cbn. constructor; [done|]. apply Forall2_same_length_lookup in Hoks as [Hlen Hoks].
    apply Forall2_same_length_lookup. split; [done|]. intros j y' o' Hy' Ho'.
    eapply out_ok_frame; [apply (in_pipes _ _ _ _ _ Hi)|exact Hc|exact Hok| |].
    + cbn in Hnd. apply NoDup_cons in Hnd as [Hn _]. intros E. apply Hn. rewrite E.
      rewrite list_lookup_fmap in Hy'. apply fmap_Some in Hy' as (x & Hx & ->).
      apply list_elem_of_fmap. exists x. split; [done|]. by eapply list_elem_of_lookup_2.
    + specialize (Hoks j y' o' Hy' Ho'). cbn in Hoks. by rewrite Hq, Hdep in Hoks.
  - rewrite Es. exact Hi'.
  - by rewrite Hc'.
  - rewrite Hq'. cbn [out_queues]. cbn. rewrite Hq. by apply out_queues_core.
  - by rewrite Hdep'.
  - rewrite Es, Hg', Hg. rewrite (assoc_L (++)). apply Permutation_app; [|done].
    unfold n, ndelivered. rewrite filter_cons. destruct (decide (o = Delivered)); cbn [length replicate app].
    + by rewrite Permutation_app_comm.
    + by rewrite app_nil_r.
Qed.

Lemma wp_broadcast_loop AppId a held rsv i Q l2 : ∀ fuel tb l1 errs b s,
  sb_inv tb held rsv a s → tb !! i = Some (l1 ++ l2) → Bufs s !! a = Some b →
  cnt a (grefs s ++ held) + Z.of_nat (length l2) <= 17 → (length errs + length l2 <= 16)%nat → (length l2 ≤ fuel)%nat →
  loop_post AppId a held rsv i b errs tb l1 l2 Q s →
  wp (broadcast_loop fuel AppId a (hd NULL l2.*1) errs) Q s.
Proof.
  induction l2 as [|[d y] l2 IH]; intros fuel tb l1 errs b s Hi Hl Hb Hcnt Hlen Hf HQ.
  - cbn. assert (wp (mret errs : M G _) Q s); [|by destruct fuel].
    specialize (HQ [] (HK s) (PipeTbl s) (Queues s) (Dests s)). cbn in HQ. unfold sent, out_errs in HQ. cbn in HQ.
    rewrite !app_nil_r in HQ. rewrite app_nil_r in Hl. rewrite list_insert_id in HQ by done.
    wp_step. rewrite Z.add_0_r in HQ. rewrite insert_id in HQ; [|by rewrite Hb; destruct b].
    destruct s. by apply HQ.
  - destruct fuel as [|fuel]; [cbn in Hf; lia|]. cbn [length] in *.
    pose proof (dlist_nonnull _ _ _ _ _ (in_routes _ _ _ _ _ Hi) Hl) as Hnn. apply Forall_app in Hnn as [_ Hnn].
    inversion_clear Hnn as [|? ? Hd0 _]. cbn in Hd0.
    cbn [hd fmap list_fmap map fst broadcast_loop]. rewrite (proj2 (Z.eqb_neq d NULL)) by done.
    assert (NoDup (dest_pipes ((d, y) :: l2))) as Hnd.
    { pose proof (ri_pipes _ _ _ (in_routes _ _ _ _ _ Hi)) as HF. eapply Forall_lookup_1 in HF; [|exact Hl].
      unfold dest_pipes in HF. rewrite fmap_app in HF. by apply NoDup_app in HF as (_ & _ & ?). }
    wp_step. eapply wp_broadcast_dest; [exact Hi|exact Hl|exact Hb|lia|lia|].
    intros o h T qs D s1 Hok Hi1 Hc Hq Hdep Hg Hd. wp_step. eapply wp_rd_dest; [exact Hd|].
    change (dd_Next _) with (hd NULL l2.*1).
    eapply (IH fuel _ (l1 ++ [(d, upd_dest o y)])); [exact Hi1| | | | |lia|].
    + rewrite <- (assoc_L (++)). apply list_lookup_insert_eq. by eapply lookup_lt_Some.
    + instantiate (1 := b <| bd_UseCount := bd_UseCount b + Z.of_nat (ndelivered [o]) |>).
      by apply count_up_lookup.
    + rewrite Hg, !cnt_app. rewrite cnt_app in Hcnt. destruct (decide (o = Delivered)); cbn [cnt].
      * rewrite cnt_cons, decide_True, cnt_nil by done. lia.
      * rewrite cnt_nil. lia.
    + rewrite length_app. destruct o; cbn; lia.
    + by apply loop_post_cons.
Qed.

End send.
