(* ===== verification/SbTransmit.v ===== *)
(** * Broadcasting a buffer, and the messages sent with it *)
From stdpp Require Import strings.
From S2P Require Import Prelude Config Msg MsgProps ResourceId Sbr SbrProps SbState SbBuf SbApi SbRoutes SbBufs SbInv SbMem SbSubs SbSend.

(** ** The recursive event guard *)

Lemma set_clear_bit x n : is_u32 x → 0 <= n < 32 → Z.land x (Z.shiftl 1 n) = 0 →
  Z.land (Z.lor x (Z.shiftl 1 n)) (u32 (Z.lnot (Z.shiftl 1 n))) = x ∧ is_u32 (Z.lor x (Z.shiftl 1 n)).
Proof.
  intros Hx Hn Hz.
  assert (∀ i, 0 <= i → Z.testbit (Z.shiftl 1 n) i = (i =? n)) as H1.
  { intros i Hi. rewrite Z.shiftl_spec by done. destruct (Z.eqb_spec i n) as [->|]; [by rewrite Z.sub_diag|].
    destruct (Z.ltb_spec i n); [by apply Z.testbit_neg_r; lia|].
    apply (testbit_above 1 1); lia. }
  split.
  - Z_bits i Hi. rewrite Z.land_spec, Z.lor_spec. unfold u32. rewrite testbit_mod_pow2 by lia.
    rewrite Z.lnot_spec, H1 by done. apply (f_equal (λ z, Z.testbit z i)) in Hz.
    rewrite Z.land_spec, H1, Z.bits_0 in Hz by done.
    destruct (Z.ltb_spec i 32); [|rewrite (testbit_above x 32) by (unfold is_u32 in Hx; lia); by rewrite andb_false_r].
    destruct (Z.testbit x i), (i =? n); done.
  - apply lor_small; [lia|done|]. rewrite Z.shiftl_1_l. split; [lia|]. apply Z.pow_lt_mono_r; lia.
Qed.

Definition caller_ok (c : Caller) : Prop :=
  match c_TaskIndex c with Some i => 0 <= i < 64 | None => True end ∧
  (c_Status c = CFE_SUCCESS → c_AppId c ≠ CFE_ES_APPID_UNDEFINED).

Section bcast.
Context {PS QS : Type} `{MemPoolOK PS} `{OSQueueOK QS} `{MsgMapOK} `{BuildCfg}.
Abbreviation G := (CFE_SB_Global_t PS QS).
Implicit Types (s : G).

(** A granted request is undone by the end of the action: the flags are as they
    were. *)
Lemma wp_Request (c : Caller) bit Q s :
  caller_ok c → 0 <= bit < 32 → length (StopRecurseFlags s) = 64%nat ∧ Forall is_u32 (StopRecurseFlags s) →
  Q false s →
  (∀ fl, (∀ Q' s', StopRecurseFlags s' = fl → Q' tt (s' <| StopRecurseFlags := StopRecurseFlags s |>) →
            wp (CFE_SB_FinishSendEvent c bit) Q' s') →
     Q true (s <| StopRecurseFlags := fl |>)) →
  wp (CFE_SB_RequestToSendEvent c bit) Q s.
Proof.
  intros [Hc _] Hbit [Hlen Hu] HQ1 HQ2. unfold CFE_SB_RequestToSendEvent, CFE_SB_FinishSendEvent in *.
  destruct (c_TaskIndex c) as [i|]; [|by wp_go].
  destruct (lookup_lt_is_Some_2 (StopRecurseFlags s) (Z.to_nat i)) as [x Hx]; [lia|].
  pose proof (Forall_lookup_1 _ _ _ _ Hu Hx) as Hux.
  do 3 wp_step. eapply wp_eq; [apply tbl_get_Some; [lia|exact Hx]|].
  destruct (Z.eqb_spec (Z.land x (Z.shiftl 1 bit)) 0) as [Ez|Ez]; cbn [negb]; [|by wp_go].
  destruct (set_clear_bit x bit Hux Hbit Ez) as [Eback Hux'].
  unfold upd_flags in *. wp_go. eapply wp_of_option; [apply tbl_upd_Some; lia|]. wp_go.
  apply HQ2. intros Q' s' Efl Hk. wp_go.
  eapply wp_of_option; [apply tbl_upd_Some; rewrite Efl, length_alter; lia|]. wp_go.
  replace (alter _ _ _) with (StopRecurseFlags s); [done|]. rewrite Efl.
  apply list_eq. intros j. destruct (decide (Z.to_nat i = j)) as [<-|].
  - rewrite !list_lookup_alter_eq, Hx. cbn. by rewrite Eback.
  - by rewrite !list_lookup_alter_ne.
Qed.

(** ** Delivery error events *)

Lemma err_event_bit_range e : 0 <= err_event_bit e < 32.
Proof. unfold err_event_bit. repeat case_match; done. Qed.

Lemma wp_peek a Q s : is_Some (Bufs s !! a) ∨ is_Some (Stale s !! a) → (∀ b, Q b s) → wp (peek_buf a) Q s.
Proof.
  intros Hb HQ. unfold wp, peek_buf. destruct (Bufs s !! a) as [b|]; [apply HQ|].
  destruct Hb as [[? ?]|[b ->]]; [done|apply HQ].
Qed.

Lemma wp_send_errs c a errs Q s :
  caller_ok c → Locked s = false → length (PipeTbl s) = 64%nat →
  length (StopRecurseFlags s) = 64%nat ∧ Forall is_u32 (StopRecurseFlags s) →
  is_Some (Bufs s !! a) ∨ is_Some (Stale s !! a) →
  (∀ es, Q tt (s <| Events ::= λ l, l ++ es |>)) → wp (send_errs c a errs) Q s.
Proof.
  revert s. induction errs as [|e errs IH]; intros s Hc Hlk Hlen Hfl Hb HQ; cbn [send_errs].
  { wp_step. specialize (HQ []). destruct s. cbn in *. by rewrite app_nil_r in HQ. }
  assert (∀ es, (∀ es', Q tt (s <| Events ::= λ l, l ++ es |> <| Events ::= λ l, l ++ es' |>))) as HQ'.
  { intros es es'. specialize (HQ (es ++ es')). destruct s. cbn in *. by rewrite <- (assoc_L (++)). }
  wp_step. apply wp_Request; [done|apply err_event_bit_range|done|wp_go; by apply IH|].
  intros fl Hfin. wp_go. apply wp_GetPipeName; [done|done|]. intros st name ev _ _.
  wp_step. apply wp_peek; [done|]. intros b.
  wp_step. apply wp_event; [done|]. apply Hfin; [done|].
  match goal with |- wp _ _ ?x => match x with context [mkEvent ?i ?t ?m] =>
    replace x with (s <| Events ::= λ l, l ++ [ev; mkEvent i t m] |>) end end.
  2: { destruct s. cbn. by rewrite <- (assoc_L (++)). }
  by apply IH.
Qed.

(** ** The sequence count *)

Definition auto_seq (b : CFE_SB_BufferD_t) : bool := bd_AutoSequence b && bool_decide (bd_ContentType b = CFE_MSG_Type_Tlm).

(** The content as sent: with the next sequence count of the route. *)
Definition seq_content (b : CFE_SB_BufferD_t) (SeqCnt : Z) : Message :=
  if auto_seq b then default (bd_Content b) (CFE_MSG_SetSequenceCount (Some (bd_Content b)) (u16 (SeqCnt + 1))).2
  else bd_Content b.

Definition next_seq (b : CFE_SB_BufferD_t) (e : CFE_SBR_RouteEntry_t) : CFE_SBR_RouteEntry_t :=
  if auto_seq b then e <| SeqCnt ::= λ c, u16 (c + 1) |> else e.

Lemma routes_seq r D tb r' f i : routes_inv r D tb → sbr_inv r' → (∀ e, ListHeadPtr (f e) = ListHeadPtr e) →
  entries r' = alter f i (entries r) → routes_inv r' D tb.
Proof.
  intros [H1' H2' H3' H4' H5' H6' H7'] Hr' Hf He. split; try done. rewrite He.
  apply Forall2_same_length_lookup in H2' as [Hlen H2']. apply Forall2_same_length_lookup.
  split; [by rewrite length_alter|]. intros j e l Hj Hl. destruct (decide (i = j)) as [<-|].
  - rewrite list_lookup_alter_eq in Hj. apply fmap_Some in Hj as (e' & He' & ->). rewrite Hf. by apply (H2' i).
  - rewrite list_lookup_alter_ne in Hj by done. by apply (H2' j).
Qed.

Lemma inv_routes tb held rsv tx s r : sb_inv tb held rsv tx s → routes_inv r (Dests s) tb →
  RouteIdxTop r = RouteIdxTop (Routes s) → sb_inv tb held rsv tx (s <| Routes := r |>).
Proof. intros [] Hr Ht. split; try done. cbn. by rewrite Ht. Qed.

Lemma wp_set_sequence tb held rsv tx i e a b Q s :
  sb_inv tb held rsv tx s → entries (Routes s) !! i = Some e → Bufs s !! a = Some b →
  (∀ r, let s' := s <| Routes := r |> <| Bufs ::= <[a := b <| bd_Content := seq_content b (SeqCnt e) |>]> |> in
     sb_inv tb held rsv tx s' → msgids r = msgids (Routes s) →
     entries r = alter (next_seq b) i (entries (Routes s)) → Q tt s') →
  wp (set_sequence (Z.of_nat i + 1) a) Q s.
Proof.
  intros Hi He Hb HQ. pose proof (in_routes _ _ _ _ _ Hi) as Hri. pose proof (ri_sbr _ _ _ Hri) as Hsbr.
  pose proof (inv_wf _ Hsbr) as Hwf. pose proof (wf_top _ Hwf).
  pose proof (lookup_lt_Some _ _ _ He) as Hlt. rewrite (entries_length _ Hwf) in Hlt.
  unfold set_sequence. wp_step. eapply wp_rd_buf; [exact Hb|]. fold (auto_seq b).
  unfold seq_content, next_seq in HQ. destruct (auto_seq b) eqn:Ea.
  2: { apply wp_when_false; [done|]. specialize (HQ (Routes s)).
    replace (s <| Routes := Routes s |> <| Bufs ::= <[a := b <| bd_Content := bd_Content b |>]> |>) with s in HQ.
    - apply HQ; [done|done|]. apply list_eq. intros j. destruct (decide (i = j)) as [<-|].
      + by rewrite list_lookup_alter_eq, He.
      + by rewrite list_lookup_alter_ne.
    - destruct s. cbn in *. f_equal. symmetry. apply insert_id. rewrite Hb. by destruct b. }
  apply wp_when_true; [done|].
  destruct (upd_entry (Routes s) (Z.of_nat i + 1) (λ e, e <| SeqCnt ::= λ c, u16 (c + 1) |>) Hsbr ltac:(done) ltac:(lia))
    as (Eu & Hr' & Hen). set (r' := _ <| RoutingTbl := _ |>) in *.
  assert (CFE_SBR_IsValidRouteId (Z.of_nat i + 1) = true) as Hv by (apply IsValidRouteId_spec; lia).
  replace (Z.to_nat (Z.of_nat i + 1 - 1)) with i in Hen by lia.
  wp_step. eapply wp_sbr; [unfold CFE_SBR_IncrementSequenceCounter; rewrite Hv; exact Eu|]. wp_step.
  eapply (wp_sbr _ (u16 (SeqCnt e + 1)) r').
  { change (Routes (s <| Routes := r' |>)) with r'. unfold CFE_SBR_GetSequenceCounter. rewrite Hv.
    unfold CFE_SBR_RouteIdToValue. rewrite u16_small by (unfold is_u16; lia).
    assert (entries r' !! i = Some (e <| SeqCnt ::= λ c, u16 (c + 1) |>)) as He'
      by (rewrite Hen, list_lookup_alter_eq, He; done).
    apply lookup_take_Some in He' as [He' _]. unfold mbind, M_bind, gets.
    replace (Z.of_nat i + 1 - 1) with (Z.of_nat i) by lia.
    by rewrite (tbl_get_Some _ _ (e <| SeqCnt ::= λ c, u16 (c + 1) |>)) by (rewrite ?Nat2Z.id; done || lia). }
  eapply wp_wr_buf; [exact Hb|].
  assert (msgids r' = msgids (Routes s)) as Hm.
  { change (msgids ?x) with (Sbr.MsgId <$> entries x). rewrite Hen. apply list_eq. intros j. rewrite !list_lookup_fmap.
    destruct (decide (i = j)) as [<-|]; [by rewrite list_lookup_alter_eq, He|by rewrite list_lookup_alter_ne]. }
  refine (HQ r' _ Hm Hen). eapply (inv_upd_buf _ _ _ _ (s <| Routes := r' |>)); [|exact Hb|done|done|exact (in_ids _ _ _ _ _ Hi a b Hb)].
  apply inv_routes; [done| |done]. eapply routes_seq; [exact Hri|exact Hr'| |exact Hen]. done.
Qed.

(** ** Handing the buffer over *)

(** The sender's reference is held by the call, or is the ownership of a zero copy
    buffer. *)
Definition sender (a : addr) (b : CFE_SB_BufferD_t) (held held0 : list addr) : Prop :=
  (bd_AppId b = CFE_ES_APPID_UNDEFINED ∧ held = a :: held0) ∨ (bd_AppId b ≠ CFE_ES_APPID_UNDEFINED ∧ held = held0).

Lemma inv_publish tb held held0 rsv a b s zs ts :
  sb_inv tb held rsv a s → links_ok (Links s) zs ts (dom (Bufs s)) → counts_ok (Bufs s) zs (grefs s ++ held) a →
  Bufs s !! a = Some b → sender a b held held0 →
  counts_ok (<[a := b <| bd_AppId := CFE_ES_APPID_UNDEFINED |>]> (Bufs s)) (without a zs) (grefs s ++ a :: held0) a.
Proof.
  intros Hi Hl Hc Hb [[Happ ->]|[Happ ->]].
  - replace (b <| bd_AppId := CFE_ES_APPID_UNDEFINED |>) with b by (destruct b; cbn in *; by subst).
    rewrite insert_id by done. rewrite without_notin; [done|]. by intros Ha%(co_zs _ _ _ _ Hc a b Hb).
  - eapply counts_perm; [|by apply counts_publish]. by rewrite Permutation_middle.
Qed.

Lemma wp_publish {A} (k : M G A) tb held held0 rsv a b Q s :
  sb_inv tb held rsv a s → Bufs s !! a = Some b → sender a b held held0 → cnt a (grefs s ++ a :: held0) <= 17 →
  (∀ L, let s' := s <| Bufs ::= <[a := b <| bd_AppId := CFE_ES_APPID_UNDEFINED |>]> |> <| Links := L |> in
     sb_inv tb (a :: held0) rsv a s' → wp k Q s') →
  wp (CFE_SB_TrackingListRemove a;; wr_buf a (λ b, b <| bd_AppId := CFE_ES_APPID_UNDEFINED |>);;
      CFE_SB_TrackingListAdd InTransitList a;; k) Q s.
Proof.
  intros Hi Hb Hs Hcnt17 HQ. pose proof Hi as [Hr Hp Hd (zs & ts & Hl & Hc) Hcnt Hpool Hst Hids Hfl].
  pose proof (inv_publish _ _ _ _ _ _ _ _ _ Hi Hl Hc Hb Hs) as Hc'.
  assert (a ∈ dom (Bufs s)) as Ha by by eapply elem_of_dom_2.
  wp_step. eapply wp_unlink; [exact Hl|done|]. intros L Hl1 Eself. wp_step.
  eapply wp_wr_buf; [exact Hb|]. wp_step.
  assert ((a ∉ without a zs) ∧ (a ∉ without a ts)) as [Hz Ht] by (rewrite !without_elem; tauto).
  destruct (links_nodup _ _ _ _ Hl1) as (_ & Hnt & _).
  eapply (wp_TrackingListAdd InTransitList (without a ts)); [exact Hnt| |apply Hl1| |].
  { rewrite elem_of_cons. intros [->|?]; [|done]. by apply (lo_pos _ _ _ _ Hl) in Ha. }
  { cbn. rewrite Eself. eauto. }
  pose proof (links_add _ InTransitList (without a ts) _ _ _ _ Hl1 Ha Hz Ht ltac:(by right)) as Hl2.
  rewrite !decide_False in Hl2 by done.
  apply HQ. split; try done.
  - exists (without a zs), (without a ts ++ [a]). cbn. rewrite (dom_insert_old _ _ _ _ Hb). done.
  - intros x. destruct (decide (x = a)) as [->|Hx]; [done|]. specialize (Hcnt x). rewrite decide_False in Hcnt by done.
    change (grefs _) with (grefs s). rewrite cnt_app, cnt_cons, decide_False by done. rewrite cnt_app in Hcnt.
    destruct Hs as [[_ ->]|[_ ->]]; [rewrite cnt_cons, decide_False in Hcnt by done; lia|lia].
  - cbn. by rewrite (dom_insert_old _ _ _ _ Hb).
  - cbn. by rewrite (size_insert_old _ _ _ _ Hb).
  - apply map_Forall_insert_2; [|done]. by apply (Hids a b).
Qed.

(** The buffer after [n] deliveries: gone without any, else with [n] references. *)
Definition sent_bufs (a : addr) (b : CFE_SB_BufferD_t) (n : nat) (B : gmap addr CFE_SB_BufferD_t) :=
  if decide (n = 0%nat) then delete a B
  else <[a := b <| bd_AppId := CFE_ES_APPID_UNDEFINED |> <| bd_UseCount := Z.of_nat n |>]> B.

Lemma drop_sent a b n (B : gmap addr CFE_SB_BufferD_t) :
  drop_ref (<[a := b <| bd_UseCount := 1 + Z.of_nat n |> <| bd_AppId := CFE_ES_APPID_UNDEFINED |>]> B) a = sent_bufs a b n B.
Proof.
  unfold drop_ref, sent_bufs. rewrite lookup_insert_eq. cbn [bd_UseCount].
  change (bd_UseCount (b <| bd_UseCount := 1 + Z.of_nat n |> <| bd_AppId := CFE_ES_APPID_UNDEFINED |>)) with (1 + Z.of_nat n).
  destruct (decide (n = 0%nat)) as [->|].
  - by rewrite decide_True, delete_insert_eq.
  - rewrite decide_False, insert_insert_eq by lia. f_equal. destruct b. unfold set. cbn. f_equal. lia.
Qed.

Lemma sent_bufs_over a b n k x y (B : gmap addr CFE_SB_BufferD_t) :
  sent_bufs a (b <| bd_UseCount := k |>) n (<[a := x]> (<[a := y]> B)) = sent_bufs a b n B.
Proof. unfold sent_bufs. case_decide; [by rewrite !delete_insert_eq|by rewrite !insert_insert_eq]. Qed.

(** Handing over, dropping the sender's reference and reporting the errors. *)
Lemma wp_bcast_end c tb held held0 a b n errs Q s :
  caller_ok c → Locked s = true → sb_inv tb held None a s → Bufs s !! a = Some b → sender a b held held0 →
  bd_UseCount b = 1 + Z.of_nat n → (n ≤ 16)%nat → cnt a (grefs s) = Z.of_nat n → a ∉ held0 →
  (∀ B L t p sl es, let s' := s <| Locked := false |> <| Bufs := B |> <| Links := L |> <| Stat := t |> <| Pool := p |>
        <| Stale := sl |> <| Events := es |> in
     B = sent_bufs a b n (Bufs s) → sb_inv tb held0 None NULL s' → Q tt s') →
  wp (CFE_SB_TrackingListRemove a;; wr_buf a (λ b, b <| bd_AppId := CFE_ES_APPID_UNDEFINED |>);;
      CFE_SB_TrackingListAdd InTransitList a;; CFE_SB_DecrBufUseCnt a;; CFE_SB_UnlockSharedData;;
      send_errs c a errs) Q s.
Proof.
  intros Hc Hlk Hi Hb Hs Hu Hn Hcnt Hnh HQ.
  assert (∀ x, cnt a (x :: held0) = if decide (x = a) then 1 else 0) as Eh.
  { intros x. rewrite cnt_cons, (cnt_not a held0) by done. destruct (decide (x = a)); lia. }
  eapply wp_publish; [exact Hi|exact Hb|exact Hs|rewrite cnt_app, Eh, decide_True by done; lia|].
  intros L s1 Hi1. wp_step.
  assert (<[a := b <| bd_AppId := CFE_ES_APPID_UNDEFINED |>]> (Bufs s) =
    <[a := b <| bd_UseCount := 1 + Z.of_nat n |> <| bd_AppId := CFE_ES_APPID_UNDEFINED |>]> (Bufs s)) as Eb.
  { do 2 f_equal. destruct b. cbn in *. by subst. }
  eapply wp_Decr; [exact Hi1|intros _; cbn; by rewrite lookup_insert_eq|].
  intros L' t p sl s2 Hi2 Hbs. wp_step. apply wp_unlock; [exact Hlk|].
  assert (Bufs s2 = sent_bufs a b n (Bufs s)) as EB.
  { transitivity (drop_ref (<[a := b <| bd_AppId := CFE_ES_APPID_UNDEFINED |>]> (Bufs s)) a); [done|].
    rewrite Eb. apply drop_sent. }
  assert (sb_inv tb held0 None NULL s2) as Hi3.
  { eapply inv_end; [exact Hi2| |].
    - rewrite cnt_app, (cnt_not a held0) by done. change (grefs s2) with (grefs s). lia.
    - intros b'. rewrite EB. unfold sent_bufs. case_decide; [by rewrite lookup_delete_eq|].
      rewrite lookup_insert_eq. by intros [= <-]. }
  destruct (pi_len _ _ _ _ (in_pipes _ _ _ _ _ Hi3)). pose proof (in_flags _ _ _ _ _ Hi3) as Hfl.
  apply wp_send_errs; try done.
  - apply (in_pipes _ _ _ _ _ Hi3).
  - intros es. refine (HQ _ L' t p sl (Events s ++ es) EB _).
    exact (inv_events _ _ _ _ _ (λ l, l ++ es) (inv_locked _ _ _ _ _ false Hi3)).
Qed.

(** What a broadcast to a route leaves. *)
Record broadcast_post (AppId : Z) (a : addr) (b : CFE_SB_BufferD_t) (held0 : list addr) (tb : list dlist)
    (i : nat) (l : dlist) (e : CFE_SBR_RouteEntry_t) (outs : list outcome) (s s' : G) : Prop := {
  bp_ok : Forall2 (out_ok AppId (PipeTbl s) (q_items (Queues s)) (q_depth (Queues s))) l.*2 outs;
  bp_inv : sb_inv (<[i := upd_dests outs l]> tb) held0 None NULL s';
  bp_locked : Locked s' = false;
  bp_queues : q_items (Queues s') = out_queues a (PipeTbl s) outs l (q_items (Queues s));
  bp_depth : q_depth (Queues s') = q_depth (Queues s);
  bp_bufs : Bufs s' = sent_bufs a (b <| bd_Content := seq_content b (SeqCnt e) |>) (ndelivered outs) (Bufs s);
  bp_pipes : pcore <$> PipeTbl s' = pcore <$> PipeTbl s;
  bp_entries : entries (Routes s') = alter (next_seq b) i (entries (Routes s));
  bp_rest : SubscriptionReporting s' = SubscriptionReporting s ∧ LastPipeId s' = LastPipeId s ∧
            StopRecurseFlags s' = StopRecurseFlags s;
}.

Lemma ndelivered_le outs : (ndelivered outs ≤ length outs)%nat.
Proof. apply length_filter. Qed.

Lemma cnt_replicate a n : cnt a (replicate n a) = Z.of_nat n.
Proof. induction n as [|n IH]; [done|]. cbn [replicate]. rewrite cnt_cons, decide_True, IH by done. lia. Qed.

Lemma wp_Broadcast c a b held held0 tb i l e Q s :
  caller_ok c → Locked s = false → sb_inv tb held None NULL s → Bufs s !! a = Some b → bd_UseCount b = 1 →
  a ∉ grefs s → a ∉ held0 → sender a b held held0 → tb !! i = Some l → entries (Routes s) !! i = Some e →
  (∀ outs s', broadcast_post (c_AppId c) a b held0 tb i l e outs s s' → Q tt s') →
  wp (CFE_SB_BroadcastBufferToRoute c a (Z.of_nat i + 1)) Q s.
Proof.
  intros Hc Hlk Hi Hb Hu Hng Hnh Hs Hl He HQ. unfold CFE_SB_BroadcastBufferToRoute. wp_step.
  apply wp_lock; [done|]. pose proof (in_routes _ _ _ _ _ Hi) as Hri.
  destruct (tb_route _ _ _ _ _ Hri Hl) as (_ & _ & _ & _ & Hr).
  pose proof (wf_top _ (inv_wf _ (ri_sbr _ _ _ Hri))) as Htop.
  rewrite (proj2 (IsValidRouteId_spec (Z.of_nat i + 1) ltac:(lia))) by lia.
  pose proof (ri_len _ _ _ Hri) as Hlen. eapply Forall_lookup_1 in Hlen; [|exact Hl]. cbn in Hlen.
  apply inv_begin with (a := a) in Hi. apply inv_locked with (b := true) in Hi.
  assert (cnt a (grefs s ++ held) <= 1) as Hcnt1.
  { rewrite cnt_app, (cnt_not a (grefs s)) by done.
    destruct Hs as [[_ ->]|[_ ->]]; [rewrite cnt_cons, decide_True by done|]; rewrite (cnt_not a held0) by done; lia. }
  wp_step. wp_step. eapply wp_set_sequence; [exact Hi|exact He|exact Hb|]. intros r s1 Hi1 Hm1 He1. wp_step.
  set (b1 := b <| bd_Content := seq_content b (SeqCnt e) |>) in *.
  eapply wp_sbr_head; [apply (in_routes _ _ _ _ _ Hi1)|exact Hl|]. unfold dest_fuel. wp_go.
  eapply (wp_broadcast_loop _ _ _ _ _ _ l _ tb [] [] b1); [exact Hi1|exact Hl|apply lookup_insert_eq|..].
  - change (grefs s1) with (grefs s). lia.
  - cbn. lia.
  - pose proof (tb_size _ _ _ _ _ (in_routes _ _ _ _ _ Hi1) Hl). cbn in *. lia.
  - intros outs h T qs D n s2 Hok Hi2 Hc2 Hq2 Hd2 Hg2. cbn [app].
    assert (length outs = length l) as Hol by (apply Forall2_length in Hok; by rewrite length_fmap in Hok).
    assert (n ≤ 16)%nat as Hn by (pose proof (ndelivered_le outs); unfold n; lia).
    wp_step. match goal with |- wp (when ?t _) _ _ => destruct t eqn:Et end; cbn [when].
    1: apply wp_hk. 2: wp_step.
    all: eapply (wp_bcast_end _ (<[i := upd_dests outs l]> tb) held held0 _ (b1 <| bd_UseCount := bd_UseCount b1 + Z.of_nat n |>) n); [done|done| | | | |exact Hn| |exact Hnh|].
    all: try (apply inv_hk); try exact Hi2.
    all: try apply lookup_insert_eq.
    all: try (destruct Hs as [[H1' ->]|[H1' ->]]; [by left|by right]).
    all: try (cbn; lia).
    all: try (change (grefs (s2 <| HK ::= _ |>)) with (grefs s2); rewrite Hg2, cnt_app, cnt_replicate;
      change (grefs s1) with (grefs s); rewrite (cnt_not a) by done; lia).
    all: intros B L t p sl es s3 EB Hi3; apply (HQ outs); split; try done.
    all: transitivity B; [done|]; rewrite EB; apply (sent_bufs_over a b1 n).
Qed.

(** Without a route the buffer is only given back. *)
Lemma wp_Broadcast_none c a b held held0 tb Q s :
  caller_ok c → Locked s = false → sb_inv tb held None NULL s → Bufs s !! a = Some b → bd_UseCount b = 1 →
  a ∉ grefs s → a ∉ held0 → sender a b held held0 →
  (∀ L t p sl es, let s' := s <| Bufs := delete a (Bufs s) |> <| Links := L |> <| Stat := t |> <| Pool := p |>
        <| Stale := sl |> <| Events := es |> in
     sb_inv tb held0 None NULL s' → Q tt s') →
  wp (CFE_SB_BroadcastBufferToRoute c a 0) Q s.
Proof.
  intros Hc Hlk Hi Hb Hu Hng Hnh Hs HQ. unfold CFE_SB_BroadcastBufferToRoute. wp_step. apply wp_lock; [done|].
  change (CFE_SBR_IsValidRouteId 0) with false. do 3 wp_step. apply wp_when_false; [done|].
  eapply (wp_bcast_end _ tb held held0 _ _ 0); [done|done| |exact Hb|exact Hs|lia|lia| |done|].
  - apply inv_locked. by apply inv_begin.
  - change (grefs _) with (grefs s). by rewrite cnt_not.
  - intros B L t p sl es s' -> Hi'. specialize (HQ L t p sl es). destruct s. cbn in *. subst. apply HQ, Hi'.
Qed.

End bcast.

(** ** Transmission of messages and zero copy buffers *)

Section transmit.
Context {PS QS : Type} `{MemPoolOK PS} `{OSQueueOK QS} `{MsgMapOK} `{BuildCfg}.
Abbreviation G := (CFE_SB_Global_t PS QS).
Implicit Types (s : G).

(** The identifier and the type in a message's header. *)
Definition msg_id (m : Message) : Z := default 0 (CFE_MSG_GetMsgId cfg_msgid (Some m) (Some 0)).2.
Definition msg_type (m : Message) : CFE_MSG_Type := default CFE_MSG_Type_Invalid (CFE_MSG_GetType (Some m) (Some CFE_MSG_Type_Invalid)).2.

(** A message as a caller passes it: bytes, as many as the header declares. *)
Definition msg_ok (m : Message) : Prop := Forall is_u8 m ∧ msg_size m <= Z.of_nat (length m).

Lemma GetMsgId_id m d : default d (CFE_MSG_GetMsgId cfg_msgid (Some m) (Some d)).2 = msg_id m.
Proof. unfold msg_id. by destruct cfg_msgid. Qed.

Lemma GetSize_size m d : default d (CFE_MSG_GetSize (Some m) (Some d)).2 = msg_size m.
Proof. done. Qed.

Lemma GetType_type m d : default d (CFE_MSG_GetType (Some m) (Some d)).2 = msg_type m.
Proof. done. Qed.

Lemma msg_id_u32 m : Forall is_u8 m → is_u32 (msg_id m).
Proof.
  intros Hm. unfold msg_id. destruct cfg_msgid; cbn -[u32 off_StreamId off_Subsystem lookup_total Z.land Z.lor Z.shiftl].
  - apply u32_range.
  - pose proof (lookup_total_u8 m (S off_StreamId) Hm) as [H1' _]. pose proof (lookup_total_u8 m (S off_Subsystem) Hm) as [H2' _].
    apply (lor_small _ _ 32); [lia| |].
    + assert (0 <= Z.land (m !!! S off_StreamId) MsgIdV2.CFE_MSG_MSGID_APID_MASK < 2 ^ 32).
      { apply land_small; [lia|done|]. by vm_compute. }
      case_decide; [|done]. apply (lor_small _ _ 32); [lia|done|]. by vm_compute.
    + apply land_small; [lia| |by vm_compute]. apply Z.shiftl_nonneg. done.
Qed.

Lemma msg_size_pos m : Forall is_u8 m → 7 <= msg_size m.
Proof.
  intros Hm. unfold msg_size. cbn -[off_Length lookup_total Z.shiftl].
  destruct (lookup_total_u8 m off_Length Hm) as [H1' _], (lookup_total_u8 m (S off_Length) Hm) as [H2' _].
  pose proof (proj2 (Z.shiftl_nonneg (m !!! off_Length) 8) H1'). unfold CFE_MSG_SIZE_OFFSET. lia.
Qed.

(** ** Validation *)

(** What the header of a message allows. *)
Definition send_check (m : Message) : Z :=
  if negb (CFE_SB_IsValidMsgId (msg_id m)) then CFE_SB_BAD_ARGUMENT
  else if CFE_MISSION_SB_MAX_SB_MSG_SIZE <? msg_size m then CFE_SB_MSG_TOO_BIG
  else CFE_SUCCESS.

Lemma wp_Validate c m mid sz rid tb held rsv tx Q s :
  caller_ok c → Locked s = false → sb_inv tb held rsv tx s → Forall is_u8 m →
  (∀ sz' rid' es, send_check m ≠ CFE_SUCCESS → Q (send_check m, msg_id m, sz', rid') (s <| Events := es |>)) →
  (∀ h es, send_check m = CFE_SUCCESS →
     Q (CFE_SUCCESS, msg_id m, msg_size m, route_of (msgids (Routes s)) (msg_id m)) (s <| HK := h |> <| Events := es |>)) →
  wp (CFE_SB_TransmitMsgValidate c (Some m) mid sz rid) Q s.
Proof.
  intros Hc Hlk Hi Hm HQ1 HQ2. unfold CFE_SB_TransmitMsgValidate. rewrite GetMsgId_id, GetSize_size.
  cbv beta match. change (CFE_SUCCESS =? CFE_SUCCESS) with true. cbv beta match.
  unfold send_check in *.
  destruct (CFE_SB_IsValidMsgId (msg_id m)) eqn:Hv; cbn [negb].
  2: { wp_go. apply wp_event; [done|]. wp_go. by apply (HQ1 sz rid). }
  change (CFE_SUCCESS =? CFE_SUCCESS) with true. cbv beta match.
  destruct (CFE_MISSION_SB_MAX_SB_MSG_SIZE <? msg_size m) eqn:Hs; cbn [negb].
  { wp_go. apply wp_event; [done|]. wp_go. by apply (HQ1 (msg_size m) rid). }
  wp_go. apply wp_lock; [done|]. wp_go.
  eapply wp_GetRouteId; [by apply inv_locked|by apply msg_id_u32|]. wp_go.
  destruct (CFE_SBR_IsValidRouteId _) eqn:Hr; wp_go.
  - apply wp_unlock; [done|]. wp_go. specialize (HQ2 (HK s) (Events s)).
    destruct s. cbn in *. subst. by apply HQ2.
  - apply wp_hk. wp_go. apply wp_unlock; [done|]. wp_go.
    assert (∀ es, Q (CFE_SUCCESS, msg_id m, msg_size m, route_of (msgids (Routes s)) (msg_id m))
      (s <| HK ::= λ k, k <| NoSubscribersCounter ::= incr 8 |> |> <| Events := es |>)) as HQ2'.
    { intros es. by apply HQ2. }
    apply wp_Request; [done|done|apply (in_flags _ _ _ _ _ Hi)|wp_go|].
    + specialize (HQ2' (Events s)). destruct s. cbn in *. subst. exact HQ2'.
    + intros fl Hfin. wp_go. apply wp_event; [done|]. wp_go. apply Hfin; [done|]. wp_go.
      specialize (HQ2' (Events s ++ [mkEvent CFE_SB_SEND_NO_SUBS_EID CFE_EVS_EventType_INFORMATION None])).
      destruct s. cbn in *. subst. exact HQ2'.
Qed.

Lemma wp_Validate_null c mid sz rid Q s : Locked s = false →
  (∀ es, Q (CFE_SB_BAD_ARGUMENT, mid, sz, rid) (s <| Events := es |>)) →
  wp (CFE_SB_TransmitMsgValidate c None mid sz rid) Q s.
Proof.
  intros Hlk HQ. unfold CFE_SB_TransmitMsgValidate. do 3 zred. wp_go. apply wp_event; [done|]. wp_go. apply HQ.
Qed.

(** ** CFE_SB_TransmitMsg *)

(** The buffer a message is copied to. *)
Definition msg_buf (m : Message) (IncrementSequenceCount : bool) : CFE_SB_BufferD_t :=
  mkBufferD (msg_id m) CFE_ES_APPID_UNDEFINED (msg_size m + CFE_SB_BUFFERD_CONTENT_OFFSET) (msg_size m) (msg_type m)
    IncrementSequenceCount 1 (take (Z.to_nat (msg_size m)) m).

(** Why a call sends nothing: no message, a header that is refused, no route, or no
    memory for the buffer. *)
Inductive unsent : ptr Message → list Z → Z → Prop :=
| u_null ids : unsent None ids CFE_SB_BAD_ARGUMENT
| u_header m ids : send_check m ≠ CFE_SUCCESS → unsent (Some m) ids (send_check m)
| u_no_route m ids : send_check m = CFE_SUCCESS → msg_id m ∉ ids → unsent (Some m) ids CFE_SUCCESS
| u_no_memory m ids : send_check m = CFE_SUCCESS → msg_id m ∈ ids → unsent (Some m) ids CFE_SB_BUF_ALOC_ERR.

(** What a call leaves behind: nothing sent ([t_none], with the reason in the
    status), or the buffer [a] with a copy of the message broadcast to the route of
    its identifier ([t_sent]). *)
Inductive transmit_post (c : Caller) (MsgPtr : ptr Message) (inc : bool) (tb : list dlist) (s : G) : Z → G → Prop :=
| t_none st h es p :
    let s' := s <| HK := h |> <| Events := es |> <| Pool := p |> in
    sb_inv tb [] None NULL s' →
    unsent MsgPtr (msgids (Routes s)) st →
    transmit_post c MsgPtr inc tb s st s'
| t_sent m i l e a outs s1 s' :
    MsgPtr = Some m → send_check m = CFE_SUCCESS → msgids (Routes s) !! i = Some (msg_id m) →
    tb !! i = Some l → entries (Routes s) !! i = Some e → Bufs s !! a = None →
    Bufs s1 = <[a := msg_buf m inc]> (Bufs s) → PipeTbl s1 = PipeTbl s → Queues s1 = Queues s → Routes s1 = Routes s →
    SubscriptionReporting s1 = SubscriptionReporting s → LastPipeId s1 = LastPipeId s → StopRecurseFlags s1 = StopRecurseFlags s →
    broadcast_post (c_AppId c) a (msg_buf m inc) [] tb i l e outs s1 s' →
    transmit_post c MsgPtr inc tb s CFE_SUCCESS s'.

Lemma inv_new tb held rsv tx s a : sb_inv tb held rsv tx s → Bufs s !! a = None → a ∉ grefs s.
Proof.
  intros Hi Hb Hin. destruct (in_bufs _ _ _ _ _ Hi) as (zs & ts & _ & Hc).
  destruct (co_ref _ _ _ _ Hc a) as [b Hb']; [rewrite elem_of_app; by left|congruence].
Qed.

Lemma msgids_entry r i id : msgids r !! i = Some id → ∃ e, entries r !! i = Some e.
Proof. change (msgids r) with (Sbr.MsgId <$> entries r). rewrite list_lookup_fmap. destruct (entries r !! i) as [e|]; [by exists e|done]. Qed.

(** The copy into the new buffer and its broadcast. *)
Lemma wp_copy_send {A} c m inc tb i l e a (k : M G A) Q s :
  caller_ok c → Locked s = false → msg_ok m → sb_inv tb [a] None NULL s →
  Bufs s !! a = Some (new_buf (msg_size m + CFE_SB_BUFFERD_CONTENT_OFFSET)) → has_room a (msg_size m) (Pool s) → a ∉ grefs s →
  tb !! i = Some l → entries (Routes s) !! i = Some e →
  (∀ outs s', broadcast_post (c_AppId c) a (msg_buf m inc) [] tb i l e outs (s <| Bufs ::= <[a := msg_buf m inc]> |>) s' → wp k Q s') →
  wp ((memcpy_content a m (msg_size m);;
       wr_buf a (λ b, b <| bd_MsgId := msg_id m |>);;
       wr_buf a (λ b, b <| bd_ContentSize := msg_size m |>);;
       wr_buf a (λ b, b <| bd_AutoSequence := inc |>);;
       wr_buf a (λ b, b <| bd_ContentType ::= λ t, default t (CFE_MSG_GetType (Some m) (Some t)).2 |>);;
       CFE_SB_BroadcastBufferToRoute c a (Z.of_nat i + 1));; k) Q s.
Proof.
  intros Hc Hlk [Hby Hlen] Hi Hb (k0 & Hk0 & Hroom) Hng Hl He HQ. wp_step. wp_step. unfold memcpy_content.
  replace (Z.of_nat (length m) <? msg_size m) with false by lia.
  wp_step. eapply wp_in_block; [exact Hk0|done|].
  eapply wp_wr_buf; [exact Hb|].
  do 4 (wp_step; eapply wp_wr_buf; [apply lookup_insert_eq|]).
  match goal with |- wp _ _ ?x => replace x with (s <| Bufs ::= <[a := msg_buf m inc]> |>) end.
  2: { cbn. by rewrite !insert_insert_eq. }
  eapply (wp_Broadcast _ _ (msg_buf m inc) [a] []); try done.
  - eapply inv_upd_buf; [done..|]. by apply msg_id_u32.
  - apply lookup_insert_eq.
  - by apply not_elem_of_nil.
  - by left.
Qed.

Lemma wp_buf_err_event c Q s : caller_ok c → Locked s = false →
  length (StopRecurseFlags s) = 64%nat ∧ Forall is_u32 (StopRecurseFlags s) → (∀ es, Q tt (s <| Events := es |>)) →
  wp (CFE_SB_RequestToSendEvent c CFE_SB_GET_BUF_ERR_EID_BIT) (λ granted,
    wp (when granted
       (CFE_EVS_SendEventWithAppID CFE_SB_GET_BUF_ERR_EID CFE_EVS_EventType_ERROR;;
        CFE_SB_FinishSendEvent c CFE_SB_GET_BUF_ERR_EID_BIT)) Q) s.
Proof.
  intros Hc Hlk Hfl HQ. apply wp_Request; [done|done|done|wp_go|].
  - specialize (HQ (Events s)). by destruct s.
  - intros fl Hfin. wp_go. apply wp_event; [done|]. apply Hfin; [done|].
    specialize (HQ (Events s ++ [mkEvent CFE_SB_GET_BUF_ERR_EID CFE_EVS_EventType_ERROR None])). by destruct s.
Qed.

Lemma wp_TransmitMsg_null c inc tb Q s : caller_ok c → Locked s = false → sb_inv tb [] None NULL s →
  (∀ st s', transmit_post c None inc tb s st s' → Q st s') → wp (CFE_SB_TransmitMsg c None inc) Q s.
Proof.
  intros Hc Hlk Hi HQ. unfold CFE_SB_TransmitMsg. wp_step. apply wp_Validate_null; [done|]. intros es. wp_go.
  apply wp_lock; [done|]. wp_go. apply wp_hk. wp_go. apply wp_unlock; [done|]. wp_go.
  eapply HQ. match goal with |- transmit_post _ _ _ _ _ _ ?x =>
    replace x with (s <| HK := HK x |> <| Events := es |> <| Pool := Pool s |>) by (destruct s; cbn in *; by subst) end.
  constructor; [|constructor]. destruct Hi. by split.
Qed.

Lemma wp_TransmitMsg c m inc tb Q s :
  caller_ok c → Locked s = false → sb_inv tb [] None NULL s → msg_ok m →
  (∀ st s', transmit_post c (Some m) inc tb s st s' → Q st s') → wp (CFE_SB_TransmitMsg c (Some m) inc) Q s.
Proof.
  intros Hc Hlk Hi Hm HQ. unfold CFE_SB_TransmitMsg. wp_step.
  assert (∀ st h es p, 
    unsent (Some m) (msgids (Routes s)) st → sb_inv tb [] None NULL (s <| Pool := p |>) →
    Q st (s <| HK := h |> <| Events := es |> <| Pool := p |>)) as Hnone.
  { intros st h es p Hst [] . apply HQ. constructor; [by split|done]. }
  eapply wp_Validate; [done|done|exact Hi|apply Hm|..].
  { intros sz rid es Hne. wp_step. apply wp_lock; [done|]. rewrite (proj2 (Z.eqb_neq _ _) Hne). wp_go.
    rewrite (proj2 (Z.eqb_neq _ _) Hne). wp_go. apply wp_hk. wp_go. apply wp_unlock; [done|]. wp_go.
    match goal with |- Q _ ?x => replace x with (s <| HK := HK x |> <| Events := es |> <| Pool := Pool s |>)
      by (destruct s; cbn in *; by subst) end.
    apply Hnone; [by constructor|by destruct s]. }
  intros h es Hchk. wp_go. apply wp_lock; [done|].
  set (s0 := s <| HK := h |> <| Events := es |> <| Locked := true |>).
  assert (sb_inv tb [] None NULL s0) as Hi0 by (destruct Hi; by split).
  destruct (decide (msg_id m ∈ msgids (Routes s))) as [Hin|Hin].
  - destruct (inv_route _ _ _ _ _ _ Hi Hin) as (i & l & E1 & E2 & E3 & Hvr). rewrite E1, Hvr.
    destruct (msgids_entry _ _ _ E2) as [e He]. wp_go.
    eapply wp_GetBuffer; [exact Hi0|pose proof (msg_size_pos _ (proj1 Hm)); lia|..].
    + intros p Hp. wp_go. apply wp_hk. wp_go. apply wp_unlock; [done|]. wp_go.
      apply wp_buf_err_event; [done|done|apply Hi|]. intros es'. wp_go.
      match goal with |- Q _ ?x => replace x with (s <| HK := HK x |> <| Events := es' |> <| Pool := p |>)
        by (destruct s; cbn in *; by subst) end.
      apply Hnone; [by constructor|]. destruct Hp. by split.
    + intros a L t p sl s1 Hfr Hpos Hroom _ Hi1. rewrite (proj2 (Z.eqb_neq a NULL)) by (unfold NULL; lia). wp_go.
      apply wp_unlock; [done|]. rewrite (proj2 (Z.eqb_neq a NULL)) by (unfold NULL; lia). cbn [negb when].
      eapply wp_copy_send; [done|done|done|apply inv_locked; exact Hi1|apply lookup_insert_eq|exact Hroom| |exact E3|exact He|].
      { exact (inv_new _ _ _ _ _ _ Hi Hfr). }
      intros outs s' Hpost. wp_go. apply HQ. match type of Hpost with broadcast_post _ _ _ _ _ _ _ _ _ ?x _ =>
        apply (t_sent _ _ _ _ _ m i l e a outs x s') end; try done.
      cbn. by rewrite insert_insert_eq.
  - rewrite (route_of_absent _ _ Hin). change (CFE_SBR_IsValidRouteId 0) with false. wp_go.
    apply wp_unlock; [done|]. wp_go.
    match goal with |- Q _ ?x => replace x with (s <| HK := HK x |> <| Events := es |> <| Pool := Pool s |>)
      by (destruct s; cbn in *; by subst) end.
    apply Hnone; [by constructor|by destruct s].
Qed.

End transmit.
