(* ===== verification/SbZero.v ===== *)
(** * Zero copy buffers

    An application obtains a descriptor, fills the content in place, and sends or
    releases it.  Until then the descriptor is on the zero copy list under the
    application's identifier. *)
From stdpp Require Import strings.
From S2P Require Import Prelude Config Msg MsgProps ResourceId Sbr SbrProps SbState SbBuf SbApi SbRoutes SbBufs SbInv SbMem SbSubs SbSend SbTransmit.

Section zero.
Context {PS QS : Type} `{MemPoolOK PS} `{OSQueueOK QS} `{MsgMapOK} `{BuildCfg}.
Abbreviation G := (CFE_SB_Global_t PS QS).
Implicit Types (s : G).

(** A zero copy buffer of an application: allocated, owned, without references. *)
Lemma inv_owned tb held rsv s a b : sb_inv tb held rsv NULL s → Bufs s !! a = Some b →
  bd_AppId b ≠ CFE_ES_APPID_UNDEFINED → bd_UseCount b = 1 ∧ (a ∉ grefs s) ∧ (a ∉ held).
Proof.
  intros Hi Hb Happ. destruct (in_bufs _ _ _ _ _ Hi) as (zs & ts & Hl & Hc).
  assert (a ∈ zs) as Hz by by apply (co_zs _ _ _ _ Hc a b Hb).
  assert (a ≠ NULL) as Hn. { apply elem_of_dom_2 in Hb. apply (lo_pos _ _ _ _ Hl) in Hb. unfold NULL. lia. }
  pose proof (co_own _ _ _ _ Hc a Hz Hn) as Hnr. pose proof (co_cnt _ _ _ _ Hc a b Hb) as Hu.
  unfold owned in Hu. rewrite decide_False, (cnt_not a) in Hu by done. rewrite elem_of_app in Hnr.
  split_and!; [lia|tauto|tauto].
Qed.

(** ** CFE_SB_ZeroCopyGetPtr *)

(** The descriptor handed to an application. *)
Definition zero_buf (AppId MsgSize : Z) : CFE_SB_BufferD_t :=
  (new_buf (MsgSize + CFE_SB_BUFFERD_CONTENT_OFFSET)) <| bd_AppId := AppId |>
    <| bd_Content := replicate (Z.to_nat MsgSize) 0 |>.

Lemma wp_own_new {A} (k : M G A) tb held rsv c a b Q s : sb_inv tb (a :: held) rsv NULL s → Bufs s !! a = Some b →
  bd_AppId b = CFE_ES_APPID_UNDEFINED → a ∉ grefs s → a ∉ held → Links s !! a = Some (mkLink a a) →
  c_AppId c ≠ CFE_ES_APPID_UNDEFINED →
  (∀ L, let s' := s <| Bufs ::= <[a := b <| bd_AppId := c_AppId c |>]> |> <| Links := L |> in
     sb_inv tb held rsv NULL s' → wp k Q s') →
  wp (wr_buf a (λ b, b <| bd_AppId := c_AppId c |>);; CFE_SB_TrackingListAdd ZeroCopyList a;; k) Q s.
Proof.
  intros [Hr Hp Hd (zs & ts & Hl & Hc) Hcnt Hpool Hst Hids Hfl] Hb Happ Hng Hnh Hself Hc0 HQ.
  assert (a ∈ dom (Bufs s)) as Ha by by eapply elem_of_dom_2.
  destruct (self_single _ _ _ _ _ Hl Hself) as [Hz Ht]. destruct (links_nodup _ _ _ _ Hl) as (Hnz & _ & _).
  wp_step. eapply wp_wr_buf; [exact Hb|]. wp_step.
  eapply (wp_TrackingListAdd ZeroCopyList zs); [exact Hnz| |apply Hl|cbn; eauto|].
  { rewrite elem_of_cons. intros [->|?]; [|done]. by apply (lo_pos _ _ _ _ Hl) in Ha. }
  pose proof (links_add _ ZeroCopyList zs _ _ _ _ Hl Ha Hz Ht ltac:(by left)) as Hl2.
  rewrite !decide_True in Hl2 by done.
  assert (a ∉ grefs s ++ held) as Hnr by (rewrite elem_of_app; tauto).
  assert (counts_ok (Bufs s) zs (a :: grefs s ++ held) NULL) as Hc1
    by (eapply counts_perm; [|exact Hc]; by rewrite Permutation_middle).
  apply HQ. split; try done.
  - exists (zs ++ [a]), ts. cbn. rewrite (dom_insert_old _ _ _ _ Hb). split; [exact Hl2|]. by apply counts_own.
  - intros x. specialize (Hcnt x). change (grefs _) with (grefs s). rewrite cnt_app in *. rewrite cnt_cons in Hcnt.
    destruct (decide (a = x)); lia.
  - cbn. by rewrite (dom_insert_old _ _ _ _ Hb).
  - cbn. by rewrite (size_insert_old _ _ _ _ Hb).
  - apply map_Forall_insert_2; [|done]. by apply (Hids a b).
Qed.

Lemma wp_ZeroCopyGetPtr c size h tb Q s :
  caller_ok c → Locked s = false → sb_inv tb [] None NULL s → 0 <= size →
  (∀ hp, (CFE_MISSION_SB_MAX_SB_MSG_SIZE < size ∨ h = None) ∧ hp = h ∨ c_Status c ≠ CFE_SUCCESS ∧ hp = Some NULL →
     Q (NULL, hp) s) →
  (∀ p, sb_inv tb [] None NULL (s <| Pool := p |>) → Q (NULL, Some NULL) (s <| Pool := p |>)) →
  (∀ a B L t p sl, let s' := s <| Bufs := B |> <| Links := L |> <| Stat := t |> <| Pool := p |> <| Stale := sl |> in
     B = <[a := zero_buf (c_AppId c) size]> (Bufs s) →
     size <= CFE_MISSION_SB_MAX_SB_MSG_SIZE → c_Status c = CFE_SUCCESS → Bufs s !! a = None → 0 < a →
     sb_inv tb [] None NULL s' → Q (content_ptr a, Some a) s') →
  wp (CFE_SB_ZeroCopyGetPtr c size h) Q s.
Proof.
  intros Hc Hlk Hi Hsz HQ1 HQ2 HQ3. unfold CFE_SB_ZeroCopyGetPtr.
  destruct (Z.ltb_spec CFE_MISSION_SB_MAX_SB_MSG_SIZE size); [wp_go; apply HQ1; auto|].
  destruct h as [h|]; [|wp_go; apply HQ1; auto].
  destruct (Z.eqb_spec (c_Status c) CFE_SUCCESS) as [Hs|Hs]; [|wp_go; apply HQ1; auto].
  assert (c_AppId c ≠ CFE_ES_APPID_UNDEFINED) as Happ by by apply Hc.
  wp_go. apply wp_lock; [done|]. wp_go. eapply wp_GetBuffer; [apply inv_locked; exact Hi|done|..].
  - intros p Hp. wp_go. apply wp_unlock; [done|]. wp_go. 
    specialize (HQ2 p). destruct s. cbn in *. subst. apply HQ2. by apply (inv_locked _ _ _ _ _ false) in Hp.
  - intros a L t p sl s1 Hfr Hpos (k0 & Hk0 & Hroom) Hself Hi1. wp_step. rewrite (proj2 (Z.eqb_neq a NULL)) by (unfold NULL; lia).
    eapply (wp_own_new _ tb [] None _ a); [exact Hi1|apply lookup_insert_eq|done| |by apply not_elem_of_nil|exact Hself|done|].
    { exact (inv_new _ _ _ _ _ _ Hi Hfr). }
    intros L2 s2 Hi2. wp_step. wp_step. apply wp_unlock; [done|]. do 2 wp_step.
    rewrite (proj2 (Z.eqb_neq (content_ptr a) NULL)) by (unfold NULL, content_ptr, CFE_SB_BUFFERD_CONTENT_OFFSET; lia).
    wp_go. eapply wp_in_block; [exact Hk0|exact Hroom|]. wp_go. eapply wp_wr_buf; [apply lookup_insert_eq|]. wp_go.
    match goal with |- Q _ ?x => replace x with (s <| Bufs := <[a := zero_buf (c_AppId c) size]> (Bufs s) |> <| Links := L2 |>
      <| Stat := t |> <| Pool := p |> <| Stale := sl |>) end.
    2: { destruct s. cbn in *. subst. cbn. by rewrite !insert_insert_eq. }
    apply (HQ3 a _ L2 t p sl); try done.
    eapply (inv_upd_buf _ _ _ _ _ a _ (zero_buf (c_AppId c) size)) in Hi2; [|apply lookup_insert_eq|done|done|done].
    apply (inv_locked _ _ _ _ _ false) in Hi2. destruct s. cbn in *. subst. by rewrite !insert_insert_eq in Hi2.
Qed.

(** ** Releasing *)

Lemma counts_gone B zs rs tx a : counts_ok B zs rs tx → a ∉ rs → counts_ok (delete a B) (without a zs) rs tx.
Proof.
  intros Hc Hn.
  assert (∀ x d, delete a B !! x = Some d → x ≠ a ∧ B !! x = Some d) as Hinv.
  { intros x d. rewrite lookup_delete_Some. intuition congruence. }
  split.
  - intros x Hx. rewrite lookup_delete_ne by (intros ->; done). by apply Hc.
  - intros x d [_ Hd]%Hinv. by apply (co_cnt _ _ _ _ Hc).
  - intros x d [_ Hd]%Hinv. by eapply co_pos.
  - intros x d [Hx Hd]%Hinv. rewrite without_elem, (co_zs _ _ _ _ Hc x d Hd). tauto.
  - intros x [_ Hx]%without_elem. by apply Hc.
Qed.

(** Dropping the owner's reference gives the buffer back. *)
Lemma wp_Decr_owned tb held rsv zs ts a b b1 Q s :
  sb_inv tb held rsv NULL s → links_ok (Links s) zs ts (dom (Bufs s)) → counts_ok (Bufs s) zs (grefs s ++ held) NULL →
  Bufs s !! a = Some b → bd_AppId b ≠ CFE_ES_APPID_UNDEFINED → bd_UseCount b1 = 1 →
  (∀ L t p sl, let s' := s <| Bufs := delete a (Bufs s) |> <| Links := L |> <| Stat := t |> <| Pool := p |> <| Stale := sl |> in
     sb_inv tb held rsv NULL s' → links_ok (Links s') (without a zs) (without a ts) (dom (Bufs s')) →
     counts_ok (Bufs s') (without a zs) (grefs s' ++ held) NULL → Q tt s') →
  wp (CFE_SB_DecrBufUseCnt a) Q (s <| Bufs ::= <[a := b1]> |>).
Proof.
  intros Hi Hl Hc Hb Happ Hu HQ. destruct (inv_owned _ _ _ _ _ _ Hi Hb Happ) as (_ & Hng & Hnh).
  destruct Hi as [Hr Hp Hd _ Hcnt [Hpool Hdj] Hst Hids Hfl].
  assert (a ∉ grefs s ++ held) as Hnr by (rewrite elem_of_app; tauto).
  unfold CFE_SB_DecrBufUseCnt. wp_step. eapply wp_rd_buf; [apply lookup_insert_eq|]. apply wp_when_true; [lia|].
  wp_step. eapply wp_wr_buf; [apply lookup_insert_eq|]. wp_step. eapply wp_rd_buf; [apply lookup_insert_eq|].
  apply wp_when_true.
  { change (bd_UseCount (b1 <| bd_UseCount ::= decr 16 |>)) with (decr 16 (bd_UseCount b1)). by rewrite Hu. }
  eapply (wp_Return _ _ zs ts).
  { cbn. rewrite insert_insert_eq, (dom_insert_old _ _ _ _ Hb). exact Hl. }
  { apply lookup_insert_eq. }
  { cbn. rewrite Hpool, elem_of_union, elem_of_dom. eauto. }
  cbn. rewrite insert_insert_eq, delete_insert_eq. intros L p t Hl' Hp' Ht.
  assert (counts_ok (delete a (Bufs s)) (without a zs) (grefs s ++ held) NULL) as Hc' by by apply counts_gone.
  apply HQ; [|done|done]. split; try done.
  - by exists (without a zs), (without a ts).
  - cbn. rewrite Hp', Hpool, dom_delete_L. by apply dom_split_minus; [done|apply elem_of_dom; eauto].
  - cbn. rewrite (size_delete_old _ _ _ Hb). by apply Ht.
  - by apply map_Forall_delete.
Qed.

(** The handle given back by the caller is NULL or a descriptor. *)
Definition handle_ok (s : G) (BufPtr Handle : addr) : Prop :=
  BufPtr = NULL ∨ Handle = NULL ∨ is_Some (Bufs s !! Handle).

(** A handle the bus accepts: an owned descriptor and its content pointer. *)
Definition valid_handle (s : G) (BufPtr Handle : addr) (b : CFE_SB_BufferD_t) : Prop :=
  Bufs s !! Handle = Some b ∧ bd_AppId b ≠ CFE_ES_APPID_UNDEFINED ∧ content_ptr Handle = BufPtr.

Lemma wp_HandleValidate BufPtr Handle Q s : handle_ok s BufPtr Handle →
  (∀ st, st ≠ CFE_SUCCESS → (∀ b, BufPtr ≠ NULL → Handle ≠ NULL → ¬ valid_handle s BufPtr Handle b) → Q st s) →
  (∀ b, BufPtr ≠ NULL → Handle ≠ NULL → valid_handle s BufPtr Handle b → Q CFE_SUCCESS s) →
  wp (CFE_SB_ZeroCopyHandleValidate BufPtr Handle) Q s.
Proof.
  intros Hh HQ1 HQ2. unfold CFE_SB_ZeroCopyHandleValidate.
  destruct (Z.eqb_spec BufPtr NULL) as [->|Hb]; cbn [orb]; [wp_go; by apply HQ1|].
  destruct (Z.eqb_spec Handle NULL) as [->|Hn]; cbn [orb]; [wp_go; by apply HQ1|].
  destruct Hh as [?|[?|[b Eb]]]; [done|done|]. wp_step. eapply wp_rd_buf; [exact Eb|].
  destruct (Z.eqb_spec (bd_AppId b) CFE_RESOURCEID_UNDEFINED) as [Ea|Ea]; cbn [orb].
  { wp_go. apply HQ1; [done|]. intros b' _ _ (Eb' & Ha & _). rewrite Eb in Eb'. injection Eb' as <-. by apply Ha. }
  destruct (Z.eqb_spec (content_ptr Handle) BufPtr) as [Ep|Ep]; cbn [negb].
  - wp_go. apply (HQ2 b); try done.
  - wp_go. apply HQ1; [done|]. by intros b' _ _ (_ & _ & ?).
Qed.

Lemma wp_ReleasePtr BufPtr Handle tb Q s : Locked s = false → sb_inv tb [] None NULL s → handle_ok s BufPtr Handle →
  (∀ st, st ≠ CFE_SUCCESS → (∀ b, BufPtr ≠ NULL → Handle ≠ NULL → ¬ valid_handle s BufPtr Handle b) → Q st s) →
  (∀ b L t p sl, let s' := s <| Bufs := delete Handle (Bufs s) |> <| Links := L |> <| Stat := t |> <| Pool := p |> <| Stale := sl |> in
     valid_handle s BufPtr Handle b → sb_inv tb [] None NULL s' → Q CFE_SUCCESS s') →
  wp (CFE_SB_ZeroCopyReleasePtr BufPtr Handle) Q s.
Proof.
  intros Hlk Hi Hh HQ1 HQ2. unfold CFE_SB_ZeroCopyReleasePtr. wp_step. apply wp_HandleValidate; [done|..].
  - intros st Hst Hno. wp_step. apply wp_lock; [done|]. rewrite (proj2 (Z.eqb_neq _ _) Hst). wp_go.
    apply wp_unlock; [done|]. wp_go. specialize (HQ1 st Hst Hno). destruct s. cbn in *. by subst.
  - intros b _ _ Hv. pose proof Hv as (Hb & Happ & _). wp_go. apply wp_lock; [done|]. wp_go.
    eapply wp_wr_buf; [exact Hb|].
    destruct (in_bufs _ _ _ _ _ Hi) as (zs & ts & Hl & Hco).
    eapply (wp_Decr_owned tb [] None zs ts _ b _ _ (s <| Locked := true |>)); [by apply inv_locked|done|done|exact Hb|done| |].
    { destruct (inv_owned _ _ _ _ _ _ Hi Hb Happ) as (Hu & _). exact Hu. }
    intros L t p sl s' Hi' _ _. wp_step. apply wp_unlock; [done|]. wp_go. specialize (HQ2 b L t p sl Hv).
    destruct s. cbn in *. subst. apply HQ2. by apply (inv_locked _ _ _ _ _ false) in Hi'.
Qed.

(** ** CFE_SB_ZeroCopySend and CFE_SB_ZeroCopyPass *)

(** The descriptor as it is broadcast. *)
Definition zc_sent (b : CFE_SB_BufferD_t) (inc : bool) : CFE_SB_BufferD_t :=
  b <| bd_MsgId := msg_id (bd_Content b) |> <| bd_ContentSize := msg_size (bd_Content b) |>
    <| bd_AutoSequence := inc |> <| bd_ContentType := msg_type (bd_Content b) |>.

Inductive zerocopy_post (c : Caller) (BufPtr Handle : addr) (inc : bool) (tb : list dlist) (s : G) : Z → G → Prop :=
| z_invalid st h :
    let s' := s <| HK := h |> in
    st ≠ CFE_SUCCESS → (∀ b, BufPtr ≠ NULL → Handle ≠ NULL → ¬ valid_handle s BufPtr Handle b) →
    sb_inv tb [] None NULL s' → zerocopy_post c BufPtr Handle inc tb s st s'
| z_header b sz h es :
    let s' := s <| HK := h |> <| Events := es |> <| Bufs ::= <[Handle := b <| bd_MsgId := msg_id (bd_Content b) |> <| bd_ContentSize := sz |>]> |> in
    valid_handle s BufPtr Handle b → send_check (bd_Content b) ≠ CFE_SUCCESS →
    sb_inv tb [] None NULL s' → zerocopy_post c BufPtr Handle inc tb s (send_check (bd_Content b)) s'
| z_no_route b s' :
    valid_handle s BufPtr Handle b → send_check (bd_Content b) = CFE_SUCCESS →
    msg_id (bd_Content b) ∉ msgids (Routes s) → Bufs s' = delete Handle (Bufs s) →
    PipeTbl s' = PipeTbl s → Queues s' = Queues s → Routes s' = Routes s → Locked s' = false →
    sb_inv tb [] None NULL s' → zerocopy_post c BufPtr Handle inc tb s CFE_SUCCESS s'
| z_sent b i l e outs s1 s' :
    valid_handle s BufPtr Handle b → send_check (bd_Content b) = CFE_SUCCESS →
    msgids (Routes s) !! i = Some (msg_id (bd_Content b)) → tb !! i = Some l → entries (Routes s) !! i = Some e →
    Bufs s1 = <[Handle := zc_sent b inc]> (Bufs s) → PipeTbl s1 = PipeTbl s → Queues s1 = Queues s → Routes s1 = Routes s →
    broadcast_post (c_AppId c) Handle (zc_sent b inc) [] tb i l e outs s1 s' →
    zerocopy_post c BufPtr Handle inc tb s CFE_SUCCESS s'.

Lemma wp_TransmitBuffer c BufPtr Handle inc tb Q s :
  caller_ok c → Locked s = false → sb_inv tb [] None NULL s → handle_ok s BufPtr Handle →
  (∀ b, valid_handle s BufPtr Handle b → Forall is_u8 (bd_Content b)) →
  (∀ st s', zerocopy_post c BufPtr Handle inc tb s st s' → Q st s') →
  wp (CFE_SB_TransmitBuffer c BufPtr Handle inc) Q s.
Proof.
  intros Hc Hlk Hi Hh Hbytes HQ. unfold CFE_SB_TransmitBuffer. wp_step. apply wp_HandleValidate; [done|..].
  - intros st Hst Hno. wp_step. rewrite (proj2 (Z.eqb_neq _ _) Hst). wp_step.
    rewrite (proj2 (Z.eqb_neq _ _) Hst). wp_go. apply wp_lock; [done|]. wp_go. apply wp_hk. apply wp_unlock; [done|]. wp_go.
    apply HQ. match goal with |- zerocopy_post _ _ _ _ _ _ _ ?x => replace x with (s <| HK := HK x |>)
      by (destruct s; cbn in *; by subst) end. constructor; [done|done|]. by destruct Hi.
  - intros b Hbp Hhn Hv. pose proof Hv as (Hb & Happ & _). specialize (Hbytes b Hv).
    destruct (inv_owned _ _ _ _ _ _ Hi Hb Happ) as (Hu & Hng & _).
    wp_go. eapply wp_rd_buf; [exact Hb|]. wp_go. eapply wp_Validate; [done|done|exact Hi|done|..].
    + intros sz rid es Hne. wp_step. eapply wp_wr_buf; [exact Hb|]. wp_step.
      eapply wp_wr_buf; [apply lookup_insert_eq|]. rewrite (proj2 (Z.eqb_neq _ _) Hne). wp_go.
      rewrite (proj2 (Z.eqb_neq _ _) Hne). wp_go. apply wp_lock; [done|]. wp_go. apply wp_hk. apply wp_unlock; [done|]. wp_go.
      apply HQ. match goal with |- zerocopy_post _ _ _ _ _ _ _ ?x => replace x with
        (s <| HK := HK x |> <| Events := es |> <| Bufs ::= <[Handle := b <| bd_MsgId := msg_id (bd_Content b) |> <| bd_ContentSize := sz |>]> |>)
        by (destruct s; cbn in *; subst; by rewrite insert_insert_eq) end.
      constructor; [done|done|]. eapply (inv_upd_buf _ _ _ _ _ _ b); [|exact Hb|done|done|by apply msg_id_u32]. by destruct Hi.
    + intros h es Hchk. wp_go. eapply wp_wr_buf; [exact Hb|]. wp_go.
      do 3 (eapply wp_wr_buf; [apply lookup_insert_eq|]; wp_go).
      set (s1 := s <| HK := h |> <| Events := es |> <| Bufs ::= <[Handle := zc_sent b inc]> |>).
      match goal with |- wp _ _ ?x => replace x with s1 end.
      2: { unfold s1. cbn. by rewrite !insert_insert_eq. }
      assert (sb_inv tb [] None NULL s1) as Hi1.
      { eapply (inv_upd_buf _ _ _ _ _ _ b); [|exact Hb|done|done|by apply msg_id_u32]. by destruct Hi. }
      destruct (decide (msg_id (bd_Content b) ∈ msgids (Routes s))) as [Hin|Hin].
      * destruct (inv_route _ _ _ _ _ _ Hi Hin) as (i & l & E1 & E2 & E3 & Hvr). rewrite E1.
        destruct (msgids_entry _ _ _ E2) as [e He].
        eapply (wp_Broadcast _ _ (zc_sent b inc) [] [] tb i l e); try done;
          [apply lookup_insert_eq|by apply not_elem_of_nil|by right|].
        intros outs s' Hpost. wp_go. apply HQ. by eapply (z_sent _ _ _ _ _ _ b i l e outs s1).
      * rewrite (route_of_absent _ _ Hin).
        eapply (wp_Broadcast_none _ _ (zc_sent b inc) [] [] tb); try done;
          [apply lookup_insert_eq|by apply not_elem_of_nil|by right|].
        intros L t p sl es' s' Hi'. wp_go. apply HQ. eapply z_no_route; try done. cbn. by rewrite delete_insert_eq.
Qed.

(** ** CFE_SB_ZeroCopyReleaseAppId *)

(** The zero copy buffers of an application are given back, the others kept. *)
Definition not_of (AppId : Z) (B : gmap addr CFE_SB_BufferD_t) : gmap addr CFE_SB_BufferD_t :=
  filter (λ x, bd_AppId x.2 ≠ AppId) B.

Lemma wp_zerocopy_loop AppId tb Q l2 : ∀ fuel l1 ts s,
  AppId ≠ CFE_ES_APPID_UNDEFINED → sb_inv tb [] None NULL s →
  links_ok (Links s) (l1 ++ l2) ts (dom (Bufs s)) → counts_ok (Bufs s) (l1 ++ l2) (grefs s ++ []) NULL →
  (∀ a b, a ∈ l1 → Bufs s !! a = Some b → bd_AppId b ≠ AppId) → (length l2 ≤ fuel)%nat →
  (∀ B L t p sl, let s' := s <| Bufs := B |> <| Links := L |> <| Stat := t |> <| Pool := p |> <| Stale := sl |> in
     B = not_of AppId (Bufs s) → sb_inv tb [] None NULL s' → Q tt s') →
  wp (zerocopy_loop fuel AppId (hd ZeroCopyList l2)) Q s.
Proof.
  induction l2 as [|a l2 IH]; intros fuel l1 ts s HA Hi Hl Hc H1' Hf HQ.
  { cbn [hd]. assert (wp (mret tt : M G unit) Q s) as Hd; [|by destruct fuel].
    wp_step. specialize (HQ (Bufs s) (Links s) (Stat s) (Pool s) (Stale s)).
    destruct s. cbn in *. apply HQ; [|done]. symmetry. apply map_filter_id. intros x b Hb. cbn. intros E.
    apply (H1' x b); [|done|done]. rewrite app_nil_r in Hc. apply (co_zs _ _ _ _ Hc x b Hb). congruence. }
  destruct fuel as [|fuel]; [cbn in Hf; lia|]. cbn [hd zerocopy_loop].
  assert (a ∈ l1 ++ a :: l2) as Hin by (rewrite elem_of_app; right; by left).
  assert (a ∈ dom (Bufs s)) as Ha by (apply (lo_in _ _ _ _ Hl); rewrite elem_of_app; auto).
  pose proof (lo_pos _ _ _ _ Hl a Ha) as Hpos.
  replace ((a =? NULL) || (a =? ZeroCopyList)) with false by (unfold NULL, ZeroCopyList; lia).
  wp_step. eapply wp_rd_link; [exact (ring_node _ _ _ _ _ (lo_z _ _ _ _ Hl))|]. cbn [lk_Next].
  apply elem_of_dom in Ha as [b Hb]. wp_step. eapply wp_rd_buf; [exact Hb|].
  assert (bd_AppId b ≠ CFE_ES_APPID_UNDEFINED) as Happ by by apply (co_zs _ _ _ _ Hc a b Hb).
  pose proof (lo_nodup _ _ _ _ Hl) as (Hnd & _ & _)%NoDup_app. cbn [length] in Hf.
  destruct (Z.eqb_spec (bd_AppId b) AppId) as [E|E]; cbn [when].
  - wp_step. replace s with (s <| Bufs ::= <[a := b]> |>) at 1 by (destruct s; cbn in *; by rewrite insert_id).
    eapply (wp_Decr_owned tb [] None); [exact Hi|exact Hl|exact Hc|exact Hb|done|by eapply inv_owned|].
    rewrite (without_split l1 a l2) by done. intros L t p sl s' Hi' Hl' Hc'.
    eapply (IH fuel l1); [done|exact Hi'|exact Hl'|exact Hc'| |lia|].
    + intros x d Hx. cbn. rewrite lookup_delete_Some. intros [_ Hd]. by eapply H1'.
    + intros B L2 t2 p2 sl2 s2 EB Hi2. refine (HQ B L2 t2 p2 sl2 _ Hi2). rewrite EB. cbn.
      unfold not_of. apply map_eq. intros x. apply option_eq. intros d. rewrite !map_lookup_filter_Some, lookup_delete_Some. cbn.
      split; [tauto|]. intros [Hd Hne]. split_and!; [|done|done]. intros <-. congruence.
  - do 2 wp_step. replace (l1 ++ a :: l2) with ((l1 ++ [a]) ++ l2) in Hl, Hc by by rewrite <- (assoc_L (++)).
    eapply (IH fuel (l1 ++ [a])); [done|exact Hi|exact Hl|exact Hc| |lia|exact HQ].
    intros x d. rewrite elem_of_app, list_elem_of_singleton. intros [Hx| ->] Hd; [by eapply H1'|]. congruence.
Qed.

Lemma wp_ReleaseAppId AppId tb Q s : Locked s = false → sb_inv tb [] None NULL s →
  (AppId = CFE_ES_APPID_UNDEFINED → Q CFE_SUCCESS s) →
  (∀ B L t p sl, let s' := s <| Bufs := B |> <| Links := L |> <| Stat := t |> <| Pool := p |> <| Stale := sl |> in
     AppId ≠ CFE_ES_APPID_UNDEFINED → B = not_of AppId (Bufs s) → sb_inv tb [] None NULL s' → Q CFE_SUCCESS s') →
  wp (CFE_SB_ZeroCopyReleaseAppId AppId) Q s.
Proof.
  intros Hlk Hi HQ1 HQ2. unfold CFE_SB_ZeroCopyReleaseAppId.
  destruct (Z.eqb_spec AppId CFE_RESOURCEID_UNDEFINED) as [->|HA]; cbn [negb when]; [wp_go; by apply HQ1|].
  destruct (in_bufs _ _ _ _ _ Hi) as (zs & ts & Hl & Hc).
  wp_go. apply wp_lock; [done|]. wp_step. eapply wp_rd_link; [exact (ring_head _ _ _ (lo_z _ _ _ _ Hl))|]. wp_go.
  cbn [lk_Next]. eapply (wp_zerocopy_loop _ tb _ zs _ [] ts (s <| Locked := true |>)); [done|by apply inv_locked|done|done| | |].
  - intros a b Hx. by apply not_elem_of_nil in Hx.
  - change (Links (s <| Locked := true |>)) with (Links s). rewrite <- size_dom, (lo_dom _ _ _ _ Hl).
    pose proof (lo_nodup _ _ _ _ Hl) as (Hnd & _ & _)%NoDup_app.
    rewrite <- (size_list_to_set (C := gset addr) zs Hnd). apply subseteq_size.
    intros a Ha%elem_of_list_to_set. apply elem_of_union_r, (lo_in _ _ _ _ Hl), elem_of_app. by left.
  - intros B L t p sl s' EB Hi'. apply wp_unlock; [done|]. wp_go. specialize (HQ2 B L t p sl HA EB).
    destruct s. cbn in *. subst. apply HQ2. by apply (inv_locked _ _ _ _ _ false) in Hi'.
Qed.

End zero.
