(* ===== verification/SbRecv.v ===== *)
(** * Receiving

    CFE_SB_ReceiveBuffer: the reference of the buffer received last is dropped, the
    oldest buffer of the queue becomes the pipe's last buffer. *)
From stdpp Require Import strings.
From S2P Require Import Prelude Config Msg MsgProps ResourceId Sbr SbrProps SbState SbBuf SbApi SbRoutes SbBufs SbInv SbMem SbSubs SbSend SbTransmit.

(** The buffers without the reference of a pipe's last buffer. *)
Definition drop_last (B : gmap addr CFE_SB_BufferD_t) (p : CFE_SB_PipeD_t) : gmap addr CFE_SB_BufferD_t :=
  if decide (pd_LastBuffer p = NULL) then B else drop_ref B (pd_LastBuffer p).

Definition set_last (a : addr) (p : CFE_SB_PipeD_t) : CFE_SB_PipeD_t := p <| pd_LastBuffer := a |>.

(** The counters a received message brings down, which stop at zero. *)
Definition rcv_dest (y : CFE_SB_DestinationD_t) : CFE_SB_DestinationD_t :=
  if 0 <? dd_BuffCount y then y <| dd_BuffCount ::= decr 16 |> else y.
Definition rcv_pipe (p : CFE_SB_PipeD_t) : CFE_SB_PipeD_t :=
  if 0 <? pd_CurrentQueueDepth p then p <| pd_CurrentQueueDepth ::= decr 16 |> else p.

(** The destinations after the receipt of a message: the count of the receiving
    pipe's subscription, if it still has one. *)
Inductive recv_tb (ids : list Z) (MsgId PipeId : Z) (tb : list dlist) : list dlist → Prop :=
| rcv_unsubscribed :
    (∀ j l, ids !! j = Some MsgId → tb !! j = Some l → PipeId ∉ dest_pipes l) → recv_tb ids MsgId PipeId tb tb
| rcv_subscribed j l1 d y l2 :
    ids !! j = Some MsgId → tb !! j = Some (l1 ++ (d, y) :: l2) → dd_PipeId y = PipeId →
    recv_tb ids MsgId PipeId tb (<[j := l1 ++ (d, rcv_dest y) :: l2]> tb).

Lemma drop_incr (B : gmap addr CFE_SB_BufferD_t) a b : B !! a = Some b → 0 < bd_UseCount b →
  drop_ref (<[a := b <| bd_UseCount := bd_UseCount b + 1 |>]> B) a = B.
Proof.
  intros Hb Hu. unfold drop_ref. rewrite lookup_insert_eq.
  change (bd_UseCount (b <| bd_UseCount := bd_UseCount b + 1 |>)) with (bd_UseCount b + 1).
  rewrite decide_False, insert_insert_eq by lia. apply insert_id. rewrite Hb. f_equal.
  destruct b. unfold set. cbn in *. f_equal. lia.
Qed.

Section recv.
Context {PS QS : Type} `{MemPoolOK PS} `{OSQueueOK QS} `{MsgMapOK} `{BuildCfg}.
Abbreviation G := (CFE_SB_Global_t PS QS).
Implicit Types (s : G).

(** A change of the pipe table and the queues that moves references between them
    and the call. *)
Lemma inv_refs tb held held' rsv rsv' tx s T qs last :
  sb_inv tb held rsv tx s → pipes_inv T (q_items qs) last (fst <$> rsv') →
  (∀ l x, l ∈ tb → x ∈ dest_pipes l → x ∈ pipe_ids T) →
  refs (q_items qs) T ++ held' ≡ₚ grefs s ++ held →
  nactive T + from_option snd 0 rsv' = nactive (PipeTbl s) + from_option snd 0 rsv →
  sb_inv tb held' rsv' tx (s <| PipeTbl := T |> <| Queues := qs |> <| LastPipeId := last |>).
Proof.
  intros [Hr Hp Hd (zs & ts & Hl & Hc) Hcnt Hpool Hst Hids Hfl] HT Hd' Hrefs Hn.
  split; try done.
  - exists zs, ts. split; [done|]. eapply counts_perm; [symmetry; exact Hrefs|done].
  - intros a. change (grefs _) with (refs (q_items qs) T). rewrite Hrefs. apply Hcnt.
  - cbn. by rewrite Hn.
Qed.

Lemma inv_last tb held held' rsv tx s i p f :
  sb_inv tb held rsv tx s → PipeTbl s !! i = Some p → active p → pid_eq p (f p) →
  last_ref (f p) ++ held' ≡ₚ last_ref p ++ held → sb_inv tb held' rsv tx (s <| PipeTbl ::= alter f i |>).
Proof.
  intros Hi Hp Ha Hf Hh. pose proof (in_pipes _ _ _ _ _ Hi) as Hpi.
  assert (active (f p)) as Ha' by by apply (pid_active p).
  replace (s <| PipeTbl ::= alter f i |>) with
    (s <| PipeTbl := alter f i (PipeTbl s) |> <| Queues := Queues s |> <| LastPipeId := LastPipeId s |>) by by destruct s.
  eapply (inv_refs tb held held' rsv rsv); [exact Hi|by eapply pipes_inv_alter| | |by erewrite nactive_pid].
  - intros l x Hl Hx. eapply pipe_ids_alter; [done..|]. by eapply in_dests.
  - unfold grefs. rewrite (refs_alter _ _ _ _ _ Hp), (refs_split _ _ _ _ Hp). unfold pipe_refs.
    rewrite !decide_True by done. destruct Hf as [_ ->]. rewrite <- !(assoc_L (++)). f_equiv.
    rewrite (Permutation_app_comm (refs _ _) held'), (Permutation_app_comm (refs _ _) held), !(assoc_L (++)). by rewrite Hh.
Qed.

Lemma inv_get tb held rsv tx s i p a l qs :
  sb_inv tb held rsv tx s → PipeTbl s !! i = Some p → active p →
  q_items (Queues s) !! pd_SysQueueId p = Some (a :: l) → q_items qs = <[pd_SysQueueId p := l]> (q_items (Queues s)) →
  sb_inv tb (a :: held) rsv tx (s <| Queues := qs |>).
Proof.
  intros Hi Hp Ha Hq Hqs. pose proof (in_pipes _ _ _ _ _ Hi) as Hpi.
  replace (s <| Queues := qs |>) with
    (s <| PipeTbl := PipeTbl s |> <| Queues := qs |> <| LastPipeId := LastPipeId s |>) by by destruct s.
  eapply (inv_refs tb held _ rsv rsv); [exact Hi| |apply Hi| |done].
  - destruct Hpi as [P1 P2 P3 P4 P5]. split; try done. intros j p' Hj.
    destruct (P2 j p' Hj) as [?|[?|(? & ? & Hs)]]; [auto|auto|]. right. right. split_and!; try done.
    rewrite Hqs. apply lookup_insert_is_Some'. by right.
  - unfold grefs. rewrite Hqs, !(refs_split _ _ _ _ Hp), (refs_queue _ _ _ _ _ _ _ Hpi Hp Ha).
    unfold pipe_refs. rewrite !decide_True by done. rewrite lookup_insert_eq, Hq. cbn [default from_option id].
    rewrite <- !(assoc_L (++)). cbn [app]. by rewrite !Permutation_middle.
Qed.

Lemma inv_incr tb held rsv a b s : sb_inv tb held rsv a s → Bufs s !! a = Some b → cnt a (grefs s ++ held) < 17 →
  sb_inv tb (a :: held) rsv a (s <| Bufs ::= <[a := b <| bd_UseCount := bd_UseCount b + 1 |>]> |>).
Proof.
  intros [Hr Hp Hd (zs & ts & Hl & Hc) Hcnt Hpool Hst Hids Hfl] Hb Hlt. split; try done.
  - exists zs, ts. cbn. rewrite (dom_insert_old _ _ _ _ Hb). split; [done|].
    eapply counts_perm; [|apply (counts_add _ _ _ _ _ _ Hc Hb); by right]. by rewrite Permutation_middle.
  - intros x. specialize (Hcnt x). change (grefs (s <| Bufs ::= _ |>)) with (grefs s).
    rewrite cnt_app in *. rewrite cnt_cons.
    destruct (decide (a = x)) as [<-|Hne]; [rewrite decide_True by done; lia|].
    rewrite decide_False in * by congruence. lia.
  - cbn. by rewrite (dom_insert_old _ _ _ _ Hb).
  - cbn. by rewrite (size_insert_old _ _ _ _ Hb).
  - apply map_Forall_insert_2; [|done]. by apply (Hids a b).
Qed.

(** ** The first critical section *)

Lemma wp_receive_begin id tb Q s :
  sb_inv tb [] None NULL s →
  (find_pipe (PipeTbl s) id = None → Q (CFE_SB_BAD_ARGUMENT, CFE_SB_BAD_PIPEID_EID, CFE_SB_LocatePipeDescByID id, 0) s) →
  (∀ i p B L t po sl, let s' := s <| PipeTbl ::= alter (set_last NULL) i |> <| Bufs := B |> <| Links := L |> <| Stat := t |>
        <| Pool := po |> <| Stale := sl |> in
     find_pipe (PipeTbl s) id = Some (i, p) → B = drop_last (Bufs s) p → sb_inv tb [] None NULL s' →
     Q (CFE_SUCCESS, 0, Some (Z.of_nat i), pd_SysQueueId p) s') →
  wp (receive_begin id) Q s.
Proof.
  intros Hi HQ1 HQ2. unfold receive_begin. pose proof (pi_len _ _ _ _ (in_pipes _ _ _ _ _ Hi)) as Hlen.
  wp_step. destruct (find_pipe (PipeTbl s) id) as [[i p]|] eqn:E.
  2: { apply wp_match_false; [done..|]. destruct (CFE_SB_LocatePipeDescByID id); wp_go; by apply HQ1. }
  destruct (find_pipe_Some _ _ _ _ E) as (-> & Hp & Hid & Ha). eapply wp_match_true; [exact Hp|done|].
  wp_go. eapply wp_rd_pipe_nat; [exact Hp|].
  specialize (HQ2 i p). unfold drop_last in HQ2.
  destruct (Z.eqb_spec (pd_LastBuffer p) NULL) as [En|En]; cbn [negb].
  - wp_go. specialize (HQ2 (Bufs s) (Links s) (Stat s) (Pool s) (Stale s) eq_refl). rewrite decide_True in HQ2 by done.
    assert (alter (set_last NULL) i (PipeTbl s) = PipeTbl s) as Et.
    { apply list_eq. intros j. destruct (decide (i = j)) as [<-|]; [|by rewrite list_lookup_alter_ne].
      rewrite list_lookup_alter_eq, Hp. cbn. f_equal. destruct p. cbn in *. by subst. }
    destruct s. cbn in *. rewrite Et in HQ2. by apply HQ2.
  - rewrite decide_False in HQ2 by done. set (a := pd_LastBuffer p) in *.
    assert (sb_inv tb [a] None NULL (s <| PipeTbl ::= alter (set_last NULL) i |>)) as Hi1.
    { eapply inv_last; [exact Hi|exact Hp|done|done|]. unfold last_ref. by rewrite decide_True, decide_False. }
    destruct (inv_ref _ _ _ _ _ a Hi1) as (b & Hb & Happ & Hn). { rewrite elem_of_app. right. by left. }
    destruct Hi1 as [R1 R2 R3 (zs & ts & Hl & Hc) Hcnt R6 R7 R8 R9].
    set (s1 := s <| PipeTbl ::= alter (set_last NULL) i |>) in *.
    assert (a ≠ NULL → ∀ x, cnt x (grefs s1) <= 16) as Hcnt'.
    { intros _ x. specialize (Hcnt x). rewrite cnt_app in Hcnt. pose proof (cnt_nonneg x [a]). case_decide; [|lia].
      subst x. rewrite cnt_not; [lia|]. intros Hx. destruct (co_ref _ _ _ _ Hc NULL) as [b0 Hb0]; [rewrite elem_of_app; by left|].
      apply elem_of_dom_2, (lo_pos _ _ _ _ Hl) in Hb0. done. }
    cbn [when]. wp_step. wp_step. eapply (wp_Decr_raw (grefs s1) NULL a b _ s); [|exact R6|exact Hb|by apply Happ|specialize (Hcnt' En a); lia|].
    { exists zs, ts. split; [done|]. eapply counts_perm; [|exact Hc]. by rewrite Permutation_app_comm. }
    intros L t po sl s2 Hbufs Hpool Hst _. eapply wp_wr_pipe_nat; [exact Hp|]. wp_go.
    refine (HQ2 _ L t po sl eq_refl eq_refl _). split; try done.
    + by rewrite app_nil_r.
    + intros x. rewrite app_nil_r. specialize (Hcnt x). rewrite cnt_app in Hcnt. pose proof (cnt_nonneg x [a]).
      change (grefs _) with (grefs s1). lia.
    + by apply Hst.
    + by apply (drop_ref_ids (λ b, is_u32 (bd_MsgId b))).
Qed.

(** ** The second critical section *)

Lemma recv_route tb held rsv tx s mid id j l : sb_inv tb held rsv tx s → msgids (Routes s) !! j = Some mid → tb !! j = Some l →
  id ∉ dest_pipes l → recv_tb (msgids (Routes s)) mid id tb tb.
Proof.
  intros Hi Hj Hl Hn. constructor. intros j' l' Hj' Hl'.
  pose proof (wf_nodup _ (inv_wf _ (ri_sbr _ _ _ (in_routes _ _ _ _ _ Hi)))) as Hnd.
  assert (j' = j) as -> by by eapply NoDup_lookup. congruence.
Qed.

(** The update of the subscription's count. *)
Lemma wp_rcv_dest {A} (k : M G A) tb held rsv tx mid id Q s :
  sb_inv tb held rsv tx s → is_u32 mid →
  (∀ tb' D, let s' := s <| Dests := D |> in
     recv_tb (msgids (Routes s)) mid id tb tb' → sb_inv tb' held rsv tx s' → wp k Q s') →
  wp (RouteId ← sbr (CFE_SBR_GetRouteId mid);
      DestPtr ← CFE_SB_GetDestPtr RouteId id;
      (if DestPtr =? NULL then mret tt
       else
         d ← rd_dest DestPtr;
         when (0 <? dd_BuffCount d) (wr_dest DestPtr (λ d, d <| dd_BuffCount ::= decr 16 |>)));; k) Q s.
Proof.
  intros Hi Hid HQ. pose proof (in_routes _ _ _ _ _ Hi) as Hri. wp_step. eapply wp_GetRouteId; [exact Hi|done|].
  assert (recv_tb (msgids (Routes s)) mid id tb tb → wp k Q s) as Hsame.
  { intros Hr. specialize (HQ tb (Dests s) Hr). destruct s. by apply HQ. }
  destruct (decide (mid ∈ msgids (Routes s))) as [Hin|Hin].
  2: { rewrite (route_of_absent _ _ Hin). wp_step. apply wp_GetDestPtr_invalid. wp_go. apply Hsame. constructor.
    intros j l Hj. exfalso. apply Hin. by eapply list_elem_of_lookup_2. }
  destruct (inv_route _ _ _ _ _ _ Hi Hin) as (j & l & -> & E2 & E3 & _).
  wp_step. eapply wp_GetDestPtr; [done..|]. pose proof (dlist_nonnull _ _ _ _ _ Hri E3) as Hnn.
  destruct (Z.eqb_spec (find_dest l id) NULL) as [En|En].
  { wp_go. apply Hsame. eapply recv_route; [exact Hi|exact E2|exact E3|]. by apply find_dest_null. }
  destruct (find_dest_split l id Hnn En) as (l1 & y & l2 & El & Hy & _). rewrite El in E3.
  set (d := find_dest l id) in *. pose proof (dest_lookup _ _ _ _ _ _ _ _ _ _ Hi E3) as Ed.
  pose proof (rcv_subscribed (msgids (Routes s)) mid id tb j l1 d y l2 E2 E3 Hy) as Hr.
  wp_step. wp_step. eapply wp_rd_dest; [exact Ed|]. change (dd_BuffCount (mkd y _ _)) with (dd_BuffCount y).
  unfold rcv_dest in Hr. destruct (Z.ltb_spec 0 (dd_BuffCount y)) as [Hlt|Hlt]; cbn [when].
  - eapply wp_wr_dest; [exact Ed|]. refine (HQ _ _ Hr _).
    exact (inv_payload _ _ _ _ _ _ _ _ _ _ (y <| dd_BuffCount ::= decr 16 |>) Hi E3 eq_refl).
  - wp_go. apply Hsame. by rewrite list_insert_id in Hr.
Qed.

Lemma wp_receive_end id i p a b buf tb Q s :
  sb_inv tb [a] None NULL s → find_pipe (PipeTbl s) id = Some (i, p) → pd_LastBuffer p = NULL → Bufs s !! a = Some b → a ≠ NULL →
  (∀ tb' D L t po sl, let s' := s <| PipeTbl ::= alter (rcv_pipe ∘ set_last a) i |> <| Dests := D |> <| Links := L |>
        <| Stat := t |> <| Pool := po |> <| Stale := sl |> in
     recv_tb (msgids (Routes s)) (bd_MsgId b) id tb tb' → sb_inv tb' [] None NULL s' →
     Q (CFE_SUCCESS, 0, (λ _, content_ptr a) <$> buf) s') →
  wp (receive_end id (Some (Z.of_nat i)) a buf) Q s.
Proof.
  intros Hi E Hlast Hb Hnn HQ. destruct (find_pipe_Some _ _ _ _ E) as (_ & Hp & Hid & Ha).
  destruct (inv_ref _ _ _ _ _ a Hi) as (b' & Hb' & Happ & Hn); [rewrite elem_of_app; right; by left|].
  assert (b' = b) as -> by congruence. specialize (Happ Hnn). pose proof (in_cnt _ _ _ _ _ Hi a) as H16.
  rewrite decide_False in H16 by done. pose proof (cnt_nonneg a (grefs s ++ [a])).
  assert (owned b = 0) as Hown by (unfold owned; by rewrite decide_True).
  assert (0 < bd_UseCount b) as Hpos by (destruct (in_bufs _ _ _ _ _ Hi) as (zs & ts & _ & Hc); by eapply co_pos).
  pose proof (in_ids _ _ _ _ _ Hi a b Hb) as Hu32.
  unfold receive_end. wp_step. eapply wp_match_true; [exact Hp|done|]. wp_step. wp_step.
  eapply wp_Incr; [exact Hb|lia|]. wp_step. eapply wp_wr_pipe_nat; [exact Hp|]. wp_step.
  eapply wp_rd_buf; [apply lookup_insert_eq|].
  set (b1 := b <| bd_UseCount := bd_UseCount b + 1 |>) in *. change (bd_MsgId b1) with (bd_MsgId b).
  assert (sb_inv tb [a] None a (s <| Bufs ::= <[a := b1]> |> <| PipeTbl ::= alter (set_last a) i |>)) as Hi1.
  { eapply (inv_last tb [a; a]); [|exact Hp|done|done|].
    - apply inv_incr; [by apply inv_begin|done|lia].
    - unfold last_ref. cbn. rewrite decide_False, decide_True by done. done. }
  set (s1 := s <| Bufs ::= <[a := b1]> |> <| PipeTbl ::= alter (set_last a) i |>) in *.
  eapply (wp_rcv_dest _ tb); [exact Hi1|done|]. intros tb' D s2 Hr Hi2.
  assert (PipeTbl s2 !! i = Some (set_last a p)) as Hp2 by (cbn; by rewrite list_lookup_alter_eq, Hp).
  wp_step. eapply wp_rd_pipe_nat; [exact Hp2|].
  destruct (inv_upd_pipe _ _ _ _ _ i (set_last a p) rcv_pipe Hi2 Hp2) as [Hi3 Eg].
  { unfold rcv_pipe. by case_match. }
  assert (wp (CFE_SB_DecrBufUseCnt a;; mret (CFE_SUCCESS, 0, (λ _, content_ptr a) <$> buf)) Q
    (s2 <| PipeTbl ::= alter rcv_pipe i |>)) as Hfin.
  { wp_step. eapply wp_Decr; [exact Hi3|intros _; cbn; rewrite lookup_insert_eq; cbn; by rewrite Happ|].
    intros L t po sl s4 Hi4 _. wp_go.
    assert (s4 = s <| PipeTbl ::= alter (rcv_pipe ∘ set_last a) i |> <| Dests := D |> <| Links := L |>
        <| Stat := t |> <| Pool := po |> <| Stale := sl |>) as E4.
    { pose proof (drop_incr (Bufs s) a b Hb Hpos) as Eb. fold b1 in Eb. unfold s4, s2, s1. destruct s. cbn in *.
      by rewrite list_alter_alter_eq, Eb. }
    rewrite E4. refine (HQ tb' D L t po sl Hr _). rewrite <- E4. apply inv_end with (a := a); [exact Hi4| |].
    - destruct (in_bufs _ _ _ _ _ Hi4) as (zs & ts & _ & Hc).
      assert (Bufs s4 !! a = Some b) as Hb4 by by rewrite E4.
      pose proof (co_cnt _ _ _ _ Hc a b Hb4). lia.
    - intros b'. rewrite E4. cbn. intros Eb. congruence. }
  assert (∀ f, f (set_last a p) = rcv_pipe (set_last a p) →
    s2 <| PipeTbl ::= alter f i |> = s2 <| PipeTbl ::= alter rcv_pipe i |>) as Hext.
  { intros f Ef. assert (alter f i (PipeTbl s2) = alter rcv_pipe i (PipeTbl s2)) as El.
    { apply list_alter_ext; [|done]. intros p' Hp'. congruence. }
    destruct s2. cbn in *. by rewrite El. }
  wp_step. destruct (0 <? pd_CurrentQueueDepth (set_last a p)) eqn:Hd; cbn [when].
  - eapply wp_wr_pipe_nat; [exact Hp2|]. wp_step. rewrite Hext; [done|]. unfold rcv_pipe. by rewrite Hd.
  - do 2 wp_step. refine (eq_ind _ (λ x, wp _ Q x) Hfin s2 _). rewrite <- (Hext (λ x, x)) by (unfold rcv_pipe; by rewrite Hd).
    assert (alter (λ x, x) i (PipeTbl s2) = PipeTbl s2) as El by by apply list_alter_id.
    clear -El. destruct s2. cbn in *. by rewrite El.
Qed.

(** ** The whole call *)

(** What the call leaves.  [r_refused]: a bad argument or no such pipe, counted and
    reported.  [r_empty]: no message (or none in time).  [r_message]: the oldest
    buffer of the queue, whose content the caller may read until its next call. *)
Inductive receive_post (BufPtr : ptr addr) (PipeId TimeOut : Z) (tb : list dlist) (s : G) : Z * ptr addr → G → Prop :=
| r_refused ev :
    BufPtr = None ∨ TimeOut < CFE_SB_PEND_FOREVER ∨ find_pipe (PipeTbl s) PipeId = None →
    receive_post BufPtr PipeId TimeOut tb s (CFE_SB_BAD_ARGUMENT, (λ _, NULL) <$> BufPtr)
      (s <| HK ::= (λ k, k <| MsgReceiveErrorCounter ::= incr 8 |>) |> <| Events ::= λ es, es ++ [ev] |>)
| r_empty i p st s' :
    find_pipe (PipeTbl s) PipeId = Some (i, p) → q_items (Queues s) !! pd_SysQueueId p = Some [] →
    (st = CFE_SB_NO_MESSAGE ∨ st = CFE_SB_TIME_OUT ∨ st = CFE_SB_PIPE_RD_ERR) →
    (TimeOut = CFE_SB_POLL → st = CFE_SB_NO_MESSAGE) →
    PipeTbl s' = alter (set_last NULL) i (PipeTbl s) → Bufs s' = drop_last (Bufs s) p →
    q_items (Queues s') = q_items (Queues s) → Routes s' = Routes s → Locked s' = false →
    HK s' = (HK s) <| InternalErrorCounter ::= incr 8 |> →
    sb_inv tb [] None NULL s' →
    receive_post BufPtr PipeId TimeOut tb s (st, (λ _, NULL) <$> BufPtr) s'
| r_message i p a l b tb' s' :
    find_pipe (PipeTbl s) PipeId = Some (i, p) → q_items (Queues s) !! pd_SysQueueId p = Some (a :: l) →
    PipeTbl s' = alter (rcv_pipe ∘ set_last a) i (PipeTbl s) → Bufs s' = drop_last (Bufs s) p → Bufs s' !! a = Some b →
    q_items (Queues s') = <[pd_SysQueueId p := l]> (q_items (Queues s)) → Routes s' = Routes s → Locked s' = false →
    HK s' = HK s → recv_tb (msgids (Routes s)) (bd_MsgId b) PipeId tb tb' → sb_inv tb' [] None NULL s' →
    receive_post BufPtr PipeId TimeOut tb s (CFE_SUCCESS, Some (content_ptr a)) s'.

(** The call does not pend forever on an empty queue. *)
Definition returns_in_time (PipeId TimeOut : Z) (s : G) : Prop :=
  TimeOut = CFE_SB_PEND_FOREVER → ∀ i p, find_pipe (PipeTbl s) PipeId = Some (i, p) →
    q_items (Queues s) !! pd_SysQueueId p ≠ Some [].

Lemma receive_args_ok x TimeOut : CFE_SB_PEND_FOREVER <= TimeOut → receive_args (Some x) TimeOut = (CFE_SUCCESS, 0, TimeOut).
Proof.
  unfold receive_args, CFE_SB_PEND_FOREVER, CFE_SB_POLL, OS_CHECK, OS_PEND. intros Ht.
  destruct (Z.ltb_spec 0 TimeOut); [done|]. destruct (Z.eqb_spec TimeOut 0) as [->|]; [done|].
  by assert (TimeOut = -1) as -> by lia.
Qed.

Lemma receive_args_bad buf TimeOut : buf = None ∨ TimeOut < CFE_SB_PEND_FOREVER →
  receive_args buf TimeOut = (CFE_SB_BAD_ARGUMENT, CFE_SB_RCV_BAD_ARG_EID, OS_PEND).
Proof.
  unfold receive_args, CFE_SB_PEND_FOREVER, CFE_SB_POLL. destruct buf as [x|]; [|done]. intros [?|Ht]; [done|].
  destruct (Z.ltb_spec 0 TimeOut); [lia|]. destruct (Z.eqb_spec TimeOut 0) as [->|]; [lia|].
  by destruct (Z.eqb_spec TimeOut (-1)); [lia|].
Qed.

(** The end of a call that failed: the error is counted and reported. *)
Lemma wp_receive_fail (buf : ptr addr) (st ev : Z) Q s : Locked s = false → st ≠ CFE_SUCCESS →
  Q (st, (λ _, NULL) <$> buf) (s <| HK ::= (λ k, if (ev =? CFE_SB_RCV_BAD_ARG_EID) || (ev =? CFE_SB_BAD_PIPEID_EID)
      then k <| MsgReceiveErrorCounter ::= incr 8 |> else k <| InternalErrorCounter ::= incr 8 |>) |>
     <| Events ::= λ es, if ev =? 0 then es else es ++ [mkEvent ev CFE_EVS_EventType_ERROR None] |>) →
  wp CFE_SB_LockSharedData (λ _, wp (
  '(Status, PendingEventID, BufPtr) ← mret (st, ev, buf);
  when (negb (Status =? CFE_SUCCESS))
    (if (PendingEventID =? CFE_SB_RCV_BAD_ARG_EID) || (PendingEventID =? CFE_SB_BAD_PIPEID_EID)
     then hk (λ k, k <| MsgReceiveErrorCounter ::= incr 8 |>)
     else hk (λ k, k <| InternalErrorCounter ::= incr 8 |>));;
  CFE_SB_UnlockSharedData;;
  when (negb (PendingEventID =? 0)) (CFE_EVS_SendEventWithAppID PendingEventID CFE_EVS_EventType_ERROR);;
  mret (Status, if Status =? CFE_SUCCESS then BufPtr else (λ _, NULL) <$> BufPtr)) Q) s.
Proof.
  intros Hlk Hst HQ. apply wp_lock; [done|]. wp_step. wp_step. rewrite (proj2 (Z.eqb_neq _ _) Hst). cbn [negb when].
  wp_step. destruct ((ev =? CFE_SB_RCV_BAD_ARG_EID) || (ev =? CFE_SB_BAD_PIPEID_EID)); apply wp_hk;
    wp_step; (apply wp_unlock; [done|]); wp_step; (destruct (ev =? 0); cbn [negb when]; [wp_step|apply wp_event; [done|]]);
    wp_step; destruct s; cbn in *; by subst.
Qed.

Lemma wp_ReceiveBuffer buf id TimeOut tb Q s :
  Locked s = false → sb_inv tb [] None NULL s → returns_in_time id TimeOut s →
  (∀ r s', receive_post buf id TimeOut tb s r s' → Q r s') →
  wp (CFE_SB_ReceiveBuffer buf id TimeOut) Q s.
Proof.
  intros Hlk Hi Htime HQ. unfold CFE_SB_ReceiveBuffer.
  destruct (decide (buf = None ∨ TimeOut < CFE_SB_PEND_FOREVER)) as [Hbad|Hok].
  { rewrite receive_args_bad by done. wp_go. apply wp_receive_fail; [done|done|]. apply HQ. 
    apply r_refused. tauto. }
  destruct buf as [x|]; [|tauto]. rewrite receive_args_ok by lia. cbv beta match.
  wp_go. apply wp_lock; [done|]. wp_go. eapply wp_receive_begin; [apply inv_locked; exact Hi|..].
  { intros En. change (PipeTbl (s <| Locked := true |>)) with (PipeTbl s) in En. wp_go. apply wp_unlock; [done|]. wp_go.
    apply wp_receive_fail; [done|done|]. replace (s <| Locked := true |> <| Locked := false |>) with s by (destruct s; cbn in *; by subst).
    apply HQ, r_refused. auto. }
  intros i p B L t po sl s1 E EB Hi1. change (PipeTbl (s <| Locked := true |>)) with (PipeTbl s) in E.
  change (Bufs (s <| Locked := true |>)) with (Bufs s) in EB.
  destruct (find_pipe_Some _ _ _ _ E) as (Hloc & Hp & Hid & Ha).
  wp_go. apply wp_unlock; [done|]. wp_go. set (s2 := s1 <| Locked := false |>).
  assert (PipeTbl s2 !! i = Some (set_last NULL p)) as Hp2 by (cbn; by rewrite list_lookup_alter_eq, Hp).
  assert (is_Some (q_items (Queues s) !! pd_SysQueueId p)) as [l Hq].
  { destruct (pi_id _ _ _ _ (in_pipes _ _ _ _ _ Hi) i p Hp) as [?|[[? _]|(_ & _ & ?)]]; [by destruct Ha|by destruct Ha|done]. }
  apply (inv_locked _ _ _ _ _ false) in Hi1. fold s2 in Hi1.
  destruct l as [|a l].
  - assert (is_Some (OS_QueueGet (pd_SysQueueId p) TimeOut (Queues s))) as [[[[st a] n] qs] Eget].
    { apply get_timed; [done|]. intros Ht. by eapply (Htime Ht). }
    destruct (get_empty _ _ _ _ Hq Eget) as [Hne Hqs]. cbn in Hne, Hqs.
    eapply wp_queues_opt; [exact Eget|]. cbn beta match. rewrite (proj2 (Z.eqb_neq _ _) Hne). cbn [andb].
    assert (sb_inv tb [] None NULL (s2 <| Queues := qs |>)) as Hi3.
    { destruct Hi1 as [R1 R2 R3 R4 R5 R6 R7 R8 R9]. split; try done; unfold grefs in *; cbn in *; by rewrite Hqs. }
    assert (∀ st' ev, (st' = CFE_SB_NO_MESSAGE ∨ st' = CFE_SB_TIME_OUT ∨ st' = CFE_SB_PIPE_RD_ERR) →
      (TimeOut = CFE_SB_POLL → st' = CFE_SB_NO_MESSAGE) → 
      (ev =? CFE_SB_RCV_BAD_ARG_EID) || (ev =? CFE_SB_BAD_PIPEID_EID) = false →
      Q (st', Some NULL) (s2 <| Queues := qs |> <| HK ::= (λ k, if (ev =? CFE_SB_RCV_BAD_ARG_EID) || (ev =? CFE_SB_BAD_PIPEID_EID)
        then k <| MsgReceiveErrorCounter ::= incr 8 |> else k <| InternalErrorCounter ::= incr 8 |>) |>
        <| Events ::= λ es, if ev =? 0 then es else es ++ [mkEvent ev CFE_EVS_EventType_ERROR None] |>)) as Hfin.
    { intros st' ev Hst' Hpoll Hev. rewrite Hev. apply HQ. apply (r_empty (Some x) _ _ _ _ i p); try done.
      apply inv_events, inv_hk, Hi3. }
    destruct (Z.eqb_spec st OS_QUEUE_EMPTY) as [->|He].
    { wp_go. apply wp_receive_fail; [done|done|]. apply Hfin; auto. }
    assert (TimeOut ≠ CFE_SB_POLL) as Hnp.
    { intros ->. destruct (get_check _ _ Hq) as (a' & n' & q' & Eg). change CFE_SB_POLL with OS_CHECK in Eget. congruence. }
    destruct (Z.eqb_spec st OS_QUEUE_TIMEOUT) as [->|He2]; wp_go; (apply wp_receive_fail; [done|done|]); apply Hfin; auto; done.
  - destruct (get_item _ TimeOut _ _ _ Hq) as (qs & Eget & Hqs). eapply wp_queues_opt; [exact Eget|]. cbn beta match.
    assert (sb_inv tb [a] None NULL (s2 <| Queues := qs |>)) as Hi3.
    { eapply inv_get; [exact Hi1|exact Hp2|done|exact Hq|exact Hqs]. }
    destruct (inv_ref _ _ _ _ _ a Hi3) as (b & Hb & _ & _); [rewrite elem_of_app; right; by left|].
    assert (a ≠ NULL) as Hnn.
    { destruct (in_bufs _ _ _ _ _ Hi3) as (zs & ts & Hl & _). apply elem_of_dom_2, (lo_pos _ _ _ _ Hl) in Hb. unfold NULL. lia. }
    rewrite (proj2 (Z.eqb_neq _ _) Hnn). wp_go. apply wp_lock; [done|]. wp_go.
    set (s3 := s2 <| Queues := qs |> <| Locked := true |>).
    eapply (wp_receive_end _ _ (set_last NULL p) a b _ tb); [apply inv_locked; exact Hi3| |done|exact Hb|done|].
    { rewrite <- Hid. change (pd_PipeId p) with (pd_PipeId (set_last NULL p)). 
      eapply find_pipe_active; [apply (in_pipes _ _ _ _ _ Hi3)|exact Hp2|done]. }
    intros tb' D L' t' po' sl' s4 Hr Hi4. wp_go. apply wp_unlock; [done|]. wp_go. apply HQ.
    apply (r_message (Some x) _ _ _ _ i p a l b tb'); try done.
    + change (PipeTbl (s4 <| Locked := false |>)) with (alter (rcv_pipe ∘ set_last a) i (alter (set_last NULL) i (PipeTbl s))).
      by rewrite list_alter_alter_eq.
    + by apply inv_locked.
Qed.

End recv.
