(* ===== verification/SbPipeOps.v ===== *)
(** * Creating and deleting pipes *)
From stdpp Require Import strings.
From S2P Require Import Prelude Config Msg MsgProps ResourceId Sbr SbrProps SbState SbBuf SbApi SbRoutes SbBufs SbInv SbMem SbSubs SbSend SbTransmit SbRecv.

(** The destinations without those of a pipe. *)
Definition unsub_all (PipeId : Z) (l : dlist) : dlist := filter (λ x, dd_PipeId x.2 ≠ PipeId) l.

Lemma unsub_none id l : id ∉ dest_pipes l → unsub_all id l = l.
Proof.
  induction l as [|[d y] l IH]; intros Hn; [done|]. apply not_elem_of_cons in Hn as [Hy Hn]. unfold unsub_all.
  rewrite filter_cons_True by (cbn in *; congruence). f_equal. by apply IH.
Qed.

Lemma unsub_split id l1 d y l2 : NoDup (dest_pipes (l1 ++ (d, y) :: l2)) → dd_PipeId y = id →
  unsub_all id (l1 ++ (d, y) :: l2) = l1 ++ l2.
Proof.
  intros Hnd Hy. unfold dest_pipes in Hnd. rewrite fmap_app, fmap_cons in Hnd.
  apply NoDup_app in Hnd as (_ & Hd & [Hn2 _]%NoDup_cons). cbn in Hd, Hn2.
  unfold unsub_all. rewrite filter_app, filter_cons_False by (cbn; tauto).
  f_equal; apply (unsub_none id).
  - intros Hx. apply (Hd id Hx). rewrite Hy. by left.
  - by rewrite <- Hy.
Qed.

(** ** One entry of the pipe table changes its state *)

Lemma pipes_inv_set tbl q last rsv i p f q' last' rsv' :
  pipes_inv tbl q last rsv → tbl !! i = Some p → rsv = None ∨ rsv = Some i →
  (∀ j p', j ≠ i → tbl !! j = Some p' → active p' →
     is_Some (q' !! pd_SysQueueId p') ∧ (active (f p) → pd_SysQueueId p' ≠ pd_SysQueueId (f p))) →
  (pd_PipeId (f p) = CFE_RESOURCEID_UNDEFINED ∧ rsv' = None) ∨
  (pd_PipeId (f p) = CFE_RESOURCEID_RESERVED ∧ rsv' = Some i) ∨
  (active (f p) ∧ CFE_SB_LocatePipeDescByID (pd_PipeId (f p)) = Some (Z.of_nat i) ∧ is_Some (q' !! pd_SysQueueId (f p)) ∧ rsv' = None) →
  is_u32 last' ∧ CFE_ResourceId_GetBase last' = CFE_SB_PIPEID_BASE →
  pipes_inv (alter f i tbl) q' last' rsv'.
Proof.
  intros [P1 P2 P3 P4 P5] Hi Hrsv Hoth Hnew Hlast.
  assert (∀ j p', alter f i tbl !! j = Some p' → (j = i ∧ p' = f p) ∨ (j ≠ i ∧ tbl !! j = Some p')) as Hinv.
  { intros j p' Hj. destruct (decide (i = j)) as [<-|].
    - rewrite list_lookup_alter_eq, Hi in Hj. injection Hj as <-. by left.
    - rewrite list_lookup_alter_ne in Hj by done. right. split; [congruence|done]. }
  split.
  - by rewrite length_alter.
  - intros j p' [[-> ->]|[Hj Hj']]%Hinv; [naive_solver|].
    destruct (P2 j p' Hj') as [?|[[? ?]|(Ha & ? & ?)]]; [auto|naive_solver|]. right. right.
    split_and!; [done..|]. by eapply Hoth.
  - intros j k p1 p2 [[-> ->]|[Hj Hj']]%Hinv [[-> ->]|[Hk Hk']]%Hinv Ha1 Ha2 E; [done| | |by eapply (P3 j k)].
    + exfalso. by eapply (proj2 (Hoth k p2 Hk Hk' Ha2)).
    + exfalso. by eapply (proj2 (Hoth j p1 Hj Hj' Ha1)).
  - intros j Hj. assert (j = i ∧ pd_PipeId (f p) = CFE_RESOURCEID_RESERVED) as [-> E] by naive_solver.
    exists (f p). by rewrite list_lookup_alter_eq, Hi.
  - done.
Qed.

Lemma pipe_ids_other tbl i p f x : tbl !! i = Some p → x ∈ pipe_ids tbl → x ≠ pd_PipeId p → x ∈ pipe_ids (alter f i tbl).
Proof.
  intros Hi. unfold pipe_ids. rewrite !list_elem_of_fmap. intros (p0 & -> & [Ha Hin]%list_elem_of_filter) Hne.
  apply list_elem_of_lookup in Hin as [j Hj]. exists p0. split; [done|]. apply list_elem_of_filter. split; [done|].
  apply (list_elem_of_lookup_2 _ j). rewrite list_lookup_alter_ne; [done|]. intros <-. congruence.
Qed.

Lemma pipe_ids_active tbl x : x ∈ pipe_ids tbl → x ≠ CFE_RESOURCEID_UNDEFINED ∧ x ≠ CFE_RESOURCEID_RESERVED.
Proof. unfold pipe_ids. rewrite list_elem_of_fmap. by intros (p & -> & [Ha _]%list_elem_of_filter). Qed.

Lemma not_active p : pd_PipeId p = CFE_RESOURCEID_UNDEFINED ∨ pd_PipeId p = CFE_RESOURCEID_RESERVED → ¬ active p.
Proof. unfold active. tauto. Qed.

(** ** The next pipe identifier *)

Lemma FindNext_loop_ext base size (f g : Z → option bool) n : ∀ serial,
  0 <= base → base + CFE_RESOURCEID_MAX < 2 ^ 32 → 0 < size <= CFE_RESOURCEID_MAX → 0 <= serial <= CFE_RESOURCEID_MAX →
  (∀ k, 0 <= k < CFE_RESOURCEID_MAX → f (base + k) = g (base + k)) →
  FindNext_loop base size f serial n = FindNext_loop base size g serial n.
Proof.
  induction n as [|n IH]; intros serial Hb Hb2 Hz Hs Hfg; [done|].
  destruct (next_serial serial size Hs Hz) as [Hn _]. cbn [FindNext_loop].
  set (s' := if CFE_RESOURCEID_MAX <=? u32 (serial + 1) then _ else _ : Z) in *.
  rewrite u32_small by (unfold is_u32; lia). cbv zeta. rewrite Hfg by lia.
  destruct (g (base + s')) as [[]|]; [|done..]. apply IH; done || lia.
Qed.

Definition slot_taken (tbl : ptable) (i : Z) : bool :=
  match tbl !! Z.to_nat i with Some p => negb (pd_PipeId p =? CFE_RESOURCEID_UNDEFINED) | None => true end.

Lemma locate_base k : 0 <= k < CFE_RESOURCEID_MAX →
  CFE_SB_LocatePipeDescByID (CFE_SB_PIPEID_BASE + k) = Some (k mod 64) ∧ slot CFE_SB_PIPEID_BASE 64 (CFE_SB_PIPEID_BASE + k) = k mod 64.
Proof.
  intros Hk. change CFE_RESOURCEID_MAX with 0xFFFF in *. change CFE_SB_PIPEID_BASE with 0x160000. split.
  - unfold CFE_SB_LocatePipeDescByID, CFE_SB_PipeId_ToIndex. change CFE_SB_PIPEID_BASE with 0x160000.
    rewrite ToIndex_spec; [done|lia|change CFE_RESOURCEID_MAX with 0xFFFF; lia|done|lia].
  - apply slot_base_serial; [lia|change CFE_RESOURCEID_MAX with 0xFFFF; lia|done|lia].
Qed.

(** The search finds a free entry when there is one, with an identifier that selects it. *)
Lemma find_slot tbl q last rsv : pipes_inv tbl q last rsv →
  ∃ id, CFE_ResourceId_FindNext last CFE_PLATFORM_SB_MAX_PIPES (CFE_SB_CheckPipeDescSlotUsed tbl) = Some id ∧
  ((CFE_SB_LocatePipeDescByID id = None ∧ ∀ p, p ∈ tbl → pd_PipeId p ≠ CFE_RESOURCEID_UNDEFINED) ∨
  (∃ i p, CFE_SB_LocatePipeDescByID id = Some (Z.of_nat i) ∧ tbl !! i = Some p ∧ pd_PipeId p = CFE_RESOURCEID_UNDEFINED ∧
     is_u32 id ∧ CFE_ResourceId_GetBase id = CFE_SB_PIPEID_BASE ∧
     id ≠ CFE_RESOURCEID_UNDEFINED ∧ id ≠ CFE_RESOURCEID_RESERVED)).
Proof.
  intros [Hlen _ _ _ [Hu Hbase]]. unfold CFE_ResourceId_FindNext. rewrite Hbase.
  set (serial := CFE_ResourceId_GetSerial last).
  assert (0 <= serial <= CFE_RESOURCEID_MAX) as Hs.
  { unfold serial. rewrite GetSerial_mod. change CFE_RESOURCEID_MAX with 0xFFFF.
    pose proof (Z.mod_pos_bound last (2 ^ 16) ltac:(lia)). lia. }
  destruct (FindNext_loop_spec CFE_SB_PIPEID_BASE 64 (slot_taken tbl) serial 64) as (id & Eid & Hid); try done. exists id. split.
  { rewrite <- Eid. apply FindNext_loop_ext; try done. intros k Hk. destruct (locate_base k Hk) as [E1 E2].
    unfold CFE_SB_CheckPipeDescSlotUsed, slot_taken. rewrite E1, E2. cbn [mbind option_bind].
    destruct (lookup_lt_is_Some_2 tbl (Z.to_nat (k mod 64))) as [p ->]; [|done]. pose proof (Z.mod_pos_bound k 64 ltac:(lia)). lia. }
  destruct Hid as [[Er Hall]|(k & Hk & Hsl & Hfree & _ & Hr)].
  - left. rewrite Er. split; [apply locate_special|]. intros p [i Hi]%list_elem_of_lookup Hp.
    pose proof (lookup_lt_Some _ _ _ Hi) as Hlt.
    specialize (Hall ((Z.of_nat i - serial - 1) mod 64 + 1)).
    replace (serial + ((Z.of_nat i - serial - 1) mod 64 + 1)) with (serial + 1 + (Z.of_nat i - serial - 1) mod 64) in Hall by lia.
    rewrite Z.add_mod_idemp_r in Hall by lia. replace (serial + 1 + (Z.of_nat i - serial - 1)) with (Z.of_nat i) in Hall by lia.
    rewrite (Z.mod_small (Z.of_nat i)) in Hall by lia. unfold slot_taken in Hall. rewrite Nat2Z.id, Hi, Hp in Hall.
    pose proof (Z.mod_pos_bound (Z.of_nat i - serial - 1) 64 ltac:(lia)). by specialize (Hall ltac:(lia)).
  - right. unfold slot_taken in Hfree.
    destruct (tbl !! Z.to_nat ((serial + k) mod 64)) as [p|] eqn:Ep; [|done].
    exists (Z.to_nat ((serial + k) mod 64)), p. pose proof (Z.mod_pos_bound (serial + k) 64 ltac:(lia)).
    change CFE_RESOURCEID_MAX with 0xFFFF in *. change CFE_SB_PIPEID_BASE with 0x160000 in *.
    replace id with (0x160000 + (id - 0x160000)) in Hsl |- * by lia.
    destruct (locate_base (id - 0x160000)) as [E1 E2]; [change CFE_RESOURCEID_MAX with 0xFFFF; lia|].
    change CFE_SB_PIPEID_BASE with 0x160000 in *. rewrite E1. rewrite E2 in Hsl. split_and!.
    + rewrite Hsl. f_equal. lia.
    + done.
    + destruct (Z.eqb_spec (pd_PipeId p) CFE_RESOURCEID_UNDEFINED); done.
    + unfold is_u32. lia.
    + rewrite GetBase_div by (unfold is_u32; lia). Z.div_mod_to_equations. lia.
    + change CFE_RESOURCEID_UNDEFINED with 0. lia.
    + change CFE_RESOURCEID_RESERVED with 0xFFFFFFFF. lia.
Qed.

Section pipeops.
Context {PS QS : Type} `{MemPoolOK PS} `{OSQueueOK QS} `{MsgMapOK} `{BuildCfg}.
Abbreviation G := (CFE_SB_Global_t PS QS).
Implicit Types (s : G).

(** ** Removing the subscriptions of a pipe *)

Lemma wp_RemovePipeFromRoute tb held rsv tx j l id Q s :
  sb_inv tb held rsv tx s → tb !! j = Some l →
  (∀ r D t p, let s' := s <| Routes := r |> <| Dests := D |> <| Stat := t |> <| Pool := p |> in
     sb_inv (<[j := unsub_all id l]> tb) held rsv tx s' → msgids r = msgids (Routes s) →
     RouteIdxTop r = RouteIdxTop (Routes s) → Q tt s') →
  wp (CFE_SB_RemovePipeFromRoute id (Z.of_nat j + 1)) Q s.
Proof.
  intros Hi Hl HQ. pose proof (in_routes _ _ _ _ _ Hi) as Hri. unfold CFE_SB_RemovePipeFromRoute.
  wp_step. eapply wp_GetDestPtr; [done..|]. pose proof (dlist_nonnull _ _ _ _ _ Hri Hl) as Hnn.
  destruct (Z.eqb_spec (find_dest l id) NULL) as [En|En]; cbn [negb when].
  - apply find_dest_null in En; [|done]. wp_step. rewrite unsub_none, list_insert_id in HQ by done.
    specialize (HQ (Routes s) (Dests s) (Stat s) (Pool s)). destruct s. by apply HQ.
  - destruct (find_dest_split l id Hnn En) as (l1 & y & l2 & El & Hy & _).
    pose proof (ri_pipes _ _ _ Hri) as Hnd. eapply Forall_lookup_1 in Hnd; [|exact Hl]. cbn in Hnd.
    rewrite El in Hnd, HQ, Hl. rewrite unsub_split in HQ by done. eapply wp_RemoveDest; [done..|]. exact HQ.
Qed.

Lemma wp_remove_routes id Q n : ∀ j tb held rsv tx s,
  sb_inv tb held rsv tx s → (j + n)%nat = length tb →
  (∀ r D t p, let s' := s <| Routes := r |> <| Dests := D |> <| Stat := t |> <| Pool := p |> in
     sb_inv (take j tb ++ (unsub_all id <$> drop j tb)) held rsv tx s' → msgids r = msgids (Routes s) →
     RouteIdxTop r = RouteIdxTop (Routes s) → Q tt s') →
  wp (foreach_loop (CFE_SB_RemovePipeFromRoute id) (Z.of_nat j) n) Q s.
Proof.
  induction n as [|n IH]; intros j tb held rsv tx s Hi Hn HQ; cbn [foreach_loop].
  { wp_step. rewrite drop_ge, app_nil_r, take_ge in HQ by lia.
    specialize (HQ (Routes s) (Dests s) (Stat s) (Pool s)). destruct s. by apply HQ. }
  destruct (lookup_lt_is_Some_2 tb j) as [l Hl]; [lia|].
  pose proof (in_routes _ _ _ _ _ Hi) as Hri. destruct (tb_route _ _ _ _ _ Hri Hl) as (_ & _ & _ & _ & Hr).
  pose proof (wf_top _ (inv_wf _ (ri_sbr _ _ _ Hri))) as Htop.
  unfold CFE_SBR_ValueToRouteId. rewrite !u16_small by (unfold is_u16; lia).
  replace (Z.of_nat j + 1) with (Z.of_nat (S j)) by lia.
  wp_step. replace (1 + Z.of_nat j) with (Z.of_nat j + 1) by lia.
  eapply wp_RemovePipeFromRoute; [exact Hi|exact Hl|]. intros r D t p s1 Hi1 Hm Ht.
  eapply IH; [exact Hi1|rewrite length_insert; lia|]. intros r2 D2 t2 p2 s2 Hi2 Hm2 Ht2.
  refine (HQ r2 D2 t2 p2 _ _ _); [|by rewrite Hm2|by rewrite Ht2].
  replace (take j tb ++ (unsub_all id <$> drop j tb)) with
    (take (S j) (<[j:=unsub_all id l]> tb) ++ (unsub_all id <$> drop (S j) (<[j:=unsub_all id l]> tb))); [exact Hi2|].
  rewrite (drop_insert_lt tb (S j) j), (drop_S _ _ _ Hl) by lia. rewrite fmap_cons, cons_middle, (assoc_L (++)). f_equal.
  rewrite (take_S_r _ _ (unsub_all id l)) by (apply list_lookup_insert_eq; lia).
  by rewrite take_insert_ge by lia.
Qed.

(** ** Emptying the queue *)

(** A change of queues no pipe in use has. *)
Lemma inv_queues tb held rsv tx s qs : sb_inv tb held rsv tx s →
  (∀ p, p ∈ PipeTbl s → active p → q_items qs !! pd_SysQueueId p = q_items (Queues s) !! pd_SysQueueId p) →
  sb_inv tb held rsv tx (s <| Queues := qs |>).
Proof.
  intros Hi Hq. pose proof (in_pipes _ _ _ _ _ Hi) as [P1 P2 P3 P4 P5].
  replace (s <| Queues := qs |>) with
    (s <| PipeTbl := PipeTbl s |> <| Queues := qs |> <| LastPipeId := LastPipeId s |>) by by destruct s.
  eapply (inv_refs tb held held rsv rsv); [exact Hi| |apply Hi| |done].
  - split; try done. intros i p Hp. destruct (P2 i p Hp) as [?|[?|(Ha & ? & ?)]]; [auto|auto|].
    right. right. rewrite Hq; [done|by eapply list_elem_of_lookup_2|done].
  - unfold grefs. rewrite (refs_ext (q_items qs) (q_items (Queues s))); [done|].
    intros p Hp. unfold pipe_refs. destruct (decide (active p)); [by rewrite Hq|done].
Qed.

Definition drop_refs (B : gmap addr CFE_SB_BufferD_t) (l : list addr) : gmap addr CFE_SB_BufferD_t := foldl drop_ref B l.

(** No pipe in use has the queue. *)
Definition unused_queue (tbl : ptable) (qid : Z) : Prop := ∀ p, p ∈ tbl → active p → pd_SysQueueId p ≠ qid.

Definition ref (a : addr) : list addr := if decide (a = NULL) then [] else [a].

Lemma drain_unfold fuel qid bd : drain_loop fuel qid bd =
  (when (negb (bd =? NULL)) (CFE_SB_LockSharedData;; CFE_SB_DecrBufUseCnt bd;; CFE_SB_UnlockSharedData);;
   '(st, bd, _) ← queues_opt (OS_QueueGet qid OS_CHECK);
   if st =? OS_SUCCESS then match fuel with O => undef | S fuel => drain_loop fuel qid bd end else mret tt : M G unit).
Proof. by destruct fuel. Qed.

Lemma wp_drain_drop tb held rsv bd Q s : Locked s = false → sb_inv tb (ref bd ++ held) rsv NULL s →
  (∀ B L t p sl, let s' := s <| Bufs := B |> <| Links := L |> <| Stat := t |> <| Pool := p |> <| Stale := sl |> in
     B = drop_refs (Bufs s) (ref bd) → sb_inv tb held rsv NULL s' → Q tt s') →
  wp (when (negb (bd =? NULL)) (CFE_SB_LockSharedData;; CFE_SB_DecrBufUseCnt bd;; CFE_SB_UnlockSharedData)) Q s.
Proof.
  intros Hlk Hi HQ. unfold ref in *. destruct (Z.eqb_spec bd NULL) as [->|Hn]; cbn [negb when].
  - rewrite decide_True in * by done. wp_step. specialize (HQ (Bufs s) (Links s) (Stat s) (Pool s) (Stale s)).
    destruct s. by apply HQ.
  - rewrite decide_False in * by done. wp_step. apply wp_lock; [done|]. wp_step.
    eapply wp_Decr; [apply inv_locked; exact Hi|done|]. intros L t p sl s' Hi' _. apply wp_unlock; [done|].
    specialize (HQ (drop_ref (Bufs s) bd) L t p sl eq_refl). destruct s. cbn in *. subst. apply HQ.
    by apply (inv_locked _ _ _ _ _ false) in Hi'.
Qed.

Lemma wp_drain qid tb held rsv Q l : ∀ fuel bd s,
  Locked s = false → sb_inv tb (ref bd ++ l ++ held) rsv NULL s →
  q_items (Queues s) !! qid = Some l → unused_queue (PipeTbl s) qid → (length l ≤ fuel)%nat →
  (∀ B L t p sl qs, let s' := s <| Bufs := B |> <| Links := L |> <| Stat := t |> <| Pool := p |> <| Stale := sl |> <| Queues := qs |> in
     B = drop_refs (Bufs s) (ref bd ++ l) →
     q_items qs = <[qid := []]> (q_items (Queues s)) → sb_inv tb held rsv NULL s' → Q tt s') →
  wp (drain_loop fuel qid bd) Q s.
Proof.
  induction l as [|a l IH]; intros fuel bd s Hlk Hi Hq Hun Hf HQ; rewrite drain_unfold; wp_step;
    (eapply wp_drain_drop; [done|exact Hi|]; intros B L t p sl s1 EB Hi1; wp_step).
  - destruct (get_check _ _ Hq) as (a & n & qs & Eget). destruct (get_empty _ _ _ _ Hq Eget) as [_ Hqs].
    eapply wp_queues_opt; [exact Eget|]. wp_go. rewrite app_nil_r in HQ.
    refine (HQ B L t p sl qs EB _ _); [cbn in Hqs; by rewrite Hqs, insert_id|]. cbn in Hqs, Hi1.
    apply inv_queues; [done|]. intros p' _ _. cbn. by rewrite Hqs.
  - destruct fuel as [|fuel]; [cbn in Hf; lia|]. destruct (get_item _ OS_CHECK _ _ _ Hq) as (qs & Eget & Hqs).
    eapply wp_queues_opt; [exact Eget|]. wp_go.
    assert (ref a = [a]) as Ea.
    { unfold ref. rewrite decide_False; [done|]. intros ->. destruct (in_bufs _ _ _ _ _ Hi1) as (zs & ts & Hl & Hc).
      destruct (co_ref _ _ _ _ Hc NULL) as [b Hb]; [rewrite elem_of_app; right; by left|].
      by apply elem_of_dom_2, (lo_pos _ _ _ _ Hl) in Hb. }
    eapply IH; [done| |cbn; by rewrite Hqs, lookup_insert_eq|done|cbn in Hf; lia|].
    { rewrite Ea. apply inv_queues; [exact Hi1|]. intros p' Hin Hact. cbn. rewrite Hqs, lookup_insert_ne; [done|].
      intros E. by apply (Hun p'). }
    intros B' L' t' p' sl' qs' s' EB' Eq' Hi'. refine (HQ B' L' t' p' sl' qs' _ _ Hi').
    + rewrite EB'. cbn. rewrite EB, Ea. unfold drop_refs. by rewrite !foldl_app.
    + rewrite Eq'. cbn. by rewrite Hqs, insert_insert_eq.
Qed.

(** ** CFE_SB_DeletePipe *)

Definition set_id (id : Z) (p : CFE_SB_PipeD_t) : CFE_SB_PipeD_t := p <| pd_PipeId := id |>.

(** The entry is reserved: its references are the call's. *)
Lemma inv_reserve tb s i p l : sb_inv tb [] None NULL s → PipeTbl s !! i = Some p → active p →
  q_items (Queues s) !! pd_SysQueueId p = Some l → (∀ k, k ∈ tb → pd_PipeId p ∉ dest_pipes k) →
  sb_inv tb (last_ref p ++ l) (Some (i, 1)) NULL (s <| PipeTbl ::= alter (set_id CFE_RESOURCEID_RESERVED) i |>) ∧
  unused_queue (alter (set_id CFE_RESOURCEID_RESERVED) i (PipeTbl s)) (pd_SysQueueId p).
Proof.
  intros Hi Hp Ha Hq Hd. pose proof (in_pipes _ _ _ _ _ Hi) as Hpi.
  assert (¬ active (set_id CFE_RESOURCEID_RESERVED p)) as Hna by by apply not_active; right.
  assert (∀ j p', j ≠ i → PipeTbl s !! j = Some p' → active p' →
    is_Some (q_items (Queues s) !! pd_SysQueueId p') ∧ pd_SysQueueId p' ≠ pd_SysQueueId p) as Hoth.
  { intros j p' Hj Hj' Ha'. split; [|intros E; by apply Hj; eapply pi_queue].
    destruct (pi_id _ _ _ _ Hpi j p' Hj') as [?|[[? _]|(_ & _ & ?)]]; [by destruct Ha'..|done]. }
  split.
  - replace (s <| PipeTbl ::= alter (set_id CFE_RESOURCEID_RESERVED) i |>) with
      (s <| PipeTbl := alter (set_id CFE_RESOURCEID_RESERVED) i (PipeTbl s) |> <| Queues := Queues s |> <| LastPipeId := LastPipeId s |>)
      by by destruct s.
    eapply (inv_refs tb [] _ None (Some (i, 1))); [exact Hi| | | |].
    + eapply pipes_inv_set; [exact Hpi|exact Hp|by left| |right; by left|apply Hpi].
      intros j p' Hj Hj' Ha'. split; [by eapply Hoth|done].
    + intros k x Hk Hx. eapply pipe_ids_other; [exact Hp|by eapply in_dests|]. intros ->. by eapply Hd.
    + unfold grefs. rewrite (refs_alter _ _ _ _ _ Hp), (refs_split _ _ _ _ Hp). unfold pipe_refs.
      rewrite decide_False, decide_True, Hq by done. cbn. rewrite app_nil_r. rewrite (Permutation_app_comm l (last_ref p)).
      by rewrite Permutation_app_comm.
    + rewrite (nactive_alter _ _ _ _ Hp), (nactive_split _ _ _ Hp), decide_False, decide_True by done. cbn. lia.
  - intros p' [j Hj]%list_elem_of_lookup Ha'. destruct (decide (i = j)) as [<-|Hne].
    + rewrite list_lookup_alter_eq, Hp in Hj. injection Hj as <-. done.
    + rewrite list_lookup_alter_ne in Hj by done. eapply (Hoth j); [congruence|done..].
Qed.

(** The reserved entry is given back, with the count of pipes that goes with it. *)
Lemma inv_release tb held n s i t : sb_inv tb held (Some (i, n)) NULL s →
  (∀ nb nd nr np, stats_ok (Stat s) nb nd nr np → stats_ok t nb nd nr (np - n)) →
  sb_inv tb held None NULL (s <| PipeTbl ::= alter (set_id CFE_RESOURCEID_UNDEFINED) i |> <| Stat := t |>).
Proof.
  intros Hi Ht. pose proof (in_pipes _ _ _ _ _ Hi) as Hpi. destruct (pi_rsv _ _ _ _ Hpi i eq_refl) as (p & Hp & Eid).
  assert (¬ active (set_id CFE_RESOURCEID_UNDEFINED p)) as Hna by by apply not_active; left.
  assert (¬ active p) as Hna' by by apply not_active; right.
  assert (sb_inv tb held (Some (i, n)) NULL s) as [R1 R2 R3 R4 R5 R6 R7 R8 R9] by done.
  assert (refs (q_items (Queues s)) (alter (set_id CFE_RESOURCEID_UNDEFINED) i (PipeTbl s)) ≡ₚ grefs s) as Eg.
  { unfold grefs. rewrite (refs_alter _ _ _ _ _ Hp), (refs_split _ _ _ _ Hp). unfold pipe_refs. by rewrite !decide_False. }
  split; try done.
  - eapply pipes_inv_set; [exact Hpi|exact Hp|by right| |by left|apply Hpi].
    intros j p' Hj Hj' Ha'. split; [|done].
    destruct (pi_id _ _ _ _ Hpi j p' Hj') as [?|[[? _]|(_ & _ & ?)]]; [by destruct Ha'..|done].
  - intros l x Hl Hx. eapply pipe_ids_other; [exact Hp|by eapply R3|]. rewrite Eid. eapply pipe_ids_active. by eapply R3.
  - destruct R4 as (zs & ts & Hl & Hc). exists zs, ts. split; [done|]. eapply counts_perm; [|exact Hc].
    unfold grefs at 2. cbn. by rewrite Eg.
  - intros a. unfold grefs. cbn. rewrite Eg. apply R5.
  - cbn. apply Ht in R7. cbn in R7.
    rewrite (nactive_alter _ _ _ _ Hp), (decide_False (P := active (set_id _ _))) by done.
    rewrite (nactive_split _ _ _ Hp), decide_False in R7 by done.
    by replace (0 + nactive (rest i (PipeTbl s)) + n - n) with (0 + nactive (rest i (PipeTbl s)) + 0) in R7 by lia.
Qed.

(** The pipe is gone with its subscriptions, its queue and its references. *)
Inductive delete_post (PipeId AppId : Z) (tb : list dlist) (s : G) : Z → G → Prop :=
| d_refused ev :
    (find_pipe (PipeTbl s) PipeId = None ∨ ∃ i p, find_pipe (PipeTbl s) PipeId = Some (i, p) ∧ pd_AppId p ≠ AppId) →
    delete_post PipeId AppId tb s CFE_SB_BAD_ARGUMENT
      (s <| HK ::= (λ k, k <| CreatePipeErrorCounter ::= incr 8 |>) |> <| Events ::= λ es, es ++ [ev] |>)
| d_deleted i p l s' :
    find_pipe (PipeTbl s) PipeId = Some (i, p) → pd_AppId p = AppId → q_items (Queues s) !! pd_SysQueueId p = Some l →
    PipeTbl s' = alter (set_id CFE_RESOURCEID_UNDEFINED) i (PipeTbl s) →
    Bufs s' = drop_refs (Bufs s) (last_ref p ++ l) →
    q_items (Queues s') = delete (pd_SysQueueId p) (q_items (Queues s)) →
    msgids (Routes s') = msgids (Routes s) → Locked s' = false → sb_inv (unsub_all PipeId <$> tb) [] None NULL s' →
    delete_post PipeId AppId tb s CFE_SUCCESS s'.

Lemma unsub_gone id (tb : list dlist) k : k ∈ unsub_all id <$> tb → id ∉ dest_pipes k.
Proof.
  intros (l & -> & _)%list_elem_of_fmap (x & -> & [Hx _]%list_elem_of_filter)%list_elem_of_fmap. done.
Qed.

(** The first critical section, for a pipe of the caller. *)
Lemma wp_delete_begin id i p l tb Q s :
  sb_inv tb [] None NULL s → find_pipe (PipeTbl s) id = Some (i, p) → q_items (Queues s) !! pd_SysQueueId p = Some l →
  (∀ r D t po, let s' := s <| Routes := r |> <| Dests := D |> <| Stat := t |> <| Pool := po |>
        <| PipeTbl ::= alter (set_id CFE_RESOURCEID_RESERVED) i |> in
     sb_inv (unsub_all id <$> tb) (last_ref p ++ l) (Some (i, 1)) NULL s' → msgids r = msgids (Routes s) →
     unused_queue (PipeTbl s') (pd_SysQueueId p) →
     Q (CFE_SUCCESS, 0, Z.of_nat i, pd_SysQueueId p, pd_LastBuffer p) s') →
  wp (_ ← CFE_SBR_ForEachRouteId (λ s, RouteIdxTop (Routes s)) (CFE_SB_RemovePipeFromRoute id) None;
           p ← rd_pipe (Z.of_nat i);
           let SysQueueId := pd_SysQueueId p in
           let BufDscPtr := pd_LastBuffer p in
           CFE_SB_PipeDescSetUsed (Z.of_nat i) CFE_RESOURCEID_RESERVED;;
           mret (CFE_SUCCESS, 0, Z.of_nat i, SysQueueId, BufDscPtr)) Q s.
Proof.
  intros Hi E Hq HQ. destruct (find_pipe_Some _ _ _ _ E) as (_ & Hp & Hid & Ha).
  pose proof (in_routes _ _ _ _ _ Hi) as Hri. pose proof (tb_length _ _ _ Hri) as Htl.
  pose proof (wf_top _ (inv_wf _ (ri_sbr _ _ _ Hri))) as Htop.
  wp_step. unfold CFE_SBR_ForEachRouteId. wp_go. rewrite Z.sub_0_r, <- Htl.
  eapply (wp_remove_routes _ _ _ 0); [exact Hi|done|]. intros r D t po s1 Hi1 Hm Ht. wp_go.
  eapply wp_rd_pipe_nat; [exact Hp|]. wp_go. unfold CFE_SB_PipeDescSetUsed. eapply wp_wr_pipe_nat; [exact Hp|]. wp_go.
  rewrite drop_0, take_0 in Hi1. cbn [app] in Hi1.
  destruct (inv_reserve _ _ _ _ _ Hi1 Hp Ha Hq) as [Hi2 Hun].
  { intros k' Hk. rewrite Hid. by eapply unsub_gone. }
  by apply (HQ r D t po).
Qed.

Lemma wp_DeletePipeFull id AppId tb Q s : Locked s = false → sb_inv tb [] None NULL s →
  (∀ st s', delete_post id AppId tb s st s' → Q st s') → wp (CFE_SB_DeletePipeFull id AppId) Q s.
Proof.
  intros Hlk Hi HQ. unfold CFE_SB_DeletePipeFull. pose proof (in_pipes _ _ _ _ _ Hi) as Hpi.
  wp_step. apply wp_lock; [done|]. cbv zeta. wp_step. set (s1 := s <| Locked := true |>).
  assert (find_pipe (PipeTbl s) id = None ∨ (∃ i p, find_pipe (PipeTbl s) id = Some (i, p) ∧ pd_AppId p ≠ AppId) → ∀ e t,
     Q CFE_SB_BAD_ARGUMENT (s1 <| Locked := false |> <| Locked := true |>
       <| HK ::= (λ k, k <| CreatePipeErrorCounter ::= incr 8 |>) |> <| Locked := false |> <| Events ::= λ es, es ++ [mkEvent e t None] |>)) as Hbad.
  { intros Hr e t. match goal with |- Q _ ?x => replace x with
     (s <| HK ::= (λ k, k <| CreatePipeErrorCounter ::= incr 8 |>) |> <| Events ::= λ es, es ++ [mkEvent e t None] |>)
       by (unfold s1; destruct s; cbn in *; by subst) end. apply HQ. by constructor. }
  destruct (find_pipe (PipeTbl s) id) as [[i p]|] eqn:E.
  2: { apply wp_match_false; [apply Hpi|done|]. destruct (CFE_SB_LocatePipeDescByID id); wp_go;
    (apply wp_unlock; [done|]); wp_go; (apply wp_lock; [done|]); wp_go; apply wp_hk; wp_go; (apply wp_unlock; [done|]); wp_go;
    (apply wp_event; [done|]); wp_go; apply Hbad; auto. }
  destruct (find_pipe_Some _ _ _ _ E) as (-> & Hp & Hid & Ha). eapply wp_match_true; [exact Hp|done|].
  destruct (Z.eqb_spec AppId (pd_AppId p)) as [Happ|Happ].
  - assert (is_Some (q_items (Queues s) !! pd_SysQueueId p)) as [l Hq].
    { destruct (pi_id _ _ _ _ Hpi i p Hp) as [?|[[? _]|(_ & _ & ?)]]; [by destruct Ha..|done]. }
    wp_step. wp_step. eapply wp_rd_pipe_nat; [exact Hp|]. rewrite (proj2 (Z.eqb_eq _ _) Happ). cbn [negb].
    eapply wp_delete_begin; [apply inv_locked; exact Hi|exact E|exact Hq|]. intros r D t po s2 Hi2 Hm Hun. wp_go.
    apply wp_unlock; [done|]. unfold drain_fuel. wp_go.
    change (Queues (s2 <| Locked := false |>)) with (Queues s). rewrite Hq. cbn [from_option].
    eapply (wp_drain _ _ [] (Some (i, 1)) _ l); [done| |exact Hq|exact Hun|done|].
    { rewrite app_nil_r. apply inv_locked. exact Hi2. }
    intros B L t3 po3 sl3 qs s3 EB Eqs Hi3. wp_go. apply wp_queues.
    destruct (OS_QueueDelete (pd_SysQueueId p) (Queues s3)) as [st qs4] eqn:Edel.
    apply delete_ok in Edel; [|cbn; rewrite Eqs, lookup_insert_eq; eauto]. cbn in Edel. rewrite Eqs, delete_insert_eq in Edel.
    wp_go. apply wp_lock; [done|]. wp_go. unfold CFE_SB_PipeDescSetFree.
    eapply (wp_wr_pipe_nat _ (set_id CFE_RESOURCEID_RESERVED p)); [cbn; by rewrite list_lookup_alter_eq, Hp|].
    apply wp_stat. wp_go. apply wp_unlock; [done|]. wp_go. apply wp_event; [done|]. wp_go. apply HQ.
    eapply (d_deleted _ _ _ _ i p l); try done.
    + transitivity (alter (set_id CFE_RESOURCEID_UNDEFINED) i (alter (set_id CFE_RESOURCEID_RESERVED) i (PipeTbl s))); [done|].
      by rewrite list_alter_alter_eq.
    + apply inv_events, inv_locked.
      refine (inv_release _ _ 1 (s3 <| Queues := qs4 |> <| Locked := true |>) i _ _ _).
      * apply inv_locked, inv_queues; [exact Hi3|]. intros p' Hp' Ha'. cbn. rewrite Edel, Eqs.
        rewrite lookup_delete_ne, lookup_insert_ne by (intros Ee; by apply (Hun p')). done.
      * intros nb nd nr np [S1 S2 S3 S4]. split; try done. cbn. cbn in S4. by rewrite S4, decr_u32.
  - wp_step. wp_step. eapply wp_rd_pipe_nat; [exact Hp|]. rewrite (proj2 (Z.eqb_neq _ _) Happ). wp_go.
    (apply wp_unlock; [done|]); wp_go; (apply wp_lock; [done|]); wp_go; apply wp_hk; wp_go; (apply wp_unlock; [done|]); wp_go;
    (apply wp_event; [done|]); wp_go. apply Hbad. right. by exists i, p.
Qed.

(** ** CFE_SB_CreatePipe *)

Definition clear_pipe : CFE_SB_PipeD_t := mkPipeD 0 0 0 0 0 0 0 0 NULL.

(** A free entry is reserved. *)
Lemma inv_take tb s i p id : sb_inv tb [] None NULL s → PipeTbl s !! i = Some p → pd_PipeId p = CFE_RESOURCEID_UNDEFINED →
  is_u32 id ∧ CFE_ResourceId_GetBase id = CFE_SB_PIPEID_BASE →
  sb_inv tb [] (Some (i, 0)) NULL
    (s <| PipeTbl ::= alter (λ _, set_id CFE_RESOURCEID_RESERVED clear_pipe) i |> <| LastPipeId := id |>).
Proof.
  intros Hi Hp Eid Hid. pose proof (in_pipes _ _ _ _ _ Hi) as Hpi.
  assert (¬ active p) as Hna by by apply not_active; left.
  assert (¬ active (set_id CFE_RESOURCEID_RESERVED clear_pipe)) as Hna' by by apply not_active; right.
  replace (s <| PipeTbl ::= alter (λ _, set_id CFE_RESOURCEID_RESERVED clear_pipe) i |> <| LastPipeId := id |>) with
    (s <| PipeTbl := alter (λ _, set_id CFE_RESOURCEID_RESERVED clear_pipe) i (PipeTbl s) |> <| Queues := Queues s |> <| LastPipeId := id |>)
    by by destruct s.
  eapply (inv_refs tb [] [] None (Some (i, 0))); [exact Hi| | | |].
  - eapply pipes_inv_set; [exact Hpi|exact Hp|by left| |right; by left|done]. intros j p' _ Hj Ha. split; [|done].
    destruct (pi_id _ _ _ _ Hpi j p' Hj) as [?|[[? _]|(_ & _ & ?)]]; [by destruct Ha..|done].
  - intros l x Hl Hx. pose proof (in_dests _ _ _ _ _ Hi l x Hl Hx) as Hin. eapply pipe_ids_other; [exact Hp|done|].
    rewrite Eid. by eapply pipe_ids_active.
  - unfold grefs. rewrite (refs_alter _ _ _ _ _ Hp), (refs_split _ _ _ _ Hp). unfold pipe_refs. by rewrite !decide_False.
  - rewrite (nactive_alter _ _ _ _ Hp), (nactive_split _ _ _ Hp), !decide_False by done. cbn. lia.
Qed.

(** The reserved entry becomes a pipe with an empty queue. *)
Lemma inv_fill tb held s i f id t : sb_inv tb held (Some (i, 0)) NULL s →
  (∀ p, PipeTbl s !! i = Some p → pd_PipeId (f p) = id ∧ pd_LastBuffer (f p) = NULL ∧
     q_items (Queues s) !! pd_SysQueueId (f p) = Some [] ∧ unused_queue (PipeTbl s) (pd_SysQueueId (f p))) →
  CFE_SB_LocatePipeDescByID id = Some (Z.of_nat i) → id ≠ CFE_RESOURCEID_UNDEFINED ∧ id ≠ CFE_RESOURCEID_RESERVED →
  (∀ nb nd nr np, stats_ok (Stat s) nb nd nr np → stats_ok t nb nd nr (np + 1)) →
  sb_inv tb held None NULL (s <| PipeTbl ::= alter f i |> <| Stat := t |>).
Proof.
  intros Hi Hf Hloc Hid Ht. pose proof (in_pipes _ _ _ _ _ Hi) as Hpi. destruct (pi_rsv _ _ _ _ Hpi i eq_refl) as (p & Hp & Eid).
  destruct (Hf p Hp) as (E1 & E2 & E3 & E4). destruct Hid as [Hid1 Hid2].
  assert (active (f p)) as Ha by (unfold active; by rewrite E1).
  assert (¬ active p) as Hna' by by apply not_active; right.
  destruct Hi as [R1 R2 R3 R4 R5 R6 R7 R8 R9].
  assert (refs (q_items (Queues s)) (alter f i (PipeTbl s)) ≡ₚ grefs s) as Eg.
  { unfold grefs. rewrite (refs_alter _ _ _ _ _ Hp), (refs_split _ _ _ _ Hp). unfold pipe_refs, last_ref.
    by rewrite (decide_True (P := active (f p))), (decide_False (P := active p)), E3, E2 by done. }
  split; try done.
  - eapply pipes_inv_set; [exact Hpi|exact Hp|by right| |right; right; split_and!; [done|by rewrite E1|cbn; rewrite E3; eauto|done]|apply Hpi].
    intros j p' Hj Hj' Ha'. split; [|intros _; apply E4; [by eapply list_elem_of_lookup_2|done]].
    destruct (pi_id _ _ _ _ Hpi j p' Hj') as [?|[[? _]|(_ & _ & ?)]]; [by destruct Ha'..|done].
  - intros l x Hl Hx. eapply pipe_ids_other; [exact Hp|by eapply R3|]. rewrite Eid. eapply pipe_ids_active. by eapply R3.
  - destruct R4 as (zs & ts & Hl & Hc). exists zs, ts. split; [done|]. eapply counts_perm; [|exact Hc].
    unfold grefs at 2. cbn. by rewrite Eg.
  - intros a. unfold grefs. cbn. rewrite Eg. apply R5.
  - cbn. apply Ht in R7. cbn in R7. rewrite (nactive_alter _ _ _ _ Hp), decide_True by done.
    rewrite (nactive_split _ _ _ Hp), decide_False in R7 by done.
    by replace (0 + nactive (rest i (PipeTbl s)) + 0 + 1) with (1 + nactive (rest i (PipeTbl s)) + 0) in R7 by lia.
Qed.

(** The descriptor of a new pipe. *)
Definition new_pipe (PipeId AppId SysQueueId Depth : Z) : CFE_SB_PipeD_t :=
  mkPipeD PipeId 0 AppId SysQueueId 0 Depth 0 0 NULL.

Inductive create_post (c : Caller) (PipeIdPtr : ptr Z) (Depth : Z) (PipeName : ptr string) (tb : list dlist) (s : G)
  : Z * ptr Z → G → Prop :=
| c_bad_arg ev :
    PipeIdPtr = None ∨ Depth = 0 ∨ OS_QUEUE_MAX_DEPTH < Depth →
    create_post c PipeIdPtr Depth PipeName tb s (CFE_SB_BAD_ARGUMENT, PipeIdPtr)
      (s <| HK ::= (λ k, k <| CreatePipeErrorCounter ::= incr 8 |>) |> <| Events ::= λ es, es ++ [ev] |>)
| c_full ev :
    (∀ p, p ∈ PipeTbl s → pd_PipeId p ≠ CFE_RESOURCEID_UNDEFINED) →
    create_post c PipeIdPtr Depth PipeName tb s (CFE_SB_MAX_PIPES_MET, PipeIdPtr) (s <| Events ::= λ es, es ++ [ev] |>)
| c_no_queue i p id st qid s' :
    PipeTbl s !! i = Some p → pd_PipeId p = CFE_RESOURCEID_UNDEFINED → CFE_SB_LocatePipeDescByID id = Some (Z.of_nat i) →
    OS_QueueCreate PipeName Depth (Queues s) = ((st, qid), Queues s') → st ≠ OS_SUCCESS →
    PipeTbl s' = alter (λ _, clear_pipe) i (PipeTbl s) → LastPipeId s' = id → Bufs s' = Bufs s → Routes s' = Routes s →
    q_items (Queues s') = q_items (Queues s) → Locked s' = false → sb_inv tb [] None NULL s' →
    create_post c PipeIdPtr Depth PipeName tb s (CFE_SB_PIPE_CR_ERR, PipeIdPtr) s'
| c_created i p id qid s' :
    PipeTbl s !! i = Some p → pd_PipeId p = CFE_RESOURCEID_UNDEFINED → CFE_SB_LocatePipeDescByID id = Some (Z.of_nat i) →
    OS_QueueCreate PipeName Depth (Queues s) = ((OS_SUCCESS, qid), Queues s') →
    PipeTbl s' = alter (λ _, new_pipe id (c_AppId c) qid Depth) i (PipeTbl s) → LastPipeId s' = id →
    Bufs s' = Bufs s → Routes s' = Routes s →
    q_items (Queues s) !! qid = None → q_items (Queues s') = <[qid := []]> (q_items (Queues s)) → q_depth (Queues s') qid = Depth →
    Locked s' = false → sb_inv tb [] None NULL s' →
    create_post c PipeIdPtr Depth PipeName tb s (CFE_SUCCESS, (λ _, id) <$> PipeIdPtr) s'.

(** The first critical section: a free entry is reserved, if there is one. *)
Lemma wp_create_begin tb Q s : Locked s = false → sb_inv tb [] None NULL s →
  (∀ id, (∀ p, p ∈ PipeTbl s → pd_PipeId p ≠ CFE_RESOURCEID_UNDEFINED) →
     Q (CFE_SB_MAX_PIPES_MET, CFE_SB_MAX_PIPES_MET_EID, None, id) s) →
  (∀ i p id, let s' := s <| PipeTbl ::= alter (λ _, set_id CFE_RESOURCEID_RESERVED clear_pipe) i |> <| LastPipeId := id |> in
     PipeTbl s !! i = Some p → pd_PipeId p = CFE_RESOURCEID_UNDEFINED → CFE_SB_LocatePipeDescByID id = Some (Z.of_nat i) →
     id ≠ CFE_RESOURCEID_UNDEFINED ∧ id ≠ CFE_RESOURCEID_RESERVED → sb_inv tb [] (Some (i, 0)) NULL s' →
     Q (CFE_SUCCESS, 0, Some (Z.of_nat i), id) s') →
  wp (CFE_SB_LockSharedData;;
      last ← gets LastPipeId;
      tbl ← gets PipeTbl;
      PendingPipeId ← of_option (CFE_ResourceId_FindNext last CFE_PLATFORM_SB_MAX_PIPES (CFE_SB_CheckPipeDescSlotUsed tbl));
      let PipeDscPtr := CFE_SB_LocatePipeDescByID PendingPipeId in
      r ← (match PipeDscPtr with
           | None => mret (CFE_SB_MAX_PIPES_MET, CFE_SB_MAX_PIPES_MET_EID, PipeDscPtr, PendingPipeId)
           | Some i =>
               wr_pipe i (λ _, mkPipeD 0 0 0 0 0 0 0 0 NULL);;
               CFE_SB_PipeDescSetUsed i CFE_RESOURCEID_RESERVED;;
               modify (λ s, s <| LastPipeId := PendingPipeId |>);;
               mret (CFE_SUCCESS, 0, PipeDscPtr, PendingPipeId)
           end);
      CFE_SB_UnlockSharedData;;
      mret r) Q s.
Proof.
  intros Hlk Hi HQ1 HQ2. pose proof (in_pipes _ _ _ _ _ Hi) as Hpi. wp_step. apply wp_lock; [done|]. cbv zeta.
  do 4 wp_step. destruct (find_slot _ _ _ _ Hpi) as (id & Efind & Hslot).
  assert (PipeTbl (s <| Locked := true |>) = PipeTbl s) as -> by done.
  assert (LastPipeId (s <| Locked := true |>) = LastPipeId s) as -> by done.
  wp_step. eapply wp_of_option; [exact Efind|]. revert Hslot.
  intros [[En Hfull]|(i & p & Eloc & Hp & Eid & Hu & Hb & Hid)].
  - rewrite En. wp_go. apply wp_unlock; [done|]. wp_go. specialize (HQ1 id Hfull). destruct s. cbn in *. by subst.
  - rewrite Eloc. wp_go. eapply wp_wr_pipe_nat; [exact Hp|]. wp_step. unfold CFE_SB_PipeDescSetUsed.
    eapply wp_wr_pipe_nat; [cbn; by rewrite list_lookup_alter_eq, Hp|]. wp_go. apply wp_unlock; [done|]. wp_go.
    pose proof (inv_take _ _ _ _ id Hi Hp Eid (conj Hu Hb)) as Hi1. specialize (HQ2 i p id Hp Eid Eloc Hid Hi1).
    destruct s. cbn in *. subst. by rewrite list_alter_alter_eq.
Qed.

(** The second one, after the queue was created. *)
Lemma wp_create_fill tb c i id qid Depth Q s :
  sb_inv tb [] (Some (i, 0)) NULL s → PipeTbl s !! i = Some (set_id CFE_RESOURCEID_RESERVED clear_pipe) →
  CFE_SB_LocatePipeDescByID id = Some (Z.of_nat i) → id ≠ CFE_RESOURCEID_UNDEFINED ∧ id ≠ CFE_RESOURCEID_RESERVED →
  q_items (Queues s) !! qid = Some [] → unused_queue (PipeTbl s) qid →
  (∀ t, let s' := s <| PipeTbl ::= alter (λ _, new_pipe id (c_AppId c) qid Depth) i |> <| Stat := t |> in
     sb_inv tb [] None NULL s' → Q tt s') →
  wp (wr_pipe (Z.of_nat i) (λ p, p <| pd_SysQueueId := qid |>);;
      wr_pipe (Z.of_nat i) (λ p, p <| pd_MaxQueueDepth := Depth |>);;
      wr_pipe (Z.of_nat i) (λ p, p <| pd_AppId := c_AppId c |>);;
      CFE_SB_PipeDescSetUsed (Z.of_nat i) id;;
      stat (λ t, t <| PipesInUse ::= incr 32 |>);;
      stat (λ t, if PeakPipesInUse t <? PipesInUse t then t <| PeakPipesInUse := PipesInUse t |> else t)) Q s.
Proof.
  intros Hi Hp Hloc Hid Hq Hun HQ. wp_step. eapply wp_wr_pipe_nat; [exact Hp|].
  do 2 (wp_step; eapply wp_wr_pipe_nat; [cbn; by rewrite !list_lookup_alter_eq, Hp|]). wp_step.
  unfold CFE_SB_PipeDescSetUsed. eapply wp_wr_pipe_nat; [cbn; by rewrite !list_lookup_alter_eq, Hp|].
  wp_step. do 2 apply wp_stat.
  match goal with |- Q _ ?x => replace x with (s <| PipeTbl ::= alter (λ _, new_pipe id (c_AppId c) qid Depth) i |> <| Stat := Stat x |>) end.
  2: { assert (∀ f g, f (set_id CFE_RESOURCEID_RESERVED clear_pipe) = g (set_id CFE_RESOURCEID_RESERVED clear_pipe) →
        alter f i (PipeTbl s) = alter g i (PipeTbl s)) as Hext.
      { intros f g Hfg. apply list_alter_ext; [|done]. intros p Hp'. congruence. }
      destruct s. cbn in *. rewrite !list_alter_alter_eq. f_equal. by apply Hext. }
  apply HQ. apply (inv_fill _ _ _ _ _ id); try done.
  intros nb nd nr np [S1 S2 S3 S4]. split; cbn; (case_match; cbn; try done). all: by rewrite S4, incr_u32.
Qed.

(** An identifier without a queue yet. *)
Lemma queue_unused tb held rsv tx s qid : sb_inv tb held rsv tx s → q_items (Queues s) !! qid = None → unused_queue (PipeTbl s) qid.
Proof.
  intros Hi Hq p Hp Ha E. apply list_elem_of_lookup in Hp as [j Hj].
  destruct (pi_id _ _ _ _ (in_pipes _ _ _ _ _ Hi) j p Hj) as [?|[[? _]|(_ & _ & [l Hl])]]; [by destruct Ha..|]. congruence.
Qed.

Lemma wp_CreatePipe c idp Depth name tb Q s : Locked s = false → sb_inv tb [] None NULL s →
  (∀ r s', create_post c idp Depth name tb s r s' → Q r s') → wp (CFE_SB_CreatePipe c idp Depth name) Q s.
Proof.
  intros Hlk Hi HQ. unfold CFE_SB_CreatePipe.
  destruct (negb (bool_decide (is_Some idp)) || (OS_QUEUE_MAX_DEPTH <? Depth) || (Depth =? 0)) eqn:Earg.
  { wp_go. apply wp_lock; [done|]. wp_go. apply wp_hk. wp_go. apply wp_unlock; [done|]. wp_go. apply wp_event; [done|]. wp_go.
    match goal with |- Q _ (?x <| Events ::= _ |>) => replace x with
      (s <| HK ::= (λ k, k <| CreatePipeErrorCounter ::= incr 8 |>) |>) by (destruct s; cbn in *; by subst) end.
    apply HQ, c_bad_arg. apply orb_true_iff in Earg as [[E|E]%orb_true_iff|E]; [left; by destruct idp|lia|lia]. }
  apply wp_bind. eapply wp_create_begin; [done|exact Hi|..].
  { intros id Hfull. wp_go. apply wp_lock; [done|]. wp_go. apply wp_unlock; [done|]. wp_go. apply wp_event; [done|]. wp_go.
    match goal with |- Q _ (?x <| Events ::= _ |>) => replace x with s by (destruct s; cbn in *; by subst) end.
    by apply HQ, c_full. }
  intros i p id s1 Hp Eid Eloc Hid Hi1. wp_go. apply wp_queues. change (Queues s1) with (Queues s).
  destruct (OS_QueueCreate name Depth (Queues s)) as [[st qid] qs] eqn:Eq. cbn [fst snd].
  assert (PipeTbl s1 !! i = Some (set_id CFE_RESOURCEID_RESERVED clear_pipe)) as Hp1
    by (cbn; by rewrite list_lookup_alter_eq, Hp).
  destruct (Z.eqb_spec st OS_SUCCESS) as [->|Hst].
  - destruct (create_ok _ _ _ _ _ Eq) as (Hqn & Hqs & Hdep). wp_go. apply wp_lock; [done|]. wp_step. zred.
    pose proof (queue_unused _ _ _ _ _ qid Hi1 Hqn) as Hun.
    eapply (wp_create_fill tb _ _ id); [|exact Hp1|done|done|cbn; by rewrite Hqs, lookup_insert_eq|exact Hun|].
    { apply inv_locked, inv_queues; [exact Hi1|]. intros p' Hp' Ha'. cbn.
      rewrite Hqs, lookup_insert_ne; [done|]. intros E. by eapply (Hun p' Hp' Ha'). }
    intros t s2 Hi2. wp_go. apply wp_unlock; [done|]. wp_go. apply wp_event; [done|]. wp_go. apply HQ.
    eapply (c_created _ _ _ _ _ _ i p id qid); try done; [|by apply inv_events, inv_locked].
    transitivity (alter (λ _, new_pipe id (c_AppId c) qid Depth) i (PipeTbl s1)); [done|]. cbn. by rewrite list_alter_alter_eq.
  - pose proof (create_fail _ _ _ _ _ _ Eq Hst) as Hqs.
    assert (∀ ev s2, s2 = s1 <| Queues := qs |> <| Locked := true |> <| PipeTbl ::= alter (set_id CFE_RESOURCEID_UNDEFINED) i |> →
      Q (CFE_SB_PIPE_CR_ERR, idp) (s2 <| Locked := false |> <| Events ::= λ es, es ++ [ev] |>)) as Hfin.
    { intros ev s2 E2. apply HQ. eapply (c_no_queue _ _ _ _ _ _ i p id st qid); try (subst s2; done).
      - subst s2. cbn. by rewrite !list_alter_alter_eq.
      - apply inv_events, inv_locked. replace s2 with (s1 <| Queues := qs |> <| Locked := true |>
            <| PipeTbl ::= alter (set_id CFE_RESOURCEID_UNDEFINED) i |> <| Stat := Stat s |>) by (subst s2; by destruct s).
        apply (inv_release _ _ 0).
        + apply inv_locked, inv_queues; [done|]. intros p' _ _. cbn. by rewrite Hqs.
        + intros nb nd nr np. by rewrite Z.sub_0_r. }
    assert (∀ ev t s2, s2 = s1 <| Queues := qs |> <| Locked := true |> <| PipeTbl ::= alter (set_id CFE_RESOURCEID_UNDEFINED) i |> →
      Q (CFE_SB_PIPE_CR_ERR, idp) (s2 <| Locked := false |> <| Events ::= λ es, es ++ [mkEvent ev t None] |>)) as Hfin' by eauto.
    unfold CFE_SB_PipeDescSetFree.
    destruct (st =? OS_ERR_NAME_TAKEN); [|destruct (st =? OS_ERR_NO_FREE_IDS)]; wp_go; (apply wp_lock; [done|]); wp_go;
      (eapply wp_wr_pipe_nat; [exact Hp1|]); wp_go; (apply wp_unlock; [done|]); wp_go; (apply wp_event; [done|]); wp_go; by apply Hfin'.
Qed.

End pipeops.
