(* ===== verification/SbCalls.v ===== *)
(** * The remaining calls: subscriptions, options, names, clean up

    The public functions around the critical sections, and what each leaves. *)
From stdpp Require Import strings.
From S2P Require Import Prelude Config Msg MsgProps ResourceId Sbr SbrProps SbState SbBuf SbApi SbRoutes SbBufs SbInv SbMem SbSubs SbSend SbTransmit SbZero SbRecv SbPipeOps.

Section calls.
Context {PS QS : Type} `{MemPoolOK PS} `{OSQueueOK QS} `{MsgMapOK} `{BuildCfg}.
Abbreviation G := (CFE_SB_Global_t PS QS).
Implicit Types (s : G).

(** ** Subscription reports *)

Lemma sub_header : ∃ h, take 16 (default [] (CFE_MSG_Init cfg_hdr cfg_msgid cfg_spacecraft (Some (replicate 32 0))
    CFE_SB_ONESUB_TLM_MID sizeof_SingleSubscriptionTlm).2) = h ∧
  Forall is_u8 h ∧ length h = 16%nat ∧ msg_size h = 32.
Proof.
  eexists. split; [done|]. unfold CFE_MSG_Init, memset0.
  change (replicate (Z.to_nat sizeof_SingleSubscriptionTlm) 0 ++ drop (Z.to_nat sizeof_SingleSubscriptionTlm) (replicate 32 0))
    with (replicate 10 0 ++ replicate 22 0).
  assert (∀ z, is_u8 (u16 z / 2 ^ 8) ∧ is_u8 (z mod 2 ^ 8)) as Hu.
  { intros z. pose proof (u16_range z). pose proof (u8_range z). unfold is_u16, is_u8, u8 in *. split; [|done]. Z.div_mod_to_equations. lia. }
  destruct (Hu cfg_spacecraft) as [Hu1 Hu2].
  destruct cfg_hdr; [|rewrite initdefault_ext; revert Hu1 Hu2; generalize (u16 cfg_spacecraft / 2 ^ 8), (cfg_spacecraft mod 2 ^ 8);
    intros x y Hx Hy]; destruct cfg_msgid.
  all: match goal with |- context [take 16 ?m] => let v := eval vm_compute in (take 16 m) in
    assert (take 16 m = v) as -> by (vm_compute; reflexivity) end.
  all: split_and!; [|done|by vm_compute]; repeat (apply Forall_cons; split; [first [done|by vm_compute]|]); by apply Forall_nil.
Qed.

Lemma sub_report_ok MsgId PipeId Quality : msg_ok (sub_report (replicate 32 0) MsgId PipeId Quality).
Proof.
  unfold sub_report, msg_ok. destruct sub_header as (h & -> & Hh & Hl & Hs). split.
  - apply Forall_app_2; [done|]. unfold le32. repeat (apply Forall_cons; split; [first [apply u8_range|done]|]). by apply Forall_nil.
  - assert (∀ l, msg_size (h ++ l) = msg_size h) as Eh.
    { intros l. unfold msg_size. cbn -[off_Length lookup_total Z.shiftl].
      by rewrite !lookup_total_app_l by (rewrite Hl; unfold off_Length; lia). }
    rewrite Eh, Hs, length_app, Hl. unfold le32. cbn. lia.
Qed.

(** The report of a new subscription, sent while reporting is enabled. *)
Inductive reported (c : Caller) (MsgId PipeId : Z) (Quality : Z * Z) (tb : list dlist) (s : G) : G → Prop :=
| rep_off : SubscriptionReporting s = false → reported c MsgId PipeId Quality tb s s
| rep_sent st s2 e :
    SubscriptionReporting s = true →
    transmit_post c (Some (sub_report (replicate 32 0) MsgId PipeId Quality)) true tb s st s2 →
    reported c MsgId PipeId Quality tb s (s2 <| Events ::= λ es, es ++ [e] |>).

Lemma transmit_inv c m inc tb s st s' : Locked s = false → transmit_post c m inc tb s st s' →
  Locked s' = false ∧ ∃ tb', sb_inv tb' [] None NULL s'.
Proof. intros Hlk []; [eauto|]. split; [by eapply bp_locked|]. eexists. by eapply bp_inv. Qed.

Lemma reported_inv c MsgId PipeId Quality tb s s' : sb_inv tb [] None NULL s → Locked s = false →
  reported c MsgId PipeId Quality tb s s' → Locked s' = false ∧ ∃ tb', sb_inv tb' [] None NULL s'.
Proof.
  intros Hi Hlk [|st s2 e _ Ht]; [eauto|]. destruct (transmit_inv _ _ _ _ _ _ _ Hlk Ht) as (Hlk2 & tb' & Hi2).
  split; [done|]. exists tb'. by apply inv_events.
Qed.

Lemma wp_SendSubscriptionReport c MsgId PipeId Quality tb Q s :
  caller_ok c → Locked s = false → sb_inv tb [] None NULL s →
  (∀ st s', reported c MsgId PipeId Quality tb s s' → Q st s') →
  wp (CFE_SB_SendSubscriptionReport c MsgId PipeId Quality) Q s.
Proof.
  intros Hc Hlk Hi HQ. unfold CFE_SB_SendSubscriptionReport. wp_step. wp_step.
  destruct (SubscriptionReporting s) eqn:E; [|wp_step; apply HQ; by constructor]. wp_step.
  eapply wp_TransmitMsg; [done..|apply sub_report_ok|]. intros st s2 Ht.
  destruct (transmit_inv _ _ _ _ _ _ _ Hlk Ht) as (Hlk2 & _).
  wp_step. apply wp_event; [done|]. wp_step. apply HQ. by econstructor.
Qed.

(** ** CFE_SB_Subscribe and its variants *)

(** The subscription tables go through [sub_step]; then a successful global
    subscription is reported. *)
Inductive subscribe_post (c : Caller) (MsgId PipeId : Z) (Quality : Z * Z) (MsgLim Scope : Z) (tb : list dlist) (s : G)
  : Z → G → Prop :=
| sp_step st ev ids' tb' s1 s2 es :
    sub_step (PipeTbl s) (c_AppId c) (msgids (Routes s)) tb MsgId PipeId MsgLim Scope st ev ids' tb' →
    sb_inv tb' [] None NULL s1 → msgids (Routes s1) = ids' → PipeTbl s1 = PipeTbl s → Bufs s1 = Bufs s → Queues s1 = Queues s →
    HK s1 = subscribe_count ev (HK s) → SubscriptionReporting s1 = SubscriptionReporting s → Locked s1 = false →
    (if decide (st = CFE_SUCCESS ∧ Scope = CFE_SB_MSG_GLOBAL) then reported c MsgId PipeId Quality tb' s1 s2 else s2 = s1) →
    subscribe_post c MsgId PipeId Quality MsgLim Scope tb s st (s2 <| Events ::= λ l, l ++ es |>).

Lemma wp_sub_end c MsgId PipeId Quality Scope st col tb Q s : caller_ok c → Locked s = false → sb_inv tb [] None NULL s →
  (∀ s2 es, (if decide (st = CFE_SUCCESS ∧ Scope = CFE_SB_MSG_GLOBAL) then reported c MsgId PipeId Quality tb s s2 else s2 = s) →
     Q st (s2 <| Events ::= λ l, l ++ es |>)) →
  wp (when ((st =? CFE_SUCCESS) && (Scope =? CFE_SB_MSG_GLOBAL))
         (_ ← CFE_SB_SendSubscriptionReport c MsgId PipeId Quality; mret tt);;
      when (negb (col =? 0)) (CFE_EVS_SendEventWithAppID CFE_SB_HASHCOLLISION_EID CFE_EVS_EventType_DEBUG);; mret st) Q s.
Proof.
  intros Hc Hlk Hi HQ.
  assert (∀ s2, Locked s2 = false →
    (if decide (st = CFE_SUCCESS ∧ Scope = CFE_SB_MSG_GLOBAL) then reported c MsgId PipeId Quality tb s s2 else s2 = s) →
    wp (when (negb (col =? 0)) (CFE_EVS_SendEventWithAppID CFE_SB_HASHCOLLISION_EID CFE_EVS_EventType_DEBUG);; mret st) Q s2) as Hcol.
  { intros s2 Hlk2 Hr. wp_step. destruct (col =? 0); cbn [negb when].
    - do 2 wp_step. specialize (HQ s2 [] Hr). destruct s2. cbn in *. by rewrite app_nil_r in HQ.
    - apply wp_event; [done|]. wp_step. by apply HQ. }
  wp_step. destruct (decide (st = CFE_SUCCESS ∧ Scope = CFE_SB_MSG_GLOBAL)) as [[-> ->]|Hn].
  - zred. wp_step. eapply wp_SendSubscriptionReport; [done|done|exact Hi|]. intros st' s2 Hr. wp_step.
    apply Hcol; [|done]. by eapply reported_inv.
  - replace ((st =? CFE_SUCCESS) && (Scope =? CFE_SB_MSG_GLOBAL)) with false; [cbn [when]; wp_step; by apply Hcol|].
    symmetry. apply andb_false_iff. rewrite !Z.eqb_neq. lia.
Qed.

Lemma wp_SubscribeFull c MsgId PipeId Quality MsgLim Scope tb Q s :
  caller_ok c → Locked s = false → sb_inv tb [] None NULL s → is_u32 MsgId →
  (∀ st s', subscribe_post c MsgId PipeId Quality MsgLim Scope tb s st s' → Q st s') →
  wp (CFE_SB_SubscribeFull c MsgId PipeId Quality MsgLim Scope) Q s.
Proof.
  intros Hc Hlk Hi Hid HQ. unfold CFE_SB_SubscribeFull. wp_step. apply wp_lock; [done|]. wp_step.
  eapply wp_subscribe_locked; [apply inv_locked; exact Hi|done|].
  intros st ev col ids' tb' r D t p s1 Hstep Hi1 Hm. wp_step. apply wp_unlock; [done|]. wp_step.
  apply (inv_locked _ _ _ _ _ false) in Hi1. set (s2 := s1 <| Locked := false |>) in *.
  assert (∀ es, wp (when ((st =? CFE_SUCCESS) && (Scope =? CFE_SB_MSG_GLOBAL))
       (_ ← CFE_SB_SendSubscriptionReport c MsgId PipeId Quality; mret tt);;
      when (negb (col =? 0)) (CFE_EVS_SendEventWithAppID CFE_SB_HASHCOLLISION_EID CFE_EVS_EventType_DEBUG);; mret st) Q
      (s2 <| Events ::= λ l, l ++ es |>)) as Hfin.
  { intros es. eapply wp_sub_end; [done|done|apply inv_events; exact Hi1|]. intros s3 es' Hr. apply HQ.
    eapply (sp_step _ _ _ _ _ _ _ _ _ ev ids' tb' (s2 <| Events ::= λ l, l ++ es |>)); try done. by apply inv_events. }
  destruct (Z.eqb_spec ev 0) as [->|Hev]; cbn [negb].
  - destruct (st =? CFE_SUCCESS) eqn:Est; cbn [when].
    + apply wp_event; [done|]. apply Hfin.
    + wp_step. specialize (Hfin []). rewrite ?Est in *. destruct s2. cbn in *. by rewrite app_nil_r in Hfin.
  - wp_step. apply wp_GetPipeName; [done|apply (in_pipes _ _ _ _ _ Hi1)|]. intros st' name e _ _.
    apply wp_event; [done|]. 
    match goal with |- wp _ _ (_ <| Events ::= λ _, _ ++ [?e2] |>) => specialize (Hfin [e; e2]) end.
    refine (eq_ind _ (λ x, wp _ Q x) Hfin _ _). clear. destruct s2. cbn. by rewrite <- (assoc_L (++)).
Qed.

(** ** CFE_SB_Unsubscribe and its variants *)

Inductive unsubscribe_post (MsgId PipeId Scope AppId : Z) (tb : list dlist) (s : G) : Z → G → Prop :=
| up_step st ev tb' s' :
    unsub_step (PipeTbl s) AppId (msgids (Routes s)) tb MsgId PipeId Scope st ev tb' →
    sb_inv tb' [] None NULL s' → msgids (Routes s') = msgids (Routes s) → PipeTbl s' = PipeTbl s → Bufs s' = Bufs s →
    Queues s' = Queues s → Locked s' = false → HK s' = HK s →
    unsubscribe_post MsgId PipeId Scope AppId tb s st s'.

Lemma wp_UnsubscribeFull MsgId PipeId Scope AppId tb Q s :
  Locked s = false → sb_inv tb [] None NULL s → is_u32 MsgId →
  (∀ st s', unsubscribe_post MsgId PipeId Scope AppId tb s st s' → Q st s') →
  wp (CFE_SB_UnsubscribeFull MsgId PipeId Scope AppId) Q s.
Proof.
  intros Hlk Hi Hid HQ. unfold CFE_SB_UnsubscribeFull. wp_step. apply wp_lock; [done|]. wp_step.
  eapply wp_unsubscribe_locked; [apply inv_locked; exact Hi|done|].
  intros st ev tb' r D t p s1 Hstep Hi1 Hm. wp_step. apply wp_unlock; [done|]. wp_step.
  apply (inv_locked _ _ _ _ _ false) in Hi1. set (s2 := s1 <| Locked := false |>) in *.
  assert (∀ es, Q st (s2 <| Events ::= es |>)) as Hfin.
  { intros es. apply HQ. eapply up_step; [exact Hstep|by apply inv_events|done..]. }
  destruct (ev =? CFE_SB_UNSUB_NO_SUBS_EID).
  - wp_step. apply wp_GetPipeName; [done|apply (in_pipes _ _ _ _ _ Hi1)|]. intros st' name e _ _.
    apply wp_event; [done|]. wp_step. match goal with |- Q _ (_ <| Events ::= λ _, _ ++ [?e2] |>) => specialize (Hfin (λ l, l ++ [e] ++ [e2])) end.
    refine (eq_ind _ (λ x, Q _ x) Hfin _ _). clear. destruct s2. cbn. by rewrite <- (assoc_L (++)).
  - destruct (ev =? 0); cbn [negb]; [|apply wp_event; [done|]; wp_step; apply Hfin].
    destruct (st =? CFE_SUCCESS); cbn [when]; [apply wp_event; [done|]; wp_step; apply Hfin|].
    do 2 wp_step. specialize (Hfin (λ l, l)). destruct s2. by apply Hfin.
Qed.

(** ** Options and names *)

Definition set_opts (Opts : Z) (p : CFE_SB_PipeD_t) : CFE_SB_PipeD_t := p <| pd_Opts := Opts |>.

(** A refused request on a pipe's options: counted and reported. *)
Definition opts_error (ev : Event) (s : G) : G :=
  s <| HK ::= (λ k, k <| PipeOptsErrorCounter ::= incr 8 |>) |> <| Events ::= λ es, es ++ [ev] |>.

Inductive set_opts_post (c : Caller) (PipeId Opts : Z) (s : G) : Z → G → Prop :=
| so_no_app : c_Status c ≠ CFE_SUCCESS → set_opts_post c PipeId Opts s (c_Status c) s
| so_refused ev : c_Status c = CFE_SUCCESS →
    find_pipe (PipeTbl s) PipeId = None ∨ (∃ i p, find_pipe (PipeTbl s) PipeId = Some (i, p) ∧ pd_AppId p ≠ c_AppId c) →
    set_opts_post c PipeId Opts s CFE_SB_BAD_ARGUMENT (opts_error ev s)
| so_set i p ev : c_Status c = CFE_SUCCESS → find_pipe (PipeTbl s) PipeId = Some (i, p) → pd_AppId p = c_AppId c →
    set_opts_post c PipeId Opts s CFE_SUCCESS
      (s <| PipeTbl ::= alter (set_opts Opts) i |> <| Events ::= λ es, es ++ [ev] |>).

Lemma wp_SetPipeOpts c id Opts Q s : Locked s = false → length (PipeTbl s) = 64%nat →
  (∀ st s', set_opts_post c id Opts s st s' → Q st s') → wp (CFE_SB_SetPipeOpts c id Opts) Q s.
Proof.
  intros Hlk Hlen HQ. unfold CFE_SB_SetPipeOpts.
  destruct (Z.eqb_spec (c_Status c) CFE_SUCCESS) as [Hst|Hst]; cbn [negb]; [|wp_step; apply HQ; by constructor].
  wp_step. apply wp_lock; [done|]. cbv zeta. wp_step. set (s1 := s <| Locked := true |>).
  assert (∀ ev, find_pipe (PipeTbl s) id = None ∨ (∃ i p, find_pipe (PipeTbl s) id = Some (i, p) ∧ pd_AppId p ≠ c_AppId c) →
    Q CFE_SB_BAD_ARGUMENT (s1 <| HK ::= (λ k, k <| PipeOptsErrorCounter ::= incr 8 |>) |> <| Locked := false |>
      <| Events ::= λ es, es ++ [mkEvent ev CFE_EVS_EventType_ERROR None] |>)) as Hbad.
  { intros ev Hr. match goal with |- Q _ ?x => replace x with (opts_error (mkEvent ev CFE_EVS_EventType_ERROR None) s)
      by (unfold opts_error, s1; destruct s; cbn in *; by subst) end. apply HQ. by constructor. }
  destruct (find_pipe (PipeTbl s) id) as [[i p]|] eqn:E.
  2: { apply wp_match_false; [done..|]. destruct (CFE_SB_LocatePipeDescByID id); wp_go; apply wp_hk; wp_go;
    (apply wp_unlock; [done|]); wp_go; (apply wp_event; [done|]); wp_go; apply Hbad; auto. }
  destruct (find_pipe_Some _ _ _ _ E) as (-> & Hp & Hid & Ha). eapply wp_match_true; [exact Hp|done|].
  wp_step. wp_step. eapply wp_rd_pipe_nat; [exact Hp|].
  destruct (Z.eqb_spec (c_AppId c) (pd_AppId p)) as [Happ|Happ]; cbn [negb].
  - wp_step. eapply wp_wr_pipe_nat; [exact Hp|]. wp_go. apply wp_unlock; [done|]. wp_go. apply wp_event; [done|]. wp_go.
    match goal with |- Q _ (_ <| Events ::= λ _, _ ++ [?e] |>) => pose proof (HQ _ _ (so_set c id Opts s i p e Hst E (eq_sym Happ))) as HQ' end.
    unfold s1. destruct s. cbn in *. by subst.
  - wp_go. apply wp_hk. wp_go. apply wp_unlock; [done|]. wp_go. apply wp_event; [done|]. wp_go. apply Hbad. right. exists i, p. auto.
Qed.

Inductive get_opts_post (PipeId : Z) (OptsPtr : ptr Z) (s : G) : Z * ptr Z → G → Prop :=
| go_refused ev : find_pipe (PipeTbl s) PipeId = None ∨ OptsPtr = None →
    get_opts_post PipeId OptsPtr s (CFE_SB_BAD_ARGUMENT, OptsPtr) (opts_error ev s)
| go_read i p ev : find_pipe (PipeTbl s) PipeId = Some (i, p) → OptsPtr ≠ None →
    get_opts_post PipeId OptsPtr s (CFE_SUCCESS, Some (pd_Opts p)) (s <| Events ::= λ es, es ++ [ev] |>).

Lemma wp_GetPipeOpts id OptsPtr Q s : Locked s = false → length (PipeTbl s) = 64%nat →
  (∀ r s', get_opts_post id OptsPtr s r s' → Q r s') → wp (CFE_SB_GetPipeOpts id OptsPtr) Q s.
Proof.
  intros Hlk Hlen HQ. unfold CFE_SB_GetPipeOpts.
  wp_step. apply wp_lock; [done|]. cbv zeta. wp_step. set (s1 := s <| Locked := true |>).
  assert (∀ ev, find_pipe (PipeTbl s) id = None ∨ OptsPtr = None →
    Q (CFE_SB_BAD_ARGUMENT, OptsPtr) (s1 <| HK ::= (λ k, k <| PipeOptsErrorCounter ::= incr 8 |>) |> <| Locked := false |>
      <| Events ::= λ es, es ++ [mkEvent ev CFE_EVS_EventType_ERROR None] |>)) as Hbad.
  { intros ev Hr. match goal with |- Q _ ?x => replace x with (opts_error (mkEvent ev CFE_EVS_EventType_ERROR None) s)
      by (unfold opts_error, s1; destruct s; cbn in *; by subst) end. apply HQ. by constructor. }
  destruct (find_pipe (PipeTbl s) id) as [[i p]|] eqn:E.
  2: { apply wp_match_false; [done..|]. destruct (CFE_SB_LocatePipeDescByID id); wp_go; apply wp_hk; wp_go;
    (apply wp_unlock; [done|]); wp_go; (apply wp_event; [done|]); wp_go; apply Hbad; auto. }
  destruct (find_pipe_Some _ _ _ _ E) as (-> & Hp & Hid & Ha). eapply wp_match_true; [exact Hp|done|].
  destruct OptsPtr as [o|].
  - wp_go. eapply wp_rd_pipe_nat; [exact Hp|]. wp_go. apply wp_unlock; [done|]. wp_go. apply wp_event; [done|]. wp_go.
    match goal with |- Q _ (_ <| Events ::= λ _, _ ++ [?e] |>) => pose proof (HQ _ _ (go_read id (Some o) s i p e E ltac:(done))) as HQ' end.
    unfold s1. destruct s. cbn in *. by subst.
  - wp_go. apply wp_hk. wp_go. apply wp_unlock; [done|]. wp_go. apply wp_event; [done|]. wp_go. apply Hbad. auto.
Qed.

(** The lookup by name: what the table search returns for the queue of that name. *)
Inductive by_name_post (PipeIdPtr : ptr Z) (PipeName : ptr string) (s : G) : Z * ptr Z → G → Prop :=
| bn_refused ev :
    (∀ name qid, PipeName = Some name → PipeIdPtr ≠ None → OS_QueueGetIdByName name (Queues s) = (OS_SUCCESS, qid) →
       find_queue (PipeTbl s) qid = None) →
    by_name_post PipeIdPtr PipeName s (CFE_SB_BAD_ARGUMENT, PipeIdPtr)
      (s <| HK ::= (λ k, k <| GetPipeIdByNameErrorCounter ::= incr 8 |>) |> <| Events ::= λ es, es ++ [ev] |>)
| bn_found name qid id ev :
    PipeName = Some name → PipeIdPtr ≠ None → OS_QueueGetIdByName name (Queues s) = (OS_SUCCESS, qid) →
    find_queue (PipeTbl s) qid = Some id →
    by_name_post PipeIdPtr PipeName s (CFE_SUCCESS, Some id) (s <| Events ::= λ es, es ++ [ev] |>).

Lemma wp_GetPipeIdByName idp name Q s : Locked s = false →
  (∀ r s', by_name_post idp name s r s' → Q r s') → wp (CFE_SB_GetPipeIdByName idp name) Q s.
Proof.
  intros Hlk HQ. unfold CFE_SB_GetPipeIdByName.
  assert (∀ ev, (∀ n qid, name = Some n → idp ≠ None → OS_QueueGetIdByName n (Queues s) = (OS_SUCCESS, qid) →
       find_queue (PipeTbl s) qid = None) →
    Q (CFE_SB_BAD_ARGUMENT, idp) (s <| Locked := true |> <| HK ::= (λ k, k <| GetPipeIdByNameErrorCounter ::= incr 8 |>) |>
      <| Locked := false |> <| Events ::= λ es, es ++ [mkEvent ev CFE_EVS_EventType_ERROR None] |>)) as Hbad.
  { intros ev Hr. match goal with |- Q _ ?x => replace x with
      (s <| HK ::= (λ k, k <| GetPipeIdByNameErrorCounter ::= incr 8 |>) |> <| Events ::= λ es, es ++ [mkEvent ev CFE_EVS_EventType_ERROR None] |>)
      by (destruct s; cbn in *; by subst) end. apply HQ. by constructor. }
  destruct name as [n|]; [|wp_go; (apply wp_lock; [done|]); wp_go; apply wp_hk; wp_go; (apply wp_unlock; [done|]); wp_go;
    (apply wp_event; [done|]); wp_go; apply Hbad; done].
  destruct idp as [x|]; [|wp_go; (apply wp_lock; [done|]); wp_go; apply wp_hk; wp_go; (apply wp_unlock; [done|]); wp_go;
    (apply wp_event; [done|]); wp_go; apply Hbad; done].
  wp_go. destruct (OS_QueueGetIdByName n (Queues s)) as [st qid] eqn:Eq.
  destruct (Z.eqb_spec st OS_SUCCESS) as [->|Hst].
  - wp_go. apply wp_lock; [done|]. wp_go. change (PipeTbl (s <| Locked := true |>)) with (PipeTbl s).
    destruct (find_queue (PipeTbl s) qid) as [id|] eqn:Ef; wp_go.
    + apply wp_unlock; [done|]. wp_go. apply wp_event; [done|]. wp_go.
      match goal with |- Q _ (_ <| Events ::= λ _, _ ++ [?e] |>) =>
        pose proof (HQ _ _ (bn_found (Some x) (Some n) s n qid id e eq_refl ltac:(done) Eq Ef)) as HQ' end.
      destruct s. cbn in *. by subst.
    + apply wp_hk. wp_go. apply wp_unlock; [done|]. wp_go. apply wp_event; [done|]. wp_go. apply Hbad. intros n' q' [= <-] _ Eq'. congruence.
  - wp_go. apply wp_lock; [done|]. wp_go. apply wp_hk. wp_go. apply wp_unlock; [done|]. wp_go. apply wp_event; [done|]. wp_go.
    apply Hbad. intros n' q' [= <-] _ Eq'. congruence.
Qed.

(** ** CFE_SB_CleanUpApp *)

(** A pipe of the application, freed. *)
Definition owned_by (AppId : Z) (p : CFE_SB_PipeD_t) : Prop := active p ∧ pd_AppId p = AppId.
#[global] Instance owned_by_dec AppId p : Decision (owned_by AppId p).
Proof. unfold owned_by. apply _. Defined.

Definition free_pipes (ids : list Z) (p : CFE_SB_PipeD_t) : CFE_SB_PipeD_t :=
  if decide (pd_PipeId p ∈ ids) then set_id CFE_RESOURCEID_UNDEFINED p else p.
Definition unsub_pipes (ids : list Z) (tb : list dlist) : list dlist := foldl (λ tb id, unsub_all id <$> tb) tb ids.

(** Buffers with an owner: they have no references, so deleting pipes keeps them. *)
Definition owned_kept (B B' : gmap addr CFE_SB_BufferD_t) : Prop :=
  ∀ a b, bd_AppId b ≠ CFE_ES_APPID_UNDEFINED → B' !! a = Some b ↔ B !! a = Some b.

Lemma drop_refs_ne B l a : a ∉ l → drop_refs B l !! a = B !! a.
Proof.
  revert B. induction l as [|x l IH]; intros B Hn; [done|]. apply not_elem_of_cons in Hn as [Hx Hn].
  unfold drop_refs in *. cbn [foldl]. rewrite IH by done. by apply drop_ref_ne.
Qed.

Lemma drop_refs_app B l a b : drop_refs B l !! a = Some b → ∃ b', B !! a = Some b' ∧ bd_AppId b' = bd_AppId b.
Proof.
  revert B. induction l as [|x l IH]; intros B; cbn; [eauto|]. intros (b1 & Hb1 & E1)%IH.
  revert Hb1. unfold drop_ref. destruct (B !! x) as [bx|] eqn:Ex; [|eauto].
  destruct (decide (bd_UseCount bx = 1)).
  - rewrite lookup_delete_Some. intros [_ Hb1]. eauto.
  - rewrite lookup_insert_Some. intros [[<- <-]|[_ Hb1]]; eauto.
Qed.

Lemma delete_owned tb s i p l : sb_inv tb [] None NULL s → PipeTbl s !! i = Some p → active p →
  q_items (Queues s) !! pd_SysQueueId p = Some l → owned_kept (Bufs s) (drop_refs (Bufs s) (last_ref p ++ l)).
Proof.
  intros Hi Hp Ha Hq a b Hb.
  assert (∀ x, x ∈ last_ref p ++ l → x ∈ grefs s) as Hin.
  { intros x Hx. unfold grefs. rewrite (refs_split _ _ _ _ Hp). apply elem_of_app. left. unfold pipe_refs.
    rewrite decide_True, Hq by done. cbn. rewrite elem_of_app in *. tauto. }
  assert (∀ b', Bufs s !! a = Some b' → bd_AppId b' ≠ CFE_ES_APPID_UNDEFINED → drop_refs (Bufs s) (last_ref p ++ l) !! a = Bufs s !! a) as Hne.
  { intros b' Hb' Hown. apply drop_refs_ne. intros Hx%Hin. destruct (inv_owned _ _ _ _ _ _ Hi Hb' Hown) as (_ & Hn & _). done. }
  split; intros Hl.
  - destruct (drop_refs_app _ _ _ _ Hl) as (b' & Hb' & E). rewrite <- (Hne b' Hb') by congruence. done.
  - by rewrite (Hne b Hl).
Qed.

Lemma find_pipe_alter tbl i p id id' j p' f : find_pipe tbl id = Some (i, p) → find_pipe tbl id' = Some (j, p') → id ≠ id' →
  find_pipe (alter f i tbl) id' = Some (j, p').
Proof.
  intros E E' Hne. destruct (find_pipe_Some _ _ _ _ E) as (_ & Hi & Ei & _). destruct (find_pipe_Some _ _ _ _ E') as (Ej & Hj & Ep & _).
  unfold find_pipe. rewrite Ej, Nat2Z.id, list_lookup_alter_ne by (intros ->; congruence). by rewrite Hj, decide_True.
Qed.

Lemma free_pipes_cons tbl q last rsv i p id ids : pipes_inv tbl q last rsv → find_pipe tbl id = Some (i, p) →
  free_pipes ids <$> alter (set_id CFE_RESOURCEID_UNDEFINED) i tbl = free_pipes (id :: ids) <$> tbl.
Proof.
  intros Hpi E. destruct (find_pipe_Some _ _ _ _ E) as (Hloc & Hi & Eid & Ha). apply list_eq. intros j. rewrite !list_lookup_fmap.
  destruct (decide (i = j)) as [<-|Hij].
  - rewrite list_lookup_alter_eq, Hi. cbn. f_equal. unfold free_pipes.
    rewrite (decide_True (P := pd_PipeId p ∈ id :: ids)) by (rewrite Eid; by left). by case_decide.
  - rewrite list_lookup_alter_ne by done. destruct (tbl !! j) as [p'|] eqn:Ej; [|done]. cbn. f_equal. unfold free_pipes.
    assert (pd_PipeId p' ≠ id) as Hne.
    { intros Ep. assert (active p') as Ha' by (unfold active in *; congruence).
      pose proof (find_pipe_active _ _ _ _ _ _ Hpi Ej Ha') as E'. rewrite Ep, E in E'. injection E' as ? ?. done. }
    destruct (decide (pd_PipeId p' ∈ ids)) as [Hin|Hin].
    + by rewrite decide_True by by right.
    + rewrite decide_False; [done|]. rewrite elem_of_cons. tauto.
Qed.

Lemma wp_delete_all AppId Q ids : ∀ tb s, Locked s = false → sb_inv tb [] None NULL s → NoDup ids →
  (∀ id, id ∈ ids → ∃ i p, find_pipe (PipeTbl s) id = Some (i, p) ∧ pd_AppId p = AppId) →
  (∀ s', sb_inv (unsub_pipes ids tb) [] None NULL s' → Locked s' = false → PipeTbl s' = free_pipes ids <$> PipeTbl s →
     msgids (Routes s') = msgids (Routes s) → owned_kept (Bufs s) (Bufs s') → Q tt s') →
  wp (delete_all ids AppId) Q s.
Proof.
  induction ids as [|id ids IH]; intros tb s Hlk Hi Hnd Hown HQ; cbn [delete_all].
  { wp_step. apply HQ; try done. rewrite <- (list_fmap_id (PipeTbl s)) at 1. by apply list_fmap_ext. }
  apply NoDup_cons in Hnd as [Hn Hnd]. destruct (Hown id ltac:(by left)) as (i & p & E & Happ).
  destruct (find_pipe_Some _ _ _ _ E) as (_ & Hp & _ & Ha).
  wp_step. unfold CFE_SB_DeletePipeWithAppId. eapply wp_DeletePipeFull; [done|exact Hi|]. intros st s1 [ev Hr|i' p' l s1' E' _ Hq HT HB _ Hm Hlk1 Hi1].
  { exfalso. destruct Hr as [Hr|(i' & p' & Hr & Hne)]; [congruence|]. rewrite E in Hr. injection Hr as <- <-. done. }
  rewrite E in E'. injection E' as <- <-. pose proof (delete_owned _ _ _ _ _ Hi Hp Ha Hq) as Hk. rewrite <- HB in Hk.
  eapply IH; [done|exact Hi1|done| |].
  - intros id' Hin. destruct (Hown id' ltac:(by right)) as (j & pj & Ej & Hj). exists j, pj. split; [|done].
    rewrite HT. eapply find_pipe_alter; [exact E|exact Ej|]. by intros ->.
  - intros s2 Hi2 Hlk2 HT2 Hm2 Hk2. apply HQ; try done.
    + rewrite HT2, HT. eapply free_pipes_cons; [apply (in_pipes _ _ _ _ _ Hi)|done].
    + congruence.
    + intros a b Hb. by rewrite (Hk2 a b Hb), (Hk a b Hb).
Qed.

Lemma nodup_filter_fmap {A} (f : A → Z) (P : A → Prop) `{∀ x, Decision (P x)} (l : list A) :
  (∀ i j x y, l !! i = Some x → l !! j = Some y → P x → P y → f x = f y → i = j) → NoDup (f <$> filter P l).
Proof.
  induction l as [|x l IH]; intros Hinj; [constructor|]. rewrite filter_cons.
  assert (NoDup (f <$> filter P l)) as Hnd.
  { apply IH. intros i j y z Hi Hj Py Pz E. assert (S i = S j) by by eapply (Hinj (S i) (S j)). lia. }
  destruct (decide (P x)) as [Px|]; [|done]. rewrite fmap_cons. apply NoDup_cons. split; [|done].
  intros (y & E & [Py Hy]%list_elem_of_filter)%list_elem_of_fmap. apply list_elem_of_lookup in Hy as [j Hj].
  by assert (0 = S j)%nat by by eapply (Hinj 0%nat (S j) x y).
Qed.

Lemma owned_pipes_ok tb s AppId : sb_inv tb [] None NULL s →
  NoDup (owned_pipes (PipeTbl s) AppId) ∧
  (∀ id, id ∈ owned_pipes (PipeTbl s) AppId ↔ ∃ i p, find_pipe (PipeTbl s) id = Some (i, p) ∧ pd_AppId p = AppId).
Proof.
  intros Hi. pose proof (in_pipes _ _ _ _ _ Hi) as Hpi.
  assert (∀ i p, PipeTbl s !! i = Some p → pd_PipeId p ≠ CFE_RESOURCEID_UNDEFINED → active p) as Hact.
  { intros i p Hp Hne. destruct (pi_id _ _ _ _ Hpi i p Hp) as [?|[[_ ?]|(? & _)]]; done. }
  unfold owned_pipes. split.
  - apply nodup_filter_fmap. intros i j p p' Hp Hp' [H1' _] [H2' _] E.
    pose proof (find_pipe_active _ _ _ _ _ _ Hpi Hp (Hact _ _ Hp H1')) as E1.
    pose proof (find_pipe_active _ _ _ _ _ _ Hpi Hp' (Hact _ _ Hp' H2')) as E2. rewrite E, E2 in E1. by injection E1.
  - intros id. rewrite list_elem_of_fmap. split.
    + intros (p & -> & [[Hne Happ] Hin]%list_elem_of_filter). apply list_elem_of_lookup in Hin as [i Hp].
      exists i, p. split; [|done]. eapply find_pipe_active; [done..|]. by eapply Hact.
    + intros (i & p & E & Happ). destruct (find_pipe_Some _ _ _ _ E) as (_ & Hp & <- & Ha). exists p. split; [done|].
      apply list_elem_of_filter. split; [|by eapply list_elem_of_lookup_2]. by destruct Ha.
Qed.

(** The application's pipes, subscriptions and zero copy buffers are gone; pipes and
    zero copy buffers of others are as they were. *)
Record cleanup_post (AppId : Z) (tb : list dlist) (s s' : G) : Prop := {
  cu_inv : sb_inv (unsub_pipes (owned_pipes (PipeTbl s) AppId) tb) [] None NULL s';
  cu_locked : Locked s' = false;
  cu_pipes : PipeTbl s' = free_pipes (owned_pipes (PipeTbl s) AppId) <$> PipeTbl s;
  cu_routes : msgids (Routes s') = msgids (Routes s);
  cu_own a b : bd_AppId b ≠ CFE_ES_APPID_UNDEFINED → Bufs s' !! a = Some b ↔ Bufs s !! a = Some b ∧ bd_AppId b ≠ AppId;
}.

Lemma wp_CleanUpApp AppId tb Q s : Locked s = false → sb_inv tb [] None NULL s →
  (∀ s', cleanup_post AppId tb s s' → Q CFE_SUCCESS s') → wp (CFE_SB_CleanUpApp AppId) Q s.
Proof.
  intros Hlk Hi HQ. unfold CFE_SB_CleanUpApp. destruct (owned_pipes_ok _ _ AppId Hi) as [Hnd Hin].
  wp_step. apply wp_lock; [done|]. wp_go. apply wp_unlock; [done|]. wp_go.
  replace (s <| Locked := true |> <| Locked := false |>) with s by (destruct s; cbn in *; by subst).
  change (PipeTbl (s <| Locked := true |>)) with (PipeTbl s).
  eapply wp_delete_all; [done|exact Hi|done|intros id; apply Hin|]. intros s1 Hi1 Hlk1 HT Hm Hk. wp_step.
  eapply wp_ReleaseAppId; [done|exact Hi1|..].
  - intros ->. wp_step. apply HQ. split; try done. intros a b Hb. rewrite (Hk a b Hb). tauto.
  - intros B L t p sl s2 HA EB Hi2. wp_step. apply HQ. split; try done. intros a b Hb. change (Bufs s2) with B.
    rewrite EB. unfold not_of. rewrite map_lookup_filter_Some, (Hk a b Hb). done.
Qed.

(** ** Calls that keep the bus sound *)

Definition msg_arg_ok (m : ptr Message) : Prop := match m with Some m => msg_ok m | None => True end.

Lemma transmit_ok c m inc s : sb_ok s → caller_ok c → msg_arg_ok m → wp (CFE_SB_TransmitMsg c m inc) (λ _, sb_ok) s.
Proof.
  intros (Hlk & tb & Hi) Hc Hm. destruct m as [m|].
  - eapply wp_TransmitMsg; [done|done|exact Hi|done|]. intros st s' Ht. by eapply transmit_inv.
  - eapply wp_TransmitMsg_null; [done|done|exact Hi|]. intros st s' Ht. by eapply transmit_inv.
Qed.

Lemma subscribe_ok c m id q l sc s : sb_ok s → caller_ok c → is_u32 m → wp (CFE_SB_SubscribeFull c m id q l sc) (λ _, sb_ok) s.
Proof.
  intros (Hlk & tb & Hi) Hc Hm. eapply wp_SubscribeFull; [done|done|exact Hi|done|].
  intros st s' [st' ev ids' tb' s1 s2 es _ Hi1 _ _ _ _ _ _ Hlk1 Hr].
  assert (Locked s2 = false ∧ ∃ tb2, sb_inv tb2 [] None NULL s2) as (Hlk2 & tb2 & Hi2).
  { case_decide; [by eapply reported_inv|subst; eauto]. }
  split; [done|]. exists tb2. by apply inv_events.
Qed.

Lemma create_pipe_ok c idp d n s : sb_ok s → wp (CFE_SB_CreatePipe c idp d n) (λ _, sb_ok) s.
Proof.
  intros (Hlk & tb & Hi). eapply wp_CreatePipe; [done|exact Hi|]. intros r s' []; [| |split; eauto..].
  - split; [done|]. exists tb. by apply inv_events, inv_hk.
  - split; [done|]. exists tb. by apply inv_events.
Qed.

Lemma queries_ok s : sb_ok s → (∀ b n id, wp (CFE_SB_GetPipeName b n id) (λ _, sb_ok) s) ∧
  (∀ id o, wp (CFE_SB_GetPipeOpts id o) (λ _, sb_ok) s) ∧ (∀ idp n, wp (CFE_SB_GetPipeIdByName idp n) (λ _, sb_ok) s).
Proof.
  intros (Hlk & tb & Hi). assert (length (PipeTbl s) = 64%nat) as Hlen by apply (in_pipes _ _ _ _ _ Hi).
  assert (∀ f g, sb_ok (s <| HK ::= f |> <| Events ::= g |>)) as H1'.
  { intros f g. split; [done|]. exists tb. by apply inv_events, inv_hk. }
  assert (∀ g, sb_ok (s <| Events ::= g |>)) as H2'.
  { intros g. split; [done|]. exists tb. by apply inv_events. }
  split_and!; intros.
  - apply wp_GetPipeName; [done..|]. intros. apply H2'.
  - apply wp_GetPipeOpts; [done..|]. intros r s' []; [apply H1'|apply H2'].
  - apply wp_GetPipeIdByName; [done..|]. intros r s' []; [apply H1'|apply H2'].
Qed.

End calls.
