(* ===== verification/SbTaskOps.v ===== *)
(** * The software bus task: what the commands do

    The commands keep the bus sound and the packets of the task well formed; the changes
    of routes, the packets that list all subscriptions and the records of the files. *)
From stdpp Require Import strings.
From S2P Require Import Prelude Config Msg MsgProps ResourceId Cstring EsApp Sbr SbrProps SbState SbBuf SbApi SbTask SbRoutes SbBufs SbInv SbMem SbSubs SbSend SbTransmit SbZero SbRecv SbPipeOps SbCalls.

Create HintDb preserves.

(** ** Packets *)

(** A header of 16 bytes that declares at most [n] bytes. *)
Definition header_ok (n : Z) (h : Message) : Prop := Forall is_u8 h ∧ length h = 16%nat ∧ msg_size h <= n.

(** The packets of the task: their headers and the lengths of their arrays. *)
Record task_ok (t : SB_Task_t) : Prop := {
  to_hk : header_ok sizeof_HKTlm (ta_HKHdr t);
  to_stat : header_ok sizeof_StatTlm (ta_StatHdr t);
  to_prev : header_ok sizeof_AllSubsTlm (ta_PrevHdr t);
  to_depth : length (ta_PipeDepthStats t) = 64%nat;
  to_entry : length (ta_Entry t) = 20%nat;
}.

Lemma msg_size_app h l : length h = 16%nat → msg_size (h ++ l) = msg_size h.
Proof.
  intros Hl. unfold msg_size. cbn -[off_Length lookup_total Z.shiftl].
  by rewrite !lookup_total_app_l by (rewrite Hl; unfold off_Length; lia).
Qed.

Lemma header_packet_ok n h l : header_ok n h → Forall is_u8 l → n <= 16 + Z.of_nat (length l) → msg_ok (h ++ l).
Proof.
  intros (Hh & Hl & Hs) Hb Hn. split; [by apply Forall_app_2|]. rewrite msg_size_app, length_app, Hl by done. lia.
Qed.

Lemma le32_u8 z : Forall is_u8 (le32 z).
Proof. unfold le32. repeat (apply Forall_cons; split; [apply u8_range|]). by apply Forall_nil. Qed.
Lemma le16_u8 z : Forall is_u8 (le16 z).
Proof. unfold le16. repeat (apply Forall_cons; split; [apply u8_range|]). by apply Forall_nil. Qed.
#[local] Hint Resolve le32_u8 le16_u8 u8_range : cfs.

Lemma bind_u8 {A} (f : A → Message) l : (∀ x, Forall is_u8 (f x)) → Forall is_u8 (l ≫= f).
Proof. intros Hf. induction l as [|x l IH]; [by apply Forall_nil|]. cbn. by apply Forall_app_2. Qed.
Lemma bind_length {A} (f : A → Message) l n : (∀ x, length (f x) = n) → length (l ≫= f) = (n * length l)%nat.
Proof. intros Hf. induction l as [|x l IH]; [cbn; lia|]. cbn. rewrite length_app, Hf, IH. cbn. lia. Qed.

Lemma depth_u8 p : Forall is_u8 (depth_bytes p).
Proof. unfold depth_bytes. repeat apply Forall_app_2; eauto with cfs. Qed.
Lemma entry_u8 e : Forall is_u8 (entry_bytes e).
Proof. unfold entry_bytes. repeat apply Forall_app_2; eauto with cfs. repeat (apply Forall_cons; split; [first [apply u8_range|done]|]). by apply Forall_nil. Qed.

Lemma hk_packet_ok h t : task_ok t → msg_ok (hk_packet h t).
Proof.
  intros Ht. eapply header_packet_ok; [apply Ht| |].
  - repeat apply Forall_app_2; eauto with cfs. apply Forall_fmap. by repeat (apply Forall_cons; split; [apply u8_range|]).
  - rewrite !length_app, length_fmap. unfold sizeof_HKTlm. cbn. lia.
Qed.

Lemma stat_packet_ok k t : task_ok t → msg_ok (stat_packet k t).
Proof.
  intros Ht. eapply header_packet_ok; [apply Ht| |].
  - apply Forall_app_2; apply bind_u8; auto using le32_u8, depth_u8.
  - rewrite length_app, (bind_length _ (ta_PipeDepthStats t) 12), (to_depth _ Ht) by done. unfold sizeof_StatTlm. cbn. lia.
Qed.

Lemma prev_packet_ok t : task_ok t → msg_ok (prev_packet t).
Proof.
  intros Ht. eapply header_packet_ok; [apply Ht| |].
  - repeat apply Forall_app_2; eauto with cfs. apply bind_u8, entry_u8.
  - rewrite !length_app, (bind_length _ (ta_Entry t) 12), (to_entry _ Ht) by done. unfold sizeof_AllSubsTlm. cbn. lia.
Qed.

(** *** The list of subscriptions in the bytes of a packet *)

Definition prev_segment (m : Message) : Z := get32 m 16.
Definition prev_count (m : Message) : Z := get32 m 24.
Definition prev_ids (m : Message) : list Z := (λ i, get32 m (28 + 12 * i)) <$> seq 0 (Z.to_nat (prev_count m)).

Lemma le32_sum z : is_u32 z → u8 z + 2 ^ 8 * u8 (Z.shiftr z 8) + 2 ^ 16 * u8 (Z.shiftr z 16) + 2 ^ 24 * u8 (Z.shiftr z 24) = z.
Proof. intros Hz. unfold is_u32, u8 in *. rewrite !Z.shiftr_div_pow2 by done. Z.div_mod_to_equations. lia. Qed.

Lemma get32_le32 pre z post off : length pre = off → is_u32 z → get32 (pre ++ le32 z ++ post) off = z.
Proof.
  intros <- Hz. assert (Hk : ∀ k, (pre ++ le32 z ++ post) !!! (length pre + k)%nat = (le32 z ++ post) !!! k).
  { intros k. rewrite lookup_total_app_r by lia. f_equal. lia. }
  unfold get32. rewrite !Hk. rewrite <- (Nat.add_0_r (length pre)), Hk. by apply le32_sum.
Qed.

Lemma pkt_decode t ids : task_ok t → 0 <= ta_Entries t <= 20 → is_u32 (ta_PktSegment t) →
  ids = take (Z.to_nat (ta_Entries t)) (se_MsgId <$> ta_Entry t) → Forall is_u32 ids →
  prev_segment (prev_packet t) = ta_PktSegment t ∧ prev_count (prev_packet t) = ta_Entries t ∧ prev_ids (prev_packet t) = ids.
Proof.
  intros Ht Hn Hs Ei Hu. destruct (to_prev _ Ht) as (_ & Hl & _).
  assert (Ec : prev_count (prev_packet t) = ta_Entries t).
  { unfold prev_count, prev_packet. rewrite !(assoc_L (++)), <- (assoc_L (++)). apply get32_le32; [rewrite !length_app, Hl; done|unfold is_u32; lia]. }
  split_and!; [unfold prev_segment, prev_packet; by apply get32_le32|exact Ec|]. unfold prev_ids. rewrite Ec. pose proof (to_entry _ Ht) as Hle. apply list_eq. intros i. rewrite list_lookup_fmap.
  destruct (decide (i < Z.to_nat (ta_Entries t))%nat) as [Hi|Hi].
  - rewrite lookup_seq_lt by done. cbn [fmap option_fmap option_map]. rewrite Nat.add_0_l. destruct (lookup_lt_is_Some_2 (ta_Entry t) i) as [e He]; [lia|].
    assert (Em : ids !! i = Some (se_MsgId e)) by (rewrite Ei, lookup_take_lt, list_lookup_fmap, He by done; done).
    rewrite Em. f_equal. unfold prev_packet. pose proof (take_drop_middle _ _ _ He) as El. rewrite <- El at 1.
    rewrite bind_app, bind_cons. unfold entry_bytes at 2. rewrite <- (assoc_L (++) (le32 (se_MsgId e))). rewrite !(assoc_L (++) _ _ (le32 (se_MsgId e) ++ _)).
    apply get32_le32.
    + rewrite !length_app, (bind_length _ _ 12), length_take by done. rewrite Hl. cbn [length le32]. lia.
    + by apply (Forall_lookup_1 _ _ _ _ Hu Em).
  - rewrite lookup_seq_ge by lia. rewrite Ei, lookup_take_ge by lia. done.
Qed.

(** What happens to the task: its start, a command of its pipe, and the calls of the
    background writer, for a record, for an event and at the end of a file. *)
Inductive task_call :=
| TaskInit (c : Caller) (e : AppInitEnv)
| TaskCommand (c : Caller) (now : Z * Z) (Request : Z) (m : Message)
| RouteRecord (AppTable : list CFE_ES_AppRecord_t) (RecordNum : nat)
| PipeRecord (AppTable : list CFE_ES_AppRecord_t) (RecordNum : nat)
| MapRecord (RecordNum : nat)
| FileEvent (ev : CFE_FS_FileWriteEvent_t)
| FileDone.

(** The task is known to the executive, a command is a message in memory, and the
    record numbers are those of a writer that stops at the end of the file. *)
Definition task_call_ok (k : task_call) : Prop :=
  match k with
  | TaskInit c _ => caller_ok c
  | TaskCommand c _ _ m => caller_ok c ∧ msg_ok m
  | RouteRecord _ i | PipeRecord _ i | MapRecord i => Z.of_nat i < 2 ^ 15
  | FileEvent _ | FileDone => True
  end.

Section ops.
Context {PS QS : Type} `{MemPoolOK PS} `{OSQueueOK QS} `{MsgMapOK} `{BuildCfg}.
Abbreviation G := (CFE_SB_Global_t PS QS).
Abbreviation S := (SBSys PS QS).
Implicit Types (s : S).

Lemma insert_header n h i x : header_ok n h → (5 < i)%nat → is_u8 x → header_ok n (<[i := x]> h).
Proof.
  intros (Hh & Hl & Hs) Hi Hx. split_and!; [by apply Forall_insert|by rewrite length_insert|]. by rewrite msg_size_insert by lia.
Qed.

Lemma timestamp_ok now n h : header_ok n h → header_ok n (CFE_SB_TimeStampMsg now h).
Proof.
  intros Hh. unfold CFE_SB_TimeStampMsg, CFE_MSG_SetMsgTime. destruct (sechdr_is h CFE_MSG_Type_Tlm); [|done]. destruct now as [x y]. cbn.
  assert (∀ z, is_u8 (Z.land z 0xFF)) as Hz by (intros z; change 0xFF with (Z.ones 8); rewrite Z.land_ones by done; apply Z.mod_pos_bound; done).
  repeat (apply insert_header; [|destruct cfg_hdr; cbn; lia|apply Hz]). done.
Qed.

Lemma tlm_header_ok mid n : (mid, n) ∈ [(CFE_SB_HK_TLM_MID, sizeof_HKTlm); (CFE_SB_STATS_TLM_MID, sizeof_StatTlm); (CFE_SB_ALLSUBS_TLM_MID, sizeof_AllSubsTlm)] →
  header_ok n (tlm_header mid n).
Proof.
  intros Hm. unfold tlm_header, CFE_MSG_Init, memset0, header_ok, sizeof_TlmHeader.
  assert (∀ z, is_u8 (u16 z / 2 ^ 8) ∧ is_u8 (z mod 2 ^ 8)) as Hu.
  { intros z. pose proof (u16_range z). pose proof (u8_range z). unfold is_u16, is_u8, u8 in *. split; [|done]. Z.div_mod_to_equations. lia. }
  destruct (Hu cfg_spacecraft) as [Hu1 Hu2].
  assert (replicate (Z.to_nat n) 0 ++ drop (Z.to_nat n) (replicate (Z.to_nat n) 0) = replicate 10 0 ++ replicate (Z.to_nat n - 10) 0) as ->.
  { rewrite drop_replicate, Nat.sub_diag, app_nil_r, <- replicate_add. f_equal. set_unfold in Hm. destruct_or! Hm; simplify_eq; done. }
  destruct cfg_hdr; [|rewrite initdefault_ext; revert Hu1 Hu2; generalize (u16 cfg_spacecraft / 2 ^ 8), (cfg_spacecraft mod 2 ^ 8);
    intros x y Hx Hy]; destruct cfg_msgid.
  all: set_unfold in Hm; destruct_or! Hm; simplify_eq.
  all: match goal with |- context [take 16 ?m] => let v := eval vm_compute in (take 16 m) in
    assert (take 16 m = v) as -> by (vm_compute; reflexivity) end.
  all: split_and!; [|done|by vm_compute]; repeat (apply Forall_cons; split; [first [done|by vm_compute]|]); by apply Forall_nil.
Qed.

(** ** Steps of the task *)

Lemma wp_bus {A} (c : M G A) Q s : wp c (λ a g, Q a (s <| Bus := g |>)) (Bus s) → wp (bus c) Q s.
Proof. unfold wp, bus. by destruct (c (Bus s)) as [[a g]|]. Qed.
Lemma wp_task f Q s : Q tt (s <| Task ::= f |>) → wp (task f) Q s.
Proof. done. Qed.
Lemma wp_sevent id ty Q s : Locked (Bus s) = false → Q tt (s <| Bus ::= λ g, g <| Events ::= λ es, es ++ [mkEvent id ty None] |> |>) → wp (event id ty) Q s.
Proof. intros Hl HQ. unfold event. apply wp_bus, wp_event; [done|exact HQ]. Qed.

(** Taking the mutex and giving it back. *)
Lemma relock (g : G) : Locked g = false → g <| Locked := true |> <| Locked := false |> = g.
Proof. intros E. destruct g. cbn in *. by subst. Qed.

Lemma unlock_eq (g g1 : G) : g1 = g <| Locked := true |> → Locked g = false → g1 <| Locked := false |> = g.
Proof. intros -> E. by apply relock. Qed.

(** ** Routes *)

(** What the commands do to the subscriptions: a wrong parameter, a route that does not
    exist, or the state of the subscription set. *)
Inductive route_step (tbl : ptable) (ids : list Z) (tb : list dlist) (MsgId Pipe Active E1 E2 E3 : Z) : Z → list dlist → Prop :=
| rt_bad_arg : CFE_SB_IsValidMsgId MsgId = false ∨ find_pipe tbl Pipe = None → route_step tbl ids tb MsgId Pipe Active E1 E2 E3 E3 tb
| rt_none : CFE_SB_IsValidMsgId MsgId = true → is_Some (find_pipe tbl Pipe) →
    (∀ i l, ids !! i = Some MsgId → tb !! i = Some l → Pipe ∉ dest_pipes l) →
    route_step tbl ids tb MsgId Pipe Active E1 E2 E3 E1 tb
| rt_set i l1 a y l2 : CFE_SB_IsValidMsgId MsgId = true → is_Some (find_pipe tbl Pipe) →
    ids !! i = Some MsgId → tb !! i = Some (l1 ++ (a, y) :: l2) → dd_PipeId y = Pipe →
    route_step tbl ids tb MsgId Pipe Active E1 E2 E3 E2 (<[i := l1 ++ (a, y <| dd_Active := Active |>) :: l2]> tb).

Definition cmd_count (ok : bool) (k : HKTlm_Payload) : HKTlm_Payload :=
  if ok then k <| CommandCounter ::= incr 8 |> else k <| CommandErrorCounter ::= incr 8 |>.

(** The bus after a route command: only the destinations, the counters and the events change. *)
Record route_post (tb' : list dlist) (ok : bool) (ev : Event) (g g' : G) : Prop := {
  rp_inv : sb_inv tb' [] None NULL g';
  rp_locked : Locked g' = false;
  rp_eq : ∃ D, g' = g <| Dests := D |> <| HK ::= cmd_count ok |> <| Events ::= λ es, es ++ [ev] |>;
}.

Lemma route_post_events tb' ok ev g g' : route_post tb' ok ev g g' → Events g' = Events g ++ [ev].
Proof. by intros [_ _ [D ->]]. Qed.

Lemma wp_set_active tb i l1 a y l2 Active Q (g : G) : sb_inv tb [] None NULL g → tb !! i = Some (l1 ++ (a, y) :: l2) →
  (∀ D, sb_inv (<[i := l1 ++ (a, y <| dd_Active := Active |>) :: l2]> tb) [] None NULL (g <| Dests := D |>) → Q tt (g <| Dests := D |>)) →
  wp (wr_dest a (λ d, d <| dd_Active := Active |>)) Q g.
Proof.
  intros Hi Hl HQ. assert (Ep : dd_PipeId (y <| dd_Active := Active |>) = dd_PipeId y) by done.
  destruct (routes_payload _ _ _ _ _ _ _ _ _ (in_routes _ _ _ _ _ Hi) Hl Ep) as [Ed _].
  eapply wp_wr_dest; [exact Ed|]. exact (HQ _ (inv_payload _ _ _ _ _ _ _ _ _ _ _ Hi Hl Ep)).
Qed.

Lemma wp_route_cmd Active E1 E2 E3 MsgId Pipe tb Q s : E1 ≠ E2 → E3 ≠ E2 → Locked (Bus s) = false → sb_inv tb [] None NULL (Bus s) → is_u32 MsgId →
  (∀ ev tb' g, route_step (PipeTbl (Bus s)) (msgids (Routes (Bus s))) tb MsgId Pipe Active E1 E2 E3 ev tb' →
     route_post tb' (ev =? E2) (mkEvent ev (if ev =? E2 then CFE_EVS_EventType_DEBUG else CFE_EVS_EventType_ERROR) None) (Bus s) g →
     Q CFE_SUCCESS (s <| Bus := g |>)) →
  wp (route_cmd Active E1 E2 E3 MsgId Pipe) Q s.
Proof.
  intros N1 N3 Hlk Hi Hid HQ. pose proof (in_routes _ _ _ _ _ Hi) as Hri. unfold route_cmd. wp_step. apply wp_bus.
  assert (∀ ev tb' g1, (∃ D, g1 = (Bus s) <| Locked := true |> <| Dests := D |>) →
    route_step (PipeTbl (Bus s)) (msgids (Routes (Bus s))) tb MsgId Pipe Active E1 E2 E3 ev tb' → sb_inv tb' [] None NULL g1 →
    wp (CFE_SB_UnlockSharedData;; mret ev)
      (λ a (g : G), wp (event a (if a =? E2 then CFE_EVS_EventType_DEBUG else CFE_EVS_EventType_ERROR);; mret CFE_SUCCESS) Q (s <| Bus := g |>))
      (g1 <| HK ::= cmd_count (ev =? E2) |>)) as Hend.
  { intros ev tb' g1 [D ->] Hst Hi'. wp_step. apply wp_unlock; [done|]. wp_step. wp_step. apply wp_sevent; [done|]. wp_step.
    eapply (HQ ev tb'); [done|]. split; [by destruct Hi'|done|]. exists D. destruct (Bus s). cbn in *. by subst. }
  wp_step. apply wp_lock; [done|]. apply (inv_locked _ _ _ _ _ true) in Hi. set (g := (Bus s) <| Locked := true |>) in *.
  assert (Hsame : ∃ D, g = (Bus s) <| Locked := true |> <| Dests := D |>) by (exists (Dests (Bus s)); unfold g; by destruct (Bus s)).
  pose proof (λ H, Hend E3 tb g Hsame H Hi) as He3. pose proof (λ H, Hend E1 tb g Hsame H Hi) as He1.
  rewrite (proj2 (Z.eqb_neq E3 E2)) in He3 by done. rewrite (proj2 (Z.eqb_neq E1 E2)) in He1 by done. cbv zeta. wp_step.
  destruct (find_pipe (PipeTbl g) Pipe) as [[j p]|] eqn:Ep.
  2:{ apply wp_match_false; [apply (in_pipes _ _ _ _ _ Hi)|done|]. wp_step. rewrite orb_true_r. wp_step. apply wp_hk. wp_step. apply He3.
      apply rt_bad_arg. by right. }
  destruct (find_pipe_Some _ _ _ _ Ep) as (El & Hp & Epid & _). rewrite El. eapply wp_match_true; [exact Hp|done|].
  wp_step. destruct (CFE_SB_IsValidMsgId MsgId) eqn:Hv; cbn [negb orb].
  2:{ wp_step. apply wp_hk. wp_step. apply He3. apply rt_bad_arg. by left. }
  wp_step. eapply wp_GetRouteId; [exact Hi|done|]. wp_step.
  destruct (decide (MsgId ∈ msgids (Routes g))) as [Hin|Hin].
  - destruct (inv_route _ _ _ _ _ _ Hi Hin) as (r & l & R1 & R2 & R3 & _). rewrite R1. eapply wp_GetDestPtr; [apply Hi|done|].
    pose proof (dlist_nonnull _ _ _ _ _ Hri R3) as Hnn. destruct (Z.eqb_spec (find_dest l Pipe) NULL) as [En|En].
    + wp_step. apply wp_hk. wp_step. apply He1. apply rt_none; [done|by eexists|]. intros i l' Hi1 Hl1.
      assert (i = r) as -> by (eapply NoDup_lookup; [apply (wf_nodup _ (inv_wf _ (ri_sbr _ _ _ Hri)))|done..]).
      replace l' with l by congruence. by apply find_dest_null.
    + destruct (find_dest_split l Pipe Hnn En) as (l1 & y & l2 & E' & Hy & _). rewrite E' in R3. wp_step.
      eapply wp_set_active; [exact Hi|exact R3|]. intros D HiD. wp_step. apply wp_hk. wp_step.
      pose proof (Hend E2 _ _ (ex_intro _ D eq_refl) (rt_set _ _ _ _ _ Active E1 E2 E3 r l1 _ y l2 Hv (ex_intro _ _ Ep) R2 R3 Hy) HiD) as He2. by rewrite Z.eqb_refl in He2.
  - rewrite (route_of_absent _ _ Hin). apply wp_GetDestPtr_invalid. zred. wp_step. apply wp_hk. wp_step. apply He1.
    apply rt_none; [done|by eexists|]. intros i l Hl. by destruct (Hin (list_elem_of_lookup_2 _ _ _ Hl)).
Qed.

(** ** Packets sent *)

Definition dest_scopes (l : dlist) : list Z := (λ x, dd_Scope x.2) <$> l.
Definition scopes (tb : list dlist) : list (list Z) := dest_scopes <$> tb.

(** What a transmission leaves as it was for the task. *)
Record tx_frame (tb : list dlist) (g : G) (tb' : list dlist) (g' : G) : Prop := {
  tf_inv : sb_inv tb' [] None NULL g';
  tf_locked : Locked g' = false;
  tf_scopes : scopes tb' = scopes tb;
  tf_ids : msgids (Routes g') = msgids (Routes g);
}.

Lemma upd_dests_scopes outs l P : Forall2 P l.*2 outs → dest_scopes (upd_dests outs l) = dest_scopes l.
Proof.
  revert outs. induction l as [|x l IH]; intros outs Hf; inversion Hf as [|? o ? outs' _ Hf']; subst; [done|].
  unfold upd_dests, dest_scopes in *. cbn. rewrite IH by done. f_equal. by destruct o.
Qed.

Lemma broadcast_msgids AppId a b held tb i l e outs g1 g' : broadcast_post AppId a b held tb i l e outs g1 g' → msgids (Routes g') = msgids (Routes g1).
Proof.
  intros Hb. change (MsgId <$> entries (Routes g') = MsgId <$> entries (Routes g1)). rewrite (bp_entries _ _ _ _ _ _ _ _ _ _ _ Hb).
  apply list_eq. intros j. rewrite !list_lookup_fmap. destruct (decide (i = j)) as [<-|]; [|by rewrite list_lookup_alter_ne].
  rewrite list_lookup_alter_eq. destruct (entries (Routes g1) !! i); [|done]. cbn. unfold next_seq. by repeat case_match.
Qed.

Lemma transmit_frame c m inc tb g st g' : Locked g = false → transmit_post c m inc tb g st g' → ∃ tb', tx_frame tb g tb' g'.
Proof.
  intros Hlk [st' h es p s' Hi _|m' i l e a outs s1 s' _ _ _ Hl _ _ _ _ _ ER _ _ _ Hb]; [exists tb; by split|].
  exists (<[i := upd_dests outs l]> tb). split; [by eapply bp_inv|by eapply bp_locked| |].
  - unfold scopes. rewrite list_fmap_insert, (upd_dests_scopes _ _ _ (bp_ok _ _ _ _ _ _ _ _ _ _ _ Hb)).
    apply list_insert_id. by rewrite list_lookup_fmap, Hl.
  - rewrite (broadcast_msgids _ _ _ _ _ _ _ _ _ _ _ Hb). by rewrite ER.
Qed.

Lemma run_transmit c m tb g : caller_ok c → msg_ok m → Locked g = false → sb_inv tb [] None NULL g →
  ∃ st g' tb', CFE_SB_TransmitMsg c (Some m) true g = Some (st, g') ∧ tx_frame tb g tb' g'.
Proof.
  intros Hc Hm Hlk Hi. destruct (wp_inv (CFE_SB_TransmitMsg c (Some m) true) (λ st g', ∃ tb', tx_frame tb g tb' g') g) as (st & g' & E & tb' & Hf).
  { eapply wp_TransmitMsg; [done|done|exact Hi|done|]. intros st g' Ht. by eapply transmit_frame. }
  eauto.
Qed.

(** Messages sent one after the other by [c], each followed by an event. *)
Inductive sends (c : Caller) : G → list Message → G → Prop :=
| sends_nil g : sends c g [] g
| sends_cons g m st g1 ev ms g2 : CFE_SB_TransmitMsg c (Some m) true g = Some (st, g1) →
    sends c (g1 <| Events ::= λ es, es ++ [ev] |>) ms g2 → sends c g (m :: ms) g2.

Lemma sends_snoc c g ms g1 m st g2 ev : sends c g ms g1 → CFE_SB_TransmitMsg c (Some m) true g1 = Some (st, g2) →
  sends c g (ms ++ [m]) (g2 <| Events ::= λ es, es ++ [ev] |>).
Proof. induction 1 as [g|g m' st' g1' ev' ms g2' E _ IH]; intros E'; [eapply sends_cons; [exact E'|apply sends_nil]|]. eapply sends_cons; [exact E|]. by apply IH. Qed.

Lemma frame_event tb g tb' g' f : tx_frame tb g tb' g' → tx_frame tb g tb' (g' <| Events ::= f |>).
Proof. intros []. split; try done. by apply inv_events. Qed.
Lemma frame_trans tb g tb1 g1 tb2 g2 : tx_frame tb g tb1 g1 → tx_frame tb1 g1 tb2 g2 → tx_frame tb g tb2 g2.
Proof. intros [] []. split; try done; congruence. Qed.

(** ** All subscriptions *)

Definition pkt_ids (t : SB_Task_t) : list Z := take (Z.to_nat (ta_Entries t)) (se_MsgId <$> ta_Entry t).

(** The packets of one request: numbered from one, all but the last one full. *)
Record packets (hdr : Message) (ts : list SB_Task_t) : Prop := {
  pk_ok : Forall task_ok ts;
  pk_hdr : Forall (λ t, ta_PrevHdr t = hdr) ts;
  pk_seg k t : ts !! k = Some t → ta_PktSegment t = Z.of_nat k + 1;
}.

(** While the routes are visited: [ts] were sent, [ids] are the identifiers found so far. *)
Record collecting (c : Caller) (tb0 : list dlist) (g0 : G) (hdr : Message) (ids : list Z) (ts : list SB_Task_t) (s : S) : Prop := {
  cl_pkts : packets hdr ts;
  cl_full : Forall (λ t, ta_Entries t = 20) ts;
  cl_task : task_ok (Task s);
  cl_hdr : ta_PrevHdr (Task s) = hdr;
  cl_seg : ta_PktSegment (Task s) = Z.of_nat (length ts) + 1;
  cl_n : 0 <= ta_Entries (Task s) < 20;
  cl_ids : ids = (ts ≫= pkt_ids) ++ pkt_ids (Task s);
  cl_bus : ∃ g tb, Bus s = g <| Locked := true |> ∧ sends c g0 (prev_packet <$> ts) g ∧ tx_frame tb0 g0 tb g;
}.

Lemma packets_snoc hdr ts t : packets hdr ts → task_ok t → ta_PrevHdr t = hdr → ta_PktSegment t = Z.of_nat (length ts) + 1 → packets hdr (ts ++ [t]).
Proof.
  intros [] Ht Hh Hs. split; [apply Forall_app; split; [done|by apply Forall_singleton]..|].
  intros k t' Hk. apply lookup_app_Some in Hk as [Hk|[Hle Hk]]; [eauto|]. apply list_lookup_singleton_Some in Hk as [Hk <-]. rewrite Hs. lia.
Qed.

Lemma full_length ts : Forall task_ok ts → Forall (λ t, ta_Entries t = 20) ts → length (ts ≫= pkt_ids) = (20 * length ts)%nat.
Proof.
  induction 1 as [|t ts Ht _ IH]; intros Hf; [done|]. inversion_clear Hf as [|? ? E Hf']. cbn. rewrite length_app, IH by done.
  unfold pkt_ids at 1. rewrite E, length_take, length_fmap, (to_entry _ Ht). lia.
Qed.

Lemma wp_wr_entry i f Q s : 0 <= i < Z.of_nat (length (ta_Entry (Task s))) →
  Q tt (s <| Task ::= λ t, t <| ta_Entry ::= alter f (Z.to_nat i) |> |>) → wp (wr_entry i f) Q s.
Proof. intros Hi HQ. unfold wr_entry. wp_steps. eapply wp_of_option; [by apply tbl_upd_Some|]. by apply wp_task. Qed.

Lemma list_alter_alter {A} (f h : A → A) (i : nat) (l : list A) : alter f i (alter h i l) = alter (λ x, f (h x)) i l.
Proof. revert i. induction l as [|x l IH]; intros [|i]; cbn; [done..|]. f_equal. apply IH. Qed.

(** The packet with one more entry. *)
Definition put_entry (i : nat) (m : Z) (t : SB_Task_t) : SB_Task_t :=
  t <| ta_Entry ::= alter (λ e, mkSubEntry m 0 0 (se_Pipe e)) i |> <| ta_Entries := Z.of_nat i + 1 |>.

Lemma put_entry_ids i m t : task_ok t → ta_Entries t = Z.of_nat i → (i < 20)%nat → pkt_ids (put_entry i m t) = pkt_ids t ++ [m] ∧ task_ok (put_entry i m t).
Proof.
  intros Ht Ei Hi. pose proof (to_entry _ Ht) as Hl. split.
  - unfold pkt_ids. cbn. rewrite Ei. replace (Z.to_nat (Z.of_nat i + 1)) with (Datatypes.S i) by lia. rewrite Nat2Z.id.
    destruct (lookup_lt_is_Some_2 (ta_Entry t) i) as [e He]; [lia|]. rewrite (list_alter_at _ _ _ e He), list_fmap_insert. cbn.
    rewrite (take_S_r _ _ m) by (apply list_lookup_insert_eq; rewrite length_fmap; lia). by rewrite take_insert, decide_False by lia.
  - destruct Ht. split; try done. cbn. by rewrite length_alter.
Qed.

Lemma wp_send_full c tb0 g0 hdr ids ts s Q : caller_ok c → packets hdr ts → Forall (λ t, ta_Entries t = 20) ts → (length ts < 256)%nat →
  task_ok (Task s) → ta_PrevHdr (Task s) = hdr → ta_PktSegment (Task s) = Z.of_nat (length ts) + 1 → ta_Entries (Task s) = 20 →
  ids = (ts ≫= pkt_ids) ++ pkt_ids (Task s) → (∃ g tb, Bus s = g <| Locked := true |> ∧ sends c g0 (prev_packet <$> ts) g ∧ tx_frame tb0 g0 tb g) →
  (∀ s', collecting c tb0 g0 hdr ids (ts ++ [Task s]) s' → Q tt s') → wp (send_full c) Q s.
Proof.
  intros Hc Hp Hf Hlt Ht Hh Hs Hn -> (g & tb & Eg & Hsend & Hfr) HQ. unfold send_full. wp_step. apply wp_bus, wp_unlock; [by rewrite Eg|].
  rewrite (unlock_eq _ _ Eg (tf_locked _ _ _ _ Hfr)). wp_go. apply wp_bus. cbn [Bus Task].
  destruct (run_transmit c (prev_packet (Task s)) tb g) as (st & g' & tb' & E & Hfr'); [done|by apply prev_packet_ok|apply Hfr..|].
  eapply wp_eq; [exact E|]. wp_go. apply wp_sevent; [apply Hfr'|]. wp_go. apply wp_bus, wp_lock; [apply Hfr'|]. wp_go. apply wp_task. wp_go. apply wp_task.
  apply HQ. split; cbn.
  - by apply packets_snoc.
  - apply Forall_app. split; [done|]. by apply Forall_singleton.
  - by destruct Ht.
  - done.
  - rewrite Hs, length_app. cbn. rewrite u32_small by (unfold is_u32; lia). lia.
  - lia.
  - rewrite bind_app. cbn. by rewrite !app_nil_r.
  - exists (g' <| Events ::= λ es, es ++ [mkEvent CFE_SB_FULL_SUB_PKT_EID CFE_EVS_EventType_DEBUG None] |>), tb'. split_and!; [done| |].
    + rewrite fmap_app. by eapply sends_snoc.
    + apply frame_event. by eapply frame_trans.
Qed.

Lemma wp_add_entry c tb0 g0 hdr ids ts s i m Q : caller_ok c → collecting c tb0 g0 hdr ids ts s → (length ids < 256)%nat → msgids (Routes g0) !! i = Some m →
  (∀ ts' s', collecting c tb0 g0 hdr (ids ++ [m]) ts' s' → Q tt s') → wp (add_entry c (Z.of_nat i + 1)) Q s.
Proof.
  intros Hc [Hp Hf Ht Hh Hs Hn Hids (g & tb & Eg & Hsend & Hfr)] Hlt Hm HQ. unfold add_entry. wp_go. apply wp_bus. eapply (wp_sbr _ m (Routes (Bus s))).
  { rewrite Eg. apply GetMsgId_spec; [apply (inv_wf _ (ri_sbr _ _ _ (in_routes _ _ _ _ _ (tf_inv _ _ _ _ Hfr))))|lia|].
    change (Routes (g <| Locked := true |>)) with (Routes g). rewrite (tf_ids _ _ _ _ Hfr). by replace (Z.to_nat (Z.of_nat i + 1 - 1)) with i by lia. }
  cbn. pose proof (to_entry _ Ht) as Hl.
  do 3 (wp_step; apply wp_wr_entry; [cbn; rewrite ?length_alter; lia|]). wp_step. apply wp_task. wp_go. cbn.
  set (k := Z.to_nat (ta_Entries (Task s))). assert (Ek : ta_Entries (Task s) = Z.of_nat k) by (unfold k; lia).
  match goal with |- wp _ _ ?s1 => assert (E1 : Bus s1 = Bus s ∧ Task s1 = put_entry k m (Task s)) end.
  { split; [by destruct s as [[] ?]|]. cbn. rewrite !list_alter_alter. unfold put_entry. rewrite Ek, u32_small by (unfold is_u32; lia).
    by destruct (Task s). }
  match goal with |- wp _ _ ?s1 => generalize dependent s1 end. intros s1 [EB ET].
  destruct (put_entry_ids k m (Task s) Ht Ek) as [Ei Ht1]; [lia|]. rewrite <- ET in Ei, Ht1.
  assert (En : ta_Entries (Task s1) = Z.of_nat k + 1) by by rewrite ET. assert (Eh1 : ta_PrevHdr (Task s1) = hdr) by by rewrite ET.
  assert (Es1 : ta_PktSegment (Task s1) = Z.of_nat (length ts) + 1) by by rewrite ET.
  assert (Eids : ids ++ [m] = (ts ≫= pkt_ids) ++ pkt_ids (Task s1)) by by rewrite Hids, Ei, (assoc_L (++)).
  pose proof (full_length ts (pk_ok _ _ Hp) Hf) as Hlen. rewrite Hids, length_app in Hlt.
  replace (u32 (ta_Entries (Task s) + 1)) with (Z.of_nat k + 1) by (rewrite Ek, u32_small by (unfold is_u32; lia); done).
  destruct (Z.leb_spec CFE_SB_SUB_ENTRIES_PER_PKT (Z.of_nat k + 1)) as [Hle|Hgt]; unfold CFE_SB_SUB_ENTRIES_PER_PKT in *.
  - apply wp_when_true; [done|]. eapply (wp_send_full _ tb0 g0 hdr (ids ++ [m]) ts); try done; [lia|lia| |].
    + exists g, tb. by rewrite EB.
    + intros s'. apply HQ.
  - apply wp_when_false; [done|]. apply (HQ ts). split; try done; [lia|]. exists g, tb. by rewrite EB.
Qed.

Lemma route_sub_loop_spec c rid s l p fuel : chain mkd (Dests (Bus s)) p l NULL → Forall (λ x, x.1 ≠ NULL) l → (length l ≤ fuel)%nat →
  route_sub_loop fuel c rid (hd NULL l.*1) s = (if decide (CFE_SB_MSG_GLOBAL ∈ dest_scopes l) then add_entry c rid else mret tt) s.
Proof.
  revert p fuel. induction l as [|[a y] l IH]; intros p fuel Hc Hz Hf; [by destruct fuel|].
  destruct fuel as [|fuel]; [cbn in Hf; lia|]. inversion_clear Hz as [|? ? Ha Hz']. cbn in Ha.
  destruct Hc as [E Hc]. cbn [hd fst snd fmap list_fmap map route_sub_loop].
  rewrite (proj2 (Z.eqb_neq a NULL)) by done. unfold mbind at 1, M_bind at 1, bus at 1, rd_dest. rewrite E. cbn [of_option].
  unfold mret at 1, M_ret at 1. cbn beta match.
  change (dd_Scope (mkd y p (hd NULL l.*1))) with (dd_Scope y). change (dd_Next (mkd y p (hd NULL l.*1))) with (hd NULL l.*1).
  assert (Es : s <| Bus := Bus s |> = s) by by destruct s. rewrite Es. unfold dest_scopes. rewrite fmap_cons. cbn [snd].
  destruct (Z.eqb_spec (dd_Scope y) CFE_SB_MSG_GLOBAL) as [Eg|Eg].
  - rewrite decide_True; [done|]. rewrite Eg. by left.
  - rewrite (IH a) by (done || (cbn in Hf; lia)). fold (dest_scopes l).
    destruct (decide (CFE_SB_MSG_GLOBAL ∈ dest_scopes l)) as [Hin|Hin].
    + rewrite decide_True; [done|by right].
    + rewrite decide_False; [done|]. intros [?|?]%elem_of_cons; congruence.
Qed.

(** The identifiers with a global subscription, in the order of the routes. *)
Definition global_ids (ids : list Z) (scs : list (list Z)) : list Z := (filter (λ x, CFE_SB_MSG_GLOBAL ∈ x.2) (zip ids scs)).*1.

Lemma global_snoc ids scs i m sc : ids !! i = Some m → scs !! i = Some sc →
  global_ids (take (Datatypes.S i) ids) (take (Datatypes.S i) scs) =
  global_ids (take i ids) (take i scs) ++ (if decide (CFE_SB_MSG_GLOBAL ∈ sc) then [m] else []).
Proof.
  intros Hm Hs. unfold global_ids. rewrite (take_S_r _ _ _ Hm), (take_S_r _ _ _ Hs). pose proof (lookup_lt_Some _ _ _ Hm). pose proof (lookup_lt_Some _ _ _ Hs).
  rewrite zip_with_app by (rewrite !length_take; lia). rewrite filter_app, fmap_app. f_equal. cbn. by case_decide.
Qed.

Lemma global_length ids scs : (length (global_ids ids scs) ≤ length ids)%nat.
Proof. unfold global_ids. rewrite length_fmap. etrans; [apply length_filter|]. rewrite length_zip_with. lia. Qed.

Lemma collecting_route c tb0 g0 hdr ids ts s i sc : collecting c tb0 g0 hdr ids ts s → scopes tb0 !! i = Some sc →
  ∃ g tb l, Bus s = g <| Locked := true |> ∧ routes_inv (Routes (Bus s)) (Dests (Bus s)) tb ∧ tb !! i = Some l ∧ dest_scopes l = sc.
Proof.
  intros [_ _ _ _ _ _ _ (g & tb & Eg & _ & Hfr)] Hsc. rewrite <- (tf_scopes _ _ _ _ Hfr) in Hsc.
  unfold scopes in Hsc. rewrite list_lookup_fmap in Hsc. apply fmap_Some in Hsc as (l & Hl & ->).
  exists g, tb, l. rewrite Eg. split_and!; [done|exact (in_routes _ _ _ _ _ (tf_inv _ _ _ _ Hfr))|done..].
Qed.

Lemma wp_SendRouteSub c tb0 g0 hdr ts s i Q : let ids := msgids (Routes g0) in let scs := scopes tb0 in
  caller_ok c → (length ids ≤ 256)%nat → (i < length ids)%nat → length scs = length ids →
  collecting c tb0 g0 hdr (global_ids (take i ids) (take i scs)) ts s →
  (∀ ts' s', collecting c tb0 g0 hdr (global_ids (take (Datatypes.S i) ids) (take (Datatypes.S i) scs)) ts' s' → Q tt s') →
  wp (CFE_SB_SendRouteSub c (Z.of_nat i + 1)) Q s.
Proof.
  intros ids scs Hc Hl Hi Hsl Hcol HQ. destruct (lookup_lt_is_Some_2 ids i Hi) as [m Hm]. destruct (lookup_lt_is_Some_2 scs i) as [sc Hsc]; [lia|].
  destruct (collecting_route _ _ _ _ _ _ _ _ _ Hcol Hsc) as (g & tb & l & Eg & Hri & Hl' & Esc).
  unfold CFE_SB_SendRouteSub. wp_step. apply wp_bus. eapply wp_sbr_head; [exact Hri|exact Hl'|].
  assert (Es : s <| Bus := Bus s |> = s) by by destruct s. rewrite Es. wp_step. apply wp_bus. unfold dest_fuel. wp_step. rewrite Es.
  destruct (tb_route _ _ _ _ _ Hri Hl') as (e & _ & _ & Hch & _). pose proof (tb_size _ _ _ _ _ Hri Hl').
  unfold wp. erewrite route_sub_loop_spec; [|exact Hch|by eapply dlist_nonnull|lia]. rewrite Esc.
  pose proof (global_snoc ids scs i m sc Hm Hsc) as Egl. destruct (decide (CFE_SB_MSG_GLOBAL ∈ sc)) as [Hg|Hg].
  - eapply wp_add_entry; [done|exact Hcol| |exact Hm|]; [|rewrite <- Egl; exact HQ].
    pose proof (global_length (take i ids) (take i scs)). rewrite length_take in *. lia.
  - rewrite app_nil_r in Egl. rewrite Egl in HQ. by apply (HQ ts).
Qed.

Lemma wp_foreach_sub c tb0 g0 hdr ts n i s Q : let ids := msgids (Routes g0) in let scs := scopes tb0 in
  caller_ok c → (length ids ≤ 256)%nat → (i + n = length ids)%nat → length scs = length ids →
  collecting c tb0 g0 hdr (global_ids (take i ids) (take i scs)) ts s →
  (∀ ts' s', collecting c tb0 g0 hdr (global_ids ids scs) ts' s' → Q tt s') →
  wp (foreach_loop (CFE_SB_SendRouteSub c) (Z.of_nat i) n) Q s.
Proof.
  intros ids scs Hc Hl. revert i s ts. induction n as [|n IH]; intros i s ts Hi Hsl Hcol HQ; cbn [foreach_loop].
  - wp_step. rewrite !firstn_all2 in Hcol by lia. by apply (HQ ts).
  - wp_step. unfold CFE_SBR_ValueToRouteId. rewrite !u16_small by (unfold is_u16; lia).
    replace (1 + Z.of_nat i) with (Z.of_nat i + 1) by lia. eapply wp_SendRouteSub; [done|exact Hl|fold ids; lia|exact Hsl|exact Hcol|].
    intros ts' s' Hcol'. replace (Z.of_nat i + 1) with (Z.of_nat (Datatypes.S i)) by lia. eapply IH; [lia|done|exact Hcol'|done].
Qed.

(** What the command sends: packets numbered from one that hold, one after the other, the
    identifiers with a global subscription; all but the last one are full. *)
Record listed (c : Caller) (tb : list dlist) (hdr : Message) (g : G) (ts : list SB_Task_t) (g' : G) : Prop := {
  ls_sends : sends c g (prev_packet <$> ts) g';
  ls_pkts : packets hdr ts;
  ls_ids : ts ≫= pkt_ids = global_ids (msgids (Routes g)) (scopes tb);
  ls_n k t : ts !! k = Some t → 0 < ta_Entries t <= 20 ∧ ((Datatypes.S k < length ts)%nat → ta_Entries t = 20);
  ls_frame : ∃ tb', tx_frame tb g tb' g';
}.

Lemma start_collecting c tb g hdr t : tx_frame tb g tb g → task_ok t → ta_PrevHdr t = hdr →
  collecting c tb g hdr [] [] (mkSBSys (g <| Locked := true |>) (t <| ta_PktSegment := 1 |> <| ta_Entries := 0 |>)).
Proof.
  intros Hf Ht Hh. split; [|by apply Forall_nil|by destruct Ht|done|done|done|done|].
  - split; [by apply Forall_nil..|]. by intros k t' ?.
  - exists g, tb. split_and!; [done|apply sends_nil|done].
Qed.

Lemma full_n ts k t : Forall (λ t, ta_Entries t = 20) ts → ts !! k = Some t → ta_Entries t = 20.
Proof. intros Hf Hk. by apply (Forall_lookup_1 _ _ _ _ Hf Hk). Qed.

Lemma wp_SendPrevSubsCmd c tb Q s : caller_ok c → Locked (Bus s) = false → sb_inv tb [] None NULL (Bus s) → task_ok (Task s) →
  (∀ ts s', listed c tb (ta_PrevHdr (Task s)) (Bus s) ts (Bus s') → task_ok (Task s') → Q CFE_SUCCESS s') → wp (CFE_SB_SendPrevSubsCmd c) Q s.
Proof.
  intros Hc Hlk Hi Ht HQ. unfold CFE_SB_SendPrevSubsCmd. wp_step. apply wp_bus, wp_lock; [done|]. wp_step. apply wp_task. wp_step.
  assert (Hfr : tx_frame tb (Bus s) tb (Bus s)) by by split. pose proof (in_routes _ _ _ _ _ Hi) as Hri.
  pose proof (inv_wf _ (ri_sbr _ _ _ Hri)) as Hwf. pose proof (msgids_length _ Hwf) as Hlen. pose proof (wf_top _ Hwf). pose proof (tb_length _ _ _ Hri) as Htl.
  unfold CFE_SBR_ForEachRouteId. wp_go. unfold route_top. change (RouteIdxTop (Routes _)) with (RouteIdxTop (Routes (Bus s))). rewrite Z.sub_0_r, <- Hlen.
  eapply (wp_foreach_sub c tb (Bus s) (ta_PrevHdr (Task s)) [] _ 0); [done|lia|done|unfold scopes; rewrite length_fmap; lia| |].
  { by apply start_collecting. }
  intros ts s1 [Hp Hf Ht1 Hh Hs Hn Hids (g & tb1 & Eg & Hsend & Hfr1)]. wp_go. apply wp_bus, wp_unlock; [by rewrite Eg|].
  rewrite (unlock_eq _ _ Eg (tf_locked _ _ _ _ Hfr1)). wp_go. change (Task (s1 <| Bus := g |>)) with (Task s1).
  destruct (Z.ltb_spec 0 (ta_Entries (Task s1))) as [Hpos|Hz]; [apply wp_when_true; [done|]|apply wp_when_false; [done|]].
  - wp_step. apply wp_bus. cbn [Bus]. destruct (run_transmit c (prev_packet (Task s1)) tb1 g) as (st & g' & tb' & E & Hfr'); [done|by apply prev_packet_ok|apply Hfr1..|].
    eapply wp_eq; [exact E|]. apply wp_sevent; [apply Hfr'|]. wp_go. apply (HQ (ts ++ [Task s1])); [|done]. split.
    + rewrite fmap_app. by eapply sends_snoc.
    + by apply packets_snoc.
    + rewrite bind_app. cbn. rewrite app_nil_r. by rewrite <- Hids.
    + intros k t Hk. apply lookup_app_Some in Hk as [Hk|[Hle Hk]].
      * pose proof (full_n _ _ _ Hf Hk). split; [lia|done].
      * apply list_lookup_singleton_Some in Hk as [Hk <-]. rewrite length_app. cbn. split; lia.
    + exists tb'. apply frame_event. by eapply frame_trans.
  - wp_go. apply (HQ ts); [|done]. split; [done|done| | |by exists tb1].
    + rewrite Hids. unfold pkt_ids at 3. replace (ta_Entries (Task s1)) with 0 by lia. by rewrite app_nil_r.
    + intros k t Hk. pose proof (full_n _ _ _ Hf Hk). split; [lia|done].
Qed.

(** ** Commands keep the bus sound and the packets well formed *)

Definition sys_ok (s : S) : Prop := sb_ok (Bus s) ∧ task_ok (Task s).
Definition preserves {A} (c : M S A) : Prop := ∀ s, sys_ok s → wp c (λ _, sys_ok) s.

Lemma preserves_ret {A} (a : A) : preserves (mret a).
Proof. intros s Hs. by wp_step. Qed.
Lemma preserves_bind {A B} (c : M S A) (k : A → M S B) : preserves c → (∀ a, preserves (k a)) → preserves (c ≫= k).
Proof. intros Hc Hk s Hs. apply wp_bind. eapply wp_mono; [by apply Hc|]. intros a s' Hs'. by apply Hk. Qed.
Lemma preserves_gets {A} (f : S → A) : preserves (gets f).
Proof. intros s Hs. by wp_step. Qed.
Lemma preserves_when b (c : M S unit) : preserves c → preserves (when b c).
Proof. intros Hc. destruct b; [done|apply preserves_ret]. Qed.
Lemma preserves_bus {A} (c : M G A) : (∀ g, sb_ok g → wp c (λ _, sb_ok) g) → preserves (bus c).
Proof. intros Hc s [Hb Ht]. apply wp_bus. eapply wp_mono; [by apply Hc|]. by intros a g Hg. Qed.
Lemma preserves_task f : (∀ t, task_ok t → task_ok (f t)) → preserves (task f).
Proof. intros Hf s [Hb Ht]. apply wp_task. split; [done|]. by apply Hf. Qed.
Lemma preserves_event id ty : preserves (event id ty).
Proof. apply preserves_bus. intros g (Hl & tb & Hi). apply wp_event; [done|]. split; [done|]. exists tb. by apply inv_events. Qed.
Lemma preserves_hk f : preserves (bus (hk f)).
Proof. apply preserves_bus. intros g (Hl & tb & Hi). apply wp_hk. split; [done|]. exists tb. by apply inv_hk. Qed.
Lemma preserves_transmit c m inc : caller_ok c → msg_ok m → preserves (bus (CFE_SB_TransmitMsg c (Some m) inc)).
Proof. intros Hc Hm. apply preserves_bus. intros g Hg. by apply transmit_ok. Qed.

#[local] Hint Resolve preserves_ret preserves_bind preserves_gets preserves_when preserves_event preserves_hk : preserves.

Lemma preserves_counters st : preserves (CFE_SB_IncrCmdCtr st) ∧ preserves CFE_SB_ResetCounters ∧ preserves CFE_SB_NoopCmd ∧ preserves CFE_SB_ResetCountersCmd.
Proof. unfold CFE_SB_IncrCmdCtr, CFE_SB_NoopCmd, CFE_SB_ResetCountersCmd, CFE_SB_ResetCounters. split_and!; [destruct (st =? CFE_SUCCESS)|..]; auto 6 with preserves. Qed.

Lemma preserves_reporting b : preserves (CFE_SB_SetSubscriptionReporting b).
Proof. apply preserves_bus. intros g (Hl & tb & Hi). wp_step. split; [done|]. exists tb. by destruct Hi. Qed.

Lemma preserves_route Active E1 E2 E3 MsgId Pipe : E1 ≠ E2 → E3 ≠ E2 → is_u32 MsgId → preserves (route_cmd Active E1 E2 E3 MsgId Pipe).
Proof.
  intros N1 N3 Hm s [(Hl & tb & Hi) Ht]. eapply wp_route_cmd; [done|done|done|exact Hi|done|]. intros ev tb' g _ [Hi' Hl' _]. split; [|done]. split; [done|]. by exists tb'.
Qed.

Lemma relock_ok (g : G) : sb_ok g → sb_ok (g <| Locked := true |> <| Locked := false |>).
Proof. intros Hg. rewrite relock; [done|apply Hg]. Qed.

(** Reading the bus under the mutex. *)
Lemma preserves_locked {A B} (f : S → A) (h : A → SB_Task_t → SB_Task_t) (k : A → M S B) : (∀ a t, task_ok t → task_ok (h a t)) → (∀ a, preserves (k a)) →
  preserves (bus CFE_SB_LockSharedData;; a ← gets f; task (h a);; bus CFE_SB_UnlockSharedData;; k a).
Proof.
  intros Hh Hk s [Hb Ht]. wp_step. apply wp_bus, wp_lock; [apply Hb|]. wp_go. apply wp_task. wp_step. apply wp_bus, wp_unlock; [done|].
  apply Hk. split; [by apply relock_ok|by apply Hh].
Qed.

Lemma preserves_send {B} c (pkt : S → Message) (k : M S B) : caller_ok c → (∀ s, task_ok (Task s) → msg_ok (pkt s)) → preserves k →
  preserves (s ← gets id; _ ← bus (CFE_SB_TransmitMsg c (Some (pkt s)) true); k).
Proof.
  intros Hc Hp Hk s Hs. wp_step. wp_step. wp_step. eapply wp_mono; [apply (preserves_transmit c (pkt s) true Hc (Hp _ (proj2 Hs)) s Hs)|].
  intros st s' Hs'. by apply Hk.
Qed.

Lemma preserves_SendHK c now : caller_ok c → preserves (CFE_SB_SendHKTlmCmd c now).
Proof.
  intros Hc. unfold CFE_SB_SendHKTlmCmd. apply (preserves_locked (λ s, Stat (Bus s)) (λ k t, t <| ta_MemInUse := MemInUse k |> <| ta_UnmarkedMem := u32 (CFE_PLATFORM_SB_BUF_MEMORY_BYTES - PeakMemInUse k) |>)).
  { intros k t []. by split. }
  intros k. apply preserves_bind; [apply preserves_task; intros t []; split; try done; by apply timestamp_ok|]. intros [].
  apply preserves_send; [done| |apply preserves_ret]. intros s. apply hk_packet_ok.
Qed.

Lemma depth_loop_length tbl n : (length (depth_loop tbl n) ≤ n)%nat.
Proof. revert n. induction tbl as [|p tbl IH]; intros [|n]; cbn; try lia. destruct (CFE_SB_PipeDescIsUsed p); [cbn; specialize (IH n); lia|apply IH]. Qed.

Lemma preserves_SendStats c now : caller_ok c → preserves (CFE_SB_SendStatsCmd c now).
Proof.
  intros Hc s [Hb Ht]. unfold CFE_SB_SendStatsCmd. wp_step. apply wp_bus, wp_lock; [apply Hb|]. wp_step. wp_step. cbv zeta. wp_step. apply wp_bus, wp_unlock; [done|].
  set (l := depth_loop _ _). wp_step. apply wp_task. match goal with |- wp _ _ ?x => assert (sys_ok x) as Hs1 end.
  { split; [by apply relock_ok|]. destruct Ht. split; try done. cbn. assert (length l <= 64)%nat by apply (depth_loop_length _ 64).
    rewrite length_app, length_replicate. change (Z.to_nat CFE_MISSION_SB_MAX_PIPES) with 64%nat. lia. }
  revert Hs1. match goal with |- _ → wp ?c _ ?x => generalize x; change (preserves c) end.
  apply preserves_bind; [apply preserves_task; intros t []; split; try done; by apply timestamp_ok|]. intros [].
  apply preserves_send; [done|intros s1; apply stat_packet_ok|auto with preserves].
Qed.

Lemma preserves_SendPrevSubs c : caller_ok c → preserves (CFE_SB_SendPrevSubsCmd c).
Proof.
  intros Hc s [(Hl & tb & Hi) Ht]. eapply wp_SendPrevSubsCmd; [done|done|exact Hi|done|]. intros ts s' [_ _ _ _ (tb' & Hf)] Ht'.
  split; [|done]. split; [apply Hf|]. exists tb'. apply Hf.
Qed.

Lemma preserves_write_file k st dflt desc req file : (length file = sb_path_len)%nat → (∃ r, StringGet_loop dflt 64 63 = Some r) → preserves (write_file_cmd k st dflt desc req file).
Proof.
  intros Hf [r Hr]. unfold write_file_cmd. apply preserves_bind; [apply preserves_gets|]. intros w. apply preserves_bind.
  - destruct (fw_IsPending w); cbn [negb]; [apply preserves_ret|]. intros s Hs. wp_step.
    assert (∃ x, CFE_SB_MessageStringGet (Some (replicate sb_path_len 0)) file (Some dflt) sb_path_len sb_path_len = Some x) as [x Hx].
    { unfold CFE_SB_MessageStringGet, sb_path_len in *. destruct file as [|y file]; [done|]. cbn [Nat.eqb head mbind option_bind default from_option id].
      destruct (y =? 0); [rewrite Hr; by eexists|]. rewrite StringGet_loop_spec by lia. by eexists. }
    eapply wp_of_option; [exact Hx|]. wp_step. apply wp_task. wp_step. destruct Hs as [Hb []]. split; [done|]. by split.
  - intros st'. apply preserves_bind; [apply preserves_when, preserves_event|]. intros []. apply preserves_bind; [apply preserves_counters|]. intros []. apply preserves_ret.
Qed.

Lemma get32_u32 m off : Forall is_u8 m → is_u32 (get32 m off).
Proof. intros Hm. pose proof (λ i, lookup_total_u8 m i Hm) as Hb. unfold get32. pose proof (Hb off). pose proof (Hb (off + 1)%nat). pose proof (Hb (off + 2)%nat). pose proof (Hb (off + 3)%nat). unfold is_u8, is_u32 in *. lia. Qed.

Lemma preserves_verified m n (c : M S Z) : (msg_size m = n → preserves c) → preserves (verified m n c).
Proof.
  intros Hc. unfold verified, CFE_SB_VerifyCmdLength. change (default 0 (CFE_MSG_GetSize (Some m) (Some 0)).2) with (msg_size m).
  destruct (Z.eqb_spec n (msg_size m)) as [E|E]; cbn [negb]; intros s Hs.
  - wp_step. wp_step. cbn [when]. apply preserves_bind; [by apply Hc|auto with preserves|done].
  - wp_step. wp_step. eapply wp_mono; [by apply preserves_event|]. intros [] s1 Hs1. wp_step. eapply wp_mono; [by apply preserves_hk|]. intros [] s2 Hs2.
    wp_step. cbn [when]. by wp_step.
Qed.

Lemma preserves_ProcessCmd c now req m : caller_ok c → msg_ok m → preserves (CFE_SB_ProcessCmdPipePkt c now req m).
Proof.
  intros Hc [Hm Hsz]. unfold CFE_SB_ProcessCmdPipePkt. cbv zeta.
  assert (∀ off, is_u32 (get32 m off)) as Hu by (intros; by apply get32_u32).
  assert (msg_size m = sizeof_WriteFileCmd → length (take sb_path_len (drop sizeof_CmdHeader m)) = sb_path_len) as Hfile.
  { unfold sizeof_WriteFileCmd. intros E. rewrite length_take, length_drop. lia. }
  assert (∀ id, preserves (event id CFE_EVS_EventType_ERROR;; bus (hk (λ k, k <| CommandErrorCounter ::= incr 8 |>)))) as Hbad by auto with preserves.
  repeat match goal with |- preserves (if ?b then _ else _) => destruct b end; try apply Hbad.
  all: try (apply preserves_verified; intros E).
  all: lazymatch goal with
    | |- preserves (CFE_SB_SendHKTlmCmd _ _ ≫= _) => apply preserves_bind; [by apply preserves_SendHK|auto with preserves]
    | |- preserves (CFE_SB_SendPrevSubsCmd _) => by apply preserves_SendPrevSubs
    | |- preserves (CFE_SB_SendStatsCmd _ _) => by apply preserves_SendStats
    | |- preserves CFE_SB_NoopCmd => apply (preserves_counters 0)
    | |- preserves CFE_SB_ResetCountersCmd => apply (preserves_counters 0)
    | |- preserves (CFE_SB_EnableRouteCmd _ _) => apply preserves_route; [done|done|apply Hu]
    | |- preserves (CFE_SB_DisableRouteCmd _ _) => apply preserves_route; [done|done|apply Hu]
    | |- preserves CFE_SB_EnableSubReportingCmd => apply preserves_bind; [apply preserves_reporting|auto with preserves]
    | |- preserves CFE_SB_DisableSubReportingCmd => apply preserves_bind; [apply preserves_reporting|auto with preserves]
    | |- _ => apply preserves_write_file; [by apply Hfile|by eexists; vm_compute]
    end.
Qed.

(** ** The start of the task *)

Lemma early_task_ok : task_ok early_task.
Proof.
  assert (header_ok sizeof_HKTlm clear_header ∧ header_ok sizeof_AllSubsTlm clear_header) as [Hc1 Hc2].
  { split; (split; [by apply Forall_replicate|split; [done|vm_compute; done]]). }
  split; [done|apply tlm_header_ok; set_solver|done|done|done].
Qed.

Lemma preserves_init_packets e : preserves (task (init_packets e)).
Proof.
  apply preserves_task. intros t []. split; [apply tlm_header_ok; set_solver|done|apply tlm_header_ok; set_solver|done|done].
Qed.

Lemma preserves_subscribe c mids : caller_ok c → Forall is_u32 mids → preserves (subscribe_all c mids).
Proof.
  intros Hc. induction 1 as [|mid mids Hm _ IH]; cbn [subscribe_all]; [apply preserves_ret|]. apply preserves_bind; [apply preserves_gets|]. intros pipe.
  apply preserves_bind; [|intros st; destruct (negb _); [apply preserves_ret|done]]. apply preserves_bus. intros g Hg. by apply subscribe_ok.
Qed.

(** The block that is taken and put back leaves the pool as it was. *)
Lemma preserves_block (k : Z → M S Z) n : 0 < n → (∀ st, preserves (k st)) →
  preserves ('(Status, TmpPtr) ← bus (pool (CFE_ES_GetPoolBuf n)); if Status <? 0 then mret Status else Status ← bus (pool (CFE_ES_PutPoolBuf TmpPtr)); k Status).
Proof.
  intros Hn Hk s [(Hl & tb & Hi) Ht]. wp_step. apply wp_bus, wp_pool. destruct (CFE_ES_GetPoolBuf n (Pool (Bus s))) as [[st a] p] eqn:E. cbn [fst snd].
  destruct (Z.ltb_spec st 0) as [Hlt|Hge].
  - wp_step. split; [|done]. split; [done|]. exists tb. apply inv_pool; [done|]. by eapply get_fail.
  - destruct (get_ok n (Pool (Bus s)) st a p Hn E Hge) as (_ & _ & Hfr & Hlv). wp_step. apply wp_bus, wp_pool. cbn [Pool Bus].
    destruct (put_ok a st p) as (p' & E' & Hlv'); [rewrite Hlv; apply lookup_insert_eq|].
    change (Pool (Bus (s <| Bus := (Bus s) <| Pool := p |> |>))) with p. rewrite E'. cbn [fst snd]. apply Hk. split; [|done]. split; [done|]. exists tb.
    apply (inv_pool tb [] None NULL (Bus s) p'); [done|]. by rewrite Hlv', Hlv, delete_insert_id.
Qed.

Lemma preserves_AppInit c e : caller_ok c → preserves (CFE_SB_AppInit c e).
Proof.
  intros Hc. unfold CFE_SB_AppInit.
  repeat first [apply preserves_ret | match goal with |- preserves (if ?b then _ else _) => destruct b end].
  apply preserves_bind; [apply preserves_task; intros t []; by split|]. intros [].
  repeat first [apply preserves_ret | match goal with |- preserves (if ?b then _ else _) => destruct b end].
  apply preserves_bind; [apply preserves_hk|]. intros []. apply preserves_bind; [apply preserves_init_packets|]. intros []. apply preserves_bind; [apply preserves_gets|]. intros pipe.
  apply preserves_bind; [apply preserves_bus; intros g Hg; by apply create_pipe_ok|]. intros [st p]. apply preserves_bind; [apply preserves_task; intros t []; by split|]. intros [].
  repeat first [apply preserves_ret | match goal with |- preserves (if ?b then _ else _) => destruct b end].
  apply preserves_bind; [apply preserves_subscribe; [done|]; repeat (apply Forall_cons; split; [by vm_compute|]); by apply Forall_nil|]. intros st'.
  destruct (negb _); [apply preserves_ret|]. apply preserves_block; [unfold sizeof_RestartCmd; lia|]. intros st2. destruct (st2 <? 0); [apply preserves_ret|].
  apply preserves_bind; [apply preserves_event|]. intros []. destruct (negb _); apply preserves_ret.
Qed.

(** ** Records of files *)

(** The iteration with a portion of one route. *)
Lemma wp_foreach_one (cb : Z → M S unit) i Q s : 0 <= i < 2 ^ 15 → 0 <= route_top s <= 256 →
  (if i <? route_top s then wp (cb (i + 1)) (λ _ s', Q (Some (mkThrottle i 1 (if i + 1 <? route_top s then i + 1 else 0))) s') s
   else Q (Some (mkThrottle i 1 0)) s) →
  wp (CFE_SBR_ForEachRouteId route_top cb (Some (mkThrottle i 1 0))) Q s.
Proof.
  intros Hi Ht HQ. unfold CFE_SBR_ForEachRouteId. wp_step. wp_step. cbn [StartIndex MaxLoop].
  rewrite (u16_small i) by (unfold is_u16; lia). rewrite u32_small by (unfold is_u32; lia).
  destruct (Z.ltb_spec (i + 1) (route_top s)) as [H1'|H1'].
  - rewrite u16_small by (unfold is_u16; lia). replace (i <? route_top s) with true in HQ by lia. replace (i + 1 - i) with 1 by lia.
    change (Z.to_nat 1) with 1%nat. cbn [foreach_loop]. unfold CFE_SBR_ValueToRouteId. rewrite u16_small by (unfold is_u16; lia).
    wp_step. wp_step. rewrite Z.add_comm. eapply wp_mono; [exact HQ|]. intros [] s' HQ'. wp_step. by wp_step.
  - destruct (Z.ltb_spec i (route_top s)) as [H2'|H2'].
    + replace (Z.to_nat (route_top s - i)) with 1%nat by lia. cbn [foreach_loop]. unfold CFE_SBR_ValueToRouteId. rewrite u16_small by (unfold is_u16; lia).
      wp_step. wp_step. rewrite Z.add_comm. eapply wp_mono; [exact HQ|]. intros [] s' HQ'. wp_step. by wp_step.
    + replace (Z.to_nat (route_top s - i)) with 0%nat by lia. cbn [foreach_loop]. wp_step. wp_step. by wp_step.
Qed.

(** The entry of a destination, with the owner of its pipe. *)
Definition dest_entry (tbl : ptable) (y : CFE_SB_DestinationD_t) : CFE_SB_RoutingFileEntry_t * Z :=
  (mkRouting 0 (dd_PipeId y) (dd_Active y) (dd_DestCnt y) [] "", match find_pipe tbl (dd_PipeId y) with Some (_, p) => pd_AppId p | None => 0 end).

Lemma wp_collect_loop s l p fuel found Q : chain mkd (Dests (Bus s)) p l NULL → Forall (λ x, x.1 ≠ NULL) l → (length l ≤ fuel)%nat →
  (length found + length l ≤ 16)%nat → Forall (λ x, is_Some (find_pipe (PipeTbl (Bus s)) (dd_PipeId x.2))) l →
  Q (found ++ (dest_entry (PipeTbl (Bus s)) ∘ snd <$> l)) s → wp (collect_loop fuel (hd NULL l.*1) found) Q s.
Proof.
  assert (Es : s <| Bus := Bus s |> = s) by by destruct s.
  revert p fuel found. induction l as [|[a y] l IH]; intros p fuel found Hc Hz Hf Hlen Hp HQ.
  - rewrite app_nil_r in HQ. destruct fuel; exact HQ.
  - destruct fuel as [|fuel]; [cbn in Hf; lia|]. apply Forall_cons in Hz as [Ha Hz]. apply Forall_cons in Hp as [[[j pd] Ej] Hp]. cbn in Ha, Ej.
    destruct Hc as [E Hc]. cbn [hd fst snd fmap list_fmap map collect_loop]. cbn in Hlen.
    rewrite (proj2 (Z.eqb_neq a NULL)) by done. replace (CFE_PLATFORM_SB_MAX_DEST_PER_PKT <=? Z.of_nat (length found)) with false by (unfold CFE_PLATFORM_SB_MAX_DEST_PER_PKT; lia).
    cbn [orb]. wp_step. apply wp_bus. eapply wp_rd_dest; [exact E|]. rewrite Es.
    change (dd_PipeId (mkd y p (hd NULL l.*1))) with (dd_PipeId y). change (dd_Next (mkd y p (hd NULL l.*1))) with (hd NULL l.*1).
    change (dd_Active (mkd y p (hd NULL l.*1))) with (dd_Active y). change (dd_DestCnt (mkd y p (hd NULL l.*1))) with (dd_DestCnt y).
    destruct (find_pipe_Some _ _ _ _ Ej) as (El & Hpd & Epid & _). cbv zeta. rewrite El. wp_step. apply wp_bus. eapply wp_match_true; [exact Hpd|done|]. rewrite Es.
    wp_step. wp_step. apply wp_bus. eapply wp_rd_pipe_nat; [exact Hpd|]. rewrite Es. wp_step.
    eapply (IH a); [done|done|cbn in Hf; lia|rewrite length_app; cbn; lia|done|]. rewrite <- (assoc_L (++)). rewrite fmap_cons in HQ.
    assert (dest_entry (PipeTbl (Bus s)) y = (mkRouting 0 (dd_PipeId y) (dd_Active y) (dd_DestCnt y) [] "", pd_AppId pd)) as Ey by (unfold dest_entry; by rewrite Ej).
    change ((dest_entry (PipeTbl (Bus s)) ∘ snd) (a, y)) with (dest_entry (PipeTbl (Bus s)) y) in HQ. by rewrite Ey in HQ.
Qed.

Section records.
Context (apps : list CFE_ES_AppRecord_t).

(** The record of a destination of the route of message [id]. *)
Record record_ok (tbl : ptable) (id : Z) (y : CFE_SB_DestinationD_t) (e : CFE_SB_RoutingFileEntry_t) : Prop := {
  rec_msg : re_MsgId e = id;
  rec_pipe : re_PipeId e = dd_PipeId y;
  rec_state : re_State e = dd_Active y;
  rec_cnt : re_MsgCnt e = dd_DestCnt y;
  rec_app : ∃ i p, find_pipe tbl (dd_PipeId y) = Some (i, p) ∧ re_AppName e = app_name apps (pd_AppId p);
}.

Definition with_events (g : G) (es : list Event) : G := g <| Events := es |>.
Definition with_bus (s : S) (g : G) : S := s <| Bus := g |>.

Lemma wp_name_loop id l Q s : Locked (Bus s) = false → length (PipeTbl (Bus s)) = 64%nat →
  Forall (λ y, is_Some (find_pipe (PipeTbl (Bus s)) (dd_PipeId y))) l →
  (∀ r es, Forall2 (record_ok (PipeTbl (Bus s)) id) l r → Q r (with_bus s (with_events (Bus s) es))) →
  wp (name_loop apps id (dest_entry (PipeTbl (Bus s)) <$> l)) Q s.
Proof.
  intros Hlk Hlen Hp. assert (∀ es0, (∀ r es, Forall2 (record_ok (PipeTbl (Bus s)) id) l r → Q r (with_bus s (with_events (Bus s) es))) →
    wp (name_loop apps id (dest_entry (PipeTbl (Bus s)) <$> l)) Q (with_bus s (with_events (Bus s) es0))) as Hgen.
  2:{ intros HQ. specialize (Hgen (Events (Bus s)) HQ). by destruct s as [[] ?]. }
  revert Q. induction Hp as [|y l [[i p] E] _ IH]; intros Q es0 HQ; cbn [fmap list_fmap map name_loop].
  { wp_step. by apply HQ. }
  unfold dest_entry at 1. rewrite E. cbn [fst snd re_PipeName re_PipeId re_State re_MsgCnt]. wp_step. apply wp_bus. apply wp_GetPipeName; [done|done|].
  intros st name ev _ _. wp_step. match goal with |- wp _ _ ?x => change x with (with_bus s (with_events (Bus s) (es0 ++ [ev]))) end.
  apply IH. intros r es Hr. wp_step. apply HQ. constructor; [|done]. split; try done. eauto.
Qed.

Lemma wp_CollectRouteInfo tb i id dl Q s : Locked (Bus s) = false → sb_inv tb [] None NULL (Bus s) → msgids (Routes (Bus s)) !! i = Some id → tb !! i = Some dl →
  (∀ r es, Forall2 (record_ok (PipeTbl (Bus s)) id) dl.*2 r → Q tt (mkSBSys (with_events (Bus s) es) ((Task s) <| ta_DestEntries := r |>))) →
  wp (CFE_SB_CollectRouteInfo apps (Z.of_nat i + 1)) Q s.
Proof.
  intros Hlk Hi Hid Hdl HQ. pose proof (in_routes _ _ _ _ _ Hi) as Hri. pose proof (inv_wf _ (ri_sbr _ _ _ Hri)) as Hwf.
  set (s1 := with_bus s ((Bus s) <| Locked := true |>)). assert (Es1 : s1 <| Bus := Bus s1 |> = s1) by by destruct s.
  unfold CFE_SB_CollectRouteInfo. wp_step. apply wp_bus, wp_lock; [done|]. change (s <| Bus := _ |>) with s1. wp_step. apply wp_bus. eapply (wp_sbr _ id (Routes (Bus s1))).
  { apply GetMsgId_spec; [done|lia|]. by replace (Z.to_nat (Z.of_nat i + 1 - 1)) with i by lia. }
  assert (Er : s1 <| Bus := (Bus s1) <| Routes := Routes (Bus s1) |> |> = s1) by by destruct s as [[] ?]. rewrite Er.
  pose proof (Forall_lookup_1 _ _ _ _ (wf_valid _ Hwf) Hid) as [_ Hv]. cbn beta in Hv. rewrite Hv. wp_step. wp_step. apply wp_bus. eapply wp_sbr_head; [exact Hri|exact Hdl|]. rewrite Es1.
  wp_step. apply wp_bus. unfold dest_fuel. wp_step. rewrite Es1. destruct (tb_route _ _ _ _ _ Hri Hdl) as (e & _ & _ & Hch & _). pose proof (tb_size _ _ _ _ _ Hri Hdl).
  assert (Hfp : Forall (λ x : addr * CFE_SB_DestinationD_t, is_Some (find_pipe (PipeTbl (Bus s)) (dd_PipeId x.2))) dl).
  { apply Forall_forall. intros x Hx. eapply find_pipe_ids; [apply (in_pipes _ _ _ _ _ Hi)|]. eapply in_dests; [exact Hi|by eapply list_elem_of_lookup_2|].
    by apply (list_elem_of_fmap_2 (λ x, dd_PipeId x.2)). }
  eapply wp_collect_loop; [exact Hch|by eapply dlist_nonnull|change (Dests (Bus s1)) with (Dests (Bus s)); lia| |exact Hfp|].
  { pose proof (Forall_lookup_1 _ _ _ _ (ri_len _ _ _ Hri) Hdl). cbn in *. lia. }
  wp_step. apply wp_bus, wp_unlock; [done|]. assert (El : s1 <| Bus := (Bus s1) <| Locked := false |> |> = s) by (destruct s as [[] ?]; cbn in Hlk; by subst).
  rewrite El. wp_step. cbn [app]. change (Bus s1) with ((Bus s) <| Locked := true |>). cbn [PipeTbl]. rewrite list_fmap_compose.
  eapply wp_name_loop; [done|apply (in_pipes _ _ _ _ _ Hi)|by apply Forall_fmap|]. intros r es Hr. apply wp_task. by apply (HQ r es).
Qed.

(** The state of a step that changes the buffer of the records and the events. *)
Definition recorded (f : SB_Task_t → SB_Task_t) (es : list Event) (s : S) : S := mkSBSys (with_events (Bus s) es) (f (Task s)).

(** The bounds of the iteration. *)
Lemma route_bounds tb (g : G) : sb_inv tb [] None NULL g →
  length (msgids (Routes g)) = length tb ∧ RouteIdxTop (Routes g) = Z.of_nat (length tb) ∧ (length tb ≤ 256)%nat.
Proof.
  intros Hi. pose proof (in_routes _ _ _ _ _ Hi) as Hri. pose proof (inv_wf _ (ri_sbr _ _ _ Hri)) as Hwf.
  pose proof (msgids_length _ Hwf). pose proof (wf_top _ Hwf). pose proof (tb_length _ _ _ Hri). split_and!; lia.
Qed.

(** The file is complete after the last route. *)
Lemma next_zero i n : (default 0 (NextIndex <$> Some (mkThrottle (Z.of_nat i) 1 (if Z.of_nat i + 1 <? Z.of_nat n then Z.of_nat i + 1 else 0))) =? 0) =
  bool_decide (n <= Datatypes.S i)%nat.
Proof. cbn. destruct (Z.ltb_spec (Z.of_nat i + 1) (Z.of_nat n)); [rewrite bool_decide_eq_false_2 by lia|rewrite bool_decide_eq_true_2 by lia]; lia. Qed.

Lemma wp_RouteGetter tb i Q s : Locked (Bus s) = false → sb_inv tb [] None NULL (Bus s) → Z.of_nat i < 2 ^ 15 →
  (∀ r es, (match msgids (Routes (Bus s)) !! i, tb !! i with
            | Some id, Some dl => Forall2 (record_ok (PipeTbl (Bus s)) id) dl.*2 r
            | _, _ => r = [] end) →
     Q (r, bool_decide (length tb <= Datatypes.S i)%nat) (recorded (λ t, t <| ta_DestEntries := r |>) es s)) →
  wp (CFE_SB_WriteRouteInfoDataGetter apps (Z.of_nat i)) Q s.
Proof.
  intros Hlk Hi Hlt HQ. destruct (route_bounds tb (Bus s) Hi) as (Hl1 & Ht & Hl2). unfold CFE_SB_WriteRouteInfoDataGetter. wp_step. apply wp_task. wp_step.
  set (s1 := s <| Task ::= _ |>). assert (Et : route_top s1 = Z.of_nat (length tb)) by done.
  apply wp_foreach_one; [lia|rewrite Et; lia|]. rewrite Et.
  destruct (Z.ltb_spec (Z.of_nat i) (Z.of_nat (length tb))) as [Hlt'|Hge].
  - destruct (lookup_lt_is_Some_2 (msgids (Routes (Bus s))) i) as [id Hid]; [lia|]. destruct (lookup_lt_is_Some_2 tb i) as [dl Hdl]; [lia|].
    rewrite Hid, Hdl in HQ. eapply wp_CollectRouteInfo; [done|exact Hi|done|done|]. intros r es Hr. wp_step. wp_step. wp_step.
    rewrite next_zero. by apply (HQ r es).
  - rewrite (lookup_ge_None_2 tb i) in HQ by lia. wp_step. wp_step. wp_step. rewrite bool_decide_eq_true_2 in HQ by lia.
    specialize (HQ [] (Events (Bus s))). replace (recorded _ _ s) with s1 in HQ by by destruct s as [[] ?]. apply HQ. by case_match.
Qed.

Lemma wp_MapGetter tb i Q s : Locked (Bus s) = false → sb_inv tb [] None NULL (Bus s) → Z.of_nat i < 2 ^ 15 →
  (∀ e, Q ((λ id, mkMapEntry id (Z.of_nat i)) <$> msgids (Routes (Bus s)) !! i, bool_decide (length tb <= Datatypes.S i)%nat)
          (recorded (λ t, t <| ta_MsgMapInfo := e |>) (Events (Bus s)) s)) →
  wp (CFE_SB_WriteMsgMapInfoDataGetter (Z.of_nat i)) Q s.
Proof.
  intros Hlk Hi Hlt HQ. destruct (route_bounds tb (Bus s) Hi) as (Hl1 & Ht & Hl2). unfold CFE_SB_WriteMsgMapInfoDataGetter. wp_step. apply wp_task. wp_step.
  set (s1 := s <| Task ::= _ |>). assert (Et : route_top s1 = Z.of_nat (length tb)) by done.
  pose proof (inv_wf _ (ri_sbr _ _ _ (in_routes _ _ _ _ _ Hi))) as Hwf.
  apply wp_foreach_one; [lia|rewrite Et; lia|]. rewrite Et.
  destruct (Z.ltb_spec (Z.of_nat i) (Z.of_nat (length tb))) as [Hlt'|Hge].
  - destruct (lookup_lt_is_Some_2 (msgids (Routes (Bus s))) i) as [id Hid]; [lia|]. rewrite Hid in HQ.
    pose proof (Forall_lookup_1 _ _ _ _ (wf_valid _ Hwf) Hid) as [_ Hv]. cbn beta in Hv.
    unfold CFE_SB_CollectMsgMapInfo. wp_step. apply wp_bus, wp_lock; [done|]. wp_step. apply wp_bus. eapply (wp_sbr _ id (Routes (Bus s))).
    { apply GetMsgId_spec; [done|lia|]. by replace (Z.to_nat (Z.of_nat i + 1 - 1)) with i by lia. }
    wp_step. apply wp_task. apply wp_bus, wp_unlock; [done|]. wp_step. wp_step. wp_step.
    rewrite next_zero. assert (Ei : CFE_SBR_RouteIdToValue (Z.of_nat i + 1) = Z.of_nat i).
    { unfold CFE_SBR_RouteIdToValue. rewrite u16_small by (unfold is_u16; lia). lia. }
    rewrite Ei. cbn -[recorded bool_decide]. rewrite Hv.
    specialize (HQ (mkMapEntry id (Z.of_nat i))). destruct s as [[] ?]. cbn in Hlk. subst. exact HQ.
  - rewrite (lookup_ge_None_2 (msgids _) i) in HQ by lia. wp_step. wp_step. wp_step. rewrite bool_decide_eq_true_2 in HQ by lia.
    specialize (HQ (mkMapEntry CFE_SB_INVALID_MSG_ID (me_Index (ta_MsgMapInfo (Task s))))). by destruct s as [[] ?].
Qed.

(** The record of the pipe at position [i] of the table. *)
Definition pipe_record (q : QS) (p : CFE_SB_PipeD_t) : CFE_SB_PipeInfoEntry_t :=
  mkPipeInfo (pd_PipeId p) (pd_AppId p) (OS_GetResourceName (pd_SysQueueId p) (Z.of_nat sb_api_len) q).2 (app_name apps (pd_AppId p))
    (pd_MaxQueueDepth p) (pd_CurrentQueueDepth p) (pd_PeakQueueDepth p) (pd_SendErrors p) (pd_Opts p).

Lemma wp_PipeGetter i Q s : Locked (Bus s) = false → length (PipeTbl (Bus s)) = 64%nat →
  Q (p ← PipeTbl (Bus s) !! i; if CFE_SB_PipeDescIsUsed p then Some (pipe_record (Queues (Bus s)) p) else None, bool_decide (63 <= i)%nat) s →
  wp (CFE_SB_WritePipeInfoDataGetter apps (Z.of_nat i)) Q s.
Proof.
  intros Hlk Hl HQ. unfold CFE_SB_WritePipeInfoDataGetter. wp_step.
  assert (Ef : (CFE_PLATFORM_SB_MAX_PIPES - 1 <=? Z.of_nat i) = bool_decide (63 <= i)%nat).
  { unfold CFE_PLATFORM_SB_MAX_PIPES. case_bool_decide; lia. }
  destruct (Z.ltb_spec (Z.of_nat i) CFE_PLATFORM_SB_MAX_PIPES) as [Hlt|Hge]; unfold CFE_PLATFORM_SB_MAX_PIPES in *.
  - destruct (lookup_lt_is_Some_2 (PipeTbl (Bus s)) i) as [p Hp]; [lia|]. rewrite Hp in HQ. cbn in HQ.
    wp_step. apply wp_bus, wp_lock; [done|]. wp_step. apply wp_bus. eapply wp_rd_pipe_nat; [exact Hp|]. wp_step. apply wp_bus, wp_unlock; [done|].
    match goal with |- wp _ _ ?x => replace x with s by (destruct s as [[] ?]; cbn in Hlk; by subst) end.
    destruct (CFE_SB_PipeDescIsUsed p); [|wp_step; wp_step; by rewrite Ef].
    wp_step. wp_step. unfold pipe_record in HQ. destruct (OS_GetResourceName _ _ _) as [st name]. wp_step. wp_step. by rewrite Ef.
  - rewrite (lookup_ge_None_2 _ i) in HQ by lia. wp_step. wp_step. by rewrite Ef.
Qed.

(** The record functions keep the bus sound. *)
Lemma recorded_ok f es s : sys_ok s → (∀ t, task_ok t → task_ok (f t)) → sys_ok (recorded f es s).
Proof. intros [(Hl & tb & Hi) Ht] Hf. split; [|by apply Hf]. split; [done|]. exists tb. by destruct Hi. Qed.

Lemma preserves_getters i : Z.of_nat i < 2 ^ 15 → preserves (CFE_SB_WriteRouteInfoDataGetter apps (Z.of_nat i)) ∧
  preserves (CFE_SB_WriteMsgMapInfoDataGetter (Z.of_nat i)) ∧ preserves (CFE_SB_WritePipeInfoDataGetter apps (Z.of_nat i)).
Proof.
  intros Hi. split_and!; intros s Hs; pose proof Hs as [(Hl & tb & Hb) Ht].
  - eapply wp_RouteGetter; [done|exact Hb|done|]. intros r es _. apply recorded_ok; [done|]. intros t []. by split.
  - eapply wp_MapGetter; [done|exact Hb|done|]. intros e. apply recorded_ok; [done|]. intros t []. by split.
  - eapply wp_PipeGetter; [done|apply (in_pipes _ _ _ _ _ Hb)|done].
Qed.
End records.

(** ** Whole files *)

(** A writer that asks for the records from number [i] on until the file is complete. *)
Fixpoint write_all {A} (fuel : nat) (get : nat → M S (list A * bool)) (i : nat) : M S (list A) :=
  '(r, done) ← get i;
  if (done : bool) then mret r else
  match fuel with
  | O => undef
  | Datatypes.S fuel => l ← write_all fuel get (Datatypes.S i); mret (r ++ l)
  end.

(** One portion of the file for each element of a list. *)
Lemma wp_write_all {A X} (get : nat → M S (list A * bool)) (xs : list X) (R : X → list A → Prop) (I : S → Prop) fuel i (Q : list A → S → Prop) s :
  (∀ i s, I s → (i ≤ length xs)%nat → wp (get i) (λ r s', match xs !! i with Some x => R x r.1 | None => r.1 = [] end ∧
     r.2 = bool_decide (length xs ≤ Datatypes.S i)%nat ∧ I s') s) →
  (i ≤ length xs)%nat → (length xs ≤ Datatypes.S i + fuel)%nat → I s →
  (∀ rs s', Forall2 R (drop i xs) rs → I s' → Q (concat rs) s') → wp (write_all fuel get i) Q s.
Proof.
  intros Hget. revert i s Q. induction fuel as [|fuel IH]; intros i s Q Hi Hf Hs HQ; cbn [write_all]; wp_step; (eapply wp_mono; [by apply Hget|]);
    intros [r done] s1 (Hr & Hd & Hs1); cbn [fst snd] in Hr, Hd; subst done.
  all: assert ((length xs ≤ Datatypes.S i)%nat → Q r s1) as Hlast.
  1,3: intros Hle; destruct (xs !! i) as [x|] eqn:Ex;
    [rewrite <- (app_nil_r r); apply (HQ [r]); [rewrite (drop_S _ _ _ Ex), drop_ge by lia; by repeat constructor|done]
    |subst r; apply (HQ []); [rewrite drop_ge by (by apply lookup_ge_None); constructor|done]].
  - rewrite bool_decide_eq_true_2 by lia. wp_step. apply Hlast. lia.
  - case_bool_decide; [wp_step; by apply Hlast|]. wp_step. destruct (lookup_lt_is_Some_2 xs i) as [x Hx]; [lia|]. rewrite Hx in Hr.
    apply IH; [lia|lia|done|]. intros rs s2 Hrs Hs2. wp_step. apply (HQ (r :: rs)); [|done]. rewrite (drop_S _ _ _ Hx). by constructor.
Qed.

Section files.
Context (apps : list CFE_ES_AppRecord_t) (tb : list dlist) (s0 : S).
Hypothesis (Hlk : Locked (Bus s0) = false).
Hypothesis (Hi : sb_inv tb [] None NULL (Bus s0)).

(** The records of one route. *)
Definition route_records (x : Z * dlist) (r : list CFE_SB_RoutingFileEntry_t) : Prop := Forall2 (record_ok apps (PipeTbl (Bus s0)) x.1) x.2.*2 r.

Lemma run_route_file : ∃ rs es t,
  write_all 256 (λ i, CFE_SB_WriteRouteInfoDataGetter apps (Z.of_nat i)) 0 s0 = Some (concat rs, mkSBSys (with_events (Bus s0) es) t) ∧
  Forall2 route_records (zip (msgids (Routes (Bus s0))) tb) rs.
Proof.
  destruct (route_bounds tb (Bus s0) Hi) as (Hl1 & _ & Hl2). set (xs := zip (msgids (Routes (Bus s0))) tb).
  assert (Hx : length xs = length tb) by (unfold xs; rewrite length_zip_with; lia).
  assert (wp (write_all 256 (λ i, CFE_SB_WriteRouteInfoDataGetter apps (Z.of_nat i)) 0) (λ r s', ∃ rs, r = concat rs ∧ Forall2 route_records xs rs ∧
    ∃ es t, s' = mkSBSys (with_events (Bus s0) es) t) s0) as Hw.
  { eapply (wp_write_all _ xs route_records (λ s, ∃ es t, s = mkSBSys (with_events (Bus s0) es) t)); [|lia|lia| |eauto].
    2:{ exists (Events (Bus s0)), (Task s0). by destruct s0 as [[] ?]. }
    intros i s (es & t & ->) Hle. rewrite Hx in *. eapply (wp_RouteGetter apps tb); [done|by apply inv_events|lia|]. intros r es' Hr. split_and!; [|done|unfold recorded; eauto].
    unfold xs. rewrite lookup_zip_with. cbn [Bus] in Hr. change (Routes (with_events (Bus s0) es)) with (Routes (Bus s0)) in Hr.
    destruct (msgids (Routes (Bus s0)) !! i) as [id|]; [|done]. by destruct (tb !! i). }
  apply wp_inv in Hw as (r & s' & E & rs & -> & Hf & es & t & ->). eauto 6.
Qed.

Lemma run_pipe_file :
  write_all 256 (λ i, r ← CFE_SB_WritePipeInfoDataGetter apps (Z.of_nat i); mret (option_list r.1, r.2)) 0 s0 =
  Some (pipe_record apps (Queues (Bus s0)) <$> filter (λ p, CFE_SB_PipeDescIsUsed p = true) (PipeTbl (Bus s0)), s0).
Proof.
  pose proof (pi_len _ _ _ _ (in_pipes _ _ _ _ _ Hi)) as Hl. set (f := pipe_record apps (Queues (Bus s0))).
  assert (wp (write_all 256 (λ i, r ← CFE_SB_WritePipeInfoDataGetter apps (Z.of_nat i); mret (option_list r.1, r.2)) 0)
    (λ r s', r = f <$> filter (λ p, CFE_SB_PipeDescIsUsed p = true) (PipeTbl (Bus s0)) ∧ s' = s0) s0) as Hw.
  { eapply (wp_write_all _ (PipeTbl (Bus s0)) (λ p r, r = if CFE_SB_PipeDescIsUsed p then [f p] else []) (λ s, s = s0)); [|lia|lia|done|].
    - intros i s -> Hle. wp_step. apply wp_PipeGetter; [done|done|]. wp_step. cbn [fst snd]. rewrite Hl. split_and!; [|case_bool_decide; [rewrite bool_decide_eq_true_2 by lia|rewrite bool_decide_eq_false_2 by lia]; done|done].
      destruct (PipeTbl (Bus s0) !! i) as [p|]; [|done]. cbn. by destruct (CFE_SB_PipeDescIsUsed p).
    - rewrite drop_0. intros rs s' Hf ->. split; [|done]. clear -Hf. induction Hf as [|p r l rs -> _ IH]; [done|]. cbn [concat]. rewrite IH, filter_cons.
      by destruct (CFE_SB_PipeDescIsUsed p). }
  apply wp_inv in Hw as (r & s' & E & -> & ->). exact E.
Qed.

Lemma run_map_file : ∃ t,
  write_all 256 (λ i, r ← CFE_SB_WriteMsgMapInfoDataGetter (Z.of_nat i); mret (option_list r.1, r.2)) 0 s0 =
  Some (imap (λ i id, mkMapEntry id (Z.of_nat i)) (msgids (Routes (Bus s0))), mkSBSys (Bus s0) t).
Proof.
  destruct (route_bounds tb (Bus s0) Hi) as (Hl1 & _ & Hl2). set (xs := imap (λ i id, mkMapEntry id (Z.of_nat i)) (msgids (Routes (Bus s0)))).
  assert (Hx : length xs = length tb) by (unfold xs; rewrite length_imap; lia).
  assert (wp (write_all 256 (λ i, r ← CFE_SB_WriteMsgMapInfoDataGetter (Z.of_nat i); mret (option_list r.1, r.2)) 0)
    (λ r s', r = xs ∧ ∃ t, s' = mkSBSys (Bus s0) t) s0) as Hw.
  { eapply (wp_write_all _ xs (λ x r, r = [x]) (λ s, ∃ t, s = mkSBSys (Bus s0) t)); [|lia|lia|by exists (Task s0); destruct s0|].
    - intros i s (t & ->) Hle. rewrite Hx in *. wp_step. eapply (wp_MapGetter tb); [done|done|lia|]. intros e. wp_step. cbn [fst snd]. split_and!; [|done|].
      + unfold xs. rewrite list_lookup_imap. cbn [Bus]. by destruct (msgids (Routes (Bus s0)) !! i).
      + unfold recorded. eexists. cbn [Bus]. f_equal. by destruct (Bus s0).
    - rewrite drop_0. intros rs s' Hf Hs. split; [|done]. clear -Hf. induction Hf as [|x r l rs -> _ IH]; [done|]. cbn. by rewrite IH. }
  apply wp_inv in Hw as (r & s' & E & -> & t & ->). eauto.
Qed.
End files.

(** ** The task as a state machine *)

Definition run_task (k : task_call) : M S unit :=
  match k with
  | TaskInit c e => _ ← CFE_SB_AppInit c e; mret tt
  | TaskCommand c now req m => CFE_SB_ProcessCmdPipePkt c now req m
  | RouteRecord apps i => _ ← CFE_SB_WriteRouteInfoDataGetter apps (Z.of_nat i); mret tt
  | PipeRecord apps i => _ ← CFE_SB_WritePipeInfoDataGetter apps (Z.of_nat i); mret tt
  | MapRecord i => _ ← CFE_SB_WriteMsgMapInfoDataGetter (Z.of_nat i); mret tt
  | FileEvent ev => CFE_SB_BackgroundFileEventHandler ev
  | FileDone => task (λ t, t <| ta_FileWrite ::= λ w, w <| fw_IsPending := false |> |>)
  end.

Lemma preserves_task_call k : task_call_ok k → preserves (run_task k).
Proof.
  destruct k as [c e|c now req m|apps i|apps i|i|ev|]; cbn [task_call_ok run_task]; intros Hk.
  - apply preserves_bind; [by apply preserves_AppInit|intros; apply preserves_ret].
  - destruct Hk. by apply preserves_ProcessCmd.
  - apply preserves_bind; [by apply preserves_getters|intros; apply preserves_ret].
  - apply preserves_bind; [by apply preserves_getters|intros; apply preserves_ret].
  - apply preserves_bind; [by apply (preserves_getters [])|intros; apply preserves_ret].
  - destruct ev; first [apply preserves_event|apply preserves_ret].
  - apply preserves_task. intros t []. by split.
Qed.
End ops.
