(* ===== verification/SbInst.v ===== *)
(** * A pool and queues with the laws

    The simplest services that have the laws the bus relies on: a pool of [limit]
    blocks at increasing addresses, and bounded queues with names.  The examples of the
    development run on them. *)
From stdpp Require Import strings.
From S2P Require Import Prelude Config Msg ResourceId Sbr SbrProps SbState SbBuf SbApi.

(** ** The pool *)

Record BumpPool := mkPool { bp_next : Z; bp_limit : Z; bp_live : gmap addr Z }.

Definition bump_get (size : Z) (p : BumpPool) : (Z * addr) * BumpPool :=
  if (size <=? 0) || (bp_next p <=? 0) || (bp_limit p <=? Z.of_nat (base.size (bp_live p)))
     || bool_decide (is_Some (bp_live p !! bp_next p))
  then ((CFE_ES_ERR_RESOURCEID_NOT_VALID, NULL), p)
  else ((size, bp_next p), mkPool (bp_next p + 1000000) (bp_limit p) (<[bp_next p := size]> (bp_live p))).

Definition bump_put (a : addr) (p : BumpPool) : Z * BumpPool :=
  match bp_live p !! a with
  | Some n => (n, mkPool (bp_next p) (bp_limit p) (delete a (bp_live p)))
  | None => (CFE_ES_ERR_RESOURCEID_NOT_VALID, p)
  end.

#[export] Instance BumpMemPool : MemPool BumpPool :=
  {| CFE_ES_GetPoolBuf := bump_get; CFE_ES_PutPoolBuf := bump_put; p_live := bp_live |}.

#[export] Instance BumpMemPoolOK : MemPoolOK BumpPool.
Proof.
  split; cbn; unfold bump_get, bump_put.
  - intros size p st a p'. destruct (_ || _) eqn:E; intros [= <- <- <-] Hst; [done|].
    rewrite !orb_false_iff in E. lia.
  - intros size p st a p' _. destruct (_ || _) eqn:E; intros [= <- <- <-] Hst; [by vm_compute in Hst|].
    rewrite !orb_false_iff in E. destruct E as (((E1 & E2) & _) & E3). cbn. split_and!; try lia; [|done].
    apply bool_decide_eq_false in E3. by apply eq_None_not_Some.
  - intros a n p Ha. rewrite Ha. eauto.
Qed.

(** ** The queues *)

Record Queue := mkQueue { qu_name : string; qu_items : list addr }.
Record ListQueues := mkQueues { lq_next : Z; lq_depth : Z → Z; lq_map : gmap Z Queue }.

Definition lq_create (name : ptr string) (depth : Z) (q : ListQueues) : (Z * Z) * ListQueues :=
  match name with
  | None => ((OS_ERR_NO_FREE_IDS, 0), q)
  | Some n =>
      if existsb (λ x, bool_decide (qu_name x.2 = n)) (map_to_list (lq_map q)) then ((OS_ERR_NAME_TAKEN, 0), q)
      else match lq_map q !! lq_next q with
           | Some _ => ((OS_ERR_NO_FREE_IDS, 0), q)
           | None => ((OS_SUCCESS, lq_next q),
                      mkQueues (lq_next q + 1) (λ k, if k =? lq_next q then depth else lq_depth q k)
                        (<[lq_next q := mkQueue n []]> (lq_map q)))
           end
  end.

Definition lq_delete (id : Z) (q : ListQueues) : Z * ListQueues :=
  (OS_SUCCESS, mkQueues (lq_next q) (lq_depth q) (delete id (lq_map q))).

Definition lq_put (id : Z) (a : addr) (q : ListQueues) : Z * ListQueues :=
  match lq_map q !! id with
  | Some x => if Z.of_nat (length (qu_items x)) <? lq_depth q id
              then (OS_SUCCESS, mkQueues (lq_next q) (lq_depth q) (<[id := mkQueue (qu_name x) (qu_items x ++ [a])]> (lq_map q)))
              else (OS_QUEUE_FULL, q)
  | None => (OS_QUEUE_FULL, q)
  end.

Definition lq_get (id timeout : Z) (q : ListQueues) : option ((Z * addr * Z) * ListQueues) :=
  match lq_map q !! id with
  | Some (mkQueue n (a :: l)) =>
      Some ((OS_SUCCESS, a, sizeof_ptr), mkQueues (lq_next q) (lq_depth q) (<[id := mkQueue n l]> (lq_map q)))
  | _ => if timeout =? OS_PEND then None
         else if timeout =? OS_CHECK then Some ((OS_QUEUE_EMPTY, NULL, 0), q) else Some ((OS_QUEUE_TIMEOUT, NULL, 0), q)
  end.

Definition lq_name (id size : Z) (q : ListQueues) : Z * string :=
  match lq_map q !! id with Some x => (OS_SUCCESS, qu_name x) | None => (OS_QUEUE_EMPTY, EmptyString) end.

Definition lq_by_name (n : string) (q : ListQueues) : Z * Z :=
  match filter (λ x, qu_name x.2 = n) (map_to_list (lq_map q)) with
  | (id, _) :: _ => (OS_SUCCESS, id)
  | [] => (OS_QUEUE_EMPTY, 0)
  end.

#[export] Instance ListOSQueue : OSQueue ListQueues :=
  {| OS_QueueCreate := lq_create; OS_QueueDelete := lq_delete; OS_QueuePut := lq_put; OS_QueueGet := lq_get;
     OS_GetResourceName := lq_name; OS_QueueGetIdByName := lq_by_name;
     q_items := λ q, qu_items <$> lq_map q; q_depth := lq_depth |}.

Lemma lq_lookup (q : ListQueues) id l : q_items q !! id = Some l → ∃ n, lq_map q !! id = Some (mkQueue n l).
Proof. cbn. rewrite lookup_fmap. destruct (lq_map q !! id) as [[n k]|]; [|done]. cbn. intros [= ->]. eauto. Qed.

#[export] Instance ListOSQueueOK : OSQueueOK ListQueues.
Proof.
  split; cbn -[q_items]; unfold lq_create, lq_delete, lq_put, lq_get.
  - intros [n|] depth q id q'; [|done]. destruct (existsb _ _); [done|].
    destruct (lq_map q !! lq_next q) eqn:Hn; intros [= <- <-].
    cbn. rewrite lookup_fmap, fmap_insert, Hn. by rewrite Z.eqb_refl.
  - intros [n|] depth q st id q'; [|by intros [= <- <- <-]]. destruct (existsb _ _); [by intros [= <- <- <-]|].
    destruct (lq_map q !! lq_next q); intros [= <- <- <-]; done.
  - intros id q st q' [= <- <-] _. cbn. by rewrite fmap_delete.
  - intros id a q st q' l. intros E (n & Hn)%lq_lookup. rewrite Hn in E. cbn in E. destruct (_ <? _); injection E as <- <-; [|done].
    cbn. by rewrite fmap_insert.
  - intros id a q. repeat case_match; done.
  - intros id a q l (n & Hn)%lq_lookup Hl. rewrite Hn. cbn. by rewrite (proj2 (Z.ltb_lt _ _)).
  - intros id t q a l (n & Hn)%lq_lookup. rewrite Hn. eexists. split; [done|]. cbn. by rewrite fmap_insert.
  - intros id t q r (n & Hn)%lq_lookup. rewrite Hn. repeat case_match; intros [= <-]; done.
  - intros id q (n & Hn)%lq_lookup. rewrite Hn. eauto.
  - intros id t q (n & Hn)%lq_lookup Ht. rewrite Hn, (proj2 (Z.eqb_neq _ _) Ht). case_match; eauto.
Qed.

(** The build of the examples: extended headers off, version 1 identifiers. *)
#[export] Instance ExampleCfg : BuildCfg := {| cfg_hdr := Hdr_Pri; cfg_msgid := MsgId_V1; cfg_spacecraft := 0x42 |}.

Definition fresh_pool : BumpPool := mkPool 1000 100 ∅.
Definition no_queues : ListQueues := mkQueues 1 (λ _, 0) ∅.
