(* ===== verification/SbSafety.v ===== *)
(** * The bus as a state machine

    Every call an application can make and everything the task of the bus does, as a
    step of the bus; the states reachable from the start up by such steps. *)
From stdpp Require Import strings.
From S2P Require Import Prelude Config Msg MsgProps ResourceId Sbr SbrProps SbState SbBuf SbApi SbRoutes SbBufs SbInv SbMem SbSubs SbSend SbTransmit SbZero SbRecv SbPipeOps SbCalls SbTask SbTaskOps.

(** The calls.  [FillBuffer] is the application writing into the content of a zero
    copy buffer it owns; [TaskStep] what the task of the bus does to the bus, with the
    task in the state given. *)
Inductive sb_call :=
| CreatePipe (c : Caller) (PipeIdPtr : ptr Z) (Depth : Z) (PipeName : ptr string)
| DeletePipe (c : Caller) (PipeId : Z)
| SetPipeOpts (c : Caller) (PipeId Opts : Z)
| GetPipeOpts (PipeId : Z) (OptsPtr : ptr Z)
| GetPipeName (PipeNameBuf : ptr string) (PipeNameSize PipeId : Z)
| GetPipeIdByName (PipeIdPtr : ptr Z) (PipeName : ptr string)
| SubscribeEx (c : Caller) (MsgId PipeId : Z) (Quality : Z * Z) (MsgLim : Z)
| Subscribe (c : Caller) (MsgId PipeId : Z)
| SubscribeLocal (c : Caller) (MsgId PipeId MsgLim : Z)
| Unsubscribe (c : Caller) (MsgId PipeId : Z)
| UnsubscribeLocal (c : Caller) (MsgId PipeId : Z)
| SendMsg (c : Caller) (MsgPtr : ptr Message)
| PassMsg (c : Caller) (MsgPtr : ptr Message)
| RcvMsg (BufPtr : ptr addr) (PipeId TimeOut : Z)
| ZeroCopyGetPtr (c : Caller) (MsgSize : Z) (BufferHandle : ptr addr)
| FillBuffer (Handle : addr) (Content : Message)
| ZeroCopyReleasePtr (Ptr2Release Handle : addr)
| ZeroCopySend (c : Caller) (BufPtr Handle : addr)
| ZeroCopyPass (c : Caller) (BufPtr Handle : addr)
| CleanUpApp (AppId : Z)
| TaskStep (t : SB_Task_t) (k : task_call).

Section safety.
Context {PS QS : Type} `{MemPoolOK PS} `{OSQueueOK QS} `{MsgMapOK} `{BuildCfg}.
Abbreviation G := (CFE_SB_Global_t PS QS).
Implicit Types (s : G).

Definition discard {A} (c : M G A) : M G unit := _ ← c; mret tt.

Definition run_call (call : sb_call) : M G unit :=
  match call with
  | CreatePipe c idp d n => discard (CFE_SB_CreatePipe c idp d n)
  | DeletePipe c id => discard (CFE_SB_DeletePipe c id)
  | SetPipeOpts c id o => discard (CFE_SB_SetPipeOpts c id o)
  | GetPipeOpts id o => discard (CFE_SB_GetPipeOpts id o)
  | GetPipeName b n id => discard (CFE_SB_GetPipeName b n id)
  | GetPipeIdByName idp n => discard (CFE_SB_GetPipeIdByName idp n)
  | SubscribeEx c m id q l => discard (CFE_SB_SubscribeEx c m id q l)
  | Subscribe c m id => discard (CFE_SB_Subscribe c m id)
  | SubscribeLocal c m id l => discard (CFE_SB_SubscribeLocal c m id l)
  | Unsubscribe c m id => discard (CFE_SB_Unsubscribe c m id)
  | UnsubscribeLocal c m id => discard (CFE_SB_UnsubscribeLocal c m id)
  | SendMsg c m => discard (CFE_SB_SendMsg c m)
  | PassMsg c m => discard (CFE_SB_PassMsg c m)
  | RcvMsg b id t => discard (CFE_SB_RcvMsg b id t)
  | ZeroCopyGetPtr c n h => discard (CFE_SB_ZeroCopyGetPtr c n h)
  | FillBuffer h m => wr_buf h (λ b, b <| bd_Content := m |>)
  | ZeroCopyReleasePtr b h => discard (CFE_SB_ZeroCopyReleasePtr b h)
  | ZeroCopySend c b h => discard (CFE_SB_ZeroCopySend c b h)
  | ZeroCopyPass c b h => discard (CFE_SB_ZeroCopyPass c b h)
  | CleanUpApp id => discard (CFE_SB_CleanUpApp id)
  | TaskStep t k => λ s, match run_task k (mkSBSys s t) with Some (_, s') => Some (tt, Bus s') | None => None end
  end.

(** A handle as the application got it, over content that is bytes. *)
Definition zc_arg_ok (s : G) (BufPtr Handle : addr) : Prop :=
  handle_ok s BufPtr Handle ∧ ∀ b, valid_handle s BufPtr Handle b → Forall is_u8 (bd_Content b).

(** What the caller owes: a task the executive knows, values of the argument types,
    messages and handles that are memory, no pend forever on an empty queue, and packets
    of the task that are well formed. *)
Definition call_ok (call : sb_call) (s : G) : Prop :=
  match call with
  | SubscribeEx c m _ _ _ | Subscribe c m _ | SubscribeLocal c m _ _ => caller_ok c ∧ is_u32 m
  | Unsubscribe _ m _ | UnsubscribeLocal _ m _ => is_u32 m
  | SendMsg c m | PassMsg c m => caller_ok c ∧ msg_arg_ok m
  | RcvMsg _ id t => returns_in_time id t s
  | ZeroCopyGetPtr c n _ => caller_ok c ∧ 0 <= n
  | FillBuffer h m => ∃ b, Bufs s !! h = Some b ∧ bd_AppId b ≠ CFE_ES_APPID_UNDEFINED
  | ZeroCopyReleasePtr b h => handle_ok s b h
  | ZeroCopySend c b h | ZeroCopyPass c b h => caller_ok c ∧ zc_arg_ok s b h
  | TaskStep t k => task_ok t ∧ task_call_ok k
  | _ => True
  end.

(** ** Start up *)

Lemma init_refs q n p : ¬ active p → refs q (replicate n p) = [] ∧ nactive (replicate n p) = 0.
Proof.
  intros Ha. induction n as [|n [IH1 IH2]]; [done|]. split.
  - unfold refs in *. cbn. rewrite IH1. unfold pipe_refs. by rewrite decide_False.
  - cbn [replicate]. rewrite nactive_cons, decide_False, IH2 by done. done.
Qed.

Lemma init_pipes q : pipes_inv (replicate (Z.to_nat CFE_PLATFORM_SB_MAX_PIPES) clear_pipe) q CFE_SB_PIPEID_BASE None.
Proof.
  assert (∀ i p, replicate (Z.to_nat CFE_PLATFORM_SB_MAX_PIPES) clear_pipe !! i = Some p → p = clear_pipe) as Hc.
  { intros i p [-> _]%lookup_replicate. done. }
  split; try done.
  - intros i p ->%Hc. by left.
  - intros i j p p' ->%Hc _ [Ha _]. done.
Qed.

(** The state a successful CFE_SB_EarlyInit leaves. *)
Definition started_bus (p : PS) (q : QS) : G :=
  mkGlobal PS QS false false (replicate (Z.to_nat OS_MAX_TASKS) 0) (replicate (Z.to_nat CFE_PLATFORM_SB_MAX_PIPES) clear_pipe)
    (mkHK 0 0 0 0 0 0 0 0 0 0 0 0 0) (mkStat 0 0 0 0 0 0 0 0 0 0) CFE_SB_PIPEID_BASE CFE_SBR_Init ∅ ∅
    (<[InTransitList := mkLink InTransitList InTransitList]> (<[ZeroCopyList := mkLink ZeroCopyList ZeroCopyList]> ∅)) ∅ p q [].

(** CFE_SB_EarlyInit returns; the first status that is not success is its result. *)
Lemma EarlyInit_spec m st p s : ∃ s', CFE_SB_EarlyInit m (st, p) s = Some (if m =? OS_SUCCESS then st else m, s') ∧
  (m = OS_SUCCESS → st = CFE_SUCCESS → s' = started_bus p (Queues s)).
Proof.
  unfold CFE_SB_EarlyInit, CFE_SB_InitBuffers. destruct (Z.eqb_spec m OS_SUCCESS) as [->|Hm]; [|by eexists].
  destruct (Z.eqb_spec st CFE_SUCCESS) as [->|Hst].
  - eexists. split; reflexivity.
  - eexists. split; [|intros _ E; by destruct Hst]. unfold mbind, M_bind, modify, mret, M_ret. cbn beta iota delta [negb].
    rewrite (proj2 (Z.eqb_neq st CFE_SUCCESS) Hst). reflexivity.
Qed.

Lemma EarlyInit_success m st p s s' : CFE_SB_EarlyInit m (st, p) s = Some (CFE_SUCCESS, s') → s' = started_bus p (Queues s).
Proof.
  intros E. destruct (EarlyInit_spec m st p s) as (s1 & E1 & Hs1). rewrite E in E1. injection E1 as E2 ->.
  destruct (Z.eqb_spec m OS_SUCCESS) as [->|Hm]; [by apply Hs1|]. by destruct Hm.
Qed.

Lemma EarlyInit_inv p q : p_live p = ∅ → sb_inv [] [] None NULL (started_bus p q).
Proof.
  intros Hp. assert (¬ active clear_pipe) as Hna by by apply not_active; left.
  destruct (init_refs (q_items q) (Z.to_nat CFE_PLATFORM_SB_MAX_PIPES) clear_pipe Hna) as [Hrefs Hn].
  assert (grefs (started_bus p q) = []) as Hg by exact Hrefs.
  split.
  - split; try done; [apply Init_inv|..].
    + constructor.
    + intros a. cbn. rewrite lookup_empty. split; [by intros [? ?]|by intros ?%not_elem_of_nil].
    + intros a. cbn. rewrite lookup_empty. by intros [? ?].
  - apply init_pipes.
  - intros l x Hl. by apply not_elem_of_nil in Hl.
  - exists [], []. split.
    + split; try done; cbn.
      * constructor.
      * intros a. by intros ?%not_elem_of_nil.
    + rewrite Hg. split; try done; cbn.
      all: intros a *; rewrite ?lookup_empty; try done.
      all: by intros ?%not_elem_of_nil.
  - intros a. rewrite Hg. case_decide; done.
  - cbn. rewrite Hp, !dom_empty_L. set_solver.
  - cbn. fold clear_pipe. rewrite Hn. by split.
  - apply map_Forall_empty.
  - cbn [StopRecurseFlags started_bus]. split; [by rewrite length_replicate|]. by apply Forall_replicate.
Qed.

(** ** Every call keeps the bus sound *)

Lemma wp_discard {A} (c : M G A) (Q : unit → G → Prop) s : wp c (λ _, Q tt) s → wp (discard c) Q s.
Proof. intros Hc. unfold discard. apply wp_bind. eapply wp_mono; [exact Hc|]. intros a s' HQ. by apply wp_ret. Qed.

Lemma unsubscribe_ok m id sc app s : sb_ok s → is_u32 m → wp (CFE_SB_UnsubscribeFull m id sc app) (λ _, sb_ok) s.
Proof.
  intros (Hlk & tb & Hi) Hm. eapply wp_UnsubscribeFull; [done|exact Hi|done|]. intros st s' []. split; eauto.
Qed.

Lemma zerocopy_ok c b h inc s : sb_ok s → caller_ok c → zc_arg_ok s b h → wp (CFE_SB_TransmitBuffer c b h inc) (λ _, sb_ok) s.
Proof.
  intros (Hlk & tb & Hi) Hc [Hh Hb]. eapply wp_TransmitBuffer; [done|done|exact Hi|done|done|].
  intros st s' [].
  - split; [done|eauto].
  - split; [done|eauto].
  - split; [done|eauto].
  - split; [by eapply bp_locked|]. eexists. by eapply bp_inv.
Qed.

Lemma receive_ok b id t s : sb_ok s → returns_in_time id t s → wp (CFE_SB_ReceiveBuffer b id t) (λ _, sb_ok) s.
Proof.
  intros (Hlk & tb & Hi) Ht. eapply wp_ReceiveBuffer; [done|exact Hi|done|]. intros r s' []; [|split; eauto..].
  split; [done|]. exists tb. by apply inv_events, inv_hk.
Qed.

Lemma delete_pipe_ok id app s : sb_ok s → wp (CFE_SB_DeletePipeFull id app) (λ _, sb_ok) s.
Proof.
  intros (Hlk & tb & Hi). eapply wp_DeletePipeFull; [done|exact Hi|]. intros r s' []; [|split; eauto].
  split; [done|]. exists tb. by apply inv_events, inv_hk.
Qed.

Lemma opts_ok c id o s : sb_ok s → wp (CFE_SB_SetPipeOpts c id o) (λ _, sb_ok) s.
Proof.
  intros (Hlk & tb & Hi). eapply wp_SetPipeOpts; [done|apply (in_pipes _ _ _ _ _ Hi)|]. intros r s' [|ev _ _|i p ev _ E _]; (split; [done|]).
  - by exists tb.
  - exists tb. by apply inv_events, inv_hk.
  - exists tb. destruct (find_pipe_Some _ _ _ _ E) as (_ & Hp & _). apply inv_events.
    eapply (inv_upd_pipe _ _ _ _ _ i p (set_opts o)); done.
Qed.

Lemma zero_get_ok c n h s : sb_ok s → caller_ok c → 0 <= n → wp (CFE_SB_ZeroCopyGetPtr c n h) (λ _, sb_ok) s.
Proof.
  intros (Hlk & tb & Hi) Hc Hn. eapply wp_ZeroCopyGetPtr; [done|done|exact Hi|done|..]; intros; split; eauto.
Qed.

Lemma release_ok b h s : sb_ok s → handle_ok s b h → wp (CFE_SB_ZeroCopyReleasePtr b h) (λ _, sb_ok) s.
Proof. intros (Hlk & tb & Hi) Hh. eapply wp_ReleasePtr; [done|exact Hi|done|..]; intros; split; eauto. Qed.

Lemma cleanup_ok id s : sb_ok s → wp (CFE_SB_CleanUpApp id) (λ _, sb_ok) s.
Proof. intros (Hlk & tb & Hi). eapply wp_CleanUpApp; [done|exact Hi|]. intros s' []. split; eauto. Qed.

Lemma fill_ok h m s : sb_ok s → is_Some (Bufs s !! h) → wp (wr_buf h (λ b, b <| bd_Content := m |>)) (λ _, sb_ok) s.
Proof.
  intros (Hlk & tb & Hi) [b Hb]. eapply wp_wr_buf; [exact Hb|]. split; [done|]. exists tb.
  eapply inv_upd_buf; [exact Hi|exact Hb|done|done|]. exact (in_ids _ _ _ _ _ Hi h b Hb).
Qed.

#[local] Hint Resolve transmit_ok subscribe_ok unsubscribe_ok zerocopy_ok receive_ok delete_pipe_ok create_pipe_ok opts_ok
  zero_get_ok release_ok cleanup_ok : cfs.

Lemma run_call_ok call s : sb_ok s → call_ok call s → wp (run_call call) (λ _, sb_ok) s.
Proof.
  intros Hs Hc. destruct (queries_ok s Hs) as (Hq1 & Hq2 & Hq3).
  destruct call; cbn [run_call call_ok] in *; try (apply wp_discard; naive_solver eauto with cfs).
  - destruct Hc as (b & Hb & _). apply fill_ok; eauto.
  - destruct Hc as [Ht Hk]. pose proof (preserves_task_call k Hk (mkSBSys s t) (conj Hs Ht)) as Hw. unfold wp in *.
    destruct (run_task k _) as [[? s']|]; [apply Hw|done].
Qed.

(** ** Reachable states *)

Inductive reachable (p : PS) (q : QS) : G → Prop :=
| reach_init m st s0 s : Queues s0 = q → CFE_SB_EarlyInit m (st, p) s0 = Some (CFE_SUCCESS, s) → reachable p q s
| reach_call call s s' : reachable p q s → call_ok call s → run_call call s = Some (tt, s') → reachable p q s'.

Lemma reachable_ok p q s : p_live p = ∅ → reachable p q s → sb_ok s.
Proof.
  intros Hp. induction 1 as [m st s0 s <- E|call s s' _ IH Hc E].
  - apply EarlyInit_success in E as ->. split; [done|]. exists []. by apply EarlyInit_inv.
  - pose proof (run_call_ok call s IH Hc) as Hw. unfold wp in Hw. by rewrite E in Hw.
Qed.

(** The start is possible from any state before it, and the started bus is reachable. *)
Lemma started_runs p s : CFE_SB_EarlyInit OS_SUCCESS (CFE_SUCCESS, p) s = Some (CFE_SUCCESS, started_bus p (Queues s)).
Proof. destruct (EarlyInit_spec OS_SUCCESS CFE_SUCCESS p s) as (s' & E & H'). by rewrite E, H'. Qed.

Lemma started_reachable p q : reachable p q (started_bus p q).
Proof. eapply (reach_init _ _ OS_SUCCESS CFE_SUCCESS (started_bus p q)); [done|apply started_runs]. Qed.

(** The bus together with its task: the calls of applications do not touch the task. *)
Inductive sys_reach (p : PS) (q : QS) : SBSys PS QS → Prop :=
| sys_init m st s0 g : Queues s0 = q → CFE_SB_EarlyInit m (st, p) s0 = Some (CFE_SUCCESS, g) → sys_reach p q (mkSBSys g early_task)
| sys_call call (s : SBSys PS QS) g : sys_reach p q s → call_ok call (Bus s) → run_call call (Bus s) = Some (tt, g) → sys_reach p q (s <| Bus := g |>)
| sys_task k (s s' : SBSys PS QS) : sys_reach p q s → task_call_ok k → run_task k s = Some (tt, s') → sys_reach p q s'.

Lemma sys_reach_ok p q (s : SBSys PS QS) : p_live p = ∅ → sys_reach p q s → reachable p q (Bus s) ∧ sys_ok s.
Proof.
  intros Hp. induction 1 as [m st s0 g Hq E|call s g _ [IHr [IHb IHt]] Hc E|k s s' _ [IHr [IHb IHt]] Hk E].
  - split; [by eapply reach_init|]. split; [|apply early_task_ok]. apply (reachable_ok p q); [done|]. by eapply reach_init.
  - split; [by eapply reach_call|]. split; [|done]. pose proof (run_call_ok call _ IHb Hc) as Hw. unfold wp in Hw. by rewrite E in Hw.
  - split.
    + eapply (reach_call _ _ (TaskStep (Task s) k)); [exact IHr|by split|]. cbn. replace (mkSBSys (Bus s) (Task s)) with s by by destruct s. by rewrite E.
    + pose proof (preserves_task_call k Hk s (conj IHb IHt)) as Hw. unfold wp in Hw. by rewrite E in Hw.
Qed.

Lemma started_sys p q : sys_reach p q (mkSBSys (started_bus p q) early_task).
Proof. eapply (sys_init _ _ OS_SUCCESS CFE_SUCCESS (started_bus p q)); [done|apply started_runs]. Qed.

(** Running a sequence of calls. *)
Definition exec (call : sb_call) (s : G) : G := match run_call call s with Some (_, s') => s' | None => s end.
Definition exec_all (calls : list sb_call) (s : G) : G := foldl (λ s call, exec call s) s calls.

Fixpoint calls_ok (calls : list sb_call) (s : G) : Prop :=
  match calls with [] => True | call :: calls => call_ok call s ∧ calls_ok calls (exec call s) end.

Lemma exec_reachable p q calls s : p_live p = ∅ → reachable p q s → calls_ok calls s → reachable p q (exec_all calls s).
Proof.
  intros Hp. revert s. induction calls as [|call calls IH]; intros s Hr Hc; [done|]. destruct Hc as [Hc Hcs].
  cbn [exec_all foldl]. apply IH; [|done].
  pose proof (run_call_ok call s (reachable_ok p q s Hp Hr) Hc) as Hw. apply wp_inv in Hw as ([] & s' & E & _).
  unfold exec. rewrite E. by eapply reach_call.
Qed.

End safety.

(** ** Delivery

    The queues after a broadcast, destination by destination, and a message from
    the sender to the receiver. *)

(** The queue of one destination after its outcome. *)
Definition queue_after (a : addr) (o : outcome) (l : option (list addr)) : option (list addr) :=
  match o with Delivered => (λ l, l ++ [a]) <$> l | _ => l end.

Lemma out_queues_other a tbl outs l q qid : (∀ x, x ∈ l → queue_of tbl (dd_PipeId x.2) ≠ qid) →
  out_queues a tbl outs l q !! qid = q !! qid.
Proof.
  revert l q. induction outs as [|o outs IH]; intros [|x l] q Hn; try done. cbn.
  rewrite IH by (intros y Hy; apply Hn; by right). unfold out_queue. destruct o; try done.
  apply lookup_alter_ne. apply Hn. by left.
Qed.

Lemma out_queues_at a tbl q0 last rsv outs l q k x o : pipes_inv tbl q0 last rsv →
  (∀ x, x ∈ l → is_Some (find_pipe tbl (dd_PipeId x.2))) → NoDup (dest_pipes l) →
  l !! k = Some x → outs !! k = Some o →
  out_queues a tbl outs l q !! queue_of tbl (dd_PipeId x.2) = queue_after a o (q !! queue_of tbl (dd_PipeId x.2)).
Proof.
  intros Hp. revert l q k. induction outs as [|o' outs IH]; intros [|x' l] q k Hf Hnd Hx Ho; try done.
  apply NoDup_cons in Hnd as [Hn Hnd].
  assert (∀ y, y ∈ l → queue_of tbl (dd_PipeId y.2) ≠ queue_of tbl (dd_PipeId x'.2)) as Hinj.
  { intros y Hy. destruct (Hf x' ltac:(by left)) as [[i p] E]. destruct (Hf y ltac:(by right)) as [[j p'] E'].
    eapply queue_of_inj; [done..|]. intros Ey. apply Hn. rewrite <- Ey. by apply (list_elem_of_fmap_2 (λ x, dd_PipeId x.2)). }
  destruct k as [|k]; cbn in Hx, Ho |- *.
  - injection Hx as ->. injection Ho as ->. rewrite out_queues_other by done.
    unfold out_queue, queue_after. destruct o; try done. by rewrite lookup_alter_eq.
  - rewrite (IH l _ k); [|intros y Hy; apply Hf; by right|done..]. f_equal.
    unfold out_queue. destruct o'; try done. apply lookup_alter_ne. apply not_eq_sym, Hinj. by eapply list_elem_of_lookup_2.
Qed.

Section deliver.
Context {PS QS : Type} `{MemPoolOK PS} `{OSQueueOK QS} `{MsgMapOK} `{BuildCfg}.
Abbreviation G := (CFE_SB_Global_t PS QS).
Implicit Types (s : G).

(** The buffer [a] broadcast to the destinations [l]: the outcome at each is what
    its state calls for; the buffer is at the end of the queues of those it was
    delivered to, and all other queues are as they were. *)
Record delivery (AppId : Z) (a : addr) (l : dlist) (outs : list outcome) (s s' : G) : Prop := {
  de_ok : Forall2 (out_ok AppId (PipeTbl s) (q_items (Queues s)) (q_depth (Queues s))) l.*2 outs;
  de_at k d y o : l !! k = Some (d, y) → outs !! k = Some o →
    q_items (Queues s') !! queue_of (PipeTbl s) (dd_PipeId y) =
      queue_after a o (q_items (Queues s) !! queue_of (PipeTbl s) (dd_PipeId y));
  de_other qid : (∀ d y, (d, y) ∈ l → queue_of (PipeTbl s) (dd_PipeId y) ≠ qid) →
    q_items (Queues s') !! qid = q_items (Queues s) !! qid;
}.

Lemma dests_found tb held rsv tx s i l x : sb_inv tb held rsv tx s → tb !! i = Some l → x ∈ l →
  is_Some (find_pipe (PipeTbl s) (dd_PipeId x.2)).
Proof.
  intros Hi Hl Hx. eapply find_pipe_ids; [apply (in_pipes _ _ _ _ _ Hi)|].
  eapply in_dests; [exact Hi|by eapply list_elem_of_lookup_2|]. by apply (list_elem_of_fmap_2 (λ x, dd_PipeId x.2)).
Qed.

Lemma broadcast_delivery AppId a b held0 tb0 i l e outs tb held rsv tx s s0 s' :
  sb_inv tb held rsv tx s → tb !! i = Some l → PipeTbl s0 = PipeTbl s → Queues s0 = Queues s →
  broadcast_post AppId a b held0 tb0 i l e outs s0 s' → delivery AppId a l outs s s'.
Proof.
  intros Hi Hl ET EQ [Hok _ _ Hq _ _ _ _ _]. rewrite ET, EQ in *.
  pose proof (ri_pipes _ _ _ (in_routes _ _ _ _ _ Hi)) as Hnd. eapply Forall_lookup_1 in Hnd; [|exact Hl]. cbn in Hnd.
  split; [done| |].
  - intros k d y o Hk Ho. rewrite Hq.
    eapply (out_queues_at _ _ _ _ _ _ _ _ _ (d, y)); [apply (in_pipes _ _ _ _ _ Hi)| |done..]. intros x. by eapply dests_found.
  - intros qid Hn. rewrite Hq. apply out_queues_other. intros [d y] Hx. by apply (Hn d y).
Qed.

(** ** From the sender to the receiver *)

Lemma delivered_at AppId a l outs s s' k d y : delivery AppId a l outs s s' → l !! k = Some (d, y) →
  dest_skips AppId (PipeTbl s) y = false → dd_BuffCount y < dd_MsgId2PipeLim y →
  q_items (Queues s) !! queue_of (PipeTbl s) (dd_PipeId y) = Some [] → 0 < q_depth (Queues s) (queue_of (PipeTbl s) (dd_PipeId y)) →
  outs !! k = Some Delivered ∧ q_items (Queues s') !! queue_of (PipeTbl s) (dd_PipeId y) = Some [a].
Proof.
  intros [Hok Hat _] Hk Hs Hlim Hq Hdep.
  destruct (Forall2_lookup_l _ _ _ k y Hok) as (o & Ho & Hout); [by rewrite list_lookup_fmap, Hk|].
  assert (o = Delivered) as ->.
  { destruct o; cbn in Hout; [congruence|done|lia|destruct Hout as (_ & _ & l' & Hl' & Hd)..].
    all: rewrite Hq in Hl'; injection Hl' as <-; cbn in Hd; lia. }
  split; [done|]. rewrite (Hat k d y Delivered Hk Ho), Hq. done.
Qed.

Lemma ndelivered_pos outs k : outs !! k = Some Delivered → ndelivered outs ≠ 0%nat.
Proof.
  intros Hk. unfold ndelivered. intros E%nil_length_inv.
  assert (Delivered ∈ filter (λ o, o = Delivered) outs) as Hin.
  { apply list_elem_of_filter. split; [done|]. by eapply list_elem_of_lookup_2. }
  rewrite E in Hin. by apply not_elem_of_nil in Hin.
Qed.

(** The last buffer of a pipe is live. *)
Lemma last_live tb held rsv tx s i p : sb_inv tb held rsv tx s → PipeTbl s !! i = Some p → active p → pd_LastBuffer p ≠ NULL →
  is_Some (Bufs s !! pd_LastBuffer p).
Proof.
  intros Hi Hp Ha Hn. destruct (inv_ref _ _ _ _ _ (pd_LastBuffer p) Hi) as (b & Hb & _); [|eauto].
  apply elem_of_app. left. unfold grefs. rewrite (refs_split _ _ _ _ Hp). apply elem_of_app. left.
  unfold pipe_refs, last_ref. rewrite decide_True, decide_False by done. apply elem_of_app. right. by left.
Qed.

(** The state of a subscriber that a message will reach: in use, subscribed, below
    its limit, with an empty queue. *)
Record ready (AppId MsgId PipeId : Z) (tb : list dlist) (s : G) (y : CFE_SB_DestinationD_t) : Prop := {
  rd_sub : ∃ i l d, msgids (Routes s) !! i = Some MsgId ∧ tb !! i = Some l ∧ (d, y) ∈ l;
  rd_pipe : dd_PipeId y = PipeId;
  rd_open : dest_skips AppId (PipeTbl s) y = false;
  rd_limit : dd_BuffCount y < dd_MsgId2PipeLim y;
  rd_queue : q_items (Queues s) !! queue_of (PipeTbl s) PipeId = Some [];
  rd_room : 0 < q_depth (Queues s) (queue_of (PipeTbl s) PipeId);
}.

(** A transmission to a ready subscriber leaves the message alone on its queue. *)
Lemma ready_sent c m inc tb PipeId y i l e a outs s s1 s' :
  sb_inv tb [] None NULL s → ready (c_AppId c) (msg_id m) PipeId tb s y →
  msgids (Routes s) !! i = Some (msg_id m) → tb !! i = Some l →
  Bufs s !! a = None → Bufs s1 = <[a := msg_buf m inc]> (Bufs s) → PipeTbl s1 = PipeTbl s → Queues s1 = Queues s →
  broadcast_post (c_AppId c) a (msg_buf m inc) [] tb i l e outs s1 s' →
  ∃ k p' b, find_pipe (PipeTbl s') PipeId = Some (k, p') ∧ q_items (Queues s') !! pd_SysQueueId p' = Some [a] ∧
    a ≠ pd_LastBuffer p' ∧ Bufs s' !! a = Some b ∧ bd_Content b = seq_content (msg_buf m inc) (SeqCnt e).
Proof.
  intros Hi [(i' & l' & d & Hr' & Hl' & Hin) Ep Hopen Hlim Hq Hroom] Hr Hl Hfr EB ET EQ Hb.
  pose proof (wf_nodup _ (inv_wf _ (ri_sbr _ _ _ (in_routes _ _ _ _ _ Hi)))) as Hnd.
  assert (i' = i) as -> by by eapply NoDup_lookup. assert (l' = l) as -> by congruence.
  apply list_elem_of_lookup in Hin as [k Hk]. subst PipeId.
  pose proof (broadcast_delivery _ _ _ _ _ _ _ _ _ _ _ _ _ _ _ _ Hi Hl ET EQ Hb) as Hd.
  destruct (delivered_at _ _ _ _ _ _ _ _ _ Hd Hk Hopen Hlim Hq Hroom) as [Ho Hq'].
  destruct (skips_find _ _ _ Hopen) as (n & p & E). destruct (find_pipe_Some _ _ _ _ E) as (_ & Hp & _ & Ha).
  pose proof (bp_pipes _ _ _ _ _ _ _ _ _ _ _ Hb) as Hcore. rewrite ET in Hcore.
  pose proof (pcore_find _ _ (dd_PipeId y) Hcore) as Hf. rewrite E in Hf.
  destruct (find_pipe (PipeTbl s') (dd_PipeId y)) as [[n' p']|]; [|done]. destruct Hf as [<- Hpc].
  destruct (pcore_eq _ _ Hpc) as (_ & _ & _ & Esq & Elast). unfold queue_of in Hq'. rewrite E in Hq'.
  exists n, p', ((msg_buf m inc) <| bd_Content := seq_content (msg_buf m inc) (SeqCnt e) |>
    <| bd_AppId := CFE_ES_APPID_UNDEFINED |> <| bd_UseCount := Z.of_nat (ndelivered outs) |>).
  split_and!; [done|by rewrite <- Esq| | |done].
  - rewrite <- Elast. intros ->. destruct (decide (pd_LastBuffer p = NULL)) as [En|En].
    + destruct (in_bufs _ _ _ _ _ (bp_inv _ _ _ _ _ _ _ _ _ _ _ Hb)) as (zs & ts & Hlk & Hc).
      rewrite (bp_bufs _ _ _ _ _ _ _ _ _ _ _ Hb) in Hlk. unfold sent_bufs in Hlk.
      rewrite decide_False in Hlk by by eapply ndelivered_pos. 
      assert (0 < pd_LastBuffer p) by (apply (lo_pos _ _ _ _ Hlk); rewrite dom_insert_L; set_solver). unfold NULL in En. lia.
    + destruct (last_live _ _ _ _ _ _ _ Hi Hp Ha En) as [b Hb']. congruence.
  - rewrite (bp_bufs _ _ _ _ _ _ _ _ _ _ _ Hb). unfold sent_bufs. rewrite decide_False by by eapply ndelivered_pos.
    by rewrite lookup_insert_eq.
Qed.

End deliver.
