(* ===== verification/SbProps.v ===== *)
(** * What the software bus guarantees

    The properties of the API, each with an example that runs on the pool and the
    queues of SbInst. *)
From stdpp Require Import strings.
From S2P Require Import Prelude Config Msg MsgProps ResourceId Sbr SbrProps SbState SbBuf SbApi SbRoutes SbBufs SbInv SbMem SbSubs SbSend SbTransmit SbZero SbRecv SbPipeOps SbCalls EsApp SbTask SbTaskOps SbSafety SbInst.

Section props.
Context {PS QS : Type} `{MemPoolOK PS} `{OSQueueOK QS} `{MsgMapOK} `{BuildCfg}.
Abbreviation G := (CFE_SB_Global_t PS QS).
Implicit Types (s : G).

(** ** Safety of every sequence of calls *)


(** The addresses on the queues and last buffers of the pipes in use. *)
Definition references (s : G) : list addr := grefs s.

(** [C4] The books are right after any sequence of API calls and steps of the task: a
    buffer's use count
    is the number of queue entries and last buffers that refer to it, plus one while
    an application owns it for zero copy, and is never zero; what is on a queue in use
    is an allocated buffer; the pool holds exactly the buffers and the destination
    descriptors, which are different blocks; and the statistics telemetry counts
    buffers, subscriptions, pipes and message identifiers. *)
Theorem bus_accounting p q s (Hp : p_live p = ∅) (Hr : reachable p q s) :
  (∀ a b, Bufs s !! a = Some b →
     bd_UseCount b = cnt a (references s) + (if decide (bd_AppId b = CFE_ES_APPID_UNDEFINED) then 0 else 1) ∧ 0 < bd_UseCount b) ∧
  (∀ i pd l a, PipeTbl s !! i = Some pd → active pd → q_items (Queues s) !! pd_SysQueueId pd = Some l → a ∈ l → is_Some (Bufs s !! a)) ∧
  dom (p_live (Pool s)) = dom (Bufs s) ∪ dom (Dests s) ∧ dom (Bufs s) ## dom (Dests s) ∧
  SBBuffersInUse (Stat s) = u32 (Z.of_nat (size (Bufs s))) ∧
  SubscriptionsInUse (Stat s) = u32 (Z.of_nat (size (Dests s))) ∧
  PipesInUse (Stat s) = u32 (nactive (PipeTbl s)) ∧ MsgIdsInUse (Stat s) = u32 (RouteIdxTop (Routes s)).
Proof.
  destruct (reachable_ok p q s Hp Hr) as (_ & tb & Hi). destruct (in_bufs _ _ _ _ _ Hi) as (zs & ts & Hl & Hc).
  rewrite app_nil_r in Hc. destruct (in_pool _ _ _ _ _ Hi). destruct (in_stats _ _ _ _ _ Hi) as [S1 S2 S3 S4].
  cbn in S4. rewrite Z.add_0_r in S4. split_and!; try done.
  - intros a b Hb. split; [by apply (co_cnt _ _ _ _ Hc)|by eapply co_pos].
  - intros i pd l a Hi' Ha Hq Hin. apply (co_ref _ _ _ _ Hc). unfold grefs. rewrite (refs_split _ _ _ _ Hi'), elem_of_app.
    left. unfold pipe_refs. rewrite decide_True, Hq by done. apply elem_of_app. by left.
Qed.

Lemma idle_refs q (tbl : ptable) : (∀ pd, pd ∈ tbl → ¬ active pd) → refs q tbl = [].
Proof.
  induction tbl as [|pd tbl IH]; intros Hn; [done|]. unfold refs. cbn. fold (refs q tbl). rewrite IH.
  - unfold pipe_refs. rewrite decide_False; [done|]. apply Hn. by left.
  - intros pd' Hpd. apply Hn. by right.
Qed.

Lemma idle_count (tbl : ptable) : (∀ pd, pd ∈ tbl → ¬ active pd) → nactive tbl = 0.
Proof.
  intros Hn. unfold nactive. rewrite (elem_of_nil_inv (filter active tbl)); [done|].
  intros x [Ha Hx]%list_elem_of_filter. by eapply Hn.
Qed.

Lemma idle_dests tb s : sb_inv tb [] None NULL s → (∀ pd, pd ∈ PipeTbl s → ¬ active pd) → Dests s = ∅.
Proof.
  intros Hi Hn. apply map_empty. intros d. apply eq_None_not_Some. intros Hd%(ri_dom _ _ _ (in_routes _ _ _ _ _ Hi)).
  apply list_elem_of_fmap in Hd as (x & -> & Hx). apply list_elem_of_In, in_concat in Hx as (l & Hl & Hx). apply list_elem_of_In in Hl, Hx.
  pose proof (in_dests _ _ _ _ _ Hi l (dd_PipeId x.2) Hl (list_elem_of_fmap_2 (λ x, dd_PipeId x.2) _ _ Hx)) as Hp.
  apply list_elem_of_fmap in Hp as (p & _ & [Ha Hp]%list_elem_of_filter). by eapply Hn.
Qed.

(** Nothing leaks: when no pipe is in use and no application owns a zero copy
    buffer, every block is back in the pool and the counts are zero. *)
Theorem bus_no_leak p q s (Hp : p_live p = ∅) (Hr : reachable p q s)
    (Hpipes : ∀ pd, pd ∈ PipeTbl s → ¬ active pd)
    (Hzc : ∀ a b, Bufs s !! a = Some b → bd_AppId b = CFE_ES_APPID_UNDEFINED) :
  Bufs s = ∅ ∧ Dests s = ∅ ∧ dom (p_live (Pool s)) = ∅ ∧
  SBBuffersInUse (Stat s) = 0 ∧ SubscriptionsInUse (Stat s) = 0 ∧ PipesInUse (Stat s) = 0.
Proof.
  destruct (reachable_ok p q s Hp Hr) as (_ & tb & Hi). destruct (in_bufs _ _ _ _ _ Hi) as (zs & ts & Hl & Hc).
  unfold grefs in Hc. rewrite app_nil_r, (idle_refs _ _ Hpipes) in Hc. destruct (in_pool _ _ _ _ _ Hi) as [Hpool _].
  destruct (in_stats _ _ _ _ _ Hi) as [S1 S2 _ S4]. rewrite (idle_count _ Hpipes) in S4.
  assert (Bufs s = ∅) as EB.
  { apply map_empty. intros a. apply eq_None_not_Some. intros [b Hb].
    pose proof (co_cnt _ _ _ _ Hc a b Hb) as Hn. pose proof (co_pos _ _ _ _ Hc a b Hb).
    unfold owned in Hn. rewrite decide_True in Hn by by eapply Hzc. rewrite cnt_not in Hn by by apply not_elem_of_nil. lia. }
  pose proof (idle_dests _ _ Hi Hpipes) as ED. rewrite EB, ED in *.
  split_and!; try done.
Qed.

(** ** Subscriptions *)

(** [C5] CFE_SB_SubscribeFull, the body of every subscribe call, returns the status
    and makes the change to the table of message identifiers and destinations that
    [sub_step] gives for the branch: refusals change nothing, a duplicate is success
    without a change, the limits on identifiers and destinations hold, and a new
    destination is put at the head of the route's list, the route being added first
    when there is none.  Then a report is sent if the scope is global and reporting
    is on. *)
Theorem subscribe_refines c MsgId PipeId Quality MsgLim Scope tb s
    (Hc : caller_ok c) (Hlk : Locked s = false) (Hi : sb_inv tb [] None NULL s) (Hid : is_u32 MsgId) :
  ∃ st s', CFE_SB_SubscribeFull c MsgId PipeId Quality MsgLim Scope s = Some (st, s') ∧
    subscribe_post c MsgId PipeId Quality MsgLim Scope tb s st s'.
Proof. apply wp_inv. eapply wp_SubscribeFull; eauto. Qed.

(** [C6] CFE_SB_UnsubscribeFull, the body of every unsubscribe call, makes the change
    [unsub_step] gives: the destination of the pipe is taken out of the route's list
    and nothing else changes; without a subscription the call is still a success. *)
Theorem unsubscribe_refines MsgId PipeId Scope AppId tb s
    (Hlk : Locked s = false) (Hi : sb_inv tb [] None NULL s) (Hid : is_u32 MsgId) :
  ∃ st s', CFE_SB_UnsubscribeFull MsgId PipeId Scope AppId s = Some (st, s') ∧
    unsubscribe_post MsgId PipeId Scope AppId tb s st s'.
Proof. apply wp_inv. eapply wp_UnsubscribeFull; eauto. Qed.

(** ** Sending and receiving *)

(** [C3] CFE_SB_TransmitMsg either sends nothing, with the reason in its status and
    every queue, pipe and buffer as it was, or copies the message to one new buffer
    and delivers that to the destinations of its identifier: a destination that is
    not skipped, has not reached its message limit and whose queue has room gets the
    buffer at the end of its queue, all others keep their queues; the buffer has one
    use per delivery, and without any it is given back. *)
Theorem transmit_delivers c m inc tb s
    (Hc : caller_ok c) (Hlk : Locked s = false) (Hi : sb_inv tb [] None NULL s) (Hm : msg_ok m) :
  ∃ st s', CFE_SB_TransmitMsg c (Some m) inc s = Some (st, s') ∧
    ((unsent (Some m) (msgids (Routes s)) st ∧ PipeTbl s' = PipeTbl s ∧ Queues s' = Queues s ∧ Bufs s' = Bufs s) ∨
     (∃ i l e a outs, st = CFE_SUCCESS ∧ send_check m = CFE_SUCCESS ∧ msgids (Routes s) !! i = Some (msg_id m) ∧
        tb !! i = Some l ∧ entries (Routes s) !! i = Some e ∧ Bufs s !! a = None ∧
        delivery (c_AppId c) a l outs s s' ∧
        Bufs s' = sent_bufs a ((msg_buf m inc) <| bd_Content := seq_content (msg_buf m inc) (SeqCnt e) |>)
                    (ndelivered outs) (<[a := msg_buf m inc]> (Bufs s)) ∧
        sb_inv (<[i := upd_dests outs l]> tb) [] None NULL s')).
Proof.
  assert (wp (CFE_SB_TransmitMsg c (Some m) inc) (transmit_post c (Some m) inc tb s) s) as Hw by (eapply wp_TransmitMsg; eauto).
  apply wp_inv in Hw as (st & s' & E & Hpost). exists st, s'. split; [done|].
  destruct Hpost as [st h es p s' Hi' Hun|m' i l e a outs s1 s' [= <-] Hchk Hr Hl He Hfr EB ET EQ ER _ _ _ Hb].
  - left. done.
  - right. exists i, l, e, a, outs. split_and!; try done.
    + eapply (broadcast_delivery _ _ _ _ _ _ _ _ _ tb); [exact Hi|exact Hl|exact ET|exact EQ|exact Hb].
    + destruct Hb as [_ _ _ _ _ EB' _ _ _]. by rewrite EB', EB.
    + by apply Hb.
Qed.

(** [C7] CFE_SB_ReceiveBuffer: bad arguments and unknown pipes are refused; otherwise
    the buffer received before is given back, and an empty queue is reported with a
    status and a NULL pointer, while from a queue with messages the oldest is taken
    and its content returned; the buffer then stays allocated as the pipe's last. *)
Theorem receive_fifo BufPtr PipeId TimeOut tb s
    (Hlk : Locked s = false) (Hi : sb_inv tb [] None NULL s) (Ht : returns_in_time PipeId TimeOut s) :
  ∃ r s', CFE_SB_ReceiveBuffer BufPtr PipeId TimeOut s = Some (r, s') ∧ receive_post BufPtr PipeId TimeOut tb s r s'.
Proof. apply wp_inv. eapply wp_ReceiveBuffer; eauto. Qed.

(** [C2] A message sent with CFE_SB_SendMsg to a subscriber with an empty queue, below
    its limit, is what the subscriber's next poll returns: the bytes of the message,
    with the route's next sequence count in the header of a telemetry packet.  The only
    other result of the call is that there was no memory for the buffer. *)
Theorem send_then_receive c m x PipeId y tb s
    (Hc : caller_ok c) (Hlk : Locked s = false) (Hi : sb_inv tb [] None NULL s) (Hm : msg_ok m)
    (Hchk : send_check m = CFE_SUCCESS) (Hr : ready (c_AppId c) (msg_id m) PipeId tb s y) :
  ∃ st s1, CFE_SB_SendMsg c (Some m) s = Some (st, s1) ∧
    (st = CFE_SB_BUF_ALOC_ERR ∨
     ∃ i e a b s2, st = CFE_SUCCESS ∧
       msgids (Routes s) !! i = Some (msg_id m) ∧ entries (Routes s) !! i = Some e ∧
       CFE_SB_RcvMsg (Some x) PipeId CFE_SB_POLL s1 = Some ((CFE_SUCCESS, Some (content_ptr a)), s2) ∧
       Bufs s2 !! a = Some b ∧ bd_Content b = seq_content (msg_buf m true) (SeqCnt e)).
Proof.
  assert (wp (CFE_SB_TransmitMsg c (Some m) true) (transmit_post c (Some m) true tb s) s) as Hw by (eapply wp_TransmitMsg; eauto).
  apply wp_inv in Hw as (st & s1 & E & Hpost). exists st, s1. split; [done|].
  pose proof (rd_sub _ _ _ _ _ _ Hr) as (i0 & l0 & d0 & Hr0 & _).
  destruct Hpost as [st h es p s' Hi' Hun|m' i l e a outs s0 s1 [= <-] _ Hri Hl He Hfr EB ET EQ ER _ _ _ Hb].
  { left. inversion Hun; subst; try done. exfalso. by apply list_elem_of_lookup_2 in Hr0. }
  right. destruct (ready_sent _ _ _ _ _ _ _ _ _ _ _ _ _ _ Hi Hr Hri Hl Hfr EB ET EQ Hb) as (k & p' & b & Ef & Hq & Hna & Hba & Hcon).
  assert (wp (CFE_SB_ReceiveBuffer (Some x) PipeId CFE_SB_POLL) (receive_post (Some x) PipeId CFE_SB_POLL (<[i := upd_dests outs l]> tb) s1) s1) as Hw2.
  { eapply wp_ReceiveBuffer; [apply Hb|apply Hb|done|done]. }
  apply wp_inv in Hw2 as (r & s2 & E2 & Hpost2).
  destruct Hpost2 as [ev Hbad|k' p2 st2 s2 Ef2 Hq2|k' p2 a2 l2 b2 tb2 s2 Ef2 Hq2 _ EB2 Hb2].
  - exfalso. destruct Hbad as [?|[?|?]]; [done|done|congruence].
  - exfalso. rewrite Ef in Ef2. injection Ef2 as <- <-. congruence.
  - rewrite Ef in Ef2. injection Ef2 as <- <-. rewrite Hq in Hq2. injection Hq2 as <- <-.
    exists i, e, a, b2, s2. split_and!; try done. rewrite EB2 in Hb2. unfold drop_last in Hb2.
    case_decide; [|rewrite drop_ref_ne in Hb2 by done]; congruence.
Qed.

(** ** Pipes *)

(** CFE_SB_CreatePipe: refused for a NULL pointer or a bad depth, for a full
    table and when no queue can be made (the entry is then free again); otherwise a
    free entry becomes a pipe of the caller with a new, empty queue of the given
    depth, and the identifier returned is the one that selects the entry. *)
Theorem create_pipe_spec c PipeIdPtr Depth PipeName tb s (Hlk : Locked s = false) (Hi : sb_inv tb [] None NULL s) :
  ∃ r s', CFE_SB_CreatePipe c PipeIdPtr Depth PipeName s = Some (r, s') ∧ create_post c PipeIdPtr Depth PipeName tb s r s'.
Proof. apply wp_inv. eapply wp_CreatePipe; eauto. Qed.

(** [C8] CFE_SB_DeletePipeFull: only the owner's request is accepted; then the pipe
    is gone from the table and from the destinations of every route, its queue is
    deleted, and the buffers it held each lose one use and go back to the pool with
    the last. *)
Theorem delete_pipe_spec PipeId AppId tb s (Hlk : Locked s = false) (Hi : sb_inv tb [] None NULL s) :
  ∃ st s', CFE_SB_DeletePipeFull PipeId AppId s = Some (st, s') ∧ delete_post PipeId AppId tb s st s'.
Proof. apply wp_inv. eapply wp_DeletePipeFull; eauto. Qed.

Lemma dest_in_use tb held rsv tx s d y : sb_inv tb held rsv tx s → Dests s !! d = Some y → dd_PipeId y ∈ pipe_ids (PipeTbl s).
Proof.
  intros Hi Hd. pose proof (in_routes _ _ _ _ _ Hi) as Hri.
  assert (d ∈ (concat tb).*1) as Hin by (apply (ri_dom _ _ _ Hri); eauto).
  apply list_elem_of_fmap in Hin as ([d' y'] & Ed & Hx). cbn in Ed. subst d'.
  apply list_elem_of_In, in_concat in Hx as (l & Hl & Hx). apply list_elem_of_In in Hl, Hx.
  apply list_elem_of_lookup in Hl as [i Hl]. apply list_elem_of_split in Hx as (l1 & l2 & ->).
  pose proof (dest_lookup _ _ _ _ _ _ _ _ _ _ Hi Hl) as Ed. rewrite Hd in Ed. injection Ed as ->.
  eapply in_dests; [exact Hi|by eapply list_elem_of_lookup_2|]. unfold dest_pipes. rewrite fmap_app. apply elem_of_app. right. by left.
Qed.

Lemma cleanup_facts AppId tb s (tbl' : ptable) : sb_inv tb [] None NULL s →
  tbl' = free_pipes (owned_pipes (PipeTbl s) AppId) <$> PipeTbl s →
  (∀ p, p ∈ tbl' → active p → pd_AppId p ≠ AppId) ∧
  (∀ i p, PipeTbl s !! i = Some p → pd_AppId p ≠ AppId → tbl' !! i = Some p).
Proof.
  intros Hi ->. destruct (owned_pipes_ok _ _ AppId Hi) as [_ Hown]. pose proof (in_pipes _ _ _ _ _ Hi) as Hpi.
  assert (∀ i p, PipeTbl s !! i = Some p → active p → pd_AppId p = AppId → pd_PipeId p ∈ owned_pipes (PipeTbl s) AppId) as Hin.
  { intros i p Hp Ha Happ. apply Hown. exists i, p. split; [|done]. by eapply find_pipe_active. }
  split.
  - intros p (p0 & -> & Hp0)%list_elem_of_fmap Ha Happ. apply list_elem_of_lookup in Hp0 as [i Hp0]. unfold free_pipes in *.
    case_decide as Hd; [by destruct Ha|]. by eapply Hd, Hin.
  - intros i p Hp Hne. rewrite list_lookup_fmap, Hp. cbn. unfold free_pipes. rewrite decide_False; [done|].
    intros (j & p' & Ef & Happ)%Hown. destruct (find_pipe_Some _ _ _ _ Ef) as (_ & Hj & Ej & Ha').
    assert (active p) as Ha by (unfold active in *; by rewrite <- Ej).
    rewrite (find_pipe_active _ _ _ _ _ _ Hpi Hp Ha) in Ef. injection Ef as <- <-. done.
Qed.

(** The application that owns a pipe. *)
Definition owner_of (tbl : ptable) (PipeId : Z) : option Z := (λ x, pd_AppId x.2) <$> find_pipe tbl PipeId.

Lemma unsub_pipes_filter ids tb : unsub_pipes ids tb = (λ l : dlist, filter (λ x, dd_PipeId x.2 ∉ ids) l) <$> tb.
Proof.
  revert tb. induction ids as [|id ids IH]; intros tb; unfold unsub_pipes in *; cbn [foldl].
  - rewrite <- (list_fmap_id tb) at 1. apply list_fmap_ext. intros _ l _. cbn.
    induction l as [|x l IHl]; [done|]. rewrite filter_cons_True by by apply not_elem_of_nil. by rewrite <- IHl.
  - rewrite IH, <- list_fmap_compose. apply list_fmap_ext. intros _ l _. cbn. unfold unsub_all. rewrite list_filter_filter. apply list_filter_iff.
    intros x. rewrite not_elem_of_cons. tauto.
Qed.

Lemma unsub_owned AppId tb s : sb_inv tb [] None NULL s →
  unsub_pipes (owned_pipes (PipeTbl s) AppId) tb = (λ l : dlist, filter (λ x, owner_of (PipeTbl s) (dd_PipeId x.2) ≠ Some AppId) l) <$> tb.
Proof.
  intros Hi. rewrite unsub_pipes_filter. apply list_fmap_ext. intros _ l _. apply list_filter_iff. intros x.
  destruct (owned_pipes_ok _ _ AppId Hi) as [_ ->]. unfold owner_of. rewrite fmap_Some. split; intros Hn; contradict Hn.
  - destruct Hn as ([i p] & E & ->). by exists i, p.
  - destruct Hn as (i & p & E & <-). by exists (i, p).
Qed.

(** [C9] CFE_SB_CleanUpApp leaves nothing of an application: no pipe is its, no route
    has a destination of one of its pipes, and it owns no zero copy buffer; the pipes
    and the zero copy buffers of other applications are as they were, and every route has
    the destinations it had without those of the pipes of the application, in order. *)
Theorem cleanup_complete AppId tb s (Hlk : Locked s = false) (Hi : sb_inv tb [] None NULL s) (HA : AppId ≠ CFE_ES_APPID_UNDEFINED) :
  ∃ s', CFE_SB_CleanUpApp AppId s = Some (CFE_SUCCESS, s') ∧ sb_ok s' ∧
    (∀ p, p ∈ PipeTbl s' → active p → pd_AppId p ≠ AppId) ∧
    (∀ i p, PipeTbl s !! i = Some p → pd_AppId p ≠ AppId → PipeTbl s' !! i = Some p) ∧
    (∀ d y i p, Dests s' !! d = Some y → PipeTbl s !! i = Some p → active p → pd_AppId p = AppId → dd_PipeId y ≠ pd_PipeId p) ∧
    msgids (Routes s') = msgids (Routes s) ∧
    sb_inv ((λ l : dlist, filter (λ x, owner_of (PipeTbl s) (dd_PipeId x.2) ≠ Some AppId) l) <$> tb) [] None NULL s' ∧
    (∀ a b, bd_AppId b ≠ CFE_ES_APPID_UNDEFINED → Bufs s' !! a = Some b ↔ Bufs s !! a = Some b ∧ bd_AppId b ≠ AppId).
Proof.
  assert (wp (CFE_SB_CleanUpApp AppId) (λ st s', st = CFE_SUCCESS ∧ cleanup_post AppId tb s s') s) as Hw.
  { eapply wp_CleanUpApp; [done|exact Hi|]. done. }
  apply wp_inv in Hw as (st & s' & E & -> & [Hi' Hlk' HT Hm Hown]). exists s'. split; [done|]. split; [split; eauto|].
  pose proof (cleanup_facts _ _ _ _ Hi HT) as [H1' H2']. rewrite <- unsub_owned by done. split_and!; [done|done| |done|done|done].
  intros d y i p Hd Hp Ha Happ Ey. pose proof (dest_in_use _ _ _ _ _ _ _ Hi' Hd) as Hin. rewrite Ey in Hin.
  eapply find_pipe_ids in Hin as [[j p2] Ef]; [|apply (in_pipes _ _ _ _ _ Hi')].
  destruct (find_pipe_Some _ _ _ _ Ef) as (_ & Hj & Ej & Ha2).
  eapply (H1' p2); [by eapply list_elem_of_lookup_2|done|].
  pose proof (in_pipes _ _ _ _ _ Hi) as Hpi. pose proof (find_pipe_active _ _ _ _ _ _ Hpi Hp Ha) as Ef0.
  rewrite HT, list_lookup_fmap in Hj. destruct (PipeTbl s !! j) as [p0|] eqn:E0; [|done]. cbn in Hj. injection Hj as <-.
  unfold free_pipes in *. case_decide as Hc; [by destruct Ha2|].
  pose proof (find_pipe_active _ _ _ _ _ _ Hpi E0 Ha2) as Ef1. rewrite Ej, Ef0 in Ef1. injection Ef1 as <- <-. done.
Qed.

(** Options round trip: what the owner sets with CFE_SB_SetPipeOpts is what
    CFE_SB_GetPipeOpts then reads, and another application's request is refused with
    the options as they were. *)
Theorem opts_roundtrip c PipeId Opts o i p s (Hlk : Locked s = false) (Hok : sb_ok s) (Hc : c_Status c = CFE_SUCCESS)
    (Hp : find_pipe (PipeTbl s) PipeId = Some (i, p)) :
  ∃ st s1 s2, CFE_SB_SetPipeOpts c PipeId Opts s = Some (st, s1) ∧
    (st = CFE_SUCCESS ↔ pd_AppId p = c_AppId c) ∧
    CFE_SB_GetPipeOpts PipeId (Some o) s1 =
      Some ((CFE_SUCCESS, Some (if decide (pd_AppId p = c_AppId c) then Opts else pd_Opts p)), s2).
Proof.
  destruct Hok as (_ & tb & Hi). assert (length (PipeTbl s) = 64%nat) as Hlen by apply (in_pipes _ _ _ _ _ Hi).
  assert (wp (CFE_SB_SetPipeOpts c PipeId Opts) (set_opts_post c PipeId Opts s) s) as Hw by (apply wp_SetPipeOpts; auto).
  apply wp_inv in Hw as (st & s1 & E & Hpost). exists st, s1.
  assert (Locked s1 = false ∧ length (PipeTbl s1) = 64%nat ∧ (st = CFE_SUCCESS ↔ pd_AppId p = c_AppId c) ∧
    ∃ p1, find_pipe (PipeTbl s1) PipeId = Some (i, p1) ∧ pd_Opts p1 = if decide (pd_AppId p = c_AppId c) then Opts else pd_Opts p)
    as (Hlk1 & Hlen1 & Hst & p1 & Hp1 & Eo).
  { destruct Hpost as [?|ev _ Hr|i' p' ev _ Hp' Happ]; [done| |].
    - destruct Hr as [Hr|(i' & p' & Hr & Hne)]; [congruence|]. rewrite Hp in Hr. injection Hr as <- <-.
      split_and!; try done. exists p. by rewrite decide_False.
    - rewrite Hp in Hp'. injection Hp' as <- <-. split_and!; [done|cbn; by rewrite length_alter|done|].
      exists (set_opts Opts p). split; [|by rewrite decide_True]. destruct (find_pipe_Some _ _ _ _ Hp) as (Hloc & Hi0 & Hid & _).
      unfold find_pipe. cbn. rewrite Hloc, Nat2Z.id, list_lookup_alter_eq, Hi0. cbn. by rewrite decide_True. }
  assert (wp (CFE_SB_GetPipeOpts PipeId (Some o)) (get_opts_post PipeId (Some o) s1) s1) as Hw by (apply wp_GetPipeOpts; auto).
  apply wp_inv in Hw as (r & s2 & E2 & Hpost2). exists s2. split_and!; [done|done|].
  destruct Hpost2 as [ev [?|?]|i2 p2 ev Hp2 _]; [congruence|done|]. rewrite Hp1 in Hp2. injection Hp2 as <- <-. by rewrite <- Eo.
Qed.

(** ** Zero copy *)

(** A zero copy buffer from CFE_SB_ZeroCopyGetPtr is new, belongs to the caller
    and holds zeros; CFE_SB_ZeroCopyReleasePtr gives it back and leaves the buffers as
    they were before the request.  Otherwise the request returns NULL, and changes
    nothing but the pool's own state. *)
Theorem zerocopy_get_release c size h tb s
    (Hc : caller_ok c) (Hlk : Locked s = false) (Hi : sb_inv tb [] None NULL s) (Hsz : 0 <= size) :
  ∃ ptr hd s1, CFE_SB_ZeroCopyGetPtr c size h s = Some ((ptr, hd), s1) ∧
    ((ptr = NULL ∧ s1 = s <| Pool := Pool s1 |>) ∨
     (∃ a s2, hd = Some a ∧ ptr = content_ptr a ∧ Bufs s !! a = None ∧ Bufs s1 = <[a := zero_buf (c_AppId c) size]> (Bufs s) ∧
        sb_ok s1 ∧ CFE_SB_ZeroCopyReleasePtr ptr a s1 = Some (CFE_SUCCESS, s2) ∧ Bufs s2 = Bufs s ∧ sb_ok s2)).
Proof.
  assert (wp (CFE_SB_ZeroCopyGetPtr c size h) (λ r s1,
    (r.1 = NULL ∧ s1 = s <| Pool := Pool s1 |>) ∨
    (∃ a, r = (content_ptr a, Some a) ∧ 0 < a ∧ Bufs s !! a = None ∧ c_Status c = CFE_SUCCESS ∧
       Bufs s1 = <[a := zero_buf (c_AppId c) size]> (Bufs s) ∧ Locked s1 = false ∧ sb_inv tb [] None NULL s1)) s) as Hw.
  { eapply wp_ZeroCopyGetPtr; [done|done|exact Hi|done|..].
    - intros hp _. left. split; [done|]. by destruct s.
    - intros p _. left. split; [done|]. by destruct s.
    - intros a B L t p sl s1 EB _ Hst Hfr Hpos Hi1. right. exists a. by split_and!. }
  apply wp_inv in Hw as ([ptr hd] & s1 & E & Hpost). exists ptr, hd, s1. split; [done|].
  destruct Hpost as [Hn|(a & [= -> ->] & Hpos & Hfr & Hst & EB & Hlk1 & Hi1)]; [by left|right]. exists a.
  assert (valid_handle s1 (content_ptr a) a (zero_buf (c_AppId c) size)) as Hv.
  { split_and!; [by rewrite EB, lookup_insert_eq|by apply Hc|done]. }
  assert (content_ptr a ≠ NULL) as Hcp by (unfold content_ptr, CFE_SB_BUFFERD_CONTENT_OFFSET, NULL; lia).
  assert (wp (CFE_SB_ZeroCopyReleasePtr (content_ptr a) a) (λ st s2, st = CFE_SUCCESS ∧ Bufs s2 = Bufs s ∧ sb_ok s2) s1) as Hw.
  { eapply wp_ReleasePtr; [done|exact Hi1|right; right; by destruct Hv as [-> _]|..].
    - intros st _ Hno. exfalso. eapply Hno; [done|unfold NULL; lia|exact Hv].
    - intros b L t p sl s2 _ Hi2. split_and!; [done| |split; eauto]. cbn. rewrite EB. by apply delete_insert_id. }
  apply wp_inv in Hw as (st & s2 & E2 & -> & EB2 & Hs2). exists s2. split_and!; try done. split; eauto.
Qed.

(** CFE_SB_TransmitBuffer, the body of the zero copy sends: a handle that is not
    the caller's buffer is refused; a message the header of which is refused stays
    with the caller; otherwise the very buffer, without a copy, is delivered to the
    destinations of its identifier and is no longer the caller's, or given back when
    there is none. *)
Theorem zerocopy_transmit c BufPtr Handle inc tb s
    (Hc : caller_ok c) (Hlk : Locked s = false) (Hi : sb_inv tb [] None NULL s) (Hz : zc_arg_ok s BufPtr Handle) :
  ∃ st s', CFE_SB_TransmitBuffer c BufPtr Handle inc s = Some (st, s') ∧ zerocopy_post c BufPtr Handle inc tb s st s'.
Proof. destruct Hz. apply wp_inv. eapply wp_TransmitBuffer; eauto. Qed.

(** ** The linked structures *)

(** The buffer tracking lists are lists: CFE_SB_TrackingListAdd appends a node,
    CFE_SB_TrackingListRemove takes a node out from any place and leaves it linked to
    itself, and neither touches the links of any other descriptor. *)
Theorem tracking_list_ops h l x l1 y l2 s
    (Hnd : NoDup (h :: l)) (Hx : x ∉ h :: l) (Hr : ring (Links s) h l) (Hn : is_Some (Links s !! x)) (Hl : l = l1 ++ y :: l2) :
  (∃ L, CFE_SB_TrackingListAdd h x s = Some (tt, s <| Links := L |>) ∧ ring L h (l ++ [x]) ∧
     ∀ b, b ∉ x :: h :: l → L !! b = Links s !! b) ∧
  (∃ L, CFE_SB_TrackingListRemove y s = Some (tt, s <| Links := L |>) ∧ ring L h (l1 ++ l2) ∧ L !! y = Some (mkLink y y) ∧
     ∀ b, b ∉ h :: l → L !! b = Links s !! b).
Proof.
  split.
  - exists (addring (Links s) h l x).
    assert (wp (CFE_SB_TrackingListAdd h x) (λ _ s', s' = s <| Links := addring (Links s) h l x |>) s) as Hw by by eapply wp_TrackingListAdd.
    apply wp_inv in Hw as ([] & s' & E & ->). split_and!; [done|by apply addring_ring|].
    intros b Hb. apply not_elem_of_cons in Hb as [? ?]. by apply addring_out.
  - exists (unring (Links s) h l1 y l2). subst l.
    assert (wp (CFE_SB_TrackingListRemove y) (λ _ s', s' = s <| Links := unring (Links s) h l1 y l2 |>) s) as Hw by by eapply wp_TrackingListRemove.
    apply wp_inv in Hw as ([] & s' & E & ->). split_and!; [done|by apply unring_ring|apply unring_self|].
    intros b Hb. by apply unring_out.
Qed.

(** The destination lists are lists: CFE_SB_AddDestNode puts a descriptor at the
    head of its route's list, CFE_SB_RemoveDestNode takes one out from any place
    (alone, first, last or in the middle); the lists of all other routes stay, and the
    route table keeps its identifiers. *)
Theorem dest_list_ops i l1 a d l2 tb b y s
    (Hri : routes_inv (Routes s) (Dests s) tb) (Hl : tb !! i = Some (l1 ++ (a, d) :: l2))
    (Hb : Dests s !! b = None) (Hpos : 0 < b) (Hlen : (length (l1 ++ (a, d) :: l2) < 16)%nat)
    (Hy : dd_PipeId y ∉ dest_pipes (l1 ++ (a, d) :: l2)) :
  (∃ r D, CFE_SB_AddDestNode (Z.of_nat i + 1) b (s <| Dests ::= <[b := y]> |>) =
       Some (CFE_SUCCESS, s <| Dests := D |> <| Routes := r |>) ∧
     routes_inv r D (<[i := (b, y) :: l1 ++ (a, d) :: l2]> tb) ∧ msgids r = msgids (Routes s)) ∧
  (∃ r D, CFE_SB_RemoveDestNode (Z.of_nat i + 1) a s = Some (tt, s <| Routes := r |> <| Dests := D |>) ∧
     routes_inv r (delete a D) (<[i := l1 ++ l2]> tb) ∧ msgids r = msgids (Routes s)).
Proof.
  split.
  - assert (wp (CFE_SB_AddDestNode (Z.of_nat i + 1) b) (λ st s', st = CFE_SUCCESS ∧ ∃ r D, s' = s <| Dests := D |> <| Routes := r |> ∧
      routes_inv r D (<[i := (b, y) :: l1 ++ (a, d) :: l2]> tb) ∧ msgids r = msgids (Routes s)) (s <| Dests ::= <[b := y]> |>)) as Hw.
    { eapply (wp_AddDestNode i _ tb b y (Dests s)); try done. intros r D Hr' _ Hm _. split; [done|]. by exists r, D. }
    apply wp_inv in Hw as (st & s' & E & -> & r & D & -> & Hr' & Hm). by exists r, D.
  - assert (wp (CFE_SB_RemoveDestNode (Z.of_nat i + 1) a) (λ _ s', ∃ r D, s' = s <| Routes := r |> <| Dests := D |> ∧
      routes_inv r (delete a D) (<[i := l1 ++ l2]> tb) ∧ msgids r = msgids (Routes s)) s) as Hw.
    { eapply wp_RemoveDestNode; [done..|]. intros r D Hr' _ Hm _. by exists r, D. }
    apply wp_inv in Hw as ([] & s' & E & r & D & -> & Hr' & Hm). by exists r, D.
Qed.

(** ** Events and counters *)

Lemma request_spec c i bit x s : c_TaskIndex c = Some i → 0 <= i < 64 → StopRecurseFlags s !! Z.to_nat i = Some x →
  CFE_SB_RequestToSendEvent c bit s =
    if Z.land x (Z.shiftl 1 bit) =? 0
    then Some (true, s <| StopRecurseFlags ::= alter (λ x, Z.lor x (Z.shiftl 1 bit)) (Z.to_nat i) |>) else Some (false, s).
Proof.
  intros Hi Hr Hx. unfold CFE_SB_RequestToSendEvent. rewrite Hi. unfold mbind, M_bind, gets.
  rewrite (tbl_get_Some _ _ x) by (done || lia). destruct (Z.land x (Z.shiftl 1 bit) =? 0); cbn [negb]; [|done].
  unfold upd_flags, mbind, M_bind, gets, modify. pose proof (lookup_lt_Some _ _ _ Hx).
  rewrite tbl_upd_Some by lia. done.
Qed.

Lemma shift_bit k n : 0 <= k → 0 <= n → Z.testbit (Z.shiftl 1 k) n = (n =? k).
Proof.
  intros Hk Hn. rewrite Z.shiftl_spec by done. destruct (Z.eqb_spec n k) as [->|]; [by rewrite Z.sub_diag|].
  destruct (Z.ltb_spec n k); [by apply Z.testbit_neg_r; lia|]. apply (testbit_above 1 1); lia.
Qed.

(** The guard against recursive events: the first request of a task for an event
    is granted, a second one before the end of the first is not, the requests for the
    other events are not affected, and CFE_SB_FinishSendEvent restores the state from
    before exactly. *)
Theorem event_guard c i bit s (Hi : c_TaskIndex c = Some i) (Hr : 0 <= i < 64) (Hb : 0 <= bit < 32)
    (Hf : length (StopRecurseFlags s) = 64%nat ∧ Forall is_u32 (StopRecurseFlags s)) :
  CFE_SB_RequestToSendEvent c bit s = Some (false, s) ∨
  ∃ s1, CFE_SB_RequestToSendEvent c bit s = Some (true, s1) ∧
    CFE_SB_RequestToSendEvent c bit s1 = Some (false, s1) ∧
    (∀ bit', 0 <= bit' → bit' ≠ bit →
       fst <$> CFE_SB_RequestToSendEvent c bit' s1 = fst <$> CFE_SB_RequestToSendEvent c bit' s) ∧
    CFE_SB_FinishSendEvent c bit s1 = Some (tt, s).
Proof.
  destruct Hf as [Hlen Hu]. destruct (lookup_lt_is_Some_2 (StopRecurseFlags s) (Z.to_nat i)) as [x Hx]; [lia|].
  pose proof (Forall_lookup_1 _ _ _ _ Hu Hx) as Hux.
  pose proof (request_spec c i bit x s Hi Hr Hx) as E. destruct (Z.eqb_spec (Z.land x (Z.shiftl 1 bit)) 0) as [Ez|Ez]; [|by left].
  right. eexists. split; [exact E|]. set (s1 := s <| StopRecurseFlags ::= _ |>).
  destruct (set_clear_bit x bit Hux Hb Ez) as [Eback _].
  assert (StopRecurseFlags s1 !! Z.to_nat i = Some (Z.lor x (Z.shiftl 1 bit))) as Hx1 by (cbn; by rewrite list_lookup_alter_eq, Hx).
  assert (∀ k n, 0 <= k → 0 <= n → Z.testbit (Z.shiftl 1 k) n = (n =? k)) as Hbit by apply shift_bit.
  split_and!.
  - rewrite (request_spec c i bit _ s1 Hi Hr Hx1). destruct (Z.eqb_spec (Z.land (Z.lor x (Z.shiftl 1 bit)) (Z.shiftl 1 bit)) 0) as [E0|]; [|done].
    apply (f_equal (λ z, Z.testbit z bit)) in E0. rewrite Z.land_spec, Z.lor_spec, Hbit, Z.eqb_refl, orb_true_r, Z.bits_0 in E0 by lia. done.
  - intros bit' Hb' Hne. rewrite (request_spec c i bit' _ s1 Hi Hr Hx1), (request_spec c i bit' _ s Hi Hr Hx).
    replace (Z.land (Z.lor x (Z.shiftl 1 bit)) (Z.shiftl 1 bit')) with (Z.land x (Z.shiftl 1 bit')); [by destruct (_ =? _)|].
    Z_bits n Hn. rewrite !Z.land_spec, Z.lor_spec, !Hbit by lia. destruct (Z.eqb_spec n bit'), (Z.eqb_spec n bit); try lia.
    all: by rewrite ?orb_false_r, ?andb_false_r.
  - unfold CFE_SB_FinishSendEvent. rewrite Hi. unfold upd_flags, mbind, M_bind, gets, modify.
    change (StopRecurseFlags s1) with (alter (λ x, Z.lor x (Z.shiftl 1 bit)) (Z.to_nat i) (StopRecurseFlags s)).
    rewrite tbl_upd_Some by (rewrite length_alter; lia). cbn [of_option]. unfold mret, M_ret. do 2 f_equal.
    assert (∀ f, f x = x → alter f (Z.to_nat i) (StopRecurseFlags s) = StopRecurseFlags s) as Hid.
    { intros f Hf. transitivity (alter (λ x, x) (Z.to_nat i) (StopRecurseFlags s)); [|by apply list_alter_id].
      apply list_alter_ext; [|done]. intros x' Hx'. congruence. }
    rewrite list_alter_alter_eq. unfold s1. destruct s. cbn in *. f_equal. apply Hid. exact Eback.
Qed.

(** The sequence count of a route is a 16 bit counter, the field of the header
    has 14 bits and its setter refuses more: a telemetry packet sent with automatic
    sequence counts gets the next count while that fits the field, and from the count
    0x3FFF on until the counter wraps its header is sent as the sender left it. *)
Theorem sequence_count_field i e a b s (Hi : (i < 256)%nat) (He : RoutingTbl (Routes s) !! i = Some e) (Hu : is_u16 (SeqCnt e))
    (Hb : Bufs s !! a = Some b) (Hauto : bd_AutoSequence b = true) (Htlm : bd_ContentType b = CFE_MSG_Type_Tlm) :
  ∃ s', set_sequence (Z.of_nat i + 1) a s = Some (tt, s') ∧
    SeqCnt <$> RoutingTbl (Routes s') !! i = Some ((SeqCnt e + 1) mod 2 ^ 16) ∧
    bd_Content <$> Bufs s' !! a = Some (
      if ((SeqCnt e + 1) mod 2 ^ 16 <? 2 ^ 14)
      then CFE_MSG_SetHeaderField (bd_Content b) off_Sequence ((SeqCnt e + 1) mod 2 ^ 16) CFE_MSG_SEQCNT_MASK
      else bd_Content b).
Proof.
  pose proof (lookup_lt_Some _ _ _ He) as Hlt. unfold is_u16 in Hu.
  assert (CFE_SBR_IsValidRouteId (Z.of_nat i + 1) = true) as Hv by (apply IsValidRouteId_spec; lia).
  assert (CFE_SBR_RouteIdToValue (Z.of_nat i + 1) = Z.of_nat i) as Er
    by (unfold CFE_SBR_RouteIdToValue; rewrite u16_small by (unfold is_u16; lia); lia).
  assert (wp (set_sequence (Z.of_nat i + 1) a) (λ _ s', s' = s
     <| Routes ::= (λ r, r <| RoutingTbl ::= alter (λ e, e <| SeqCnt ::= λ c, u16 (c + 1) |>) i |>) |>
     <| Bufs ::= <[a := b <| bd_Content := seq_content b (SeqCnt e) |>]> |>) s) as Hw.
  { unfold set_sequence. wp_step. eapply wp_rd_buf; [exact Hb|]. rewrite Hauto, Htlm. cbn [andb]. rewrite bool_decide_true by done.
    cbn [when]. wp_step. eapply wp_sbr.
    { unfold CFE_SBR_IncrementSequenceCounter. rewrite Hv, Er. cbn [when]. unfold upd_RoutingTbl, mbind, M_bind, gets.
      rewrite tbl_upd_Some by lia. rewrite Nat2Z.id. done. }
    wp_step. eapply wp_sbr.
    { unfold CFE_SBR_GetSequenceCounter. rewrite Hv, Er. unfold mbind, M_bind, gets. cbn [Routes RoutingTbl].
      rewrite (tbl_get_Some _ _ (e <| SeqCnt ::= λ c, u16 (c + 1) |>)); [done|lia|]. rewrite Nat2Z.id.
      cbn. by rewrite list_lookup_alter_eq, He. }
    eapply wp_wr_buf; [exact Hb|]. unfold seq_content, auto_seq. rewrite Hauto, Htlm, bool_decide_true by done. cbn [andb].
    destruct s. done. }
  apply wp_inv in Hw as ([] & s' & E & ->). eexists. split; [exact E|]. cbn. rewrite list_lookup_alter_eq, He, lookup_insert_eq. cbn.
  split; [done|]. f_equal. unfold seq_content, auto_seq. rewrite Hauto, Htlm, bool_decide_true by done. cbn [andb].
  unfold CFE_MSG_SetSequenceCount. change CFE_MSG_SEQCNT_MASK with (Z.ones 14). fold (u16 (SeqCnt e + 1)).
  rewrite land_lnot_ones_0 by (pose proof (u16_range (SeqCnt e + 1)); unfold is_u16 in *; lia). by destruct (_ <? _).
Qed.

(** Polling an empty pipe returns CFE_SB_NO_MESSAGE with a NULL pointer, and
    counts it as an internal error in the housekeeping telemetry. *)
Theorem poll_counts_error x PipeId i p tb s
    (Hlk : Locked s = false) (Hi : sb_inv tb [] None NULL s)
    (Hp : find_pipe (PipeTbl s) PipeId = Some (i, p)) (Hq : q_items (Queues s) !! pd_SysQueueId p = Some []) :
  ∃ s', CFE_SB_RcvMsg (Some x) PipeId CFE_SB_POLL s = Some ((CFE_SB_NO_MESSAGE, Some NULL), s') ∧
    InternalErrorCounter (HK s') = (InternalErrorCounter (HK s) + 1) mod 2 ^ 8.
Proof.
  assert (wp (CFE_SB_ReceiveBuffer (Some x) PipeId CFE_SB_POLL) (receive_post (Some x) PipeId CFE_SB_POLL tb s) s) as Hw.
  { eapply wp_ReceiveBuffer; [done|exact Hi|done|done]. }
  apply wp_inv in Hw as (r & s' & E & Hpost). exists s'.
  destruct Hpost as [ev Hbad|k p2 st s2 Hp2 Hq2 Hst Hpoll ET EB EQ ER Hl2 Hhk|k p2 a2 l2 b2 tb2 s2 Hp2 Hq2].
  - exfalso. destruct Hbad as [?|[?|?]]; [done|done|congruence].
  - rewrite (Hpoll eq_refl) in E. split; [exact E|]. by rewrite Hhk.
  - rewrite Hp in Hp2. injection Hp2 as <- <-. congruence.
Qed.

(** ** The task of the bus *)

(** [C10] The bus with its task: after any sequence of calls of applications, commands
    and requests of the background writer, everything the task does returns, the bus is
    in a state the theorems on the bus speak of, and the packets the task sends are
    messages: their headers do not declare more bytes than they have. *)
Theorem task_safe p q (s : SBSys PS QS) k (Hp : p_live p = ∅) (Hr : sys_reach p q s) (Hk : task_call_ok k) :
  ∃ s' : SBSys PS QS, run_task k s = Some (tt, s') ∧ sys_reach p q s' ∧ reachable p q (Bus s') ∧
    msg_ok (hk_packet (HK (Bus s')) (Task s')) ∧ msg_ok (stat_packet (Stat (Bus s')) (Task s')) ∧ msg_ok (prev_packet (Task s')).
Proof.
  destruct (sys_reach_ok p q s Hp Hr) as [_ Hs]. pose proof (preserves_task_call k Hk s Hs) as Hw.
  apply wp_inv in Hw as ([] & s' & E & _). assert (Hr' : sys_reach p q s') by by eapply sys_task.
  destruct (sys_reach_ok p q s' Hp Hr') as [Hb [_ Ht]]. exists s'.
  split_and!; [done|done|done|by apply hk_packet_ok|by apply stat_packet_ok|by apply prev_packet_ok].
Qed.

(** Transmissions, of a copy of a message or of a zero copy buffer. *)
Inductive send_op := SendCopy (c : Caller) (m : Message) (inc : bool) | SendBuffer (c : Caller) (BufPtr Handle : addr) (inc : bool).

Definition run_send (op : send_op) : M G Z :=
  match op with SendCopy c m inc => CFE_SB_TransmitMsg c (Some m) inc | SendBuffer c b h inc => CFE_SB_TransmitBuffer c b h inc end.
Definition send_ok (op : send_op) s : Prop :=
  match op with SendCopy c m _ => caller_ok c ∧ msg_ok m | SendBuffer c b h _ => caller_ok c ∧ zc_arg_ok s b h end.
(** The identifier of what is sent. *)
Definition send_id (op : send_op) s : option Z :=
  match op with SendCopy _ m _ => Some (msg_id m) | SendBuffer _ _ h _ => (λ b, msg_id (bd_Content b)) <$> Bufs s !! h end.

Inductive transmissions : G → G → Prop :=
| tr_nil s : transmissions s s
| tr_step op s st s1 s2 : send_ok op s → run_send op s = Some (st, s1) → transmissions s1 s2 → transmissions s s2.

(** The subscription of a pipe to an identifier exists and is not active. *)
Definition inactive_in (tb : list dlist) (MsgId Pipe : Z) s : Prop := Locked s = false ∧ sb_inv tb [] None NULL s ∧
  ∃ i l k a y, msgids (Routes s) !! i = Some MsgId ∧ tb !! i = Some l ∧ l !! k = Some (a, y) ∧ dd_PipeId y = Pipe ∧ dd_Active y = CFE_SB_INACTIVE.
Definition inactive (MsgId Pipe : Z) s : Prop := ∃ tb, inactive_in tb MsgId Pipe s.

Definition pipe_queue (Pipe : Z) s : option (list addr) := q_items (Queues s) !! queue_of (PipeTbl s) Pipe.

(** What a transmission does to it. *)
Record stays_inactive (MsgId Pipe : Z) (id : option Z) s s' : Prop := {
  si_inactive : inactive MsgId Pipe s';
  si_queue : queue_of (PipeTbl s') Pipe = queue_of (PipeTbl s) Pipe;
  si_empty : id = Some MsgId → pipe_queue Pipe s' = pipe_queue Pipe s;
}.

Lemma queue_of_pcore tbl tbl' Pipe : pcore <$> tbl' = pcore <$> tbl → queue_of tbl' Pipe = queue_of tbl Pipe.
Proof.
  intros Hc. pose proof (pcore_find _ _ Pipe (eq_sym Hc)) as Hf. unfold queue_of. destruct (find_pipe tbl Pipe) as [[i p]|], (find_pipe tbl' Pipe) as [[i' p']|]; try done.
  destruct Hf as [_ Hpc]. destruct (pcore_eq _ _ Hpc) as (_ & _ & _ & E & _). congruence.
Qed.

Lemma stays_same MsgId Pipe id s s' tb : inactive_in tb MsgId Pipe s → sb_inv tb [] None NULL s' → Locked s' = false →
  Routes s' = Routes s → PipeTbl s' = PipeTbl s → Queues s' = Queues s → stays_inactive MsgId Pipe id s s'.
Proof.
  intros (_ & _ & i & l & k & a & y & Hid & Hl & Hk & Hp & Ha) Hi' Hlk' ER ET EQ. split; [|by rewrite ET|unfold pipe_queue; by rewrite ET, EQ].
  exists tb. split; [done|]. split; [done|]. rewrite ER. by exists i, l, k, a, y.
Qed.

Lemma upd_dest_keeps o y : dd_PipeId (upd_dest o y) = dd_PipeId y ∧ dd_Active (upd_dest o y) = dd_Active y.
Proof. by destruct o. Qed.

Lemma stays_broadcast MsgId Pipe AppId a b i l e outs tb s s1 s' : inactive_in tb MsgId Pipe s → tb !! i = Some l →
  PipeTbl s1 = PipeTbl s → Queues s1 = Queues s → Routes s1 = Routes s →
  broadcast_post AppId a b [] tb i l e outs s1 s' → stays_inactive MsgId Pipe (msgids (Routes s) !! i) s s'.
Proof.
  intros (_ & Hi & j & l' & k & d & y & Hid & Hl' & Hk & Hp & Ha) Hl ET EQ ER Hb.
  pose proof (bp_pipes _ _ _ _ _ _ _ _ _ _ _ Hb) as Hc. rewrite ET in Hc. apply (queue_of_pcore _ _ Pipe) in Hc.
  split; [|done|].
  - exists (<[i := upd_dests outs l]> tb). split; [apply Hb|]. split; [apply Hb|]. rewrite (broadcast_msgids _ _ _ _ _ _ _ _ _ _ _ Hb), ER. exists j.
    destruct (decide (i = j)) as [<-|Hne]; [|exists l', k, d, y; by rewrite list_lookup_insert_ne].
    rewrite Hl in Hl'. injection Hl' as <-. destruct (Forall2_lookup_l _ _ _ k y (bp_ok _ _ _ _ _ _ _ _ _ _ _ Hb)) as (o & Ho & _); [by rewrite list_lookup_fmap, Hk|].
    exists (upd_dests outs l), k, d, (upd_dest o y). destruct (upd_dest_keeps o y) as [-> ->]. split_and!; try done.
    + apply list_lookup_insert_eq. by eapply lookup_lt_Some.
    + unfold upd_dests. by rewrite lookup_zip_with, Ho, Hk.
  - intros Eid. assert (j = i) as -> by (eapply NoDup_lookup; [apply (wf_nodup _ (inv_wf _ (ri_sbr _ _ _ (in_routes _ _ _ _ _ Hi))))|done..]).
    rewrite Hl in Hl'. injection Hl' as <-. destruct (broadcast_delivery _ _ _ _ _ _ _ _ _ _ _ _ _ _ _ _ Hi Hl ET EQ Hb) as [Hok Hat _].
    destruct (Forall2_lookup_l _ _ _ k y Hok) as (o & Ho & Hout); [by rewrite list_lookup_fmap, Hk|]. unfold pipe_queue. rewrite Hc, <- Hp, (Hat _ _ _ _ Hk Ho).
    assert (dest_skips AppId (PipeTbl s) y = true) as Hs by by (unfold dest_skips; rewrite Ha). destruct o; cbn in Hout; try done; destruct Hout; congruence.
Qed.

Lemma stays_copy MsgId Pipe c m inc s : inactive MsgId Pipe s → caller_ok c → msg_ok m →
  wp (CFE_SB_TransmitMsg c (Some m) inc) (λ _ s', stays_inactive MsgId Pipe (Some (msg_id m)) s s') s.
Proof.
  intros (tb & Hin) Hc Hm. pose proof Hin as (Hlk & Hi & _). eapply wp_TransmitMsg; [done|done|exact Hi|done|].
  intros st s' [st' h es p s2 Hi' Hun|m' i l e b outs s1 s2 [= <-] Hchk Hr Hl He Hfr EB ET EQ ER _ _ _ Hb]; [by eapply stays_same|].
  rewrite <- Hr. by eapply stays_broadcast.
Qed.

Lemma stays_buffer MsgId Pipe c b h inc s : inactive MsgId Pipe s → caller_ok c → zc_arg_ok s b h →
  wp (CFE_SB_TransmitBuffer c b h inc) (λ _ s', stays_inactive MsgId Pipe (send_id (SendBuffer c b h inc) s) s s') s.
Proof.
  intros (tb & Hin) Hc [Hh Hz]. pose proof Hin as (Hlk & Hi & _). eapply wp_TransmitBuffer; [done|done|exact Hi|done|done|].
  intros st s' [st' hk s2 _ _ Hi'|b' sz hk es s2 _ _ Hi'|b' s2 _ _ _ _ ET EQ ER Hlk' Hi'|b' i l e outs s1 s2 (Hb' & _) _ Hr Hl He EB ET EQ ER Hb];
    [by eapply stays_same..|]. cbn [send_id]. rewrite Hb'. cbn [fmap option_fmap option_map]. rewrite <- Hr. by eapply stays_broadcast.
Qed.

Lemma stays_send MsgId Pipe op s : inactive MsgId Pipe s → send_ok op s → ∃ st s', run_send op s = Some (st, s') ∧ stays_inactive MsgId Pipe (send_id op s) s s'.
Proof. intros Hin Hok. apply wp_inv. destruct op; destruct Hok; [by apply stays_copy|by apply stays_buffer]. Qed.

Lemma transmissions_inactive MsgId Pipe s s' : inactive MsgId Pipe s → transmissions s s' → inactive MsgId Pipe s'.
Proof.
  intros Hin Ht. induction Ht as [s|op s st s1 s2 Hok E _ IH]; [done|]. apply IH.
  destruct (stays_send MsgId Pipe op s Hin Hok) as (st' & s1' & E' & [Hi' _ _]). rewrite E in E'. by injection E' as <- <-.
Qed.

Lemma run_route_cmd Active E1 E2 E3 MsgId Pipe tb (s : SBSys PS QS) : E1 ≠ E2 → E3 ≠ E2 → Locked (Bus s) = false → sb_inv tb [] None NULL (Bus s) → is_u32 MsgId →
  ∃ ev tb' g, route_cmd Active E1 E2 E3 MsgId Pipe s = Some (CFE_SUCCESS, s <| Bus := g |>) ∧
    route_step (PipeTbl (Bus s)) (msgids (Routes (Bus s))) tb MsgId Pipe Active E1 E2 E3 ev tb' ∧
    route_post tb' (ev =? E2) (mkEvent ev (if ev =? E2 then CFE_EVS_EventType_DEBUG else CFE_EVS_EventType_ERROR) None) (Bus s) g.
Proof.
  intros N1 N3 Hlk Hi Hid.
  assert (wp (route_cmd Active E1 E2 E3 MsgId Pipe) (λ st (s' : SBSys PS QS), ∃ ev tb' g, st = CFE_SUCCESS ∧ s' = s <| Bus := g |> ∧
    route_step (PipeTbl (Bus s)) (msgids (Routes (Bus s))) tb MsgId Pipe Active E1 E2 E3 ev tb' ∧
    route_post tb' (ev =? E2) (mkEvent ev (if ev =? E2 then CFE_EVS_EventType_DEBUG else CFE_EVS_EventType_ERROR) None) (Bus s) g) s) as Hw.
  { eapply wp_route_cmd; [done|done|done|exact Hi|done|]. intros ev tb' g Hst Hpo. by exists ev, tb', g. }
  apply wp_inv in Hw as (st & s' & E & ev & tb' & g & -> & -> & Hst & Hpo). eauto 6.
Qed.

(** [C11] The commands that enable and disable a route change the state of one
    subscription and nothing else: an identifier or a pipe that is not valid, and
    otherwise a subscription that does not exist, are refused with their event and
    counted as errors.  After a disable command that was accepted, and whatever has been
    transmitted since, by copy or without one, a transmission of a message with the
    identifier returns and leaves the queue of the pipe as it is. *)
Theorem route_commands MsgId Pipe tb (s : SBSys PS QS) (Hlk : Locked (Bus s) = false) (Hi : sb_inv tb [] None NULL (Bus s)) (Hid : is_u32 MsgId) :
  let ev_of id ok := mkEvent id (if id =? ok then CFE_EVS_EventType_DEBUG else CFE_EVS_EventType_ERROR) None in
  (∃ ev tb' g, CFE_SB_EnableRouteCmd MsgId Pipe s = Some (CFE_SUCCESS, s <| Bus := g |>) ∧
     route_step (PipeTbl (Bus s)) (msgids (Routes (Bus s))) tb MsgId Pipe CFE_SB_ACTIVE CFE_SB_ENBL_RTE1_EID CFE_SB_ENBL_RTE2_EID CFE_SB_ENBL_RTE3_EID ev tb' ∧
     route_post tb' (ev =? CFE_SB_ENBL_RTE2_EID) (ev_of ev CFE_SB_ENBL_RTE2_EID) (Bus s) g) ∧
  (∃ ev tb' g, CFE_SB_DisableRouteCmd MsgId Pipe s = Some (CFE_SUCCESS, s <| Bus := g |>) ∧
     route_step (PipeTbl (Bus s)) (msgids (Routes (Bus s))) tb MsgId Pipe CFE_SB_INACTIVE CFE_SB_DSBL_RTE1_EID CFE_SB_DSBL_RTE2_EID CFE_SB_DSBL_RTE3_EID ev tb' ∧
     route_post tb' (ev =? CFE_SB_DSBL_RTE2_EID) (ev_of ev CFE_SB_DSBL_RTE2_EID) (Bus s) g ∧
     (ev = CFE_SB_DSBL_RTE2_EID → ∀ g1 op, transmissions g g1 → send_ok op g1 → send_id op g1 = Some MsgId →
        ∃ st g2, run_send op g1 = Some (st, g2) ∧ pipe_queue Pipe g2 = pipe_queue Pipe g1)).
Proof.
  cbv zeta. split; [by apply run_route_cmd|].
  destruct (run_route_cmd CFE_SB_INACTIVE CFE_SB_DSBL_RTE1_EID CFE_SB_DSBL_RTE2_EID CFE_SB_DSBL_RTE3_EID MsgId Pipe tb s) as (ev & tb' & g & E & Hst & Hpo); [done..|].
  exists ev, tb', g. split_and!; [done|done|done|].
  intros -> g1 op Htr Hok Eid. inversion Hst as [? E1|? ? ? E1|i l1 a y l2 _ _ Hr Hl Hy E1 E2]; subst.
  assert (inactive MsgId (dd_PipeId y) g) as Hin.
  { destruct Hpo as [Hi' Hlk' [D ->]]. eexists. split; [done|]. split; [exact Hi'|]. exists i. eexists _, (length l1), a, (y <| dd_Active := CFE_SB_INACTIVE |>).
    split_and!; [exact Hr|apply list_lookup_insert_eq; by eapply lookup_lt_Some|by rewrite list_lookup_middle|done|done]. }
  destruct (stays_send MsgId (dd_PipeId y) op g1 (transmissions_inactive _ _ _ _ Hin Htr) Hok) as (st & g2 & E' & [_ _ Hq]). eauto.
Qed.

(** The identifiers of the routes are identifiers of messages. *)
Lemma route_ids_u32 tb s : sb_inv tb [] None NULL s → Forall is_u32 (msgids (Routes s)).
Proof.
  intros Hi. eapply Forall_impl; [exact (wf_valid _ (inv_wf _ (ri_sbr _ _ _ (in_routes _ _ _ _ _ Hi))))|].
  intros id [Hn Hv]. unfold CFE_SB_IsValidMsgId in Hv. unfold is_u32. apply andb_true_iff in Hv as [_ Hv]. apply Z.leb_le in Hv. unfold CFE_PLATFORM_SB_HIGHEST_VALID_MSGID in Hv. lia.
Qed.

Lemma global_ids_u32 ids scs : Forall is_u32 ids → Forall is_u32 (global_ids ids scs).
Proof.
  intros Hu. unfold global_ids. apply Forall_forall. intros id ([id' sc] & -> & [_ Hin]%list_elem_of_filter)%list_elem_of_fmap.
  apply elem_of_zip_l in Hin. by eapply Forall_forall in Hin.
Qed.

(** The lists in the bytes of the packets. *)
Lemma listed_bytes c tb hdr s ts s' k t : listed c tb hdr s ts s' → Forall is_u32 (global_ids (msgids (Routes s)) (scopes tb)) → ts !! k = Some t →
  (length ts ≤ 256)%nat → prev_segment (prev_packet t) = Z.of_nat k + 1 ∧ prev_count (prev_packet t) = ta_Entries t ∧ prev_ids (prev_packet t) = pkt_ids t.
Proof.
  intros [_ [Hok _ Hseg] Hids Hn _] Hu Hk Hl. pose proof (lookup_lt_Some _ _ _ Hk). rewrite <- (Hseg _ _ Hk).
  apply pkt_decode; [by eapply (Forall_lookup_1 _ ts)|destruct (Hn _ _ Hk); lia|rewrite (Hseg _ _ Hk); unfold is_u32; lia|done|].
  rewrite <- Hids in Hu. clear -Hu Hk. apply Forall_forall. intros id Hin. eapply Forall_forall in Hu; [exact Hu|]. apply list_elem_of_bind.
  exists t. split; [done|]. by eapply list_elem_of_lookup_2.
Qed.

(** No packet is empty, so there are not more packets than identifiers. *)
Lemma listed_length c tb hdr s ts s' : listed c tb hdr s ts s' → (length ts ≤ length (msgids (Routes s)))%nat.
Proof.
  intros [_ [Hok _ _] Hids Hn _]. pose proof (global_length (msgids (Routes s)) (scopes tb)) as Hg. rewrite <- Hids in Hg. etrans; [|exact Hg].
  assert (Forall (λ t, 0 < ta_Entries t) ts) as Hpos by (apply Forall_lookup; intros k t Hk; destruct (Hn _ _ Hk); lia). clear -Hok Hpos.
  induction Hok as [|t ts Ht _ IH]; [done|]. apply Forall_cons in Hpos as [Hp Hpos]. cbn. rewrite length_app. specialize (IH Hpos).
  unfold pkt_ids at 1. rewrite length_take, length_fmap, (to_entry _ Ht). lia.
Qed.

(** [C12] The command that asks for all subscriptions sends packets one after the other,
    numbered from one, whose lists together are the identifiers of the routes with a
    global subscription, each once and in the order of the routes; every packet but the
    last one is full.  (The mutex is free while a packet is sent; the statement is on a
    run in which no other task subscribes at that time.) *)
Theorem subscriptions_listed c tb (s : SBSys PS QS) (Hc : caller_ok c) (Hlk : Locked (Bus s) = false) (Hi : sb_inv tb [] None NULL (Bus s)) (Ht : task_ok (Task s)) :
  ∃ ms (s' : SBSys PS QS), CFE_SB_SendPrevSubsCmd c s = Some (CFE_SUCCESS, s') ∧ sends c (Bus s) ms (Bus s') ∧
    ms ≫= prev_ids = global_ids (msgids (Routes (Bus s))) (scopes tb) ∧
    ∀ k m, ms !! k = Some m → msg_ok m ∧ prev_segment m = Z.of_nat k + 1 ∧ 0 < prev_count m <= CFE_SB_SUB_ENTRIES_PER_PKT ∧
      ((S k < length ms)%nat → prev_count m = CFE_SB_SUB_ENTRIES_PER_PKT).
Proof.
  assert (wp (CFE_SB_SendPrevSubsCmd c) (λ st (s' : SBSys PS QS), st = CFE_SUCCESS ∧ ∃ ts, listed c tb (ta_PrevHdr (Task s)) (Bus s) ts (Bus s')) s) as Hw.
  { eapply wp_SendPrevSubsCmd; [done|done|exact Hi|done|]. eauto. }
  apply wp_inv in Hw as (st & s' & E & -> & ts & Hl).
  pose proof (global_ids_u32 _ (scopes tb) (route_ids_u32 _ _ Hi)) as Hu. pose proof (listed_length _ _ _ _ _ _ Hl) as Hlen.
  destruct (route_bounds tb (Bus s) Hi) as (Hl1 & _ & Hl2). pose proof (λ k t H, listed_bytes _ _ _ _ _ _ k t Hl Hu H ltac:(lia)) as Hb.
  exists (prev_packet <$> ts), s'. split_and!; [done|by apply Hl| |].
  - rewrite <- (ls_ids _ _ _ _ _ _ Hl). assert (Forall (λ t, prev_ids (prev_packet t) = pkt_ids t) ts) as Hf.
    { apply Forall_lookup. intros k t Hk. by apply (Hb k t). }
    clear -Hf. induction Hf as [|t ts Et _ IH]; [done|]. cbn. by rewrite Et, IH.
  - intros k m Hk. rewrite list_lookup_fmap in Hk. apply fmap_Some in Hk as (t & Hk & ->). destruct (Hb k t Hk) as (-> & -> & _).
    destruct (ls_n _ _ _ _ _ _ Hl k t Hk) as [Hn1 Hn2]. split_and!; [|done|unfold CFE_SB_SUB_ENTRIES_PER_PKT; lia..|].
    + apply prev_packet_ok. by apply (Forall_lookup_1 _ _ _ _ (pk_ok _ _ (ls_pkts _ _ _ _ _ _ Hl)) Hk).
    + rewrite length_fmap. done.
Qed.

(** [C13] The files of the task are complete: a writer that asks for records from zero
    until the function says so gets for the routing file one record for each subscription
    of each route, in order, with its pipe, state, count and application; for the pipe
    file the pipes in use, and for the map file every route with its index.  The requests
    change nothing in the bus but events. *)
Theorem file_records apps tb (s : SBSys PS QS) (Hlk : Locked (Bus s) = false) (Hi : sb_inv tb [] None NULL (Bus s)) :
  (∃ rs es t, write_all 256 (λ i, CFE_SB_WriteRouteInfoDataGetter apps (Z.of_nat i)) 0 s = Some (concat rs, mkSBSys (with_events (Bus s) es) t) ∧
     Forall2 (route_records apps s) (zip (msgids (Routes (Bus s))) tb) rs) ∧
  (write_all 256 (λ i, r ← CFE_SB_WritePipeInfoDataGetter apps (Z.of_nat i); mret (option_list r.1, r.2)) 0 s =
     Some (pipe_record apps (Queues (Bus s)) <$> filter (λ p, CFE_SB_PipeDescIsUsed p = true) (PipeTbl (Bus s)), s)) ∧
  (∃ t, write_all 256 (λ i, r ← CFE_SB_WriteMsgMapInfoDataGetter (Z.of_nat i); mret (option_list r.1, r.2)) 0 s =
     Some (imap (λ i id, mkMapEntry id (Z.of_nat i)) (msgids (Routes (Bus s))), mkSBSys (Bus s) t)).
Proof.
  split_and!; [by apply run_route_file|by eapply run_pipe_file|by eapply run_map_file].
Qed.

End props.
