(* ===== verification/SbExamples.v ===== *)
(** * Runs of the software bus

    Small scenarios on the pool and the queues of SbInst, to which the properties are
    applied. *)
From stdpp Require Import strings.
From S2P Require Import Prelude Config Msg MsgProps ResourceId Sbr SbrProps SbState SbBuf SbApi SbRoutes SbBufs SbInv SbMem SbSubs SbSend SbTransmit SbZero SbRecv SbPipeOps SbCalls EsApp SbTask SbTaskOps SbSafety SbInst SbProps.

#[local] Existing Instance HashMap.

Abbreviation EG := (CFE_SB_Global_t BumpPool ListQueues).

(** Two applications; the first pipe of the system. *)
Definition app1 : Caller := mkCaller CFE_SUCCESS 0x110001 (Some 3).
Definition app2 : Caller := mkCaller CFE_SUCCESS 0x110002 (Some 4).
Definition pipe1 : Z := CFE_SB_PIPEID_BASE + 1.

(** A telemetry packet with identifier 0x0801, ten bytes. *)
Definition packet : Message := [0x08; 0x01; 0xC0; 0x00; 0x00; 0x03; 1; 2; 3; 4].

Definition boot : EG := started_bus fresh_pool no_queues.

(** One pipe subscribed to the packet; then the packet sent, and received. *)
Definition setup : list sb_call :=
  [CreatePipe app1 (Some 0) 4 (Some "CMD_PIPE"%string); Subscribe app1 0x0801 pipe1].
Definition ready_bus : EG := exec_all setup boot.
Definition busy_bus : EG := exec_all (setup ++ [SendMsg app2 (Some packet)]) boot.
Definition idle_bus : EG :=
  exec_all (setup ++ [SendMsg app2 (Some packet); RcvMsg (Some 0) pipe1 CFE_SB_POLL; DeletePipe app1 pipe1]) boot.

Lemma app_ok : caller_ok app1 ∧ caller_ok app2.
Proof. by vm_compute. Qed.

Lemma packet_ok : msg_ok packet.
Proof. split; [|done]. repeat (apply Forall_cons; split; [done|]). by apply Forall_nil. Qed.

Lemma boot_reachable : reachable fresh_pool no_queues boot.
Proof. apply started_reachable. Qed.

(** The obligations of the callers in a scenario. *)
Ltac calls_tac := cbn -[exec]; repeat lazymatch goal with
  | |- True => exact I
  | |- _ ∧ _ => split
  | |- caller_ok _ => apply app_ok
  | |- is_u32 _ => by vm_compute
  | |- msg_arg_ok _ => apply packet_ok
  | |- msg_ok _ => apply packet_ok
  | |- returns_in_time _ _ _ => let E := fresh in intros E; discriminate E
  end.
Ltac reach := apply exec_reachable; [done|apply boot_reachable|calls_tac].

Lemma ready_reachable : reachable fresh_pool no_queues ready_bus.
Proof. reach. Qed.

Lemma busy_reachable : reachable fresh_pool no_queues busy_bus.
Proof. reach. Qed.

Lemma idle_reachable : reachable fresh_pool no_queues idle_bus.
Proof. reach. Qed.

Example ready_bus_runs : pd_PipeId <$> head (drop 1 (PipeTbl ready_bus)) = Some pipe1 ∧ size (Dests ready_bus) = 1%nat.
Proof. by vm_compute. Qed.

Example busy_bus_runs : bd_UseCount <$> (snd <$> map_to_list (Bufs busy_bus)) = [1] ∧
  q_items (Queues busy_bus) !! 1 = Some [1001000].
Proof. by vm_compute. Qed.

(** ** The properties at work *)

Lemma pool_fresh : p_live fresh_pool = ∅.
Proof. reflexivity. Qed.

Lemma ready_sound : Locked ready_bus = false ∧ ∃ tb, sb_inv tb [] None NULL ready_bus.
Proof. exact (reachable_ok fresh_pool no_queues ready_bus pool_fresh ready_reachable). Qed.

Lemma busy_sound : Locked busy_bus = false ∧ ∃ tb, sb_inv tb [] None NULL busy_bus.
Proof. exact (reachable_ok fresh_pool no_queues busy_bus pool_fresh busy_reachable). Qed.

(** A route with one destination, read from the state. *)
Lemma single_dest {PS QS} `{MemPoolOK PS} `{OSQueueOK QS} `{MsgMapOK} tb (s : CFE_SB_Global_t PS QS) i e d y0 :
  sb_inv tb [] None NULL s → entries (Routes s) !! i = Some e → ListHeadPtr e = d → d ≠ NULL → Dests s !! d = Some y0 →
  dd_Next y0 = NULL → ∃ y, tb !! i = Some [(d, y)] ∧ y0 = mkd y NULL NULL.
Proof.
  intros Hi He Hh Hd Hy0 Hnext. pose proof (in_routes _ _ _ _ _ Hi) as Hri.
  destruct (Forall2_lookup_l _ _ _ _ _ (ri_rep _ _ _ Hri) He) as (l & Hl & Hhd & Hc).
  pose proof (dlist_nonnull _ _ _ _ _ Hri Hl) as Hnn.
  destruct l as [|[d' y] l]; [cbn in Hhd; congruence|]. cbn in Hhd. assert (d' = d) as -> by congruence.
  destruct Hc as [Ed _]. rewrite Hy0 in Ed. injection Ed as ->. exists y.
  destruct l as [|[d2 y2] l]; [done|]. exfalso. cbn in Hnext. apply Forall_cons in Hnn as [_ [Hn _]%Forall_cons]. done.
Qed.


Lemma bus_accounting_witness : SBBuffersInUse (Stat busy_bus) = u32 (Z.of_nat (size (Bufs busy_bus))) ∧ size (Bufs busy_bus) = 1%nat.
Proof.
  split; [|vm_compute; reflexivity].
  destruct (bus_accounting fresh_pool no_queues busy_bus pool_fresh busy_reachable) as (_ & _ & _ & _ & E & _). exact E.
Defined.

Lemma idle_pipes : ∀ pd, pd ∈ PipeTbl idle_bus → ¬ active pd.
Proof.
  apply Forall_forall, (bool_decide_unpack (Forall (λ pd, ¬ active pd) (PipeTbl idle_bus))). vm_compute. exact I.
Qed.

Lemma idle_buffers : ∀ a b, Bufs idle_bus !! a = Some b → bd_AppId b = CFE_ES_APPID_UNDEFINED.
Proof.
  apply (bool_decide_unpack (map_Forall (λ _ b, bd_AppId b = CFE_ES_APPID_UNDEFINED) (Bufs idle_bus))). vm_compute. exact I.
Qed.

Lemma bus_no_leak_witness : Bufs idle_bus = ∅ ∧ Dests idle_bus = ∅ ∧ dom (p_live (Pool idle_bus)) = ∅.
Proof.
  destruct (bus_no_leak fresh_pool no_queues idle_bus pool_fresh idle_reachable idle_pipes idle_buffers) as (E1 & E2 & E3 & _).
  exact (conj E1 (conj E2 E3)).
Defined.

Lemma subscribe_refines_witness : ∃ tb st s',
  CFE_SB_SubscribeFull app1 0x0802 pipe1 (0, 0) 4 CFE_SB_MSG_GLOBAL ready_bus = Some (st, s') ∧
  subscribe_post app1 0x0802 pipe1 (0, 0) 4 CFE_SB_MSG_GLOBAL tb ready_bus st s'.
Proof.
  destruct ready_sound as (Hlk & tb & Hi). exists tb.
  apply (subscribe_refines app1 0x0802 pipe1 (0, 0) 4 CFE_SB_MSG_GLOBAL tb ready_bus (proj1 app_ok) Hlk Hi).
  vm_compute. split; congruence.
Defined.

Lemma unsubscribe_refines_witness : ∃ tb st s',
  CFE_SB_UnsubscribeFull 0x0801 pipe1 CFE_SB_MSG_GLOBAL 0x110001 ready_bus = Some (st, s') ∧
  unsubscribe_post 0x0801 pipe1 CFE_SB_MSG_GLOBAL 0x110001 tb ready_bus st s'.
Proof.
  destruct ready_sound as (Hlk & tb & Hi). exists tb.
  apply (unsubscribe_refines 0x0801 pipe1 CFE_SB_MSG_GLOBAL 0x110001 tb ready_bus Hlk Hi). vm_compute. split; congruence.
Defined.

Lemma transmit_delivers_witness : ∃ st s', CFE_SB_TransmitMsg app2 (Some packet) true ready_bus = Some (st, s').
Proof.
  destruct ready_sound as (Hlk & tb & Hi).
  destruct (transmit_delivers app2 packet true tb ready_bus (proj2 app_ok) Hlk Hi packet_ok) as (st & s' & E & _). eauto.
Defined.

Lemma receive_fifo_witness : ∃ tb r s', CFE_SB_ReceiveBuffer (Some 0) pipe1 CFE_SB_POLL busy_bus = Some (r, s') ∧
  receive_post (Some 0) pipe1 CFE_SB_POLL tb busy_bus r s'.
Proof.
  destruct busy_sound as (Hlk & tb & Hi). exists tb. apply (receive_fifo (Some 0) pipe1 CFE_SB_POLL tb busy_bus Hlk Hi).
  intros E. discriminate E.
Defined.

(** The subscriber of [ready_bus] is ready for the packet. *)
Definition dest1 : CFE_SB_DestinationD_t := default (mkDestinationD 0 0 0 0 0 0 0 0) (Dests ready_bus !! 1000).

Lemma ready_dest tb : sb_inv tb [] None NULL ready_bus → ∃ y, tb !! 0%nat = Some [(1000, y)] ∧ dest1 = mkd y NULL NULL.
Proof.
  intros Hi. destruct (entries (Routes ready_bus) !! 0%nat) as [e|] eqn:He; [|by vm_compute in He].
  eapply (single_dest tb ready_bus 0 e 1000 dest1 Hi He); [|done|by vm_compute|by vm_compute].
  assert (ListHeadPtr <$> entries (Routes ready_bus) !! 0%nat = Some 1000) as Eh by by vm_compute.
  rewrite He in Eh. by injection Eh.
Qed.

Lemma subscriber_ready tb : sb_inv tb [] None NULL ready_bus → ∃ y, ready (c_AppId app2) (msg_id packet) pipe1 tb ready_bus y.
Proof.
  intros Hi. destruct (ready_dest tb Hi) as (y & Hl & Ed). exists y.
  assert (∀ {A} (f : CFE_SB_DestinationD_t → A), f (mkd y NULL NULL) = f dest1) as Ef by (intros; by rewrite Ed).
  pose proof (Ef _ dd_PipeId) as E1. pose proof (Ef _ dd_BuffCount) as E2. pose proof (Ef _ dd_MsgId2PipeLim) as E3.
  pose proof (Ef _ dd_Active) as E4. cbn in E1, E2, E3, E4.
  split.
  - exists 0%nat, [(1000, y)], 1000. split_and!; [by vm_compute|done|by left].
  - rewrite E1. by vm_compute.
  - unfold dest_skips. rewrite E4, E1. by vm_compute.
  - rewrite E2, E3. by vm_compute.
  - by vm_compute.
  - by vm_compute.
Qed.

Lemma send_then_receive_witness : ∃ st s1, CFE_SB_SendMsg app2 (Some packet) ready_bus = Some (st, s1) ∧
  (st = CFE_SB_BUF_ALOC_ERR ∨ ∃ i e a b s2, st = CFE_SUCCESS ∧
     msgids (Routes ready_bus) !! i = Some (msg_id packet) ∧ entries (Routes ready_bus) !! i = Some e ∧
     CFE_SB_RcvMsg (Some 0) pipe1 CFE_SB_POLL s1 = Some ((CFE_SUCCESS, Some (content_ptr a)), s2) ∧
     Bufs s2 !! a = Some b ∧ bd_Content b = seq_content (msg_buf packet true) (SeqCnt e)).
Proof.
  destruct ready_sound as (Hlk & tb & Hi). destruct (subscriber_ready tb Hi) as (y & Hr).
  refine (send_then_receive app2 packet 0 pipe1 y tb ready_bus (proj2 app_ok) Hlk Hi packet_ok _ Hr). vm_compute. reflexivity.
Defined.

Lemma create_pipe_spec_witness : ∃ tb r s', CFE_SB_CreatePipe app2 (Some 0) 8 (Some "TLM_PIPE"%string) ready_bus = Some (r, s') ∧
  create_post app2 (Some 0) 8 (Some "TLM_PIPE"%string) tb ready_bus r s'.
Proof.
  destruct ready_sound as (Hlk & tb & Hi). exists tb.
  exact (create_pipe_spec app2 (Some 0) 8 (Some "TLM_PIPE"%string) tb ready_bus Hlk Hi).
Defined.

Lemma delete_pipe_spec_witness : ∃ tb st s', CFE_SB_DeletePipeFull pipe1 0x110001 busy_bus = Some (st, s') ∧
  delete_post pipe1 0x110001 tb busy_bus st s'.
Proof.
  destruct busy_sound as (Hlk & tb & Hi). exists tb. exact (delete_pipe_spec pipe1 0x110001 tb busy_bus Hlk Hi).
Defined.

Lemma cleanup_complete_witness : ∃ s', CFE_SB_CleanUpApp 0x110001 busy_bus = Some (CFE_SUCCESS, s') ∧ sb_ok s'.
Proof.
  destruct busy_sound as (Hlk & tb & Hi).
  destruct (cleanup_complete 0x110001 tb busy_bus Hlk Hi ltac:(vm_compute; congruence)) as (s' & E & Hs & _). eauto.
Defined.

Lemma opts_roundtrip_witness : ∃ st s1 s2, CFE_SB_SetPipeOpts app1 pipe1 CFE_SB_PIPEOPTS_IGNOREMINE ready_bus = Some (st, s1) ∧
  CFE_SB_GetPipeOpts pipe1 (Some 0) s1 = Some ((CFE_SUCCESS, Some CFE_SB_PIPEOPTS_IGNOREMINE), s2).
Proof.
  destruct (find_pipe (PipeTbl ready_bus) pipe1) as [[i p]|] eqn:E; [|vm_compute in E; discriminate E].
  assert (pd_AppId p = c_AppId app1) as Ea.
  { assert (pd_AppId <$> (snd <$> find_pipe (PipeTbl ready_bus) pipe1) = Some (c_AppId app1)) as Ea by (vm_compute; reflexivity).
    rewrite E in Ea. by injection Ea. }
  destruct (opts_roundtrip app1 pipe1 CFE_SB_PIPEOPTS_IGNOREMINE 0 i p ready_bus (proj1 ready_sound) ready_sound eq_refl E)
    as (st & s1 & s2 & E1 & _ & E2).
  rewrite decide_True in E2 by exact Ea. eauto.
Defined.

Lemma zerocopy_get_release_witness : ∃ ptr hd s1, CFE_SB_ZeroCopyGetPtr app1 16 (Some 0) ready_bus = Some ((ptr, hd), s1).
Proof.
  destruct ready_sound as (Hlk & tb & Hi).
  destruct (zerocopy_get_release app1 16 (Some 0) tb ready_bus (proj1 app_ok) Hlk Hi ltac:(lia)) as (ptr & hd & s1 & E & _). eauto.
Defined.

(** A zero copy buffer holding the packet, ready to be sent. *)
Definition filled_bus : EG :=
  exec_all (setup ++ [ZeroCopyGetPtr app2 10 (Some 0); FillBuffer 1001000 packet]) boot.

Lemma filled_sound : Locked filled_bus = false ∧ ∃ tb, sb_inv tb [] None NULL filled_bus.
Proof.
  apply (reachable_ok fresh_pool no_queues filled_bus pool_fresh). reach; [lia|]. eexists. split; by vm_compute.
Qed.

Lemma filled_handle : zc_arg_ok filled_bus (content_ptr 1001000) 1001000.
Proof.
  assert (bd_Content <$> Bufs filled_bus !! 1001000 = Some packet) as E by by vm_compute. split.
  - right. right. destruct (Bufs filled_bus !! 1001000); [eauto|done].
  - intros b (Hb & _ & _). rewrite Hb in E. injection E as ->. apply packet_ok.
Qed.

Lemma zerocopy_transmit_witness : ∃ tb st s',
  CFE_SB_TransmitBuffer app2 (content_ptr 1001000) 1001000 true filled_bus = Some (st, s') ∧
  zerocopy_post app2 (content_ptr 1001000) 1001000 true tb filled_bus st s'.
Proof.
  destruct filled_sound as (Hlk & tb & Hi). exists tb.
  exact (zerocopy_transmit app2 (content_ptr 1001000) 1001000 true tb filled_bus (proj2 app_ok) Hlk Hi filled_handle).
Defined.

(** A list of two nodes and a single one. *)
Definition list_bus : EG := boot <| Links := list_to_map
  [(InTransitList, mkLink 5 7); (5, mkLink 7 InTransitList); (7, mkLink InTransitList 5); (9, mkLink 9 9)] |>.

Lemma tracking_list_ops_witness :
  (∃ L, CFE_SB_TrackingListAdd InTransitList 9 list_bus = Some (tt, list_bus <| Links := L |>) ∧ ring L InTransitList [5; 7; 9]) ∧
  (∃ L, CFE_SB_TrackingListRemove 5 list_bus = Some (tt, list_bus <| Links := L |>) ∧ ring L InTransitList [7]).
Proof.
  assert (NoDup [InTransitList; 5; 7]) as Hnd by (apply (bool_decide_unpack _); vm_compute; exact I).
  assert (9 ∉ [InTransitList; 5; 7]) as Hx by (apply (bool_decide_unpack _); vm_compute; exact I).
  assert (ring (Links list_bus) InTransitList [5; 7]) as Hr by (vm_compute; split_and!; reflexivity || exact I).
  assert (is_Some (Links list_bus !! 9)) as Hn by (vm_compute; eexists; reflexivity).
  destruct (tracking_list_ops InTransitList [5; 7] 9 [] 5 [7] list_bus Hnd Hx Hr Hn eq_refl) as [(L & E1 & E2 & _) (L' & E3 & E4 & _)].
  split; [exists L; exact (conj E1 E2)|exists L'; exact (conj E3 E4)].
Defined.

Lemma dest_list_ops_witness : ∃ r D, CFE_SB_RemoveDestNode 1 1000 ready_bus = Some (tt, ready_bus <| Routes := r |> <| Dests := D |>).
Proof.
  destruct ready_sound as (_ & tb & Hi). destruct (ready_dest tb Hi) as (y & Hl & Ed).
  assert (dd_PipeId y = pipe1) as Ep.
  { pose proof (f_equal dd_PipeId Ed) as Ep. cbn in Ep. rewrite <- Ep. vm_compute. reflexivity. }
  destruct (dest_list_ops 0 [] 1000 y [] tb 5 (mkDestinationD 77 0 0 0 0 0 0 0) ready_bus (in_routes _ _ _ _ _ Hi) Hl)
    as [_ (r & D & E & _)]; [vm_compute; reflexivity|lia|cbn; lia| |eauto].
  cbn. rewrite Ep. apply (bool_decide_unpack _). vm_compute. exact I.
Defined.

Lemma event_guard_witness :
  CFE_SB_RequestToSendEvent app1 2 boot = Some (false, boot) ∨
  ∃ s1, CFE_SB_RequestToSendEvent app1 2 boot = Some (true, s1) ∧ CFE_SB_FinishSendEvent app1 2 s1 = Some (tt, boot).
Proof.
  destruct (event_guard app1 3 2 boot eq_refl ltac:(lia) ltac:(lia)) as [E|(s1 & E1 & _ & _ & E2)].
  - split; [vm_compute; reflexivity|]. apply Forall_replicate. vm_compute. split; congruence.
  - left. exact E.
  - right. exists s1. exact (conj E1 E2).
Defined.

(** A route at the last count the field can hold. *)
Definition count_bus : EG := boot
  <| Routes ::= (λ r, r <| RoutingTbl ::= alter (λ e, e <| SeqCnt := 0x3FFF |>) 0%nat |>) |>
  <| Bufs := {[7 := msg_buf packet true]} |>.

Lemma sequence_count_field_witness : ∃ s', set_sequence 1 7 count_bus = Some (tt, s') ∧
  SeqCnt <$> RoutingTbl (Routes s') !! 0%nat = Some 0x4000 ∧ bd_Content <$> Bufs s' !! 7 = Some packet.
Proof.
  destruct (RoutingTbl (Routes count_bus) !! 0%nat) as [e|] eqn:He; [|vm_compute in He; discriminate He].
  assert (SeqCnt e = 0x3FFF) as Ec.
  { assert (SeqCnt <$> RoutingTbl (Routes count_bus) !! 0%nat = Some 0x3FFF) as E by (vm_compute; reflexivity).
    rewrite He in E. by injection E. }
  destruct (sequence_count_field 0 e 7 (msg_buf packet true) count_bus ltac:(lia) He) as (s' & E1 & E2 & E3);
    [rewrite Ec; vm_compute; split; congruence|vm_compute; reflexivity..|].
  exists s'. rewrite Ec in E2, E3. exact (conj E1 (conj E2 E3)).
Defined.

Lemma poll_counts_error_witness : ∃ s', CFE_SB_RcvMsg (Some 0) pipe1 CFE_SB_POLL ready_bus = Some ((CFE_SB_NO_MESSAGE, Some NULL), s') ∧
  InternalErrorCounter (HK s') = 1.
Proof.
  destruct ready_sound as (Hlk & tb & Hi).
  destruct (find_pipe (PipeTbl ready_bus) pipe1) as [[i p]|] eqn:E; [|vm_compute in E; discriminate E].
  assert (pd_SysQueueId p = 1) as Eq.
  { assert (pd_SysQueueId <$> (snd <$> find_pipe (PipeTbl ready_bus) pipe1) = Some 1) as Eq by (vm_compute; reflexivity).
    rewrite E in Eq. by injection Eq. }
  destruct (poll_counts_error 0 pipe1 i p tb ready_bus Hlk Hi E) as (s' & E1 & E2); [rewrite Eq; vm_compute; reflexivity|].
  exists s'. split; [exact E1|]. rewrite E2. vm_compute. reflexivity.
Defined.

(** ** The task of the bus *)

(** A command packet without arguments for the task: identifier, function code. *)
Definition sb_command (mid code : Z) : Message := [mid / 256; mid mod 256; 0xC0; 0; 0; 1; code; 0].
Definition start_env : AppInitEnv := mkAppInit CFE_SUCCESS 0x110001 CFE_SUCCESS 7 CFE_SUCCESS.

Lemma command_ok mid code : is_u16 mid → is_u8 code → msg_ok (sb_command mid code).
Proof.
  intros Hm Hc. split; [|vm_compute; done]. unfold is_u16, is_u8 in *. unfold sb_command.
  repeat (apply Forall_cons; split; [first [done|unfold is_u8; Z.div_mod_to_equations; lia]|]). by apply Forall_nil.
Qed.

(** The start of the task, then a command. *)
Lemma task_safe_witness : ∃ s1 s2 : SBSys BumpPool ListQueues,
  run_task (TaskInit app1 start_env) (mkSBSys boot early_task) = Some (tt, s1) ∧
  run_task (TaskCommand app1 (0, 0) CFE_SUCCESS (sb_command CFE_SB_SUB_RPT_CTRL_MID CFE_SB_SEND_PREV_SUBS_CC)) s1 = Some (tt, s2) ∧
  reachable fresh_pool no_queues (Bus s2) ∧ msg_ok (prev_packet (Task s2)).
Proof.
  destruct (task_safe fresh_pool no_queues (mkSBSys boot early_task) (TaskInit app1 start_env) pool_fresh (started_sys _ _) (proj1 app_ok))
    as (s1 & E1 & Hr1 & _).
  destruct (task_safe fresh_pool no_queues s1 (TaskCommand app1 (0, 0) CFE_SUCCESS (sb_command CFE_SB_SUB_RPT_CTRL_MID CFE_SB_SEND_PREV_SUBS_CC)) pool_fresh Hr1)
    as (s2 & E2 & _ & Hb & _ & _ & Hm).
  - split; [apply app_ok|apply command_ok; vm_compute; split; congruence].
  - exists s1, s2. exact (conj E1 (conj E2 (conj Hb Hm))).
Defined.

(** The bus with a task that is waiting for its first command. *)
Definition ready_sys : SBSys BumpPool ListQueues := mkSBSys ready_bus early_task.

Example ready_sys_listed : (λ r, List.length (Events (Bus r.2))) <$> CFE_SB_SendPrevSubsCmd app1 ready_sys = Some (List.length (Events ready_bus) + 2)%nat.
Proof. by vm_compute. Qed.

Lemma route_commands_witness : ∃ g st g', CFE_SB_DisableRouteCmd 0x0801 pipe1 ready_sys = Some (CFE_SUCCESS, ready_sys <| Bus := g |>) ∧
  CFE_SB_TransmitMsg app2 (Some packet) true g = Some (st, g') ∧ pipe_queue pipe1 g' = pipe_queue pipe1 g.
Proof.
  destruct ready_sound as (Hlk & tb & Hi).
  destruct (route_commands 0x0801 pipe1 tb ready_sys Hlk Hi ltac:(vm_compute; split; congruence)) as [_ (ev & tb' & g & E & _ & Hpo & Hq)].
  assert (last (Events (Bus (default ready_sys (snd <$> CFE_SB_DisableRouteCmd 0x0801 pipe1 ready_sys)))) =
    Some (mkEvent CFE_SB_DSBL_RTE2_EID CFE_EVS_EventType_DEBUG None)) as El by (vm_compute; reflexivity).
  rewrite E in El. cbn [fmap option_fmap option_map snd default from_option id Bus] in El. change (Bus (ready_sys <| Bus := g |>)) with g in El.
  rewrite (route_post_events _ _ _ _ _ Hpo), last_snoc in El. injection El as Eev _.
  destruct (Hq Eev g (SendCopy app2 packet true) (tr_nil g) (conj (proj2 app_ok) packet_ok) eq_refl) as (st & g' & E1 & E2).
  exists g, st, g'. exact (conj E (conj E1 E2)).
Defined.

Lemma subscriptions_listed_witness : ∃ tb ms (s' : SBSys BumpPool ListQueues),
  CFE_SB_SendPrevSubsCmd app1 ready_sys = Some (CFE_SUCCESS, s') ∧ sends app1 (Bus ready_sys) ms (Bus s') ∧ ms ≫= prev_ids = global_ids [0x0801] (scopes tb).
Proof.
  destruct ready_sound as (Hlk & tb & Hi). exists tb.
  destruct (subscriptions_listed app1 tb ready_sys (proj1 app_ok) Hlk Hi early_task_ok) as (ms & s' & E1 & E2 & E3 & _).
  exists ms, s'. split; [exact E1|]. split; [exact E2|]. rewrite E3. assert (msgids (Routes (Bus ready_sys)) = [0x0801]) as -> by (vm_compute; reflexivity). reflexivity.
Defined.

Lemma file_records_witness : ∃ t,
  write_all 256 (λ i, r ← CFE_SB_WriteMsgMapInfoDataGetter (Z.of_nat i); mret (option_list r.1, r.2)) 0 ready_sys = Some ([mkMapEntry 0x0801 0], mkSBSys (Bus ready_sys) t).
Proof.
  destruct ready_sound as (Hlk & tb & Hi).
  destruct (file_records [] tb ready_sys Hlk Hi) as (_ & _ & t & E). exists t. rewrite E.
  assert (imap (λ i id, mkMapEntry id (Z.of_nat i)) (msgids (Routes (Bus ready_sys))) = [mkMapEntry 0x0801 0]) as -> by (vm_compute; reflexivity). reflexivity.
Defined.
