(* ===== verification/SbPool.v ===== *)
(** * The software bus on the ES memory pool

    SbState states what the bus relies on of CFE_ES_GetPoolBuf and CFE_ES_PutPoolBuf as
    a class.  Here the memory pool of EsPool is an instance of it, so that all theorems
    of the bus hold of the bus on that pool, and the instance is shown to be what
    CFE_ES_GetPoolBuf and CFE_ES_PutPoolBuf of EsMemPool do with the bus's handle. *)
From stdpp Require Import strings.
From S2P Require Import Prelude Bytes Config Msg ResourceId Sbr SbrProps EsPool EsPoolInv EsPoolOps EsPoolInit EsPoolProps EsMemPool.
From S2P Require Import SbState SbBuf SbApi SbInv SbCalls SbSafety SbInst SbExamples.

(** Where a pool is: its base address, its alignment (a power of two), its size and its
    block sizes. *)
Class PoolCfg := {
  pc_base : Z;
  pc_k : Z;
  pc_size : Z;
  pc_sizes : list Z;
  pc_base_ok : 0 < pc_base ∧ pc_base + pc_size < 2 ^ 64;
  pc_k_ok : 0 <= pc_k <= 31;
  pc_num_ok : (0 < length pc_sizes ≤ 17)%nat;
  pc_sizes_ok : Forall (λ n, 0 < n < 2 ^ 31) pc_sizes;
  pc_size_ok : 0 <= pc_size < 2 ^ 32;
}.

Section pool.
Context `{PC : PoolCfg}.

Abbreviation r0 := (fresh_rec 0 pc_size (2 ^ pc_k - 1) pc_sizes).

(** A state the pool can be in. *)
Record ESPool := mkESPool {
  ep_state : PoolState;
  ep_live : gmap Z Z;
  ep_given : gset Z;
  ep_reach : pool_reach pc_base r0 ep_state ep_live ep_given;
}.

Lemma get_step (p : ESPool) n status o s' : 0 <= n →
  CFE_ES_GenPoolGetBlock pc_base 0 n (ep_state p) = Some ((status, o), s') →
  pool_reach pc_base r0 s' (if status =? CFE_SUCCESS then <[o := n]> (ep_live p) else ep_live p)
    (if status =? CFE_SUCCESS then {[o]} ∪ ep_given p else ep_given p).
Proof.
  intros Hn E. destruct (Z.eqb_spec status CFE_SUCCESS) as [->|Hne].
  - by eapply reach_get; [apply ep_reach|..].
  - by eapply reach_refused; [apply ep_reach|..].
Qed.

(** CFE_ES_GetPoolBuf with the handle of the pool, from the result of the pool.  A
    size is not negative, and the pool has a result. *)
Definition es_get_as (Size : Z) (p : ESPool) (Hn : 0 <= Size) res :
    CFE_ES_GenPoolGetBlock pc_base 0 Size (ep_state p) = res → (Z * addr) * ESPool :=
  match res with
  | Some ((status, o), s') => λ E,
      ((if status =? CFE_SUCCESS then s32 Size else status, if status =? CFE_SUCCESS then u64 (pc_base + o) else NULL),
       mkESPool s' _ _ (get_step p Size status o s' Hn E))
  | None => λ _, ((CFE_ES_BAD_ARGUMENT, NULL), p)
  end.

Definition es_get (Size : Z) (p : ESPool) : (Z * addr) * ESPool :=
  match decide (0 <= Size) with
  | left Hn => es_get_as Size p Hn _ eq_refl
  | right _ => ((CFE_ES_BAD_ARGUMENT, NULL), p)
  end.

Lemma put_step (p : ESPool) a status n s' : u64 (a - pc_base) ∈ ep_given p →
  CFE_ES_GenPoolPutBlock pc_base 0 (u64 (a - pc_base)) (ep_state p) = Some ((status, n), s') →
  pool_reach pc_base r0 s' (if status =? CFE_SUCCESS then delete (u64 (a - pc_base)) (ep_live p) else ep_live p) (ep_given p).
Proof. intros Hg E. by eapply reach_put; [apply ep_reach|left|]. Qed.

(** CFE_ES_PutPoolBuf for an address the pool has given. *)
Definition es_put_as (a : addr) (p : ESPool) (Hg : u64 (a - pc_base) ∈ ep_given p) res :
    CFE_ES_GenPoolPutBlock pc_base 0 (u64 (a - pc_base)) (ep_state p) = res → Z * ESPool :=
  match res with
  | Some ((status, n), s') => λ E,
      (if status =? CFE_SUCCESS then s32 n else status, mkESPool s' _ _ (put_step p a status n s' Hg E))
  | None => λ _, (CFE_ES_BAD_ARGUMENT, p)
  end.

Definition es_put (a : addr) (p : ESPool) : Z * ESPool :=
  match decide (u64 (a - pc_base) ∈ ep_given p) with
  | left Hg => es_put_as a p Hg _ eq_refl
  | right _ => (CFE_ES_BUFFER_NOT_IN_POOL, p)
  end.

(** The blocks handed out, by address; one of no size is never taken back. *)
Definition es_live (p : ESPool) : gmap addr Z := kmap (Z.add pc_base) (filter (λ x, x.2 ≠ 0) (ep_live p)).

#[export] Instance ESMemPool : MemPool ESPool :=
  {| SbState.CFE_ES_GetPoolBuf := es_get; SbState.CFE_ES_PutPoolBuf := es_put; p_live := es_live |}.

Lemma base_inj : Inj (=) (=) (Z.add pc_base).
Proof. intros ???. lia. Qed.

Lemma es_live_lookup p a n : es_live p !! a = Some n ↔ ∃ o, a = pc_base + o ∧ ep_live p !! o = Some n ∧ n ≠ 0.
Proof.
  unfold es_live. rewrite lookup_kmap_Some by apply base_inj. split; intros (o & -> & H); exists o; (split; [done|]).
  - by apply map_lookup_filter_Some in H.
  - by apply map_lookup_filter_Some.
Qed.

Lemma live_block_p (p : ESPool) o n : ep_live p !! o = Some n → 24 <= o ∧ 0 <= n < 2 ^ 31 ∧ o + n <= pc_size.
Proof.
  intros Ho. destruct (live_block _ _ _ _ pc_k_ok pc_num_ok pc_sizes_ok pc_size_ok _ _ _ _ _ (ep_reach p) Ho) as (? & _ & ? & ?). done.
Qed.

Lemma block_addr (p : ESPool) o n : ep_live p !! o = Some n → u64 (pc_base + o) = pc_base + o ∧ u64 (pc_base + o - pc_base) = o ∧ 0 < pc_base + o.
Proof.
  intros Ho%live_block_p. pose proof pc_base_ok. pose proof pc_size_ok. unfold u64. replace (pc_base + o - pc_base) with o by lia.
  rewrite !Z.mod_small by lia. lia.
Qed.

Lemma es_get_as_eq n p Hn res E status o s' : res = Some ((status, o), s') → ∃ p', ep_state p' = s' ∧
  ep_live p' = (if status =? CFE_SUCCESS then <[o := n]> (ep_live p) else ep_live p) ∧
  es_get_as n p Hn res E = ((if status =? CFE_SUCCESS then s32 n else status, if status =? CFE_SUCCESS then u64 (pc_base + o) else NULL), p').
Proof. intros Er. revert E. rewrite Er. intros E. eexists. split_and!; [| |reflexivity]; done. Qed.

Lemma es_put_as_eq a p Hg res E status n s' : res = Some ((status, n), s') → ∃ p', ep_state p' = s' ∧
  ep_live p' = (if status =? CFE_SUCCESS then delete (u64 (a - pc_base)) (ep_live p) else ep_live p) ∧
  es_put_as a p Hg res E = (if status =? CFE_SUCCESS then s32 n else status, p').
Proof. intros Er. revert E. rewrite Er. intros E. eexists. split_and!; [| |reflexivity]; done. Qed.

(** The two calls: what they give and which state they leave. *)
Lemma es_get_spec n p : 0 <= n → ∃ status o s' p', CFE_ES_GenPoolGetBlock pc_base 0 n (ep_state p) = Some ((status, o), s') ∧
  get_result pc_base pc_k pc_size pc_sizes (ep_live p) n (ep_state p) (status, o) s' ∧ ep_state p' = s' ∧
  ep_live p' = (if status =? CFE_SUCCESS then <[o := n]> (ep_live p) else ep_live p) ∧
  es_get n p = ((if status =? CFE_SUCCESS then s32 n else status, if status =? CFE_SUCCESS then u64 (pc_base + o) else NULL), p').
Proof.
  intros Hn. pose proof (wp_get_reach _ _ _ _ pc_k_ok pc_num_ok pc_sizes_ok pc_size_ok _ _ _ n (ep_reach p) Hn) as Hw.
  apply wp_inv in Hw as ([status o] & s' & E & Hres). exists status, o, s'. unfold es_get. destruct (decide (0 <= n)) as [Hn'|]; [|done].
  destruct (es_get_as_eq n p Hn' _ eq_refl _ _ _ E) as (p' & H1 & H2 & H3). eauto 10.
Qed.

Lemma es_put_spec a p : u64 (a - pc_base) ∈ ep_given p → let o := u64 (a - pc_base) in
  ∃ status n s' p', CFE_ES_GenPoolPutBlock pc_base 0 o (ep_state p) = Some ((status, n), s') ∧
  put_result pc_base (ep_live p) o (ep_state p) (status, n) s' ∧ ep_state p' = s' ∧
  ep_live p' = (if status =? CFE_SUCCESS then delete o (ep_live p) else ep_live p) ∧
  es_put a p = (if status =? CFE_SUCCESS then s32 n else status, p').
Proof.
  intros Hg o. pose proof (wp_put_reach _ _ _ _ pc_k_ok pc_num_ok pc_sizes_ok pc_size_ok _ _ _ o (ep_reach p) Hg) as Hw.
  apply wp_inv in Hw as ([status n] & s' & E & Hres). exists status, n, s'. unfold es_put. fold o. destruct (decide (o ∈ ep_given p)) as [Hg'|]; [|done].
  destruct (es_put_as_eq a p Hg' _ eq_refl _ _ _ E) as (p' & H1 & H2 & H3). eauto 10.
Qed.

#[export] Instance ESMemPoolOK : MemPoolOK ESPool.
Proof.
  split; cbn -[es_get es_put es_live].
  - intros n p st a p' E Hst. destruct (decide (0 <= n)) as [Hn|Hn]; [|unfold es_get in E; destruct (decide (0 <= n)); [done|]; by injection E as <- <- <-].
    destruct (es_get_spec n p Hn) as (status & o & s' & p1 & _ & _ & _ & El & E'). rewrite E in E'. injection E' as -> -> ->.
    destruct (Z.eqb_spec status CFE_SUCCESS) as [Es|]; [|unfold es_live; by rewrite El].
    destruct (live_block_p p1 o n) as (_ & ? & _); [by rewrite El, lookup_insert_eq|]. rewrite s32_small in Hst by lia. lia.
  - intros n p st a p' Hn E Hst. destruct (es_get_spec n p ltac:(lia)) as (status & o & s' & p1 & _ & Hres & _ & El & E'). rewrite E in E'. injection E' as -> -> ->.
    inversion Hres as [o1 s1 Hnone _| |]; subst; [|exfalso; revert Hst; by vm_compute..]. cbn in *.
    assert (ep_live p1 !! o = Some n) as Ho by (by rewrite El, lookup_insert_eq). destruct (live_block_p p1 o n Ho) as (_ & ? & _).
    destruct (block_addr p1 o n Ho) as (-> & _ & ?). rewrite s32_small by lia. split_and!; [done|done|..].
    + apply eq_None_not_Some. intros [n' (o' & E' & Ho' & _)%es_live_lookup]. assert (o' = o) as -> by lia. congruence.
    + apply map_eq. intros b. apply option_eq. intros m. rewrite es_live_lookup, El, lookup_insert_Some. setoid_rewrite lookup_insert_Some.
      rewrite es_live_lookup. split.
      * intros (o' & -> & [[<- <-]|[? ?]] & ?); [by left|right; split; [lia|eauto]].
      * intros [[<- <-]|(? & o' & -> & ? & ?)]; [exists o; split_and!; [done|by left|lia]|]. exists o'. split_and!; [done| |done]. right. split; [lia|done].
  - intros a n p (o & -> & Ho & Hn)%es_live_lookup. destruct (block_addr p o n Ho) as (_ & Eo & _). destruct (live_block_p p o n Ho) as (_ & Hn' & _).
    assert (u64 (pc_base + o - pc_base) ∈ ep_given p) as Hg.
    { rewrite Eo. eapply live_given; [apply pc_k_ok|apply pc_num_ok|apply pc_sizes_ok|apply pc_size_ok|apply ep_reach|done]. }
    destruct (es_put_spec _ p Hg) as (status & n' & s' & p' & _ & Hres & _ & El & E'). rewrite Eo in *. unfold put_result in Hres. rewrite Ho in Hres.
    destruct n as [|m|m]; [done| |lia]. destruct Hres as ([= -> ->] & _). cbn in El, E'. exists p'. rewrite s32_small in E' by lia. split; [done|].
    apply map_eq. intros b. apply option_eq. intros z. rewrite es_live_lookup, El, lookup_delete_Some, es_live_lookup. setoid_rewrite lookup_delete_Some. split.
    + intros (o' & -> & [? ?] & ?). split; [lia|eauto].
    + intros (Hne & o' & -> & ? & ?). exists o'. split_and!; [done|intros ->; by apply Hne|done|done].
Qed.

(** ** The service behind the class *)

(** The record of the pool with the given handle, and the memory, are those of [p]. *)
Definition pool_in (E : ES_Pools) (Handle : Z) (p : ESPool) : Prop :=
  ∃ (i : nat) r, CFE_ES_LocateMemPoolRecordByID Handle = Some (Z.of_nat i) ∧ MemPoolTable E !! i = Some r ∧
    mp_PoolID r = Handle ∧ mp_BaseAddr r = pc_base ∧ mp_Pool r = Rec (ep_state p) ∧ Memory E = Mem (ep_state p).

(** The records of the other pools are left alone. *)
Definition others_kept (E E' : ES_Pools) (Handle : Z) : Prop :=
  ∀ (j : nat), CFE_ES_LocateMemPoolRecordByID Handle ≠ Some (Z.of_nat j) → MemPoolTable E' !! j = MemPoolTable E !! j.

Lemma wp_rd_rec (i : nat) r Q (E : ES_Pools) : MemPoolTable E !! i = Some r → Q r E → wp (rd_rec (Z.of_nat i)) Q E.
Proof.
  intros Er HQ. unfold rd_rec. wp_step. wp_step. unfold tbl_get. destruct (Z.ltb_spec (Z.of_nat i) 0); [lia|]. by rewrite Nat2Z.id, Er.
Qed.

Lemma wp_wr_rec (i : nat) f r (Q : unit → ES_Pools → Prop) (E : ES_Pools) : MemPoolTable E !! i = Some r →
  Q tt (E <| MemPoolTable ::= <[i := f r]> |>) → wp (wr_rec (Z.of_nat i) f) Q E.
Proof.
  intros Er HQ. unfold wr_rec. wp_step. wp_step. pose proof (lookup_lt_Some _ _ _ Er). rewrite tbl_upd_Some, Nat2Z.id by lia.
  wp_step. cbn [of_option]. wp_step. wp_step. destruct E. cbn in *. by rewrite (list_alter_at _ _ _ _ Er).
Qed.

Lemma wp_match Handle p (Q : bool → ES_Pools → Prop) E : pool_in E Handle p → Q true E →
  wp (CFE_ES_MemPoolRecordIsMatch (CFE_ES_LocateMemPoolRecordByID Handle) Handle) Q E.
Proof.
  intros (i & r & -> & Hr & <- & _) HQ. cbn. wp_step. eapply wp_rd_rec; [done|]. wp_step. by rewrite Z.eqb_refl.
Qed.

(** An operation of the pool, through its record. *)
Lemma wp_on_pool {A} Handle (c : Z → M PoolState A) p p' a (Q : A → ES_Pools → Prop) E (i : nat) : pool_in E Handle p →
  CFE_ES_LocateMemPoolRecordByID Handle = Some (Z.of_nat i) → c pc_base (ep_state p) = Some (a, ep_state p') →
  (∀ E', pool_in E' Handle p' → others_kept E E' Handle → Q a E') → wp (on_pool (Z.of_nat i) c) Q E.
Proof.
  intros (i' & r & Hl & Hr & Hid & Hb & Hp & Hm) Hl' Hc HQ. assert (i' = i) as -> by (rewrite Hl in Hl'; injection Hl'; lia).
  unfold on_pool. wp_step. eapply wp_rd_rec; [done|]. wp_step. wp_step. wp_step. eapply wp_of_option; [|].
  { rewrite Hb, Hp, Hm. replace (mkPoolState _ _) with (ep_state p) by (by destruct (ep_state p)). exact Hc. }
  cbn beta match. wp_step. eapply wp_wr_rec; [done|]. wp_steps. apply HQ.
  - exists i. eexists. cbn. split_and!; [done|apply list_lookup_insert_eq; by eapply lookup_lt_Some|done..].
  - intros j Hj. cbn. apply list_lookup_insert_ne. congruence.
Qed.

(** [C24] CFE_ES_GetPoolBuf and CFE_ES_PutPoolBuf, called with the handle of a pool, do
    what the pool of the software bus promises: the same status and address, and the
    pool is again in the table; the records of other pools are left alone. *)
Theorem pool_service_refines E Handle p (Hin : pool_in E Handle p) :
  (∀ d n, 0 <= n → ∃ b E', EsMemPool.CFE_ES_GetPoolBuf (Some d) Handle n E = Some (((es_get n p).1.1, Some b), E') ∧
     (0 <= (es_get n p).1.1 → b = (es_get n p).1.2) ∧ pool_in E' Handle (es_get n p).2 ∧ others_kept E E' Handle) ∧
  (∀ a, a ≠ NULL → u64 (a - pc_base) ∈ ep_given p →
     ∃ E', EsMemPool.CFE_ES_PutPoolBuf Handle a E = Some ((es_put a p).1, E') ∧ pool_in E' Handle (es_put a p).2 ∧ others_kept E E' Handle).
Proof.
  pose proof Hin as (i & r & Hl & _). split.
  - intros d n Hn. destruct (es_get_spec n p Hn) as (status & o & s' & p' & Eb & Hres & <- & El & ->). cbn [fst snd].
    enough (wp (EsMemPool.CFE_ES_GetPoolBuf (Some d) Handle n) (λ res E', res.1 = (if status =? CFE_SUCCESS then s32 n else status) ∧
      (∃ b, res.2 = Some b ∧ (status = CFE_SUCCESS → b = u64 (pc_base + o))) ∧ pool_in E' Handle p' ∧ others_kept E E' Handle) E) as Hw.
    { apply wp_inv in Hw as ([st bp] & E' & Er & Est & (b & Eb' & Hb) & H1 & H2). cbn in Est, Eb'. subst st bp. exists b, E'. split_and!; [done| |done|done].
      destruct (Z.eqb_spec status CFE_SUCCESS) as [Es|Es]; [auto|]. intros Hst. inversion Hres; subst; try done; by vm_compute in Hst. }
    unfold EsMemPool.CFE_ES_GetPoolBuf. wp_step. eapply wp_match; [done|]. rewrite Hl. wp_step.
    eapply (wp_on_pool Handle _ p p'); [done|done|exact Eb|]. intros E' Hin' Ho. cbn beta match.
    destruct (Z.eqb_spec status CFE_SUCCESS) as [Es|Es]; cbn [negb].
    + pose proof Hin' as (i' & r' & Hl' & Hr' & _ & Hb' & _). rewrite Hl in Hl'. assert (i' = i) as -> by (injection Hl'; lia).
      wp_step. eapply wp_rd_rec; [done|]. wp_step. rewrite Hb'. split_and!; eauto.
    + wp_step. split_and!; eauto. exists d. done.
  - intros a Ha Hg. destruct (es_put_spec a p Hg) as (status & m & s' & p' & Eb & _ & <- & El & ->). cbn [fst snd].
    enough (wp (EsMemPool.CFE_ES_PutPoolBuf Handle a) (λ res E', res = (if status =? CFE_SUCCESS then s32 m else status) ∧
      pool_in E' Handle p' ∧ others_kept E E' Handle) E) as Hw by (apply wp_inv in Hw as (st & E' & Er & -> & H1 & H2); eauto).
    unfold EsMemPool.CFE_ES_PutPoolBuf. rewrite (proj2 (Z.eqb_neq _ _) Ha). wp_step. eapply wp_match; [done|]. rewrite Hl. wp_step.
    eapply (wp_on_pool Handle _ p p'); [done|done|exact Eb|]. intros E' Hin' Ho. cbn beta match. wp_step. done.
Qed.

(** ** The bus on the pool *)

Section bus.
Context {QS : Type} `{Qok : OSQueueOK QS} `{Mok : MsgMapOK} {B : BuildCfg}.

(** The software bus on the ES pool: after any sequence of API calls, every buffer
    and every destination descriptor is a block of the pool's memory, and no two of
    them overlap, whether in use for messages or for subscriptions. *)
Theorem bus_blocks_apart (p : ESPool) (q : QS) (s : CFE_SB_Global_t ESPool QS) (Hp : p_live p = ∅) (Hr : reachable p q s) :
  (∀ a, a ∈ dom (Bufs s) ∪ dom (Dests s) → ∃ n, p_live (Pool s) !! a = Some n ∧ 0 < n ∧ pc_base + 24 <= a ∧ a + n <= pc_base + pc_size) ∧
  (∀ a1 n1 a2 n2, p_live (Pool s) !! a1 = Some n1 → p_live (Pool s) !! a2 = Some n2 → a1 ≠ a2 → a1 + n1 <= a2 ∨ a2 + n2 <= a1).
Proof.
  destruct (reachable_ok p q s Hp Hr) as (_ & tb & Hi). destruct (in_pool _ _ _ _ _ Hi) as [E _]. split.
  - intros a Ha. rewrite <- E in Ha. apply elem_of_dom in Ha as [n Hn]. exists n. split; [done|].
    apply es_live_lookup in Hn as (o & -> & Ho & Hn). pose proof (live_block_p _ _ _ Ho). lia.
  - cbn. intros a1 n1 a2 n2 (o1 & -> & H1 & _)%es_live_lookup (o2 & -> & H2 & _)%es_live_lookup Hne.
    destruct (live_apart _ _ _ _ pc_k_ok pc_num_ok pc_sizes_ok pc_size_ok _ _ _ _ _ _ _ (ep_reach (Pool s)) H1 H2); lia.
Qed.
End bus.
End pool.

(** ** A run on the pool *)

(** Half a megabyte at 0x10000, of blocks of the default sizes in ascending order. *)
#[export] Instance ExamplePool : PoolCfg.
Proof.
  refine {| pc_base := 0x10000; pc_k := 4; pc_size := 524288;
            pc_sizes := [8; 16; 32; 48; 64; 96; 128; 160; 256; 512; 1024; 2048; 4096; 8192; 16384; 32768; 80000] |};
    [done|done|cbn; lia|repeat constructor|done].
Defined.

Definition es_pool0 : ESPool := mkESPool (mkPoolState (fresh_rec 0 pc_size (2 ^ pc_k - 1) pc_sizes) ∅) ∅ ∅ (EsPoolProps.reach_init _ _ _).

#[local] Existing Instance HashMap.

Definition es_bus : CFE_SB_Global_t ESPool ListQueues :=
  exec_all (setup ++ [SendMsg app2 (Some packet)]) (started_bus es_pool0 no_queues).

Lemma es_bus_reachable : reachable es_pool0 no_queues es_bus.
Proof. apply exec_reachable; [by vm_compute|apply SbSafety.started_reachable|calls_tac]. Qed.

(** A destination descriptor and a buffer are in use. *)
Example es_bus_runs : dom (Bufs es_bus) = {[0x10000 + 96]} ∧ dom (Dests es_bus) = {[0x10000 + 32]}.
Proof. by vm_compute. Qed.

Lemma bus_blocks_apart_witness : 65632 + 58 <= 65568 ∨ 65568 + 32 <= 65632.
Proof.
  destruct (bus_blocks_apart es_pool0 no_queues es_bus ltac:(by vm_compute) es_bus_reachable) as [_ H].
  apply (H 65632 58 65568 32); [by vm_compute..|done].
Defined.

(** The table of pools with one pool, made by CFE_ES_PoolCreate. *)
Definition no_pools : ES_Pools :=
  mkPools (replicate (Z.to_nat CFE_PLATFORM_ES_MAX_MEMORY_POOLS) (mkMemPool zero_pool 0 0 0 0)) CFE_ES_POOLID_BASE ∅.
Definition created : option ((Z * ptr Z) * ES_Pools) := CFE_ES_PoolCreate 0x110001 (OS_SUCCESS, 7) (Some 0) 0x10000 524288 no_pools.
Definition handle1 : Z := CFE_ES_POOLID_BASE + 1.

Lemma created_in : ∃ E, created = Some ((CFE_SUCCESS, Some handle1), E) ∧ pool_in E handle1 es_pool0.
Proof.
  eexists. split; [vm_compute; reflexivity|]. exists 1%nat. eexists. split_and!; vm_compute; reflexivity.
Qed.

(** A block got and put back through the service. *)
Definition es_pool1 : ESPool := (es_get 40 es_pool0).2.

Lemma pool_service_refines_witness : ∃ E E', pool_in E handle1 es_pool1 ∧
  EsMemPool.CFE_ES_PutPoolBuf handle1 0x10020 E = Some (40, E') ∧ pool_in E' handle1 (es_put 0x10020 es_pool1).2.
Proof.
  destruct created_in as (E0 & _ & H0).
  destruct (proj1 (pool_service_refines E0 handle1 es_pool0 H0) 0 40 ltac:(lia)) as (b & E & _ & _ & H1 & _).
  destruct (proj2 (pool_service_refines E handle1 es_pool1 H1) 0x10020 ltac:(done)) as (E' & Er & H2 & _).
  { apply (bool_decide_unpack _). vm_compute. exact I. }
  exists E, E'. split; [exact H1|]. split; [|exact H2]. rewrite Er. reflexivity.
Defined.
