(* ===== verification/TimeApi.v ===== *)
(** * Time values (cfe_time_api.c, osapi-clock.h)

    A time is a number of seconds and a binary fraction of a second of 32 bits each;
    the operating system layer counts ticks of 100 nanoseconds. *)
From S2P Require Import Prelude Config.

Record CFE_TIME_SysTime_t := mkTime { Seconds : Z; Subseconds : Z }.

#[export] Instance SysTime_eta : Eta CFE_TIME_SysTime_t := mkEta (λ t, mkTime (Seconds t) (Subseconds t)).

#[export] Instance SysTime_eq_dec : EqDecision CFE_TIME_SysTime_t.
Proof. solve_decision. Defined.

Inductive CFE_TIME_Compare_t := CFE_TIME_A_LT_B | CFE_TIME_EQUAL | CFE_TIME_A_GT_B.

#[export] Instance Compare_eq_dec : EqDecision CFE_TIME_Compare_t.
Proof. solve_decision. Defined.

(** ** Arithmetic *)

Definition CFE_TIME_Add (Time1 Time2 : CFE_TIME_SysTime_t) : CFE_TIME_SysTime_t :=
  let sub := u32 (Subseconds Time1 + Subseconds Time2) in
  if sub <? Subseconds Time1 then mkTime (u32 (u32 (Seconds Time1 + Seconds Time2) + 1)) sub
  else mkTime (u32 (Seconds Time1 + Seconds Time2)) sub.

Definition CFE_TIME_Subtract (Time1 Time2 : CFE_TIME_SysTime_t) : CFE_TIME_SysTime_t :=
  let sub := u32 (Subseconds Time1 - Subseconds Time2) in
  if Subseconds Time1 <? sub then mkTime (u32 (u32 (Seconds Time1 - Seconds Time2) - 1)) sub
  else mkTime (u32 (Seconds Time1 - Seconds Time2)) sub.

Definition CFE_TIME_NEGATIVE : Z := 0x80000000.

Definition CFE_TIME_Compare (TimeA TimeB : CFE_TIME_SysTime_t) : CFE_TIME_Compare_t :=
  if Seconds TimeB <? Seconds TimeA then
    if CFE_TIME_NEGATIVE <? u32 (Seconds TimeA - Seconds TimeB) then CFE_TIME_A_LT_B else CFE_TIME_A_GT_B
  else if Seconds TimeA <? Seconds TimeB then
    if CFE_TIME_NEGATIVE <? u32 (Seconds TimeB - Seconds TimeA) then CFE_TIME_A_GT_B else CFE_TIME_A_LT_B
  else if Subseconds TimeB <? Subseconds TimeA then CFE_TIME_A_GT_B
  else if Subseconds TimeA <? Subseconds TimeB then CFE_TIME_A_LT_B
  else CFE_TIME_EQUAL.

(** ** Conversions of the operating system layer

    Division and remainder of C truncate; an interval is its number of ticks. *)

Definition OS_TIME_TICK_RESOLUTION_NS : Z := 100.
Definition OS_TIME_TICKS_PER_SECOND : Z := 10000000.
Definition OS_TIME_TICKS_PER_USEC : Z := 10.

Definition OS_TimeGetTotalSeconds (tm : Z) : Z := Z.quot tm OS_TIME_TICKS_PER_SECOND.
Definition OS_TimeGetFractionalPart (tm : Z) : Z := Z.rem tm OS_TIME_TICKS_PER_SECOND.

Definition OS_TimeGetSubsecondsPart (tm : Z) : Z :=
  let frac := Z.shiftl (OS_TimeGetFractionalPart tm) 30 + Z.shiftr OS_TIME_TICKS_PER_SECOND 2 in
  u32 (Z.quot (frac - 1) (Z.shiftr OS_TIME_TICKS_PER_SECOND 2)).

Definition OS_TimeGetMicrosecondsPart (tm : Z) : Z := u32 (OS_TimeGetFractionalPart tm) / OS_TIME_TICKS_PER_USEC.

Definition OS_TimeAssembleFromNanoseconds (seconds nanoseconds : Z) : Z :=
  seconds * OS_TIME_TICKS_PER_SECOND + nanoseconds / OS_TIME_TICK_RESOLUTION_NS.

Definition OS_TimeAssembleFromSubseconds (seconds subseconds : Z) : Z :=
  seconds * OS_TIME_TICKS_PER_SECOND + Z.shiftr (subseconds * Z.shiftr OS_TIME_TICKS_PER_SECOND 2) 30.

Definition CFE_TIME_Sub2MicroSecs (SubSeconds : Z) : Z :=
  OS_TimeGetMicrosecondsPart (OS_TimeAssembleFromSubseconds 0 SubSeconds).

Definition CFE_TIME_Micro2SubSecs (MicroSeconds : Z) : Z :=
  if 999999 <? MicroSeconds then 0xFFFFFFFF
  else OS_TimeGetSubsecondsPart (OS_TimeAssembleFromNanoseconds 0 (u32 (MicroSeconds * 1000))).

(** ** Printing

    All variables are 32 bit unsigned. *)

Definition CFE_MISSION_TIME_EPOCH_YEAR : Z := 1980.
Definition CFE_MISSION_TIME_EPOCH_DAY : Z := 1.
Definition CFE_MISSION_TIME_EPOCH_HOUR : Z := 0.
Definition CFE_MISSION_TIME_EPOCH_MINUTE : Z := 0.
Definition CFE_MISSION_TIME_EPOCH_SECOND : Z := 0.

(** The loop that carries seconds into minutes. *)
Fixpoint carry_seconds (fuel : nat) (NumberOfMinutes NumberOfSeconds : Z) : option (Z * Z) :=
  if 60 <=? NumberOfSeconds then
    match fuel with
    | O => None
    | S fuel => carry_seconds fuel (u32 (NumberOfMinutes + 1)) (u32 (NumberOfSeconds - 60))
    end
  else Some (NumberOfMinutes, NumberOfSeconds).

Definition days_in_year (NumberOfYears : Z) : Z :=
  if NumberOfYears mod 4 =? 0 then
    if negb (NumberOfYears mod 100 =? 0) then 366
    else if NumberOfYears mod 400 =? 0 then 366 else 365
  else 365.

(** The loop that counts years. *)
Fixpoint count_years (fuel : nat) (NumberOfYears NumberOfDays : Z) : option (Z * Z) :=
  let DaysInThisYear := days_in_year NumberOfYears in
  if NumberOfDays <? DaysInThisYear then Some (NumberOfYears, NumberOfDays)
  else match fuel with
       | O => None
       | S fuel => count_years fuel (u32 (NumberOfYears + 1)) (u32 (NumberOfDays - DaysInThisYear))
       end.

Definition digit (n : Z) : Z := 48 + n.

(** What CFE_TIME_Print writes to its buffer; [None] in place of the buffer is NULL.
    The loops run less than twice and less than 137 times. *)
Definition CFE_TIME_Print (PrintBuffer : ptr (list Z)) (TimeToPrint : CFE_TIME_SysTime_t) : option (ptr (list Z)) :=
  match PrintBuffer with
  | None => Some None
  | Some _ =>
      let NumberOfMinutes := u32 (Seconds TimeToPrint / 60 + CFE_MISSION_TIME_EPOCH_MINUTE) in
      let NumberOfSeconds := u32 (Seconds TimeToPrint mod 60 + CFE_MISSION_TIME_EPOCH_SECOND) in
      '(NumberOfMinutes, NumberOfSeconds) ← carry_seconds 2 NumberOfMinutes NumberOfSeconds;
      let NumberOfHours := u32 (NumberOfMinutes / 60 + CFE_MISSION_TIME_EPOCH_HOUR) in
      let NumberOfMinutes := NumberOfMinutes mod 60 in
      let NumberOfDays := u32 (NumberOfHours / 24 + (CFE_MISSION_TIME_EPOCH_DAY - 1)) in
      let NumberOfHours := NumberOfHours mod 24 in
      '(NumberOfYears, NumberOfDays) ← count_years 137 CFE_MISSION_TIME_EPOCH_YEAR NumberOfDays;
      let NumberOfDays := u32 (NumberOfDays + 1) in
      let NumberOfMicros := CFE_TIME_Sub2MicroSecs (Subseconds TimeToPrint) / 10 in
      let y1 := NumberOfYears mod 1000 in
      let y2 := y1 mod 100 in
      let d1 := NumberOfDays mod 100 in
      let m1 := NumberOfMicros mod 10000 in
      let m2 := m1 mod 1000 in
      let m3 := m2 mod 100 in
      Some (Some
        ([digit (NumberOfYears / 1000); digit (y1 / 100); digit (y2 / 10); digit (y2 mod 10); 45;
          digit (NumberOfDays / 100); digit (d1 / 10); digit (d1 mod 10); 45;
          digit (NumberOfHours / 10); digit (NumberOfHours mod 10); 58;
          digit (NumberOfMinutes / 10); digit (NumberOfMinutes mod 10); 58;
          digit (NumberOfSeconds / 10); digit (NumberOfSeconds mod 10); 46;
          digit (NumberOfMicros / 10000); digit (m1 / 1000); digit (m2 / 100); digit (m3 / 10); digit (m3 mod 10); 0]))
  end.

(** ** Properties of time values *)

(** A time as a number of 2{^-32} seconds. *)
Definition val (t : CFE_TIME_SysTime_t) : Z := Seconds t * 2 ^ 32 + Subseconds t.
Definition time_ok (t : CFE_TIME_SysTime_t) : Prop := is_u32 (Seconds t) ∧ is_u32 (Subseconds t).

Lemma val_range t : time_ok t → 0 <= val t < 2 ^ 64.
Proof. unfold time_ok, is_u32, val. lia. Qed.

Lemma val_inj a b : time_ok a → time_ok b → val a = val b → a = b.
Proof. destruct a, b. unfold time_ok, is_u32, val. cbn. intros. f_equal; lia. Qed.

Lemma u32_cases z : 0 <= z < 2 ^ 32 ∧ u32 z = z ∨ 2 ^ 32 <= z < 2 ^ 33 ∧ u32 z = z - 2 ^ 32 ∨ - 2 ^ 32 <= z < 0 ∧ u32 z = z + 2 ^ 32 ∨ z < - 2 ^ 32 ∨ 2 ^ 33 <= z.
Proof.
  destruct (decide (0 <= z < 2 ^ 32)); [left; split; [done|by apply u32_small]|].
  destruct (decide (2 ^ 32 <= z < 2 ^ 33)).
  { right; left. split; [done|]. unfold u32. rewrite <- (Z.mod_add _ (-1)) by lia. rewrite Z.mod_small by lia. lia. }
  destruct (decide (- 2 ^ 32 <= z < 0)); [|lia].
  right; right; left. split; [done|]. unfold u32. rewrite <- (Z.mod_add _ 1) by lia. rewrite Z.mod_small by lia. lia.
Qed.

Ltac u32_case t := destruct (u32_cases t) as [[? ?]|[[? ?]|[[? ?]|[?|?]]]].

Lemma Add_ok a b : time_ok (CFE_TIME_Add a b).
Proof. unfold CFE_TIME_Add. case_match; split; apply u32_range. Qed.

Lemma Subtract_ok a b : time_ok (CFE_TIME_Subtract a b).
Proof. unfold CFE_TIME_Subtract. case_match; split; apply u32_range. Qed.

Lemma mod_of v w k : 0 <= v < 2 ^ 64 → w = v + k * 2 ^ 64 → v = w mod 2 ^ 64.
Proof. intros Hv ->. rewrite Z.mod_add by lia. by rewrite Z.mod_small. Qed.

Lemma Add_val a b : time_ok a → time_ok b → val (CFE_TIME_Add a b) = (val a + val b) mod 2 ^ 64.
Proof.
  intros [Ha1 Ha2] [Hb1 Hb2]. pose proof (val_range _ (Add_ok a b)) as Hr. unfold is_u32 in *.
  unfold CFE_TIME_Add in *. unfold val in *.
  u32_case (Subseconds a + Subseconds b); try lia; u32_case (Seconds a + Seconds b); try lia;
    destruct (Z.ltb_spec (u32 (Subseconds a + Subseconds b)) (Subseconds a)); try lia; cbn in *;
    try (u32_case (u32 (Seconds a + Seconds b) + 1); try lia);
    first [apply (mod_of _ _ 0); lia|apply (mod_of _ _ 1); lia].
Qed.

Lemma Subtract_val a b : time_ok a → time_ok b → val (CFE_TIME_Subtract a b) = (val a - val b) mod 2 ^ 64.
Proof.
  intros [Ha1 Ha2] [Hb1 Hb2]. pose proof (val_range _ (Subtract_ok a b)) as Hr. unfold is_u32 in *.
  unfold CFE_TIME_Subtract in *. unfold val in *.
  u32_case (Subseconds a - Subseconds b); try lia; u32_case (Seconds a - Seconds b); try lia;
    destruct (Z.ltb_spec (Subseconds a) (u32 (Subseconds a - Subseconds b))); try lia; cbn in *;
    try (u32_case (u32 (Seconds a - Seconds b) - 1); try lia);
    first [apply (mod_of _ _ 0); lia|apply (mod_of _ _ (-1)); lia].
Qed.

(** CFE_TIME_Add and CFE_TIME_Subtract are addition and subtraction of 64 bit
    fixed point numbers, carries and roll over included, and subtraction undoes
    addition. *)
Theorem time_arith a b (Ha : time_ok a) (Hb : time_ok b) :
  val (CFE_TIME_Add a b) = (val a + val b) mod 2 ^ 64 ∧ val (CFE_TIME_Subtract a b) = (val a - val b) mod 2 ^ 64 ∧
  CFE_TIME_Subtract (CFE_TIME_Add a b) b = a ∧ CFE_TIME_Add (CFE_TIME_Subtract a b) b = a.
Proof.
  split_and!; [by apply Add_val|by apply Subtract_val|..]; apply val_inj; try apply Add_ok; try apply Subtract_ok; try done.
  - rewrite Subtract_val, Add_val by (try apply Add_ok; done). rewrite Zminus_mod_idemp_l, Z.add_simpl_r. apply Z.mod_small, val_range, Ha.
  - rewrite Add_val, Subtract_val by (try apply Subtract_ok; done). rewrite Zplus_mod_idemp_l, Z.sub_simpl_r. apply Z.mod_small, val_range, Ha.
Qed.

Lemma time_arith_witness : CFE_TIME_Subtract (CFE_TIME_Add (mkTime 0xFFFFFFFF 0x80000000) (mkTime 2 0x90000000)) (mkTime 2 0x90000000) = mkTime 0xFFFFFFFF 0x80000000.
Proof. apply (time_arith (mkTime 0xFFFFFFFF 0x80000000) (mkTime 2 0x90000000)); by vm_compute. Defined.

Definition flip (c : CFE_TIME_Compare_t) : CFE_TIME_Compare_t :=
  match c with CFE_TIME_A_LT_B => CFE_TIME_A_GT_B | CFE_TIME_EQUAL => CFE_TIME_EQUAL | CFE_TIME_A_GT_B => CFE_TIME_A_LT_B end.

(** CFE_TIME_Compare orders times cyclically: it is equal only for equal times,
    swapping the times swaps the result, and a time is before every time up to 2^31 - 1
    seconds later, also when the seconds have rolled over in between. *)
Theorem compare_cyclic a b d (Ha : time_ok a) (Hb : time_ok b) (Hd : time_ok d) :
  (CFE_TIME_Compare a b = CFE_TIME_EQUAL ↔ a = b) ∧ CFE_TIME_Compare b a = flip (CFE_TIME_Compare a b) ∧
  (0 < val d <= 0x7FFFFFFF * 2 ^ 32 → CFE_TIME_Compare a (CFE_TIME_Add a d) = CFE_TIME_A_LT_B).
Proof.
  unfold time_ok, is_u32 in *. split_and!.
  - split.
    + unfold CFE_TIME_Compare. intros E. repeat case_match; try done. destruct a, b. cbn in *. f_equal; lia.
    + intros ->. unfold CFE_TIME_Compare. by rewrite !Z.ltb_irrefl.
  - unfold CFE_TIME_Compare. repeat case_match; try done; try lia.
  - intros Hv. unfold val in Hv. unfold CFE_TIME_Add, CFE_TIME_Compare, CFE_TIME_NEGATIVE.
    u32_case (Subseconds a + Subseconds d); try lia; u32_case (Seconds a + Seconds d); try lia;
      destruct (Z.ltb_spec (u32 (Subseconds a + Subseconds d)) (Subseconds a)); try lia; cbn [Seconds Subseconds];
      try (u32_case (u32 (Seconds a + Seconds d) + 1); try lia);
      repeat match goal with
      | |- context [?x <? ?y] => destruct (Z.ltb_spec x y); try done; try lia
      end;
      match goal with H : context [u32 (?x - ?y)] |- _ => u32_case (x - y); lia end.
Qed.

Lemma compare_cyclic_witness : CFE_TIME_Compare (mkTime 0xFFFFFFFF 5) (mkTime 1 3) = flip (CFE_TIME_Compare (mkTime 1 3) (mkTime 0xFFFFFFFF 5)) ∧
  CFE_TIME_Compare (mkTime 0xFFFFFFFF 5) (CFE_TIME_Add (mkTime 0xFFFFFFFF 5) (mkTime 2 0)) = CFE_TIME_A_LT_B.
Proof.
  destruct (compare_cyclic (mkTime 0xFFFFFFFF 5) (mkTime 1 3) (mkTime 2 0)) as (_ & H1 & H2); [by vm_compute..|].
  split; [rewrite H1; by destruct (CFE_TIME_Compare _ _)|]. apply H2. by vm_compute.
Defined.

(** ** Microseconds *)

Lemma Micro2SubSecs_val m : 0 <= m <= 999999 →
  CFE_TIME_Micro2SubSecs m = (m * 2 ^ 32 + 999999) / 1000000 ∧ is_u32 (CFE_TIME_Micro2SubSecs m).
Proof.
  intros Hm. unfold CFE_TIME_Micro2SubSecs. destruct (Z.ltb_spec 999999 m); [lia|].
  unfold OS_TimeAssembleFromNanoseconds, OS_TimeGetSubsecondsPart, OS_TimeGetFractionalPart, OS_TIME_TICK_RESOLUTION_NS.
  rewrite (u32_small (m * 1000)) by (unfold is_u32; lia). replace (m * 1000) with (m * 10 * 100) by lia. rewrite Z.div_mul by lia.
  change (Z.shiftr OS_TIME_TICKS_PER_SECOND 2) with 2500000. rewrite Z.rem_small by (unfold OS_TIME_TICKS_PER_SECOND; lia).
  rewrite Z.add_0_l, Z.shiftl_mul_pow2 by lia. rewrite Z.quot_div_nonneg by lia.
  replace ((m * 10 * 2 ^ 30 + 2500000 - 1) / 2500000) with ((m * 2 ^ 32 + 999999) / 1000000).
  - split; [|apply u32_range]. apply u32_small. unfold is_u32. split; [apply Z.div_pos; lia|]. apply Z.div_lt_upper_bound; lia.
  - apply (Z.div_unique_pos _ _ _ ((m * 10 * 2 ^ 30 + 2500000 - 1) - 2500000 * ((m * 2 ^ 32 + 999999) / 1000000))); [|lia].
    pose proof (Z.div_mod (m * 2 ^ 32 + 999999) 1000000 ltac:(lia)). pose proof (Z.mod_pos_bound (m * 2 ^ 32 + 999999) 1000000 ltac:(lia)). lia.
Qed.

Lemma Sub2MicroSecs_val s : is_u32 s → CFE_TIME_Sub2MicroSecs s = s * 1000000 / 2 ^ 32.
Proof.
  intros Hs. unfold is_u32 in Hs. unfold CFE_TIME_Sub2MicroSecs, OS_TimeGetMicrosecondsPart, OS_TimeAssembleFromSubseconds, OS_TimeGetFractionalPart, OS_TIME_TICKS_PER_USEC.
  change (Z.shiftr OS_TIME_TICKS_PER_SECOND 2) with 2500000. rewrite Z.add_0_l, Z.shiftr_div_pow2 by lia.
  pose proof (Z.div_pos (s * 2500000) (2 ^ 30) ltac:(lia) ltac:(lia)).
  assert (s * 2500000 / 2 ^ 30 < 10000000) by (apply Z.div_lt_upper_bound; lia).
  rewrite Z.rem_small by (unfold OS_TIME_TICKS_PER_SECOND; lia). rewrite u32_small by (unfold is_u32; lia).
  rewrite Z.div_div by lia. replace (s * 2500000) with (s * 1000000 * 5 / 2) by (replace (s * 1000000 * 5) with (s * 2500000 * 2) by lia; by rewrite Z.div_mul).
  rewrite Z.div_div by lia. replace (2 * (2 ^ 30 * 10)) with (2 ^ 32 * 5) by lia. by rewrite Z.div_mul_cancel_r by lia.
Qed.

(** Microseconds converted to subseconds and back are unchanged, for every number
    of microseconds below a second; greater ones saturate; and a conversion of
    subseconds is the exact value rounded down. *)
Theorem micro_roundtrip m s (Hs : is_u32 s) :
  (0 <= m <= 999999 → CFE_TIME_Sub2MicroSecs (CFE_TIME_Micro2SubSecs m) = m) ∧
  (999999 < m → CFE_TIME_Micro2SubSecs m = 0xFFFFFFFF) ∧
  CFE_TIME_Sub2MicroSecs s = s * 1000000 / 2 ^ 32.
Proof.
  split_and!; [|..|by apply Sub2MicroSecs_val].
  - intros Hm. destruct (Micro2SubSecs_val m Hm) as [E Hr]. rewrite Sub2MicroSecs_val by done. rewrite E.
    symmetry. apply (Z.div_unique_pos _ _ _ ((m * 2 ^ 32 + 999999) / 1000000 * 1000000 - 2 ^ 32 * m)); [|lia].
    pose proof (Z.div_mod (m * 2 ^ 32 + 999999) 1000000 ltac:(lia)). pose proof (Z.mod_pos_bound (m * 2 ^ 32 + 999999) 1000000 ltac:(lia)). lia.
  - intros Hm. unfold CFE_TIME_Micro2SubSecs. by rewrite (proj2 (Z.ltb_lt _ _)) by lia.
Qed.

Lemma micro_roundtrip_witness : CFE_TIME_Sub2MicroSecs (CFE_TIME_Micro2SubSecs 123457) = 123457.
Proof. apply (micro_roundtrip 123457 0); [by vm_compute|lia]. Defined.

(** ** Printing *)

(** The Gregorian calendar, in closed form: the number of the first day of a year,
    counted from a fixed day.  Every fourth year has one more day, but not the
    centuries, except every fourth of those. *)
Definition new_year (y : Z) : Z := 365 * y + (y - 1) / 4 - (y - 1) / 100 + (y - 1) / 400.

(** The seconds since the epoch of a calendar time. *)
Definition days_before (y : Z) : Z := new_year y - new_year CFE_MISSION_TIME_EPOCH_YEAR.
Definition calendar (y d h m s : Z) : Z := ((days_before y + (d - 1)) * 24 + h) * 3600 + m * 60 + s.

Lemma days_in_year_range y : 365 <= days_in_year y <= 366.
Proof. unfold days_in_year. repeat case_match; lia. Qed.

(** The rule of the code is that of the calendar. *)
Lemma days_in_year_calendar y : days_in_year y = new_year (y + 1) - new_year y.
Proof.
  unfold days_in_year, new_year. replace (y + 1 - 1) with y by lia.
  destruct (Z.eqb_spec (y mod 4) 0), (Z.eqb_spec (y mod 100) 0), (Z.eqb_spec (y mod 400) 0); cbn [negb]; Z.div_mod_to_equations; lia.
Qed.

Lemma days_before_succ y : days_before (y + 1) = days_before y + days_in_year y.
Proof. unfold days_before. rewrite days_in_year_calendar. lia. Qed.

Lemma count_years_spec fuel y d : CFE_MISSION_TIME_EPOCH_YEAR <= y → y + Z.of_nat fuel < 2 ^ 31 → 0 <= d < 365 * (Z.of_nat fuel + 1) → d < 2 ^ 31 →
  ∃ y' d', count_years fuel y d = Some (y', d') ∧ y <= y' <= y + Z.of_nat fuel ∧ 0 <= d' < days_in_year y' ∧ days_before y' + d' = days_before y + d.
Proof.
  revert y d. induction fuel as [|fuel IH]; intros y d Hy Hf Hd Hd'; cbn [count_years]; pose proof (days_in_year_range y) as Hr.
  - destruct (Z.ltb_spec d (days_in_year y)); [|lia]. exists y, d. split_and!; (done || lia).
  - destruct (Z.ltb_spec d (days_in_year y)); [exists y, d; split_and!; (done || lia)|]. assert (0 <= y) by (unfold CFE_MISSION_TIME_EPOCH_YEAR in Hy; lia).
    rewrite !u32_small by (unfold is_u32; lia). destruct (IH (y + 1) (d - days_in_year y)) as (y' & d' & E & H1 & H2 & H3); [lia..|].
    rewrite days_before_succ in H3. exists y', d'. split_and!; (done || lia).
Qed.

(** The number a sequence of characters denotes in decimal. *)
Definition decimal (l : list Z) : Z := foldl (λ n c, n * 10 + (c - 48)) 0 l.
Definition field (i n : nat) (out : list Z) : Z := decimal (take n (drop i out)).

Lemma digits2 n : decimal [digit (n / 10); digit (n mod 10)] = n.
Proof. unfold decimal, digit. cbn [foldl]. pose proof (Z.div_mod n 10 ltac:(lia)). lia. Qed.

Lemma decimal_cons x l n : decimal l = n → decimal (digit x :: l) = x * 10 ^ Z.of_nat (length l) + n.
Proof.
  intros <-. unfold decimal, digit. cbn [foldl]. assert (∀ a, foldl (λ n c, n * 10 + (c - 48)) a l = a * 10 ^ Z.of_nat (length l) + foldl (λ n c, n * 10 + (c - 48)) 0 l) as H.
  { induction l as [|c l IH]; intros a; cbn [foldl length]; [change (10 ^ Z.of_nat 0) with 1; lia|].
    rewrite IH, (IH (0 * 10 + _)). rewrite Nat2Z.inj_succ, Z.pow_succ_r by lia. lia. }
  rewrite H. f_equal. lia.
Qed.

Lemma digits3 n : decimal [digit (n / 100); digit (n mod 100 / 10); digit (n mod 100 mod 10)] = n.
Proof. rewrite (decimal_cons _ _ _ (digits2 (n mod 100))). cbn [length]. pose proof (Z.div_mod n 100 ltac:(lia)). lia. Qed.

Lemma digits4 n : decimal [digit (n / 1000); digit (n mod 1000 / 100); digit (n mod 1000 mod 100 / 10); digit (n mod 1000 mod 100 mod 10)] = n.
Proof. rewrite (decimal_cons _ _ _ (digits3 (n mod 1000))). cbn [length]. pose proof (Z.div_mod n 1000 ltac:(lia)). lia. Qed.

Lemma digits5 n : decimal [digit (n / 10000); digit (n mod 10000 / 1000); digit (n mod 10000 mod 1000 / 100);
  digit (n mod 10000 mod 1000 mod 100 / 10); digit (n mod 10000 mod 1000 mod 100 mod 10)] = n.
Proof. rewrite (decimal_cons _ _ _ (digits4 (n mod 10000))). cbn [length]. pose proof (Z.div_mod n 10000 ltac:(lia)). lia. Qed.

(** [C37] CFE_TIME_Print terminates and writes the calendar time, in the format
    yyyy-ddd-hh:mm:ss.xxxxx with a terminating zero: reading the fields back gives the
    seconds since the epoch in the Gregorian calendar and the fraction in units of 10
    microseconds, and they are in the ranges of that calendar: the day of the year is
    at most the length of the year, which is the distance of two new years. *)
Theorem print_calendar t b (Ht : time_ok t) :
  ∃ out, CFE_TIME_Print (Some b) t = Some (Some out) ∧ length out = 24%nat ∧
    out !! 4%nat = Some 45 ∧ out !! 8%nat = Some 45 ∧ out !! 11%nat = Some 58 ∧ out !! 14%nat = Some 58 ∧
    out !! 17%nat = Some 46 ∧ out !! 23%nat = Some 0 ∧
    calendar (field 0 4 out) (field 5 3 out) (field 9 2 out) (field 12 2 out) (field 15 2 out) = Seconds t ∧
    field 18 5 out = Subseconds t * 100000 / 2 ^ 32 ∧
    1 <= field 5 3 out <= new_year (field 0 4 out + 1) - new_year (field 0 4 out) ∧ field 9 2 out < 24 ∧ field 12 2 out < 60 ∧ field 15 2 out < 60.
Proof.
  destruct Ht as [Hs Hu]. unfold is_u32 in Hs. unfold CFE_TIME_Print. set (S := Seconds t) in *. unfold CFE_MISSION_TIME_EPOCH_MINUTE, CFE_MISSION_TIME_EPOCH_SECOND, CFE_MISSION_TIME_EPOCH_HOUR, CFE_MISSION_TIME_EPOCH_DAY.
  pose proof (Z.div_mod S 60 ltac:(lia)) as E1. pose proof (Z.mod_pos_bound S 60 ltac:(lia)) as R1. set (m := S / 60) in *. set (s := S mod 60) in *.
  rewrite !Z.add_0_r, (u32_small m), (u32_small s) by (unfold is_u32; lia). cbn [carry_seconds]. destruct (Z.leb_spec 60 s); [lia|].
  cbn [mbind option_bind]. pose proof (Z.div_mod m 60 ltac:(lia)) as E2. pose proof (Z.mod_pos_bound m 60 ltac:(lia)) as R2. set (h := m / 60) in *. set (mi := m mod 60) in *.
  rewrite Z.add_0_r, (u32_small h) by (unfold is_u32; lia). pose proof (Z.div_mod h 24 ltac:(lia)) as E3. pose proof (Z.mod_pos_bound h 24 ltac:(lia)) as R3. set (d := h / 24) in *. set (hh := h mod 24) in *.
  replace (d + (1 - 1)) with d by lia. rewrite (u32_small d) by (unfold is_u32; lia).
  destruct (count_years_spec 137 CFE_MISSION_TIME_EPOCH_YEAR d) as (y & dd & -> & Hy & Hdd & Hb); [lia|done|lia|lia|].
  change (days_before CFE_MISSION_TIME_EPOCH_YEAR) with 0 in Hb. unfold CFE_MISSION_TIME_EPOCH_YEAR in Hy. pose proof (days_in_year_range y) as Hry.
  cbn [mbind option_bind]. rewrite (u32_small (dd + 1)) by (unfold is_u32; lia). rewrite Sub2MicroSecs_val by done. unfold is_u32 in Hu.
  rewrite (Z.div_div (Subseconds t * 1000000)) by lia. replace (Subseconds t * 1000000) with (Subseconds t * 100000 * 10) by lia. rewrite Z.div_mul_cancel_r by lia.
  eexists. split; [reflexivity|]. unfold field. cbn [take drop length]. rewrite digits4, digits3, !digits2, digits5.
  rewrite <- days_in_year_calendar. split_and!; try done; try lia. unfold calendar. rewrite Z.add_simpl_r, Hb. lia.
Qed.

Lemma print_calendar_witness : ∃ out, CFE_TIME_Print (Some []) (mkTime 0xFFFFFFFF 0x80000000) = Some (Some out) ∧ field 0 4 out = 2116 ∧ field 5 3 out = 38 ∧ field 18 5 out = 50000.
Proof.
  destruct (print_calendar (mkTime 0xFFFFFFFF 0x80000000) [] ltac:(by vm_compute)) as (out & E & _ & _ & _ & _ & _ & _ & _ & _ & E2 & _).
  exists out. split; [exact E|]. split; [|split; [|exact E2]]; vm_compute in E; injection E as <-; reflexivity.
Defined.
