(* ===== verification/TimeState.v ===== *)
(** * The time service: reference data and clock commands (cfe_time_utils.c, cfe_time_api.c)

    The time is computed from reference data latched at the last tone signal: the
    mission elapsed time (MET) at the tone, the local clock at the tone, and the
    correlation factor (STCF) to the spacecraft time.  The reference data are kept in a
    ring of four records with version numbers, so that an update never writes the record
    readers use.  The local clock (CFE_PSP_GetTime) is part of the state and does not
    advance during a call.  What the service sends is recorded. *)
From S2P Require Import Prelude Config ResourceId EsApp TimeApi.

(** The options of a build: server or client, external time source, data before or after
    the tone, default time format, selection of the tone signal, simulated tone. *)
Inductive TimeSource := SRC_NONE | SRC_MET | SRC_GPS | SRC_TIME.

#[export] Instance TimeSource_eq_dec : EqDecision TimeSource.
Proof. solve_decision. Defined.

Class TimeCfg := {
  TIME_CFG_SERVER : bool;
  TIME_CFG_SRC : TimeSource;
  TIME_AT_TONE_WILL_BE : bool;
  TIME_CFG_DEFAULT_UTC : bool;
  TIME_CFG_SIGNAL : bool;
  TIME_CFG_FAKE_TONE : bool;
}.

Definition TIME_CFG_CLIENT `{TimeCfg} : bool := negb TIME_CFG_SERVER.
Definition TIME_CFG_SOURCE `{TimeCfg} : bool := bool_decide (TIME_CFG_SRC ≠ SRC_NONE).

Definition CFE_TIME_ClockState_INVALID : Z := -1.
Definition CFE_TIME_ClockState_VALID : Z := 0.
Definition CFE_TIME_ClockState_FLYWHEEL : Z := 1.
Definition CFE_TIME_SourceSelect_INTERNAL : Z := 1.
Definition CFE_TIME_SourceSelect_EXTERNAL : Z := 2.
Definition CFE_TIME_ToneSignalSelect_PRIMARY : Z := 1.
Definition CFE_TIME_ToneSignalSelect_REDUNDANT : Z := 2.
Definition CFE_TIME_AdjustDirection_ADD : Z := 1.
Definition CFE_TIME_AdjustDirection_SUBTRACT : Z := 2.
Definition CFE_TIME_FlywheelState_NO_FLY : Z := 0.
Definition CFE_TIME_FlywheelState_IS_FLY : Z := 1.
Definition CFE_TIME_SetState_NOT_SET : Z := 0.
Definition CFE_TIME_SetState_WAS_SET : Z := 1.

Definition CFE_TIME_RESET_AREA_ERROR : Z := 1.
Definition CFE_TIME_RESET_AREA_BAD : Z := 2.
Definition CFE_TIME_RESET_AREA_NEW : Z := 3.
Definition CFE_TIME_RESET_AREA_EXISTING : Z := 4.
Definition CFE_TIME_RESET_SIGNATURE : Z := 0xA5A55A5A.

Definition CFE_TIME_INTERNAL_ONLY : Z := s32 0xce000001.
Definition CFE_TIME_OUT_OF_RANGE : Z := s32 0xce000002.
Definition CFE_TIME_TOO_MANY_SYNCH_CALLBACKS : Z := s32 0xce000003.
Definition CFE_TIME_CALLBACK_NOT_REGISTERED : Z := s32 0xce000004.
Definition CFE_TIME_BAD_ARGUMENT : Z := s32 0xce000005.

Definition CFE_MISSION_TIME_DEF_MET_SECS : Z := 1000.
Definition CFE_MISSION_TIME_DEF_MET_SUBS : Z := 0.
Definition CFE_MISSION_TIME_DEF_STCF_SECS : Z := 1000000.
Definition CFE_MISSION_TIME_DEF_STCF_SUBS : Z := 0.
Definition CFE_MISSION_TIME_DEF_LEAPS : Z := 37.
Definition CFE_MISSION_TIME_MIN_ELAPSED : Z := 0.
Definition CFE_MISSION_TIME_MAX_ELAPSED : Z := 200000.
Definition CFE_PLATFORM_TIME_MAX_DELTA_SECS : Z := 0.
Definition CFE_PLATFORM_TIME_MAX_DELTA_SUBS : Z := 500000.
Definition CFE_PLATFORM_TIME_MAX_LOCAL_SECS : Z := 27.
Definition CFE_PLATFORM_TIME_MAX_LOCAL_SUBS : Z := 0.
Definition CFE_PLATFORM_TIME_CFG_TONE_LIMIT : Z := 20000.
Definition CFE_PLATFORM_TIME_CFG_START_FLY : Z := 2.
Definition CFE_PLATFORM_TIME_CFG_LATCH_FLY : Z := 8.
Definition CFE_TIME_FLY_ON_EID : Z := 20.
Definition CFE_TIME_FLY_OFF_EID : Z := 21.

(** ** State *)

Record CFE_TIME_ReferenceState_t := mkRefState {
  StateVersion : Z;
  rs_LeapSeconds : Z;
  rs_ClockSetState : Z;
  rs_ClockFlyState : Z;
  rs_DelayDirection : Z;
  rs_AtToneMET : CFE_TIME_SysTime_t;
  rs_AtToneSTCF : CFE_TIME_SysTime_t;
  rs_AtToneDelay : CFE_TIME_SysTime_t;
  rs_AtToneLatch : CFE_TIME_SysTime_t;
}.

Record CFE_TIME_Reference_t := mkReference {
  AtToneMET : CFE_TIME_SysTime_t;
  AtToneSTCF : CFE_TIME_SysTime_t;
  AtToneLeapSeconds : Z;
  ClockSetState : Z;
  ClockFlyState : Z;
  DelayDirection : Z;
  AtToneDelay : CFE_TIME_SysTime_t;
  AtToneLatch : CFE_TIME_SysTime_t;
  CurrentLatch : CFE_TIME_SysTime_t;
  TimeSinceTone : CFE_TIME_SysTime_t;
  CurrentMET : CFE_TIME_SysTime_t;
}.

Record CFE_TIME_ToneDataCmd_Payload_t := mkToneData {
  td_AtToneMET : CFE_TIME_SysTime_t;
  td_AtToneSTCF : CFE_TIME_SysTime_t;
  td_LeapSeconds : Z;
  td_AtToneState : Z;
}.

Record CFE_TIME_ResetVars_t := mkResetVars {
  rv_Signature : Z;
  rv_LeapSeconds : Z;
  rv_ClockSignal : Z;
  rv_CurrentMET : CFE_TIME_SysTime_t;
  rv_CurrentSTCF : CFE_TIME_SysTime_t;
  rv_CurrentDelay : CFE_TIME_SysTime_t;
}.

(** The payloads of the housekeeping and diagnostic packets.  The adjustments are part of
    the first in servers, the delay in clients. *)
Record CFE_TIME_HousekeepingTlm_Payload_t := mkHk {
  hk_CommandCounter : Z;
  hk_CommandErrorCounter : Z;
  hk_ClockStateFlags : Z;
  hk_ClockStateAPI : Z;
  hk_LeapSeconds : Z;
  hk_MET : CFE_TIME_SysTime_t;
  hk_STCF : CFE_TIME_SysTime_t;
  hk_1HzAdj : option CFE_TIME_SysTime_t;
  hk_Delay : option CFE_TIME_SysTime_t;
}.

Record CFE_TIME_DiagnosticTlm_Payload_t := mkDiag {
  dg_AtToneMET : CFE_TIME_SysTime_t;
  dg_AtToneSTCF : CFE_TIME_SysTime_t;
  dg_AtToneDelay : CFE_TIME_SysTime_t;
  dg_AtToneLatch : CFE_TIME_SysTime_t;
  dg_AtToneLeapSeconds : Z;
  dg_ClockStateAPI : Z;
  dg_TimeSinceTone : CFE_TIME_SysTime_t;
  dg_CurrentLatch : CFE_TIME_SysTime_t;
  dg_CurrentMET : CFE_TIME_SysTime_t;
  dg_CurrentTAI : CFE_TIME_SysTime_t;
  dg_CurrentUTC : CFE_TIME_SysTime_t;
  dg_ClockSetState : Z;
  dg_ClockFlyState : Z;
  dg_ClockSource : Z;
  dg_ClockSignal : Z;
  dg_ServerFlyState : Z;
  dg_Forced2Fly : Z;
  dg_ClockStateFlags : Z;
  dg_OneTimeDirection : Z;
  dg_OneHzDirection : Z;
  dg_DelayDirection : Z;
  dg_OneTimeAdjust : CFE_TIME_SysTime_t;
  dg_OneHzAdjust : CFE_TIME_SysTime_t;
  dg_ToneSignalLatch : CFE_TIME_SysTime_t;
  dg_ToneDataLatch : CFE_TIME_SysTime_t;
  dg_ToneMatchCounter : Z;
  dg_ToneMatchErrorCounter : Z;
  dg_ToneSignalCounter : Z;
  dg_ToneDataCounter : Z;
  dg_ToneIntCounter : Z;
  dg_ToneIntErrorCounter : Z;
  dg_ToneTaskCounter : Z;
  dg_VersionCounter : Z;
  dg_LocalIntCounter : Z;
  dg_LocalTaskCounter : Z;
  dg_VirtualMET : Z;
  dg_MinElapsed : Z;
  dg_MaxElapsed : Z;
  dg_MaxLocalClock : CFE_TIME_SysTime_t;
  dg_ToneOverLimit : Z;
  dg_ToneUnderLimit : Z;
  dg_DataStoreStatus : Z;
}.

(** What leaves the service: the time at the tone data packet, the tone signal and the
    tone send commands, the 1 Hz command, events, semaphores given, calls of registered
    callbacks, and the telemetry packets. *)
Inductive TimeOut :=
| OutToneData (p : CFE_TIME_ToneDataCmd_Payload_t)
| OutToneSignal
| OutToneSend
| Out1Hz
| OutEvent (eid : Z)
| OutToneSem
| OutLocalSem
| OutCallback (f : addr)
| OutHk (p : CFE_TIME_HousekeepingTlm_Payload_t)
| OutDiag (p : CFE_TIME_DiagnosticTlm_Payload_t).

Record CFE_TIME_Global_t := mkTimeGlobal {
  ClockSource : Z;
  ClockSignal : Z;
  ServerFlyState : Z;
  PendingMET : CFE_TIME_SysTime_t;
  PendingSTCF : CFE_TIME_SysTime_t;
  PendingLeaps : Z;
  PendingState : Z;
  OneTimeAdjust : CFE_TIME_SysTime_t;
  OneHzAdjust : CFE_TIME_SysTime_t;
  OneTimeDirection : Z;
  OneHzDirection : Z;
  ToneSignalLatch : CFE_TIME_SysTime_t;
  ToneDataLatch : CFE_TIME_SysTime_t;
  ToneMatchCounter : Z;
  ToneMatchErrorCounter : Z;
  ToneSignalCounter : Z;
  ToneDataCounter : Z;
  ToneIntCounter : Z;
  ToneIntErrorCounter : Z;
  ToneTaskCounter : Z;
  VirtualMET : Z;
  LocalIntCounter : Z;
  LocalTaskCounter : Z;
  InternalCount : Z;
  ExternalCount : Z;
  ReferenceState : list CFE_TIME_ReferenceState_t;
  LastVersionCounter : Z;
  MinElapsed : Z;
  MaxElapsed : Z;
  MaxLocalClock : CFE_TIME_SysTime_t;
  Forced2Fly : bool;
  AutoStartFly : bool;
  IsToneGood : bool;
  MaxDelta : CFE_TIME_SysTime_t;
  ToneOverLimit : Z;
  ToneUnderLimit : Z;
  DataStoreStatus : Z;
  SynchCallback : list addr;
  PrevTime1 : CFE_TIME_SysTime_t;
  PrevTime2 : CFE_TIME_SysTime_t;
  LocalTime : Z;
  ResetArea : ptr CFE_TIME_ResetVars_t;
  Sent : list TimeOut;
  CommandCounter : Z;
  CommandErrorCounter : Z;
  ResetVersionCounter : Z;
}.

#[export] Instance RefState_eta : Eta CFE_TIME_ReferenceState_t := mkEta (λ r,
  mkRefState (StateVersion r) (rs_LeapSeconds r) (rs_ClockSetState r) (rs_ClockFlyState r) (rs_DelayDirection r)
    (rs_AtToneMET r) (rs_AtToneSTCF r) (rs_AtToneDelay r) (rs_AtToneLatch r)).
#[export] Instance TimeGlobal_eta : Eta CFE_TIME_Global_t := mkEta (λ g,
  mkTimeGlobal (ClockSource g) (ClockSignal g) (ServerFlyState g) (PendingMET g) (PendingSTCF g) (PendingLeaps g) (PendingState g)
    (OneTimeAdjust g) (OneHzAdjust g) (OneTimeDirection g) (OneHzDirection g) (ToneSignalLatch g) (ToneDataLatch g) (ToneMatchCounter g)
    (ToneMatchErrorCounter g) (ToneSignalCounter g) (ToneDataCounter g) (ToneIntCounter g) (ToneIntErrorCounter g) (ToneTaskCounter g)
    (VirtualMET g) (LocalIntCounter g) (LocalTaskCounter g) (InternalCount g) (ExternalCount g) (ReferenceState g) (LastVersionCounter g)
    (MinElapsed g) (MaxElapsed g) (MaxLocalClock g) (Forced2Fly g) (AutoStartFly g) (IsToneGood g) (MaxDelta g) (ToneOverLimit g)
    (ToneUnderLimit g) (DataStoreStatus g) (SynchCallback g) (PrevTime1 g) (PrevTime2 g) (LocalTime g) (ResetArea g) (Sent g)
    (CommandCounter g) (CommandErrorCounter g) (ResetVersionCounter g)).

Abbreviation TG := CFE_TIME_Global_t.

Definition send (o : TimeOut) : M TG unit := modify (λ s, s <| Sent ::= λ l, l ++ [o] |>).

(** ** The ring of reference records *)

Definition CFE_TIME_REFERENCE_BUF_DEPTH : Z := 4.
Definition CFE_TIME_REFERENCE_BUF_MASK : Z := CFE_TIME_REFERENCE_BUF_DEPTH - 1.

Definition rd_ref (i : Z) : M TG CFE_TIME_ReferenceState_t := l ← gets ReferenceState; tbl_get l i.
Definition wr_ref (i : Z) (f : CFE_TIME_ReferenceState_t → CFE_TIME_ReferenceState_t) : M TG unit :=
  l ← gets ReferenceState;
  l ← of_option (tbl_upd f i l);
  modify (λ s, s <| ReferenceState := l |>).

(** The pointer to the next record is its index. *)
Definition CFE_TIME_StartReferenceUpdate : M TG Z :=
  Version ← gets LastVersionCounter;
  let CurrState := Z.land Version CFE_TIME_REFERENCE_BUF_MASK in
  let Version := u32 (Version + 1) in
  let NextState := Z.land Version CFE_TIME_REFERENCE_BUF_MASK in
  wr_ref NextState (λ r, r <| StateVersion := Version |>);;
  c ← rd_ref CurrState;
  wr_ref NextState (λ r, r <| rs_LeapSeconds := rs_LeapSeconds c |>);;
  wr_ref NextState (λ r, r <| rs_ClockSetState := rs_ClockSetState c |>);;
  wr_ref NextState (λ r, r <| rs_ClockFlyState := rs_ClockFlyState c |>);;
  wr_ref NextState (λ r, r <| rs_DelayDirection := rs_DelayDirection c |>);;
  wr_ref NextState (λ r, r <| rs_AtToneMET := rs_AtToneMET c |>);;
  wr_ref NextState (λ r, r <| rs_AtToneSTCF := rs_AtToneSTCF c |>);;
  wr_ref NextState (λ r, r <| rs_AtToneDelay := rs_AtToneDelay c |>);;
  wr_ref NextState (λ r, r <| rs_AtToneLatch := rs_AtToneLatch c |>);;
  mret NextState.

Definition CFE_TIME_FinishReferenceUpdate (NextState : Z) : M TG unit :=
  r ← rd_ref NextState;
  modify (λ s, s <| LastVersionCounter := StateVersion r |>).

Definition CFE_TIME_GetReferenceState : M TG CFE_TIME_ReferenceState_t :=
  v ← gets LastVersionCounter;
  rd_ref (Z.land v CFE_TIME_REFERENCE_BUF_MASK).

(** ** Reading the time *)

Definition CFE_TIME_LatchClock : M TG CFE_TIME_SysTime_t :=
  LocalTime ← gets LocalTime;
  mret (mkTime (u32 (OS_TimeGetTotalSeconds LocalTime)) (OS_TimeGetSubsecondsPart LocalTime)).

(** The loop of CFE_TIME_GetReference: the version and the copy of the record. *)
Fixpoint GetReference_loop (RetryCount : nat) : M TG (CFE_TIME_SysTime_t * CFE_TIME_ReferenceState_t) :=
  VersionCounter ← gets LastVersionCounter;
  let RefState := Z.land VersionCounter CFE_TIME_REFERENCE_BUF_MASK in
  latch ← CFE_TIME_LatchClock;
  r ← rd_ref RefState;
  r' ← rd_ref RefState;
  if VersionCounter =? StateVersion r' then mret (latch, r)
  else match RetryCount with
       | O => mret (latch, r)
       | S n => GetReference_loop n
       end.

Section time.
Context `{Cfg : TimeCfg}.

Definition CFE_TIME_GetReference : M TG CFE_TIME_Reference_t :=
  '(latch, r) ← GetReference_loop 4;
  max ← gets MaxLocalClock;
  let since :=
    if decide (CFE_TIME_Compare latch (rs_AtToneLatch r) = CFE_TIME_A_LT_B) then
      let since := CFE_TIME_Subtract max (rs_AtToneLatch r) in CFE_TIME_Add since latch
    else CFE_TIME_Subtract latch (rs_AtToneLatch r) in
  let met := CFE_TIME_Add since (rs_AtToneMET r) in
  let met :=
    if TIME_CFG_CLIENT then
      if rs_DelayDirection r =? CFE_TIME_AdjustDirection_ADD then CFE_TIME_Add met (rs_AtToneDelay r)
      else CFE_TIME_Subtract met (rs_AtToneDelay r)
    else met in
  mret (mkReference (rs_AtToneMET r) (rs_AtToneSTCF r) (rs_LeapSeconds r) (rs_ClockSetState r) (rs_ClockFlyState r)
          (rs_DelayDirection r) (rs_AtToneDelay r) (rs_AtToneLatch r) latch since met).

Definition CFE_TIME_CalculateTAI (Reference : CFE_TIME_Reference_t) : CFE_TIME_SysTime_t :=
  CFE_TIME_Add (CurrentMET Reference) (AtToneSTCF Reference).

Definition CFE_TIME_CalculateUTC (Reference : CFE_TIME_Reference_t) : CFE_TIME_SysTime_t :=
  let t := CFE_TIME_Add (CurrentMET Reference) (AtToneSTCF Reference) in
  t <| Seconds ::= λ s, u32 (s - AtToneLeapSeconds Reference) |>.

Definition CFE_TIME_CalculateState (Reference : CFE_TIME_Reference_t) : M TG Z :=
  if ClockSetState Reference =? CFE_TIME_SetState_WAS_SET then
    if ClockFlyState Reference =? CFE_TIME_FlywheelState_NO_FLY then
      fly ← gets ServerFlyState;
      mret (if TIME_CFG_CLIENT && (fly =? CFE_TIME_FlywheelState_IS_FLY) then CFE_TIME_ClockState_FLYWHEEL
            else CFE_TIME_ClockState_VALID)
    else mret CFE_TIME_ClockState_FLYWHEEL
  else mret CFE_TIME_ClockState_INVALID.

Definition CFE_TIME_GetTAI : M TG CFE_TIME_SysTime_t := r ← CFE_TIME_GetReference; mret (CFE_TIME_CalculateTAI r).
Definition CFE_TIME_GetUTC : M TG CFE_TIME_SysTime_t := r ← CFE_TIME_GetReference; mret (CFE_TIME_CalculateUTC r).
Definition CFE_TIME_GetTime : M TG CFE_TIME_SysTime_t := if TIME_CFG_DEFAULT_UTC then CFE_TIME_GetUTC else CFE_TIME_GetTAI.
Definition CFE_TIME_GetMET : M TG CFE_TIME_SysTime_t := r ← CFE_TIME_GetReference; mret (CurrentMET r).
Definition CFE_TIME_GetMETseconds : M TG Z := r ← CFE_TIME_GetReference; mret (Seconds (CurrentMET r)).
Definition CFE_TIME_GetMETsubsecs : M TG Z := r ← CFE_TIME_GetReference; mret (Subseconds (CurrentMET r)).
Definition CFE_TIME_GetSTCF : M TG CFE_TIME_SysTime_t := r ← CFE_TIME_GetReference; mret (AtToneSTCF r).
Definition CFE_TIME_GetLeapSeconds : M TG Z := r ← CFE_TIME_GetReference; mret (AtToneLeapSeconds r).
Definition CFE_TIME_GetClockState : M TG Z := r ← CFE_TIME_GetReference; CFE_TIME_CalculateState r.

Definition CFE_TIME_MET2SCTime (METTime : CFE_TIME_SysTime_t) : M TG CFE_TIME_SysTime_t :=
  STCF ← CFE_TIME_GetSTCF;
  let TIATime := CFE_TIME_Add METTime STCF in
  if TIME_CFG_DEFAULT_UTC then
    leaps ← CFE_TIME_GetLeapSeconds;
    mret (CFE_TIME_Subtract TIATime (mkTime (u32 leaps) 0))
  else mret TIATime.

Definition CFE_TIME_GetClockInfo : M TG Z :=
  r ← CFE_TIME_GetReferenceState;
  g ← gets (λ s, s);
  let flag (b : bool) (f x : Z) := if b then Z.lor x f else x in
  mret (flag (IsToneGood g) 0x0020
       (flag TIME_CFG_SERVER 0x0040
       (flag (rs_DelayDirection r =? CFE_TIME_AdjustDirection_ADD) 0x0080
       (flag (OneHzDirection g =? CFE_TIME_AdjustDirection_ADD) 0x0100
       (flag (OneTimeDirection g =? CFE_TIME_AdjustDirection_ADD) 0x0200
       (flag (Forced2Fly g) 0x0400
       (flag (ServerFlyState g =? CFE_TIME_FlywheelState_IS_FLY) 0x0800
       (flag (ClockSignal g =? CFE_TIME_ToneSignalSelect_PRIMARY) 0x1000
       (flag (ClockSource g =? CFE_TIME_SourceSelect_INTERNAL) 0x2000
       (flag (rs_ClockFlyState r =? CFE_TIME_FlywheelState_IS_FLY) 0x4000
       (flag (rs_ClockSetState r =? CFE_TIME_SetState_WAS_SET) 0x8000 0))))))))))).

(** ** Telemetry *)

Definition CFE_TIME_GetHkData (Reference : CFE_TIME_Reference_t) : M TG CFE_TIME_HousekeepingTlm_Payload_t :=
  g ← gets (λ s, s);
  st ← CFE_TIME_CalculateState Reference;
  flags ← CFE_TIME_GetClockInfo;
  mret (mkHk (CommandCounter g) (CommandErrorCounter g) flags st (AtToneLeapSeconds Reference) (CurrentMET Reference) (AtToneSTCF Reference)
          (if TIME_CFG_SERVER then Some (OneHzAdjust g) else None) (if TIME_CFG_CLIENT then Some (AtToneDelay Reference) else None)).

Definition CFE_TIME_GetDiagData : M TG CFE_TIME_DiagnosticTlm_Payload_t :=
  Reference ← CFE_TIME_GetReference;
  st ← CFE_TIME_CalculateState Reference;
  flags ← CFE_TIME_GetClockInfo;
  g ← gets (λ s, s);
  mret {|
    dg_AtToneMET := AtToneMET Reference;
    dg_AtToneSTCF := AtToneSTCF Reference;
    dg_AtToneDelay := AtToneDelay Reference;
    dg_AtToneLatch := AtToneLatch Reference;
    dg_AtToneLeapSeconds := AtToneLeapSeconds Reference;
    dg_ClockStateAPI := st;
    dg_TimeSinceTone := TimeSinceTone Reference;
    dg_CurrentLatch := CurrentLatch Reference;
    dg_CurrentMET := CurrentMET Reference;
    dg_CurrentTAI := CFE_TIME_CalculateTAI Reference;
    dg_CurrentUTC := CFE_TIME_CalculateUTC Reference;
    dg_ClockSetState := ClockSetState Reference;
    dg_ClockFlyState := ClockFlyState Reference;
    dg_ClockSource := ClockSource g;
    dg_ClockSignal := ClockSignal g;
    dg_ServerFlyState := ServerFlyState g;
    dg_Forced2Fly := Z.b2z (Forced2Fly g);
    dg_ClockStateFlags := flags;
    dg_OneTimeDirection := OneTimeDirection g;
    dg_OneHzDirection := OneHzDirection g;
    dg_DelayDirection := DelayDirection Reference;
    dg_OneTimeAdjust := OneTimeAdjust g;
    dg_OneHzAdjust := OneHzAdjust g;
    dg_ToneSignalLatch := ToneSignalLatch g;
    dg_ToneDataLatch := ToneDataLatch g;
    dg_ToneMatchCounter := ToneMatchCounter g;
    dg_ToneMatchErrorCounter := ToneMatchErrorCounter g;
    dg_ToneSignalCounter := ToneSignalCounter g;
    dg_ToneDataCounter := ToneDataCounter g;
    dg_ToneIntCounter := ToneIntCounter g;
    dg_ToneIntErrorCounter := ToneIntErrorCounter g;
    dg_ToneTaskCounter := ToneTaskCounter g;
    dg_VersionCounter := u32 (LastVersionCounter g - ResetVersionCounter g);
    dg_LocalIntCounter := LocalIntCounter g;
    dg_LocalTaskCounter := LocalTaskCounter g;
    dg_VirtualMET := VirtualMET g;
    dg_MinElapsed := MinElapsed g;
    dg_MaxElapsed := MaxElapsed g;
    dg_MaxLocalClock := MaxLocalClock g;
    dg_ToneOverLimit := ToneOverLimit g;
    dg_ToneUnderLimit := ToneUnderLimit g;
    dg_DataStoreStatus := DataStoreStatus g;
  |}.

(** ** Setting the clock *)

Definition CFE_TIME_SetState (NewState : Z) : M TG unit :=
  RefState ← CFE_TIME_StartReferenceUpdate;
  (if NewState =? CFE_TIME_ClockState_FLYWHEEL then
     modify (λ s, s <| Forced2Fly := true |>);;
     wr_ref RefState (λ r, r <| rs_ClockFlyState := CFE_TIME_FlywheelState_IS_FLY |>);;
     when TIME_CFG_SERVER (modify (λ s, s <| ServerFlyState := CFE_TIME_FlywheelState_IS_FLY |>))
   else if NewState =? CFE_TIME_ClockState_VALID then
     modify (λ s, s <| Forced2Fly := false |>);;
     wr_ref RefState (λ r, r <| rs_ClockSetState := CFE_TIME_SetState_WAS_SET |>)
   else
     modify (λ s, s <| Forced2Fly := false |>);;
     wr_ref RefState (λ r, r <| rs_ClockSetState := CFE_TIME_SetState_NOT_SET |>));;
  CFE_TIME_FinishReferenceUpdate RefState.

Definition CFE_TIME_SetSource (NewSource : Z) : M TG unit := modify (λ s, s <| ClockSource := NewSource |>).
Definition CFE_TIME_SetSignal (NewSignal : Z) : M TG unit := modify (λ s, s <| ClockSignal := NewSignal |>).

Definition CFE_TIME_SetDelay (NewDelay : CFE_TIME_SysTime_t) (Direction : Z) : M TG unit :=
  RefState ← CFE_TIME_StartReferenceUpdate;
  wr_ref RefState (λ r, r <| rs_AtToneDelay := NewDelay |>);;
  wr_ref RefState (λ r, r <| rs_DelayDirection := Direction |>);;
  CFE_TIME_FinishReferenceUpdate RefState.

Definition CFE_TIME_SetTime (NewTime : CFE_TIME_SysTime_t) : M TG unit :=
  Reference ← CFE_TIME_GetReference;
  let NewSTCF := CFE_TIME_Subtract NewTime (CurrentMET Reference) in
  let NewSTCF := if TIME_CFG_DEFAULT_UTC then NewSTCF <| Seconds ::= λ s, u32 (s + AtToneLeapSeconds Reference) |> else NewSTCF in
  RefState ← CFE_TIME_StartReferenceUpdate;
  wr_ref RefState (λ r, r <| rs_AtToneSTCF := NewSTCF |>);;
  CFE_TIME_FinishReferenceUpdate RefState.

Definition CFE_TIME_SetMET (NewMET : CFE_TIME_SysTime_t) : M TG unit :=
  RefState ← CFE_TIME_StartReferenceUpdate;
  wr_ref RefState (λ r, r <| rs_AtToneMET := NewMET |>);;
  modify (λ s, s <| VirtualMET := Seconds NewMET |>);;
  latch ← CFE_TIME_LatchClock;
  wr_ref RefState (λ r, r <| rs_AtToneLatch := latch |>);;
  CFE_TIME_FinishReferenceUpdate RefState.

Definition CFE_TIME_SetSTCF (NewSTCF : CFE_TIME_SysTime_t) : M TG unit :=
  RefState ← CFE_TIME_StartReferenceUpdate;
  wr_ref RefState (λ r, r <| rs_AtToneSTCF := NewSTCF |>);;
  CFE_TIME_FinishReferenceUpdate RefState.

Definition CFE_TIME_SetLeapSeconds (NewLeaps : Z) : M TG unit :=
  RefState ← CFE_TIME_StartReferenceUpdate;
  wr_ref RefState (λ r, r <| rs_LeapSeconds := NewLeaps |>);;
  CFE_TIME_FinishReferenceUpdate RefState.

Definition CFE_TIME_SetAdjust (NewAdjust : CFE_TIME_SysTime_t) (Direction : Z) : M TG unit :=
  RefState ← CFE_TIME_StartReferenceUpdate;
  modify (λ s, s <| OneTimeAdjust := NewAdjust |>);;
  modify (λ s, s <| OneTimeDirection := Direction |>);;
  r ← rd_ref RefState;
  let NewSTCF := if Direction =? CFE_TIME_AdjustDirection_ADD then CFE_TIME_Add (rs_AtToneSTCF r) NewAdjust
                 else CFE_TIME_Subtract (rs_AtToneSTCF r) NewAdjust in
  wr_ref RefState (λ r, r <| rs_AtToneSTCF := NewSTCF |>);;
  CFE_TIME_FinishReferenceUpdate RefState.

Definition CFE_TIME_Set1HzAdj (NewAdjust : CFE_TIME_SysTime_t) (Direction : Z) : M TG unit :=
  modify (λ s, s <| OneHzAdjust := NewAdjust |>);;
  modify (λ s, s <| OneHzDirection := Direction |>).

(** ** Surviving a processor reset

    [ResetArea] is the area CFE_PSP_GetResetArea gives, [None] when it fails. *)

Definition CFE_TIME_QueryResetVars : M TG unit :=
  RefState ← CFE_TIME_StartReferenceUpdate;
  area ← gets ResetArea;
  match area with
  | None => modify (λ s, s <| DataStoreStatus := CFE_TIME_RESET_AREA_BAD |>)
  | Some v =>
      if (rv_Signature v =? CFE_TIME_RESET_SIGNATURE) &&
         ((rv_ClockSignal v =? CFE_TIME_ToneSignalSelect_PRIMARY) || (rv_ClockSignal v =? CFE_TIME_ToneSignalSelect_REDUNDANT))
      then
        wr_ref RefState (λ r, r <| rs_AtToneMET := rv_CurrentMET v |>);;
        wr_ref RefState (λ r, r <| rs_AtToneSTCF := rv_CurrentSTCF v |>);;
        wr_ref RefState (λ r, r <| rs_AtToneDelay := rv_CurrentDelay v |>);;
        wr_ref RefState (λ r, r <| rs_LeapSeconds := rv_LeapSeconds v |>);;
        modify (λ s, s <| ClockSignal := rv_ClockSignal v |>);;
        modify (λ s, s <| DataStoreStatus := CFE_TIME_RESET_AREA_EXISTING |>)
      else modify (λ s, s <| DataStoreStatus := CFE_TIME_RESET_AREA_NEW |>)
  end;;
  st ← gets DataStoreStatus;
  when (negb (st =? CFE_TIME_RESET_AREA_EXISTING))
    (let DefSubsMET := CFE_TIME_Micro2SubSecs CFE_MISSION_TIME_DEF_MET_SUBS in
     let DefSubsSTCF := CFE_TIME_Micro2SubSecs CFE_MISSION_TIME_DEF_STCF_SUBS in
     wr_ref RefState (λ r, r <| rs_AtToneMET := mkTime CFE_MISSION_TIME_DEF_MET_SECS DefSubsMET |>);;
     wr_ref RefState (λ r, r <| rs_AtToneSTCF := mkTime CFE_MISSION_TIME_DEF_STCF_SECS DefSubsSTCF |>);;
     wr_ref RefState (λ r, r <| rs_LeapSeconds := CFE_MISSION_TIME_DEF_LEAPS |>);;
     modify (λ s, s <| ClockSignal := CFE_TIME_ToneSignalSelect_PRIMARY |>);;
     wr_ref RefState (λ r, r <| rs_AtToneDelay := mkTime 0 0 |>));;
  CFE_TIME_FinishReferenceUpdate RefState.

Definition CFE_TIME_UpdateResetVars (Reference : CFE_TIME_Reference_t) : M TG unit :=
  st ← gets DataStoreStatus;
  when (negb (st =? CFE_TIME_RESET_AREA_ERROR))
    (signal ← gets ClockSignal;
     let v := mkResetVars CFE_TIME_RESET_SIGNATURE (AtToneLeapSeconds Reference) signal (CurrentMET Reference)
                (AtToneSTCF Reference) (AtToneDelay Reference) in
     modify (λ s, s <| ResetArea ::= fmap (λ _, v) |>)).

Definition zero_time : CFE_TIME_SysTime_t := mkTime 0 0.
Definition zero_ref : CFE_TIME_ReferenceState_t := mkRefState 0 0 0 0 0 zero_time zero_time zero_time zero_time.

(** The global data cleared, except for the clock and the reset area, which are not part
    of it.  The static variables of CFE_TIME_ToneVerify are those of a program that has
    just been loaded. *)
Definition cleared (g : TG) : TG :=
  mkTimeGlobal 0 0 0 zero_time zero_time 0 0 zero_time zero_time 0 0 zero_time zero_time 0 0 0 0 0 0 0 0 0 0 0 0
    (replicate 4 zero_ref) 0 0 0 zero_time false false false zero_time 0 0 0
    (replicate (Z.to_nat CFE_PLATFORM_ES_MAX_APPLICATIONS) NULL) zero_time zero_time (LocalTime g) (ResetArea g) (Sent g) 0 0 0.

(** The packets are not part of the state. *)
Definition CFE_TIME_InitData : M TG unit :=
  modify cleared;;
  modify (λ s, s <| ReferenceState ::= fmap (λ r, r <| StateVersion := 0xFFFFFFFF |>) |>);;
  CFE_TIME_QueryResetVars;;
  RefState ← CFE_TIME_StartReferenceUpdate;
  latch ← CFE_TIME_LatchClock;
  wr_ref RefState (λ r, r <| rs_AtToneLatch := latch |>);;
  wr_ref RefState (λ r, r <| rs_ClockSetState := CFE_TIME_SetState_NOT_SET |>);;
  wr_ref RefState (λ r, r <| rs_ClockFlyState := CFE_TIME_FlywheelState_IS_FLY |>);;
  modify (λ s, s <| ClockSource := if TIME_CFG_SOURCE then CFE_TIME_SourceSelect_EXTERNAL else CFE_TIME_SourceSelect_INTERNAL |>);;
  modify (λ s, s <| ServerFlyState := CFE_TIME_FlywheelState_IS_FLY |>);;
  modify (λ s, s <| PendingState := CFE_TIME_ClockState_INVALID |>);;
  modify (λ s, s <| OneTimeDirection := CFE_TIME_AdjustDirection_ADD |>);;
  modify (λ s, s <| OneHzDirection := CFE_TIME_AdjustDirection_ADD |>);;
  wr_ref RefState (λ r, r <| rs_DelayDirection := CFE_TIME_AdjustDirection_ADD |>);;
  r ← rd_ref RefState;
  modify (λ s, s <| VirtualMET := Seconds (rs_AtToneMET r) |>);;
  modify (λ s, s <| MinElapsed := CFE_TIME_Micro2SubSecs CFE_MISSION_TIME_MIN_ELAPSED |>);;
  modify (λ s, s <| MaxElapsed := CFE_TIME_Micro2SubSecs CFE_MISSION_TIME_MAX_ELAPSED |>);;
  when TIME_CFG_SOURCE
    (modify (λ s, s <| MaxDelta := mkTime CFE_PLATFORM_TIME_MAX_DELTA_SECS (CFE_TIME_Micro2SubSecs CFE_PLATFORM_TIME_MAX_DELTA_SUBS) |>));;
  modify (λ s, s <| MaxLocalClock := mkTime CFE_PLATFORM_TIME_MAX_LOCAL_SECS CFE_PLATFORM_TIME_MAX_LOCAL_SUBS |>);;
  modify (λ s, s <| ToneOverLimit := CFE_TIME_Micro2SubSecs CFE_PLATFORM_TIME_CFG_TONE_LIMIT |>);;
  modify (λ s, s <| ToneUnderLimit := CFE_TIME_Micro2SubSecs (1000000 - CFE_PLATFORM_TIME_CFG_TONE_LIMIT) |>);;
  CFE_TIME_FinishReferenceUpdate RefState.

End time.

(** ** Synchronization callbacks

    The status and identifier of CFE_ES_GetAppID are given. *)

Definition CFE_TIME_RegisterSynchCallback (App : Z * Z) (CallbackFuncPtr : addr) : M TG Z :=
  if CallbackFuncPtr =? NULL then mret CFE_TIME_BAD_ARGUMENT else
  let '(Status, AppId) := App in
  if Status =? CFE_SUCCESS then
    let '(Status, Idx) := CFE_ES_AppID_ToIndex AppId (Some 0) in
    if Status =? CFE_SUCCESS then
      let AppIndex := default 0 Idx in
      tbl ← gets SynchCallback;
      if Z.of_nat (length tbl) <=? AppIndex then mret CFE_TIME_TOO_MANY_SYNCH_CALLBACKS else
      p ← tbl_get tbl AppIndex;
      if negb (p =? NULL) then mret CFE_TIME_TOO_MANY_SYNCH_CALLBACKS
      else
        tbl ← of_option (tbl_upd (λ _, CallbackFuncPtr) AppIndex tbl);
        modify (λ s, s <| SynchCallback := tbl |>);;
        mret Status
    else mret Status
  else mret Status.

Definition CFE_TIME_UnregisterSynchCallback (App : Z * Z) (CallbackFuncPtr : addr) : M TG Z :=
  if CallbackFuncPtr =? NULL then mret CFE_TIME_BAD_ARGUMENT else
  let '(Status, AppId) := App in
  let '(Status, Idx) := if Status =? CFE_SUCCESS then CFE_ES_AppID_ToIndex AppId (Some 0) else (Status, Some 0) in
  if negb (Status =? CFE_SUCCESS) then mret Status
  else
    let AppIndex := default 0 Idx in
    tbl ← gets SynchCallback;
    if Z.of_nat (length tbl) <=? AppIndex then mret CFE_TIME_CALLBACK_NOT_REGISTERED else
    p ← tbl_get tbl AppIndex;
    if negb (p =? CallbackFuncPtr) then mret CFE_TIME_CALLBACK_NOT_REGISTERED
    else
      tbl ← of_option (tbl_upd (λ _, NULL) AppIndex tbl);
      modify (λ s, s <| SynchCallback := tbl |>);;
      mret Status.

Definition CFE_TIME_CleanUpApp (AppId : Z) : M TG Z :=
  let '(Status, Idx) := CFE_ES_AppID_ToIndex AppId (Some 0) in
  if negb (Status =? CFE_SUCCESS) then mret Status
  else
    let AppIndex := default 0 Idx in
    tbl ← gets SynchCallback;
    if AppIndex <? Z.of_nat (length tbl) then
      tbl ← of_option (tbl_upd (λ _, NULL) AppIndex tbl);
      modify (λ s, s <| SynchCallback := tbl |>);;
      mret Status
    else mret CFE_TIME_CALLBACK_NOT_REGISTERED.
