(* ===== verification/TimeTone.v ===== *)
(** * The time service: the tone (cfe_time_tone.c)

    A server sends the time at the tone, every second a tone signal arrives, and the two
    are matched; without them the clock is in flywheel mode. *)
From S2P Require Import Prelude Config TimeApi TimeState.

Section tone.
Context `{Cfg : TimeCfg}.

(** ** Sending the time at the tone

    In the configuration of the sample targets: CFE_PLATFORM_TIME_CFG_VIRTUAL is true and
    CFE_PLATFORM_TIME_CFG_BIGENDIAN is not defined, so the branches that read a MET
    register and that swap the bytes of the packet are not compiled and not here. *)

Definition CFE_TIME_ToneSend : M TG unit :=
  Reference ← CFE_TIME_GetReference;
  vmet ← gets VirtualMET;
  let secs := if ClockFlyState Reference =? CFE_TIME_FlywheelState_IS_FLY then Seconds (CurrentMET Reference) else vmet in
  let secs := if TIME_AT_TONE_WILL_BE then u32 (secs + 1) else secs in
  st ← CFE_TIME_CalculateState Reference;
  send (OutToneData (mkToneData (mkTime secs 0) (AtToneSTCF Reference) (AtToneLeapSeconds Reference) st));;
  modify (λ s, s <| InternalCount ::= λ n, u32 (n + 1) |>).

(** External data are out of range when the time has been set and they are not within
    [MaxDelta] of what is expected. *)
Definition out_of_range (Reference : CFE_TIME_Reference_t) (delta t expected : CFE_TIME_SysTime_t) : bool :=
  let MinResult := CFE_TIME_Compare t (CFE_TIME_Subtract expected delta) in
  let MaxResult := CFE_TIME_Compare t (CFE_TIME_Add expected delta) in
  (ClockSetState Reference =? CFE_TIME_SetState_WAS_SET) &&
  (bool_decide (MinResult = CFE_TIME_A_LT_B) || bool_decide (MaxResult = CFE_TIME_A_GT_B)).

Definition send_external (met stcf : CFE_TIME_SysTime_t) (leaps : Z) (Reference : CFE_TIME_Reference_t) : M TG unit :=
  st ← CFE_TIME_CalculateState Reference;
  send (OutToneData (mkToneData met stcf leaps st));;
  modify (λ s, s <| ExternalCount ::= λ n, u32 (n + 1) |>).

Definition tone_met (Reference : CFE_TIME_Reference_t) : CFE_TIME_SysTime_t :=
  let s := Seconds (CurrentMET Reference) in mkTime (if TIME_AT_TONE_WILL_BE then u32 (s + 1) else s) 0.

Definition CFE_TIME_ToneSendMET (NewMET : CFE_TIME_SysTime_t) : M TG Z :=
  src ← gets ClockSource;
  if src =? CFE_TIME_SourceSelect_INTERNAL then CFE_TIME_ToneSend;; mret CFE_TIME_INTERNAL_ONLY
  else
    Reference ← CFE_TIME_GetReference;
    delta ← gets MaxDelta;
    if out_of_range Reference delta NewMET (tone_met Reference) then CFE_TIME_ToneSend;; mret CFE_TIME_OUT_OF_RANGE
    else send_external NewMET (AtToneSTCF Reference) (AtToneLeapSeconds Reference) Reference;; mret CFE_SUCCESS.

Definition CFE_TIME_ToneSendGPS (NewTime : CFE_TIME_SysTime_t) (NewLeaps : Z) : M TG Z :=
  src ← gets ClockSource;
  if src =? CFE_TIME_SourceSelect_INTERNAL then CFE_TIME_ToneSend;; mret CFE_TIME_INTERNAL_ONLY
  else
    Reference ← CFE_TIME_GetReference;
    let NewMET := tone_met Reference in
    let NewSTCF := CFE_TIME_Subtract NewTime NewMET in
    let NewSTCF := if TIME_CFG_DEFAULT_UTC then NewSTCF <| Seconds ::= λ s, u32 (s + NewLeaps) |> else NewSTCF in
    delta ← gets MaxDelta;
    if out_of_range Reference delta NewSTCF (AtToneSTCF Reference) then CFE_TIME_ToneSend;; mret CFE_TIME_OUT_OF_RANGE
    else send_external NewMET NewSTCF NewLeaps Reference;; mret CFE_SUCCESS.

Definition CFE_TIME_ToneSendTime (NewTime : CFE_TIME_SysTime_t) : M TG Z :=
  src ← gets ClockSource;
  if src =? CFE_TIME_SourceSelect_INTERNAL then CFE_TIME_ToneSend;; mret CFE_TIME_INTERNAL_ONLY
  else
    Reference ← CFE_TIME_GetReference;
    let NewMET := tone_met Reference in
    let NewSTCF := CFE_TIME_Subtract NewTime NewMET in
    let NewSTCF := if TIME_CFG_DEFAULT_UTC then NewSTCF <| Seconds ::= λ s, u32 (s + AtToneLeapSeconds Reference) |> else NewSTCF in
    delta ← gets MaxDelta;
    if out_of_range Reference delta NewSTCF (AtToneSTCF Reference) then CFE_TIME_ToneSend;; mret CFE_TIME_OUT_OF_RANGE
    else send_external NewMET NewSTCF (AtToneLeapSeconds Reference) Reference;; mret CFE_SUCCESS.

Definition CFE_TIME_ExternalMET (NewMET : CFE_TIME_SysTime_t) : M TG unit := CFE_TIME_ToneSendMET NewMET;; mret tt.
Definition CFE_TIME_ExternalGPS (NewTime : CFE_TIME_SysTime_t) (NewLeaps : Z) : M TG unit := CFE_TIME_ToneSendGPS NewTime NewLeaps;; mret tt.
Definition CFE_TIME_ExternalTime (NewTime : CFE_TIME_SysTime_t) : M TG unit := CFE_TIME_ToneSendTime NewTime;; mret tt.

(** ** Matching the tone and the data *)

(** The update of a server's record and that of a client's; the result tells whether the
    flywheel mode ends. *)
Definition update_server (Reference : CFE_TIME_Reference_t) (NextState : Z) : M TG bool :=
  g ← gets (λ s, s);
  wr_ref NextState (λ r, r <| rs_AtToneLatch := ToneSignalLatch g |>);;
  r ← rd_ref NextState;
  (if ClockSource g =? CFE_TIME_SourceSelect_INTERNAL then
     when (rs_ClockFlyState r =? CFE_TIME_FlywheelState_IS_FLY)
       (modify (λ s, s <| VirtualMET := Seconds (CurrentMET Reference) |>));;
     vmet ← gets VirtualMET;
     wr_ref NextState (λ r, r <| rs_AtToneMET := mkTime vmet 0 |>)
   else
     match TIME_CFG_SRC with
     | SRC_NONE => mret tt
     | SRC_MET =>
         wr_ref NextState (λ r, r <| rs_AtToneMET := PendingMET g |>);;
         modify (λ s, s <| VirtualMET := Seconds (PendingMET g) |>)
     | SRC_GPS =>
         wr_ref NextState (λ r, r <| rs_AtToneMET := mkTime (VirtualMET g) 0 |>);;
         wr_ref NextState (λ r, r <| rs_AtToneSTCF := PendingSTCF g |>);;
         wr_ref NextState (λ r, r <| rs_LeapSeconds := PendingLeaps g |>)
     | SRC_TIME =>
         wr_ref NextState (λ r, r <| rs_AtToneMET := mkTime (VirtualMET g) 0 |>);;
         wr_ref NextState (λ r, r <| rs_AtToneSTCF := PendingSTCF g |>)
     end);;
  r ← rd_ref NextState;
  if rs_ClockFlyState r =? CFE_TIME_FlywheelState_IS_FLY then
    wr_ref NextState (λ r, r <| rs_ClockFlyState := CFE_TIME_FlywheelState_NO_FLY |>);;
    modify (λ s, s <| ServerFlyState := CFE_TIME_FlywheelState_NO_FLY |>);;
    mret true
  else mret false.

Definition update_client (NextState : Z) : M TG bool :=
  g ← gets (λ s, s);
  wr_ref NextState (λ r, r <| rs_AtToneLatch := ToneSignalLatch g |>);;
  wr_ref NextState (λ r, r <| rs_AtToneMET := PendingMET g |>);;
  wr_ref NextState (λ r, r <| rs_AtToneSTCF := PendingSTCF g |>);;
  wr_ref NextState (λ r, r <| rs_LeapSeconds := PendingLeaps g |>);;
  (if PendingState g =? CFE_TIME_ClockState_INVALID then
     wr_ref NextState (λ r, r <| rs_ClockSetState := CFE_TIME_SetState_NOT_SET |>);;
     modify (λ s, s <| ServerFlyState := CFE_TIME_FlywheelState_NO_FLY |>)
   else
     wr_ref NextState (λ r, r <| rs_ClockSetState := CFE_TIME_SetState_WAS_SET |>);;
     modify (λ s, s <| ServerFlyState := if PendingState g =? CFE_TIME_ClockState_FLYWHEEL then CFE_TIME_FlywheelState_IS_FLY
                                         else CFE_TIME_FlywheelState_NO_FLY |>));;
  r ← rd_ref NextState;
  if rs_ClockFlyState r =? CFE_TIME_FlywheelState_IS_FLY then
    wr_ref NextState (λ r, r <| rs_ClockFlyState := CFE_TIME_FlywheelState_NO_FLY |>);;
    mret true
  else mret false.

Definition CFE_TIME_ToneUpdate : M TG unit :=
  Reference ← CFE_TIME_GetReference;
  NextState ← CFE_TIME_StartReferenceUpdate;
  NewFlywheelStatus ← (if TIME_CFG_SERVER then update_server Reference NextState else update_client NextState);
  CFE_TIME_FinishReferenceUpdate NextState;;
  when NewFlywheelStatus (send (OutEvent CFE_TIME_FLY_OFF_EID)).

Definition CFE_TIME_ToneVerify (Time1 Time2 : CFE_TIME_SysTime_t) : M TG unit :=
  g ← gets (λ s, s);
  (if decide (CFE_TIME_Compare (PrevTime1 g) Time1 = CFE_TIME_EQUAL) then
     modify (λ s, s <| ToneMatchErrorCounter ::= λ n, u32 (n + 1) |>)
   else if decide (CFE_TIME_Compare (PrevTime2 g) Time2 = CFE_TIME_EQUAL) then
     modify (λ s, s <| ToneMatchErrorCounter ::= λ n, u32 (n + 1) |>)
   else
     let elapsed :=
       if decide (CFE_TIME_Compare Time1 Time2 = CFE_TIME_A_GT_B) then
         CFE_TIME_Add (CFE_TIME_Subtract (MaxLocalClock g) Time1) Time2
       else CFE_TIME_Subtract Time2 Time1 in
     if negb (Seconds elapsed =? 0) || (Subseconds elapsed <? MinElapsed g) || (MaxElapsed g <? Subseconds elapsed) then
       modify (λ s, s <| ToneMatchErrorCounter ::= λ n, u32 (n + 1) |>)
     else
       modify (λ s, s <| ToneMatchCounter ::= λ n, u32 (n + 1) |>);;
       when (negb (Forced2Fly g)) CFE_TIME_ToneUpdate);;
  modify (λ s, s <| PrevTime1 := Time1 |>);;
  modify (λ s, s <| PrevTime2 := Time2 |>).

Definition CFE_TIME_ToneData (ToneDataCmd : CFE_TIME_ToneDataCmd_Payload_t) : M TG unit :=
  latch ← CFE_TIME_LatchClock;
  modify (λ s, s <| ToneDataLatch := latch |>);;
  modify (λ s, s <| PendingMET := td_AtToneMET ToneDataCmd |>);;
  modify (λ s, s <| PendingSTCF := td_AtToneSTCF ToneDataCmd |>);;
  modify (λ s, s <| PendingLeaps := td_LeapSeconds ToneDataCmd |>);;
  modify (λ s, s <| PendingState := td_AtToneState ToneDataCmd |>);;
  when (negb TIME_AT_TONE_WILL_BE)
    (g ← gets (λ s, s);
     CFE_TIME_ToneVerify (ToneSignalLatch g) (ToneDataLatch g));;
  modify (λ s, s <| ToneDataCounter ::= λ n, u32 (n + 1) |>).

Definition CFE_TIME_ToneSignal : M TG unit :=
  when TIME_AT_TONE_WILL_BE
    (g ← gets (λ s, s);
     CFE_TIME_ToneVerify (ToneDataLatch g) (ToneSignalLatch g));;
  modify (λ s, s <| ToneSignalCounter ::= λ n, u32 (n + 1) |>).

(** ** Interrupts and the 1 Hz state machine *)

Definition CFE_TIME_NotifyTimeSynchApps : M TG unit :=
  g ← gets (λ s, s);
  when (IsToneGood g)
    (modify (λ s, s <| Sent ::= λ l, l ++ (OutCallback <$> filter (λ f, f ≠ NULL) (SynchCallback g)) |>)).

Definition CFE_TIME_Tone1HzISR : M TG unit :=
  latch ← CFE_TIME_LatchClock;
  g ← gets (λ s, s);
  let Elapsed :=
    if decide (CFE_TIME_Compare latch (ToneSignalLatch g) = CFE_TIME_A_LT_B) then
      CFE_TIME_Add (CFE_TIME_Subtract (MaxLocalClock g) (ToneSignalLatch g)) latch
    else CFE_TIME_Subtract latch (ToneSignalLatch g) in
  (if ((Seconds Elapsed =? 1) && (Subseconds Elapsed <? ToneOverLimit g)) ||
      ((Seconds Elapsed =? 0) && (ToneUnderLimit g <? Subseconds Elapsed)) then
     modify (λ s, s <| ToneIntCounter ::= λ n, u32 (n + 1) |>);;
     modify (λ s, s <| IsToneGood := true |>);;
     modify (λ s, s <| VirtualMET ::= λ n, u32 (n + 1) |>);;
     send OutToneSem
   else
     modify (λ s, s <| ToneIntErrorCounter ::= λ n, u32 (n + 1) |>);;
     modify (λ s, s <| IsToneGood := false |>));;
  modify (λ s, s <| ToneSignalLatch := latch |>);;
  CFE_TIME_NotifyTimeSynchApps.

Definition CFE_TIME_ExternalTone : M TG unit := CFE_TIME_Tone1HzISR.

(** One round of CFE_TIME_Tone1HzTask. *)
Definition tone_task_round : M TG unit :=
  send OutToneSignal;;
  when TIME_CFG_FAKE_TONE (send OutToneSend);;
  modify (λ s, s <| ToneTaskCounter ::= λ n, u32 (n + 1) |>).

Definition CFE_TIME_Local1HzStateMachine : M TG unit :=
  g ← gets (λ s, s);
  when (TIME_CFG_SERVER && (negb (Seconds (OneHzAdjust g) =? 0) || negb (Subseconds (OneHzAdjust g) =? 0)))
    (NextState ← CFE_TIME_StartReferenceUpdate;
     r ← rd_ref NextState;
     let NewSTCF := if OneHzDirection g =? CFE_TIME_AdjustDirection_ADD then CFE_TIME_Add (rs_AtToneSTCF r) (OneHzAdjust g)
                    else CFE_TIME_Subtract (rs_AtToneSTCF r) (OneHzAdjust g) in
     wr_ref NextState (λ r, r <| rs_AtToneSTCF := NewSTCF |>);;
     CFE_TIME_FinishReferenceUpdate NextState);;
  Reference ← CFE_TIME_GetReference;
  when ((ClockFlyState Reference =? CFE_TIME_FlywheelState_NO_FLY) &&
        (CFE_PLATFORM_TIME_CFG_START_FLY <=? Seconds (TimeSinceTone Reference)))
    (NextState ← CFE_TIME_StartReferenceUpdate;
     wr_ref NextState (λ r, r <| rs_ClockFlyState := CFE_TIME_FlywheelState_IS_FLY |>);;
     when TIME_CFG_SERVER (modify (λ s, s <| ServerFlyState := CFE_TIME_FlywheelState_IS_FLY |>));;
     modify (λ s, s <| AutoStartFly := true |>);;
     CFE_TIME_FinishReferenceUpdate NextState);;
  when ((ClockFlyState Reference =? CFE_TIME_FlywheelState_IS_FLY) &&
        (CFE_PLATFORM_TIME_CFG_LATCH_FLY <=? Seconds (TimeSinceTone Reference)))
    (NextState ← CFE_TIME_StartReferenceUpdate;
     wr_ref NextState (λ r, r <| rs_AtToneMET := CurrentMET Reference |>);;
     wr_ref NextState (λ r, r <| rs_AtToneLatch := CurrentLatch Reference |>);;
     CFE_TIME_FinishReferenceUpdate NextState).

Definition CFE_TIME_Local1HzISR : M TG unit :=
  modify (λ s, s <| LocalIntCounter ::= λ n, u32 (n + 1) |>);;
  send OutLocalSem.

Definition CFE_TIME_Local1HzTimerCallback : M TG unit := CFE_TIME_Local1HzISR.

(** One round of CFE_TIME_Local1HzTask. *)
Definition local_task_round : M TG unit :=
  fly ← gets AutoStartFly;
  when fly (modify (λ s, s <| AutoStartFly := false |>);; send (OutEvent CFE_TIME_FLY_ON_EID));;
  send Out1Hz;;
  modify (λ s, s <| LocalTaskCounter ::= λ n, u32 (n + 1) |>).

End tone.
