(* ===== verification/TimeTask.v ===== *)
(** * The time service: commands (cfe_time_task.c)

    The messages of the command pipe.  A message is given by its identifier, command code
    and size, and by the fields the handlers read from its payload. *)
From S2P Require Import Prelude Config TimeApi TimeState TimeTone.

Definition CFE_TIME_CMD_MID : Z := 0x1805.
Definition CFE_TIME_SEND_HK_MID : Z := 0x180D.
Definition CFE_TIME_TONE_CMD_MID : Z := 0x1810.
Definition CFE_TIME_1HZ_CMD_MID : Z := 0x1811.
Definition CFE_TIME_DATA_CMD_MID : Z := 0x1860.
Definition CFE_TIME_SEND_CMD_MID : Z := 0x1862.

Definition CFE_TIME_NOOP_CC : Z := 0.
Definition CFE_TIME_RESET_COUNTERS_CC : Z := 1.
Definition CFE_TIME_SEND_DIAGNOSTIC_TLM_CC : Z := 2.
Definition CFE_TIME_SET_SOURCE_CC : Z := 3.
Definition CFE_TIME_SET_STATE_CC : Z := 4.
Definition CFE_TIME_ADD_DELAY_CC : Z := 5.
Definition CFE_TIME_SUB_DELAY_CC : Z := 6.
Definition CFE_TIME_SET_TIME_CC : Z := 7.
Definition CFE_TIME_SET_MET_CC : Z := 8.
Definition CFE_TIME_SET_STCF_CC : Z := 9.
Definition CFE_TIME_SET_LEAP_SECONDS_CC : Z := 10.
Definition CFE_TIME_ADD_ADJUST_CC : Z := 11.
Definition CFE_TIME_SUB_ADJUST_CC : Z := 12.
Definition CFE_TIME_ADD_1HZ_ADJUSTMENT_CC : Z := 13.
Definition CFE_TIME_SUB_1HZ_ADJUSTMENT_CC : Z := 14.
Definition CFE_TIME_SET_SIGNAL_CC : Z := 15.

Definition CFE_TIME_NOOP_EID : Z := 4.
Definition CFE_TIME_RESET_EID : Z := 5.
Definition CFE_TIME_DIAG_EID : Z := 6.
Definition CFE_TIME_STATE_EID : Z := 7.
Definition CFE_TIME_SOURCE_EID : Z := 8.
Definition CFE_TIME_SIGNAL_EID : Z := 9.
Definition CFE_TIME_DELAY_EID : Z := 11.
Definition CFE_TIME_TIME_EID : Z := 12.
Definition CFE_TIME_MET_EID : Z := 13.
Definition CFE_TIME_STCF_EID : Z := 14.
Definition CFE_TIME_DELTA_EID : Z := 15.
Definition CFE_TIME_1HZ_EID : Z := 16.
Definition CFE_TIME_LEAPS_EID : Z := 17.
Definition CFE_TIME_ID_ERR_EID : Z := 26.
Definition CFE_TIME_CC_ERR_EID : Z := 27.
Definition CFE_TIME_STATE_ERR_EID : Z := 30.
Definition CFE_TIME_SOURCE_ERR_EID : Z := 31.
Definition CFE_TIME_SIGNAL_ERR_EID : Z := 32.
Definition CFE_TIME_DELAY_ERR_EID : Z := 33.
Definition CFE_TIME_TIME_ERR_EID : Z := 34.
Definition CFE_TIME_MET_ERR_EID : Z := 35.
Definition CFE_TIME_STCF_ERR_EID : Z := 36.
Definition CFE_TIME_DELTA_ERR_EID : Z := 37.
Definition CFE_TIME_SOURCE_CFG_EID : Z := 40.
Definition CFE_TIME_SIGNAL_CFG_EID : Z := 41.
Definition CFE_TIME_DELAY_CFG_EID : Z := 42.
Definition CFE_TIME_TIME_CFG_EID : Z := 43.
Definition CFE_TIME_MET_CFG_EID : Z := 44.
Definition CFE_TIME_STCF_CFG_EID : Z := 45.
Definition CFE_TIME_LEAPS_CFG_EID : Z := 46.
Definition CFE_TIME_DELTA_CFG_EID : Z := 47.
Definition CFE_TIME_1HZ_CFG_EID : Z := 48.
Definition CFE_TIME_LEN_ERR_EID : Z := 49.

(** The sizes of the commands, by their payloads. *)
Definition sizeof_NoArgsCmd : Z := 8.
Definition sizeof_ShortCmd : Z := 10.
Definition sizeof_TimeCmd : Z := 16.
Definition sizeof_OneHzAdjustmentCmd : Z := 16.

Record CFE_TIME_TimeCmd_Payload_t := mkTimeCmd { tc_Seconds : Z; tc_MicroSeconds : Z }.

(** A message of the command pipe; its payload as each command reads it. *)
Record TimeMsg := mkTimeMsg {
  tm_MsgId : Z;
  tm_FcnCode : Z;
  tm_Size : Z;
  tm_Short : Z;
  tm_Time : CFE_TIME_TimeCmd_Payload_t;
  tm_OneHz : CFE_TIME_SysTime_t;
  tm_ToneData : CFE_TIME_ToneDataCmd_Payload_t;
}.

Definition accept (eid : Z) : M TG unit := modify (λ s, s <| CommandCounter ::= λ n, u8 (n + 1) |>);; send (OutEvent eid).
Definition reject (eid : Z) : M TG unit := modify (λ s, s <| CommandErrorCounter ::= λ n, u8 (n + 1) |>);; send (OutEvent eid).

Section task.
Context `{Cfg : TimeCfg}.

(** ** On-board messages *)

Definition CFE_TIME_HousekeepingCmd : M TG unit :=
  Reference ← CFE_TIME_GetReference;
  CFE_TIME_UpdateResetVars Reference;;
  p ← CFE_TIME_GetHkData Reference;
  send (OutHk p).

Definition CFE_TIME_ToneSignalCmd : M TG unit := CFE_TIME_ToneSignal.
Definition CFE_TIME_ToneDataCmd (data : CFE_TIME_ToneDataCmd_Payload_t) : M TG unit := CFE_TIME_ToneData data.
Definition CFE_TIME_OneHzCmd : M TG unit := CFE_TIME_Local1HzStateMachine;; when TIME_CFG_FAKE_TONE CFE_TIME_Tone1HzISR.
Definition CFE_TIME_ToneSendCmd : M TG unit := CFE_TIME_ToneSend.

(** ** Ground commands *)

Definition CFE_TIME_NoopCmd : M TG unit := accept CFE_TIME_NOOP_EID.

Definition CFE_TIME_ResetCountersCmd : M TG unit :=
  modify (λ s, s <| CommandCounter := 0 |> <| CommandErrorCounter := 0 |>);;
  modify (λ s, s <| ToneMatchCounter := 0 |> <| ToneMatchErrorCounter := 0 |>);;
  modify (λ s, s <| ToneSignalCounter := 0 |> <| ToneDataCounter := 0 |>);;
  modify (λ s, s <| ToneIntCounter := 0 |> <| ToneIntErrorCounter := 0 |> <| ToneTaskCounter := 0 |>);;
  modify (λ s, s <| ResetVersionCounter := LastVersionCounter s |>);;
  modify (λ s, s <| LocalIntCounter := 0 |> <| LocalTaskCounter := 0 |>);;
  modify (λ s, s <| InternalCount := 0 |> <| ExternalCount := 0 |>);;
  send (OutEvent CFE_TIME_RESET_EID).

Definition CFE_TIME_SendDiagnosticTlm : M TG unit :=
  modify (λ s, s <| CommandCounter ::= λ n, u8 (n + 1) |>);;
  p ← CFE_TIME_GetDiagData;
  send (OutDiag p);;
  send (OutEvent CFE_TIME_DIAG_EID).

Definition CFE_TIME_SetStateCmd (ClockState : Z) : M TG unit :=
  if (ClockState =? CFE_TIME_ClockState_INVALID) || (ClockState =? CFE_TIME_ClockState_VALID) || (ClockState =? CFE_TIME_ClockState_FLYWHEEL)
  then CFE_TIME_SetState ClockState;; accept CFE_TIME_STATE_EID
  else reject CFE_TIME_STATE_ERR_EID.

Definition CFE_TIME_SetSourceCmd (TimeSource : Z) : M TG unit :=
  if (TimeSource =? CFE_TIME_SourceSelect_INTERNAL) || (TimeSource =? CFE_TIME_SourceSelect_EXTERNAL) then
    if TIME_CFG_SOURCE then
      modify (λ s, s <| CommandCounter ::= λ n, u8 (n + 1) |>);;
      CFE_TIME_SetSource TimeSource;;
      send (OutEvent CFE_TIME_SOURCE_EID)
    else reject CFE_TIME_SOURCE_CFG_EID
  else reject CFE_TIME_SOURCE_ERR_EID.

Definition CFE_TIME_SetSignalCmd (ToneSource : Z) : M TG unit :=
  if (ToneSource =? CFE_TIME_ToneSignalSelect_PRIMARY) || (ToneSource =? CFE_TIME_ToneSignalSelect_REDUNDANT) then
    if TIME_CFG_SIGNAL then
      modify (λ s, s <| CommandCounter ::= λ n, u8 (n + 1) |>);;
      CFE_TIME_SetSignal ToneSource;;
      send (OutEvent CFE_TIME_SIGNAL_EID)
    else reject CFE_TIME_SIGNAL_CFG_EID
  else reject CFE_TIME_SIGNAL_ERR_EID.

Definition CFE_TIME_SetDelayImpl (p : CFE_TIME_TimeCmd_Payload_t) (Direction : Z) : M TG unit :=
  if tc_MicroSeconds p <? 1000000 then
    if TIME_CFG_CLIENT then
      CFE_TIME_SetDelay (mkTime (tc_Seconds p) (CFE_TIME_Micro2SubSecs (tc_MicroSeconds p))) Direction;;
      accept CFE_TIME_DELAY_EID
    else reject CFE_TIME_DELAY_CFG_EID
  else reject CFE_TIME_DELAY_ERR_EID.

Definition CFE_TIME_AddDelayCmd (p : CFE_TIME_TimeCmd_Payload_t) : M TG unit := CFE_TIME_SetDelayImpl p CFE_TIME_AdjustDirection_ADD.
Definition CFE_TIME_SubDelayCmd (p : CFE_TIME_TimeCmd_Payload_t) : M TG unit := CFE_TIME_SetDelayImpl p CFE_TIME_AdjustDirection_SUBTRACT.

Definition CFE_TIME_SetTimeCmd (p : CFE_TIME_TimeCmd_Payload_t) : M TG unit :=
  if tc_MicroSeconds p <? 1000000 then
    if TIME_CFG_SERVER then
      CFE_TIME_SetTime (mkTime (tc_Seconds p) (CFE_TIME_Micro2SubSecs (tc_MicroSeconds p)));;
      accept CFE_TIME_TIME_EID
    else reject CFE_TIME_TIME_CFG_EID
  else reject CFE_TIME_TIME_ERR_EID.

Definition CFE_TIME_SetMETCmd (p : CFE_TIME_TimeCmd_Payload_t) : M TG unit :=
  if tc_MicroSeconds p <? 1000000 then
    if TIME_CFG_SERVER then
      CFE_TIME_SetMET (mkTime (tc_Seconds p) (CFE_TIME_Micro2SubSecs (tc_MicroSeconds p)));;
      accept CFE_TIME_MET_EID
    else reject CFE_TIME_MET_CFG_EID
  else reject CFE_TIME_MET_ERR_EID.

Definition CFE_TIME_SetSTCFCmd (p : CFE_TIME_TimeCmd_Payload_t) : M TG unit :=
  if tc_MicroSeconds p <? 1000000 then
    if TIME_CFG_SERVER then
      CFE_TIME_SetSTCF (mkTime (tc_Seconds p) (CFE_TIME_Micro2SubSecs (tc_MicroSeconds p)));;
      accept CFE_TIME_STCF_EID
    else reject CFE_TIME_STCF_CFG_EID
  else reject CFE_TIME_STCF_ERR_EID.

Definition CFE_TIME_SetLeapSecondsCmd (LeapSeconds : Z) : M TG unit :=
  if TIME_CFG_SERVER then CFE_TIME_SetLeapSeconds LeapSeconds;; accept CFE_TIME_LEAPS_EID
  else reject CFE_TIME_LEAPS_CFG_EID.

Definition CFE_TIME_AdjustImpl (p : CFE_TIME_TimeCmd_Payload_t) (Direction : Z) : M TG unit :=
  if tc_MicroSeconds p <? 1000000 then
    if TIME_CFG_SERVER then
      CFE_TIME_SetAdjust (mkTime (tc_Seconds p) (CFE_TIME_Micro2SubSecs (tc_MicroSeconds p))) Direction;;
      accept CFE_TIME_DELTA_EID
    else reject CFE_TIME_DELTA_CFG_EID
  else reject CFE_TIME_DELTA_ERR_EID.

Definition CFE_TIME_AddAdjustCmd (p : CFE_TIME_TimeCmd_Payload_t) : M TG unit := CFE_TIME_AdjustImpl p CFE_TIME_AdjustDirection_ADD.
Definition CFE_TIME_SubAdjustCmd (p : CFE_TIME_TimeCmd_Payload_t) : M TG unit := CFE_TIME_AdjustImpl p CFE_TIME_AdjustDirection_SUBTRACT.

Definition CFE_TIME_1HzAdjImpl (p : CFE_TIME_SysTime_t) (Direction : Z) : M TG unit :=
  if TIME_CFG_SERVER then CFE_TIME_Set1HzAdj p Direction;; accept CFE_TIME_1HZ_EID
  else reject CFE_TIME_1HZ_CFG_EID.

Definition CFE_TIME_Add1HZAdjustmentCmd (p : CFE_TIME_SysTime_t) : M TG unit := CFE_TIME_1HzAdjImpl p CFE_TIME_AdjustDirection_ADD.
Definition CFE_TIME_Sub1HZAdjustmentCmd (p : CFE_TIME_SysTime_t) : M TG unit := CFE_TIME_1HzAdjImpl p CFE_TIME_AdjustDirection_SUBTRACT.

(** ** The command pipe *)

Definition CFE_TIME_VerifyCmdLength (Msg : TimeMsg) (ExpectedLength : Z) : M TG bool :=
  if negb (ExpectedLength =? tm_Size Msg) then
    send (OutEvent CFE_TIME_LEN_ERR_EID);;
    modify (λ s, s <| CommandErrorCounter ::= λ n, u8 (n + 1) |>);;
    mret false
  else mret true.

(** The size of a ground command and its handler. *)
Definition ground_command (Msg : TimeMsg) : option (Z * M TG unit) :=
  let cc_is (cc : Z) := tm_FcnCode Msg =? cc in
  if cc_is CFE_TIME_NOOP_CC then Some (sizeof_NoArgsCmd, CFE_TIME_NoopCmd)
  else if cc_is CFE_TIME_RESET_COUNTERS_CC then Some (sizeof_NoArgsCmd, CFE_TIME_ResetCountersCmd)
  else if cc_is CFE_TIME_SEND_DIAGNOSTIC_TLM_CC then Some (sizeof_NoArgsCmd, CFE_TIME_SendDiagnosticTlm)
  else if cc_is CFE_TIME_SET_STATE_CC then Some (sizeof_ShortCmd, CFE_TIME_SetStateCmd (tm_Short Msg))
  else if cc_is CFE_TIME_SET_SOURCE_CC then Some (sizeof_ShortCmd, CFE_TIME_SetSourceCmd (tm_Short Msg))
  else if cc_is CFE_TIME_SET_SIGNAL_CC then Some (sizeof_ShortCmd, CFE_TIME_SetSignalCmd (tm_Short Msg))
  else if cc_is CFE_TIME_ADD_DELAY_CC then Some (sizeof_TimeCmd, CFE_TIME_AddDelayCmd (tm_Time Msg))
  else if cc_is CFE_TIME_SUB_DELAY_CC then Some (sizeof_TimeCmd, CFE_TIME_SubDelayCmd (tm_Time Msg))
  else if cc_is CFE_TIME_SET_TIME_CC then Some (sizeof_TimeCmd, CFE_TIME_SetTimeCmd (tm_Time Msg))
  else if cc_is CFE_TIME_SET_MET_CC then Some (sizeof_TimeCmd, CFE_TIME_SetMETCmd (tm_Time Msg))
  else if cc_is CFE_TIME_SET_STCF_CC then Some (sizeof_TimeCmd, CFE_TIME_SetSTCFCmd (tm_Time Msg))
  else if cc_is CFE_TIME_SET_LEAP_SECONDS_CC then Some (sizeof_ShortCmd, CFE_TIME_SetLeapSecondsCmd (tm_Short Msg))
  else if cc_is CFE_TIME_ADD_ADJUST_CC then Some (sizeof_TimeCmd, CFE_TIME_AddAdjustCmd (tm_Time Msg))
  else if cc_is CFE_TIME_SUB_ADJUST_CC then Some (sizeof_TimeCmd, CFE_TIME_SubAdjustCmd (tm_Time Msg))
  else if cc_is CFE_TIME_ADD_1HZ_ADJUSTMENT_CC then Some (sizeof_OneHzAdjustmentCmd, CFE_TIME_Add1HZAdjustmentCmd (tm_OneHz Msg))
  else if cc_is CFE_TIME_SUB_1HZ_ADJUSTMENT_CC then Some (sizeof_OneHzAdjustmentCmd, CFE_TIME_Sub1HZAdjustmentCmd (tm_OneHz Msg))
  else None.

Definition CFE_TIME_TaskPipe (Msg : TimeMsg) : M TG unit :=
  let mid_is (mid : Z) := tm_MsgId Msg =? mid in
  if mid_is CFE_TIME_SEND_HK_MID then CFE_TIME_HousekeepingCmd
  else if mid_is CFE_TIME_TONE_CMD_MID then CFE_TIME_ToneSignalCmd
  else if mid_is CFE_TIME_DATA_CMD_MID then CFE_TIME_ToneDataCmd (tm_ToneData Msg)
  else if mid_is CFE_TIME_1HZ_CMD_MID then CFE_TIME_OneHzCmd
  else if TIME_CFG_SERVER && mid_is CFE_TIME_SEND_CMD_MID then CFE_TIME_ToneSendCmd
  else if mid_is CFE_TIME_CMD_MID then
    match ground_command Msg with
    | Some (len, handler) => ok ← CFE_TIME_VerifyCmdLength Msg len; when ok handler
    | None => reject CFE_TIME_CC_ERR_EID
    end
  else send (OutEvent CFE_TIME_ID_ERR_EID).

End task.
