(* ===== verification/TimeOps.v ===== *)
(** * The ring of reference records: lemmas

    An update writes the record after the current one, which readers do not use, and
    makes it current at the end. *)
From S2P Require Import Prelude Config ResourceId EsApp SbrProps TimeApi TimeState TimeTone.

Definition slot4 (v : Z) : nat := Z.to_nat (Z.land v CFE_TIME_REFERENCE_BUF_MASK).

Lemma slot4_mod v : Z.land v CFE_TIME_REFERENCE_BUF_MASK = v mod 4.
Proof. change CFE_TIME_REFERENCE_BUF_MASK with (Z.ones 2). by rewrite Z.land_ones by lia. Qed.

Lemma slot4_Z v : Z.land v CFE_TIME_REFERENCE_BUF_MASK = Z.of_nat (slot4 v).
Proof. unfold slot4. rewrite slot4_mod. pose proof (Z.mod_pos_bound v 4 ltac:(lia)). lia. Qed.

Lemma slot4_lt v : (slot4 v < 4)%nat.
Proof. pose proof (slot4_Z v) as E. rewrite slot4_mod in E. pose proof (Z.mod_pos_bound v 4 ltac:(lia)). lia. Qed.

Lemma u32_mod4 z : u32 z mod 4 = z mod 4.
Proof. unfold u32. apply Z.mod_mod_divide. by exists (2 ^ 30). Qed.

Lemma slot4_next v : slot4 (u32 (v + 1)) ≠ slot4 v.
Proof.
  intros E. pose proof (slot4_Z (u32 (v + 1))) as E1. rewrite E, <- slot4_Z, !slot4_mod, u32_mod4 in E1.
  pose proof (Z.div_mod v 4 ltac:(lia)). pose proof (Z.div_mod (v + 1) 4 ltac:(lia)). lia.
Qed.

(** The record in use. *)
Definition current (s : TG) : option CFE_TIME_ReferenceState_t := ReferenceState s !! slot4 (LastVersionCounter s).

Definition ref_ok (r : CFE_TIME_ReferenceState_t) : Prop :=
  time_ok (rs_AtToneMET r) ∧ time_ok (rs_AtToneSTCF r) ∧ time_ok (rs_AtToneDelay r) ∧ time_ok (rs_AtToneLatch r).

Definition has_ring (s : TG) (c : CFE_TIME_ReferenceState_t) : Prop := length (ReferenceState s) = 4%nat ∧ current s = Some c.

(** The version of the record in use is the last version; this holds when the service
    has been initialized. *)
Record ring_ok (s : TG) (c : CFE_TIME_ReferenceState_t) : Prop := {
  rg_has : has_ring s c;
  rg_ver : StateVersion c = LastVersionCounter s;
  rg_u32 : is_u32 (LastVersionCounter s);
}.

(** The state after an update: the record [c] is the current one, with the next
    version. *)
Definition updated (c : CFE_TIME_ReferenceState_t) (s : TG) : TG :=
  let v := u32 (LastVersionCounter s + 1) in
  s <| ReferenceState ::= <[slot4 v := c <| StateVersion := v |>]> |> <| LastVersionCounter := v |>.

Lemma updated_ok c0 c s : has_ring s c0 → ring_ok (updated c s) (c <| StateVersion := u32 (LastVersionCounter s + 1) |>).
Proof.
  intros [H1 H2]. split; [split|..]; cbn; [by rewrite length_insert| |done|apply u32_range].
  unfold current. cbn. apply list_lookup_insert_eq. rewrite H1. apply slot4_lt.
Qed.

Lemma wp_rd_ref (i : nat) r Q (s : TG) : ReferenceState s !! i = Some r → Q r s → wp (rd_ref (Z.of_nat i)) Q s.
Proof. intros E HQ. unfold rd_ref. wp_step. wp_step. unfold tbl_get. destruct (Z.ltb_spec (Z.of_nat i) 0); [lia|]. by rewrite Nat2Z.id, E. Qed.

Lemma wp_wr_ref (i : nat) f r (Q : unit → TG → Prop) (s : TG) : ReferenceState s !! i = Some r →
  Q tt (s <| ReferenceState ::= <[i := f r]> |>) → wp (wr_ref (Z.of_nat i) f) Q s.
Proof.
  intros E HQ. unfold wr_ref. wp_step. wp_step. pose proof (lookup_lt_Some _ _ _ E). rewrite tbl_upd_Some, Nat2Z.id by lia.
  wp_step. cbn [of_option]. wp_step. wp_step. destruct s. cbn in *. by rewrite (list_alter_at _ _ _ _ E).
Qed.

(** A record of the ring has been started: it is a copy of the current one. *)
Definition started (c : CFE_TIME_ReferenceState_t) (s : TG) : TG :=
  let v := u32 (LastVersionCounter s + 1) in s <| ReferenceState ::= <[slot4 v := c <| StateVersion := v |>]> |>.

Lemma started_lookup c0 c s : has_ring s c0 → ReferenceState (started c s) !! slot4 (u32 (LastVersionCounter s + 1)) = Some (c <| StateVersion := u32 (LastVersionCounter s + 1) |>).
Proof. intros H. cbn. apply list_lookup_insert_eq. rewrite (proj1 H). apply slot4_lt. Qed.

Lemma wp_Start c (Q : Z → TG → Prop) s : has_ring s c → Q (Z.of_nat (slot4 (u32 (LastVersionCounter s + 1)))) (started c s) →
  wp CFE_TIME_StartReferenceUpdate Q s.
Proof.
  intros H HQ. unfold CFE_TIME_StartReferenceUpdate. wp_step. wp_step. rewrite !slot4_Z. set (v := u32 (LastVersionCounter s + 1)) in *.
  destruct (lookup_lt_is_Some_2 (ReferenceState s) (slot4 v)) as [r Hr]; [rewrite (proj1 H); apply slot4_lt|].
  assert (slot4 v < length (ReferenceState s))%nat as Hlt by by eapply lookup_lt_Some.
  wp_step. eapply wp_wr_ref; [exact Hr|]. wp_step.
  eapply (wp_rd_ref _ c); [cbn; rewrite list_lookup_insert_ne by apply slot4_next; apply (proj2 H)|].
  do 8 (wp_step; eapply wp_wr_ref; [cbn; apply list_lookup_insert_eq; by rewrite ?length_insert|]).
  wp_step. match type of HQ with Q _ ?x => match goal with |- Q _ ?y => replace y with x; [done|] end end.
  unfold started. fold v. destruct s. cbn in *. rewrite !list_insert_insert_eq. by destruct c.
Qed.

(** Writing and reading the started record, and making it current. *)
Lemma wp_wr_started c0 c s f (Q : unit → TG → Prop) : has_ring s c0 →
  (∀ v, f (c <| StateVersion := v |>) = (f c) <| StateVersion := v |>) → Q tt (started (f c) s) →
  wp (wr_ref (Z.of_nat (slot4 (u32 (LastVersionCounter s + 1)))) f) Q (started c s).
Proof.
  intros H Hf HQ. eapply wp_wr_ref; [by eapply started_lookup|]. rewrite Hf.
  match type of HQ with Q _ ?x => match goal with |- Q _ ?y => replace y with x; [done|] end end.
  unfold started. destruct s. cbn. by rewrite list_insert_insert_eq.
Qed.

Lemma wp_rd_started c0 c s (Q : CFE_TIME_ReferenceState_t → TG → Prop) : has_ring s c0 →
  Q (c <| StateVersion := u32 (LastVersionCounter s + 1) |>) (started c s) →
  wp (rd_ref (Z.of_nat (slot4 (u32 (LastVersionCounter s + 1))))) Q (started c s).
Proof. intros H HQ. eapply wp_rd_ref; [by eapply started_lookup|done]. Qed.

Lemma wp_Finish c0 c s (Q : unit → TG → Prop) : has_ring s c0 → Q tt (updated c s) →
  wp (CFE_TIME_FinishReferenceUpdate (Z.of_nat (slot4 (u32 (LastVersionCounter s + 1))))) Q (started c s).
Proof. intros H HQ. unfold CFE_TIME_FinishReferenceUpdate. wp_step. eapply wp_rd_started; [done|]. wp_step. done. Qed.

(** ** Reading the reference *)

Definition latch_of (c : Z) : CFE_TIME_SysTime_t := mkTime (u32 (OS_TimeGetTotalSeconds c)) (OS_TimeGetSubsecondsPart c).

Lemma latch_ok c : time_ok (latch_of c).
Proof. split; apply u32_range. Qed.

Lemma wp_Latch Q s : Q (latch_of (LocalTime s)) s → wp CFE_TIME_LatchClock Q s.
Proof. intros H. unfold CFE_TIME_LatchClock. wp_step. wp_step. by wp_step. Qed.

Definition since_tone (max latch tone : CFE_TIME_SysTime_t) : CFE_TIME_SysTime_t :=
  if decide (CFE_TIME_Compare latch tone = CFE_TIME_A_LT_B) then CFE_TIME_Add (CFE_TIME_Subtract max tone) latch
  else CFE_TIME_Subtract latch tone.

Lemma since_ok max latch tone : time_ok (since_tone max latch tone).
Proof. unfold since_tone. case_decide; [apply Add_ok|apply Subtract_ok]. Qed.

Section cfg.
Context `{Cfg : TimeCfg}.

(** The correction of a client for the delay of the tone. *)
Definition delayed (c : CFE_TIME_ReferenceState_t) (met : CFE_TIME_SysTime_t) : CFE_TIME_SysTime_t :=
  if TIME_CFG_CLIENT then
    if rs_DelayDirection c =? CFE_TIME_AdjustDirection_ADD then CFE_TIME_Add met (rs_AtToneDelay c)
    else CFE_TIME_Subtract met (rs_AtToneDelay c)
  else met.

Definition met_at (max : CFE_TIME_SysTime_t) (c : CFE_TIME_ReferenceState_t) (latch : CFE_TIME_SysTime_t) : CFE_TIME_SysTime_t :=
  delayed c (CFE_TIME_Add (since_tone max latch (rs_AtToneLatch c)) (rs_AtToneMET c)).

Lemma met_ok max c latch : time_ok (met_at max c latch).
Proof. unfold met_at, delayed. repeat case_match; first [apply Add_ok|apply Subtract_ok]. Qed.

Definition reference_of (max : CFE_TIME_SysTime_t) (c : CFE_TIME_ReferenceState_t) (latch : CFE_TIME_SysTime_t) : CFE_TIME_Reference_t :=
  mkReference (rs_AtToneMET c) (rs_AtToneSTCF c) (rs_LeapSeconds c) (rs_ClockSetState c) (rs_ClockFlyState c) (rs_DelayDirection c)
    (rs_AtToneDelay c) (rs_AtToneLatch c) latch (since_tone max latch (rs_AtToneLatch c)) (met_at max c latch).

Lemma wp_GetReference c (Q : CFE_TIME_Reference_t → TG → Prop) s : ring_ok s c →
  Q (reference_of (MaxLocalClock s) c (latch_of (LocalTime s))) s → wp CFE_TIME_GetReference Q s.
Proof.
  intros H HQ. unfold CFE_TIME_GetReference. wp_step. cbn [GetReference_loop]. wp_step. wp_step. rewrite slot4_Z. wp_step. apply wp_Latch. wp_step.
  eapply wp_rd_ref; [apply (proj2 (rg_has _ _ H))|]. wp_step. eapply wp_rd_ref; [apply (proj2 (rg_has _ _ H))|].
  rewrite (rg_ver _ _ H), Z.eqb_refl. wp_steps. done.
Qed.

End cfg.

(** ** What the operations of the time service do to the reference data *)

Lemma has_same s s' c : ReferenceState s' = ReferenceState s → LastVersionCounter s' = LastVersionCounter s → has_ring s c → has_ring s' c.
Proof. unfold has_ring, current. by intros -> ->. Qed.

Lemma ring_same s s' c : ReferenceState s' = ReferenceState s → LastVersionCounter s' = LastVersionCounter s → ring_ok s c → ring_ok s' c.
Proof. intros E1 E2 [H1 H2 H3]. split; rewrite ?E2; try done. by apply (has_same s). Qed.

Lemma wp_mod_started c s g (Q : unit → TG → Prop) : g (started c s) = started c (g s) → Q tt (started c (g s)) → wp (modify g) Q (started c s).
Proof. intros E HQ. apply wp_modify. by rewrite E. Qed.

Ltac solve_ring := match goal with
  | H : ring_ok _ _ |- ring_ok _ _ => exact H
  | H : has_ring _ _ |- has_ring _ _ => exact H
  | H : ring_ok _ _ |- has_ring _ _ => exact (rg_has _ _ H)
  | H : ring_ok _ _ |- ring_ok _ _ => refine (ring_same _ _ _ _ _ H); reflexivity
  | H : has_ring _ _ |- has_ring _ _ => refine (has_same _ _ _ _ _ H); reflexivity
  | H : ring_ok _ _ |- has_ring _ _ => refine (has_same _ _ _ _ _ (rg_has _ _ H)); reflexivity
  end.
Ltac ref_step :=
  lazymatch goal with
  | |- wp CFE_TIME_StartReferenceUpdate _ _ => eapply wp_Start; [solve_ring|]
  | |- wp (wr_ref _ ?f) _ (started ?c ?s) => eapply (wp_wr_started _ c s f); [solve_ring|done|]
  | |- wp (rd_ref _) _ (started ?c ?s) => eapply (wp_rd_started _ c s); [solve_ring|]
  | |- wp (CFE_TIME_FinishReferenceUpdate _) _ (started ?c ?s) => eapply (wp_Finish _ c s); [solve_ring|]
  | |- wp (modify _) _ (started ?c ?s) => apply wp_mod_started; [reflexivity|]
  | |- wp (send _) _ _ => unfold send
  | |- wp CFE_TIME_LatchClock _ _ => apply wp_Latch
  | |- wp CFE_TIME_GetReference _ _ => eapply wp_GetReference; [solve_ring|]
  | |- wp (when true ?c) _ _ => change (when true c) with c
  | |- wp (when false _) _ _ => apply wp_ret
  | |- wp (when ?b _) _ _ => destruct b eqn:?
  | |- _ => wp_step
  end; cbn beta match.
Ltac ref_go := repeat ref_step.

(** The flywheel state is read from the record being written. *)
Ltac fly_of c :=
  repeat match goal with
  | |- context [rs_ClockFlyState ?x =? _] => assert_fails (constr_eq x c); change (rs_ClockFlyState x) with (rs_ClockFlyState c)
  end.

Section ops.
Context `{Cfg : TimeCfg}.
Implicit Types (c : CFE_TIME_ReferenceState_t) (s : TG) (t : CFE_TIME_SysTime_t).

Definition new_stcf (t : CFE_TIME_SysTime_t) (r : CFE_TIME_Reference_t) : CFE_TIME_SysTime_t :=
  let n := CFE_TIME_Subtract t (CurrentMET r) in
  if TIME_CFG_DEFAULT_UTC then n <| Seconds ::= λ x, u32 (x + AtToneLeapSeconds r) |> else n.

Lemma wp_SetTime c t s : ring_ok s c →
  wp (CFE_TIME_SetTime t) (λ _ s', s' = updated (c <| rs_AtToneSTCF := new_stcf t (reference_of (MaxLocalClock s) c (latch_of (LocalTime s))) |>) s) s.
Proof. intros H. unfold CFE_TIME_SetTime. ref_go. done. Qed.

Lemma wp_SetMET c t s : ring_ok s c →
  wp (CFE_TIME_SetMET t) (λ _ s', s' = updated (c <| rs_AtToneMET := t |> <| rs_AtToneLatch := latch_of (LocalTime s) |>) (s <| VirtualMET := Seconds t |>)) s.
Proof. intros H. unfold CFE_TIME_SetMET. ref_go. done. Qed.

Lemma wp_SetSTCF c t s : ring_ok s c → wp (CFE_TIME_SetSTCF t) (λ _ s', s' = updated (c <| rs_AtToneSTCF := t |>) s) s.
Proof. intros H. unfold CFE_TIME_SetSTCF. ref_go. done. Qed.

Lemma wp_SetLeapSeconds c n s : ring_ok s c → wp (CFE_TIME_SetLeapSeconds n) (λ _ s', s' = updated (c <| rs_LeapSeconds := n |>) s) s.
Proof. intros H. unfold CFE_TIME_SetLeapSeconds. ref_go. done. Qed.

Lemma wp_SetDelay c t d s : ring_ok s c → wp (CFE_TIME_SetDelay t d) (λ _ s', s' = updated (c <| rs_AtToneDelay := t |> <| rs_DelayDirection := d |>) s) s.
Proof. intros H. unfold CFE_TIME_SetDelay. ref_go. done. Qed.

Definition adjusted (t adj : CFE_TIME_SysTime_t) (d : Z) : CFE_TIME_SysTime_t :=
  if d =? CFE_TIME_AdjustDirection_ADD then CFE_TIME_Add t adj else CFE_TIME_Subtract t adj.

Lemma wp_SetAdjust c t d s : ring_ok s c →
  wp (CFE_TIME_SetAdjust t d) (λ _ s', s' = updated (c <| rs_AtToneSTCF := adjusted (rs_AtToneSTCF c) t d |>) (s <| OneTimeAdjust := t |> <| OneTimeDirection := d |>)) s.
Proof. intros H. unfold CFE_TIME_SetAdjust. ref_go. done. Qed.

Lemma wp_SetState c n s : ring_ok s c →
  wp (CFE_TIME_SetState n) (λ _ s',
    if n =? CFE_TIME_ClockState_FLYWHEEL then
      s' = updated (c <| rs_ClockFlyState := CFE_TIME_FlywheelState_IS_FLY |>)
             (s <| Forced2Fly := true |> <| ServerFlyState ::= λ x, if TIME_CFG_SERVER then CFE_TIME_FlywheelState_IS_FLY else x |>)
    else s' = updated (c <| rs_ClockSetState := if n =? CFE_TIME_ClockState_VALID then CFE_TIME_SetState_WAS_SET else CFE_TIME_SetState_NOT_SET |>)
                (s <| Forced2Fly := false |>)) s.
Proof.
  intros H. unfold CFE_TIME_SetState. ref_go.
  destruct (n =? CFE_TIME_ClockState_FLYWHEEL); [ref_go; by destruct s|destruct (n =? CFE_TIME_ClockState_VALID); ref_go; done].
Qed.

(** ** The tone *)

(** The MET at the tone of a server, and its counter of seconds. *)
Definition server_met (s : TG) c (r : CFE_TIME_Reference_t) : CFE_TIME_SysTime_t * Z :=
  if ClockSource s =? CFE_TIME_SourceSelect_INTERNAL then
    let v := if rs_ClockFlyState c =? CFE_TIME_FlywheelState_IS_FLY then Seconds (CurrentMET r) else VirtualMET s in (mkTime v 0, v)
  else match TIME_CFG_SRC with
       | SRC_NONE => (rs_AtToneMET c, VirtualMET s)
       | SRC_MET => (PendingMET s, Seconds (PendingMET s))
       | SRC_GPS | SRC_TIME => (mkTime (VirtualMET s) 0, VirtualMET s)
       end.

Definition external (s : TG) : bool := negb (ClockSource s =? CFE_TIME_SourceSelect_INTERNAL).

(** The record after a tone that matches the data. *)
Definition tone_ref (s : TG) c (r : CFE_TIME_Reference_t) : CFE_TIME_ReferenceState_t :=
  if TIME_CFG_SERVER then
    mkRefState (StateVersion c)
      (if external s && bool_decide (TIME_CFG_SRC = SRC_GPS) then PendingLeaps s else rs_LeapSeconds c)
      (rs_ClockSetState c)
      (if rs_ClockFlyState c =? CFE_TIME_FlywheelState_IS_FLY then CFE_TIME_FlywheelState_NO_FLY else rs_ClockFlyState c)
      (rs_DelayDirection c) (server_met s c r).1
      (if external s && bool_decide (TIME_CFG_SRC = SRC_GPS ∨ TIME_CFG_SRC = SRC_TIME) then PendingSTCF s else rs_AtToneSTCF c)
      (rs_AtToneDelay c) (ToneSignalLatch s)
  else
    mkRefState (StateVersion c) (PendingLeaps s)
      (if PendingState s =? CFE_TIME_ClockState_INVALID then CFE_TIME_SetState_NOT_SET else CFE_TIME_SetState_WAS_SET)
      (if rs_ClockFlyState c =? CFE_TIME_FlywheelState_IS_FLY then CFE_TIME_FlywheelState_NO_FLY else rs_ClockFlyState c)
      (rs_DelayDirection c) (PendingMET s) (PendingSTCF s) (rs_AtToneDelay c) (ToneSignalLatch s).

Definition flying c : bool := rs_ClockFlyState c =? CFE_TIME_FlywheelState_IS_FLY.

(** What else changes: the server's counter and flywheel state, and the event. *)
Definition tone_flags (s : TG) c (r : CFE_TIME_Reference_t) : TG :=
  s <| VirtualMET := if TIME_CFG_SERVER then (server_met s c r).2 else VirtualMET s |>
    <| ServerFlyState := if TIME_CFG_SERVER then (if flying c then CFE_TIME_FlywheelState_NO_FLY else ServerFlyState s)
                         else if PendingState s =? CFE_TIME_ClockState_FLYWHEEL then CFE_TIME_FlywheelState_IS_FLY
                         else CFE_TIME_FlywheelState_NO_FLY |>.

Definition tone_rest (s : TG) c (r : CFE_TIME_Reference_t) : TG :=
  (tone_flags s c r) <| Sent ::= λ l, if flying c then l ++ [OutEvent CFE_TIME_FLY_OFF_EID] else l |>.

Lemma wp_update_server c r s (Q : bool → TG → Prop) : TIME_CFG_SERVER = true → ring_ok s c →
  Q (flying c) (started (tone_ref s c r) (tone_flags s c r)) →
  wp (update_server r (Z.of_nat (slot4 (u32 (LastVersionCounter s + 1))))) Q (started c s).
Proof.
  unfold tone_ref, tone_flags, server_met, external, flying, update_server. intros -> H HQ. ref_go.
  change (ClockSource (started c s)) with (ClockSource s). fly_of c.
  destruct (rs_ClockFlyState c =? CFE_TIME_FlywheelState_IS_FLY) eqn:Ef; destruct (ClockSource s =? CFE_TIME_SourceSelect_INTERNAL) eqn:Es;
    try (destruct TIME_CFG_SRC eqn:Esrc); ref_go; fly_of c; rewrite ?Ef; ref_go.
  all: destruct s, c; exact HQ.
Qed.

Lemma wp_update_client c r s (Q : bool → TG → Prop) : TIME_CFG_SERVER = false → ring_ok s c →
  Q (flying c) (started (tone_ref s c r) (tone_flags s c r)) →
  wp (update_client (Z.of_nat (slot4 (u32 (LastVersionCounter s + 1))))) Q (started c s).
Proof.
  unfold tone_ref, tone_flags, server_met, external, flying, update_client. intros -> H HQ. ref_go.
  change (PendingState (started c s)) with (PendingState s).
  destruct (PendingState s =? CFE_TIME_ClockState_INVALID) eqn:Es.
  all: destruct (rs_ClockFlyState c =? CFE_TIME_FlywheelState_IS_FLY) eqn:Ef;
    ref_go; fly_of c; rewrite ?Ef; ref_go.
  all: try (apply Z.eqb_eq in Es; rewrite Es in HQ); destruct s, c; exact HQ.
Qed.

Lemma wp_ToneUpdate c s : ring_ok s c →
  let r := reference_of (MaxLocalClock s) c (latch_of (LocalTime s)) in
  wp CFE_TIME_ToneUpdate (λ _ s', s' = updated (tone_ref s c r) (tone_rest s c r)) s.
Proof.
  intros H r. unfold CFE_TIME_ToneUpdate. ref_go. fold r.
  destruct TIME_CFG_SERVER eqn:Esrv; [apply wp_update_server|apply (wp_update_client _ r)]; try done.
  all: do 2 ref_step; unfold tone_rest; generalize (tone_flags s c r); intros s'; ref_go; by destruct s'.
Qed.

(** The time that has elapsed from [Time1] to [Time2]. *)
Definition tone_elapsed (max Time1 Time2 : CFE_TIME_SysTime_t) : CFE_TIME_SysTime_t :=
  if decide (CFE_TIME_Compare Time1 Time2 = CFE_TIME_A_GT_B) then CFE_TIME_Add (CFE_TIME_Subtract max Time1) Time2
  else CFE_TIME_Subtract Time2 Time1.

Definition tone_match (s : TG) (Time1 Time2 : CFE_TIME_SysTime_t) : bool :=
  bool_decide (CFE_TIME_Compare (PrevTime1 s) Time1 ≠ CFE_TIME_EQUAL) && bool_decide (CFE_TIME_Compare (PrevTime2 s) Time2 ≠ CFE_TIME_EQUAL) &&
  (let e := tone_elapsed (MaxLocalClock s) Time1 Time2 in
   (Seconds e =? 0) && (MinElapsed s <=? Subseconds e) && (Subseconds e <=? MaxElapsed s)).

Definition tone_done (s : TG) c (Time1 Time2 : CFE_TIME_SysTime_t) : TG :=
  if tone_match s Time1 Time2 then
    let s1 := s <| ToneMatchCounter ::= λ n, u32 (n + 1) |> in
    let r := reference_of (MaxLocalClock s) c (latch_of (LocalTime s)) in
    if Forced2Fly s then s1 else updated (tone_ref s c r) (tone_rest s1 c r)
  else s <| ToneMatchErrorCounter ::= λ n, u32 (n + 1) |>.

Lemma wp_ToneVerify c Time1 Time2 s : ring_ok s c →
  wp (CFE_TIME_ToneVerify Time1 Time2) (λ _ s', s' = (tone_done s c Time1 Time2) <| PrevTime1 := Time1 |> <| PrevTime2 := Time2 |>) s.
Proof.
  intros H. unfold CFE_TIME_ToneVerify, tone_done, tone_match. wp_step. wp_step. wp_step.
  fold (tone_elapsed (MaxLocalClock s) Time1 Time2).
  destruct (decide (CFE_TIME_Compare (PrevTime1 s) Time1 = CFE_TIME_EQUAL)) as [E1|E1].
  { rewrite (bool_decide_eq_false_2 (CFE_TIME_Compare (PrevTime1 s) Time1 ≠ _)) by auto. wp_steps. done. }
  rewrite (bool_decide_eq_true_2 (CFE_TIME_Compare (PrevTime1 s) Time1 ≠ _)) by auto.
  destruct (decide (CFE_TIME_Compare (PrevTime2 s) Time2 = CFE_TIME_EQUAL)) as [E2|E2].
  { rewrite (bool_decide_eq_false_2 (CFE_TIME_Compare (PrevTime2 s) Time2 ≠ _)) by auto. wp_steps. done. }
  rewrite (bool_decide_eq_true_2 (CFE_TIME_Compare (PrevTime2 s) Time2 ≠ _)) by auto. cbn [andb].
  set (e := tone_elapsed _ _ _). rewrite !Z.leb_antisym.
  destruct (Seconds e =? 0), (Subseconds e <? MinElapsed s), (MaxElapsed s <? Subseconds e); cbn [negb andb orb]; try (wp_steps; done).
  wp_step. wp_step. destruct (Forced2Fly s); cbn [negb when].
  - wp_steps. done.
  - eapply wp_mono; [apply (wp_ToneUpdate c); by apply (ring_same s)|]. intros _ s' ->. wp_steps. done.
Qed.

(** ** The 1 Hz state machine *)

Definition adjusting (s : TG) : bool := TIME_CFG_SERVER && (negb (Seconds (OneHzAdjust s) =? 0) || negb (Subseconds (OneHzAdjust s) =? 0)).

(** The record and the state after the adjustment of the STCF. *)
Definition hz_ref (s : TG) c : CFE_TIME_ReferenceState_t :=
  if adjusting s then c <| rs_AtToneSTCF := adjusted (rs_AtToneSTCF c) (OneHzAdjust s) (OneHzDirection s) |> else c.
Definition hz_state (s : TG) c : TG := if adjusting s then updated (hz_ref s c) s else s.

Lemma hz_ring s c : ring_ok s c → ring_ok (hz_state s c) ((hz_ref s c) <| StateVersion := LastVersionCounter (hz_state s c) |>).
Proof.
  intros H. unfold hz_state, hz_ref. destruct (adjusting s); [by apply (updated_ok c), rg_has|].
  destruct c. cbn. rewrite <- (rg_ver _ _ H). done.
Qed.

Definition hz_since (s : TG) c : Z := Seconds (since_tone (MaxLocalClock s) (latch_of (LocalTime s)) (rs_AtToneLatch c)).
Definition hz_start (s : TG) c : bool := (rs_ClockFlyState c =? CFE_TIME_FlywheelState_NO_FLY) && (CFE_PLATFORM_TIME_CFG_START_FLY <=? hz_since s c).
Definition hz_latch (s : TG) c : bool := (rs_ClockFlyState c =? CFE_TIME_FlywheelState_IS_FLY) && (CFE_PLATFORM_TIME_CFG_LATCH_FLY <=? hz_since s c).

(** The adjustment changes none of what the flywheel mode depends on. *)
Lemma hz_reference s c v max l : let r := reference_of max ((hz_ref s c) <| StateVersion := v |>) l in
  ClockFlyState r = rs_ClockFlyState c ∧ TimeSinceTone r = since_tone max l (rs_AtToneLatch c) ∧ CurrentMET r = met_at max c l ∧ CurrentLatch r = l.
Proof. unfold hz_ref. by destruct (adjusting s). Qed.

Lemma hz_clock s c : MaxLocalClock (hz_state s c) = MaxLocalClock s ∧ LocalTime (hz_state s c) = LocalTime s.
Proof. unfold hz_state. by destruct (adjusting s). Qed.

Lemma wp_Local1HzStateMachine c s : ring_ok s c →
  wp CFE_TIME_Local1HzStateMachine (λ _ s',
    s' = if hz_start s c then
           updated ((hz_ref s c) <| rs_ClockFlyState := CFE_TIME_FlywheelState_IS_FLY |>)
             ((hz_state s c) <| ServerFlyState ::= λ x, if TIME_CFG_SERVER then CFE_TIME_FlywheelState_IS_FLY else x |> <| AutoStartFly := true |>)
         else if hz_latch s c then
           updated ((hz_ref s c) <| rs_AtToneMET := met_at (MaxLocalClock s) c (latch_of (LocalTime s)) |> <| rs_AtToneLatch := latch_of (LocalTime s) |>) (hz_state s c)
         else hz_state s c) s.
Proof.
  intros H. unfold CFE_TIME_Local1HzStateMachine. wp_step. wp_step. wp_step. fold (adjusting s).
  eapply (wp_mono _ (λ _ s1, s1 = hz_state s c)).
  { unfold hz_state, hz_ref. ref_go; done. }
  intros _ s1 ->. pose proof (hz_ring s c H) as Hr. wp_step. eapply wp_GetReference; [exact Hr|].
  destruct (hz_clock s c) as [-> ->]. destruct (hz_reference s c (LastVersionCounter (hz_state s c)) (MaxLocalClock s) (latch_of (LocalTime s))) as (-> & -> & -> & ->).
  fold (hz_since s c). generalize (met_at (MaxLocalClock s) c (latch_of (LocalTime s))), (latch_of (LocalTime s)). intros met l.
  unfold hz_start, hz_latch. revert Hr. generalize (hz_state s c), (hz_ref s c). intros s1 c1 Hr.
  destruct (rs_ClockFlyState c =? CFE_TIME_FlywheelState_NO_FLY) eqn:En.
  - apply Z.eqb_eq in En. rewrite En. change (CFE_TIME_FlywheelState_NO_FLY =? CFE_TIME_FlywheelState_IS_FLY) with false. cbn [andb].
    destruct (CFE_PLATFORM_TIME_CFG_START_FLY <=? hz_since s c); ref_go; by destruct s1, c1.
  - cbn [andb]. ref_go; by destruct s1, c1.
Qed.

End ops.

(** ** Initialization of the time service and its reset area: lemmas *)

(** The reset area holds data of a previous run. *)
Definition area_valid (v : CFE_TIME_ResetVars_t) : bool :=
  (rv_Signature v =? CFE_TIME_RESET_SIGNATURE) &&
  ((rv_ClockSignal v =? CFE_TIME_ToneSignalSelect_PRIMARY) || (rv_ClockSignal v =? CFE_TIME_ToneSignalSelect_REDUNDANT)).

Definition default_vars : CFE_TIME_ResetVars_t :=
  mkResetVars 0 CFE_MISSION_TIME_DEF_LEAPS CFE_TIME_ToneSignalSelect_PRIMARY
    (mkTime CFE_MISSION_TIME_DEF_MET_SECS (CFE_TIME_Micro2SubSecs CFE_MISSION_TIME_DEF_MET_SUBS))
    (mkTime CFE_MISSION_TIME_DEF_STCF_SECS (CFE_TIME_Micro2SubSecs CFE_MISSION_TIME_DEF_STCF_SUBS)) (mkTime 0 0).

(** What the service starts from, and what it reports about it. *)
Definition start_vars (a : ptr CFE_TIME_ResetVars_t) : CFE_TIME_ResetVars_t :=
  match a with Some v => if area_valid v then v else default_vars | None => default_vars end.
Definition store_status (a : ptr CFE_TIME_ResetVars_t) : Z :=
  match a with
  | Some v => if area_valid v then CFE_TIME_RESET_AREA_EXISTING else CFE_TIME_RESET_AREA_NEW
  | None => CFE_TIME_RESET_AREA_BAD
  end.

Definition with_vars (v : CFE_TIME_ResetVars_t) (c : CFE_TIME_ReferenceState_t) : CFE_TIME_ReferenceState_t :=
  c <| rs_AtToneMET := rv_CurrentMET v |> <| rs_AtToneSTCF := rv_CurrentSTCF v |> <| rs_AtToneDelay := rv_CurrentDelay v |>
    <| rs_LeapSeconds := rv_LeapSeconds v |>.

Lemma wp_QueryResetVars c s (Q : unit → TG → Prop) : has_ring s c →
  Q tt (updated (with_vars (start_vars (ResetArea s)) c)
          (s <| ClockSignal := rv_ClockSignal (start_vars (ResetArea s)) |> <| DataStoreStatus := store_status (ResetArea s) |>)) →
  wp CFE_TIME_QueryResetVars Q s.
Proof.
  intros H HQ. unfold CFE_TIME_QueryResetVars. ref_go. change (ResetArea (started c s)) with (ResetArea s).
  unfold start_vars, store_status in HQ. destruct (ResetArea s) as [v|] eqn:Ea; [fold (area_valid v); destruct (area_valid v)|].
  all: ref_go; try discriminate; revert HQ; clear; destruct s, c; auto.
Qed.

Section init.
Context `{Cfg : TimeCfg}.

(** The record in use after the initialization. *)
Definition init_ref (s : TG) : CFE_TIME_ReferenceState_t :=
  let v := start_vars (ResetArea s) in
  mkRefState 2 (rv_LeapSeconds v) CFE_TIME_SetState_NOT_SET CFE_TIME_FlywheelState_IS_FLY CFE_TIME_AdjustDirection_ADD
    (rv_CurrentMET v) (rv_CurrentSTCF v) (rv_CurrentDelay v) (latch_of (LocalTime s)).

(** The rest of the state: what the initialization does not set is cleared. *)
Definition init_rest (s s' : TG) : Prop :=
  let v := start_vars (ResetArea s) in
  ResetArea s' = ResetArea s ∧ LocalTime s' = LocalTime s ∧ Sent s' = Sent s ∧ ClockSignal s' = rv_ClockSignal v ∧
  DataStoreStatus s' = store_status (ResetArea s) ∧ VirtualMET s' = Seconds (rv_CurrentMET v) ∧ Forced2Fly s' = false ∧
  ServerFlyState s' = CFE_TIME_FlywheelState_IS_FLY ∧ PendingMET s' = zero_time ∧ PendingSTCF s' = zero_time ∧ ToneSignalLatch s' = zero_time ∧
  SynchCallback s' = replicate (Z.to_nat CFE_PLATFORM_ES_MAX_APPLICATIONS) NULL ∧
  MaxLocalClock s' = mkTime CFE_PLATFORM_TIME_MAX_LOCAL_SECS CFE_PLATFORM_TIME_MAX_LOCAL_SUBS ∧ OneHzAdjust s' = zero_time ∧
  MaxElapsed s' = CFE_TIME_Micro2SubSecs CFE_MISSION_TIME_MAX_ELAPSED.

(** The state before the second update of the record. *)
Definition init_mid (s s1 : TG) : Prop :=
  ResetArea s1 = ResetArea s ∧ LocalTime s1 = LocalTime s ∧ Sent s1 = Sent s ∧ ClockSignal s1 = rv_ClockSignal (start_vars (ResetArea s)) ∧
  DataStoreStatus s1 = store_status (ResetArea s) ∧ Forced2Fly s1 = false ∧ PendingMET s1 = zero_time ∧ PendingSTCF s1 = zero_time ∧ ToneSignalLatch s1 = zero_time ∧
  SynchCallback s1 = replicate (Z.to_nat CFE_PLATFORM_ES_MAX_APPLICATIONS) NULL ∧ OneHzAdjust s1 = zero_time ∧ LastVersionCounter s1 = 1.

Definition blank (s : TG) : TG := (cleared s) <| ReferenceState ::= fmap (λ r, r <| StateVersion := 0xFFFFFFFF |>) |>.

Lemma blank_ring s : has_ring (blank s) (zero_ref <| StateVersion := 0xFFFFFFFF |>).
Proof. split; reflexivity. Qed.

Definition mid_ref (s : TG) : CFE_TIME_ReferenceState_t := (with_vars (start_vars (ResetArea s)) zero_ref) <| StateVersion := 1 |>.

Lemma wp_mid s (Q : unit → TG → Prop) : (∀ s1, has_ring s1 (mid_ref s) → init_mid s s1 → Q tt s1) → wp CFE_TIME_QueryResetVars Q (blank s).
Proof.
  intros HQ. eapply wp_QueryResetVars; [apply blank_ring|]. apply HQ; [|split_and!; reflexivity].
  exact (rg_has _ _ (updated_ok _ _ _ (has_same _ _ _ eq_refl eq_refl (blank_ring s)))).
Qed.

Lemma wp_InitData s : wp CFE_TIME_InitData (λ _ s', ring_ok s' (init_ref s) ∧ init_rest s s') s.
Proof.
  unfold CFE_TIME_InitData. do 5 wp_step. apply wp_mid.
  intros s1 H (F1 & F2 & F3 & F4 & F5 & F6 & F7 & F8 & F9 & F10 & F11 & F12). ref_go.
  all: split; [|split_and!; first [exact F1|exact F2|exact F3|exact F4|exact F5|reflexivity|exact F6|exact F7|exact F8|exact F9|exact F10|exact F11]].
  all: match goal with |- ring_ok (updated ?c ?s) ?i => replace i with (c <| StateVersion := u32 (LastVersionCounter s + 1) |>) end;
    [eapply updated_ok; solve_ring|cbn; unfold init_ref; rewrite F2, F12; reflexivity].
Qed.

End init.
