(* ===== verification/TimeSafe.v ===== *)
(** * The invariant of the time service

    The invariant holds after the initialization and every call of the service keeps it;
    none of them fails. *)
From S2P Require Import Prelude Config ResourceId EsApp Sbr SbrProps TimeApi TimeState TimeTone TimeTask TimeOps.

Section inv.
Context `{Cfg : TimeCfg}.
Implicit Types (c : CFE_TIME_ReferenceState_t) (s : TG) (t : CFE_TIME_SysTime_t).

Definition fly_state (z : Z) : Prop := z = CFE_TIME_FlywheelState_NO_FLY ∨ z = CFE_TIME_FlywheelState_IS_FLY.
Definition set_state (z : Z) : Prop := z = CFE_TIME_SetState_NOT_SET ∨ z = CFE_TIME_SetState_WAS_SET.

(** The record in use holds times and states. *)
Definition rec_ok c : Prop := ref_ok c ∧ fly_state (rs_ClockFlyState c) ∧ set_state (rs_ClockSetState c).

Definition vars_ok (v : CFE_TIME_ResetVars_t) : Prop := time_ok (rv_CurrentMET v) ∧ time_ok (rv_CurrentSTCF v) ∧ time_ok (rv_CurrentDelay v).

(** The limits are 32 bit values. *)
Definition limits_ok s : Prop := is_u32 (MaxElapsed s) ∧ time_ok (MaxLocalClock s).

Definition glob_ok s : Prop :=
  time_ok (PendingMET s) ∧ time_ok (PendingSTCF s) ∧ time_ok (ToneSignalLatch s) ∧ is_u32 (VirtualMET s) ∧
  length (SynchCallback s) = Z.to_nat CFE_PLATFORM_ES_MAX_APPLICATIONS ∧ (∀ v, ResetArea s = Some v → vars_ok v) ∧ limits_ok s.

(** A clock commanded into flywheel mode is in flywheel mode. *)
Definition time_inv s c : Prop := ring_ok s c ∧ rec_ok c ∧ glob_ok s ∧ (Forced2Fly s = true → rs_ClockFlyState c = CFE_TIME_FlywheelState_IS_FLY).

Definition keeps {A} (m : M TG A) : Prop := ∀ s c, time_inv s c → wp m (λ _ s', ∃ c', time_inv s' c') s.

Lemma inv_updated c0 c s : has_ring s c0 → rec_ok c → glob_ok s → (Forced2Fly s = true → rs_ClockFlyState c = CFE_TIME_FlywheelState_IS_FLY) →
  ∃ c', time_inv (updated c s) c'.
Proof. intros H Hr Hg Hf. eexists. split; [by apply (updated_ok c0)|]. split; [destruct c; apply Hr|]. split; [exact Hg|destruct c; exact Hf]. Qed.

(** Changes of the state that do not concern the invariant. *)
Lemma inv_same s s' c : ReferenceState s' = ReferenceState s → LastVersionCounter s' = LastVersionCounter s → glob_ok s' → Forced2Fly s' = Forced2Fly s →
  time_inv s c → ∃ c', time_inv s' c'.
Proof. intros E1 E2 Hg Ef (Hr & Hc & _ & Hf). exists c. split; [by apply (ring_same s)|]. split; [done|]. split; [done|by rewrite Ef]. Qed.

Lemma keeps_ret {A} (a : A) : keeps (mret a).
Proof. intros s c H. apply wp_ret. by exists c. Qed.

Lemma keeps_bind {A B} (m : M TG A) (k : A → M TG B) : keeps m → (∀ a, keeps (k a)) → keeps (m ≫= k).
Proof. intros Hm Hk s c H. apply wp_bind. eapply wp_mono; [by eapply Hm|]. intros a s' [c' H']. by eapply Hk. Qed.

Lemma keeps_gets {A} (f : TG → A) : keeps (gets f).
Proof. intros s c H. apply wp_gets. by exists c. Qed.

Lemma keeps_when (b : bool) m : (b = true → keeps m) → keeps (when b m).
Proof. intros Hm. destruct b; [by apply Hm|apply keeps_ret]. Qed.

(** An operation that changes counters, modes or what is sent only. *)
Lemma keeps_modify f : (∀ s, ReferenceState (f s) = ReferenceState s ∧ LastVersionCounter (f s) = LastVersionCounter s ∧ Forced2Fly (f s) = Forced2Fly s ∧
    (glob_ok s → glob_ok (f s))) → keeps (modify f).
Proof. intros Hf s c H. apply wp_modify. destruct (Hf s) as (E1 & E2 & E3 & Hg). eapply inv_same; [done|done|apply Hg, H|done|exact H]. Qed.

Lemma keeps_send o : keeps (send o).
Proof. apply keeps_modify. intros s. split_and!; try reflexivity. done. Qed.

Lemma time_ok_zero : time_ok zero_time.
Proof. by vm_compute. Qed.

Lemma keeps_GetReference : keeps CFE_TIME_GetReference.
Proof. intros s c H. eapply wp_GetReference; [apply H|]. by exists c. Qed.

Lemma keeps_Calculate r : keeps (CFE_TIME_CalculateState r).
Proof. unfold CFE_TIME_CalculateState. repeat case_match; try apply keeps_ret. apply keeps_bind; [apply keeps_gets|intros]. apply keeps_ret. Qed.

Lemma keeps_ClockInfo : keeps CFE_TIME_GetClockInfo.
Proof.
  intros s c H. unfold CFE_TIME_GetClockInfo, CFE_TIME_GetReferenceState. wp_steps. rewrite slot4_Z.
  eapply wp_rd_ref; [apply (proj2 (rg_has _ _ (proj1 H)))|]. wp_steps. by exists c.
Qed.

End inv.

Create HintDb time_keeps.
#[export] Hint Resolve keeps_ret keeps_gets keeps_send keeps_GetReference keeps_Calculate keeps_ClockInfo : time_keeps.

(** Walks through a computation whose parts keep the invariant. *)
Ltac keeps_mod := apply keeps_modify; intros ?; split_and!; try reflexivity; done.
Ltac keeps_go :=
  repeat first
    [ progress intros
    | solve [eauto with time_keeps nocore]
    | keeps_mod
    | apply keeps_bind
    | apply keeps_when
    | case_match ].

(** The condition on the record an operation makes current. *)
Ltac inv_upd :=
  eapply inv_updated;
  [match goal with H : time_inv _ _ |- _ => refine (has_same _ _ _ _ _ (rg_has _ _ (proj1 H))); reflexivity end
  |match goal with H : time_inv _ _ |- _ => destruct H as (_ & ((? & ? & ? & ?) & ? & ?) & _) end; unfold rec_ok, ref_ok; split_and!; try done
  |match goal with H : time_inv _ _ |- _ => destruct H as (_ & _ & (? & ? & ? & ? & ? & ? & ?) & _) end; unfold glob_ok; split_and!; try done
  |try (match goal with H : time_inv _ _ |- _ => exact (proj2 (proj2 (proj2 H))) end)].

Section ops.
Context `{Cfg : TimeCfg}.
Implicit Types (c : CFE_TIME_ReferenceState_t) (s : TG) (t : CFE_TIME_SysTime_t).

Lemma adjusted_ok t a d : time_ok (adjusted t a d).
Proof. unfold adjusted. case_match; [apply Add_ok|apply Subtract_ok]. Qed.

Lemma new_stcf_ok t r : time_ok (new_stcf t r).
Proof. unfold new_stcf. pose proof (Subtract_ok t (CurrentMET r)) as H. case_match; [|done]. split; [apply u32_range|apply H]. Qed.

Lemma keeps_SetTime t : keeps (CFE_TIME_SetTime t).
Proof. intros s c H. eapply wp_mono; [apply wp_SetTime, H|]. intros _ s' ->. inv_upd. apply new_stcf_ok. Qed.

Lemma keeps_SetMET t : time_ok t → keeps (CFE_TIME_SetMET t).
Proof. intros Ht s c H. eapply wp_mono; [apply wp_SetMET, H|]. intros _ s' ->. inv_upd; [apply latch_ok|apply Ht]. Qed.

Lemma keeps_SetSTCF t : time_ok t → keeps (CFE_TIME_SetSTCF t).
Proof. intros Ht s c H. eapply wp_mono; [apply wp_SetSTCF, H|]. intros _ s' ->. inv_upd. Qed.

Lemma keeps_SetLeapSeconds n : keeps (CFE_TIME_SetLeapSeconds n).
Proof. intros s c H. eapply wp_mono; [apply wp_SetLeapSeconds, H|]. intros _ s' ->. inv_upd. Qed.

Lemma keeps_SetDelay t d : time_ok t → keeps (CFE_TIME_SetDelay t d).
Proof. intros Ht s c H. eapply wp_mono; [apply wp_SetDelay, H|]. intros _ s' ->. inv_upd. Qed.

Lemma keeps_SetAdjust t d : keeps (CFE_TIME_SetAdjust t d).
Proof. intros s c H. eapply wp_mono; [apply wp_SetAdjust, H|]. intros _ s' ->. inv_upd. apply adjusted_ok. Qed.

Lemma keeps_SetState n : keeps (CFE_TIME_SetState n).
Proof.
  intros s c H. eapply wp_mono; [apply wp_SetState, H|]. intros ? s'. cbn beta.
  destruct (n =? CFE_TIME_ClockState_FLYWHEEL); intros ->; inv_upd; try done; [by right|]. cbn. destruct (n =? CFE_TIME_ClockState_VALID); [by right|by left].
Qed.

Lemma server_met_ok s c r : rec_ok c → glob_ok s → is_u32 (Seconds (CurrentMET r)) → time_ok (server_met s c r).1 ∧ is_u32 (server_met s c r).2.
Proof.
  intros ((Hm & _) & _) (Hp & _ & _ & Hv & _) Hr. assert (is_u32 0) by (unfold is_u32; lia).
  unfold server_met. repeat case_match; cbn; split; first [done|by split|apply Hp].
Qed.

Lemma tone_ref_ok s c r : rec_ok c → glob_ok s → is_u32 (Seconds (CurrentMET r)) → rec_ok (tone_ref s c r).
Proof.
  intros Hc Hg Hr. destruct (server_met_ok s c r Hc Hg Hr) as [Hm _]. destruct Hc as ((H1 & H2 & H3 & H4) & Hf & Hs).
  destruct Hg as (Hp1 & Hp2 & Hl & _). unfold rec_ok, ref_ok, tone_ref. destruct TIME_CFG_SERVER; cbn; split_and!; try done.
  - by case_match.
  - case_match; [by left|done].
  - case_match; [by left|done].
  - case_match; [by left|by right].
Qed.

Lemma tone_rest_ok s c r : rec_ok c → glob_ok s → is_u32 (Seconds (CurrentMET r)) → glob_ok (tone_rest s c r).
Proof.
  intros Hc Hg Hr. destruct (server_met_ok s c r Hc Hg Hr) as [_ Hv]. destruct Hg as (? & ? & ? & ? & ? & ? & ?).
  unfold glob_ok. split_and!; try done. cbn. by destruct TIME_CFG_SERVER.
Qed.

Lemma keeps_ToneVerify t1 t2 : keeps (CFE_TIME_ToneVerify t1 t2).
Proof.
  intros s c H. eapply wp_mono; [apply wp_ToneVerify, H|]. intros _ s' ->. unfold tone_done.
  destruct (tone_match s t1 t2); [destruct (Forced2Fly s) eqn:Ef|];
    try solve [apply (inv_same s _ c); first [exact H|reflexivity|exact (proj1 (proj2 (proj2 H)))]].
  destruct (H : time_inv s c) as (Hr & Hc & Hg & _). set (r := reference_of _ _ _).
  assert (is_u32 (Seconds (CurrentMET r))) as Hm by apply met_ok. set (s1 := s <| ToneMatchCounter ::= _ |>).
  refine (inv_updated c (tone_ref s c r) ((tone_rest s1 c r) <| PrevTime1 := t1 |> <| PrevTime2 := t2 |>) _ _ _ _).
  - exact (has_same s _ _ eq_refl eq_refl (rg_has _ _ Hr)).
  - by apply tone_ref_ok.
  - by apply tone_rest_ok.
  - intros E. exfalso. change (Forced2Fly s = true) in E. congruence.
Qed.

Lemma keeps_Local1HzStateMachine : keeps CFE_TIME_Local1HzStateMachine.
Proof.
  intros s c H. eapply wp_mono; [apply wp_Local1HzStateMachine, H|]. intros _ s' ->.
  assert (∃ c1, time_inv (hz_state s c) c1 ∧ c1 = (hz_ref s c) <| StateVersion := LastVersionCounter (hz_state s c) |>) as (c1 & H1 & E).
  { eexists. split; [|reflexivity]. split; [apply hz_ring, H|]. destruct H as (_ & ((? & ? & ? & ?) & ? & ?) & Hg & Hf). unfold hz_ref, hz_state.
    destruct (adjusting s); [|by destruct c]. split; [unfold rec_ok, ref_ok; split_and!; try done; apply adjusted_ok|done]. }
  assert (rec_ok (hz_ref s c)) as Hc by (destruct H1 as (_ & Hc & _); subst c1; by destruct (hz_ref s c)).
  assert (∀ s1, ReferenceState s1 = ReferenceState (hz_state s c) → LastVersionCounter s1 = LastVersionCounter (hz_state s c) → has_ring s1 c1) as Hr
    by (intros s1 E1 E2; apply (has_same (hz_state s c)); [done..|apply rg_has, H1]).
  destruct Hc as ((? & ? & ? & ?) & ? & ?), (proj1 (proj2 (proj2 H1))) as (? & ? & ? & ? & ? & ? & ?).
  destruct (hz_start s c); [|destruct (hz_latch s c); [|by exists c1]].
  - eapply inv_updated; [by apply Hr|unfold rec_ok, ref_ok; split_and!; try done; by right|unfold glob_ok; by split_and!|done].
  - eapply inv_updated; [by apply Hr|unfold rec_ok, ref_ok; split_and!; try done; [apply met_ok|apply latch_ok]|unfold glob_ok; by split_and!|].
    intros Ef. rewrite <- (proj2 (proj2 (proj2 H1)) Ef). rewrite E. done.
Qed.

End ops.

#[export] Hint Resolve keeps_SetTime keeps_SetMET keeps_SetSTCF keeps_SetLeapSeconds keeps_SetDelay keeps_SetAdjust keeps_SetState
  keeps_ToneVerify keeps_Local1HzStateMachine : time_keeps.

Section calls.
Context `{Cfg : TimeCfg}.
Implicit Types (c : CFE_TIME_ReferenceState_t) (s : TG) (t : CFE_TIME_SysTime_t).

Lemma keeps_accept e : keeps (accept e).
Proof. unfold accept. keeps_go. Qed.

Lemma keeps_reject e : keeps (reject e).
Proof. unfold reject. keeps_go. Qed.

Lemma keeps_latch {B} (k : CFE_TIME_SysTime_t → M TG B) : (∀ l, time_ok l → keeps (k l)) → keeps (CFE_TIME_LatchClock ≫= k).
Proof. intros Hk s c H. apply wp_bind, wp_Latch. eapply Hk; [apply latch_ok|exact H]. Qed.

(** A change of one of the fields of [glob_ok]. *)
Ltac keeps_glob := apply keeps_modify; intros s; split_and!; try reflexivity; intros (? & ? & ? & ? & ? & ? & ?); unfold glob_ok; split_and!; try done.

Lemma keeps_ToneData p : time_ok (td_AtToneMET p) → time_ok (td_AtToneSTCF p) → keeps (CFE_TIME_ToneData p).
Proof.
  intros Hm Hs. unfold CFE_TIME_ToneData. apply keeps_latch. intros l Hl. apply keeps_bind; [keeps_mod|intros _].
  apply keeps_bind; [keeps_glob|intros _]. apply keeps_bind; [keeps_glob|intros _]. keeps_go.
Qed.

Lemma keeps_ToneSignal : keeps CFE_TIME_ToneSignal.
Proof. unfold CFE_TIME_ToneSignal. keeps_go. Qed.

Lemma keeps_Notify : keeps CFE_TIME_NotifyTimeSynchApps.
Proof. unfold CFE_TIME_NotifyTimeSynchApps. keeps_go. Qed.

Lemma keeps_Tone1HzISR : keeps CFE_TIME_Tone1HzISR.
Proof.
  unfold CFE_TIME_Tone1HzISR. apply keeps_latch. intros l Hl. apply keeps_bind; [apply keeps_gets|intros g]. apply keeps_bind.
  - case_match; keeps_go; keeps_glob; apply u32_range.
  - intros _. apply keeps_bind; [keeps_glob|intros _; apply keeps_Notify].
Qed.

Lemma keeps_ToneSend : keeps CFE_TIME_ToneSend.
Proof. unfold CFE_TIME_ToneSend. keeps_go. Qed.

Lemma keeps_send_external m t n r : keeps (send_external m t n r).
Proof. unfold send_external. keeps_go. Qed.

Lemma keeps_ToneSendMET t : keeps (CFE_TIME_ToneSendMET t).
Proof. unfold CFE_TIME_ToneSendMET. keeps_go; first [apply keeps_ToneSend|apply keeps_send_external]. Qed.

Lemma keeps_ToneSendGPS t n : keeps (CFE_TIME_ToneSendGPS t n).
Proof. unfold CFE_TIME_ToneSendGPS. keeps_go; first [apply keeps_ToneSend|apply keeps_send_external]. Qed.

Lemma keeps_ToneSendTime t : keeps (CFE_TIME_ToneSendTime t).
Proof. unfold CFE_TIME_ToneSendTime. keeps_go; first [apply keeps_ToneSend|apply keeps_send_external]. Qed.

Lemma keeps_UpdateResetVars r : time_ok (CurrentMET r) → time_ok (AtToneSTCF r) → time_ok (AtToneDelay r) → keeps (CFE_TIME_UpdateResetVars r).
Proof.
  intros Hm Hs Hd. unfold CFE_TIME_UpdateResetVars. apply keeps_bind; [apply keeps_gets|intros st]. apply keeps_when. intros _.
  apply keeps_bind; [apply keeps_gets|intros sg]. keeps_glob. intros v Hv. change (fmap (λ _, mkResetVars CFE_TIME_RESET_SIGNATURE (AtToneLeapSeconds r) sg (CurrentMET r) (AtToneSTCF r) (AtToneDelay r)) (ResetArea s) = Some v) in Hv.
  destruct (ResetArea s); [|done]. injection Hv as <-. by split_and!.
Qed.

#[local] Hint Resolve keeps_accept keeps_reject keeps_Tone1HzISR keeps_ToneSend keeps_ToneData keeps_ToneSignal : time_keeps.

(** ** Callbacks *)

Lemma AppID_ToIndex_range a st i : CFE_ES_AppID_ToIndex a (Some 0) = (st, i) → st = CFE_SUCCESS → 0 <= default 0 i < CFE_PLATFORM_ES_MAX_APPLICATIONS.
Proof.
  unfold CFE_ES_AppID_ToIndex, CFE_ResourceId_ToIndex. case_match; intros [= <- <-] E; [done|]. cbn. by apply Z.mod_pos_bound.
Qed.

Lemma cb_length s c : time_inv s c → length (SynchCallback s) = Z.to_nat CFE_PLATFORM_ES_MAX_APPLICATIONS.
Proof. by intros (_ & _ & (_ & _ & _ & _ & H & _) & _). Qed.

Lemma wp_cb_get s c i (Q : addr → TG → Prop) : time_inv s c → 0 <= i < CFE_PLATFORM_ES_MAX_APPLICATIONS → (∀ p, Q p s) → wp (tbl_get (SynchCallback s) i) Q s.
Proof.
  intros H Hi HQ. destruct (lookup_lt_is_Some_2 (SynchCallback s) (Z.to_nat i)) as [p Hp]; [rewrite (cb_length _ _ H); lia|].
  eapply wp_eq; [apply tbl_get_Some; [lia|exact Hp]|apply HQ].
Qed.

Lemma wp_cb_set s c i (f : addr → addr) {B} (b : B) : time_inv s c → 0 <= i < CFE_PLATFORM_ES_MAX_APPLICATIONS →
  wp (tbl ← of_option (tbl_upd f i (SynchCallback s)); modify (λ s, s <| SynchCallback := tbl |>);; mret b) (λ _ s', ∃ c', time_inv s' c') s.
Proof.
  intros H Hi. wp_step. eapply wp_of_option; [apply tbl_upd_Some; rewrite (cb_length _ _ H), Z2Nat.id by done; done|]. wp_steps.
  apply (inv_same s _ c); try done. destruct H as (_ & _ & (? & ? & ? & ? & ? & ? & ?) & _). unfold glob_ok. split_and!; try done. cbn. by rewrite length_alter.
Qed.

Lemma keeps_Register a f : keeps (CFE_TIME_RegisterSynchCallback a f).
Proof.
  unfold CFE_TIME_RegisterSynchCallback. destruct (f =? NULL); [apply keeps_ret|]. destruct a as [st a], (st =? CFE_SUCCESS); [|apply keeps_ret].
  destruct (CFE_ES_AppID_ToIndex a (Some 0)) as [st' i] eqn:E. destruct (Z.eqb_spec st' CFE_SUCCESS) as [Es|_]; [|apply keeps_ret].
  pose proof (AppID_ToIndex_range _ _ _ E Es) as Hi. intros s c H. wp_step. wp_step. case_match; [wp_step; by exists c|].
  wp_step. eapply wp_cb_get; [exact H|done|]. intros p. case_match; [wp_step; by exists c|]. by eapply wp_cb_set.
Qed.

Lemma keeps_Unregister a f : keeps (CFE_TIME_UnregisterSynchCallback a f).
Proof.
  unfold CFE_TIME_UnregisterSynchCallback. destruct (f =? NULL); [apply keeps_ret|]. destruct a as [st a], (Z.eqb_spec st CFE_SUCCESS) as [->|Hne].
  2: { rewrite (proj2 (Z.eqb_neq _ _) Hne). apply keeps_ret. }
  destruct (CFE_ES_AppID_ToIndex a (Some 0)) as [st' i] eqn:E. destruct (Z.eqb_spec st' CFE_SUCCESS) as [Es|_]; [|apply keeps_ret].
  pose proof (AppID_ToIndex_range _ _ _ E Es) as Hi. intros s c H. cbn [negb]. wp_step. wp_step. case_match; [wp_step; by exists c|].
  wp_step. eapply wp_cb_get; [exact H|done|]. intros p. case_match; [wp_step; by exists c|]. by eapply wp_cb_set.
Qed.

Lemma keeps_CleanUpApp a : keeps (CFE_TIME_CleanUpApp a).
Proof.
  unfold CFE_TIME_CleanUpApp. destruct (CFE_ES_AppID_ToIndex a (Some 0)) as [st' i] eqn:E. destruct (Z.eqb_spec st' CFE_SUCCESS) as [Es|_]; [|apply keeps_ret].
  pose proof (AppID_ToIndex_range _ _ _ E Es) as Hi. intros s c H. cbn [negb]. wp_step. wp_step. case_match; [|wp_step; by exists c]. by eapply wp_cb_set.
Qed.

(** ** Commands *)

(** What a message can hold. *)
Definition msg_ok (m : TimeMsg) : Prop :=
  is_u32 (tc_Seconds (tm_Time m)) ∧ is_u32 (tc_MicroSeconds (tm_Time m)) ∧ time_ok (tm_OneHz m) ∧
  time_ok (td_AtToneMET (tm_ToneData m)) ∧ time_ok (td_AtToneSTCF (tm_ToneData m)).

Lemma micro_ok sec m : is_u32 sec → time_ok (mkTime sec (CFE_TIME_Micro2SubSecs m)).
Proof. intros H. split; [done|]. cbn. unfold CFE_TIME_Micro2SubSecs. case_match; [by vm_compute|apply u32_range]. Qed.

Lemma keeps_reference {B} (k : CFE_TIME_Reference_t → M TG B) :
  (∀ r, time_ok (CurrentMET r) → time_ok (AtToneSTCF r) → time_ok (AtToneDelay r) → keeps (k r)) → keeps (CFE_TIME_GetReference ≫= k).
Proof.
  intros Hk s c H. wp_step. eapply wp_GetReference; [apply H|]. destruct (H : time_inv s c) as (_ & ((? & ? & ? & ?) & _) & _).
  eapply Hk; [apply met_ok|done|done|exact H].
Qed.

Lemma keeps_Housekeeping : keeps CFE_TIME_HousekeepingCmd.
Proof.
  unfold CFE_TIME_HousekeepingCmd, CFE_TIME_GetHkData. apply keeps_reference. intros r Hm Hs Hd.
  apply keeps_bind; [by apply keeps_UpdateResetVars|intros _]. keeps_go.
Qed.

Lemma keeps_OneHz : keeps CFE_TIME_OneHzCmd.
Proof. unfold CFE_TIME_OneHzCmd. keeps_go. Qed.

Lemma keeps_ground m len h : msg_ok m → ground_command m = Some (len, h) → keeps h.
Proof.
  intros (Hs & _ & Hz & _) E. pose proof (λ n, micro_ok _ n Hs) as Ht. unfold ground_command in E.
  repeat (case_match; [injection E as <- <-|]); try done; clear - Hz Ht.
  all: unfold CFE_TIME_NoopCmd, CFE_TIME_ResetCountersCmd, CFE_TIME_SendDiagnosticTlm, CFE_TIME_GetDiagData, CFE_TIME_SetStateCmd, CFE_TIME_SetSourceCmd,
    CFE_TIME_SetSignalCmd, CFE_TIME_AddDelayCmd, CFE_TIME_SubDelayCmd, CFE_TIME_SetDelayImpl, CFE_TIME_SetTimeCmd, CFE_TIME_SetMETCmd, CFE_TIME_SetSTCFCmd,
    CFE_TIME_SetLeapSecondsCmd, CFE_TIME_AddAdjustCmd, CFE_TIME_SubAdjustCmd, CFE_TIME_AdjustImpl, CFE_TIME_Add1HZAdjustmentCmd, CFE_TIME_Sub1HZAdjustmentCmd,
    CFE_TIME_1HzAdjImpl, CFE_TIME_Set1HzAdj, CFE_TIME_SetSource, CFE_TIME_SetSignal.
  all: keeps_go.
Qed.

Lemma keeps_TaskPipe m : msg_ok m → keeps (CFE_TIME_TaskPipe m).
Proof.
  intros Hm. unfold CFE_TIME_TaskPipe. case_match; [apply keeps_Housekeeping|]. case_match; [apply keeps_ToneSignal|].
  case_match; [apply keeps_ToneData; apply Hm|]. case_match; [apply keeps_OneHz|]. case_match; [apply keeps_ToneSend|].
  case_match; [|apply keeps_send]. destruct (ground_command m) as [[len h]|] eqn:E; [|apply keeps_reject].
  pose proof (keeps_ground m len h Hm E). unfold CFE_TIME_VerifyCmdLength. keeps_go.
Qed.

(** ** Calls *)

(** The calls of the service, by its task, the interrupt routines and the applications. *)
Inductive TimeCall :=
| CallTask (m : TimeMsg)
| CallGetTime | CallGetTAI | CallGetUTC | CallGetMET | CallGetMETseconds | CallGetMETsubsecs | CallGetSTCF | CallGetLeapSeconds
| CallGetClockState | CallGetClockInfo
| CallMET2SCTime (t : CFE_TIME_SysTime_t)
| CallExternalMET (t : CFE_TIME_SysTime_t)
| CallExternalGPS (t : CFE_TIME_SysTime_t) (leaps : Z)
| CallExternalTime (t : CFE_TIME_SysTime_t)
| CallTone1HzISR | CallTone1HzTask | CallLocal1HzISR | CallLocal1HzTask
| CallRegister (a : Z * Z) (f : addr) | CallUnregister (a : Z * Z) (f : addr) | CallCleanUpApp (a : Z).

Definition ignore {A} (m : M TG A) : M TG unit := m ≫= λ _, mret tt.

Definition time_call (call : TimeCall) : M TG unit :=
  match call with
  | CallTask m => CFE_TIME_TaskPipe m
  | CallGetTime => ignore CFE_TIME_GetTime
  | CallGetTAI => ignore CFE_TIME_GetTAI
  | CallGetUTC => ignore CFE_TIME_GetUTC
  | CallGetMET => ignore CFE_TIME_GetMET
  | CallGetMETseconds => ignore CFE_TIME_GetMETseconds
  | CallGetMETsubsecs => ignore CFE_TIME_GetMETsubsecs
  | CallGetSTCF => ignore CFE_TIME_GetSTCF
  | CallGetLeapSeconds => ignore CFE_TIME_GetLeapSeconds
  | CallGetClockState => ignore CFE_TIME_GetClockState
  | CallGetClockInfo => ignore CFE_TIME_GetClockInfo
  | CallMET2SCTime t => ignore (CFE_TIME_MET2SCTime t)
  | CallExternalMET t => CFE_TIME_ExternalMET t
  | CallExternalGPS t n => CFE_TIME_ExternalGPS t n
  | CallExternalTime t => CFE_TIME_ExternalTime t
  | CallTone1HzISR => CFE_TIME_ExternalTone
  | CallTone1HzTask => tone_task_round
  | CallLocal1HzISR => CFE_TIME_Local1HzTimerCallback
  | CallLocal1HzTask => local_task_round
  | CallRegister a f => ignore (CFE_TIME_RegisterSynchCallback a f)
  | CallUnregister a f => ignore (CFE_TIME_UnregisterSynchCallback a f)
  | CallCleanUpApp a => ignore (CFE_TIME_CleanUpApp a)
  end.

Definition call_ok (call : TimeCall) : Prop := match call with CallTask m => msg_ok m | _ => True end.

Lemma keeps_ignore {A} (m : M TG A) : keeps m → keeps (ignore m).
Proof. intros H. apply keeps_bind; [done|intros; apply keeps_ret]. Qed.

Lemma keeps_call call : call_ok call → keeps (time_call call).
Proof.
  intros H. destruct call; cbn [time_call]; lazymatch goal with |- keeps (ignore _) => apply keeps_ignore | _ => idtac end.
  - by apply keeps_TaskPipe.
  - unfold CFE_TIME_GetTime, CFE_TIME_GetUTC, CFE_TIME_GetTAI. keeps_go.
  - unfold CFE_TIME_GetTAI. keeps_go.
  - unfold CFE_TIME_GetUTC. keeps_go.
  - unfold CFE_TIME_GetMET. keeps_go.
  - unfold CFE_TIME_GetMETseconds. keeps_go.
  - unfold CFE_TIME_GetMETsubsecs. keeps_go.
  - unfold CFE_TIME_GetSTCF. keeps_go.
  - unfold CFE_TIME_GetLeapSeconds. keeps_go.
  - unfold CFE_TIME_GetClockState. keeps_go.
  - apply keeps_ClockInfo.
  - unfold CFE_TIME_MET2SCTime, CFE_TIME_GetSTCF, CFE_TIME_GetLeapSeconds. keeps_go.
  - apply keeps_ignore, keeps_ToneSendMET.
  - apply keeps_ignore, keeps_ToneSendGPS.
  - apply keeps_ignore, keeps_ToneSendTime.
  - apply keeps_Tone1HzISR.
  - unfold tone_task_round. keeps_go.
  - unfold CFE_TIME_Local1HzTimerCallback, CFE_TIME_Local1HzISR. keeps_go.
  - unfold local_task_round. keeps_go.
  - apply keeps_Register.
  - apply keeps_Unregister.
  - apply keeps_CleanUpApp.
Qed.

Lemma default_vars_ok : vars_ok default_vars.
Proof. by vm_compute. Qed.

Lemma init_inv s : (∀ v, ResetArea s = Some v → vars_ok v) → wp CFE_TIME_InitData (λ _ s', ∃ c', time_inv s' c') s.
Proof.
  intros Ha. eapply wp_mono; [apply wp_InitData|]. intros _ s' (Hr & E1 & _ & _ & _ & _ & E2 & E3 & _ & E4 & E5 & E6 & E7 & E8 & _ & E9).
  assert (vars_ok (start_vars (ResetArea s))) as Hv.
  { unfold start_vars. destruct (ResetArea s) as [v|]; [|apply default_vars_ok]. destruct (area_valid v); [by apply Ha|apply default_vars_ok]. }
  destruct Hv as (Hv1 & Hv2 & Hv3). exists (init_ref s). split; [done|]. split; [|split; [|by rewrite E3]].
  - unfold rec_ok, ref_ok. split_and!; try done; [apply latch_ok|by right|by left].
  - unfold glob_ok. rewrite E1, E2, E4, E5, E6, E7. split_and!; try apply time_ok_zero; try done; [apply Hv1|]. unfold limits_ok. by rewrite E8, E9.
Qed.

(** The states of the service: after the initialization, at power on or after a
    processor reset, and after any call; the local clock runs and the interrupts are
    calls. *)
Inductive time_reach : TG → Prop :=
| reach_power s s' : (∀ v, ResetArea s = Some v → vars_ok v) → CFE_TIME_InitData s = Some (tt, s') → time_reach s'
| reach_reset s s' : time_reach s → CFE_TIME_InitData s = Some (tt, s') → time_reach s'
| reach_clock s (clk : Z) : time_reach s → time_reach (s <| LocalTime := clk |>)
| reach_call s call s' : time_reach s → call_ok call → time_call call s = Some (tt, s') → time_reach s'.

Lemma keeps_run {A} (m : M TG A) a s s' c : keeps m → time_inv s c → m s = Some (a, s') → ∃ c', time_inv s' c'.
Proof. intros Hm H E. specialize (Hm s c H). unfold wp in Hm. by rewrite E in Hm. Qed.

Lemma init_run s s' : (∀ v, ResetArea s = Some v → vars_ok v) → CFE_TIME_InitData s = Some (tt, s') → ∃ c', time_inv s' c'.
Proof. intros Ha E. pose proof (wp_inv _ _ _ (init_inv s Ha)) as (a & s1 & E1 & H). rewrite E in E1. by injection E1 as <- <-. Qed.

Lemma inv_area s c v : time_inv s c → ResetArea s = Some v → vars_ok v.
Proof. intros (_ & _ & (_ & _ & _ & _ & _ & Ha & _) & _). apply Ha. Qed.

Lemma time_reach_inv s : time_reach s → ∃ c, time_inv s c.
Proof.
  induction 1 as [s s' Ha E|s s' _ [c IH] E|s clk _ [c IH]|s call s' _ [c IH] Hok E].
  - by eapply init_run.
  - eapply init_run; [|exact E]. intros v. by eapply inv_area.
  - apply (inv_same s _ c); try done. apply IH.
  - eapply keeps_run; [by apply keeps_call|exact IH|exact E].
Qed.

End calls.
