(* ===== verification/TimeClock.v ===== *)
(** * What the clock reads

    The reads of the clock as sums of fixed point numbers, and the theorems about setting
    the time, synchronization with the tone, flywheel mode and resets. *)
From S2P Require Import Prelude Config ResourceId TimeApi TimeState TimeTone TimeTask TimeOps TimeSafe.

(** ** Values *)

Lemma compare_equal a b : CFE_TIME_Compare a b = CFE_TIME_EQUAL ↔ a = b.
Proof.
  split.
  - unfold CFE_TIME_Compare. intros E. repeat case_match; try done. destruct a, b. cbn in *. f_equal; lia.
  - intros ->. unfold CFE_TIME_Compare. by rewrite !Z.ltb_irrefl.
Qed.

(** Equations modulo 2{^64}: a reduction inside is a difference of a multiple. *)
Lemma mod_intro n x y : n ≠ 0 → (n | x - y) → x mod n = y mod n.
Proof. intros Hn [k H]. replace x with (y + k * n) by lia. by apply Z.mod_add. Qed.

Lemma mod_pull a n : n ≠ 0 → a mod n = a - n * (a / n).
Proof. intros H. pose proof (Z.div_mod a n H). lia. Qed.

(** The local clock counted on from the time of the tone when it has rolled over. *)
Definition unrolled (max tone l : CFE_TIME_SysTime_t) : Z :=
  val l + if decide (CFE_TIME_Compare l tone = CFE_TIME_A_LT_B) then val max else 0.

Lemma since_val max l tone : time_ok max → time_ok l → time_ok tone → val (since_tone max l tone) = (unrolled max tone l - val tone) mod 2 ^ 64.
Proof.
  intros Hm Hl Ht. unfold since_tone, unrolled. case_decide.
  - rewrite Add_val, Subtract_val by (done || apply Subtract_ok). rewrite Zplus_mod_idemp_l. f_equal. lia.
  - rewrite Subtract_val by done. f_equal. lia.
Qed.

Lemma val_leaps t n : time_ok t → val (t <| Seconds ::= λ x, u32 (x + n) |>) = (val t + n * 2 ^ 32) mod 2 ^ 64.
Proof.
  intros [H1 H2]. unfold is_u32 in *. unfold val, u32. destruct t as [a b]. cbn [Seconds Subseconds set eta SysTime_eta] in *.
  cbn. change (2 ^ 64) with (2 ^ 32 * 2 ^ 32). replace (a * 2 ^ 32 + b + n * 2 ^ 32) with (b + (a + n) * 2 ^ 32) by lia.
  rewrite Z.rem_mul_r by lia. rewrite Z.mod_add, Z.div_add by lia. rewrite (Z.mod_small b), (Z.div_small b) by lia. rewrite Z.add_0_l. ring.
Qed.

Section clock.
Context `{Cfg : TimeCfg}.
Implicit Types (c : CFE_TIME_ReferenceState_t) (s : TG) (t : CFE_TIME_SysTime_t).

(** The correction of a client for the delay of the tone. *)
Definition delay_val c : Z :=
  if TIME_CFG_SERVER then 0 else if rs_DelayDirection c =? CFE_TIME_AdjustDirection_ADD then val (rs_AtToneDelay c) else - val (rs_AtToneDelay c).

Lemma met_val max c l : time_ok max → time_ok l → ref_ok c →
  val (met_at max c l) = (val (rs_AtToneMET c) + unrolled max (rs_AtToneLatch c) l - val (rs_AtToneLatch c) + delay_val c) mod 2 ^ 64.
Proof.
  intros Hm Hl (H1 & H2 & H3 & H4). unfold met_at, delayed, delay_val, TIME_CFG_CLIENT.
  assert (val (CFE_TIME_Add (since_tone max l (rs_AtToneLatch c)) (rs_AtToneMET c)) = (val (rs_AtToneMET c) + unrolled max (rs_AtToneLatch c) l - val (rs_AtToneLatch c)) mod 2 ^ 64) as E.
  { rewrite Add_val by (done || apply since_ok). rewrite since_val by done. rewrite Zplus_mod_idemp_l. f_equal. lia. }
  destruct TIME_CFG_SERVER; cbn [negb]; [rewrite E; f_equal; lia|].
  case_match; [rewrite Add_val, E, Zplus_mod_idemp_l|rewrite Subtract_val, E, Zminus_mod_idemp_l]; try done; try apply Add_ok; f_equal; lia.
Qed.

(** The time of the configured format. *)
Definition leap_val c : Z := if TIME_CFG_DEFAULT_UTC then rs_LeapSeconds c * 2 ^ 32 else 0.

Definition time_at max c l : CFE_TIME_SysTime_t :=
  if TIME_CFG_DEFAULT_UTC then CFE_TIME_CalculateUTC (reference_of max c l) else CFE_TIME_CalculateTAI (reference_of max c l).

Lemma time_val max c l : ref_ok c → val (time_at max c l) = (val (met_at max c l) + val (rs_AtToneSTCF c) - leap_val c) mod 2 ^ 64.
Proof.
  intros (H1 & H2 & H3 & H4). unfold time_at, leap_val, CFE_TIME_CalculateUTC, CFE_TIME_CalculateTAI. cbn [CurrentMET AtToneSTCF AtToneLeapSeconds reference_of].
  destruct TIME_CFG_DEFAULT_UTC.
  - change (λ x, u32 (x - rs_LeapSeconds c)) with (λ x, u32 (x + - rs_LeapSeconds c)). rewrite val_leaps, Add_val by (done || apply met_ok || apply Add_ok).
    rewrite Zplus_mod_idemp_l. f_equal. lia.
  - rewrite Add_val by (done || apply met_ok). f_equal. lia.
Qed.

Lemma wp_GetTime c s (Q : CFE_TIME_SysTime_t → TG → Prop) : ring_ok s c → Q (time_at (MaxLocalClock s) c (latch_of (LocalTime s))) s → wp CFE_TIME_GetTime Q s.
Proof.
  intros H HQ. unfold time_at in HQ. unfold CFE_TIME_GetTime, CFE_TIME_GetUTC, CFE_TIME_GetTAI.
  destruct TIME_CFG_DEFAULT_UTC; wp_step; (eapply wp_GetReference; [exact H|]); by wp_step.
Qed.

Lemma wp_GetTAI c s (Q : CFE_TIME_SysTime_t → TG → Prop) : ring_ok s c → Q (CFE_TIME_Add (met_at (MaxLocalClock s) c (latch_of (LocalTime s))) (rs_AtToneSTCF c)) s → wp CFE_TIME_GetTAI Q s.
Proof. intros H HQ. unfold CFE_TIME_GetTAI. wp_step. eapply wp_GetReference; [exact H|]. by wp_step. Qed.

Lemma wp_GetMET c s (Q : CFE_TIME_SysTime_t → TG → Prop) : ring_ok s c → Q (met_at (MaxLocalClock s) c (latch_of (LocalTime s))) s → wp CFE_TIME_GetMET Q s.
Proof. intros H HQ. unfold CFE_TIME_GetMET. wp_step. eapply wp_GetReference; [exact H|]. by wp_step. Qed.

Lemma ring_clock s c (clk : Z) : ring_ok s c → ring_ok (s <| LocalTime := clk |>) c.
Proof. by apply ring_same. Qed.

(** Reachable states, taken apart. *)
Lemma reach_facts s c : time_reach s → current s = Some c →
  ring_ok s c ∧ rec_ok c ∧ glob_ok s ∧ (Forced2Fly s = true → rs_ClockFlyState c = CFE_TIME_FlywheelState_IS_FLY).
Proof.
  intros Hr Hc. destruct (time_reach_inv s Hr) as (c' & H). assert (c' = c) as ->; [|exact H].
  destruct H as (H & _). pose proof (proj2 (rg_has _ _ H)). congruence.
Qed.

Lemma new_stcf_val t max c l : time_ok t → val (new_stcf t (reference_of max c l)) = (val t - val (met_at max c l) + leap_val c) mod 2 ^ 64.
Proof.
  intros Ht. unfold new_stcf, leap_val. cbn [CurrentMET AtToneLeapSeconds reference_of]. destruct TIME_CFG_DEFAULT_UTC.
  - rewrite val_leaps, Subtract_val by (done || apply met_ok || apply Subtract_ok). by rewrite Zplus_mod_idemp_l.
  - rewrite Subtract_val by (done || apply met_ok). f_equal. lia.
Qed.

(** ** The window of the tone *)

Definition elapsed_val max t1 t2 : Z := (val t2 - val t1 + if decide (CFE_TIME_Compare t1 t2 = CFE_TIME_A_GT_B) then val max else 0) mod 2 ^ 64.

(** The signal and the data are new, and the time between them is in the window. *)
Definition tone_in_window s t1 t2 : Prop :=
  t1 ≠ PrevTime1 s ∧ t2 ≠ PrevTime2 s ∧ MinElapsed s <= elapsed_val (MaxLocalClock s) t1 t2 <= MaxElapsed s.

Lemma elapsed_ok max t1 t2 : time_ok (tone_elapsed max t1 t2).
Proof. unfold tone_elapsed. case_decide; [apply Add_ok|apply Subtract_ok]. Qed.

Lemma tone_elapsed_val max t1 t2 : time_ok max → time_ok t1 → time_ok t2 → val (tone_elapsed max t1 t2) = elapsed_val max t1 t2.
Proof.
  intros Hm H1 H2. unfold tone_elapsed, elapsed_val. case_decide.
  - rewrite Add_val, Subtract_val by (done || apply Subtract_ok). rewrite Zplus_mod_idemp_l. f_equal. lia.
  - rewrite Subtract_val by done. f_equal. lia.
Qed.

Lemma tone_match_iff s t1 t2 : limits_ok s → time_ok t1 → time_ok t2 → 0 <= MinElapsed s → tone_match s t1 t2 = true ↔ tone_in_window s t1 t2.
Proof.
  intros [Hx Hm] H1 H2 Hmin. unfold tone_match, tone_in_window. rewrite !andb_true_iff, !bool_decide_eq_true, !compare_equal, <- tone_elapsed_val by done.
  destruct (elapsed_ok (MaxLocalClock s) t1 t2) as [He1 He2]. unfold is_u32, val in *. rewrite Z.eqb_eq, !Z.leb_le.
  split; intros; destruct_and!; split_and!; try done; try lia; intros E; by subst.
Qed.

(** ** The record after a tone *)

Lemma updated_current c0 c s : has_ring s c0 → current (updated c s) = Some (c <| StateVersion := u32 (LastVersionCounter s + 1) |>).
Proof. intros H. apply (rg_has _ _ (updated_ok c0 c s H)). Qed.

Lemma tone_ref_nofly s c r : fly_state (rs_ClockFlyState c) → rs_ClockFlyState (tone_ref s c r) = CFE_TIME_FlywheelState_NO_FLY.
Proof. unfold tone_ref. intros [E|E]; destruct TIME_CFG_SERVER; cbn; by rewrite E. Qed.

(** What a matched tone changes: the latch of the record is that of the signal and the
    flywheel mode ends; a client takes the data of the packet, a server with the internal
    source its counter of seconds. *)
Definition tone_applied s s' c c' : Prop :=
  rs_AtToneLatch c' = ToneSignalLatch s ∧ rs_ClockFlyState c' = CFE_TIME_FlywheelState_NO_FLY ∧
  rs_AtToneDelay c' = rs_AtToneDelay c ∧ rs_DelayDirection c' = rs_DelayDirection c ∧
  if TIME_CFG_SERVER then
    rs_ClockSetState c' = rs_ClockSetState c ∧
    (ClockSource s = CFE_TIME_SourceSelect_INTERNAL → rs_AtToneSTCF c' = rs_AtToneSTCF c ∧ rs_AtToneMET c' = mkTime (VirtualMET s') 0 ∧
       VirtualMET s' = if flying c then Seconds (met_at (MaxLocalClock s) c (latch_of (LocalTime s))) else VirtualMET s)
  else
    rs_AtToneMET c' = PendingMET s ∧ rs_AtToneSTCF c' = PendingSTCF s ∧ rs_LeapSeconds c' = PendingLeaps s ∧
    rs_ClockSetState c' = (if PendingState s =? CFE_TIME_ClockState_INVALID then CFE_TIME_SetState_NOT_SET else CFE_TIME_SetState_WAS_SET) ∧
    ServerFlyState s' = (if PendingState s =? CFE_TIME_ClockState_FLYWHEEL then CFE_TIME_FlywheelState_IS_FLY else CFE_TIME_FlywheelState_NO_FLY).

Lemma tone_applies s c v s' (r := reference_of (MaxLocalClock s) c (latch_of (LocalTime s))) : fly_state (rs_ClockFlyState c) →
  VirtualMET s' = VirtualMET (tone_flags s c r) → ServerFlyState s' = ServerFlyState (tone_flags s c r) →
  tone_applied s s' c ((tone_ref s c r) <| StateVersion := v |>).
Proof.
  intros Hf Ev Es. pose proof (tone_ref_nofly s c r Hf) as Hn. unfold tone_applied. rewrite Ev, Es. unfold tone_ref, tone_flags in *.
  destruct TIME_CFG_SERVER eqn:E; split_and!; try done. intros Ei. unfold external, server_met. cbn. rewrite Ei. cbn. unfold flying. by split_and!.
Qed.

(** The state a client takes from the data, and after the match. *)
Definition pending_of s (p : CFE_TIME_ToneDataCmd_Payload_t) : TG :=
  s <| ToneDataLatch := latch_of (LocalTime s) |> <| PendingMET := td_AtToneMET p |> <| PendingSTCF := td_AtToneSTCF p |>
    <| PendingLeaps := td_LeapSeconds p |> <| PendingState := td_AtToneState p |>.

Lemma ring_prev s c t1 t2 f : ring_ok s c → ring_ok (s <| PrevTime1 := t1 |> <| PrevTime2 := t2 |> <| ToneDataCounter ::= f |>) c.
Proof. by apply ring_same. Qed.

Lemma tone_applied_prev s s' t1 t2 f c c' : tone_applied s s' c c' → tone_applied s (s' <| PrevTime1 := t1 |> <| PrevTime2 := t2 |> <| ToneDataCounter ::= f |>) c c'.
Proof. done. Qed.

Lemma current_prev s t1 t2 : current (s <| PrevTime1 := t1 |> <| PrevTime2 := t2 |>) = current s.
Proof. done. Qed.

Lemma tone_applied_prev2 s s' t1 t2 c c' : tone_applied s s' c c' → tone_applied s (s' <| PrevTime1 := t1 |> <| PrevTime2 := t2 |>) c c'.
Proof. done. Qed.

Lemma tone_rest_ring s c r n : ring_ok s c → has_ring (tone_rest (s <| ToneMatchCounter := n |>) c r) c.
Proof. intros H. apply (has_same s); [reflexivity..|apply rg_has, H]. Qed.

Lemma wp_ToneData_match c p s (Q : unit → TG → Prop) : TIME_AT_TONE_WILL_BE = false → Forced2Fly s = false → ring_ok s c → fly_state (rs_ClockFlyState c) →
  tone_match s (ToneSignalLatch s) (latch_of (LocalTime s)) = true →
  (∀ s' c', ring_ok s' c' → MaxLocalClock s' = MaxLocalClock s → tone_applied (pending_of s p) s' c c' → Q tt s') → wp (CFE_TIME_ToneData p) Q s.
Proof.
  intros Hw Hff H Hf Hm HQ. unfold CFE_TIME_ToneData. wp_step. apply wp_Latch. do 10 wp_step. rewrite Hw. cbn [negb when].
  do 3 wp_step. fold (pending_of s p). set (s2 := pending_of s p). assert (ring_ok s2 c) as H2 by by apply (ring_same s).
  change (ToneSignalLatch s2) with (ToneSignalLatch s). change (ToneDataLatch s2) with (latch_of (LocalTime s)).
  eapply wp_mono; [apply (wp_ToneVerify c), H2|]. intros _ s3 ->. wp_step. unfold tone_done.
  change (tone_match s2) with (tone_match s). rewrite Hm. change (Forced2Fly s2) with (Forced2Fly s). rewrite Hff.
  set (r := reference_of _ _ _). pose proof (tone_rest_ring s2 c r (u32 (ToneMatchCounter s2 + 1)) H2) as Ht.
  change (s2 <| ToneMatchCounter ::= _ |>) with (s2 <| ToneMatchCounter := u32 (ToneMatchCounter s2 + 1) |>).
  pose proof (updated_ok c (tone_ref s2 c r) _ Ht) as Hu. eapply (HQ _ _ (ring_prev _ _ _ _ _ Hu)); [reflexivity|].
  apply tone_applied_prev. by apply tone_applies.
Qed.

Lemma ToneData_match c p s : TIME_AT_TONE_WILL_BE = false → Forced2Fly s = false → ring_ok s c → fly_state (rs_ClockFlyState c) →
  tone_match s (ToneSignalLatch s) (latch_of (LocalTime s)) = true →
  ∃ s' c', CFE_TIME_ToneData p s = Some (tt, s') ∧ ring_ok s' c' ∧ MaxLocalClock s' = MaxLocalClock s ∧ tone_applied (pending_of s p) s' c c'.
Proof.
  intros Hw Hff H Hf Hm. enough (wp (CFE_TIME_ToneData p) (λ _ s', ∃ c', ring_ok s' c' ∧ MaxLocalClock s' = MaxLocalClock s ∧ tone_applied (pending_of s p) s' c c') s) as Hwp.
  { destruct (wp_inv _ _ _ Hwp) as ([] & s' & E & c' & ?). by exists s', c'. }
  eapply wp_ToneData_match; try done. intros s' c' H1 H2 H3. by exists c'.
Qed.

(** In commanded flywheel mode the data of the packet do not reach the clock. *)
Lemma ToneData_forced c p s : TIME_AT_TONE_WILL_BE = false → Forced2Fly s = true → ring_ok s c →
  ∃ s', CFE_TIME_ToneData p s = Some (tt, s') ∧ current s' = Some c.
Proof.
  intros Hw Hff H. enough (wp (CFE_TIME_ToneData p) (λ _ s', current s' = Some c) s) as Hwp by (destruct (wp_inv _ _ _ Hwp) as ([] & s' & E & ?); eauto).
  unfold CFE_TIME_ToneData. wp_step. apply wp_Latch. do 10 wp_step. rewrite Hw. cbn [negb when]. do 3 wp_step. fold (pending_of s p). set (s2 := pending_of s p).
  assert (ring_ok s2 c) as H2 by by apply (ring_same s). eapply wp_mono; [apply (wp_ToneVerify c), H2|]. intros _ s3 ->. wp_step. unfold tone_done.
  change (Forced2Fly s2) with (Forced2Fly s). rewrite Hff. destruct (tone_match _ _ _); apply (rg_has _ _ H).
Qed.

(** A read returns a value and leaves the state alone. *)
Lemma read_run {A} (m : M TG A) a s : wp m (λ a' s', a' = a ∧ s' = s) s → m s = Some (a, s).
Proof. intros H. by destruct (wp_inv _ _ _ H) as (? & ? & -> & -> & ->). Qed.

Definition clock_state s c : Z :=
  if rs_ClockSetState c =? CFE_TIME_SetState_WAS_SET then
    if rs_ClockFlyState c =? CFE_TIME_FlywheelState_NO_FLY then
      if TIME_CFG_CLIENT && (ServerFlyState s =? CFE_TIME_FlywheelState_IS_FLY) then CFE_TIME_ClockState_FLYWHEEL else CFE_TIME_ClockState_VALID
    else CFE_TIME_ClockState_FLYWHEEL
  else CFE_TIME_ClockState_INVALID.

Lemma GetClockState_run s c : ring_ok s c → CFE_TIME_GetClockState s = Some (clock_state s c, s).
Proof.
  intros H. apply read_run. unfold CFE_TIME_GetClockState, CFE_TIME_CalculateState, clock_state. wp_step. eapply wp_GetReference; [exact H|]. cbn [ClockSetState ClockFlyState reference_of].
  repeat case_match; wp_steps; by rewrite ?H0, ?H1, ?H2.
Qed.

Lemma GetTAI_run s c clk : ring_ok s c → CFE_TIME_GetTAI (s <| LocalTime := clk |>) =
  Some (CFE_TIME_Add (met_at (MaxLocalClock s) c (latch_of clk)) (rs_AtToneSTCF c), s <| LocalTime := clk |>).
Proof. intros H. apply read_run. eapply wp_GetTAI; [by apply ring_clock|done]. Qed.

Lemma GetMET_run s c : ring_ok s c → CFE_TIME_GetMET s = Some (met_at (MaxLocalClock s) c (latch_of (LocalTime s)), s).
Proof. intros H. apply read_run. by eapply wp_GetMET. Qed.

Lemma GetTime_run s c clk : ring_ok s c → CFE_TIME_GetTime (s <| LocalTime := clk |>) = Some (time_at (MaxLocalClock s) c (latch_of clk), s <| LocalTime := clk |>).
Proof. intros H. apply read_run. eapply wp_GetTime; [by apply ring_clock|done]. Qed.

(** ** The 1 Hz state machine *)

(** The record in use after it. *)
Definition hz_next s c : CFE_TIME_ReferenceState_t :=
  if hz_start s c then (hz_ref s c) <| rs_ClockFlyState := CFE_TIME_FlywheelState_IS_FLY |>
  else if hz_latch s c then (hz_ref s c) <| rs_AtToneMET := met_at (MaxLocalClock s) c (latch_of (LocalTime s)) |> <| rs_AtToneLatch := latch_of (LocalTime s) |>
  else hz_ref s c.

Lemma hz_run s c : ring_ok s c → ∃ s' v, CFE_TIME_Local1HzStateMachine s = Some (tt, s') ∧ ring_ok s' ((hz_next s c) <| StateVersion := v |>) ∧
  MaxLocalClock s' = MaxLocalClock s ∧ LocalTime s' = LocalTime s.
Proof.
  intros H. destruct (wp_inv _ _ _ (wp_Local1HzStateMachine c s H)) as ([] & s' & E & Es). exists s'. pose proof (hz_ring s c H) as Hr.
  destruct (hz_clock s c) as [E1 E2]. unfold hz_next. revert Es Hr E1 E2. generalize (hz_state s c), (hz_ref s c). intros s1 c1 Es Hr E1 E2.
  destruct (hz_start s c); [|destruct (hz_latch s c)].
  - eexists. split; [exact E|]. subst s'. split; [|done]. refine (updated_ok _ _ _ (has_same s1 _ _ _ _ (rg_has _ _ Hr))); reflexivity.
  - eexists. split; [exact E|]. subst s'. split; [|done]. exact (updated_ok _ _ _ (rg_has _ _ Hr)).
  - eexists. split; [exact E|]. subst s'. split; [exact Hr|done].
Qed.

Lemma since_zero max l : time_ok l → since_tone max l l = mkTime 0 0.
Proof.
  intros H. unfold since_tone. rewrite decide_False by (rewrite (proj2 (compare_equal l l) eq_refl); done).
  apply val_inj; [apply Subtract_ok|by vm_compute|]. rewrite Subtract_val, Z.sub_diag by done. done.
Qed.

Lemma Add_zero t : time_ok t → CFE_TIME_Add (mkTime 0 0) t = t.
Proof. intros H. apply val_inj; [apply Add_ok|done|]. rewrite Add_val by (done || by vm_compute). apply Z.mod_small, val_range, H. Qed.

(** After the latch, the MET is the one before, corrected by the delay once more. *)
Lemma met_latched max c c' l : time_ok l → rs_AtToneLatch c' = l → rs_AtToneMET c' = met_at max c l → rs_AtToneDelay c' = rs_AtToneDelay c →
  rs_DelayDirection c' = rs_DelayDirection c → met_at max c' l = delayed c (met_at max c l).
Proof.
  intros Hl E1 E2 E3 E4. unfold met_at at 1. rewrite E1, E2, since_zero, Add_zero by (done || apply met_ok). unfold delayed. by rewrite E3, E4.
Qed.

Lemma delayed_val c t : time_ok t → time_ok (rs_AtToneDelay c) → val (delayed c t) = (val t + delay_val c) mod 2 ^ 64.
Proof.
  intros Ht Hd. unfold delayed, delay_val, TIME_CFG_CLIENT. destruct TIME_CFG_SERVER; cbn [negb].
  - rewrite Z.add_0_r. symmetry. apply Z.mod_small, val_range, Ht.
  - case_match; [by rewrite Add_val|rewrite Subtract_val by done; f_equal; lia].
Qed.

(** The adjustment of the STCF each second. *)
Definition adjust_val s : Z :=
  if TIME_CFG_SERVER then if OneHzDirection s =? CFE_TIME_AdjustDirection_ADD then val (OneHzAdjust s) else - val (OneHzAdjust s) else 0.

Lemma hz_stcf s c : time_ok (rs_AtToneSTCF c) → time_ok (OneHzAdjust s) → val (rs_AtToneSTCF (hz_ref s c)) = (val (rs_AtToneSTCF c) + adjust_val s) mod 2 ^ 64.
Proof.
  intros Hs Ha. unfold hz_ref, adjust_val. destruct (adjusting s) eqn:E; unfold adjusting in E.
  - apply andb_true_iff in E as [-> _]. cbn. unfold adjusted. case_match; [by rewrite Add_val|rewrite Subtract_val by done; f_equal; lia].
  - destruct TIME_CFG_SERVER; cbn in E.
    + apply orb_false_iff in E as [E1 E2]. assert (val (OneHzAdjust s) = 0) as -> by (unfold val; lia). case_match; rewrite Z.add_0_r; symmetry; apply Z.mod_small, val_range, Hs.
    + rewrite Z.add_0_r. symmetry. apply Z.mod_small, val_range, Hs.
Qed.

Lemma hz_next_same s c : rs_AtToneSTCF (hz_next s c) = rs_AtToneSTCF (hz_ref s c) ∧ rs_AtToneDelay (hz_next s c) = rs_AtToneDelay c ∧
  rs_DelayDirection (hz_next s c) = rs_DelayDirection c ∧ (hz_latch s c = false → rs_AtToneMET (hz_next s c) = rs_AtToneMET c ∧ rs_AtToneLatch (hz_next s c) = rs_AtToneLatch c).
Proof. unfold hz_next, hz_ref. destruct (hz_start s c), (hz_latch s c), (adjusting s); by split_and!. Qed.

Lemma hz_exclusive s c : hz_latch s c = true → hz_start s c = false.
Proof. unfold hz_latch, hz_start. rewrite andb_true_iff, Z.eqb_eq. intros [-> _]. done. Qed.

(** ** The reset area *)

Lemma GetTAI_now s c : ring_ok s c → CFE_TIME_GetTAI s = Some (CFE_TIME_Add (met_at (MaxLocalClock s) c (latch_of (LocalTime s))) (rs_AtToneSTCF c), s).
Proof. intros H. apply read_run. by eapply wp_GetTAI. Qed.

(** What the housekeeping request saves. *)
Definition saved s c : CFE_TIME_ResetVars_t :=
  mkResetVars CFE_TIME_RESET_SIGNATURE (rs_LeapSeconds c) (ClockSignal s) (met_at (MaxLocalClock s) c (latch_of (LocalTime s))) (rs_AtToneSTCF c) (rs_AtToneDelay c).

Lemma wp_CalculateState r s (Q : Z → TG → Prop) : (∀ st, Q st s) → wp (CFE_TIME_CalculateState r) Q s.
Proof. intros HQ. unfold CFE_TIME_CalculateState. repeat case_match; wp_steps; apply HQ. Qed.

Lemma wp_GetClockInfo s c (Q : Z → TG → Prop) : ring_ok s c → (∀ f, Q f s) → wp CFE_TIME_GetClockInfo Q s.
Proof.
  intros H HQ. unfold CFE_TIME_GetClockInfo, CFE_TIME_GetReferenceState. wp_steps. rewrite slot4_Z. eapply wp_rd_ref; [apply (rg_has _ _ H)|]. wp_steps. apply HQ.
Qed.

Lemma Housekeeping_run s c v0 : ring_ok s c → ResetArea s = Some v0 → DataStoreStatus s ≠ CFE_TIME_RESET_AREA_ERROR →
  ∃ s', CFE_TIME_HousekeepingCmd s = Some (tt, s') ∧ ResetArea s' = Some (saved s c) ∧ LocalTime s' = LocalTime s.
Proof.
  intros H Ha Hst. enough (wp CFE_TIME_HousekeepingCmd (λ _ s', ResetArea s' = Some (saved s c) ∧ LocalTime s' = LocalTime s) s) as Hw.
  { destruct (wp_inv _ _ _ Hw) as ([] & s' & E & ?). by exists s'. }
  unfold CFE_TIME_HousekeepingCmd, CFE_TIME_UpdateResetVars, CFE_TIME_GetHkData. wp_step. eapply wp_GetReference; [exact H|].
  wp_step. wp_step. wp_step. rewrite (proj2 (Z.eqb_neq _ _) Hst). cbn [negb when]. wp_step. wp_step. wp_step.
  set (s1 := s <| ResetArea ::= _ |>). assert (ring_ok s1 c) as H1 by by apply (ring_same s). do 4 wp_step. apply wp_CalculateState. intros st.
  wp_step. eapply wp_GetClockInfo; [exact H1|]. intros f. wp_steps. split; [|done]. cbn. by rewrite Ha.
Qed.

End clock.

(** The parts of a time are atoms. *)
Ltac mod_ring :=
  apply mod_intro; [done|];
  repeat match goal with
  | |- context [unrolled ?a ?b ?c] => generalize (unrolled a b c); intros ?
  | |- context [val ?a] => generalize (val a); intros ?
  | |- context [delay_val ?a] => generalize (delay_val a); intros ?
  | |- context [leap_val ?a] => generalize (leap_val a); intros ?
  end;
  assert (2 ^ 64 ≠ 0) as Hn by done; revert Hn; generalize (2 ^ 64); intros n Hn;
  repeat match goal with |- context [?a mod n] => rewrite (mod_pull a n) by done; generalize (a / n); intros ? end;
  match goal with |- (_ | ?x) => ring_simplify x end;
  repeat first [apply Z.divide_factor_l|apply Z.divide_0_r|apply Z.divide_sub_r|apply Z.divide_add_r];
  try match goal with |- (_ | - _ * ?q) => exists (- q); ring | |- (_ | - (_ * ?q)) => exists (- q); ring end.
