(* ===== verification/TimeCmds.v ===== *)
(** * The ground commands of the time service: which are executed *)
From S2P Require Import Prelude Config ResourceId TimeApi TimeState TimeTone TimeTask TimeOps TimeSafe TimeClock.

Section cmds.
Context `{Cfg : TimeCfg}.
Implicit Types (c : CFE_TIME_ReferenceState_t) (s : TG) (m : TimeMsg).

(** The size a command must have, and whether its arguments and the configuration allow
    it. *)
Definition command_form m : option (Z * bool) :=
  let micro := tc_MicroSeconds (tm_Time m) <? 1000000 in
  match tm_FcnCode m with
  | 0 | 1 | 2 => Some (8, true)
  | 3 => Some (10, bool_decide (tm_Short m ∈ [1; 2]) && TIME_CFG_SOURCE)
  | 4 => Some (10, bool_decide (tm_Short m ∈ [-1; 0; 1]))
  | 5 | 6 => Some (16, micro && TIME_CFG_CLIENT)
  | 7 | 8 | 9 | 11 | 12 => Some (16, micro && TIME_CFG_SERVER)
  | 10 => Some (10, TIME_CFG_SERVER)
  | 13 | 14 => Some (16, TIME_CFG_SERVER)
  | 15 => Some (10, bool_decide (tm_Short m ∈ [1; 2]) && TIME_CFG_SIGNAL)
  | _ => None
  end.

Definition command_valid m : bool := match command_form m with Some (n, ok) => (n =? tm_Size m) && ok | None => false end.

Definition refused (e : Z) s : TG := s <| CommandErrorCounter ::= λ n, u8 (n + 1) |> <| Sent ::= λ l, l ++ [OutEvent e] |>.

(** The counters after a command that has been executed. *)
Definition executed s s' : Prop := CommandCounter s' = u8 (CommandCounter s + 1) ∧ CommandErrorCounter s' = CommandErrorCounter s.

Definition outcome (ok : bool) (h : M TG unit) : Prop :=
  ∀ s c, ring_ok s c → if ok then wp h (λ _ s', executed s s') s else ∃ e, wp h (λ _ s', s' = refused e s) s.

Lemma reject_outcome e : outcome false (reject e).
Proof. intros s c H. exists e. unfold reject, send. by wp_steps. Qed.

Lemma accept_after (m : M TG unit) e : (∀ s c, ring_ok s c → wp m (λ _ s', CommandCounter s' = CommandCounter s ∧ CommandErrorCounter s' = CommandErrorCounter s) s) →
  outcome true (m;; accept e).
Proof.
  intros Hm s c H. wp_step. eapply wp_mono; [by eapply Hm|]. intros ? s' [E1 E2]. unfold accept, send. wp_steps. split; cbn; by rewrite ?E1, ?E2.
Qed.

(** An operation whose result state is known, with the counters unchanged. *)
Ltac counters L := let H := fresh in intros ? ? H; eapply wp_mono; [apply L, H|]; intros ? ? ->; done.

Lemma out_noop : outcome true CFE_TIME_NoopCmd.
Proof. intros s c H. unfold CFE_TIME_NoopCmd, accept, send. wp_steps. done. Qed.

Lemma out_diag : outcome true CFE_TIME_SendDiagnosticTlm.
Proof.
  intros s c H. unfold CFE_TIME_SendDiagnosticTlm, CFE_TIME_GetDiagData. wp_step. wp_step. set (s1 := s <| CommandCounter ::= _ |>).
  assert (ring_ok s1 c) as H1 by by apply (ring_same s). wp_step. wp_step. eapply wp_GetReference; [exact H1|]. wp_step. apply wp_CalculateState. intros st.
  wp_step. eapply wp_GetClockInfo; [exact H1|]. intros f. unfold send. wp_steps. done.
Qed.

Lemma one_of_two (n a b : Z) : (n =? a) || (n =? b) = bool_decide (n ∈ [a; b]).
Proof. apply eq_bool_prop_intro. rewrite orb_True, !Is_true_true, bool_decide_eq_true, !Z.eqb_eq, !elem_of_cons, elem_of_nil. tauto. Qed.

Lemma one_of_three (n a b d : Z) : (n =? a) || (n =? b) || (n =? d) = bool_decide (n ∈ [a; b; d]).
Proof. apply eq_bool_prop_intro. rewrite !orb_True, !Is_true_true, bool_decide_eq_true, !Z.eqb_eq, !elem_of_cons, elem_of_nil. tauto. Qed.

Lemma out_state n : outcome (bool_decide (n ∈ [-1; 0; 1])) (CFE_TIME_SetStateCmd n).
Proof.
  unfold CFE_TIME_SetStateCmd. rewrite one_of_three. change [CFE_TIME_ClockState_INVALID; CFE_TIME_ClockState_VALID; CFE_TIME_ClockState_FLYWHEEL] with [-1; 0; 1].
  destruct (bool_decide (n ∈ [-1; 0; 1])); [|apply reject_outcome]. apply accept_after. intros s c Hr. eapply wp_mono; [apply wp_SetState, Hr|].
  intros ? s'. cbn beta. destruct (n =? CFE_TIME_ClockState_FLYWHEEL); intros ->; done.
Qed.

Lemma out_source n : outcome (bool_decide (n ∈ [1; 2]) && TIME_CFG_SOURCE) (CFE_TIME_SetSourceCmd n).
Proof.
  unfold CFE_TIME_SetSourceCmd. rewrite one_of_two. change [CFE_TIME_SourceSelect_INTERNAL; CFE_TIME_SourceSelect_EXTERNAL] with [1; 2].
  destruct (bool_decide (n ∈ [1; 2])); [|apply reject_outcome]. destruct TIME_CFG_SOURCE; [|apply reject_outcome].
  intros s c Hr. unfold CFE_TIME_SetSource, send. cbn [andb]. wp_steps. done.
Qed.

Lemma out_signal n : outcome (bool_decide (n ∈ [1; 2]) && TIME_CFG_SIGNAL) (CFE_TIME_SetSignalCmd n).
Proof.
  unfold CFE_TIME_SetSignalCmd. rewrite one_of_two. change [CFE_TIME_ToneSignalSelect_PRIMARY; CFE_TIME_ToneSignalSelect_REDUNDANT] with [1; 2].
  destruct (bool_decide (n ∈ [1; 2])); [|apply reject_outcome]. destruct TIME_CFG_SIGNAL; [|apply reject_outcome].
  intros s c Hr. unfold CFE_TIME_SetSignal, send. cbn [andb]. wp_steps. done.
Qed.

(** A command with a time is refused for its microseconds, then for the configuration. *)
Ltac timed L :=
  match goal with |- outcome (?b && _) _ => destruct b; [|apply reject_outcome] end;
  match goal with |- outcome (true && ?b) _ => destruct b; [|apply reject_outcome] end;
  apply accept_after; counters L.

Lemma out_delay p d : outcome ((tc_MicroSeconds p <? 1000000) && TIME_CFG_CLIENT) (CFE_TIME_SetDelayImpl p d).
Proof. unfold CFE_TIME_SetDelayImpl. timed wp_SetDelay. Qed.

Lemma out_time p : outcome ((tc_MicroSeconds p <? 1000000) && TIME_CFG_SERVER) (CFE_TIME_SetTimeCmd p).
Proof. unfold CFE_TIME_SetTimeCmd. timed wp_SetTime. Qed.

Lemma out_met p : outcome ((tc_MicroSeconds p <? 1000000) && TIME_CFG_SERVER) (CFE_TIME_SetMETCmd p).
Proof. unfold CFE_TIME_SetMETCmd. timed wp_SetMET. Qed.

Lemma out_stcf p : outcome ((tc_MicroSeconds p <? 1000000) && TIME_CFG_SERVER) (CFE_TIME_SetSTCFCmd p).
Proof. unfold CFE_TIME_SetSTCFCmd. timed wp_SetSTCF. Qed.

Lemma out_adjust p d : outcome ((tc_MicroSeconds p <? 1000000) && TIME_CFG_SERVER) (CFE_TIME_AdjustImpl p d).
Proof. unfold CFE_TIME_AdjustImpl. timed wp_SetAdjust. Qed.

Lemma out_leaps n : outcome TIME_CFG_SERVER (CFE_TIME_SetLeapSecondsCmd n).
Proof. unfold CFE_TIME_SetLeapSecondsCmd. destruct TIME_CFG_SERVER; [|apply reject_outcome]. apply accept_after. counters wp_SetLeapSeconds. Qed.

Lemma out_1hz p d : outcome TIME_CFG_SERVER (CFE_TIME_1HzAdjImpl p d).
Proof.
  unfold CFE_TIME_1HzAdjImpl. destruct TIME_CFG_SERVER; [|apply reject_outcome]. apply accept_after. intros s c Hr. unfold CFE_TIME_Set1HzAdj. wp_steps. done.
Qed.

(** The handler of a command, with its size and whether it executes. *)
Lemma ground_outcome m : tm_FcnCode m ≠ CFE_TIME_RESET_COUNTERS_CC →
  match ground_command m with
  | Some (n, h) => ∃ ok, command_form m = Some (n, ok) ∧ outcome ok h
  | None => command_form m = None
  end.
Proof.
  intros Hne. unfold ground_command, command_form. destruct (tm_FcnCode m) as [|p|p]; [eexists; split; [reflexivity|apply out_noop]| |done].
  do 4 (try destruct p as [p|p|]); try reflexivity; try done.
  all: hnf; eexists; (split; [reflexivity|]).
  all: first [apply out_diag|apply out_source|apply out_state|apply out_delay|apply out_time|apply out_met|apply out_stcf|apply out_leaps|apply out_adjust|apply out_1hz|apply out_signal].
Qed.

Lemma TaskPipe_ground m : tm_MsgId m = CFE_TIME_CMD_MID →
  CFE_TIME_TaskPipe m = match ground_command m with
                        | Some (len, h) => ok ← CFE_TIME_VerifyCmdLength m len; when ok h
                        | None => reject CFE_TIME_CC_ERR_EID
                        end.
Proof. intros E. unfold CFE_TIME_TaskPipe. rewrite E. by rewrite andb_false_r. Qed.

End cmds.
