(* ===== verification/TimeTheorems.v ===== *)
(** * Theorems about the time service *)
From S2P Require Import Prelude Config ResourceId TimeApi TimeState TimeTone TimeTask TimeOps TimeSafe TimeClock TimeCmds.

Section clock.
Context `{Cfg : TimeCfg}.
Implicit Types (c : CFE_TIME_ReferenceState_t) (s : TG) (t : CFE_TIME_SysTime_t).

(** [C32] In every state the time service can reach, after any sequence of commands, tone
    signals, interrupts, calls of applications and processor resets, every call returns,
    and the record of reference data in use has the last version, holds times of 32 bit
    seconds and subseconds, and is in flywheel mode when that has been commanded. *)
Theorem time_safe s call (Hr : time_reach s) (Hok : call_ok call) :
  ∃ s' c, time_call call s = Some (tt, s') ∧ time_reach s' ∧ current s' = Some c ∧ StateVersion c = LastVersionCounter s' ∧ ref_ok c ∧
    fly_state (rs_ClockFlyState c) ∧ set_state (rs_ClockSetState c) ∧
    (Forced2Fly s' = true → rs_ClockFlyState c = CFE_TIME_FlywheelState_IS_FLY).
Proof.
  destruct (time_reach_inv s Hr) as (c0 & H0). destruct (wp_inv _ _ _ (keeps_call call Hok s c0 H0)) as ([] & s' & E & c & H).
  exists s', c. destruct H as ([[_ Hc] Hv _] & (H1 & H2 & H3) & _ & Hf). split_and!; try done. by eapply reach_call.
Qed.

(** After CFE_TIME_SetTime the clock reads the time set, and later that time plus
    what the local clock has counted in between, in both time formats and also when the
    local clock has rolled over. *)
Theorem set_time_reads s c t clk (Hr : time_reach s) (Hc : current s = Some c) (Ht : time_ok t) :
  ∃ s' t', CFE_TIME_SetTime t s = Some (tt, s') ∧ CFE_TIME_GetTime (s' <| LocalTime := clk |>) = Some (t', s' <| LocalTime := clk |>) ∧
    let now := unrolled (MaxLocalClock s) (rs_AtToneLatch c) in
    val t' = (val t + (now (latch_of clk) - now (latch_of (LocalTime s)))) mod 2 ^ 64.
Proof.
  destruct (reach_facts s c Hr Hc) as (H & (Hrec & _) & (_ & _ & _ & _ & _ & _ & _ & Hm) & _).
  destruct (wp_inv _ _ _ (wp_SetTime c t s H)) as ([] & s' & E & ->). set (s' := updated _ s) in *.
  pose proof (updated_ok c _ s (rg_has _ _ H) : ring_ok s' _) as H'.
  exists s', (time_at (MaxLocalClock s) (c <| rs_AtToneSTCF := new_stcf t (reference_of (MaxLocalClock s) c (latch_of (LocalTime s))) |> <| StateVersion := u32 (LastVersionCounter s + 1) |>) (latch_of clk)).
  split; [exact E|]. split; [exact (GetTime_run s' _ clk H')|]. destruct Hrec as (R1 & R2 & R3 & R4).
  rewrite time_val by (unfold ref_ok; split_and!; try done; apply new_stcf_ok).
  set (stcf := new_stcf t (reference_of (MaxLocalClock s) c (latch_of (LocalTime s)))) in *.
  change (rs_AtToneSTCF (c <| rs_AtToneSTCF := stcf |> <| StateVersion := u32 (LastVersionCounter s + 1) |>)) with stcf.
  change (leap_val (c <| rs_AtToneSTCF := stcf |> <| StateVersion := u32 (LastVersionCounter s + 1) |>)) with (leap_val c).
  change (met_at (MaxLocalClock s) (c <| rs_AtToneSTCF := stcf |> <| StateVersion := u32 (LastVersionCounter s + 1) |>)) with (met_at (MaxLocalClock s) c).
  unfold stcf. rewrite new_stcf_val, !met_val by (done || apply latch_ok). mod_ring.
Qed.

(** [C33] CFE_TIME_ToneVerify updates the reference data exactly when the tone signal
    and the data are both new, the time between them is in the window and flywheel mode has
    not been commanded.  A match and a mismatch are counted; a mismatch, and a match in
    commanded flywheel mode, change nothing but their counter and the times the next
    call compares with. *)
Theorem tone_verify s c t1 t2 (Hr : time_reach s) (Hc : current s = Some c) (H1 : time_ok t1) (H2 : time_ok t2) (Hmin : 0 <= MinElapsed s) :
  let compared s' := s' <| PrevTime1 := t1 |> <| PrevTime2 := t2 |> in
  ∃ s', CFE_TIME_ToneVerify t1 t2 s = Some (tt, s') ∧ PrevTime1 s' = t1 ∧ PrevTime2 s' = t2 ∧
    (tone_in_window s t1 t2 → ToneMatchCounter s' = u32 (ToneMatchCounter s + 1) ∧ ToneMatchErrorCounter s' = ToneMatchErrorCounter s ∧
       if Forced2Fly s then s' = compared (s <| ToneMatchCounter ::= λ n, u32 (n + 1) |>)
       else ∃ c', current s' = Some c' ∧ tone_applied s s' c c') ∧
    (¬ tone_in_window s t1 t2 → s' = compared (s <| ToneMatchErrorCounter ::= λ n, u32 (n + 1) |>)).
Proof.
  intros compared. destruct (reach_facts s c Hr Hc) as (H & (_ & Hf & _) & (_ & _ & _ & _ & _ & _ & Hl) & _).
  destruct (wp_inv _ _ _ (wp_ToneVerify c t1 t2 s H)) as ([] & s' & E & ->). eexists. split; [exact E|]. clear E.
  split; [done|]. split; [done|]. pose proof (tone_match_iff s t1 t2 Hl H1 H2 Hmin) as Hi. unfold tone_done. destruct (tone_match s t1 t2).
  - split; [|intros Hn; destruct Hn; by apply Hi]. intros _. destruct (Forced2Fly s).
    + by split_and!.
    + split; [reflexivity|]. split; [reflexivity|]. set (r := reference_of _ _ _). pose proof (tone_rest_ring s c r (u32 (ToneMatchCounter s + 1)) H) as Ht.
      change (s <| ToneMatchCounter ::= _ |>) with (s <| ToneMatchCounter := u32 (ToneMatchCounter s + 1) |>).
      eexists. split; [rewrite current_prev; apply (updated_current c _ _ Ht)|]. apply tone_applied_prev2. by apply tone_applies.
  - split; [intros Hn; apply Hi in Hn; done|]. intros _. done.
Qed.

(** [C34] In the configuration where the data follow the tone, a client that has not been
    commanded into flywheel mode and gets the time at the tone, in the window after a new
    tone signal, is synchronized with the server: later it reads, as TAI, the MET and STCF
    of the packet plus what its local clock has counted since the tone signal, corrected
    by its delay, and its clock state is the one of the packet.  A client in commanded
    flywheel mode keeps its reference data. *)
Theorem client_sync s c p clk (Hr : time_reach s) (Hc : current s = Some c) (Hcl : TIME_CFG_SERVER = false) (Hw : TIME_AT_TONE_WILL_BE = false)
    (Hp1 : time_ok (td_AtToneMET p)) (Hp2 : time_ok (td_AtToneSTCF p)) (Hmin : 0 <= MinElapsed s)
    (Hwin : tone_in_window s (ToneSignalLatch s) (latch_of (LocalTime s)))
    (Hst : td_AtToneState p ∈ [CFE_TIME_ClockState_INVALID; CFE_TIME_ClockState_VALID; CFE_TIME_ClockState_FLYWHEEL]) :
  ∃ s', CFE_TIME_ToneData p s = Some (tt, s') ∧
    if Forced2Fly s then current s' = Some c else
    ∃ t, CFE_TIME_GetTAI (s' <| LocalTime := clk |>) = Some (t, s' <| LocalTime := clk |>) ∧
      val t = (val (td_AtToneMET p) + val (td_AtToneSTCF p) +
               (unrolled (MaxLocalClock s) (ToneSignalLatch s) (latch_of clk) - val (ToneSignalLatch s)) + delay_val c) mod 2 ^ 64 ∧
      CFE_TIME_GetClockState s' = Some (td_AtToneState p, s').
Proof.
  destruct (reach_facts s c Hr Hc) as (H & ((_ & _ & Hd & _) & Hf & _) & (_ & _ & Hts & _ & _ & _ & Hl) & _).
  destruct (Forced2Fly s) eqn:Hff; [by apply ToneData_forced|].
  assert (tone_match s (ToneSignalLatch s) (latch_of (LocalTime s)) = true) as Hm by (apply tone_match_iff; try done; apply latch_ok).
  destruct (ToneData_match c p s Hw Hff H Hf Hm) as (s' & c' & E & Hr' & El & Ha).
  unfold tone_applied in Ha. rewrite Hcl in Ha. destruct Ha as (A1 & A2 & A3 & A4 & A5 & A6 & A7 & A8 & A9).
  exists s'. split; [exact E|]. exists (CFE_TIME_Add (met_at (MaxLocalClock s') c' (latch_of clk)) (rs_AtToneSTCF c')). split; [by apply GetTAI_run|]. split.
  - assert (ref_ok c') as Hok by (unfold ref_ok; rewrite A1, A3, A5, A6; by split_and!).
    rewrite El, Add_val, met_val by (done || apply met_ok || apply latch_ok || apply Hl || apply Hok).
    rewrite A1, A5, A6. unfold delay_val. rewrite A3, A4, Zplus_mod_idemp_l. f_equal. cbn. lia.
  - rewrite (GetClockState_run s' c' Hr'). unfold clock_state, TIME_CFG_CLIENT. rewrite A2, A8, A9, Hcl. cbn [PendingState pending_of]. do 2 f_equal.
    rewrite !elem_of_cons, elem_of_nil in Hst. change (PendingState (pending_of s p)) with (td_AtToneState p). by destruct Hst as [E0|[E0|[E0|[]]]]; rewrite E0.
Qed.

(** The 1 Hz state machine of a server does not move the MET, while it adjusts the
    STCF by the commanded amount: two seconds without a tone put the clock into flywheel
    mode, and a clock in flywheel mode latches its own time after eight seconds. *)
Theorem one_hz s c (Hr : time_reach s) (Hc : current s = Some c) (Ha : time_ok (OneHzAdjust s)) :
  ∃ s' c' m, CFE_TIME_Local1HzStateMachine s = Some (tt, s') ∧ current s' = Some c' ∧
    rs_ClockFlyState c' = (if CFE_PLATFORM_TIME_CFG_START_FLY <=? hz_since s c then CFE_TIME_FlywheelState_IS_FLY else rs_ClockFlyState c) ∧
    val (rs_AtToneSTCF c') = (val (rs_AtToneSTCF c) + adjust_val s) mod 2 ^ 64 ∧
    (rs_ClockFlyState c = CFE_TIME_FlywheelState_IS_FLY → CFE_PLATFORM_TIME_CFG_LATCH_FLY <= hz_since s c → rs_AtToneLatch c' = latch_of (LocalTime s)) ∧
    CFE_TIME_GetMET s = Some (m, s) ∧ (TIME_CFG_SERVER = true → CFE_TIME_GetMET s' = Some (m, s')).
Proof.
  destruct (reach_facts s c Hr Hc) as (H & ((Hm & Hs & _) & Hf & _) & _). destruct (hz_run s c H) as (s' & v & E & H' & El & Et).
  destruct (hz_next_same s c) as (N1 & N2 & N3 & N4).
  exists s', ((hz_next s c) <| StateVersion := v |>), (met_at (MaxLocalClock s) c (latch_of (LocalTime s))). split; [exact E|]. split; [apply (rg_has _ _ H')|].
  split; [|split; [|split; [|split; [by apply GetMET_run|]]]].
  - cbn. unfold hz_next. destruct (hz_start s c) eqn:Es; unfold hz_start in Es.
    + apply andb_true_iff in Es as [_ ->]. done.
    + assert (rs_ClockFlyState (hz_ref s c) = rs_ClockFlyState c) as Eh by (unfold hz_ref; by destruct (adjusting s)).
      transitivity (rs_ClockFlyState c); [destruct (hz_latch s c); exact Eh|]. destruct Hf as [Hf|Hf]; rewrite Hf in *; [|by destruct (_ <=? _)].
      by destruct (CFE_PLATFORM_TIME_CFG_START_FLY <=? hz_since s c).
  - cbn. rewrite N1. by apply hz_stcf.
  - intros Ef Hge. assert (hz_latch s c = true) as Eh by (unfold hz_latch; rewrite Ef; by apply Z.leb_le). cbn. unfold hz_next. by rewrite (hz_exclusive _ _ Eh), Eh.
  - intros Hsrv. rewrite (GetMET_run s' _ H'), El, Et. do 2 f_equal. destruct (hz_latch s c) eqn:Eh.
    + rewrite (met_latched _ c); [unfold delayed, TIME_CFG_CLIENT; by rewrite Hsrv|apply latch_ok|..]; cbn; try done; unfold hz_next; by rewrite (hz_exclusive _ _ Eh), Eh.
    + destruct (N4 eq_refl) as [N5 N6]. unfold met_at, delayed, TIME_CFG_CLIENT. rewrite Hsrv. cbn. by rewrite N5, N6.
Qed.

(** In a client in flywheel mode, the latch of the 1 Hz state machine moves the MET by
    the delay: the MET it latches has been corrected by the delay, and reading the clock
    corrects it again. *)
Theorem client_latch_drift s c (Hr : time_reach s) (Hc : current s = Some c) (Hcl : TIME_CFG_SERVER = false)
    (Hfly : rs_ClockFlyState c = CFE_TIME_FlywheelState_IS_FLY) (Hge : CFE_PLATFORM_TIME_CFG_LATCH_FLY <= hz_since s c) :
  ∃ s' m m', CFE_TIME_GetMET s = Some (m, s) ∧ CFE_TIME_Local1HzStateMachine s = Some (tt, s') ∧ LocalTime s' = LocalTime s ∧
    CFE_TIME_GetMET s' = Some (m', s') ∧ val m' = (val m + delay_val c) mod 2 ^ 64.
Proof.
  destruct (reach_facts s c Hr Hc) as (H & ((_ & _ & Hd & _) & _) & _). destruct (hz_run s c H) as (s' & v & E & H' & El & Et).
  assert (hz_latch s c = true) as Eh by (unfold hz_latch; rewrite Hfly; by apply Z.leb_le). destruct (hz_next_same s c) as (_ & N2 & N3 & _).
  eexists s', _, _. split; [by apply GetMET_run|]. split; [exact E|]. split; [done|]. split; [by apply GetMET_run|]. rewrite El, Et.
  rewrite (met_latched _ c); [apply delayed_val; [apply met_ok|done]|apply latch_ok|..]; cbn; try done; unfold hz_next; by rewrite (hz_exclusive _ _ Eh), Eh.
Qed.

(** [C35] A server keeps its time over a processor reset: the housekeeping request saves
    the time, and an initialization at the same instant recovers the MET, the STCF, the
    leap seconds and the selected signal, so that the clock reads the same time; the time
    counts as not set until it is commanded. *)
Theorem reset_recovers s c v0 (Hr : time_reach s) (Hc : current s = Some c) (Hsrv : TIME_CFG_SERVER = true) (Harea : ResetArea s = Some v0)
    (Hst : DataStoreStatus s ≠ CFE_TIME_RESET_AREA_ERROR)
    (Hsig : ClockSignal s = CFE_TIME_ToneSignalSelect_PRIMARY ∨ ClockSignal s = CFE_TIME_ToneSignalSelect_REDUNDANT) :
  ∃ s1 s2 c2 t, CFE_TIME_HousekeepingCmd s = Some (tt, s1) ∧ CFE_TIME_InitData s1 = Some (tt, s2) ∧
    CFE_TIME_GetTAI s = Some (t, s) ∧ CFE_TIME_GetTAI s2 = Some (t, s2) ∧ current s2 = Some c2 ∧ rs_AtToneSTCF c2 = rs_AtToneSTCF c ∧
    rs_LeapSeconds c2 = rs_LeapSeconds c ∧ ClockSignal s2 = ClockSignal s ∧ DataStoreStatus s2 = CFE_TIME_RESET_AREA_EXISTING ∧
    CFE_TIME_GetClockState s2 = Some (CFE_TIME_ClockState_INVALID, s2).
Proof.
  destruct (reach_facts s c Hr Hc) as (H & _). destruct (Housekeeping_run s c v0 H Harea Hst) as (s1 & E1 & A1 & T1).
  destruct (wp_inv _ _ _ (wp_InitData s1)) as ([] & s2 & E2 & H2 & I1 & I2 & _ & I3 & I4 & _ & _ & _ & _ & _ & _ & _ & I5 & _).
  assert (area_valid (saved s c) = true) as Hv by (unfold area_valid; cbn; destruct Hsig as [-> | ->]; done).
  unfold init_ref in H2. rewrite A1 in *. cbn [start_vars store_status] in *. rewrite Hv in *.
  eexists s1, s2, _, _. split; [exact E1|]. split; [exact E2|]. split; [by apply (GetTAI_now s c)|]. split; [|split; [apply (rg_has _ _ H2)|]].
  - rewrite (GetTAI_now s2 _ H2). do 3 f_equal. rewrite I2, T1. unfold met_at at 1. cbn [rs_AtToneMET rs_AtToneLatch rs_AtToneSTCF].
    rewrite since_zero, Add_zero by (apply latch_ok || apply met_ok). unfold delayed, TIME_CFG_CLIENT. by rewrite Hsrv.
  - split_and!; try done. by rewrite (GetClockState_run s2 _ H2).
Qed.

(** A ground command other than the reset of the counters is executed, and counted
    as executed, exactly when its code is known, its size is that of the command, its
    arguments are valid and the configuration allows it; every other one is counted as an
    error and reported, and changes nothing else. *)
Theorem ground_commands s m (Hr : time_reach s) (Hid : tm_MsgId m = CFE_TIME_CMD_MID) (Hcc : tm_FcnCode m ≠ CFE_TIME_RESET_COUNTERS_CC) :
  if command_valid m then ∃ s', CFE_TIME_TaskPipe m s = Some (tt, s') ∧ executed s s'
  else ∃ e, CFE_TIME_TaskPipe m s = Some (tt, refused e s).
Proof.
  destruct (time_reach_inv s Hr) as (c & H & _). pose proof (ground_outcome m Hcc) as Ho. rewrite (TaskPipe_ground m Hid). unfold command_valid.
  destruct (ground_command m) as [[n h]|].
  - destruct Ho as (ok & -> & Ho). specialize (Ho s c H). unfold CFE_TIME_VerifyCmdLength. destruct (n =? tm_Size m); cbn [negb andb].
    + destruct ok.
      * destruct (wp_inv _ _ _ Ho) as ([] & s' & E & Hx). exists s'. split; [exact E|exact Hx].
      * destruct Ho as (e & Ho). exists e. destruct (wp_inv _ _ _ Ho) as ([] & s' & E & ->). exact E.
    + exists CFE_TIME_LEN_ERR_EID. by destruct s.
  - rewrite Ho. exists CFE_TIME_CC_ERR_EID. done.
Qed.

End clock.
