(* ===== verification/TimeRing.v ===== *)
(** * Concurrent updates and reads of the time reference

    The updates of the reference data run in one task; readers of the time run in other
    tasks and interrupt routines, and take no lock.  Here the steps of an update
    (CFE_TIME_StartReferenceUpdate, the changes, CFE_TIME_FinishReferenceUpdate) and of a
    reader (the loop of CFE_TIME_GetReference) interleave, one word of a record at a
    time. *)
From stdpp Require Import relations.
From S2P Require Import Prelude Config TimeApi TimeState TimeOps.

Implicit Types (x c d : CFE_TIME_ReferenceState_t).

(** ** Words of a record *)

(** In the order a reader copies them. *)
Definition word (k : nat) x : Z :=
  match k with
  | 0 => Seconds (rs_AtToneMET x) | 1 => Subseconds (rs_AtToneMET x)
  | 2 => Seconds (rs_AtToneSTCF x) | 3 => Subseconds (rs_AtToneSTCF x)
  | 4 => rs_LeapSeconds x
  | 5 => Seconds (rs_AtToneDelay x) | 6 => Subseconds (rs_AtToneDelay x)
  | 7 => Seconds (rs_AtToneLatch x) | 8 => Subseconds (rs_AtToneLatch x)
  | 9 => rs_ClockSetState x | 10 => rs_ClockFlyState x | 11 => rs_DelayDirection x
  | _ => 0%Z
  end%nat.

Definition set_word (k : nat) (z : Z) x : CFE_TIME_ReferenceState_t :=
  match k with
  | 0 => x <| rs_AtToneMET ::= λ t, mkTime z (Subseconds t) |> | 1 => x <| rs_AtToneMET ::= λ t, mkTime (Seconds t) z |>
  | 2 => x <| rs_AtToneSTCF ::= λ t, mkTime z (Subseconds t) |> | 3 => x <| rs_AtToneSTCF ::= λ t, mkTime (Seconds t) z |>
  | 4 => x <| rs_LeapSeconds := z |>
  | 5 => x <| rs_AtToneDelay ::= λ t, mkTime z (Subseconds t) |> | 6 => x <| rs_AtToneDelay ::= λ t, mkTime (Seconds t) z |>
  | 7 => x <| rs_AtToneLatch ::= λ t, mkTime z (Subseconds t) |> | 8 => x <| rs_AtToneLatch ::= λ t, mkTime (Seconds t) z |>
  | 9 => x <| rs_ClockSetState := z |> | 10 => x <| rs_ClockFlyState := z |> | 11 => x <| rs_DelayDirection := z |>
  | _ => x
  end%nat.

Lemma word_same k z x : (k < 12)%nat → word k (set_word k z x) = z.
Proof. intros Hk. do 12 (destruct k as [|k]; [done|]). lia. Qed.

Lemma word_other j k z x : j ≠ k → word j (set_word k z x) = word j x.
Proof. intros Hk. do 12 (destruct k as [|k]; [by do 12 (destruct j as [|j]; [done|])|]). done. Qed.

Lemma version_set k z x : StateVersion (set_word k z x) = StateVersion x.
Proof. by do 12 (destruct k as [|k]; [done|]). Qed.

(** The words are all of a record but its version. *)
Lemma words_all x d : (∀ j, (j < 12)%nat → word j d = word j x) → d = x <| StateVersion := StateVersion d |>.
Proof.
  intros H. destruct x as [v l s f dd [m1 m2] [c1 c2] [e1 e2] [t1 t2]], d as [v' l' s' f' dd' [m1' m2'] [c1' c2'] [e1' e2'] [t1' t2']]. cbn.
  pose proof (H 0%nat ltac:(lia)) as W0. pose proof (H 1%nat ltac:(lia)) as W1. pose proof (H 2%nat ltac:(lia)) as W2. pose proof (H 3%nat ltac:(lia)) as W3.
  pose proof (H 4%nat ltac:(lia)) as W4. pose proof (H 5%nat ltac:(lia)) as W5. pose proof (H 6%nat ltac:(lia)) as W6. pose proof (H 7%nat ltac:(lia)) as W7.
  pose proof (H 8%nat ltac:(lia)) as W8. pose proof (H 9%nat ltac:(lia)) as W9. pose proof (H 10%nat ltac:(lia)) as W10. pose proof (H 11%nat ltac:(lia)) as W11.
  cbn in *. by subst.
Qed.

(** The copies CFE_TIME_StartReferenceUpdate makes, in its order. *)
Definition copies c : list (nat * Z) := (λ k, (k, word k c)) <$> [4; 9; 10; 11; 0; 1; 2; 3; 5; 6; 7; 8]%nat.

Definition writes (ws : list (nat * Z)) x : CFE_TIME_ReferenceState_t := foldl (λ x w, set_word w.1 w.2 x) x ws.

(** The copies make the next record a copy of the current one. *)
Lemma writes_copies c x : writes (copies c) x = c <| StateVersion := StateVersion x |>.
Proof. by destruct c as [? ? ? ? ? [] [] [] []], x as [? ? ? ? ? [] [] [] []]. Qed.

Lemma writes_app l k x : writes (l ++ k) x = writes k (writes l x).
Proof. apply foldl_app. Qed.

Lemma writes_version ws x v : writes ws (x <| StateVersion := v |>) = (writes ws x) <| StateVersion := v |>.
Proof.
  revert x. induction ws as [|[k z] ws IH]; intros x; [done|]. change (writes ws (set_word k z (x <| StateVersion := v |>)) = (writes ws (set_word k z x)) <| StateVersion := v |>).
  rewrite <- IH. f_equal. by do 12 (destruct k as [|k]; [done|]).
Qed.

(** ** Steps *)

(** A reader that copies the record of the version [v] it has read, with [k] words copied
    to [d]; [i] is the number of updates published before it began. *)
Inductive RingReader := Idle | Copying (v : Z) (i k : nat) (d : CFE_TIME_ReferenceState_t).

(** The ring, the last version, the words the writer has still to write, if it is in an
    update, the reader, and the records published so far. *)
Record Ring := mkRing {
  ring_mem : list CFE_TIME_ReferenceState_t;
  ring_last : Z;
  ring_writer : option (list (nat * Z));
  ring_reader : RingReader;
  ring_hist : list CFE_TIME_ReferenceState_t;
}.

(** One step of the writer (CFE_TIME_StartReferenceUpdate, the changes,
    CFE_TIME_FinishReferenceUpdate) or of the reader (one round of the loop of
    CFE_TIME_GetReference).  [update_steps] and [reader_steps] link them to the
    definitions of these functions in TimeState. *)
Inductive ring_step : Ring → Ring → Prop :=
| step_start m v r h c changes :
    m !! slot4 v = Some c → Forall (λ w, w.1 < 12)%nat changes →
    ring_step (mkRing m v None r h)
      (mkRing (alter (λ x, x <| StateVersion := u32 (v + 1) |>) (slot4 (u32 (v + 1))) m) v (Some (copies c ++ changes)) r h)
| step_write m v r h k z ws :
    ring_step (mkRing m v (Some ((k, z) :: ws)) r h) (mkRing (alter (set_word k z) (slot4 (u32 (v + 1))) m) v (Some ws) r h)
| step_finish m v r h x :
    m !! slot4 (u32 (v + 1)) = Some x → ring_step (mkRing m v (Some []) r h) (mkRing m (StateVersion x) None r (h ++ [x]))
| step_begin m v w r h d :
    ring_step (mkRing m v w r h) (mkRing m v w (Copying v (length h - 1) 0 d) h)
| step_read m v w h v' i k d x :
    (k < 12)%nat → m !! slot4 v' = Some x →
    ring_step (mkRing m v w (Copying v' i k d) h) (mkRing m v w (Copying v' i (S k) (set_word k (word k x) d)) h).

(** The reader copies the words [k] to [k + n - 1] of the record [x]. *)
Lemma copy_steps m v w h v' i x n k d : (k + n <= 12)%nat → m !! slot4 v' = Some x →
  rtc ring_step (mkRing m v w (Copying v' i k d) h) (mkRing m v w (Copying v' i (k + n) (foldl (λ d j, set_word j (word j x) d) d (seq k n))) h).
Proof.
  intros Hk Hx. revert k d Hk. induction n as [|n IH]; intros k d Hk; [by rewrite Nat.add_0_r|].
  eapply rtc_l; [apply step_read; [lia|exact Hx]|]. replace (k + S n)%nat with (S k + n)%nat by lia. apply IH. lia.
Qed.

(** The steps of a reader that is not interrupted are one round of the loop of
    CFE_TIME_GetReference: they copy the record the loop returns. *)
Lemma reader_steps n (s : TG) x w rd h d : current s = Some x →
  GetReference_loop n s = Some ((latch_of (LocalTime s), x), s) ∧
  rtc ring_step (mkRing (ReferenceState s) (LastVersionCounter s) w rd h)
    (mkRing (ReferenceState s) (LastVersionCounter s) w
       (Copying (LastVersionCounter s) (length h - 1) 12 (x <| StateVersion := StateVersion d |>)) h).
Proof.
  intros Hx. split.
  - assert (wp (GetReference_loop n) (λ a s', a = (latch_of (LocalTime s), x) ∧ s' = s) s) as W.
    { induction n as [|n IH]; cbn [GetReference_loop]; (do 2 wp_step; rewrite slot4_Z; wp_step; apply wp_Latch; wp_step; eapply wp_rd_ref; [exact Hx|];
        wp_step; eapply wp_rd_ref; [exact Hx|]; case_match); [by wp_step..|exact IH]. }
    apply wp_inv in W as (a & s' & E & -> & ->). exact E.
  - eapply rtc_l; [apply (step_begin _ _ _ _ _ d)|]. etrans; [apply (copy_steps _ _ _ _ _ _ x 12); [lia|exact Hx]|].
    replace (foldl _ d (seq 0 12)) with (x <| StateVersion := StateVersion d |>); [done|].
    by destruct x as [? ? ? ? ? [] [] [] []], d as [? ? ? ? ? [] [] [] []].
Qed.

(** The updates started so far. *)
Definition ring_started (s : Ring) : Z := Z.of_nat (length (ring_hist s)) - 1 + match ring_writer s with Some _ => 1 | None => 0 end.

(** ** The invariant *)

Section inv.
Variable v0 : Z.
Implicit Types (s : Ring).

(** The version of the [i]th record, and its place. *)
Definition version_of (i : Z) : Z := u32 (v0 + i).
Definition place_of (i : Z) : nat := slot4 (version_of i).

Lemma place_mod i : Z.of_nat (place_of i) = (v0 + i) mod 4.
Proof. unfold place_of, version_of. by rewrite <- slot4_Z, slot4_mod, u32_mod4. Qed.

Lemma place_ne i j : i < j < i + 4 → place_of i ≠ place_of j.
Proof.
  intros Hij E. pose proof (place_mod i) as H1. rewrite E, place_mod in H1. pose proof (Z.div_mod (v0 + i) 4 ltac:(lia)). pose proof (Z.div_mod (v0 + j) 4 ltac:(lia)). lia.
Qed.

Lemma place_lt i : (place_of i < 4)%nat.
Proof. apply slot4_lt. Qed.

Lemma version_next i : u32 (version_of i + 1) = version_of (i + 1).
Proof. unfold version_of, u32. rewrite Zplus_mod_idemp_l. f_equal. lia. Qed.

Record ring_inv s : Prop := {
  ri_len : length (ring_mem s) = 4%nat;
  ri_hist : (0 < length (ring_hist s))%nat;
  ri_last : ring_last s = version_of (Z.of_nat (length (ring_hist s)) - 1);
  ri_version i x : ring_hist s !! i = Some x → StateVersion x = version_of (Z.of_nat i);
  ri_kept i x : ring_hist s !! i = Some x → ring_started s < Z.of_nat i + 4 → ring_mem s !! place_of (Z.of_nat i) = Some x;
  ri_writer : match ring_writer s with
              | Some ws => Forall (λ w, w.1 < 12)%nat ws ∧
                  ∃ x, ring_mem s !! place_of (Z.of_nat (length (ring_hist s))) = Some x ∧ StateVersion x = version_of (Z.of_nat (length (ring_hist s)))
              | None => True
              end;
  ri_reader : match ring_reader s with
              | Copying v i k d => v = version_of (Z.of_nat i) ∧ (k <= 12)%nat ∧
                  ∃ x, ring_hist s !! i = Some x ∧ (ring_started s < Z.of_nat i + 4 → ∀ j, (j < k)%nat → word j d = word j x)
              | Idle => True
              end;
}.

(** Writes to the place of the update in progress keep the records readers can use. *)
Lemma kept_alter s f i x : ring_inv s → ring_hist s !! i = Some x → Z.of_nat (length (ring_hist s)) < Z.of_nat i + 4 →
  alter f (place_of (Z.of_nat (length (ring_hist s)))) (ring_mem s) !! place_of (Z.of_nat i) = Some x.
Proof.
  intros H Hi Hlt. pose proof (lookup_lt_Some _ _ _ Hi) as Hl. rewrite list_lookup_alter_ne by (symmetry; apply place_ne; lia).
  apply (ri_kept s H i x Hi). unfold ring_started. destruct (ring_writer s); lia.
Qed.

Lemma place_some s i : ring_inv s → is_Some (ring_mem s !! place_of i).
Proof. intros H. apply lookup_lt_is_Some. rewrite (ri_len s H). apply place_lt. Qed.

Lemma next_place s : ring_inv s → slot4 (u32 (ring_last s + 1)) = place_of (Z.of_nat (length (ring_hist s))) ∧ u32 (ring_last s + 1) = version_of (Z.of_nat (length (ring_hist s))).
Proof.
  intros H. assert (u32 (ring_last s + 1) = version_of (Z.of_nat (length (ring_hist s)))) as E by (rewrite (ri_last s H), version_next; f_equal; lia).
  split; [|exact E]. unfold place_of. by rewrite E.
Qed.

Lemma ring_inv_start m v r h c changes : ring_inv (mkRing m v None r h) → Forall (λ w, w.1 < 12)%nat changes →
  ring_inv (mkRing (alter (λ x, x <| StateVersion := u32 (v + 1) |>) (slot4 (u32 (v + 1))) m) v (Some (copies c ++ changes)) r h).
Proof.
  intros H Hch. destruct (next_place _ H) as [Ep Ev]. cbn [ring_last ring_hist] in Ep, Ev. rewrite Ep, Ev. set (n := Z.of_nat (length h)) in *.
  split; cbn [ring_mem ring_last ring_hist ring_writer ring_reader].
  - rewrite length_alter. apply H.
  - apply H.
  - apply H.
  - intros i x Hi. by apply (ri_version _ H).
  - intros i x Hi. unfold ring_started. cbn. intros Hlt. apply (kept_alter _ _ _ _ H Hi). cbn. lia.
  - split; [apply Forall_app; split; [by repeat constructor; cbn; lia|done]|].
    destruct (place_some _ n H) as [x Hx]. cbn in Hx. exists (x <| StateVersion := version_of n |>). by rewrite list_lookup_alter_eq, Hx.
  - pose proof (ri_reader _ H) as Hr. cbn in Hr. destruct r as [|v' i k d]; [done|]. destruct Hr as (E & Hk & x & Hi & Ha). split; [done|]. split; [done|].
    exists x. split; [done|]. intros Hlt. apply Ha. unfold ring_started in *. cbn in *. lia.
Qed.

Lemma ring_inv_write m v r h k z ws : ring_inv (mkRing m v (Some ((k, z) :: ws)) r h) →
  ring_inv (mkRing (alter (set_word k z) (slot4 (u32 (v + 1))) m) v (Some ws) r h).
Proof.
  intros H. destruct (next_place _ H) as [Ep _]. cbn [ring_last ring_hist] in Ep. rewrite Ep. pose proof (ri_writer _ H) as Hw. cbn in Hw.
  destruct Hw as (Hf & x & Hx & Hv). inversion Hf as [|? ? Hk Hws]; subst. split; cbn [ring_mem ring_last ring_hist ring_writer ring_reader].
  - rewrite length_alter. apply H.
  - apply H.
  - apply H.
  - intros i y Hi. by apply (ri_version _ H).
  - intros i y Hi. unfold ring_started. cbn. intros Hlt. apply (kept_alter _ _ _ _ H Hi). cbn. lia.
  - split; [done|]. exists (set_word k z x). by rewrite list_lookup_alter_eq, Hx, version_set.
  - apply (ri_reader _ H).
Qed.

Lemma ring_inv_finish m v r h x : ring_inv (mkRing m v (Some []) r h) → m !! slot4 (u32 (v + 1)) = Some x →
  ring_inv (mkRing m (StateVersion x) None r (h ++ [x])).
Proof.
  intros H Hx. destruct (next_place _ H) as [Ep _]. cbn [ring_last ring_hist] in Ep. rewrite Ep in Hx. pose proof (ri_writer _ H) as Hw. cbn in Hw.
  destruct Hw as (_ & y & Hy & Hv). rewrite Hx in Hy. injection Hy as <-.
  assert (ring_started (mkRing m (StateVersion x) None r (h ++ [x])) = ring_started (mkRing m v (Some []) r h)) as Es
    by (unfold ring_started; cbn; rewrite length_app; cbn; lia).
  split; cbn [ring_mem ring_last ring_hist ring_writer ring_reader].
  - apply H.
  - rewrite length_app. cbn. lia.
  - rewrite Hv, length_app. cbn. f_equal. lia.
  - intros i y Hi. apply lookup_app_Some in Hi as [Hi|[Hge Hi]]; [by apply (ri_version _ H)|].
    apply list_lookup_singleton_Some in Hi as [Hi <-]. rewrite Hv. f_equal. lia.
  - intros i y Hi Hlt. rewrite Es in Hlt. apply lookup_app_Some in Hi as [Hi|[Hge Hi]]; [by apply (ri_kept _ H)|].
    apply list_lookup_singleton_Some in Hi as [Hi <-]. by replace i with (length h) by lia.
  - done.
  - pose proof (ri_reader _ H) as Hr. cbn in Hr. destruct r as [|v' i k d]; [done|]. destruct Hr as (E & Hk & y & Hi & Ha). split; [done|]. split; [done|].
    exists y. split; [by apply lookup_app_l_Some|]. by rewrite Es.
Qed.

Lemma ring_inv_begin m v w r h d : ring_inv (mkRing m v w r h) → ring_inv (mkRing m v w (Copying v (length h - 1) 0 d) h).
Proof.
  intros H. pose proof (ri_hist _ H) as Hh. cbn in Hh. destruct H. split; try done. cbn in *. split; [rewrite ri_last0; f_equal; lia|]. split; [lia|].
  destruct (lookup_lt_is_Some_2 h (length h - 1)) as [x Hx]; [lia|]. exists x. split; [done|]. intros _ j Hj. lia.
Qed.

Lemma ring_inv_read m v w h v' i k d x : ring_inv (mkRing m v w (Copying v' i k d) h) → (k < 12)%nat → m !! slot4 v' = Some x →
  ring_inv (mkRing m v w (Copying v' i (S k) (set_word k (word k x) d)) h).
Proof.
  intros H Hk Hx. pose proof (ri_reader _ H) as (E & _ & y & Hi & Ha). pose proof (ri_kept _ H i y Hi) as Hkept. destruct H. split; try done. cbn in *.
  split; [done|]. split; [lia|]. exists y. split; [done|]. intros Hlt j Hj. specialize (Hkept Hlt). subst v'. fold (place_of (Z.of_nat i)) in Hx. rewrite Hx in Hkept. injection Hkept as ->.
  destruct (decide (j = k)) as [->|Hne]; [by apply word_same|]. rewrite word_other by done. apply Ha; [done|lia].
Qed.

Lemma ring_inv_step s s' : ring_inv s → ring_step s s' → ring_inv s'.
Proof.
  intros H Hs. destruct Hs as [m v r h c ch Hc Hch|m v r h k z ws|m v r h x Hx|m v w r h d|m v w h v' i k d x Hk Hx].
  - by apply ring_inv_start.
  - by apply ring_inv_write.
  - by eapply ring_inv_finish.
  - by eapply ring_inv_begin.
  - by apply ring_inv_read.
Qed.

End inv.

(** The start: the ring of a state of the service, with nothing in progress. *)
Definition ring_of (g : TG) (c : CFE_TIME_ReferenceState_t) : Ring := mkRing (ReferenceState g) (LastVersionCounter g) None Idle [c].

Lemma ring_of_inv g c : ring_ok g c → ring_inv (LastVersionCounter g) (ring_of g c).
Proof.
  intros [[H1 H2] H3 H4]. unfold current in H2. assert (version_of (LastVersionCounter g) 0 = LastVersionCounter g) as E by (unfold version_of; rewrite Z.add_0_r; by apply u32_small).
  split; cbn; try done.
  - lia.
  - intros i x Hi. apply list_lookup_singleton_Some in Hi as [-> <-]. change (Z.of_nat 0) with 0. by rewrite E, H3.
  - intros i x Hi _. apply list_lookup_singleton_Some in Hi as [-> <-]. change (Z.of_nat 0) with 0. unfold place_of. by rewrite E.
Qed.

Lemma ring_reach_inv g c s : ring_ok g c → rtc ring_step (ring_of g c) s → ring_inv (LastVersionCounter g) s.
Proof.
  intros H Hs. remember (ring_of g c) as s0 eqn:E. assert (ring_inv (LastVersionCounter g) s0) as Hi by (subst; by apply ring_of_inv). clear E.
  induction Hs as [|s1 s2 s3 H12 _ IH]; [done|]. apply IH. by eapply ring_inv_step.
Qed.

(** An update that runs without interruption: the steps lead to the state in which the
    changed copy of the current record is current. *)
Lemma write_steps m v r h ws : (slot4 (u32 (v + 1)) < length m)%nat →
  rtc ring_step (mkRing m v (Some ws) r h) (mkRing (alter (writes ws) (slot4 (u32 (v + 1))) m) v (Some []) r h).
Proof.
  intros Hl. revert m Hl. induction ws as [|[k z] ws IH]; intros m Hl.
  - rewrite list_alter_id; [reflexivity|done].
  - eapply rtc_l; [apply step_write|]. etrans; [apply IH; by rewrite length_alter|]. rewrite list_alter_alter_eq. reflexivity.
Qed.

Lemma update_steps g c r h changes : ring_ok g c → Forall (λ w, w.1 < 12)%nat changes →
  let g' := updated (writes changes c) g in
  rtc ring_step (mkRing (ReferenceState g) (LastVersionCounter g) None r h)
    (mkRing (ReferenceState g') (LastVersionCounter g') None r (h ++ [(writes changes c) <| StateVersion := LastVersionCounter g' |>])).
Proof.
  intros [[H1 H2] H3 H4] Hch. cbn. set (v := LastVersionCounter g) in *. eapply rtc_l; [by apply step_start|].
  assert (slot4 (u32 (v + 1)) < length (ReferenceState g))%nat as Hl by (rewrite H1; apply slot4_lt).
  etrans; [apply write_steps; by rewrite length_alter|]. rewrite list_alter_alter_eq.
  destruct (lookup_lt_is_Some_2 _ _ Hl) as [x0 Hx0]. rewrite (list_alter_at _ _ _ _ Hx0).
  change ((writes (copies c ++ changes) ∘ (λ x, x <| StateVersion := u32 (v + 1) |>)) x0) with (writes (copies c ++ changes) (x0 <| StateVersion := u32 (v + 1) |>)).
  rewrite writes_app, writes_copies, writes_version.
  eapply rtc_l; [apply step_finish, list_lookup_insert_eq, Hl|]. destruct (writes changes c). reflexivity.
Qed.

(** The record at the place of version [i] is of the last update started there. *)
Lemma place_version v0 s i : ring_inv v0 s → (i < length (ring_hist s))%nat →
  ∃ x j, ring_mem s !! place_of v0 (Z.of_nat i) = Some x ∧ StateVersion x = version_of v0 j ∧ Z.of_nat i <= j <= ring_started s ∧ ring_started s < j + 4 ∧ (4 | j - Z.of_nat i).
Proof.
  intros H Hi. set (q := (ring_started s - Z.of_nat i) / 4). set (j := Z.of_nat i + 4 * q).
  assert (Z.of_nat i <= ring_started s) as Hle by (unfold ring_started; destruct (ring_writer s); lia).
  pose proof (Z.div_mod (ring_started s - Z.of_nat i) 4 ltac:(lia)) as Hq. pose proof (Z.mod_pos_bound (ring_started s - Z.of_nat i) 4 ltac:(lia)).
  fold q in Hq. assert (0 <= q) by (apply Z.div_pos; lia).
  assert (place_of v0 (Z.of_nat i) = place_of v0 j) as Ep.
  { apply Nat2Z.inj. rewrite !place_mod. unfold j. replace (v0 + (Z.of_nat i + 4 * q)) with (v0 + Z.of_nat i + q * 4) by lia. by rewrite Z.mod_add. }
  assert (∃ x, ring_mem s !! place_of v0 j = Some x ∧ StateVersion x = version_of v0 j) as (x & Hx & Hv).
  { destruct (decide (j < Z.of_nat (length (ring_hist s)))) as [Hlt|Hge].
    - destruct (lookup_lt_is_Some_2 (ring_hist s) (Z.to_nat j)) as [x Hx]; [unfold j in *; lia|]. exists x.
      pose proof (ri_kept _ _ H _ _ Hx) as Hk. pose proof (ri_version _ _ H _ _ Hx) as Hv. rewrite Z2Nat.id in Hk, Hv by (unfold j; lia).
      split; [apply Hk; unfold j; lia|done].
    - pose proof (ri_writer _ _ H) as Hw. assert (j <= ring_started s) as Hj by (unfold j; lia). unfold ring_started in Hj.
      destruct (ring_writer s) as [ws|]; [|lia]. destruct Hw as (_ & x & Hx & Hv). exists x. by replace j with (Z.of_nat (length (ring_hist s))) by lia. }
  exists x, j. rewrite Ep. split_and!; try done; try (unfold j; lia). exists q. unfold j. lia.
Qed.

(** [C36] Reading the time without a lock: when a reader has copied the record of the version
    it read, the version in that place is still the same exactly when fewer than four later
    updates have been started, and then the copy is the record published with that
    version; the bound of 2{^32} updates during one read is that of the version counter.
    So the check of CFE_TIME_GetReference never accepts a copy that an update has
    changed, and fails only when four updates have been started during the read. *)
Theorem ring_snapshot g c s v i d (Hg : ring_ok g c) (Hs : rtc ring_step (ring_of g c) s) (Hr : ring_reader s = Copying v i 12 d)
    (Hb : ring_started s < Z.of_nat i + 2 ^ 32) :
  ∃ x y, ring_mem s !! slot4 v = Some x ∧ ring_hist s !! i = Some y ∧ StateVersion y = v ∧
    (StateVersion x = v ↔ ring_started s < Z.of_nat i + 4) ∧ (StateVersion x = v → d = y <| StateVersion := StateVersion d |>).
Proof.
  pose proof (ring_reach_inv g c s Hg Hs) as H. pose proof (ri_reader _ _ H) as Hrd. rewrite Hr in Hrd. destruct Hrd as (-> & _ & y & Hi & Ha).
  destruct (place_version _ s i H (lookup_lt_Some _ _ _ Hi)) as (x & j & Hx & Hv & Hj & Hj' & [q Hq]). exists x, y. unfold place_of in Hx.
  assert (StateVersion x = version_of (LastVersionCounter g) (Z.of_nat i) ↔ ring_started s < Z.of_nat i + 4) as Hiff.
  { rewrite Hv. split.
    - intros E. unfold version_of, u32 in E. assert (j = Z.of_nat i) as -> by (pose proof (Z.div_mod (LastVersionCounter g + j) (2 ^ 32) ltac:(lia));
        pose proof (Z.div_mod (LastVersionCounter g + Z.of_nat i) (2 ^ 32) ltac:(lia)); lia). lia.
    - intros Hlt. assert (j = Z.of_nat i) as -> by lia. done. }
  split_and!; try done.
  - by apply (ri_version _ _ H).
  - intros E. apply words_all. apply Ha. by apply Hiff.
Qed.
