(* ===== verification/TimeExamples.v ===== *)
(** * Runs of the time service *)
From stdpp Require Import relations.
From S2P Require Import Prelude Config ResourceId TimeApi TimeState TimeTone TimeTask TimeOps TimeSafe TimeClock TimeCmds TimeTheorems TimeRing.

Module TimeRuns.

(** Evaluates a closed statement. *)
Ltac vmc := clear; by vm_compute.

(** The configuration of the repository, and that of a client. *)
Definition server_cfg : TimeCfg := Build_TimeCfg true SRC_NONE false false false true.
Definition client_cfg : TimeCfg := Build_TimeCfg false SRC_NONE false false false true.

(** Before the initialization, with a reset area of zeroes. *)
Definition off : TG :=
  mkTimeGlobal 0 0 0 zero_time zero_time 0 0 zero_time zero_time 0 0 zero_time zero_time 0 0 0 0 0 0 0 0 0 0 0 0
    [] 0 0 0 zero_time false false false zero_time 0 0 0 [] zero_time zero_time 0 (Some (mkResetVars 0 0 0 zero_time zero_time zero_time)) [] 0 0 0.

Definition after {A} (m : M TG A) (s : TG) : TG := match m s with Some (_, s') => s' | None => s end.
Definition at_clock (clk : Z) (s : TG) : TG := s <| LocalTime := clk |>.

Definition no_time : CFE_TIME_TimeCmd_Payload_t := mkTimeCmd 0 0.
Definition no_tone : CFE_TIME_ToneDataCmd_Payload_t := mkToneData zero_time zero_time 0 0.
Definition command (cc size n : Z) (t : CFE_TIME_TimeCmd_Payload_t) : TimeMsg := mkTimeMsg CFE_TIME_CMD_MID cc size n t zero_time no_tone.

(** Ticks of 100 ns. *)
Definition second : Z := 10000000.

Definition server : TG := after (@CFE_TIME_InitData server_cfg) off.
Definition client : TG := after (@CFE_TIME_InitData client_cfg) off.

Lemma off_area v : ResetArea off = Some v → vars_ok v.
Proof. intros [= <-]. by vm_compute. Qed.

Lemma server_reach : @time_reach server_cfg server.
Proof. apply (@reach_power server_cfg off); [apply off_area|by vm_compute]. Qed.

Lemma client_reach : @time_reach client_cfg client.
Proof. apply (@reach_power client_cfg off); [apply off_area|by vm_compute]. Qed.

(** A command to set the time to 2000 seconds. *)
Definition set_time : TimeMsg := command CFE_TIME_SET_TIME_CC 16 0 (mkTimeCmd 2000 500000).

Lemma time_safe_witness : ∃ s', @time_call server_cfg (CallTask set_time) server = Some (tt, s') ∧ @time_reach server_cfg s'.
Proof. destruct (@time_safe server_cfg server (CallTask set_time) server_reach) as (s' & c & E & Hr & _); [vmc|]. exists s'. split; [exact E|exact Hr]. Defined.

(** After it the clock reads 2003.5 seconds three seconds later. *)
Lemma set_time_reads_witness : ∃ s' t', @CFE_TIME_SetTime server_cfg (mkTime 2000 0x80000000) server = Some (tt, s') ∧
  @CFE_TIME_GetTime server_cfg (at_clock (3 * second) s') = Some (t', at_clock (3 * second) s') ∧ val t' = val (mkTime 2003 0x80000000).
Proof.
  destruct (current server) as [c|] eqn:Ec; [|by vm_compute in Ec].
  destruct (@set_time_reads server_cfg server c (mkTime 2000 0x80000000) (3 * second) server_reach Ec ltac:(vmc)) as (s' & t' & E1 & E2 & E3).
  exists s', t'. split; [exact E1|]. split; [exact E2|]. cbv zeta in E3. rewrite E3. vm_compute in Ec. injection Ec as <-. vmc.
Defined.

(** A tone signal after one second, and the data a tenth of a second later. *)
Definition toned (s : TG) : TG := at_clock (11 * second / 10) (after CFE_TIME_Tone1HzISR (at_clock second s)).

Lemma toned_reach cfg s : @time_reach cfg s → CFE_TIME_Tone1HzISR (at_clock second s) = Some (tt, after CFE_TIME_Tone1HzISR (at_clock second s)) →
  @time_reach cfg (toned s).
Proof. intros H E. apply reach_clock. eapply (@reach_call cfg _ CallTone1HzISR); [by apply reach_clock|done|exact E]. Qed.

Lemma tone_verify_witness : ∃ s', @CFE_TIME_ToneVerify server_cfg (mkTime 1 0) (latch_of (11 * second / 10)) (toned server) = Some (tt, s') ∧
  ToneMatchCounter s' = 1.
Proof.
  destruct (current (toned server)) as [c|] eqn:Ec; [|by vm_compute in Ec].
  destruct (@tone_verify server_cfg (toned server) c (mkTime 1 0) (latch_of (11 * second / 10)) (toned_reach _ _ server_reach ltac:(vmc)) Ec
    ltac:(vmc) ltac:(vmc) ltac:(vmc)) as (s' & E & _ & _ & H & _).
  exists s'. split; [exact E|]. destruct H as (H & _); [|rewrite H; vmc].
  split; [vmc|]. split; [vmc|]. vmc.
Defined.

Definition tone_data : CFE_TIME_ToneDataCmd_Payload_t := mkToneData (mkTime 5000 0) (mkTime 1000000 0) 37 CFE_TIME_ClockState_VALID.

(** A client reads the time of the server four seconds after the tone. *)
Lemma client_sync_witness : ∃ s' t, @CFE_TIME_ToneData client_cfg tone_data (toned client) = Some (tt, s') ∧
  @CFE_TIME_GetTAI client_cfg (at_clock (5 * second) s') = Some (t, at_clock (5 * second) s') ∧ val t = val (mkTime 1005004 0) ∧
  @CFE_TIME_GetClockState client_cfg s' = Some (CFE_TIME_ClockState_VALID, s').
Proof.
  destruct (current (toned client)) as [c|] eqn:Ec; [|by vm_compute in Ec].
  destruct (@client_sync client_cfg (toned client) c tone_data (5 * second) (toned_reach _ _ client_reach ltac:(vmc)) Ec eq_refl eq_refl
    ltac:(vmc) ltac:(vmc) ltac:(vmc) ltac:(vmc) ltac:(clear; by repeat constructor)) as (s' & E1 & Hs).
  assert (Forced2Fly (toned client) = false) as Ef by vmc. rewrite Ef in Hs. destruct Hs as (t & E2 & E3 & E4).
  exists s', t. split; [exact E1|]. split; [exact E2|]. split; [|exact E4]. rewrite E3. vm_compute in Ec. injection Ec as <-. vmc.
Defined.

(** Nine seconds without a tone: the server latches its time. *)
Lemma one_hz_witness : ∃ s' c' m, @CFE_TIME_Local1HzStateMachine server_cfg (at_clock (9 * second) server) = Some (tt, s') ∧ current s' = Some c' ∧
  rs_AtToneLatch c' = latch_of (9 * second) ∧ @CFE_TIME_GetMET server_cfg s' = Some (m, s').
Proof.
  destruct (current (at_clock (9 * second) server)) as [c|] eqn:Ec; [|by vm_compute in Ec].
  destruct (@one_hz server_cfg (at_clock (9 * second) server) c (@reach_clock server_cfg _ _ server_reach) Ec ltac:(vmc)) as (s' & c' & m & E1 & E2 & _ & _ & E3 & _ & E4).
  exists s', c', m. split; [exact E1|]. split; [exact E2|]. vm_compute in Ec. injection Ec as <-. split; [|exact (E4 eq_refl)]. apply E3; vmc.
Defined.

(** A client with a delay of half a second in flywheel mode. *)
Definition add_delay : TimeMsg := command CFE_TIME_ADD_DELAY_CC 16 0 (mkTimeCmd 0 500000).
Definition delayed_client : TG := after (@CFE_TIME_TaskPipe client_cfg add_delay) client.

Lemma delayed_reach : @time_reach client_cfg delayed_client.
Proof. apply (@reach_call client_cfg client (CallTask add_delay)); [apply client_reach|vmc|vmc]. Qed.

Lemma client_latch_drift_witness : ∃ s' m m', @CFE_TIME_GetMET client_cfg (at_clock (9 * second) delayed_client) = Some (m, at_clock (9 * second) delayed_client) ∧
  @CFE_TIME_Local1HzStateMachine client_cfg (at_clock (9 * second) delayed_client) = Some (tt, s') ∧ @CFE_TIME_GetMET client_cfg s' = Some (m', s') ∧
  val m' = (val m + val (mkTime 0 0x80000000)) mod 2 ^ 64.
Proof.
  destruct (current (at_clock (9 * second) delayed_client)) as [c|] eqn:Ec; [|by vm_compute in Ec]. pose proof Ec as Ec'. vm_compute in Ec'. injection Ec' as <-.
  destruct (@client_latch_drift client_cfg (at_clock (9 * second) delayed_client) _ (@reach_clock client_cfg _ _ delayed_reach) Ec eq_refl eq_refl ltac:(vmc))
    as (s' & m & m' & E1 & E2 & _ & E3 & E4).
  exists s', m, m'. split; [exact E1|]. split; [exact E2|]. split; [exact E3|exact E4].
Defined.

(** A reset of the server after five seconds. *)
Lemma reset_recovers_witness : ∃ s1 s2 t, @CFE_TIME_HousekeepingCmd server_cfg (at_clock (5 * second) server) = Some (tt, s1) ∧ @CFE_TIME_InitData server_cfg s1 = Some (tt, s2) ∧
  @CFE_TIME_GetTAI server_cfg (at_clock (5 * second) server) = Some (t, at_clock (5 * second) server) ∧ @CFE_TIME_GetTAI server_cfg s2 = Some (t, s2).
Proof.
  destruct (current (at_clock (5 * second) server)) as [c|] eqn:Ec; [|by vm_compute in Ec].
  destruct (@reset_recovers server_cfg (at_clock (5 * second) server) c (mkResetVars 0 0 0 zero_time zero_time zero_time) (@reach_clock server_cfg _ _ server_reach) Ec eq_refl
    ltac:(vmc) ltac:(vmc) ltac:(left; vmc)) as (s1 & s2 & _ & t & E1 & E2 & E3 & E4 & _).
  exists s1, s2, t. split; [exact E1|]. split; [exact E2|]. split; [exact E3|exact E4].
Defined.

(** A command with too many microseconds. *)
Lemma ground_commands_witness : ∃ e, @CFE_TIME_TaskPipe server_cfg (command CFE_TIME_SET_MET_CC 16 0 (mkTimeCmd 7 1000000)) server = Some (tt, refused e server).
Proof. exact (@ground_commands server_cfg server (command CFE_TIME_SET_MET_CC 16 0 (mkTimeCmd 7 1000000)) server_reach eq_refl ltac:(vmc)). Defined.

(** A reader that is overtaken by an update of the STCF after it has copied the MET. *)
Definition record0 : CFE_TIME_ReferenceState_t := default zero_ref (current server).

Lemma record0_ok : ring_ok server record0.
Proof. apply (@reach_facts server_cfg server record0 server_reach). vmc. Qed.

Definition server' : TG := updated (writes [(2%nat, 7777)] record0) server.

Definition overtaken (d : CFE_TIME_ReferenceState_t) : Ring :=
  mkRing (ReferenceState server') (LastVersionCounter server') None (Copying (LastVersionCounter server) 0 12 d)
    [record0; (writes [(2%nat, 7777)] record0) <| StateVersion := LastVersionCounter server' |>].

Lemma overtaken_steps : ∃ d, rtc ring_step (ring_of server record0) (overtaken d).
Proof.
  eexists. eapply rtc_l; [apply (step_begin _ _ _ _ _ zero_ref)|].
  etrans; [apply (copy_steps _ _ _ _ _ _ record0 2); [cbn; lia|vmc]|].
  etrans; [apply (update_steps server record0 _ _ [(2%nat, 7777)]); [apply record0_ok|repeat constructor; cbn; lia]|].
  apply (copy_steps _ _ _ _ _ _ record0 10); [cbn; lia|vmc].
Qed.

Lemma overtaken_hist d : ring_hist (overtaken d) !! 0%nat = Some record0.
Proof. reflexivity. Qed.

Lemma ring_snapshot_witness : ∃ d, rtc ring_step (ring_of server record0) (overtaken d) ∧ d = record0 <| StateVersion := StateVersion d |>.
Proof.
  destruct overtaken_steps as (d & Hs). exists d. split; [exact Hs|].
  destruct (ring_snapshot server record0 (overtaken d) (LastVersionCounter server) 0 d record0_ok Hs eq_refl ltac:(vmc)) as (x & y & Hx & Hy & _ & Hiff & Hd).
  rewrite overtaken_hist in Hy. apply (inj Some) in Hy. rewrite Hy. apply Hd, Hiff. vmc.
Defined.

End TimeRuns.
