(* ===== verification/EvsState.v ===== *)
(** * Event services: state, event log and the generation of events
    (cfe_evs_utils.c, cfe_evs_log.c)

    An application registers with a table of binary filters.  An event that passes the
    type mask and the filter of its application is written to the event log, printed on
    the enabled ports and sent on the bus.  The log is a ring in the reset area, which a
    processor reset keeps; [EVS_LogPtr] tells whether the pointer to it has been set.
    The entry of an application is named by its index, [None] for NULL.

    Event services use the table of applications and the time, which are part of the
    state; packets, port output, files and system log entries are recorded in order.
    Calls are atomic; the mutex of the log is modelled to show that no task takes it
    twice. *)
From Stdlib Require Import String.
From S2P Require Import Prelude Config Msg ResourceId Cstring EsApp TimeApi.
Import ListNotations.

(** ** Constants (cfe_evs_events.h, cfe_evs_msg.h, cfe_error.h and the sample configuration) *)

(** Event identifiers. *)
Definition CFE_EVS_NOOP_EID : Z := 0.
Definition CFE_EVS_STARTUP_EID : Z := 1.
Definition CFE_EVS_ERR_WRLOGFILE_EID : Z := 2.
Definition CFE_EVS_ERR_CRLOGFILE_EID : Z := 3.
Definition CFE_EVS_ERR_MSGID_EID : Z := 5.
Definition CFE_EVS_ERR_EVTIDNOREGS_EID : Z := 6.
Definition CFE_EVS_ERR_APPNOREGS_EID : Z := 7.
Definition CFE_EVS_ERR_ILLAPPIDRANGE_EID : Z := 8.
Definition CFE_EVS_ERR_NOAPPIDFOUND_EID : Z := 9.
Definition CFE_EVS_ERR_ILLEGALFMTMOD_EID : Z := 10.
Definition CFE_EVS_ERR_MAXREGSFILTER_EID : Z := 11.
Definition CFE_EVS_ERR_WRDATFILE_EID : Z := 12.
Definition CFE_EVS_ERR_CRDATFILE_EID : Z := 13.
Definition CFE_EVS_ERR_CC_EID : Z := 15.
Definition CFE_EVS_RSTCNT_EID : Z := 16.
Definition CFE_EVS_SETFILTERMSK_EID : Z := 17.
Definition CFE_EVS_ENAPORT_EID : Z := 18.
Definition CFE_EVS_DISPORT_EID : Z := 19.
Definition CFE_EVS_ENAEVTTYPE_EID : Z := 20.
Definition CFE_EVS_DISEVTTYPE_EID : Z := 21.
Definition CFE_EVS_SETEVTFMTMOD_EID : Z := 22.
Definition CFE_EVS_ENAAPPEVTTYPE_EID : Z := 23.
Definition CFE_EVS_DISAPPENTTYPE_EID : Z := 24.
Definition CFE_EVS_ENAAPPEVT_EID : Z := 25.
Definition CFE_EVS_DISAPPEVT_EID : Z := 26.
Definition CFE_EVS_RSTEVTCNT_EID : Z := 27.
Definition CFE_EVS_RSTFILTER_EID : Z := 28.
Definition CFE_EVS_RSTALLFILTER_EID : Z := 29.
Definition CFE_EVS_ADDFILTER_EID : Z := 30.
Definition CFE_EVS_DELFILTER_EID : Z := 31.
Definition CFE_EVS_WRDAT_EID : Z := 32.
Definition CFE_EVS_WRLOG_EID : Z := 33.
Definition CFE_EVS_EVT_FILTERED_EID : Z := 37.
Definition CFE_EVS_LOGMODE_EID : Z := 38.
Definition CFE_EVS_ERR_LOGMODE_EID : Z := 39.
Definition CFE_EVS_ERR_INVALID_BITMASK_EID : Z := 40.
Definition CFE_EVS_ERR_UNREGISTERED_EVS_APP : Z := 41.
Definition CFE_EVS_FILTER_MAX_EID : Z := 42.
Definition CFE_EVS_LEN_ERR_EID : Z := 43.

(** Command codes and message identifiers. *)
Definition CFE_EVS_NOOP_CC : Z := 0.
Definition CFE_EVS_RESET_COUNTERS_CC : Z := 1.
Definition CFE_EVS_ENABLE_EVENT_TYPE_CC : Z := 2.
Definition CFE_EVS_DISABLE_EVENT_TYPE_CC : Z := 3.
Definition CFE_EVS_SET_EVENT_FORMAT_MODE_CC : Z := 4.
Definition CFE_EVS_ENABLE_APP_EVENT_TYPE_CC : Z := 5.
Definition CFE_EVS_DISABLE_APP_EVENT_TYPE_CC : Z := 6.
Definition CFE_EVS_ENABLE_APP_EVENTS_CC : Z := 7.
Definition CFE_EVS_DISABLE_APP_EVENTS_CC : Z := 8.
Definition CFE_EVS_RESET_APP_COUNTER_CC : Z := 9.
Definition CFE_EVS_SET_FILTER_CC : Z := 10.
Definition CFE_EVS_ENABLE_PORTS_CC : Z := 11.
Definition CFE_EVS_DISABLE_PORTS_CC : Z := 12.
Definition CFE_EVS_RESET_FILTER_CC : Z := 13.
Definition CFE_EVS_RESET_ALL_FILTERS_CC : Z := 14.
Definition CFE_EVS_ADD_EVENT_FILTER_CC : Z := 15.
Definition CFE_EVS_DELETE_EVENT_FILTER_CC : Z := 16.
Definition CFE_EVS_WRITE_APP_DATA_FILE_CC : Z := 17.
Definition CFE_EVS_WRITE_LOG_DATA_FILE_CC : Z := 18.
Definition CFE_EVS_SET_LOG_MODE_CC : Z := 19.
Definition CFE_EVS_CLEAR_LOG_CC : Z := 20.
Definition CFE_EVS_CMD_MID : Z := 0x1801.
Definition CFE_EVS_SEND_HK_MID : Z := 0x1809.
Definition CFE_EVS_HK_TLM_MID : Z := 0x0801.
Definition CFE_EVS_LONG_EVENT_MSG_MID : Z := 0x0808.
Definition CFE_EVS_SHORT_EVENT_MSG_MID : Z := 0x0809.

(** Return codes. *)
Definition CFE_STATUS_NO_COUNTER_INCREMENT : Z := s32 0x48000001.
Definition CFE_STATUS_WRONG_MSG_LENGTH : Z := s32 0xc8000002.
Definition CFE_STATUS_BAD_COMMAND_CODE : Z := s32 0xc8000004.
Definition CFE_EVS_UNKNOWN_FILTER : Z := s32 0xc2000001.
Definition CFE_EVS_APP_NOT_REGISTERED : Z := s32 0xc2000002.
Definition CFE_EVS_APP_ILLEGAL_APP_ID : Z := s32 0xc2000003.
Definition CFE_EVS_APP_FILTER_OVERLOAD : Z := s32 0xc2000004.
Definition CFE_EVS_RESET_AREA_POINTER : Z := s32 0xc2000005.
Definition CFE_EVS_EVT_NOT_REGISTERED : Z := s32 0xc2000006.
Definition CFE_EVS_FILE_WRITE_ERROR : Z := s32 0xc2000007.
Definition CFE_EVS_INVALID_PARAMETER : Z := s32 0xc2000008.

(** Enumerations and masks. *)
Definition CFE_EVS_MsgFormat_SHORT : Z := 0.
Definition CFE_EVS_MsgFormat_LONG : Z := 1.
Definition CFE_EVS_LogMode_OVERWRITE : Z := 0.
Definition CFE_EVS_LogMode_DISCARD : Z := 1.
Definition CFE_EVS_EventType_DEBUG : Z := 1.
Definition CFE_EVS_EventType_INFORMATION : Z := 2.
Definition CFE_EVS_EventType_ERROR : Z := 3.
Definition CFE_EVS_EventType_CRITICAL : Z := 4.
Definition CFE_EVS_EventFilter_BINARY : Z := 0.
Definition CFE_EVS_DEBUG_BIT : Z := 1.
Definition CFE_EVS_INFORMATION_BIT : Z := 2.
Definition CFE_EVS_ERROR_BIT : Z := 4.
Definition CFE_EVS_CRITICAL_BIT : Z := 8.
Definition CFE_EVS_PORT1_BIT : Z := 1.
Definition CFE_EVS_PORT2_BIT : Z := 2.
Definition CFE_EVS_PORT3_BIT : Z := 4.
Definition CFE_EVS_PORT4_BIT : Z := 8.

Definition CFE_EVS_MSG_TRUNCATED : Z := 36.
Definition CFE_EVS_FREE_SLOT : Z := -1.
Definition CFE_EVS_NO_MASK : Z := 0.
Definition CFE_EVS_MAX_EVENT_SEND_COUNT : Z := 65535.
Definition CFE_EVS_MAX_FILTER_COUNT : Z := 65535.

(** The sample configuration. *)
Definition CFE_PLATFORM_EVS_MAX_EVENT_FILTERS : Z := 8.
Definition CFE_PLATFORM_EVS_LOG_MAX : Z := 20.
Definition CFE_PLATFORM_EVS_PORT_DEFAULT : Z := 1.
Definition CFE_PLATFORM_EVS_DEFAULT_TYPE_FLAG : Z := 0xE.
Definition CFE_PLATFORM_EVS_DEFAULT_LOG_MODE : Z := 1.
Definition CFE_PLATFORM_EVS_DEFAULT_MSG_FORMAT_MODE : Z := CFE_EVS_MsgFormat_LONG.
Definition CFE_MISSION_ES_MAX_APPLICATIONS : Z := 16.
Definition CFE_MISSION_EVS_MAX_MESSAGE_LENGTH : nat := 122.
Definition CFE_MISSION_MAX_API_LEN : nat := 20.
Definition CFE_MISSION_MAX_PATH_LEN : nat := 64.
Definition OS_MAX_PATH_LEN : nat := 64.
Definition CFE_EVS_MAX_PORT_MSG_LENGTH : nat := 172.

(** Conversion to int16. *)
Definition s16 (z : Z) : Z := (z + 2 ^ 15) mod 2 ^ 16 - 2 ^ 15.

(** ** Configuration and state *)

(** The message format of the build, and what the board support package and the build
    give. *)
Class EvsCfg := {
  evs_hdr : HdrFormat;
  evs_idv : MsgIdVersion;
  CFE_PSP_GetSpacecraftId : Z;
  CFE_PSP_GetProcessorId : Z;
  CFE_VERSION_STRING : list Z;
}.

(** ** Data *)

Record EVS_BinFilter_t := mkBinFilter { bf_EventID : Z; bf_Mask : Z; bf_Count : Z }.
#[export] Instance BinFilter_eta : Eta _ := mkEta (λ r, mkBinFilter (bf_EventID r) (bf_Mask r) (bf_Count r)).

Record EVS_AppData_t := mkAppData {
  ad_AppID : Z;
  ad_UnregAppID : Z;
  ad_BinFilters : list EVS_BinFilter_t;
  ad_ActiveFlag : bool;
  ad_EventTypesActiveFlag : Z;
  ad_EventCount : Z;
}.
#[export] Instance AppData_eta : Eta _ :=
  mkEta (λ r, mkAppData (ad_AppID r) (ad_UnregAppID r) (ad_BinFilters r) (ad_ActiveFlag r) (ad_EventTypesActiveFlag r) (ad_EventCount r)).

#[export] Instance BinFilter_dec : EqDecision EVS_BinFilter_t.
Proof. solve_decision. Defined.
#[export] Instance AppData_dec : EqDecision EVS_AppData_t.
Proof. solve_decision. Defined.

Record CFE_EVS_PacketID_t := mkPacketID {
  pk_AppName : list Z;
  pk_EventID : Z;
  pk_EventType : Z;
  pk_SpacecraftID : Z;
  pk_ProcessorID : Z;
}.

Record CFE_EVS_LongEventTlm_t := mkLong { le_TlmHeader : Message; le_PacketID : CFE_EVS_PacketID_t; le_Message : list Z }.
Record CFE_EVS_ShortEventTlm_t := mkShort { se_TlmHeader : Message; se_PacketID : CFE_EVS_PacketID_t }.

Record CFE_EVS_Log_t := mkLog {
  Next : Z;
  LogCount : Z;
  LogFullFlag : Z;
  LogMode : Z;
  LogOverflowCounter : Z;
  LogEntry : list CFE_EVS_LongEventTlm_t;
}.
#[export] Instance Log_eta : Eta _ :=
  mkEta (λ r, mkLog (Next r) (LogCount r) (LogFullFlag r) (LogMode r) (LogOverflowCounter r) (LogEntry r)).

Record CFE_EVS_AppTlmData_t := mkAppTlm { at_AppID : Z; at_AppMessageSentCounter : Z; at_AppEnableStatus : bool }.
#[export] Instance AppTlm_eta : Eta _ := mkEta (λ r, mkAppTlm (at_AppID r) (at_AppMessageSentCounter r) (at_AppEnableStatus r)).

Record CFE_EVS_HousekeepingTlm_Payload_t := mkHkTlm {
  hk_CommandCounter : Z;
  hk_CommandErrorCounter : Z;
  hk_MessageFormatMode : Z;
  hk_MessageTruncCounter : Z;
  hk_UnregisteredAppCounter : Z;
  hk_OutputPort : Z;
  hk_LogFullFlag : Z;
  hk_LogMode : Z;
  hk_MessageSendCounter : Z;
  hk_LogOverflowCounter : Z;
  hk_LogEnabled : bool;
  hk_AppData : list CFE_EVS_AppTlmData_t;
}.
#[export] Instance HkTlm_eta : Eta _ :=
  mkEta (λ r, mkHkTlm (hk_CommandCounter r) (hk_CommandErrorCounter r) (hk_MessageFormatMode r) (hk_MessageTruncCounter r)
    (hk_UnregisteredAppCounter r) (hk_OutputPort r) (hk_LogFullFlag r) (hk_LogMode r) (hk_MessageSendCounter r)
    (hk_LogOverflowCounter r) (hk_LogEnabled r) (hk_AppData r)).

Record CFE_EVS_AppDataFile_t := mkAppDataFile {
  af_AppName : list Z;
  af_ActiveFlag : bool;
  af_EventTypesActiveFlag : Z;
  af_EventCount : Z;
  af_Filters : list EVS_BinFilter_t;
}.

(** What event services do to the outside. *)
Inductive EvsOut :=
| OutLong (p : CFE_EVS_LongEventTlm_t)
| OutShort (p : CFE_EVS_ShortEventTlm_t)
| OutHk (h : Message) (p : CFE_EVS_HousekeepingTlm_Payload_t)
| OutPort (port : Z) (text : list Z)
| OutSysLog (text : list Z)
| OutOpen (name : list Z)
| OutHeader (description : list Z) (subtype : Z)
| OutLogEntry (p : CFE_EVS_LongEventTlm_t) (written : Z)
| OutAppEntry (p : CFE_EVS_AppDataFile_t) (written : Z)
| OutClose
| OutPanic (code : Z).

Record CFE_EVS_Global_t := mkEvs {
  AppData : list EVS_AppData_t;
  EVS_LogPtr : bool;
  EVS_TlmHeader : Message;
  EVS_Tlm : CFE_EVS_HousekeepingTlm_Payload_t;
  EVS_CommandPipe : Z;
  EVS_Mutex : bool;
  EVS_AppID : Z;
  EVS_Log : CFE_EVS_Log_t;
  AppTable : list CFE_ES_AppRecord_t;
  Now : CFE_TIME_SysTime_t;
  EvsSent : list EvsOut;
}.
#[export] Instance Evs_eta : Eta _ :=
  mkEta (λ r, mkEvs (AppData r) (EVS_LogPtr r) (EVS_TlmHeader r) (EVS_Tlm r) (EVS_CommandPipe r) (EVS_Mutex r) (EVS_AppID r) (EVS_Log r)
    (AppTable r) (Now r) (EvsSent r)).

Abbreviation EG := CFE_EVS_Global_t.

Definition out (o : EvsOut) : M EG unit := modify (λ s, s <| EvsSent ::= λ l, l ++ [o] |>).
Definition tlm (f : CFE_EVS_HousekeepingTlm_Payload_t → CFE_EVS_HousekeepingTlm_Payload_t) : M EG unit :=
  modify (λ s, s <| EVS_Tlm ::= f |>).

Definition rd_app (i : Z) : M EG EVS_AppData_t := l ← gets AppData; tbl_get l i.
Definition wr_app (i : Z) (f : EVS_AppData_t → EVS_AppData_t) : M EG unit :=
  l ← gets AppData;
  l ← of_option (tbl_upd f i l);
  modify (λ s, s <| AppData := l |>).

Definition rd_log : M EG CFE_EVS_Log_t := p ← gets EVS_LogPtr; if p : bool then gets EVS_Log else undef.
Definition wr_log (f : CFE_EVS_Log_t → CFE_EVS_Log_t) : M EG unit :=
  p ← gets EVS_LogPtr; if p : bool then modify (λ s, s <| EVS_Log ::= f |>) else undef.

(** Taking the mutex again in the same call would never return. *)
Definition mut_take : M EG unit := m ← gets EVS_Mutex; if m : bool then undef else modify (λ s, s <| EVS_Mutex := true |>).
Definition mut_give : M EG unit := modify (λ s, s <| EVS_Mutex := false |>).

(** ** The event log: cfe_evs_log.c *)

Definition zero_packet : CFE_EVS_LongEventTlm_t :=
  mkLong (replicate 16 0) (mkPacketID (replicate CFE_MISSION_MAX_API_LEN 0) 0 0 0 0) (replicate CFE_MISSION_EVS_MAX_MESSAGE_LENGTH 0).

Definition EVS_AddLog (EVS_PktPtr : CFE_EVS_LongEventTlm_t) : M EG unit :=
  mut_take;;
  g ← rd_log;
  (if (LogFullFlag g =? 1) && (LogMode g =? CFE_EVS_LogMode_DISCARD) then
     wr_log (λ g, g <| LogOverflowCounter ::= λ n, u16 (n + 1) |>)
   else
     when (LogFullFlag g =? 1) (wr_log (λ g, g <| LogOverflowCounter ::= λ n, u16 (n + 1) |>));;
     g ← rd_log;
     l ← of_option (tbl_upd (λ _, EVS_PktPtr) (Next g) (LogEntry g));
     wr_log (λ g, g <| LogEntry := l |>);;
     wr_log (λ g, g <| Next ::= λ n, u16 (n + 1) |>);;
     g ← rd_log;
     when (CFE_PLATFORM_EVS_LOG_MAX <=? Next g) (wr_log (λ g, g <| Next := 0 |>));;
     g ← rd_log;
     when (LogCount g <? CFE_PLATFORM_EVS_LOG_MAX)
       (wr_log (λ g, g <| LogCount ::= λ n, u16 (n + 1) |>);;
        g ← rd_log;
        when (LogCount g =? CFE_PLATFORM_EVS_LOG_MAX) (wr_log (λ g, g <| LogFullFlag := 1 |>))));;
  mut_give.

Definition EVS_ClearLog : M EG unit :=
  mut_take;;
  wr_log (λ g, g <| Next := 0 |>);;
  wr_log (λ g, g <| LogCount := 0 |>);;
  wr_log (λ g, g <| LogFullFlag := 0 |>);;
  wr_log (λ g, g <| LogOverflowCounter := 0 |>);;
  wr_log (λ g, g <| LogEntry ::= λ l, replicate (length l) zero_packet |>);;
  mut_give.

(** ** Applications *)

Definition EVS_AppDataIsUsed (a : EVS_AppData_t) : bool := negb (ad_AppID a =? CFE_RESOURCEID_UNDEFINED).
Definition EVS_AppDataGetID (a : EVS_AppData_t) : Z := ad_AppID a.
Definition EVS_AppDataSetUsed (i AppID : Z) : M EG unit := wr_app i (λ a, a <| ad_AppID := AppID |>).
Definition EVS_AppDataSetFree (i : Z) : M EG unit := wr_app i (λ a, a <| ad_AppID := CFE_RESOURCEID_UNDEFINED |>).
Definition EVS_AppDataIsMatch (p : ptr Z) (AppID : Z) : M EG bool :=
  match p with
  | None => mret false
  | Some i => a ← rd_app i; mret (ad_AppID a =? AppID)
  end.

Definition EVS_GetAppDataByID (AppID : Z) : ptr Z :=
  let '(Status, Idx) := CFE_ES_AppID_ToIndex AppID (Some 0) in
  if (Status =? CFE_SUCCESS) && (default 0 Idx <? CFE_PLATFORM_ES_MAX_APPLICATIONS) then Idx else None.

(** [App] is the status and identifier CFE_ES_GetAppID gives to the caller. *)
Definition EVS_GetCurrentContext (App : Z * Z) : Z * ptr Z * Z :=
  let '(Status, AppID) := App in
  let AppDataPtr := if Status =? CFE_SUCCESS then EVS_GetAppDataByID AppID else None in
  let Status := match AppDataPtr with None => CFE_EVS_APP_ILLEGAL_APP_ID | Some _ => Status end in
  (Status, AppDataPtr, AppID).

Definition EVS_GetApplicationInfo (pAppName : list Z) : M EG (Z * ptr Z) :=
  apps ← gets AppTable;
  let '(Status, Id) := CFE_ES_GetAppIDByName apps (Some 0) (Some pAppName) in
  if negb (Status =? CFE_SUCCESS) then mret (Status, None)
  else
    let AppID := default 0 Id in
    match EVS_GetAppDataByID AppID with
    | None => mret (CFE_EVS_APP_ILLEGAL_APP_ID, None)
    | Some i =>
        b ← EVS_AppDataIsMatch (Some i) AppID;
        if b : bool then mret (Status, Some i) else mret (CFE_EVS_APP_NOT_REGISTERED, None)
    end.

Definition app_name (AppID : Z) : M EG (list Z) :=
  apps ← gets AppTable;
  mret (default [] (CFE_ES_GetAppName apps (Some (replicate OS_MAX_API_NAME 0)) AppID OS_MAX_API_NAME).2).

(** The index of the filter of an event. *)
Fixpoint FindEventID_loop (EventID : Z) (i : Z) (FilterArray : list EVS_BinFilter_t) : ptr Z :=
  match FilterArray with
  | [] => None
  | f :: l => if bf_EventID f =? EventID then Some i else FindEventID_loop EventID (i + 1) l
  end.
Definition EVS_FindEventID (EventID : Z) (FilterArray : list EVS_BinFilter_t) : ptr Z := FindEventID_loop (s16 EventID) 0 FilterArray.

Definition event_type_bits : Z :=
  Z.lor (Z.lor (Z.lor CFE_EVS_DEBUG_BIT CFE_EVS_INFORMATION_BIT) CFE_EVS_ERROR_BIT) CFE_EVS_CRITICAL_BIT.

Definition EVS_EnableTypes (i BitMask : Z) : M EG unit :=
  wr_app i (λ a, a <| ad_EventTypesActiveFlag ::= λ t, u8 (Z.lor t (Z.land BitMask event_type_bits)) |>).
Definition EVS_DisableTypes (i BitMask : Z) : M EG unit :=
  wr_app i (λ a, a <| ad_EventTypesActiveFlag ::= λ t, u8 (Z.land t (Z.lnot (Z.land BitMask event_type_bits))) |>).

Definition wr_filter (i k : Z) (f : EVS_BinFilter_t → EVS_BinFilter_t) : M EG unit :=
  a ← rd_app i;
  l ← of_option (tbl_upd f k (ad_BinFilters a));
  wr_app i (λ a, a <| ad_BinFilters := l |>).
