(* ===== verification/EvsApi.v ===== *)
(** * Event services: events and the API (cfe_evs_utils.c, cfe_evs.c)

    The text of an event is the expansion of its format; the text of an application's
    event is an argument, the own events of event services have their formats.  The
    packets are local variables: the bytes of a string field after its zero, which the
    code does not write, are zero here. *)
From Stdlib Require Import String.
From S2P Require Import Prelude Config Msg ResourceId Cstring EsApp TimeApi EvsState.
Import ListNotations.

Section evs.
Context `{Cfg : EvsCfg}.

Definition sizeof_TlmHeader : nat := 16.
Definition sizeof_LongEventTlm : Z := 172.
Definition sizeof_ShortEventTlm : Z := 48.

(** The header CFE_MSG_Init and CFE_MSG_SetMsgTime make. *)
Definition tlm_header (MsgId Size : Z) (Time : CFE_TIME_SysTime_t) : Message :=
  let m := (CFE_MSG_Init evs_hdr evs_idv CFE_PSP_GetSpacecraftId (Some (replicate (Z.to_nat Size) 0)) MsgId Size).2 in
  let m := (CFE_MSG_SetMsgTime evs_hdr m (Seconds Time, Subseconds Time)).2 in
  take sizeof_TlmHeader (default [] m).

(** ** Generating an event *)

Definition port_text (port : Z) (p : CFE_EVS_LongEventTlm_t) : list Z :=
  let e := expand "EVS Port%u %u/%u/%s %u: %s"
             [AInt port; AInt (pk_SpacecraftID (le_PacketID p)); AInt (pk_ProcessorID (le_PacketID p)); AStr (pk_AppName (le_PacketID p));
              AInt (pk_EventID (le_PacketID p)); AStr (le_Message p)] in
  cstr (vsnprintf (replicate CFE_EVS_MAX_PORT_MSG_LENGTH 0) CFE_EVS_MAX_PORT_MSG_LENGTH e).2.

(** EVS_OutputPort1 to EVS_OutputPort4 print the text and a new line. *)
Definition EVS_OutputPort (port : Z) (Message : list Z) : M EG unit := out (OutPort port (Message ++ [10])).

Definition send_port (port bit : Z) (p : CFE_EVS_LongEventTlm_t) : M EG unit :=
  t ← gets EVS_Tlm;
  when (Z.shiftr (Z.land (hk_OutputPort t) bit) (port - 1) =? 1) (EVS_OutputPort port (port_text port p)).

Definition EVS_SendViaPorts (p : CFE_EVS_LongEventTlm_t) : M EG unit :=
  send_port 1 CFE_EVS_PORT1_BIT p;;
  send_port 2 CFE_EVS_PORT2_BIT p;;
  send_port 3 CFE_EVS_PORT3_BIT p;;
  send_port 4 CFE_EVS_PORT4_BIT p.

(** The text field of the packet, and whether the text has been cut. *)
Definition event_message (Text : list Z) : list Z * bool :=
  let '(ExpandedLength, Message) := vsnprintf (replicate CFE_MISSION_EVS_MAX_MESSAGE_LENGTH 0) CFE_MISSION_EVS_MAX_MESSAGE_LENGTH Text in
  if Z.of_nat CFE_MISSION_EVS_MAX_MESSAGE_LENGTH <=? ExpandedLength then
    (<[(CFE_MISSION_EVS_MAX_MESSAGE_LENGTH - 2)%nat := CFE_EVS_MSG_TRUNCATED]> Message, true)
  else (Message, false).

Definition EVS_GenerateEventTelemetry (i EventID EventType : Z) (TimeStamp : CFE_TIME_SysTime_t) (Text : list Z) : M EG unit :=
  let '(Message, truncated) := event_message Text in
  when truncated (tlm (λ t, t <| hk_MessageTruncCounter ::= λ n, u8 (n + 1) |>));;
  a ← rd_app i;
  AppName ← app_name (EVS_AppDataGetID a);
  let PacketID := mkPacketID AppName EventID EventType CFE_PSP_GetSpacecraftId CFE_PSP_GetProcessorId in
  let LongEventTlm := mkLong (tlm_header CFE_EVS_LONG_EVENT_MSG_MID sizeof_LongEventTlm TimeStamp) PacketID Message in
  EVS_AddLog LongEventTlm;;
  EVS_SendViaPorts LongEventTlm;;
  t ← gets EVS_Tlm;
  (if hk_MessageFormatMode t =? CFE_EVS_MsgFormat_LONG then out (OutLong LongEventTlm)
   else when (hk_MessageFormatMode t =? CFE_EVS_MsgFormat_SHORT)
     (out (OutShort (mkShort (tlm_header CFE_EVS_SHORT_EVENT_MSG_MID sizeof_ShortEventTlm TimeStamp) PacketID))));;
  when (hk_MessageSendCounter t <? CFE_EVS_MAX_EVENT_SEND_COUNT) (tlm (λ t, t <| hk_MessageSendCounter ::= λ n, u16 (n + 1) |>));;
  a ← rd_app i;
  when (ad_EventCount a <? CFE_EVS_MAX_EVENT_SEND_COUNT) (wr_app i (λ a, a <| ad_EventCount ::= λ n, u16 (n + 1) |>)).

(** ** Filters

    An event whose filter reaches its last count makes event services send an event of
    their own, which has to pass the filters of event services in turn. *)

Definition type_filtered (a : EVS_AppData_t) (EventType : Z) : bool :=
  let off bit := Z.land (ad_EventTypesActiveFlag a) bit =? 0 in
  if negb (ad_ActiveFlag a) then true
  else if EventType =? CFE_EVS_EventType_DEBUG then off CFE_EVS_DEBUG_BIT
  else if EventType =? CFE_EVS_EventType_INFORMATION then off CFE_EVS_INFORMATION_BIT
  else if EventType =? CFE_EVS_EventType_ERROR then off CFE_EVS_ERROR_BIT
  else if EventType =? CFE_EVS_EventType_CRITICAL then off CFE_EVS_CRITICAL_BIT
  else true.

(** EVS_SendEvent, for a given test of the filters. *)
Definition send_event (IsFiltered : Z → Z → Z → M EG bool) (EventID EventType : Z) (Text : list Z) : M EG Z :=
  id ← gets EVS_AppID;
  let AppDataPtr := EVS_GetAppDataByID id in
  b ← EVS_AppDataIsMatch AppDataPtr id;
  match AppDataPtr with
  | Some i =>
      if b : bool then
        f ← IsFiltered i EventID EventType;
        (if f : bool then mret tt
         else Time ← gets Now; EVS_GenerateEventTelemetry i EventID EventType Time Text);;
        mret CFE_SUCCESS
      else mret CFE_SUCCESS
  | None => mret CFE_SUCCESS
  end.

Fixpoint IsFiltered_depth (depth : nat) (i EventID EventType : Z) : M EG bool :=
  match depth with
  | O => undef
  | S depth =>
      a ← rd_app i;
      if type_filtered a EventType then mret true
      else
        match EVS_FindEventID EventID (ad_BinFilters a) with
        | None => mret false
        | Some k =>
            f ← tbl_get (ad_BinFilters a) k;
            let Filtered := negb (Z.land (bf_Mask f) (bf_Count f) =? 0) in
            when (bf_Count f <? CFE_EVS_MAX_FILTER_COUNT)
              (wr_filter i k (λ f, f <| bf_Count ::= λ n, u16 (n + 1) |>);;
               when (u16 (bf_Count f + 1) =? CFE_EVS_MAX_FILTER_COUNT)
                 (AppName ← app_name (EVS_AppDataGetID a);
                  _ ← send_event (IsFiltered_depth depth) CFE_EVS_FILTER_MAX_EID CFE_EVS_EventType_INFORMATION
                        (expand "Max filter count reached, AppName = %s, EventID = 0x%08x: Filter locked until reset" [AStr AppName; AInt EventID]);
                  mret tt));;
            mret Filtered
        end
  end.

(** Three calls are enough: the event of event services about its own last count finds
    the filter at that count. *)
Definition EVS_IsFiltered : Z → Z → Z → M EG bool := IsFiltered_depth 3.
Definition EVS_SendEvent : Z → Z → list Z → M EG Z := send_event EVS_IsFiltered.

Definition EVS_NotRegistered (i CallerID : Z) : M EG Z :=
  a ← rd_app i;
  when (negb (ad_UnregAppID a =? CallerID))
    (tlm (λ t, t <| hk_UnregisteredAppCounter ::= λ n, u8 (n + 1) |>);;
     wr_app i (λ a, a <| ad_UnregAppID := CallerID |>);;
     AppName ← app_name CallerID;
     _ ← EVS_SendEvent CFE_EVS_ERR_UNREGISTERED_EVS_APP CFE_EVS_EventType_ERROR
           (expand "App %s not registered with Event Services. Unable to send event." [AStr AppName]);
     out (OutSysLog (expand "App %s not registered with Event Services. Unable to send event." [AStr AppName] ++ [10])));;
  mret CFE_EVS_APP_NOT_REGISTERED.

(** ** The API *)

Record CFE_EVS_BinFilter_t := mkFilter { fl_EventID : Z; fl_Mask : Z }.

Definition zero_filter : EVS_BinFilter_t := mkBinFilter 0 0 0.
Definition free_filter : EVS_BinFilter_t := mkBinFilter CFE_EVS_FREE_SLOT 0 0.
Definition zero_app : EVS_AppData_t :=
  mkAppData CFE_RESOURCEID_UNDEFINED CFE_RESOURCEID_UNDEFINED (replicate (Z.to_nat CFE_PLATFORM_EVS_MAX_EVENT_FILTERS) zero_filter) false 0 0.

(** The loop that copies the filters of an application. *)
Fixpoint copy_filters (i : Z) (AppFilters : list CFE_EVS_BinFilter_t) (k : Z) (n : nat) : M EG unit :=
  match n with
  | O => mret tt
  | S n =>
      f ← tbl_get AppFilters k;
      wr_filter i k (λ _, mkBinFilter (s16 (fl_EventID f)) (fl_Mask f) 0);;
      copy_filters i AppFilters (k + 1) n
  end.

(** The loop that frees the rest. *)
Fixpoint free_filters (i k : Z) (n : nat) : M EG unit :=
  match n with
  | O => mret tt
  | S n => wr_filter i k (λ _, free_filter);; free_filters i (k + 1) n
  end.

Definition CFE_EVS_Register (App : Z * Z) (Filters : ptr (list CFE_EVS_BinFilter_t)) (NumEventFilters FilterScheme : Z) : M EG Z :=
  let '(Status, AppDataPtr, AppID) := EVS_GetCurrentContext App in
  match AppDataPtr with
  | Some i =>
      if Status =? CFE_SUCCESS then
        wr_app i (λ _, zero_app);;
        if negb (FilterScheme =? CFE_EVS_EventFilter_BINARY) then mret CFE_EVS_UNKNOWN_FILTER
        else if negb (NumEventFilters =? 0) && bool_decide (Filters = None) then mret CFE_ES_ERR_BUFFER
        else
          wr_app i (λ a, a <| ad_ActiveFlag := true |>);;
          wr_app i (λ a, a <| ad_EventTypesActiveFlag := CFE_PLATFORM_EVS_DEFAULT_TYPE_FLAG |>);;
          FilterLimit ← if NumEventFilters <? CFE_PLATFORM_EVS_MAX_EVENT_FILTERS then mret NumEventFilters
                        else out (OutSysLog (expand "CFE_EVS_Register: Filter limit truncated to %d" [AInt CFE_PLATFORM_EVS_MAX_EVENT_FILTERS] ++ [10]));;
                             mret CFE_PLATFORM_EVS_MAX_EVENT_FILTERS;
          match Filters with
          | Some AppFilters => copy_filters i AppFilters 0 (Z.to_nat FilterLimit)
          | None => mret tt
          end;;
          free_filters i FilterLimit (Z.to_nat (CFE_PLATFORM_EVS_MAX_EVENT_FILTERS - FilterLimit));;
          EVS_AppDataSetUsed i AppID;;
          mret Status
      else mret Status
  | None => mret Status
  end.

Definition CFE_EVS_Unregister (App : Z * Z) : M EG Z :=
  let '(Status, AppDataPtr, AppID) := EVS_GetCurrentContext App in
  (if Status =? CFE_SUCCESS then
     b ← EVS_AppDataIsMatch AppDataPtr AppID;
     match AppDataPtr with
     | Some i => when b (EVS_AppDataSetFree i)
     | None => mret tt
     end
   else mret tt);;
  mret Status.

(** The event of an application with an entry: the common part of the three functions
    that send events. *)
Definition app_event (i AppID EventID EventType : Z) (Time : M EG CFE_TIME_SysTime_t) (Text : list Z) : M EG Z :=
  b ← EVS_AppDataIsMatch (Some i) AppID;
  if negb b then EVS_NotRegistered i AppID
  else
    f ← EVS_IsFiltered i EventID EventType;
    (if f : bool then mret tt else t ← Time; EVS_GenerateEventTelemetry i EventID EventType t Text);;
    mret CFE_SUCCESS.

Definition CFE_EVS_SendEvent (App : Z * Z) (EventID EventType : Z) (Spec : ptr (list Z)) : M EG Z :=
  match Spec with
  | None => mret CFE_EVS_INVALID_PARAMETER
  | Some Text =>
      let '(Status, AppDataPtr, AppID) := EVS_GetCurrentContext App in
      match AppDataPtr with
      | Some i => if Status =? CFE_SUCCESS then app_event i AppID EventID EventType (gets Now) Text else mret Status
      | None => mret Status
      end
  end.

Definition CFE_EVS_SendEventWithAppID (EventID EventType AppID : Z) (Spec : ptr (list Z)) : M EG Z :=
  match Spec with
  | None => mret CFE_EVS_INVALID_PARAMETER
  | Some Text =>
      match EVS_GetAppDataByID AppID with
      | None => mret CFE_EVS_APP_ILLEGAL_APP_ID
      | Some i => app_event i AppID EventID EventType (gets Now) Text
      end
  end.

Definition CFE_EVS_SendTimedEvent (App : Z * Z) (Time : CFE_TIME_SysTime_t) (EventID EventType : Z) (Spec : ptr (list Z)) : M EG Z :=
  match Spec with
  | None => mret CFE_EVS_INVALID_PARAMETER
  | Some Text =>
      let '(Status, AppDataPtr, AppID) := EVS_GetCurrentContext App in
      match AppDataPtr with
      | Some i => if Status =? CFE_SUCCESS then app_event i AppID EventID EventType (mret Time) Text else mret Status
      | None => mret Status
      end
  end.

Definition CFE_EVS_ResetFilter (App : Z * Z) (EventID : Z) : M EG Z :=
  let '(Status, AppDataPtr, AppID) := EVS_GetCurrentContext App in
  match AppDataPtr with
  | Some i =>
      if Status =? CFE_SUCCESS then
        b ← EVS_AppDataIsMatch AppDataPtr AppID;
        if negb b then mret CFE_EVS_APP_NOT_REGISTERED
        else
          a ← rd_app i;
          match EVS_FindEventID EventID (ad_BinFilters a) with
          | Some k => wr_filter i k (λ f, f <| bf_Count := 0 |>);; mret Status
          | None => mret CFE_EVS_EVT_NOT_REGISTERED
          end
      else mret Status
  | None => mret Status
  end.

(** The loop of both functions that reset all filters. *)
Fixpoint reset_filters (i k : Z) (n : nat) : M EG unit :=
  match n with
  | O => mret tt
  | S n => wr_filter i k (λ f, f <| bf_Count := 0 |>);; reset_filters i (k + 1) n
  end.

Definition CFE_EVS_ResetAllFilters (App : Z * Z) : M EG Z :=
  let '(Status, AppDataPtr, AppID) := EVS_GetCurrentContext App in
  match AppDataPtr with
  | Some i =>
      if Status =? CFE_SUCCESS then
        b ← EVS_AppDataIsMatch AppDataPtr AppID;
        if negb b then mret CFE_EVS_APP_NOT_REGISTERED
        else reset_filters i 0 (Z.to_nat CFE_PLATFORM_EVS_MAX_EVENT_FILTERS);; mret Status
      else mret Status
  | None => mret Status
  end.

Definition CFE_EVS_CleanUpApp (AppID : Z) : M EG Z :=
  match EVS_GetAppDataByID AppID with
  | None => mret CFE_EVS_APP_ILLEGAL_APP_ID
  | Some i =>
      b ← EVS_AppDataIsMatch (Some i) AppID;
      when b (EVS_AppDataSetFree i);;
      mret CFE_SUCCESS
  end.
End evs.

(** Proofs do not look into the texts and headers. *)
#[global] Arguments tlm_header : simpl never.
#[global] Arguments port_text : simpl never.
#[global] Arguments event_message : simpl never.
#[global] Arguments EVS_GetAppDataByID : simpl never.
