(* ===== verification/EvsTask.v ===== *)
(** * Event services: initialization, commands and telemetry
    (cfe_evs_task.c, cfe_evs_log.c)

    The results of the file system, of the board support package and of the calls made
    at initialization are arguments. *)
From Stdlib Require Import String.
From S2P Require Import Prelude Config Msg ResourceId Cstring EsApp TimeApi EvsState EvsApi.
Import ListNotations.

Definition CFE_PSP_SUCCESS : Z := 0.
Definition CFE_PSP_PANIC_STARTUP_SEM : Z := 5.
Definition CFE_PSP_PANIC_MEMORY_ALLOC : Z := 3.
Definition CFE_PSP_RST_TYPE_POWERON : Z := 2.
Definition sizeof_HousekeepingTlm : Z := 160.
Definition sizeof_FsHeader : Z := 64.
Definition sizeof_AppDataFile : Z := 88.

(** The results of writing a file: OS_OpenCreate, CFE_FS_WriteHeader, and OS_write for
    the entries one after the other. *)
Record FileIO := mkFileIO { io_open : Z; io_header : Z; io_write : nat → Z }.

(** What CFE_EVS_EarlyInit gets: the status and size of the reset area and the size it
    should have, the status of OS_MutSemCreate, the type of the reset. *)
Record EarlyEnv := mkEarly { ee_Status : Z; ee_Size : Z; ee_Expected : Z; ee_Mutex : Z; ee_ResetType : Z }.

(** What CFE_EVS_TaskInit gets: CFE_ES_RegisterApp, CFE_ES_GetAppID for itself and for
    CFE_EVS_Register, CFE_SB_CreatePipe with the pipe, the two subscriptions. *)
Record TaskEnv := mkTaskEnv { te_Register : Z; te_AppID : Z * Z; te_Pipe : Z * Z; te_Cmd : Z; te_Hk : Z }.

(** A command packet: identifier, function code, size and the fields of the payloads. *)
Record EvsMsg := mkEvsMsg {
  em_MsgId : Z;
  em_FcnCode : Z;
  em_Size : Z;
  em_AppName : list Z;
  em_EventID : Z;
  em_Mask : Z;
  em_BitMask : Z;
  em_Mode : Z;
  em_Filename : list Z;
  em_io : FileIO;
}.

Section evs.
Context `{Cfg : EvsCfg}.

Definition sizeof_CmdHeader : Z := match evs_hdr with Hdr_Pri => 8 | Hdr_PriExt => 16 end.

(** ** Initialization *)

Definition zero_log : CFE_EVS_Log_t := mkLog 0 0 0 0 0 (replicate (Z.to_nat CFE_PLATFORM_EVS_LOG_MAX) zero_packet).
Definition zero_tlm : CFE_EVS_HousekeepingTlm_Payload_t :=
  mkHkTlm 0 0 0 0 0 0 0 0 0 0 false (replicate (Z.to_nat CFE_MISSION_ES_MAX_APPLICATIONS) (mkAppTlm 0 0 false)).

Definition log_text (what : string) (g : CFE_EVS_Log_t) : list Z :=
  chars what ++
  expand ", n=%d, c=%d, f=%d, m=%d, o=%d" [AInt (Next g); AInt (LogCount g); AInt (LogFullFlag g); AInt (LogMode g); AInt (LogOverflowCounter g)] ++ [10].

Definition CFE_EVS_EarlyInit (e : EarlyEnv) : M EG Z :=
  modify (λ s, s <| AppData := replicate (Z.to_nat CFE_PLATFORM_ES_MAX_APPLICATIONS) zero_app |>
                 <| EVS_LogPtr := false |> <| EVS_Tlm := zero_tlm |> <| EVS_CommandPipe := 0 |> <| EVS_AppID := CFE_RESOURCEID_UNDEFINED |>);;
  modify (λ s, s <| EVS_TlmHeader := take sizeof_TlmHeader
     (default [] (CFE_MSG_Init evs_hdr evs_idv CFE_PSP_GetSpacecraftId (Some (replicate (Z.to_nat sizeof_HousekeepingTlm) 0))
                    CFE_EVS_HK_TLM_MID sizeof_HousekeepingTlm).2) |>);;
  tlm (λ t, t <| hk_MessageFormatMode := CFE_PLATFORM_EVS_DEFAULT_MSG_FORMAT_MODE |>);;
  tlm (λ t, t <| hk_OutputPort := CFE_PLATFORM_EVS_PORT_DEFAULT |>);;
  tlm (λ t, t <| hk_LogFullFlag := 0 |>);;
  tlm (λ t, t <| hk_LogMode := CFE_PLATFORM_EVS_DEFAULT_LOG_MODE |>);;
  Status ← (if negb (ee_Status e =? CFE_PSP_SUCCESS) then
              out (OutSysLog (expand "EVS call to CFE_PSP_GetResetArea failed, RC=0x%08x" [AInt (u32 (ee_Status e))] ++ [10]));;
              out (OutPanic CFE_PSP_PANIC_MEMORY_ALLOC);;
              mret (ee_Status e)
            else if ee_Size e <? ee_Expected e then
              out (OutSysLog (expand "Unexpected size from CFE_PSP_GetResetArea: expected = 0x%08lX, actual = 0x%08lX"
                                [AInt (ee_Expected e); AInt (ee_Size e)] ++ [10]));;
              out (OutPanic CFE_PSP_PANIC_MEMORY_ALLOC);;
              mret CFE_EVS_RESET_AREA_POINTER
            else mret CFE_SUCCESS);
  Status ← (if Status =? CFE_SUCCESS then
              modify (λ s, s <| EVS_LogPtr := true |>);;
              if negb (ee_Mutex e =? OS_SUCCESS) then
                out (OutSysLog (expand "EVS call to OS_MutSemCreate failed, RC=0x%08x" [AInt (u32 (ee_Mutex e))] ++ [10]));;
                out (OutPanic CFE_PSP_PANIC_STARTUP_SEM);;
                mret (ee_Mutex e)
              else modify (λ s, s <| EVS_Mutex := false |>);; mret CFE_SUCCESS
            else mret Status);
  if Status =? CFE_SUCCESS then
    tlm (λ t, t <| hk_LogEnabled := true |>);;
    g ← rd_log;
    (if ee_ResetType e =? CFE_PSP_RST_TYPE_POWERON then
       out (OutSysLog (chars "Event Log cleared following power-on reset" ++ [10]));;
       EVS_ClearLog;;
       wr_log (λ g, g <| LogMode := CFE_PLATFORM_EVS_DEFAULT_LOG_MODE |>)
     else if (negb (LogMode g =? CFE_EVS_LogMode_OVERWRITE) && negb (LogMode g =? CFE_EVS_LogMode_DISCARD))
             || (negb (LogFullFlag g =? 0) && negb (LogFullFlag g =? 1)) || (CFE_PLATFORM_EVS_LOG_MAX <=? Next g) then
       out (OutSysLog (log_text "Event Log cleared" g));;
       EVS_ClearLog;;
       wr_log (λ g, g <| LogMode := CFE_PLATFORM_EVS_DEFAULT_LOG_MODE |>)
     else out (OutSysLog (log_text "Event Log restored" g)));;
    mret Status
  else mret Status.

Definition init_failed (what : string) (Status : Z) : M EG Z :=
  out (OutSysLog (chars what ++ expand " Failed:RC=0x%08X" [AInt (u32 Status)] ++ [10]));; mret Status.

Definition CFE_EVS_TaskInit (e : TaskEnv) : M EG Z :=
  if negb (te_Register e =? CFE_SUCCESS) then init_failed "EVS:Call to CFE_ES_RegisterApp" (te_Register e) else
  let '(Status, AppID) := te_AppID e in
  if negb (Status =? CFE_SUCCESS) then init_failed "EVS:Call to CFE_ES_GetAppID" Status else
  Status ← CFE_EVS_Register (te_AppID e) None 0 CFE_EVS_EventFilter_BINARY;
  if negb (Status =? CFE_SUCCESS) then init_failed "EVS:Call to CFE_EVS_Register" Status else
  let '(Status, PipeId) := te_Pipe e in
  modify (λ s, s <| EVS_CommandPipe := PipeId |>);;
  if negb (Status =? CFE_SUCCESS) then init_failed "EVS:Call to CFE_SB_CreatePipe" Status else
  if negb (te_Cmd e =? CFE_SUCCESS) then init_failed "EVS:Subscribing to Cmds" (te_Cmd e) else
  if negb (te_Hk e =? CFE_SUCCESS) then init_failed "EVS:Subscribing to HK Request" (te_Hk e) else
  modify (λ s, s <| EVS_AppID := AppID |>);;
  _ ← EVS_SendEvent CFE_EVS_STARTUP_EID CFE_EVS_EventType_INFORMATION (expand "cFE EVS Initialized.%s" [AStr CFE_VERSION_STRING]);
  mret CFE_SUCCESS.
(** ** Commands on the whole service *)

Definition CFE_EVS_NoopCmd : M EG Z :=
  _ ← EVS_SendEvent CFE_EVS_NOOP_EID CFE_EVS_EventType_INFORMATION (expand "No-op command. %s" [AStr CFE_VERSION_STRING]);
  mret CFE_SUCCESS.

Definition CFE_EVS_ClearLogCmd : M EG Z := EVS_ClearLog;; mret CFE_SUCCESS.

(** The loop over the applications of CFE_EVS_ReportHousekeepingCmd: [j] entries of the
    packet have been written. *)
Fixpoint report_loop (apps : list EVS_AppData_t) (j : Z) (tlm : list CFE_EVS_AppTlmData_t) : option (Z * list CFE_EVS_AppTlmData_t) :=
  match apps with
  | [] => Some (j, tlm)
  | a :: apps =>
      if j <? CFE_MISSION_ES_MAX_APPLICATIONS then
        if EVS_AppDataIsUsed a then
          tlm ← tbl_upd (λ _, mkAppTlm (EVS_AppDataGetID a) (ad_EventCount a) (ad_ActiveFlag a)) j tlm;
          report_loop apps (j + 1) tlm
        else report_loop apps j tlm
      else Some (j, tlm)
  end.

(** The loop that clears the rest: it does not advance the pointer, [j]. *)
Fixpoint clear_loop (n : nat) (j : Z) (tlm : list CFE_EVS_AppTlmData_t) : option (list CFE_EVS_AppTlmData_t) :=
  match n with
  | O => Some tlm
  | S n => tlm ← tbl_upd (λ _, mkAppTlm CFE_RESOURCEID_UNDEFINED 0 false) j tlm; clear_loop n j tlm
  end.

Definition CFE_EVS_ReportHousekeepingCmd : M EG Z :=
  g ← rd_log;
  tlm (λ t, t <| hk_LogFullFlag := LogFullFlag g |>);;
  tlm (λ t, t <| hk_LogMode := LogMode g |>);;
  tlm (λ t, t <| hk_LogOverflowCounter := LogOverflowCounter g |>);;
  apps ← gets AppData;
  t ← gets EVS_Tlm;
  '(j, l) ← of_option (report_loop apps 0 (hk_AppData t));
  l ← of_option (clear_loop (Z.to_nat (CFE_MISSION_ES_MAX_APPLICATIONS - j)) j l);
  tlm (λ t, t <| hk_AppData := l |>);;
  now ← gets Now;
  modify (λ s, s <| EVS_TlmHeader ::= λ h, default [] (CFE_MSG_SetMsgTime evs_hdr (Some h) (Seconds now, Subseconds now)).2 |>);;
  h ← gets EVS_TlmHeader;
  t ← gets EVS_Tlm;
  out (OutHk h t);;
  mret CFE_STATUS_NO_COUNTER_INCREMENT.

Definition CFE_EVS_ResetCountersCmd : M EG Z :=
  tlm (λ t, t <| hk_CommandCounter := 0 |>);;
  tlm (λ t, t <| hk_CommandErrorCounter := 0 |>);;
  tlm (λ t, t <| hk_MessageSendCounter := 0 |>);;
  tlm (λ t, t <| hk_MessageTruncCounter := 0 |>);;
  tlm (λ t, t <| hk_UnregisteredAppCounter := 0 |>);;
  _ ← EVS_SendEvent CFE_EVS_RSTCNT_EID CFE_EVS_EventType_DEBUG (chars "Reset Counters Command Received");
  mret CFE_STATUS_NO_COUNTER_INCREMENT.

Definition bad_mask (BitMask : Z) : bool := (BitMask =? 0) || (0x0F <? BitMask).

Definition bad_mask_event (BitMask cc : Z) : M EG Z :=
  _ ← EVS_SendEvent CFE_EVS_ERR_INVALID_BITMASK_EID CFE_EVS_EventType_ERROR
        (expand "Bit Mask = 0x%08x out of range: CC = %lu" [AInt BitMask; AInt cc]);
  mret CFE_EVS_INVALID_PARAMETER.

Definition enable_port (BitMask port bit : Z) : M EG unit :=
  when (Z.shiftr (Z.land BitMask bit) (port - 1) =? 1) (tlm (λ t, t <| hk_OutputPort ::= λ p, u8 (Z.lor p bit) |>)).
Definition disable_port (BitMask port bit : Z) : M EG unit :=
  when (Z.shiftr (Z.land BitMask bit) (port - 1) =? 1) (tlm (λ t, t <| hk_OutputPort ::= λ p, u8 (Z.land p (Z.lnot bit)) |>)).

Definition CFE_EVS_EnablePortsCmd (BitMask : Z) : M EG Z :=
  if bad_mask BitMask then bad_mask_event BitMask CFE_EVS_ENABLE_PORTS_CC
  else
    enable_port BitMask 1 CFE_EVS_PORT1_BIT;;
    enable_port BitMask 2 CFE_EVS_PORT2_BIT;;
    enable_port BitMask 3 CFE_EVS_PORT3_BIT;;
    enable_port BitMask 4 CFE_EVS_PORT4_BIT;;
    _ ← EVS_SendEvent CFE_EVS_ENAPORT_EID CFE_EVS_EventType_DEBUG
          (expand "Enable Ports Command Received with Port Bit Mask = 0x%02x" [AInt BitMask]);
    mret CFE_SUCCESS.

Definition CFE_EVS_DisablePortsCmd (BitMask : Z) : M EG Z :=
  if bad_mask BitMask then bad_mask_event BitMask CFE_EVS_DISABLE_PORTS_CC
  else
    disable_port BitMask 1 CFE_EVS_PORT1_BIT;;
    disable_port BitMask 2 CFE_EVS_PORT2_BIT;;
    disable_port BitMask 3 CFE_EVS_PORT3_BIT;;
    disable_port BitMask 4 CFE_EVS_PORT4_BIT;;
    _ ← EVS_SendEvent CFE_EVS_DISPORT_EID CFE_EVS_EventType_DEBUG
          (expand "Disable Ports Command Received with Port Bit Mask = 0x%02x" [AInt BitMask]);
    mret CFE_SUCCESS.

(** The loops over the table of applications. *)
Fixpoint each_app (f : Z → M EG unit) (i : Z) (n : nat) : M EG unit :=
  match n with
  | O => mret tt
  | S n =>
      a ← rd_app i;
      when (EVS_AppDataIsUsed a) (f i);;
      each_app f (i + 1) n
  end.

Definition CFE_EVS_EnableEventTypeCmd (BitMask : Z) : M EG Z :=
  if bad_mask BitMask then bad_mask_event BitMask CFE_EVS_ENABLE_EVENT_TYPE_CC
  else
    each_app (λ i, EVS_EnableTypes i BitMask) 0 (Z.to_nat CFE_PLATFORM_ES_MAX_APPLICATIONS);;
    _ ← EVS_SendEvent CFE_EVS_ENAEVTTYPE_EID CFE_EVS_EventType_DEBUG
          (expand "Enable Event Type Command Received with Event Type Bit Mask = 0x%02x" [AInt BitMask]);
    mret CFE_SUCCESS.

Definition CFE_EVS_DisableEventTypeCmd (BitMask : Z) : M EG Z :=
  if bad_mask BitMask then bad_mask_event BitMask CFE_EVS_DISABLE_EVENT_TYPE_CC
  else
    each_app (λ i, EVS_DisableTypes i BitMask) 0 (Z.to_nat CFE_PLATFORM_ES_MAX_APPLICATIONS);;
    _ ← EVS_SendEvent CFE_EVS_DISEVTTYPE_EID CFE_EVS_EventType_DEBUG
          (expand "Disable Event Type Command Received with Event Type Bit Mask = 0x%02x" [AInt BitMask]);
    mret CFE_SUCCESS.

Definition CFE_EVS_SetEventFormatModeCmd (MsgFormat : Z) : M EG Z :=
  if (MsgFormat =? CFE_EVS_MsgFormat_SHORT) || (MsgFormat =? CFE_EVS_MsgFormat_LONG) then
    tlm (λ t, t <| hk_MessageFormatMode := MsgFormat |>);;
    _ ← EVS_SendEvent CFE_EVS_SETEVTFMTMOD_EID CFE_EVS_EventType_DEBUG
          (expand "Set Event Format Mode Command Received with Mode = 0x%02x" [AInt MsgFormat]);
    mret CFE_SUCCESS
  else
    _ ← EVS_SendEvent CFE_EVS_ERR_ILLEGALFMTMOD_EID CFE_EVS_EventType_ERROR
          (expand "Set Event Format Mode Command: Invalid Event Format Mode = 0x%02x" [AInt MsgFormat]);
    mret CFE_EVS_INVALID_PARAMETER.

Definition CFE_EVS_SetLogModeCmd (Mode : Z) : M EG Z :=
  if (Mode =? CFE_EVS_LogMode_OVERWRITE) || (Mode =? CFE_EVS_LogMode_DISCARD) then
    mut_take;;
    wr_log (λ g, g <| LogMode := Mode |>);;
    mut_give;;
    _ ← EVS_SendEvent CFE_EVS_LOGMODE_EID CFE_EVS_EventType_DEBUG (expand "Set Log Mode Command: Log Mode = %d" [AInt Mode]);
    mret CFE_SUCCESS
  else
    _ ← EVS_SendEvent CFE_EVS_ERR_LOGMODE_EID CFE_EVS_EventType_ERROR (expand "Set Log Mode Command Error: Log Mode = %d" [AInt Mode]);
    mret CFE_EVS_INVALID_PARAMETER.
End evs.
