(* ===== verification/EvsCmds.v ===== *)
(** * Event services: commands on one application, files and the dispatch of commands
    (cfe_evs_task.c, cfe_evs_log.c) *)
From Stdlib Require Import String.
From S2P Require Import Prelude Config Msg ResourceId Cstring EsApp TimeApi EvsState EvsApi EvsTask.
Import ListNotations.

Definition CFE_FS_SubType_EVS_APPDATA : Z := 15.
Definition CFE_FS_SubType_EVS_EVENTLOG : Z := 16.
Definition CFE_PLATFORM_EVS_DEFAULT_LOG_FILE : list Z := chars "/ram/cfe_evs.log" ++ [0].
Definition CFE_PLATFORM_EVS_DEFAULT_APP_DATA_FILE : list Z := chars "/ram/cfe_evs_app.dat" ++ [0].

Section evs.
Context `{Cfg : EvsCfg}.

(** ** Commands on one application *)

(** The events when the application has not been found; [notreg] and [noid] are the
    texts, which differ between the commands. *)
Definition app_error (Status : Z) (LocalName : list Z) (cc : Z) (notreg noid : string) : M EG Z :=
  _ ← (if Status =? CFE_EVS_APP_NOT_REGISTERED then
         EVS_SendEvent CFE_EVS_ERR_APPNOREGS_EID CFE_EVS_EventType_ERROR (expand notreg [AStr LocalName; AInt cc])
       else if Status =? CFE_EVS_APP_ILLEGAL_APP_ID then
         EVS_SendEvent CFE_EVS_ERR_ILLAPPIDRANGE_EID CFE_EVS_EventType_ERROR
           (expand "Illegal application ID retrieved for %s: CC = %lu" [AStr LocalName; AInt cc])
       else EVS_SendEvent CFE_EVS_ERR_NOAPPIDFOUND_EID CFE_EVS_EventType_ERROR (expand noid [AStr LocalName; AInt cc]));
  mret Status.

Definition not_registered : string := "%s not registered with EVS: CC = %lu".
Definition no_id : string := "Unable to retrieve application ID for %s: CC = %lu".

(** The part all commands on an application have: [body] gets its name and its entry. *)
Definition app_command (AppName : list Z) (cc : Z) (notreg noid : string) (body : list Z → Z → M EG Z) : M EG Z :=
  r ← of_option (CFE_SB_MessageStringGet (Some (replicate OS_MAX_API_NAME 0)) AppName None OS_MAX_API_NAME CFE_MISSION_MAX_API_LEN);
  let LocalName := default [] r.2 in
  '(Status, AppDataPtr) ← EVS_GetApplicationInfo LocalName;
  match AppDataPtr with
  | Some i => if Status =? CFE_SUCCESS then body LocalName i else app_error Status LocalName cc notreg noid
  | None => app_error Status LocalName cc notreg noid
  end.

Definition no_filter_event (LocalName : list Z) (EventID cc : Z) (text : string) : M EG Z :=
  _ ← EVS_SendEvent CFE_EVS_ERR_EVTIDNOREGS_EID CFE_EVS_EventType_ERROR (expand text [AStr LocalName; AInt EventID; AInt cc]);
  mret CFE_EVS_EVT_NOT_REGISTERED.

Definition CFE_EVS_SetFilterCmd (AppName : list Z) (EventID Mask : Z) : M EG Z :=
  app_command AppName CFE_EVS_SET_FILTER_CC not_registered no_id (λ LocalName i,
    a ← rd_app i;
    match EVS_FindEventID EventID (ad_BinFilters a) with
    | Some k =>
        wr_filter i k (λ f, f <| bf_Mask := Mask |>);;
        _ ← EVS_SendEvent CFE_EVS_SETFILTERMSK_EID CFE_EVS_EventType_DEBUG
              (expand "Set Filter Mask Command Received with AppName=%s, EventID=0x%08x, Mask=0x%04x" [AStr LocalName; AInt EventID; AInt Mask]);
        mret CFE_SUCCESS
    | None => no_filter_event LocalName EventID CFE_EVS_SET_FILTER_CC "%s Event ID %d not registered for filtering: CC = %lu "
    end).

Definition CFE_EVS_EnableAppEventTypeCmd (AppName : list Z) (BitMask : Z) : M EG Z :=
  app_command AppName CFE_EVS_ENABLE_APP_EVENT_TYPE_CC not_registered no_id (λ LocalName i,
    if bad_mask BitMask then bad_mask_event BitMask CFE_EVS_ENABLE_APP_EVENT_TYPE_CC
    else
      EVS_EnableTypes i BitMask;;
      _ ← EVS_SendEvent CFE_EVS_ENAAPPEVTTYPE_EID CFE_EVS_EventType_DEBUG
            (expand "Enable App Event Type Command Received with AppName = %s, EventType Bit Mask = 0x%02x" [AStr LocalName; AInt BitMask]);
      mret CFE_SUCCESS).

Definition CFE_EVS_DisableAppEventTypeCmd (AppName : list Z) (BitMask : Z) : M EG Z :=
  app_command AppName CFE_EVS_DISABLE_APP_EVENT_TYPE_CC "%s not registered with EVS,: CC = %lu" no_id (λ LocalName i,
    if bad_mask BitMask then bad_mask_event BitMask CFE_EVS_DISABLE_APP_EVENT_TYPE_CC
    else
      EVS_DisableTypes i BitMask;;
      _ ← EVS_SendEvent CFE_EVS_DISAPPENTTYPE_EID CFE_EVS_EventType_DEBUG
            (expand "Disable App Event Type Command Received with AppName = %s, EventType Bit Mask = 0x%02x" [AStr LocalName; AInt BitMask]);
      mret CFE_SUCCESS).

Definition CFE_EVS_EnableAppEventsCmd (AppName : list Z) : M EG Z :=
  app_command AppName CFE_EVS_ENABLE_APP_EVENTS_CC not_registered no_id (λ LocalName i,
    wr_app i (λ a, a <| ad_ActiveFlag := true |>);;
    _ ← EVS_SendEvent CFE_EVS_ENAAPPEVT_EID CFE_EVS_EventType_DEBUG
          (expand "Enable App Events Command Received with AppName = %s" [AStr LocalName]);
    mret CFE_SUCCESS).

Definition CFE_EVS_DisableAppEventsCmd (AppName : list Z) : M EG Z :=
  app_command AppName CFE_EVS_DISABLE_APP_EVENTS_CC not_registered
    "Disable App Events Command: Unable to retrieve application ID for %s: CC = %lu" (λ LocalName i,
    wr_app i (λ a, a <| ad_ActiveFlag := false |>);;
    _ ← EVS_SendEvent CFE_EVS_DISAPPEVT_EID CFE_EVS_EventType_DEBUG
          (expand "Disable App Events Command Received with AppName = %s" [AStr LocalName]);
    mret CFE_SUCCESS).

Definition CFE_EVS_ResetAppCounterCmd (AppName : list Z) : M EG Z :=
  app_command AppName CFE_EVS_RESET_APP_COUNTER_CC not_registered
    "Reset Event Counter Command: Unable to retrieve application ID for %s: CC = %lu" (λ LocalName i,
    wr_app i (λ a, a <| ad_EventCount := 0 |>);;
    _ ← EVS_SendEvent CFE_EVS_RSTEVTCNT_EID CFE_EVS_EventType_DEBUG
          (expand "Reset Event Counter Command Received with AppName = %s" [AStr LocalName]);
    mret CFE_SUCCESS).

Definition CFE_EVS_ResetFilterCmd (AppName : list Z) (EventID : Z) : M EG Z :=
  app_command AppName CFE_EVS_RESET_FILTER_CC not_registered no_id (λ LocalName i,
    a ← rd_app i;
    match EVS_FindEventID EventID (ad_BinFilters a) with
    | Some k =>
        wr_filter i k (λ f, f <| bf_Count := 0 |>);;
        _ ← EVS_SendEvent CFE_EVS_RSTFILTER_EID CFE_EVS_EventType_DEBUG
              (expand "Reset Filter Command Received with AppName = %s, EventID = 0x%08x" [AStr LocalName; AInt EventID]);
        mret CFE_SUCCESS
    | None => no_filter_event LocalName EventID CFE_EVS_RESET_FILTER_CC "%s Event ID %d not registered for filtering: CC = %lu"
    end).

Definition CFE_EVS_ResetAllFiltersCmd (AppName : list Z) : M EG Z :=
  app_command AppName CFE_EVS_RESET_ALL_FILTERS_CC not_registered no_id (λ LocalName i,
    reset_filters i 0 (Z.to_nat CFE_PLATFORM_EVS_MAX_EVENT_FILTERS);;
    _ ← EVS_SendEvent CFE_EVS_RSTALLFILTER_EID CFE_EVS_EventType_DEBUG
          (expand "Reset All Filters Command Received with AppName = %s" [AStr LocalName]);
    mret CFE_SUCCESS).

Definition CFE_EVS_AddEventFilterCmd (AppName : list Z) (EventID Mask : Z) : M EG Z :=
  app_command AppName CFE_EVS_ADD_EVENT_FILTER_CC not_registered no_id (λ LocalName i,
    a ← rd_app i;
    match EVS_FindEventID EventID (ad_BinFilters a) with
    | Some _ =>
        _ ← EVS_SendEvent CFE_EVS_EVT_FILTERED_EID CFE_EVS_EventType_ERROR
              (expand "Add Filter Command:AppName = %s, EventID = 0x%08x is already registered for filtering" [AStr LocalName; AInt EventID]);
        mret CFE_EVS_EVT_NOT_REGISTERED
    | None =>
        match EVS_FindEventID CFE_EVS_FREE_SLOT (ad_BinFilters a) with
        | Some k =>
            wr_filter i k (λ _, mkBinFilter (s16 EventID) Mask 0);;
            _ ← EVS_SendEvent CFE_EVS_ADDFILTER_EID CFE_EVS_EventType_DEBUG
                  (expand "Add Filter Command Received with AppName = %s, EventID = 0x%08x, Mask = 0x%04x" [AStr LocalName; AInt EventID; AInt Mask]);
            mret CFE_SUCCESS
        | None =>
            _ ← EVS_SendEvent CFE_EVS_ERR_MAXREGSFILTER_EID CFE_EVS_EventType_ERROR
                  (expand "Add Filter Command: number of registered filters has reached max = %d" [AInt CFE_PLATFORM_EVS_MAX_EVENT_FILTERS]);
            mret CFE_EVS_APP_FILTER_OVERLOAD
        end
    end).

Definition CFE_EVS_DeleteEventFilterCmd (AppName : list Z) (EventID : Z) : M EG Z :=
  app_command AppName CFE_EVS_DELETE_EVENT_FILTER_CC not_registered no_id (λ LocalName i,
    a ← rd_app i;
    match EVS_FindEventID EventID (ad_BinFilters a) with
    | Some k =>
        wr_filter i k (λ _, mkBinFilter CFE_EVS_FREE_SLOT CFE_EVS_NO_MASK 0);;
        _ ← EVS_SendEvent CFE_EVS_DELFILTER_EID CFE_EVS_EventType_DEBUG
              (expand "Delete Filter Command Received with AppName = %s, EventID = 0x%08x" [AStr LocalName; AInt EventID]);
        mret CFE_SUCCESS
    | None => no_filter_event LocalName EventID CFE_EVS_DELETE_EVENT_FILTER_CC "%s Event ID %d not registered for filtering: CC = %lu"
    end).

(** ** Files *)

Definition file_name (Filename Default : list Z) : M EG (list Z) :=
  r ← of_option (CFE_SB_MessageStringGet (Some (replicate OS_MAX_PATH_LEN 0)) Filename (Some Default) OS_MAX_PATH_LEN CFE_MISSION_MAX_PATH_LEN);
  mret (default [] r.2).

(** The loop that writes the log: the number of entries written and the last result. *)
Fixpoint write_log_loop (write : nat → Z) (n i : nat) (LogIndex BytesWritten : Z) : M EG (nat * Z) :=
  match n with
  | O => mret (i, BytesWritten)
  | S n =>
      g ← rd_log;
      p ← tbl_get (LogEntry g) LogIndex;
      let BytesWritten := write i in
      out (OutLogEntry p BytesWritten);;
      if BytesWritten =? sizeof_LongEventTlm then
        let LogIndex := LogIndex + 1 in
        let LogIndex := if CFE_PLATFORM_EVS_LOG_MAX <=? LogIndex then 0 else LogIndex in
        write_log_loop write n (S i) LogIndex BytesWritten
      else mret (i, BytesWritten)
  end.

Definition CFE_EVS_WriteLogDataFileCmd (Filename : list Z) (io : FileIO) : M EG Z :=
  LogFilename ← file_name Filename CFE_PLATFORM_EVS_DEFAULT_LOG_FILE;
  out (OutOpen (cstr LogFilename));;
  if io_open io <? OS_SUCCESS then
    _ ← EVS_SendEvent CFE_EVS_ERR_CRLOGFILE_EID CFE_EVS_EventType_ERROR
          (expand "Write Log File Command Error: OS_OpenCreate = 0x%08X, filename = %s" [AInt (u32 (io_open io)); AStr LogFilename]);
    mret (io_open io)
  else
    out (OutHeader (chars "cFE EVS Log File") CFE_FS_SubType_EVS_EVENTLOG);;
    Result ← (if io_header io =? sizeof_FsHeader then
                mut_take;;
                g ← rd_log;
                let LogIndex := if LogCount g =? CFE_PLATFORM_EVS_LOG_MAX then Next g else 0 in
                '(i, BytesWritten) ← write_log_loop (io_write io) (Z.to_nat (LogCount g)) 0 LogIndex (io_header io);
                mut_give;;
                g ← rd_log;
                if Z.of_nat i =? LogCount g then
                  _ ← EVS_SendEvent CFE_EVS_WRLOG_EID CFE_EVS_EventType_DEBUG
                        (expand "Write Log File Command: %d event log entries written to %s" [AInt (LogCount g); AStr LogFilename]);
                  mret CFE_SUCCESS
                else
                  _ ← EVS_SendEvent CFE_EVS_ERR_WRLOGFILE_EID CFE_EVS_EventType_ERROR
                        (expand "Write Log File Command Error: OS_write = 0x%08X, filename = %s" [AInt (u32 BytesWritten); AStr LogFilename]);
                  mret CFE_EVS_FILE_WRITE_ERROR
              else mret CFE_EVS_FILE_WRITE_ERROR);
    out OutClose;;
    mret Result.

Definition app_data_file (a : EVS_AppData_t) : M EG CFE_EVS_AppDataFile_t :=
  name ← app_name (EVS_AppDataGetID a);
  mret (mkAppDataFile name (ad_ActiveFlag a) (ad_EventTypesActiveFlag a) (ad_EventCount a) (ad_BinFilters a)).

(** The loop that writes the applications: whether it came to the end of the table, and
    the number of entries written. *)
Fixpoint write_app_loop (write : nat → Z) (LocalName : list Z) (n : nat) (i : Z) (EntryCount : nat) : M EG (bool * nat) :=
  match n with
  | O => mret (true, EntryCount)
  | S n =>
      a ← rd_app i;
      if EVS_AppDataIsUsed a then
        f ← app_data_file a;
        let BytesWritten := write EntryCount in
        out (OutAppEntry f BytesWritten);;
        if BytesWritten =? sizeof_AppDataFile then write_app_loop write LocalName n (i + 1) (S EntryCount)
        else
          _ ← EVS_SendEvent CFE_EVS_ERR_WRDATFILE_EID CFE_EVS_EventType_ERROR
                (expand "Write App Data Command Error: OS_write = 0x%08X, filename = %s" [AInt (u32 BytesWritten); AStr LocalName]);
          mret (false, EntryCount)
      else write_app_loop write LocalName n (i + 1) EntryCount
  end.

Definition CFE_EVS_WriteAppDataFileCmd (Filename : list Z) (io : FileIO) : M EG Z :=
  LocalName ← file_name Filename CFE_PLATFORM_EVS_DEFAULT_APP_DATA_FILE;
  out (OutOpen (cstr LocalName));;
  if io_open io <? OS_SUCCESS then
    _ ← EVS_SendEvent CFE_EVS_ERR_CRDATFILE_EID CFE_EVS_EventType_ERROR
          (expand "Write App Data Command Error: OS_OpenCreate = 0x%08X, filename = %s" [AInt (u32 (io_open io)); AStr LocalName]);
    mret (io_open io)
  else
    out (OutHeader (chars "EVS Application Data File") CFE_FS_SubType_EVS_APPDATA);;
    Result ← (if io_header io =? sizeof_FsHeader then
                '(complete, EntryCount) ← write_app_loop (io_write io) LocalName (Z.to_nat CFE_PLATFORM_ES_MAX_APPLICATIONS) 0 0;
                if complete : bool then
                  _ ← EVS_SendEvent CFE_EVS_WRDAT_EID CFE_EVS_EventType_DEBUG
                        (expand "Write App Data Command: %d application data entries written to %s" [AInt (Z.of_nat EntryCount); AStr LocalName]);
                  mret CFE_SUCCESS
                else mret CFE_EVS_FILE_WRITE_ERROR
              else mret CFE_EVS_FILE_WRITE_ERROR);
    out OutClose;;
    mret Result.

(** ** Dispatch *)

Definition CFE_EVS_VerifyCmdLength (m : EvsMsg) (ExpectedLength : Z) : M EG bool :=
  if negb (ExpectedLength =? em_Size m) then
    _ ← EVS_SendEvent CFE_EVS_LEN_ERR_EID CFE_EVS_EventType_ERROR
          (expand "Invalid msg length: ID = 0x%X,  CC = %u, Len = %u, Expected = %u"
             [AInt (em_MsgId m); AInt (em_FcnCode m); AInt (u32 (em_Size m)); AInt (u32 ExpectedLength)]);
    mret false
  else mret true.

(** The size of the payload and the handler of a ground command. *)
Definition ground_cmd (m : EvsMsg) : option (Z * M EG Z) :=
  let name := Z.of_nat CFE_MISSION_MAX_API_LEN in
  let path := Z.of_nat CFE_MISSION_MAX_PATH_LEN in
  let cc := em_FcnCode m in
  if cc =? CFE_EVS_NOOP_CC then Some (0, CFE_EVS_NoopCmd)
  else if cc =? CFE_EVS_RESET_COUNTERS_CC then Some (0, CFE_EVS_ResetCountersCmd)
  else if cc =? CFE_EVS_ENABLE_EVENT_TYPE_CC then Some (2, CFE_EVS_EnableEventTypeCmd (em_BitMask m))
  else if cc =? CFE_EVS_DISABLE_EVENT_TYPE_CC then Some (2, CFE_EVS_DisableEventTypeCmd (em_BitMask m))
  else if cc =? CFE_EVS_SET_EVENT_FORMAT_MODE_CC then Some (2, CFE_EVS_SetEventFormatModeCmd (em_Mode m))
  else if cc =? CFE_EVS_ENABLE_APP_EVENT_TYPE_CC then Some (name + 2, CFE_EVS_EnableAppEventTypeCmd (em_AppName m) (em_BitMask m))
  else if cc =? CFE_EVS_DISABLE_APP_EVENT_TYPE_CC then Some (name + 2, CFE_EVS_DisableAppEventTypeCmd (em_AppName m) (em_BitMask m))
  else if cc =? CFE_EVS_ENABLE_APP_EVENTS_CC then Some (name, CFE_EVS_EnableAppEventsCmd (em_AppName m))
  else if cc =? CFE_EVS_DISABLE_APP_EVENTS_CC then Some (name, CFE_EVS_DisableAppEventsCmd (em_AppName m))
  else if cc =? CFE_EVS_RESET_APP_COUNTER_CC then Some (name, CFE_EVS_ResetAppCounterCmd (em_AppName m))
  else if cc =? CFE_EVS_SET_FILTER_CC then Some (name + 4, CFE_EVS_SetFilterCmd (em_AppName m) (em_EventID m) (em_Mask m))
  else if cc =? CFE_EVS_ENABLE_PORTS_CC then Some (2, CFE_EVS_EnablePortsCmd (em_BitMask m))
  else if cc =? CFE_EVS_DISABLE_PORTS_CC then Some (2, CFE_EVS_DisablePortsCmd (em_BitMask m))
  else if cc =? CFE_EVS_RESET_FILTER_CC then Some (name + 2, CFE_EVS_ResetFilterCmd (em_AppName m) (em_EventID m))
  else if cc =? CFE_EVS_RESET_ALL_FILTERS_CC then Some (name, CFE_EVS_ResetAllFiltersCmd (em_AppName m))
  else if cc =? CFE_EVS_ADD_EVENT_FILTER_CC then Some (name + 4, CFE_EVS_AddEventFilterCmd (em_AppName m) (em_EventID m) (em_Mask m))
  else if cc =? CFE_EVS_DELETE_EVENT_FILTER_CC then Some (name + 2, CFE_EVS_DeleteEventFilterCmd (em_AppName m) (em_EventID m))
  else if cc =? CFE_EVS_WRITE_APP_DATA_FILE_CC then Some (path, CFE_EVS_WriteAppDataFileCmd (em_Filename m) (em_io m))
  else if cc =? CFE_EVS_SET_LOG_MODE_CC then Some (2, CFE_EVS_SetLogModeCmd (em_Mode m))
  else if cc =? CFE_EVS_CLEAR_LOG_CC then Some (0, CFE_EVS_ClearLogCmd)
  else if cc =? CFE_EVS_WRITE_LOG_DATA_FILE_CC then Some (path, CFE_EVS_WriteLogDataFileCmd (em_Filename m) (em_io m))
  else None.

Definition CFE_EVS_ProcessGroundCommand (m : EvsMsg) : M EG unit :=
  Status ← match ground_cmd m with
           | Some (n, cmd) =>
               ok ← CFE_EVS_VerifyCmdLength m (sizeof_CmdHeader + n);
               if ok : bool then cmd else mret CFE_STATUS_WRONG_MSG_LENGTH
           | None =>
               _ ← EVS_SendEvent CFE_EVS_ERR_CC_EID CFE_EVS_EventType_ERROR
                     (expand "Invalid command code -- ID = 0x%08x, CC = %u" [AInt (em_MsgId m); AInt (em_FcnCode m)]);
               mret CFE_STATUS_BAD_COMMAND_CODE
           end;
  if Status =? CFE_SUCCESS then tlm (λ t, t <| hk_CommandCounter ::= λ n, u8 (n + 1) |>)
  else when (Status <? 0) (tlm (λ t, t <| hk_CommandErrorCounter ::= λ n, u8 (n + 1) |>)).

Definition CFE_EVS_ProcessCommandPacket (m : EvsMsg) : M EG unit :=
  if em_MsgId m =? CFE_EVS_CMD_MID then CFE_EVS_ProcessGroundCommand m
  else if em_MsgId m =? CFE_EVS_SEND_HK_MID then _ ← CFE_EVS_ReportHousekeepingCmd; mret tt
  else
    tlm (λ t, t <| hk_CommandErrorCounter ::= λ n, u8 (n + 1) |>);;
    _ ← EVS_SendEvent CFE_EVS_ERR_MSGID_EID CFE_EVS_EventType_ERROR
          (expand "Invalid command packet, Message ID = 0x%08X" [AInt (em_MsgId m)]);
    mret tt.
End evs.
