(* ===== verification/EvsInv.v ===== *)
(** * The event log is a bounded list

    The ring of cfe_evs_log.c holds a list of events, oldest first.  When it is full, a
    new event replaces the oldest one in the overwrite mode and is dropped in the
    discard mode. *)
From Stdlib Require Import String.
From S2P Require Import Prelude Config Msg ResourceId Cstring EsApp TimeApi EvsState EvsApi EvsTask EvsCmds.
Import ListNotations.

Abbreviation log_max := (Z.to_nat CFE_PLATFORM_EVS_LOG_MAX).
Implicit Types (g : CFE_EVS_Log_t) (p : CFE_EVS_LongEventTlm_t) (s : EG).

(** What is needed for accesses inside the log; it holds for any contents of the reset
    area that initialization accepts. *)
Record log_safe g : Prop := {
  ls_next : 0 <= Next g < CFE_PLATFORM_EVS_LOG_MAX;
  ls_count : is_u16 (LogCount g);
  ls_entries : length (LogEntry g) = log_max;
}.

(** The log as event services leave it. *)
Record log_ok g : Prop := {
  lo_safe : log_safe g;
  lo_count : LogCount g <= CFE_PLATFORM_EVS_LOG_MAX;
  lo_full : LogFullFlag g = if LogCount g =? CFE_PLATFORM_EVS_LOG_MAX then 1 else 0;
  lo_next : LogCount g < CFE_PLATFORM_EVS_LOG_MAX → Next g = LogCount g;
  lo_mode : LogMode g = CFE_EVS_LogMode_OVERWRITE ∨ LogMode g = CFE_EVS_LogMode_DISCARD;
  lo_over : is_u16 (LogOverflowCounter g);
}.

(** The events in the log, oldest first. *)
Definition log_list g : list CFE_EVS_LongEventTlm_t :=
  if LogCount g =? CFE_PLATFORM_EVS_LOG_MAX then drop (Z.to_nat (Next g)) (LogEntry g) ++ take (Z.to_nat (Next g)) (LogEntry g)
  else take (Z.to_nat (LogCount g)) (LogEntry g).

(** The abstract operation. *)
Definition log_push (mode : Z) p (l : list CFE_EVS_LongEventTlm_t) : list CFE_EVS_LongEventTlm_t :=
  if (length l <? log_max)%nat then l ++ [p]
  else if mode =? CFE_EVS_LogMode_DISCARD then l else tail l ++ [p].

(** What EVS_AddLog makes of the log. *)
Definition add_log p g : CFE_EVS_Log_t :=
  if (LogFullFlag g =? 1) && (LogMode g =? CFE_EVS_LogMode_DISCARD) then g <| LogOverflowCounter ::= λ n, u16 (n + 1) |>
  else
    let next := u16 (Next g + 1) in
    let count := if LogCount g <? CFE_PLATFORM_EVS_LOG_MAX then u16 (LogCount g + 1) else LogCount g in
    mkLog (if CFE_PLATFORM_EVS_LOG_MAX <=? next then 0 else next) count
      (if (LogCount g <? CFE_PLATFORM_EVS_LOG_MAX) && (count =? CFE_PLATFORM_EVS_LOG_MAX) then 1 else LogFullFlag g) (LogMode g)
      (if LogFullFlag g =? 1 then u16 (LogOverflowCounter g + 1) else LogOverflowCounter g)
      (<[Z.to_nat (Next g) := p]> (LogEntry g)).

#[global] Arguments add_log : simpl never.

Lemma wp_rd_log (Q : CFE_EVS_Log_t → EG → Prop) s : EVS_LogPtr s = true → Q (EVS_Log s) s → wp rd_log Q s.
Proof. intros H HQ. unfold rd_log. wp_steps. by rewrite H. Qed.

Lemma wp_wr_log f (Q : unit → EG → Prop) s : EVS_LogPtr s = true → Q tt (s <| EVS_Log ::= f |>) → wp (wr_log f) Q s.
Proof. intros H HQ. unfold wr_log. wp_steps. by rewrite H. Qed.

Lemma wp_mut_take (Q : unit → EG → Prop) s : EVS_Mutex s = false → Q tt (s <| EVS_Mutex := true |>) → wp mut_take Q s.
Proof. intros H HQ. unfold mut_take. wp_steps. by rewrite H. Qed.

Lemma tbl_upd_ok {A} (f : A → A) i (l : list A) a : 0 <= i → l !! Z.to_nat i = Some a → tbl_upd f i l = Some (<[Z.to_nat i := f a]> l).
Proof.
  intros Hi Hl. unfold tbl_upd. pose proof (lookup_lt_Some _ _ _ Hl). rewrite (proj2 (Z.ltb_ge _ _)), (proj2 (Z.leb_gt _ _)) by lia.
  cbn. by rewrite (list_alter_at _ _ _ a).
Qed.

Ltac log_go :=
  repeat lazymatch goal with
    | |- wp rd_log _ _ => apply wp_rd_log; [done|]
    | |- wp (wr_log _) _ _ => apply wp_wr_log; [done|]
    | |- wp mut_take _ _ => apply wp_mut_take; [done|]
    | |- wp mut_give _ _ => apply wp_modify
    | |- wp (out _) _ _ => apply wp_modify
    | |- wp (when true _) _ _ => apply wp_when_true; [done|]
    | |- wp (when false _) _ _ => apply wp_when_false; [done|]
    | |- wp (_ ≫= _) _ _ => apply wp_bind
    | |- wp (mret _) _ _ => apply wp_ret
    | |- wp (modify _) _ _ => apply wp_modify
    | |- wp (gets _) _ _ => apply wp_gets
    end.

Lemma wp_AddLog p (Q : unit → EG → Prop) s : EVS_LogPtr s = true → EVS_Mutex s = false → log_safe (EVS_Log s) →
  Q tt (s <| EVS_Log ::= add_log p |>) → wp (EVS_AddLog p) Q s.
Proof.
  intros Hl Hm [H1 H2 H3] HQ. unfold EVS_AddLog. destruct s as [s1 s2 s3 s4 s5 s6 s7 g s9 s10 s11]. cbn in Hl, Hm, H1, H2, H3. subst s2 s6.
  unfold set in HQ. cbn in HQ.
  assert (∃ x, LogEntry g !! Z.to_nat (Next g) = Some x) as [x Hx] by (apply lookup_lt_is_Some_2; unfold CFE_PLATFORM_EVS_LOG_MAX in *; lia).
  destruct g as [nx ct ff md ov en]. cbn in H1, H2, H3, Hx. unfold add_log in HQ. cbn in HQ.
  log_go. cbn. destruct ((ff =? 1) && (md =? CFE_EVS_LogMode_DISCARD)).
  - log_go. exact HQ.
  - destruct (ff =? 1); log_go; cbn; (eapply wp_of_option; [apply tbl_upd_ok; [lia|exact Hx]|]); log_go; cbn;
      (destruct (CFE_PLATFORM_EVS_LOG_MAX <=? u16 (nx + 1)); log_go; cbn; (destruct (ct <? CFE_PLATFORM_EVS_LOG_MAX); log_go; cbn;
        [destruct (u16 (ct + 1) =? CFE_PLATFORM_EVS_LOG_MAX); log_go|]; exact HQ)).
Qed.

Lemma add_log_safe p g : log_safe g → log_safe (add_log p g).
Proof.
  intros [H1 H2 H3]. unfold CFE_PLATFORM_EVS_LOG_MAX in *. unfold add_log. destruct (_ && _); [by destruct g|]. split; cbn.
  - unfold CFE_PLATFORM_EVS_LOG_MAX. rewrite u16_small by (unfold is_u16; lia). destruct (Z.leb_spec 20 (Next g + 1)); lia.
  - destruct (_ <? _); [apply u16_range|done].
  - by rewrite length_insert.
Qed.

Lemma log_list_length g : log_ok g → Z.of_nat (length (log_list g)) = LogCount g.
Proof.
  intros [[H1 H2 H3] H4 _ _ _ _]. unfold log_list, is_u16 in *. unfold CFE_PLATFORM_EVS_LOG_MAX in *.
  destruct (Z.eqb_spec (LogCount g) 20).
  - rewrite length_app, length_drop, length_take, H3. lia.
  - rewrite length_take, H3. lia.
Qed.

Lemma take_insert_next {A} n (l : list A) x : (n < length l)%nat → take (S n) (<[n := x]> l) = take n l ++ [x].
Proof.
  intros H. rewrite (take_S_r _ n x) by (by apply list_lookup_insert_eq). by rewrite take_insert_ge by lia.
Qed.

(** The rotation by one: the oldest event is at the place that is written. *)
Lemma rotate_insert {A} n (l : list A) x : (n < length l)%nat →
  tail (drop n l ++ take n l) ++ [x] = drop (S n) (<[n := x]> l) ++ take (S n) (<[n := x]> l).
Proof.
  intros H. rewrite drop_insert_lt by lia. rewrite take_insert_next by done.
  destruct (lookup_lt_is_Some_2 l n H) as [y Hy]. rewrite (drop_S _ y n Hy). cbn. by rewrite <- app_assoc.
Qed.

Lemma add_log_push p g : log_ok g →
  log_ok (add_log p g) ∧ log_list (add_log p g) = log_push (LogMode g) p (log_list g) ∧ LogMode (add_log p g) = LogMode g ∧
  LogOverflowCounter (add_log p g) = if (length (log_list g) <? log_max)%nat then LogOverflowCounter g else u16 (LogOverflowCounter g + 1).
Proof.
  intros H. pose proof (log_list_length g H) as Hlen. pose proof (add_log_safe p g (lo_safe g H)) as Hs.
  destruct H as [[H1 H2 H3] H4 H5 H6 H7 H8]. unfold is_u16 in H2, H8.
  unfold log_push. unfold CFE_PLATFORM_EVS_LOG_MAX in H1, H3, H4, H5, H6. change log_max with 20%nat in *.
  revert Hs. unfold add_log. rewrite H5. unfold CFE_PLATFORM_EVS_LOG_MAX.
  destruct (Z.eqb_spec (LogCount g) 20) as [E|E]; cbn [Z.eqb Pos.eqb andb].
  - rewrite (proj2 (Nat.ltb_ge _ _)) by lia. destruct (Z.eqb_spec (LogMode g) CFE_EVS_LogMode_DISCARD) as [Em|Em].
    + intros Hs. split_and!; try done. split; cbn; try done; [|apply u16_range].
      unfold CFE_PLATFORM_EVS_LOG_MAX. by rewrite H5, (proj2 (Z.eqb_eq _ _) E).
    + intros Hs. rewrite (proj2 (Z.ltb_ge _ _)) in * by lia. cbn [andb Z.eqb Pos.eqb] in *. split_and!; try done.
      * split; cbn; try done; try (unfold CFE_PLATFORM_EVS_LOG_MAX; try rewrite E; try done; lia). apply u16_range.
      * unfold log_list. cbn [LogCount Next LogEntry]. unfold CFE_PLATFORM_EVS_LOG_MAX. rewrite E. cbn [Z.eqb Pos.eqb].
        rewrite u16_small by (unfold is_u16; lia). rewrite rotate_insert by lia.
        destruct (Z.leb_spec 20 (Next g + 1)).
        -- replace (Z.to_nat (Next g)) with 19%nat by lia. change (Z.to_nat 0) with 0%nat. change (drop 0 ?x) with x. change (take 0 ?x) with (@nil CFE_EVS_LongEventTlm_t).
           rewrite drop_ge, take_ge by (rewrite length_insert; lia). by rewrite app_nil_r.
        -- by replace (Z.to_nat (Next g + 1)) with (S (Z.to_nat (Next g))) by lia.
  - rewrite (proj2 (Nat.ltb_lt _ _)) by lia. rewrite (proj2 (Z.ltb_lt _ _)) by lia. intros Hs. rewrite (u16_small (LogCount g + 1)) in * by (unfold is_u16; lia).
    rewrite (u16_small (Next g + 1)) in * by (unfold is_u16; lia). cbn [andb Z.eqb] in *. rewrite (H6 ltac:(lia)) in *. split_and!; try done.
    + split; cbn; try done; unfold CFE_PLATFORM_EVS_LOG_MAX; try lia. intros Hlt. by rewrite (proj2 (Z.leb_gt _ _)) by lia.
    + unfold log_list. cbn [LogCount Next LogEntry]. unfold CFE_PLATFORM_EVS_LOG_MAX. rewrite (proj2 (Z.eqb_neq _ _) E).
      pose proof (take_insert_next (Z.to_nat (LogCount g)) (LogEntry g) p ltac:(lia)) as Ht. replace (Z.to_nat (LogCount g + 1)) with (S (Z.to_nat (LogCount g))) by lia.
      destruct (Z.eqb_spec (LogCount g + 1) 20); [|exact Ht].
      rewrite (proj2 (Z.leb_le _ _)) by lia. change (Z.to_nat 0) with 0%nat. change (drop 0 ?x) with x. change (take 0 ?x) with (@nil CFE_EVS_LongEventTlm_t).
      rewrite app_nil_r, <- Ht, take_ge by (rewrite length_insert; lia). done.
Qed.

(** ** Clearing the log *)

Definition clear_log g : CFE_EVS_Log_t := mkLog 0 0 0 (LogMode g) 0 (replicate (length (LogEntry g)) zero_packet).

Lemma wp_ClearLog (Q : unit → EG → Prop) s : EVS_LogPtr s = true → EVS_Mutex s = false →
  Q tt (s <| EVS_Log ::= clear_log |>) → wp EVS_ClearLog Q s.
Proof.
  intros Hl Hm HQ. unfold EVS_ClearLog. destruct s as [s1 s2 s3 s4 s5 s6 s7 g s9 s10 s11]. cbn in Hl, Hm. subst s2 s6. log_go. exact HQ.
Qed.

Lemma clear_log_ok g m : length (LogEntry g) = log_max → m = CFE_EVS_LogMode_OVERWRITE ∨ m = CFE_EVS_LogMode_DISCARD →
  log_ok ((clear_log g) <| LogMode := m |>) ∧ log_list ((clear_log g) <| LogMode := m |>) = [].
Proof.
  intros H Hm. split; [|done]. split; cbn; try done. split; cbn; try done. by rewrite length_replicate.
Qed.

Lemma clear_log_safe g : length (LogEntry g) = log_max → log_safe (clear_log g).
Proof. intros H. split; cbn; try done. by rewrite length_replicate. Qed.

(** ** Writing the log to a file *)

Definition ring_next (i : nat) : nat := if (log_max <=? S i)%nat then 0 else S i.

(** [n] events from a place on, around the ring. *)
Fixpoint ring_from (E : list CFE_EVS_LongEventTlm_t) (n i : nat) : list CFE_EVS_LongEventTlm_t :=
  match n with
  | O => []
  | S n => match E !! i with Some p => p :: ring_from E n (ring_next i) | None => [] end
  end.

Lemma ring_from_straight E n i : length E = log_max → (i + n <= log_max)%nat → ring_from E n i = take n (drop i E).
Proof.
  intros HE. revert i. induction n as [|n IH]; intros i Hi; [done|]. destruct (lookup_lt_is_Some_2 E i ltac:(lia)) as [p Hp].
  cbn [ring_from]. rewrite Hp, (drop_S _ p i Hp). cbn [take]. f_equal. unfold ring_next. destruct (Nat.leb_spec log_max (S i)).
  - replace n with 0%nat by lia. done.
  - by apply IH; lia.
Qed.

Lemma ring_from_wrap E n i : length E = log_max → (i < log_max)%nat → ring_from E (log_max - i + n) i = drop i E ++ ring_from E n 0.
Proof.
  intros HE Hi. remember (log_max - i)%nat as k eqn:Hk. revert i Hi Hk. induction k as [|k IH]; intros i Hi Hk; [lia|].
  destruct (lookup_lt_is_Some_2 E i ltac:(lia)) as [p Hp]. cbn [ring_from Nat.add]. rewrite Hp, (drop_S _ p i Hp). cbn [app]. f_equal.
  unfold ring_next. destruct (Nat.leb_spec log_max (S i)).
  - replace k with 0%nat by lia. cbn. by rewrite drop_ge by lia.
  - apply IH; lia.
Qed.

Definition log_start g : Z := if LogCount g =? CFE_PLATFORM_EVS_LOG_MAX then Next g else 0.

Lemma log_list_ring g : log_ok g → log_list g = ring_from (LogEntry g) (Z.to_nat (LogCount g)) (Z.to_nat (log_start g)).
Proof.
  intros [[H1 H2 H3] H4 _ _ _ _]. unfold log_list, log_start. unfold is_u16, CFE_PLATFORM_EVS_LOG_MAX in *. change (Z.to_nat 20) with 20%nat in *.
  destruct (Z.eqb_spec (LogCount g) 20) as [E|E].
  - replace (Z.to_nat (LogCount g)) with (log_max - Z.to_nat (Next g) + Z.to_nat (Next g))%nat by (change log_max with 20%nat; lia).
    rewrite ring_from_wrap by (change log_max with 20%nat; lia). f_equal. rewrite ring_from_straight by (change log_max with 20%nat; lia). done.
  - rewrite ring_from_straight by (change log_max with 20%nat; lia). done.
Qed.

(** The calls of OS_write for a list of entries, with their results: the first one that
    fails is the last one; and the number of entries that have been written. *)
Fixpoint write_calls {A} (size : Z) (write : nat → Z) (i : nat) (l : list A) : list (A * Z) :=
  match l with
  | [] => []
  | p :: l => (p, write i) :: if write i =? size then write_calls size write (S i) l else []
  end.

Fixpoint write_count {A} (size : Z) (write : nat → Z) (i : nat) (l : list A) : nat :=
  match l with
  | [] => 0
  | _ :: l => if write i =? size then S (write_count size write (S i) l) else 0
  end.

Lemma write_calls_all {A} size write i (l : list A) : (∀ k, write k = size) → write_calls size write i l = map (λ x, (x, size)) l ∧ write_count size write i l = length l.
Proof.
  intros H. revert i. induction l as [|p l IH]; intros i; [done|]. cbn. rewrite H, Z.eqb_refl. destruct (IH (S i)) as [-> ->]. done.
Qed.

Lemma write_count_le {A} size write i (l : list A) : (write_count size write i l <= length l)%nat.
Proof. revert i. induction l as [|p l IH]; intros i; [done|]. cbn. destruct (_ =? _); [|lia]. specialize (IH (S i)). lia. Qed.

Lemma wp_write_log_loop write n : ∀ i idx b (Q : nat * Z → EG → Prop) s, EVS_LogPtr s = true → length (LogEntry (EVS_Log s)) = log_max → 0 <= idx < CFE_PLATFORM_EVS_LOG_MAX →
  (∀ b, let l := ring_from (LogEntry (EVS_Log s)) n (Z.to_nat idx) in
     Q ((i + write_count sizeof_LongEventTlm write i l)%nat, b) (s <| EvsSent ::= λ o, o ++ map (λ c, OutLogEntry c.1 c.2) (write_calls sizeof_LongEventTlm write i l) |>)) →
  wp (write_log_loop write n i idx b) Q s.
Proof.
  induction n as [|n IH]; intros i idx b Q s Hl HE Hi HQ.
  { cbn. wp_steps. specialize (HQ b). cbn in HQ. rewrite Nat.add_0_r, app_nil_r in HQ. by destruct s. }
  cbn [write_log_loop]. log_go. destruct (lookup_lt_is_Some_2 (LogEntry (EVS_Log s)) (Z.to_nat idx)) as [p Hp]; [unfold CFE_PLATFORM_EVS_LOG_MAX in *; lia|].
  cbn zeta in HQ. cbn [ring_from] in HQ. rewrite Hp in HQ. cbn [write_count write_calls] in HQ.
  unfold tbl_get. eapply wp_of_option; [rewrite (proj2 (Z.ltb_ge _ _)) by lia; exact Hp|]. log_go. cbn beta zeta.
  destruct (write i =? sizeof_LongEventTlm).
  - set (o := OutLogEntry p (write i)). set (s1 := s <| EvsSent ::= λ l, l ++ [o] |>). set (j := if CFE_PLATFORM_EVS_LOG_MAX <=? idx + 1 then 0 else idx + 1).
    assert (ring_next (Z.to_nat idx) = Z.to_nat j) as Ej.
    { unfold ring_next, j, CFE_PLATFORM_EVS_LOG_MAX in *. change (Z.to_nat 20) with 20%nat. destruct (Nat.leb_spec 20 (S (Z.to_nat idx))), (Z.leb_spec 20 (idx + 1)); lia. }
    rewrite Ej in HQ. apply IH; try done. { unfold j. unfold CFE_PLATFORM_EVS_LOG_MAX in *. destruct (Z.leb_spec 20 (idx + 1)); lia. }
    intros b'. specialize (HQ b'). change (EVS_Log s1) with (EVS_Log s). cbn zeta. rewrite Nat.add_succ_r in HQ. cbn [Nat.add] in *.
    unfold s1. destruct s. unfold set in *. cbn in *. by rewrite <- app_assoc.
  - log_go. specialize (HQ (write i)). by rewrite Nat.add_0_r in HQ.
Qed.

(** ** Event services: the invariant and the generation of events *)

Implicit Types (a : EVS_AppData_t).

(** ** The invariant *)

Record filter_ok (f : EVS_BinFilter_t) : Prop := { fo_mask : is_u16 (bf_Mask f); fo_count : is_u16 (bf_Count f) }.

Abbreviation max_filters := (Z.to_nat CFE_PLATFORM_EVS_MAX_EVENT_FILTERS).
Abbreviation max_apps := (Z.to_nat CFE_PLATFORM_ES_MAX_APPLICATIONS).

Record app_ok a : Prop := {
  ao_len : length (ad_BinFilters a) = max_filters;
  ao_filters : Forall filter_ok (ad_BinFilters a);
  ao_count : is_u16 (ad_EventCount a);
  ao_types : is_u8 (ad_EventTypesActiveFlag a);
}.

Record evs_ok s : Prop := {
  eo_len : length (AppData s) = max_apps;
  eo_apps : Forall app_ok (AppData s);
  eo_ptr : EVS_LogPtr s = true;
  eo_mutex : EVS_Mutex s = false;
  eo_log : log_safe (EVS_Log s);
  eo_tlm : length (hk_AppData (EVS_Tlm s)) = Z.to_nat CFE_MISSION_ES_MAX_APPLICATIONS;
  eo_sent : is_u16 (hk_MessageSendCounter (EVS_Tlm s));
  eo_port : is_u8 (hk_OutputPort (EVS_Tlm s));
}.

(** ** Access to the entries *)

Lemma wp_rd_app i a (Q : EVS_AppData_t → EG → Prop) s : 0 <= i → AppData s !! Z.to_nat i = Some a → Q a s → wp (rd_app i) Q s.
Proof. intros Hi Ha HQ. unfold rd_app. wp_steps. unfold tbl_get. rewrite (proj2 (Z.ltb_ge _ _)) by lia. by rewrite Ha. Qed.

(** The state with an entry replaced. *)
Definition put_app (i : Z) a s : EG := s <| AppData ::= <[Z.to_nat i := a]> |>.

Lemma wp_wr_app i a f (Q : unit → EG → Prop) s : 0 <= i → AppData s !! Z.to_nat i = Some a → Q tt (put_app i (f a) s) → wp (wr_app i f) Q s.
Proof.
  intros Hi Ha HQ. unfold wr_app. wp_steps. eapply wp_of_option; [by apply tbl_upd_ok|]. exact HQ.
Qed.

Lemma put_app_get i a a' s : AppData s !! Z.to_nat i = Some a → AppData (put_app i a' s) !! Z.to_nat i = Some a'.
Proof. intros H. unfold put_app. cbn. apply list_lookup_insert_eq. by eapply lookup_lt_Some. Qed.

Lemma put_app_put i a a' s : put_app i a' (put_app i a s) = put_app i a' s.
Proof. unfold put_app. destruct s. unfold set. cbn. f_equal. apply list_insert_insert_eq. Qed.

Lemma put_app_ok i a s : evs_ok s → app_ok a → evs_ok (put_app i a s).
Proof. intros [] Ha. split; try done; cbn; [by rewrite length_insert|]. by apply Forall_insert. Qed.

Lemma put_app_id i a s : AppData s !! Z.to_nat i = Some a → put_app i a s = s.
Proof. intros H. unfold put_app. destruct s. unfold set. cbn in *. f_equal. by apply list_insert_id. Qed.

Lemma AppDataByID_range AppID i : EVS_GetAppDataByID AppID = Some i → 0 <= i < CFE_PLATFORM_ES_MAX_APPLICATIONS.
Proof.
  unfold EVS_GetAppDataByID, CFE_ES_AppID_ToIndex, CFE_ResourceId_ToIndex, CFE_PLATFORM_ES_MAX_APPLICATIONS. destruct (_ || _); cbn; [done|].
  intros E. destruct (_ <? _); [|done]. injection E as <-. by apply Z.mod_pos_bound.
Qed.

(** The entry an identifier selects. *)
Lemma app_entry AppID i s : evs_ok s → EVS_GetAppDataByID AppID = Some i → ∃ a, AppData s !! Z.to_nat i = Some a ∧ app_ok a ∧ 0 <= i.
Proof.
  intros H Hi. apply AppDataByID_range in Hi. destruct (lookup_lt_is_Some_2 (AppData s) (Z.to_nat i)) as [a Ha].
  { rewrite (eo_len s H). unfold CFE_PLATFORM_ES_MAX_APPLICATIONS in *. lia. }
  exists a. split_and!; [done| |lia]. apply (Forall_lookup_1 _ _ _ _ (eo_apps s H) Ha).
Qed.

(** ** Filters *)

Lemma FindEventID_spec e i l k : FindEventID_loop e i l = Some k → ∃ n f, k = i + Z.of_nat n ∧ l !! n = Some f ∧ bf_EventID f = e.
Proof.
  revert i. induction l as [|f l IH]; intros i; cbn; [done|]. destruct (Z.eqb_spec (bf_EventID f) e) as [E|E].
  - intros [= <-]. exists 0%nat, f. split_and!; [lia|done|done].
  - intros H. destruct (IH _ H) as (n & g & -> & Hn & Hg). exists (S n), g. split_and!; [lia|done|done].
Qed.

(** A change that keeps the event identifiers does not change what is found. *)
Lemma FindEventID_same e i l l' : bf_EventID <$> l = bf_EventID <$> l' → FindEventID_loop e i l = FindEventID_loop e i l'.
Proof.
  revert i l'. induction l as [|f l IH]; intros i [|f' l'] H; try done. cbn in *. injection H as Hf H. rewrite Hf. destruct (_ =? _); [done|by apply IH].
Qed.

Definition sat (n : Z) : Z := if n <? CFE_EVS_MAX_EVENT_SEND_COUNT then u16 (n + 1) else n.

Lemma sat_min n : is_u16 n → sat n = Z.min 65535 (n + 1) ∧ is_u16 (sat n).
Proof.
  unfold sat, is_u16, CFE_EVS_MAX_EVENT_SEND_COUNT. intros H. destruct (Z.ltb_spec n 65535); [rewrite u16_small by (unfold is_u16; lia)|]; split; lia.
Qed.

(** The filter of an event, its place and its entry: the first one with its number, which
    is kept as an int16. *)
Definition filter_of a (e : Z) : option (Z * EVS_BinFilter_t) :=
  '(k, f) ← list_find (λ f, bf_EventID f = s16 e) (ad_BinFilters a); Some (Z.of_nat k, f).

Lemma FindEventID_find e i l : FindEventID_loop e i l = (λ x, i + Z.of_nat x.1) <$> list_find (λ f, bf_EventID f = e) l.
Proof.
  revert i. induction l as [|f l IH]; intros i; [done|]. cbn [FindEventID_loop list_find]. destruct (Z.eqb_spec (bf_EventID f) e) as [E|E].
  - rewrite decide_True by done. cbn. f_equal. lia.
  - rewrite decide_False, IH by done. destruct (list_find _ l) as [[k g]|]; [|done]. cbn. f_equal. lia.
Qed.

Lemma filter_of_find a e : EVS_FindEventID e (ad_BinFilters a) = fst <$> filter_of a e.
Proof. unfold EVS_FindEventID, filter_of. rewrite FindEventID_find. destruct (list_find _ _) as [[k f]|]; [|done]. done. Qed.

(** Whether the type of an event is switched on for an application: the application is
    active, the type is one of the four, and its bit is set. *)
Definition type_on a (ty : Z) : bool := ad_ActiveFlag a && (1 <=? ty) && (ty <=? 4) && Z.testbit (ad_EventTypesActiveFlag a) (ty - 1).

Lemma land_type_bit x n : 0 <= n → (Z.land x (2 ^ n) =? 0) = negb (Z.testbit x n).
Proof.
  intros Hn. destruct (Z.testbit x n) eqn:E; cbn.
  - apply Z.eqb_neq. intros H. pose proof (f_equal (λ z, Z.testbit z n) H) as Hb. cbn in Hb. rewrite Z.land_spec, E, Z.pow2_bits_true, Z.bits_0 in Hb by done. done.
  - apply Z.eqb_eq. apply Z.bits_inj_0. intros k. rewrite Z.land_spec, Z.pow2_bits_eqb by done. destruct (Z.eqb_spec n k) as [<-|]; [by rewrite E|by rewrite andb_false_r].
Qed.

Lemma type_filtered_on a ty : type_filtered a ty = negb (type_on a ty).
Proof.
  unfold type_filtered, type_on, CFE_EVS_EventType_DEBUG, CFE_EVS_EventType_INFORMATION, CFE_EVS_EventType_ERROR, CFE_EVS_EventType_CRITICAL. cbn zeta.
  destruct (ad_ActiveFlag a); cbn [negb andb]; [|done].
  destruct (Z.eqb_spec ty 1) as [->|]; [apply (land_type_bit _ 0); lia|]. destruct (Z.eqb_spec ty 2) as [->|]; [apply (land_type_bit _ 1); lia|].
  destruct (Z.eqb_spec ty 3) as [->|]; [apply (land_type_bit _ 2); lia|]. destruct (Z.eqb_spec ty 4) as [->|]; [apply (land_type_bit _ 3); lia|].
  destruct (Z.leb_spec 1 ty), (Z.leb_spec ty 4); try done. lia.
Qed.

(** Whether an event passes, the entry after it has been counted, and whether the count
    reached its last value. *)
Definition passes a (e ty : Z) : bool :=
  type_on a ty && match filter_of a e with Some (_, f) => Z.land (bf_Mask f) (bf_Count f) =? 0 | None => true end.

Definition counted a (e ty : Z) : EVS_AppData_t :=
  if type_on a ty then
    match filter_of a e with
    | Some (k, f) => a <| ad_BinFilters ::= <[Z.to_nat k := f <| bf_Count ::= sat |>]> |>
    | None => a
    end
  else a.

Definition locks a (e ty : Z) : bool :=
  type_on a ty && match filter_of a e with Some (_, f) => bf_Count f =? CFE_EVS_MAX_FILTER_COUNT - 1 | None => false end.

Lemma filter_of_None a e : EVS_FindEventID e (ad_BinFilters a) = None → filter_of a e = None.
Proof. rewrite filter_of_find. by destruct (filter_of a e). Qed.

Lemma filter_of_Some a e k : EVS_FindEventID e (ad_BinFilters a) = Some k → ∃ f, filter_of a e = Some (k, f) ∧ ad_BinFilters a !! Z.to_nat k = Some f ∧ 0 <= k ∧ bf_EventID f = s16 e.
Proof.
  rewrite filter_of_find. destruct (filter_of a e) as [[k' f]|] eqn:E; [|done]. intros [= ->]. exists f. split; [done|]. unfold filter_of in E.
  destruct (list_find _ _) as [[n g]|] eqn:El; [|done]. injection E as <- <-. apply list_find_Some in El as (El & He & _). rewrite Nat2Z.id. split_and!; [done|lia|done].
Qed.

(** The filter after the one of an event has changed, its number kept. *)
Lemma filter_of_insert a e k (f g : EVS_BinFilter_t) : filter_of a e = Some (k, f) → bf_EventID g = bf_EventID f →
  filter_of (a <| ad_BinFilters ::= <[Z.to_nat k := g]> |>) e = Some (k, g).
Proof.
  unfold filter_of. cbn [ad_BinFilters set]. intros E Hg. destruct (list_find (λ f, bf_EventID f = s16 e) (ad_BinFilters a)) as [[n x]|] eqn:El; [|done]. injection E as <- <-.
  apply list_find_Some in El as (El & He & Hj). rewrite Nat2Z.id. change (ad_BinFilters (set ad_BinFilters _ a)) with (<[n := g]> (ad_BinFilters a)).
  rewrite (proj2 (list_find_Some (λ f, bf_EventID f = s16 e) (<[n := g]> (ad_BinFilters a)) n g)); [done|]. split_and!; [|congruence|].
  - apply list_lookup_insert_eq. by eapply lookup_lt_Some.
  - intros j y Hy Hlt. rewrite list_lookup_insert_ne in Hy by lia. by apply (Hj j).
Qed.

(** ** Applications and packets, as their formats are documented *)

(** An application identifier is a base value and a serial number of 16 bits; the serial
    number selects the entry. *)
Definition app_index (AppID : Z) : option Z := let serial := u32 (AppID - 0x110000) in if serial <=? 0xFFFF then Some (serial mod 32) else None.

Lemma AppDataByID_index AppID : EVS_GetAppDataByID AppID = app_index AppID.
Proof.
  unfold EVS_GetAppDataByID, CFE_ES_AppID_ToIndex, CFE_ResourceId_ToIndex, app_index. change CFE_ES_APPID_BASE with 0x110000. change CFE_RESOURCEID_MAX with 0xFFFF.
  unfold CFE_PLATFORM_ES_MAX_APPLICATIONS. rewrite Z.ltb_antisym. destruct (u32 (AppID - 0x110000) <=? 0xFFFF); cbn [negb orb Z.eqb]; [|done].
  cbn [default from_option id]. rewrite (proj2 (Z.ltb_lt _ _)); [done|]. by apply Z.mod_pos_bound.
Qed.

(** The name of an application in a field of 20 bytes, empty for an unknown one. *)
Definition name_of (id : Z) s : list Z :=
  match app_index id ≫= λ i, AppTable s !! Z.to_nat i with
  | Some r => if ar_AppId r =? id then take 19 (cstr (ar_AppName r)) ++ replicate (20 - length (take 19 (cstr (ar_AppName r)))) 0 else replicate 20 0
  | None => replicate 20 0
  end.

Lemma GetAppName_name AppID s : default [] (CFE_ES_GetAppName (AppTable s) (Some (replicate OS_MAX_API_NAME 0)) AppID OS_MAX_API_NAME).2 = name_of AppID s.
Proof.
  unfold CFE_ES_GetAppName, name_of, OS_MAX_API_NAME, CFE_ES_LocateAppRecordByID. rewrite <- AppDataByID_index. unfold EVS_GetAppDataByID. cbn [fst snd].
  destruct (CFE_ES_AppID_ToIndex AppID (Some 0)) as [st idx] eqn:E. unfold CFE_ES_AppID_ToIndex, CFE_ResourceId_ToIndex in E. destruct (_ || _); injection E as <- <-; [done|].
  cbn [Z.eqb default from_option id CFE_SUCCESS andb]. unfold CFE_SUCCESS. cbn [Z.eqb andb]. unfold CFE_PLATFORM_ES_MAX_APPLICATIONS. rewrite (proj2 (Z.ltb_lt _ _)) by (by apply Z.mod_pos_bound).
  cbn [mbind option_bind]. destruct (AppTable s !! _) as [r|]; [|done]. cbn [CFE_ES_AppRecordIsMatch]. destruct (ar_AppId r =? AppID); [|done]. cbn [snd default from_option id].
  unfold strncpy. change (drop 19 (replicate 20 0)) with [0]. rewrite app_assoc, insert_app_r_alt; rewrite length_app, length_take, length_replicate; [|lia].
  replace (19 - (_ + _))%nat with 0%nat by lia. cbn [insert list_insert]. rewrite <- app_assoc. f_equal. replace (20 - _)%nat with (19 - length (cstr (ar_AppName r)) + 1)%nat by lia. by rewrite replicate_add.
Qed.

Lemma wp_app_name id (Q : list Z → EG → Prop) s : Q (name_of id s) s → wp (app_name id) Q s.
Proof. intros HQ. unfold app_name. wp_steps. by rewrite GetAppName_name. Qed.

(** The text field of a packet: a text that does not fit is cut and marked. *)
Lemma vsnprintf_fits n text : (length text <= n)%nat → (vsnprintf (replicate (S n) 0) (S n) text).2 = text ++ replicate (S n - length text) 0.
Proof.
  intros H. unfold vsnprintf. cbn [snd]. rewrite take_ge by done. f_equal. rewrite Nat.min_l by done. rewrite drop_replicate.
  replace (S n - length text)%nat with (S (n - length text)) by lia. cbn. f_equal.
Qed.

Lemma vsnprintf_cut n text : (n < length text)%nat → (vsnprintf (replicate (S n) 0) (S n) text).2 = take n text ++ [0].
Proof. intros H. unfold vsnprintf. cbn [snd]. rewrite Nat.min_r by lia. rewrite drop_ge; [done|]. rewrite length_replicate. lia. Qed.

Definition message_field (text : list Z) : list Z * bool :=
  if (length text <? 122)%nat then (text ++ replicate (122 - length text) 0, false) else (take 120 text ++ chars "$" ++ [0], true).

Lemma event_message_cases text : event_message text = message_field text.
Proof.
  unfold event_message, message_field, CFE_MISSION_EVS_MAX_MESSAGE_LENGTH. rewrite (surjective_pairing (vsnprintf _ _ _)). change (vsnprintf (replicate 122 0) 122 text).1 with (Z.of_nat (length text)).
  change (chars "$" ++ [0]) with [CFE_EVS_MSG_TRUNCATED; 0]. destruct (Nat.ltb_spec (length text) 122); [rewrite (proj2 (Z.leb_gt _ _)) by lia|rewrite (proj2 (Z.leb_le _ _)) by lia].
  - rewrite vsnprintf_fits by lia. done.
  - rewrite vsnprintf_cut by lia. f_equal. destruct (lookup_lt_is_Some_2 text 120) as [c Hc]; [lia|]. rewrite (take_S_r _ 120 c Hc). change (122 - 2)%nat with 120%nat.
    rewrite insert_app_l by (rewrite length_app, length_take; cbn [length]; lia). rewrite insert_app_r_alt by (rewrite length_take; lia). rewrite length_take, Nat.min_l, Nat.sub_diag by lia. cbn. by rewrite <- app_assoc.
Qed.

#[global] Arguments message_field : simpl never.
#[global] Arguments name_of : simpl never.

Section evs.
Context `{Cfg : EvsCfg}.

(** ** One event *)

(** The header of an event packet: the CCSDS primary header with the identifier and the
    length, the extended header where the build has it, and the six bytes of the time. *)
Definition event_header (MsgId Size : Z) (time : CFE_TIME_SysTime_t) : Message :=
  let byte z k := Z.land (Z.shiftr z k) 0xFF in
  let sub := match evs_idv with MsgId_V1 => 0 | MsgId_V2 => 8 end in
  let t := [byte (Seconds time) 24; byte (Seconds time) 16; byte (Seconds time) 8; Z.land (Seconds time) 0xFF; byte (Subseconds time) 24; byte (Subseconds time) 16] in
  [8; MsgId - 0x800; 0xC0; 0; 0; Size - 7] ++
  match evs_hdr with
  | Hdr_Pri => t ++ [0; 0; 0; 0]
  | Hdr_PriExt => [0x0C; sub; byte (u16 CFE_PSP_GetSpacecraftId) 8; Z.land (u16 CFE_PSP_GetSpacecraftId) 0xFF] ++ t
  end.

Lemma tlm_header_event time :
  tlm_header CFE_EVS_LONG_EVENT_MSG_MID sizeof_LongEventTlm time = event_header 0x808 172 time ∧ tlm_header CFE_EVS_SHORT_EVENT_MSG_MID sizeof_ShortEventTlm time = event_header 0x809 48 time.
Proof. unfold tlm_header, event_header. destruct evs_hdr, evs_idv; split; reflexivity. Qed.

(** The line a port prints: at most 171 characters of it. *)
Definition port_line (port : Z) p : list Z :=
  let k := le_PacketID p in
  cstr (take 171 (chars "EVS Port" ++ Cstring.decimal port ++ chars " " ++ Cstring.decimal (pk_SpacecraftID k) ++ chars "/" ++ Cstring.decimal (pk_ProcessorID k) ++ chars "/" ++ cstr (pk_AppName k) ++
                  chars " " ++ Cstring.decimal (pk_EventID k) ++ chars ": " ++ cstr (le_Message p))).

Lemma cstr_zero l r : cstr (l ++ 0 :: r) = cstr l.
Proof. induction l as [|c l IH]; [done|]. cbn. destruct (c =? 0); [done|by f_equal]. Qed.

Lemma port_text_line port p : port_text port p = port_line port p.
Proof.
  unfold port_text, port_line. unfold vsnprintf. cbn [snd CFE_EVS_MAX_PORT_MSG_LENGTH]. unfold CFE_EVS_MAX_PORT_MSG_LENGTH. rewrite cstr_zero. do 2 f_equal.
  rewrite <- (app_nil_r (cstr (le_Message p))). reflexivity.
Qed.

#[global] Arguments port_line : simpl never.
#[global] Arguments event_header : simpl never.

Definition port_out (t : CFE_EVS_HousekeepingTlm_Payload_t) (port : Z) p : list EvsOut :=
  if Z.testbit (hk_OutputPort t) (port - 1) then [OutPort port (port_line port p ++ [10])] else [].

(** What a packet makes event services print and send. *)
Definition delivered (t : CFE_EVS_HousekeepingTlm_Payload_t) (time : CFE_TIME_SysTime_t) p : list EvsOut :=
  port_out t 1 p ++ port_out t 2 p ++ port_out t 3 p ++ port_out t 4 p ++
  (if hk_MessageFormatMode t =? CFE_EVS_MsgFormat_LONG then [OutLong p]
   else if hk_MessageFormatMode t =? CFE_EVS_MsgFormat_SHORT then [OutShort (mkShort (event_header 0x809 48 time) (le_PacketID p))]
   else []).

(** The packet of an event of the application with the entry [a]. *)
Definition packet_of a (e ty : Z) (time : CFE_TIME_SysTime_t) (text : list Z) s : CFE_EVS_LongEventTlm_t :=
  mkLong (event_header 0x808 172 time)
    (mkPacketID (name_of (ad_AppID a) s) e ty CFE_PSP_GetSpacecraftId CFE_PSP_GetProcessorId) (message_field text).1.

(** The state after an event that has passed. *)
Definition gen (i : Z) a (e ty : Z) (time : CFE_TIME_SysTime_t) (text : list Z) s : EG :=
  let p := packet_of a e ty time text s in
  (put_app i (a <| ad_EventCount ::= sat |>) s)
    <| EVS_Tlm ::= λ t, t <| hk_MessageTruncCounter ::= λ n, if (message_field text).2 then u8 (n + 1) else n |> <| hk_MessageSendCounter ::= sat |> |>
    <| EVS_Log ::= add_log p |>
    <| EvsSent ::= λ o, o ++ delivered (EVS_Tlm s) time p |>.

Lemma wp_send_port port p (Q : unit → EG → Prop) s : 1 <= port <= 4 →
  Q tt (s <| EvsSent ::= λ o, o ++ port_out (EVS_Tlm s) port p |>) → wp (send_port port (2 ^ (port - 1)) p) Q s.
Proof.
  intros Hp HQ. unfold send_port, port_out in *. wp_steps. cbn beta.
  assert ((Z.shiftr (Z.land (hk_OutputPort (EVS_Tlm s)) (2 ^ (port - 1))) (port - 1) =? 1) = Z.testbit (hk_OutputPort (EVS_Tlm s)) (port - 1)) as ->.
  { rewrite Z.shiftr_land. replace (2 ^ (port - 1)) with (Z.shiftl 1 (port - 1)) by (rewrite Z.shiftl_mul_pow2 by lia; lia).
    rewrite Z.shiftr_shiftl_l, Z.sub_diag by lia. change (Z.shiftl 1 0) with (Z.ones 1). rewrite Z.land_ones, <- Z.bit0_mod, Z.shiftr_spec by lia. rewrite Z.add_0_l. by destruct (Z.testbit _ _). }
  destruct (Z.testbit _ _).
  - unfold EVS_OutputPort. rewrite port_text_line. apply HQ.
  - destruct s. unfold set in HQ. cbn in HQ. by rewrite app_nil_r in HQ.
Qed.

Lemma wp_SendViaPorts p (Q : unit → EG → Prop) s :
  Q tt (s <| EvsSent ::= λ o, o ++ port_out (EVS_Tlm s) 1 p ++ port_out (EVS_Tlm s) 2 p ++ port_out (EVS_Tlm s) 3 p ++ port_out (EVS_Tlm s) 4 p |>) → wp (EVS_SendViaPorts p) Q s.
Proof.
  intros HQ. unfold EVS_SendViaPorts. apply wp_bind, (wp_send_port 1); [lia|]. apply wp_bind, (wp_send_port 2); [lia|]. apply wp_bind, (wp_send_port 3); [lia|]. apply (wp_send_port 4); [lia|].
  destruct s. unfold set in *. cbn in *. by rewrite <- !app_assoc.
Qed.

Lemma wp_Generate i a e ty time text (Q : unit → EG → Prop) s : evs_ok s → 0 <= i → AppData s !! Z.to_nat i = Some a →
  Q tt (gen i a e ty time text s) → wp (EVS_GenerateEventTelemetry i e ty time text) Q s.
Proof.
  intros H Hi Ha HQ. unfold EVS_GenerateEventTelemetry, gen, packet_of in *. rewrite event_message_cases. destruct (tlm_header_event time) as [-> ->]. destruct (message_field text) as [msg cut]. cbn [fst snd] in HQ.
  apply wp_bind. assert (∀ Q' : unit → EG → Prop, Q' tt (s <| EVS_Tlm ::= λ t, t <| hk_MessageTruncCounter ::= λ n, if cut then u8 (n + 1) else n |> |>) →
    wp (when cut (tlm (λ t, t <| hk_MessageTruncCounter ::= λ n, u8 (n + 1) |>))) Q' s) as Hcut.
  { intros Q' HQ'. destruct cut; [exact HQ'|]. destruct s as [? ? ? [] ? ? ? ? ? ? ?]. exact HQ'. }
  apply Hcut. clear Hcut. apply wp_bind. eapply wp_rd_app; [done|exact Ha|]. apply wp_bind, wp_app_name, wp_bind.
  destruct H as [_ _ Hl Hm Hg _ _ _]. apply wp_AddLog; [done..|]. apply wp_bind, wp_SendViaPorts, wp_bind, wp_gets, wp_bind.
  set (p := mkLong _ _ _). destruct s as [ad lp th t cp mx id g at_ nw sn]. unfold put_app in HQ. unfold set in HQ. cbn in Ha, HQ |- *.
  change (EVS_AppDataGetID a) with (ad_AppID a) in *. fold p in HQ.
  assert (∀ (m : M EG unit) (o : list EvsOut) (Q' : unit → EG → Prop) s0, (m = mret tt ∧ o = []) ∨ (∃ x, m = out x ∧ o = [x]) → Q' tt (s0 <| EvsSent ::= λ l, l ++ o |>) → wp m Q' s0) as Hout.
  { intros m o Q' s0 [[-> ->]|(x & -> & ->)] HQ'; [|exact HQ']. destruct s0. unfold set in HQ'. cbn in HQ'. by rewrite app_nil_r in HQ'. }
  eapply (Hout _ (if hk_MessageFormatMode t =? CFE_EVS_MsgFormat_LONG then [OutLong p] else if hk_MessageFormatMode t =? CFE_EVS_MsgFormat_SHORT then
     [OutShort (mkShort (event_header 0x809 48 time) (le_PacketID p))] else [])).
  { destruct (hk_MessageFormatMode t =? CFE_EVS_MsgFormat_LONG); [right; by eexists|]. destruct (hk_MessageFormatMode t =? CFE_EVS_MsgFormat_SHORT); [right; by eexists|by left]. }
  clear Hout. apply wp_bind.
  assert (∀ (Q' : unit → EG → Prop) s0, hk_MessageSendCounter (EVS_Tlm s0) = hk_MessageSendCounter t → Q' tt (s0 <| EVS_Tlm ::= λ t, t <| hk_MessageSendCounter ::= sat |> |>) →
    wp (when (hk_MessageSendCounter t <? CFE_EVS_MAX_EVENT_SEND_COUNT) (tlm (λ t, t <| hk_MessageSendCounter ::= λ n, u16 (n + 1) |>))) Q' s0) as Hsend.
  { intros Q' s0 E HQ'. unfold sat in HQ'. destruct s0 as [? ? ? [] ? ? ? ? ? ? ?]. unfold set in HQ'. cbn in E, HQ'. subst. destruct (_ <? _); exact HQ'. }
  apply Hsend; [done|]. clear Hsend. apply wp_bind. eapply wp_rd_app; [done|exact Ha|].
  unfold sat in HQ at 1. revert HQ. unfold set. cbn. rewrite <- !app_assoc. unfold delivered, port_out. cbn. intros HQ.
  destruct (ad_EventCount a <? CFE_EVS_MAX_EVENT_SEND_COUNT).
  - eapply wp_wr_app; [done|exact Ha|]. rewrite <- ?app_assoc in HQ. exact HQ.
  - apply wp_ret. rewrite list_insert_id in HQ by (by destruct a). exact HQ.
Qed.
End evs.
