(* ===== verification/EvsCalls.v ===== *)
(** * Event services: filters and the own events of event services

    An event of event services is an event of the application with the identifier
    [EVS_AppID].  It changes the log, the output, the counters and the counts of the
    entry of event services, and nothing else. *)
From Stdlib Require Import String.
From S2P Require Import Prelude Config Msg ResourceId Cstring EsApp TimeApi EvsState EvsApi EvsTask EvsCmds EvsInv.
Import ListNotations.

Implicit Types (a : EVS_AppData_t) (p : CFE_EVS_LongEventTlm_t) (s : EG).

(** ** Entries that differ in their counts only *)

Definition filter_grew (f f' : EVS_BinFilter_t) : Prop := bf_EventID f' = bf_EventID f ∧ bf_Mask f' = bf_Mask f ∧ bf_Count f <= bf_Count f'.

Record app_grew a a' : Prop := {
  ag_id : ad_AppID a' = ad_AppID a;
  ag_unreg : ad_UnregAppID a' = ad_UnregAppID a;
  ag_active : ad_ActiveFlag a' = ad_ActiveFlag a;
  ag_types : ad_EventTypesActiveFlag a' = ad_EventTypesActiveFlag a;
  ag_filters : Forall2 filter_grew (ad_BinFilters a) (ad_BinFilters a');
  ag_count : ad_EventCount a <= ad_EventCount a';
}.

#[export] Instance filter_grew_preorder : PreOrder filter_grew.
Proof. unfold filter_grew. split; [intros f; split_and!; try done; lia|]. intros f g h (A & B & C) (D & E & F). split_and!; [congruence|congruence|lia]. Qed.

#[export] Instance app_grew_preorder : PreOrder app_grew.
Proof.
  split; [intros a; split; done|]. intros a b c [A1 A2 A3 A4 A5 A6] [B1 B2 B3 B4 B5 B6]. split; try congruence; [|lia]. by etrans.
Qed.

Lemma filters_insert l k f f' : l !! k = Some f → filter_grew f f' → Forall2 filter_grew l (<[k := f']> l).
Proof. intros Hk Hg. rewrite <- (list_insert_id l k f Hk) at 1. by apply Forall2_insert. Qed.

Lemma counted_ok a e ty : app_ok a → app_ok (counted a e ty) ∧ app_grew a (counted a e ty).
Proof.
  intros H. unfold counted. destruct (type_on a ty); [|by split]. destruct (EVS_FindEventID e (ad_BinFilters a)) as [k|] eqn:E.
  - destruct (filter_of_Some _ _ _ E) as (f & -> & Hf & Hk & _). destruct H as [H1 H2 H3 H4].
    pose proof (Forall_lookup_1 _ _ _ _ H2 Hf) as [F1 F2]. destruct (sat_min _ F2) as [S1 S2]. split; split; cbn; try done.
    + by rewrite length_insert.
    + apply Forall_insert; [done|]. by split.
    + apply (filters_insert _ _ f); [done|]. split_and!; try done. cbn. rewrite S1. unfold is_u16 in F2. lia.
  - rewrite (filter_of_None _ _ E). by split.
Qed.

Lemma counted_type a e ty ty' : type_on (counted a e ty) ty' = type_on a ty'.
Proof. unfold counted. destruct (type_on a ty); [|done]. by destruct (filter_of a e) as [[k f]|]. Qed.

(** Once an event has been counted to the end, it is not reported again. *)
Lemma counted_locks a e ty : app_ok a → locks a e ty = true → locks (counted a e ty) e ty = false.
Proof.
  intros Ha Hl. unfold locks in *. rewrite counted_type. unfold counted. destruct (type_on a ty); cbn [andb] in *; [|done]. destruct (filter_of a e) as [[k f]|] eqn:E; [|done].
  rewrite (filter_of_insert a e k f (f <| bf_Count ::= sat |>)) by done. apply Z.eqb_eq in Hl. cbn. by rewrite Hl.
Qed.

Section evs.
Context `{Cfg : EvsCfg}.

(** The filter test without the event about the last count. *)
Lemma wp_filter_count d i a e ty (Q : bool → EG → Prop) s : evs_ok s → 0 <= i → AppData s !! Z.to_nat i = Some a → app_ok a →
  (locks a e ty = true →
     wp (send_event (IsFiltered_depth d) CFE_EVS_FILTER_MAX_EID CFE_EVS_EventType_INFORMATION
           (expand "Max filter count reached, AppName = %s, EventID = 0x%08x: Filter locked until reset" [AStr (name_of (ad_AppID a) s); AInt e]))
        (λ _, Q (negb (passes a e ty))) (put_app i (counted a e ty) s)) →
  (locks a e ty = false → Q (negb (passes a e ty)) (put_app i (counted a e ty) s)) →
  wp (IsFiltered_depth (S d) i e ty) Q s.
Proof.
  intros H Hi Ha Hok. unfold locks, passes, counted. intros Hlock Hno. cbn [IsFiltered_depth]. apply wp_bind. eapply wp_rd_app; [done|exact Ha|].
  rewrite type_filtered_on. destruct (type_on a ty); cbn [negb andb] in *; [|wp_steps; specialize (Hno eq_refl); by rewrite put_app_id in Hno].
  destruct (EVS_FindEventID e (ad_BinFilters a)) as [k|] eqn:E.
  2:{ rewrite (filter_of_None _ _ E) in *. wp_steps. specialize (Hno eq_refl). by rewrite put_app_id in Hno. }
  destruct (filter_of_Some _ _ _ E) as (f & Ef & Hf & Hk & _). rewrite Ef in *. pose proof (Forall_lookup_1 _ _ _ _ (ao_filters a Hok) Hf) as [_ Fc].
  apply wp_bind. unfold tbl_get. rewrite (proj2 (Z.ltb_ge _ _)) by lia. eapply wp_of_option; [exact Hf|]. cbn zeta. apply wp_bind.
  unfold sat in *. unfold CFE_EVS_MAX_FILTER_COUNT, CFE_EVS_MAX_EVENT_SEND_COUNT, is_u16 in *. destruct (Z.ltb_spec (bf_Count f) 65535) as [Hc|Hc].
  2:{ apply wp_when_false; [done|]. wp_steps. assert ((bf_Count f =? 65535 - 1) = false) as En by (apply Z.eqb_neq; lia). specialize (Hno En).
      rewrite put_app_id in Hno; [done|]. rewrite Ha. f_equal. destruct a. unfold set. cbn in *. f_equal. rewrite list_insert_id; [done|].
      rewrite Hf. f_equal. destruct f. cbn in *. by rewrite (proj2 (Z.ltb_ge _ _)) by lia. }
  apply wp_when_true; [done|]. apply wp_bind. unfold wr_filter. apply wp_bind. eapply wp_rd_app; [done|exact Ha|].
  apply wp_bind. eapply wp_of_option; [by apply tbl_upd_ok|]. eapply wp_wr_app; [done|exact Ha|].
  rewrite u16_small in * by (unfold is_u16; lia).
  match type of Hno with _ → Q _ (put_app i ?x s) => match goal with |- wp _ _ (put_app i ?y s) => replace y with x end end.
  2:{ destruct a. unfold set. cbn. f_equal. f_equal. destruct f. cbn in *. rewrite (proj2 (Z.ltb_lt _ _)) by lia. by rewrite u16_small by (unfold is_u16; lia). }
  destruct (Z.eqb_spec (bf_Count f) (65535 - 1)) as [El|El].
  - rewrite (proj2 (Z.eqb_eq (bf_Count f + 1) 65535)) by lia. apply wp_when_true; [done|]. apply wp_bind, wp_app_name, wp_bind. eapply wp_mono; [by apply Hlock|]. intros b s' HQ. by wp_steps.
  - rewrite (proj2 (Z.eqb_neq (bf_Count f + 1) 65535)) by lia. apply wp_when_false; [done|]. wp_steps. by apply Hno.
Qed.
(** ** Own events *)

(** The entry of event services, when it is registered. *)
Definition own_entry s : option (Z * EVS_AppData_t) :=
  i ← app_index (EVS_AppID s);
  a ← AppData s !! Z.to_nat i;
  if ad_AppID a =? EVS_AppID s then Some (i, a) else None.

(** The state [s'] is [s] after the own events with the packets [l]. *)
Record own_events (l : list CFE_EVS_LongEventTlm_t) s s' : Prop := {
  oe_log : EVS_Log s' = foldl (λ g p, add_log p g) (EVS_Log s) l;
  oe_time : Forall (λ p, le_TlmHeader p = event_header 0x808 172 (Now s)) l;
  oe_sent : EvsSent s' = EvsSent s ++ concat (map (delivered (EVS_Tlm s) (Now s)) l);
  oe_apps : length (AppData s') = length (AppData s) ∧ ∀ j a, AppData s !! j = Some a →
    ∃ a', AppData s' !! j = Some a' ∧ app_grew a a' ∧ (a' ≠ a → ∃ i, own_entry s = Some (i, a) ∧ j = Z.to_nat i);
  oe_tlm : EVS_Tlm s' = (EVS_Tlm s) <| hk_MessageTruncCounter := hk_MessageTruncCounter (EVS_Tlm s') |>
                                   <| hk_MessageSendCounter := Z.min 65535 (hk_MessageSendCounter (EVS_Tlm s) + Z.of_nat (length l)) |>;
  oe_rest : EVS_LogPtr s' = EVS_LogPtr s ∧ EVS_TlmHeader s' = EVS_TlmHeader s ∧ EVS_CommandPipe s' = EVS_CommandPipe s ∧ EVS_Mutex s' = EVS_Mutex s ∧
    EVS_AppID s' = EVS_AppID s ∧ AppTable s' = AppTable s ∧ Now s' = Now s;
}.

Lemma own_refl s : evs_ok s → own_events [] s s.
Proof.
  intros H. split; try done.
  - by rewrite app_nil_r.
  - split; [done|]. intros j a Hj. exists a. split_and!; [done|done|]. intros Hn. by destruct Hn.
  - pose proof (eo_sent s H) as Hs. unfold is_u16 in Hs. cbn [length Z.of_nat]. rewrite Z.add_0_r, Z.min_r by lia. by destruct s as [? ? ? [] ? ? ? ? ? ? ?].
Qed.

Lemma own_entry_own l s s' i a : own_events l s s' → own_entry s = Some (i, a) → ∃ a', own_entry s' = Some (i, a') ∧ app_grew a a'.
Proof.
  intros [_ _ _ [_ Ha] _ (_ & _ & _ & _ & Hid & _)]. unfold own_entry. rewrite Hid, <- AppDataByID_index. destruct (EVS_GetAppDataByID (EVS_AppID s)) as [i'|]; [|done]. cbn.
  destruct (AppData s !! Z.to_nat i') as [b|] eqn:Eb; [|done]. cbn. destruct (Ha _ _ Eb) as (b' & -> & Hg & _). cbn. rewrite (ag_id _ _ Hg).
  destruct (_ =? _); [|done]. intros [= <- <-]. by exists b'.
Qed.

Lemma own_entry_back l s s' i a' : own_events l s s' → own_entry s' = Some (i, a') → ∃ a, own_entry s = Some (i, a) ∧ AppData s !! Z.to_nat i = Some a.
Proof.
  intros [_ _ _ [Hl Ha] _ (_ & _ & _ & _ & Hid & _)]. unfold own_entry. rewrite Hid, <- AppDataByID_index. destruct (EVS_GetAppDataByID (EVS_AppID s)) as [i'|]; [|done]. cbn.
  destruct (AppData s' !! Z.to_nat i') as [b'|] eqn:Eb'; [|done]. cbn. destruct (_ =? _) eqn:E; [|done]. intros [= <- <-].
  destruct (lookup_lt_is_Some_2 (AppData s) (Z.to_nat i')) as [b Eb]; [rewrite <- Hl; by eapply lookup_lt_Some|]. destruct (Ha _ _ Eb) as (b2 & E2 & Hg & _).
  rewrite Eb' in E2. injection E2 as <-. rewrite Eb. cbn. rewrite (ag_id _ _ Hg) in E. rewrite E. by exists b.
Qed.

Lemma delivered_own l s s' time p : own_events l s s' → delivered (EVS_Tlm s') time p = delivered (EVS_Tlm s) time p.
Proof. intros H. by rewrite (oe_tlm _ _ _ H). Qed.

Lemma own_trans l k s s1 s2 : own_events l s s1 → own_events k s1 s2 → own_events (l ++ k) s s2.
Proof.
  intros H1 H2. pose proof H1 as [A1 A0 A2 [A3 A4] A5 (B1 & B2 & B3 & B4 & B5 & B6 & B7)]. pose proof H2 as [C1 C0 C2 [C3 C4] C5 (D1 & D2 & D3 & D4 & D5 & D6 & D7)]. split.
  - by rewrite foldl_app, <- A1.
  - rewrite B7 in C0. by apply Forall_app.
  - rewrite C2, A2, <- app_assoc, map_app, concat_app. do 3 f_equal. rewrite B7. apply map_ext. intros p. by apply (delivered_own l).
  - split; [lia|]. intros j a Hj. destruct (A4 j a Hj) as (b & Hb & Hg & Hn). destruct (C4 j b Hb) as (c & Hc & Hg2 & Hn2). exists c. split_and!; [done|by etrans|].
    intros Hne. destruct (decide (c = b)) as [->|Hcb]; [by apply Hn|]. destruct (Hn2 Hcb) as (i & Hi & ->).
    destruct (own_entry_back _ _ _ _ _ H1 Hi) as (a0 & Ha0 & Ha0'). rewrite Hj in Ha0'. injection Ha0' as <-. by exists i.
  - etrans; [exact C5|]. rewrite A5. generalize (hk_MessageTruncCounter (EVS_Tlm s2)). destruct (EVS_Tlm s). intros n. unfold set. cbn. f_equal. rewrite length_app. lia.
  - split_and!; congruence.
Qed.

Lemma own_ok l s s' : own_events l s s' → Forall app_ok (AppData s') → evs_ok s → evs_ok s'.
Proof.
  intros [A1 _ A2 [A3 A4] A5 (B1 & B2 & B3 & B4 & B5 & B6 & B7)] Hf [C1 C2 C3 C4 C5 C6 C7 C8]. split; try done; try congruence.
  - rewrite A1. clear -C5. revert C5. generalize (EVS_Log s). induction l as [|p l IH]; intros g Hg; [done|]. cbn. apply IH. by apply add_log_safe.
  - by rewrite A5.
  - rewrite A5. cbn. unfold is_u16 in *. lia.
  - by rewrite A5.
Qed.

(** Counting and generating an event on the own entry. *)
Lemma own_put s i a a' : evs_ok s → own_entry s = Some (i, a) → AppData s !! Z.to_nat i = Some a → app_grew a a' → own_events [] s (put_app i a' s).
Proof.
  intros H Ho Ha Hg. pose proof (own_refl s H) as [A1 A0 A2 A3 A4 A5]. split; try done. split; [cbn; by rewrite length_insert|].
  intros j b Hj. cbn. destruct (decide (j = Z.to_nat i)) as [->|Hne].
  - rewrite Ha in Hj. injection Hj as <-. exists a'. split_and!; [|done|by exists i]. apply list_lookup_insert_eq. by eapply lookup_lt_Some.
  - exists b. rewrite list_lookup_insert_ne by done. split_and!; [done|done|]. intros Hn. by destruct Hn.
Qed.

Lemma own_gen s i a e ty text : evs_ok s → own_entry s = Some (i, a) → AppData s !! Z.to_nat i = Some a → app_ok a →
  own_events [packet_of a e ty (Now s) text s] s (gen i a e ty (Now s) text s).
Proof.
  intros H Ho Ha Hok. destruct (sat_min _ (ao_count a Hok)) as [S1 S2]. pose proof (ao_count a Hok) as Hc. unfold is_u16 in Hc.
  destruct (own_put s i a (a <| ad_EventCount ::= sat |>) H Ho Ha) as [_ _ _ A3 _ _]; [split; try done; cbn; lia|].
  pose proof (eo_sent s H) as Hs. destruct (sat_min _ Hs) as [S3 S4]. split; try done.
  - by apply Forall_singleton.
  - cbn. by rewrite app_nil_r.
  - unfold gen. destruct s as [? ? ? [] ? ? ? ? ? ? ?]. unfold set. cbn in *. by rewrite S3.
Qed.
(** ** The depth of the recursion *)

Lemma own_entry_get s i a : own_entry s = Some (i, a) → AppData s !! Z.to_nat i = Some a ∧ 0 <= i ∧ EVS_GetAppDataByID (EVS_AppID s) = Some i ∧ ad_AppID a = EVS_AppID s.
Proof.
  unfold own_entry. rewrite <- AppDataByID_index. destruct (EVS_GetAppDataByID (EVS_AppID s)) as [i'|] eqn:Ei; [|done]. cbn. destruct (AppData s !! Z.to_nat i') as [b|] eqn:Eb; [|done]. cbn.
  destruct (Z.eqb_spec (ad_AppID b) (EVS_AppID s)); [|done]. intros [= <- <-]. apply AppDataByID_range in Ei. split_and!; try done. lia.
Qed.

Lemma entry_ok s i a : evs_ok s → AppData s !! i = Some a → app_ok a.
Proof. intros H Ha. by apply (Forall_lookup_1 _ _ _ _ (eo_apps s H) Ha). Qed.

(** The result of an own event: the last packet is the event, when it passes. *)
Definition own_sent (e ty : Z) (text : list Z) s (l : list CFE_EVS_LongEventTlm_t) : Prop :=
  match own_entry s with
  | Some (_, a) =>
      (passes a e ty = true → ∃ k, l = k ++ [packet_of a e ty (Now s) text s]) ∧
      (locks a e ty = false → l = if passes a e ty then [packet_of a e ty (Now s) text s] else [])
  | None => l = []
  end.

(** The result of the filter test on the own entry. *)
Definition own_tested (e ty : Z) a s (b : bool) s1 : Prop :=
  b = negb (passes a e ty) ∧ evs_ok s1 ∧ ∃ l, own_events l s s1 ∧ (locks a e ty = false → l = []).

Lemma gen_ok i a e ty time text s : evs_ok s → AppData s !! Z.to_nat i = Some a → evs_ok (gen i a e ty time text s).
Proof.
  intros H Ha. pose proof (entry_ok _ _ _ H Ha) as Hok. destruct (sat_min _ (ao_count a Hok)) as [_ S2]. destruct (sat_min _ (eo_sent s H)) as [_ S4].
  assert (app_ok (a <| ad_EventCount ::= sat |>)) as Hok' by (destruct Hok; by split). destruct (put_app_ok i _ s H Hok') as [A1 A2 A3 A4 A5 A6 A7 A8].
  split; try done. by apply add_log_safe.
Qed.

Lemma wp_send_own d e ty text (Q : Z → EG → Prop) s : evs_ok s →
  (∀ i a, own_entry s = Some (i, a) → wp (IsFiltered_depth d i e ty) (own_tested e ty a s) s) →
  (∀ l s', own_events l s s' → evs_ok s' → own_sent e ty text s l → Q CFE_SUCCESS s') →
  wp (send_event (IsFiltered_depth d) e ty text) Q s.
Proof.
  intros H Hf HQ. unfold send_event. wp_steps. unfold own_sent in HQ. destruct (EVS_GetAppDataByID (EVS_AppID s)) as [i|] eqn:Ei.
  2:{ cbn. wp_steps. apply (HQ []); [by apply own_refl|done|]. unfold own_entry. by rewrite <- AppDataByID_index, Ei. }
  destruct (app_entry _ _ _ H Ei) as (a & Ha & Hok & Hi). cbn [EVS_AppDataIsMatch]. apply wp_bind. eapply wp_rd_app; [done|exact Ha|]. wp_steps.
  assert (own_entry s = if ad_AppID a =? EVS_AppID s then Some (i, a) else None) as Eo by (unfold own_entry; rewrite <- AppDataByID_index, Ei; cbn; by rewrite Ha).
  rewrite Eo in *. destruct (ad_AppID a =? EVS_AppID s); [|wp_steps; apply (HQ []); [by apply own_refl|done|done]].
  apply wp_bind. eapply wp_mono; [by apply (Hf i a)|]. intros b s1 (-> & H1 & l & Hl & Hno). apply wp_bind. pose proof (oe_rest _ _ _ Hl) as (_ & _ & _ & _ & _ & Rt & Rn).
  destruct (passes a e ty) eqn:Ep; cbn [negb].
  - destruct (own_entry_own _ _ _ _ _ Hl Eo) as (a1 & Eo1 & Hg). destruct (own_entry_get _ _ _ Eo1) as (Ha1 & _). wp_steps.
    eapply wp_Generate; [done|done|exact Ha1|]. wp_steps.
    assert (packet_of a1 e ty (Now s1) text s1 = packet_of a e ty (Now s) text s) as Epk by (unfold packet_of, name_of; by rewrite Rt, Rn, (ag_id _ _ Hg)).
    apply (HQ (l ++ [packet_of a e ty (Now s) text s])); [|by apply gen_ok|].
    + eapply own_trans; [exact Hl|]. rewrite <- Epk. apply own_gen; try done. by eapply entry_ok.
    + split; [by eexists|]. intros Hk. by rewrite (Hno Hk).
  - wp_steps. apply (HQ l); [done|done|]. split; [done|]. intros Hk. by rewrite (Hno Hk).
Qed.

Lemma wp_tested d i a e ty s : evs_ok s → own_entry s = Some (i, a) →
  (locks a e ty = true → ∀ text, wp (send_event (IsFiltered_depth d) CFE_EVS_FILTER_MAX_EID CFE_EVS_EventType_INFORMATION text)
     (λ _ s', evs_ok s' ∧ ∃ l, own_events l (put_app i (counted a e ty) s) s' ∧
        own_sent CFE_EVS_FILTER_MAX_EID CFE_EVS_EventType_INFORMATION text (put_app i (counted a e ty) s) l) (put_app i (counted a e ty) s)) →
  wp (IsFiltered_depth (S d) i e ty) (own_tested e ty a s) s.
Proof.
  intros H Eo Hs. destruct (own_entry_get _ _ _ Eo) as (Ha & Hi & _). pose proof (entry_ok _ _ _ H Ha) as Hok. destruct (counted_ok a e ty Hok) as [Hok' Hg].
  eapply wp_filter_count; [done|done|exact Ha|done| |].
  - intros Hk. eapply wp_mono; [by apply Hs|]. intros _ s' (H' & l & Hl & _). split_and!; [done|done|]. exists l. split; [|by rewrite Hk].
    change l with ([] ++ l). eapply own_trans; [by apply (own_put s i a)|done].
  - intros Hk. split_and!; [done|by apply put_app_ok|]. exists []. split; [by apply (own_put s i a)|done].
Qed.

Lemma own_entry_put s i a a' : own_entry s = Some (i, a) → ad_AppID a' = ad_AppID a → own_entry (put_app i a' s) = Some (i, a').
Proof.
  intros Eo Hid. destruct (own_entry_get _ _ _ Eo) as (Ha & _ & Ei & Hm). unfold own_entry. change (EVS_AppID (put_app i a' s)) with (EVS_AppID s). rewrite <- AppDataByID_index, Ei. cbn [mbind option_bind].
  rewrite (put_app_get _ a) by done. cbn. by rewrite Hid, Hm, Z.eqb_refl.
Qed.

(** An event about a last count needs at most one further such event, and any event at
    most two. *)
Lemma wp_tested_max d i a s : evs_ok s → own_entry s = Some (i, a) →
  wp (IsFiltered_depth (S (S d)) i CFE_EVS_FILTER_MAX_EID CFE_EVS_EventType_INFORMATION) (own_tested CFE_EVS_FILTER_MAX_EID CFE_EVS_EventType_INFORMATION a s) s.
Proof.
  intros H Eo. apply wp_tested; [done|done|]. intros Hk text. destruct (own_entry_get _ _ _ Eo) as (Ha & _). pose proof (entry_ok _ _ _ H Ha) as Hok.
  destruct (counted_ok a CFE_EVS_FILTER_MAX_EID CFE_EVS_EventType_INFORMATION Hok) as [Hok' Hg]. apply wp_send_own; [by apply put_app_ok| |by eauto].
  intros i' a' Eo'. rewrite (own_entry_put _ _ a) in Eo' by (done || apply (ag_id _ _ Hg)). injection Eo' as <- <-.
  apply wp_tested; [by apply put_app_ok|apply (own_entry_put _ _ a); [done|apply (ag_id _ _ Hg)]|]. by rewrite counted_locks.
Qed.

Lemma wp_send_max d text s : evs_ok s →
  wp (send_event (IsFiltered_depth (S (S d))) CFE_EVS_FILTER_MAX_EID CFE_EVS_EventType_INFORMATION text)
    (λ _ s', evs_ok s' ∧ ∃ l, own_events l s s' ∧ own_sent CFE_EVS_FILTER_MAX_EID CFE_EVS_EventType_INFORMATION text s l) s.
Proof. intros H. apply wp_send_own; [done| |by eauto]. intros i a Eo. by apply wp_tested_max. Qed.

(** What is reported when the filter of an application has counted to the end. *)
Definition lock_text a (e : Z) s : list Z :=
  chars "Max filter count reached, AppName = " ++ cstr (name_of (ad_AppID a) s) ++ chars ", EventID = 0x" ++ padded true 8 (digits_of 20 false 16 e) ++ chars ": Filter locked until reset".

Lemma lock_text_eq a e s : expand "Max filter count reached, AppName = %s, EventID = 0x%08x: Filter locked until reset" [AStr (name_of (ad_AppID a) s); AInt e] = lock_text a e s.
Proof. reflexivity. Qed.

Definition lock_events a (e ty : Z) s s0 (l : list CFE_EVS_LongEventTlm_t) : Prop :=
  if locks a e ty then own_sent CFE_EVS_FILTER_MAX_EID CFE_EVS_EventType_INFORMATION (lock_text a e s) s0 l else l = [].

(** The filter test of any application. *)
Lemma wp_IsFiltered d i a e ty (Q : bool → EG → Prop) s : evs_ok s → 0 <= i → AppData s !! Z.to_nat i = Some a →
  (∀ l s', own_events l (put_app i (counted a e ty) s) s' → evs_ok s' → lock_events a e ty s (put_app i (counted a e ty) s) l → (locks a e ty = false → s' = put_app i (counted a e ty) s) → Q (negb (passes a e ty)) s') →
  wp (IsFiltered_depth (S (S (S d))) i e ty) Q s.
Proof.
  intros H Hi Ha HQ. pose proof (entry_ok _ _ _ H Ha) as Hok. destruct (counted_ok a e ty Hok) as [Hok' Hg]. eapply wp_filter_count; [done|done|exact Ha|done| |].
  - intros Hk. eapply wp_mono; [apply wp_send_max; by apply put_app_ok|]. intros _ s' (H' & l & Hl & Hs). apply (HQ l); [done|done| |by rewrite Hk]. unfold lock_events. by rewrite Hk, <- lock_text_eq.
  - intros Hk. apply (HQ []); [apply own_refl; by apply put_app_ok|by apply put_app_ok| |done]. unfold lock_events. by rewrite Hk.
Qed.

(** The own events of event services. *)
Lemma wp_SendEvent e ty text (Q : Z → EG → Prop) s : evs_ok s →
  (∀ l s', own_events l s s' → evs_ok s' → own_sent e ty text s l → Q CFE_SUCCESS s') → wp (EVS_SendEvent e ty text) Q s.
Proof.
  intros H HQ. apply wp_send_own; [done| |done]. intros i a Eo. apply wp_tested; [done|done|]. intros _ text'. apply wp_send_max.
  destruct (own_entry_get _ _ _ Eo) as (Ha & _). apply put_app_ok; [done|]. by apply counted_ok, (entry_ok s (Z.to_nat i)).
Qed.

(** More depth makes no difference. *)
Lemma send_event_mono f f' e ty text s r : (∀ i e ty s r, f i e ty s = Some r → f' i e ty s = Some r) → send_event f e ty text s = Some r → send_event f' e ty text s = Some r.
Proof.
  intros Hf. unfold send_event, mbind, M_bind, gets. destruct (EVS_AppDataIsMatch _ _ s) as [[b s0]|]; [|done]. destruct (EVS_GetAppDataByID _) as [i|]; [|done].
  destruct b; [|done]. destruct (f i e ty s0) as [[c s1]|] eqn:E; [|done]. by rewrite (Hf _ _ _ _ _ E).
Qed.

Lemma depth_mono d i e ty s r : IsFiltered_depth d i e ty s = Some r → IsFiltered_depth (S d) i e ty s = Some r.
Proof.
  revert i e ty s r. induction d as [|d IH]; intros i e ty s r; [done|]. cbn [IsFiltered_depth]. intros E. apply bind_inv in E as (a & s0 & E0 & E).
  rewrite (bind_Some _ _ _ _ _ E0). destruct (type_filtered a ty); [done|]. destruct (EVS_FindEventID e (ad_BinFilters a)) as [k|]; [|done].
  apply bind_inv in E as (f & s1 & E1 & E). rewrite (bind_Some _ _ _ _ _ E1). cbn zeta in *. apply bind_inv in E as ([] & s2 & E2 & E). erewrite bind_Some; [exact E|].
  clear E. destruct (bf_Count f <? CFE_EVS_MAX_FILTER_COUNT); [|done]. cbn [when] in *. apply bind_inv in E2 as ([] & s3 & E3 & E2). rewrite (bind_Some _ _ _ _ _ E3).
  destruct (_ =? _); [|done]. cbn [when] in *. apply bind_inv in E2 as (n & s4 & E4 & E2). rewrite (bind_Some _ _ _ _ _ E4). apply bind_inv in E2 as (z & s5 & E5 & E2).
  rewrite (bind_Some _ _ _ z s5); [done|]. eapply send_event_mono; [|exact E5]. apply IH.
Qed.
End evs.

(** ** Event services: what the functions of the API do *)



Ltac app_go :=
  repeat lazymatch goal with
    | |- wp (rd_app _) _ _ => eapply wp_rd_app; [done|eassumption|]
    | |- wp (wr_app _ _) _ _ => eapply wp_wr_app; [done|eassumption|]
    | |- wp (EVS_AppDataIsMatch (Some _) _) _ _ => unfold EVS_AppDataIsMatch
    | |- wp (tlm _) _ _ => apply wp_modify
    | |- wp (_ ≫= _) _ _ => apply wp_bind
    | |- wp (mret _) _ _ => apply wp_ret
    | |- wp (out _) _ _ => apply wp_modify
    | |- wp (modify _) _ _ => apply wp_modify
    | |- wp (gets _) _ _ => apply wp_gets
    end.

Section evs.
Context `{Cfg : EvsCfg}.

(** ** Sending events *)

(** The state after an event of an application that is registered: it is counted, which
    may make event services send own events, and sent when it passes. *)
Definition app_sent (i : Z) a (e ty : Z) (time : CFE_TIME_SysTime_t) (text : list Z) s s' : Prop :=
  let s0 := put_app i (counted a e ty) s in
  ∃ l s1 a1, own_events l s0 s1 ∧ lock_events a e ty s s0 l ∧ (locks a e ty = false → s1 = s0) ∧
    AppData s1 !! Z.to_nat i = Some a1 ∧ app_grew (counted a e ty) a1 ∧ s' = if passes a e ty then gen i a1 e ty time text s1 else s1.

(** The state after an event of an application that is not registered: the first one is
    counted and reported by an own event and in the system log. *)
Definition unreg_text (AppID : Z) s : list Z := chars "App " ++ cstr (name_of AppID s) ++ chars " not registered with Event Services. Unable to send event.".

Definition unregistered (i : Z) a (AppID : Z) s s' : Prop :=
  if ad_UnregAppID a =? AppID then s' = s
  else
    let s0 := put_app i (a <| ad_UnregAppID := AppID |>) (s <| EVS_Tlm ::= λ t, t <| hk_UnregisteredAppCounter ::= λ n, u8 (n + 1) |> |>) in
    ∃ l s1, own_events l s0 s1 ∧ own_sent CFE_EVS_ERR_UNREGISTERED_EVS_APP CFE_EVS_EventType_ERROR (unreg_text AppID s) s0 l ∧
      s' = s1 <| EvsSent ::= λ o, o ++ [OutSysLog (unreg_text AppID s ++ [10])] |>.

Lemma sent_app_ok s (o : list EvsOut) : evs_ok s → evs_ok (s <| EvsSent ::= λ l, l ++ o |>).
Proof. intros []. by split. Qed.

Lemma tlm_ok s f : evs_ok s → length (hk_AppData (f (EVS_Tlm s))) = Z.to_nat CFE_MISSION_ES_MAX_APPLICATIONS → is_u16 (hk_MessageSendCounter (f (EVS_Tlm s))) →
  is_u8 (hk_OutputPort (f (EVS_Tlm s))) → evs_ok (s <| EVS_Tlm ::= f |>).
Proof. intros []. by split. Qed.

Lemma wp_NotRegistered i a AppID (Q : Z → EG → Prop) s : evs_ok s → 0 <= i → AppData s !! Z.to_nat i = Some a →
  (∀ s', unregistered i a AppID s s' → evs_ok s' → Q CFE_EVS_APP_NOT_REGISTERED s') → wp (EVS_NotRegistered i AppID) Q s.
Proof.
  intros H Hi Ha HQ. unfold EVS_NotRegistered, unregistered in *. app_go. destruct (ad_UnregAppID a =? AppID); cbn [negb when]; [app_go; by apply HQ|].
  app_go. apply wp_app_name. app_go. set (s1 := put_app _ _ _).
  assert (evs_ok s1) as H1. { apply put_app_ok; [apply tlm_ok; [done|apply H..]|]. pose proof (entry_ok _ _ _ H Ha) as []. by split. }
  eapply wp_SendEvent; [done|]. change (expand _ _) with (unreg_text AppID s). intros l s2 Hl H2 Hs. app_go. apply HQ; [|by apply sent_app_ok]. by exists l, s2.
Qed.

Lemma wp_app_event i a AppID e ty Time time text (Q : Z → EG → Prop) s : evs_ok s → 0 <= i → AppData s !! Z.to_nat i = Some a →
  (∀ s1 (Q' : CFE_TIME_SysTime_t → EG → Prop), Now s1 = Now s → Q' time s1 → wp Time Q' s1) →
  (ad_AppID a = AppID → ∀ s', app_sent i a e ty time text s s' → evs_ok s' → Q CFE_SUCCESS s') →
  (ad_AppID a ≠ AppID → ∀ s', unregistered i a AppID s s' → evs_ok s' → Q CFE_EVS_APP_NOT_REGISTERED s') →
  wp (app_event i AppID e ty Time text) Q s.
Proof.
  intros H Hi Ha HT H1 H2. unfold app_event. app_go. destruct (Z.eqb_spec (ad_AppID a) AppID) as [Em|Em]; cbn [negb].
  - app_go. unfold EVS_IsFiltered. eapply wp_IsFiltered; [done|done|exact Ha|]. intros l s1 Hl Hok Hlk Hno. app_go.
    destruct (oe_apps _ _ _ Hl) as [_ Hap]. destruct (Hap (Z.to_nat i) (counted a e ty)) as (a1 & Ha1 & Hg & _); [by apply (put_app_get _ a)|].
    destruct (passes a e ty) eqn:Ep; cbn [negb].
    + app_go. apply HT; [apply (oe_rest _ _ _ Hl)|]. eapply wp_Generate; [done|done|exact Ha1|]. app_go. apply H1; [done| |by apply gen_ok].
      exists l, s1, a1. rewrite Ep. by split_and!.
    + app_go. apply H1; [done| |done]. exists l, s1, a1. rewrite Ep. by split_and!.
  - eapply wp_NotRegistered; [done|done|exact Ha|]. by apply H2.
Qed.

(** The three functions that send events. *)
Definition event_result (AppID e ty : Z) (time : CFE_TIME_SysTime_t) (text : list Z) s (r : Z) s' : Prop :=
  match app_index AppID with
  | None => r = CFE_EVS_APP_ILLEGAL_APP_ID ∧ s' = s
  | Some i => ∃ a, AppData s !! Z.to_nat i = Some a ∧
      if ad_AppID a =? AppID then r = CFE_SUCCESS ∧ app_sent i a e ty time text s s'
      else r = CFE_EVS_APP_NOT_REGISTERED ∧ unregistered i a AppID s s'
  end.

Lemma wp_entry_event AppID i e ty Time time text (Q : Z → EG → Prop) s : evs_ok s → EVS_GetAppDataByID AppID = Some i →
  (∀ s1 (Q' : CFE_TIME_SysTime_t → EG → Prop), Now s1 = Now s → Q' time s1 → wp Time Q' s1) →
  (∀ r s', event_result AppID e ty time text s r s' → evs_ok s' → Q r s') → wp (app_event i AppID e ty Time text) Q s.
Proof.
  intros H Ei HT HQ. destruct (app_entry _ _ _ H Ei) as (a & Ha & _ & Hi). unfold event_result in HQ. rewrite <- AppDataByID_index, Ei in HQ.
  eapply wp_app_event; [done|done|exact Ha|exact HT| |].
  - intros Em s' Hs H'. apply HQ; [|done]. exists a. by rewrite Em, Z.eqb_refl.
  - intros Em s' Hs H'. apply HQ; [|done]. exists a. by rewrite (proj2 (Z.eqb_neq _ _) Em).
Qed.

Lemma wp_CFE_SendEvent App e ty spec (Q : Z → EG → Prop) s : evs_ok s →
  (∀ r s', evs_ok s' → match spec with
             | None => r = CFE_EVS_INVALID_PARAMETER ∧ s' = s
             | Some text => if App.1 =? CFE_SUCCESS then event_result App.2 e ty (Now s) text s r s' else r = CFE_EVS_APP_ILLEGAL_APP_ID ∧ s' = s
             end → Q r s') →
  wp (CFE_EVS_SendEvent App e ty spec) Q s.
Proof.
  intros H HQ. unfold CFE_EVS_SendEvent, EVS_GetCurrentContext. destruct spec as [text|]; [|app_go; by apply HQ]. destruct App as [st id]. cbn [fst snd] in *.
  destruct (st =? CFE_SUCCESS) eqn:Es; [|app_go; by apply HQ]. destruct (EVS_GetAppDataByID id) as [i|] eqn:Ei.
  - rewrite Es. eapply wp_entry_event; [done|done| |intros r s' Hr Hs; by apply HQ]. intros s1 Q' En HQ'. apply wp_gets. by rewrite En.
  - app_go. apply HQ; [done|]. unfold event_result. by rewrite <- AppDataByID_index, Ei.
Qed.

Lemma wp_SendTimedEvent App time e ty spec (Q : Z → EG → Prop) s : evs_ok s →
  (∀ r s', evs_ok s' → match spec with
             | None => r = CFE_EVS_INVALID_PARAMETER ∧ s' = s
             | Some text => if App.1 =? CFE_SUCCESS then event_result App.2 e ty time text s r s' else r = CFE_EVS_APP_ILLEGAL_APP_ID ∧ s' = s
             end → Q r s') →
  wp (CFE_EVS_SendTimedEvent App time e ty spec) Q s.
Proof.
  intros H HQ. unfold CFE_EVS_SendTimedEvent, EVS_GetCurrentContext. destruct spec as [text|]; [|app_go; by apply HQ]. destruct App as [st id]. cbn [fst snd] in *.
  destruct (st =? CFE_SUCCESS) eqn:Es; [|app_go; by apply HQ]. destruct (EVS_GetAppDataByID id) as [i|] eqn:Ei.
  - rewrite Es. eapply wp_entry_event; [done|done| |intros r s' Hr Hs; by apply HQ]. intros s1 Q' En HQ'. by apply wp_ret.
  - app_go. apply HQ; [done|]. unfold event_result. by rewrite <- AppDataByID_index, Ei.
Qed.

Lemma wp_SendEventWithAppID e ty AppID spec (Q : Z → EG → Prop) s : evs_ok s →
  (∀ r s', evs_ok s' → match spec with
             | None => r = CFE_EVS_INVALID_PARAMETER ∧ s' = s
             | Some text => event_result AppID e ty (Now s) text s r s'
             end → Q r s') →
  wp (CFE_EVS_SendEventWithAppID e ty AppID spec) Q s.
Proof.
  intros H HQ. unfold CFE_EVS_SendEventWithAppID. destruct spec as [text|]; [|app_go; by apply HQ]. destruct (EVS_GetAppDataByID AppID) as [i|] eqn:Ei.
  - eapply wp_entry_event; [done|done| |intros r s' Hr Hs; by apply HQ]. intros s1 Q' En HQ'. apply wp_gets. by rewrite En.
  - app_go. apply HQ; [done|]. unfold event_result. by rewrite <- AppDataByID_index, Ei.
Qed.
(** ** Registration and filters *)

Definition set_filters (l : list EVS_BinFilter_t) a : EVS_AppData_t := a <| ad_BinFilters := l |>.

Lemma wp_wr_filter i k f a x (Q : unit → EG → Prop) s : 0 <= i → 0 <= k → AppData s !! Z.to_nat i = Some a → ad_BinFilters a !! Z.to_nat k = Some x →
  Q tt (put_app i (set_filters (<[Z.to_nat k := f x]> (ad_BinFilters a)) a) s) → wp (wr_filter i k f) Q s.
Proof. intros Hi Hk Ha Hx HQ. unfold wr_filter. app_go. eapply wp_of_option; [by apply tbl_upd_ok|]. app_go. exact HQ. Qed.

(** A loop that gives the filters from a place on the values of a list. *)
Lemma wp_filter_loop (loop : Z → nat → M EG unit) (val : nat → EVS_BinFilter_t → option EVS_BinFilter_t) i :
  (∀ k, loop k 0%nat = mret tt) →
  (∀ k n a x y (Q : unit → EG → Prop) s, 0 <= k → AppData s !! Z.to_nat i = Some a → ad_BinFilters a !! Z.to_nat k = Some x → val (Z.to_nat k) x = Some y →
     wp (loop (k + 1) n) Q (put_app i (set_filters (<[Z.to_nat k := y]> (ad_BinFilters a)) a) s) → wp (loop k (S n)) Q s) →
  ∀ n k a ys (Q : unit → EG → Prop) s, AppData s !! Z.to_nat i = Some a → (k + n <= length (ad_BinFilters a))%nat → length ys = n →
    (∀ j x, (j < n)%nat → ad_BinFilters a !! (k + j)%nat = Some x → val (k + j)%nat x = ys !! j) →
    Q tt (put_app i (set_filters (take k (ad_BinFilters a) ++ ys ++ drop (k + n) (ad_BinFilters a)) a) s) → wp (loop (Z.of_nat k) n) Q s.
Proof.
  intros H0 HS n. induction n as [|n IH]; intros k a ys Q s Ha Hk Hy Hv HQ.
  { apply nil_length_inv in Hy. subst ys. rewrite H0. wp_steps. rewrite Nat.add_0_r in HQ. cbn [app] in HQ. rewrite take_drop in HQ. unfold set_filters in HQ.
    rewrite put_app_id in HQ; [done|]. rewrite Ha. by destruct a. }
  destruct ys as [|y ys]; [done|]. injection Hy as Hy. destruct (lookup_lt_is_Some_2 (ad_BinFilters a) k) as [x Hx]; [lia|].
  apply (HS _ _ a x y); [lia|done|by rewrite Nat2Z.id| |].
  { rewrite Nat2Z.id. specialize (Hv 0%nat x ltac:(lia)). rewrite Nat.add_0_r in Hv. by apply Hv. }
  replace (Z.of_nat k + 1) with (Z.of_nat (S k)) by lia. rewrite Nat2Z.id. eapply (IH (S k) _ ys).
  - apply (put_app_get _ a). done.
  - cbn. rewrite length_insert. lia.
  - done.
  - intros j z Hj Hz. replace (S k + j)%nat with (k + S j)%nat in * by lia. cbn [set_filters set ad_BinFilters] in Hz. change (<[k := y]> (ad_BinFilters a) !! (k + S j)%nat = Some z) in Hz.
    rewrite list_lookup_insert_ne in Hz by lia. apply (Hv (S j) z); [lia|done].
  - rewrite put_app_put. cbn [ad_BinFilters set_filters]. unfold set_filters in *. revert HQ Hk. destruct a. unfold set. cbn. intros HQ Hk.
    rewrite take_insert_next, drop_insert_lt, <- app_assoc by lia. cbn [app]. by rewrite <- Nat.add_succ_r.
Qed.

Lemma wp_free_filters i a k n (Q : unit → EG → Prop) s : 0 <= i → AppData s !! Z.to_nat i = Some a → (k + n <= length (ad_BinFilters a))%nat →
  Q tt (put_app i (set_filters (take k (ad_BinFilters a) ++ replicate n free_filter ++ drop (k + n) (ad_BinFilters a)) a) s) → wp (free_filters i (Z.of_nat k) n) Q s.
Proof.
  intros Hi Ha Hk HQ. eapply (wp_filter_loop (free_filters i) (λ _ _, Some free_filter)); [done| |exact Ha|done|apply length_replicate| |exact HQ].
  - intros k0 n0 a0 x y Q0 s0 Hk0 Ha0 Hx [= <-] HQ0. cbn [free_filters]. app_go. by eapply wp_wr_filter.
  - intros j x Hj _. by rewrite lookup_replicate_2.
Qed.

Lemma wp_reset_filters i a k n (Q : unit → EG → Prop) s : 0 <= i → AppData s !! Z.to_nat i = Some a → (k + n <= length (ad_BinFilters a))%nat →
  Q tt (put_app i (set_filters (take k (ad_BinFilters a) ++ ((λ f, f <| bf_Count := 0 |>) <$> take n (drop k (ad_BinFilters a))) ++ drop (k + n) (ad_BinFilters a)) a) s) →
  wp (reset_filters i (Z.of_nat k) n) Q s.
Proof.
  intros Hi Ha Hk HQ. eapply (wp_filter_loop (reset_filters i) (λ _ f, Some (f <| bf_Count := 0 |>))); [done| |exact Ha|done| | |exact HQ].
  - intros k0 n0 a0 x y Q0 s0 Hk0 Ha0 Hx [= <-] HQ0. cbn [reset_filters]. app_go. by eapply wp_wr_filter.
  - rewrite length_fmap, length_take, length_drop. lia.
  - intros j x Hj Hx. by rewrite list_lookup_fmap, lookup_take, decide_True, lookup_drop, Hx by lia.
Qed.

Definition app_filter (f : CFE_EVS_BinFilter_t) : EVS_BinFilter_t := mkBinFilter (s16 (fl_EventID f)) (fl_Mask f) 0.

Lemma wp_copy_filters i a fs n (Q : unit → EG → Prop) s : 0 <= i → AppData s !! Z.to_nat i = Some a → (n <= length (ad_BinFilters a))%nat → (n <= length fs)%nat →
  Q tt (put_app i (set_filters ((app_filter <$> take n fs) ++ drop n (ad_BinFilters a)) a) s) → wp (copy_filters i fs 0 n) Q s.
Proof.
  intros Hi Ha Hk Hf HQ. change 0 with (Z.of_nat 0). eapply (wp_filter_loop (copy_filters i fs) (λ k _, app_filter <$> fs !! k)); [done| |exact Ha|done| | |exact HQ].
  - intros k0 n0 a0 x y Q0 s0 Hk0 Ha0 Hx Hy HQ0. destruct (fs !! Z.to_nat k0) as [g|] eqn:Eg; [|done]. injection Hy as <-. cbn [copy_filters]. app_go.
    unfold tbl_get. rewrite (proj2 (Z.ltb_ge _ _)) by lia. eapply wp_of_option; [exact Eg|]. app_go. by eapply wp_wr_filter.
  - rewrite length_fmap, length_take. lia.
  - intros j x Hj _. cbn. by rewrite list_lookup_fmap, lookup_take, decide_True by lia.
Qed.
(** The entry CFE_EVS_Register makes: the filters of the application up to the limit, the
    others free. *)
Definition registered (AppID : Z) (fs : list CFE_EVS_BinFilter_t) : EVS_AppData_t :=
  mkAppData AppID CFE_RESOURCEID_UNDEFINED ((app_filter <$> fs) ++ replicate (max_filters - length fs) free_filter) true CFE_PLATFORM_EVS_DEFAULT_TYPE_FLAG 0.

(** The filters it uses. *)
Definition used_filters (Filters : ptr (list CFE_EVS_BinFilter_t)) (NumEventFilters : Z) : list CFE_EVS_BinFilter_t :=
  take (Z.to_nat (NumEventFilters `min` CFE_PLATFORM_EVS_MAX_EVENT_FILTERS)) (default [] Filters).

(** What it writes to the system log. *)
Definition limit_out (NumEventFilters : Z) : list EvsOut :=
  if NumEventFilters <? CFE_PLATFORM_EVS_MAX_EVENT_FILTERS then []
  else [OutSysLog (expand "CFE_EVS_Register: Filter limit truncated to %d" [AInt CFE_PLATFORM_EVS_MAX_EVENT_FILTERS] ++ [10])].

(** The result of CFE_EVS_Register; the entry is cleared before the arguments are
    checked. *)
Definition register_result (App : Z * Z) (Filters : ptr (list CFE_EVS_BinFilter_t)) (NumEventFilters FilterScheme : Z) s (r : Z) s' : Prop :=
  match (if App.1 =? CFE_SUCCESS then EVS_GetAppDataByID App.2 else None) with
  | None => r = CFE_EVS_APP_ILLEGAL_APP_ID ∧ s' = s
  | Some i =>
      if negb (FilterScheme =? CFE_EVS_EventFilter_BINARY) then r = CFE_EVS_UNKNOWN_FILTER ∧ s' = put_app i zero_app s
      else if negb (NumEventFilters =? 0) && bool_decide (Filters = None) then r = CFE_ES_ERR_BUFFER ∧ s' = put_app i zero_app s
      else r = CFE_SUCCESS ∧ s' = (put_app i (registered App.2 (used_filters Filters NumEventFilters)) s) <| EvsSent ::= λ l, l ++ limit_out NumEventFilters |>
  end.

Lemma zero_app_ok : app_ok zero_app.
Proof. split; cbn; try done. repeat (apply Forall_cons; split; [done|]). done. Qed.

Lemma s16_filter_ok f : is_u16 (fl_Mask f) → filter_ok (app_filter f).
Proof. intros H. by split. Qed.

Lemma registered_ok AppID fs : (length fs <= max_filters)%nat → Forall (λ f, is_u16 (fl_Mask f)) fs → app_ok (registered AppID fs).
Proof.
  intros Hl Hm. split; cbn; try done.
  - rewrite length_app, length_fmap, length_replicate. lia.
  - apply Forall_app. split.
    + apply Forall_fmap. eapply Forall_impl; [exact Hm|]. intros f. apply s16_filter_ok.
    + apply Forall_replicate. by split.
Qed.

(** The filters argument is long enough for the number that is given. *)
Definition filters_ok (Filters : ptr (list CFE_EVS_BinFilter_t)) (NumEventFilters : Z) : Prop :=
  0 <= NumEventFilters ∧ match Filters with
  | Some fs => Z.min NumEventFilters CFE_PLATFORM_EVS_MAX_EVENT_FILTERS <= Z.of_nat (length fs) ∧ Forall (λ f, is_u16 (fl_Mask f)) fs
  | None => True
  end.

(** The two loops of CFE_EVS_Register. *)
Lemma wp_fill i a Filters lim (Q : unit → EG → Prop) s : 0 <= i → AppData s !! Z.to_nat i = Some a → length (ad_BinFilters a) = max_filters →
  let fs := take lim (default [] Filters) in length fs = lim → (lim <= max_filters)%nat →
  Q tt (put_app i (set_filters ((app_filter <$> fs) ++ replicate (max_filters - lim) free_filter) a) s) →
  wp (match Filters with Some F => copy_filters i F 0 lim | None => mret tt end;; free_filters i (Z.of_nat lim) (max_filters - lim)) Q s.
Proof.
  intros Hi Ha Hl fs Hfs Hlim HQ. set (l1 := (app_filter <$> fs) ++ drop lim (ad_BinFilters a)).
  assert (length (app_filter <$> fs) = lim) as Hlf by (by rewrite length_fmap).
  assert (length l1 = max_filters) as Hl1 by (unfold l1; rewrite length_app, Hlf, length_drop; lia).
  apply wp_bind. assert (∀ Q' : unit → EG → Prop, Q' tt (put_app i (set_filters l1 a) s) → wp match Filters with Some F => copy_filters i F 0 lim | None => mret tt end Q' s) as Hcopy.
  { intros Q' HQ'. destruct Filters as [F|].
    - eapply wp_copy_filters; [done|exact Ha|lia| |exact HQ']. unfold fs in Hfs. cbn in Hfs. rewrite length_take in Hfs. lia.
    - app_go. assert (lim = 0%nat) as -> by (unfold fs in Hfs; cbn in Hfs; by rewrite take_nil in Hfs).
      change l1 with (ad_BinFilters a) in HQ'. rewrite put_app_id in HQ'; [done|]. rewrite Ha. by destruct a. }
  apply Hcopy. eapply (wp_free_filters i (set_filters l1 a)); [done|by apply (put_app_get i a)|change (ad_BinFilters (set_filters l1 a)) with l1; lia|].
  change (ad_BinFilters (set_filters l1 a)) with l1. rewrite put_app_put. rewrite drop_ge by lia. rewrite app_nil_r. unfold l1. rewrite take_app_length' by done. exact HQ.
Qed.

Lemma wp_limit n (Q : Z → EG → Prop) s : Q (Z.min n CFE_PLATFORM_EVS_MAX_EVENT_FILTERS) (s <| EvsSent ::= λ l, l ++ limit_out n |>) →
  wp (if n <? CFE_PLATFORM_EVS_MAX_EVENT_FILTERS then mret n
      else out (OutSysLog (expand "CFE_EVS_Register: Filter limit truncated to %d" [AInt CFE_PLATFORM_EVS_MAX_EVENT_FILTERS] ++ [10]));; mret CFE_PLATFORM_EVS_MAX_EVENT_FILTERS) Q s.
Proof.
  intros HQ. unfold limit_out in HQ. destruct (Z.ltb_spec n CFE_PLATFORM_EVS_MAX_EVENT_FILTERS) as [Hlt|Hge]; app_go.
  - rewrite Z.min_l in HQ by lia. destruct s. unfold set in HQ. cbn in HQ. by rewrite app_nil_r in HQ.
  - rewrite Z.min_r in HQ by lia. apply HQ.
Qed.

Lemma used_filters_ok Filters n : filters_ok Filters n → negb (n =? 0) && bool_decide (Filters = None) = false →
  length (used_filters Filters n) = Z.to_nat (n `min` CFE_PLATFORM_EVS_MAX_EVENT_FILTERS) ∧ Forall (λ f, is_u16 (fl_Mask f)) (used_filters Filters n).
Proof.
  intros [Hn Hf] En. unfold used_filters. destruct Filters as [F|]; cbn [default id].
  - destruct Hf as [Hf1 Hf2]. unfold CFE_PLATFORM_EVS_MAX_EVENT_FILTERS in *. split; [rewrite length_take; lia|by apply Forall_take].
  - rewrite andb_true_r in En. apply negb_false_iff, Z.eqb_eq in En. subst n. done.
Qed.

Lemma bind_assoc_wp {A B C} (c : M EG A) (k : A → M EG B) (h : B → M EG C) Q s : wp ((c ≫= k) ≫= h) Q s → wp (c ≫= λ x, k x ≫= h) Q s.
Proof. unfold wp, mbind, M_bind. by destruct (c s) as [[x s1]|]. Qed.

Lemma wp_Register App Filters n scheme (Q : Z → EG → Prop) s : evs_ok s → filters_ok Filters n →
  (∀ r s', register_result App Filters n scheme s r s' → evs_ok s' → Q r s') → wp (CFE_EVS_Register App Filters n scheme) Q s.
Proof.
  intros H Hf HQ. unfold CFE_EVS_Register, EVS_GetCurrentContext, register_result in *. destruct App as [st id]. cbn [fst snd] in *.
  destruct (st =? CFE_SUCCESS) eqn:Es; [|app_go; by apply HQ]. destruct (EVS_GetAppDataByID id) as [i|] eqn:Ei; [|app_go; by apply HQ]. rewrite Es.
  destruct (app_entry _ _ _ H Ei) as (a & Ha & Hok & Hi). app_go. assert (evs_ok (put_app i zero_app s)) as Hz by (by apply put_app_ok; [|apply zero_app_ok]).
  destruct (negb (scheme =? CFE_EVS_EventFilter_BINARY)); [app_go; by apply HQ|]. destruct (negb (n =? 0) && bool_decide (Filters = None)) eqn:En; [app_go; by apply HQ|].
  apply Z.eqb_eq in Es. subst st. destruct (used_filters_ok _ _ Hf En) as [Hfl Hfm]. set (lim := Z.min n CFE_PLATFORM_EVS_MAX_EVENT_FILTERS) in *.
  assert (0 <= lim <= CFE_PLATFORM_EVS_MAX_EVENT_FILTERS) as Hlim by (destruct Hf; unfold lim, CFE_PLATFORM_EVS_MAX_EVENT_FILTERS; lia).
  apply wp_bind. eapply wp_wr_app; [done|by apply (put_app_get i a)|]. rewrite put_app_put. apply wp_bind. eapply wp_wr_app; [done|by apply (put_app_get i a)|]. rewrite put_app_put.
  apply wp_bind, wp_limit. fold lim. apply bind_assoc_wp, wp_bind.
  set (a2 := (zero_app <| ad_ActiveFlag := true |>) <| ad_EventTypesActiveFlag := CFE_PLATFORM_EVS_DEFAULT_TYPE_FLAG |>). set (s1 := (put_app i a2 s) <| EvsSent ::= λ l, l ++ limit_out n |>).
  assert (AppData s1 !! Z.to_nat i = Some a2) as Ha3 by (apply (put_app_get i a a2 s Ha)).
  replace (free_filters i lim) with (free_filters i (Z.of_nat (Z.to_nat lim))) by (rewrite Z2Nat.id; [done|lia]). replace (Z.to_nat (CFE_PLATFORM_EVS_MAX_EVENT_FILTERS - lim)) with (max_filters - Z.to_nat lim)%nat by (unfold CFE_PLATFORM_EVS_MAX_EVENT_FILTERS in *; lia).
  eapply (wp_fill i a2); [done|done|done|exact Hfl|lia|]. change (take (Z.to_nat lim) (default [] Filters)) with (used_filters Filters n). unfold EVS_AppDataSetUsed. apply wp_bind. eapply wp_wr_app; [done|by apply (put_app_get i a2)|].
  rewrite put_app_put. app_go. rewrite <- Hfl. apply HQ.
  - split; [done|]. unfold s1, put_app. destruct s. unfold set. cbn. f_equal. apply list_insert_insert_eq.
  - unfold s1. apply (put_app_ok i); [apply sent_app_ok, put_app_ok; [done|]|].
    + destruct zero_app_ok. by split.
    + apply (registered_ok id (used_filters Filters n)); [lia|done].
Qed.

(** Applications leave, and reset their filters. *)
Definition unregister_result (AppID : Z) s s' : Prop :=
  match EVS_GetAppDataByID AppID with
  | None => s' = s
  | Some i => ∃ a, AppData s !! Z.to_nat i = Some a ∧ s' = if ad_AppID a =? AppID then put_app i (a <| ad_AppID := CFE_RESOURCEID_UNDEFINED |>) s else s
  end.

Lemma wp_set_free AppID i (Q : unit → EG → Prop) s : evs_ok s → EVS_GetAppDataByID AppID = Some i → (∀ s', unregister_result AppID s s' → evs_ok s' → Q tt s') →
  wp (b ← EVS_AppDataIsMatch (Some i) AppID; when b (EVS_AppDataSetFree i)) Q s.
Proof.
  intros H Ei HQ. destruct (app_entry _ _ _ H Ei) as (a & Ha & Hok & Hi). unfold unregister_result in HQ. rewrite Ei in HQ. unfold EVS_AppDataSetFree. app_go.
  destruct (ad_AppID a =? AppID) eqn:Em; cbn [when]; app_go; (apply HQ; [exists a; split; [exact Ha|by rewrite ?Em]|]); [|done]. apply put_app_ok; [done|]. destruct Hok. by split.
Qed.

Lemma wp_Unregister App (Q : Z → EG → Prop) s : evs_ok s →
  (∀ r s', (if App.1 =? CFE_SUCCESS then unregister_result App.2 s s' else s' = s) → evs_ok s' → Q r s') → wp (CFE_EVS_Unregister App) Q s.
Proof.
  intros H HQ. unfold CFE_EVS_Unregister, EVS_GetCurrentContext. destruct App as [st id]. cbn [fst snd] in *.
  destruct (st =? CFE_SUCCESS) eqn:Es; [|zred; app_go; by apply HQ]. destruct (EVS_GetAppDataByID id) as [i|] eqn:Ei.
  - rewrite Es. apply wp_bind. eapply wp_set_free; [done|exact Ei|]. intros s' Hs H'. app_go. by apply HQ.
  - zred. app_go. apply HQ; [|done]. unfold unregister_result. by rewrite Ei.
Qed.

Lemma wp_EVS_CleanUpApp AppID (Q : Z → EG → Prop) s : evs_ok s → (∀ r s', unregister_result AppID s s' → evs_ok s' → Q r s') → wp (CFE_EVS_CleanUpApp AppID) Q s.
Proof.
  intros H HQ. unfold CFE_EVS_CleanUpApp. destruct (EVS_GetAppDataByID AppID) as [i|] eqn:Ei.
  - apply bind_assoc_wp, wp_bind. eapply wp_set_free; [done|exact Ei|]. intros s' Hs H'. app_go. by apply HQ.
  - app_go. apply HQ; [|done]. unfold unregister_result. by rewrite Ei.
Qed.
End evs.
