(* ===== verification/EvsOps.v ===== *)
(** * Event services: what the commands do *)
From Stdlib Require Import String.
From S2P Require Import Prelude Config Msg ResourceId Cstring EsApp TimeApi EvsState EvsApi EvsTask EvsCmds EvsInv EvsCalls.
Import ListNotations.

Implicit Types (a : EVS_AppData_t) (p : CFE_EVS_LongEventTlm_t) (s : EG).

(** ** Strings from message fields *)

(** The buffer a field of [n] bytes is copied to; it ends the string with a zero. *)
Definition field_buf (size : nat) (text : list Z) : list Z := text ++ 0 :: drop (S (length text)) (replicate size 0).

Lemma MessageStringGet_name (AppName : list Z) : length AppName = CFE_MISSION_MAX_API_LEN →
  CFE_SB_MessageStringGet (Some (replicate OS_MAX_API_NAME 0)) AppName None OS_MAX_API_NAME CFE_MISSION_MAX_API_LEN =
  Some (Z.of_nat (length (take 19 (cstr AppName))), Some (field_buf OS_MAX_API_NAME (take 19 (cstr AppName)))).
Proof.
  intros H. unfold CFE_SB_MessageStringGet, OS_MAX_API_NAME, CFE_MISSION_MAX_API_LEN in *. cbn [mbind option_bind]. rewrite StringGet_loop_spec by lia. cbn [mbind option_bind].
  by rewrite (take_ge AppName) by lia.
Qed.

Lemma MessageStringGet_file (Filename Default t : list Z) : length Filename = CFE_MISSION_MAX_PATH_LEN → StringGet_loop Default OS_MAX_PATH_LEN 63 = Some t →
  CFE_SB_MessageStringGet (Some (replicate OS_MAX_PATH_LEN 0)) Filename (Some Default) OS_MAX_PATH_LEN CFE_MISSION_MAX_PATH_LEN =
  let text := if strcmp_eq Filename [] then t else take 63 (cstr Filename) in Some (Z.of_nat (length text), Some (field_buf OS_MAX_PATH_LEN text)).
Proof.
  intros H Ht. unfold CFE_SB_MessageStringGet, OS_MAX_PATH_LEN, CFE_MISSION_MAX_PATH_LEN, strcmp_eq in *. destruct Filename as [|c F]; [done|]. cbn [Nat.eqb head mbind option_bind cstr].
  destruct (c =? 0) eqn:Ec.
  - rewrite bool_decide_eq_true_2 by done. cbn [default from_option id]. by rewrite Ht.
  - rewrite bool_decide_eq_false_2 by done. rewrite StringGet_loop_spec by (cbn in *; lia). cbn [mbind option_bind]. rewrite (take_ge (c :: F)) by lia. cbn [cstr]. by rewrite Ec.
Qed.

Lemma cstr_nozero l : Forall (λ c, c ≠ 0) (cstr l).
Proof. induction l as [|c l IH]; cbn; [done|]. destruct (Z.eqb_spec c 0); [done|]. by constructor. Qed.

Lemma cstr_field_buf n l : Forall (λ c, c ≠ 0) l → cstr (field_buf n l) = l.
Proof.
  intros H. unfold field_buf. induction H as [|c l Hc Hl IH]; [done|]. cbn [app cstr length]. rewrite (proj2 (Z.eqb_neq _ _) Hc). f_equal.
  generalize (drop (S (S (length l))) (replicate n 0)). intros r. clear IH Hc. induction Hl as [|d l Hd Hl IH]; [done|]. cbn. rewrite (proj2 (Z.eqb_neq _ _) Hd). by f_equal.
Qed.

(** Decide the conditions on constants. *)
Ltac vm_if := repeat match goal with |- context [if ?c then _ else _] => let v := eval vm_compute in c in first [constr_eq v true|constr_eq v false]; change c with v; cbn iota end.

Section evs.
Context `{Cfg : EvsCfg}.

(** ** Finding an application by its name *)

Definition name_buf (AppName : list Z) : list Z := field_buf OS_MAX_API_NAME (take 19 (cstr AppName)).

(** The entry of the application with a name, when it is registered: the first record of
    the table that is used and has the name. *)
Definition named (AppName : list Z) s : option (Z * EVS_AppData_t) :=
  r ← snd <$> list_find (λ r, ar_AppId r ≠ CFE_RESOURCEID_UNDEFINED ∧ cstr (ar_AppName r) = take 19 (cstr AppName)) (AppTable s);
  i ← app_index (ar_AppId r);
  a ← AppData s !! Z.to_nat i;
  if ad_AppID a =? ar_AppId r then Some (i, a) else None.

Lemma Locate_named AppName T : CFE_ES_LocateAppRecordByName T (name_buf AppName) =
  snd <$> list_find (λ r, ar_AppId r ≠ CFE_RESOURCEID_UNDEFINED ∧ cstr (ar_AppName r) = take 19 (cstr AppName)) T.
Proof.
  assert (cstr (name_buf AppName) = take 19 (cstr AppName)) as En by (apply cstr_field_buf, Forall_take, cstr_nozero).
  unfold CFE_ES_LocateAppRecordByName. induction T as [|r T IH]; [done|]. cbn [LocateByName_loop list_find]. unfold strcmp_eq, CFE_ES_AppRecordIsUsed. rewrite En.
  destruct (decide (ar_AppId r ≠ CFE_RESOURCEID_UNDEFINED ∧ cstr (ar_AppName r) = take 19 (cstr AppName))) as [[H1 H2]|N].
  - rewrite (proj2 (Z.eqb_neq _ _) H1), bool_decide_eq_true_2 by done. done.
  - rewrite IH. destruct (Z.eqb_spec (ar_AppId r) CFE_RESOURCEID_UNDEFINED); cbn [negb andb]; [|rewrite bool_decide_eq_false_2 by (intros E; by apply N)].
    all: by destruct (list_find _ T) as [[k x]|].
Qed.

Lemma wp_app_error Status L cc notreg noid (Q : Z → EG → Prop) s : evs_ok s → (∀ l s', own_events l s s' → evs_ok s' → Q Status s') → wp (app_error Status L cc notreg noid) Q s.
Proof.
  intros H HQ. unfold app_error. apply wp_bind. repeat case_match; (eapply wp_SendEvent; [done|]; intros l s' Hl H' _; app_go; by eapply HQ).
Qed.

Lemma wp_app_command AppName cc notreg noid body (Q : Z → EG → Prop) s : evs_ok s → length AppName = CFE_MISSION_MAX_API_LEN →
  (∀ i a, named AppName s = Some (i, a) → 0 <= i → AppData s !! Z.to_nat i = Some a → app_ok a → wp (body (name_buf AppName) i) Q s) →
  (named AppName s = None → ∀ r l s', r < 0 → own_events l s s' → evs_ok s' → Q r s') →
  wp (app_command AppName cc notreg noid body) Q s.
Proof.
  intros H Hn Hb He. unfold app_command. rewrite MessageStringGet_name by done. apply wp_bind. eapply wp_of_option; [done|]. cbn [snd default from_option id]. fold (name_buf AppName).
  apply wp_bind. unfold EVS_GetApplicationInfo, CFE_ES_GetAppIDByName. unfold named in *. rewrite <- Locate_named in *. app_go. cbn beta.
  destruct (CFE_ES_LocateAppRecordByName (AppTable s) (name_buf AppName)) as [r|]; zred.
  2:{ app_go. apply wp_app_error; [done|]. intros l s' Hl H'. by apply (He eq_refl _ l). }
  cbn [mbind option_bind default from_option id] in *. rewrite <- AppDataByID_index in *. destruct (EVS_GetAppDataByID (ar_AppId r)) as [i|] eqn:Ei.
  2:{ app_go. apply wp_app_error; [done|]. intros l s' Hl H'. by apply (He eq_refl _ l). }
  destruct (app_entry _ _ _ H Ei) as (a & Ha & Hok & Hi). cbn [mbind option_bind] in *. rewrite Ha in *. cbn [mbind option_bind] in *. app_go.
  destruct (ad_AppID a =? ar_AppId r).
  - app_go. zred. by apply (Hb i a).
  - app_go. apply wp_app_error; [done|]. intros l s' Hl H'. by apply (He eq_refl _ l).
Qed.
(** ** The effect of a command on an application *)

Definition types_on (BitMask : Z) a : EVS_AppData_t := a <| ad_EventTypesActiveFlag ::= λ t, u8 (Z.lor t (Z.land BitMask 0x0F)) |>.
Definition types_off (BitMask : Z) a : EVS_AppData_t := a <| ad_EventTypesActiveFlag ::= λ t, u8 (Z.ldiff t (Z.land BitMask 0x0F)) |>.

Lemma wp_DisableTypes i b a (Q : unit → EG → Prop) s : 0 <= i → AppData s !! Z.to_nat i = Some a → Q tt (put_app i (types_off b a) s) → wp (EVS_DisableTypes i b) Q s.
Proof.
  intros Hi Ha HQ. unfold EVS_DisableTypes. eapply wp_wr_app; [done|exact Ha|]. unfold types_off in HQ. revert HQ. destruct a. unfold set. cbn. by rewrite Z.ldiff_land.
Qed.

(** A bit mask of a command has some of the lower four bits and no other. *)
Definition mask_ok (BitMask : Z) : bool := negb (BitMask =? 0) && (BitMask <=? 0x0F).

Lemma bad_mask_ok b : bad_mask b = negb (mask_ok b).
Proof. unfold bad_mask, mask_ok. rewrite negb_andb, negb_involutive. f_equal. apply Z.ltb_antisym. Qed.

(** A change of the filter of an event, if there is one. *)
Definition with_filter (e : Z) (g : EVS_BinFilter_t → EVS_BinFilter_t) a : option EVS_AppData_t :=
  '(k, f) ← filter_of a e; Some (set_filters (<[Z.to_nat k := g f]> (ad_BinFilters a)) a).

(** The entry after a command, when it is accepted. *)
Definition app_effect (m : EvsMsg) a : option EVS_AppData_t :=
  let cc := em_FcnCode m in
  if cc =? CFE_EVS_ENABLE_APP_EVENT_TYPE_CC then if mask_ok (em_BitMask m) then Some (types_on (em_BitMask m) a) else None
  else if cc =? CFE_EVS_DISABLE_APP_EVENT_TYPE_CC then if mask_ok (em_BitMask m) then Some (types_off (em_BitMask m) a) else None
  else if cc =? CFE_EVS_ENABLE_APP_EVENTS_CC then Some (a <| ad_ActiveFlag := true |>)
  else if cc =? CFE_EVS_DISABLE_APP_EVENTS_CC then Some (a <| ad_ActiveFlag := false |>)
  else if cc =? CFE_EVS_RESET_APP_COUNTER_CC then Some (a <| ad_EventCount := 0 |>)
  else if cc =? CFE_EVS_SET_FILTER_CC then with_filter (em_EventID m) (λ f, f <| bf_Mask := em_Mask m |>) a
  else if cc =? CFE_EVS_RESET_FILTER_CC then with_filter (em_EventID m) (λ f, f <| bf_Count := 0 |>) a
  else if cc =? CFE_EVS_RESET_ALL_FILTERS_CC then Some (a <| ad_BinFilters ::= fmap (λ f, f <| bf_Count := 0 |>) |>)
  else if cc =? CFE_EVS_ADD_EVENT_FILTER_CC then
    match filter_of a (em_EventID m) with
    | Some _ => None
    | None => with_filter (-1) (λ _, mkBinFilter (s16 (em_EventID m)) (em_Mask m) 0) a
    end
  else if cc =? CFE_EVS_DELETE_EVENT_FILTER_CC then with_filter (em_EventID m) (λ _, mkBinFilter (-1) 0 0) a
  else None.

(** Commands that name an application. *)
Definition app_codes : list Z :=
  [CFE_EVS_ENABLE_APP_EVENT_TYPE_CC; CFE_EVS_DISABLE_APP_EVENT_TYPE_CC; CFE_EVS_ENABLE_APP_EVENTS_CC; CFE_EVS_DISABLE_APP_EVENTS_CC;
   CFE_EVS_RESET_APP_COUNTER_CC; CFE_EVS_SET_FILTER_CC; CFE_EVS_RESET_FILTER_CC; CFE_EVS_RESET_ALL_FILTERS_CC; CFE_EVS_ADD_EVENT_FILTER_CC; CFE_EVS_DELETE_EVENT_FILTER_CC].

Definition each_used (g : EVS_AppData_t → EVS_AppData_t) s : EG := s <| AppData ::= fmap (λ a, if negb (ad_AppID a =? CFE_RESOURCEID_UNDEFINED) then g a else a) |>.

Definition set_mode (n : Z) s : EG := s <| EVS_Log ::= λ g, g <| LogMode := n |> |>.

(** The payload sizes of the ground commands, by their function codes from 0 on. *)
Definition payload_sizes : list Z := [0; 0; 2; 2; 2; 22; 22; 20; 20; 20; 24; 2; 2; 22; 20; 24; 22; 64; 64; 2; 0].

(** The size of a packet is the one its function code asks for. *)
Definition size_ok (m : EvsMsg) : bool :=
  let header := match evs_hdr with Hdr_Pri => 8 | Hdr_PriExt => 16 end in
  if em_FcnCode m <? 0 then false
  else match payload_sizes !! Z.to_nat (em_FcnCode m) with Some n => header + n =? em_Size m | None => false end.

(** The state after the effect of a ground command, when it is accepted. *)
Definition command_effect (m : EvsMsg) s : option EG :=
  let cc := em_FcnCode m in
  if negb (size_ok m) then None
  else if cc =? CFE_EVS_NOOP_CC then Some s
  else if cc =? CFE_EVS_ENABLE_EVENT_TYPE_CC then if mask_ok (em_BitMask m) then Some (each_used (types_on (em_BitMask m)) s) else None
  else if cc =? CFE_EVS_DISABLE_EVENT_TYPE_CC then if mask_ok (em_BitMask m) then Some (each_used (types_off (em_BitMask m)) s) else None
  else if cc =? CFE_EVS_SET_EVENT_FORMAT_MODE_CC then
    if (em_Mode m =? CFE_EVS_MsgFormat_SHORT) || (em_Mode m =? CFE_EVS_MsgFormat_LONG) then Some (s <| EVS_Tlm ::= λ t, t <| hk_MessageFormatMode := em_Mode m |> |>) else None
  else if cc =? CFE_EVS_ENABLE_PORTS_CC then
    if mask_ok (em_BitMask m) then Some (s <| EVS_Tlm ::= λ t, t <| hk_OutputPort ::= λ o, Z.lor o (em_BitMask m) |> |>) else None
  else if cc =? CFE_EVS_DISABLE_PORTS_CC then
    if mask_ok (em_BitMask m) then Some (s <| EVS_Tlm ::= λ t, t <| hk_OutputPort ::= λ o, Z.ldiff o (em_BitMask m) |> |>) else None
  else if cc =? CFE_EVS_SET_LOG_MODE_CC then
    if (em_Mode m =? CFE_EVS_LogMode_OVERWRITE) || (em_Mode m =? CFE_EVS_LogMode_DISCARD) then Some (set_mode (em_Mode m) s) else None
  else if cc =? CFE_EVS_CLEAR_LOG_CC then Some (s <| EVS_Log ::= clear_log |>)
  else '(i, a) ← named (em_AppName m) s; a' ← app_effect m a; Some (put_app i a' s).

(** The result of a handler: the effect and own events, or own events only. *)
Definition handled (o : option EG) s (r : Z) s' : Prop :=
  evs_ok s' ∧ match o with
  | Some s1 => r = CFE_SUCCESS ∧ ∃ l, own_events l s1 s'
  | None => r < 0 ∧ ∃ l, own_events l s s'
  end.

Lemma wp_sent_ok e ty text s1 s (Q : Z → EG → Prop) : evs_ok s1 → (∀ s', handled (Some s1) s CFE_SUCCESS s' → Q CFE_SUCCESS s') →
  wp (_ ← EVS_SendEvent e ty text; mret CFE_SUCCESS) Q s1.
Proof. intros H HQ. apply wp_bind. eapply wp_SendEvent; [done|]. intros l s' Hl H' _. app_go. apply HQ. split; [done|]. split; [done|]. by exists l. Qed.

Lemma wp_sent_err e ty text r s (Q : Z → EG → Prop) : evs_ok s → r < 0 → (∀ s', handled None s r s' → Q r s') →
  wp (_ ← EVS_SendEvent e ty text; mret r) Q s.
Proof. intros H Hr HQ. apply wp_bind. eapply wp_SendEvent; [done|]. intros l s' Hl H' _. app_go. apply HQ. split; [done|]. split; [done|]. by exists l. Qed.

Lemma with_filter_None e g a : EVS_FindEventID e (ad_BinFilters a) = None → with_filter e g a = None.
Proof. intros E. unfold with_filter. by rewrite (filter_of_None _ _ E). Qed.

(** Changing the filter of an event. *)
Lemma wp_with_filter i k e g a (Q : unit → EG → Prop) s : 0 <= i → AppData s !! Z.to_nat i = Some a → EVS_FindEventID e (ad_BinFilters a) = Some k →
  (∀ a', with_filter e g a = Some a' → (app_ok a → (∀ f, filter_ok f → filter_ok (g f)) → app_ok a') → Q tt (put_app i a' s)) → wp (wr_filter i k g) Q s.
Proof.
  intros Hi Ha Ek HQ. destruct (filter_of_Some _ _ _ Ek) as (f & Ef & Hf & Hk & _). eapply wp_wr_filter; [done|done|exact Ha|exact Hf|]. apply HQ.
  - unfold with_filter. by rewrite Ef.
  - intros [A1 A2 A3 A4] Hg. split; cbn; try done; [by rewrite length_insert|]. apply Forall_insert; [done|]. apply Hg. by apply (Forall_lookup_1 _ _ _ _ A2 Hf).
Qed.

Lemma types_ok b a : app_ok a → app_ok (types_on b a) ∧ app_ok (types_off b a).
Proof. intros []. split; split; try done; apply u8_range. Qed.

(** ** The handlers *)

(** The fields of a command packet have their sizes. *)
Record msg_ok (m : EvsMsg) : Prop := {
  mo_name : length (em_AppName m) = CFE_MISSION_MAX_API_LEN;
  mo_file : length (em_Filename m) = CFE_MISSION_MAX_PATH_LEN;
  mo_mask : is_u16 (em_Mask m);
  mo_bits : is_u8 (em_BitMask m);
}.

Definition app_outcome (m : EvsMsg) s : option EG := '(i, a) ← named (em_AppName m) s; a' ← app_effect m a; Some (put_app i a' s).

(** The entry found, then the body: the cases of a command on an application. *)
Ltac app_cmd m s H Hm HQ :=
  eapply wp_app_command;
    [exact H|apply (mo_name m Hm)
    |intros i a Hnm Hi Ha Hok; unfold app_outcome in HQ; rewrite Hnm in HQ; cbn [mbind option_bind] in HQ; unfold app_effect in HQ
    |intros Hnm r l s' Hr Hl H'; apply HQ; unfold app_outcome; rewrite Hnm; by split; [|split; [|exists l]]].

Ltac code m Hc HQ := rewrite Hc in HQ; revert HQ; zred; intros HQ.

Lemma wp_filter_cmd (m : EvsMsg) (i cc : Z) a (g : EVS_BinFilter_t → EVS_BinFilter_t) e ty text L text' (Q : Z → EG → Prop) s :
  evs_ok s → 0 <= i → AppData s !! Z.to_nat i = Some a → app_ok a → (∀ f, filter_ok f → filter_ok (g f)) →
  (∀ r s', handled (a' ← with_filter (em_EventID m) g a; Some (put_app i a' s)) s r s' → Q r s') →
  wp match EVS_FindEventID (em_EventID m) (ad_BinFilters a) with
     | Some k => wr_filter i k g;; _ ← EVS_SendEvent e ty text; mret CFE_SUCCESS
     | None => no_filter_event L (em_EventID m) cc text'
     end Q s.
Proof.
  intros H Hi Ha Hok Hg HQ. destruct (EVS_FindEventID (em_EventID m) (ad_BinFilters a)) as [k|] eqn:Ek.
  - apply wp_bind. eapply wp_with_filter; [done|exact Ha|exact Ek|]. intros a' Ea Hok'. rewrite Ea in HQ. apply (wp_sent_ok _ _ _ _ s); [by apply put_app_ok; [|apply Hok']|]. intros s'. apply HQ.
  - rewrite (with_filter_None _ _ _ Ek) in HQ. unfold no_filter_event. apply (wp_sent_err); [done|done|]. intros s'. apply HQ.
Qed.

Lemma wp_SetFilterCmd m (Q : Z → EG → Prop) s : evs_ok s → msg_ok m → em_FcnCode m = CFE_EVS_SET_FILTER_CC →
  (∀ r s', handled (app_outcome m s) s r s' → Q r s') → wp (CFE_EVS_SetFilterCmd (em_AppName m) (em_EventID m) (em_Mask m)) Q s.
Proof.
  intros H Hm Hc HQ. unfold CFE_EVS_SetFilterCmd. app_cmd m s H Hm HQ. code m Hc HQ. app_go. eapply wp_filter_cmd; [done|done|exact Ha|done| |exact HQ].
  intros f []. split; [apply Hm|done].
Qed.

Lemma wp_ResetFilterCmd m (Q : Z → EG → Prop) s : evs_ok s → msg_ok m → em_FcnCode m = CFE_EVS_RESET_FILTER_CC →
  (∀ r s', handled (app_outcome m s) s r s' → Q r s') → wp (CFE_EVS_ResetFilterCmd (em_AppName m) (em_EventID m)) Q s.
Proof.
  intros H Hm Hc HQ. unfold CFE_EVS_ResetFilterCmd. app_cmd m s H Hm HQ. code m Hc HQ. app_go. eapply wp_filter_cmd; [done|done|exact Ha|done| |exact HQ].
  intros f []. by split.
Qed.

Lemma wp_DeleteEventFilterCmd m (Q : Z → EG → Prop) s : evs_ok s → msg_ok m → em_FcnCode m = CFE_EVS_DELETE_EVENT_FILTER_CC →
  (∀ r s', handled (app_outcome m s) s r s' → Q r s') → wp (CFE_EVS_DeleteEventFilterCmd (em_AppName m) (em_EventID m)) Q s.
Proof.
  intros H Hm Hc HQ. unfold CFE_EVS_DeleteEventFilterCmd. app_cmd m s H Hm HQ. code m Hc HQ. app_go. eapply wp_filter_cmd; [done|done|exact Ha|done| |exact HQ].
  intros f []. by split.
Qed.

Lemma wp_AddEventFilterCmd m (Q : Z → EG → Prop) s : evs_ok s → msg_ok m → em_FcnCode m = CFE_EVS_ADD_EVENT_FILTER_CC →
  (∀ r s', handled (app_outcome m s) s r s' → Q r s') → wp (CFE_EVS_AddEventFilterCmd (em_AppName m) (em_EventID m) (em_Mask m)) Q s.
Proof.
  intros H Hm Hc HQ. unfold CFE_EVS_AddEventFilterCmd. app_cmd m s H Hm HQ. code m Hc HQ. app_go.
  destruct (EVS_FindEventID (em_EventID m) (ad_BinFilters a)) as [k|] eqn:Ek.
  { destruct (filter_of_Some _ _ _ Ek) as (f & Ef & _). rewrite Ef in HQ. apply wp_sent_err; [done|done|]. intros s'. apply HQ. }
  rewrite (filter_of_None _ _ Ek) in HQ. change (-1) with CFE_EVS_FREE_SLOT in HQ. destruct (EVS_FindEventID CFE_EVS_FREE_SLOT (ad_BinFilters a)) as [k|] eqn:Ef.
  - apply wp_bind. eapply wp_with_filter; [done|exact Ha|exact Ef|]. intros a' Ea Hok'. rewrite Ea in HQ.
    apply (wp_sent_ok _ _ _ _ s); [apply put_app_ok; [done|apply Hok'; [done|]]|intros s'; apply HQ]. intros f _. split; [apply Hm|done].
  - rewrite (with_filter_None _ _ _ Ef) in HQ. apply wp_sent_err; [done|done|]. intros s'. apply HQ.
Qed.

Lemma wp_ResetAllFiltersCmd m (Q : Z → EG → Prop) s : evs_ok s → msg_ok m → em_FcnCode m = CFE_EVS_RESET_ALL_FILTERS_CC →
  (∀ r s', handled (app_outcome m s) s r s' → Q r s') → wp (CFE_EVS_ResetAllFiltersCmd (em_AppName m)) Q s.
Proof.
  intros H Hm Hc HQ. unfold CFE_EVS_ResetAllFiltersCmd. app_cmd m s H Hm HQ. code m Hc HQ. apply wp_bind. change 0 with (Z.of_nat 0).
  pose proof (ao_len a Hok) as Hl. eapply (wp_reset_filters i a); [done|exact Ha|lia|]. rewrite take_0, drop_0. change (Z.of_nat 0) with 0. cbn [app Nat.add].
  rewrite drop_ge, app_nil_r, take_ge by lia. apply (wp_sent_ok _ _ _ _ s); [|intros s'; apply HQ]. apply put_app_ok; [done|]. destruct Hok as [A1 A2 A3 A4]. split; cbn; try done.
  - by rewrite length_fmap.
  - apply Forall_fmap. eapply Forall_impl; [exact A2|]. intros f []. by split.
Qed.
Lemma wp_EnableAppEventsCmd m (Q : Z → EG → Prop) s : evs_ok s → msg_ok m → em_FcnCode m = CFE_EVS_ENABLE_APP_EVENTS_CC →
  (∀ r s', handled (app_outcome m s) s r s' → Q r s') → wp (CFE_EVS_EnableAppEventsCmd (em_AppName m)) Q s.
Proof.
  intros H Hm Hc HQ. unfold CFE_EVS_EnableAppEventsCmd. app_cmd m s H Hm HQ. code m Hc HQ. apply wp_bind. eapply wp_wr_app; [done|exact Ha|].
  apply (wp_sent_ok _ _ _ _ s); [|intros s'; apply HQ]. apply put_app_ok; [done|]. destruct Hok. by split.
Qed.

Lemma wp_DisableAppEventsCmd m (Q : Z → EG → Prop) s : evs_ok s → msg_ok m → em_FcnCode m = CFE_EVS_DISABLE_APP_EVENTS_CC →
  (∀ r s', handled (app_outcome m s) s r s' → Q r s') → wp (CFE_EVS_DisableAppEventsCmd (em_AppName m)) Q s.
Proof.
  intros H Hm Hc HQ. unfold CFE_EVS_DisableAppEventsCmd. app_cmd m s H Hm HQ. code m Hc HQ. apply wp_bind. eapply wp_wr_app; [done|exact Ha|].
  apply (wp_sent_ok _ _ _ _ s); [|intros s'; apply HQ]. apply put_app_ok; [done|]. destruct Hok. by split.
Qed.

Lemma wp_ResetAppCounterCmd m (Q : Z → EG → Prop) s : evs_ok s → msg_ok m → em_FcnCode m = CFE_EVS_RESET_APP_COUNTER_CC →
  (∀ r s', handled (app_outcome m s) s r s' → Q r s') → wp (CFE_EVS_ResetAppCounterCmd (em_AppName m)) Q s.
Proof.
  intros H Hm Hc HQ. unfold CFE_EVS_ResetAppCounterCmd. app_cmd m s H Hm HQ. code m Hc HQ. apply wp_bind. eapply wp_wr_app; [done|exact Ha|].
  apply (wp_sent_ok _ _ _ _ s); [|intros s'; apply HQ]. apply put_app_ok; [done|]. destruct Hok. by split.
Qed.

Lemma wp_EnableAppEventTypeCmd m (Q : Z → EG → Prop) s : evs_ok s → msg_ok m → em_FcnCode m = CFE_EVS_ENABLE_APP_EVENT_TYPE_CC →
  (∀ r s', handled (app_outcome m s) s r s' → Q r s') → wp (CFE_EVS_EnableAppEventTypeCmd (em_AppName m) (em_BitMask m)) Q s.
Proof.
  intros H Hm Hc HQ. unfold CFE_EVS_EnableAppEventTypeCmd. app_cmd m s H Hm HQ. code m Hc HQ. rewrite bad_mask_ok. destruct (mask_ok (em_BitMask m)); cbn [negb]; cycle 1.
  - unfold bad_mask_event. apply wp_sent_err; [done|done|]. intros s'. apply HQ.
  - apply wp_bind. unfold EVS_EnableTypes. eapply wp_wr_app; [done|exact Ha|]. apply (wp_sent_ok _ _ _ _ s); [|intros s'; apply HQ]. apply put_app_ok; [done|]. by apply types_ok.
Qed.

Lemma wp_DisableAppEventTypeCmd m (Q : Z → EG → Prop) s : evs_ok s → msg_ok m → em_FcnCode m = CFE_EVS_DISABLE_APP_EVENT_TYPE_CC →
  (∀ r s', handled (app_outcome m s) s r s' → Q r s') → wp (CFE_EVS_DisableAppEventTypeCmd (em_AppName m) (em_BitMask m)) Q s.
Proof.
  intros H Hm Hc HQ. unfold CFE_EVS_DisableAppEventTypeCmd. app_cmd m s H Hm HQ. code m Hc HQ. rewrite bad_mask_ok. destruct (mask_ok (em_BitMask m)); cbn [negb]; cycle 1.
  - unfold bad_mask_event. apply wp_sent_err; [done|done|]. intros s'. apply HQ.
  - apply wp_bind. eapply wp_DisableTypes; [done|exact Ha|]. apply (wp_sent_ok _ _ _ _ s); [|intros s'; apply HQ]. apply put_app_ok; [done|]. by apply types_ok.
Qed.

(** ** Commands on the whole service *)

Lemma wp_each_app (f : Z → M EG unit) g : (∀ i a (Q : unit → EG → Prop) s, 0 <= i → AppData s !! Z.to_nat i = Some a → Q tt (put_app i (g a) s) → wp (f i) Q s) →
  ∀ n k (Q : unit → EG → Prop) s, (k + n = length (AppData s))%nat →
    Q tt (s <| AppData ::= λ l, take k l ++ ((λ a, if EVS_AppDataIsUsed a then g a else a) <$> drop k l) |>) → wp (each_app f (Z.of_nat k) n) Q s.
Proof.
  intros Hf n. induction n as [|n IH]; intros k Q s Hk HQ; cbn [each_app].
  { app_go. destruct s. unfold set in HQ. cbn in *. rewrite take_ge, drop_ge, app_nil_r in HQ by lia. done. }
  destruct (lookup_lt_is_Some_2 (AppData s) k) as [a Ha]; [lia|]. apply wp_bind. eapply wp_rd_app; [lia|by rewrite Nat2Z.id|]. apply wp_bind.
  set (a' := if EVS_AppDataIsUsed a then g a else a).
  assert (∀ Q' : unit → EG → Prop, Q' tt (put_app (Z.of_nat k) a' s) → wp (when (EVS_AppDataIsUsed a) (f (Z.of_nat k))) Q' s) as Hw.
  { intros Q' HQ'. unfold a' in HQ'. destruct (EVS_AppDataIsUsed a); cbn [when].
    - eapply Hf; [lia|by rewrite Nat2Z.id|done].
    - apply wp_ret. rewrite put_app_id in HQ' by (by rewrite Nat2Z.id). done. }
  apply Hw. replace (Z.of_nat k + 1) with (Z.of_nat (S k)) by lia. apply IH; [cbn; rewrite length_insert; lia|].
  unfold put_app. destruct s. unfold set in *. cbn in *. rewrite Nat2Z.id, take_insert_next, drop_insert_lt, <- app_assoc by lia. cbn [app].
  rewrite (drop_S _ a k) in HQ by done. cbn in HQ. by fold a' in HQ.
Qed.

Lemma each_used_ok g s : evs_ok s → (∀ a, app_ok a → app_ok (g a)) → evs_ok (each_used g s).
Proof.
  intros [A1 A2 A3 A4 A5 A6 A7 A8] Hg. split; try done; cbn; [by rewrite length_fmap|]. apply Forall_fmap. eapply Forall_impl; [exact A2|]. intros a Ha. cbn.
  destruct (negb _); [by apply Hg|done].
Qed.

Lemma wp_EnableEventTypeCmd b (Q : Z → EG → Prop) s : evs_ok s →
  (∀ r s', handled (if mask_ok b then Some (each_used (types_on b) s) else None) s r s' → Q r s') → wp (CFE_EVS_EnableEventTypeCmd b) Q s.
Proof.
  intros H HQ. unfold CFE_EVS_EnableEventTypeCmd. rewrite bad_mask_ok. destruct (mask_ok b); cbn [negb]; [|apply wp_sent_err; [done|done|]; intros s'; apply HQ].
  apply wp_bind. change 0 with (Z.of_nat 0) at 1. apply (wp_each_app _ (types_on b)); [intros i a Q' s' Hi Ha HQ'; unfold EVS_EnableTypes; by eapply wp_wr_app|by rewrite (eo_len s H)|].
  apply (wp_sent_ok _ _ _ _ s); [|intros s'; apply HQ]. by apply (each_used_ok (types_on b) s); [|intros; by apply types_ok].
Qed.

Lemma wp_DisableEventTypeCmd b (Q : Z → EG → Prop) s : evs_ok s →
  (∀ r s', handled (if mask_ok b then Some (each_used (types_off b) s) else None) s r s' → Q r s') → wp (CFE_EVS_DisableEventTypeCmd b) Q s.
Proof.
  intros H HQ. unfold CFE_EVS_DisableEventTypeCmd. rewrite bad_mask_ok. destruct (mask_ok b); cbn [negb]; [|apply wp_sent_err; [done|done|]; intros s'; apply HQ].
  apply wp_bind. change 0 with (Z.of_nat 0) at 1. apply (wp_each_app _ (types_off b)); [intros i a Q' s' Hi Ha HQ'; by eapply wp_DisableTypes|by rewrite (eo_len s H)|].
  apply (wp_sent_ok _ _ _ _ s); [|intros s'; apply HQ]. by apply (each_used_ok (types_off b) s); [|intros; by apply types_ok].
Qed.

Lemma wp_SetEventFormatModeCmd n (Q : Z → EG → Prop) s : evs_ok s →
  (∀ r s', handled (if (n =? CFE_EVS_MsgFormat_SHORT) || (n =? CFE_EVS_MsgFormat_LONG) then Some (s <| EVS_Tlm ::= λ t, t <| hk_MessageFormatMode := n |> |>) else None) s r s' → Q r s') →
  wp (CFE_EVS_SetEventFormatModeCmd n) Q s.
Proof.
  intros H HQ. unfold CFE_EVS_SetEventFormatModeCmd. destruct (_ || _); [|apply wp_sent_err; [done|done|]; intros s'; apply HQ].
  apply wp_bind, wp_modify. apply (wp_sent_ok _ _ _ _ s); [|intros s'; apply HQ]. by destruct H.
Qed.

Lemma wp_SetLogModeCmd n (Q : Z → EG → Prop) s : evs_ok s →
  (∀ r s', handled (if (n =? CFE_EVS_LogMode_OVERWRITE) || (n =? CFE_EVS_LogMode_DISCARD) then Some (set_mode n s) else None) s r s' → Q r s') →
  wp (CFE_EVS_SetLogModeCmd n) Q s.
Proof.
  intros H HQ. unfold CFE_EVS_SetLogModeCmd. destruct (_ || _); [|apply wp_sent_err; [done|done|]; intros s'; apply HQ].
  pose proof H as [A1 A2 A3 A4 A5 A6 A7 A8]. apply wp_bind, wp_mut_take; [done|]. apply wp_bind, wp_wr_log; [done|]. apply wp_bind, wp_modify.
  match goal with |- wp _ _ ?x => replace x with (set_mode n s) end; [|destruct s; unfold set_mode, set; cbn in *; by subst].
  apply (wp_sent_ok _ _ _ _ s); [|intros s'; apply HQ]. split; try done. by destruct A5.
Qed.
(** *** Ports *)

Lemma mask_cases b : is_u8 b → bad_mask b = false → b ∈ [1;2;3;4;5;6;7;8;9;10;11;12;13;14;15].
Proof. unfold bad_mask, is_u8. intros Hb H. apply orb_false_iff in H as [H1 H2]. apply Z.eqb_neq in H1. apply Z.ltb_ge in H2. change [1;2;3;4;5;6;7;8;9;10;11;12;13;14;15] with (seqZ 1 15). apply elem_of_seqZ. lia. Qed.

Definition port_on (b port bit o : Z) : Z := if Z.shiftr (Z.land b bit) (port - 1) =? 1 then u8 (Z.lor o bit) else o.
Definition port_off (b port bit o : Z) : Z := if Z.shiftr (Z.land b bit) (port - 1) =? 1 then u8 (Z.land o (Z.lnot bit)) else o.

Lemma u8_lor o b : is_u8 o → is_u8 b → u8 (Z.lor o b) = Z.lor o b ∧ is_u8 (Z.lor o b).
Proof. intros Ho Hb. assert (is_u8 (Z.lor o b)) by (apply lor_small; [lia|done|done]). split; [by apply u8_small|done]. Qed.

Lemma u8_ldiff o b : is_u8 o → u8 (Z.land o (Z.lnot b)) = Z.ldiff o b ∧ is_u8 (Z.ldiff o b).
Proof.
  intros Ho. rewrite <- Z.ldiff_land. assert (u8 (Z.ldiff o b) = Z.ldiff o b) as E; [|split; [done|rewrite <- E; apply u8_range]].
  unfold u8. rewrite <- Z.land_ones by lia. Z_bits i Hi. rewrite Z.land_spec, Z.ldiff_spec, Z.testbit_ones_nonneg by lia. destruct (Z.ltb_spec i 8); [by rewrite andb_true_r|].
  by rewrite (testbit_above o 8 i).
Qed.

Lemma ports_on b o : is_u8 b → bad_mask b = false → is_u8 o →
  port_on b 4 CFE_EVS_PORT4_BIT (port_on b 3 CFE_EVS_PORT3_BIT (port_on b 2 CFE_EVS_PORT2_BIT (port_on b 1 CFE_EVS_PORT1_BIT o))) = Z.lor o b ∧ is_u8 (Z.lor o b).
Proof.
  intros Hb8 Hb Ho. apply mask_cases in Hb; [|done]. split; [|by apply u8_lor].
  unfold CFE_EVS_PORT1_BIT, CFE_EVS_PORT2_BIT, CFE_EVS_PORT3_BIT, CFE_EVS_PORT4_BIT.
  assert (∀ o n, is_u8 o → is_u8 n → u8 (Z.lor o n) = Z.lor o n) as E by (intros; by apply u8_lor).
  assert (∀ n m, is_u8 n → is_u8 m → is_u8 (Z.lor n m)) as R by (intros; by apply u8_lor).
  repeat (apply elem_of_cons in Hb as [->|Hb]; [unfold port_on; vm_if; rewrite ?E by (repeat first [done|apply u8_range|apply R]); rewrite <- ?Z.lor_assoc; done|]). by apply elem_of_nil in Hb.
Qed.

Lemma ports_off b o : is_u8 b → bad_mask b = false → is_u8 o →
  port_off b 4 CFE_EVS_PORT4_BIT (port_off b 3 CFE_EVS_PORT3_BIT (port_off b 2 CFE_EVS_PORT2_BIT (port_off b 1 CFE_EVS_PORT1_BIT o))) = Z.ldiff o b ∧ is_u8 (Z.ldiff o b).
Proof.
  intros Hb8 Hb Ho. apply mask_cases in Hb; [|done]. split; [|by apply u8_ldiff]. unfold CFE_EVS_PORT1_BIT, CFE_EVS_PORT2_BIT, CFE_EVS_PORT3_BIT, CFE_EVS_PORT4_BIT.
  assert (∀ o n, is_u8 o → u8 (Z.land o (Z.lnot n)) = Z.ldiff o n) as E by (intros; by apply u8_ldiff).
  assert (∀ n m, is_u8 n → is_u8 (Z.ldiff n m)) as R by (intros; by apply u8_ldiff).
  assert (∀ o n m, Z.ldiff (Z.ldiff o n) m = Z.ldiff o (Z.lor n m)) as A by (intros; rewrite !Z.ldiff_land, Z.lnot_lor; symmetry; apply Z.land_assoc).
  unfold port_off.
  repeat (apply elem_of_cons in Hb as [->|Hb]; [vm_if; rewrite ?E by (repeat first [done|apply u8_range|apply R]); rewrite ?A; done|]). by apply elem_of_nil in Hb.
Qed.

Lemma wp_enable_port b port bit (Q : unit → EG → Prop) s : Q tt (s <| EVS_Tlm ::= λ t, t <| hk_OutputPort ::= port_on b port bit |> |>) → wp (enable_port b port bit) Q s.
Proof. intros HQ. unfold enable_port, port_on in *. destruct s as [? ? ? [] ? ? ? ? ? ? ?]. unfold set in HQ. cbn in HQ. by destruct (_ =? 1). Qed.

Lemma wp_disable_port b port bit (Q : unit → EG → Prop) s : Q tt (s <| EVS_Tlm ::= λ t, t <| hk_OutputPort ::= port_off b port bit |> |>) → wp (disable_port b port bit) Q s.
Proof. intros HQ. unfold disable_port, port_off in *. destruct s as [? ? ? [] ? ? ? ? ? ? ?]. unfold set in HQ. cbn in HQ. by destruct (_ =? 1). Qed.

Lemma wp_EnablePortsCmd b (Q : Z → EG → Prop) s : evs_ok s → is_u8 b →
  (∀ r s', handled (if mask_ok b then Some (s <| EVS_Tlm ::= λ t, t <| hk_OutputPort ::= λ o, Z.lor o b |> |>) else None) s r s' → Q r s') → wp (CFE_EVS_EnablePortsCmd b) Q s.
Proof.
  intros H Hb8 HQ. unfold CFE_EVS_EnablePortsCmd. pose proof (bad_mask_ok b) as Hb. rewrite Hb. destruct (mask_ok b); cbn [negb] in *; [|apply wp_sent_err; [done|done|]; intros s'; apply HQ].
  do 4 (apply wp_bind, wp_enable_port). destruct (ports_on b _ Hb8 Hb (eo_port s H)) as [E R].
  match goal with |- wp _ _ ?x => replace x with (s <| EVS_Tlm ::= λ t, t <| hk_OutputPort ::= λ o, Z.lor o b |> |>) end.
  2:{ destruct s as [? ? ? [] ? ? ? ? ? ? ?]. unfold set. cbn in *. by rewrite E. }
  apply (wp_sent_ok _ _ _ _ s); [|intros s'; apply HQ]. destruct H. by split.
Qed.

Lemma wp_DisablePortsCmd b (Q : Z → EG → Prop) s : evs_ok s → is_u8 b →
  (∀ r s', handled (if mask_ok b then Some (s <| EVS_Tlm ::= λ t, t <| hk_OutputPort ::= λ o, Z.ldiff o b |> |>) else None) s r s' → Q r s') → wp (CFE_EVS_DisablePortsCmd b) Q s.
Proof.
  intros H Hb8 HQ. unfold CFE_EVS_DisablePortsCmd. pose proof (bad_mask_ok b) as Hb. rewrite Hb. destruct (mask_ok b); cbn [negb] in *; [|apply wp_sent_err; [done|done|]; intros s'; apply HQ].
  do 4 (apply wp_bind, wp_disable_port). destruct (ports_off b _ Hb8 Hb (eo_port s H)) as [E R].
  match goal with |- wp _ _ ?x => replace x with (s <| EVS_Tlm ::= λ t, t <| hk_OutputPort ::= λ o, Z.ldiff o b |> |>) end.
  2:{ destruct s as [? ? ? [] ? ? ? ? ? ? ?]. unfold set. cbn in *. by rewrite E. }
  apply (wp_sent_ok _ _ _ _ s); [|intros s'; apply HQ]. destruct H. by split.
Qed.
End evs.
