(* ===== verification/EvsDispatch.v ===== *)
(** * Event services: telemetry, files and the dispatch of commands *)
From Stdlib Require Import String.
From S2P Require Import Prelude Config Msg ResourceId Cstring EsApp TimeApi EvsState EvsApi EvsTask EvsCmds EvsInv EvsCalls EvsOps.
Import ListNotations.

Implicit Types (a : EVS_AppData_t) (p : CFE_EVS_LongEventTlm_t) (s : EG).

Abbreviation max_report := (Z.to_nat CFE_MISSION_ES_MAX_APPLICATIONS).

(** ** Housekeeping *)

Definition app_report a : CFE_EVS_AppTlmData_t := mkAppTlm (ad_AppID a) (ad_EventCount a) (ad_ActiveFlag a).
Definition no_report : CFE_EVS_AppTlmData_t := mkAppTlm CFE_RESOURCEID_UNDEFINED 0 false.

(** The entries of the packet for the registered applications. *)
Definition reports (apps : list EVS_AppData_t) : list CFE_EVS_AppTlmData_t := take max_report (app_report <$> filter (λ a, negb (ad_AppID a =? CFE_RESOURCEID_UNDEFINED) = true) apps).

Lemma report_loop_spec apps j l : length l = max_report → (j <= max_report)%nat →
  let r := take (max_report - j) (app_report <$> filter (λ a, negb (ad_AppID a =? CFE_RESOURCEID_UNDEFINED) = true) apps) in
  report_loop apps (Z.of_nat j) l = Some (Z.of_nat (j + length r), take j l ++ r ++ drop (j + length r) l).
Proof.
  revert j l. induction apps as [|a apps IH]; intros j l Hl Hj.
  { cbn. rewrite take_nil. cbn. by rewrite Nat.add_0_r, take_drop. }
  cbn [report_loop]. unfold CFE_MISSION_ES_MAX_APPLICATIONS in *. change (Z.to_nat 16) with 16%nat in *. destruct (Z.ltb_spec (Z.of_nat j) 16) as [Hlt|Hge].
  2:{ replace j with 16%nat by lia. cbn zeta. rewrite Nat.sub_diag, take_0. cbn [length app]. by rewrite Nat.add_0_r, take_drop. }
  destruct (EVS_AppDataIsUsed a) eqn:Eu.
  - rewrite filter_cons_True by done. destruct (lookup_lt_is_Some_2 l j) as [x Hx]; [lia|]. rewrite (tbl_upd_ok _ _ _ x) by (rewrite ?Nat2Z.id; done || lia).
    cbn [mbind option_bind]. rewrite Nat2Z.id. replace (Z.of_nat j + 1) with (Z.of_nat (S j)) by lia. rewrite IH by (rewrite ?length_insert; lia). cbn zeta.
    replace (16 - j)%nat with (S (16 - S j)) by lia. cbn [fmap list_fmap]. rewrite firstn_cons. set (r := take (16 - S j) _). cbn [length].
    rewrite take_insert_next by lia. rewrite drop_insert_lt by lia. rewrite <- app_assoc. cbn [app]. by rewrite !Nat.add_succ_r.
  - rewrite filter_cons_False by (unfold EVS_AppDataIsUsed in Eu; by rewrite Eu). by apply IH.
Qed.

(** The loop that should clear the rest writes one entry only. *)
Lemma clear_loop_spec n j l : (j < length l)%nat → clear_loop (S n) (Z.of_nat j) l = Some (<[j := no_report]> l).
Proof.
  intros Hj. revert l Hj. induction n as [|n IH]; intros l Hj; destruct (lookup_lt_is_Some_2 l j Hj) as [x Hx]; cbn [clear_loop].
  - rewrite (tbl_upd_ok _ _ _ x) by (rewrite ?Nat2Z.id; done || lia). by rewrite Nat2Z.id.
  - rewrite (tbl_upd_ok _ _ _ x) by (rewrite ?Nat2Z.id; done || lia). cbn [mbind option_bind]. rewrite Nat2Z.id. cbn [clear_loop] in IH.
    rewrite IH by (by rewrite length_insert). by rewrite list_insert_insert_eq.
Qed.

(** The application part of the packet: after the registered applications one entry is
    cleared, the others keep what an earlier report left. *)
Definition report_tlm (apps : list EVS_AppData_t) (old : list CFE_EVS_AppTlmData_t) : list CFE_EVS_AppTlmData_t :=
  let r := reports apps in if (length r <? max_report)%nat then r ++ no_report :: drop (S (length r)) old else r.

Lemma report_spec apps old : length old = max_report →
  ∃ j l, report_loop apps 0 old = Some (j, l) ∧ clear_loop (Z.to_nat (CFE_MISSION_ES_MAX_APPLICATIONS - j)) j l = Some (report_tlm apps old) ∧ length (report_tlm apps old) = max_report.
Proof.
  intros Hl. pose proof (report_loop_spec apps 0 old Hl ltac:(lia)) as E. cbn zeta in E. rewrite Nat.sub_0_r in E. fold (reports apps) in E. change (Z.of_nat 0) with 0 in E. cbn [Nat.add] in E.
  rewrite take_0 in E. cbn [app] in E. unfold report_tlm. set (r := reports apps) in *. assert (length r <= max_report)%nat as Hr by (unfold r, reports; rewrite length_take; lia).
  eexists _, _. split; [exact E|]. unfold CFE_MISSION_ES_MAX_APPLICATIONS in *. change (Z.to_nat 16) with 16%nat in *. destruct (Nat.ltb_spec (length r) 16) as [Hlt|Hge].
  - replace (Z.to_nat (16 - Z.of_nat (length r))) with (S (15 - length r)) by lia. rewrite clear_loop_spec by (rewrite length_app, length_drop; lia).
    split; [|rewrite length_app; cbn; rewrite length_drop; lia]. f_equal. rewrite insert_app_r_alt by lia. rewrite Nat.sub_diag. f_equal.
    destruct (lookup_lt_is_Some_2 old (length r)) as [x Hx]; [lia|]. by rewrite (drop_S _ x) by done.
  - replace (Z.to_nat (16 - Z.of_nat (length r))) with 0%nat by lia. cbn. rewrite drop_ge, app_nil_r by lia. split; [done|lia].
Qed.

Section evs.
Context `{Cfg : EvsCfg}.

(** The telemetry a housekeeping request sends. *)
Definition hk_report s : CFE_EVS_HousekeepingTlm_Payload_t :=
  (EVS_Tlm s) <| hk_LogFullFlag := LogFullFlag (EVS_Log s) |> <| hk_LogMode := LogMode (EVS_Log s) |> <| hk_LogOverflowCounter := LogOverflowCounter (EVS_Log s) |>
    <| hk_AppData := report_tlm (AppData s) (hk_AppData (EVS_Tlm s)) |>.

Lemma wp_ReportHousekeepingCmd (Q : Z → EG → Prop) s : evs_ok s →
  (∀ h, let s' := s <| EVS_Tlm := hk_report s |> <| EVS_TlmHeader := h |> <| EvsSent ::= λ o, o ++ [OutHk h (hk_report s)] |> in evs_ok s' → Q CFE_STATUS_NO_COUNTER_INCREMENT s') →
  wp CFE_EVS_ReportHousekeepingCmd Q s.
Proof.
  intros H HQ. unfold CFE_EVS_ReportHousekeepingCmd. apply wp_bind, wp_rd_log; [apply H|]. do 5 (apply wp_bind; first [apply wp_modify|apply wp_gets]; cbn beta).
  destruct (report_spec (AppData s) (hk_AppData (EVS_Tlm s)) (eo_tlm s H)) as (j & l & E1 & E2 & E3).
  apply wp_bind. eapply wp_of_option; [exact E1|]. cbn beta iota. apply wp_bind. eapply wp_of_option; [exact E2|]. apply wp_bind, wp_modify.
  match goal with |- wp _ _ ?x => replace x with (s <| EVS_Tlm := hk_report s |>) by (unfold hk_report; clear; by destruct s as [? ? ? [] ? ? ? ? ? ? ?]) end.
  apply wp_bind, wp_gets. change (Now (s <| EVS_Tlm := hk_report s |>)) with (Now s). generalize (λ h, default [] (CFE_MSG_SetMsgTime evs_hdr (Some h) (Seconds (Now s), Subseconds (Now s))).2).
  intros F. app_go. cbn beta. apply (HQ (F (EVS_TlmHeader s))). assert (length (hk_AppData (hk_report s)) = max_report) as E4 by exact E3. destruct H. by split.
Qed.

(** ** Counters *)

Definition zero_counters (t : CFE_EVS_HousekeepingTlm_Payload_t) : CFE_EVS_HousekeepingTlm_Payload_t :=
  t <| hk_CommandCounter := 0 |> <| hk_CommandErrorCounter := 0 |> <| hk_MessageSendCounter := 0 |> <| hk_MessageTruncCounter := 0 |> <| hk_UnregisteredAppCounter := 0 |>.

Lemma wp_ResetCountersCmd (Q : Z → EG → Prop) s : evs_ok s →
  (∀ l s', own_events l (s <| EVS_Tlm ::= zero_counters |>) s' → evs_ok s' → Q CFE_STATUS_NO_COUNTER_INCREMENT s') → wp CFE_EVS_ResetCountersCmd Q s.
Proof.
  intros H HQ. unfold CFE_EVS_ResetCountersCmd. do 5 (apply wp_bind, wp_modify). apply wp_bind. eapply wp_SendEvent; [destruct H; by split|]. intros l s' Hl H' _. app_go. by apply (HQ l).
Qed.

(** ** Files *)

(** The outputs of a file command and the own events around them. *)
Definition file_out (o : list EvsOut) s : EG := s <| EvsSent ::= λ l, l ++ o |>.

Lemma file_out_ok o s : evs_ok s → evs_ok (file_out o s).
Proof. apply sent_app_ok. Qed.

Lemma file_out_out o o' s : file_out o' (file_out o s) = file_out (o ++ o') s.
Proof. unfold file_out. destruct s. unfold set. cbn. by rewrite <- app_assoc. Qed.

Lemma unlock_out o s : EVS_Mutex s = false → ((s <| EVS_Mutex := true |>) <| EvsSent ::= λ l, l ++ o |>) <| EVS_Mutex := false |> = file_out o s.
Proof. destruct s. unfold file_out, set. cbn. by intros ->. Qed.

(** The entries CFE_EVS_WriteLogDataFileCmd hands to OS_write. *)
Definition log_writes (write : nat → Z) s : list EvsOut :=
  map (λ c, OutLogEntry c.1 c.2) (write_calls sizeof_LongEventTlm write 0 (ring_from (LogEntry (EVS_Log s)) (Z.to_nat (LogCount (EVS_Log s))) (Z.to_nat (log_start (EVS_Log s))))).

Definition log_written (write : nat → Z) s : bool :=
  Z.of_nat (write_count sizeof_LongEventTlm write 0 (ring_from (LogEntry (EVS_Log s)) (Z.to_nat (LogCount (EVS_Log s))) (Z.to_nat (log_start (EVS_Log s))))) =? LogCount (EVS_Log s).

Definition log_file (Filename : list Z) : list Z := if strcmp_eq Filename [] then chars "/ram/cfe_evs.log" else take 63 (cstr Filename).

(** The state after the command: what has been written, and own events before the file
    is closed. *)
Definition write_log_result (Filename : list Z) (io : FileIO) s (r : Z) s' : Prop :=
  if io_open io <? OS_SUCCESS then r = io_open io ∧ ∃ l, own_events l (file_out [OutOpen (log_file Filename)] s) s'
  else if negb (io_header io =? sizeof_FsHeader) then
    r = CFE_EVS_FILE_WRITE_ERROR ∧ s' = file_out [OutOpen (log_file Filename); OutHeader (chars "cFE EVS Log File") CFE_FS_SubType_EVS_EVENTLOG; OutClose] s
  else
    r = (if log_written (io_write io) s then CFE_SUCCESS else CFE_EVS_FILE_WRITE_ERROR) ∧
    ∃ l s1, own_events l (file_out ([OutOpen (log_file Filename); OutHeader (chars "cFE EVS Log File") CFE_FS_SubType_EVS_EVENTLOG] ++ log_writes (io_write io) s) s) s1 ∧
      s' = file_out [OutClose] s1.

Lemma wp_file_name Filename t (Q : list Z → EG → Prop) s : length Filename = CFE_MISSION_MAX_PATH_LEN → cstr t = t → StringGet_loop (t ++ [0]) OS_MAX_PATH_LEN 63 = Some t →
  (∀ buf, cstr buf = (if strcmp_eq Filename [] then t else take 63 (cstr Filename)) → Q buf s) → wp (file_name Filename (t ++ [0])) Q s.
Proof.
  intros Hl Ht Hg HQ. unfold file_name. rewrite (MessageStringGet_file _ _ t) by done. apply wp_bind. eapply wp_of_option; [done|]. app_go. apply HQ. cbn [snd default from_option id]. apply cstr_field_buf.
  destruct (strcmp_eq Filename []); [rewrite <- Ht; apply cstr_nozero|apply Forall_take, cstr_nozero].
Qed.

Lemma wp_WriteLogDataFileCmd Filename io (Q : Z → EG → Prop) s : evs_ok s → length Filename = CFE_MISSION_MAX_PATH_LEN →
  (∀ r s', write_log_result Filename io s r s' → evs_ok s' → Q r s') → wp (CFE_EVS_WriteLogDataFileCmd Filename io) Q s.
Proof.
  intros H Hl HQ. unfold CFE_EVS_WriteLogDataFileCmd. apply wp_bind. change CFE_PLATFORM_EVS_DEFAULT_LOG_FILE with (chars "/ram/cfe_evs.log" ++ [0]).
  apply wp_file_name; [done|done|by vm_compute|]. intros buf Hb. rewrite Hb. fold (log_file Filename). apply wp_bind, wp_modify. cbn beta. fold (file_out [OutOpen (log_file Filename)] s).
  unfold write_log_result in HQ. destruct (io_open io <? OS_SUCCESS).
  { apply wp_bind. eapply wp_SendEvent; [by apply file_out_ok|]. intros l s' Hl' H' _. app_go. apply HQ; [|done]. split; [done|]. by exists l. }
  apply wp_bind, wp_modify. cbn beta. match goal with |- wp _ _ ?x => set (s1 := x) end. apply wp_bind. destruct (io_header io =? sizeof_FsHeader); cbn [negb] in *.
  2:{ app_go. cbn beta. apply HQ; [split; [done|]|apply sent_app_ok; unfold s1; by do 2 apply sent_app_ok]. unfold s1, file_out. clear. destruct s. unfold set. cbn. by rewrite <- !app_assoc. }
  assert (evs_ok s1) as H1 by (unfold s1; by do 2 apply sent_app_ok). pose proof H as [A1 A2 A3 A4 [N1 N2 N3] A6 A7 A8].
  apply wp_bind, wp_mut_take; [done|]. apply wp_bind, wp_rd_log; [done|]. cbn zeta. change (EVS_Log (s1 <| EVS_Mutex := true |>)) with (EVS_Log s). fold (log_start (EVS_Log s)).
  apply wp_bind. eapply wp_write_log_loop; [done|done| |].
  { unfold log_start, CFE_PLATFORM_EVS_LOG_MAX in *. destruct (_ =? 20); lia. }
  intros b. cbn zeta beta iota. cbn [Nat.add]. apply wp_bind, wp_modify. change (EVS_Log (s1 <| EVS_Mutex := true |>)) with (EVS_Log s). fold (log_writes (io_write io) s).
  rewrite unlock_out by apply H1.
  apply wp_bind, wp_rd_log; [done|]. change (EVS_Log (file_out (log_writes (io_write io) s) s1)) with (EVS_Log s). fold (log_written (io_write io) s).
  assert (file_out (log_writes (io_write io) s) s1 = file_out ([OutOpen (log_file Filename); OutHeader (chars "cFE EVS Log File") CFE_FS_SubType_EVS_EVENTLOG] ++ log_writes (io_write io) s) s) as E.
  { unfold s1. change (file_out (log_writes (io_write io) s) (file_out [OutHeader (chars "cFE EVS Log File") CFE_FS_SubType_EVS_EVENTLOG] (file_out [OutOpen (log_file Filename)] s)) = file_out ([OutOpen (log_file Filename); OutHeader (chars "cFE EVS Log File") CFE_FS_SubType_EVS_EVENTLOG] ++ log_writes (io_write io) s) s).
    by rewrite !file_out_out. }
  rewrite E in *. assert (evs_ok (file_out ([OutOpen (log_file Filename); OutHeader (chars "cFE EVS Log File") CFE_FS_SubType_EVS_EVENTLOG] ++ log_writes (io_write io) s) s)) as H2 by (by apply file_out_ok).
  destruct (log_written (io_write io) s).
  all: apply wp_bind; eapply wp_SendEvent; [exact H2|]; intros l s' Hs' H' _; app_go; cbn beta; apply HQ; [split; [done|by exists l, s']|by apply sent_app_ok].
Qed.

(** The records of the registered applications. *)
Definition app_file s a : CFE_EVS_AppDataFile_t := mkAppDataFile (name_of (ad_AppID a) s) (ad_ActiveFlag a) (ad_EventTypesActiveFlag a) (ad_EventCount a) (ad_BinFilters a).
Definition app_files (k : nat) s : list CFE_EVS_AppDataFile_t := app_file s <$> filter (λ a, negb (ad_AppID a =? CFE_RESOURCEID_UNDEFINED) = true) (drop k (AppData s)).

Definition app_writes (write : nat → Z) (i k : nat) s : list EvsOut := map (λ c, OutAppEntry c.1 c.2) (write_calls sizeof_AppDataFile write i (app_files k s)).

Lemma app_files_out k o s : app_files k (file_out o s) = app_files k s.
Proof. done. Qed.

Lemma wp_write_app_loop write L n : ∀ k c (Q : bool * nat → EG → Prop) s, evs_ok s → (k + n = length (AppData s))%nat →
  (write_count sizeof_AppDataFile write c (app_files k s) = length (app_files k s) → Q (true, (c + length (app_files k s))%nat) (file_out (app_writes write c k s) s)) →
  (write_count sizeof_AppDataFile write c (app_files k s) ≠ length (app_files k s) → ∀ d l s', own_events l (file_out (app_writes write c k s) s) s' → evs_ok s' → Q (false, d) s') →
  wp (write_app_loop write L n (Z.of_nat k) c) Q s.
Proof.
  induction n as [|n IH]; intros k c Q s H Hk H1 H2; cbn [write_app_loop].
  { app_go. unfold app_files, app_writes, app_files in *. rewrite drop_ge in * by lia. cbn in *. specialize (H1 eq_refl). rewrite Nat.add_0_r in H1. unfold file_out in H1. destruct s. unfold set in H1. cbn in H1. by rewrite app_nil_r in H1. }
  destruct (lookup_lt_is_Some_2 (AppData s) k) as [a Ha]; [lia|]. apply wp_bind. eapply wp_rd_app; [lia|by rewrite Nat2Z.id|].
  replace (Z.of_nat k + 1) with (Z.of_nat (S k)) by lia. destruct (EVS_AppDataIsUsed a) eqn:Eu.
  - assert (app_files k s = app_file s a :: app_files (S k) s) as Ef by (unfold app_files; rewrite (drop_S _ a k Ha), filter_cons_True by done; done).
    unfold app_data_file. apply wp_bind, wp_bind, wp_app_name. app_go. cbn beta. unfold app_writes in H1, H2. rewrite Ef in H1, H2. cbn [write_count write_calls map length fst snd] in H1, H2.
    change (mkAppDataFile _ _ _ _ _) with (app_file s a). set (o := OutAppEntry (app_file s a) (write c)) in *. fold (file_out [o] s). destruct (write c =? sizeof_AppDataFile).
    + apply IH; [by apply file_out_ok|cbn; lia| |].
      * rewrite app_files_out. intros Hw. specialize (H1 ltac:(lia)). unfold app_writes. rewrite app_files_out, file_out_out. by rewrite Nat.add_succ_r in H1.
      * rewrite app_files_out. intros Hw d l s'. unfold app_writes. rewrite app_files_out, file_out_out. apply H2. lia.
    + apply wp_bind. eapply wp_SendEvent; [by apply file_out_ok|]. intros l s' Hl H' _. app_go. apply (H2 ltac:(lia) _ l); done.
  - assert (app_files k s = app_files (S k) s) as Ef by (unfold app_files; rewrite (drop_S _ a k Ha), filter_cons_False by (unfold EVS_AppDataIsUsed in Eu; by rewrite Eu); done).
    unfold app_writes in *. rewrite Ef in *. apply IH; [done|lia|done|done].
Qed.

Definition app_data_name (Filename : list Z) : list Z := if strcmp_eq Filename [] then chars "/ram/cfe_evs_app.dat" else take 63 (cstr Filename).

Definition write_app_result (Filename : list Z) (io : FileIO) s (r : Z) s' : Prop :=
  if io_open io <? OS_SUCCESS then r = io_open io ∧ ∃ l, own_events l (file_out [OutOpen (app_data_name Filename)] s) s'
  else if negb (io_header io =? sizeof_FsHeader) then
    r = CFE_EVS_FILE_WRITE_ERROR ∧ s' = file_out [OutOpen (app_data_name Filename); OutHeader (chars "EVS Application Data File") CFE_FS_SubType_EVS_APPDATA; OutClose] s
  else
    r = (if (write_count sizeof_AppDataFile (io_write io) 0 (app_files 0 s) =? length (app_files 0 s))%nat then CFE_SUCCESS else CFE_EVS_FILE_WRITE_ERROR) ∧
    ∃ l s1, own_events l (file_out ([OutOpen (app_data_name Filename); OutHeader (chars "EVS Application Data File") CFE_FS_SubType_EVS_APPDATA] ++ app_writes (io_write io) 0 0 s) s) s1 ∧
      s' = file_out [OutClose] s1.

Lemma wp_WriteAppDataFileCmd Filename io (Q : Z → EG → Prop) s : evs_ok s → length Filename = CFE_MISSION_MAX_PATH_LEN →
  (∀ r s', write_app_result Filename io s r s' → evs_ok s' → Q r s') → wp (CFE_EVS_WriteAppDataFileCmd Filename io) Q s.
Proof.
  intros H Hl HQ. unfold CFE_EVS_WriteAppDataFileCmd. apply wp_bind. change CFE_PLATFORM_EVS_DEFAULT_APP_DATA_FILE with (chars "/ram/cfe_evs_app.dat" ++ [0]).
  apply wp_file_name; [done|done|by vm_compute|]. intros buf Hb. rewrite Hb. fold (app_data_name Filename). apply wp_bind, wp_modify. cbn beta. fold (file_out [OutOpen (app_data_name Filename)] s).
  unfold write_app_result in HQ. destruct (io_open io <? OS_SUCCESS).
  { apply wp_bind. eapply wp_SendEvent; [by apply file_out_ok|]. intros l s' Hl' H' _. app_go. apply HQ; [|done]. split; [done|]. by exists l. }
  apply wp_bind, wp_modify. cbn beta. set (hd := OutHeader _ _) in *. fold (file_out [hd] (file_out [OutOpen (app_data_name Filename)] s)). rewrite file_out_out. cbn [app].
  set (s1 := file_out [OutOpen (app_data_name Filename); hd] s). apply wp_bind. destruct (io_header io =? sizeof_FsHeader); cbn [negb] in *.
  2:{ app_go. cbn beta. apply HQ; [split; [done|]|by apply sent_app_ok, file_out_ok]. unfold s1. fold (file_out [OutClose] (file_out [OutOpen (app_data_name Filename); hd] s)). by rewrite file_out_out. }
  assert (evs_ok s1) as H1 by (by apply file_out_ok). assert (app_files 0 s1 = app_files 0 s) as Ef by done.
  assert (file_out (app_writes (io_write io) 0 0 s1) s1 = file_out ([OutOpen (app_data_name Filename); hd] ++ app_writes (io_write io) 0 0 s) s) as Eo by (unfold s1; rewrite file_out_out; done).
  apply wp_bind. change 0 with (Z.of_nat 0) at 1. apply wp_write_app_loop; [done|by rewrite (eo_len s1 H1)| |]; rewrite Ef, Eo; intros Hw; [rewrite (proj2 (Nat.eqb_eq _ _) Hw) in HQ|rewrite (proj2 (Nat.eqb_neq _ _) Hw) in HQ].
  - apply wp_bind. eapply wp_SendEvent; [by apply file_out_ok|]. intros l s' Hl' H' _. app_go. cbn beta. apply HQ; [split; [done|by exists l, s']|by apply sent_app_ok].
  - intros d l s' Hl' H'. app_go. cbn beta. apply HQ; [split; [done|by exists l, s']|by apply sent_app_ok].
Qed.
End evs.

(** ** Event services: the dispatch of command packets *)


Section evs.
Context `{Cfg : EvsCfg}.

(** The sizes the code checks are those of the table. *)
Lemma ground_cmd_size m : size_ok m = match ground_cmd m with Some (n, _) => sizeof_CmdHeader + n =? em_Size m | None => false end.
Proof.
  unfold size_ok, ground_cmd. cbn zeta. change (match evs_hdr with Hdr_Pri => 8 | Hdr_PriExt => 16 end) with sizeof_CmdHeader. generalize (em_FcnCode m). intros cc.
  destruct (decide (0 <= cc < 21)) as [H|H].
  - assert (cc ∈ [0;1;2;3;4;5;6;7;8;9;10;11;12;13;14;15;16;17;18;19;20]) as Hin by (change [0;1;2;3;4;5;6;7;8;9;10;11;12;13;14;15;16;17;18;19;20] with (seqZ 0 21); apply elem_of_seqZ; lia).
    repeat (apply elem_of_cons in Hin as [->|Hin]; [reflexivity|]). by apply elem_of_nil in Hin.
  - repeat match goal with |- context [cc =? ?c] => rewrite (proj2 (Z.eqb_neq cc c)) by (intros ->; apply H; by vm_compute) end.
    destruct (Z.ltb_spec cc 0); [done|]. by rewrite lookup_ge_None_2 by (cbn; lia).
Qed.

(** What a ground command returns and leaves. *)
Definition cmd_result (m : EvsMsg) s (r : Z) s' : Prop :=
  let cc := em_FcnCode m in
  if size_ok m && (cc =? CFE_EVS_RESET_COUNTERS_CC) then r = CFE_STATUS_NO_COUNTER_INCREMENT ∧ ∃ l, own_events l (s <| EVS_Tlm ::= zero_counters |>) s'
  else if size_ok m && (cc =? CFE_EVS_WRITE_LOG_DATA_FILE_CC) then write_log_result (em_Filename m) (em_io m) s r s'
  else if size_ok m && (cc =? CFE_EVS_WRITE_APP_DATA_FILE_CC) then write_app_result (em_Filename m) (em_io m) s r s'
  else handled (command_effect m s) s r s'.

Definition cmd_count (r : Z) s : EG :=
  if r =? CFE_SUCCESS then s <| EVS_Tlm ::= λ t, t <| hk_CommandCounter ::= λ n, u8 (n + 1) |> |>
  else if r <? 0 then s <| EVS_Tlm ::= λ t, t <| hk_CommandErrorCounter ::= λ n, u8 (n + 1) |> |> else s.

Lemma cmd_count_ok r s : evs_ok s → evs_ok (cmd_count r s).
Proof. intros []. unfold cmd_count. destruct (r =? CFE_SUCCESS); [by split|]. destruct (r <? 0); by split. Qed.

Lemma wp_NoopCmd (Q : Z → EG → Prop) s : evs_ok s → (∀ r s', handled (Some s) s r s' → Q r s') → wp CFE_EVS_NoopCmd Q s.
Proof. intros H HQ. unfold CFE_EVS_NoopCmd. apply (wp_sent_ok _ _ _ _ s); [done|]. intros s'. apply HQ. Qed.

Lemma wp_ClearLogCmd (Q : Z → EG → Prop) s : evs_ok s → (∀ r s', handled (Some (s <| EVS_Log ::= clear_log |>)) s r s' → Q r s') → wp CFE_EVS_ClearLogCmd Q s.
Proof.
  intros H HQ. unfold CFE_EVS_ClearLogCmd. pose proof H as [A1 A2 A3 A4 A5 A6 A7 A8]. apply wp_bind. eapply wp_ClearLog; [done|done|]. app_go.
  assert (evs_ok (s <| EVS_Log ::= clear_log |>)) as H' by (split; try done; apply clear_log_safe; by destruct A5).
  apply HQ. split; [done|]. split; [done|]. exists []. by apply own_refl.
Qed.

(** The handler of a packet, found by its function code. *)
Definition handler (m : EvsMsg) : M EG Z :=
  match ground_cmd m with
  | Some (n, cmd) => ok ← CFE_EVS_VerifyCmdLength m (sizeof_CmdHeader + n); if ok : bool then cmd else mret CFE_STATUS_WRONG_MSG_LENGTH
  | None =>
      _ ← EVS_SendEvent CFE_EVS_ERR_CC_EID CFE_EVS_EventType_ERROR (expand "Invalid command code -- ID = 0x%08x, CC = %u" [AInt (em_MsgId m); AInt (em_FcnCode m)]);
      mret CFE_STATUS_BAD_COMMAND_CODE
  end.

(** A packet of the right size runs its handler; another one is refused. *)
Lemma wp_handler m (Q : Z → EG → Prop) s : evs_ok s → (∀ n cmd, ground_cmd m = Some (n, cmd) → sizeof_CmdHeader + n = em_Size m → wp cmd Q s) →
  (size_ok m = false → ∀ r s', handled None s r s' → Q r s') → wp (handler m) Q s.
Proof.
  intros H Hc Hn. unfold handler. rewrite ground_cmd_size in Hn. destruct (ground_cmd m) as [[n cmd]|].
  - unfold CFE_EVS_VerifyCmdLength. destruct (Z.eqb_spec (sizeof_CmdHeader + n) (em_Size m)) as [E|E]; cbn [negb].
    + apply wp_bind, wp_ret. by eapply Hc.
    + apply wp_bind. eapply wp_bind, wp_SendEvent; [done|]. intros l s' Hl H' _. apply wp_ret. apply wp_ret. apply (Hn eq_refl). split; [done|]. split; [done|]. by exists l.
  - apply wp_sent_err; [done|done|]. by apply Hn.
Qed.

Lemma cmd_result_bad m s r s' : size_ok m = false → handled None s r s' → cmd_result m s r s'.
Proof.
  intros E H. unfold cmd_result. rewrite E. cbn [andb]. unfold command_effect. by rewrite E.
Qed.

(** The result of a packet of the right size. *)
Lemma cmd_result_good m n cmd s : ground_cmd m = Some (n, cmd) → sizeof_CmdHeader + n = em_Size m → size_ok m = true.
Proof. intros E Hs. rewrite ground_cmd_size, E. by apply Z.eqb_eq. Qed.

Lemma wp_cmd m n cmd (Q : Z → EG → Prop) s : evs_ok s → msg_ok m → ground_cmd m = Some (n, cmd) → sizeof_CmdHeader + n = em_Size m →
  (∀ r s', cmd_result m s r s' → evs_ok s' → Q r s') → wp cmd Q s.
Proof.
  intros H Hm E Hs HQ. pose proof (cmd_result_good m n cmd s E Hs) as Hz. unfold cmd_result in HQ. rewrite Hz in HQ. cbn [andb] in HQ.
  unfold command_effect in HQ. rewrite Hz in HQ. cbn [negb] in HQ. unfold ground_cmd in E.
  revert E. cbn zeta.
  repeat match goal with |- (if em_FcnCode m =? ?c then _ else _) = _ → _ =>
    destruct (Z.eqb_spec (em_FcnCode m) c) as [Hc|_];
    [intros E; injection E as <- <-; revert HQ; rewrite ?Hc; vm_if; intros HQ|] end.
  - apply wp_NoopCmd; [done|]. intros r s' Hr. by apply HQ; [|apply Hr].
  - apply wp_ResetCountersCmd; [done|]. intros l s' Hl H'. apply HQ; [|done]. split; [done|]. by exists l.
  - apply wp_EnableEventTypeCmd; [done|]. intros r s' Hr. by apply HQ; [|apply Hr].
  - apply wp_DisableEventTypeCmd; [done|]. intros r s' Hr. by apply HQ; [|apply Hr].
  - apply wp_SetEventFormatModeCmd; [done|]. intros r s' Hr. by apply HQ; [|apply Hr].
  - apply wp_EnableAppEventTypeCmd; [done|done|done|]. intros r s' Hr. by apply HQ; [|apply Hr].
  - apply wp_DisableAppEventTypeCmd; [done|done|done|]. intros r s' Hr. by apply HQ; [|apply Hr].
  - apply wp_EnableAppEventsCmd; [done|done|done|]. intros r s' Hr. by apply HQ; [|apply Hr].
  - apply wp_DisableAppEventsCmd; [done|done|done|]. intros r s' Hr. by apply HQ; [|apply Hr].
  - apply wp_ResetAppCounterCmd; [done|done|done|]. intros r s' Hr. by apply HQ; [|apply Hr].
  - apply wp_SetFilterCmd; [done|done|done|]. intros r s' Hr. by apply HQ; [|apply Hr].
  - apply wp_EnablePortsCmd; [done|apply Hm|]. intros r s' Hr. by apply HQ; [|apply Hr].
  - apply wp_DisablePortsCmd; [done|apply Hm|]. intros r s' Hr. by apply HQ; [|apply Hr].
  - apply wp_ResetFilterCmd; [done|done|done|]. intros r s' Hr. by apply HQ; [|apply Hr].
  - apply wp_ResetAllFiltersCmd; [done|done|done|]. intros r s' Hr. by apply HQ; [|apply Hr].
  - apply wp_AddEventFilterCmd; [done|done|done|]. intros r s' Hr. by apply HQ; [|apply Hr].
  - apply wp_DeleteEventFilterCmd; [done|done|done|]. intros r s' Hr. by apply HQ; [|apply Hr].
  - apply wp_WriteAppDataFileCmd; [done|apply Hm|done].
  - apply wp_SetLogModeCmd; [done|]. intros r s' Hr. by apply HQ; [|apply Hr].
  - apply wp_ClearLogCmd; [done|]. intros r s' Hr. by apply HQ; [|apply Hr].
  - apply wp_WriteLogDataFileCmd; [done|apply Hm|done].
  - done.
Qed.

Lemma wp_ProcessGroundCommand m (Q : unit → EG → Prop) s : evs_ok s → msg_ok m → (∀ r s', cmd_result m s r s' → evs_ok s' → Q tt (cmd_count r s')) →
  wp (CFE_EVS_ProcessGroundCommand m) Q s.
Proof.
  intros H Hm HQ. unfold CFE_EVS_ProcessGroundCommand. fold (handler m). apply wp_bind.
  assert (∀ r s', cmd_result m s r s' → evs_ok s' → wp (if r =? CFE_SUCCESS then tlm (λ t, t <| hk_CommandCounter ::= λ n, u8 (n + 1) |>)
      else when (r <? 0) (tlm (λ t, t <| hk_CommandErrorCounter ::= λ n, u8 (n + 1) |>))) Q s') as Hk.
  { intros r s' Hr H'. specialize (HQ r s' Hr H'). unfold cmd_count in HQ. destruct (r =? CFE_SUCCESS); [by apply wp_modify|]. destruct (r <? 0); [by apply wp_modify|by apply wp_ret]. }
  apply wp_handler; [done| |].
  - intros n cmd E Hs. by apply (wp_cmd m n).
  - intros E r s' Hr. apply Hk; [by apply cmd_result_bad|apply Hr].
Qed.
End evs.
