(* ===== verification/EvsInit.v ===== *)
(** * Event services: initialization and safety of all calls *)
From Stdlib Require Import String.
From S2P Require Import Prelude Config Msg ResourceId Cstring EsApp TimeApi EvsState EvsApi EvsTask EvsCmds EvsInv EvsCalls EvsOps EvsDispatch.
Import ListNotations.

Implicit Types (a : EVS_AppData_t) (p : CFE_EVS_LongEventTlm_t) (g : CFE_EVS_Log_t) (s : EG).

Section evs.
Context `{Cfg : EvsCfg}.

(** ** CFE_EVS_EarlyInit *)

(** The log of the reset area is kept. *)
Definition keeps_log (e : EarlyEnv) g : bool :=
  negb (ee_ResetType e =? CFE_PSP_RST_TYPE_POWERON) && ((LogMode g =? CFE_EVS_LogMode_OVERWRITE) || (LogMode g =? CFE_EVS_LogMode_DISCARD)) &&
  ((LogFullFlag g =? 0) || (LogFullFlag g =? 1)) && (Next g <? CFE_PLATFORM_EVS_LOG_MAX).

(** The test as the code writes it. *)
Definition log_bad g : bool :=
  (negb (LogMode g =? CFE_EVS_LogMode_OVERWRITE) && negb (LogMode g =? CFE_EVS_LogMode_DISCARD))
    || (negb (LogFullFlag g =? 0) && negb (LogFullFlag g =? 1)) || (CFE_PLATFORM_EVS_LOG_MAX <=? Next g).

Lemma keeps_bad e g : keeps_log e g = negb (ee_ResetType e =? CFE_PSP_RST_TYPE_POWERON) && negb (log_bad g).
Proof.
  unfold keeps_log, log_bad. rewrite Z.ltb_antisym. generalize (CFE_PLATFORM_EVS_LOG_MAX <=? Next g), (LogMode g =? CFE_EVS_LogMode_OVERWRITE), (LogMode g =? CFE_EVS_LogMode_DISCARD), (LogFullFlag g =? 0), (LogFullFlag g =? 1), (ee_ResetType e =? CFE_PSP_RST_TYPE_POWERON).
  intros [] [] [] [] [] []; done.
Qed.

Definition early_log (e : EarlyEnv) g : CFE_EVS_Log_t := if keeps_log e g then g else (clear_log g) <| LogMode := CFE_PLATFORM_EVS_DEFAULT_LOG_MODE |>.

(** The reset area, whatever it contains: the entries and 16-bit fields. *)
Record area_ok g : Prop := { ra_len : length (LogEntry g) = log_max; ra_next : is_u16 (Next g); ra_count : is_u16 (LogCount g) }.

Lemma early_log_safe e g : area_ok g → log_safe (early_log e g).
Proof.
  intros [H1 H2 H3]. unfold early_log, keeps_log. destruct (_ && _) eqn:E.
  - apply andb_true_iff in E as [_ E]. apply Z.ltb_lt in E. split; [unfold is_u16 in *; lia|done..].
  - destruct (clear_log_safe g H1). by split.
Qed.

Record early_state (e : EarlyEnv) s s' : Prop := {
  es_ok : evs_ok s';
  es_apps : AppData s' = replicate max_apps zero_app;
  es_log : EVS_Log s' = early_log e (EVS_Log s);
  es_id : EVS_AppID s' = CFE_RESOURCEID_UNDEFINED;
  es_env : AppTable s' = AppTable s ∧ Now s' = Now s;
}.

Definition early_result (e : EarlyEnv) s (r : Z) s' : Prop :=
  if negb (ee_Status e =? CFE_PSP_SUCCESS) then r = ee_Status e ∧ last (EvsSent s') = Some (OutPanic CFE_PSP_PANIC_MEMORY_ALLOC)
  else if ee_Size e <? ee_Expected e then r = CFE_EVS_RESET_AREA_POINTER ∧ last (EvsSent s') = Some (OutPanic CFE_PSP_PANIC_MEMORY_ALLOC)
  else if negb (ee_Mutex e =? OS_SUCCESS) then r = ee_Mutex e ∧ last (EvsSent s') = Some (OutPanic CFE_PSP_PANIC_STARTUP_SEM)
  else r = CFE_SUCCESS ∧ early_state e s s'.

Lemma zero_tlm_len : length (hk_AppData zero_tlm) = Z.to_nat CFE_MISSION_ES_MAX_APPLICATIONS.
Proof. done. Qed.

(** The state the first part of CFE_EVS_EarlyInit leaves. *)
Definition early_start (h : Message) s : EG :=
  mkEvs (replicate max_apps zero_app) true h
    (zero_tlm <| hk_MessageFormatMode := CFE_PLATFORM_EVS_DEFAULT_MSG_FORMAT_MODE |> <| hk_OutputPort := CFE_PLATFORM_EVS_PORT_DEFAULT |> <| hk_LogFullFlag := 0 |>
       <| hk_LogMode := CFE_PLATFORM_EVS_DEFAULT_LOG_MODE |> <| hk_LogEnabled := true |>) 0 false CFE_RESOURCEID_UNDEFINED (EVS_Log s) (AppTable s) (Now s) (EvsSent s).

Lemma early_state_ok e h s o : area_ok (EVS_Log s) → early_state e s (((early_start h s) <| EVS_Log := early_log e (EVS_Log s) |>) <| EvsSent := o |>).
Proof.
  intros H. split; try done. split; try done.
  - apply Forall_replicate. apply zero_app_ok.
  - by apply early_log_safe.
Qed.

Lemma wp_EarlyInit e (Q : Z → EG → Prop) s : area_ok (EVS_Log s) → (∀ r s', early_result e s r s' → Q r s') → wp (CFE_EVS_EarlyInit e) Q s.
Proof.
  intros H HQ. unfold CFE_EVS_EarlyInit, early_result in *. set (h := take sizeof_TlmHeader _). clearbody h. do 6 (apply wp_bind, wp_modify).
  destruct (negb (ee_Status e =? CFE_PSP_SUCCESS)) eqn:E1.
  { app_go. apply negb_true_iff in E1. change (ee_Status e =? CFE_SUCCESS) with (ee_Status e =? CFE_PSP_SUCCESS). rewrite E1. app_go.
    change (ee_Status e =? CFE_SUCCESS) with (ee_Status e =? CFE_PSP_SUCCESS). rewrite E1. app_go. apply HQ. split; [done|]. cbn [EvsSent set]. apply last_snoc. }
  destruct (ee_Size e <? ee_Expected e).
  { app_go. zred. app_go. apply HQ. split; [done|]. apply last_snoc. }
  app_go. zred. app_go. destruct (negb (ee_Mutex e =? OS_SUCCESS)) eqn:E3.
  { apply negb_true_iff in E3. app_go. change (ee_Mutex e =? CFE_SUCCESS) with (ee_Mutex e =? OS_SUCCESS). rewrite E3. app_go. apply HQ. split; [done|]. apply last_snoc. }
  app_go. zred. app_go. match goal with |- wp _ _ ?x => change x with (early_start h s) end.
  apply wp_rd_log; [done|]. change (EVS_Log (early_start h s)) with (EVS_Log s). app_go.
  assert (∀ t (Q' : unit → EG → Prop), (∀ o, Q' tt (((early_start h s) <| EVS_Log := (clear_log (EVS_Log s)) <| LogMode := CFE_PLATFORM_EVS_DEFAULT_LOG_MODE |> |>) <| EvsSent := o |>)) →
     wp (out t;; EVS_ClearLog;; wr_log (λ g, g <| LogMode := CFE_PLATFORM_EVS_DEFAULT_LOG_MODE |>)) Q' (early_start h s)) as Hclear.
  { intros t Q' HQ'. app_go. eapply wp_ClearLog; [done|done|]. apply wp_wr_log; [done|]. apply HQ'. }
  pose proof (early_state_ok e h s) as Hs. unfold early_log in Hs. rewrite keeps_bad in Hs. destruct (ee_ResetType e =? CFE_PSP_RST_TYPE_POWERON); cbn [negb andb] in Hs.
  { apply Hclear. intros o. app_go. apply HQ. split; [done|]. exact (Hs o H). }
  fold (log_bad (EVS_Log s)). destruct (log_bad (EVS_Log s)); cbn [negb] in Hs.
  - apply Hclear. intros o. app_go. apply HQ. split; [done|]. exact (Hs o H).
  - app_go. apply HQ. split; [done|]. exact (Hs _ H).
Qed.

(** ** CFE_EVS_TaskInit *)

(** Event services register themselves; a failure is written to the system log, and the
    last step is the startup event. *)
Definition task_failed s (r : Z) s' : Prop := r ≠ CFE_SUCCESS ∧ ∃ t, s' = s <| EvsSent ::= λ o, o ++ [OutSysLog t] |>.

Definition task_result (e : TaskEnv) s (r : Z) s' : Prop :=
  task_failed s r s' ∨
  ∃ r1 s1, register_result (te_AppID e) None 0 CFE_EVS_EventFilter_BINARY s r1 s1 ∧
    (task_failed s1 r s' ∨ task_failed (s1 <| EVS_CommandPipe := (te_Pipe e).2 |>) r s' ∨
     r = CFE_SUCCESS ∧ ∃ l, own_events l ((s1 <| EVS_CommandPipe := (te_Pipe e).2 |>) <| EVS_AppID := (te_AppID e).2 |>) s').

Lemma wp_init_failed what r (Q : Z → EG → Prop) s : evs_ok s → r ≠ CFE_SUCCESS → (∀ s', task_failed s r s' → evs_ok s' → Q r s') → wp (init_failed what r) Q s.
Proof. intros H Hr HQ. unfold init_failed. app_go. apply HQ; [split; [done|by eexists]|by apply sent_app_ok]. Qed.

Lemma wp_TaskInit e (Q : Z → EG → Prop) s : evs_ok s → (∀ r s', task_result e s r s' → evs_ok s' → Q r s') → wp (CFE_EVS_TaskInit e) Q s.
Proof.
  intros H HQ. unfold CFE_EVS_TaskInit, task_result in *.
  destruct (Z.eqb_spec (te_Register e) CFE_SUCCESS) as [_|Hn]; [|apply wp_init_failed; [done..|]; intros s' Hs; apply HQ; auto]. cbn [negb]. destruct (te_AppID e) as [st id]. cbn [snd] in HQ.
  destruct (Z.eqb_spec st CFE_SUCCESS) as [->|Hn]; [|apply wp_init_failed; [done..|]; intros s' Hs; apply HQ; auto]. cbn [negb]. apply wp_bind. eapply wp_Register; [done|by split|]. intros r s1 Hr H1.
  assert (∀ r' s', (task_failed s1 r' s' ∨ task_failed (s1 <| EVS_CommandPipe := (te_Pipe e).2 |>) r' s' ∨
     r' = CFE_SUCCESS ∧ ∃ l, own_events l ((s1 <| EVS_CommandPipe := (te_Pipe e).2 |>) <| EVS_AppID := id |>) s') → evs_ok s' → Q r' s') as HQ1 by (intros r' s' Hs; apply HQ; right; by exists r, s1).
  clear HQ. destruct (Z.eqb_spec r CFE_SUCCESS) as [_|Hn]; [|apply wp_init_failed; [done..|]; intros s' Hs; apply HQ1; auto]. cbn [negb]. destruct (te_Pipe e) as [sp pipe]. cbn [snd] in HQ1. apply wp_bind, wp_modify.
  assert (evs_ok (s1 <| EVS_CommandPipe := pipe |>)) as H2 by (by destruct H1). destruct (Z.eqb_spec sp CFE_SUCCESS) as [_|Hn]; [|apply wp_init_failed; [done..|]; intros s' Hs; apply HQ1; auto]. cbn [negb].
  destruct (Z.eqb_spec (te_Cmd e) CFE_SUCCESS) as [_|Hn]; [|apply wp_init_failed; [done..|]; intros s' Hs; apply HQ1; auto]. cbn [negb].
  destruct (Z.eqb_spec (te_Hk e) CFE_SUCCESS) as [_|Hn]; [|apply wp_init_failed; [done..|]; intros s' Hs; apply HQ1; auto]. cbn [negb].
  apply wp_bind, wp_modify, wp_bind. eapply wp_SendEvent; [by destruct H1|]. intros l s' Hl H' _. app_go. apply HQ1; [|done]. do 2 right. split; [done|]. by exists l.
Qed.

(** ** CFE_EVS_ProcessCommandPacket *)

Definition packet_result (m : EvsMsg) s s' : Prop :=
  if em_MsgId m =? CFE_EVS_CMD_MID then ∃ r s1, cmd_result m s r s1 ∧ s' = cmd_count r s1
  else if em_MsgId m =? CFE_EVS_SEND_HK_MID then ∃ h, s' = s <| EVS_Tlm := hk_report s |> <| EVS_TlmHeader := h |> <| EvsSent ::= λ o, o ++ [OutHk h (hk_report s)] |>
  else ∃ l, own_events l (s <| EVS_Tlm ::= λ t, t <| hk_CommandErrorCounter ::= λ n, u8 (n + 1) |> |>) s'.

Lemma wp_ProcessCommandPacket m (Q : unit → EG → Prop) s : evs_ok s → msg_ok m → (∀ s', packet_result m s s' → evs_ok s' → Q tt s') → wp (CFE_EVS_ProcessCommandPacket m) Q s.
Proof.
  intros H Hm HQ. unfold CFE_EVS_ProcessCommandPacket, packet_result in *. destruct (em_MsgId m =? CFE_EVS_CMD_MID).
  { eapply wp_ProcessGroundCommand; [done|done|]. intros r s' Hr H'. apply HQ; [by exists r, s'|by apply cmd_count_ok]. }
  destruct (em_MsgId m =? CFE_EVS_SEND_HK_MID).
  - apply wp_bind, wp_ReportHousekeepingCmd; [done|]. intros h s' H'. app_go. apply HQ; [by exists h|done].
  - apply wp_bind, wp_modify, wp_bind. eapply wp_SendEvent; [by destruct H|]. intros l s' Hl H' _. app_go. apply HQ; [by exists l|done].
Qed.

(** ** The filters an application resets *)

Definition filters_reset a : EVS_AppData_t := a <| ad_BinFilters ::= fmap (λ f, f <| bf_Count := 0 |>) |>.

Lemma filters_reset_ok a : app_ok a → app_ok (filters_reset a).
Proof.
  intros [A1 A2 A3 A4]. split; cbn; try done; [by rewrite length_fmap|]. apply Forall_fmap. eapply Forall_impl; [exact A2|]. intros f []. by split.
Qed.

Definition reset_result (App : Z * Z) (f : EVS_AppData_t → option EVS_AppData_t) s (r : Z) s' : Prop :=
  match (if App.1 =? CFE_SUCCESS then EVS_GetAppDataByID App.2 else None) with
  | None => r = CFE_EVS_APP_ILLEGAL_APP_ID ∧ s' = s
  | Some i => ∃ a, AppData s !! Z.to_nat i = Some a ∧
      if ad_AppID a =? App.2 then match f a with Some a' => r = CFE_SUCCESS ∧ s' = put_app i a' s | None => r = CFE_EVS_EVT_NOT_REGISTERED ∧ s' = s end
      else r = CFE_EVS_APP_NOT_REGISTERED ∧ s' = s
  end.

Lemma wp_ResetFilter App e (Q : Z → EG → Prop) s : evs_ok s →
  (∀ r s', reset_result App (with_filter e (λ f, f <| bf_Count := 0 |>)) s r s' → evs_ok s' → Q r s') → wp (CFE_EVS_ResetFilter App e) Q s.
Proof.
  intros H HQ. unfold CFE_EVS_ResetFilter, EVS_GetCurrentContext, reset_result in *. destruct App as [st id]. cbn [fst snd] in *.
  destruct (st =? CFE_SUCCESS) eqn:Es; [|app_go; by apply HQ]. destruct (EVS_GetAppDataByID id) as [i|] eqn:Ei; [|app_go; by apply HQ]. rewrite Es.
  destruct (app_entry _ _ _ H Ei) as (a & Ha & Hok & Hi). app_go. destruct (ad_AppID a =? id) eqn:Em; cbn [negb].
  2:{ app_go. apply HQ; [|done]. exists a. by rewrite Em. }
  app_go. destruct (EVS_FindEventID e (ad_BinFilters a)) as [k|] eqn:Ek.
  - app_go. eapply wp_with_filter; [done|exact Ha|exact Ek|]. intros a' Ea Hok'. app_go. apply Z.eqb_eq in Es. apply HQ; [exists a; by rewrite Em, Ea|].
    apply put_app_ok; [done|]. apply Hok'; [done|]. intros f []. by split.
  - app_go. apply HQ; [|done]. exists a. by rewrite Em, (with_filter_None _ _ _ Ek).
Qed.

Lemma wp_ResetAllFilters App (Q : Z → EG → Prop) s : evs_ok s →
  (∀ r s', reset_result App (Some ∘ filters_reset) s r s' → evs_ok s' → Q r s') → wp (CFE_EVS_ResetAllFilters App) Q s.
Proof.
  intros H HQ. unfold CFE_EVS_ResetAllFilters, EVS_GetCurrentContext, reset_result in *. destruct App as [st id]. cbn [fst snd compose] in *.
  destruct (st =? CFE_SUCCESS) eqn:Es; [|app_go; by apply HQ]. destruct (EVS_GetAppDataByID id) as [i|] eqn:Ei; [|app_go; by apply HQ]. rewrite Es.
  destruct (app_entry _ _ _ H Ei) as (a & Ha & Hok & Hi). app_go. destruct (ad_AppID a =? id) eqn:Em; cbn [negb].
  2:{ app_go. apply HQ; [|done]. exists a. by rewrite Em. }
  app_go. change 0 with (Z.of_nat 0). pose proof (ao_len a Hok) as Hl. eapply (wp_reset_filters i a); [done|exact Ha|lia|]. rewrite take_0, drop_0. cbn [app Nat.add].
  rewrite drop_ge, app_nil_r, take_ge by lia. app_go. apply Z.eqb_eq in Es. apply HQ; [exists a; by rewrite Em|]. apply put_app_ok; [done|]. by apply (filters_reset_ok a).
Qed.

(** ** Every call *)

(** The calls of event services, with what the callers pass; the table of applications
    and the time change between them. *)
Inductive EvsCall :=
| CallRegister (App : Z * Z) (Filters : ptr (list CFE_EVS_BinFilter_t)) (NumEventFilters FilterScheme : Z)
| CallUnregister (App : Z * Z)
| CallSend (App : Z * Z) (e ty : Z) (Spec : ptr (list Z))
| CallSendWithAppID (e ty AppID : Z) (Spec : ptr (list Z))
| CallSendTimed (App : Z * Z) (time : CFE_TIME_SysTime_t) (e ty : Z) (Spec : ptr (list Z))
| CallResetFilter (App : Z * Z) (e : Z)
| CallResetAllFilters (App : Z * Z)
| CallCleanUp (AppID : Z)
| CallTaskInit (e : TaskEnv)
| CallPacket (m : EvsMsg)
| CallEnv (apps : list CFE_ES_AppRecord_t) (now : CFE_TIME_SysTime_t).

Definition evs_call (c : EvsCall) : M EG Z :=
  match c with
  | CallRegister App F n sc => CFE_EVS_Register App F n sc
  | CallUnregister App => CFE_EVS_Unregister App
  | CallSend App e ty sp => CFE_EVS_SendEvent App e ty sp
  | CallSendWithAppID e ty id sp => CFE_EVS_SendEventWithAppID e ty id sp
  | CallSendTimed App t e ty sp => CFE_EVS_SendTimedEvent App t e ty sp
  | CallResetFilter App e => CFE_EVS_ResetFilter App e
  | CallResetAllFilters App => CFE_EVS_ResetAllFilters App
  | CallCleanUp id => CFE_EVS_CleanUpApp id
  | CallTaskInit e => CFE_EVS_TaskInit e
  | CallPacket m => CFE_EVS_ProcessCommandPacket m;; mret CFE_SUCCESS
  | CallEnv apps now => modify (λ s, s <| AppTable := apps |> <| Now := now |>);; mret CFE_SUCCESS
  end.

(** Callers pass the filters they announce; packets have fields of their sizes. *)
Definition call_ok (c : EvsCall) : Prop :=
  match c with
  | CallRegister _ F n _ => filters_ok F n
  | CallPacket m => msg_ok m
  | _ => True
  end.

Lemma evs_call_safe c s : evs_ok s → call_ok c → wp (evs_call c) (λ _ s', evs_ok s') s.
Proof.
  intros H Hc. destruct c; cbn [evs_call call_ok] in *.
  - by eapply wp_Register.
  - by eapply wp_Unregister.
  - by eapply wp_CFE_SendEvent.
  - by eapply wp_SendEventWithAppID.
  - by eapply wp_SendTimedEvent.
  - by eapply wp_ResetFilter.
  - by eapply wp_ResetAllFilters.
  - by eapply wp_EVS_CleanUpApp.
  - by eapply wp_TaskInit.
  - apply wp_bind. eapply wp_ProcessCommandPacket; [done|done|]. intros s' _ H'. by app_go.
  - app_go. by destruct H.
Qed.

(** The states event services reach from any contents of the reset area. *)
Inductive evs_reach : EG → Prop :=
| reach_init e s s' : area_ok (EVS_Log s) → CFE_EVS_EarlyInit e s = Some (CFE_SUCCESS, s') → evs_reach s'
| reach_call c r s s' : evs_reach s → call_ok c → evs_call c s = Some (r, s') → evs_reach s'.

Lemma evs_reach_ok s : evs_reach s → evs_ok s.
Proof.
  induction 1 as [e s s' Ha E|c r s s' Hr IH Hc E].
  - assert (wp (CFE_EVS_EarlyInit e) (early_result e s) s) as Hw by (by apply wp_EarlyInit). unfold wp in Hw. rewrite E in Hw. revert Hw. unfold early_result.
    destruct (Z.eqb_spec (ee_Status e) CFE_PSP_SUCCESS) as [_|N]; cbn [negb]; [|intros [E1 _]; by destruct N]. destruct (_ <? _); [by intros [? _]|].
    destruct (Z.eqb_spec (ee_Mutex e) OS_SUCCESS) as [_|N]; cbn [negb]; [|intros [E1 _]; by destruct N]. intros [_ He]. by apply He.
  - pose proof (evs_call_safe c s IH Hc) as Hw. unfold wp in Hw. by rewrite E in Hw.
Qed.
End evs.
