(* ===== verification/EvsHistory.v ===== *)
(** * Event services: the event log is the history of the events

    Seen from outside, the log is a bounded list with a mode and an overflow counter.
    Which operation a call begins with is a function of the call: an accepted command to
    set the mode sets it, one to clear the log clears it, and no other call does either.
    Then the call pushes the events it sends on the bus, in order. *)
From Stdlib Require Import String.
From S2P Require Import Prelude Config Msg ResourceId Cstring EsApp TimeApi EvsState EvsApi EvsTask EvsCmds EvsInv EvsCalls EvsOps EvsDispatch EvsInit.
Import ListNotations.

Implicit Types (a : EVS_AppData_t) (p : CFE_EVS_LongEventTlm_t) (g : CFE_EVS_Log_t) (s : EG).

(** ** The abstract log *)

Record LogView := mkView { lv_mode : Z; lv_events : list CFE_EVS_LongEventTlm_t; lv_overflow : Z }.

Inductive LogOp := Push (p : CFE_EVS_LongEventTlm_t) | Clear | SetMode (mode : Z).

Definition view_step (v : LogView) (o : LogOp) : LogView :=
  match o with
  | Push p => mkView (lv_mode v) (log_push (lv_mode v) p (lv_events v)) (if (length (lv_events v) <? log_max)%nat then lv_overflow v else u16 (lv_overflow v + 1))
  | Clear => mkView (lv_mode v) [] 0
  | SetMode m => mkView m (lv_events v) (lv_overflow v)
  end.

Definition log_view g : LogView := mkView (LogMode g) (log_list g) (LogOverflowCounter g).

(** What the operations do to the ring. *)
Definition log_step g (o : LogOp) : CFE_EVS_Log_t := match o with Push p => add_log p g | Clear => clear_log g | SetMode m => g <| LogMode := m |> end.

Definition op_ok (o : LogOp) : Prop := match o with SetMode m => m = CFE_EVS_LogMode_OVERWRITE ∨ m = CFE_EVS_LogMode_DISCARD | _ => True end.

Lemma log_step_view g o : log_ok g → op_ok o → log_ok (log_step g o) ∧ log_view (log_step g o) = view_step (log_view g) o.
Proof.
  intros H Ho. destruct o as [p| |m]; cbn [log_step view_step log_view lv_mode lv_events lv_overflow].
  - destruct (add_log_push p g H) as (H1 & H2 & H3 & H4). split; [done|]. unfold log_view. by rewrite H2, H3, H4.
  - destruct H as [[A1 A2 A3] A4 A5 A6 A7 A8]. destruct (clear_log_ok g (LogMode g) A3 A7) as [B1 B2]. destruct g. by split.
  - destruct H as [A1 A2 A3 A4 A5 A6]. split; [|by destruct g]. destruct A1. by split.
Qed.

Lemma log_steps_view g ops : log_ok g → Forall op_ok ops → log_ok (foldl log_step g ops) ∧ log_view (foldl log_step g ops) = foldl view_step (log_view g) ops.
Proof.
  revert g. induction ops as [|o ops IH]; intros g H Ho; [done|]. inversion Ho as [|? ? H1 H2]; subst. cbn [foldl]. destruct (log_step_view g o H H1) as [A1 A2]. rewrite <- A2. by apply IH.
Qed.

Section evs.
Context `{Cfg : EvsCfg}.

(** ** What a call does to the log *)

(** The operation a call begins with. *)
Definition lead_ops (c : EvsCall) : list LogOp :=
  match c with
  | CallPacket m =>
      if negb (em_MsgId m =? CFE_EVS_CMD_MID) || negb (size_ok m) then []
      else if em_FcnCode m =? CFE_EVS_SET_LOG_MODE_CC then
        if (em_Mode m =? CFE_EVS_LogMode_OVERWRITE) || (em_Mode m =? CFE_EVS_LogMode_DISCARD) then [SetMode (em_Mode m)] else []
      else if em_FcnCode m =? CFE_EVS_CLEAR_LOG_CC then [Clear]
      else []
  | _ => []
  end.

(** ** Events on the bus *)

Definition bus_events (o : list EvsOut) : list EvsOut := omap (λ x, match x with OutLong _ | OutShort _ => Some x | _ => None end) o.

(** A packet on the bus carries an event: the long one is the event, the short one has its
    identification and its time. *)
Definition carries (x : EvsOut) p : Prop :=
  match x with
  | OutLong q => q = p
  | OutShort q => se_PacketID q = le_PacketID p ∧
      CFE_MSG_GetMsgTime evs_hdr (Some (se_TlmHeader q)) (Some (0, 0)) = CFE_MSG_GetMsgTime evs_hdr (Some (le_TlmHeader p)) (Some (0, 0))
  | _ => False
  end.

Lemma bus_events_app o o' : bus_events (o ++ o') = bus_events o ++ bus_events o'.
Proof. apply omap_app. Qed.

Definition format_ok s : Prop := hk_MessageFormatMode (EVS_Tlm s) = CFE_EVS_MsgFormat_LONG ∨ hk_MessageFormatMode (EVS_Tlm s) = CFE_EVS_MsgFormat_SHORT.

(** The state [s'] is [s] after the operations [lead] on the log and the events [l]. *)
Record logs (lead : list LogOp) (l : list CFE_EVS_LongEventTlm_t) s s' : Prop := {
  lg_ops : Forall op_ok lead;
  lg_log : EVS_Log s' = foldl log_step (EVS_Log s) (lead ++ map Push l);
  lg_sent : ∃ o, EvsSent s' = EvsSent s ++ o ∧ Forall2 carries (bus_events o) l;
  lg_fmt : format_ok s → format_ok s';
}.

(** Whether there are such events, from a state with a valid format. *)
Definition logged (lead : list LogOp) s s' : Prop := format_ok s → ∃ l, logs lead l s s'.

Lemma logs_trans lead l1 l2 s1 s2 s3 : logs lead l1 s1 s2 → logs [] l2 s2 s3 → logs lead (l1 ++ l2) s1 s3.
Proof.
  intros [A1 A2 (x & A3 & A4) A5] [B1 B2 (y & B3 & B4) B5]. split.
  - done.
  - by rewrite map_app, app_assoc, foldl_app, <- A2.
  - exists (x ++ y). split; [by rewrite B3, A3, app_assoc|]. rewrite bus_events_app. by apply Forall2_app.
  - auto.
Qed.

Lemma logged_lead lead s1 s2 s3 : logged lead s1 s2 → logged [] s2 s3 → logged lead s1 s3.
Proof. intros H1 H2 Hf. destruct (H1 Hf) as [l1 L1]. destruct (H2 (lg_fmt _ _ _ _ L1 Hf)) as [l2 L2]. exists (l1 ++ l2). by eapply logs_trans. Qed.

#[local] Instance logged_trans : Transitive (logged []).
Proof. intros s1 s2 s3. apply logged_lead. Qed.

(** A step that leaves the log and writes no event. *)
Lemma logged_quiet s s' o : EVS_Log s' = EVS_Log s → EvsSent s' = EvsSent s ++ o → bus_events o = [] → hk_MessageFormatMode (EVS_Tlm s') = hk_MessageFormatMode (EVS_Tlm s) → logged [] s s'.
Proof. intros H1 H2 H3 H4 Hf. exists []. split; [done|done|exists o; by rewrite H3|]. unfold format_ok in *. by rewrite H4. Qed.

Lemma logged_same s s' : EVS_Log s' = EVS_Log s → EvsSent s' = EvsSent s → hk_MessageFormatMode (EVS_Tlm s') = hk_MessageFormatMode (EVS_Tlm s) → logged [] s s'.
Proof. intros H1 H2 H3. apply (logged_quiet s s' []); [done|by rewrite app_nil_r|done|done]. Qed.

#[local] Instance logged_refl : Reflexive (logged []).
Proof. intros s. by apply logged_same. Qed.

Lemma port_out_quiet t port p : bus_events (port_out t port p) = [].
Proof. unfold port_out. by destruct (Z.testbit _ _). Qed.

(** A packet that is delivered is one event on the bus. *)
Lemma bus_delivered t time p : hk_MessageFormatMode t = CFE_EVS_MsgFormat_LONG ∨ hk_MessageFormatMode t = CFE_EVS_MsgFormat_SHORT → le_TlmHeader p = event_header 0x808 172 time →
  Forall2 carries (bus_events (delivered t time p)) [p].
Proof.
  intros H Hp. unfold delivered. rewrite !bus_events_app, !port_out_quiet. cbn [app]. destruct H as [-> | ->]; apply Forall2_cons; (split; [|done]); [done|]. split; [done|].
  rewrite Hp. cbn [se_TlmHeader]. unfold event_header. destruct evs_hdr; reflexivity.
Qed.

Lemma bus_concat t time l : hk_MessageFormatMode t = CFE_EVS_MsgFormat_LONG ∨ hk_MessageFormatMode t = CFE_EVS_MsgFormat_SHORT → Forall (λ p, le_TlmHeader p = event_header 0x808 172 time) l →
  Forall2 carries (bus_events (concat (map (delivered t time) l))) l.
Proof. intros H Hl. induction Hl as [|p l Hp Hl IH]; [done|]. cbn [map concat]. rewrite bus_events_app. change (p :: l) with ([p] ++ l). apply Forall2_app; [by apply bus_delivered|done]. Qed.

Lemma logged_own l s s' : own_events l s s' → logged [] s s'.
Proof.
  intros H Hf. exists l. split.
  - done.
  - rewrite (oe_log _ _ _ H). symmetry. apply (foldl_fmap log_step (EVS_Log s) l Push).
  - exists (concat (map (delivered (EVS_Tlm s) (Now s)) l)). split; [apply H|]. apply bus_concat; [done|apply H].
  - unfold format_ok. rewrite (oe_tlm _ _ _ H). done.
Qed.

Lemma logged_put i a s : logged [] s (put_app i a s).
Proof. by apply logged_same. Qed.

Lemma logged_gen i a e ty time text s : logged [] s (gen i a e ty time text s).
Proof.
  intros Hf. exists [packet_of a e ty time text s]. split; [done|done| |done].
  exists (delivered (EVS_Tlm s) time (packet_of a e ty time text s)). split; [done|]. by apply bus_delivered.
Qed.

(** ** The calls *)

Lemma logged_event AppID e ty time text s r s' : event_result AppID e ty time text s r s' → logged [] s s'.
Proof.
  unfold event_result. destruct (app_index AppID) as [i|]; [|by intros [_ ->]]. intros (a & Ha & H). destruct (ad_AppID a =? AppID); destruct H as [_ H].
  - destruct H as (l & s1 & a1 & Hl & _ & _ & _ & _ & ->). etrans; [apply (logged_put i (counted a e ty))|]. etrans; [by eapply logged_own|]. destruct (passes a e ty); [apply logged_gen|done].
  - unfold unregistered in H. destruct (_ =? _); [by subst|]. destruct H as (l & s1 & Hl & _ & ->).
    etrans; [|apply (logged_quiet s1 _ [OutSysLog (unreg_text AppID s ++ [10])]); done]. etrans; [|by eapply logged_own]. by apply logged_same.
Qed.

Lemma logged_register App F n sc s r s' : register_result App F n sc s r s' → logged [] s s'.
Proof.
  unfold register_result. destruct (if App.1 =? CFE_SUCCESS then _ else _) as [i|]; [|by intros [_ ->]]. destruct (negb _); [intros [_ ->]; apply logged_put|].
  destruct (_ && _); [intros [_ ->]; apply logged_put|]. intros [_ ->]. etrans; [apply (logged_put i (registered App.2 (used_filters F n)))|]. apply (logged_quiet _ _ (limit_out n)); [done|done| |done].
  unfold limit_out. by destruct (_ <? _).
Qed.

Lemma logged_unregister AppID s s' : unregister_result AppID s s' → logged [] s s'.
Proof.
  unfold unregister_result. destruct (EVS_GetAppDataByID AppID) as [i|]; [|by intros ->]. intros (a & _ & ->). destruct (_ =? _); [apply logged_put|done].
Qed.

Lemma logged_reset App f s r s' : reset_result App f s r s' → logged [] s s'.
Proof.
  unfold reset_result. destruct (if App.1 =? CFE_SUCCESS then _ else _) as [i|]; [|by intros [_ ->]]. intros (a & _ & H). destruct (_ =? _); [|by destruct H as [_ ->]].
  destruct (f a); destruct H as [_ ->]; [apply logged_put|done].
Qed.

Lemma logged_out o s : bus_events o = [] → logged [] s (file_out o s).
Proof. intros H. by apply (logged_quiet _ _ o). Qed.

Lemma bus_entries {A} (k : A → EvsOut) l : (∀ x, bus_events [k x] = []) → bus_events (map k l) = [].
Proof. intros H. induction l as [|x l IH]; [done|]. pose proof (bus_events_app [k x] (map k l)) as E. by rewrite H, IH in E. Qed.

Lemma logged_write_log F io s r s' : write_log_result F io s r s' → logged [] s s'.
Proof.
  unfold write_log_result. destruct (_ <? _); [intros [_ [l H]]; etrans; [|by eapply logged_own]; by apply logged_out|]. destruct (negb _); [intros [_ ->]; by apply logged_out|].
  intros (_ & l & s1 & H & ->). etrans; [|by apply logged_out]. etrans; [|by eapply logged_own]. apply logged_out. rewrite bus_events_app. cbn. by apply bus_entries.
Qed.

Lemma logged_write_app F io s r s' : write_app_result F io s r s' → logged [] s s'.
Proof.
  unfold write_app_result. destruct (_ <? _); [intros [_ [l H]]; etrans; [|by eapply logged_own]; by apply logged_out|]. destruct (negb _); [intros [_ ->]; by apply logged_out|].
  intros (_ & l & s1 & H & ->). etrans; [|by apply logged_out]. etrans; [|by eapply logged_own]. apply logged_out. rewrite bus_events_app. cbn. by apply bus_entries.
Qed.

Lemma logged_effect m s s1 : em_MsgId m = CFE_EVS_CMD_MID → command_effect m s = Some s1 → logged (lead_ops (CallPacket m)) s s1.
Proof.
  intros Hid. unfold command_effect, lead_ops. rewrite Hid, Z.eqb_refl. cbn [negb orb]. destruct (size_ok m); cbn [negb]; [|done].
  repeat match goal with |- (if em_FcnCode m =? ?c then _ else _) = _ → _ => destruct (Z.eqb_spec (em_FcnCode m) c) as [Hc|_]; [rewrite ?Hc|] end; vm_if; intros E.
  - injection E as <-. by apply logged_same.
  - destruct (mask_ok _); [|done]. injection E as <-. by apply logged_same.
  - destruct (mask_ok _); [|done]. injection E as <-. by apply logged_same.
  - destruct (_ || _) eqn:Em; [|done]. injection E as <-. intros Hf. exists []. split; [done|done|exists []; by rewrite app_nil_r|]. intros _. unfold format_ok. cbn.
    apply orb_true_iff in Em as [E|E]; apply Z.eqb_eq in E; auto.
  - destruct (mask_ok _); [|done]. injection E as <-. by apply logged_same.
  - destruct (mask_ok _); [|done]. injection E as <-. by apply logged_same.
  - destruct (_ || _) eqn:Em; [|done]. injection E as <-. intros Hf. exists []. split; [|done|exists []; by rewrite app_nil_r|done]. apply Forall_singleton.
    apply orb_true_iff in Em as [E|E]; apply Z.eqb_eq in E; cbn; auto.
  - injection E as <-. intros Hf. exists []. split; [by repeat constructor|done|exists []; by rewrite app_nil_r|done].
  - destruct (named (em_AppName m) s) as [[i a]|]; [|done]. cbn in E. destruct (app_effect m a) as [a'|]; [|done]. cbn in E. injection E as <-. apply logged_put.
Qed.

(** A command that is refused does not begin with an operation on the log. *)
Lemma lead_refused m s : em_MsgId m = CFE_EVS_CMD_MID → command_effect m s = None → lead_ops (CallPacket m) = [].
Proof.
  intros Hid. unfold command_effect, lead_ops. rewrite Hid, Z.eqb_refl. cbn [negb orb]. destruct (size_ok m); cbn [negb]; [|done]. intros E.
  destruct (Z.eqb_spec (em_FcnCode m) CFE_EVS_SET_LOG_MODE_CC) as [Hc|_].
  - rewrite Hc in E. revert E. vm_if. by destruct (_ || _).
  - destruct (Z.eqb_spec (em_FcnCode m) CFE_EVS_CLEAR_LOG_CC) as [Hc|_]; [|done]. rewrite Hc in E. revert E. vm_if. done.
Qed.

Lemma lead_other m cc : em_FcnCode m = cc → cc ≠ CFE_EVS_SET_LOG_MODE_CC → cc ≠ CFE_EVS_CLEAR_LOG_CC → lead_ops (CallPacket m) = [].
Proof. intros Hc H1 H2. cbn [lead_ops]. rewrite Hc, (proj2 (Z.eqb_neq _ _) H1), (proj2 (Z.eqb_neq _ _) H2). by destruct (_ || _). Qed.

Lemma logged_cmd m s r s' : em_MsgId m = CFE_EVS_CMD_MID → cmd_result m s r s' → logged (lead_ops (CallPacket m)) s s'.
Proof.
  intros Hid. unfold cmd_result.
  destruct (size_ok m && (em_FcnCode m =? CFE_EVS_RESET_COUNTERS_CC)) eqn:E1.
  { apply andb_true_iff in E1 as [_ E1%Z.eqb_eq]. rewrite (lead_other m _ E1) by done. intros [_ [l H]]; etrans; [|by eapply logged_own]; by apply logged_same. }
  destruct (size_ok m && (em_FcnCode m =? CFE_EVS_WRITE_LOG_DATA_FILE_CC)) eqn:E2.
  { apply andb_true_iff in E2 as [_ E2%Z.eqb_eq]. rewrite (lead_other m _ E2) by done. apply logged_write_log. }
  destruct (size_ok m && (em_FcnCode m =? CFE_EVS_WRITE_APP_DATA_FILE_CC)) eqn:E3.
  { apply andb_true_iff in E3 as [_ E3%Z.eqb_eq]. rewrite (lead_other m _ E3) by done. apply logged_write_app. }
  unfold handled. destruct (command_effect m s) as [s1|] eqn:E; intros (_ & _ & l & H).
  - eapply logged_lead; [by apply logged_effect|by eapply logged_own].
  - rewrite (lead_refused m s) by done. by eapply logged_own.
Qed.

Lemma logged_packet m s s' : packet_result m s s' → logged (lead_ops (CallPacket m)) s s'.
Proof.
  unfold packet_result. destruct (Z.eqb_spec (em_MsgId m) CFE_EVS_CMD_MID) as [Hid|Hid].
  { intros (r & s1 & H & ->). eapply logged_lead; [by eapply logged_cmd|]. unfold cmd_count. destruct (r =? CFE_SUCCESS); [by apply logged_same|]. destruct (r <? 0); [by apply logged_same|done]. }
  assert (lead_ops (CallPacket m) = []) as -> by (cbn [lead_ops]; by rewrite (proj2 (Z.eqb_neq _ _) Hid)).
  destruct (_ =? _); [intros [h ->]; by apply (logged_quiet _ _ [OutHk h (hk_report s)])|]. intros [l H]. etrans; [|by eapply logged_own]. by apply logged_same.
Qed.

Lemma logged_task e s r s' : task_result e s r s' → logged [] s s'.
Proof.
  assert (∀ s r s', task_failed s r s' → logged [] s s') as Hf by (intros s0 r0 s0' [_ [t ->]]; by apply (logged_out [OutSysLog t])).
  intros [H|(r1 & s1 & Hr & H)]; [by eapply Hf|]. etrans; [by eapply logged_register|]. destruct H as [H|[H|(_ & l & H)]]; [by eapply Hf| |].
  - etrans; [|by eapply Hf]. by apply logged_same.
  - etrans; [|by eapply logged_own]. by apply logged_same.
Qed.

(** Every call keeps the invariant and works on the log by its operations. *)
Lemma evs_call_logged c s : evs_ok s → call_ok c → wp (evs_call c) (λ _ s', evs_ok s' ∧ logged (lead_ops c) s s') s.
Proof.
  intros H Hc. destruct c; cbn [evs_call call_ok] in *; try change (lead_ops _) with (@nil LogOp).
  - eapply wp_Register; [done|done|]. intros r s' Hr H'. split; [done|by eapply logged_register].
  - eapply wp_Unregister; [done|]. intros r s' Hr H'. split; [done|]. destruct (_ =? _); [by eapply logged_unregister|by subst].
  - eapply wp_CFE_SendEvent; [done|]. intros r s' H' Hr. split; [done|]. destruct Spec as [t|]; [|by destruct Hr as [_ ->]]. destruct (_ =? _); [by eapply logged_event|by destruct Hr as [_ ->]].
  - eapply wp_SendEventWithAppID; [done|]. intros r s' H' Hr. split; [done|]. destruct Spec as [t|]; [by eapply logged_event|by destruct Hr as [_ ->]].
  - eapply wp_SendTimedEvent; [done|]. intros r s' H' Hr. split; [done|]. destruct Spec as [t|]; [|by destruct Hr as [_ ->]]. destruct (_ =? _); [by eapply logged_event|by destruct Hr as [_ ->]].
  - eapply wp_ResetFilter; [done|]. intros r s' Hr H'. split; [done|by eapply logged_reset].
  - eapply wp_ResetAllFilters; [done|]. intros r s' Hr H'. split; [done|by eapply logged_reset].
  - eapply wp_EVS_CleanUpApp; [done|]. intros r s' Hr H'. split; [done|by eapply logged_unregister].
  - eapply wp_TaskInit; [done|]. intros r s' Hr H'. split; [done|by eapply logged_task].
  - apply wp_bind. eapply wp_ProcessCommandPacket; [done|done|]. intros s' Hr H'. app_go. split; [done|by eapply logged_packet].
  - app_go. split; [by destruct H|by apply logged_same].
Qed.

(** ** Sequences of calls *)

Fixpoint evs_run (cs : list EvsCall) s : option EG :=
  match cs with
  | [] => Some s
  | c :: cs => match evs_call c s with Some (_, s') => evs_run cs s' | None => None end
  end.

Lemma evs_run_logged cs s : evs_ok s → format_ok s → Forall call_ok cs →
  ∃ s' ls out, evs_run cs s = Some s' ∧ evs_ok s' ∧ length ls = length cs ∧
    let ops := concat (zip_with (λ c l, lead_ops c ++ map Push l) cs ls) in Forall op_ok ops ∧ EVS_Log s' = foldl log_step (EVS_Log s) ops ∧
    EvsSent s' = EvsSent s ++ out ∧ Forall2 carries (bus_events out) (concat ls).
Proof.
  revert s. induction cs as [|c cs IH]; intros s H Hf Hc.
  { exists s, [], []. split_and!; try done. by rewrite app_nil_r. }
  inversion Hc as [|? ? Hc1 Hc2]; subst. pose proof (evs_call_logged c s H Hc1) as Hw. unfold wp in Hw. cbn [evs_run]. destruct (evs_call c s) as [[r s1]|]; [|done].
  destruct Hw as [H1 Hl]. destruct (Hl Hf) as [l1 [A1 A2 (o1 & A3 & A4) A5]]. destruct (IH s1 H1 (A5 Hf) Hc2) as (s' & ls & o2 & E & H' & Hls & B1 & B2 & B3 & B4).
  exists s', (l1 :: ls), (o1 ++ o2). cbn [zip_with concat length]. split_and!.
  - done.
  - done.
  - by rewrite Hls.
  - apply Forall_app. split; [|done]. apply Forall_app. split; [done|]. apply Forall_map. by apply Forall_true.
  - by rewrite B2, foldl_app, <- A2.
  - by rewrite B3, A3, app_assoc.
  - rewrite bus_events_app. by apply Forall2_app.
Qed.
End evs.
