(* ===== verification/EvsTheorems.v ===== *)
(** * Event services: theorems *)
From Stdlib Require Import String.
From S2P Require Import Prelude Config Msg ResourceId Cstring EsApp TimeApi EvsState EvsApi EvsTask EvsCmds EvsInv EvsCalls EvsOps EvsDispatch EvsInit EvsHistory.
Import ListNotations.

Implicit Types (a : EVS_AppData_t) (p : CFE_EVS_LongEventTlm_t) (g : CFE_EVS_Log_t) (s : EG).

Lemma wp_run {A} (c : M EG A) (Q : A → EG → Prop) s : wp c Q s → ∃ r s', c s = Some (r, s') ∧ Q r s'.
Proof. unfold wp. destruct (c s) as [[r s']|]; [|done]. intros H. by exists r, s'. Qed.

(** ** The text of an event *)

Lemma cstr_text text l : Forall (λ c, c ≠ 0) text → cstr (text ++ 0 :: l) = text.
Proof. induction 1 as [|c t Hc Ht IH]; [done|]. cbn. rewrite (proj2 (Z.eqb_neq _ _) Hc). by f_equal. Qed.
Section evs.
Context `{Cfg : EvsCfg}.

(** [C30] Whatever length an event text has, its packet holds a string inside the 122-byte
    message field: a text of up to 121 characters is kept whole, and of a longer one 120
    characters are kept, followed by the truncation mark and the final zero. *)
Theorem event_text text : Forall (λ c, c ≠ 0) text →
  let '(msg, cut) := event_message text in
  length msg = CFE_MISSION_EVS_MAX_MESSAGE_LENGTH ∧ msg !! length (cstr msg) = Some 0 ∧ cut = (CFE_MISSION_EVS_MAX_MESSAGE_LENGTH <=? length text)%nat ∧
  cstr msg = if cut then take 120 text ++ [CFE_EVS_MSG_TRUNCATED] else text.
Proof.
  intros H. rewrite event_message_cases. unfold message_field, CFE_MISSION_EVS_MAX_MESSAGE_LENGTH. destruct (Nat.ltb_spec (length text) 122) as [Hl|Hl].
  - rewrite (proj2 (Nat.leb_gt _ _)) by lia. replace (122 - length text)%nat with (S (121 - length text)) by lia. cbn [replicate]. rewrite cstr_text by done.
    split_and!; [rewrite length_app; cbn [length]; rewrite length_replicate; lia|by apply list_lookup_middle|done|done].
  - rewrite (proj2 (Nat.leb_le _ _)) by lia. change (chars "$") with [CFE_EVS_MSG_TRUNCATED]. rewrite app_assoc.
    rewrite cstr_text by (apply Forall_app; split; [by apply Forall_take|by apply Forall_singleton]).
    split_and!; [rewrite !length_app, length_take; cbn [length]; lia|by apply list_lookup_middle|done|done].
Qed.

(** ** Safety *)

(** [C25] From any contents of the reset area that initialization accepts, every sequence
    of calls of event services returns: no access outside the tables, the log or the
    filters, no use of the log before it is set, no second lock of its mutex, and the
    recursion of own events ends. *)
Theorem evs_safe c s : evs_reach s → call_ok c → ∃ r s', evs_call c s = Some (r, s') ∧ evs_reach s' ∧ evs_ok s'.
Proof.
  intros H Hc. destruct (wp_run _ _ _ (evs_call_safe c s (evs_reach_ok s H) Hc)) as (r & s' & E & H'). exists r, s'. split_and!; [done|by eapply reach_call|done].
Qed.

(** [C31] The recursion of EVS_IsFiltered through own events is at most three calls deep:
    more depth gives the same result, from any entry of the table. *)
Theorem depth_enough d i a e ty s : evs_ok s → 0 <= i → AppData s !! Z.to_nat i = Some a →
  ∃ r, EVS_IsFiltered i e ty s = Some r ∧ IsFiltered_depth (3 + d) i e ty s = Some r.
Proof.
  intros H Hi Ha. assert (wp (IsFiltered_depth 3 i e ty) (λ _ _, True) s) as Hw by (by eapply (wp_IsFiltered 0)). destruct (wp_run _ _ _ Hw) as (b & s' & E & _).
  exists (b, s'). split; [exact E|]. induction d as [|d IH]; [exact E|]. by apply depth_mono.
Qed.

(** ** Refinement *)

(** [C26] Over any sequence of calls the event log refines a bounded list.  An accepted
    command to set the log mode sets it, an accepted command to clear the log clears it,
    and no other call does either; after that a call pushes its events (the oldest event
    leaves in the overwrite mode, the new one is dropped in the discard mode, and both
    count as overflow).  The events pushed are the packets sent on the software bus, in
    the same order: whole long packets, or short ones with the same identification and
    time. *)
Theorem log_history cs s : evs_ok s → log_ok (EVS_Log s) → format_ok s → Forall call_ok cs →
  ∃ s' ls out, evs_run cs s = Some s' ∧ length ls = length cs ∧ log_ok (EVS_Log s') ∧
    log_view (EVS_Log s') = foldl view_step (log_view (EVS_Log s)) (concat (zip_with (λ c l, lead_ops c ++ map Push l) cs ls)) ∧
    EvsSent s' = EvsSent s ++ out ∧ Forall2 carries (bus_events out) (concat ls).
Proof.
  intros H Hl Hf Hc. destruct (evs_run_logged cs s H Hf Hc) as (s' & ls & o & E & _ & Hn & L1 & L2 & L3 & L4). destruct (log_steps_view _ _ Hl L1) as [V1 V2].
  exists s', ls, o. rewrite L2. by split_and!.
Qed.

(** When the file system accepts every write, the log file holds exactly the events
    of the log, oldest first, after the header. *)
Theorem write_log_file Filename io s : evs_ok s → log_ok (EVS_Log s) → length Filename = CFE_MISSION_MAX_PATH_LEN →
  0 <= io_open io → io_header io = sizeof_FsHeader → (∀ k, io_write io k = sizeof_LongEventTlm) →
  ∃ s' l, CFE_EVS_WriteLogDataFileCmd Filename io s = Some (CFE_SUCCESS, s') ∧
    EvsSent s' = EvsSent s ++ [OutOpen (log_file Filename); OutHeader (chars "cFE EVS Log File") CFE_FS_SubType_EVS_EVENTLOG] ++
      map (λ p, OutLogEntry p sizeof_LongEventTlm) (log_list (EVS_Log s)) ++ concat (map (delivered (EVS_Tlm s) (Now s)) l) ++ [OutClose].
Proof.
  intros H Hl Hf Ho Hh Hw. assert (wp (CFE_EVS_WriteLogDataFileCmd Filename io) (write_log_result Filename io s) s) as W by (by eapply wp_WriteLogDataFileCmd).
  destruct (wp_run _ _ _ W) as (r & s' & E & R). unfold write_log_result in R. rewrite (proj2 (Z.ltb_ge _ _)) in R by (unfold OS_SUCCESS; lia). rewrite (proj2 (Z.eqb_eq _ _) Hh) in R. cbn [negb] in R.
  unfold log_written, log_writes in R. rewrite <- log_list_ring in R by done. destruct (write_calls_all sizeof_LongEventTlm (io_write io) 0 (log_list (EVS_Log s)) Hw) as [W1 W2]. rewrite W1, W2, log_list_length, Z.eqb_refl, map_map in R by done.
  destruct R as (-> & l & s1 & Hev & ->). exists (file_out [OutClose] s1), l. split; [done|]. cbn. rewrite (oe_sent _ _ _ Hev). cbn. by rewrite <- !app_assoc.
Qed.

(** A processor reset keeps the log, its mode and its overflow counter; a power-on
    reset empties it. *)
Theorem reset_keeps_log e s : log_ok (EVS_Log s) → ee_Status e = CFE_PSP_SUCCESS → ee_Expected e <= ee_Size e → ee_Mutex e = OS_SUCCESS →
  ∃ s', CFE_EVS_EarlyInit e s = Some (CFE_SUCCESS, s') ∧ log_ok (EVS_Log s') ∧
    log_view (EVS_Log s') = if ee_ResetType e =? CFE_PSP_RST_TYPE_POWERON then mkView CFE_PLATFORM_EVS_DEFAULT_LOG_MODE [] 0 else log_view (EVS_Log s).
Proof.
  intros H E1 E2 E3. pose proof H as [[A1 A2 A3] A4 A5 A6 A7 A8]. unfold CFE_PLATFORM_EVS_LOG_MAX in A1.
  assert (wp (CFE_EVS_EarlyInit e) (early_result e s) s) as W by (eapply wp_EarlyInit; [split; unfold is_u16 in *; try done; lia|done]). destruct (wp_run _ _ _ W) as (r & s' & E & R).
  unfold early_result in R. rewrite E1, E3, Z.eqb_refl in R. rewrite (proj2 (Z.ltb_ge _ _)) in R by lia. destruct R as [-> [_ _ Hl _ _]]. exists s'. rewrite Hl. unfold early_log. rewrite keeps_bad.
  assert (log_bad (EVS_Log s) = false) as ->.
  { unfold log_bad. rewrite A5. rewrite (proj2 (Z.leb_gt _ _)) by (unfold CFE_PLATFORM_EVS_LOG_MAX; lia). destruct (LogCount _ =? _), A7 as [-> | ->]; done. }
  destruct (ee_ResetType e =? CFE_PSP_RST_TYPE_POWERON); cbn [negb andb]; [|done].
  destruct (clear_log_ok (EVS_Log s) CFE_PLATFORM_EVS_DEFAULT_LOG_MODE A3) as [B1 B2]; [by right|]. split_and!; [done|done|]. unfold log_view. by rewrite B2.
Qed.
End evs.
