(* ===== verification/EvsFilter.v ===== *)
(** * Event services: what applications see

    The effect of a sequence of events on the filter of an application, and of its
    registration. *)
From Stdlib Require Import String.
From S2P Require Import Prelude Config Msg ResourceId Cstring EsApp TimeApi EvsState EvsApi EvsTask EvsCmds EvsInv EvsCalls EvsOps EvsDispatch EvsInit EvsHistory EvsTheorems.
Import ListNotations.

Implicit Types (a : EVS_AppData_t) (p : CFE_EVS_LongEventTlm_t) (g : CFE_EVS_Log_t) (s : EG).

Section evs.
Context `{Cfg : EvsCfg}.

(** The entry of an application after one of its events. *)
Definition sent_entry (e ty : Z) a : EVS_AppData_t := if passes a e ty then (counted a e ty) <| ad_EventCount ::= sat |> else counted a e ty.

Lemma filter_of_counted a e ty k f : type_on a ty = true → filter_of a e = Some (k, f) → filter_of (counted a e ty) e = Some (k, f <| bf_Count ::= sat |>).
Proof. intros Ht Hf. unfold counted. rewrite Ht, Hf. by apply (filter_of_insert a e k f). Qed.

Lemma sent_entry_spec a e ty k f : app_ok a → type_on a ty = true → filter_of a e = Some (k, f) →
  app_ok (sent_entry e ty a) ∧ ad_AppID (sent_entry e ty a) = ad_AppID a ∧ type_on (sent_entry e ty a) ty = true ∧
  filter_of (sent_entry e ty a) e = Some (k, f <| bf_Count ::= sat |>) ∧
  ad_EventCount (sent_entry e ty a) = if Z.land (bf_Mask f) (bf_Count f) =? 0 then sat (ad_EventCount a) else ad_EventCount a.
Proof.
  intros Ha Ht Hf. destruct (counted_ok a e ty Ha) as [C1 C2]. pose proof (filter_of_counted a e ty k f Ht Hf) as C3. pose proof (counted_type a e ty ty) as C4. rewrite Ht in C4.
  assert (ad_EventCount (counted a e ty) = ad_EventCount a) as C5 by (unfold counted; rewrite Ht, Hf; done).
  unfold sent_entry, passes. rewrite Ht, Hf. cbn [negb andb]. destruct (_ =? 0).
  - split_and!; [|apply C2|exact C4|exact C3|cbn; by rewrite C5]. destruct (sat_min _ (ao_count _ C1)) as [_ S2]. destruct C1. by split.
  - split_and!; [done|apply C2|done|done|done].
Qed.

(** An event of another application than event services leaves its entry so. *)
Lemma send_entry i a id e ty text s : evs_ok s → EVS_GetAppDataByID id = Some i → AppData s !! Z.to_nat i = Some a → ad_AppID a = id → id ≠ EVS_AppID s →
  ∃ s', evs_call (CallSend (CFE_SUCCESS, id) e ty (Some text)) s = Some (CFE_SUCCESS, s') ∧ evs_ok s' ∧ AppData s' !! Z.to_nat i = Some (sent_entry e ty a) ∧ EVS_AppID s' = EVS_AppID s.
Proof.
  intros H Ei Ha Em Hne. assert (wp (CFE_EVS_SendEvent (CFE_SUCCESS, id) e ty (Some text)) (λ r s', evs_ok s' ∧ event_result id e ty (Now s) text s r s') s) as W by (by apply wp_CFE_SendEvent).
  destruct (wp_run _ _ _ W) as (r & s' & E & H' & R). unfold event_result in R. rewrite <- AppDataByID_index, Ei in R. destruct R as (a0 & Ha0 & R). rewrite Ha in Ha0. injection Ha0 as <-. rewrite Em, Z.eqb_refl in R.
  destruct R as (-> & l & s1 & a1 & Hl & _ & _ & Ha1 & _ & ->). exists (if passes a e ty then gen i a1 e ty (Now s) text s1 else s1). split; [exact E|].
  assert (a1 = counted a e ty) as ->.
  { destruct (oe_apps _ _ _ Hl) as [_ Hap]. destruct (Hap (Z.to_nat i) (counted a e ty)) as (a2 & Ha2 & _ & Hd); [by apply (put_app_get _ a)|]. rewrite Ha1 in Ha2. injection Ha2 as <-.
    destruct (decide (a1 = counted a e ty)) as [|N]; [done|]. destruct (Hd N) as (j & Ho & _). destruct (own_entry_get _ _ _ Ho) as (_ & _ & _ & Hid).
    destruct (counted_ok a e ty (entry_ok _ _ _ H Ha)) as [_ Hg]. rewrite (ag_id _ _ Hg), Em in Hid. by destruct Hne. }
  assert (EVS_AppID s1 = EVS_AppID s) as Eid by (apply (oe_rest _ _ _ Hl)). unfold sent_entry. destruct (passes a e ty); [|done]. split_and!; [done| |done].
  change (AppData (gen i (counted a e ty) e ty (Now s) text s1)) with (AppData (put_app i ((counted a e ty) <| ad_EventCount ::= sat |>) s1)). by apply (put_app_get i (counted a e ty)).
Qed.

Lemma evs_run_app cs1 cs2 s : evs_run (cs1 ++ cs2) s = match evs_run cs1 s with Some s' => evs_run cs2 s' | None => None end.
Proof. revert s. induction cs1 as [|c cs IH]; intros s; [done|]. cbn. destruct (evs_call c s) as [[r s']|]; [apply IH|done]. Qed.

(** The numbers of the events that pass a filter with this mask and count. *)
Definition passing (Mask Count : Z) (n : nat) : list nat := filter (λ j, Z.land Mask (Z.min 65535 (Count + Z.of_nat j)) = 0) (seq 0 n).

Lemma passing_S m c n : length (passing m c (S n)) = (length (passing m c n) + (if (Z.land m (Z.min 65535 (c + Z.of_nat n)) =? 0)%Z then 1%nat else 0%nat))%nat.
Proof.
  unfold passing. rewrite seq_S, filter_app, length_app. cbn [Nat.add]. f_equal. destruct (Z.eqb_spec (Z.land m (Z.min 65535 (c + Z.of_nat n))) 0) as [E|E].
  - by rewrite filter_cons_True.
  - by rewrite filter_cons_False.
Qed.

Lemma filter_count a e k f : app_ok a → filter_of a e = Some (k, f) → is_u16 (bf_Count f).
Proof.
  intros Hok Hf. pose proof (filter_of_find a e) as E. rewrite Hf in E. destruct (filter_of_Some _ _ _ E) as (g & Hg & Hl & _). rewrite Hf in Hg. injection Hg as <-.
  apply (Forall_lookup_1 _ _ _ _ (ao_filters a Hok) Hl).
Qed.

Lemma sat_at n : 0 <= n → sat (Z.min 65535 n) = Z.min 65535 (n + 1).
Proof. intros H. rewrite (proj1 (sat_min (Z.min 65535 n) ltac:(unfold is_u16; lia))). lia. Qed.

(** The entry after [n] events. *)
Record after_sends (id i : Z) a (k e ty : Z) (f : EVS_BinFilter_t) (n : nat) s s' a' : Prop := {
  af_ok : evs_ok s';
  af_get : AppData s' !! Z.to_nat i = Some a';
  af_id : ad_AppID a' = id ∧ EVS_AppID s' = EVS_AppID s;
  af_type : type_on a' ty = true;
  af_filter : filter_of a' e = Some (k, f <| bf_Count := Z.min 65535 (bf_Count f + Z.of_nat n) |>);
  af_count : ad_EventCount a' = Z.min 65535 (ad_EventCount a + Z.of_nat (length (passing (bf_Mask f) (bf_Count f) n)));
}.

Lemma sends id i a k f e ty text n s : evs_ok s → EVS_GetAppDataByID id = Some i → AppData s !! Z.to_nat i = Some a → ad_AppID a = id → id ≠ EVS_AppID s →
  type_on a ty = true → filter_of a e = Some (k, f) →
  ∃ s' a', evs_run (replicate n (CallSend (CFE_SUCCESS, id) e ty (Some text))) s = Some s' ∧ after_sends id i a k e ty f n s s' a'.
Proof.
  intros H Ei Ha Em Hne Ht Hf. pose proof (entry_ok _ _ _ H Ha) as Hok. pose proof (filter_count _ _ _ _ Hok Hf) as F2. pose proof (ao_count a Hok) as F3. unfold is_u16 in F2, F3.
  induction n as [|n (s1 & a1 & B1 & [B2 B3 [B4 B5] B6 B7 B8])].
  { exists s, a. split; [done|]. split; try done.
    - rewrite Hf. do 2 f_equal. destruct f. unfold set. cbn in *. f_equal. lia.
    - cbn. lia. }
  destruct (send_entry i a1 id e ty text s1 B2 Ei B3 B4 ltac:(congruence)) as (s2 & C1 & C2 & C3 & C4). destruct (sent_entry_spec a1 e ty _ _ (entry_ok _ _ _ B2 B3) B6 B7) as (D1 & D2 & D3 & D4 & D5).
  exists s2, (sent_entry e ty a1). split; [by rewrite replicate_S_end, evs_run_app, B1; cbn [evs_run]; rewrite C1|]. split; try done.
  - split; congruence.
  - rewrite D4. do 2 f_equal. destruct f. unfold set. cbn in *. f_equal. rewrite sat_at by lia. lia.
  - rewrite D5, passing_S, B8. cbn [bf_Mask bf_Count set]. destruct f as [fe fm fc]. unfold set. cbn in *. destruct (_ =? 0); [rewrite sat_at by lia|]; lia.
Qed.

(** [C27] Binary filters: a registered application other than event services, with the type
    of the event switched on and a filter for the event number, sends n events with that
    number.  The filter counts every one, up to 65535, and the event counter of the
    application grows, up to 65535, by the number of those that passed: the ones at whose
    position j the mask and the count c + j, which stops at 65535, have no common bit, where
    c is the count at the start. *)
Theorem filter_sequence id i a k f e ty text n s : evs_ok s → EVS_GetAppDataByID id = Some i → AppData s !! Z.to_nat i = Some a → ad_AppID a = id → id ≠ EVS_AppID s →
  type_on a ty = true → filter_of a e = Some (k, f) →
  ∃ s' a', evs_run (replicate n (CallSend (CFE_SUCCESS, id) e ty (Some text))) s = Some s' ∧ AppData s' !! Z.to_nat i = Some a' ∧
    filter_of a' e = Some (k, f <| bf_Count := Z.min 65535 (bf_Count f + Z.of_nat n) |>) ∧
    ad_EventCount a' = Z.min 65535 (ad_EventCount a + Z.of_nat (length (passing (bf_Mask f) (bf_Count f) n))).
Proof.
  intros H Ei Ha Em Hne Ht Hf. destruct (sends id i a k f e ty text n s H Ei Ha Em Hne Ht Hf) as (s' & a' & E & [A1 A2 A3 A4 A5 A6]). by exists s', a'.
Qed.

(** ** Registration *)

Lemma s16_inj x y : is_u16 x → is_u16 y → s16 x = s16 y → x = y.
Proof. unfold is_u16, s16. intros Hx Hy. change (2 ^ 15) with 32768. change (2 ^ 16) with 65536. intros E. Z.to_euclidean_division_equations. lia. Qed.

Lemma filter_of_registered AppID fs k f : (length fs <= max_filters)%nat → fs !! k = Some f → (∀ j f', (j < k)%nat → fs !! j = Some f' → s16 (fl_EventID f') ≠ s16 (fl_EventID f)) →
  filter_of (registered AppID fs) (fl_EventID f) = Some (Z.of_nat k, app_filter f).
Proof.
  intros Hl Hk Hj. unfold filter_of. cbn [ad_BinFilters registered]. pose proof (lookup_lt_Some _ _ _ Hk) as Hlt. set (l := (app_filter <$> fs) ++ _).
  assert (∀ j, (j <= k)%nat → l !! j = app_filter <$> fs !! j) as E by (intros j Hjk; unfold l; rewrite lookup_app_l by (rewrite length_fmap; lia); apply list_lookup_fmap).
  rewrite (proj2 (list_find_Some (λ x, bf_EventID x = s16 (fl_EventID f)) l k (app_filter f))); [done|]. split_and!.
  - by rewrite E, Hk.
  - done.
  - intros j y Hy Hjk. rewrite E in Hy by lia. destruct (fs !! j) as [x|] eqn:Ex; [|done]. injection Hy as <-. by apply (Hj j).
Qed.

Lemma filter_of_other AppID fs e : is_u16 e → e ≠ 65535 → Forall (λ f, is_u16 (fl_EventID f)) fs → Forall (λ f, fl_EventID f ≠ e) fs → filter_of (registered AppID fs) e = None.
Proof.
  intros He Hn H1 H2. unfold filter_of. rewrite (proj2 (list_find_None _ _)); [done|]. cbn [ad_BinFilters registered]. apply Forall_app. split.
  - apply Forall_fmap. apply Forall_forall. intros f Hf E. apply (proj1 (Forall_forall _ _) H2 f Hf). apply s16_inj; [by apply (proj1 (Forall_forall _ _) H1)|done|done].
  - apply Forall_replicate. intros E. apply Hn. symmetry. by apply (s16_inj 65535 e).
Qed.

(** Registration: the first filters of the application, up to the limit, are found
    under their event numbers with their masks and a count of zero, no other event number
    but 0xFFFF has a filter, and the entries of other applications stay. *)
Theorem register_filters AppID i F n s : evs_ok s → filters_ok (Some F) n → EVS_GetAppDataByID AppID = Some i → Forall (λ f, is_u16 (fl_EventID f)) F →
  let fs := take (Z.to_nat (n `min` CFE_PLATFORM_EVS_MAX_EVENT_FILTERS)) F in
  ∃ s' a, CFE_EVS_Register (CFE_SUCCESS, AppID) (Some F) n CFE_EVS_EventFilter_BINARY s = Some (CFE_SUCCESS, s') ∧ evs_ok s' ∧
    AppData s' !! Z.to_nat i = Some a ∧ ad_AppID a = AppID ∧ ad_ActiveFlag a = true ∧ ad_EventCount a = 0 ∧
    (∀ k f, fs !! k = Some f → (∀ j f', (j < k)%nat → fs !! j = Some f' → fl_EventID f' ≠ fl_EventID f) → filter_of a (fl_EventID f) = Some (Z.of_nat k, app_filter f)) ∧
    (∀ e, is_u16 e → e ≠ 65535 → Forall (λ f, fl_EventID f ≠ e) fs → filter_of a e = None) ∧
    (∀ j, j ≠ Z.to_nat i → AppData s' !! j = AppData s !! j).
Proof.
  intros H Hf Ei Hu fs. assert (wp (CFE_EVS_Register (CFE_SUCCESS, AppID) (Some F) n CFE_EVS_EventFilter_BINARY) (λ r s', register_result (CFE_SUCCESS, AppID) (Some F) n CFE_EVS_EventFilter_BINARY s r s' ∧ evs_ok s') s) as W by (by apply wp_Register).
  destruct (wp_run _ _ _ W) as (r & s' & E & R & H'). unfold register_result in R. cbn [fst snd] in R. rewrite Z.eqb_refl, Ei, Z.eqb_refl in R. cbn [negb] in R. rewrite andb_false_r in R. destruct R as [-> Es].
  assert (Forall (λ f, is_u16 (fl_EventID f)) fs) as Hfs by (by apply Forall_take). assert (length fs <= max_filters)%nat as Hl by (unfold fs, CFE_PLATFORM_EVS_MAX_EVENT_FILTERS; rewrite length_take; lia).
  destruct (app_entry _ _ _ H Ei) as (a0 & Ha0 & _). exists s', (registered AppID fs). split_and!; try done; rewrite ?Es.
  - by apply (put_app_get i a0).
  - intros k f Hk Hj. apply filter_of_registered; [done|done|]. intros j f' Hjk Hf' Eq. apply (Hj j f' Hjk Hf'). apply s16_inj; [by apply (Forall_lookup_1 _ _ _ _ Hfs Hf')|by apply (Forall_lookup_1 _ _ _ _ Hfs Hk)|done].
  - intros e He Hn Hne. by apply filter_of_other.
  - intros j Hj. apply list_lookup_insert_ne. done.
Qed.

(** ** Events and commands *)

(** [C28] An event of an application on every branch.  With an identifier that selects no
    entry nothing changes.  From an application that is not registered the first event is
    counted and reported by an own event and in the system log, and the event is not
    sent.  From a registered one it is counted by its filter, the end of the count is
    reported by an own event, and it is logged, printed on the enabled ports and sent,
    with the given time in its header, exactly when the application is active, the bit of
    its type is set and its filter lets it pass. *)
Theorem send_events AppID e ty text time s : evs_ok s →
  ∃ r s', CFE_EVS_SendTimedEvent (CFE_SUCCESS, AppID) time e ty (Some text) s = Some (r, s') ∧ evs_ok s' ∧ event_result AppID e ty time text s r s'.
Proof.
  intros H. assert (wp (CFE_EVS_SendTimedEvent (CFE_SUCCESS, AppID) time e ty (Some text)) (λ r s', evs_ok s' ∧ event_result AppID e ty time text s r s') s) as W by (by apply wp_SendTimedEvent).
  apply (wp_run _ _ _ W).
Qed.

(** [C29] A command packet on every branch.  A ground command of the length its code asks
    for is accepted and changes the state as its code says; it is counted as accepted,
    but for the reset of the counters, which is not counted.  One that is refused changes
    nothing but the error counter and what own events change; a file command that fails
    also leaves the output written until then.  A housekeeping request sends the
    telemetry, and any other identifier counts as an error. *)
Theorem evs_commands m s : evs_ok s → msg_ok m → ∃ s', CFE_EVS_ProcessCommandPacket m s = Some (tt, s') ∧ packet_result m s s' ∧ evs_ok s'.
Proof.
  intros H Hm. assert (wp (CFE_EVS_ProcessCommandPacket m) (λ _ s', packet_result m s s' ∧ evs_ok s') s) as W by (by apply wp_ProcessCommandPacket).
  destruct (wp_run _ _ _ W) as ([] & s' & E & R). by exists s'.
Qed.

(** A housekeeping packet reports the first sixteen registered applications; the
    entry after them is cleared, but the following ones keep what an earlier packet
    reported, so that applications that have left may still be listed. *)
Theorem hk_stale s : evs_ok s → let r := reports (AppData s) in
  ∃ s' h, CFE_EVS_ReportHousekeepingCmd s = Some (CFE_STATUS_NO_COUNTER_INCREMENT, s') ∧ EvsSent s' = EvsSent s ++ [OutHk h (EVS_Tlm s')] ∧
    ∀ j, (j < max_report)%nat → hk_AppData (EVS_Tlm s') !! j =
      if (j <? length r)%nat then r !! j else if (j =? length r)%nat then Some no_report else hk_AppData (EVS_Tlm s) !! j.
Proof.
  intros H r. assert (wp CFE_EVS_ReportHousekeepingCmd (λ r s', r = CFE_STATUS_NO_COUNTER_INCREMENT ∧
      ∃ h, s' = s <| EVS_Tlm := hk_report s |> <| EVS_TlmHeader := h |> <| EvsSent ::= λ o, o ++ [OutHk h (hk_report s)] |>) s) as W by (apply wp_ReportHousekeepingCmd; [done|]; intros h s' _; split; [done|by exists h]).
  destruct (wp_run _ _ _ W) as (r' & s' & E & -> & h & Es). exists s', h. split_and!; [done|by rewrite Es|]. intros j Hj.
  assert (hk_AppData (EVS_Tlm s') = report_tlm (AppData s) (hk_AppData (EVS_Tlm s))) as -> by (by rewrite Es).
  unfold report_tlm. fold r. pose proof (eo_tlm s H) as Hl. destruct (Nat.ltb_spec (length r) max_report) as [Hr|Hr].
  - destruct (Nat.ltb_spec j (length r)); [by rewrite lookup_app_l|]. rewrite lookup_app_r by done. destruct (Nat.eqb_spec j (length r)) as [->|]; [by rewrite Nat.sub_diag|].
    destruct (j - length r)%nat as [|d] eqn:Ed; [lia|]. rewrite lookup_cons_ne_0 by done. cbn [Nat.pred]. rewrite lookup_drop. f_equal. lia.
  - by rewrite (proj2 (Nat.ltb_lt _ _)) by lia.
Qed.
End evs.

(** ** Message fields *)

Lemma StringGet_text n d text rest : Forall (λ c, c ≠ 0) text → (length text <= n)%nat → (length text <= d)%nat → ((length text < n)%nat → rest = 0 :: tail rest) →
  StringGet_loop (text ++ rest) n d = Some text.
Proof.
  intros Ht. revert n d. induction Ht as [|c t Hc Ht IH]; intros n d Hn Hd Hr.
  - destruct n as [|n]; [by destruct rest|]. rewrite Hr by (cbn; lia). by destruct d.
  - destruct n as [|n], d as [|d]; cbn in Hn, Hd; try lia. cbn. rewrite (proj2 (Z.eqb_neq _ _) Hc). rewrite IH; [done|lia|lia|]. intros H. apply Hr. cbn. lia.
Qed.

(** A string written into a message field by CFE_SB_MessageStringSet is read back by
    CFE_SB_MessageStringGet, also when it fills the field and no zero ends it there. *)
Theorem string_field text rest field dest n d : Forall (λ c, c ≠ 0) text → (length text <= n)%nat → length field = n → (length text < d)%nat →
  ∃ field', CFE_SB_MessageStringSet (Some field) (Some (text ++ 0 :: rest)) n (S (length text)) = Some (Z.of_nat (length text), Some field') ∧ length field' = n ∧
    CFE_SB_MessageStringGet (Some dest) field' None d n = Some (Z.of_nat (length text), Some (text ++ 0 :: drop (S (length text)) dest)).
Proof.
  intros Ht Hn Hf Hd. exists (text ++ replicate (n - length text) 0). split_and!.
  - cbn. rewrite StringGet_text by (done || lia). cbn. by rewrite (drop_ge field), app_nil_r by lia.
  - rewrite length_app, length_replicate. lia.
  - destruct d as [|d]; [lia|]. cbn. rewrite StringGet_text; [done|done|done|lia|]. intros H. replace (n - length text)%nat with (S (n - length text - 1)) by lia. done.
Qed.
