(* ===== verification/EvsExamples.v ===== *)
(** * Event services: the theorems on concrete states *)
From Stdlib Require Import String.
From S2P Require Import Prelude Config Msg ResourceId Cstring EsApp TimeApi EvsState EvsApi EvsTask EvsCmds EvsInv EvsCalls EvsOps EvsDispatch EvsInit EvsHistory EvsTheorems EvsFilter.
Import ListNotations.

Module EvsRuns.

#[local] Instance cfg : EvsCfg := {|
  evs_hdr := Hdr_Pri; evs_idv := MsgId_V1; CFE_PSP_GetSpacecraftId := 66; CFE_PSP_GetProcessorId := 1; CFE_VERSION_STRING := chars "v6.7" |}.

(** Event services and one application, after a power-on reset. *)
Definition id_evs : Z := CFE_ES_APPID_BASE + 1.
Definition id_app : Z := CFE_ES_APPID_BASE + 2.

Definition no_app : CFE_ES_AppRecord_t := mkAppRecord CFE_RESOURCEID_UNDEFINED [].
Definition apps : list CFE_ES_AppRecord_t := [no_app; mkAppRecord id_evs (chars "CFE_EVS"); mkAppRecord id_app (chars "APP")] ++ replicate 29 no_app.

Definition memory : EG := mkEvs [] false [] zero_tlm 0 true 0 (mkLog 7 9 5 3 1 (replicate 20 zero_packet)) apps (mkTime 100 0) [].
Definition early : EarlyEnv := mkEarly 0 4096 4000 0 CFE_PSP_RST_TYPE_POWERON.
Definition task : TaskEnv := mkTaskEnv 0 (0, id_evs) (0, 3) 0 0.
Definition two_filters : list CFE_EVS_BinFilter_t := [mkFilter 4 0x0003; mkFilter 5 0xFFFF].

Definition after {A} (c : M EG A) (s : EG) : EG := match c s with Some (_, s') => s' | None => s end.

Definition booted : EG := after (CFE_EVS_EarlyInit early) memory.
Definition started : EG := after (evs_call (CallTaskInit task)) booted.
Definition running : EG := after (evs_call (CallRegister (0, id_app) (Some two_filters) 2 CFE_EVS_EventFilter_BINARY)) started.

Lemma booted_reach : evs_reach booted.
Proof. eapply (reach_init early memory); [by split|]. vm_compute. reflexivity. Qed.

Lemma started_reach : evs_reach started.
Proof. eapply (reach_call (CallTaskInit task) CFE_SUCCESS booted); [apply booted_reach|done|]. vm_compute. reflexivity. Qed.

Lemma running_reach : evs_reach running.
Proof.
  eapply (reach_call (CallRegister (0, id_app) (Some two_filters) 2 CFE_EVS_EventFilter_BINARY) CFE_SUCCESS started); [apply started_reach| |vm_compute; reflexivity].
  split; [done|]. split; [done|]. by repeat constructor.
Qed.

Lemma running_ok : evs_ok running.
Proof. apply evs_reach_ok, running_reach. Qed.

Lemma running_log : log_ok (EVS_Log running).
Proof.
  let g := eval vm_compute in (EVS_Log running) in assert (EVS_Log running = g) as -> by (vm_compute; reflexivity).
  split; cbn; unfold is_u16; try done; try lia. by right.
Qed.

Lemma event_text_witness : Forall (λ c, c ≠ 0) (chars "Hello") ∧ cstr (event_message (chars "Hello")).1 = chars "Hello".
Proof. assert (Forall (λ c, c ≠ 0) (chars "Hello")) as H by (by repeat constructor). split; [exact H|]. exact (proj2 (proj2 (proj2 (event_text (chars "Hello") H)))). Defined.

Lemma evs_safe_witness : ∃ r s', evs_call (CallSend (0, id_app) 4 CFE_EVS_EventType_INFORMATION (Some (chars "Hello"))) running = Some (r, s') ∧ evs_reach s' ∧ evs_ok s'.
Proof. apply (evs_safe (CallSend (0, id_app) 4 CFE_EVS_EventType_INFORMATION (Some (chars "Hello"))) running running_reach I). Defined.

Definition app_entry2 : EVS_AppData_t := registered id_app two_filters.

Lemma depth_enough_witness : ∃ r, EVS_IsFiltered 2 4 CFE_EVS_EventType_INFORMATION running = Some r ∧ IsFiltered_depth 8 2 4 CFE_EVS_EventType_INFORMATION running = Some r.
Proof. refine (depth_enough 5 2 app_entry2 4 CFE_EVS_EventType_INFORMATION running running_ok _ _); [done|vm_compute; reflexivity]. Defined.

Definition field (n : nat) (text : list Z) : list Z := text ++ replicate (n - length text) 0.
Definition good_io : FileIO := mkFileIO 3 sizeof_FsHeader (λ _, sizeof_LongEventTlm).

(** A command that adds a filter to the application. *)
Definition add_cmd : EvsMsg :=
  mkEvsMsg CFE_EVS_CMD_MID CFE_EVS_ADD_EVENT_FILTER_CC (sizeof_CmdHeader + 24) (field CFE_MISSION_MAX_API_LEN (chars "APP")) 9 0xFF00 0 0 (field CFE_MISSION_MAX_PATH_LEN []) good_io.

Definition send (e : Z) : EvsCall := CallSend (CFE_SUCCESS, id_app) e CFE_EVS_EventType_INFORMATION (Some (chars "Hello")).

Lemma add_cmd_ok : msg_ok add_cmd.
Proof. by split. Qed.

Lemma running_format : format_ok running.
Proof. left. vm_compute. reflexivity. Qed.

(** A command that clears the log. *)
Definition clear_cmd : EvsMsg :=
  mkEvsMsg CFE_EVS_CMD_MID CFE_EVS_CLEAR_LOG_CC sizeof_CmdHeader (field CFE_MISSION_MAX_API_LEN []) 0 0 0 0 (field CFE_MISSION_MAX_PATH_LEN []) good_io.

Definition history : list EvsCall := [send 4; CallPacket add_cmd; CallPacket clear_cmd; send 9].

Lemma history_ok : Forall call_ok history.
Proof. apply Forall_cons_2; [exact I|]. apply Forall_cons_2; [exact add_cmd_ok|]. apply Forall_cons_2; [by split|]. apply Forall_cons_2; [exact I|]. apply Forall_nil_2. Qed.

Lemma log_history_witness : lead_ops (CallPacket clear_cmd) = [Clear] ∧ ∃ s' ls out, evs_run history running = Some s' ∧ length ls = length history ∧ log_ok (EVS_Log s') ∧
  log_view (EVS_Log s') = foldl view_step (log_view (EVS_Log running)) (concat (zip_with (λ c l, lead_ops c ++ map Push l) history ls)) ∧
  EvsSent s' = EvsSent running ++ out ∧ Forall2 carries (bus_events out) (concat ls).
Proof. split; [reflexivity|]. exact (log_history history running running_ok running_log running_format history_ok). Defined.

Lemma write_log_file_witness : ∃ s' l, CFE_EVS_WriteLogDataFileCmd (field CFE_MISSION_MAX_PATH_LEN (chars "/ram/x.log")) good_io running = Some (CFE_SUCCESS, s') ∧
  EvsSent s' = EvsSent running ++ [OutOpen (log_file (field CFE_MISSION_MAX_PATH_LEN (chars "/ram/x.log"))); OutHeader (chars "cFE EVS Log File") CFE_FS_SubType_EVS_EVENTLOG] ++
    map (λ p, OutLogEntry p sizeof_LongEventTlm) (log_list (EVS_Log running)) ++ concat (map (delivered (EVS_Tlm running) (Now running)) l) ++ [OutClose].
Proof. refine (write_log_file (field CFE_MISSION_MAX_PATH_LEN (chars "/ram/x.log")) good_io running running_ok running_log _ _ _ _); [reflexivity|done|reflexivity|reflexivity]. Defined.

(** A processor reset. *)
Definition again : EarlyEnv := mkEarly 0 4096 4000 0 1.

Lemma reset_keeps_log_witness : ∃ s', CFE_EVS_EarlyInit again running = Some (CFE_SUCCESS, s') ∧ log_ok (EVS_Log s') ∧ log_view (EVS_Log s') = log_view (EVS_Log running).
Proof. refine (reset_keeps_log again running running_log _ _ _); [reflexivity|done|reflexivity]. Defined.

Lemma filter_sequence_witness : ∃ s' a', evs_run (replicate 10 (send 4)) running = Some s' ∧ AppData s' !! 2%nat = Some a' ∧
  filter_of a' 4 = Some (0, mkBinFilter 4 3 10) ∧ ad_EventCount a' = 3.
Proof.
  refine (filter_sequence id_app 2 app_entry2 0 (mkBinFilter 4 3 0) 4 CFE_EVS_EventType_INFORMATION (chars "Hello") 10 running running_ok _ _ _ _ _ _);
    [reflexivity|vm_compute; reflexivity|reflexivity|vm_compute; discriminate|reflexivity|reflexivity]. Defined.

Lemma register_filters_witness : ∃ s' a, CFE_EVS_Register (CFE_SUCCESS, id_app) (Some two_filters) 2 CFE_EVS_EventFilter_BINARY started = Some (CFE_SUCCESS, s') ∧
  AppData s' !! 2%nat = Some a ∧ filter_of a 5 = Some (1, mkBinFilter 5 0xFFFF 0) ∧ filter_of a 6 = None.
Proof.
  destruct (register_filters id_app 2 two_filters 2 started (evs_reach_ok _ started_reach)) as (s' & a & E & _ & Ha & _ & _ & _ & Hf & Hn & _).
  - split; [done|]. split; [done|]. by repeat constructor.
  - reflexivity.
  - by repeat constructor.
  - exists s', a. split_and!; [exact E|exact Ha| |].
    + apply (Hf 1%nat (mkFilter 5 0xFFFF)); [reflexivity|]. intros [|j] f' Hj Hf'; [by injection Hf' as <-|lia].
    + apply Hn; clear; [by vm_compute|by vm_compute|]. change (Forall (λ f, fl_EventID f ≠ 6) two_filters). by repeat constructor.
Defined.

Lemma send_events_witness : ∃ r s', CFE_EVS_SendTimedEvent (CFE_SUCCESS, id_app) (mkTime 7 0) 5 CFE_EVS_EventType_INFORMATION (Some (chars "Hello")) running = Some (r, s') ∧ evs_ok s' ∧
  event_result id_app 5 CFE_EVS_EventType_INFORMATION (mkTime 7 0) (chars "Hello") running r s'.
Proof. apply (send_events id_app 5 CFE_EVS_EventType_INFORMATION (chars "Hello") (mkTime 7 0) running running_ok). Defined.

Lemma evs_commands_witness : ∃ s', CFE_EVS_ProcessCommandPacket add_cmd running = Some (tt, s') ∧ packet_result add_cmd running s' ∧ evs_ok s'.
Proof. apply (evs_commands add_cmd running running_ok add_cmd_ok). Defined.

(** Three applications are reported, then the last two leave: the last one stays in the
    packet. *)
Definition id_third : Z := CFE_ES_APPID_BASE + 3.
Definition hk_request : EvsMsg := mkEvsMsg CFE_EVS_SEND_HK_MID 0 sizeof_CmdHeader (field CFE_MISSION_MAX_API_LEN []) 0 0 0 0 (field CFE_MISSION_MAX_PATH_LEN []) good_io.
Definition crowd : list EvsCall := [CallRegister (0, id_third) None 0 CFE_EVS_EventFilter_BINARY; CallPacket hk_request; CallUnregister (0, id_app); CallUnregister (0, id_third)].
Definition left_apps : EG := default running (evs_run crowd running).

Lemma left_ok : evs_ok left_apps.
Proof.
  destruct (evs_run_logged crowd running running_ok running_format) as (s' & ls & o & E & H & _).
  - apply Forall_cons_2; [by split|]. apply Forall_cons_2; [by split|]. apply Forall_cons_2; [exact I|]. apply Forall_cons_2; [exact I|]. apply Forall_nil_2.
  - unfold left_apps. rewrite E. exact H.
Qed.

Lemma hk_stale_witness : ∃ s', CFE_EVS_ReportHousekeepingCmd left_apps = Some (CFE_STATUS_NO_COUNTER_INCREMENT, s') ∧
  length (reports (AppData left_apps)) = 1%nat ∧ hk_AppData (EVS_Tlm s') !! 2%nat = Some (mkAppTlm id_third 0 true).
Proof.
  destruct (hk_stale left_apps left_ok) as (s' & h & E & _ & Hj). exists s'. split_and!; [exact E|vm_compute; reflexivity|].
  rewrite (Hj 2%nat) by (vm_compute; lia). vm_compute. reflexivity.
Defined.

Lemma string_field_witness : ∃ field', CFE_SB_MessageStringSet (Some (replicate 3 7)) (Some (chars "APP" ++ [0])) 3 4 = Some (3, Some field') ∧ length field' = 3%nat ∧
  CFE_SB_MessageStringGet (Some (replicate 5 9)) field' None 5 3 = Some (3, Some (chars "APP" ++ [0; 9])).
Proof. refine (string_field (chars "APP") [] (replicate 3 7) (replicate 5 9) 3 5 _ _ _ _); [by repeat constructor|done|done|by vm_compute; lia]. Defined.
End EvsRuns.
