(* ===== verification/TblConfig.v ===== *)
(** * Table services: constants (cfe_tbl_events.h, cfe_tbl_msg.h, cfe_tbl.h, cfe_error.h and the sample configuration) *)
From S2P Require Import Prelude Config.

(** Status codes. *)
Definition CFE_TBL_ERR_INVALID_HANDLE : Z := s32 0xcc000001.
Definition CFE_TBL_ERR_INVALID_NAME : Z := s32 0xcc000002.
Definition CFE_TBL_ERR_INVALID_SIZE : Z := s32 0xcc000003.
Definition CFE_TBL_INFO_UPDATE_PENDING : Z := s32 0x4c000004.
Definition CFE_TBL_ERR_NEVER_LOADED : Z := s32 0xcc000005.
Definition CFE_TBL_ERR_REGISTRY_FULL : Z := s32 0xcc000006.
Definition CFE_TBL_WARN_DUPLICATE : Z := s32 0x4c000007.
Definition CFE_TBL_ERR_NO_ACCESS : Z := s32 0xcc000008.
Definition CFE_TBL_ERR_UNREGISTERED : Z := s32 0xcc000009.
Definition CFE_TBL_ERR_BAD_APP_ID : Z := s32 0xcc00000A.
Definition CFE_TBL_ERR_HANDLES_FULL : Z := s32 0xcc00000B.
Definition CFE_TBL_ERR_DUPLICATE_DIFF_SIZE : Z := s32 0xcc00000C.
Definition CFE_TBL_ERR_DUPLICATE_NOT_OWNED : Z := s32 0xcc00000D.
Definition CFE_TBL_INFO_UPDATED : Z := s32 0x4c00000E.
Definition CFE_TBL_ERR_NO_BUFFER_AVAIL : Z := s32 0xcc00000F.
Definition CFE_TBL_ERR_DUMP_ONLY : Z := s32 0xcc000010.
Definition CFE_TBL_ERR_ILLEGAL_SRC_TYPE : Z := s32 0xcc000011.
Definition CFE_TBL_ERR_LOAD_IN_PROGRESS : Z := s32 0xcc000012.
Definition CFE_TBL_ERR_FILE_NOT_FOUND : Z := s32 0xcc000013.
Definition CFE_TBL_ERR_FILE_TOO_LARGE : Z := s32 0xcc000014.
Definition CFE_TBL_WARN_SHORT_FILE : Z := s32 0x4c000015.
Definition CFE_TBL_ERR_BAD_CONTENT_ID : Z := s32 0xcc000016.
Definition CFE_TBL_INFO_NO_UPDATE_PENDING : Z := s32 0x4c000017.
Definition CFE_TBL_INFO_TABLE_LOCKED : Z := s32 0x4c000018.
Definition CFE_TBL_INFO_VALIDATION_PENDING : Z := s32 0x4c000019.
Definition CFE_TBL_INFO_NO_VALIDATION_PENDING : Z := s32 0x4c00001A.
Definition CFE_TBL_ERR_BAD_SUBTYPE_ID : Z := s32 0xcc00001B.
Definition CFE_TBL_ERR_FILE_SIZE_INCONSISTENT : Z := s32 0xcc00001C.
Definition CFE_TBL_ERR_NO_STD_HEADER : Z := s32 0xcc00001D.
Definition CFE_TBL_ERR_NO_TBL_HEADER : Z := s32 0xcc00001E.
Definition CFE_TBL_ERR_FILENAME_TOO_LONG : Z := s32 0xcc00001F.
Definition CFE_TBL_ERR_FILE_FOR_WRONG_TABLE : Z := s32 0xcc000020.
Definition CFE_TBL_ERR_LOAD_INCOMPLETE : Z := s32 0xcc000021.
Definition CFE_TBL_WARN_PARTIAL_LOAD : Z := s32 0x4c000022.
Definition CFE_TBL_ERR_PARTIAL_LOAD : Z := s32 0xcc000023.
Definition CFE_TBL_INFO_DUMP_PENDING : Z := s32 0x4c000024.
Definition CFE_TBL_ERR_INVALID_OPTIONS : Z := s32 0xcc000025.
Definition CFE_TBL_WARN_NOT_CRITICAL : Z := s32 0x4c000026.
Definition CFE_TBL_INFO_RECOVERED_TBL : Z := s32 0x4c000027.
Definition CFE_TBL_ERR_BAD_SPACECRAFT_ID : Z := s32 0xcc000028.
Definition CFE_TBL_ERR_BAD_PROCESSOR_ID : Z := s32 0xcc000029.
Definition CFE_TBL_MESSAGE_ERROR : Z := s32 0xcc00002a.
Definition CFE_TBL_ERR_SHORT_FILE : Z := s32 0xcc00002b.
Definition CFE_TBL_ERR_ACCESS : Z := s32 0xcc00002c.
Definition CFE_TBL_BAD_ARGUMENT : Z := s32 0xcc00002d.
Definition CFE_TBL_NOT_IMPLEMENTED : Z := s32 0xcc00ffff.
Definition CFE_ES_CDS_ALREADY_EXISTS : Z := s32 0x4400000d.
Definition CFE_ES_CDS_WRONG_TYPE_ERR : Z := s32 0xc4000020.
Definition CFE_ES_CDS_OWNER_ACTIVE_ERR : Z := s32 0xc4000022.
Definition CFE_SEVERITY_BITMASK : Z := s32 0xc0000000.
Definition CFE_SEVERITY_ERROR : Z := s32 0xc0000000.
Definition CFE_FS_BAD_ARGUMENT : Z := s32 0xc6000001.

(** Event identifiers. *)
Definition CFE_TBL_INIT_INF_EID : Z := 1.
Definition CFE_TBL_NOOP_INF_EID : Z := 10.
Definition CFE_TBL_RESET_INF_EID : Z := 11.
Definition CFE_TBL_FILE_LOADED_INF_EID : Z := 12.
Definition CFE_TBL_OVERWRITE_DUMP_INF_EID : Z := 13.
Definition CFE_TBL_WRITE_DUMP_INF_EID : Z := 14.
Definition CFE_TBL_OVERWRITE_REG_DUMP_INF_EID : Z := 15.
Definition CFE_TBL_VAL_REQ_MADE_INF_EID : Z := 16.
Definition CFE_TBL_LOAD_PEND_REQ_INF_EID : Z := 17.
Definition CFE_TBL_TLM_REG_CMD_INF_EID : Z := 18.
Definition CFE_TBL_LOAD_ABORT_INF_EID : Z := 21.
Definition CFE_TBL_WRITE_REG_DUMP_INF_EID : Z := 22.
Definition CFE_TBL_ASSUMED_VALID_INF_EID : Z := 23.
Definition CFE_TBL_MID_ERR_EID : Z := 50.
Definition CFE_TBL_CC1_ERR_EID : Z := 51.
Definition CFE_TBL_LEN_ERR_EID : Z := 52.
Definition CFE_TBL_FILE_ACCESS_ERR_EID : Z := 53.
Definition CFE_TBL_FILE_STD_HDR_ERR_EID : Z := 54.
Definition CFE_TBL_FILE_TBL_HDR_ERR_EID : Z := 55.
Definition CFE_TBL_FAIL_HK_SEND_ERR_EID : Z := 56.
Definition CFE_TBL_NO_SUCH_TABLE_ERR_EID : Z := 57.
Definition CFE_TBL_FILE_TYPE_ERR_EID : Z := 58.
Definition CFE_TBL_FILE_SUBTYPE_ERR_EID : Z := 59.
Definition CFE_TBL_NO_WORK_BUFFERS_ERR_EID : Z := 60.
Definition CFE_TBL_INTERNAL_ERROR_ERR_EID : Z := 61.
Definition CFE_TBL_CREATING_DUMP_FILE_ERR_EID : Z := 62.
Definition CFE_TBL_WRITE_CFE_HDR_ERR_EID : Z := 63.
Definition CFE_TBL_WRITE_TBL_HDR_ERR_EID : Z := 64.
Definition CFE_TBL_WRITE_TBL_IMG_ERR_EID : Z := 65.
Definition CFE_TBL_NO_INACTIVE_BUFFER_ERR_EID : Z := 66.
Definition CFE_TBL_TOO_MANY_VALIDATIONS_ERR_EID : Z := 67.
Definition CFE_TBL_WRITE_TBL_REG_ERR_EID : Z := 68.
Definition CFE_TBL_LOAD_ABORT_ERR_EID : Z := 69.
Definition CFE_TBL_ACTIVATE_ERR_EID : Z := 70.
Definition CFE_TBL_FILE_INCOMPLETE_ERR_EID : Z := 71.
Definition CFE_TBL_LOAD_EXCEEDS_SIZE_ERR_EID : Z := 72.
Definition CFE_TBL_ZERO_LENGTH_LOAD_ERR_EID : Z := 73.
Definition CFE_TBL_PARTIAL_LOAD_ERR_EID : Z := 74.
Definition CFE_TBL_FILE_TOO_BIG_ERR_EID : Z := 75.
Definition CFE_TBL_TOO_MANY_DUMPS_ERR_EID : Z := 76.
Definition CFE_TBL_DUMP_PENDING_ERR_EID : Z := 77.
Definition CFE_TBL_ACTIVATE_DUMP_ONLY_ERR_EID : Z := 78.
Definition CFE_TBL_LOADING_A_DUMP_ONLY_ERR_EID : Z := 79.
Definition CFE_TBL_ILLEGAL_BUFF_PARAM_ERR_EID : Z := 80.
Definition CFE_TBL_UNVALIDATED_ERR_EID : Z := 81.
Definition CFE_TBL_IN_REGISTRY_ERR_EID : Z := 82.
Definition CFE_TBL_NOT_CRITICAL_TBL_ERR_EID : Z := 83.
Definition CFE_TBL_NOT_IN_CRIT_REG_ERR_EID : Z := 84.
Definition CFE_TBL_CDS_NOT_FOUND_ERR_EID : Z := 85.
Definition CFE_TBL_CDS_DELETE_ERR_EID : Z := 86.
Definition CFE_TBL_CDS_OWNER_ACTIVE_ERR_EID : Z := 87.
Definition CFE_TBL_LOADING_PENDING_ERR_EID : Z := 88.
Definition CFE_TBL_FAIL_NOTIFY_SEND_ERR_EID : Z := 89.
Definition CFE_TBL_LOAD_SUCCESS_INF_EID : Z := 35.
Definition CFE_TBL_VALIDATION_INF_EID : Z := 36.
Definition CFE_TBL_UPDATE_SUCCESS_INF_EID : Z := 37.
Definition CFE_TBL_CDS_DELETED_INFO_EID : Z := 38.
Definition CFE_TBL_REGISTER_ERR_EID : Z := 90.
Definition CFE_TBL_SHARE_ERR_EID : Z := 91.
Definition CFE_TBL_UNREGISTER_ERR_EID : Z := 92.
Definition CFE_TBL_LOAD_VAL_ERR_EID : Z := 93.
Definition CFE_TBL_LOAD_TYPE_ERR_EID : Z := 94.
Definition CFE_TBL_UPDATE_ERR_EID : Z := 95.
Definition CFE_TBL_VALIDATION_ERR_EID : Z := 96.
Definition CFE_TBL_SPACECRAFT_ID_ERR_EID : Z := 97.
Definition CFE_TBL_PROCESSOR_ID_ERR_EID : Z := 98.
Definition CFE_TBL_LOAD_DUMPONLY_ERR_EID : Z := 99.
Definition CFE_TBL_LOAD_IN_PROGRESS_ERR_EID : Z := 100.
Definition CFE_TBL_LOAD_FILENAME_LONG_ERR_EID : Z := 101.
Definition CFE_TBL_LOAD_TBLNAME_MISMATCH_ERR_EID : Z := 102.
Definition CFE_TBL_HANDLE_ACCESS_ERR_EID : Z := 103.

(** Command codes and message identifiers. *)
Definition CFE_TBL_NOOP_CC : Z := 0.
Definition CFE_TBL_RESET_COUNTERS_CC : Z := 1.
Definition CFE_TBL_LOAD_CC : Z := 2.
Definition CFE_TBL_DUMP_CC : Z := 3.
Definition CFE_TBL_VALIDATE_CC : Z := 4.
Definition CFE_TBL_ACTIVATE_CC : Z := 5.
Definition CFE_TBL_DUMP_REGISTRY_CC : Z := 6.
Definition CFE_TBL_SEND_REGISTRY_CC : Z := 7.
Definition CFE_TBL_DELETE_CDS_CC : Z := 8.
Definition CFE_TBL_ABORT_LOAD_CC : Z := 9.
Definition CFE_TBL_CMD_MID : Z := 0x1804.
Definition CFE_TBL_SEND_HK_MID : Z := 0x180C.
Definition CFE_TBL_HK_TLM_MID : Z := 0x0804.
Definition CFE_TBL_REG_TLM_MID : Z := 0x080C.

(** Table options (cfe_tbl.h). *)
Definition CFE_TBL_OPT_BUFFER_MSK : Z := 0x0001.
Definition CFE_TBL_OPT_SNGL_BUFFER : Z := 0x0000.
Definition CFE_TBL_OPT_DBL_BUFFER : Z := 0x0001.
Definition CFE_TBL_OPT_LD_DMP_MSK : Z := 0x0002.
Definition CFE_TBL_OPT_LOAD_DUMP : Z := 0x0000.
Definition CFE_TBL_OPT_DUMP_ONLY : Z := 0x0002.
Definition CFE_TBL_OPT_USR_DEF_MSK : Z := 0x0004.
Definition CFE_TBL_OPT_USR_DEF_ADDR : Z := 0x0006.
Definition CFE_TBL_OPT_CRITICAL_MSK : Z := 0x0008.
Definition CFE_TBL_OPT_CRITICAL : Z := 0x0008.

Definition CFE_TBL_SRC_FILE : Z := 0.
Definition CFE_TBL_SRC_ADDRESS : Z := 1.
Definition CFE_TBL_BufferSelect_INACTIVE : Z := 0.
Definition CFE_TBL_BufferSelect_ACTIVE : Z := 1.

(** A table handle is an int16: (CFE_TBL_Handle_t)0xFFFF is -1. *)
Definition CFE_TBL_BAD_TABLE_HANDLE : Z := -1.
Definition CFE_TBL_END_OF_LIST : Z := -1.
Definition CFE_TBL_NOT_FOUND : Z := -1.
Definition CFE_TBL_NO_LOAD_IN_PROGRESS : Z := -1.
Definition CFE_TBL_NO_VALIDATION_PENDING : Z := -1.
Definition CFE_TBL_NO_DUMP_PENDING : Z := -1.
Definition CFE_TBL_BAD_CMD_CODE : Z := -1.
Definition CFE_TBL_BAD_MSG_ID : Z := -2.
Definition CFE_TBL_INC_ERR_CTR : Z := CFE_TBL_MESSAGE_ERROR.
Definition CFE_TBL_DONT_INC_CTR : Z := s32 0x48000001.
Definition CFE_TBL_INC_CMD_CTR : Z := CFE_SUCCESS.

(** Platform and mission limits. *)
Definition CFE_PLATFORM_TBL_MAX_DBL_TABLE_SIZE : Z := 16384.
Definition CFE_PLATFORM_TBL_MAX_SNGL_TABLE_SIZE : Z := 16384.
Definition CFE_PLATFORM_TBL_MAX_NUM_TABLES : Z := 128.
Definition CFE_PLATFORM_TBL_MAX_CRITICAL_TABLES : Z := 32.
Definition CFE_PLATFORM_TBL_MAX_NUM_HANDLES : Z := 256.
Definition CFE_PLATFORM_TBL_MAX_SIMULTANEOUS_LOADS : Z := 4.
Definition CFE_PLATFORM_TBL_MAX_NUM_VALIDATIONS : Z := 10.
Definition CFE_MISSION_TBL_MAX_NAME_LENGTH : Z := 16.
Definition CFE_TBL_MAX_FULL_NAME_LEN : nat := 40.
Definition OS_MAX_PATH_LEN : nat := 64.

Definition CFE_FS_FILE_CONTENT_ID : Z := 0x63464531.
Definition CFE_FS_SubType_TBL_IMG : Z := 8.
Definition CFE_FS_SubType_TBL_REG : Z := 9.
Definition CFE_FS_HDR_DESC_MAX_LEN : nat := 32.
Definition sizeof_CFE_FS_Header : nat := 64.
Definition sizeof_TBL_File_Hdr : nat := 52.
Definition OS_FILE_FLAG_NONE : Z := 0.
Definition OS_FILE_FLAG_CREATE : Z := 1.
Definition OS_FILE_FLAG_TRUNCATE : Z := 2.
Definition OS_READ_ONLY : Z := 0.
Definition OS_WRITE_ONLY : Z := 1.
Definition OS_READ_WRITE : Z := 2.
Definition CFE_MISSION_ES_CRC_8 : Z := 1.
Definition CFE_MISSION_ES_CRC_16 : Z := 2.
Definition CFE_MISSION_ES_CRC_32 : Z := 3.
Definition CFE_MISSION_ES_DEFAULT_CRC : Z := CFE_MISSION_ES_CRC_16.
Definition CFE_ES_CDS_BAD_HANDLE : Z := 0.
