(* ===== verification/EsCrc.v ===== *)
(** * Data integrity values: CFE_ES_CalculateCRC (cfe_es_api.c)

    The table driven computation, with the int16 of the code, and its equivalence with
    the bit by bit definition of the CRC. *)
From S2P Require Import Prelude Config TblConfig.
Import ListNotations.

Definition s16 (z : Z) : Z := (z + 2 ^ 15) mod 2 ^ 16 - 2 ^ 15.

Definition CrcTable : list Z :=
  [
    0x0000; 0xC0C1; 0xC181; 0x0140; 0xC301; 0x03C0; 0x0280; 0xC241;
    0xC601; 0x06C0; 0x0780; 0xC741; 0x0500; 0xC5C1; 0xC481; 0x0440;
    0xCC01; 0x0CC0; 0x0D80; 0xCD41; 0x0F00; 0xCFC1; 0xCE81; 0x0E40;
    0x0A00; 0xCAC1; 0xCB81; 0x0B40; 0xC901; 0x09C0; 0x0880; 0xC841;
    0xD801; 0x18C0; 0x1980; 0xD941; 0x1B00; 0xDBC1; 0xDA81; 0x1A40;
    0x1E00; 0xDEC1; 0xDF81; 0x1F40; 0xDD01; 0x1DC0; 0x1C80; 0xDC41;
    0x1400; 0xD4C1; 0xD581; 0x1540; 0xD701; 0x17C0; 0x1680; 0xD641;
    0xD201; 0x12C0; 0x1380; 0xD341; 0x1100; 0xD1C1; 0xD081; 0x1040;
    0xF001; 0x30C0; 0x3180; 0xF141; 0x3300; 0xF3C1; 0xF281; 0x3240;
    0x3600; 0xF6C1; 0xF781; 0x3740; 0xF501; 0x35C0; 0x3480; 0xF441;
    0x3C00; 0xFCC1; 0xFD81; 0x3D40; 0xFF01; 0x3FC0; 0x3E80; 0xFE41;
    0xFA01; 0x3AC0; 0x3B80; 0xFB41; 0x3900; 0xF9C1; 0xF881; 0x3840;
    0x2800; 0xE8C1; 0xE981; 0x2940; 0xEB01; 0x2BC0; 0x2A80; 0xEA41;
    0xEE01; 0x2EC0; 0x2F80; 0xEF41; 0x2D00; 0xEDC1; 0xEC81; 0x2C40;
    0xE401; 0x24C0; 0x2580; 0xE541; 0x2700; 0xE7C1; 0xE681; 0x2640;
    0x2200; 0xE2C1; 0xE381; 0x2340; 0xE101; 0x21C0; 0x2080; 0xE041;
    0xA001; 0x60C0; 0x6180; 0xA141; 0x6300; 0xA3C1; 0xA281; 0x6240;
    0x6600; 0xA6C1; 0xA781; 0x6740; 0xA501; 0x65C0; 0x6480; 0xA441;
    0x6C00; 0xACC1; 0xAD81; 0x6D40; 0xAF01; 0x6FC0; 0x6E80; 0xAE41;
    0xAA01; 0x6AC0; 0x6B80; 0xAB41; 0x6900; 0xA9C1; 0xA881; 0x6840;
    0x7800; 0xB8C1; 0xB981; 0x7940; 0xBB01; 0x7BC0; 0x7A80; 0xBA41;
    0xBE01; 0x7EC0; 0x7F80; 0xBF41; 0x7D00; 0xBDC1; 0xBC81; 0x7C40;
    0xB401; 0x74C0; 0x7580; 0xB541; 0x7700; 0xB7C1; 0xB681; 0x7640;
    0x7200; 0xB2C1; 0xB381; 0x7340; 0xB101; 0x71C0; 0x7080; 0xB041;
    0x5000; 0x90C1; 0x9181; 0x5140; 0x9301; 0x53C0; 0x5280; 0x9241;
    0x9601; 0x56C0; 0x5780; 0x9741; 0x5500; 0x95C1; 0x9481; 0x5440;
    0x9C01; 0x5CC0; 0x5D80; 0x9D41; 0x5F00; 0x9FC1; 0x9E81; 0x5E40;
    0x5A00; 0x9AC1; 0x9B81; 0x5B40; 0x9901; 0x59C0; 0x5880; 0x9841;
    0x8801; 0x48C0; 0x4980; 0x8941; 0x4B00; 0x8BC1; 0x8A81; 0x4A40;
    0x4E00; 0x8EC1; 0x8F81; 0x4F40; 0x8D01; 0x4DC0; 0x4C80; 0x8C41;
    0x4400; 0x84C1; 0x8581; 0x4540; 0x8701; 0x47C0; 0x4680; 0x8641;
    0x8201; 0x42C0; 0x4380; 0x8341; 0x4100; 0x81C1; 0x8081; 0x4040
  ].

(** One byte: [Crc] is the int16 of the code, the index is in the table. *)
Definition crc_step (Crc ByteValue : Z) : Z :=
  let Index := Z.land (Z.lxor Crc ByteValue) 0x00FF in
  s16 (Z.lxor (Z.land (Z.shiftr Crc 8) 0x00FF) (nth (Z.to_nat Index) CrcTable 0)).

(** The result is an int16 converted to uint32: a value above 0x7FFF comes out with its
    upper half set. *)
Definition CFE_ES_CalculateCRC (DataPtr : ptr (list Z)) (DataLength : nat) (InputCRC TypeCRC : Z) : Z :=
  match DataPtr, DataLength with
  | Some Data, S _ =>
      if TypeCRC =? CFE_MISSION_ES_CRC_16
      then u32 (foldl crc_step (s16 (Z.land 0xFFFF InputCRC)) (take DataLength Data))
      else 0
  | _, _ => InputCRC
  end.

(** ** The reference: CRC-16 with the reflected polynomial 0xA001, bit by bit *)

Definition crc_bit (x : Z) : Z := if Z.odd x then Z.lxor (Z.shiftr x 1) 0xA001 else Z.shiftr x 1.
Definition crc_byte (crc b : Z) : Z := Nat.iter 8 crc_bit (Z.lxor crc b).
Definition crc16 (crc : Z) (data : list Z) : Z := foldl crc_byte crc data.

(** All 2{^16} values: eight bit steps are one step of the table. *)
Definition table_step (x : Z) : Z := Z.lxor (Z.shiftr x 8) (nth (Z.to_nat (Z.land x 0xFF)) CrcTable 0).

Fixpoint all_below (n : nat) (f : Z → bool) : bool :=
  match n with O => true | S n => f (Z.of_nat n) && all_below n f end.

Lemma all_below_spec n f : all_below n f = true → ∀ x, 0 <= x < Z.of_nat n → f x = true.
Proof.
  induction n as [|n IH]; intros Hf x Hx; [lia|]. cbn in Hf. apply andb_true_iff in Hf as [H1 H2].
  destruct (Z.eqb_spec x (Z.of_nat n)) as [->|]; [done|]. apply IH; [done|lia].
Qed.

Definition table_ok (n : Z) : bool :=
  all_below 256 (λ lo, let x := n * 256 + lo in Nat.iter 8 crc_bit x =? table_step x).

Lemma table_all : all_below 256 table_ok = true.
Proof. vm_compute. reflexivity. Qed.

Lemma table_correct x : is_u16 x → Nat.iter 8 crc_bit x = table_step x.
Proof.
  unfold is_u16. intros Hx. pose proof (Z.div_mod x 256). pose proof (Z.mod_pos_bound x 256).
  assert (table_ok (x / 256) = true) as Ht.
  { apply (all_below_spec _ _ table_all). split; [apply Z.div_pos; lia|apply Z.div_lt_upper_bound; lia]. }
  pose proof (all_below_spec _ _ Ht (x mod 256)) as Hl. cbv zeta beta in Hl.
  apply Z.eqb_eq. rewrite <- Hl by lia. do 2 f_equal; lia.
Qed.

Lemma s16_u16 z : u16 (s16 z) = u16 z.
Proof. unfold u16, s16. rewrite Zminus_mod_idemp_l. f_equal. lia. Qed.

Lemma u16_land z : u16 z = Z.land z 0xFFFF.
Proof. unfold u16. by rewrite <- (Z.land_ones z 16) by lia. Qed.

Lemma nth_u16 l i : forallb (λ t, (0 <=? t) && (t <? 2 ^ 16)) l = true → 0 <= nth i l 0 < 2 ^ 16.
Proof.
  revert i. induction l as [|t l IH]; intros i Hl; [destruct i; cbn; lia|]. cbn in Hl. apply andb_true_iff in Hl as [Ht Hl].
  destruct i as [|i]; cbn; [lia|]. by apply IH.
Qed.

Lemma table_u16 : forallb (λ t, (0 <=? t) && (t <? 2 ^ 16)) CrcTable = true.
Proof. vm_compute. reflexivity. Qed.

Lemma crc_step_u16 c b : is_u8 b → u16 (crc_step c b) = crc_byte (u16 c) b.
Proof.
  unfold is_u8. intros Hb. unfold crc_byte.
  assert (0 <= Z.lxor (u16 c) b < 2 ^ 16) as Hx by (apply lxor_small; [lia|apply u16_range|lia]).
  rewrite table_correct by exact Hx. unfold crc_step, table_step. rewrite s16_u16.
  assert (Z.land (Z.lxor c b) 0xFF = Z.land (Z.lxor (u16 c) b) 0xFF) as ->.
  { Z_bits i Hi. bit_specs. rewrite u16_land. bit_specs.
    destruct (Z.ltb_spec i 8); [|rewrite (testbit_above 0xFF 8 i) by lia; by rewrite !andb_false_r].
    replace (Z.testbit 0xFFFF i) with true; [by rewrite andb_true_r|].
    symmetry. change 0xFFFF with (Z.ones 16). apply Z.ones_spec_low. lia. }
  set (t := nth _ _ _).
  assert (0 <= t < 2 ^ 16) as Ht.
  { apply nth_u16, table_u16. }
  assert (Z.land (Z.shiftr c 8) 0xFF = Z.shiftr (Z.lxor (u16 c) b) 8) as ->.
  { Z_bits i Hi. rewrite Z.land_spec, !Z.shiftr_spec, Z.lxor_spec by lia.
    rewrite (testbit_above b 8) by lia. rewrite xorb_false_r, u16_land, Z.land_spec.
    f_equal. change 0xFF with (Z.ones 8). change 0xFFFF with (Z.ones 16).
    rewrite !Z.testbit_ones by lia. lia. }
  apply u16_small. unfold is_u16. apply lxor_small; [lia| |done].
  split; [apply Z.shiftr_nonneg; lia|]. rewrite Z.shiftr_div_pow2 by lia. apply Z.div_lt_upper_bound; lia.
Qed.

Lemma crc_fold data c : Forall is_u8 data → u16 (foldl crc_step c data) = crc16 (u16 c) data.
Proof.
  revert c. induction data as [|b data IH]; intros c Hd; [done|]. apply Forall_cons_1 in Hd as [Hb Hd].
  cbn. rewrite IH by done. f_equal. by apply crc_step_u16.
Qed.

(** [C19] The lower half of the result is the CRC-16 of the data, continued from the lower
    half of the input value. *)
Theorem crc_equiv Data n InputCRC (Hn : (0 < n)%nat) (Hd : Forall is_u8 Data) :
  u16 (CFE_ES_CalculateCRC (Some Data) n InputCRC CFE_MISSION_ES_CRC_16) = crc16 (u16 InputCRC) (take n Data).
Proof.
  destruct n as [|n]; [lia|]. unfold CFE_ES_CalculateCRC. change (CFE_MISSION_ES_CRC_16 =? CFE_MISSION_ES_CRC_16) with true. cbv iota.
  assert (∀ z, u16 (u32 z) = u16 z) as Hu.
  { intros z. unfold u16, u32. rewrite Z.mod_mod_divide; [done|]. by exists (2 ^ 16). }
  rewrite Hu, crc_fold by by apply Forall_take. by rewrite s16_u16, Z.land_comm, <- u16_land, u16_small by apply u16_range.
Qed.

Lemma crc_equiv_witness : u16 (CFE_ES_CalculateCRC (Some [49; 50; 51; 52; 53; 54; 55; 56; 57]) 9 0 CFE_MISSION_ES_CRC_16) = 0xBB3D.
Proof.
  rewrite (crc_equiv [49; 50; 51; 52; 53; 54; 55; 56; 57] 9 0); [vm_compute; reflexivity|lia|]. repeat constructor; unfold is_u8; lia.
Defined.

#[global] Arguments CFE_ES_CalculateCRC : simpl never.
