(* ===== verification/FsFile.v ===== *)
(** * Files and the standard file header (osapi-file.h, cfe_fs_api.c)

    The file functions of the operating system are a type class with a view: the
    contents of the files by name and the name and position of each open file.  A file
    header is the memory of the structure: 64 bytes, eight 32 bit words and a
    description.  The target is little endian, files are big endian. *)
From S2P Require Import Prelude Config Cstring TimeApi TblConfig.
Import ListNotations.

(** ** The file system *)

Class OSFile (FS : Type) := {
  OS_OpenCreate : list Z → Z → Z → FS → (Z * Z) * FS;
  OS_close : Z → FS → Z * FS;
  OS_read : Z → nat → FS → (Z * list Z) * FS;
  OS_write : Z → list Z → FS → Z * FS;
  OS_lseek : Z → Z → FS → Z * FS;
  OS_stat : list Z → FS → Z;
  f_data : FS → gmap (list Z) (list Z);
  f_open : FS → gmap Z (list Z * nat);
}.

Definition truncates (flags : Z) : bool := Z.testbit flags 1.

(** A negative status (an int32) is an error; a read gives at most as many bytes as asked for,
    and a seek from the start of the file gives the new position. *)
Class OSFileOK (FS : Type) `{OSFile FS} := {
  open_ok name flags access f st fd f' : OS_OpenCreate name flags access f = ((st, fd), f') → 0 <= st →
    f_open f' = <[fd := (cstr name, 0%nat)]> (f_open f) ∧
    (if truncates flags then f_data f' = <[cstr name := []]> (f_data f)
     else f_data f' = f_data f ∧ is_Some (f_data f !! cstr name));
  open_fail name flags access f st fd f' : OS_OpenCreate name flags access f = ((st, fd), f') → st < 0 → f_data f' = f_data f;
  close_ok fd f st f' : OS_close fd f = (st, f') → f_data f' = f_data f;
  read_len fd n f st bs f' : OS_read fd n f = ((st, bs), f') → (length bs <= n)%nat ∧ (0 <= st → st = Z.of_nat (length bs)) ∧ (st < 0 → bs = []) ∧ - 2 ^ 31 <= st;
  read_ok fd n f st bs f' name pos d : OS_read fd n f = ((st, bs), f') → 0 <= st → f_open f !! fd = Some (name, pos) →
    f_data f !! name = Some d → bs = take n (drop pos d) ∧ f_data f' = f_data f ∧ f_open f' = <[fd := (name, pos + length bs)%nat]> (f_open f);
  read_bytes fd n f st bs f' : OS_read fd n f = ((st, bs), f') → Forall is_u8 bs;
  write_ok fd bs f st f' name pos d : OS_write fd bs f = (st, f') → st = Z.of_nat (length bs) → f_open f !! fd = Some (name, pos) →
    f_data f !! name = Some d →
    f_data f' = <[name := take pos d ++ bs ++ drop (pos + length bs) d]> (f_data f) ∧ f_open f' = <[fd := (name, pos + length bs)%nat]> (f_open f);
  lseek_status fd off f st f' : OS_lseek fd off f = (st, f') → st < 0 ∨ st = off;
  lseek_ok fd off f st f' name pos : OS_lseek fd off f = (st, f') → 0 <= off → st = off → f_open f !! fd = Some (name, pos) →
    f_data f' = f_data f ∧ f_open f' = <[fd := (name, Z.to_nat off)]> (f_open f);
}.

(** ** Memory of structures *)

(** A 32 bit word of a structure, least significant byte first. *)
Definition u32_at (off : nat) (m : list Z) : Z :=
  nth off m 0 + 2 ^ 8 * nth (off + 1) m 0 + 2 ^ 16 * nth (off + 2) m 0 + 2 ^ 24 * nth (off + 3) m 0.

Definition bytes32 (v : Z) : list Z := [u8 v; u8 (v / 2 ^ 8); u8 (v / 2 ^ 16); u8 (v / 2 ^ 24)].

(** Writing bytes into a structure or a buffer. *)
Definition splice (off : nat) (bs m : list Z) : list Z := take off m ++ bs ++ drop (off + length bs) m.

Definition set_u32 (off : nat) (v : Z) (m : list Z) : list Z := splice off (bytes32 v) m.

Definition CFE_FS_ByteSwapUint32 (off : nat) (m : list Z) : list Z := splice off (rev (take 4 (drop off m))) m.

Definition off_ContentType : nat := 0.
Definition off_SubType : nat := 4.
Definition off_Length : nat := 8.
Definition off_SpacecraftID : nat := 12.
Definition off_ProcessorID : nat := 16.
Definition off_ApplicationID : nat := 20.
Definition off_TimeSeconds : nat := 24.
Definition off_TimeSubSeconds : nat := 28.
Definition off_Description : nat := 32.

Definition CFE_FS_ByteSwapCFEHeader (Hdr : list Z) : list Z :=
  let Hdr := CFE_FS_ByteSwapUint32 off_ContentType Hdr in
  let Hdr := CFE_FS_ByteSwapUint32 off_SubType Hdr in
  let Hdr := CFE_FS_ByteSwapUint32 off_Length Hdr in
  let Hdr := CFE_FS_ByteSwapUint32 off_SpacecraftID Hdr in
  let Hdr := CFE_FS_ByteSwapUint32 off_ProcessorID Hdr in
  let Hdr := CFE_FS_ByteSwapUint32 off_ApplicationID Hdr in
  let Hdr := CFE_FS_ByteSwapUint32 off_TimeSeconds Hdr in
  CFE_FS_ByteSwapUint32 off_TimeSubSeconds Hdr.

(** ** Header functions *)

Definition call {S A} (f : S → A * S) : M S A := λ s, Some (f s).

Section fs.
Context {FS : Type} `{OSFile FS}.

Definition CFE_FS_ReadHeader (Hdr : ptr (list Z)) (FileDes : Z) : M FS (Z * ptr (list Z)) :=
  match Hdr with
  | None => mret (CFE_FS_BAD_ARGUMENT, Hdr)
  | Some Hdr =>
      Result ← call (OS_lseek FileDes 0);
      if Result =? OS_SUCCESS then
        '(Result, bs) ← call (OS_read FileDes sizeof_CFE_FS_Header);
        mret (Result, Some (CFE_FS_ByteSwapCFEHeader (splice 0 bs Hdr)))
      else mret (Result, Some Hdr)
  end.

Definition CFE_FS_InitHeader (Hdr Description : ptr (list Z)) (SubType : Z) : ptr (list Z) :=
  match Hdr, Description with
  | Some _, Some Description =>
      let Hdr := replicate sizeof_CFE_FS_Header 0 in
      let Hdr := splice off_Description (take (CFE_FS_HDR_DESC_MAX_LEN - 1) (cstr Description)) Hdr in
      Some (set_u32 off_SubType SubType Hdr)
  | _, _ => Hdr
  end.

(** [SpacecraftId] and [ProcessorId] are the values of the board support package,
    [AppId] the one CFE_ES_GetAppID gives and [Time] the current time. *)
Definition CFE_FS_WriteHeader (SpacecraftId ProcessorId AppId : Z) (Time : CFE_TIME_SysTime_t) (FileDes : Z) (Hdr : ptr (list Z))
  : M FS (Z * ptr (list Z)) :=
  match Hdr with
  | None => mret (CFE_FS_BAD_ARGUMENT, Hdr)
  | Some Hdr =>
      Result ← call (OS_lseek FileDes 0);
      if Result =? OS_SUCCESS then
        let Hdr := set_u32 off_SpacecraftID SpacecraftId Hdr in
        let Hdr := set_u32 off_ProcessorID ProcessorId Hdr in
        let Hdr := set_u32 off_ApplicationID AppId Hdr in
        let Hdr := set_u32 off_Length (Z.of_nat sizeof_CFE_FS_Header) Hdr in
        let Hdr := set_u32 off_ContentType CFE_FS_FILE_CONTENT_ID Hdr in
        let Hdr := set_u32 off_TimeSeconds (Seconds Time) Hdr in
        let Hdr := set_u32 off_TimeSubSeconds (Subseconds Time) Hdr in
        let Hdr := CFE_FS_ByteSwapCFEHeader Hdr in
        Result ← call (OS_write FileDes Hdr);
        mret (Result, Some (CFE_FS_ByteSwapCFEHeader Hdr))
      else mret (Result, Some Hdr)
  end.

Definition CFE_FS_SetTimestamp (FileDes : Z) (NewTimestamp : CFE_TIME_SysTime_t) : M FS Z :=
  let FileOffset := Z.of_nat off_TimeSeconds in
  Result ← call (OS_lseek FileDes FileOffset);
  if Result =? FileOffset then
    Result ← call (OS_write FileDes (CFE_FS_ByteSwapUint32 0 (bytes32 (Seconds NewTimestamp))));
    if Result =? 4 then
      Result ← call (OS_write FileDes (CFE_FS_ByteSwapUint32 0 (bytes32 (Subseconds NewTimestamp))));
      if Result =? 4 then mret OS_SUCCESS else mret Result
    else mret Result
  else mret Result.
End fs.
