(* ===== verification/TblState.v ===== *)
(** * Table services: state (cfe_tbl_task.h, cfe_tbl_msg.h)

    A table has an entry of the registry and one or two buffers from a memory pool; an
    application reaches it through a handle, the index of an access descriptor, and the
    descriptors of a table are a doubly linked list.  New contents are prepared in the
    inactive buffer or in one of the shared buffers and made active by an update.

    The memory of tables is a map from addresses to blocks of bytes.  A pointer tells
    whether it points into the pool or into memory of an application; reading through
    one that points nowhere, or outside of a block, has no result, and neither has an
    index out of an array or a mutex taken twice.  Memory pool, files and the critical
    data store are services with laws; the table of applications and the time are part
    of the state.  Telemetry, notifications and events (identifier and type) are
    recorded in order; the system log is not modelled. *)
From S2P Require Import Prelude Config Msg ResourceId Cstring EsApp TimeApi SbState TblConfig EsCrc FsFile.
Import ListNotations.

(** The message format of the build, what the board support package gives, the
    validation functions by address, and the status of sending a message. *)
Class TblCfg := {
  tbl_hdr : HdrFormat;
  tbl_idv : MsgIdVersion;
  tbl_SpacecraftId : Z;
  tbl_ProcessorId : Z;
  ValidationFunc : addr → list Z → Z;
  TransmitStatus : Message → Z;
}.

(** ** Data *)

Inductive tptr := PNull | PPool (a : addr) | PApp (a : addr).
#[export] Instance tptr_dec : EqDecision tptr.
Proof. solve_decision. Defined.

Definition addr_of (p : tptr) : addr := match p with PNull => NULL | PPool a => a | PApp a => a end.

Record CFE_TBL_LoadBuff_t := mkLoadBuff {
  lb_BufferPtr : tptr;
  lb_FileCreateTimeSecs : Z;
  lb_FileCreateTimeSubSecs : Z;
  lb_Crc : Z;
  lb_Taken : bool;
  lb_Validated : bool;
  lb_DataSource : list Z;
}.
#[export] Instance LoadBuff_eta : Eta _ := mkEta (λ r, mkLoadBuff (lb_BufferPtr r) (lb_FileCreateTimeSecs r)
  (lb_FileCreateTimeSubSecs r) (lb_Crc r) (lb_Taken r) (lb_Validated r) (lb_DataSource r)).

Record CFE_TBL_AccessDescriptor_t := mkAccess {
  ac_AppId : Z;
  ac_RegIndex : Z;
  ac_PrevLink : Z;
  ac_NextLink : Z;
  ac_UsedFlag : bool;
  ac_LockFlag : bool;
  ac_Updated : bool;
  ac_BufferIndex : Z;
}.
#[export] Instance Access_eta : Eta _ := mkEta (λ r, mkAccess (ac_AppId r) (ac_RegIndex r) (ac_PrevLink r) (ac_NextLink r)
  (ac_UsedFlag r) (ac_LockFlag r) (ac_Updated r) (ac_BufferIndex r)).

Record CFE_TBL_RegistryRec_t := mkRegRec {
  rr_OwnerAppId : Z;
  rr_Size : Z;
  rr_NotificationMsgId : Z;
  rr_NotificationParam : Z;
  rr_Buffers : list CFE_TBL_LoadBuff_t;
  rr_ValidationFuncPtr : addr;
  rr_TimeOfLastUpdate : CFE_TIME_SysTime_t;
  rr_HeadOfAccessList : Z;
  rr_LoadInProgress : Z;
  rr_ValidateActiveIndex : Z;
  rr_ValidateInactiveIndex : Z;
  rr_DumpControlIndex : Z;
  rr_CDSHandle : Z;
  rr_NotificationCC : Z;
  rr_CriticalTable : bool;
  rr_TableLoadedOnce : bool;
  rr_LoadPending : bool;
  rr_DumpOnly : bool;
  rr_DoubleBuffered : bool;
  rr_UserDefAddr : bool;
  rr_NotifyByMsg : bool;
  rr_ActiveBufferIndex : Z;
  rr_Name : list Z;
  rr_LastFileLoaded : list Z;
}.
#[export] Instance RegRec_eta : Eta _ := mkEta (λ r, mkRegRec (rr_OwnerAppId r) (rr_Size r) (rr_NotificationMsgId r)
  (rr_NotificationParam r) (rr_Buffers r) (rr_ValidationFuncPtr r) (rr_TimeOfLastUpdate r) (rr_HeadOfAccessList r)
  (rr_LoadInProgress r) (rr_ValidateActiveIndex r) (rr_ValidateInactiveIndex r) (rr_DumpControlIndex r) (rr_CDSHandle r)
  (rr_NotificationCC r) (rr_CriticalTable r) (rr_TableLoadedOnce r) (rr_LoadPending r) (rr_DumpOnly r)
  (rr_DoubleBuffered r) (rr_UserDefAddr r) (rr_NotifyByMsg r) (rr_ActiveBufferIndex r) (rr_Name r) (rr_LastFileLoaded r)).

Record CFE_TBL_CritRegRec_t := mkCritReg {
  cr_CDSHandle : Z;
  cr_FileCreateTimeSecs : Z;
  cr_FileCreateTimeSubSecs : Z;
  cr_TimeOfLastUpdate : CFE_TIME_SysTime_t;
  cr_LastFileLoaded : list Z;
  cr_Name : list Z;
  cr_TableLoadedOnce : bool;
}.
#[export] Instance CritReg_eta : Eta _ := mkEta (λ r, mkCritReg (cr_CDSHandle r) (cr_FileCreateTimeSecs r)
  (cr_FileCreateTimeSubSecs r) (cr_TimeOfLastUpdate r) (cr_LastFileLoaded r) (cr_Name r) (cr_TableLoadedOnce r)).

Inductive CFE_TBL_ValidationState_t := CFE_TBL_VALIDATION_FREE | CFE_TBL_VALIDATION_PENDING | CFE_TBL_VALIDATION_PERFORMED.
#[export] Instance ValidationState_dec : EqDecision CFE_TBL_ValidationState_t.
Proof. solve_decision. Defined.

Record CFE_TBL_ValidationResult_t := mkValResult {
  vr_State : CFE_TBL_ValidationState_t;
  vr_Result : Z;
  vr_CrcOfTable : Z;
  vr_ActiveBuffer : bool;
  vr_TableName : list Z;
}.
#[export] Instance ValResult_eta : Eta _ := mkEta (λ r, mkValResult (vr_State r) (vr_Result r) (vr_CrcOfTable r)
  (vr_ActiveBuffer r) (vr_TableName r)).

(** A pointer to a CFE_TBL_LoadBuff_t: a buffer of a registry entry or a shared one. *)
Inductive BufRef := RegBuf (r i : Z) | SharedBuf (j : Z).

Inductive CFE_TBL_DumpState_t := CFE_TBL_DUMP_FREE | CFE_TBL_DUMP_PENDING | CFE_TBL_DUMP_PERFORMED.
#[export] Instance DumpState_dec : EqDecision CFE_TBL_DumpState_t.
Proof. solve_decision. Defined.

(** The pointer to the registry entry is its index. *)
Record CFE_TBL_DumpControl_t := mkDumpControl {
  dc_State : CFE_TBL_DumpState_t;
  dc_Size : Z;
  dc_DumpBufferPtr : BufRef;
  dc_RegRecPtr : Z;
  dc_TableName : list Z;
}.
#[export] Instance DumpControl_eta : Eta _ := mkEta (λ r, mkDumpControl (dc_State r) (dc_Size r) (dc_DumpBufferPtr r)
  (dc_RegRecPtr r) (dc_TableName r)).

Record CFE_TBL_HousekeepingTlm_Payload_t := mkTblHk {
  th_CommandCounter : Z;
  th_CommandErrorCounter : Z;
  th_NumTables : Z;
  th_NumLoadPending : Z;
  th_ValidationCounter : Z;
  th_LastValCrc : Z;
  th_LastValStatus : Z;
  th_ActiveBuffer : bool;
  th_LastValTableName : list Z;
  th_SuccessValCounter : Z;
  th_FailedValCounter : Z;
  th_NumValRequests : Z;
  th_NumFreeSharedBufs : Z;
  th_LastUpdateTime : CFE_TIME_SysTime_t;
  th_LastUpdatedTable : list Z;
  th_LastFileLoaded : list Z;
  th_LastFileDumped : list Z;
  th_LastTableLoaded : list Z;
}.
#[export] Instance TblHk_eta : Eta _ := mkEta (λ r, mkTblHk (th_CommandCounter r) (th_CommandErrorCounter r) (th_NumTables r)
  (th_NumLoadPending r) (th_ValidationCounter r) (th_LastValCrc r) (th_LastValStatus r) (th_ActiveBuffer r)
  (th_LastValTableName r) (th_SuccessValCounter r) (th_FailedValCounter r) (th_NumValRequests r) (th_NumFreeSharedBufs r)
  (th_LastUpdateTime r) (th_LastUpdatedTable r) (th_LastFileLoaded r) (th_LastFileDumped r) (th_LastTableLoaded r)).

Record CFE_TBL_TblRegPacket_Payload_t := mkTblReg {
  tr_Size : Z;
  tr_Crc : Z;
  tr_ActiveBufferAddr : Z;
  tr_InactiveBufferAddr : Z;
  tr_ValidationFuncPtr : Z;
  tr_TimeOfLastUpdate : CFE_TIME_SysTime_t;
  tr_FileCreateTimeSecs : Z;
  tr_FileCreateTimeSubSecs : Z;
  tr_TableLoadedOnce : bool;
  tr_LoadPending : bool;
  tr_DumpOnly : bool;
  tr_DoubleBuffered : bool;
  tr_Name : list Z;
  tr_LastFileLoaded : list Z;
  tr_OwnerAppName : list Z;
  tr_Critical : bool;
}.

Record CFE_TBL_RegDumpRec_t := mkRegDump {
  rd_Size : Z;
  rd_TimeOfLastUpdate : CFE_TIME_SysTime_t;
  rd_NumUsers : Z;
  rd_LoadInProgress : Z;
  rd_FileCreateTimeSecs : Z;
  rd_FileCreateTimeSubSecs : Z;
  rd_Crc : Z;
  rd_ValidationFunc : bool;
  rd_TableLoadedOnce : bool;
  rd_LoadPending : bool;
  rd_DumpOnly : bool;
  rd_DoubleBuffered : bool;
  rd_Name : list Z;
  rd_LastFileLoaded : list Z;
  rd_OwnerAppName : list Z;
  rd_CriticalTable : bool;
}.

(** The background job that writes the registry to a file. *)
Record CFE_TBL_RegDumpStateInfo_t := mkRegDumpState {
  ds_FileName : list Z;
  ds_IsPending : bool;
  ds_FileExisted : bool;
  ds_DumpRecord : CFE_TBL_RegDumpRec_t;
}.
#[export] Instance RegDumpState_eta : Eta _ := mkEta (λ r, mkRegDumpState (ds_FileName r) (ds_IsPending r) (ds_FileExisted r)
  (ds_DumpRecord r)).

(** What table services do to the outside; an event is its identifier and type. *)
Inductive TblOut :=
| OutEvent (id : Z) (type : CFE_EVS_EventType)
| OutHk (h : Message) (p : CFE_TBL_HousekeepingTlm_Payload_t)
| OutReg (h : Message) (p : CFE_TBL_TblRegPacket_Payload_t)
| OutNotify (h : Message) (param : Z).

(** ** Services *)

(** The critical data store (cfe_es_cds.c) holds blocks by handle; table services keep
    table images and the critical table registry there, so the two functions that copy
    exist for both.  The view: what is registered under a name (handle and size), and
    the contents of the blocks. *)
Class CDSStore (CS : Type) := {
  CFE_ES_RegisterCDSEx : Z → list Z → bool → CS → (Z * Z) * CS;
  CFE_ES_CopyToCDS : Z → list Z → CS → Z * CS;
  CFE_ES_RestoreFromCDS : Z → CS → Z * list Z;
  CFE_ES_CopyRegToCDS : Z → list CFE_TBL_CritRegRec_t → CS → Z * CS;
  CFE_ES_RestoreRegFromCDS : Z → CS → Z * list CFE_TBL_CritRegRec_t;
  CFE_ES_DeleteCDS : list Z → bool → CS → Z * CS;
  cds_names : CS → gmap (list Z) (Z * Z);
  cds_data : CS → gmap Z (list Z);
  cds_reg : CS → gmap Z (list CFE_TBL_CritRegRec_t);
}.

Record CFE_TBL_Global_t {PS FS CS : Type} := mkTbl {
  tg_CommandCounter : Z;
  tg_CommandErrorCounter : Z;
  tg_SuccessValCounter : Z;
  tg_FailedValCounter : Z;
  tg_NumValRequests : Z;
  tg_LastTblUpdated : Z;
  tg_HkHeader : Message;
  tg_HkPacket : CFE_TBL_HousekeepingTlm_Payload_t;
  tg_RegHeader : Message;
  tg_NotifyHeader : Message;
  tg_NotifyParam : Z;
  tg_CmdPipe : Z;
  tg_TableTaskAppId : Z;
  tg_HkTlmTblRegIndex : Z;
  tg_ValidationCounter : Z;
  tg_RegistryMutex : bool;
  tg_WorkBufMutex : bool;
  tg_CritRegHandle : Z;
  LoadBuffs : list CFE_TBL_LoadBuff_t;
  Handles : list CFE_TBL_AccessDescriptor_t;
  Registry : list CFE_TBL_RegistryRec_t;
  CritReg : list CFE_TBL_CritRegRec_t;
  ValidationResults : list CFE_TBL_ValidationResult_t;
  DumpControlBlocks : list CFE_TBL_DumpControl_t;
  RegDumpState : CFE_TBL_RegDumpStateInfo_t;
  TblPool : PS;
  TblMem : gmap addr (list Z);
  AppMem : gmap addr (list Z);
  TblFiles : FS;
  Cds : CS;
  TblApps : list CFE_ES_AppRecord_t;
  TblNow : CFE_TIME_SysTime_t;
  TblSent : list TblOut;
}.
Arguments CFE_TBL_Global_t : clear implicits.
#[export] Instance Tbl_eta PS FS CS : Eta (CFE_TBL_Global_t PS FS CS) := mkEta (λ r, mkTbl PS FS CS
  (tg_CommandCounter r) (tg_CommandErrorCounter r) (tg_SuccessValCounter r) (tg_FailedValCounter r) (tg_NumValRequests r)
  (tg_LastTblUpdated r) (tg_HkHeader r) (tg_HkPacket r) (tg_RegHeader r) (tg_NotifyHeader r) (tg_NotifyParam r)
  (tg_CmdPipe r) (tg_TableTaskAppId r) (tg_HkTlmTblRegIndex r) (tg_ValidationCounter r) (tg_RegistryMutex r)
  (tg_WorkBufMutex r) (tg_CritRegHandle r) (LoadBuffs r) (Handles r) (Registry r) (CritReg r) (ValidationResults r)
  (DumpControlBlocks r) (RegDumpState r) (TblPool r) (TblMem r) (AppMem r) (TblFiles r) (Cds r) (TblApps r) (TblNow r)
  (TblSent r)).

(** ** Primitive operations *)

Section prims.
Context {PS FS CS : Type} `{Pool : MemPool PS} `{Files : OSFile FS} `{Store : CDSStore CS}.
Abbreviation TG := (CFE_TBL_Global_t PS FS CS).

Definition event (id : Z) (type : CFE_EVS_EventType) : M TG unit := modify (λ s, s <| TblSent ::= λ l, l ++ [OutEvent id type] |>).

Definition rd_hdl (h : Z) : M TG CFE_TBL_AccessDescriptor_t := l ← gets Handles; tbl_get l h.
Definition wr_hdl (h : Z) (f : CFE_TBL_AccessDescriptor_t → CFE_TBL_AccessDescriptor_t) : M TG unit :=
  l ← gets Handles; l ← of_option (tbl_upd f h l); modify (λ s, s <| Handles := l |>).

Definition rd_reg (r : Z) : M TG CFE_TBL_RegistryRec_t := l ← gets Registry; tbl_get l r.
Definition wr_reg (r : Z) (f : CFE_TBL_RegistryRec_t → CFE_TBL_RegistryRec_t) : M TG unit :=
  l ← gets Registry; l ← of_option (tbl_upd f r l); modify (λ s, s <| Registry := l |>).

Definition rd_val (i : Z) : M TG CFE_TBL_ValidationResult_t := l ← gets ValidationResults; tbl_get l i.
Definition wr_val (i : Z) (f : CFE_TBL_ValidationResult_t → CFE_TBL_ValidationResult_t) : M TG unit :=
  l ← gets ValidationResults; l ← of_option (tbl_upd f i l); modify (λ s, s <| ValidationResults := l |>).

Definition rd_dump (i : Z) : M TG CFE_TBL_DumpControl_t := l ← gets DumpControlBlocks; tbl_get l i.
Definition wr_dump (i : Z) (f : CFE_TBL_DumpControl_t → CFE_TBL_DumpControl_t) : M TG unit :=
  l ← gets DumpControlBlocks; l ← of_option (tbl_upd f i l); modify (λ s, s <| DumpControlBlocks := l |>).

Definition wr_crit (i : Z) (f : CFE_TBL_CritRegRec_t → CFE_TBL_CritRegRec_t) : M TG unit :=
  l ← gets CritReg; l ← of_option (tbl_upd f i l); modify (λ s, s <| CritReg := l |>).

Definition rd_shared (j : Z) : M TG CFE_TBL_LoadBuff_t := l ← gets LoadBuffs; tbl_get l j.
Definition wr_shared (j : Z) (f : CFE_TBL_LoadBuff_t → CFE_TBL_LoadBuff_t) : M TG unit :=
  l ← gets LoadBuffs; l ← of_option (tbl_upd f j l); modify (λ s, s <| LoadBuffs := l |>).

(** The buffer of index [i] of a registry entry, and access through a pointer to any
    buffer. *)
Definition reg_buf (rec : CFE_TBL_RegistryRec_t) (i : Z) : M TG CFE_TBL_LoadBuff_t := tbl_get (rr_Buffers rec) i.
Definition wr_reg_buf (r i : Z) (f : CFE_TBL_LoadBuff_t → CFE_TBL_LoadBuff_t) : M TG unit :=
  rec ← rd_reg r;
  l ← of_option (tbl_upd f i (rr_Buffers rec));
  wr_reg r (λ rec, rec <| rr_Buffers := l |>).

Definition rd_lb (b : BufRef) : M TG CFE_TBL_LoadBuff_t :=
  match b with RegBuf r i => rec ← rd_reg r; reg_buf rec i | SharedBuf j => rd_shared j end.
Definition wr_lb (b : BufRef) (f : CFE_TBL_LoadBuff_t → CFE_TBL_LoadBuff_t) : M TG unit :=
  match b with RegBuf r i => wr_reg_buf r i f | SharedBuf j => wr_shared j f end.

(** The inactive one of two buffers: [1U - ActiveBufferIndex]. *)
Definition inactive (rec : CFE_TBL_RegistryRec_t) : Z := u32 (1 - rr_ActiveBufferIndex rec).

(** Memory: the block a pointer points at, and writes inside of it. *)
Definition rd_mem (p : tptr) : M TG (list Z) := λ s,
  match p with
  | PNull => None
  | PPool a => of_option (TblMem s !! a) s
  | PApp a => of_option (AppMem s !! a) s
  end.
Definition wr_mem (p : tptr) (off : Z) (bs : list Z) : M TG unit :=
  old ← rd_mem p;
  if off + Z.of_nat (length bs) <=? Z.of_nat (length old) then
    let new := splice (Z.to_nat off) bs old in
    match p with
    | PNull => undef
    | PPool a => modify (λ s, s <| TblMem ::= <[a := new]> |>)
    | PApp a => modify (λ s, s <| AppMem ::= <[a := new]> |>)
    end
  else undef.
(** [n] bytes from a pointer. *)
Definition rd_bytes (p : tptr) (n : Z) : M TG (list Z) :=
  bs ← rd_mem p; if n <=? Z.of_nat (length bs) then mret (take (Z.to_nat n) bs) else undef.
Definition memcpy (dst src : tptr) (n : Z) : M TG unit := bs ← rd_bytes src n; wr_mem dst 0 bs.
Definition memset (p : tptr) (n : Z) : M TG unit := wr_mem p 0 (replicate (Z.to_nat n) 0).

Definition crc_of (p : tptr) (n : Z) : M TG Z :=
  match p with
  | PNull => mret (CFE_ES_CalculateCRC None (Z.to_nat n) 0 CFE_MISSION_ES_DEFAULT_CRC)
  | _ => bs ← rd_bytes p n; mret (CFE_ES_CalculateCRC (Some bs) (Z.to_nat n) 0 CFE_MISSION_ES_DEFAULT_CRC)
  end.

(** Calls of the services. *)
Definition files {A} (c : M FS A) : M TG A := λ s,
  match c (TblFiles s) with Some (a, f) => Some (a, s <| TblFiles := f |>) | None => None end.
Definition cds {A} (f : CS → A * CS) : M TG A := λ s, let '(a, c) := f (Cds s) in Some (a, s <| Cds := c |>).

(** A block from the pool.  Callers clear it, or take it from the cleared partition at
    start up, so it is zeros. *)
Definition pool_get (size : Z) : M TG (Z * tptr) := λ s,
  let '((st, a), p) := CFE_ES_GetPoolBuf size (TblPool s) in
  if st <? 0 then Some ((st, PNull), s <| TblPool := p |>)
  else Some ((st, PPool a), s <| TblPool := p |> <| TblMem ::= <[a := replicate (Z.to_nat size) 0]> |>).
Definition pool_put (p : tptr) : M TG Z := λ s,
  let '(st, q) := CFE_ES_PutPoolBuf (addr_of p) (TblPool s) in
  Some (st, if st <? 0 then s <| TblPool := q |> else s <| TblPool := q |> <| TblMem ::= delete (addr_of p) |>).

(** Mutexes. *)
Definition CFE_TBL_LockRegistry : M TG unit :=
  m ← gets tg_RegistryMutex; if m : bool then undef else modify (λ s, s <| tg_RegistryMutex := true |>).
Definition CFE_TBL_UnlockRegistry : M TG unit := modify (λ s, s <| tg_RegistryMutex := false |>).
Definition work_take : M TG unit :=
  m ← gets tg_WorkBufMutex; if m : bool then undef else modify (λ s, s <| tg_WorkBufMutex := true |>).
Definition work_give : M TG unit := modify (λ s, s <| tg_WorkBufMutex := false |>).

Definition hkp (f : CFE_TBL_HousekeepingTlm_Payload_t → CFE_TBL_HousekeepingTlm_Payload_t) : M TG unit :=
  modify (λ s, s <| tg_HkPacket ::= f |>).

Definition tbl_app_name (AppID : Z) : M TG (list Z) :=
  apps ← gets TblApps;
  mret (default [] (CFE_ES_GetAppName apps (Some (replicate OS_MAX_API_NAME 0)) AppID OS_MAX_API_NAME).2).
End prims.

(** [strncpy] of [n - 1] bytes into an array of [n], which is then ended by a zero. *)
Definition copy_str (n : nat) (dest src : list Z) : list Z := <[(n - 1)%nat := 0]> (strncpy dest src (n - 1)).

Definition failed (Status : Z) : bool := Z.land Status CFE_SEVERITY_BITMASK =? CFE_SEVERITY_ERROR.
