(* ===== verification/TblInternal.v ===== *)
(** * Table services: internal functions (cfe_tbl_internal.c)

    A pointer to a registry entry or an access descriptor is its index.  [App] is the
    status and the identifier CFE_ES_GetAppID gives to the caller. *)
From Stdlib Require Import String.
From S2P Require Import Prelude Config Msg ResourceId Cstring EsApp TimeApi SbState TblConfig EsCrc FsFile TblState.
Import ListNotations.

Definition CFE_TBL_NOT_OWNED : Z := CFE_RESOURCEID_UNDEFINED.
Definition CFE_SB_INVALID_MSG_ID : Z := 0.

Definition zero_buff : CFE_TBL_LoadBuff_t := mkLoadBuff PNull 0 0 0 false false (replicate OS_MAX_PATH_LEN 0).

Definition CFE_TBL_InitRegistryRecord : CFE_TBL_RegistryRec_t :=
  mkRegRec CFE_TBL_NOT_OWNED 0 CFE_SB_INVALID_MSG_ID 0 [zero_buff; zero_buff] NULL (mkTime 0 0) CFE_TBL_END_OF_LIST
    CFE_TBL_NO_LOAD_IN_PROGRESS CFE_TBL_NO_VALIDATION_PENDING CFE_TBL_NO_VALIDATION_PENDING CFE_TBL_NO_DUMP_PENDING
    CFE_ES_CDS_BAD_HANDLE 0 false false false false false false false 0
    (replicate CFE_TBL_MAX_FULL_NAME_LEN 0) (replicate OS_MAX_PATH_LEN 0).

(** The table file header (cfe_tbl_extern_typedefs.h), as memory. *)
Definition off_Reserved : nat := 0.
Definition off_Offset : nat := 4.
Definition off_NumBytes : nat := 8.
Definition off_TableName : nat := 12.

Definition hdr_TableName (h : list Z) : list Z := drop off_TableName h.

Definition CFE_TBL_ByteSwapTblHeader (HdrPtr : list Z) : list Z :=
  CFE_FS_ByteSwapUint32 off_NumBytes (CFE_FS_ByteSwapUint32 off_Offset (CFE_FS_ByteSwapUint32 off_Reserved HdrPtr)).

Section tbl.
Context {PS FS CS : Type} `{Pool : MemPool PS} `{Files : OSFile FS} `{Store : CDSStore CS} `{Cfg : TblCfg}.
Abbreviation TG := (CFE_TBL_Global_t PS FS CS).
Abbreviation ERROR := CFE_EVS_EventType_ERROR.
Abbreviation DEBUG := CFE_EVS_EventType_DEBUG.
Abbreviation INFORMATION := CFE_EVS_EventType_INFORMATION.

(** ** Handles and access *)

(** The handle is an int16 and only the upper bound is checked. *)
Definition CFE_TBL_ValidateHandle (TblHandle : Z) : M TG Z :=
  if CFE_PLATFORM_TBL_MAX_NUM_HANDLES <=? TblHandle then mret CFE_TBL_ERR_INVALID_HANDLE
  else
    d ← rd_hdl TblHandle;
    mret (if ac_UsedFlag d then CFE_SUCCESS else CFE_TBL_ERR_INVALID_HANDLE).

Definition CFE_TBL_CheckAccessRights (TblHandle ThisAppId : Z) : M TG Z :=
  d ← rd_hdl TblHandle;
  task ← gets tg_TableTaskAppId;
  mret (if (ThisAppId =? ac_AppId d) || (ThisAppId =? task) then CFE_SUCCESS else CFE_TBL_ERR_NO_ACCESS).

Definition CFE_TBL_ValidateAccess (App : Z * Z) (TblHandle : Z) : M TG Z :=
  let '(Status, AppId) := App in
  if negb (Status =? CFE_SUCCESS) then mret Status
  else
    Status ← CFE_TBL_ValidateHandle TblHandle;
    if negb (Status =? CFE_SUCCESS) then mret Status else CFE_TBL_CheckAccessRights TblHandle AppId.

(** ** The access list

    The fuel of a walk is the number of descriptors plus one. *)
Definition walk_fuel : M TG nat := gets (λ s, S (List.length (Handles s))).

Definition CFE_TBL_RemoveAccessLink (TblHandle : Z) : M TG Z :=
  d ← rd_hdl TblHandle;
  let r := ac_RegIndex d in
  CFE_TBL_LockRegistry;;
  (if ac_PrevLink d =? CFE_TBL_END_OF_LIST then
     wr_reg r (λ rec, rec <| rr_HeadOfAccessList := ac_NextLink d |>);;
     when (negb (ac_NextLink d =? CFE_TBL_END_OF_LIST)) (wr_hdl (ac_NextLink d) (λ n, n <| ac_PrevLink := CFE_TBL_END_OF_LIST |>))
   else
     wr_hdl (ac_PrevLink d) (λ p, p <| ac_NextLink := ac_NextLink d |>);;
     when (negb (ac_NextLink d =? CFE_TBL_END_OF_LIST)) (wr_hdl (ac_NextLink d) (λ n, n <| ac_PrevLink := ac_PrevLink d |>)));;
  wr_hdl TblHandle (λ d, d <| ac_UsedFlag := false |>);;
  rec ← rd_reg r;
  Status ←
    (if (rr_HeadOfAccessList rec =? CFE_TBL_END_OF_LIST) && negb (rr_UserDefAddr rec) then
       b ← reg_buf rec 0;
       Status ← pool_put (lb_BufferPtr b);
       wr_reg_buf r 0 (λ b, b <| lb_BufferPtr := PNull |>);;
       if rr_DoubleBuffered rec then
         b ← reg_buf rec 1;
         Status ← pool_put (lb_BufferPtr b);
         wr_reg_buf r 1 (λ b, b <| lb_BufferPtr := PNull |>);;
         mret Status
       else
         when (negb (rr_LoadInProgress rec =? CFE_TBL_NO_LOAD_IN_PROGRESS))
           (wr_shared (rr_LoadInProgress rec) (λ b, b <| lb_Taken := false |>);;
            wr_reg r (λ rec, rec <| rr_LoadInProgress := CFE_TBL_NO_LOAD_IN_PROGRESS |>));;
         mret Status
     else mret CFE_SUCCESS);
  CFE_TBL_UnlockRegistry;;
  mret Status.

Definition CFE_TBL_GetNextNotification (TblHandle : Z) : M TG Z :=
  d ← rd_hdl TblHandle;
  rec ← rd_reg (ac_RegIndex d);
  mret (if negb (rr_TableLoadedOnce rec) then CFE_TBL_ERR_NEVER_LOADED
        else if ac_Updated d then CFE_TBL_INFO_UPDATED else CFE_SUCCESS).

(** The result is the status and what is left in [*TblPtr]. *)
Definition CFE_TBL_GetAddressInternal (TblPtr : tptr) (TblHandle ThisAppId : Z) : M TG (Z * tptr) :=
  Status ← CFE_TBL_ValidateHandle TblHandle;
  if negb (Status =? CFE_SUCCESS) then mret (Status, TblPtr) else
  d ← rd_hdl TblHandle;
  Status ← CFE_TBL_CheckAccessRights TblHandle ThisAppId;
  if negb (Status =? CFE_SUCCESS) then mret (Status, TblPtr) else
  rec ← rd_reg (ac_RegIndex d);
  if rr_OwnerAppId rec =? CFE_TBL_NOT_OWNED then mret (CFE_TBL_ERR_UNREGISTERED, TblPtr)
  else
    wr_hdl TblHandle (λ d, d <| ac_LockFlag := true |>);;
    wr_hdl TblHandle (λ d, d <| ac_BufferIndex := rr_ActiveBufferIndex rec |>);;
    b ← reg_buf rec (rr_ActiveBufferIndex rec);
    Status ← CFE_TBL_GetNextNotification TblHandle;
    wr_hdl TblHandle (λ d, d <| ac_Updated := false |>);;
    mret (Status, lb_BufferPtr b).

(** ** Searches *)

Fixpoint FindTable_loop (TblName : list Z) (i : Z) (l : list CFE_TBL_RegistryRec_t) : Z :=
  match l with
  | [] => CFE_TBL_NOT_FOUND
  | rec :: l =>
      if negb (rr_OwnerAppId rec =? CFE_TBL_NOT_OWNED) && strcmp_eq TblName (rr_Name rec) then i else FindTable_loop TblName (i + 1) l
  end.
Definition CFE_TBL_FindTableInRegistry (TblName : list Z) : M TG Z := l ← gets Registry; mret (FindTable_loop TblName 0 l).

Fixpoint FindFreeRegistry_loop (i : Z) (l : list CFE_TBL_RegistryRec_t) : Z :=
  match l with
  | [] => CFE_TBL_NOT_FOUND
  | rec :: l =>
      if (rr_OwnerAppId rec =? CFE_TBL_NOT_OWNED) && (rr_HeadOfAccessList rec =? CFE_TBL_END_OF_LIST) then i
      else FindFreeRegistry_loop (i + 1) l
  end.
Definition CFE_TBL_FindFreeRegistryEntry : M TG Z := l ← gets Registry; mret (FindFreeRegistry_loop 0 l).

Fixpoint FindFreeHandle_loop (i : Z) (l : list CFE_TBL_AccessDescriptor_t) : Z :=
  match l with
  | [] => CFE_TBL_END_OF_LIST
  | d :: l => if ac_UsedFlag d then FindFreeHandle_loop (i + 1) l else i
  end.
Definition CFE_TBL_FindFreeHandle : M TG Z := l ← gets Handles; mret (FindFreeHandle_loop 0 l).

Fixpoint FindCrit_loop (CDSHandleToFind i : Z) (l : list CFE_TBL_CritRegRec_t) : ptr Z :=
  match l with
  | [] => None
  | c :: l => if cr_CDSHandle c =? CDSHandleToFind then Some i else FindCrit_loop CDSHandleToFind (i + 1) l
  end.
Definition CFE_TBL_FindCriticalTblInfo (CDSHandleToFind : Z) : M TG (ptr Z) := l ← gets CritReg; mret (FindCrit_loop CDSHandleToFind 0 l).

(** [sprintf] into an array of CFE_TBL_MAX_FULL_NAME_LEN bytes: a longer string has no
    result. *)
Definition CFE_TBL_FormTableName (TblName : list Z) (ThisAppId : Z) : M TG (list Z) :=
  AppName ← tbl_app_name ThisAppId;
  let AppName := <[(OS_MAX_API_NAME - 1)%nat := 0]> AppName in
  let name := expand "%s.%s" [AStr AppName; AStr TblName] in
  if (List.length name <? CFE_TBL_MAX_FULL_NAME_LEN)%nat
  then mret (name ++ replicate (CFE_TBL_MAX_FULL_NAME_LEN - List.length name) 0) else undef.

(** ** Working buffers *)

(** The descriptors that have [index] locked: the walk stops at the first. *)
Fixpoint locked_loop (fuel : nat) (AccessIterator index : Z) : M TG bool :=
  if AccessIterator =? CFE_TBL_END_OF_LIST then mret false else
  match fuel with
  | O => undef
  | S fuel =>
      d ← rd_hdl AccessIterator;
      if (ac_BufferIndex d =? index) && ac_LockFlag d then mret true
      else locked_loop fuel (ac_NextLink d) index
  end.

Fixpoint FindShared_loop (i : Z) (l : list CFE_TBL_LoadBuff_t) : Z :=
  match l with
  | [] => i
  | b :: l => if lb_Taken b then FindShared_loop (i + 1) l else i
  end.

Definition CFE_TBL_GetWorkingBuffer (r : Z) (CalledByApp : bool) : M TG (Z * ptr BufRef) :=
  rec ← rd_reg r;
  if negb (rr_LoadInProgress rec =? CFE_TBL_NO_LOAD_IN_PROGRESS) then
    mret (CFE_SUCCESS, Some (if rr_DoubleBuffered rec then RegBuf r (inactive rec) else SharedBuf (rr_LoadInProgress rec)))
  else if negb (rr_TableLoadedOnce rec) && CalledByApp then
    mret (CFE_SUCCESS, Some (RegBuf r (if rr_DoubleBuffered rec then rr_ActiveBufferIndex rec else 0)))
  else
    '(Status, W) ←
      (if rr_DoubleBuffered rec then
         let InactiveBufferIndex := 1 - rr_ActiveBufferIndex rec in
         fuel ← walk_fuel;
         l ← locked_loop fuel (rr_HeadOfAccessList rec) InactiveBufferIndex;
         if l : bool then mret (CFE_TBL_ERR_NO_BUFFER_AVAIL, None)
         else
           wr_reg r (λ rec, rec <| rr_LoadInProgress := InactiveBufferIndex |>);;
           mret (CFE_SUCCESS, Some (RegBuf r InactiveBufferIndex))
       else
         work_take;;
         l ← gets LoadBuffs;
         let i := FindShared_loop 0 l in
         '(Status, W) ←
           (if i <? CFE_PLATFORM_TBL_MAX_SIMULTANEOUS_LOADS then
              wr_shared i (λ b, b <| lb_Taken := true |>);;
              wr_reg r (λ rec, rec <| rr_LoadInProgress := i |>);;
              mret (CFE_SUCCESS, Some (SharedBuf i))
            else mret (CFE_TBL_ERR_NO_BUFFER_AVAIL, None));
         work_give;;
         mret (Status, W));
    match W with
    | None => mret (Status, W)
    | Some w =>
        b ← rd_lb w;
        act ← reg_buf rec (rr_ActiveBufferIndex rec);
        (if bool_decide (lb_BufferPtr b = lb_BufferPtr act) then mret tt
         else memcpy (lb_BufferPtr b) (lb_BufferPtr act) (rr_Size rec));;
        mret (Status, W)
    end.

(** ** Files *)

(** The standard header, the table header and the status. *)
Definition CFE_TBL_ReadHeaders (FileDescriptor : Z) : M TG (Z * list Z * list Z) :=
  let TblFileHeader := replicate sizeof_TBL_File_Hdr 0 in
  '(Status, Hdr) ← files (CFE_FS_ReadHeader (Some (replicate sizeof_CFE_FS_Header 0)) FileDescriptor);
  let StdFileHeader := default [] Hdr in
  if negb (Status =? Z.of_nat sizeof_CFE_FS_Header) then
    event CFE_TBL_FILE_STD_HDR_ERR_EID ERROR;; mret (CFE_TBL_ERR_NO_STD_HEADER, StdFileHeader, TblFileHeader)
  else if negb (u32_at off_ContentType StdFileHeader =? CFE_FS_FILE_CONTENT_ID) then
    event CFE_TBL_FILE_TYPE_ERR_EID ERROR;; mret (CFE_TBL_ERR_BAD_CONTENT_ID, StdFileHeader, TblFileHeader)
  else if negb (u32_at off_SubType StdFileHeader =? CFE_FS_SubType_TBL_IMG) then
    event CFE_TBL_FILE_SUBTYPE_ERR_EID ERROR;; mret (CFE_TBL_ERR_BAD_SUBTYPE_ID, StdFileHeader, TblFileHeader)
  else
    '(Status, bs) ← files (FsFile.call (OS_read FileDescriptor sizeof_TBL_File_Hdr));
    let TblFileHeader := splice 0 bs TblFileHeader in
    if negb (Status =? Z.of_nat sizeof_TBL_File_Hdr) then
      event CFE_TBL_FILE_TBL_HDR_ERR_EID ERROR;; mret (CFE_TBL_ERR_NO_TBL_HEADER, StdFileHeader, TblFileHeader)
    else
      mret (CFE_SUCCESS, StdFileHeader, <[(sizeof_TBL_File_Hdr - 1)%nat := 0]> (CFE_TBL_ByteSwapTblHeader TblFileHeader)).

Definition close_file (FileDescriptor Status : Z) : M TG Z := _ ← files (FsFile.call (OS_close FileDescriptor)); mret Status.

(** Writing what a read gives at an offset of a buffer: status and buffer pointer. *)
Definition read_into (w : BufRef) (FileDescriptor Offset NumBytes : Z) : M TG Z :=
  '(st, bs) ← files (FsFile.call (OS_read FileDescriptor (Z.to_nat NumBytes)));
  b ← rd_lb w;
  wr_mem (lb_BufferPtr b) Offset bs;;
  mret st.

Definition CFE_TBL_LoadFromFile (w : BufRef) (r : Z) (Filename : list Z) : M TG Z :=
  if (OS_MAX_PATH_LEN - 1 <? List.length (cstr Filename))%nat then
    event CFE_TBL_LOAD_FILENAME_LONG_ERR_EID ERROR;; mret CFE_TBL_ERR_FILENAME_TOO_LONG
  else
  '(Status, FileDescriptor) ← files (FsFile.call (OS_OpenCreate Filename OS_FILE_FLAG_NONE OS_READ_ONLY));
  if Status <? 0 then event CFE_TBL_FILE_ACCESS_ERR_EID ERROR;; mret CFE_TBL_ERR_ACCESS else
  '(Status, StdFileHeader, TblFileHeader) ← CFE_TBL_ReadHeaders FileDescriptor;
  if negb (Status =? CFE_SUCCESS) then close_file FileDescriptor Status else
  rec ← rd_reg r;
  let Offset := u32_at off_Offset TblFileHeader in
  let NumBytes := u32_at off_NumBytes TblFileHeader in
  if negb (strcmp_eq (rr_Name rec) (hdr_TableName TblFileHeader)) then
    event CFE_TBL_LOAD_TBLNAME_MISMATCH_ERR_EID ERROR;; close_file FileDescriptor CFE_TBL_ERR_FILE_FOR_WRONG_TABLE
  else if rr_Size rec <? u32 (Offset + NumBytes) then
    event CFE_TBL_LOAD_EXCEEDS_SIZE_ERR_EID ERROR;; close_file FileDescriptor CFE_TBL_ERR_FILE_TOO_LARGE
  else
    let Status := if 0 <? Offset then CFE_TBL_WARN_PARTIAL_LOAD
                  else if NumBytes <? rr_Size rec then CFE_TBL_WARN_SHORT_FILE else CFE_SUCCESS in
    st ← read_into w FileDescriptor Offset NumBytes;
    if negb (u32 st =? NumBytes) then
      event CFE_TBL_FILE_INCOMPLETE_ERR_EID ERROR;; close_file FileDescriptor CFE_TBL_ERR_LOAD_INCOMPLETE
    else
      '(st, _) ← files (FsFile.call (OS_read FileDescriptor 1));
      if u32 st =? 1 then
        event CFE_TBL_FILE_TOO_BIG_ERR_EID ERROR;; close_file FileDescriptor CFE_TBL_ERR_FILE_TOO_LARGE
      else
        wr_lb w (λ b, b <| lb_DataSource := strncpy (replicate OS_MAX_PATH_LEN 0) Filename (OS_MAX_PATH_LEN - 1) |>);;
        wr_lb w (λ b, b <| lb_FileCreateTimeSecs := u32_at off_TimeSeconds StdFileHeader |>
                        <| lb_FileCreateTimeSubSecs := u32_at off_TimeSubSeconds StdFileHeader |>);;
        b ← rd_lb w;
        c ← crc_of (lb_BufferPtr b) (rr_Size rec);
        wr_lb w (λ b, b <| lb_Crc := c |>);;
        close_file FileDescriptor Status.

(** ** Updates *)

Fixpoint notify_loop (fuel : nat) (AccessIterator : Z) : M TG unit :=
  if AccessIterator =? CFE_TBL_END_OF_LIST then mret tt else
  match fuel with
  | O => undef
  | S fuel =>
      d ← rd_hdl AccessIterator;
      wr_hdl AccessIterator (λ d, d <| ac_Updated := true |>);;
      notify_loop fuel (ac_NextLink d)
  end.

Definition CFE_TBL_NotifyTblUsersOfUpdate (r : Z) : M TG unit :=
  now ← gets TblNow;
  wr_reg r (λ rec, rec <| rr_LoadInProgress := CFE_TBL_NO_LOAD_IN_PROGRESS |> <| rr_TimeOfLastUpdate := now |>
                       <| rr_LoadPending := false |> <| rr_TableLoadedOnce := true |>);;
  rec ← rd_reg r;
  fuel ← walk_fuel;
  notify_loop fuel (rr_HeadOfAccessList rec).

Definition CFE_TBL_UpdateCriticalTblCDS (r : Z) : M TG unit :=
  rec ← rd_reg r;
  b ← reg_buf rec (rr_ActiveBufferIndex rec);
  bs ← rd_bytes (lb_BufferPtr b) (rr_Size rec);
  Status ← cds (CFE_ES_CopyToCDS (rr_CDSHandle rec) bs);
  if negb (Status =? CFE_SUCCESS) then mret tt
  else
    CritRegRecPtr ← CFE_TBL_FindCriticalTblInfo (rr_CDSHandle rec);
    match CritRegRecPtr with
    | None => mret tt
    | Some i =>
        wr_crit i (λ c, c <| cr_FileCreateTimeSecs := lb_FileCreateTimeSecs b |>
                          <| cr_FileCreateTimeSubSecs := lb_FileCreateTimeSubSecs b |>
                          <| cr_LastFileLoaded ::= λ d, copy_str OS_MAX_PATH_LEN d (rr_LastFileLoaded rec) |>
                          <| cr_TimeOfLastUpdate := rr_TimeOfLastUpdate rec |>
                          <| cr_TableLoadedOnce := rr_TableLoadedOnce rec |>);;
        h ← gets tg_CritRegHandle;
        l ← gets CritReg;
        _ ← cds (CFE_ES_CopyRegToCDS h l);
        mret tt
    end.

(** Whether any descriptor of the list is locked: the walk does not stop early. *)
Fixpoint lock_loop (fuel : nat) (AccessIterator : Z) (LockStatus : bool) : M TG bool :=
  if AccessIterator =? CFE_TBL_END_OF_LIST then mret LockStatus else
  match fuel with
  | O => undef
  | S fuel => d ← rd_hdl AccessIterator; lock_loop fuel (ac_NextLink d) (LockStatus || ac_LockFlag d)
  end.

(** A double buffered table swaps its buffers, a single buffered one copies the working
    buffer unless somebody has its address. *)
Definition update_swap (r : Z) (rec : CFE_TBL_RegistryRec_t) : M TG Z :=
  let active := u8 (rr_LoadInProgress rec) in
  wr_reg r (λ rec, rec <| rr_ActiveBufferIndex := active |>);;
  b ← reg_buf rec active;
  wr_reg r (λ rec, rec <| rr_LastFileLoaded ::= λ d, copy_str OS_MAX_PATH_LEN d (lb_DataSource b) |>);;
  CFE_TBL_NotifyTblUsersOfUpdate r;;
  when (rr_CriticalTable rec) (CFE_TBL_UpdateCriticalTblCDS r);;
  mret CFE_SUCCESS.

Definition update_copy (r : Z) (rec : CFE_TBL_RegistryRec_t) : M TG Z :=
  fuel ← walk_fuel;
  LockStatus ← lock_loop fuel (rr_HeadOfAccessList rec) false;
  if LockStatus : bool then mret CFE_TBL_INFO_TABLE_LOCKED
  else
    b0 ← reg_buf rec 0;
    w ← rd_shared (rr_LoadInProgress rec);
    (if bool_decide (lb_BufferPtr b0 = lb_BufferPtr w) then mret tt
     else memcpy (lb_BufferPtr b0) (lb_BufferPtr w) (rr_Size rec));;
    wr_reg_buf r 0 (λ b, b <| lb_DataSource ::= λ d, copy_str OS_MAX_PATH_LEN d (lb_DataSource w) |>);;
    wr_reg r (λ rec, rec <| rr_LastFileLoaded ::= λ d, copy_str OS_MAX_PATH_LEN d (lb_DataSource w) |>);;
    wr_reg_buf r 0 (λ b, b <| lb_FileCreateTimeSecs := lb_FileCreateTimeSecs w |>
                           <| lb_FileCreateTimeSubSecs := lb_FileCreateTimeSubSecs w |> <| lb_Crc := lb_Crc w |>);;
    wr_shared (rr_LoadInProgress rec) (λ b, b <| lb_Taken := false |>);;
    CFE_TBL_NotifyTblUsersOfUpdate r;;
    when (rr_CriticalTable rec) (CFE_TBL_UpdateCriticalTblCDS r);;
    mret CFE_SUCCESS.

Definition CFE_TBL_UpdateInternal (r : Z) : M TG Z :=
  rec ← rd_reg r;
  if negb (rr_LoadPending rec) || (rr_LoadInProgress rec =? CFE_TBL_NO_LOAD_IN_PROGRESS) then mret CFE_TBL_INFO_NO_UPDATE_PENDING
  else if rr_DoubleBuffered rec then update_swap r rec
  else update_copy r rec.

(** ** Clean up and notification *)

Fixpoint clean_dumps (n : nat) (i AppId : Z) : M TG unit :=
  match n with
  | O => mret tt
  | S n =>
      c ← rd_dump i;
      (if bool_decide (dc_State c = CFE_TBL_DUMP_FREE) then mret tt
       else
         rec ← rd_reg (dc_RegRecPtr c);
         when (rr_OwnerAppId rec =? AppId) (wr_dump i (λ c, c <| dc_State := CFE_TBL_DUMP_FREE |>)));;
      clean_dumps n (i + 1) AppId
  end.

(** An application leaves a table: the table is unowned when it was the owner. *)
Definition drop_table (r AppId : Z) : M TG unit :=
  rec ← rd_reg r;
  when (rr_OwnerAppId rec =? AppId)
    (wr_reg r (λ rec, rec <| rr_OwnerAppId := CFE_TBL_NOT_OWNED |> <| rr_Name ::= <[0%nat := 0]> |>)).

Fixpoint clean_handles (n : nat) (i AppId : Z) : M TG unit :=
  match n with
  | O => mret tt
  | S n =>
      d ← rd_hdl i;
      when ((ac_AppId d =? AppId) && ac_UsedFlag d)
        (drop_table (ac_RegIndex d) AppId;;
         _ ← CFE_TBL_RemoveAccessLink i;
         wr_hdl i (λ d, d <| ac_AppId := CFE_TBL_NOT_OWNED |>));;
      clean_handles n (i + 1) AppId
  end.

Definition CFE_TBL_CleanUpApp (AppId : Z) : M TG Z :=
  clean_dumps (Z.to_nat CFE_PLATFORM_TBL_MAX_SIMULTANEOUS_LOADS) 0 AppId;;
  clean_handles (Z.to_nat CFE_PLATFORM_TBL_MAX_NUM_HANDLES) 0 AppId;;
  mret CFE_SUCCESS.

Definition CFE_TBL_SendNotificationMsg (r : Z) : M TG Z :=
  rec ← rd_reg r;
  if rr_NotifyByMsg rec then
    now ← gets TblNow;
    modify (λ s, s <| tg_NotifyHeader ::= λ h,
      let h := default [] (CFE_MSG_SetMsgId tbl_idv (Some h) (rr_NotificationMsgId rec)).2 in
      default [] (CFE_MSG_SetFcnCode tbl_hdr (Some h) (rr_NotificationCC rec)).2 |>
      <| tg_NotifyParam := rr_NotificationParam rec |>);;
    modify (λ s, s <| tg_NotifyHeader ::= λ h, default [] (CFE_MSG_SetMsgTime tbl_hdr (Some h) (Seconds now, Subseconds now)).2 |>);;
    h ← gets tg_NotifyHeader;
    p ← gets tg_NotifyParam;
    modify (λ s, s <| TblSent ::= λ l, l ++ [OutNotify h p] |>);;
    let Status := TransmitStatus h in
    when (negb (Status =? CFE_SUCCESS)) (event CFE_TBL_FAIL_NOTIFY_SEND_ERR_EID ERROR);;
    mret Status
  else mret CFE_SUCCESS.

(** ** Start up *)

(** The shared buffers are taken until they have been allocated. *)
Fixpoint init_buffs (n : nat) (j : Z) : M TG (option Z) :=
  match n with
  | O => mret None
  | S n =>
      '(Status, p) ← pool_get CFE_PLATFORM_TBL_MAX_SNGL_TABLE_SIZE;
      wr_shared j (λ b, b <| lb_BufferPtr := p |>);;
      if Status <? CFE_PLATFORM_TBL_MAX_SNGL_TABLE_SIZE then mret (Some Status)
      else wr_shared j (λ b, b <| lb_Taken := false |>);; init_buffs n (j + 1)
  end.

Definition zero_crit : CFE_TBL_CritRegRec_t :=
  mkCritReg CFE_ES_CDS_BAD_HANDLE 0 0 (mkTime 0 0) (replicate OS_MAX_PATH_LEN 0) (replicate CFE_TBL_MAX_FULL_NAME_LEN 0) false.

Definition zero_hk : CFE_TBL_HousekeepingTlm_Payload_t :=
  mkTblHk 0 0 0 0 0 0 0 false (replicate CFE_TBL_MAX_FULL_NAME_LEN 0) 0 0 0 0 (mkTime 0 0) (replicate CFE_TBL_MAX_FULL_NAME_LEN 0)
    (replicate OS_MAX_PATH_LEN 0) (replicate OS_MAX_PATH_LEN 0) (replicate CFE_TBL_MAX_FULL_NAME_LEN 0).

Definition zero_regdump : CFE_TBL_RegDumpRec_t :=
  mkRegDump 0 (mkTime 0 0) 0 0 0 0 0 false false false false false (replicate CFE_TBL_MAX_FULL_NAME_LEN 0)
    (replicate OS_MAX_PATH_LEN 0) (replicate OS_MAX_API_NAME 0) false.

(** CFE_TBL_Global cleared, with the values that are not zero. *)
Definition clear_global (s : TG) : TG :=
  mkTbl PS FS CS 0 0 0 0 0 CFE_TBL_NOT_FOUND [] zero_hk [] [] 0 0 0 CFE_TBL_NOT_FOUND 0 false false 0
    (replicate (Z.to_nat CFE_PLATFORM_TBL_MAX_SIMULTANEOUS_LOADS) (zero_buff <| lb_Taken := true |>))
    (replicate (Z.to_nat CFE_PLATFORM_TBL_MAX_NUM_HANDLES)
       (mkAccess CFE_TBL_NOT_OWNED 0 CFE_TBL_END_OF_LIST CFE_TBL_END_OF_LIST false false false 0))
    (replicate (Z.to_nat CFE_PLATFORM_TBL_MAX_NUM_TABLES) CFE_TBL_InitRegistryRecord)
    (replicate (Z.to_nat CFE_PLATFORM_TBL_MAX_CRITICAL_TABLES) zero_crit)
    (replicate (Z.to_nat CFE_PLATFORM_TBL_MAX_NUM_VALIDATIONS)
       (mkValResult CFE_TBL_VALIDATION_FREE 0 0 false (replicate CFE_TBL_MAX_FULL_NAME_LEN 0)))
    (replicate (Z.to_nat CFE_PLATFORM_TBL_MAX_SIMULTANEOUS_LOADS)
       (mkDumpControl CFE_TBL_DUMP_FREE 0 (SharedBuf (-1)) (-1) (replicate CFE_TBL_MAX_FULL_NAME_LEN 0)))
    (mkRegDumpState (replicate OS_MAX_PATH_LEN 0) false false zero_regdump)
    (TblPool s) (TblMem s) (AppMem s) (TblFiles s) (Cds s) (TblApps s) (TblNow s) (TblSent s).

Definition crit_size : Z := 128 * CFE_PLATFORM_TBL_MAX_CRITICAL_TABLES.

(** [RegMutex], [WorkMutex] are the status of the two OS_MutSemCreate, [PoolCreate] the
    one of CFE_ES_PoolCreate, which leaves the pool of the state. *)
Definition CFE_TBL_EarlyInit (RegMutex WorkMutex PoolCreate : Z) : M TG Z :=
  modify clear_global;;
  if negb (RegMutex =? OS_SUCCESS) then mret RegMutex
  else if negb (WorkMutex =? OS_SUCCESS) then mret WorkMutex
  else if PoolCreate <? 0 then mret PoolCreate
  else
    err ← init_buffs (Z.to_nat CFE_PLATFORM_TBL_MAX_SIMULTANEOUS_LOADS) 0;
    match err with
    | Some Status => mret Status
    | None =>
        '(Status, h) ← cds (CFE_ES_RegisterCDSEx crit_size (chars "CFE_TBL.CritReg") true);
        modify (λ s, s <| tg_CritRegHandle := h |>);;
        modify (λ s, s <| CritReg ::= fmap (λ c, c <| cr_CDSHandle := CFE_ES_CDS_BAD_HANDLE |>) |>);;
        (if Status =? CFE_ES_CDS_ALREADY_EXISTS then
           '(_, l) ← cds (λ c, (CFE_ES_RestoreRegFromCDS h c, c));
           modify (λ s, s <| CritReg := l |>)
         else if negb (Status =? CFE_SUCCESS) then mret tt
         else
           l ← gets CritReg;
           _ ← cds (CFE_ES_CopyRegToCDS h l);
           mret tt);;
        mret CFE_SUCCESS
    end.
End tbl.
