(* ===== verification/TblApi.v ===== *)
(** * The API of table services (cfe_tbl_api.c)

    A pointer argument is [None] for NULL; the result holds what the function leaves in
    it. *)
From Stdlib Require Import String.
From S2P Require Import Prelude Config Msg ResourceId Cstring EsApp TimeApi SbState TblConfig EsCrc FsFile TblState TblInternal.
Import ListNotations.

(** ** Options *)

Definition opt (TblOptionFlags mask value : Z) : bool := Z.land TblOptionFlags mask =? value.

(** The checks of CFE_TBL_Register on size and options; an error of the options replaces
    one of the size. *)
Definition register_args (Size TblOptionFlags : Z) : Z :=
  let dbl := opt TblOptionFlags CFE_TBL_OPT_BUFFER_MSK CFE_TBL_OPT_DBL_BUFFER in
  let crit := opt TblOptionFlags CFE_TBL_OPT_CRITICAL_MSK CFE_TBL_OPT_CRITICAL in
  let Status :=
    if Size =? 0 then CFE_TBL_ERR_INVALID_SIZE
    else if (CFE_PLATFORM_TBL_MAX_SNGL_TABLE_SIZE <? Size) && opt TblOptionFlags CFE_TBL_OPT_BUFFER_MSK CFE_TBL_OPT_SNGL_BUFFER
    then CFE_TBL_ERR_INVALID_SIZE
    else if (CFE_PLATFORM_TBL_MAX_DBL_TABLE_SIZE <? Size) && dbl then CFE_TBL_ERR_INVALID_SIZE
    else CFE_SUCCESS in
  if opt TblOptionFlags CFE_TBL_OPT_USR_DEF_MSK (Z.land CFE_TBL_OPT_USR_DEF_ADDR CFE_TBL_OPT_USR_DEF_MSK) then
    if dbl || opt TblOptionFlags CFE_TBL_OPT_LD_DMP_MSK CFE_TBL_OPT_LOAD_DUMP || crit then CFE_TBL_ERR_INVALID_OPTIONS else Status
  else if opt TblOptionFlags CFE_TBL_OPT_LD_DMP_MSK CFE_TBL_OPT_DUMP_ONLY then
    if dbl || crit then CFE_TBL_ERR_INVALID_OPTIONS else Status
  else Status.

Record CFE_TBL_Info_t := mkInfo {
  ti_Size : Z;
  ti_NumUsers : Z;
  ti_FileCreateTimeSecs : Z;
  ti_FileCreateTimeSubSecs : Z;
  ti_Crc : Z;
  ti_TimeOfLastUpdate : CFE_TIME_SysTime_t;
  ti_TableLoadedOnce : bool;
  ti_DumpOnly : bool;
  ti_DoubleBuffered : bool;
  ti_UserDefAddr : bool;
  ti_Critical : bool;
  ti_LastFileLoaded : list Z;
}.

Section tbl.
Context {PS FS CS : Type} `{Pool : MemPool PS} `{Files : OSFile FS} `{Store : CDSStore CS} `{Cfg : TblCfg}.
Abbreviation TG := (CFE_TBL_Global_t PS FS CS).
Abbreviation ERROR := CFE_EVS_EventType_ERROR.
Abbreviation DEBUG := CFE_EVS_EventType_DEBUG.
Abbreviation INFORMATION := CFE_EVS_EventType_INFORMATION.

(** ** Registration *)

(** The existing handle of the application for a table it owns. *)
Fixpoint own_handle_loop (fuel : nat) (AccessIndex ThisAppId RegIndx : Z) : M TG Z :=
  if AccessIndex =? CFE_TBL_END_OF_LIST then mret CFE_TBL_BAD_TABLE_HANDLE else
  match fuel with
  | O => undef
  | S fuel =>
      d ← rd_hdl AccessIndex;
      if ac_UsedFlag d && (ac_AppId d =? ThisAppId) && (ac_RegIndex d =? RegIndx) then mret AccessIndex
      else own_handle_loop fuel (ac_NextLink d) ThisAppId RegIndx
  end.

(** The search for the name and, when it is new, for a free entry: status, index and
    the handle of a repeated registration. *)
Definition register_find (TblName : list Z) (Size ThisAppId : Z) : M TG (Z * Z * Z) :=
  RegIndx ← CFE_TBL_FindTableInRegistry TblName;
  '(Status, RegIndx, TblHandle) ←
    (if negb (RegIndx =? CFE_TBL_NOT_FOUND) then
       rec ← rd_reg RegIndx;
       if rr_OwnerAppId rec =? ThisAppId then
         if negb (Size =? rr_Size rec) then mret (CFE_TBL_ERR_DUPLICATE_DIFF_SIZE, RegIndx, CFE_TBL_BAD_TABLE_HANDLE)
         else
           fuel ← walk_fuel;
           h ← own_handle_loop fuel (rr_HeadOfAccessList rec) ThisAppId RegIndx;
           mret (CFE_TBL_WARN_DUPLICATE, RegIndx, h)
       else mret (CFE_TBL_ERR_DUPLICATE_NOT_OWNED, RegIndx, CFE_TBL_BAD_TABLE_HANDLE)
     else
       RegIndx ← CFE_TBL_FindFreeRegistryEntry;
       mret (CFE_SUCCESS, RegIndx, CFE_TBL_BAD_TABLE_HANDLE));
  mret (if RegIndx =? CFE_TBL_NOT_FOUND then CFE_TBL_ERR_REGISTRY_FULL else Status, RegIndx, TblHandle).

(** The buffers of a new table, cleared; the status is the one of the last allocation. *)
Definition register_buffer (r i Size : Z) : M TG Z :=
  '(Status, p) ← pool_get Size;
  if Status <? 0 then mret Status
  else wr_reg_buf r i (λ b, b <| lb_BufferPtr := p |>);; memset p Size;; mret CFE_SUCCESS.

Definition register_buffers (r Size TblOptionFlags : Z) : M TG Z :=
  Status ←
    (if negb (opt TblOptionFlags CFE_TBL_OPT_USR_DEF_MSK (Z.land CFE_TBL_OPT_USR_DEF_ADDR CFE_TBL_OPT_USR_DEF_MSK)) then
       wr_reg r (λ rec, rec <| rr_UserDefAddr := false |>);;
       register_buffer r 0 Size
     else
       wr_reg_buf r 0 (λ b, b <| lb_BufferPtr := PNull |>);;
       wr_reg r (λ rec, rec <| rr_UserDefAddr := true |>);;
       mret CFE_SUCCESS);
  if opt TblOptionFlags CFE_TBL_OPT_DBL_BUFFER CFE_TBL_OPT_DBL_BUFFER && negb (failed Status) then
    Status ← register_buffer r 1 Size;
    wr_reg r (λ rec, rec <| rr_ActiveBufferIndex := 0 |> <| rr_DoubleBuffered := true |>);;
    mret Status
  else
    wr_reg r (λ rec, rec <| rr_DoubleBuffered := false |> <| rr_ActiveBufferIndex := 0 |>);;
    mret Status.

(** A critical table: its contents are taken from the critical data store when they are
    there and the critical table registry knows them.  [Name] is the full name. *)
Definition register_restore (r : Z) : M TG Z :=
  '(Status, W) ← CFE_TBL_GetWorkingBuffer r true;
  rec ← rd_reg r;
  Status ←
    match W with
    | Some w =>
        if negb (Status =? CFE_SUCCESS) then mret Status
        else
          b ← rd_lb w;
          '(Status, bs) ← cds (λ c, (CFE_ES_RestoreFromCDS (rr_CDSHandle rec) c, c));
          wr_mem (lb_BufferPtr b) 0 bs;;
          mret Status
    | None => if Status =? CFE_SUCCESS then undef else mret Status
    end;
  Status ←
    match W with
    | Some w =>
        if negb (Status =? CFE_SUCCESS) then mret CFE_SUCCESS
        else
          crits ← gets CritReg;
          match FindCrit_loop (rr_CDSHandle rec) 0 crits with
          | None => mret CFE_SUCCESS
          | Some i =>
              c ← tbl_get crits i;
              if cr_TableLoadedOnce c then
                wr_lb w (λ b, b <| lb_DataSource ::= λ d, copy_str OS_MAX_PATH_LEN d (cr_LastFileLoaded c) |>
                                <| lb_FileCreateTimeSecs := cr_FileCreateTimeSecs c |>
                                <| lb_FileCreateTimeSubSecs := cr_FileCreateTimeSubSecs c |>);;
                wr_reg r (λ rec, rec <| rr_LastFileLoaded ::= λ d, copy_str OS_MAX_PATH_LEN d (cr_LastFileLoaded c) |>
                                     <| rr_TimeOfLastUpdate := cr_TimeOfLastUpdate c |>
                                     <| rr_TableLoadedOnce := cr_TableLoadedOnce c |>);;
                b ← rd_lb w;
                crc ← crc_of (lb_BufferPtr b) (rr_Size rec);
                wr_lb w (λ b, b <| lb_Crc := crc |>);;
                CFE_TBL_NotifyTblUsersOfUpdate r;;
                mret CFE_TBL_INFO_RECOVERED_TBL
              else mret CFE_SUCCESS
          end
    | None => mret CFE_SUCCESS
    end;
  wr_reg r (λ rec, rec <| rr_CriticalTable := true |>);;
  mret Status.

Definition register_critical (r Size : Z) (TblName : list Z) : M TG Z :=
  '(Status, h) ← cds (CFE_ES_RegisterCDSEx Size (cstr TblName) true);
  wr_reg r (λ rec, rec <| rr_CDSHandle := h |>);;
  Status ← (if Status =? CFE_ES_CDS_ALREADY_EXISTS then register_restore r else mret Status);
  if Status =? CFE_SUCCESS then
    CritRegRecPtr ← CFE_TBL_FindCriticalTblInfo CFE_ES_CDS_BAD_HANDLE;
    match CritRegRecPtr with
    | Some i =>
        wr_crit i (λ c, c <| cr_CDSHandle := h |> <| cr_Name ::= λ d, copy_str CFE_TBL_MAX_FULL_NAME_LEN d TblName |>
                          <| cr_FileCreateTimeSecs := 0 |> <| cr_FileCreateTimeSubSecs := 0 |>
                          <| cr_LastFileLoaded ::= <[0%nat := 0]> |> <| cr_TimeOfLastUpdate := mkTime 0 0 |>
                          <| cr_TableLoadedOnce := false |>);;
        ch ← gets tg_CritRegHandle;
        l ← gets CritReg;
        _ ← cds (CFE_ES_CopyRegToCDS ch l);
        mret tt
    | None => mret tt
    end;;
    wr_reg r (λ rec, rec <| rr_CriticalTable := true |>);;
    mret Status
  else if negb (Status =? CFE_TBL_INFO_RECOVERED_TBL) then mret CFE_TBL_WARN_NOT_CRITICAL
  else mret Status.

(** The new entry: registry record, buffers, access descriptor, critical data, and last
    the owner. *)
Definition register_new (r h Size TblOptionFlags : Z) (ValFunc : addr) (TblName : list Z) (ThisAppId : Z) : M TG Z :=
  wr_reg r (λ _, CFE_TBL_InitRegistryRecord);;
  Status ← register_buffers r Size TblOptionFlags;
  if failed Status then mret Status
  else
    let DumpOnly := opt TblOptionFlags CFE_TBL_OPT_LD_DMP_MSK CFE_TBL_OPT_DUMP_ONLY in
    wr_reg r (λ rec, rec <| rr_Size := Size |> <| rr_ValidationFuncPtr := ValFunc |>
                         <| rr_Name ::= λ d, copy_str CFE_TBL_MAX_FULL_NAME_LEN d TblName |> <| rr_DumpOnly := DumpOnly |>);;
    wr_hdl h (λ d, d <| ac_AppId := ThisAppId |> <| ac_LockFlag := false |> <| ac_Updated := false |>);;
    rec ← rd_reg r;
    when (rr_DumpOnly rec && negb (rr_UserDefAddr rec)) (wr_reg r (λ rec, rec <| rr_TableLoadedOnce := true |>));;
    wr_hdl h (λ d, d <| ac_RegIndex := r |> <| ac_PrevLink := CFE_TBL_END_OF_LIST |>
                     <| ac_NextLink := CFE_TBL_END_OF_LIST |> <| ac_UsedFlag := true |>);;
    wr_reg r (λ rec, rec <| rr_HeadOfAccessList := h |>);;
    Status ← (if opt TblOptionFlags CFE_TBL_OPT_CRITICAL_MSK CFE_TBL_OPT_CRITICAL then register_critical r Size TblName
              else mret Status);
    wr_reg r (λ rec, rec <| rr_OwnerAppId := ThisAppId |>);;
    mret Status.

Definition register_locked (Size TblOptionFlags : Z) (ValFunc : addr) (TblName : list Z) (ThisAppId : Z) : M TG (Z * Z) :=
  '(Status, RegIndx, TblHandle) ← register_find TblName Size ThisAppId;
  if Status =? CFE_TBL_WARN_DUPLICATE then mret (Status, TblHandle)
  else
    TblHandle ← CFE_TBL_FindFreeHandle;
    let Status := if TblHandle =? CFE_TBL_END_OF_LIST then CFE_TBL_ERR_HANDLES_FULL else Status in
    if failed Status then mret (Status, TblHandle)
    else
      Status ← register_new RegIndx TblHandle Size TblOptionFlags ValFunc TblName ThisAppId;
      mret (Status, TblHandle).

Definition CFE_TBL_Register (App : Z * Z) (TblHandlePtr : ptr Z) (Name : ptr (list Z)) (Size TblOptionFlags : Z) (ValFunc : addr)
  : M TG (Z * ptr Z) :=
  match TblHandlePtr, Name with
  | Some TblHandle, Some Name =>
      let '(Status, ThisAppId) := App in
      '(Status, TblHandle, TblName) ←
        (if Status =? CFE_SUCCESS then
           let NameLen := Z.of_nat (List.length (cstr Name)) in
           if (CFE_MISSION_TBL_MAX_NAME_LENGTH <? NameLen) || (NameLen =? 0)
           then mret (CFE_TBL_ERR_INVALID_NAME, CFE_TBL_BAD_TABLE_HANDLE, [])
           else
             TblName ← CFE_TBL_FormTableName Name ThisAppId;
             mret (register_args Size TblOptionFlags, CFE_TBL_BAD_TABLE_HANDLE, TblName)
         else mret (Status, TblHandle, []));
      '(Status, TblHandle) ←
        (if Status =? CFE_SUCCESS then
           CFE_TBL_LockRegistry;;
           r ← register_locked Size TblOptionFlags ValFunc TblName ThisAppId;
           CFE_TBL_UnlockRegistry;;
           mret r
         else mret (Status, TblHandle));
      if Status <? 0 then
        event CFE_TBL_REGISTER_ERR_EID ERROR;; mret (Status, Some CFE_TBL_BAD_TABLE_HANDLE)
      else mret (Status, Some TblHandle)
  | _, _ => mret (CFE_TBL_BAD_ARGUMENT, TblHandlePtr)
  end.

Definition share_locked (TblName : list Z) (ThisAppId TblHandle : Z) : M TG (Z * Z) :=
  RegIndx ← CFE_TBL_FindTableInRegistry TblName;
  if negb (RegIndx =? CFE_TBL_NOT_FOUND) then
    h ← CFE_TBL_FindFreeHandle;
    if h =? CFE_TBL_END_OF_LIST then mret (CFE_TBL_ERR_HANDLES_FULL, h)
    else
      rec ← rd_reg RegIndx;
      wr_hdl h (λ d, d <| ac_AppId := ThisAppId |> <| ac_LockFlag := false |> <| ac_Updated := rr_TableLoadedOnce rec |>
                       <| ac_RegIndex := RegIndx |> <| ac_UsedFlag := true |>
                       <| ac_PrevLink := CFE_TBL_END_OF_LIST |> <| ac_NextLink := rr_HeadOfAccessList rec |>);;
      wr_hdl (rr_HeadOfAccessList rec) (λ d, d <| ac_PrevLink := h |>);;
      wr_reg RegIndx (λ rec, rec <| rr_HeadOfAccessList := h |>);;
      mret (CFE_SUCCESS, h)
  else mret (CFE_TBL_ERR_INVALID_NAME, TblHandle).

Definition CFE_TBL_Share (App : Z * Z) (TblHandlePtr : ptr Z) (TblName : ptr (list Z)) : M TG (Z * ptr Z) :=
  match TblHandlePtr, TblName with
  | Some TblHandle, Some TblName =>
      let '(Status, ThisAppId) := App in
      '(Status, TblHandle) ←
        (if Status =? CFE_SUCCESS then
           CFE_TBL_LockRegistry;;
           r ← share_locked TblName ThisAppId TblHandle;
           CFE_TBL_UnlockRegistry;;
           mret r
         else mret (Status, TblHandle));
      when (Status <? 0) (event CFE_TBL_SHARE_ERR_EID ERROR);;
      mret (Status, Some TblHandle)
  | _, _ => mret (CFE_TBL_BAD_ARGUMENT, TblHandlePtr)
  end.

Definition CFE_TBL_Unregister (App : Z * Z) (TblHandle : Z) : M TG Z :=
  Status ← CFE_TBL_ValidateAccess App TblHandle;
  when (Status =? CFE_SUCCESS)
    (d ← rd_hdl TblHandle;
     drop_table (ac_RegIndex d) App.2;;
     _ ← CFE_TBL_RemoveAccessLink TblHandle;
     mret tt);;
  when (Status <? 0) (event CFE_TBL_UNREGISTER_ERR_EID ERROR);;
  mret Status.

(** ** Loads and updates *)

(** The validation function sees the bytes of the table. *)
Definition call_validation (rec : CFE_TBL_RegistryRec_t) (p : tptr) : M TG Z :=
  if rr_ValidationFuncPtr rec =? NULL then undef
  else bs ← rd_bytes p (rr_Size rec); mret (ValidationFunc (rr_ValidationFuncPtr rec) bs).

Definition addr_source (SrcDataPtr : tptr) (old : list Z) : list Z :=
  (vsnprintf old OS_MAX_PATH_LEN (expand "Addr 0x%08lX" [AInt (addr_of SrcDataPtr)])).2.

(** The working buffer gets the new data. *)
Definition load_data (w : BufRef) (r SrcType : Z) (SrcDataPtr : tptr) : M TG Z :=
  if SrcType =? CFE_TBL_SRC_FILE then
    Filename ← rd_mem SrcDataPtr;
    Status ← CFE_TBL_LoadFromFile w r Filename;
    rec ← rd_reg r;
    if (Status =? CFE_TBL_WARN_PARTIAL_LOAD) && negb (rr_TableLoadedOnce rec) then
      event CFE_TBL_PARTIAL_LOAD_ERR_EID ERROR;; mret CFE_TBL_ERR_PARTIAL_LOAD
    else mret Status
  else if SrcType =? CFE_TBL_SRC_ADDRESS then
    rec ← rd_reg r;
    b ← rd_lb w;
    memcpy (lb_BufferPtr b) SrcDataPtr (rr_Size rec);;
    wr_lb w (λ b, b <| lb_DataSource ::= addr_source SrcDataPtr |> <| lb_FileCreateTimeSecs := 0 |> <| lb_FileCreateTimeSubSecs := 0 |>);;
    c ← crc_of (lb_BufferPtr b) (rr_Size rec);
    wr_lb w (λ b, b <| lb_Crc := c |>);;
    mret CFE_SUCCESS
  else event CFE_TBL_LOAD_TYPE_ERR_EID ERROR;; mret CFE_TBL_ERR_ILLEGAL_SRC_TYPE.

Definition load_validate (w : BufRef) (r Status : Z) : M TG Z :=
  rec ← rd_reg r;
  if (CFE_SUCCESS <=? Status) && negb (rr_ValidationFuncPtr rec =? NULL) then
    b ← rd_lb w;
    Status ← call_validation rec (lb_BufferPtr b);
    Status ← (if CFE_SUCCESS <? Status then event CFE_TBL_LOAD_VAL_ERR_EID ERROR;; mret (-1) else mret Status);
    when (Status <? 0)
      (event CFE_TBL_VALIDATION_ERR_EID ERROR;;
       memset (lb_BufferPtr b) (rr_Size rec));;
    mret Status
  else mret Status.

(** The data is in the working buffer: the first load needs no copy. *)
Definition load_finish (w : BufRef) (r : Z) : M TG Z :=
  rec ← rd_reg r;
  let FirstTime := negb (rr_TableLoadedOnce rec) in
  Status ←
    (if negb FirstTime then
       wr_reg r (λ rec, rec <| rr_LoadPending := true |>);;
       Status ← CFE_TBL_UpdateInternal r;
       when (negb (Status =? CFE_SUCCESS)) (event CFE_TBL_UPDATE_ERR_EID ERROR);;
       mret Status
     else
       b ← rd_lb w;
       wr_reg r (λ rec, rec <| rr_LastFileLoaded ::= λ d, copy_str OS_MAX_PATH_LEN d (lb_DataSource b) |>);;
       CFE_TBL_NotifyTblUsersOfUpdate r;;
       when (rr_CriticalTable rec) (CFE_TBL_UpdateCriticalTblCDS r);;
       mret CFE_SUCCESS);
  when (Status =? CFE_SUCCESS)
    (event CFE_TBL_LOAD_SUCCESS_INF_EID (if FirstTime then DEBUG else INFORMATION);;
     modify (λ s, s <| tg_LastTblUpdated := r |>));;
  mret Status.

Definition load_table (r SrcType : Z) (SrcDataPtr : tptr) : M TG Z :=
  rec ← rd_reg r;
  if rr_DumpOnly rec then
    if negb (rr_UserDefAddr rec) || rr_TableLoadedOnce rec then
      event CFE_TBL_LOADING_A_DUMP_ONLY_ERR_EID ERROR;; mret CFE_TBL_ERR_DUMP_ONLY
    else
      wr_reg_buf r 0 (λ b, b <| lb_BufferPtr := SrcDataPtr |>);;
      wr_reg r (λ rec, rec <| rr_TableLoadedOnce := true |>);;
      wr_reg_buf r 0 (λ b, b <| lb_DataSource ::= addr_source SrcDataPtr |> <| lb_FileCreateTimeSecs := 0 |> <| lb_FileCreateTimeSubSecs := 0 |>);;
      event CFE_TBL_LOAD_SUCCESS_INF_EID DEBUG;;
      mret CFE_SUCCESS
  else if negb (rr_LoadInProgress rec =? CFE_TBL_NO_LOAD_IN_PROGRESS) then
    event CFE_TBL_LOAD_IN_PROGRESS_ERR_EID ERROR;; mret CFE_TBL_ERR_LOAD_IN_PROGRESS
  else
    '(Status, W) ← CFE_TBL_GetWorkingBuffer r true;
    match W with
    | Some w =>
        if negb (Status =? CFE_SUCCESS) then event CFE_TBL_NO_WORK_BUFFERS_ERR_EID ERROR;; mret Status
        else
          Status ← load_data w r SrcType SrcDataPtr;
          Status ← load_validate w r Status;
          if Status <? CFE_SUCCESS then
            rec ← rd_reg r;
            when (negb (rr_DoubleBuffered rec) && rr_TableLoadedOnce rec)
              (wr_shared (rr_LoadInProgress rec) (λ b, b <| lb_Taken := false |>));;
            wr_reg r (λ rec, rec <| rr_LoadInProgress := CFE_TBL_NO_LOAD_IN_PROGRESS |>);;
            mret Status
          else load_finish w r
    | None => if Status =? CFE_SUCCESS then undef else event CFE_TBL_NO_WORK_BUFFERS_ERR_EID ERROR;; mret Status
    end.

Definition CFE_TBL_Load (App : Z * Z) (TblHandle SrcType : Z) (SrcDataPtr : tptr) : M TG Z :=
  if bool_decide (SrcDataPtr = PNull) then mret CFE_TBL_BAD_ARGUMENT
  else
    Status ← CFE_TBL_ValidateAccess App TblHandle;
    if negb (Status =? CFE_SUCCESS) then event CFE_TBL_HANDLE_ACCESS_ERR_EID ERROR;; mret Status
    else
      d ← rd_hdl TblHandle;
      load_table (ac_RegIndex d) SrcType SrcDataPtr.

Definition CFE_TBL_Update (App : Z * Z) (TblHandle : Z) : M TG Z :=
  Status ← CFE_TBL_ValidateAccess App TblHandle;
  if negb (Status =? CFE_SUCCESS) then
    when (Status <? 0) (event CFE_TBL_UPDATE_ERR_EID ERROR);; mret Status
  else
    d ← rd_hdl TblHandle;
    Status ← CFE_TBL_UpdateInternal (ac_RegIndex d);
    (if Status <? 0 then event CFE_TBL_UPDATE_ERR_EID ERROR
     else when (Status =? CFE_SUCCESS)
            (event CFE_TBL_UPDATE_SUCCESS_INF_EID INFORMATION;;
             modify (λ s, s <| tg_LastTblUpdated := ac_RegIndex d |>)));;
    mret Status.

(** ** Addresses *)

Definition CFE_TBL_GetAddress (App : Z * Z) (TblPtr : ptr tptr) (TblHandle : Z) : M TG (Z * ptr tptr) :=
  match TblPtr with
  | None => mret (CFE_TBL_BAD_ARGUMENT, None)
  | Some _ =>
      let '(Status, ThisAppId) := App in
      if Status =? CFE_SUCCESS then
        '(Status, p) ← CFE_TBL_GetAddressInternal PNull TblHandle ThisAppId;
        mret (Status, Some p)
      else mret (Status, Some PNull)
  end.

Definition CFE_TBL_ReleaseAddress (App : Z * Z) (TblHandle : Z) : M TG Z :=
  Status ← CFE_TBL_ValidateAccess App TblHandle;
  if Status =? CFE_SUCCESS then
    wr_hdl TblHandle (λ d, d <| ac_LockFlag := false |>);;
    CFE_TBL_GetNextNotification TblHandle
  else mret Status.

(** The status of the first table that has another one than success is returned. *)
Fixpoint get_addresses (TblHandles : list Z) (ThisAppId Status : Z) : M TG (Z * list tptr) :=
  match TblHandles with
  | [] => mret (Status, [])
  | h :: TblHandles =>
      '(st, p) ← CFE_TBL_GetAddressInternal PNull h ThisAppId;
      '(Status, ps) ← get_addresses TblHandles ThisAppId (if Status =? CFE_SUCCESS then st else Status);
      mret (Status, p :: ps)
  end.

Definition CFE_TBL_GetAddresses (App : Z * Z) (TblPtrs : ptr (list tptr)) (TblHandles : list Z) : M TG (Z * ptr (list tptr)) :=
  match TblPtrs with
  | None => mret (CFE_TBL_BAD_ARGUMENT, None)
  | Some _ =>
      let '(Status, ThisAppId) := App in
      if Status =? CFE_SUCCESS then
        '(Status, ps) ← get_addresses TblHandles ThisAppId Status;
        mret (Status, Some ps)
      else mret (Status, Some ((λ _, PNull) <$> TblHandles))
  end.

Fixpoint release_addresses (App : Z * Z) (TblHandles : list Z) (Status : Z) : M TG Z :=
  match TblHandles with
  | [] => mret Status
  | h :: TblHandles =>
      st ← CFE_TBL_ReleaseAddress App h;
      release_addresses App TblHandles (if Status =? CFE_SUCCESS then st else Status)
  end.

Definition CFE_TBL_ReleaseAddresses (App : Z * Z) (TblHandles : list Z) : M TG Z := release_addresses App TblHandles CFE_SUCCESS.

(** ** Management *)

(** The result of a validation is reported and saved for the task. *)
Definition validation_done (Status ValIndex : Z) : M TG unit :=
  (if Status =? CFE_SUCCESS then event CFE_TBL_VALIDATION_INF_EID INFORMATION else event CFE_TBL_VALIDATION_ERR_EID ERROR);;
  wr_val ValIndex (λ v, v <| vr_Result := Status |>);;
  wr_val ValIndex (λ v, v <| vr_State := CFE_TBL_VALIDATION_PERFORMED |>).

Definition validate_table (r : Z) : M TG Z :=
  rec ← rd_reg r;
  if negb (rr_ValidateInactiveIndex rec =? CFE_TBL_NO_VALIDATION_PENDING) then
    let w := if rr_DoubleBuffered rec then RegBuf r (inactive rec) else SharedBuf (rr_LoadInProgress rec) in
    b ← rd_lb w;
    Status ← call_validation rec (lb_BufferPtr b);
    when (Status =? CFE_SUCCESS) (wr_lb w (λ b, b <| lb_Validated := true |>));;
    validation_done Status (rr_ValidateInactiveIndex rec);;
    wr_reg r (λ rec, rec <| rr_ValidateInactiveIndex := CFE_TBL_NO_VALIDATION_PENDING |>);;
    mret CFE_SUCCESS
  else if negb (rr_ValidateActiveIndex rec =? CFE_TBL_NO_VALIDATION_PENDING) then
    b ← reg_buf rec (if rr_DoubleBuffered rec then rr_ActiveBufferIndex rec else 0);
    Status ← call_validation rec (lb_BufferPtr b);
    validation_done Status (rr_ValidateActiveIndex rec);;
    wr_reg r (λ rec, rec <| rr_ValidateActiveIndex := CFE_TBL_NO_VALIDATION_PENDING |>);;
    mret CFE_SUCCESS
  else mret CFE_TBL_INFO_NO_VALIDATION_PENDING.

Definition CFE_TBL_Validate (App : Z * Z) (TblHandle : Z) : M TG Z :=
  Status ← CFE_TBL_ValidateAccess App TblHandle;
  if Status =? CFE_SUCCESS then d ← rd_hdl TblHandle; validate_table (ac_RegIndex d) else mret Status.

Definition CFE_TBL_GetStatus (App : Z * Z) (TblHandle : Z) : M TG Z :=
  Status ← CFE_TBL_ValidateAccess App TblHandle;
  if Status =? CFE_SUCCESS then
    d ← rd_hdl TblHandle;
    rec ← rd_reg (ac_RegIndex d);
    mret (if rr_LoadPending rec then CFE_TBL_INFO_UPDATE_PENDING
          else if negb (rr_ValidateActiveIndex rec =? CFE_TBL_NO_VALIDATION_PENDING)
                  || negb (rr_ValidateInactiveIndex rec =? CFE_TBL_NO_VALIDATION_PENDING) then CFE_TBL_INFO_VALIDATION_PENDING
          else if negb (rr_DumpControlIndex rec =? CFE_TBL_NO_DUMP_PENDING) then CFE_TBL_INFO_DUMP_PENDING
          else Status)
  else mret Status.

Definition CFE_TBL_DumpToBuffer (App : Z * Z) (TblHandle : Z) : M TG Z :=
  Status ← CFE_TBL_GetStatus App TblHandle;
  if Status =? CFE_TBL_INFO_DUMP_PENDING then
    d ← rd_hdl TblHandle;
    rec ← rd_reg (ac_RegIndex d);
    let i := rr_DumpControlIndex rec in
    c ← rd_dump i;
    w ← rd_lb (dc_DumpBufferPtr c);
    b ← reg_buf rec 0;
    memcpy (lb_BufferPtr w) (lb_BufferPtr b) (dc_Size c);;
    now ← gets TblNow;
    wr_lb (dc_DumpBufferPtr c) (λ b, b <| lb_FileCreateTimeSecs := Seconds now |> <| lb_FileCreateTimeSubSecs := Subseconds now |>);;
    wr_reg (ac_RegIndex d) (λ rec, rec <| rr_DumpControlIndex := CFE_TBL_NO_DUMP_PENDING |>);;
    wr_dump i (λ c, c <| dc_State := CFE_TBL_DUMP_PERFORMED |>);;
    mret CFE_SUCCESS
  else mret Status.

(** The loop ends after at most two validations: both indices are then cleared. *)
Fixpoint manage_loop (fuel : nat) (App : Z * Z) (TblHandle : Z) : M TG Z :=
  match fuel with
  | O => undef
  | S fuel =>
      Status ← CFE_TBL_GetStatus App TblHandle;
      if Status =? CFE_TBL_INFO_VALIDATION_PENDING then
        Status ← CFE_TBL_Validate App TblHandle;
        if negb (Status =? CFE_SUCCESS) then mret Status else manage_loop fuel App TblHandle
      else if Status =? CFE_TBL_INFO_DUMP_PENDING then CFE_TBL_DumpToBuffer App TblHandle
      else if Status =? CFE_TBL_INFO_UPDATE_PENDING then
        Status ← CFE_TBL_Update App TblHandle;
        mret (if Status =? CFE_SUCCESS then CFE_TBL_INFO_UPDATED else Status)
      else mret Status
  end.

Definition CFE_TBL_Manage (App : Z * Z) (TblHandle : Z) : M TG Z := manage_loop 3 App TblHandle.

Fixpoint count_loop (fuel : nat) (HandleIterator n : Z) : M TG Z :=
  if HandleIterator =? CFE_TBL_END_OF_LIST then mret n else
  match fuel with
  | O => undef
  | S fuel => d ← rd_hdl HandleIterator; count_loop fuel (ac_NextLink d) (n + 1)
  end.

Definition CFE_TBL_GetInfo (TblInfoPtr : ptr CFE_TBL_Info_t) (TblName : ptr (list Z)) : M TG (Z * ptr CFE_TBL_Info_t) :=
  match TblInfoPtr, TblName with
  | Some info, Some TblName =>
      RegIndx ← CFE_TBL_FindTableInRegistry TblName;
      if negb (RegIndx =? CFE_TBL_NOT_FOUND) then
        rec ← rd_reg RegIndx;
        b ← reg_buf rec (rr_ActiveBufferIndex rec);
        fuel ← walk_fuel;
        n ← count_loop fuel (rr_HeadOfAccessList rec) 0;
        mret (CFE_SUCCESS,
          Some (mkInfo (rr_Size rec) n (lb_FileCreateTimeSecs b) (lb_FileCreateTimeSubSecs b) (lb_Crc b)
                  (rr_TimeOfLastUpdate rec) (rr_TableLoadedOnce rec) (rr_DumpOnly rec) (rr_DoubleBuffered rec)
                  (rr_UserDefAddr rec) (rr_CriticalTable rec)
                  (copy_str OS_MAX_PATH_LEN (ti_LastFileLoaded info) (rr_LastFileLoaded rec))))
      else mret (CFE_TBL_ERR_INVALID_NAME, TblInfoPtr)
  | _, _ => mret (CFE_TBL_BAD_ARGUMENT, TblInfoPtr)
  end.

(** Only the other users are told. *)
Fixpoint modified_loop (fuel : nat) (AccessIterator ThisAppId : Z) : M TG unit :=
  if AccessIterator =? CFE_TBL_END_OF_LIST then mret tt else
  match fuel with
  | O => undef
  | S fuel =>
      d ← rd_hdl AccessIterator;
      when (negb (ac_AppId d =? ThisAppId)) (wr_hdl AccessIterator (λ d, d <| ac_Updated := true |>));;
      modified_loop fuel (ac_NextLink d) ThisAppId
  end.

(** The mark of a modified table, a star in parentheses, at the end of the name of its source. *)
Definition mark_modified (f : list Z) : list Z :=
  let f := <[(OS_MAX_PATH_LEN - 1)%nat := 0]> f in
  let FilenameLen := List.length (cstr f) in
  let at_ := if (FilenameLen <? OS_MAX_PATH_LEN - 4)%nat then FilenameLen else (OS_MAX_PATH_LEN - 4)%nat in
  splice at_ [40; 42; 41; 0] f.

Definition CFE_TBL_Modified (App : Z * Z) (TblHandle : Z) : M TG Z :=
  Status ← CFE_TBL_ValidateAccess App TblHandle;
  if Status =? CFE_SUCCESS then
    d ← rd_hdl TblHandle;
    let r := ac_RegIndex d in
    rec ← rd_reg r;
    when (rr_CriticalTable rec) (CFE_TBL_UpdateCriticalTblCDS r);;
    now ← gets TblNow;
    wr_reg r (λ rec, rec <| rr_TimeOfLastUpdate := now |>);;
    b ← reg_buf rec (rr_ActiveBufferIndex rec);
    c ← crc_of (lb_BufferPtr b) (rr_Size rec);
    wr_reg_buf r (rr_ActiveBufferIndex rec) (λ b, b <| lb_Crc := c |>);;
    wr_reg r (λ rec, rec <| rr_LastFileLoaded ::= mark_modified |>);;
    fuel ← walk_fuel;
    modified_loop fuel (rr_HeadOfAccessList rec) App.2;;
    mret Status
  else mret Status.

Definition CFE_TBL_NotifyByMessage (App : Z * Z) (TblHandle MsgId CommandCode Param : Z) : M TG Z :=
  Status ← CFE_TBL_ValidateAccess App TblHandle;
  if Status =? CFE_SUCCESS then
    d ← rd_hdl TblHandle;
    rec ← rd_reg (ac_RegIndex d);
    if rr_OwnerAppId rec =? App.2 then
      wr_reg (ac_RegIndex d) (λ rec, rec <| rr_NotificationMsgId := MsgId |> <| rr_NotificationCC := CommandCode |>
                                         <| rr_NotificationParam := Param |> <| rr_NotifyByMsg := true |>);;
      mret Status
    else mret CFE_TBL_ERR_NO_ACCESS
  else mret Status.
End tbl.
