(* ===== verification/TblCmds.v ===== *)
(** * Table services: the commands of the task (cfe_tbl_task_cmds.c)

    The string fields of a command are arrays of the message, copied to arrays of the
    handler, which are zeros before.  The result of a handler tells which command counter
    is incremented. *)
From Stdlib Require Import String.
From S2P Require Import Prelude Config Msg ResourceId Cstring EsApp TimeApi SbState TblConfig EsCrc FsFile TblState TblInternal TblApi.
Import ListNotations.

Definition CFE_PLATFORM_TBL_DEFAULT_REG_DUMP_FILE : list Z := chars "/ram/cfe_tbl_reg.log" ++ [0].

(** CFE_FS_FileWriteEvent_t (cfe_fs_api_typedefs.h). *)
Inductive CFE_FS_FileWriteEvent_t :=
| CFE_FS_FileWriteEvent_UNDEFINED
| CFE_FS_FileWriteEvent_COMPLETE
| CFE_FS_FileWriteEvent_CREATE_ERROR
| CFE_FS_FileWriteEvent_HEADER_WRITE_ERROR
| CFE_FS_FileWriteEvent_RECORD_WRITE_ERROR
| CFE_FS_FileWriteEvent_MAX.

(** The first element of an array a test accepts, or the length. *)
Fixpoint first_index {A} (p : A → bool) (i : Z) (l : list A) : Z :=
  match l with
  | [] => i
  | x :: l => if p x then i else first_index p (i + 1) l
  end.

Section tbl.
Context {PS FS CS : Type} `{Pool : MemPool PS} `{Files : OSFile FS} `{Store : CDSStore CS} `{Cfg : TblCfg}.
Abbreviation TG := (CFE_TBL_Global_t PS FS CS).
Abbreviation ERROR := CFE_EVS_EventType_ERROR.
Abbreviation DEBUG := CFE_EVS_EventType_DEBUG.
Abbreviation INFORMATION := CFE_EVS_EventType_INFORMATION.

(** A string field of a command. *)
Definition string_get (n : nat) (Source : list Z) : M TG (list Z) :=
  r ← of_option (CFE_SB_MessageStringGet (Some (replicate n 0)) Source None n n);
  mret (default [] r.2).

(** A string field of telemetry; the arrays have the same size. *)
Definition string_set (n : nat) (Dest Source : list Z) : M TG (list Z) :=
  r ← of_option (CFE_SB_MessageStringSet (Some Dest) (Some Source) n n);
  mret (default [] r.2).

Definition error_event (id : Z) : M TG Z := event id ERROR;; mret CFE_TBL_INC_ERR_CTR.

(** ** Dumps *)

(** The table file header of a dump, swapped to big endian. *)
Definition dump_header (TableName : list Z) (TblSizeInBytes : Z) : list Z :=
  let h := replicate sizeof_TBL_File_Hdr 0 in
  let h := splice off_TableName (copy_str CFE_TBL_MAX_FULL_NAME_LEN (hdr_TableName h) TableName) h in
  let h := set_u32 off_Offset 0 h in
  let h := set_u32 off_NumBytes (u32 TblSizeInBytes) h in
  let h := set_u32 off_Reserved 0 h in
  CFE_TBL_ByteSwapTblHeader h.

(** Both headers and the image: the result of the write of the image, or the event of
    the step that failed. *)
Definition dump_write (FileDescriptor : Z) (TableName : list Z) (DumpDataAddr : tptr) (TblSizeInBytes : Z) : M TG (option Z) :=
  let StdFileHeader := CFE_FS_InitHeader (Some []) (Some (chars "Table Dump Image")) CFE_FS_SubType_TBL_IMG in
  now ← gets TblNow;
  AppID ← gets tg_TableTaskAppId;
  '(Status, _) ← files (CFE_FS_WriteHeader tbl_SpacecraftId tbl_ProcessorId AppID now FileDescriptor StdFileHeader);
  if negb (Status =? Z.of_nat sizeof_CFE_FS_Header) then mret (Some CFE_TBL_WRITE_CFE_HDR_ERR_EID)
  else
    Status ← files (FsFile.call (OS_write FileDescriptor (dump_header TableName TblSizeInBytes)));
    if negb (Status =? Z.of_nat sizeof_TBL_File_Hdr) then mret (Some CFE_TBL_WRITE_TBL_HDR_ERR_EID)
    else
      bs ← rd_bytes DumpDataAddr TblSizeInBytes;
      Status ← files (FsFile.call (OS_write FileDescriptor bs));
      mret (if Status =? TblSizeInBytes then None else Some CFE_TBL_WRITE_TBL_IMG_ERR_EID).

Definition CFE_TBL_DumpToFile (DumpFilename TableName : list Z) (DumpDataAddr : tptr) (TblSizeInBytes : Z) : M TG Z :=
  '(Status, FileDescriptor) ← files (FsFile.call (OS_OpenCreate DumpFilename OS_FILE_FLAG_NONE OS_READ_ONLY));
  FileExistedPrev ← (if 0 <=? Status then _ ← close_file FileDescriptor Status; mret true else mret false);
  '(Status, FileDescriptor) ← files (FsFile.call
     (OS_OpenCreate DumpFilename (Z.lor OS_FILE_FLAG_CREATE OS_FILE_FLAG_TRUNCATE) OS_WRITE_ONLY));
  if OS_SUCCESS <=? Status then
    err ← dump_write FileDescriptor TableName DumpDataAddr TblSizeInBytes;
    ReturnCode ←
      match err with
      | None =>
          event (if FileExistedPrev : bool then CFE_TBL_OVERWRITE_DUMP_INF_EID else CFE_TBL_WRITE_DUMP_INF_EID) INFORMATION;;
          hkp (λ p, p <| th_LastFileDumped ::= λ d, copy_str OS_MAX_PATH_LEN d DumpFilename |>);;
          mret CFE_TBL_INC_CMD_CTR
      | Some id => error_event id
      end;
    close_file FileDescriptor ReturnCode
  else error_event CFE_TBL_CREATING_DUMP_FILE_ERR_EID.

(** The address of the data of a table a command selects, NULL with an event when there
    is none. *)
Definition select_buffer (rec : CFE_TBL_RegistryRec_t) (ActiveTableFlag : Z) (no_inactive : bool) : M TG tptr :=
  if ActiveTableFlag =? CFE_TBL_BufferSelect_ACTIVE then
    b ← reg_buf rec (rr_ActiveBufferIndex rec); mret (lb_BufferPtr b)
  else if ActiveTableFlag =? CFE_TBL_BufferSelect_INACTIVE then
    if rr_DoubleBuffered rec then b ← reg_buf rec (inactive rec); mret (lb_BufferPtr b)
    else if no_inactive then event CFE_TBL_NO_INACTIVE_BUFFER_ERR_EID ERROR;; mret PNull
    else b ← rd_shared (rr_LoadInProgress rec); mret (lb_BufferPtr b)
  else event CFE_TBL_ILLEGAL_BUFF_PARAM_ERR_EID ERROR;; mret PNull.

(** A dump-only table is dumped by its owner: the request. *)
Definition dump_request (r : Z) (DumpFilename TableName : list Z) : M TG Z :=
  rec ← rd_reg r;
  if negb (rr_DumpControlIndex rec =? CFE_TBL_NO_DUMP_PENDING) then error_event CFE_TBL_DUMP_PENDING_ERR_EID
  else
    blocks ← gets DumpControlBlocks;
    let DumpIndex := first_index (λ c, bool_decide (dc_State c = CFE_TBL_DUMP_FREE)) 0 blocks in
    if DumpIndex <? CFE_PLATFORM_TBL_MAX_SIMULTANEOUS_LOADS then
      '(Status, W) ← CFE_TBL_GetWorkingBuffer r false;
      match W with
      | Some w =>
          if negb (Status =? CFE_SUCCESS) then error_event CFE_TBL_NO_WORK_BUFFERS_ERR_EID
          else
            wr_dump DumpIndex (λ c, c <| dc_State := CFE_TBL_DUMP_PENDING |> <| dc_RegRecPtr := r |> <| dc_DumpBufferPtr := w |>);;
            wr_lb w (λ b, b <| lb_DataSource := DumpFilename |>);;
            wr_dump DumpIndex (λ c, c <| dc_TableName := TableName |> <| dc_Size := rr_Size rec |>);;
            wr_reg r (λ rec, rec <| rr_DumpControlIndex := DumpIndex |>);;
            _ ← CFE_TBL_SendNotificationMsg r;
            mret CFE_TBL_INC_CMD_CTR
      | None => if Status =? CFE_SUCCESS then undef else error_event CFE_TBL_NO_WORK_BUFFERS_ERR_EID
      end
    else error_event CFE_TBL_TOO_MANY_DUMPS_ERR_EID.

Definition CFE_TBL_DumpCmd (ActiveTableFlag : Z) (TableName DumpFilename : list Z) : M TG Z :=
  DumpFilename ← string_get OS_MAX_PATH_LEN DumpFilename;
  TableName ← string_get CFE_TBL_MAX_FULL_NAME_LEN TableName;
  RegIndex ← CFE_TBL_FindTableInRegistry TableName;
  if negb (RegIndex =? CFE_TBL_NOT_FOUND) then
    rec ← rd_reg RegIndex;
    DumpDataAddr ← select_buffer rec ActiveTableFlag
      (negb (negb (rr_LoadInProgress rec =? CFE_TBL_NO_LOAD_IN_PROGRESS) && negb (rr_UserDefAddr rec)));
    if bool_decide (DumpDataAddr = PNull) then mret CFE_TBL_INC_ERR_CTR
    else if negb (rr_DumpOnly rec) then CFE_TBL_DumpToFile DumpFilename TableName DumpDataAddr (rr_Size rec)
    else dump_request RegIndex DumpFilename TableName
  else error_event CFE_TBL_NO_SUCH_TABLE_ERR_EID.

(** ** Housekeeping *)

Fixpoint count_tables (l : list CFE_TBL_RegistryRec_t) (Count NumLoadPending : Z) : Z * Z :=
  match l with
  | [] => (Count, NumLoadPending)
  | rec :: l =>
      if negb (rr_OwnerAppId rec =? CFE_TBL_NOT_OWNED) then
        count_tables l (u16 (Count + 1)) (if rr_LoadPending rec then u16 (NumLoadPending + 1) else NumLoadPending)
      else count_tables l Count NumLoadPending
  end.

Fixpoint free_buffs (l : list CFE_TBL_LoadBuff_t) (n : Z) : Z :=
  match l with
  | [] => n
  | b :: l => free_buffs l (if lb_Taken b then u8 (n - 1) else n)
  end.

(** The first finished validation is reported and its block is free again. *)
Definition report_validation : M TG unit :=
  vals ← gets ValidationResults;
  let i := first_index (λ v, bool_decide (vr_State v = CFE_TBL_VALIDATION_PERFORMED)) 0 vals in
  when (i <? CFE_PLATFORM_TBL_MAX_NUM_VALIDATIONS)
    (v ← rd_val i;
     hkp (λ p, p <| th_LastValCrc := vr_CrcOfTable v |> <| th_LastValStatus := vr_Result v |> <| th_ActiveBuffer := vr_ActiveBuffer v |>);;
     (if vr_Result v =? CFE_SUCCESS then modify (λ s, s <| tg_SuccessValCounter ::= λ n, u8 (n + 1) |>)
      else modify (λ s, s <| tg_FailedValCounter ::= λ n, u8 (n + 1) |>));;
     p ← gets tg_HkPacket;
     name ← string_set CFE_TBL_MAX_FULL_NAME_LEN (th_LastValTableName p) (vr_TableName v);
     hkp (λ p, p <| th_LastValTableName := name |>);;
     modify (λ s, s <| tg_ValidationCounter ::= λ n, u16 (n + 1) |>);;
     wr_val i (λ v, v <| vr_Result := 0 |> <| vr_CrcOfTable := 0 |> <| vr_TableName ::= <[0%nat := 0]> |>
                      <| vr_ActiveBuffer := false |> <| vr_State := CFE_TBL_VALIDATION_FREE |>)).

Definition CFE_TBL_GetHkData : M TG unit :=
  modify (λ s, s <| tg_HkPacket ::= λ p, p <| th_CommandCounter := tg_CommandCounter s |>
                                           <| th_CommandErrorCounter := tg_CommandErrorCounter s |>
                                           <| th_FailedValCounter := tg_FailedValCounter s |> |>);;
  l ← gets Registry;
  let '(Count, NumLoadPending) := count_tables l 0 0 in
  hkp (λ p, p <| th_NumLoadPending := NumLoadPending |> <| th_NumTables := Count |>);;
  bufs ← gets LoadBuffs;
  hkp (λ p, p <| th_NumFreeSharedBufs := free_buffs bufs CFE_PLATFORM_TBL_MAX_SIMULTANEOUS_LOADS |>);;
  report_validation;;
  modify (λ s, s <| tg_HkPacket ::= λ p, p <| th_ValidationCounter := tg_ValidationCounter s |>
                                           <| th_SuccessValCounter := tg_SuccessValCounter s |>
                                           <| th_FailedValCounter := tg_FailedValCounter s |>
                                           <| th_NumValRequests := tg_NumValRequests s |> |>);;
  last ← gets tg_LastTblUpdated;
  when ((0 <=? last) && (last <? CFE_PLATFORM_TBL_MAX_NUM_TABLES))
    (rec ← rd_reg last;
     when (negb (rr_OwnerAppId rec =? CFE_TBL_NOT_OWNED))
       (hkp (λ p, p <| th_LastUpdateTime := rr_TimeOfLastUpdate rec |>);;
        p ← gets tg_HkPacket;
        name ← string_set CFE_TBL_MAX_FULL_NAME_LEN (th_LastUpdatedTable p) (rr_Name rec);
        hkp (λ p, p <| th_LastUpdatedTable := name |>))).

(** The registry packet is filled anew each time: its strings are the ones it gets. *)
Definition CFE_TBL_GetTblRegData : M TG CFE_TBL_TblRegPacket_Payload_t :=
  r ← gets tg_HkTlmTblRegIndex;
  rec ← rd_reg r;
  b ← reg_buf rec (rr_ActiveBufferIndex rec);
  inactive_addr ←
    (if rr_DoubleBuffered rec then b ← reg_buf rec (inactive rec); mret (addr_of (lb_BufferPtr b))
     else if negb (rr_LoadInProgress rec =? CFE_TBL_NO_LOAD_IN_PROGRESS) then
       b ← rd_shared (rr_LoadInProgress rec); mret (addr_of (lb_BufferPtr b))
     else mret 0);
  Name ← string_set CFE_TBL_MAX_FULL_NAME_LEN (replicate CFE_TBL_MAX_FULL_NAME_LEN 0) (rr_Name rec);
  LastFileLoaded ← string_set OS_MAX_PATH_LEN (replicate OS_MAX_PATH_LEN 0) (rr_LastFileLoaded rec);
  OwnerAppName ← tbl_app_name (rr_OwnerAppId rec);
  mret (mkTblReg (u32 (rr_Size rec)) (lb_Crc b) (u32 (addr_of (lb_BufferPtr b))) (u32 inactive_addr)
          (u32 (rr_ValidationFuncPtr rec)) (rr_TimeOfLastUpdate rec) (lb_FileCreateTimeSecs b) (lb_FileCreateTimeSubSecs b)
          (rr_TableLoadedOnce rec) (rr_LoadPending rec) (rr_DumpOnly rec) (rr_DoubleBuffered rec) Name LastFileLoaded
          OwnerAppName (rr_CriticalTable rec)).

Definition time_stamp (now : CFE_TIME_SysTime_t) (h : Message) : Message :=
  default [] (CFE_MSG_SetMsgTime tbl_hdr (Some h) (Seconds now, Subseconds now)).2.

(** A performed dump is written to its file, which gets the time of the capture; the
    shared buffer and the block are free again. *)
Definition write_dump (i : Z) : M TG unit :=
  c ← rd_dump i;
  if negb (bool_decide (dc_State c = CFE_TBL_DUMP_PERFORMED)) then mret tt
  else
    b ← rd_lb (dc_DumpBufferPtr c);
    Status ← CFE_TBL_DumpToFile (lb_DataSource b) (dc_TableName c) (lb_BufferPtr b) (dc_Size c);
    when (Status =? CFE_TBL_INC_CMD_CTR)
      ('(Status, FileDescriptor) ← files (FsFile.call (OS_OpenCreate (lb_DataSource b) OS_FILE_FLAG_NONE OS_READ_WRITE));
       when (0 <=? Status)
         (_ ← files (CFE_FS_SetTimestamp FileDescriptor (mkTime (lb_FileCreateTimeSecs b) (lb_FileCreateTimeSubSecs b)));
          _ ← close_file FileDescriptor Status;
          mret tt));;
    rec ← rd_reg (dc_RegRecPtr c);
    wr_shared (rr_LoadInProgress rec) (λ b, b <| lb_Taken := false |>);;
    wr_reg (dc_RegRecPtr c) (λ rec, rec <| rr_LoadInProgress := CFE_TBL_NO_LOAD_IN_PROGRESS |>);;
    wr_dump i (λ c, c <| dc_State := CFE_TBL_DUMP_FREE |>).

Fixpoint write_dumps (n : nat) (i : Z) : M TG unit :=
  match n with
  | O => mret tt
  | S n => write_dump i;; write_dumps n (i + 1)
  end.

Definition CFE_TBL_HousekeepingCmd : M TG Z :=
  CFE_TBL_GetHkData;;
  now ← gets TblNow;
  modify (λ s, s <| tg_HkHeader ::= time_stamp now |>);;
  h ← gets tg_HkHeader;
  p ← gets tg_HkPacket;
  modify (λ s, s <| TblSent ::= λ l, l ++ [OutHk h p] |>);;
  when (negb (TransmitStatus h =? CFE_SUCCESS)) (event CFE_TBL_FAIL_HK_SEND_ERR_EID ERROR);;
  r ← gets tg_HkTlmTblRegIndex;
  when (negb (r =? CFE_TBL_NOT_FOUND))
    (p ← CFE_TBL_GetTblRegData;
     modify (λ s, s <| tg_RegHeader ::= time_stamp now |>);;
     h ← gets tg_RegHeader;
     modify (λ s, s <| TblSent ::= λ l, l ++ [OutReg h p] |>);;
     modify (λ s, s <| tg_HkTlmTblRegIndex := CFE_TBL_NOT_FOUND |>));;
  write_dumps (Z.to_nat CFE_PLATFORM_TBL_MAX_SIMULTANEOUS_LOADS) 0;;
  mret CFE_TBL_DONT_INC_CTR.

(** ** Counters *)

Definition CFE_TBL_NoopCmd : M TG Z := event CFE_TBL_NOOP_INF_EID INFORMATION;; mret CFE_TBL_INC_CMD_CTR.

Definition CFE_TBL_ResetCountersCmd : M TG Z :=
  modify (λ s, s <| tg_CommandCounter := 0 |> <| tg_CommandErrorCounter := 0 |> <| tg_SuccessValCounter := 0 |>
                 <| tg_FailedValCounter := 0 |> <| tg_NumValRequests := 0 |> <| tg_ValidationCounter := 0 |>);;
  event CFE_TBL_RESET_INF_EID DEBUG;;
  mret CFE_TBL_DONT_INC_CTR.

(** ** Loads *)

(** The data of the file goes to the working buffer. *)
Definition load_buffer (w : BufRef) (r FileDescriptor : Z) (StdFileHeader TblFileHeader LoadFilename : list Z) : M TG Z :=
  rec ← rd_reg r;
  let NumBytes := u32_at off_NumBytes TblFileHeader in
  Status ← read_into w FileDescriptor (u32_at off_Offset TblFileHeader) NumBytes;
  if negb (Status =? s32 NumBytes) then error_event CFE_TBL_FILE_INCOMPLETE_ERR_EID
  else
    '(Status, _) ← files (FsFile.call (OS_read FileDescriptor 1));
    if Status =? 1 then error_event CFE_TBL_FILE_TOO_BIG_ERR_EID
    else
      event CFE_TBL_FILE_LOADED_INF_EID INFORMATION;;
      wr_lb w (λ b, b <| lb_DataSource := LoadFilename |> <| lb_FileCreateTimeSecs := u32_at off_TimeSeconds StdFileHeader |>
                      <| lb_FileCreateTimeSubSecs := u32_at off_TimeSubSeconds StdFileHeader |>);;
      b ← rd_lb w;
      c ← crc_of (lb_BufferPtr b) (rr_Size rec);
      wr_lb w (λ b, b <| lb_Crc := c |> <| lb_Validated := (rr_ValidationFuncPtr rec =? NULL) |>);;
      hkp (λ p, p <| th_LastFileLoaded ::= λ d, copy_str OS_MAX_PATH_LEN d LoadFilename |>
                  <| th_LastTableLoaded ::= λ d, copy_str CFE_TBL_MAX_FULL_NAME_LEN d (hdr_TableName TblFileHeader) |>);;
      mret CFE_TBL_INC_CMD_CTR.

(** The table of the file and the checks of its header. *)
Definition load_file (FileDescriptor : Z) (StdFileHeader TblFileHeader LoadFilename : list Z) : M TG Z :=
  r ← CFE_TBL_FindTableInRegistry (hdr_TableName TblFileHeader);
  if r =? CFE_TBL_NOT_FOUND then error_event CFE_TBL_NO_SUCH_TABLE_ERR_EID else
  rec ← rd_reg r;
  let Offset := u32_at off_Offset TblFileHeader in
  let NumBytes := u32_at off_NumBytes TblFileHeader in
  if rr_DumpOnly rec then error_event CFE_TBL_LOADING_A_DUMP_ONLY_ERR_EID
  else if rr_LoadPending rec then error_event CFE_TBL_LOADING_PENDING_ERR_EID
  else if (rr_TableLoadedOnce rec || (Offset =? 0)) && (0 <? NumBytes) && (u32 (NumBytes + Offset) <=? rr_Size rec) then
    '(Status, W) ← CFE_TBL_GetWorkingBuffer r false;
    match W with
    | Some w =>
        if Status =? CFE_SUCCESS then load_buffer w r FileDescriptor StdFileHeader TblFileHeader LoadFilename
        else error_event (if Status =? CFE_TBL_ERR_NO_BUFFER_AVAIL then CFE_TBL_NO_WORK_BUFFERS_ERR_EID else CFE_TBL_INTERNAL_ERROR_ERR_EID)
    | None =>
        if Status =? CFE_SUCCESS then undef
        else error_event (if Status =? CFE_TBL_ERR_NO_BUFFER_AVAIL then CFE_TBL_NO_WORK_BUFFERS_ERR_EID else CFE_TBL_INTERNAL_ERROR_ERR_EID)
    end
  else if rr_Size rec <? u32 (NumBytes + Offset) then error_event CFE_TBL_LOAD_EXCEEDS_SIZE_ERR_EID
  else if NumBytes =? 0 then error_event CFE_TBL_ZERO_LENGTH_LOAD_ERR_EID
  else error_event CFE_TBL_PARTIAL_LOAD_ERR_EID.

Definition CFE_TBL_LoadCmd (LoadFilename : list Z) : M TG Z :=
  LoadFilename ← string_get OS_MAX_PATH_LEN LoadFilename;
  '(Status, FileDescriptor) ← files (FsFile.call (OS_OpenCreate LoadFilename OS_FILE_FLAG_NONE OS_READ_ONLY));
  if 0 <=? Status then
    '(Status, StdFileHeader, TblFileHeader) ← CFE_TBL_ReadHeaders FileDescriptor;
    ReturnCode ← (if Status =? CFE_SUCCESS then load_file FileDescriptor StdFileHeader TblFileHeader LoadFilename
                  else mret CFE_TBL_INC_ERR_CTR);
    close_file FileDescriptor ReturnCode
  else error_event CFE_TBL_FILE_ACCESS_ERR_EID.

(** ** Validation and activation *)

Definition validate_request (r : Z) (ActiveTableFlag : Z) (TableName : list Z) (ValidationDataPtr : tptr) : M TG Z :=
  rec ← rd_reg r;
  vals ← gets ValidationResults;
  let ValIndex := first_index (λ v, bool_decide (vr_State v = CFE_TBL_VALIDATION_FREE)) 0 vals in
  if ValIndex <? CFE_PLATFORM_TBL_MAX_NUM_VALIDATIONS then
    wr_val ValIndex (λ v, v <| vr_State := CFE_TBL_VALIDATION_PENDING |> <| vr_Result := 0 |> <| vr_TableName := TableName |>);;
    CrcOfTable ← crc_of ValidationDataPtr (rr_Size rec);
    wr_val ValIndex (λ v, v <| vr_CrcOfTable := CrcOfTable |> <| vr_ActiveBuffer := negb (ActiveTableFlag =? 0) |>);;
    (if negb (rr_ValidationFuncPtr rec =? NULL) then
       (if negb (ActiveTableFlag =? 0) then wr_reg r (λ rec, rec <| rr_ValidateActiveIndex := ValIndex |>)
        else wr_reg r (λ rec, rec <| rr_ValidateInactiveIndex := ValIndex |>));;
       Status ← CFE_TBL_SendNotificationMsg r;
       when (Status =? CFE_SUCCESS) (event CFE_TBL_VAL_REQ_MADE_INF_EID DEBUG);;
       modify (λ s, s <| tg_NumValRequests ::= λ n, u8 (n + 1) |>)
     else
       wr_val ValIndex (λ v, v <| vr_State := CFE_TBL_VALIDATION_PERFORMED |>);;
       event CFE_TBL_ASSUMED_VALID_INF_EID INFORMATION);;
    mret CFE_TBL_INC_CMD_CTR
  else error_event CFE_TBL_TOO_MANY_VALIDATIONS_ERR_EID.

Definition CFE_TBL_ValidateCmd (ActiveTableFlag : Z) (TableName : list Z) : M TG Z :=
  TableName ← string_get CFE_TBL_MAX_FULL_NAME_LEN TableName;
  RegIndex ← CFE_TBL_FindTableInRegistry TableName;
  if negb (RegIndex =? CFE_TBL_NOT_FOUND) then
    rec ← rd_reg RegIndex;
    ValidationDataPtr ← select_buffer rec ActiveTableFlag (rr_LoadInProgress rec =? CFE_TBL_NO_LOAD_IN_PROGRESS);
    if bool_decide (ValidationDataPtr = PNull) then mret CFE_TBL_INC_ERR_CTR
    else validate_request RegIndex ActiveTableFlag TableName ValidationDataPtr
  else error_event CFE_TBL_NO_SUCH_TABLE_ERR_EID.

Definition CFE_TBL_ActivateCmd (TableName : list Z) : M TG Z :=
  TableName ← string_get CFE_TBL_MAX_FULL_NAME_LEN TableName;
  RegIndex ← CFE_TBL_FindTableInRegistry TableName;
  if negb (RegIndex =? CFE_TBL_NOT_FOUND) then
    rec ← rd_reg RegIndex;
    if rr_DumpOnly rec then error_event CFE_TBL_ACTIVATE_DUMP_ONLY_ERR_EID
    else if negb (rr_LoadInProgress rec =? CFE_TBL_NO_LOAD_IN_PROGRESS) then
      b ← (if rr_DoubleBuffered rec then reg_buf rec (inactive rec) else rd_shared (rr_LoadInProgress rec));
      if lb_Validated b then
        wr_reg RegIndex (λ rec, rec <| rr_LoadPending := true |>);;
        Status ← CFE_TBL_SendNotificationMsg RegIndex;
        when (Status =? CFE_SUCCESS) (event CFE_TBL_LOAD_PEND_REQ_INF_EID DEBUG);;
        mret CFE_TBL_INC_CMD_CTR
      else error_event CFE_TBL_UNVALIDATED_ERR_EID
    else error_event CFE_TBL_ACTIVATE_ERR_EID
  else error_event CFE_TBL_NO_SUCH_TABLE_ERR_EID.

(** ** The registry *)

(** The record of an entry in the dump file; the number of users is [n]. *)
Definition dump_record (old : CFE_TBL_RegDumpRec_t) (rec : CFE_TBL_RegistryRec_t) (b : CFE_TBL_LoadBuff_t) (n : Z) (Owner : list Z) : CFE_TBL_RegDumpRec_t :=
  mkRegDump (u32 (rr_Size rec)) (rr_TimeOfLastUpdate rec) n
    (if negb (rr_LoadInProgress rec =? CFE_TBL_NO_LOAD_IN_PROGRESS) && rr_DoubleBuffered rec then rr_LoadInProgress rec - 3 else rr_LoadInProgress rec)
    (lb_FileCreateTimeSecs b) (lb_FileCreateTimeSubSecs b) (lb_Crc b) (negb (rr_ValidationFuncPtr rec =? NULL))
    (rr_TableLoadedOnce rec) (rr_LoadPending rec) (rr_DumpOnly rec) (rr_DoubleBuffered rec)
    (copy_str CFE_TBL_MAX_FULL_NAME_LEN (rd_Name old) (rr_Name rec))
    (copy_str OS_MAX_PATH_LEN (rd_LastFileLoaded old) (rr_LastFileLoaded rec))
    Owner (rr_CriticalTable rec).

(** The record of an entry, when it is in use, and whether it is the last one. *)
Definition CFE_TBL_DumpRegistryGetter (RecordNum : Z) : M TG (bool * ptr CFE_TBL_RegDumpRec_t) :=
  let IsEOF := CFE_PLATFORM_TBL_MAX_NUM_TABLES - 1 <=? RecordNum in
  if RecordNum <? CFE_PLATFORM_TBL_MAX_NUM_TABLES then
    CFE_TBL_LockRegistry;;
    rec ← rd_reg RecordNum;
    if negb (rr_OwnerAppId rec =? CFE_TBL_NOT_OWNED) || negb (rr_HeadOfAccessList rec =? CFE_TBL_END_OF_LIST) then
      b ← reg_buf rec (rr_ActiveBufferIndex rec);
      fuel ← walk_fuel;
      n ← count_loop fuel (rr_HeadOfAccessList rec) 0;
      CFE_TBL_UnlockRegistry;;
      old ← gets (λ s, ds_DumpRecord (RegDumpState s));
      Owner ← (if negb (rr_OwnerAppId rec =? CFE_TBL_NOT_OWNED) then tbl_app_name (rr_OwnerAppId rec)
               else mret (copy_str OS_MAX_API_NAME (rd_OwnerAppName old) (chars "--UNOWNED--")));
      let d := dump_record old rec b n Owner in
      modify (λ s, s <| RegDumpState ::= λ t, t <| ds_DumpRecord := d |> |>);;
      mret (IsEOF, Some d)
    else CFE_TBL_UnlockRegistry;; mret (IsEOF, None)
  else mret (IsEOF, None).

Definition CFE_TBL_DumpRegistryEventHandler (Event : CFE_FS_FileWriteEvent_t) : M TG unit :=
  match Event with
  | CFE_FS_FileWriteEvent_COMPLETE =>
      e ← gets (λ s, ds_FileExisted (RegDumpState s));
      event (if e : bool then CFE_TBL_OVERWRITE_REG_DUMP_INF_EID else CFE_TBL_WRITE_REG_DUMP_INF_EID) DEBUG
  | CFE_FS_FileWriteEvent_RECORD_WRITE_ERROR => event CFE_TBL_WRITE_TBL_REG_ERR_EID ERROR
  | CFE_FS_FileWriteEvent_HEADER_WRITE_ERROR => event CFE_TBL_WRITE_CFE_HDR_ERR_EID ERROR
  | CFE_FS_FileWriteEvent_CREATE_ERROR => event CFE_TBL_CREATING_DUMP_FILE_ERR_EID ERROR
  | _ => mret tt
  end.

(** [Request] is the status of CFE_FS_BackgroundFileDumpRequest, which on success leaves
    the request pending. *)
Definition CFE_TBL_DumpRegistryCmd (Request : Z) (DumpFilename : list Z) : M TG Z :=
  st ← gets RegDumpState;
  if negb (ds_IsPending st) then
    r ← of_option (CFE_SB_MessageStringGet (Some (ds_FileName st)) DumpFilename (Some CFE_PLATFORM_TBL_DEFAULT_REG_DUMP_FILE)
                     OS_MAX_PATH_LEN OS_MAX_PATH_LEN);
    let FileName := default [] r.2 in
    fs ← gets TblFiles;
    modify (λ s, s <| RegDumpState ::= λ t, t <| ds_FileName := FileName |> <| ds_FileExisted := (OS_stat FileName fs =? OS_SUCCESS) |>
                                             <| ds_IsPending := (Request =? CFE_SUCCESS) |> |>);;
    mret (if Request =? CFE_SUCCESS then CFE_TBL_INC_CMD_CTR else CFE_TBL_INC_ERR_CTR)
  else mret CFE_TBL_INC_ERR_CTR.

Definition CFE_TBL_SendRegistryCmd (TableName : list Z) : M TG Z :=
  TableName ← string_get CFE_TBL_MAX_FULL_NAME_LEN TableName;
  RegIndex ← CFE_TBL_FindTableInRegistry TableName;
  if negb (RegIndex =? CFE_TBL_NOT_FOUND) then
    modify (λ s, s <| tg_HkTlmTblRegIndex := RegIndex |>);;
    event CFE_TBL_TLM_REG_CMD_INF_EID DEBUG;;
    mret CFE_TBL_INC_CMD_CTR
  else error_event CFE_TBL_NO_SUCH_TABLE_ERR_EID.

(** ** Critical data and aborted loads *)

(** The entry is found by its name; it is not written back to the critical data store. *)
Definition CFE_TBL_DeleteCDSCmd (TableName : list Z) : M TG Z :=
  TableName ← string_get CFE_TBL_MAX_FULL_NAME_LEN TableName;
  RegIndex ← CFE_TBL_FindTableInRegistry TableName;
  if RegIndex =? CFE_TBL_NOT_FOUND then
    l ← gets CritReg;
    let i := first_index (λ c, strcmp_eq (cr_Name c) TableName) 0 l in
    if i <? CFE_PLATFORM_TBL_MAX_CRITICAL_TABLES then
      Status ← cds (CFE_ES_DeleteCDS (cstr TableName) true);
      if Status =? CFE_ES_CDS_WRONG_TYPE_ERR then error_event CFE_TBL_NOT_CRITICAL_TBL_ERR_EID
      else if Status =? CFE_ES_CDS_OWNER_ACTIVE_ERR then error_event CFE_TBL_CDS_OWNER_ACTIVE_ERR_EID
      else if Status =? CFE_ES_ERR_NAME_NOT_FOUND then error_event CFE_TBL_CDS_NOT_FOUND_ERR_EID
      else if negb (Status =? CFE_SUCCESS) then error_event CFE_TBL_CDS_DELETE_ERR_EID
      else
        event CFE_TBL_CDS_DELETED_INFO_EID INFORMATION;;
        wr_crit i (λ c, c <| cr_CDSHandle := CFE_ES_CDS_BAD_HANDLE |>);;
        mret CFE_TBL_INC_CMD_CTR
    else error_event CFE_TBL_NOT_IN_CRIT_REG_ERR_EID
  else error_event CFE_TBL_IN_REGISTRY_ERR_EID.

Definition CFE_TBL_AbortLoad (r : Z) : M TG unit :=
  rec ← rd_reg r;
  when (negb (rr_DoubleBuffered rec)) (wr_shared (rr_LoadInProgress rec) (λ b, b <| lb_Taken := false |>));;
  wr_reg r (λ rec, rec <| rr_LoadInProgress := CFE_TBL_NO_LOAD_IN_PROGRESS |> <| rr_LoadPending := false |>);;
  event CFE_TBL_LOAD_ABORT_INF_EID INFORMATION.

Definition CFE_TBL_AbortLoadCmd (TableName : list Z) : M TG Z :=
  TableName ← string_get CFE_TBL_MAX_FULL_NAME_LEN TableName;
  RegIndex ← CFE_TBL_FindTableInRegistry TableName;
  if negb (RegIndex =? CFE_TBL_NOT_FOUND) then
    rec ← rd_reg RegIndex;
    if negb (rr_LoadInProgress rec =? CFE_TBL_NO_LOAD_IN_PROGRESS) && negb (rr_DumpOnly rec) then
      CFE_TBL_AbortLoad RegIndex;;
      mret CFE_TBL_INC_CMD_CTR
    else error_event CFE_TBL_LOAD_ABORT_ERR_EID
  else error_event CFE_TBL_NO_SUCH_TABLE_ERR_EID.
End tbl.
