(* ===== verification/TblTask.v ===== *)
(** * Table services: the task (cfe_tbl_task.c)

    A message of the command pipe is given by its identifier, command code and size, and
    by the fields the handlers read from its payload. *)
From S2P Require Import Prelude Config Msg ResourceId Cstring EsApp TimeApi SbState TblConfig EsCrc FsFile TblState TblInternal TblApi TblCmds.
Import ListNotations.

Record TblMsg := mkTblMsg {
  tbm_MsgId : Z;
  tbm_FcnCode : Z;
  tbm_Size : Z;
  tbm_ActiveTableFlag : Z;
  tbm_TableName : list Z;
  tbm_Filename : list Z;
  tbm_Request : Z;
}.

Inductive CFE_TBL_MsgType_t := CFE_TBL_TERM_MSGTYPE | CFE_TBL_MSG_MSGTYPE | CFE_TBL_CMD_MSGTYPE.
#[export] Instance MsgType_dec : EqDecision CFE_TBL_MsgType_t.
Proof. solve_decision. Defined.

(** What CFE_TBL_TaskInit gets: CFE_ES_RegisterApp, CFE_ES_GetAppID, CFE_EVS_Register,
    CFE_SB_CreatePipe with the pipe, the two subscriptions and the event. *)
Record TblTaskEnv := mkTblTaskEnv {
  tt_Register : Z;
  tt_AppID : Z * Z;
  tt_Evs : Z;
  tt_Pipe : Z * Z;
  tt_Hk : Z;
  tt_Cmd : Z;
  tt_Event : Z;
}.

Definition sizeof_TblHkTlm : Z := 300.
Definition sizeof_TblRegTlm : Z := 184.

Section tbl.
Context {PS FS CS : Type} `{Pool : MemPool PS} `{Files : OSFile FS} `{Store : CDSStore CS} `{Cfg : TblCfg}.
Abbreviation TG := (CFE_TBL_Global_t PS FS CS).
Abbreviation ERROR := CFE_EVS_EventType_ERROR.

Definition tbl_CmdHeader : Z := match tbl_hdr with Hdr_Pri => 8 | Hdr_PriExt => 16 end.

(** ** The table of commands *)

Record CFE_TBL_CmdHandlerTblRec_t := mkHandler {
  hr_MsgId : Z;
  hr_CmdCode : Z;
  hr_ExpectedLength : Z;
  hr_MsgProcFuncPtr : TblMsg → M TG Z;
  hr_MsgTypes : CFE_TBL_MsgType_t;
}.

Definition COMMAND_ENTRY (ccode payload : Z) (f : TblMsg → M TG Z) : CFE_TBL_CmdHandlerTblRec_t :=
  mkHandler CFE_TBL_CMD_MID ccode (tbl_CmdHeader + payload) f CFE_TBL_CMD_MSGTYPE.

Definition CFE_TBL_CmdHandlerTbl : list CFE_TBL_CmdHandlerTblRec_t := [
  mkHandler CFE_TBL_SEND_HK_MID 0 tbl_CmdHeader (λ _, CFE_TBL_HousekeepingCmd) CFE_TBL_MSG_MSGTYPE;
  COMMAND_ENTRY CFE_TBL_NOOP_CC 0 (λ _, CFE_TBL_NoopCmd);
  COMMAND_ENTRY CFE_TBL_RESET_COUNTERS_CC 0 (λ _, CFE_TBL_ResetCountersCmd);
  COMMAND_ENTRY CFE_TBL_LOAD_CC 64 (λ m, CFE_TBL_LoadCmd (tbm_Filename m));
  COMMAND_ENTRY CFE_TBL_DUMP_CC 106 (λ m, CFE_TBL_DumpCmd (tbm_ActiveTableFlag m) (tbm_TableName m) (tbm_Filename m));
  COMMAND_ENTRY CFE_TBL_VALIDATE_CC 42 (λ m, CFE_TBL_ValidateCmd (tbm_ActiveTableFlag m) (tbm_TableName m));
  COMMAND_ENTRY CFE_TBL_ACTIVATE_CC 40 (λ m, CFE_TBL_ActivateCmd (tbm_TableName m));
  COMMAND_ENTRY CFE_TBL_DUMP_REGISTRY_CC 64 (λ m, CFE_TBL_DumpRegistryCmd (tbm_Request m) (tbm_Filename m));
  COMMAND_ENTRY CFE_TBL_SEND_REGISTRY_CC 40 (λ m, CFE_TBL_SendRegistryCmd (tbm_TableName m));
  COMMAND_ENTRY CFE_TBL_DELETE_CDS_CC 40 (λ m, CFE_TBL_DeleteCDSCmd (tbm_TableName m));
  COMMAND_ENTRY CFE_TBL_ABORT_LOAD_CC 40 (λ m, CFE_TBL_AbortLoadCmd (tbm_TableName m));
  mkHandler 0 0 0 (λ _, undef) CFE_TBL_TERM_MSGTYPE ].

(** The loop over the table up to its last entry: [FoundMsg] tells whether the message
    identifier was seen. *)
Fixpoint search_loop (MessageID CommandCode TblIndx : Z) (FoundMsg : bool) (l : list CFE_TBL_CmdHandlerTblRec_t) : M TG Z :=
  match l with
  | [] => undef
  | e :: l =>
      if bool_decide (hr_MsgTypes e = CFE_TBL_TERM_MSGTYPE) then mret (if FoundMsg then CFE_TBL_BAD_CMD_CODE else CFE_TBL_BAD_MSG_ID)
      else if hr_MsgId e =? MessageID then
        if negb (bool_decide (hr_MsgTypes e = CFE_TBL_CMD_MSGTYPE)) || (hr_CmdCode e =? CommandCode) then mret TblIndx
        else search_loop MessageID CommandCode (TblIndx + 1) true l
      else search_loop MessageID CommandCode (TblIndx + 1) FoundMsg l
  end.

Definition CFE_TBL_SearchCmdHndlrTbl (MessageID CommandCode : Z) : M TG Z :=
  search_loop MessageID CommandCode 0 false CFE_TBL_CmdHandlerTbl.

Definition CFE_TBL_TaskPipe (m : TblMsg) : M TG unit :=
  CmdIndx ← CFE_TBL_SearchCmdHndlrTbl (tbm_MsgId m) (tbm_FcnCode m);
  if 0 <=? CmdIndx then
    e ← tbl_get CFE_TBL_CmdHandlerTbl CmdIndx;
    CmdStatus ← (if tbm_Size m =? hr_ExpectedLength e then hr_MsgProcFuncPtr e m
                 else event CFE_TBL_LEN_ERR_EID ERROR;; mret CFE_TBL_INC_ERR_CTR);
    when (bool_decide (hr_MsgTypes e = CFE_TBL_CMD_MSGTYPE))
      (if CmdStatus =? CFE_TBL_INC_CMD_CTR then modify (λ s, s <| tg_CommandCounter ::= λ n, u8 (n + 1) |>)
       else when (CmdStatus =? CFE_TBL_INC_ERR_CTR) (modify (λ s, s <| tg_CommandErrorCounter ::= λ n, u8 (n + 1) |>)))
  else if CmdIndx =? CFE_TBL_BAD_CMD_CODE then
    event CFE_TBL_CC1_ERR_EID ERROR;;
    modify (λ s, s <| tg_CommandErrorCounter ::= λ n, u8 (n + 1) |>)
  else event CFE_TBL_MID_ERR_EID ERROR.

(** ** Start up *)

Definition init_header (MsgId Size : Z) : Message :=
  default [] (CFE_MSG_Init tbl_hdr tbl_idv tbl_SpacecraftId (Some (replicate (Z.to_nat Size) 0)) MsgId Size).2.

Definition CFE_TBL_InitData (AppID : Z * Z) : M TG unit :=
  modify (λ s, s <| tg_TableTaskAppId := AppID.2 |> <| tg_HkHeader := init_header CFE_TBL_HK_TLM_MID sizeof_TblHkTlm |>
                 <| tg_RegHeader := init_header CFE_TBL_REG_TLM_MID sizeof_TblRegTlm |>
                 <| tg_NotifyHeader := init_header 0 (tbl_CmdHeader + 4) |>).

Definition CFE_TBL_TaskInit (e : TblTaskEnv) : M TG Z :=
  if negb (tt_Register e =? CFE_SUCCESS) then mret (tt_Register e) else
  CFE_TBL_InitData (tt_AppID e);;
  if negb (tt_Evs e =? CFE_SUCCESS) then mret (tt_Evs e) else
  modify (λ s, s <| tg_CmdPipe := (tt_Pipe e).2 |>);;
  if negb ((tt_Pipe e).1 =? CFE_SUCCESS) then mret (tt_Pipe e).1
  else if negb (tt_Hk e =? CFE_SUCCESS) then mret (tt_Hk e)
  else if negb (tt_Cmd e =? CFE_SUCCESS) then mret (tt_Cmd e)
  else
    event CFE_TBL_INIT_INF_EID CFE_EVS_EventType_INFORMATION;;
    mret (tt_Event e).
End tbl.
