(* ===== verification/TblLinks.v ===== *)
(** * Table services: arrays by index and the access lists

    Elements of arrays by a signed index, and doubly linked lists of descriptors: [seg]
    is a part of a list, from the descriptor [c] with previous link [p] to the last one
    [q], whose next link is [n]. *)
From S2P Require Import Prelude TblConfig TblState.
Import ListNotations.

(** ** Arrays *)

Definition zget {A} (l : list A) (i : Z) : option A := if i <? 0 then None else l !! Z.to_nat i.
Definition zset {A} (i : Z) (x : A) (l : list A) : list A := <[Z.to_nat i := x]> l.

Section arrays.
Context {A : Type}.
Implicit Types (l : list A) (i j : Z) (x y : A).

Lemma zget_Some l i x : zget l i = Some x ↔ 0 <= i ∧ l !! Z.to_nat i = Some x.
Proof. unfold zget. destruct (Z.ltb_spec i 0); [split; [done|lia]|]. split; [by split|by intros [_ ?]]. Qed.

Lemma zget_lt l i x : zget l i = Some x → 0 <= i < Z.of_nat (length l).
Proof. intros [? H%lookup_lt_Some]%zget_Some. lia. Qed.

Lemma zget_is_Some l i : 0 <= i < Z.of_nat (length l) → ∃ x, zget l i = Some x.
Proof. intros H. destruct (lookup_lt_is_Some_2 l (Z.to_nat i)) as [x Hx]; [lia|]. exists x. apply zget_Some. split; [lia|done]. Qed.

Lemma zget_nat l (k : nat) : zget l (Z.of_nat k) = l !! k.
Proof. unfold zget. destruct (Z.ltb_spec (Z.of_nat k) 0); [lia|]. by rewrite Nat2Z.id. Qed.

Lemma zset_get l i j x y : zget l i = Some y → zget (zset i x l) j = if decide (j = i) then Some x else zget l j.
Proof.
  intros (Hi & H)%zget_Some. unfold zset, zget. destruct (decide (j = i)) as [->|Hne].
  - destruct (Z.ltb_spec i 0); [lia|]. apply list_lookup_insert_eq. by eapply lookup_lt_Some.
  - destruct (Z.ltb_spec j 0); [done|]. apply list_lookup_insert_ne. lia.
Qed.
Lemma zset_eq l i x y : zget l i = Some y → zget (zset i x l) i = Some x.
Proof. intros H. rewrite (zset_get _ _ _ _ _ H). by rewrite decide_True. Qed.
Lemma zset_ne l i j x : 0 <= i → j ≠ i → zget (zset i x l) j = zget l j.
Proof. intros. unfold zset, zget. destruct (Z.ltb_spec j 0); [done|]. apply list_lookup_insert_ne. lia. Qed.

Lemma zset_length l i x : length (zset i x l) = length l.
Proof. apply length_insert. Qed.

Lemma zset_same l i x : zget l i = Some x → zset i x l = l.
Proof. intros (? & H)%zget_Some. by apply list_insert_id. Qed.

Lemma zset_zset l i x y : zset i x (zset i y l) = zset i x l.
Proof. apply list_insert_insert_eq. Qed.

Lemma tbl_upd_zset (f : A → A) l i x : zget l i = Some x → tbl_upd f i l = Some (zset i (f x) l).
Proof.
  intros H. pose proof (zget_lt _ _ _ H) as Hi. apply zget_Some in H as [_ H]. unfold tbl_upd, zset.
  destruct (Z.ltb_spec i 0); [lia|]. destruct (Z.leb_spec (Z.of_nat (length l)) i); [lia|]. cbn. by rewrite (list_alter_at _ _ _ _ H).
Qed.

Lemma wp_tbl_get {S} l i x (Q : A → S → Prop) s : zget l i = Some x → Q x s → wp (tbl_get l i) Q s.
Proof. intros H. unfold tbl_get. by apply wp_of_option. Qed.
End arrays.

Lemma zget_fmap {A B} (f : A → B) l i : zget (f <$> l) i = f <$> zget l i.
Proof. unfold zget. destruct (i <? 0); [done|]. apply list_lookup_fmap. Qed.
Lemma zset_fmap {A B} (f : A → B) l i x : f <$> zset i x l = zset i (f x) (f <$> l).
Proof. apply list_fmap_insert. Qed.
Lemma zset_fmap_same {A B} (f : A → B) l i x y : zget l i = Some x → f y = f x → f <$> zset i y l = f <$> l.
Proof. intros H E. rewrite zset_fmap. apply zset_same. rewrite zget_fmap, H. cbn. by rewrite E. Qed.

(** ** Links *)

Record link := mkLink { l_used : bool; l_reg : Z; l_prev : Z; l_next : Z }.
Definition link_of (d : CFE_TBL_AccessDescriptor_t) : link := mkLink (ac_UsedFlag d) (ac_RegIndex d) (ac_PrevLink d) (ac_NextLink d).

Abbreviation END := CFE_TBL_END_OF_LIST.

Fixpoint seg (H : list link) (r p c : Z) (l : list Z) (q n : Z) : Prop :=
  match l with
  | [] => p = q ∧ c = n
  | h :: l => c = h ∧ ∃ n', zget H h = Some (mkLink true r p n') ∧ seg H r h n' l q n
  end.

Section segs.
Implicit Types (H : list link) (l : list Z).

Lemma seg_app H r p c l1 l2 q n : seg H r p c (l1 ++ l2) q n ↔ ∃ m n', seg H r p c l1 m n' ∧ seg H r m n' l2 q n.
Proof.
  revert p c. induction l1 as [|h l1 IH]; intros p c; cbn.
  - split; [intros ?; by exists p, c|]. by intros (m & n' & [-> ->] & ?).
  - split.
    + intros (-> & n' & Hh & (m & k & ? & ?)%IH). exists m, k. eauto.
    + intros (m & k & (-> & n' & Hh & ?) & ?). split; [done|]. exists n'. split; [done|]. apply IH. eauto.
Qed.

Lemma seg_in H r p c l q n h : seg H r p c l q n → h ∈ l → ∃ p' n', zget H h = Some (mkLink true r p' n').
Proof.
  revert p c. induction l as [|k l IH]; intros p c; cbn; [by intros _ ?%elem_of_nil|].
  intros (-> & n' & Hk & Hs) [->|Hin]%elem_of_cons; [eauto|]. by eapply IH.
Qed.

Lemma seg_pos H r p c l q n h : seg H r p c l q n → h ∈ l → 0 <= h < Z.of_nat (length H).
Proof. intros Hs Hin. destruct (seg_in _ _ _ _ _ _ _ _ Hs Hin) as (? & ? & Hz). by eapply zget_lt. Qed.

(** Changes of other descriptors. *)
Lemma seg_frame H H' r p c l q n : (∀ h, h ∈ l → zget H' h = zget H h) → seg H r p c l q n → seg H' r p c l q n.
Proof.
  revert p c. induction l as [|k l IH]; intros p c Hf; cbn; [done|]. intros (-> & n' & Hk & Hs). split; [done|]. exists n'. split.
  - rewrite Hf; [done|]. apply list_elem_of_here.
  - apply IH; [|done]. intros h Hh. apply Hf. by apply list_elem_of_further.
Qed.
Lemma seg_set H r p c l q n h x : 0 <= h → h ∉ l → seg H r p c l q n → seg (zset h x H) r p c l q n.
Proof. intros Hh Hin. apply seg_frame. intros k Hk. apply zset_ne; [done|]. by intros ->. Qed.

(** The last descriptor of a part, or the one before it. *)
Lemma seg_last H r p c l q n : seg H r p c l q n → l = [] ∧ p = q ∧ c = n ∨ ∃ l', l = l' ++ [q].
Proof.
  revert p c. induction l as [|k l IH]; intros p c; cbn; [by left|]. intros (-> & n' & Hk & [(-> & -> & ->)|(l' & ->)]%IH); right.
  - by exists [].
  - by exists (k :: l').
Qed.

(** The first descriptor of a list that ends. *)
Lemma seg_head H r p c l q : seg H r p c l q END → l = [] ∧ c = END ∨ ∃ l', l = c :: l' ∧ 0 <= c.
Proof.
  destruct l as [|h l]; cbn; [by intros [_ ->]; left|]. intros (-> & n' & Hh & _). right. exists l. split; [done|].
  apply zget_lt in Hh. lia.
Qed.
Lemma seg_head_end H r p c l q : seg H r p c l q END → c = END ↔ l = [].
Proof. intros [[-> ->]|(l' & -> & Hc)]%seg_head; [done|]. unfold END in *. split; [lia|done]. Qed.

(** The next link of the last descriptor, and the previous link of the first. *)
Lemma seg_set_next H r p c l q n n' u r' pq nq : NoDup l → l ≠ [] → seg H r p c l q n → zget H q = Some (mkLink u r' pq nq) →
  seg (zset q (mkLink u r' pq n') H) r p c l q n'.
Proof.
  intros Hnd Hne Hs Hq. destruct (seg_last _ _ _ _ _ _ _ Hs) as [(? & _)|(l' & ->)]; [done|].
  apply seg_app in Hs as (m & k & Hs1 & Hs2). cbn in Hs2. destruct Hs2 as (-> & n2 & Hq' & _ & ->).
  apply NoDup_app in Hnd as (_ & Hnin & _). assert (Hp : 0 <= q) by (apply zget_lt in Hq; lia).
  apply seg_app. exists m, q. split.
  - apply seg_set; [done| |done]. intros Hin. apply (Hnin _ Hin). by apply list_elem_of_singleton.
  - cbn. split; [done|]. exists n'. split; [|done]. rewrite Hq in Hq'. injection Hq' as -> -> -> ->. by eapply zset_eq.
Qed.

Lemma seg_set_prev H r p p' h l q n u r' ph nh : NoDup (h :: l) → seg H r p h (h :: l) q n → zget H h = Some (mkLink u r' ph nh) →
  seg (zset h (mkLink u r' p' nh) H) r p' h (h :: l) q n.
Proof.
  intros [Hnin Hnd]%NoDup_cons Hs Hh. assert (Hp : 0 <= h) by (apply zget_lt in Hh; lia).
  cbn in *. destruct Hs as (_ & n' & Hz & Hs). rewrite Hh in Hz. injection Hz as -> -> -> ->. split; [done|]. exists n'. split; [by eapply zset_eq|].
  by apply seg_set.
Qed.
End segs.

(** ** The lists of all tables

    [al] gives the descriptors of each table, [heads] the first one. *)
Record links_ok (al : Z → list Z) (H : list link) (heads : list Z) : Prop := {
  lo_seg r c : zget heads r = Some c → ∃ q, seg H r END c (al r) q END;
  lo_nodup r c : zget heads r = Some c → NoDup (al r);
  lo_used h x : zget H h = Some x → l_used x = true → is_Some (zget heads (l_reg x)) ∧ h ∈ al (l_reg x);
}.

Definition upd_al (r : Z) (l : list Z) (al : Z → list Z) : Z → list Z := λ k, if k =? r then l else al k.
Lemma upd_al_eq r l al : upd_al r l al r = l.
Proof. unfold upd_al. by rewrite Z.eqb_refl. Qed.
Lemma upd_al_ne r l al k : k ≠ r → upd_al r l al k = al k.
Proof. intros. unfold upd_al. by rewrite (proj2 (Z.eqb_neq _ _)). Qed.

Section links.
Context (al : Z → list Z) (H : list link) (heads : list Z) (Hok : links_ok al H heads).

Lemma lo_in r c h : zget heads r = Some c → h ∈ al r → ∃ p n, zget H h = Some (mkLink true r p n).
Proof. intros (q & Hs)%(lo_seg _ _ _ Hok) Hin. by eapply seg_in. Qed.

Lemma lo_disjoint r r' c c' h : zget heads r = Some c → zget heads r' = Some c' → h ∈ al r → h ∈ al r' → r = r'.
Proof.
  intros Hr Hr' (p & n & E)%(lo_in _ _ _ Hr) (p' & n' & E')%(lo_in _ _ _ Hr'). rewrite E in E'. by injection E'.
Qed.

Lemma lo_end r c : zget heads r = Some c → c = END ↔ al r = [].
Proof. intros (q & Hs)%(lo_seg _ _ _ Hok). by eapply seg_head_end. Qed.

(** The number of descriptors of a table: walks with more fuel end. *)
Lemma lo_length r c : zget heads r = Some c → (length (al r) <= length H)%nat.
Proof.
  intros Hr. pose proof (lo_nodup _ _ _ Hok _ _ Hr) as Hnd.
  assert (Hincl : al r ⊆ seqZ 0 (Z.of_nat (length H))).
  { intros h (p & n & E%zget_lt)%(lo_in _ _ _ Hr). apply elem_of_seqZ. lia. }
  pose proof (submseteq_length _ _ (NoDup_submseteq _ _ Hnd Hincl)) as Hl. rewrite length_seqZ in Hl. lia.
Qed.
End links.

(** ** Changes of the lists *)

Definition zalter {A} (f : A → A) (i : Z) (l : list A) : list A := match zget l i with Some x => zset i (f x) l | None => l end.

Lemma zalter_get {A} (f : A → A) i j (l : list A) : zget (zalter f i l) j = if decide (j = i) then f <$> zget l j else zget l j.
Proof.
  unfold zalter. destruct (zget l i) as [x|] eqn:E.
  - rewrite (zset_get _ _ _ _ _ E). destruct (decide (j = i)) as [->|]; [by rewrite E|done].
  - destruct (decide (j = i)) as [->|]; [by rewrite E|done].
Qed.
Lemma zalter_length {A} (f : A → A) i (l : list A) : length (zalter f i l) = length l.
Proof. unfold zalter. destruct (zget l i); [apply zset_length|done]. Qed.
Lemma zalter_set {A} (f : A → A) i (l : list A) x : zget l i = Some x → zalter f i l = zset i (f x) l.
Proof. unfold zalter. by intros ->. Qed.

Definition set_next (n p : Z) (H : list link) : list link :=
  if p =? END then H else zalter (λ x, mkLink (l_used x) (l_reg x) (l_prev x) n) p H.
Definition set_prev (p n : Z) (H : list link) : list link :=
  if n =? END then H else zalter (λ x, mkLink (l_used x) (l_reg x) p (l_next x)) n H.
Definition set_used (u : bool) (h : Z) (H : list link) : list link :=
  zalter (λ x, mkLink u (l_reg x) (l_prev x) (l_next x)) h H.

Lemma set_next_ne n p H k : k ≠ p → zget (set_next n p H) k = zget H k.
Proof. intros Hk. unfold set_next. destruct (p =? END); [done|]. rewrite zalter_get. by rewrite decide_False. Qed.
Lemma set_prev_ne n p H k : k ≠ n → zget (set_prev p n H) k = zget H k.
Proof. intros Hk. unfold set_prev. destruct (n =? END); [done|]. rewrite zalter_get. by rewrite decide_False. Qed.
Lemma set_used_ne u h H k : k ≠ h → zget (set_used u h H) k = zget H k.
Proof. intros Hk. unfold set_used. rewrite zalter_get. by rewrite decide_False. Qed.

(** What these changes keep of a descriptor. *)
Lemma set_next_keeps n p H k x : zget (set_next n p H) k = Some x → ∃ y, zget H k = Some y ∧ l_used y = l_used x ∧ l_reg y = l_reg x.
Proof.
  unfold set_next. destruct (p =? END); [eauto|]. rewrite zalter_get. destruct (decide (k = p)); [|eauto].
  destruct (zget H k) as [y|]; [|done]. intros [= <-]. eauto.
Qed.
Lemma set_prev_keeps n p H k x : zget (set_prev p n H) k = Some x → ∃ y, zget H k = Some y ∧ l_used y = l_used x ∧ l_reg y = l_reg x.
Proof.
  unfold set_prev. destruct (n =? END); [eauto|]. rewrite zalter_get. destruct (decide (k = n)); [|eauto].
  destruct (zget H k) as [y|]; [|done]. intros [= <-]. eauto.
Qed.

Section changes.
Implicit Types (H : list link) (l : list Z).

Lemma seg_next H r p c l q n n' : NoDup l → seg H r p c l q n → (l = [] → p = END) → seg (set_next n' q H) r p (if decide (l = []) then n' else c) l q n'.
Proof.
  intros Hnd Hs Hp. destruct (decide (l = [])) as [->|Hne]; [cbn in *; by destruct Hs as [-> _]|].
  destruct (seg_last _ _ _ _ _ _ _ Hs) as [(? & _)|(l' & El)]; [done|].
  destruct (seg_in _ _ _ _ _ _ _ q Hs) as (a & b & Hz); [rewrite El; apply elem_of_app; right; by apply list_elem_of_singleton|].
  unfold set_next. rewrite (proj2 (Z.eqb_neq q END)) by (apply zget_lt in Hz; unfold END; lia).
  rewrite (zalter_set _ _ _ _ Hz). cbn. by eapply seg_set_next.
Qed.

Lemma seg_prev H r p p' c l q : NoDup l → seg H r p c l q END → ∃ q', seg (set_prev p' c H) r p' c l q' END.
Proof.
  intros Hnd Hs. destruct (seg_head _ _ _ _ _ _ Hs) as [[-> ->]|(l' & -> & Hc)]; [by exists p'|].
  exists q. destruct (seg_in _ _ _ _ _ _ _ c Hs) as (a & b & Hz); [apply list_elem_of_here|].
  unfold set_prev. rewrite (proj2 (Z.eqb_neq c END)) by (unfold END; lia). rewrite (zalter_set _ _ _ _ Hz). cbn [l_used l_reg l_prev l_next]. by eapply seg_set_prev.
Qed.

Definition unlink (r h p n : Z) H : list link := set_used false h (set_prev p n (set_next n p H)).

(** Removing a descriptor from its list. *)
Lemma links_remove al H heads r c h p n : links_ok al H heads → zget heads r = Some c → zget H h = Some (mkLink true r p n) →
  ∃ l, (∀ k, k ∈ l ↔ k ∈ al r ∧ k ≠ h) ∧
       links_ok (upd_al r l al) (unlink r h p n H) (if p =? END then zset r n heads else heads).
Proof.
  intros Hok Hr Hh. destruct (lo_used _ _ _ Hok _ _ Hh eq_refl) as [_ Hin]. cbn in Hin.
  destruct (lo_seg _ _ _ Hok _ _ Hr) as [q Hs]. pose proof (lo_nodup _ _ _ Hok _ _ Hr) as Hnd.
  apply list_elem_of_split in Hin as (l1 & l2 & El). rewrite El in Hs, Hnd.
  apply seg_app in Hs as (m & n' & Hs1 & Hs2). cbn in Hs2. destruct Hs2 as (-> & n2 & Hz & Hs2). rewrite Hh in Hz. injection Hz as -> ->.
  apply NoDup_app in Hnd as (Hnd1 & Hd & [Hh2 Hnd2]%NoDup_cons).
  assert (Hh1 : h ∉ l1) by (intros Hin; apply (Hd _ Hin), list_elem_of_here).
  assert (H12 : ∀ k, k ∈ l1 → k ∉ l2) by (intros k Hk Hk2; by apply (Hd _ Hk), list_elem_of_further).
  assert (Hm : l1 = [] ∧ m = END ∨ l1 ≠ [] ∧ m ∈ l1).
  { destruct (seg_last _ _ _ _ _ _ _ Hs1) as [(-> & <- & _)|(l' & ->)]; [by left|right]. split; [by destruct l'|].
    apply elem_of_app. right. by apply list_elem_of_singleton. }
  assert (Hn : l2 = [] ∧ n2 = END ∨ l2 ≠ [] ∧ n2 ∈ l2).
  { destruct (seg_head _ _ _ _ _ _ Hs2) as [[-> ->]|(l' & -> & _)]; [by left|right]. split; [done|]. apply list_elem_of_here. }
  assert (Hpos : ∀ k, k ∈ l1 ++ l2 → k ≠ END).
  { intros k [Hk|Hk]%elem_of_app; [eapply seg_pos in Hk; [|exact Hs1]|eapply seg_pos in Hk; [|exact Hs2]]; unfold END; lia. }
  exists (l1 ++ l2). split.
  { intros k. rewrite El, !elem_of_app, elem_of_cons. split; [|naive_solver]. intros [Hk|Hk]; (split; [tauto|]); by intros ->. }
  assert (Hall : ∃ q', seg (unlink r h m n2 H) r END (if decide (l1 = []) then n2 else c) (l1 ++ l2) q' END).
  { assert (Hs1' : seg (set_next n2 m H) r END (if decide (l1 = []) then n2 else c) l1 m n2).
    { eapply seg_next; [done|exact Hs1|done]. }
    assert (Hs2' : seg (set_next n2 m H) r h n2 l2 q END).
    { eapply seg_frame; [|exact Hs2]. intros k Hk. apply set_next_ne. intros ->. destruct Hm as [[_ Em]|[_ Em]]; [|by eapply H12].
      apply (Hpos m); [apply elem_of_app; by right|done]. }
    destruct (seg_prev _ r h m _ _ _ Hnd2 Hs2') as [q' Hs2'']. exists q'. apply seg_app. exists m, n2. split.
    - eapply seg_frame; [|exact Hs1']. intros k Hk. unfold unlink. rewrite set_used_ne by (by intros ->). apply set_prev_ne.
      intros ->. destruct Hn as [[_ En]|[_ En]]; [|by eapply H12]. apply (Hpos n2); [apply elem_of_app; by left|done].
    - eapply seg_frame; [|exact Hs2'']. intros k Hk. unfold unlink. apply set_used_ne. by intros ->. }
  assert (Hhead : ∀ r' c', zget (if m =? END then zset r n2 heads else heads) r' = Some c' →
    (r' = r ∧ c' = if decide (l1 = []) then n2 else c) ∨ (r' ≠ r ∧ zget heads r' = Some c')).
  { intros r' c'. destruct Hm as [[-> ->]|[Hne Hml]].
    - rewrite Z.eqb_refl, (zset_get _ _ _ _ _ Hr). destruct (decide (r' = r)) as [->|]; [|by right]. intros [= <-]. left. split; [done|]. by rewrite decide_True.
    - rewrite (proj2 (Z.eqb_neq _ _)) by (apply Hpos, elem_of_app; by left). intros E. destruct (decide (r' = r)) as [->|]; [|by right].
      rewrite Hr in E. injection E as ->. left. split; [done|]. by rewrite decide_False. }
  assert (Hout : ∀ r' c', r' ≠ r → zget heads r' = Some c' → ∀ k, k ∈ al r' → (k ≠ h) ∧ (k ∉ l1) ∧ k ∉ l2).
  { intros r' c' Hne Hc' k Hk. assert (k ∉ al r) by (intros Hk'; by eapply Hne, lo_disjoint). rewrite El in *. rewrite not_elem_of_app, not_elem_of_cons in *. tauto. }
  assert (Hmn : ∀ k, k ∈ l1 ++ l2 ∨ (0 <= k → (k ≠ h) ∧ (k ∉ l1) ∧ k ∉ l2 → (k ≠ m) ∧ k ≠ n2)).
  { intros k. right. intros Hk (_ & Hk1 & Hk2). split; intros ->.
    - destruct Hm as [[_ Em]|[_ ?]]; [unfold END in *; lia|done].
    - destruct Hn as [[_ En]|[_ ?]]; [unfold END in *; lia|done]. }
  split.
  - intros r' c' [[-> ->]|[Hne Hc']]%Hhead; [by rewrite upd_al_eq|]. rewrite upd_al_ne by done.
    destruct (lo_seg _ _ _ Hok _ _ Hc') as [q' Hq']. exists q'. eapply seg_frame; [|exact Hq']. intros k Hk.
    destruct (Hout _ _ Hne Hc' k Hk) as (Hkh & Hk1 & Hk2). pose proof (seg_pos _ _ _ _ _ _ _ _ Hq' Hk).
    destruct (Hmn k) as [[]%elem_of_app|Hx]; [done..|]. destruct Hx as [? ?]; [lia|done|].
    unfold unlink. by rewrite set_used_ne, set_prev_ne, set_next_ne.
  - intros r' c' [[-> ->]|[Hne Hc']]%Hhead; [rewrite upd_al_eq|rewrite upd_al_ne by done; by eapply lo_nodup].
    apply NoDup_app. split_and!; [done|exact H12|done].
  - intros k x Hx Hu. unfold unlink, set_used in Hx. rewrite zalter_get in Hx. destruct (decide (k = h)) as [->|Hkh].
    { apply fmap_Some in Hx as (y & _ & ->). done. }
    apply set_prev_keeps in Hx as (y & Hy & Hyu & Hyr). apply set_next_keeps in Hy as (z & Hz & Hzu & Hzr).
    destruct (lo_used _ _ _ Hok k z Hz) as [[c' Hc'] Hk]; [congruence|]. rewrite Hzr, Hyr in *.
    split. { destruct (m =? END); [|by eexists]. rewrite (zset_get _ _ _ _ _ Hr). destruct (decide (l_reg x = r)); by eexists. }
    destruct (decide (l_reg x = r)) as [Er|Er]; [|by rewrite upd_al_ne]. rewrite Er, upd_al_eq in *. rewrite El in Hk.
    rewrite elem_of_app, elem_of_cons in *. tauto.
Qed.

(** Adding a free descriptor at the front. *)
Lemma links_insert al H heads r c h x : links_ok al H heads → zget heads r = Some c → zget H h = Some x → l_used x = false →
  links_ok (upd_al r (h :: al r) al) (set_prev h c (zset h (mkLink true r END c) H)) (zset r h heads).
Proof.
  intros Hok Hr Hh Hu. pose proof (zget_lt _ _ _ Hh) as Hhp.
  assert (Hfree : ∀ r' c', zget heads r' = Some c' → h ∉ al r').
  { intros r' c' Hc' Hin. destruct (lo_in _ _ _ Hok _ _ _ Hc' Hin) as (? & ? & E). rewrite Hh in E. injection E as ->. done. }
  destruct (lo_seg _ _ _ Hok _ _ Hr) as [q Hs]. pose proof (lo_nodup _ _ _ Hok _ _ Hr) as Hnd.
  assert (Hs1 : seg (zset h (mkLink true r END c) H) r END c (al r) q END) by (apply seg_set; [lia|by eapply Hfree|done]).
  assert (Hch : h ≠ c).
  { intros <-. destruct (seg_head _ _ _ _ _ _ Hs) as [[_ E]|(l' & E & _)]; [unfold END in *; lia|].
    apply (Hfree _ _ Hr). rewrite E. apply list_elem_of_here. }
  split.
  - intros r' c'. rewrite (zset_get _ _ _ _ _ Hr). destruct (decide (r' = r)) as [->|Hne].
    + intros [= <-]. rewrite upd_al_eq. destruct (seg_prev _ r END h _ _ _ Hnd Hs1) as [q' Hs2]. exists q'. cbn. split; [done|].
      exists c. split; [|done]. rewrite set_prev_ne by done. by eapply zset_eq.
    + intros Hc'. rewrite upd_al_ne by done. destruct (lo_seg _ _ _ Hok _ _ Hc') as [q' Hq']. exists q'. eapply seg_frame; [|exact Hq'].
      intros k Hk. rewrite set_prev_ne.
      { apply zset_ne; [lia|]. intros ->. by eapply Hfree. }
      intros ->. destruct (seg_head _ _ _ _ _ _ Hs) as [[_ E]|(l' & E & _)].
      { pose proof (seg_pos _ _ _ _ _ _ _ _ Hq' Hk). unfold END in *; lia. }
      apply Hne. eapply lo_disjoint; [done|exact Hc'|exact Hr|exact Hk|]. rewrite E. apply list_elem_of_here.
  - intros r' c'. rewrite (zset_get _ _ _ _ _ Hr). destruct (decide (r' = r)) as [->|Hne]; [intros [= <-]; rewrite upd_al_eq|rewrite upd_al_ne by done; by eapply lo_nodup].
    apply NoDup_cons. split; [by eapply Hfree|done].
  - intros k y Hy Hyu. apply set_prev_keeps in Hy as (z & Hz & Hzu & Hzr). rewrite (zset_get _ _ _ _ _ Hh) in Hz. rewrite <- Hzr.
    destruct (decide (k = h)) as [->|Hkh].
    + injection Hz as <-. cbn [l_reg]. rewrite upd_al_eq. split; [rewrite (zset_eq _ _ _ _ Hr); by eexists|]. apply list_elem_of_here.
    + destruct (lo_used _ _ _ Hok k z Hz) as [[c' Hc'] Hk]; [congruence|]. split.
      { rewrite (zset_get _ _ _ _ _ Hr). destruct (decide (l_reg z = r)); by eexists. }
      destruct (decide (l_reg z = r)) as [E|]; [|by rewrite upd_al_ne]. rewrite E, upd_al_eq in *. by apply list_elem_of_further.
Qed.
End changes.
