(* ===== verification/TblCore.v ===== *)
(** * Table services: the core of the state and symbolic execution

    The core is what the safety of table services depends on; counters, telemetry, events
    and the time are left out.  [wpk c Q K]: from every state with core [K], [c] has a
    result, and the result and the core of the final state satisfy [Q]. *)
From S2P Require Import Prelude Config Msg ResourceId Cstring EsApp TimeApi SbState TblConfig EsCrc FsFile TblState TblInternal TblLinks.
Import ListNotations.

(** What table services rely on of the pool besides the laws of the bus: an error status
    has both severity bits. *)
Class TblPoolOK (PS : Type) `{MemPool PS} := {
  get_status size p st a p' : CFE_ES_GetPoolBuf size p = ((st, a), p') → - 2 ^ 30 <= st;
}.

(** A block of the critical data store that exists already has the size it is registered
    with, and the critical table registry its number of entries. *)
Class CDSStoreOK (CS : Type) `{CDSStore CS} := {
  restore_size size name crit c h c' st bs : CFE_ES_RegisterCDSEx size name crit c = ((CFE_ES_CDS_ALREADY_EXISTS, h), c') →
    CFE_ES_RestoreFromCDS h c' = (st, bs) → Z.of_nat (length bs) <= size;
  restore_reg_size h c st l : CFE_ES_RestoreRegFromCDS h c = (st, l) → length l = Z.to_nat CFE_PLATFORM_TBL_MAX_CRITICAL_TABLES;
}.

Record core {FS CS : Type} := mkCore {
  kH : list CFE_TBL_AccessDescriptor_t;
  kR : list CFE_TBL_RegistryRec_t;
  kL : list CFE_TBL_LoadBuff_t;
  kC : list CFE_TBL_CritRegRec_t;
  kV : list CFE_TBL_ValidationResult_t;
  kD : list CFE_TBL_DumpControl_t;
  kM : gmap addr (list Z);
  kP : gmap addr Z;
  kA : gmap addr (list Z);
  kF : FS;
  kS : CS;
  kReg : bool;
  kWork : bool;
  kTask : Z;
  kHk : Z;
}.
Arguments core : clear implicits.

(** The block a pointer points at. *)
Definition mem {FS CS} (K : core FS CS) (p : tptr) : option (list Z) :=
  match p with PNull => None | PPool a => kM K !! a | PApp a => kA K !! a end.

Section core.
Context {PS FS CS : Type} `{Pool : MemPool PS} `{Files : OSFile FS} `{Store : CDSStore CS} `{Cfg : TblCfg}.
Context `{PoolOK : !MemPoolOK PS} `{FilesOK : !OSFileOK FS} `{PoolSt : !TblPoolOK PS} `{StoreOK : !CDSStoreOK CS}.
Abbreviation TG := (CFE_TBL_Global_t PS FS CS).
Abbreviation KS := (core FS CS).
Implicit Types (K : KS) (s : TG).

Definition core_of (s : TG) : KS :=
  mkCore FS CS (Handles s) (Registry s) (LoadBuffs s) (CritReg s) (ValidationResults s) (DumpControlBlocks s) (TblMem s)
    (p_live (TblPool s)) (AppMem s) (TblFiles s) (Cds s) (tg_RegistryMutex s) (tg_WorkBufMutex s) (tg_TableTaskAppId s) (tg_HkTlmTblRegIndex s).

Definition wH (l : list CFE_TBL_AccessDescriptor_t) K : KS :=
  mkCore FS CS l (kR K) (kL K) (kC K) (kV K) (kD K) (kM K) (kP K) (kA K) (kF K) (kS K) (kReg K) (kWork K) (kTask K) (kHk K).
Definition wR (l : list CFE_TBL_RegistryRec_t) K : KS :=
  mkCore FS CS (kH K) l (kL K) (kC K) (kV K) (kD K) (kM K) (kP K) (kA K) (kF K) (kS K) (kReg K) (kWork K) (kTask K) (kHk K).
Definition wL (l : list CFE_TBL_LoadBuff_t) K : KS :=
  mkCore FS CS (kH K) (kR K) l (kC K) (kV K) (kD K) (kM K) (kP K) (kA K) (kF K) (kS K) (kReg K) (kWork K) (kTask K) (kHk K).
Definition wC (l : list CFE_TBL_CritRegRec_t) K : KS :=
  mkCore FS CS (kH K) (kR K) (kL K) l (kV K) (kD K) (kM K) (kP K) (kA K) (kF K) (kS K) (kReg K) (kWork K) (kTask K) (kHk K).
Definition wV (l : list CFE_TBL_ValidationResult_t) K : KS :=
  mkCore FS CS (kH K) (kR K) (kL K) (kC K) l (kD K) (kM K) (kP K) (kA K) (kF K) (kS K) (kReg K) (kWork K) (kTask K) (kHk K).
Definition wD (l : list CFE_TBL_DumpControl_t) K : KS :=
  mkCore FS CS (kH K) (kR K) (kL K) (kC K) (kV K) l (kM K) (kP K) (kA K) (kF K) (kS K) (kReg K) (kWork K) (kTask K) (kHk K).
Definition wM (m : gmap addr (list Z)) K : KS :=
  mkCore FS CS (kH K) (kR K) (kL K) (kC K) (kV K) (kD K) m (kP K) (kA K) (kF K) (kS K) (kReg K) (kWork K) (kTask K) (kHk K).
Definition wP (p : gmap addr Z) K : KS :=
  mkCore FS CS (kH K) (kR K) (kL K) (kC K) (kV K) (kD K) (kM K) p (kA K) (kF K) (kS K) (kReg K) (kWork K) (kTask K) (kHk K).
Definition wA (m : gmap addr (list Z)) K : KS :=
  mkCore FS CS (kH K) (kR K) (kL K) (kC K) (kV K) (kD K) (kM K) (kP K) m (kF K) (kS K) (kReg K) (kWork K) (kTask K) (kHk K).
Definition wF (f : FS) K : KS :=
  mkCore FS CS (kH K) (kR K) (kL K) (kC K) (kV K) (kD K) (kM K) (kP K) (kA K) f (kS K) (kReg K) (kWork K) (kTask K) (kHk K).
Definition wS (c : CS) K : KS :=
  mkCore FS CS (kH K) (kR K) (kL K) (kC K) (kV K) (kD K) (kM K) (kP K) (kA K) (kF K) c (kReg K) (kWork K) (kTask K) (kHk K).
Definition wReg (b : bool) K : KS :=
  mkCore FS CS (kH K) (kR K) (kL K) (kC K) (kV K) (kD K) (kM K) (kP K) (kA K) (kF K) (kS K) b (kWork K) (kTask K) (kHk K).
Definition wWork (b : bool) K : KS :=
  mkCore FS CS (kH K) (kR K) (kL K) (kC K) (kV K) (kD K) (kM K) (kP K) (kA K) (kF K) (kS K) (kReg K) b (kTask K) (kHk K).
Definition wHk (z : Z) K : KS :=
  mkCore FS CS (kH K) (kR K) (kL K) (kC K) (kV K) (kD K) (kM K) (kP K) (kA K) (kF K) (kS K) (kReg K) (kWork K) (kTask K) z.

Definition set_mem (p : tptr) (new : list Z) K : KS :=
  match p with PNull => K | PPool a => wM (<[a := new]> (kM K)) K | PApp a => wA (<[a := new]> (kA K)) K end.

Definition wpk {A} (c : M TG A) (Q : A → KS → Prop) (K : KS) : Prop :=
  ∀ s, core_of s = K → wp c (λ a s', Q a (core_of s')) s.

(** ** Rules *)

Lemma wpk_wp {A} (c : M TG A) Q s : wpk c Q (core_of s) → wp c (λ a s', Q a (core_of s')) s.
Proof. intros H. by apply H. Qed.

Lemma wpk_ret {A} (a : A) Q K : Q a K → wpk (mret a) Q K.
Proof. by intros H s <-. Qed.

Lemma wpk_bind {A B} (c : M TG A) (k : A → M TG B) Q K : wpk c (λ a, wpk (k a) Q) K → wpk (c ≫= k) Q K.
Proof. intros H s E. apply wp_bind. eapply wp_mono; [by apply H|]. intros a s' Ha. by apply Ha. Qed.

Lemma wpk_mono {A} (c : M TG A) (P Q : A → KS → Prop) K : wpk c P K → (∀ a K', P a K' → Q a K') → wpk c Q K.
Proof. intros H HPQ s E. eapply wp_mono; [by apply H|]. auto. Qed.

Lemma wpk_gets {A} (f : TG → A) Q K : (∀ s, core_of s = K → Q (f s) K) → wpk (gets f) Q K.
Proof. intros H s <-. apply wp_gets. by apply H. Qed.

Lemma wpk_gets_any {A} (f : TG → A) Q K : (∀ a, Q a K) → wpk (gets f) Q K.
Proof. intros H. apply wpk_gets. auto. Qed.

Lemma wpk_modify (f : TG → TG) (Q : unit → KS → Prop) K : (∀ s, core_of s = K → Q tt (core_of (f s))) → wpk (modify f) Q K.
Proof. intros H s E. apply wp_modify. by apply H. Qed.

Lemma wpk_modify_any (f : TG → TG) (Q : unit → KS → Prop) K : (∀ s, core_of (f s) = core_of s) → Q tt K → wpk (modify f) Q K.
Proof. intros H HQ. apply wpk_modify. intros s E. by rewrite H, E. Qed.

Lemma wpk_event id type (Q : unit → KS → Prop) K : Q tt K → wpk (event id type) Q K.
Proof. by apply wpk_modify_any. Qed.

Lemma wpk_hkp f (Q : unit → KS → Prop) K : Q tt K → wpk (hkp f) Q K.
Proof. by apply wpk_modify_any. Qed.

Lemma wpk_of_option {A} (o : option A) a Q K : o = Some a → Q a K → wpk (of_option o) Q K.
Proof. intros -> H s <-. done. Qed.

Lemma wpk_tbl_get {A} (l : list A) i x Q K : zget l i = Some x → Q x K → wpk (tbl_get l i) Q K.
Proof. intros H. unfold tbl_get. by apply wpk_of_option. Qed.

Lemma wpk_when (b : bool) (c : M TG unit) (Q : unit → KS → Prop) K : (b = true → wpk c Q K) → (b = false → Q tt K) → wpk (when b c) Q K.
Proof. destruct b; cbn; intros H1 H2; [by apply H1|]. apply wpk_ret. by apply H2. Qed.

(** Reading and writing elements of arrays. *)
Lemma wpk_read {A} (f : TG → list A) (g : KS → list A) i x Q K : (∀ s, f s = g (core_of s)) → zget (g K) i = Some x → Q x K →
  wpk (l ← gets f; tbl_get l i) Q K.
Proof. intros Hf Hx HQ. apply wpk_bind, wpk_gets. intros s E. rewrite Hf, E. by eapply wpk_tbl_get. Qed.
Lemma wpk_write {A} (f : TG → list A) (up : list A → TG → TG) (g : KS → list A) (w : list A → KS → KS) (h : A → A) i x (Q : unit → KS → Prop) K :
  (∀ s, f s = g (core_of s)) → (∀ l s, core_of (up l s) = w l (core_of s)) → zget (g K) i = Some x →
  Q tt (w (zset i (h x) (g K)) K) →
  wpk (l ← gets f; l ← of_option (tbl_upd h i l); modify (up l)) Q K.
Proof.
  intros Hf Hw Hx HQ. apply wpk_bind, wpk_gets. intros s E. rewrite Hf, E. apply wpk_bind. eapply wpk_of_option; [by apply tbl_upd_zset|].
  apply wpk_modify. intros s' E'. by rewrite Hw, E'.
Qed.

Lemma wpk_rd_hdl h d Q K : zget (kH K) h = Some d → Q d K → wpk (rd_hdl h) Q K.
Proof. by apply wpk_read. Qed.
Lemma wpk_wr_hdl h f d (Q : unit → KS → Prop) K : zget (kH K) h = Some d → Q tt (wH (zset h (f d) (kH K)) K) → wpk (wr_hdl h f) Q K.
Proof. by apply (wpk_write Handles (λ l s, s <| Handles := l |>) kH wH). Qed.
Lemma wpk_rd_reg r rec Q K : zget (kR K) r = Some rec → Q rec K → wpk (rd_reg r) Q K.
Proof. by apply wpk_read. Qed.
Lemma wpk_wr_reg r f rec (Q : unit → KS → Prop) K : zget (kR K) r = Some rec → Q tt (wR (zset r (f rec) (kR K)) K) → wpk (wr_reg r f) Q K.
Proof. by apply (wpk_write Registry (λ l s, s <| Registry := l |>) kR wR). Qed.
Lemma wpk_rd_val i v Q K : zget (kV K) i = Some v → Q v K → wpk (rd_val i) Q K.
Proof. by apply wpk_read. Qed.
Lemma wpk_wr_val i f v (Q : unit → KS → Prop) K : zget (kV K) i = Some v → Q tt (wV (zset i (f v) (kV K)) K) → wpk (wr_val i f) Q K.
Proof. by apply (wpk_write ValidationResults (λ l s, s <| ValidationResults := l |>) kV wV). Qed.
Lemma wpk_rd_dump i c Q K : zget (kD K) i = Some c → Q c K → wpk (rd_dump i) Q K.
Proof. by apply wpk_read. Qed.
Lemma wpk_wr_dump i f c (Q : unit → KS → Prop) K : zget (kD K) i = Some c → Q tt (wD (zset i (f c) (kD K)) K) → wpk (wr_dump i f) Q K.
Proof. by apply (wpk_write DumpControlBlocks (λ l s, s <| DumpControlBlocks := l |>) kD wD). Qed.
Lemma wpk_wr_crit i f c (Q : unit → KS → Prop) K : zget (kC K) i = Some c → Q tt (wC (zset i (f c) (kC K)) K) → wpk (wr_crit i f) Q K.
Proof. by apply (wpk_write CritReg (λ l s, s <| CritReg := l |>) kC wC). Qed.
Lemma wpk_rd_shared j b Q K : zget (kL K) j = Some b → Q b K → wpk (rd_shared j) Q K.
Proof. by apply wpk_read. Qed.
Lemma wpk_wr_shared j f b (Q : unit → KS → Prop) K : zget (kL K) j = Some b → Q tt (wL (zset j (f b) (kL K)) K) → wpk (wr_shared j f) Q K.
Proof. by apply (wpk_write LoadBuffs (λ l s, s <| LoadBuffs := l |>) kL wL). Qed.

Lemma wpk_reg_buf rec i b Q K : zget (rr_Buffers rec) i = Some b → Q b K → wpk (reg_buf rec i) Q K.
Proof. apply wpk_tbl_get. Qed.

Definition set_buf (i : Z) (b : CFE_TBL_LoadBuff_t) (rec : CFE_TBL_RegistryRec_t) : CFE_TBL_RegistryRec_t :=
  rec <| rr_Buffers := zset i b (rr_Buffers rec) |>.

Lemma wpk_wr_reg_buf r i f rec b (Q : unit → KS → Prop) K : zget (kR K) r = Some rec → zget (rr_Buffers rec) i = Some b →
  Q tt (wR (zset r (set_buf i (f b) rec) (kR K)) K) → wpk (wr_reg_buf r i f) Q K.
Proof.
  intros Hr Hb HQ. apply wpk_bind. eapply wpk_rd_reg; [done|]. apply wpk_bind. eapply wpk_of_option; [by apply tbl_upd_zset|].
  by eapply wpk_wr_reg.
Qed.

(** The buffer a reference selects. *)
Definition lb K (w : BufRef) : option CFE_TBL_LoadBuff_t :=
  match w with RegBuf r i => rec ← zget (kR K) r; zget (rr_Buffers rec) i | SharedBuf j => zget (kL K) j end.
Definition set_lb (w : BufRef) (b : CFE_TBL_LoadBuff_t) K : KS :=
  match w with
  | RegBuf r i => match zget (kR K) r with Some rec => wR (zset r (set_buf i b rec) (kR K)) K | None => K end
  | SharedBuf j => wL (zset j b (kL K)) K
  end.

Lemma wpk_rd_lb w b Q K : lb K w = Some b → Q b K → wpk (rd_lb w) Q K.
Proof.
  destruct w as [r i|j]; cbn; intros Hb HQ; [|by eapply wpk_rd_shared]. destruct (zget (kR K) r) as [rec|] eqn:Hr; [|done]; cbn in Hb.
  apply wpk_bind. eapply wpk_rd_reg; [done|]. by eapply wpk_reg_buf.
Qed.
Lemma wpk_wr_lb w f b (Q : unit → KS → Prop) K : lb K w = Some b → Q tt (set_lb w (f b) K) → wpk (wr_lb w f) Q K.
Proof.
  destruct w as [r i|j]; cbn; intros Hb HQ; [|by eapply wpk_wr_shared]. destruct (zget (kR K) r) as [rec|] eqn:Hr; [|done]; cbn in Hb.
  by eapply wpk_wr_reg_buf.
Qed.

(** Memory. *)
Lemma wpk_rd_mem p bs Q K : mem K p = Some bs → Q bs K → wpk (rd_mem p) Q K.
Proof. intros Hm HQ s <-. unfold rd_mem, wp. destruct p; cbn in *; [done|by rewrite Hm..]. Qed.
Lemma wpk_rd_bytes p n bs Q K : mem K p = Some bs → n <= Z.of_nat (length bs) → Q (take (Z.to_nat n) bs) K → wpk (rd_bytes p n) Q K.
Proof.
  intros Hm Hn HQ. apply wpk_bind. eapply wpk_rd_mem; [done|]. rewrite (proj2 (Z.leb_le _ _) Hn). by apply wpk_ret.
Qed.
Lemma wpk_wr_mem p off bs old (Q : unit → KS → Prop) K : mem K p = Some old → off + Z.of_nat (length bs) <= Z.of_nat (length old) →
  Q tt (set_mem p (splice (Z.to_nat off) bs old) K) → wpk (wr_mem p off bs) Q K.
Proof.
  intros Hm Hn HQ. apply wpk_bind. eapply wpk_rd_mem; [done|]. rewrite (proj2 (Z.leb_le _ _) Hn).
  destruct p as [|a|a]; [done|..]; apply wpk_modify; intros s <-; exact HQ.
Qed.
Lemma wpk_memcpy dst src n bs old (Q : unit → KS → Prop) K : 0 <= n → mem K src = Some bs → n <= Z.of_nat (length bs) → mem K dst = Some old →
  n <= Z.of_nat (length old) → Q tt (set_mem dst (splice 0 (take (Z.to_nat n) bs) old) K) → wpk (memcpy dst src n) Q K.
Proof.
  intros Hn0 Hs Hsl Hd Hdl HQ. apply wpk_bind. eapply wpk_rd_bytes; [done..|]. eapply wpk_wr_mem; [done| |exact HQ].
  rewrite length_take. lia.
Qed.
Lemma wpk_memset p n old (Q : unit → KS → Prop) K : 0 <= n → mem K p = Some old → n <= Z.of_nat (length old) →
  Q tt (set_mem p (splice 0 (replicate (Z.to_nat n) 0) old) K) → wpk (memset p n) Q K.
Proof. intros Hn0 Hm Hn HQ. eapply wpk_wr_mem; [done| |exact HQ]. rewrite length_replicate. lia. Qed.
Lemma wpk_crc p n bs Q K : mem K p = Some bs → n <= Z.of_nat (length bs) → (∀ c, Q c K) → wpk (crc_of p n) Q K.
Proof.
  intros Hm Hn HQ. unfold crc_of. destruct p; [apply wpk_ret, HQ|..]; apply wpk_bind; (eapply wpk_rd_bytes; [done..|]); apply wpk_ret, HQ.
Qed.

(** Services. *)
Lemma wpk_files {A} (c : M FS A) Q K : wp c (λ a f, Q a (wF f K)) (kF K) → wpk (files c) Q K.
Proof. intros H s <-. unfold files, wp in *. cbn in *. destruct (c (TblFiles s)) as [[a f]|]; [exact H|done]. Qed.
Lemma wpk_call {A} (f : FS → A * FS) Q K : (∀ a f', f (kF K) = (a, f') → Q a (wF f' K)) → wpk (files (FsFile.call f)) Q K.
Proof. intros H. apply wpk_files. unfold FsFile.call, wp. destruct (f (kF K)) as [a f'] eqn:E. by apply H. Qed.
Lemma wpk_cds {A} (f : CS → A * CS) Q K : (∀ a c', f (kS K) = (a, c') → Q a (wS c' K)) → wpk (cds f) Q K.
Proof. intros H s <-. unfold cds, wp. cbn in H. destruct (f (Cds s)) as [a c'] eqn:E. by apply H. Qed.

Lemma wpk_pool_get size (Q : Z * tptr → KS → Prop) K : 0 < size →
  (∀ st, - 2 ^ 30 <= st < 0 → Q (st, PNull) K) →
  (∀ st a, 0 < st → 0 < a → kP K !! a = None → Q (st, PPool a) (wP (<[a := st]> (kP K)) (wM (<[a := replicate (Z.to_nat size) 0]> (kM K)) K))) →
  wpk (pool_get size) Q K.
Proof.
  intros Hsize Hf Ho s <-. unfold pool_get, wp. destruct (CFE_ES_GetPoolBuf size (TblPool s)) as [[st a] p] eqn:E.
  pose proof (get_status _ _ _ _ _ E). destruct (Z.ltb_spec st 0).
  - specialize (Hf st). pose proof (get_fail _ _ _ _ _ E) as Hp. cbn in Hf |- *. unfold core_of in *. cbn. rewrite Hp by done. apply Hf. lia.
  - destruct (get_ok _ _ _ _ _ Hsize E) as (? & ? & ? & Hp); [lia|]. specialize (Ho st a). unfold core_of in *. cbn in *. rewrite Hp. apply Ho; [lia|done|done].
Qed.

Lemma wpk_pool_put p n (Q : Z → KS → Prop) K : kP K !! addr_of p = Some n → 0 < n →
  Q n (wP (delete (addr_of p) (kP K)) (wM (delete (addr_of p) (kM K)) K)) → wpk (pool_put p) Q K.
Proof.
  intros Hp Hn HQ s <-. unfold pool_put, wp. destruct (put_ok _ _ _ Hp) as (q & E & Hq). rewrite E. destruct (Z.ltb_spec n 0); [lia|].
  unfold core_of in *. cbn in *. by rewrite Hq.
Qed.

Lemma wpk_lock (Q : unit → KS → Prop) K : kReg K = false → Q tt (wReg true K) → wpk CFE_TBL_LockRegistry Q K.
Proof. intros E HQ. apply wpk_bind, wpk_gets. intros s Es. rewrite <- Es in E. cbn in E. rewrite E. apply wpk_modify. intros s' <-. exact HQ. Qed.
Lemma wpk_unlock (Q : unit → KS → Prop) K : Q tt (wReg false K) → wpk CFE_TBL_UnlockRegistry Q K.
Proof. intros HQ. apply wpk_modify. intros s <-. exact HQ. Qed.
Lemma wpk_take (Q : unit → KS → Prop) K : kWork K = false → Q tt (wWork true K) → wpk work_take Q K.
Proof. intros E HQ. apply wpk_bind, wpk_gets. intros s Es. rewrite <- Es in E. cbn in E. rewrite E. apply wpk_modify. intros s' <-. exact HQ. Qed.
Lemma wpk_give (Q : unit → KS → Prop) K : Q tt (wWork false K) → wpk work_give Q K.
Proof. intros HQ. apply wpk_modify. intros s <-. exact HQ. Qed.
End core.
