(* ===== verification/TblInv.v ===== *)
(** * Table services: the invariant

    What holds between calls: the access lists are well formed, the buffers of tables in
    use and the shared buffers are live blocks of their own, a load in progress has its
    buffer to itself, requests for validation and dumps agree with their blocks, owned
    tables have names of their own, and no application has the buffer locked that a load
    writes to.  [holds] is what an application relies on while it has an address. *)
From S2P Require Import Prelude Config Msg ResourceId Cstring EsApp TimeApi SbState TblConfig EsCrc FsFile TblState TblInternal TblLinks TblCore.
Import ListNotations.

Abbreviation NOT_OWNED := CFE_TBL_NOT_OWNED.
Definition inuse (rec : CFE_TBL_RegistryRec_t) : Prop := rr_HeadOfAccessList rec ≠ END.
Definition bptr (rec : CFE_TBL_RegistryRec_t) (i : Z) : tptr := match zget (rr_Buffers rec) i with Some b => lb_BufferPtr b | None => PNull end.
Definition is_pool (p : tptr) : Prop := match p with PPool _ => True | _ => False end.

(** ** One entry of the registry *)

Record rec_ok (rec : CFE_TBL_RegistryRec_t) : Prop := {
  ro_bufs : length (rr_Buffers rec) = 2%nat;
  ro_name : length (rr_Name rec) = CFE_TBL_MAX_FULL_NAME_LEN;
  ro_file : length (rr_LastFileLoaded rec) = OS_MAX_PATH_LEN;
  ro_active : rr_ActiveBufferIndex rec = 0 ∨ rr_ActiveBufferIndex rec = 1 ∧ rr_DoubleBuffered rec = true;
  ro_owner : rr_OwnerAppId rec ≠ NOT_OWNED → inuse rec;
  ro_size : inuse rec → 0 < rr_Size rec <= CFE_PLATFORM_TBL_MAX_SNGL_TABLE_SIZE;
  ro_user : rr_UserDefAddr rec = true → rr_DumpOnly rec = true;
  ro_dump : rr_DumpOnly rec = true → rr_DoubleBuffered rec = false;
  ro_dpend : rr_DumpOnly rec = true → rr_LoadPending rec = false;
  ro_crit : rr_CriticalTable rec = true → rr_UserDefAddr rec = false;
  ro_lip : rr_LoadInProgress rec = -1 ∨
           if rr_DoubleBuffered rec then rr_LoadInProgress rec = 1 - rr_ActiveBufferIndex rec
           else 0 <= rr_LoadInProgress rec < CFE_PLATFORM_TBL_MAX_SIMULTANEOUS_LOADS;
  ro_vi : rr_ValidateInactiveIndex rec = -1 ∨
          0 <= rr_ValidateInactiveIndex rec < CFE_PLATFORM_TBL_MAX_NUM_VALIDATIONS ∧ rr_ValidationFuncPtr rec ≠ NULL;
  ro_va : rr_ValidateActiveIndex rec = -1 ∨
          0 <= rr_ValidateActiveIndex rec < CFE_PLATFORM_TBL_MAX_NUM_VALIDATIONS ∧ rr_ValidationFuncPtr rec ≠ NULL ∧
          (inuse rec → bptr rec (rr_ActiveBufferIndex rec) ≠ PNull);
  ro_vlip : inuse rec → rr_DoubleBuffered rec = false → rr_ValidateInactiveIndex rec ≠ -1 →
            rr_LoadInProgress rec ≠ -1 ∧ rr_LoadPending rec = false ∧ rr_DumpOnly rec = false;
  ro_pool : inuse rec → rr_UserDefAddr rec = false → is_pool (bptr rec 0) ∧ (rr_DoubleBuffered rec = true → is_pool (bptr rec 1));
  ro_papp i a : bptr rec i = PApp a → rr_UserDefAddr rec = true;
  ro_ptrs : is_pool (bptr rec 0) → bptr rec 0 ≠ bptr rec 1;
}.

(** ** The core *)

Section inv.
Context {FS CS : Type}.
Abbreviation KS := (core FS CS).
Implicit Types (K : KS) (rec : CFE_TBL_RegistryRec_t).

Definition mem_ok K (p : tptr) (n : Z) : Prop :=
  ∃ bs, mem K p = Some bs ∧ n <= Z.of_nat (length bs) ∧ match p with PPool a => ∃ m, kP K !! a = Some m ∧ 0 < m | _ => True end.

Definition ptrs_ok K rec : Prop := ∀ i, bptr rec i ≠ PNull → mem_ok K (bptr rec i) (rr_Size rec) ∧
  ∀ j b, zget (kL K) j = Some b → lb_BufferPtr b ≠ bptr rec i.
Definition lip_ok K rec : Prop := rr_DoubleBuffered rec = false → rr_LoadInProgress rec ≠ -1 →
  ∃ b, zget (kL K) (rr_LoadInProgress rec) = Some b ∧ lb_Taken b = true.
Definition dump_ok K (r : Z) rec : Prop := inuse rec → rr_DumpControlIndex rec ≠ -1 →
  ∃ c, zget (kD K) (rr_DumpControlIndex rec) = Some c ∧ dc_State c = CFE_TBL_DUMP_PENDING ∧ dc_RegRecPtr c = r.

Definition ent K (r : Z) rec : Prop := rec_ok rec ∧ ptrs_ok K rec ∧ lip_ok K rec ∧ dump_ok K r rec.

(** Two entries of the registry. *)
Definition apart rec1 rec2 : Prop :=
  (rr_DoubleBuffered rec1 = false → rr_DoubleBuffered rec2 = false → rr_LoadInProgress rec1 ≠ -1 → rr_LoadInProgress rec1 ≠ rr_LoadInProgress rec2) ∧
  (∀ i k, is_pool (bptr rec1 i) → bptr rec1 i ≠ bptr rec2 k) ∧
  (rr_OwnerAppId rec1 ≠ NOT_OWNED → rr_OwnerAppId rec2 ≠ NOT_OWNED → cstr (rr_Name rec1) ≠ cstr (rr_Name rec2)).

(** A descriptor that has an address of a table. *)
Definition lock_ok (d : CFE_TBL_AccessDescriptor_t) rec : Prop :=
  (ac_BufferIndex d = 0 ∨ ac_BufferIndex d = 1 ∧ rr_DoubleBuffered rec = true) ∧
  (rr_DoubleBuffered rec = true → ac_BufferIndex d ≠ rr_LoadInProgress rec).

(** A dump in progress. *)
Definition blk_ok (i : Z) (c : CFE_TBL_DumpControl_t) rec : Prop :=
  inuse rec ∧ rr_DumpOnly rec = true ∧ rr_LoadInProgress rec ≠ -1 ∧ dc_DumpBufferPtr c = SharedBuf (rr_LoadInProgress rec) ∧
  dc_Size c = rr_Size rec ∧ bptr rec 0 ≠ PNull ∧
  rr_DumpControlIndex rec = if decide (dc_State c = CFE_TBL_DUMP_PENDING) then i else -1.

Definition shared_ok K (b : CFE_TBL_LoadBuff_t) : Prop := is_pool (lb_BufferPtr b) ∧ mem_ok K (lb_BufferPtr b) CFE_PLATFORM_TBL_MAX_SNGL_TABLE_SIZE.

Record inv (al : Z → list Z) K : Prop := {
  i_nH : length (kH K) = Z.to_nat CFE_PLATFORM_TBL_MAX_NUM_HANDLES;
  i_nR : length (kR K) = Z.to_nat CFE_PLATFORM_TBL_MAX_NUM_TABLES;
  i_nL : length (kL K) = Z.to_nat CFE_PLATFORM_TBL_MAX_SIMULTANEOUS_LOADS;
  i_nV : length (kV K) = Z.to_nat CFE_PLATFORM_TBL_MAX_NUM_VALIDATIONS;
  i_nD : length (kD K) = Z.to_nat CFE_PLATFORM_TBL_MAX_SIMULTANEOUS_LOADS;
  i_nC : length (kC K) = Z.to_nat CFE_PLATFORM_TBL_MAX_CRITICAL_TABLES;
  i_val v i : zget (kV K) i = Some v → length (vr_TableName v) = CFE_TBL_MAX_FULL_NAME_LEN;
  i_links : links_ok al (link_of <$> kH K) (rr_HeadOfAccessList <$> kR K);
  i_ent r rec : zget (kR K) r = Some rec → ent K r rec;
  i_apart r1 r2 rec1 rec2 : r1 ≠ r2 → zget (kR K) r1 = Some rec1 → zget (kR K) r2 = Some rec2 → apart rec1 rec2;
  i_own r rec : zget (kR K) r = Some rec → rr_OwnerAppId rec ≠ NOT_OWNED →
    ∃ h d, h ∈ al r ∧ zget (kH K) h = Some d ∧ ac_AppId d = rr_OwnerAppId rec;
  i_lock h d rec : zget (kH K) h = Some d → ac_UsedFlag d = true → ac_LockFlag d = true → zget (kR K) (ac_RegIndex d) = Some rec → lock_ok d rec;
  i_sh j b : zget (kL K) j = Some b → shared_ok K b;
  i_shne j1 j2 b1 b2 : j1 ≠ j2 → zget (kL K) j1 = Some b1 → zget (kL K) j2 = Some b2 → lb_BufferPtr b1 ≠ lb_BufferPtr b2;
  i_blk i c : zget (kD K) i = Some c → dc_State c ≠ CFE_TBL_DUMP_FREE → ∃ rec, zget (kR K) (dc_RegRecPtr c) = Some rec ∧ blk_ok i c rec;
  i_blne i1 i2 c1 c2 : i1 ≠ i2 → zget (kD K) i1 = Some c1 → zget (kD K) i2 = Some c2 →
    dc_State c1 ≠ CFE_TBL_DUMP_FREE → dc_State c2 ≠ CFE_TBL_DUMP_FREE → dc_RegRecPtr c1 ≠ dc_RegRecPtr c2;
  i_hk : kHk K = -1 ∨ 0 <= kHk K < CFE_PLATFORM_TBL_MAX_NUM_TABLES;
}.

(** An application has the address [p] of table [r] through handle [h], with contents
    [bs]; the table has been loaded. *)
Definition holds K (h app r : Z) (p : tptr) (bs : list Z) : Prop :=
  ∃ d rec, zget (kH K) h = Some d ∧ ac_UsedFlag d = true ∧ ac_LockFlag d = true ∧ ac_AppId d = app ∧ ac_RegIndex d = r ∧
    zget (kR K) r = Some rec ∧ rr_TableLoadedOnce rec = true ∧ bptr rec (ac_BufferIndex d) = p ∧ mem K p = Some bs.

Definition keeps (X : Z → Prop) K K' : Prop := ∀ h app r p bs, ¬ X h → holds K h app r p bs → holds K' h app r p bs.

(** Nobody relies on the contents at [p]. *)
Definition unheld K (p : tptr) : Prop := ∀ h app r bs, ¬ holds K h app r p bs.

Lemma keeps_refl X K : keeps X K K.
Proof. by intros ???????. Qed.
Lemma keeps_trans X K1 K2 K3 : keeps X K1 K2 → keeps X K2 K3 → keeps X K1 K3.
Proof. intros H1 H2 h app r p bs Hx H. auto. Qed.
Lemma keeps_mono (X Y : Z → Prop) K K' : (∀ h, X h → Y h) → keeps X K K' → keeps Y K K'.
Proof. intros H1 H2 h app r p bs Hx. apply H2. auto. Qed.

(** ** What an invariant depends on *)

Lemma inv_wF al K f : inv al K → inv al (wF f K).
Proof. by intros []. Qed.
Lemma inv_wS al K c : inv al K → inv al (wS c K).
Proof. by intros []. Qed.
Lemma inv_wReg al K b : inv al K → inv al (wReg b K).
Proof. by intros []. Qed.
Lemma inv_wWork al K b : inv al K → inv al (wWork b K).
Proof. by intros []. Qed.
Lemma inv_wC al K l : length l = length (kC K) → inv al K → inv al (wC l K).
Proof. intros Hl []. constructor; try assumption. by cbn; rewrite Hl. Qed.
Lemma inv_wHk al K z : z = -1 ∨ 0 <= z < CFE_PLATFORM_TBL_MAX_NUM_TABLES → inv al K → inv al (wHk z K).
Proof. by intros Hz []. Qed.
Lemma inv_val al K i v v' : inv al K → zget (kV K) i = Some v → length (vr_TableName v') = CFE_TBL_MAX_FULL_NAME_LEN → inv al (wV (zset i v' (kV K)) K).
Proof.
  intros [] Hv Hl. constructor; cbn; try assumption; [by rewrite zset_length|].
  intros w k. rewrite (zset_get _ _ _ _ _ Hv). destruct (decide (k = i)); [by intros [= <-]|by eauto].
Qed.

Lemma apart_sym rec1 rec2 : apart rec1 rec2 → apart rec2 rec1.
Proof.
  intros (H1 & H2 & H3). split_and!.
  - intros D1 D2 L1 E. rewrite E in L1. by apply H1.
  - intros i k Hp E. rewrite E in Hp. by apply (H2 k i Hp).
  - intros O1 O2 E. by apply H3.
Qed.

(** A change of one entry of the registry. *)
Lemma inv_reg_own al K r rec rec' : inv al K → zget (kR K) r = Some rec → rr_HeadOfAccessList rec' = rr_HeadOfAccessList rec → ent K r rec' →
  (∀ r2 rec2, r2 ≠ r → zget (kR K) r2 = Some rec2 → apart rec' rec2) →
  (rr_OwnerAppId rec' ≠ NOT_OWNED → ∃ h d, h ∈ al r ∧ zget (kH K) h = Some d ∧ ac_AppId d = rr_OwnerAppId rec') →
  (∀ h d, zget (kH K) h = Some d → ac_UsedFlag d = true → ac_LockFlag d = true → ac_RegIndex d = r → lock_ok d rec') →
  (∀ i c, zget (kD K) i = Some c → dc_State c ≠ CFE_TBL_DUMP_FREE → dc_RegRecPtr c = r → blk_ok i c rec') →
  inv al (wR (zset r rec' (kR K)) K).
Proof.
  intros I Hr Hh He Ha Ho Hl Hb. pose proof (λ k, zset_get (kR K) r k rec' rec Hr) as Hz. destruct I. constructor; cbn; try assumption.
  - by rewrite zset_length.
  - by rewrite (zset_fmap_same _ _ _ _ _ Hr).
  - intros k rec2. rewrite Hz. destruct (decide (k = r)) as [->|]; [by intros [= <-]|]. apply i_ent0.
  - intros r1 r2 rec1 rec2 Hne. rewrite !Hz. destruct (decide (r1 = r)) as [->|], (decide (r2 = r)) as [->|]; [done|..].
    + intros [= <-] H2. by eapply Ha.
    + intros H1 [= <-]. apply apart_sym. by eapply Ha.
    + by eapply i_apart0.
  - intros k rec2. rewrite Hz. destruct (decide (k = r)) as [->|]; [by intros [= <-]|by apply i_own0].
  - intros h d rec2 Hd Hu Hk. rewrite Hz. destruct (decide (ac_RegIndex d = r)); [intros [= <-]; by eapply Hl|by eauto].
  - intros i c Hc Hs. destruct (i_blk0 i c Hc Hs) as (rec2 & H2 & Hk). rewrite Hz. destruct (decide (dc_RegRecPtr c = r)); [|by eauto].
    exists rec'. split; [done|]. by eapply Hb.
Qed.
Lemma inv_reg al K r rec rec' : inv al K → zget (kR K) r = Some rec → rr_HeadOfAccessList rec' = rr_HeadOfAccessList rec → ent K r rec' →
  (∀ r2 rec2, r2 ≠ r → zget (kR K) r2 = Some rec2 → apart rec' rec2) →
  (rr_OwnerAppId rec' = rr_OwnerAppId rec ∨ rr_OwnerAppId rec' = NOT_OWNED) →
  (∀ h d, zget (kH K) h = Some d → ac_UsedFlag d = true → ac_LockFlag d = true → ac_RegIndex d = r → lock_ok d rec') →
  (∀ i c, zget (kD K) i = Some c → dc_State c ≠ CFE_TBL_DUMP_FREE → dc_RegRecPtr c = r → blk_ok i c rec') →
  inv al (wR (zset r rec' (kR K)) K).
Proof.
  intros I Hr Hh He Ha Ho. eapply inv_reg_own; [done..|]. destruct Ho as [Ho|Ho]; rewrite Ho; [by apply (i_own _ _ I)|done].
Qed.

(** The fields of an entry the invariant depends on. *)
Definition rview rec :=
  (rr_OwnerAppId rec, rr_Size rec, rr_HeadOfAccessList rec, rr_LoadInProgress rec, rr_ValidateActiveIndex rec, rr_ValidateInactiveIndex rec,
   (rr_DumpControlIndex rec, rr_ValidationFuncPtr rec, rr_LoadPending rec, rr_DumpOnly rec, rr_DoubleBuffered rec, rr_UserDefAddr rec),
   (rr_ActiveBufferIndex rec, rr_Name rec, length (rr_Buffers rec), length (rr_LastFileLoaded rec), bptr rec 0, bptr rec 1, rr_CriticalTable rec)).

Lemma bptr_out rec i : length (rr_Buffers rec) = 2%nat → i ≠ 0 → i ≠ 1 → bptr rec i = PNull.
Proof.
  intros Hl H0 H1. unfold bptr. destruct (zget _ i) as [b|] eqn:E; [|done]. apply zget_lt in E. rewrite Hl in E. lia.
Qed.

Lemma rview_bptr rec rec' i : rview rec' = rview rec → length (rr_Buffers rec) = 2%nat → bptr rec' i = bptr rec i.
Proof.
  intros E Hl. injection E as E1 E2 E3 E4 E5 E6 E7 E8 E9 E10 E11 E12 E13 E14 E15 E16 E17 E18 E19. destruct (decide (i = 0)) as [->|]; [done|]. destruct (decide (i = 1)) as [->|]; [done|].
  rewrite !bptr_out by congruence. done.
Qed.

Lemma rview_rec_ok rec rec' : rview rec' = rview rec → rec_ok rec → rec_ok rec'.
Proof.
  intros E R. pose proof (rview_bptr rec rec' (rr_ActiveBufferIndex rec) E (ro_bufs _ R)) as Ea. pose proof (λ i, rview_bptr rec rec' i E (ro_bufs _ R)) as Eb.
  injection E as E1 E2 E3 E4 E5 E6 E7 E8 E9 E10 E11 E12 E13 E14 E15 E16 E17 E18 E19. destruct R.
  constructor; unfold inuse in *; rewrite ?E1, ?E2, ?E3, ?E4, ?E5, ?E6, ?E7, ?E8, ?E9, ?E10, ?E11, ?E12, ?E13, ?E14, ?E15, ?E16, ?E17, ?E18, ?E19, ?Ea; try assumption.
  intros i a. rewrite Eb. apply ro_papp0.
Qed.

Lemma rview_ent K r rec rec' : rview rec' = rview rec → ent K r rec → ent K r rec'.
Proof.
  intros E (R & P & L & D). pose proof (λ i, rview_bptr rec rec' i E (ro_bufs _ R)) as Eb. split_and!; [by eapply rview_rec_ok|..].
  - intros i. rewrite Eb. injection E as _ ->. intros. by apply P.
  - injection E as E1 E2 E3 E4 E5 E6 E7 E8 E9 E10 E11 E12 E13 E14 E15 E16 E17 E18 E19. unfold lip_ok. by rewrite E4, E11.
  - injection E as E1 E2 E3 E4 E5 E6 E7 E8 E9 E10 E11 E12 E13 E14 E15 E16 E17 E18 E19. unfold dump_ok, inuse. by rewrite E3, E7.
Qed.

Lemma rview_apart rec rec' rec2 : rview rec' = rview rec → length (rr_Buffers rec) = 2%nat → apart rec rec2 → apart rec' rec2.
Proof.
  intros E Hl (A1 & A2 & A3). pose proof (λ i, rview_bptr rec rec' i E Hl) as Eb.
  injection E as E1 E2 E3 E4 E5 E6 E7 E8 E9 E10 E11 E12 E13 E14 E15 E16 E17 E18 E19. unfold apart. rewrite E1, E4, E11, E14. split_and!; [done| |done].
  intros i k. rewrite Eb. apply A2.
Qed.

Lemma rview_lock d rec rec' : rview rec' = rview rec → lock_ok d rec → lock_ok d rec'.
Proof. intros E. injection E as E1 E2 E3 E4 E5 E6 E7 E8 E9 E10 E11 E12 E13 E14 E15 E16 E17 E18 E19. unfold lock_ok. by rewrite E4, E11. Qed.

Lemma rview_blk i c rec rec' : rview rec' = rview rec → blk_ok i c rec → blk_ok i c rec'.
Proof. intros E. injection E as E1 E2 E3 E4 E5 E6 E7 E8 E9 E10 E11 E12 E13 E14 E15 E16 E17 E18 E19. unfold blk_ok, inuse. by rewrite E2, E3, E4, E7, E10, E17. Qed.

Lemma inv_blk_at al K i c r rec : inv al K → zget (kD K) i = Some c → dc_State c ≠ CFE_TBL_DUMP_FREE → dc_RegRecPtr c = r → zget (kR K) r = Some rec → blk_ok i c rec.
Proof. intros I Hc Hs <- Hr. destruct (i_blk _ _ I _ _ Hc Hs) as (rec2 & H2 & ?). by simplify_eq. Qed.

Lemma inv_view al K r rec rec' : inv al K → zget (kR K) r = Some rec → rview rec' = rview rec → inv al (wR (zset r rec' (kR K)) K).
Proof.
  intros I Hr E. pose proof (i_ent _ _ I _ _ Hr) as He. pose proof (ro_bufs _ (proj1 He)) as Hl. eapply inv_reg; [done|done|..].
  - by injection E.
  - by eapply rview_ent.
  - intros r2 rec2 Hne H2. eapply rview_apart; [done..|]. by eapply (i_apart _ _ I r r2).
  - left. by injection E.
  - intros h d Hd Hu Hk Hi. eapply rview_lock; [done|]. eapply (i_lock _ _ I); try done. by rewrite Hi.
  - intros i c Hc Hs Hi. eapply rview_blk; [done|]. by eapply inv_blk_at.
Qed.

(** A change of a descriptor that keeps its links. *)
Lemma inv_hdl al K h d d' : inv al K → zget (kH K) h = Some d → link_of d' = link_of d → ac_AppId d' = ac_AppId d →
  (ac_UsedFlag d' = true → ac_LockFlag d' = true → ∀ rec, zget (kR K) (ac_RegIndex d') = Some rec → lock_ok d' rec) →
  inv al (wH (zset h d' (kH K)) K).
Proof.
  intros I Hh El Ea Hl. pose proof (λ k, zset_get (kH K) h k d' d Hh) as Hz. destruct I. constructor; cbn; try assumption.
  - by rewrite zset_length.
  - by rewrite (zset_fmap_same _ _ _ _ _ Hh).
  - intros r rec Hr Ho. destruct (i_own0 _ _ Hr Ho) as (k & e & Hin & Hk & Hap). rewrite <- Hap.
    exists k, (if decide (k = h) then d' else e). split; [done|]. rewrite Hz. destruct (decide (k = h)) as [->|]; [|done].
    rewrite Hh in Hk. injection Hk as <-. done.
  - intros k e rec. rewrite Hz. destruct (decide (k = h)) as [->|]; [|apply i_lock0]. intros [= <-] Hu Hk. by apply Hl.
Qed.

(** A change of a shared buffer that keeps its address. *)
Lemma inv_lb al K j b b' : inv al K → zget (kL K) j = Some b → lb_BufferPtr b' = lb_BufferPtr b →
  (lb_Taken b = true → lb_Taken b' = true ∨ ∀ r rec, zget (kR K) r = Some rec → rr_DoubleBuffered rec = false → rr_LoadInProgress rec ≠ j) →
  inv al (wL (zset j b' (kL K)) K).
Proof.
  intros I Hj Ep Ht. pose proof (λ k, zset_get (kL K) j k b' b Hj) as Hz. destruct I. constructor; cbn; try assumption.
  - by rewrite zset_length.
  - intros r rec Hr. destruct (i_ent0 _ _ Hr) as (R & P & L & D). split_and!; [done| | |done].
    + intros i Hi. destruct (P i Hi) as [Hm Hp]. split; [done|]. intros k e. cbn. rewrite Hz. destruct (decide (k = j)); [|by apply Hp].
      intros [= <-]. rewrite Ep. by eapply Hp.
    + intros Hd Hn. destruct (L Hd Hn) as (e & He & Hk). cbn. rewrite Hz. destruct (decide (rr_LoadInProgress rec = j)) as [E|]; [|by eauto].
      exists b'. split; [done|]. rewrite E, Hj in He. injection He as <-. destruct (Ht Hk) as [|Hx]; [done|]. by apply Hx in Hr.
  - intros k e. rewrite Hz. destruct (decide (k = j)); [intros [= <-]|by apply i_sh0]. unfold shared_ok. rewrite Ep. by eapply i_sh0.
  - intros j1 j2 b1 b2 Hne. rewrite !Hz. destruct (decide (j1 = j)) as [->|], (decide (j2 = j)) as [->|]; [done|..|by apply i_shne0].
    + intros [= <-] H2. rewrite Ep. by eapply (i_shne0 j j2).
    + intros H1 [= <-]. rewrite Ep. by eapply (i_shne0 j1 j).
Qed.

(** A write to memory that keeps the length of the block. *)
Lemma mem_set K p q new : p ≠ PNull → mem (set_mem p new K) q = if decide (q = p) then Some new else mem K q.
Proof.
  intros Hp. destruct p as [|a|a]; [done|..]; destruct q as [|c|c]; cbn;
    (destruct (decide _) as [E|E]; [try discriminate E; injection E as ->; by rewrite lookup_insert_eq|try done]);
    apply lookup_insert_ne; congruence.
Qed.
Lemma mem_set_ok K p new old q n : mem K p = Some old → length new = length old → mem_ok K q n → mem_ok (set_mem p new K) q n.
Proof.
  intros Hp Hl (bs & Hm & Hn & Hv). assert (p ≠ PNull) by (by intros ->). exists (if decide (q = p) then new else bs). split_and!.
  - rewrite mem_set by done. by destruct (decide (q = p)).
  - destruct (decide (q = p)) as [->|]; [|done]. rewrite Hp in Hm. injection Hm as ->. by rewrite Hl.
  - destruct p; [done|..]; destruct q; exact Hv.
Qed.
Lemma inv_mem al K p new old : mem K p = Some old → length new = length old → inv al K → inv al (set_mem p new K).
Proof.
  intros Hp Hl I. pose proof (λ q n, mem_set_ok K p new old q n Hp Hl) as Hm. assert (Hne : p ≠ PNull) by (by intros ->).
  assert (He : ∀ r rec, zget (kR K) r = Some rec → ent (set_mem p new K) r rec).
  { intros r rec Hr. destruct (i_ent _ _ I _ _ Hr) as (R & P & L & D). split_and!; [done| |by destruct p..].
    intros i Hi. destruct (P i Hi) as [H1 H2]. split; [by apply Hm|]. by destruct p. }
  assert (Hs : ∀ j b, zget (kL K) j = Some b → shared_ok (set_mem p new K) b).
  { intros j b Hb. destruct (i_sh _ _ I _ _ Hb) as [H1 H2]. split; [done|]. by apply Hm. }
  destruct I. destruct p; [done|..]; constructor; try assumption.
Qed.

(** ** Contents that are kept *)

Implicit Types (X : Z → Prop).

Lemma keeps_reg X K r rec rec' : zget (kR K) r = Some rec → (∀ i, bptr rec i ≠ PNull → bptr rec' i = bptr rec i) →
  (rr_TableLoadedOnce rec = true → rr_TableLoadedOnce rec' = true) → keeps X K (wR (zset r rec' (kR K)) K).
Proof.
  intros Hr Hb Ht h app k p bs _ (d & e & Hd & Hu & Hl & Ha & Hi & He & Ho & Hp & Hm). exists d, (if decide (k = r) then rec' else e).
  split_and!; try done; cbn; rewrite ?(zset_get _ _ _ _ _ Hr); destruct (decide (k = r)) as [->|]; try done; rewrite Hr in He; injection He as ->; [by apply Ht|].
  rewrite Hb; [done|]. intros E. rewrite E in Hp. by rewrite <- Hp in Hm.
Qed.
Lemma keeps_view X K r rec rec' : zget (kR K) r = Some rec → length (rr_Buffers rec) = 2%nat → rview rec' = rview rec →
  (rr_TableLoadedOnce rec = true → rr_TableLoadedOnce rec' = true) → keeps X K (wR (zset r rec' (kR K)) K).
Proof. intros Hr Hl E. apply keeps_reg; [done|]. intros i _. by apply rview_bptr. Qed.

Lemma keeps_hdl X K h d d' : zget (kH K) h = Some d →
  X h ∨ (ac_UsedFlag d = true → ac_LockFlag d = true → ac_UsedFlag d' = true ∧ ac_LockFlag d' = true ∧ ac_AppId d' = ac_AppId d ∧
         ac_RegIndex d' = ac_RegIndex d ∧ ac_BufferIndex d' = ac_BufferIndex d) →
  keeps X K (wH (zset h d' (kH K)) K).
Proof.
  intros Hh Hx k app r p bs Hk (e & rec & He & Hu & Hl & Ha & Hi & Hr & Ho & Hp & Hm). destruct (decide (k = h)) as [->|Hne].
  - destruct Hx as [|Hx]; [done|]. rewrite Hh in He. injection He as ->. destruct (Hx Hu Hl) as (H1 & H2 & H3 & H4 & H5).
    exists d', rec. cbn. rewrite (zset_eq _ _ _ _ Hh), H3, H4, H5. done.
  - exists e, rec. cbn. rewrite zset_ne by (apply zget_lt in Hh; lia || done). done.
Qed.

Lemma keeps_mem X K p new : p ≠ PNull → unheld K p → keeps X K (set_mem p new K).
Proof.
  intros Hp Hn h app r q bs _ Hh. assert (q ≠ p) by (intros ->; by eapply Hn). destruct Hh as (d & rec & Hd & Hu & Hl & Ha & Hi & Hr & Ho & Hq & Hm).
  exists d, rec. split_and!; try by destruct p. rewrite mem_set by done. by rewrite decide_False.
Qed.

(** ** Working buffers *)

Lemma zget_buf rec i : length (rr_Buffers rec) = 2%nat → i = 0 ∨ i = 1 → ∃ b, zget (rr_Buffers rec) i = Some b ∧ bptr rec i = lb_BufferPtr b.
Proof.
  intros Hl Hi. destruct (zget_is_Some (rr_Buffers rec) i) as [b Hb]; [rewrite Hl; lia|]. exists b. unfold bptr. by rewrite Hb.
Qed.

(** A buffer new contents are prepared in. *)
Definition workbuf (r : Z) rec (w : BufRef) : Prop :=
  rr_LoadInProgress rec ≠ -1 ∧ w = (if rr_DoubleBuffered rec then RegBuf r (rr_LoadInProgress rec) else SharedBuf (rr_LoadInProgress rec)) ∨
  rr_LoadInProgress rec = -1 ∧ rr_TableLoadedOnce rec = false ∧ w = RegBuf r (rr_ActiveBufferIndex rec).

Lemma unheld_shared al K j b : inv al K → zget (kL K) j = Some b → unheld K (lb_BufferPtr b).
Proof.
  intros I Hj h app r bs (d & rec & Hd & Hu & Hl & Ha & Hi & Hr & Ho & Hp & Hm). destruct (i_ent _ _ I _ _ Hr) as (_ & P & _).
  destruct (P (ac_BufferIndex d)) as [_ H2]; [intros E; rewrite E in Hp; by rewrite <- Hp in Hm|]. by apply (H2 j b).
Qed.
Lemma unheld_reg al K r rec i : inv al K → zget (kR K) r = Some rec → is_pool (bptr rec i) → i = 0 ∨ i = 1 →
  (∀ h d, zget (kH K) h = Some d → ac_UsedFlag d = true → ac_LockFlag d = true → ac_RegIndex d = r → rr_TableLoadedOnce rec = true → ac_BufferIndex d ≠ i) →
  unheld K (bptr rec i).
Proof.
  intros I Hr Hb Hi01 Hn h app r' bs (d & rec' & Hd & Hu & Hl & Ha & Hi & Hr' & Ho & Hp & Hm). destruct (decide (r' = r)) as [->|Hne].
  - rewrite Hr in Hr'. injection Hr' as <-. specialize (Hn _ _ Hd Hu Hl Hi Ho). pose proof (i_lock _ _ I h d rec Hd Hu Hl) as Hk. rewrite Hi in Hk.
    specialize (Hk Hr). destruct Hk as [Hk _]. pose proof (ro_ptrs _ (proj1 (i_ent _ _ I _ _ Hr))) as Hx.
    assert (ac_BufferIndex d = 0 ∧ i = 1 ∨ ac_BufferIndex d = 1 ∧ i = 0) as [[Eb ->]|[Eb ->]] by lia; rewrite Eb in Hp; apply Hx; by rewrite ?Hp.
  - destruct (i_apart _ _ I r r' rec rec') as (_ & A & _); [done..|]. by apply (A i (ac_BufferIndex d)).
Qed.

Lemma workbuf_ok al K r rec w : inv al K → zget (kR K) r = Some rec → inuse rec → (rr_LoadInProgress rec = -1 → rr_UserDefAddr rec = false) → workbuf r rec w →
  ∃ b, lb K w = Some b ∧ is_pool (lb_BufferPtr b) ∧ mem_ok K (lb_BufferPtr b) (rr_Size rec) ∧ unheld K (lb_BufferPtr b).
Proof.
  intros I Hr Hu Hud Hw. destruct (i_ent _ _ I _ _ Hr) as (R & P & L & D). pose proof (ro_active _ R) as Ha. pose proof (ro_lip _ R) as Hl.
  assert (Hud' : rr_DoubleBuffered rec = true → rr_UserDefAddr rec = false).
  { intros Hd. destruct (rr_UserDefAddr rec) eqn:E; [|done]. apply (ro_user _ R), (ro_dump _ R) in E. congruence. }
  assert (Hreg : ∀ i, i = 0 ∨ i = 1 → is_pool (bptr rec i) → unheld K (bptr rec i) →
    ∃ b, lb K (RegBuf r i) = Some b ∧ is_pool (lb_BufferPtr b) ∧ mem_ok K (lb_BufferPtr b) (rr_Size rec) ∧ unheld K (lb_BufferPtr b)).
  { intros i Hi Hp Hn. destruct (zget_buf rec i (ro_bufs _ R) Hi) as (b & Hb & Eb). exists b. cbn. rewrite Hr. cbn. rewrite <- Eb. split_and!; try done.
    apply P. by intros E; rewrite E in Hp. }
  destruct Hw as [[Hn ->]|(Hn & Ho & ->)].
  - destruct (rr_DoubleBuffered rec) eqn:Hd.
    + destruct Hl as [|Hl]; [done|]. destruct (ro_pool _ R Hu (Hud' eq_refl)) as [P0 P1]. specialize (P1 Hd).
      assert (Hp : is_pool (bptr rec (rr_LoadInProgress rec))) by (rewrite Hl; destruct Ha as [->|[-> _]]; done).
      apply Hreg; [lia|done|]. eapply unheld_reg; [done..|lia|]. intros h d Hh1 Hh2 Hh3 Hh4 _.
      destruct (i_lock _ _ I h d rec) as [_ Hk]; [done..|by rewrite Hh4|]. by apply Hk.
    + destruct (L Hd Hn) as (b & Hb & _). exists b. destruct (i_sh _ _ I _ _ Hb) as [Hp (bs & Hm & Hs & Hv)]. split_and!; [done|done| |by eapply unheld_shared].
      exists bs. split_and!; [done| |done]. pose proof (ro_size _ R Hu). lia.
  - destruct (ro_pool _ R Hu (Hud Hn)) as [P0 P1].
    assert (Hp : is_pool (bptr rec (rr_ActiveBufferIndex rec))) by (destruct Ha as [->|[-> Hd]]; [done|by apply P1]).
    apply Hreg; [lia|done|]. eapply unheld_reg; [done..|lia|]. congruence.
Qed.
End inv.
