(* ===== verification/TblOps.v ===== *)
(** * Table services: the internal functions keep the invariant *)
From S2P Require Import Prelude Config Msg ResourceId Cstring EsApp TimeApi SbState TblConfig EsCrc FsFile TblState TblInternal TblLinks TblCore TblInv.
Import ListNotations.

Ltac kstep :=
  lazymatch goal with
  | |- wpk (_ ≫= _) _ _ => apply wpk_bind
  | |- wpk (mret _) _ _ => apply wpk_ret
  | |- wpk (event _ _) _ _ => apply wpk_event
  | |- wpk (hkp _) _ _ => apply wpk_hkp
  end; cbn beta match.
Ltac kgo := zred; repeat (kstep; zred).

Ltac walk_step := 
  cbn [seg] in *; match goal with H : _ ∧ ∃ n', _ |- _ => let n' := fresh "n" in let Hz := fresh "Hz" in let Hs := fresh "Hs" in
    destruct H as (-> & n' & Hz & Hs); pose proof (zget_lt _ _ _ Hz) as [? _]; rewrite zget_fmap in Hz; apply fmap_Some in Hz as (d & Hd & Hlk); injection Hlk as Hu Hri Hp Hn end.

Section ops.
Context {PS FS CS : Type} `{Pool : MemPool PS} `{Files : OSFile FS} `{Store : CDSStore CS} `{Cfg : TblCfg}.
Context `{PoolOK : !MemPoolOK PS} `{FilesOK : !OSFileOK FS} `{PoolSt : !TblPoolOK PS} `{StoreOK : !CDSStoreOK CS}.
Abbreviation TG := (CFE_TBL_Global_t PS FS CS).
Abbreviation KS := (core FS CS).
Implicit Types (K : KS) (s : TG) (X : Z → Prop).

(** What every step keeps. *)
Definition kept K0 K : Prop := kTask K = kTask K0 ∧ kReg K = kReg K0 ∧ kWork K = kWork K0.
Definition good (al : Z → list Z) X (K0 K : KS) : Prop := inv al K ∧ keeps X K0 K ∧ kept K0 K.

Lemma kept_refl K : kept K K.
Proof. done. Qed.
Lemma kept_trans K1 K2 K3 : kept K1 K2 → kept K2 K3 → kept K1 K3.
Proof. unfold kept. intros (? & ? & ?) (? & ? & ?). split_and!; congruence. Qed.
Lemma good_refl al X K : inv al K → good al X K K.
Proof. intros. split_and!; [done|apply keeps_refl|done..]. Qed.
Lemma good_step al al' X K0 K K' : good al X K0 K → good al' X K K' → good al' X K0 K'.
Proof. intros (_ & Hk & Ht) (I & Hk' & Ht'). split_and!; [done|by eapply keeps_trans|by eapply kept_trans]. Qed.

(** ** Handles *)

Lemma used_reg al K h d : inv al K → zget (kH K) h = Some d → ac_UsedFlag d = true →
  ∃ rec, zget (kR K) (ac_RegIndex d) = Some rec ∧ inuse rec ∧ h ∈ al (ac_RegIndex d).
Proof.
  intros I Hh Hu. destruct (lo_used _ _ _ (i_links _ _ I) h (link_of d)) as [[c Hc] Hin]; [by rewrite zget_fmap, Hh|done|].
  rewrite zget_fmap in Hc. apply fmap_Some in Hc as (rec & Hr & ->). exists rec. split_and!; [done| |done].
  intros E. cbn in Hin. assert (al (ac_RegIndex d) = []) as El; [|by rewrite El in Hin; apply elem_of_nil in Hin].
  eapply (lo_end _ _ _ (i_links _ _ I) (ac_RegIndex d)); [|exact E]. cbn in Hr. by rewrite zget_fmap, Hr.
Qed.

Lemma list_hdl al K r rec h : inv al K → zget (kR K) r = Some rec → h ∈ al r →
  ∃ d, zget (kH K) h = Some d ∧ ac_UsedFlag d = true ∧ ac_RegIndex d = r.
Proof.
  intros I Hr Hin. destruct (lo_in _ _ _ (i_links _ _ I) r (rr_HeadOfAccessList rec) h) as (p & n & E); [by rewrite zget_fmap, Hr|done|].
  rewrite zget_fmap in E. apply fmap_Some in E as (d & Hd & El). injection El as E1 E2 _ _. exists d. split_and!; congruence.
Qed.

(** The status of CFE_ES_GetAppID is success or an error. *)
Definition app_ok (App : Z * Z) : Prop := App.1 = CFE_SUCCESS ∨ App.1 < 0.

(** A handle the caller may use. *)
Definition access (al : Z → list Z) K (App : Z * Z) h d rec : Prop :=
  App.1 = CFE_SUCCESS ∧ zget (kH K) h = Some d ∧ ac_UsedFlag d = true ∧ (App.2 = ac_AppId d ∨ App.2 = kTask K) ∧
  zget (kR K) (ac_RegIndex d) = Some rec ∧ inuse rec ∧ h ∈ al (ac_RegIndex d).

(** What a caller needs to use a handle: an identifier, a handle in use, and to be its owner
    or the table task. *)
Definition may_use K (App : Z * Z) h d rec : Prop :=
  App.1 = CFE_SUCCESS ∧ zget (kH K) h = Some d ∧ ac_UsedFlag d = true ∧ (App.2 = ac_AppId d ∨ App.2 = kTask K) ∧ zget (kR K) (ac_RegIndex d) = Some rec.

Lemma may_use_access al K App h d rec : inv al K → may_use K App h d rec ↔ access al K App h d rec.
Proof.
  intros I. unfold may_use, access. split; [|tauto]. intros (H1 & H2 & H3 & H4 & H5). destruct (used_reg _ _ _ _ I H2 H3) as (rec' & Hr & Hi & Hin). rewrite H5 in Hr. injection Hr as <-. tauto.
Qed.

Lemma wpk_ValidateHandle al h (Q : Z → KS → Prop) K : inv al K → 0 <= h →
  (∀ st, st < 0 → (∀ d, zget (kH K) h = Some d → ac_UsedFlag d = false) → Q st K) → (∀ d, zget (kH K) h = Some d → ac_UsedFlag d = true → Q CFE_SUCCESS K) → wpk (CFE_TBL_ValidateHandle h) Q K.
Proof.
  intros I Hh Hf Ho. unfold CFE_TBL_ValidateHandle. destruct (Z.leb_spec CFE_PLATFORM_TBL_MAX_NUM_HANDLES h) as [Hge|Hlt].
  { kgo. apply Hf; [done|]. intros d Hd%zget_lt. rewrite (i_nH _ _ I) in Hd. unfold CFE_PLATFORM_TBL_MAX_NUM_HANDLES in *. lia. }
  destruct (zget_is_Some (kH K) h) as [d Hd]; [rewrite (i_nH _ _ I); unfold CFE_PLATFORM_TBL_MAX_NUM_HANDLES in *; lia|].
  kgo. eapply wpk_rd_hdl; [done|]. kgo. destruct (ac_UsedFlag d) eqn:Hu; [by eapply Ho|apply Hf; [done|]]. intros d' Hd'. congruence.
Qed.
Lemma wpk_CheckAccess h app d (Q : Z → KS → Prop) K : zget (kH K) h = Some d → (∀ st, st < 0 → ¬ (app = ac_AppId d ∨ app = kTask K) → Q st K) →
  (app = ac_AppId d ∨ app = kTask K → Q CFE_SUCCESS K) → wpk (CFE_TBL_CheckAccessRights h app) Q K.
Proof.
  intros Hd Hf Ho. unfold CFE_TBL_CheckAccessRights. kgo. eapply wpk_rd_hdl; [done|]. kgo. apply wpk_gets. intros s Es. kgo.
  assert (kTask K = tg_TableTaskAppId s) as Et by (by rewrite <- Es). rewrite Et in *.
  destruct ((app =? ac_AppId d) || (app =? tg_TableTaskAppId s)) eqn:E; [apply Ho; lia|]. apply Hf; [done|]. lia.
Qed.
Lemma wpk_ValidateAccess_only al App h (Q : Z → KS → Prop) K : inv al K → app_ok App → 0 <= h →
  (∀ st, st < 0 → (∀ d rec, ¬ access al K App h d rec) → Q st K) → (∀ d rec, access al K App h d rec → Q CFE_SUCCESS K) → wpk (CFE_TBL_ValidateAccess App h) Q K.
Proof.
  intros I Ha Hh Hf Ho. unfold CFE_TBL_ValidateAccess. destruct App as [st app]. cbn [fst snd] in *.
  destruct (Z.eqb_spec st CFE_SUCCESS) as [->|Hst]; cbn [negb]; [|apply wpk_ret, Hf; [by destruct Ha|by intros d rec (E & _)]].
  apply wpk_bind. eapply wpk_ValidateHandle; [done..| |].
  { intros st Hst Hn. kgo. destruct (Z.eqb_spec st CFE_SUCCESS); [subst; done|]. kgo. apply Hf; [done|]. intros d rec (_ & Hd & Hu & _). apply Hn in Hd. congruence. }
  intros d Hd Hu. kgo. eapply wpk_CheckAccess; [done..| |].
  - intros st Hst Hn. apply Hf; [done|]. intros d' rec (_ & Hd' & _ & Hown & _). destruct Hn. cbn in Hown. rewrite Hd in Hd'. by injection Hd' as <-.
  - intros Hap. destruct (used_reg _ _ _ _ I Hd Hu) as (rec & Hr & Hi & Hin). by eapply (Ho d rec).
Qed.
Lemma wpk_ValidateAccess al App h (Q : Z → KS → Prop) K : inv al K → app_ok App → 0 <= h →
  (∀ st, st < 0 → Q st K) → (∀ d rec, access al K App h d rec → Q CFE_SUCCESS K) → wpk (CFE_TBL_ValidateAccess App h) Q K.
Proof. intros I Ha Hh Hf Ho. eapply wpk_ValidateAccess_only; [done..| |done]. intros st Hst _. by apply Hf. Qed.

(** ** Walks *)

Lemma al_seg al K r rec : inv al K → zget (kR K) r = Some rec →
  ∃ q, seg (link_of <$> kH K) r END (rr_HeadOfAccessList rec) (al r) q END ∧ (length (al r) <= length (kH K))%nat.
Proof.
  intros I Hr. assert (zget (rr_HeadOfAccessList <$> kR K) r = Some (rr_HeadOfAccessList rec)) as Hh by by rewrite zget_fmap, Hr.
  destruct (lo_seg _ _ _ (i_links _ _ I) _ _ Hh) as [q Hs]. exists q. split; [done|].
  pose proof (lo_length _ _ _ (i_links _ _ I) _ _ Hh) as Hl. by rewrite length_fmap in Hl.
Qed.

Lemma wpk_walk_fuel (Q : nat → KS → Prop) K : Q (S (length (kH K))) K → wpk walk_fuel Q K.
Proof. intros HQ. apply wpk_gets. by intros s <-. Qed.

Lemma end_ne h : 0 <= h → (h =? END) = false.
Proof. intros. apply Z.eqb_neq. unfold END. lia. Qed.

Lemma wpk_locked_loop l fuel p c q r idx (Q : bool → KS → Prop) K : seg (link_of <$> kH K) r p c l q END → (length l < fuel)%nat →
  (Q true K) → ((∀ h d, h ∈ l → zget (kH K) h = Some d → ac_LockFlag d = true → ac_BufferIndex d ≠ idx) → Q false K) →
  wpk (locked_loop fuel c idx) Q K.
Proof.
  revert fuel p c. induction l as [|h l IH]; intros fuel p c Hs Hf Ht HF.
  - cbn in Hs. destruct Hs as [_ ->], fuel; cbn; apply wpk_ret, HF; intros ?? Hin; by apply elem_of_nil in Hin.
  - walk_step. destruct fuel as [|fuel]; [cbn in Hf; lia|]. cbn [locked_loop]. rewrite end_ne by done. kgo. eapply wpk_rd_hdl; [done|]. cbn beta.
    destruct ((ac_BufferIndex d =? idx) && ac_LockFlag d) eqn:E; [by apply wpk_ret|]. rewrite <- Hn. eapply IH; [exact Hs0|cbn in Hf; lia|done|].
    intros Hl. apply HF. intros k e [->|Hin]%elem_of_cons He; [|by apply (Hl k)]. rewrite Hd in He. injection He as <-. intros El. rewrite El, andb_true_r in E. lia.
Qed.

Lemma wpk_lock_loop l fuel p c q r b (Q : bool → KS → Prop) K : seg (link_of <$> kH K) r p c l q END → (length l < fuel)%nat →
  (b = true ∨ (∃ h d, h ∈ l ∧ zget (kH K) h = Some d ∧ ac_LockFlag d = true) → Q true K) → ((∀ h d, h ∈ l → zget (kH K) h = Some d → ac_LockFlag d = false) → b = false → Q false K) →
  wpk (lock_loop fuel c b) Q K.
Proof.
  revert fuel p c b. induction l as [|h l IH]; intros fuel p c b Hs Hf Ht HF.
  - cbn in Hs. destruct Hs as [_ ->], fuel; cbn; apply wpk_ret; (destruct b; [apply Ht; by left|apply HF; [|done]]); intros ?? Hin; by apply elem_of_nil in Hin.
  - walk_step. destruct fuel as [|fuel]; [cbn in Hf; lia|]. cbn [lock_loop]. rewrite end_ne by done. kgo. eapply wpk_rd_hdl; [done|]. cbn beta.
    rewrite <- Hn. eapply IH; [exact Hs0|cbn in Hf; lia| |].
    + intros [[Hb|Hld]%orb_true_iff|(k & e & Hin & He)]; apply Ht; [by left|right; exists h, d; split_and!; [apply elem_of_cons; by left|done..]|right; exists k, e; split; [apply elem_of_cons; by right|done]].
    + intros Hl [Hb Hld]%orb_false_iff. apply HF; [|done]. intros k e [->|Hin]%elem_of_cons He; [congruence|by apply (Hl k)].
Qed.

(** ** Records and contents *)

Lemma splice_length off (bs old : list Z) : (off + length bs <= length old)%nat → length (splice off bs old) = length old.
Proof. intros H. unfold splice. rewrite !length_app, length_take, length_drop. lia. Qed.
Lemma take_splice (bs old : list Z) : take (length bs) (splice 0 bs old) = bs.
Proof. unfold splice. rewrite take_0. cbn [app]. apply take_app_length. Qed.

(** The bytes of a table. *)
Definition contents K (r : Z) : option (list Z) :=
  match zget (kR K) r with
  | Some rec => take (Z.to_nat (rr_Size rec)) <$> mem K (bptr rec (rr_ActiveBufferIndex rec))
  | None => None
  end.

Lemma active_ptr rec : rec_ok rec → inuse rec → rr_UserDefAddr rec = false → is_pool (bptr rec (rr_ActiveBufferIndex rec)).
Proof. intros R Hu Hd. destruct (ro_pool _ R Hu Hd) as [H0 H1]. destruct (ro_active _ R) as [->|[-> ?]]; [done|by apply H1]. Qed.

Lemma double_user rec : rec_ok rec → rr_DoubleBuffered rec = true → rr_UserDefAddr rec = false.
Proof. intros R Hd. destruct (rr_UserDefAddr rec) eqn:E; [|done]. apply (ro_user _ R), (ro_dump _ R) in E. congruence. Qed.

Lemma zget_buf_set rec i k b : length (rr_Buffers rec) = 2%nat → i = 0 ∨ i = 1 → bptr (set_buf i b rec) k = if decide (k = i) then lb_BufferPtr b else bptr rec k.
Proof.
  intros Hl Hi. destruct (zget_is_Some (rr_Buffers rec) i) as [b0 Hb]; [rewrite Hl; lia|]. unfold bptr, set_buf. cbn. rewrite (zset_get _ _ _ _ _ Hb).
  by destruct (decide (k = i)).
Qed.

(** Writing fields of a buffer other than its address. *)
Lemma rview_set_buf rec i b b0 : zget (rr_Buffers rec) i = Some b0 → lb_BufferPtr b = lb_BufferPtr b0 → rview (set_buf i b rec) = rview rec.
Proof.
  intros Hb Ep. assert (Hp : ∀ k, bptr (set_buf i b rec) k = bptr rec k).
  { intros k. unfold bptr. change (rr_Buffers (set_buf i b rec)) with (zset i b (rr_Buffers rec)). rewrite (zset_get _ _ _ _ _ Hb).
    destruct (decide (k = i)) as [->|]; [by rewrite Hb|done]. }
  unfold rview. rewrite !Hp. change (rr_Buffers (set_buf i b rec)) with (zset i b (rr_Buffers rec)). by rewrite zset_length.
Qed.

(** ** Notification of an update *)

Lemma inv_notify al K h d b : inv al K → zget (kH K) h = Some d → inv al (wH (zset h (d <| ac_Updated := b |>) (kH K)) K).
Proof. intros I Hh. eapply inv_hdl; [done..|]. cbn. intros Hu Hl rec Hr. by apply (i_lock _ _ I h d rec). Qed.
Lemma keeps_updated X K h d b : zget (kH K) h = Some d → keeps X K (wH (zset h (d <| ac_Updated := b |>) (kH K)) K).
Proof. intros Hh. eapply keeps_hdl; [done|]. right. by intros. Qed.

(** The descriptors after the users in a list have been told of an update. *)
Definition told_in (l : list Z) (H0 H : list CFE_TBL_AccessDescriptor_t) : Prop :=
  ∀ k d, zget H0 k = Some d → zget H k = Some (if decide (k ∈ l) then d <| ac_Updated := true |> else d).

Lemma wpk_notify_loop al l fuel p c q r (Q : unit → KS → Prop) K : inv al K → seg (link_of <$> kH K) r p c l q END → (length l < fuel)%nat →
  (∀ H, inv al (wH H K) → (∀ X, keeps X K (wH H K)) → ac_AppId <$> H = ac_AppId <$> kH K → told_in l (kH K) H → Q tt (wH H K)) → wpk (notify_loop fuel c) Q K.
Proof.
  revert fuel p c K. induction l as [|h l IH]; intros fuel p c K I Hs Hf HQ.
  - cbn in Hs. assert (Q tt K) as HQK. { destruct K. apply (HQ kH); [done| |done|]; [intros X; apply keeps_refl|]. intros k d Hk. by rewrite decide_False by apply not_elem_of_nil. }
    destruct Hs as [_ ->], fuel; cbn; by apply wpk_ret.
  - walk_step. destruct fuel as [|fuel]; [cbn in Hf; lia|]. cbn [notify_loop]. rewrite end_ne by done. kgo. eapply wpk_rd_hdl; [done|]. kgo.
    eapply wpk_wr_hdl; [done|]. rewrite <- Hn. eapply IH; [by apply inv_notify| |cbn in Hf; lia|].
    + cbn. rewrite (zset_fmap_same _ _ _ _ _ Hd); [exact Hs0|done].
    + intros H' I' Hk Ea Ht. apply HQ; [done| |rewrite Ea; cbn; by rewrite (zset_fmap_same _ _ _ _ _ Hd)|].
      * intros X. eapply keeps_trans; [|apply Hk]. by apply keeps_updated.
      * intros k e He. specialize (Ht k). cbn [kH wH] in Ht. rewrite (zset_get _ _ _ _ _ Hd) in Ht. destruct (decide (k = h)) as [->|Hne].
        -- rewrite Hd in He. injection He as <-. rewrite (Ht _ eq_refl). rewrite (decide_True (P := h ∈ h :: l)) by (apply elem_of_cons; by left). by destruct (decide (h ∈ l)).
        -- rewrite (Ht _ He). destruct (decide (k ∈ l)); [rewrite decide_True by (apply elem_of_cons; by right)|rewrite decide_False by (rewrite elem_of_cons; tauto)]; done.
Qed.

Definition notified (now : CFE_TIME_SysTime_t) (rec : CFE_TBL_RegistryRec_t) : CFE_TBL_RegistryRec_t :=
  rec <| rr_LoadInProgress := CFE_TBL_NO_LOAD_IN_PROGRESS |> <| rr_TimeOfLastUpdate := now |> <| rr_LoadPending := false |> <| rr_TableLoadedOnce := true |>.

(** The users of a table: the descriptors in use that refer to it. *)
Definition uses (r : Z) (d : CFE_TBL_AccessDescriptor_t) : bool := ac_UsedFlag d && (ac_RegIndex d =? r).

Lemma uses_in al K r rec h d : inv al K → zget (kR K) r = Some rec → zget (kH K) h = Some d → uses r d = true ↔ h ∈ al r.
Proof.
  intros I Hr Hd. unfold uses. rewrite andb_true_iff, Z.eqb_eq. split.
  - intros [Hu <-]. by destruct (used_reg _ _ _ _ I Hd Hu) as (_ & _ & _ & Hin).
  - intros Hin. assert (zget (rr_HeadOfAccessList <$> kR K) r = Some (rr_HeadOfAccessList rec)) as Hh by by rewrite zget_fmap, Hr.
    destruct (lo_in _ _ _ (i_links _ _ I) _ _ _ Hh Hin) as (p & n & E). rewrite zget_fmap, Hd in E. by injection E.
Qed.

(** What is told to the users of a table. *)
Definition told (r : Z) (H0 H : list CFE_TBL_AccessDescriptor_t) : Prop :=
  ac_AppId <$> H = ac_AppId <$> H0 ∧ ∀ k d, zget H0 k = Some d → zget H k = Some (if uses r d then d <| ac_Updated := true |> else d).

Lemma wpk_Notify al r rec (Q : unit → KS → Prop) K : zget (kR K) r = Some rec → (∀ now, inv al (wR (zset r (notified now rec) (kR K)) K)) →
  (∀ now H, let K1 := wR (zset r (notified now rec) (kR K)) K in inv al (wH H K1) → (∀ X, keeps X K1 (wH H K1)) → told r (kH K) H → Q tt (wH H K1)) →
  wpk (CFE_TBL_NotifyTblUsersOfUpdate r) Q K.
Proof.
  intros Hr I HQ. unfold CFE_TBL_NotifyTblUsersOfUpdate. kgo. apply wpk_gets_any. intros now. kgo. eapply wpk_wr_reg; [done|].
  fold (notified now rec). specialize (I now). specialize (HQ now). cbv zeta in HQ. set (K1 := wR _ K) in *. kgo.
  assert (zget (kR K1) r = Some (notified now rec)) as Hr1 by by eapply zset_eq. eapply wpk_rd_reg; [done|]. kgo. apply wpk_walk_fuel.
  destruct (al_seg _ _ _ _ I Hr1) as (q & Hs & Hl). eapply wpk_notify_loop; [done|exact Hs|lia|]. intros H I' Hk Ea Ht. apply HQ; [done..|]. split; [done|].
  intros k d Hd. rewrite (Ht k d Hd). pose proof (uses_in _ K1 _ _ k d I Hr1 Hd) as E. destruct (decide (k ∈ al r)) as [Hin|Hin], (uses r d) eqn:Eu; try done; [apply E in Hin; congruence|]. by destruct Hin; apply E.
Qed.

(** ** Critical tables *)

Lemma FindCrit_range CDSHandle l i k : FindCrit_loop CDSHandle i l = Some k → i <= k < i + Z.of_nat (length l).
Proof.
  revert i. induction l as [|c l IH]; intros i; cbn; [done|]. destruct (_ =? _); [intros [= <-]; lia|]. intros ?%IH. lia.
Qed.

Lemma wpk_UpdateCritical al r rec (Q : unit → KS → Prop) K : inv al K → zget (kR K) r = Some rec → bptr rec (rr_ActiveBufferIndex rec) ≠ PNull →
  (∀ l c, length l = length (kC K) → Q tt (wS c (wC l K))) → wpk (CFE_TBL_UpdateCriticalTblCDS r) Q K.
Proof.
  intros I Hr Hp HQ. destruct (i_ent _ _ I _ _ Hr) as (R & P & _). unfold CFE_TBL_UpdateCriticalTblCDS. kgo. eapply wpk_rd_reg; [done|].
  destruct (zget_buf rec (rr_ActiveBufferIndex rec) (ro_bufs _ R)) as (b & Hb & Eb); [destruct (ro_active _ R); lia|].
  destruct (P _ Hp) as [(bs & Hm & Hn & _) _]. rewrite Eb in Hm. kgo. eapply wpk_reg_buf; [done|]. kgo. eapply wpk_rd_bytes; [done..|]. kgo.
  assert (Q tt (wS (kS K) K)) as HQ0 by (specialize (HQ (kC K) (kS K) eq_refl); by destruct K).
  apply wpk_cds. intros st c _. destruct (negb (st =? CFE_SUCCESS)). { kgo. specialize (HQ (kC K) c eq_refl). by destruct K. }
  unfold CFE_TBL_FindCriticalTblInfo. kgo. apply wpk_gets. intros s Es. kgo. destruct (FindCrit_loop _ _ _) as [k|] eqn:Ek.
  2:{ kgo. specialize (HQ (kC K) c eq_refl). by destruct K. }
  apply FindCrit_range in Ek. assert (CritReg s = kC K) as Ec by exact (f_equal kC Es). rewrite Ec in Ek.
  destruct (zget_is_Some (kC K) k) as [cr Hcr]; [lia|]. kgo. eapply (wpk_wr_crit _ _ cr); [done|]. kgo. apply wpk_gets_any. intros h. kgo.
  apply wpk_gets_any. intros l. kgo. apply wpk_cds. intros st' c' _. kgo. apply HQ. apply zset_length.
Qed.

(** ** Working buffers *)

(** All but the shared buffers and the memory of tables is the same, with a new entry. *)
Definition frame (r : Z) (rec' : CFE_TBL_RegistryRec_t) K K' : Prop :=
  kR K' = zset r rec' (kR K) ∧ kH K' = kH K ∧ kC K' = kC K ∧ kV K' = kV K ∧ kD K' = kD K ∧ kA K' = kA K ∧
  kF K' = kF K ∧ kS K' = kS K ∧ kReg K' = kReg K ∧ kWork K' = kWork K ∧ kTask K' = kTask K ∧ kHk K' = kHk K.

Lemma inactive_eq rec : rec_ok rec → inactive rec = 1 - rr_ActiveBufferIndex rec.
Proof. intros R. unfold inactive. by destruct (ro_active _ R) as [->|[-> _]]. Qed.

Lemma FindShared_spec l i : FindShared_loop i l = i + Z.of_nat (length l) ∨
  ∃ b, i <= FindShared_loop i l ∧ l !! Z.to_nat (FindShared_loop i l - i) = Some b ∧ lb_Taken b = false.
Proof.
  revert i. induction l as [|b l IH]; intros i; cbn; [left; lia|]. destruct (lb_Taken b) eqn:E.
  - destruct (IH (i + 1)) as [->|(c & Hi & Hc & Ht)]; [left; lia|]. right. exists c. split_and!; [lia| |done].
    replace (Z.to_nat (FindShared_loop (i + 1) l - i)) with (S (Z.to_nat (FindShared_loop (i + 1) l - (i + 1)))) by lia. done.
  - right. exists b. rewrite Z.sub_diag. by split_and!.
Qed.

(** A load starts: the entry gets a buffer nobody uses. *)
Lemma inv_start al K r rec l : inv al K → zget (kR K) r = Some rec → rr_LoadInProgress rec = -1 →
  (if rr_DoubleBuffered rec then l = 1 - rr_ActiveBufferIndex rec else 0 <= l < CFE_PLATFORM_TBL_MAX_SIMULTANEOUS_LOADS) →
  (rr_DoubleBuffered rec = false → ∃ b, zget (kL K) l = Some b ∧ lb_Taken b = true) →
  (rr_DoubleBuffered rec = true → ∀ h d, h ∈ al r → zget (kH K) h = Some d → ac_LockFlag d = true → ac_BufferIndex d ≠ l) →
  (rr_DoubleBuffered rec = false → ∀ r2 rec2, zget (kR K) r2 = Some rec2 → rr_DoubleBuffered rec2 = false → rr_LoadInProgress rec2 ≠ l) →
  inv al (wR (zset r (rec <| rr_LoadInProgress := l |>) (kR K)) K).
Proof.
  intros I Hr Hn Hl Ht Hk Hx. destruct (i_ent _ _ I _ _ Hr) as (R & P & L & D).
  assert (Hlp : l ≠ -1) by (destruct (rr_DoubleBuffered rec); destruct (ro_active _ R); lia).
  eapply inv_reg; [done|done|done|..].
  - split_and!; [|exact P|intros Hd _; by apply Ht|exact D]. pose proof (ro_vlip _ R) as Hvl. destruct R. constructor; try assumption; cbn; [by right|].
    intros Hu Hd Hv. destruct (Hvl Hu Hd Hv) as [Hc _]. congruence.
  - intros r2 rec2 Hne H2. destruct (i_apart _ _ I r r2 rec rec2) as (A1 & A2 & A3); [congruence|done..|]. split_and!; [|exact A2|exact A3].
    cbn. intros Hd Hd2 _ E. by eapply (Hx Hd r2 rec2).
  - by left.
  - intros h d Hd Hu Hlk Hi. destruct (i_lock _ _ I h d rec) as [H1 H2]; [done..|by rewrite Hi|]. split; [exact H1|]. cbn. intros Hdb.
    destruct (used_reg _ _ _ _ I Hd Hu) as (_ & _ & _ & Hin). rewrite Hi in Hin. by eapply Hk.
  - intros i c Hc Hs Hi. pose proof (inv_blk_at _ _ _ _ _ _ I Hc Hs Hi Hr) as (_ & _ & Hb & _). congruence.
Qed.

(** The copy of the active contents into the buffer. *)
Lemma wpk_work_copy al K r rec w b act (Q : unit → KS → Prop) : inv al K → zget (kR K) r = Some rec → inuse rec → rr_LoadInProgress rec ≠ -1 →
  workbuf r rec w → lb K w = Some b → mem_ok K act (rr_Size rec) →
  (∀ M nb bs, inv al (wM M K) → (∀ X, keeps X K (wM M K)) → mem K act = Some bs → mem (wM M K) (lb_BufferPtr b) = Some nb → take (Z.to_nat (rr_Size rec)) nb = take (Z.to_nat (rr_Size rec)) bs → Q tt (wM M K)) →
  wpk (if bool_decide (lb_BufferPtr b = act) then mret tt else memcpy (lb_BufferPtr b) act (rr_Size rec)) Q K.
Proof.
  intros I Hr Hu Hl Hw Hb (bs & Hm & Hn & _) HQ. destruct (i_ent _ _ I _ _ Hr) as (R & _). pose proof (ro_size _ R Hu).
  destruct (workbuf_ok _ _ _ _ w I Hr Hu) as (b' & Hb' & Hp & (old & Ho & Hon & _) & Hh); [by intros|done|]. rewrite Hb in Hb'. injection Hb' as <-.
  case_bool_decide as Eb; [apply wpk_ret; specialize (HQ (kM K) bs bs); rewrite Eb in HQ; destruct K; apply HQ; [done|intros; apply keeps_refl|done..]|].
  eapply wpk_memcpy; [lia|done..|]. destruct (lb_BufferPtr b) as [|a|a] eqn:Ea; [done| |done]. apply (HQ _ (splice 0 (take (Z.to_nat (rr_Size rec)) bs) old) bs).
  - eapply (inv_mem _ _ (PPool a)); [done| |done]. apply splice_length. rewrite length_take. lia.
  - intros X. by apply (keeps_mem X K (PPool a)).
  - done.
  - apply lookup_insert_eq.
  - rewrite <- (take_splice (take (Z.to_nat (rr_Size rec)) bs) old) at 2. rewrite length_take. f_equal. lia.
Qed.

Lemma wpk_GetWorkingBuffer al r rec app (Q : Z * ptr BufRef → KS → Prop) K : inv al K → zget (kR K) r = Some rec → inuse rec →
  bptr rec (rr_ActiveBufferIndex rec) ≠ PNull → kWork K = false →
  (∀ w, workbuf r rec w → (app = false → rr_LoadInProgress rec ≠ -1) → Q (CFE_SUCCESS, Some w) K) →
  (rr_LoadInProgress rec = -1 → Q (CFE_TBL_ERR_NO_BUFFER_AVAIL, None) K) →
  (∀ l w K', let rec' := rec <| rr_LoadInProgress := l |> in rr_LoadInProgress rec = -1 → (app = true → rr_TableLoadedOnce rec = true) → l ≠ -1 →
     workbuf r rec' w → frame r rec' K K' → inv al K' → (∀ X, keeps X K K') →
     (∃ b nb, lb K' w = Some b ∧ mem K' (lb_BufferPtr b) = Some nb ∧ contents K r = Some (take (Z.to_nat (rr_Size rec)) nb)) → Q (CFE_SUCCESS, Some w) K') →
  wpk (CFE_TBL_GetWorkingBuffer r app) Q K.
Proof.
  intros I Hr Hu Hp Hwk H1 H2 H3. destruct (i_ent _ _ I _ _ Hr) as (R & P & L & D). pose proof (ro_active _ R) as Ha. pose proof (ro_lip _ R) as Hl.
  unfold CFE_TBL_GetWorkingBuffer. kgo. eapply wpk_rd_reg; [done|]. cbn beta. change CFE_TBL_NO_LOAD_IN_PROGRESS with (-1).
  destruct (Z.eqb_spec (rr_LoadInProgress rec) (-1)) as [El|El]; cbn [negb].
  2:{ kgo. apply H1; [|done]. left. split; [done|]. destruct (rr_DoubleBuffered rec) eqn:Hd; [|done]. rewrite inactive_eq by done. by destruct Hl as [|<-]. }
  destruct (negb (rr_TableLoadedOnce rec) && app) eqn:Ef.
  { apply andb_true_iff in Ef as [Ef ->]. apply negb_true_iff in Ef. kgo. apply H1; [|done]. right. split_and!; [done..|].
    destruct (rr_DoubleBuffered rec) eqn:Hd; [done|]. destruct Ha as [->|[_ ?]]; [done|congruence]. }
  assert (Happ : app = true → rr_TableLoadedOnce rec = true) by (intros ->; destruct (rr_TableLoadedOnce rec); done).
  destruct (zget_buf rec (rr_ActiveBufferIndex rec) (ro_bufs _ R)) as (act & Hact & Eact); [destruct Ha; lia|].
  (* the copy at the end *)
  assert (Hend : ∀ l w K1, l ≠ -1 → let rec' := rec <| rr_LoadInProgress := l |> in inv al K1 → (∀ X, keeps X K K1) → frame r rec' K K1 → kM K1 = kM K → workbuf r rec' w →
    wpk (rd_lb w) (λ b, wpk (act ← reg_buf rec (rr_ActiveBufferIndex rec);
         (if bool_decide (lb_BufferPtr b = lb_BufferPtr act) then mret tt else memcpy (lb_BufferPtr b) (lb_BufferPtr act) (rr_Size rec));;
         mret (CFE_SUCCESS, Some w)) Q) K1).
  { intros l w K1 Hl1 rec' I1 Hk1 Hf HM Hw. destruct Hf as (FR & FH & FC & FV & FD & FA & FF & FS' & FRg & FW & FT & FHk).
    assert (zget (kR K1) r = Some rec') as Hr1 by (rewrite FR; by eapply zset_eq).
    destruct (workbuf_ok _ _ _ _ w I1 Hr1 Hu) as (b & Hb & _); [by intros|done|].
    eapply wpk_rd_lb; [done|]. kgo. eapply wpk_reg_buf; [done|]. apply wpk_bind.
    eapply (wpk_work_copy _ _ r rec' w b (lb_BufferPtr act)); [done..| |].
    - destruct (i_ent _ _ I1 _ _ Hr1) as (_ & P1 & _). rewrite <- Eact. apply (P1 (rr_ActiveBufferIndex rec)). done.
    - intros M nb bs IM HkM Hbs Hnb Ht. kgo. eapply (H3 l); try done; [intros X; eapply keeps_trans; [apply Hk1|apply HkM]|]. exists b, nb. split_and!; [destruct w; exact Hb|done|].
      unfold contents. rewrite Hr, Eact. assert (mem K (lb_BufferPtr act) = Some bs) as Hbs' by (rewrite <- Hbs; destruct (lb_BufferPtr act); cbn; by rewrite ?HM, ?FA). rewrite Hbs'. cbn. f_equal. symmetry. exact Ht. }
  apply wpk_bind. destruct (rr_DoubleBuffered rec) eqn:Hd.
  - set (idx := 1 - rr_ActiveBufferIndex rec) in *. kgo. apply wpk_walk_fuel. kgo. destruct (al_seg _ _ _ _ I Hr) as (q & Hs & Hlen).
    eapply wpk_locked_loop; [exact Hs|lia|kgo; by apply H2|]. intros Hlk. kgo. eapply wpk_wr_reg; [done|]. kgo.
    apply (Hend idx); [unfold idx; lia| |intros X; by eapply keeps_reg|by split_and!|done|].
    + eapply inv_start; [done..|by rewrite Hd|by rewrite Hd|done|by rewrite Hd].
    + left. split; [cbn; unfold idx; lia|]. cbn. by rewrite Hd.
  - kgo. eapply wpk_take; [done|]. kgo. apply wpk_gets. intros s Es. set (j := FindShared_loop 0 (LoadBuffs s)).
    assert (EL : LoadBuffs s = kL K) by exact (f_equal kL Es). pose proof (FindShared_spec (LoadBuffs s) 0) as Hj. fold j in Hj. rewrite EL in Hj.
    destruct (Z.ltb_spec j CFE_PLATFORM_TBL_MAX_SIMULTANEOUS_LOADS) as [Hlt|Hge].
    2:{ kgo. apply wpk_give. kgo. specialize (H2 El). destruct K; cbn in Hwk; subst. exact H2. }
    destruct Hj as [Hj|(b & Hj0 & Hb & Ht)]; [rewrite (i_nL _ _ I) in Hj; unfold CFE_PLATFORM_TBL_MAX_SIMULTANEOUS_LOADS in *; lia|].
    assert (Hbz : zget (kL K) j = Some b) by (apply zget_Some; by rewrite Z.sub_0_r in Hb). set (b' := b <| lb_Taken := true |>).
    assert (I1 : inv al (wL (zset j b' (kL K)) K)) by (eapply inv_lb; [done..|]; by left).
    assert (I2 : inv al (wR (zset r (rec <| rr_LoadInProgress := j |>) (kR K)) (wL (zset j b' (kL K)) K))).
    { eapply (inv_start al (wL (zset j b' (kL K)) K) r rec j); [done|exact Hr|done| | |by rewrite Hd|].
      - rewrite Hd. lia.
      - intros _. exists b'. split; [by eapply zset_eq|done].
      - intros _ r2 rec2 H2r Hd2 E2. destruct (i_ent _ _ I _ _ H2r) as (_ & _ & L2 & _). destruct (L2 Hd2) as (b2 & Hb2 & Ht2); [lia|]. rewrite E2 in Hb2. congruence. }
    kgo. eapply wpk_wr_shared; [exact Hbz|]. kgo. eapply wpk_wr_reg; [exact Hr|]. kgo. apply wpk_give. kgo.
    eapply (Hend j); [lia|exact (inv_wWork _ _ false I2)|intros X; by eapply (keeps_reg X K r rec)|split_and!; [done..|symmetry; exact Hwk|done|done]|done|].
    left. split; [cbn; lia|]. cbn. by rewrite Hd.
Qed.
End ops.
