(* ===== verification/TblUpdate.v ===== *)
(** * Table services: updates, validation and dumps keep the invariant

    The update of a table replaces its contents by those of the working buffer. *)
From S2P Require Import Prelude Config Msg ResourceId Cstring EsApp SbState TimeApi TblConfig EsCrc FsFile TblState TblInternal TblApi TblLinks TblCore TblInv TblOps.
Import ListNotations.

Section update.
Context {PS FS CS : Type} `{Pool : MemPool PS} `{Files : OSFile FS} `{Store : CDSStore CS} `{Cfg : TblCfg}.
Context `{PoolOK : !MemPoolOK PS} `{FilesOK : !OSFileOK FS} `{PoolSt : !TblPoolOK PS} `{StoreOK : !CDSStoreOK CS}.
Abbreviation TG := (CFE_TBL_Global_t PS FS CS).
Abbreviation KS := (core FS CS).
Implicit Types (K : KS) (s : TG) (X : Z → Prop).

Lemma strncpy_length (d src : list Z) n : (n <= length d)%nat → length (strncpy d src n) = length d.
Proof. intros. unfold strncpy. rewrite !length_app, length_take, length_replicate, length_drop. lia. Qed.
Lemma copy_str_length n (d src : list Z) : length d = n → length (copy_str n d src) = n.
Proof. intros <-. unfold copy_str. rewrite length_insert. apply strncpy_length. lia. Qed.

(** A second access to an entry that was just written. *)
Lemma wpk_rd_at r rec l old (Q : CFE_TBL_RegistryRec_t → KS → Prop) K : kR K = zset r rec l → zget l r = Some old → Q rec K → wpk (rd_reg r) Q K.
Proof. intros E Ho. apply wpk_rd_reg. rewrite E. by eapply zset_eq. Qed.
Lemma wpk_wr_at r f rec l old (Q : unit → KS → Prop) K : kR K = zset r rec l → zget l r = Some old → Q tt (wR (zset r (f rec) l) K) → wpk (wr_reg r f) Q K.
Proof. intros E Ho HQ. eapply wpk_wr_reg; [rewrite E; by eapply zset_eq|]. by rewrite E, zset_zset. Qed.
Lemma wpk_wr_buf_at r i f rec l old b (Q : unit → KS → Prop) K : kR K = zset r rec l → zget l r = Some old → zget (rr_Buffers rec) i = Some b →
  Q tt (wR (zset r (set_buf i (f b) rec) l) K) → wpk (wr_reg_buf r i f) Q K.
Proof. intros E Ho Hb HQ. eapply wpk_wr_reg_buf; [rewrite E; by eapply zset_eq|done|]. by rewrite E, zset_zset. Qed.

(** The bytes of the working buffer of a load. *)
Definition work_ref (r : Z) (rec : CFE_TBL_RegistryRec_t) : BufRef := if rr_DoubleBuffered rec then RegBuf r (rr_LoadInProgress rec) else SharedBuf (rr_LoadInProgress rec).
Definition staged K (r : Z) : option (list Z) :=
  match zget (kR K) r with
  | Some rec => match lb K (work_ref r rec) with Some b => take (Z.to_nat (rr_Size rec)) <$> mem K (lb_BufferPtr b) | None => None end
  | None => None
  end.

(** Somebody has the address of a table. *)
Definition held K (r : Z) : Prop := ∃ h d, zget (kH K) h = Some d ∧ uses r d = true ∧ ac_LockFlag d = true.

(** How the update works: a double buffered table makes its working buffer the active one
    and no byte moves; a single buffered table keeps its buffer, nothing else in the memory
    changes, and the shared buffer is free again. *)
Definition moved (rec rec' : CFE_TBL_RegistryRec_t) K K' : Prop :=
  (∀ i, i = 0 ∨ i = 1 → bptr rec' i = bptr rec i) ∧
  if rr_DoubleBuffered rec then rr_ActiveBufferIndex rec' = rr_LoadInProgress rec ∧ (∀ p, mem K' p = mem K p) ∧ kL K' = kL K
  else rr_ActiveBufferIndex rec' = rr_ActiveBufferIndex rec ∧ (∀ p, p ≠ bptr rec (rr_ActiveBufferIndex rec) → mem K' p = mem K p) ∧
    ∃ b, zget (kL K) (rr_LoadInProgress rec) = Some b ∧ kL K' = zset (rr_LoadInProgress rec) (b <| lb_Taken := false |>) (kL K).

(** The update made the staged bytes the contents, and told the users. *)
Definition updated (r : Z) K K' : Prop :=
  contents K' r = staged K r ∧ (∀ r2, r2 ≠ r → zget (kR K') r2 = zget (kR K) r2) ∧
  ∃ rec rec', zget (kR K) r = Some rec ∧ zget (kR K') r = Some rec' ∧ rr_LoadPending rec' = false ∧ rr_LoadInProgress rec' = -1 ∧ rr_TableLoadedOnce rec' = true ∧
    rr_Size rec' = rr_Size rec ∧ rr_HeadOfAccessList rec' = rr_HeadOfAccessList rec ∧ moved rec rec' K K' ∧ told r (kH K) (kH K').

Lemma wpk_critical al r rec (b : bool) (Q : unit → KS → Prop) K : inv al K → zget (kR K) r = Some rec → (b = true → bptr rec (rr_ActiveBufferIndex rec) ≠ PNull) →
  (∀ l c, length l = length (kC K) → Q tt (wS c (wC l K))) → wpk (when b (CFE_TBL_UpdateCriticalTblCDS r)) Q K.
Proof.
  intros I Hr Hb HQ. apply wpk_when; [intros ->; eapply wpk_UpdateCritical; [done..|by apply Hb|done]|]. intros _. specialize (HQ (kC K) (kS K) eq_refl). by destruct K.
Qed.
Lemma inv_crit al K l c : length l = length (kC K) → inv al K → inv al (wS c (wC l K)).
Proof. intros Hl I. by apply inv_wS, inv_wC. Qed.

Lemma lip_ptr rec : rec_ok rec → inuse rec → rr_DoubleBuffered rec = true → rr_LoadInProgress rec ≠ -1 → bptr rec (rr_LoadInProgress rec) ≠ PNull.
Proof.
  intros R Hu Hd Hn. pose proof (ro_lip _ R) as Hl. rewrite Hd in Hl. destruct Hl as [|Hl]; [done|]. destruct (ro_pool _ R Hu (double_user _ R Hd)) as [P0 P1].
  assert (is_pool (bptr rec (rr_LoadInProgress rec))) as Hp by (rewrite Hl; destruct (ro_active _ R) as [->|[-> _]]; [by apply P1|done]). intros E. by rewrite E in Hp.
Qed.

(** ** Update of a double buffered table *)
Lemma inv_swap al K r rec f now : inv al K → zget (kR K) r = Some rec → inuse rec → rr_DoubleBuffered rec = true → rr_LoadInProgress rec ≠ -1 → length f = OS_MAX_PATH_LEN →
  inv al (wR (zset r (notified now (rec <| rr_ActiveBufferIndex := rr_LoadInProgress rec |> <| rr_LastFileLoaded := f |>)) (kR K)) K).
Proof.
  intros I Hr Hu Hd Hl Hf. destruct (i_ent _ _ I _ _ Hr) as (R & P & L & D). pose proof (ro_active _ R) as Ha. pose proof (ro_lip _ R) as Hli. rewrite Hd in Hli.
  destruct Hli as [|Hli]; [done|]. destruct (ro_pool _ R Hu (double_user _ R Hd)) as [P0 P1]. specialize (P1 Hd).
  assert (Hbp : bptr rec (rr_LoadInProgress rec) ≠ PNull) by by apply lip_ptr.
  eapply inv_reg; [done|done|done|..].
  - split_and!; [|exact P|unfold lip_ok; cbn; congruence|exact D]. pose proof (ro_vi _ R). pose proof (ro_va _ R) as Hva. destruct R. constructor; try assumption; cbn; try done.
    + destruct Ha as [Ea|[Ea _]]; [right; split; [lia|done]|left; lia].
    + by left.
    + destruct Hva as [|(? & ? & ?)]; [by left|right]. split; [done|]. split; [done|]. intros _. exact Hbp.
    + congruence.
  - intros r2 rec2 Hne H2. destruct (i_apart _ _ I r r2 rec rec2) as (A1 & A2 & A3); [congruence|done..|]. split_and!; [|exact A2|exact A3]. by cbn.
  - by left.
  - intros h d Hdd Hus Hlk Hi. destruct (i_lock _ _ I h d rec) as [H1 H2]; [done..|by rewrite Hi|]. split; [exact H1|]. cbn. unfold CFE_TBL_NO_LOAD_IN_PROGRESS. lia.
  - intros i c Hc Hs Hi. pose proof (inv_blk_at _ _ _ _ _ _ I Hc Hs Hi Hr) as (_ & Hdo & _). apply (ro_dump _ R) in Hdo. congruence.
Qed.

(** ** The end of a load *)
Lemma inv_notified al K r rec rec1 now : inv al K → zget (kR K) r = Some rec → rview rec1 = rview rec → rr_DumpOnly rec = false →
  (rr_DoubleBuffered rec = false → rr_ValidateInactiveIndex rec = -1) → inv al (wR (zset r (notified now rec1) (kR K)) K).
Proof.
  intros I Hr E Hdo Hv. pose proof (inv_view _ _ _ _ _ I Hr E) as I1.
  assert (zget (kR (wR (zset r rec1 (kR K)) K)) r = Some rec1) as Hr1 by by eapply zset_eq.
  injection E as E1 E2 E3 E4 E5 E6 E7 E8 E9 E10 E11 E12 E13 E14 E15 E16 E17 E18 E19. rewrite <- E10 in Hdo. rewrite <- E11, <- E6 in Hv.
  destruct (i_ent _ _ I1 _ _ Hr1) as (R & P & L & D).
  assert (I2 : inv al (wR (zset r (notified now rec1) (kR (wR (zset r rec1 (kR K)) K))) (wR (zset r rec1 (kR K)) K))).
  2:{ unfold wR in I2. cbn in I2. by rewrite zset_zset in I2. }
  eapply inv_reg; [done|done|done|..].
  - split_and!; [|exact P|by intros ??|exact D]. pose proof Hv as Hv'. destruct R. constructor; try assumption; cbn; try done; [by left|].
    intros _ Hd Hn. by apply Hv in Hd.
  - intros r2 rec2 Hne H2. destruct (i_apart _ _ I1 r r2 rec1 rec2) as (A1 & A2 & A3); [congruence|done..|]. split_and!; [|exact A2|exact A3]. by cbn.
  - by left.
  - intros h d Hdd Hus Hlk Hi. destruct (i_lock _ _ I1 h d rec1) as [H1 H2]; [done..|by rewrite Hi|]. split; [exact H1|]. cbn. unfold CFE_TBL_NO_LOAD_IN_PROGRESS. lia.
  - intros i c Hc Hs Hi. pose proof (inv_blk_at _ _ _ _ _ _ I1 Hc Hs Hi Hr1) as (_ & Hx & _). congruence.
Qed.

(** A shared buffer no load uses is given back. *)
Lemma inv_give_back al K j b : inv al K → zget (kL K) j = Some b → (∀ r rec, zget (kR K) r = Some rec → rr_DoubleBuffered rec = false → rr_LoadInProgress rec ≠ j) →
  inv al (wL (zset j (b <| lb_Taken := false |>) (kL K)) K).
Proof. intros I Hj Hn. eapply inv_lb; [done..|]. intros _. by right. Qed.
Lemma lip_free al K r rec rec' j : inv al K → zget (kR K) r = Some rec → rr_DoubleBuffered rec = false → rr_LoadInProgress rec = j → j ≠ -1 → rr_LoadInProgress rec' = -1 →
  ∀ r2 rec2, zget (zset r rec' (kR K)) r2 = Some rec2 → rr_DoubleBuffered rec2 = false → rr_LoadInProgress rec2 ≠ j.
Proof.
  intros I Hr Hd <- Hj Hl r2 rec2. rewrite (zset_get _ _ _ _ _ Hr). destruct (decide (r2 = r)) as [->|Hne]; [intros [= <-]; congruence|].
  intros H2 Hd2. destruct (i_apart _ _ I r r2 rec rec2) as (A1 & _); [congruence|done..|]. intros E. by apply A1.
Qed.

(** A load is given up: the entry has no buffer, and the shared one is free again. *)
Lemma inv_unlip al K r rec : inv al K → zget (kR K) r = Some rec → (inuse rec → rr_DoubleBuffered rec = false → rr_ValidateInactiveIndex rec = -1) →
  (∀ i c, zget (kD K) i = Some c → dc_State c ≠ CFE_TBL_DUMP_FREE → dc_RegRecPtr c ≠ r) →
  inv al (wR (zset r (rec <| rr_LoadInProgress := -1 |>) (kR K)) K).
Proof.
  intros I Hr Hv Hb. destruct (i_ent _ _ I _ _ Hr) as (R & P & L & D). eapply inv_reg; [done|done|done|..].
  - split_and!; [|exact P|by intros ??|exact D]. pose proof Hv as Hv'. destruct R. constructor; try assumption; cbn; [by left|]. intros Hu Hd Hx. by apply Hv in Hd.
  - intros r2 rec2 Hne H2. destruct (i_apart _ _ I r r2 rec rec2) as (A1 & A2 & A3); [congruence|done..|]. split_and!; [by cbn|exact A2|exact A3].
  - by left.
  - intros h d Hdd Hus Hlk Hi. destruct (i_lock _ _ I h d rec) as [H1 H2]; [done..|by rewrite Hi|]. split; [exact H1|]. cbn. intros _. lia.
  - intros i c Hc Hs Hi. by destruct (Hb i c Hc Hs).
Qed.
Lemma good_unlip al X K r rec b : inv al K → zget (kR K) r = Some rec → (inuse rec → rr_ValidateInactiveIndex rec = -1) → rr_DoubleBuffered rec = false → rr_LoadInProgress rec ≠ -1 →
  (∀ i c, zget (kD K) i = Some c → dc_State c ≠ CFE_TBL_DUMP_FREE → dc_RegRecPtr c ≠ r) → zget (kL K) (rr_LoadInProgress rec) = Some b →
  good al X K (wR (zset r (rec <| rr_LoadInProgress := -1 |>) (kR K)) (wL (zset (rr_LoadInProgress rec) (b <| lb_Taken := false |>) (kL K)) K)).
Proof.
  intros I Hr Hv Hd Hl Hb Hsb. pose proof (inv_unlip _ _ _ _ I Hr (λ Hu _, Hv Hu) Hb) as I1. split_and!; [|by eapply (keeps_reg X K r rec)|done].
  eapply (inv_give_back al (wR _ K)); [exact I1|exact Hsb|]. by eapply lip_free.
Qed.

Lemma unlocked_unheld al K r rec i : inv al K → zget (kR K) r = Some rec → is_pool (bptr rec i) → i = 0 ∨ i = 1 →
  (∀ h d, h ∈ al r → zget (kH K) h = Some d → ac_LockFlag d = false) → unheld K (bptr rec i).
Proof.
  intros I Hr Hp Hi Hn. eapply unheld_reg; [done..|]. intros h d Hd Hu Hl Hri _. destruct (used_reg _ _ _ _ I Hd Hu) as (_ & _ & _ & Hin).
  rewrite Hri in Hin. rewrite (Hn _ _ Hin Hd) in Hl. done.
Qed.

Lemma contents_at K r rec bs : zget (kR K) r = Some rec → mem K (bptr rec (rr_ActiveBufferIndex rec)) = Some bs → contents K r = Some (take (Z.to_nat (rr_Size rec)) bs).
Proof. intros Hr Hm. unfold contents. by rewrite Hr, Hm. Qed.

Lemma rview_file rec f : length f = length (rr_LastFileLoaded rec) → rview (rec <| rr_LastFileLoaded := f |>) = rview rec.
Proof. intros E. unfold rview. cbn. by rewrite E. Qed.

Lemma wpk_update_swap al r rec (Q : Z → KS → Prop) K : inv al K → zget (kR K) r = Some rec → inuse rec → rr_DoubleBuffered rec = true → rr_LoadInProgress rec ≠ -1 →
  (∀ K', (∀ X, good al X K K') → updated r K K' → Q CFE_SUCCESS K') → wpk (update_swap r rec) Q K.
Proof.
  intros I Hr Hu Hd Hn H3. destruct (i_ent _ _ I _ _ Hr) as (R & P & L & D). pose proof (ro_active _ R) as Ha. pose proof (ro_file _ R) as Hfl.
  pose proof (ro_lip _ R) as Hl. rewrite Hd in Hl. destruct Hl as [|Hl]; [done|]. unfold update_swap. cbv zeta.
  assert (Eu : u8 (rr_LoadInProgress rec) = rr_LoadInProgress rec). { apply u8_small. unfold is_u8. destruct Ha; lia. }
  rewrite Eu. kgo. eapply wpk_wr_reg; [done|]. kgo. destruct (zget_buf rec (rr_LoadInProgress rec) (ro_bufs _ R)) as (b & Hb & Eb); [lia|].
  eapply wpk_reg_buf; [done|]. kgo. eapply wpk_wr_at; [done..|]. kgo.
  set (f := copy_str OS_MAX_PATH_LEN (rr_LastFileLoaded rec) (lb_DataSource b)).
  set (rec1 := rec <| rr_ActiveBufferIndex := rr_LoadInProgress rec |> <| rr_LastFileLoaded := f |>).
  assert (Hi : ∀ now, inv al (wR (zset r (notified now rec1) (kR K)) K)) by (intros; apply inv_swap; try done; by apply copy_str_length).
  eapply (wpk_Notify al r rec1); [by eapply zset_eq| |].
  { intros now. specialize (Hi now). unfold wR in *. cbn. by rewrite zset_zset. }
  cbn. intros now H. rewrite zset_zset. intros I1 Hk1 Ht1. set (K1 := wH _ _) in *. kgo.
  assert (Hr1 : zget (kR K1) r = Some (notified now rec1)) by by eapply zset_eq.
  assert (Hm : bptr rec (rr_LoadInProgress rec) ≠ PNull) by by apply lip_ptr.
  eapply wpk_critical; [done|done|by intros|]. intros l c Hlc. kgo. apply H3.
  + intros X. split_and!; [by apply inv_crit| |done..]. eapply keeps_trans; [by eapply (keeps_reg X K r rec (notified now rec1))|]. exact (Hk1 X).
  + destruct (P _ Hm) as [(bs & Hbs & _) _]. split_and!.
    * erewrite (contents_at _ r (notified now rec1)); [|exact Hr1|exact Hbs]. unfold staged. rewrite Hr. unfold work_ref. rewrite Hd. cbn. rewrite Hr. cbn.
      rewrite Hb. by rewrite <- Eb, Hbs.
    * intros r2 Hne. cbn. apply zset_ne; [apply zget_lt in Hr; lia|done].
    * exists rec, (notified now rec1). split_and!; [done..| |exact Ht1]. split; [done|]. rewrite Hd. split_and!; [done|by intros []|done].
Qed.

Lemma wpk_update_copy al r rec (Q : Z → KS → Prop) K : inv al K → zget (kR K) r = Some rec → inuse rec → rr_DoubleBuffered rec = false → rr_LoadInProgress rec ≠ -1 → rr_LoadPending rec = true → rr_DumpOnly rec = false → rr_UserDefAddr rec = false →
  (held K r → Q CFE_TBL_INFO_TABLE_LOCKED K) → (∀ K', (∀ X, good al X K K') → ¬ held K r → updated r K K' → Q CFE_SUCCESS K') → wpk (update_copy r rec) Q K.
Proof.
  intros I Hr Hu Hd Hn Hp Hdo Hud H2 H3. destruct (i_ent _ _ I _ _ Hr) as (R & P & L & D). pose proof (ro_active _ R) as Ha. pose proof (ro_file _ R) as Hfl.
  destruct (ro_pool _ R Hu Hud) as [P0 _]. unfold update_copy.
  destruct (al_seg _ _ _ _ I Hr) as (q & Hs & Hlen). kgo. apply wpk_walk_fuel. kgo. eapply wpk_lock_loop; [exact Hs|lia| |].
  { intros [?|(h & d & Hin & Hdd & Hlk)]; [done|]. kgo. apply H2. exists h, d. split_and!; [done|by eapply uses_in|done]. }
  intros Hlk _. assert (Hnh : ¬ held K r). { intros (h & d & Hdd & Hus & Hlf). rewrite (Hlk h d) in Hlf; [done|by eapply uses_in|done]. } kgo.
  destruct Ha as [Ha|[_ ?]]; [|congruence]. destruct (zget_buf rec 0 (ro_bufs _ R)) as (b0 & Hb0 & Eb0); [by left|]. eapply wpk_reg_buf; [done|]. kgo.
  destruct (L Hd Hn) as (b & Hb & Htk). eapply wpk_rd_shared; [done|]. kgo.
  destruct (P 0) as [(old & Hold & Hon & _) Hpne]; [intros E; by rewrite E in P0|]. destruct (i_sh _ _ I _ _ Hb) as [Hbp (bs & Hbs & Hbn & _)].
  pose proof (ro_size _ R Hu) as Hsz. rewrite bool_decide_false by (rewrite <- Eb0; by apply not_eq_sym, (Hpne _ _ Hb)). rewrite Eb0 in Hold.
  eapply wpk_memcpy; [lia|exact Hbs|lia|exact Hold|exact Hon|]. set (new := splice 0 _ old).
  assert (Hnl : length new = length old). { apply splice_length. rewrite length_take. lia. }
  assert (IM : inv al (set_mem (lb_BufferPtr b0) new K)) by by eapply inv_mem.
  assert (KM : ∀ X, keeps X K (set_mem (lb_BufferPtr b0) new K)).
  { intros X. apply keeps_mem; [intros E0; rewrite Eb0, E0 in P0; done|]. rewrite <- Eb0. eapply (unlocked_unheld al); [done..|by left|done]. }
  assert (Hmm : mem (set_mem (lb_BufferPtr b0) new K) (lb_BufferPtr b0) = Some new). { rewrite mem_set by (intros E0; rewrite Eb0, E0 in P0; done). by rewrite decide_True. }
  assert (HRL : kR (set_mem (lb_BufferPtr b0) new K) = kR K ∧ kL (set_mem (lb_BufferPtr b0) new K) = kL K ∧ kH (set_mem (lb_BufferPtr b0) new K) = kH K ∧ kept K (set_mem (lb_BufferPtr b0) new K))
    by (by destruct (lb_BufferPtr b0)).
  set (KM1 := set_mem _ new K) in *. destruct HRL as (HRM & HLM & HHM & HTM).
  assert (Hr0 : zget (kR KM1) r = Some rec) by by rewrite HRM.
  assert (HbM : zget (kL KM1) (rr_LoadInProgress rec) = Some b) by by rewrite HLM.
  kgo. eapply wpk_wr_reg_buf; [done..|]. kgo. eapply wpk_wr_at; [done..|]. kgo.
  eapply wpk_wr_buf_at; [done|done|by eapply zset_eq|]. kgo. eapply wpk_wr_shared; [exact HbM|]. kgo.
  match goal with |- wpk _ _ (wL _ (wR (zset r ?x _) _)) => set (rec1 := x) end.
  assert (Ev : rview rec1 = rview rec).
  { unfold rec1. etrans; [eapply rview_set_buf; [by eapply zset_eq|done]|]. etrans; [apply rview_file; cbn; rewrite Hfl; by apply copy_str_length|].
    by eapply rview_set_buf. }
  assert (Hv : rr_DoubleBuffered rec = false → rr_ValidateInactiveIndex rec = -1).
  { intros _. destruct (decide (rr_ValidateInactiveIndex rec = -1)) as [|Hvi]; [done|]. destruct (ro_vlip _ R Hu Hd Hvi) as (_ & Hx & _). congruence. }
  assert (I3 : ∀ now, inv al (wL (zset (rr_LoadInProgress rec) (b <| lb_Taken := false |>) (kL KM1)) (wR (zset r (notified now rec1) (kR KM1)) KM1))).
  { intros now. pose proof (inv_notified _ _ _ _ _ now IM Hr0 Ev Hdo Hv) as I3. eapply (inv_give_back al (wR _ KM1)); [exact I3|exact HbM|].
    by eapply (lip_free al KM1). }
  eapply (wpk_Notify al r rec1); [by eapply zset_eq| |].
  { intros now. specialize (I3 now). unfold wR, wL in *. cbn in *. by rewrite zset_zset. }
  cbn. intros now H. rewrite zset_zset. intros I4 Hk4 Ht4. set (K1 := wH _ _) in *. kgo.
  assert (Hr1 : zget (kR K1) r = Some (notified now rec1)) by by eapply zset_eq.
  assert (Hb1 : bptr rec1 0 = lb_BufferPtr b0) by (rewrite (rview_bptr rec rec1 0 Ev (ro_bufs _ R)); done).
  assert (Ha1 : rr_ActiveBufferIndex rec1 = 0) by exact Ha.
  eapply wpk_critical; [done|done| |].
  { intros _. change (bptr rec1 (rr_ActiveBufferIndex rec1) ≠ PNull). rewrite Ha1, Hb1. intros E0. rewrite Eb0, E0 in P0. done. }
  intros l c Hlc. kgo. apply H3; [|exact Hnh|].
  + intros X. split_and!; [by apply inv_crit| |exact HTM].
    eapply keeps_trans; [apply KM|]. eapply keeps_trans; [|exact (Hk4 X)]. eapply (keeps_reg X KM1 r rec (notified now rec1)); [done| |done].
    intros i _. exact (rview_bptr rec rec1 i Ev (ro_bufs _ R)).
  + split_and!.
    * erewrite (contents_at _ r (notified now rec1) new); [|exact Hr1|].
      2:{ change (mem K1 (bptr rec1 (rr_ActiveBufferIndex rec1)) = Some new). rewrite Ha1, Hb1. exact Hmm. }
      unfold staged. rewrite Hr. unfold work_ref. rewrite Hd. cbn. rewrite Hb, Hbs. cbn. f_equal. unfold new.
      rewrite <- (take_splice (take (Z.to_nat (rr_Size rec)) bs) old) at 2. rewrite length_take. f_equal. lia.
    * intros r2 Hne. cbn. rewrite HRM. apply zset_ne; [apply zget_lt in Hr; lia|done].
    * exists rec, (notified now rec1). split_and!; [done..| |by rewrite <- HHM]. split; [intros i _; exact (rview_bptr rec rec1 i Ev (ro_bufs _ R))|]. rewrite Hd. split_and!; [done| |].
      -- intros p Hne. rewrite Ha, Eb0 in Hne. assert (mem (wS c (wC l K1)) p = mem KM1 p) as -> by (by destruct p). unfold KM1. rewrite mem_set by (intros E0; rewrite Eb0, E0 in P0; done). by rewrite decide_False.
      -- exists b. split; [done|]. cbn. by rewrite HLM.
Qed.

(** Which of the three things an update does. *)
Lemma wpk_UpdateInternal_only al r rec (Q : Z → KS → Prop) K : inv al K → zget (kR K) r = Some rec → inuse rec →
  (rr_LoadPending rec = false ∨ rr_LoadInProgress rec = -1 → Q CFE_TBL_INFO_NO_UPDATE_PENDING K) →
  (rr_LoadPending rec = true → rr_LoadInProgress rec ≠ -1 → rr_DoubleBuffered rec = false → held K r → Q CFE_TBL_INFO_TABLE_LOCKED K) →
  (∀ K', (∀ X, good al X K K') → rr_LoadPending rec = true → rr_LoadInProgress rec ≠ -1 → (rr_DoubleBuffered rec = false → ¬ held K r) → updated r K K' → Q CFE_SUCCESS K') →
  wpk (CFE_TBL_UpdateInternal r) Q K.
Proof.
  intros I Hr Hu H1 H2 H3. destruct (i_ent _ _ I _ _ Hr) as (R & P & L & D).  pose proof (ro_lip _ R) as Hl.
  unfold CFE_TBL_UpdateInternal. kgo. eapply wpk_rd_reg; [done|]. cbn beta. change CFE_TBL_NO_LOAD_IN_PROGRESS with (-1).
  destruct (negb (rr_LoadPending rec) || (rr_LoadInProgress rec =? -1)) eqn:E; [apply wpk_ret, H1; apply orb_true_iff in E as [E|E]; [left; by apply negb_true_iff|right; by apply Z.eqb_eq]|].
  apply orb_false_iff in E as [Hp Hn]. apply negb_false_iff in Hp. apply Z.eqb_neq in Hn. 
  assert (Hdo : rr_DumpOnly rec = false). { destruct (rr_DumpOnly rec) eqn:E; [|done]. apply (ro_dpend _ R) in E. congruence. }
  assert (Hud : rr_UserDefAddr rec = false). { destruct (rr_UserDefAddr rec) eqn:E; [|done]. apply (ro_user _ R) in E. congruence. }
  destruct (rr_DoubleBuffered rec) eqn:Hd; [eapply wpk_update_swap; [done..|]; intros K' G U; by apply H3|]. eapply wpk_update_copy; [done..|by apply H2|]. intros K' G Hh U. by apply H3.
Qed.

Lemma wpk_UpdateInternal al r rec (Q : Z → KS → Prop) K : inv al K → zget (kR K) r = Some rec → inuse rec →
  Q CFE_TBL_INFO_NO_UPDATE_PENDING K → Q CFE_TBL_INFO_TABLE_LOCKED K →
  (∀ K', (∀ X, good al X K K') → updated r K K' → Q CFE_SUCCESS K') →
  wpk (CFE_TBL_UpdateInternal r) Q K.
Proof. intros I Hr Hu H1 H2 H3. eapply wpk_UpdateInternal_only; [done..|]. intros K' G _ _ _ U. by apply H3. Qed.

(** ** Changes of the requests of an entry *)
Definition fview (rec : CFE_TBL_RegistryRec_t) :=
  (rr_OwnerAppId rec, rr_Size rec, rr_HeadOfAccessList rec, rr_LoadInProgress rec, rr_DumpControlIndex rec,
   (rr_DumpOnly rec, rr_DoubleBuffered rec, rr_Name rec, rr_Buffers rec)).

Lemma inv_fview al K r rec rec' : inv al K → zget (kR K) r = Some rec → fview rec' = fview rec → rec_ok rec' → inv al (wR (zset r rec' (kR K)) K).
Proof.
  intros I Hr E R'. destruct (i_ent _ _ I _ _ Hr) as (R & P & L & D). injection E as E1 E2 E3 E4 E5 E6 E7 E8 E9.
  assert (Eb : ∀ i, bptr rec' i = bptr rec i) by (intros; unfold bptr; by rewrite E9).
  eapply inv_reg; [done..| | | | |].
  - split_and!; [done|unfold ptrs_ok; setoid_rewrite Eb; rewrite E2; exact P|unfold lip_ok; rewrite E4, E7; exact L|unfold dump_ok, inuse; rewrite E3, E5; exact D].
  - intros r2 rec2 Hne H2. destruct (i_apart _ _ I r r2 rec rec2) as (A1 & A2 & A3); [congruence|done..|]. unfold apart. rewrite E1, E4, E7, E8.
    split_and!; [done|intros i k; rewrite Eb; apply A2|done].
  - by left.
  - intros h d Hd Hu Hl Hi. unfold lock_ok. rewrite E7, E4. eapply (i_lock _ _ I); try done. by rewrite Hi.
  - intros i c Hc Hs Hi. unfold blk_ok, inuse. rewrite E2, E3, E4, E5, E6, Eb. by eapply (inv_blk_at _ _ _ _ _ _ I Hc Hs Hi).
Qed.
Lemma good_fview al X K r rec rec' : inv al K → zget (kR K) r = Some rec → fview rec' = fview rec → rec_ok rec' → (rr_TableLoadedOnce rec = true → rr_TableLoadedOnce rec' = true) →
  good al X K (wR (zset r rec' (kR K)) K).
Proof.
  intros I Hr E R' Ht. split_and!; [by eapply inv_fview| |done]. eapply keeps_reg; [done| |done]. intros i _. unfold bptr. injection E as E1 E2 E3 E4 E5 E6 E7 E8 E9. by rewrite E9.
Qed.
Lemma good_view al X K r rec rec' : inv al K → zget (kR K) r = Some rec → rview rec' = rview rec → (rr_TableLoadedOnce rec = true → rr_TableLoadedOnce rec' = true) →
  good al X K (wR (zset r rec' (kR K)) K).
Proof.
  intros I Hr E Ht. split_and!; [by eapply inv_view| |done]. eapply keeps_view; [done| |done..]. exact (ro_bufs _ (proj1 (i_ent _ _ I _ _ Hr))).
Qed.
Lemma good_val al X K i v v' : inv al K → zget (kV K) i = Some v → length (vr_TableName v') = CFE_TBL_MAX_FULL_NAME_LEN → good al X K (wV (zset i v' (kV K)) K).
Proof. intros I Hv Hl. split_and!; [by eapply inv_val|by intros ???????|done]. Qed.
Lemma good_updated al X K h d b : inv al K → zget (kH K) h = Some d → good al X K (wH (zset h (d <| ac_Updated := b |>) (kH K)) K).
Proof. intros I Hh. split_and!; [by apply inv_notify|by apply keeps_updated|done]. Qed.

(** Fields of a buffer other than its address. *)
Lemma good_set_lb al X K w b b' : inv al K → lb K w = Some b → lb_BufferPtr b' = lb_BufferPtr b → lb_Taken b' = lb_Taken b → good al X K (set_lb w b' K).
Proof.
  intros I Hb Ep Et. destruct w as [r i|j]; cbn in Hb.
  - destruct (zget (kR K) r) as [rec|] eqn:Hr; [|done]. cbn in Hb. unfold set_lb. rewrite Hr. eapply good_view; [done|done| |done]. by eapply rview_set_buf.
  - split_and!; [|by intros ???????|done]. eapply inv_lb; [done..|]. intros Ht. left. by rewrite Et.
Qed.

Lemma rec_validated rec : rec_ok rec → rec_ok (rec <| rr_ValidateInactiveIndex := -1 |>) ∧ rec_ok (rec <| rr_ValidateActiveIndex := -1 |>).
Proof. intros []. split; constructor; try assumption; cbn; by left || (intros; done). Qed.

(** ** Validation *)
Lemma wpk_call_validation rec p bs (Q : Z → KS → Prop) K : rr_ValidationFuncPtr rec ≠ NULL → mem K p = Some bs → rr_Size rec <= Z.of_nat (length bs) →
  (∀ st, Q st K) → wpk (call_validation rec p) Q K.
Proof. intros Hv Hm Hn HQ. unfold call_validation. rewrite (proj2 (Z.eqb_neq _ _) Hv). kgo. eapply wpk_rd_bytes; [done..|]. by kgo. Qed.

Lemma wpk_validation_done al K i Status (Q : unit → KS → Prop) : inv al K → 0 <= i < CFE_PLATFORM_TBL_MAX_NUM_VALIDATIONS →
  (∀ l, (∀ X, good al X K (wV l K)) → Q tt (wV l K)) → wpk (validation_done Status i) Q K.
Proof.
  intros I Hi HQ. destruct (zget_is_Some (kV K) i) as [v Hv]; [rewrite (i_nV _ _ I); unfold CFE_PLATFORM_TBL_MAX_NUM_VALIDATIONS in *; lia|].
  pose proof (i_val _ _ I _ _ Hv) as Hl. unfold validation_done. apply wpk_bind. destruct (Status =? CFE_SUCCESS); kgo; (eapply wpk_wr_val; [done|]); kgo;
    (eapply wpk_wr_val; [by eapply zset_eq|]); cbn; rewrite zset_zset; apply HQ; intros X; by eapply good_val.
Qed.

Lemma wpk_validate_table al r rec (Q : Z → KS → Prop) K : inv al K → zget (kR K) r = Some rec → inuse rec →
  (rr_ValidateInactiveIndex rec = -1 → rr_ValidateActiveIndex rec = -1 → Q CFE_TBL_INFO_NO_VALIDATION_PENDING K) →
  (∀ K' rec', (∀ X, good al X K K') → zget (kR K') r = Some rec' → rr_HeadOfAccessList rec' = rr_HeadOfAccessList rec → rr_LoadPending rec' = rr_LoadPending rec →
     (rr_ValidateInactiveIndex rec ≠ -1 ∧ rr_ValidateInactiveIndex rec' = -1 ∧ rr_ValidateActiveIndex rec' = rr_ValidateActiveIndex rec ∨
      rr_ValidateInactiveIndex rec' = -1 ∧ rr_ValidateActiveIndex rec ≠ -1 ∧ rr_ValidateActiveIndex rec' = -1) →
     (link_of <$> kH K') = link_of <$> kH K → Q CFE_SUCCESS K') →
  wpk (validate_table r) Q K.
Proof.
  intros I Hr Hu H1 H2. destruct (i_ent _ _ I _ _ Hr) as (R & P & L & D). pose proof (ro_size _ R Hu) as Hsz. unfold validate_table. kgo. eapply wpk_rd_reg; [done|]. cbn beta.
  change CFE_TBL_NO_VALIDATION_PENDING with (-1). destruct (Z.eqb_spec (rr_ValidateInactiveIndex rec) (-1)) as [Ei|Ei]; cbn [negb].
  - destruct (Z.eqb_spec (rr_ValidateActiveIndex rec) (-1)) as [Ea|Ea]; cbn [negb]; [kgo; by apply H1|].
    destruct (ro_va _ R) as [|(Hrg & Hf & Hp)]; [done|]. specialize (Hp Hu).
    assert ((if rr_DoubleBuffered rec then rr_ActiveBufferIndex rec else 0) = rr_ActiveBufferIndex rec) as ->.
    { destruct (rr_DoubleBuffered rec) eqn:Hd; [done|]. destruct (ro_active _ R) as [->|[_ ?]]; congruence. }
    destruct (zget_buf rec (rr_ActiveBufferIndex rec) (ro_bufs _ R)) as (b & Hb & Eb); [destruct (ro_active _ R); lia|]. kgo. eapply wpk_reg_buf; [done|]. kgo.
    destruct (P _ Hp) as [(bs & Hm & Hn & _) _]. rewrite Eb in Hm. eapply wpk_call_validation; [done..|]. intros st. kgo. eapply wpk_validation_done; [done..|].
    intros l Hg. kgo. eapply wpk_wr_reg; [exact Hr|]. kgo. eapply H2; [|by eapply zset_eq|done..|by right|done]. intros X. eapply good_step; [apply Hg|].
    eapply (good_fview al X (wV l K) r rec); [exact (proj1 (Hg X))|done|done|by apply rec_validated|done].
  - destruct (ro_vi _ R) as [|(Hrg & Hf)]; [done|]. set (w := if rr_DoubleBuffered rec then _ else _).
    assert (∃ b bs, lb K w = Some b ∧ mem K (lb_BufferPtr b) = Some bs ∧ rr_Size rec <= Z.of_nat (length bs)) as (b & bs & Hb & Hm & Hn).
    { unfold w. destruct (rr_DoubleBuffered rec) eqn:Hd.
      - destruct (ro_pool _ R Hu (double_user _ R Hd)) as [P0 P1]. specialize (P1 Hd). rewrite inactive_eq by done.
        destruct (zget_buf rec (1 - rr_ActiveBufferIndex rec) (ro_bufs _ R)) as (b & Hb & Eb); [destruct (ro_active _ R) as [->|[-> _]]; lia|].
        assert (is_pool (bptr rec (1 - rr_ActiveBufferIndex rec))) as Hp by (destruct (ro_active _ R) as [->|[-> _]]; done).
        destruct (P (1 - rr_ActiveBufferIndex rec)) as [(bs & Hm & Hn & _) _]; [intros E; by rewrite E in Hp|]. exists b, bs. cbn. rewrite Hr. cbn. by rewrite <- Eb.
      - destruct (ro_vlip _ R Hu Hd Ei) as (Hl & _). destruct (L Hd Hl) as (b & Hb & _). destruct (i_sh _ _ I _ _ Hb) as [_ (bs & Hm & Hn & _)]. exists b, bs. split_and!; [done..|lia]. }
    kgo. eapply wpk_rd_lb; [done|]. kgo. eapply wpk_call_validation; [done..|]. intros st. kgo.
    assert (HX : ∀ K1 rec1, (∀ X, good al X K K1) → zget (kR K1) r = Some rec1 → rr_HeadOfAccessList rec1 = rr_HeadOfAccessList rec → rr_LoadPending rec1 = rr_LoadPending rec →
      rr_ValidateActiveIndex rec1 = rr_ValidateActiveIndex rec → (link_of <$> kH K1) = link_of <$> kH K →
      wpk (validation_done st (rr_ValidateInactiveIndex rec)) (λ _, wpk (wr_reg r (λ rec, rec <| rr_ValidateInactiveIndex := -1 |>);; mret CFE_SUCCESS) Q) K1).
    { intros K1 rec1 G1 Hr1 E1 E2 E3 E4. pose proof (proj1 (G1 (λ _, False))) as I1. eapply wpk_validation_done; [done..|]. intros l Hg. kgo. eapply wpk_wr_reg; [exact Hr1|]. kgo.
      eapply H2; [|by eapply zset_eq|done..|by left|done]. intros X. eapply good_step; [|eapply (good_fview al X (wV l K1) r rec1)]; [eapply good_step; [apply G1|apply Hg]|exact (proj1 (Hg X))|done..| |done].
      apply rec_validated. exact (proj1 (i_ent _ _ I1 _ _ Hr1)). }
    apply wpk_when; intros _.
    + eapply wpk_wr_lb; [done|]. kgo. unfold w. unfold w in Hb. destruct (rr_DoubleBuffered rec) eqn:Hd; cbn [set_lb lb] in *.
      * rewrite Hr. rewrite Hr in Hb. cbn in Hb. eapply HX; [|by eapply zset_eq|done..]. intros X. eapply good_view; [done|done|by eapply rview_set_buf|done].
      * eapply (HX _ rec); [|done..]. intros X. eapply (good_set_lb al X K (SharedBuf (rr_LoadInProgress rec))); done.
    + kgo. eapply HX; [|done..]. intros X. by apply good_refl.
Qed.

(** ** Management *)
Lemma wpk_GetStatus al App h (Q : Z → KS → Prop) K : inv al K → app_ok App → 0 <= h → (∀ st, st <= 0 → Q st K) →
  (∀ d rec st, access al K App h d rec →
     st = CFE_TBL_INFO_UPDATE_PENDING ∧ rr_LoadPending rec = true ∨
     st = CFE_TBL_INFO_VALIDATION_PENDING ∧ rr_LoadPending rec = false ∧ (rr_ValidateActiveIndex rec ≠ -1 ∨ rr_ValidateInactiveIndex rec ≠ -1) ∨
     st = CFE_TBL_INFO_DUMP_PENDING ∧ rr_DumpControlIndex rec ≠ -1 → Q st K) →
  wpk (CFE_TBL_GetStatus App h) Q K.
Proof.
  intros I Ha Hh Hf Ho. unfold CFE_TBL_GetStatus. kgo. eapply wpk_ValidateAccess; [done..| |].
  { intros st Hst. destruct (Z.eqb_spec st CFE_SUCCESS); [subst; done|]. kgo. apply Hf. lia. }
  intros d rec A. pose proof A as (Hap & Hd & Hu & Hown & Hr & Hi & Hin). kgo. eapply wpk_rd_hdl; [done|]. kgo. eapply wpk_rd_reg; [done|]. kgo.
  change CFE_TBL_NO_VALIDATION_PENDING with (-1). change CFE_TBL_NO_DUMP_PENDING with (-1).
  destruct (rr_LoadPending rec) eqn:E1; [eapply Ho; [done|]; by left|].
  destruct (negb _ || negb _) eqn:E2; [eapply Ho; [done|]; right; left; split_and!; [done..|lia]|].
  destruct (negb (rr_DumpControlIndex rec =? -1)) eqn:E3; [eapply Ho; [done|]; right; right; split; [done|lia]|]. by apply Hf.
Qed.

Lemma good_dump al X K r rec i c c' : inv al K → zget (kR K) r = Some rec → zget (kD K) i = Some c → dc_State c = CFE_TBL_DUMP_PENDING → rr_DumpControlIndex rec = i →
  dc_RegRecPtr c = r → c' = c <| dc_State := CFE_TBL_DUMP_PERFORMED |> →
  good al X K (wD (zset i c' (kD K)) (wR (zset r (rec <| rr_DumpControlIndex := CFE_TBL_NO_DUMP_PENDING |>) (kR K)) K)).
Proof.
  intros I Hr Hc Hs Hi Hrc ->. assert (Hns : dc_State c ≠ CFE_TBL_DUMP_FREE) by congruence. pose proof (inv_blk_at _ _ _ _ _ _ I Hc Hns Hrc Hr) as Hb.
  set (rec' := rec <| rr_DumpControlIndex := _ |>). pose proof (λ k, zset_get (kR K) r k rec' rec Hr) as HzR. pose proof (λ k, zset_get (kD K) i k (c <| dc_State := CFE_TBL_DUMP_PERFORMED |>) c Hc) as HzD.
  split_and!; [|by eapply (keeps_reg X K r rec)|done]. destruct (i_ent _ _ I _ _ Hr) as (R & P & L & D). pose proof I as [? ? ? ? ? ? ? i_links0 i_ent0 i_apart0 i_own0 i_lock0 ? ? i_blk0 i_blne0 ?]. constructor; cbn; try assumption.
  - by rewrite zset_length.
  - by rewrite zset_length.
  - by rewrite (zset_fmap_same _ _ _ _ _ Hr).
  - intros k rec2. rewrite HzR. destruct (decide (k = r)) as [->|Hne].
    + intros [= <-]. split_and!; [destruct R; by constructor|exact P|exact L|by intros ??].
    + intros H2. destruct (i_ent0 _ _ H2) as (R2 & P2 & L2 & D2). split_and!; [done..|]. intros Hu2 Hd2. destruct (D2 Hu2 Hd2) as (c2 & Hc2 & Hs2 & Hr2). exists c2. cbn. rewrite HzD.
      destruct (decide (rr_DumpControlIndex rec2 = i)) as [E|]; [|done]. rewrite E, Hc in Hc2. injection Hc2 as <-. congruence.
  - intros r1 r2 rec1 rec2 Hne. rewrite !HzR. destruct (decide (r1 = r)) as [->|], (decide (r2 = r)) as [->|]; [done|..].
    + intros [= <-] H2. by apply (i_apart0 r r2 rec rec2).
    + intros H1 [= <-]. by apply (i_apart0 r1 r rec1 rec).
    + by apply i_apart0.
  - intros k rec2. rewrite HzR. destruct (decide (k = r)) as [->|]; [intros [= <-]; by apply (i_own0 r rec)|by apply i_own0].
  - intros h d rec2 Hd Hu Hk. rewrite HzR. destruct (decide _) as [E|]; [intros [= <-]; apply (i_lock0 h d rec); try done; by rewrite E|by eauto].
  - intros k c2. rewrite HzD. destruct (decide (k = i)) as [->|Hne].
    + intros [= <-] _. exists rec'. cbn. rewrite Hrc, HzR. rewrite decide_True by done. split; [done|]. destruct Hb as (B1 & B2 & B3 & B4 & B5 & B6 & B7). by split_and!.
    + intros H2 Hs2. destruct (i_blk0 _ _ H2 Hs2) as (rec2 & Hr2 & Hb2). rewrite HzR. destruct (decide (dc_RegRecPtr c2 = r)) as [E|]; [|by eauto].
      exfalso. apply (i_blne0 k i c2 c); congruence.
  - intros i1 i2 c1 c2 Hne. rewrite !HzD. destruct (decide (i1 = i)) as [->|], (decide (i2 = i)) as [->|]; [done|..].
    + intros [= <-] H2 _. by apply (i_blne0 i i2 c c2).
    + intros H1 [= <-] H3 _. by apply (i_blne0 i1 i c1 c).
    + by apply i_blne0.
Qed.

Lemma wpk_DumpToBuffer al App h (Q : Z → KS → Prop) K : inv al K → app_ok App → 0 <= h → (∀ st K', (∀ X, good al X K K') → Q st K') →
  wpk (CFE_TBL_DumpToBuffer App h) Q K.
Proof.
  intros I Ha Hh HQ. assert (HQ0 : ∀ st, Q st K) by (intros; apply HQ; intros; by apply good_refl). unfold CFE_TBL_DumpToBuffer. kgo. eapply wpk_GetStatus; [done..| |].
  { intros st Hst. destruct (Z.eqb_spec st CFE_TBL_INFO_DUMP_PENDING); [subst; done|]. by kgo. }
  intros d rec st A Hst. destruct (Z.eqb_spec st CFE_TBL_INFO_DUMP_PENDING) as [->|]; [|by kgo].
  assert (Hdi : rr_DumpControlIndex rec ≠ -1) by (destruct Hst as [[? _]|[[? _]|[_ ?]]]; done). destruct A as (Hap & Hd & Hu & Hown & Hr & Hi & Hin).
  destruct (i_ent _ _ I _ _ Hr) as (R & P & L & D). destruct (D Hi Hdi) as (c & Hc & Hs & Hrc).
  pose proof (inv_blk_at _ _ _ _ _ _ I Hc ltac:(congruence) Hrc Hr) as (_ & B2 & B3 & B4 & B5 & B6 & B7). pose proof (ro_size _ R Hi) as Hsz.
  kgo. eapply wpk_rd_hdl; [done|]. kgo. eapply wpk_rd_reg; [done|]. kgo. eapply wpk_rd_dump; [done|]. kgo. rewrite B4, B5.
  destruct (L (ro_dump _ R B2) B3) as (b & Hb & Ht). destruct (i_sh _ _ I _ _ Hb) as [Hbp (old & Hold & Hon & _)]. destruct (P 0 B6) as [(bs & Hm & Hn & _) Hne].
  destruct (zget_buf rec 0 (ro_bufs _ R)) as (b0 & Hb0 & Eb0); [by left|]. rewrite Eb0 in Hm.
  eapply wpk_rd_lb; [done|]. kgo. eapply wpk_reg_buf; [done|]. kgo. eapply wpk_memcpy; [lia|exact Hm|lia|exact Hold|lia|]. set (K1 := set_mem _ _ K). kgo.
  apply wpk_gets_any. intros now. kgo.
  assert (E1 : kR K1 = kR K ∧ kL K1 = kL K ∧ kD K1 = kD K ∧ kept K K1) by (unfold K1; by destruct (lb_BufferPtr b)). destruct E1 as (ER & EL & ED & EK).
  assert (G1 : ∀ X, good al X K K1).
  { intros X. split_and!; [|apply keeps_mem; [by intros E; rewrite E in Hbp|by eapply unheld_shared]|done]. eapply inv_mem; [done| |done]. apply splice_length. rewrite length_take. lia. }
  set (w := SharedBuf (rr_LoadInProgress rec)) in *. assert (Hb1 : lb K1 w = Some b) by (cbn; by rewrite EL). eapply (wpk_wr_lb w _ b); [done|]. set (K2 := set_lb _ _ K1).
  assert (G2 : ∀ X, good al X K K2). { intros X. eapply good_step; [apply G1|]. eapply good_set_lb; [exact (proj1 (G1 X))|done..]. }
  kgo. eapply wpk_wr_reg; [cbn; rewrite ER; exact Hr|]. kgo. eapply wpk_wr_dump; [cbn; rewrite ED; exact Hc|]. kgo. apply HQ. intros X. eapply good_step; [apply G2|].
  assert (ER2 : kR K2 = kR K) by exact ER. assert (ED2 : kD K2 = kD K) by exact ED.
  eapply (good_dump al X K2 _ rec _ c); [exact (proj1 (G2 X))|rewrite ER2; exact Hr|rewrite ED2; exact Hc|done..].
Qed.

(** What CFE_TBL_Update does, by the state of the table. *)
Inductive update_step K (App : Z * Z) (h : Z) : Z → KS → Prop :=
| up_refused st : st < 0 → (∀ d rec, ¬ may_use K App h d rec) → update_step K App h st K
| up_nothing d rec : may_use K App h d rec → rr_LoadPending rec = false ∨ rr_LoadInProgress rec = -1 → update_step K App h CFE_TBL_INFO_NO_UPDATE_PENDING K
| up_locked d rec : may_use K App h d rec → rr_LoadPending rec = true → rr_LoadInProgress rec ≠ -1 → rr_DoubleBuffered rec = false → held K (ac_RegIndex d) →
    update_step K App h CFE_TBL_INFO_TABLE_LOCKED K
| up_done d rec K' : may_use K App h d rec → rr_LoadPending rec = true → rr_LoadInProgress rec ≠ -1 → (rr_DoubleBuffered rec = false → ¬ held K (ac_RegIndex d)) →
    updated (ac_RegIndex d) K K' → update_step K App h CFE_SUCCESS K'.

Lemma update_step_success K App h K' : update_step K App h CFE_SUCCESS K' → ∃ d rec, may_use K App h d rec ∧ updated (ac_RegIndex d) K K'.
Proof.
  remember CFE_SUCCESS as st eqn:E. destruct 1 as [st Hst Hn|d rec U Hn|d rec U H1 H2 H3 H4|d rec K' U H1 H2 H3 Hu]; [subst; done|done|done|]. by exists d, rec.
Qed.

Lemma wpk_Update_spec al App h (Q : Z → KS → Prop) K : inv al K → app_ok App → 0 <= h →
  (∀ st K', (∀ X, good al X K K') → update_step K App h st K' → Q st K') → wpk (CFE_TBL_Update App h) Q K.
Proof.
  intros I Ha Hh HQ. assert (G0 : ∀ X, good al X K K) by (intros X; by apply good_refl). unfold CFE_TBL_Update. kgo. eapply wpk_ValidateAccess_only; [done..| |].
  { intros st Hst Hn. destruct (Z.eqb_spec st CFE_SUCCESS); [subst; done|]. kgo. destruct (st <? 0); kgo; (apply HQ; [done|apply up_refused; [done|]; intros d rec A%(may_use_access al); [by apply (Hn d rec)|done]]). }
  intros d rec A. pose proof (proj2 (may_use_access al _ _ _ _ _ I) A) as U0. pose proof A as (Hap & Hd & Hu & Hown & Hr & Hi & Hin). kgo. eapply wpk_rd_hdl; [done|]. kgo. eapply wpk_UpdateInternal_only; [done..| | |].
  - intros Hn. kgo. apply HQ; [done|by eapply up_nothing].
  - intros H1 H2 H3 H4. kgo. apply HQ; [done|by eapply up_locked].
  - intros K' G H1 H2 H3 U. kgo. apply wpk_modify_any; [done|]. kgo. apply HQ; [done|by eapply up_done].
Qed.
Lemma wpk_Update al App h (Q : Z → KS → Prop) K : inv al K → app_ok App → 0 <= h → (∀ st K', (∀ X, good al X K K') → Q st K') → wpk (CFE_TBL_Update App h) Q K.
Proof. intros I Ha Hh HQ. eapply wpk_Update_spec; [done..|]. intros st K' G _. by apply HQ. Qed.
End update.

(** ** Table services: using tables keeps the invariant

    Management, addresses and information about tables. *)

Section use.
Context {PS FS CS : Type} `{Pool : MemPool PS} `{Files : OSFile FS} `{Store : CDSStore CS} `{Cfg : TblCfg}.
Context `{PoolOK : !MemPoolOK PS} `{FilesOK : !OSFileOK FS} `{PoolSt : !TblPoolOK PS} `{StoreOK : !CDSStoreOK CS}.
Abbreviation TG := (CFE_TBL_Global_t PS FS CS).
Abbreviation KS := (core FS CS).
Implicit Types (K : KS) (s : TG) (X : Z → Prop).

Definition all_good al K K' : Prop := ∀ X, good al X K K'.
Lemma all_good_refl al K : inv al K → all_good al K K.
Proof. intros I X. by apply good_refl. Qed.
Lemma all_good_inv al K K' : all_good al K K' → inv al K'.
Proof. intros G. exact (proj1 (G (λ _, False))). Qed.
Lemma all_good_trans al K1 K2 K3 : all_good al K1 K2 → all_good al K2 K3 → all_good al K1 K3.
Proof. intros G1 G2 X. by eapply good_step. Qed.

(** ** Management *)
Definition pending (rec : CFE_TBL_RegistryRec_t) : nat :=
  ((if decide (rr_ValidateInactiveIndex rec = -1)%Z then 0 else 1) + (if decide (rr_ValidateActiveIndex rec = -1)%Z then 0 else 1))%nat.

Lemma wpk_Validate al App h (Q : Z → KS → Prop) K : inv al K → app_ok App → 0 <= h → (∀ st, st ≠ CFE_SUCCESS → Q st K) →
  (∀ d rec K' rec', access al K App h d rec → all_good al K K' → (link_of <$> kH K') = link_of <$> kH K → zget (kR K') (ac_RegIndex d) = Some rec' →
     rr_LoadPending rec' = rr_LoadPending rec → (pending rec' < pending rec)%nat → Q CFE_SUCCESS K') →
  wpk (CFE_TBL_Validate App h) Q K.
Proof.
  intros I Ha Hh Hf Ho. unfold CFE_TBL_Validate. kgo. eapply wpk_ValidateAccess; [done..| |].
  { intros st Hst. destruct (Z.eqb_spec st CFE_SUCCESS); [subst; done|]. kgo. by apply Hf. }
  intros d rec A. pose proof A as (Hap & Hd & Hu & Hown & Hr & Hi & Hin). kgo. eapply wpk_rd_hdl; [done|]. kgo. eapply wpk_validate_table; [done..|by intros; apply Hf|].
  intros K' rec' G Hr' _ Hl Hp Hk. eapply Ho; [done..|]. unfold pending. repeat destruct (decide _); lia.
Qed.

Lemma link_reg K K' h d d' : (link_of <$> kH K') = link_of <$> kH K → zget (kH K) h = Some d → zget (kH K') h = Some d' → ac_RegIndex d' = ac_RegIndex d.
Proof.
  intros E Hd Hd'. assert (zget (link_of <$> kH K') h = zget (link_of <$> kH K) h) as El by by rewrite E. rewrite !zget_fmap, Hd, Hd' in El.
  cbn in El. unfold link_of in El. congruence.
Qed.

Lemma wpk_manage_loop al App h fuel K : inv al K → app_ok App → 0 <= h → (0 < fuel)%nat →
  (∀ d rec, zget (kH K) h = Some d → zget (kR K) (ac_RegIndex d) = Some rec → rr_LoadPending rec = false → (pending rec < fuel)%nat) →
  wpk (manage_loop fuel App h) (λ _ K', all_good al K K') K.
Proof.
  revert K. induction fuel as [|fuel IH]; intros K I Ha Hh Hf Hp; [lia|]. assert (G0 := all_good_refl _ _ I). cbn [manage_loop]. kgo. eapply wpk_GetStatus; [done..| |].
  { intros st Hst. rewrite !(proj2 (Z.eqb_neq st _)) by (intros ->; by apply Hst). by kgo. }
  intros d rec st A Hst. pose proof A as (Hap & Hd & Hu & Hown & Hr & Hi & Hin). destruct Hst as [(-> & _)|[(-> & Hlp & Hv)|(-> & _)]]; kgo.
  - eapply wpk_Update; [done..|]. intros st K' G. kgo. done.
  - eapply wpk_Validate; [done..| |].
    { intros st Hst. rewrite (proj2 (Z.eqb_neq st _)) by done. by kgo. }
    intros d' rec1 K' rec' (_ & Hd' & _ & _ & Hr1 & _) G Hk Hr' Hl Hpd. rewrite Hd in Hd'. injection Hd' as <-. rewrite Hr in Hr1. injection Hr1 as <-. specialize (Hp d rec Hd Hr Hlp).
    kgo. eapply wpk_mono; [apply IH; [by eapply all_good_inv|done..|lia|]|intros st K'' G'; by eapply all_good_trans].
    intros d2 rec2 Hd2 Hr2 _. rewrite (link_reg _ _ _ _ _ Hk Hd Hd2), Hr' in Hr2. injection Hr2 as <-. lia.
  - eapply wpk_DumpToBuffer; [done..|]. by intros.
Qed.

(** Three rounds are enough: at most two validations are pending. *)
Lemma wpk_Manage al App h K : inv al K → app_ok App → 0 <= h → wpk (CFE_TBL_Manage App h) (λ _ K', all_good al K K') K.
Proof. intros. apply wpk_manage_loop; [done..|lia|]. intros d rec _ _ _. unfold pending. repeat destruct (decide _); lia. Qed.

(** ** Information *)
Lemma wpk_count_loop l fuel p c q r n (Q : Z → KS → Prop) K : seg (link_of <$> kH K) r p c l q END → (length l < fuel)%nat →
  Q (n + Z.of_nat (length l)) K → wpk (count_loop fuel c n) Q K.
Proof.
  revert fuel p c n. induction l as [|h l IH]; intros fuel p c n Hs Hf HQ.
  - cbn in Hs. rewrite Z.add_0_r in HQ. destruct Hs as [_ ->], fuel; cbn; by apply wpk_ret.
  - walk_step. destruct fuel as [|fuel]; [cbn in Hf; lia|]. cbn [count_loop]. rewrite end_ne by done. kgo. eapply wpk_rd_hdl; [done|]. cbn beta.
    rewrite <- Hn. eapply IH; [exact Hs0|cbn in Hf; lia|]. cbn [length] in HQ. by replace (n + 1 + Z.of_nat (length l)) with (n + Z.of_nat (S (length l))) by lia.
Qed.

Lemma FindTable_spec name i l k : FindTable_loop name i l = k → k = CFE_TBL_NOT_FOUND ∨
  ∃ rec, i <= k ∧ l !! Z.to_nat (k - i) = Some rec ∧ rr_OwnerAppId rec ≠ NOT_OWNED ∧ cstr name = cstr (rr_Name rec).
Proof.
  revert i. induction l as [|rec l IH]; intros i; cbn; [by left|]. destruct (_ && _) eqn:E.
  - intros <-. apply andb_true_iff in E as [E1 E2]. right. exists rec. rewrite Z.sub_diag. split_and!; [lia|done|lia|]. unfold strcmp_eq in E2. by apply bool_decide_eq_true in E2.
  - intros [->|(rec' & Hk & Hl & ?)]%IH; [by left|]. right. exists rec'. split; [lia|]. split; [|done].
    replace (Z.to_nat (k - i)) with (S (Z.to_nat (k - (i + 1)))) by lia. done.
Qed.
Lemma FindTable_none name i l : 0 <= i → FindTable_loop name i l = CFE_TBL_NOT_FOUND → Forall (λ rec, rr_OwnerAppId rec ≠ NOT_OWNED → cstr name ≠ cstr (rr_Name rec)) l.
Proof.
  revert i. induction l as [|rec l IH]; intros i Hi; cbn; [done|]. destruct (_ && _) eqn:E; [unfold CFE_TBL_NOT_FOUND; lia|]. intros H. constructor; [|apply (IH (i + 1)); [lia|done]].
  intros Ho Hc. unfold strcmp_eq in E. rewrite Hc, bool_decide_true, andb_true_r in E by done. lia.
Qed.
Lemma wpk_FindTable al name (Q : Z → KS → Prop) K : inv al K →
  ((∀ r rec, zget (kR K) r = Some rec → rr_OwnerAppId rec ≠ NOT_OWNED → cstr name ≠ cstr (rr_Name rec)) → Q CFE_TBL_NOT_FOUND K) →
  (∀ r rec, zget (kR K) r = Some rec → rr_OwnerAppId rec ≠ NOT_OWNED → cstr name = cstr (rr_Name rec) → r ≠ CFE_TBL_NOT_FOUND → Q r K) →
  wpk (CFE_TBL_FindTableInRegistry name) Q K.
Proof.
  intros I Hn Hf. unfold CFE_TBL_FindTableInRegistry. kgo. apply wpk_gets. intros s Es. kgo. assert (ER : Registry s = kR K) by exact (f_equal kR Es). rewrite ER.
  destruct (FindTable_spec name 0 (kR K) _ eq_refl) as [E|(rec & Hk & Hl & Ho & Hc)].
  - rewrite E. apply Hn. intros r rec [Hr0 Hr]%zget_Some Ho. apply FindTable_none in E; [|done]. rewrite Forall_lookup in E. by eapply E.
  - apply (Hf _ rec); [|done..|unfold CFE_TBL_NOT_FOUND; lia]. apply zget_Some. by rewrite Z.sub_0_r in Hl.
Qed.

Lemma wpk_GetInfo al info name K : inv al K → wpk (CFE_TBL_GetInfo info name) (λ _ K', K' = K) K.
Proof.
  intros I. unfold CFE_TBL_GetInfo. destruct info as [info|], name as [name|]; [|by apply wpk_ret..]. kgo. eapply wpk_FindTable; [done|intros _; by kgo|].
  intros r rec Hr Ho _ Hne. rewrite (proj2 (Z.eqb_neq _ _) Hne). kgo. eapply wpk_rd_reg; [done|]. kgo. destruct (i_ent _ _ I _ _ Hr) as (R & _).
  destruct (zget_buf rec (rr_ActiveBufferIndex rec) (ro_bufs _ R)) as (b & Hb & _); [destruct (ro_active _ R); lia|]. eapply wpk_reg_buf; [done|]. kgo. apply wpk_walk_fuel. kgo.
  destruct (al_seg _ _ _ _ I Hr) as (q & Hs & Hlen). eapply wpk_count_loop; [exact Hs|lia|]. by kgo.
Qed.

(** ** Contents changed by an application *)
Lemma wpk_modified_loop al l fuel p c q r app (Q : unit → KS → Prop) K : inv al K → seg (link_of <$> kH K) r p c l q END → (length l < fuel)%nat →
  (∀ K', all_good al K K' → Q tt K') → wpk (modified_loop fuel c app) Q K.
Proof.
  revert fuel p c K. induction l as [|h l IH]; intros fuel p c K I Hs Hf HQ.
  - cbn in Hs. assert (Q tt K) as HQK by (by apply HQ, all_good_refl). destruct Hs as [_ ->], fuel; cbn; by apply wpk_ret.
  - walk_step. destruct fuel as [|fuel]; [cbn in Hf; lia|]. cbn [modified_loop]. rewrite end_ne by done. kgo. eapply wpk_rd_hdl; [done|]. kgo. rewrite <- Hn. apply wpk_when; intros _.
    + eapply wpk_wr_hdl; [done|]. eapply IH; [by apply inv_notify| |cbn in Hf; lia|].
      * cbn. rewrite (zset_fmap_same _ _ _ _ _ Hd); [exact Hs0|done].
      * intros K' G. apply HQ. eapply all_good_trans; [|exact G]. intros X. by apply good_updated.
    + eapply IH; [done|exact Hs0|cbn in Hf; lia|done].
Qed.

Lemma wpk_crc_any p n (Q : Z → KS → Prop) K : (p ≠ PNull → ∃ bs, mem K p = Some bs ∧ n <= Z.of_nat (length bs)) → (∀ c, Q c K) → wpk (crc_of p n) Q K.
Proof.
  intros Hp HQ. destruct p as [|a|a]; [apply wpk_ret, HQ|..]; (destruct Hp as (bs & Hm & Hn); [done|]); by eapply wpk_crc.
Qed.
Lemma mark_modified_length f : length f = OS_MAX_PATH_LEN → length (mark_modified f) = OS_MAX_PATH_LEN.
Proof.
  intros Hf. unfold mark_modified. set (g := <[_ := 0]> f). assert (Hg : length g = OS_MAX_PATH_LEN) by (unfold g; by rewrite length_insert).
  rewrite splice_length; [done|]. rewrite Hg. cbn [length]. destruct (Nat.ltb_spec (length (cstr g)) (OS_MAX_PATH_LEN - 4)); unfold OS_MAX_PATH_LEN in *; lia.
Qed.

Lemma crit_ptr rec : rec_ok rec → inuse rec → rr_CriticalTable rec = true → bptr rec (rr_ActiveBufferIndex rec) ≠ PNull.
Proof. intros R Hu Hc E. pose proof (active_ptr _ R Hu (ro_crit _ R Hc)) as Hp. by rewrite E in Hp. Qed.

Lemma wpk_Modified al App h K : inv al K → app_ok App → 0 <= h → wpk (CFE_TBL_Modified App h) (λ _ K', all_good al K K') K.
Proof.
  intros I Ha Hh. pose proof (all_good_refl _ _ I) as G0. unfold CFE_TBL_Modified. kgo. eapply wpk_ValidateAccess; [done..| |].
  { intros st Hst. destruct (Z.eqb_spec st CFE_SUCCESS); [subst; done|]. by kgo. }
  intros d rec (Hap & Hd & Hu & Hown & Hr & Hi & Hin). destruct (i_ent _ _ I _ _ Hr) as (R & P & _). kgo. eapply wpk_rd_hdl; [done|]. kgo. eapply wpk_rd_reg; [done|]. kgo.
  eapply wpk_critical; [done..|by apply crit_ptr|]. intros l c Hl. set (K1 := wS c (wC l K)). assert (G1 : all_good al K K1) by (intros X; split_and!; [by apply inv_crit|by intros ???????|done]).
  pose proof (all_good_inv _ _ _ G1) as I1. kgo. apply wpk_gets_any. intros now. kgo. eapply wpk_wr_reg; [exact Hr|]. kgo.
  destruct (zget_buf rec (rr_ActiveBufferIndex rec) (ro_bufs _ R)) as (b & Hb & Eb); [destruct (ro_active _ R); lia|]. eapply wpk_reg_buf; [done|]. kgo. apply wpk_crc_any.
  { intros Hne. rewrite <- Eb in *. destruct (P _ Hne) as [(bs & Hm & Hn & _) _]. by exists bs. }
  intros crc. kgo. eapply wpk_wr_buf_at; [done|exact Hr|exact Hb|]. kgo. eapply wpk_wr_at; [done|exact Hr|]. kgo. apply wpk_walk_fuel. kgo.
  match goal with |- wpk _ _ (wR (zset _ ?x _) _) => set (rec1 := x) end.
  assert (G2 : all_good al K1 (wR (zset (ac_RegIndex d) rec1 (kR K1)) K1)).
  { intros X. eapply good_view; [done|exact Hr| |done]. unfold rec1. etrans; [apply rview_file; cbn; rewrite (ro_file _ R); by apply mark_modified_length, (ro_file _ R)|].
    etrans; [by eapply rview_set_buf|done]. }
  destruct (al_seg _ _ _ _ I Hr) as (q & Hs & Hlen). eapply (wpk_modified_loop al _ _ _ _ _ _ _ _ (wR (zset (ac_RegIndex d) rec1 (kR K1)) K1)); [by eapply all_good_inv|exact Hs|cbn; lia|].
  intros K' G. kgo. eapply all_good_trans; [exact G1|]. by eapply all_good_trans.
Qed.

Lemma wpk_NotifyByMessage al App h m c q K : inv al K → app_ok App → 0 <= h → wpk (CFE_TBL_NotifyByMessage App h m c q) (λ _ K', all_good al K K') K.
Proof.
  intros I Ha Hh. pose proof (all_good_refl _ _ I) as G0. unfold CFE_TBL_NotifyByMessage. kgo. eapply wpk_ValidateAccess; [done..| |].
  { intros st Hst. destruct (Z.eqb_spec st CFE_SUCCESS); [subst; done|]. by kgo. }
  intros d rec (Hap & Hd & Hu & Hown & Hr & Hi & Hin). kgo. eapply wpk_rd_hdl; [done|]. kgo. eapply wpk_rd_reg; [done|]. kgo. destruct (_ =? _); kgo; [|done].
  eapply wpk_wr_reg; [done|]. kgo. intros X. by eapply good_view.
Qed.

(** ** Addresses *)
Lemma wpk_GetNext al h d rec (Q : Z → KS → Prop) K : inv al K → zget (kH K) h = Some d → zget (kR K) (ac_RegIndex d) = Some rec → (∀ st, Q st K) → wpk (CFE_TBL_GetNextNotification h) Q K.
Proof. intros I Hd Hr HQ. unfold CFE_TBL_GetNextNotification. kgo. eapply wpk_rd_hdl; [done|]. kgo. eapply wpk_rd_reg; [done|]. by kgo. Qed.

Definition locked (rec : CFE_TBL_RegistryRec_t) (d : CFE_TBL_AccessDescriptor_t) : CFE_TBL_AccessDescriptor_t :=
  d <| ac_LockFlag := true |> <| ac_BufferIndex := rr_ActiveBufferIndex rec |>.

Lemma inv_address al K h d rec : inv al K → zget (kH K) h = Some d → zget (kR K) (ac_RegIndex d) = Some rec → inv al (wH (zset h (locked rec d) (kH K)) K).
Proof.
  intros I Hd Hr. destruct (i_ent _ _ I _ _ Hr) as (R & _). eapply inv_hdl; [done..|]. intros _ _ rec' Hr'. cbn in Hr'. rewrite Hr in Hr'. injection Hr' as <-. split; cbn; [apply (ro_active _ R)|].
  intros Hdb. pose proof (ro_lip _ R) as Hl. rewrite Hdb in Hl. destruct (ro_active _ R); lia.
Qed.

(** The address is the one of the active contents, and stays so for the other handles. *)
Lemma wpk_GetAddressInternal al p h app (Q : Z * tptr → KS → Prop) K : inv al K → 0 <= h → (∀ st, st < 0 → Q (st, p) K) →
  (∀ d rec st K', zget (kH K) h = Some d → ac_UsedFlag d = true → app = ac_AppId d ∨ app = kTask K → zget (kR K) (ac_RegIndex d) = Some rec → (∀ X : Z → Prop, X h → good al X K K') →
     zget (kH K') h = Some (locked rec d <| ac_Updated := false |>) → kR K' = kR K → (∀ q, mem K' q = mem K q) →
     st = (if negb (rr_TableLoadedOnce rec) then CFE_TBL_ERR_NEVER_LOADED else if ac_Updated d then CFE_TBL_INFO_UPDATED else CFE_SUCCESS) →
     Q (st, bptr rec (rr_ActiveBufferIndex rec)) K') →
  wpk (CFE_TBL_GetAddressInternal p h app) Q K.
Proof.
  intros I Hh Hf Ho. unfold CFE_TBL_GetAddressInternal. kgo. eapply wpk_ValidateHandle; [done..| |].
  { intros st Hst _. destruct (Z.eqb_spec st CFE_SUCCESS); [subst; done|]. kgo. by apply Hf. }
  intros d Hd Hu. kgo. eapply wpk_rd_hdl; [done|]. kgo. eapply wpk_CheckAccess; [done| |].
  { intros st Hst _. destruct (Z.eqb_spec st CFE_SUCCESS); [subst; done|]. kgo. by apply Hf. }
  intros Hap. kgo. destruct (used_reg _ _ _ _ I Hd Hu) as (rec & Hr & Hi & Hin). eapply wpk_rd_reg; [done|]. cbn beta. destruct (rr_OwnerAppId rec =? _); [kgo; by apply Hf|].
  destruct (i_ent _ _ I _ _ Hr) as (R & _). kgo. eapply wpk_wr_hdl; [done|]. kgo. eapply wpk_wr_hdl; [by eapply zset_eq|]. cbn [kH wH]. rewrite zset_zset. fold (locked rec d).
  change (wH (zset h (locked rec d) (kH K)) (wH (zset h _ (kH K)) K)) with (wH (zset h (locked rec d) (kH K)) K).
  destruct (zget_buf rec (rr_ActiveBufferIndex rec) (ro_bufs _ R)) as (b & Hb & Eb); [destruct (ro_active _ R); lia|]. kgo. eapply wpk_reg_buf; [done|]. kgo.
  unfold CFE_TBL_GetNextNotification. kgo. eapply wpk_rd_hdl; [by eapply zset_eq|]. kgo. eapply wpk_rd_reg; [exact Hr|]. kgo. eapply wpk_wr_hdl; [by eapply zset_eq|]. cbn [kH wH]. rewrite zset_zset. kgo.
  rewrite <- Eb. eapply Ho; [done|done|done|done| |by eapply zset_eq|done..]. intros X HX.
  pose proof (inv_address _ _ _ _ _ I Hd Hr) as I1. split_and!; [| |done].
  - assert (zget (kH (wH (zset h (locked rec d) (kH K)) K)) h = Some (locked rec d)) as Hd1 by by eapply zset_eq. pose proof (inv_notify _ _ _ _ false I1 Hd1) as I2.
    cbn [kH wH] in I2. rewrite zset_zset in I2. exact I2.
  - eapply (keeps_hdl X K h d); [done|by left].
Qed.

Lemma wpk_ReleaseAddress al App h K : inv al K → app_ok App → 0 <= h → wpk (CFE_TBL_ReleaseAddress App h) (λ _ K', ∀ X : Z → Prop, X h → good al X K K') K.
Proof.
  intros I Ha Hh. unfold CFE_TBL_ReleaseAddress. kgo. eapply wpk_ValidateAccess; [done..| |].
  { intros st Hst. destruct (Z.eqb_spec st CFE_SUCCESS); [subst; done|]. kgo. intros. by apply good_refl. }
  intros d rec (Hap & Hd & Hu & Hown & Hr & Hi & Hin). kgo. eapply wpk_wr_hdl; [done|]. kgo. assert (I1 : inv al (wH (zset h (d <| ac_LockFlag := false |>) (kH K)) K)) by by eapply inv_hdl.
  eapply wpk_GetNext; [done|by eapply zset_eq|exact Hr|]. intros st X HX. split_and!; [done| |done]. eapply keeps_hdl; [done|by left].
Qed.

Lemma wpk_get_addresses al hs app st K : inv al K → Forall (λ h, 0 <= h) hs → wpk (get_addresses hs app st) (λ _ K', ∀ X : Z → Prop, (∀ h, h ∈ hs → X h) → good al X K K') K.
Proof.
  revert st K. induction hs as [|h hs IH]; intros st K I Hp; cbn [get_addresses]; [kgo; intros; by apply good_refl|]. apply Forall_cons in Hp as [Hh Hp].
  assert (Hnext : ∀ K1 st0 (p : tptr), (∀ X : Z → Prop, X h → good al X K K1) → inv al K1 →
    wpk ('(Status, ps) ← get_addresses hs app (if st =? CFE_SUCCESS then st0 else st); mret (Status, p :: ps)) (λ _ K', ∀ X : Z → Prop, (∀ h', h' ∈ h :: hs → X h') → good al X K K') K1).
  { intros K1 st0 p G I1. kgo. eapply wpk_mono; [by apply IH|]. intros [st1 ps] K2 G2. kgo. intros X HX. eapply good_step; [apply G, HX, list_elem_of_here|].
    apply G2. intros k Hk. by apply HX, list_elem_of_further. }
  apply wpk_bind. eapply wpk_GetAddressInternal; [done..| |].
  - intros st0 _. apply Hnext; [intros; by apply good_refl|done].
  - intros d rec st0 K' _ _ _ _ G _ _ _ _. apply Hnext; [done|]. exact (proj1 (G (λ _, True) (Logic.I))).
Qed.
Lemma wpk_release_addresses al App hs st K : inv al K → app_ok App → Forall (λ h, 0 <= h) hs →
  wpk (release_addresses App hs st) (λ _ K', ∀ X : Z → Prop, (∀ h, h ∈ hs → X h) → good al X K K') K.
Proof.
  revert st K. induction hs as [|h hs IH]; intros st K I Ha Hp; cbn [release_addresses]; [kgo; intros; by apply good_refl|]. apply Forall_cons in Hp as [Hh Hp].
  kgo. eapply wpk_mono; [by apply wpk_ReleaseAddress|]. cbn beta. intros st0 K1 G. eapply wpk_mono; [apply IH; [exact (proj1 (G (λ _, True) (Logic.I)))|done..]|].
  cbn beta. intros _ K2 G2 X HX. eapply good_step; [apply G, HX, list_elem_of_here|]. apply G2. intros k Hk. by apply HX, list_elem_of_further.
Qed.
End use.
