(* ===== verification/TblRemove.v ===== *)
(** * Table services: removing handles keeps the invariant

    A handle is taken from the access list of its table; with the last one the buffers
    of the table go back to the pool. *)
From S2P Require Import Prelude Config Msg ResourceId Cstring EsApp TimeApi SbState TblConfig EsCrc FsFile TblState TblInternal TblApi TblLinks TblCore TblInv TblOps TblUpdate.
Import ListNotations.

(** ** Descriptors *)

Definition unlinkH (h p n : Z) (H : list CFE_TBL_AccessDescriptor_t) : list CFE_TBL_AccessDescriptor_t :=
  let H := if p =? END then H else zalter (λ d, d <| ac_NextLink := n |>) p H in
  let H := if n =? END then H else zalter (λ d, d <| ac_PrevLink := p |>) n H in
  zalter (λ d, d <| ac_UsedFlag := false |>) h H.

Lemma zalter_fmap {A B} (f : A → B) (g : A → A) (k : B → B) i l : (∀ x, f (g x) = k (f x)) → f <$> zalter g i l = zalter k i (f <$> l).
Proof. intros E. unfold zalter. rewrite zget_fmap. destruct (zget l i) as [x|]; cbn; [|done]. by rewrite zset_fmap, E. Qed.

Lemma link_unlink r h p n H : link_of <$> unlinkH h p n H = unlink r h p n (link_of <$> H).
Proof.
  unfold unlinkH, unlink, set_used, set_prev, set_next. cbv zeta. rewrite (zalter_fmap _ _ (λ x, mkLink false (l_reg x) (l_prev x) (l_next x))) by done. f_equal.
  destruct (n =? END); [|rewrite (zalter_fmap _ _ (λ x, mkLink (l_used x) (l_reg x) p (l_next x))) by done; f_equal];
  (destruct (p =? END); [done|]; by rewrite (zalter_fmap _ _ (λ x, mkLink (l_used x) (l_reg x) (l_prev x) n)) by done).
Qed.

(** What is not a link. *)
Definition dview (d : CFE_TBL_AccessDescriptor_t) := (ac_AppId d, ac_RegIndex d, ac_LockFlag d, ac_Updated d, ac_BufferIndex d).

Lemma zalter_view {A B} (f : A → B) (g : A → A) i k l : (∀ x, f (g x) = f x) → f <$> zget (zalter g i l) k = f <$> zget l k.
Proof. intros E. rewrite zalter_get. destruct (decide (k = i)); [|done]. destruct (zget l k); cbn; by rewrite ?E. Qed.
Lemma unlinkH_view h p n H k : dview <$> zget (unlinkH h p n H) k = dview <$> zget H k.
Proof.
  unfold unlinkH. cbv zeta. rewrite zalter_view by done. destruct (n =? END); [|rewrite zalter_view by done]; (destruct (p =? END); [done|]; by rewrite zalter_view).
Qed.
Lemma unlinkH_used h p n H k : ac_UsedFlag <$> zget (unlinkH h p n H) k = if decide (k = h) then (λ _, false) <$> zget H k else ac_UsedFlag <$> zget H k.
Proof.
  unfold unlinkH. cbv zeta. set (H1 := if p =? END then H else _). set (H2 := if n =? END then H1 else _).
  assert (E : ac_UsedFlag <$> zget H2 k = ac_UsedFlag <$> zget H k). { unfold H2, H1. destruct (n =? END), (p =? END); rewrite ?zalter_view by done; done. }
  rewrite zalter_get. destruct (decide (k = h)); [|done]. destruct (zget H2 k), (zget H k); cbn in *; congruence.
Qed.
Lemma unlinkH_length h p n H : length (unlinkH h p n H) = length H.
Proof. unfold unlinkH. cbv zeta. rewrite zalter_length. destruct (n =? END), (p =? END); by rewrite ?zalter_length. Qed.

(** A descriptor after and before. *)
Lemma unlinkH_inv h p n H k e : zget (unlinkH h p n H) k = Some e → ∃ d, zget H k = Some d ∧ dview e = dview d ∧ ac_UsedFlag e = if decide (k = h) then false else ac_UsedFlag d.
Proof.
  intros He. pose proof (unlinkH_view h p n H k) as Ev. pose proof (unlinkH_used h p n H k) as Eu. rewrite He in Ev, Eu. destruct (zget H k) as [d|]; cbn in Ev; [|done].
  injection Ev as E1 E2 E3 E4 E5. exists d. unfold dview. split_and!; [done|congruence|]. destruct (decide (k = h)); cbn in Eu; congruence.
Qed.
Lemma unlinkH_fwd h p n H k d : zget H k = Some d → ∃ e, zget (unlinkH h p n H) k = Some e ∧ dview e = dview d ∧ ac_UsedFlag e = if decide (k = h) then false else ac_UsedFlag d.
Proof.
  intros Hd. assert (is_Some (zget (unlinkH h p n H) k)) as [e He].
  { pose proof (unlinkH_view h p n H k) as Ev. rewrite Hd in Ev. destruct (zget (unlinkH h p n H) k); [by eexists|done]. }
  exists e. split; [done|]. destruct (unlinkH_inv _ _ _ _ _ _ He) as (d' & Hd' & ?). rewrite Hd in Hd'. by injection Hd' as <-.
Qed.

(** The neighbours of a descriptor exist. *)
Lemma link_nbrs al H heads r c h p n : links_ok al H heads → zget heads r = Some c → zget H h = Some (mkLink true r p n) →
  (p = END ∨ is_Some (zget H p)) ∧ (n = END ∨ is_Some (zget H n)).
Proof.
  intros Hok Hr Hh. destruct (lo_used _ _ _ Hok _ _ Hh eq_refl) as [_ Hin]. cbn in Hin. destruct (lo_seg _ _ _ Hok _ _ Hr) as [q Hs].
  apply list_elem_of_split in Hin as (l1 & l2 & El). rewrite El in Hs. apply seg_app in Hs as (m & n' & Hs1 & Hs2). cbn in Hs2. destruct Hs2 as (-> & n2 & Hz & Hs2).
  rewrite Hh in Hz. injection Hz as -> ->. split.
  - destruct (seg_last _ _ _ _ _ _ _ Hs1) as [(_ & <- & _)|(l' & ->)]; [by left|right]. destruct (seg_in _ _ _ _ _ _ _ m Hs1) as (? & ? & E); [apply elem_of_app; right; by apply list_elem_of_singleton|].
    by rewrite E.
  - destruct (seg_head _ _ _ _ _ _ Hs2) as [[_ ->]|(l' & -> & _)]; [by left|right]. destruct (seg_in _ _ _ _ _ _ _ n2 Hs2) as (? & ? & E); [apply list_elem_of_here|]. by rewrite E.
Qed.

Section remove.
Context {PS FS CS : Type} `{Pool : MemPool PS} `{Files : OSFile FS} `{Store : CDSStore CS} `{Cfg : TblCfg}.
Context `{PoolOK : !MemPoolOK PS} `{FilesOK : !OSFileOK FS} `{PoolSt : !TblPoolOK PS} `{StoreOK : !CDSStoreOK CS}.
Abbreviation TG := (CFE_TBL_Global_t PS FS CS).
Abbreviation KS := (core FS CS).
Implicit Types (K : KS) (s : TG) (X : Z → Prop).

Definition head_set (p n : Z) (rec : CFE_TBL_RegistryRec_t) : CFE_TBL_RegistryRec_t := if p =? END then rec <| rr_HeadOfAccessList := n |> else rec.
Definition unlinked (r h p n : Z) rec K : KS := wH (unlinkH h p n (kH K)) (wR (zset r (head_set p n rec) (kR K)) K).

Lemma head_set_id p n rec : ∃ c, head_set p n rec = rec <| rr_HeadOfAccessList := c |>.
Proof. unfold head_set. destruct (p =? END); [by exists n|]. exists (rr_HeadOfAccessList rec). by destruct rec. Qed.

Lemma rec_unlinked rec c : rec_ok rec → inuse rec → (rr_OwnerAppId rec ≠ NOT_OWNED → c ≠ END) → rec_ok (rec <| rr_HeadOfAccessList := c |>).
Proof.
  intros R Hu Ho. destruct R. constructor; try assumption; cbn; try (intros _; by auto).
  destruct ro_va as [|(? & ? & ?)]; [by left|right]. split; [done|]. split; [done|]. intros _. by auto.
Qed.

Lemma inv_unlink al K r rec h d : inv al K → zget (kH K) h = Some d → ac_UsedFlag d = true → ac_RegIndex d = r → zget (kR K) r = Some rec →
  (rr_OwnerAppId rec ≠ NOT_OWNED → ∃ h' d', h' ∈ al r ∧ h' ≠ h ∧ zget (kH K) h' = Some d' ∧ ac_AppId d' = rr_OwnerAppId rec) →
  (∀ i c, zget (kD K) i = Some c → dc_State c ≠ CFE_TBL_DUMP_FREE → dc_RegRecPtr c = r → ∃ h', h' ∈ al r ∧ h' ≠ h) →
  ∃ l, (∀ k, k ∈ l ↔ k ∈ al r ∧ k ≠ h) ∧ inv (upd_al r l al) (unlinked r h (ac_PrevLink d) (ac_NextLink d) rec K).
Proof.
  intros I Hd Hu Hri Hr Hown Hblk. set (p := ac_PrevLink d). set (n := ac_NextLink d).
  destruct (used_reg _ _ _ _ I Hd Hu) as (rec0 & Hr0 & Hi & _). rewrite Hri, Hr in Hr0. injection Hr0 as <-.
  destruct (links_remove al (link_of <$> kH K) (rr_HeadOfAccessList <$> kR K) r (rr_HeadOfAccessList rec) h p n (i_links _ _ I)) as (l & Hl & Hok).
  { by rewrite zget_fmap, Hr. } { rewrite zget_fmap, Hd. cbn. unfold link_of. by rewrite Hu, Hri. }
  exists l. split; [done|]. destruct (head_set_id p n rec) as [c Ec]. set (rec1 := head_set p n rec) in *.
  assert (Hlinks : links_ok (upd_al r l al) (link_of <$> unlinkH h p n (kH K)) (rr_HeadOfAccessList <$> zset r rec1 (kR K))).
  { rewrite (link_unlink r), zset_fmap. unfold rec1, head_set. destruct (p =? END); [exact Hok|]. cbn. rewrite zset_same; [exact Hok|]. by rewrite zget_fmap, Hr. }
  assert (Hin : (∃ h', h' ∈ al r ∧ h' ≠ h) → c ≠ END).
  { intros (h' & H1 & H2) E. assert (upd_al r l al r = []) as E0. { eapply (lo_end _ _ _ Hlinks r); [|exact E]. rewrite zget_fmap, (zset_eq _ _ _ _ Hr). cbn. by rewrite Ec. }
    rewrite upd_al_eq in E0. subst l. assert (h' ∈ []) as []%elem_of_nil by by apply Hl. }
  pose proof (λ k, zset_get (kR K) r k rec1 rec Hr) as Hz. pose proof I as [? ? ? ? ? ? ? i_links0 i_ent0 i_apart0 i_own0 i_lock0 ? ? i_blk0 i_blne0 ?].
  constructor; cbn; try assumption.
  - by rewrite unlinkH_length.
  - by rewrite zset_length.
  - intros k rec2. rewrite Hz. destruct (decide (k = r)) as [->|]; [|intros H2; exact (i_ent0 _ _ H2)]. intros [= <-]. destruct (i_ent0 _ _ Hr) as (R & P & L & D). rewrite Ec.
    split_and!; [|exact P|exact L|intros _; by apply D]. apply rec_unlinked; [done..|]. intros Ho. apply Hin. destruct (Hown Ho) as (h' & _ & ? & ? & _). by exists h'.
  - intros r1 r2 rec2 rec3 Hne. rewrite !Hz. destruct (decide (r1 = r)) as [->|], (decide (r2 = r)) as [->|]; [done|..].
    + intros [= <-] H2. rewrite Ec. by apply (i_apart0 r r2 rec rec3).
    + intros H1 [= <-]. rewrite Ec. by apply (i_apart0 r1 r rec2 rec).
    + by apply i_apart0.
  - intros k rec2. rewrite Hz. destruct (decide (k = r)) as [->|Hne].
    + intros [= <-]. rewrite Ec. cbn. intros Ho. destruct (Hown Ho) as (h' & d' & H1 & H2 & H3 & H4). destruct (unlinkH_fwd h p n _ _ _ H3) as (e & He & Hv & _).
      exists h', e. rewrite upd_al_eq. split_and!; [by apply Hl|done|]. rewrite <- H4. unfold dview in Hv. congruence.
    + intros H2 Ho. destruct (i_own0 _ _ H2 Ho) as (h' & d' & H3 & H4 & H5). destruct (unlinkH_fwd h p n _ _ _ H4) as (e & He & Hv & _).
      exists h', e. rewrite upd_al_ne by done. split_and!; [done..|]. rewrite <- H5. unfold dview in Hv. congruence.
  - intros k e rec2 He Hue Hle. destruct (unlinkH_inv _ _ _ _ _ _ He) as (d2 & Hd2 & Hv & Hu2). unfold dview in Hv. injection Hv as V1 V2 V3 V4 V5. rewrite V2, Hz.
    rewrite V3 in Hle. destruct (decide (k = h)); [congruence|]. rewrite Hue in Hu2. unfold lock_ok. rewrite V5.
    destruct (decide (ac_RegIndex d2 = r)) as [E|]; [|intros; by apply (i_lock0 k d2 rec2)]. intros [= <-]. rewrite Ec. apply (i_lock0 k d2 rec); [done..|by rewrite E].
  - intros i b Hb Hs. destruct (i_blk0 i b Hb Hs) as (rec2 & H2 & Hk). rewrite Hz. destruct (decide (dc_RegRecPtr b = r)) as [E|]; [|by eauto].
    exists rec1. split; [done|]. rewrite E, Hr in H2. injection H2 as <-. rewrite Ec. destruct Hk as (_ & Hk). split; [|exact Hk]. cbn. apply Hin. by eapply Hblk.
Qed.

Lemma keeps_unlink X K r rec h p n : X h → zget (kR K) r = Some rec → keeps X K (unlinked r h p n rec K).
Proof.
  intros HX Hr k app r' q bs Hk (d & rec' & Hd & Hu & Hl & Ha & Hi & He & Ho & Hp & Hm). destruct (unlinkH_fwd h p n _ _ _ Hd) as (e & He' & Hv & Hu').
  destruct (decide (k = h)) as [->|]; [done|]. injection Hv as V1 V2 V3 V4 V5. destruct (head_set_id p n rec) as [c Ec].
  exists e, (if decide (r' = r) then head_set p n rec else rec'). split_and!; cbn; try congruence.
  - rewrite (zset_get _ _ _ _ _ Hr). by destruct (decide (r' = r)).
  - destruct (decide (r' = r)) as [->|]; [|done]. rewrite Hr in He. injection He as <-. by rewrite Ec.
  - rewrite V5. destruct (decide (r' = r)) as [->|]; [|done]. rewrite Hr in He. injection He as <-. by rewrite Ec.
  - done.
Qed.

(** ** Buffers go back to the pool *)
Lemma inv_free_block al K r rec i b a : inv al K → zget (kR K) r = Some rec → ¬ inuse rec → zget (rr_Buffers rec) i = Some b → lb_BufferPtr b = PPool a →
  inv al (wR (zset r (set_buf i (b <| lb_BufferPtr := PNull |>) rec) (kR K)) (wP (delete a (kP K)) (wM (delete a (kM K)) K))).
Proof.
  intros I Hr Hu Hb Hp. set (rec' := set_buf i _ rec). pose proof (i_ent _ _ I _ _ Hr) as (R & P & L & D). pose proof (λ k, zset_get (kR K) r k rec' rec Hr) as Hz.
  assert (Hi : i = 0 ∨ i = 1) by (apply zget_lt in Hb; rewrite (ro_bufs _ R) in Hb; lia). assert (Ei : bptr rec i = PPool a) by (unfold bptr; by rewrite Hb).
  assert (Hbp : ∀ k, bptr rec' k = if decide (k = i) then PNull else bptr rec k) by (intros; unfold rec'; by rewrite zget_buf_set by (done || apply (ro_bufs _ R))).
  set (K' := wR _ _).
  assert (Hmem : ∀ q n, q ≠ PPool a → mem_ok K q n → mem_ok K' q n).
  { intros q n Hq (bs & Hm & Hn & Hv). exists bs. destruct q as [|c|c]; [done| |done]. cbn. rewrite !lookup_delete_ne by congruence. done. }
  assert (Hother : ∀ r2 rec2 k, r2 ≠ r → zget (kR K) r2 = Some rec2 → bptr rec2 k ≠ PPool a).
  { intros r2 rec2 k Hne H2 E. destruct (i_apart _ _ I r r2 rec rec2) as (_ & A & _); [congruence|done..|]. apply (A i k); [by rewrite Ei|congruence]. }
  assert (Hself : ∀ k, bptr rec' k ≠ PNull → bptr rec' k ≠ PPool a).
  { intros k. rewrite Hbp. destruct (decide (k = i)); [done|]. intros Hn E. pose proof (ro_ptrs _ R) as Hx. assert (k = 0 ∨ k = 1) as Hk.
    { destruct (decide (k = 0)); [by left|]. destruct (decide (k = 1)); [by right|]. by rewrite bptr_out in E by (done || apply (ro_bufs _ R)). }
    assert (k = 0 ∧ i = 1 ∨ k = 1 ∧ i = 0) as [[-> ->]|[-> ->]] by lia; rewrite E, Ei in Hx; by apply Hx. }
  assert (Hshared : ∀ j e, zget (kL K) j = Some e → lb_BufferPtr e ≠ PPool a). { intros j e He. rewrite <- Ei. eapply (P i); [by rewrite Ei|done]. }
  pose proof I as [? ? ? ? ? ? ? i_links0 i_ent0 i_apart0 i_own0 i_lock0 i_sh0 ? i_blk0 i_blne0 ?]. constructor; cbn; try assumption.
  - by rewrite zset_length.
  - by rewrite (zset_fmap_same _ _ _ _ _ Hr).
  - intros k rec2. rewrite Hz. destruct (decide (k = r)) as [->|Hne].
    + intros [= <-]. split_and!; [|intros k Hk; split; [apply Hmem; [by apply Hself|]|]; rewrite Hbp in *; (destruct (decide (k = i)); [done|]); by apply P|exact L|by intros].
      destruct R. constructor; try assumption; cbn; try done.
      * by rewrite zset_length.
      * destruct ro_va as [|(? & ? & ?)]; [by left|right]. split; [done|]. by split.
      * intros k c. rewrite Hbp. destruct (decide (k = i)); [done|]. apply ro_papp.
      * rewrite !Hbp. destruct (decide (0 = i)); [done|]. intros H0. destruct (decide (1 = i)); [|by apply ro_ptrs]. intros E0. by rewrite E0 in H0.
    + intros H2. destruct (i_ent0 _ _ H2) as (R2 & P2 & L2 & D2). split_and!; [done| |done..]. intros q Hq. destruct (P2 q Hq) as [Hm Hs]. split; [|exact Hs]. apply Hmem; [by eapply Hother|done].
  - assert (Ha : ∀ r2 rec2, r2 ≠ r → zget (kR K) r2 = Some rec2 → apart rec' rec2).
    { intros r2 rec2 Hne H2. destruct (i_apart0 r r2 rec rec2) as (A1 & A2 & A3); [congruence|done..|]. split_and!; [exact A1| |exact A3]. intros q k. rewrite Hbp. destruct (decide (q = i)); [done|apply A2]. }
    intros r1 r2 rec2 rec3 Hne. rewrite !Hz. destruct (decide (r1 = r)) as [->|], (decide (r2 = r)) as [->|]; [done|..].
    + intros [= <-] H2. by apply (Ha r2).
    + intros H1 [= <-]. by apply apart_sym, (Ha r1).
    + by apply i_apart0.
  - intros k rec2. rewrite Hz. destruct (decide (k = r)) as [->|]; [|by apply i_own0]. intros [= <-]. by apply (i_own0 r rec).
  - intros h d rec2 Hd Hud Hld. rewrite Hz. destruct (decide (ac_RegIndex d = r)) as [E|]; [|by eauto]. intros [= <-]. apply (i_lock0 h d rec); [done..|by rewrite E].
  - intros j e He. destruct (i_sh0 _ _ He) as [H1 H2]. split; [done|]. apply Hmem; [by eapply Hshared|done].
  - intros q c Hc Hs. destruct (i_blk0 q c Hc Hs) as (rec2 & H2 & Hk). rewrite Hz. destruct (decide (dc_RegRecPtr c = r)) as [E|]; [|by eauto]. rewrite E, Hr in H2. injection H2 as <-. by destruct Hk.
Qed.

Lemma no_users al K r rec : inv al K → zget (kR K) r = Some rec → ¬ inuse rec → ∀ h d, zget (kH K) h = Some d → ac_UsedFlag d = true → ac_RegIndex d ≠ r.
Proof. intros I Hr Hu h d Hd Hud E. destruct (used_reg _ _ _ _ I Hd Hud) as (rec2 & H2 & Hi & _). rewrite E, Hr in H2. injection H2 as <-. done. Qed.

Lemma good_put al X K r rec i b a : inv al K → zget (kR K) r = Some rec → ¬ inuse rec → zget (rr_Buffers rec) i = Some b → lb_BufferPtr b = PPool a →
  good al X K (wR (zset r (set_buf i (b <| lb_BufferPtr := PNull |>) rec) (kR K)) (wP (delete a (kP K)) (wM (delete a (kM K)) K))).
Proof.
  intros I Hr Hu Hb Hp. pose proof (i_ent _ _ I _ _ Hr) as (R & P & _). split_and!; [by apply inv_free_block| |done].
  intros h app r' q bs _ (d & rec2 & Hd & Hud & Hl & Ha & Hi & H2 & Ho & Hq & Hm). assert (Hne : r' ≠ r) by (rewrite <- Hi; by eapply (no_users al K r rec)).
  exists d, rec2. split_and!; try done; cbn. { rewrite (zset_get _ _ _ _ _ Hr). by rewrite decide_False. }
  destruct q as [|c|c]; [done| |done]. cbn. rewrite lookup_delete_ne; [done|]. intros ->. destruct (i_apart _ _ I r r' rec rec2) as (_ & A & _); [done..|].
  apply (A i (ac_BufferIndex d)); unfold bptr at 1; rewrite Hb, Hp; [done|]. by rewrite Hq.
Qed.

(** ** Removing a handle *)
Definition removed al (r h : Z) (l : list Z) K K' : Prop :=
  (∀ k, k ∈ l ↔ k ∈ al r ∧ k ≠ h) ∧ (∀ X : Z → Prop, X h → good (upd_al r l al) X K K') ∧ kH K' = unlinkH h (default END (ac_PrevLink <$> zget (kH K) h)) (default END (ac_NextLink <$> zget (kH K) h)) (kH K) ∧
  kD K' = kD K ∧ rr_OwnerAppId <$> kR K' = rr_OwnerAppId <$> kR K.

(** Links of the descriptor and of the table. *)
Lemma wpk_unlink al r rec h d (Q : unit → KS → Prop) K : inv al K → zget (kH K) h = Some d → ac_UsedFlag d = true → ac_RegIndex d = r → zget (kR K) r = Some rec →
  Q tt (unlinked r h (ac_PrevLink d) (ac_NextLink d) rec K) →
  wpk (if ac_PrevLink d =? CFE_TBL_END_OF_LIST then
          wr_reg r (λ rec, rec <| rr_HeadOfAccessList := ac_NextLink d |>);;
          when (negb (ac_NextLink d =? CFE_TBL_END_OF_LIST)) (wr_hdl (ac_NextLink d) (λ n, n <| ac_PrevLink := CFE_TBL_END_OF_LIST |>))
        else
          wr_hdl (ac_PrevLink d) (λ p, p <| ac_NextLink := ac_NextLink d |>);;
          when (negb (ac_NextLink d =? CFE_TBL_END_OF_LIST)) (wr_hdl (ac_NextLink d) (λ n, n <| ac_PrevLink := ac_PrevLink d |>)))
      (λ _, wpk (wr_hdl h (λ d, d <| ac_UsedFlag := false |>)) Q) K.
Proof.
  intros I Hd Hu Hri Hr HQ. set (p := ac_PrevLink d) in *. set (n := ac_NextLink d) in *.
  destruct (link_nbrs al (link_of <$> kH K) (rr_HeadOfAccessList <$> kR K) r (rr_HeadOfAccessList rec) h p n (i_links _ _ I)) as [Hp Hn].
  { by rewrite zget_fmap, Hr. } { rewrite zget_fmap, Hd. cbn. unfold link_of. by rewrite Hu, Hri. }
  assert (Hwr : ∀ k f (Q' : unit → KS → Prop) K1, is_Some (zget (kH K1) k) → Q' tt (wH (zalter f k (kH K1)) K1) → wpk (wr_hdl k f) Q' K1).
  { intros k f Q' K1 [e He] HQ'. eapply wpk_wr_hdl; [exact He|]. by rewrite <- (zalter_set f k _ e He). }
  assert (Hsome : ∀ k f i (H : list CFE_TBL_AccessDescriptor_t), is_Some (zget H k) → is_Some (zget (zalter f i H) k)).
  { intros k f i H [e He]. rewrite zalter_get, He. destruct (decide (k = i)); by eexists. }
  rewrite zget_fmap, fmap_is_Some in Hp, Hn. assert (Hh : is_Some (zget (kH K) h)) by by eexists.
  unfold unlinked, unlinkH, head_set in HQ. cbv zeta in HQ. destruct (Z.eqb_spec p END) as [Ep|Ep].
  - kgo. eapply wpk_wr_reg; [exact Hr|]. destruct (Z.eqb_spec n END) as [En|En]; cbn [negb when]; kgo.
    + apply Hwr; [done|exact HQ].
    + destruct Hn as [|Hn]; [done|]. apply Hwr; [done|]. apply Hwr; [by apply Hsome|]. rewrite Ep in HQ. exact HQ.
  - destruct Hp as [|Hp]; [done|]. kgo. apply Hwr; [done|].
    assert (HQ' : Q tt (wH (zalter (λ d0, d0 <| ac_UsedFlag := false |>) h (if n =? END then zalter (λ d0, d0 <| ac_NextLink := n |>) p (kH K) else zalter (λ d0, d0 <| ac_PrevLink := p |>) n (zalter (λ d0, d0 <| ac_NextLink := n |>) p (kH K)))) K)).
    { rewrite (zset_same _ _ _ Hr) in HQ. by destruct K. }
    destruct (Z.eqb_spec n END) as [En|En]; cbn [negb when]; kgo.
    + apply Hwr; [by apply Hsome|exact HQ'].
    + destruct Hn as [|Hn]; [done|]. apply Hwr; [by apply Hsome|]. apply Hwr; [by apply Hsome, Hsome|exact HQ'].
Qed.
Lemma wpk_RemoveAccessLink al r rec h d (Q : Z → KS → Prop) K : inv al K → zget (kH K) h = Some d → ac_UsedFlag d = true → ac_RegIndex d = r → zget (kR K) r = Some rec → kReg K = false →
  (rr_OwnerAppId rec ≠ NOT_OWNED → ∃ h' d', h' ∈ al r ∧ h' ≠ h ∧ zget (kH K) h' = Some d' ∧ ac_AppId d' = rr_OwnerAppId rec) →
  (∀ i c, zget (kD K) i = Some c → dc_State c ≠ CFE_TBL_DUMP_FREE → dc_RegRecPtr c = r → ∃ h', h' ∈ al r ∧ h' ≠ h) →
  (∀ st l K', removed al r h l K K' → Q st K') → wpk (CFE_TBL_RemoveAccessLink h) Q K.
Proof.
  intros I Hd Hu Hri Hr Hmx Hown Hblk HQ. destruct (inv_unlink _ _ _ _ _ _ I Hd Hu Hri Hr Hown Hblk) as (l & Hl & I1).
  destruct (used_reg _ _ _ _ I Hd Hu) as (rec0 & Hr0 & Hi & _). rewrite Hri, Hr in Hr0. injection Hr0 as <-. destruct (i_ent _ _ I _ _ Hr) as (R & _).
  set (p := ac_PrevLink d) in *. set (n := ac_NextLink d) in *. destruct (head_set_id p n rec) as [c Ec]. set (rec1 := head_set p n rec) in *.
  assert (Hdone : ∀ st K1, (∀ X, good (upd_al r l al) X (unlinked r h p n rec K) (wReg false K1)) → kH K1 = unlinkH h p n (kH K) → kD K1 = kD K → rr_OwnerAppId <$> kR K1 = rr_OwnerAppId <$> kR K →
    wpk CFE_TBL_UnlockRegistry (λ _, wpk (mret st) Q) K1).
  { intros st K1 G EH ED EO. apply wpk_unlock. kgo. apply (HQ _ l). split_and!; [done| |cbn; by rewrite Hd|done..]. intros X HX. eapply good_step; [|apply G]. split_and!; [done|by apply keeps_unlink|done]. }
  unfold CFE_TBL_RemoveAccessLink. kgo. eapply wpk_rd_hdl; [done|]. kgo. apply wpk_lock; [done|]. kgo. rewrite Hri.
  eapply wpk_mono; [eapply (wpk_unlink al r rec h d _ (wReg true K)); [by apply inv_wReg|done..|]|intros [] K' H'; apply wpk_bind; exact H'].
  fold p n. set (KU := unlinked r h p n rec (wReg true K)). assert (IU : inv (upd_al r l al) KU) by exact (inv_wReg _ _ true I1).
  assert (HrU : zget (kR KU) r = Some rec1) by by eapply zset_eq. kgo. eapply wpk_rd_reg; [exact HrU|]. apply wpk_bind.
  assert (EO : rr_OwnerAppId <$> kR KU = rr_OwnerAppId <$> kR K). { cbn. rewrite zset_fmap. rewrite zset_same; [done|]. rewrite zget_fmap, Hr. cbn. fold rec1. by rewrite Ec. }
  assert (G0 : ∀ K1, (∀ X, good (upd_al r l al) X KU K1) → ∀ X, good (upd_al r l al) X (unlinked r h p n rec K) (wReg false K1)).
  { intros K1 G X. destruct (G X) as (GI & GK & GT & _ & GW). split_and!; [by apply inv_wReg|exact GK|split_and!; [exact GT|done|exact GW]]. }
  destruct (Z.eqb_spec (rr_HeadOfAccessList rec1) END) as [Eh|Eh]; cbn [andb]; [|kgo; apply Hdone; [apply G0; intros; by apply good_refl|done..]].
  destruct (rr_UserDefAddr rec1) eqn:Hud; cbn [negb]; [kgo; apply Hdone; [apply G0; intros; by apply good_refl|done..]|].
  assert (Hnu : ¬ inuse rec1) by (unfold inuse; rewrite Eh; tauto).
  assert (Ef : rr_UserDefAddr rec = false ∧ rr_Buffers rec1 = rr_Buffers rec ∧ rr_DoubleBuffered rec1 = rr_DoubleBuffered rec) by (rewrite Ec in Hud |- *; done).
  destruct Ef as (Eud & Ebf & Edb). destruct (ro_pool _ R Hi Eud) as [P0 P1].
  destruct (zget_buf rec 0 (ro_bufs _ R)) as (b & Hb & Eb); [by left|]. rewrite Eb in P0. destruct (lb_BufferPtr b) as [|a|a] eqn:Ea; [done| |done].
  assert (Hput : ∀ K1 rec2 i b a (Q' : Z → KS → Prop), inv (upd_al r l al) K1 → zget (kR K1) r = Some rec2 → zget (rr_Buffers rec2) i = Some b → lb_BufferPtr b = PPool a →
    (∀ st, Q' st (wP (delete a (kP K1)) (wM (delete a (kM K1)) K1))) → wpk (pool_put (PPool a)) Q' K1).
  { intros K1 rec2 i b2 a2 Q' I2 H2 Hb2 E2 HQ'. destruct (i_ent _ _ I2 _ _ H2) as (_ & P2 & _). assert (Ei : bptr rec2 i = PPool a2) by (unfold bptr; by rewrite Hb2).
    destruct (P2 i) as [Hm _]; [by rewrite Ei|]. rewrite Ei in Hm. destruct Hm as (bs & _ & _ & m & Hm & Hm0). eapply wpk_pool_put; [exact Hm|done|apply HQ']. }
  rewrite <- Ebf in Hb. kgo. eapply wpk_reg_buf; [exact Hb|]. kgo. rewrite Ea. eapply Hput; [exact IU|exact HrU|exact Hb|exact Ea|]. intros st.
  kgo. eapply wpk_wr_reg_buf; [exact HrU|exact Hb|]. set (rec2 := set_buf 0 _ rec1).
  set (K2 := wR (zset r rec2 (kR KU)) (wP (delete a (kP KU)) (wM (delete a (kM KU)) KU))).
  assert (G1 : ∀ X, good (upd_al r l al) X KU K2) by exact (λ X, good_put _ X _ _ _ _ _ _ IU HrU Hnu Hb Ea).
  change (wpk (if rr_DoubleBuffered rec1 then b ← reg_buf rec1 1; Status ← pool_put (lb_BufferPtr b); wr_reg_buf r 1 (λ b, b <| lb_BufferPtr := PNull |>);; mret Status
    else when (negb (rr_LoadInProgress rec1 =? CFE_TBL_NO_LOAD_IN_PROGRESS)) (wr_shared (rr_LoadInProgress rec1) (λ b, b <| lb_Taken := false |>);; wr_reg r (λ rec, rec <| rr_LoadInProgress := CFE_TBL_NO_LOAD_IN_PROGRESS |>));; mret st)
    (λ Status, wpk (CFE_TBL_UnlockRegistry;; mret Status) Q) K2).
  assert (I2 : inv (upd_al r l al) K2) by exact (proj1 (G1 (λ _, False))). assert (Hr2 : zget (kR K2) r = Some rec2) by by eapply zset_eq.
  assert (EO2 : rr_OwnerAppId <$> kR K2 = rr_OwnerAppId <$> kR K). { rewrite <- EO. cbn. fold rec1. by rewrite (zset_fmap_same _ (zset r rec1 (kR K)) r rec1 rec2) by (done || by eapply zset_eq). }
  assert (Hnu2 : ¬ inuse rec2) by exact Hnu. assert (E2 : rr_DoubleBuffered rec2 = rr_DoubleBuffered rec1 ∧ rr_LoadInProgress rec2 = rr_LoadInProgress rec1) by done.
  destruct E2 as [E2d E2l]. destruct (rr_DoubleBuffered rec1) eqn:Hdb.
  - destruct (zget_buf rec 1 (ro_bufs _ R)) as (b1 & Hb1 & Eb1); [by right|]. rewrite <- Edb in P1. specialize (P1 eq_refl). rewrite Eb1 in P1. destruct (lb_BufferPtr b1) as [|a1|a1] eqn:Ea1; [done| |done].
    rewrite <- Ebf in Hb1. assert (Hb12 : zget (rr_Buffers rec2) 1 = Some b1). { change (zget (zset 0 (b <| lb_BufferPtr := PNull |>) (rr_Buffers rec1)) 1 = Some b1). by rewrite zset_ne by lia. }
    kgo. eapply wpk_reg_buf; [exact Hb1|]. kgo. rewrite Ea1. eapply Hput; [exact I2|exact Hr2|exact Hb12|exact Ea1|]. intros st1. kgo. eapply wpk_wr_reg_buf; [exact Hr2|exact Hb12|].
    kgo. apply Hdone; [|done..|].
    + apply G0. intros X. eapply good_step; [apply G1|]. exact (good_put _ X _ _ _ _ _ _ I2 Hr2 Hnu2 Hb12 Ea1).
    + cbn -[rec2]. rewrite <- EO2. by rewrite (zset_fmap_same _ (kR K2) r rec2) by done.
  - change CFE_TBL_NO_LOAD_IN_PROGRESS with (-1). kgo. destruct (Z.eqb_spec (rr_LoadInProgress rec1) (-1)) as [El|El]; cbn [negb when]; kgo.
    + apply Hdone; [by apply G0|done..].
    + destruct (i_ent _ _ I2 _ _ Hr2) as (_ & _ & L2 & _). destruct (L2 E2d El) as (bs & Hbs & _). rewrite E2l in Hbs. eapply wpk_wr_shared; [exact Hbs|]. kgo.
      eapply wpk_wr_reg; [exact Hr2|]. kgo. apply Hdone; [|done..|].
      * apply G0. intros X. eapply good_step; [apply G1|]. eapply (good_unlip _ X K2 r rec2 bs); [done|done|by intros|done..| |done].
        intros i e He Hs E. destruct (i_blk _ _ I2 _ _ He Hs) as (rec3 & H3 & Hk & _). rewrite E, Hr2 in H3. injection H3 as <-. done.
      * cbn -[rec2]. rewrite <- EO2. by rewrite (zset_fmap_same _ (kR K2) r rec2) by done.
Qed.

(** ** An application leaves a table *)
Definition dropped (app : Z) (rec : CFE_TBL_RegistryRec_t) : CFE_TBL_RegistryRec_t :=
  if rr_OwnerAppId rec =? app then rec <| rr_OwnerAppId := NOT_OWNED |> <| rr_Name ::= <[0%nat := 0]> |> else rec.

Lemma inv_dropped al K r rec app : inv al K → zget (kR K) r = Some rec → inv al (wR (zset r (dropped app rec) (kR K)) K).
Proof.
  intros I Hr. unfold dropped. destruct (rr_OwnerAppId rec =? app); [|by rewrite zset_same by done; destruct K].
  destruct (i_ent _ _ I _ _ Hr) as (R & P & L & D). eapply inv_reg; [done|done|done|..].
  - split_and!; [|exact P|exact L|exact D]. pose proof (ro_name _ R). destruct R. constructor; try assumption; cbn; [by rewrite length_insert|done].
  - intros r2 rec2 Hne H2. destruct (i_apart _ _ I r r2 rec rec2) as (A1 & A2 & A3); [congruence|done..|]. split_and!; [exact A1|exact A2|]. by cbn.
  - by right.
  - intros h d Hd Hu Hl Hi. apply (i_lock _ _ I h d rec); [done..|by rewrite Hi].
  - intros i c Hc Hs Hi. exact (inv_blk_at _ _ _ _ _ _ I Hc Hs Hi Hr).
Qed.

Lemma wpk_drop_table al r rec app (Q : unit → KS → Prop) K : inv al K → zget (kR K) r = Some rec → Q tt (wR (zset r (dropped app rec) (kR K)) K) → wpk (drop_table r app) Q K.
Proof.
  intros I Hr HQ. unfold drop_table, dropped in *. kgo. eapply wpk_rd_reg; [done|]. apply wpk_when; intros E; rewrite E in HQ.
  - by eapply wpk_wr_reg.
  - rewrite zset_same in HQ by done. by destruct K.
Qed.

(** Dropping and removing, for a handle of the application itself. *)
Lemma wpk_leave al r rec h d app (Q : unit → KS → Prop) K : inv al K → zget (kH K) h = Some d → ac_UsedFlag d = true → ac_RegIndex d = r → zget (kR K) r = Some rec → kReg K = false →
  ac_AppId d = app → (∀ i c, zget (kD K) i = Some c → dc_State c ≠ CFE_TBL_DUMP_FREE → dc_RegRecPtr c = r → ∃ h', h' ∈ al r ∧ h' ≠ h) →
  (∀ l K', (∀ k, k ∈ l ↔ k ∈ al r ∧ k ≠ h) → (∀ X : Z → Prop, X h → good (upd_al r l al) X K K') → kH K' = unlinkH h (ac_PrevLink d) (ac_NextLink d) (kH K) → kD K' = kD K → Q tt K') →
  wpk (drop_table r app;; _ ← CFE_TBL_RemoveAccessLink h; mret tt) Q K.
Proof.
  intros I Hd Hu Hri Hr Hmx Hap Hblk HQ. kgo. eapply wpk_drop_table; [done..|]. set (rec1 := dropped app rec). set (K1 := wR _ K). pose proof (inv_dropped _ _ _ _ app I Hr) as I1.
  assert (Hr1 : zget (kR K1) r = Some rec1) by by eapply zset_eq. kgo. eapply (wpk_RemoveAccessLink al r rec1 h d); [exact I1|done..| |exact Hblk|].
  - intros Ho. destruct (i_own _ _ I1 _ _ Hr1 Ho) as (h' & d' & H1 & H2 & H3). exists h', d'. split_and!; [done| |done|done]. intros ->. cbn in H2. rewrite Hd in H2. injection H2 as <-.
    unfold rec1, dropped in *. destruct (Z.eqb_spec (rr_OwnerAppId rec) app); [done|]. congruence.
  - intros st l K' (Hl & G & EH & ED & _). kgo. apply (HQ l); [done| | |done].
    + intros X HX. eapply good_step; [|by apply G]. split_and!; [exact I1| |done]. eapply (keeps_reg X K r rec); [done|..]; unfold rec1, dropped; by destruct (_ =? _).
    + cbn in EH. by rewrite Hd in EH.
Qed.

Lemma wpk_Unregister al App h K : inv al K → app_ok App → 0 <= h → kReg K = false → App.2 ≠ kTask K →
  (∀ d i c, zget (kH K) h = Some d → zget (kD K) i = Some c → dc_State c ≠ CFE_TBL_DUMP_FREE → dc_RegRecPtr c = ac_RegIndex d → ∃ h', h' ∈ al (ac_RegIndex d) ∧ h' ≠ h) →
  wpk (CFE_TBL_Unregister App h) (λ _ K', ∃ al', ∀ X : Z → Prop, X h → good al' X K K') K.
Proof.
  intros I Ha Hh Hmx Ht Hblk. unfold CFE_TBL_Unregister. kgo. eapply wpk_ValidateAccess; [done..| |].
  { intros st Hst. destruct (Z.eqb_spec st CFE_SUCCESS); [subst; done|]. cbn [when]. kgo. destruct (st <? 0); kgo; exists al; intros; by apply good_refl. }
  intros d rec (Hap & Hd & Hu & Hown & Hr & Hi & Hin). destruct Hown as [Hown|]; [|done]. kgo. eapply wpk_rd_hdl; [done|].
  eapply (wpk_leave al _ rec h d); [done..|by intros i c; apply Hblk|]. intros l K' Hl G _ _. kgo. by exists (upd_al (ac_RegIndex d) l al).
Qed.

(** ** An application ends *)
Lemma inv_free_dump al K i c : inv al K → zget (kD K) i = Some c → dc_State c ≠ CFE_TBL_DUMP_PENDING → inv al (wD (zset i (c <| dc_State := CFE_TBL_DUMP_FREE |>) (kD K)) K).
Proof.
  intros I Hc Hs. pose proof (λ k, zset_get (kD K) i k (c <| dc_State := CFE_TBL_DUMP_FREE |>) c Hc) as Hz. pose proof I as [? ? ? ? ? ? ? i_links0 i_ent0 i_apart0 i_own0 i_lock0 ? ? i_blk0 i_blne0 ?].
  constructor; cbn; try assumption.
  - by rewrite zset_length.
  - intros r rec Hr. destruct (i_ent0 _ _ Hr) as (R & P & L & D). split_and!; [done..|]. intros Hu Hd. destruct (D Hu Hd) as (c2 & Hc2 & Hs2 & Hr2). exists c2. split; [|done]. cbn. rewrite Hz.
    destruct (decide _) as [E|]; [|done]. rewrite E, Hc in Hc2. by injection Hc2 as <-.
  - intros k c2. rewrite Hz. destruct (decide (k = i)); [intros [= <-]; done|apply i_blk0].
  - intros i1 i2 c1 c2 Hne. rewrite !Hz. destruct (decide (i1 = i)) as [->|], (decide (i2 = i)) as [->|]; [done|by intros [= <-]|by intros _ [= <-]|by apply i_blne0].
Qed.

(** No block with a pending dump is of a table of the application. *)
Definition no_pending K (app : Z) : Prop := ∀ i c rec, zget (kD K) i = Some c → dc_State c = CFE_TBL_DUMP_PENDING → zget (kR K) (dc_RegRecPtr c) = Some rec → rr_OwnerAppId rec ≠ app.
(** A block with a dump is of a table somebody else uses. *)
Definition used_by_other K (app r : Z) : Prop := ∃ h d, zget (kH K) h = Some d ∧ ac_UsedFlag d = true ∧ ac_RegIndex d = r ∧ ac_AppId d ≠ app.
Definition dumps_other K (app : Z) : Prop := ∀ i c rec, zget (kD K) i = Some c → dc_State c ≠ CFE_TBL_DUMP_FREE → zget (kR K) (dc_RegRecPtr c) = Some rec →
  rr_OwnerAppId rec ≠ app → used_by_other K app (dc_RegRecPtr c).

Lemma wpk_clean_dumps al n i app (Q : unit → KS → Prop) K : inv al K → 0 <= i → i + Z.of_nat n = Z.of_nat (length (kD K)) → no_pending K app → dumps_other K app →
  (∀ k c rec, 0 <= k < i → zget (kD K) k = Some c → dc_State c ≠ CFE_TBL_DUMP_FREE → zget (kR K) (dc_RegRecPtr c) = Some rec → rr_OwnerAppId rec ≠ app) →
  (∀ K', all_good al K K' → kH K' = kH K → (∀ k c, zget (kD K') k = Some c → dc_State c ≠ CFE_TBL_DUMP_FREE → used_by_other K' app (dc_RegRecPtr c)) → Q tt K') →
  wpk (clean_dumps n i app) Q K.
Proof.
  revert i K. induction n as [|n IH]; intros i K I Hi Hn Hp Ho Hpre HQ; cbn [clean_dumps].
  - kgo. apply HQ; [by apply all_good_refl|done|]. intros k c Hc Hs. destruct (i_blk _ _ I _ _ Hc Hs) as (rec & Hr & _). eapply Ho; [done..|]. eapply (Hpre k); [apply zget_lt in Hc; lia|done..].
  - destruct (zget_is_Some (kD K) i) as [c Hc]; [lia|]. kgo. eapply wpk_rd_dump; [done|]. kgo. case_bool_decide as Hs.
    + kgo. eapply IH; [done|lia|lia|done..| |done]. intros k c2 rec Hk Hc2 Hs2. destruct (decide (k = i)) as [->|]; [congruence|]. apply (Hpre k); [lia|done..].
    + destruct (i_blk _ _ I _ _ Hc Hs) as (rec & Hr & _). kgo. eapply wpk_rd_reg; [done|]. apply wpk_when; intros E.
      * apply Z.eqb_eq in E. eapply wpk_wr_dump; [done|]. kgo. set (K1 := wD _ K). pose proof (λ k, zset_get (kD K) i k (c <| dc_State := CFE_TBL_DUMP_FREE |>) c Hc) as Hz.
        assert (Hnp : dc_State c ≠ CFE_TBL_DUMP_PENDING) by (intros Hx; by apply (Hp _ _ _ Hc Hx Hr)). pose proof (inv_free_dump _ _ _ _ I Hc Hnp) as I1.
        assert (Hback : ∀ k c2, zget (kD K1) k = Some c2 → dc_State c2 ≠ CFE_TBL_DUMP_FREE → k ≠ i ∧ zget (kD K) k = Some c2).
        { intros k c2. cbn. rewrite Hz. destruct (decide (k = i)); [by intros [= <-]|by split]. }
        eapply IH; [exact I1|lia|cbn; rewrite zset_length; lia|..].
        -- intros k c2 rec2 Hc2 Hs2. destruct (Hback k c2) as [_ Hc3]; [done|congruence|]. by apply (Hp k).
        -- intros k c2 rec2 Hc2 Hs2. destruct (Hback k c2) as [_ Hc3]; [done..|]. by apply (Ho k).
        -- intros k c2 rec2 Hk Hc2 Hs2. destruct (Hback k c2) as [Hne Hc3]; [done..|]. apply (Hpre k); [lia|done..].
        -- intros K' G EH Hd. apply HQ; [|exact EH|done]. eapply all_good_trans; [|exact G]. intros X. split_and!; [exact I1|by intros ???????|done].
      * apply Z.eqb_neq in E. kgo. eapply IH; [done|lia|lia|done..| |done]. intros k c2 rec2 Hk Hc2 Hs2. destruct (decide (k = i)) as [->|]; [congruence|]. apply (Hpre k); [lia|done..].
Qed.

(** A descriptor that is not used. *)
Lemma inv_unused al K h d d' : inv al K → zget (kH K) h = Some d → ac_UsedFlag d = false → link_of d' = link_of d → inv al (wH (zset h d' (kH K)) K).
Proof.
  intros I Hd Hu El. pose proof (λ k, zset_get (kH K) h k d' d Hd) as Hz. assert (Hu' : ac_UsedFlag d' = false) by (unfold link_of in El; congruence).
  pose proof I as [? ? ? ? ? ? ? i_links0 i_ent0 i_apart0 i_own0 i_lock0 ? ? i_blk0 i_blne0 ?]. constructor; cbn; try assumption.
  - by rewrite zset_length.
  - by rewrite (zset_fmap_same _ _ _ _ _ Hd).
  - intros r rec Hr Ho. destruct (i_own0 _ _ Hr Ho) as (k & e & Hin & Hk & Hap). exists k, e. split_and!; [done| |done]. rewrite Hz. destruct (decide (k = h)) as [->|]; [|done].
    destruct (list_hdl _ _ _ _ _ I Hr Hin) as (e' & He' & Hue & _). congruence.
  - intros k e rec. rewrite Hz. destruct (decide (k = h)); [intros [= <-]; congruence|apply i_lock0].
Qed.

Definition not_used_by K (app k : Z) : Prop := ∀ d, zget (kH K) k = Some d → ac_UsedFlag d = true → ac_AppId d ≠ app.

Lemma wpk_clean_handles n i app X K : 0 <= i → i + Z.of_nat n = Z.of_nat (length (kH K)) → app ≠ NOT_OWNED → ∀ al, inv al K → kReg K = false →
  (∀ k d, zget (kH K) k = Some d → ac_AppId d = app → X k) → (∀ k c, zget (kD K) k = Some c → dc_State c ≠ CFE_TBL_DUMP_FREE → used_by_other K app (dc_RegRecPtr c)) →
  (∀ k, k < i → not_used_by K app k) →
  wpk (clean_handles n i app) (λ _ K', ∃ al', good al' X K K' ∧ ∀ k, not_used_by K' app k) K.
Proof.
  revert i K. induction n as [|n IH]; intros i K Hi Hn Happ al I Hmx HX Hblk Hpre; cbn [clean_handles].
  - kgo. exists al. split; [by apply good_refl|]. intros k d Hd. apply (Hpre k); [apply zget_lt in Hd; lia|done].
  - destruct (zget_is_Some (kH K) i) as [d Hd]; [lia|]. kgo. eapply wpk_rd_hdl; [done|]. kgo. apply wpk_when; intros E.
    2:{ eapply IH; [lia|lia|done..|]. intros k Hk. destruct (decide (k = i)) as [->|]; [|apply Hpre; lia]. intros e He Hu. rewrite Hd in He. injection He as <-. rewrite Hu, andb_true_r in E. lia. }
    apply andb_true_iff in E as [E Hu]. apply Z.eqb_eq in E. destruct (used_reg _ _ _ _ I Hd Hu) as (rec & Hr & Hiu & Hin). set (r := ac_RegIndex d) in *.
    assert (Hl0 : ∀ (k : unit → M TG unit) Q, wpk (drop_table r app;; _ ← CFE_TBL_RemoveAccessLink i; mret tt) (λ _, wpk (k tt) Q) K → wpk (drop_table r app;; _ ← CFE_TBL_RemoveAccessLink i; k tt) Q K).
    { intros k Q Hw s Es. specialize (Hw s Es). unfold wp in *. unfold mbind, M_bind in *. destruct (drop_table r app s) as [[u1 s1]|]; [|done]. destruct (CFE_TBL_RemoveAccessLink i s1) as [[u2 s2]|]; [|done].
      cbn in Hw. exact (Hw s2 eq_refl). }
    apply (Hl0 (λ _, wr_hdl i _)). eapply (wpk_leave al r rec i d); [done..| |].
    { intros k c Hc Hs Hrc. destruct (Hblk _ _ Hc Hs) as (h' & d' & H1 & H2 & H3 & H4). exists h'. destruct (used_reg _ _ _ _ I H1 H2) as (_ & _ & _ & Hin'). rewrite H3, Hrc in Hin'. split; [done|].
      intros ->. congruence. }
    intros l K' Hl G EH ED. destruct (unlinkH_fwd i (ac_PrevLink d) (ac_NextLink d) _ _ _ Hd) as (e & He & Hv & Hue). rewrite decide_True in Hue by done. rewrite <- EH in He.
    assert (HXi : X i) by by eapply HX. pose proof (G X HXi) as GX. pose proof (proj1 GX) as I1. eapply wpk_wr_hdl; [exact He|]. set (e' := e <| ac_AppId := CFE_TBL_NOT_OWNED |>). set (K2 := wH (zset i e' (kH K')) K').
    assert (G2 : good (upd_al r l al) X K' K2). { split_and!; [by eapply inv_unused|eapply keeps_hdl; [done|by left]|done]. }
    assert (Hback : ∀ k f, zget (kH K2) k = Some f → ac_UsedFlag f = true ∨ ac_AppId f = app → k ≠ i ∧ ∃ g, zget (kH K) k = Some g ∧ dview f = dview g ∧ ac_UsedFlag f = ac_UsedFlag g).
    { intros k f. cbn. rewrite (zset_get _ _ _ _ _ He). destruct (decide (k = i)) as [->|Hne]; [intros [= <-]; cbn; intros [?|?]; congruence|]. rewrite EH. intros Hf _.
      destruct (unlinkH_inv _ _ _ _ _ _ Hf) as (g & Hg & Hgv & Hgu). rewrite decide_False in Hgu by done. split; [done|]. by exists g. }
    eapply wpk_mono; [eapply (IH (i + 1) K2); [lia| |done|exact (proj1 G2)|..]|].
    + cbn. rewrite zset_length, EH, unlinkH_length. lia.
    + destruct GX as (_ & _ & _ & Em & _). cbn. congruence.
    + intros k f Hf Ha. destruct (Hback k f Hf) as (_ & g & Hg & Hgv & _); [by right|]. eapply HX; [done|]. unfold dview in Hgv. congruence.
    + intros k c. cbn. rewrite ED. intros Hc Hs. destruct (Hblk _ _ Hc Hs) as (h' & d' & H1 & H2 & H3 & H4). assert (Hne : h' ≠ i) by (intros ->; congruence).
      destruct (unlinkH_fwd i (ac_PrevLink d) (ac_NextLink d) _ _ _ H1) as (f & Hf & Hfv & Hfu). rewrite decide_False in Hfu by done. unfold dview in Hfv. injection Hfv as V1 V2 V3 V4 V5.
      exists h', f. cbn. rewrite zset_ne by (lia || done). rewrite EH. split_and!; congruence.
    + intros k Hk f Hf Hfu. destruct (Hback k f Hf) as (Hne & g & Hg & Hgv & Hgu); [by left|]. unfold dview in Hgv. assert (ac_AppId g ≠ app) by (apply (Hpre k); [lia|done|congruence]). congruence.
    + cbn beta. intros _ K3 (al' & G3 & Hfin). exists al'. split; [|done]. eapply good_step; [exact GX|]. by eapply good_step.
Qed.

Lemma wpk_CleanUpApp al app K : inv al K → kReg K = false → app ≠ NOT_OWNED → no_pending K app → dumps_other K app →
  wpk (CFE_TBL_CleanUpApp app) (λ _ K', ∃ al', good al' (λ h, ∃ d, zget (kH K) h = Some d ∧ ac_AppId d = app) K K' ∧ ∀ k, not_used_by K' app k) K.
Proof.
  intros I Hmx Happ Hnp Hdo. unfold CFE_TBL_CleanUpApp. kgo. eapply (wpk_clean_dumps al); [done|lia|rewrite (i_nD _ _ I); unfold CFE_PLATFORM_TBL_MAX_SIMULTANEOUS_LOADS; lia|done..|lia|].
  intros K' G EH Hd. kgo. set (X := λ h, ∃ d, zget (kH K) h = Some d ∧ ac_AppId d = app). pose proof (G X) as GX. pose proof GX as (I1 & _ & _ & Em & _).
  eapply wpk_mono; [eapply (wpk_clean_handles _ 0 app X K'); [lia|rewrite (i_nH _ _ I1); unfold CFE_PLATFORM_TBL_MAX_NUM_HANDLES; lia|done|exact I1|congruence| |exact Hd|]|].
  - intros k d. rewrite EH. intros H1 H2. exists d. exact (conj H1 H2).
  - intros k Hk d Hdk. apply zget_lt in Hdk. lia.
  - cbn beta. intros [] K2 (al' & G2 & Hf). kgo. exists al'. split; [|done]. by eapply good_step.
Qed.
End remove.
