(* ===== verification/TblRegister.v ===== *)
(** * Table services: registration and sharing keep the invariant *)
From Stdlib Require Import String.
From S2P Require Import Prelude Config Msg ResourceId Cstring EsApp TimeApi SbState TblConfig EsCrc FsFile TblState TblInternal TblApi TblLinks TblCore TblInv TblOps TblUpdate TblRemove.
Import ListNotations.

(** ** Names *)

Lemma cstr_nz l : Forall (λ c, c ≠ 0) (cstr l).
Proof. induction l as [|c l IH]; cbn; [done|]. destruct (Z.eqb_spec c 0); [done|]. by constructor. Qed.
Lemma cstr_app_zero a b : Forall (λ c, c ≠ 0) a → cstr (a ++ 0 :: b) = a.
Proof. induction 1 as [|c a Hc _ IH]; cbn; [done|]. rewrite (proj2 (Z.eqb_neq c 0) Hc). by rewrite IH. Qed.
Lemma cstr_length l : (length (cstr l) <= length l)%nat.
Proof. induction l as [|c l IH]; cbn; [done|]. destruct (c =? 0); cbn; lia. Qed.
Lemma cstr_set n l : (length (cstr (<[n := 0%Z]> l)) <= n)%nat.
Proof. revert n. induction l as [|c l IH]; intros [|n]; cbn; try lia. destruct (c =? 0); cbn; [lia|]. by apply le_n_S, IH. Qed.

Lemma cstr_copy_str n d src : (0 < n)%nat → length d = n → (length (cstr src) < n)%nat → cstr (copy_str n d src) = cstr src.
Proof.
  intros Hn Hd Hs. unfold copy_str, strncpy. rewrite take_ge by lia. set (t := replicate _ 0 ++ drop (n - 1) d).
  assert (Ht : ∃ u, <[(n - 1 - length (cstr src))%nat := 0]> t = 0 :: u).
  { assert (Hl : length t = (n - length (cstr src))%nat) by (unfold t; rewrite length_app, length_replicate, length_drop; lia).
    destruct (n - 1 - length (cstr src))%nat as [|m] eqn:E.
    - destruct t as [|c t']; [cbn in Hl; lia|]. by exists t'.
    - exists (<[m := 0]> (replicate m 0 ++ drop (n - 1) d)). unfold t. done. }
  rewrite insert_app_r_alt by lia. destruct Ht as (u & ->). apply cstr_app_zero, cstr_nz.
Qed.

Lemma table_name a b : expand "%s.%s" [AStr a; AStr b] = cstr a ++ 46 :: cstr b ++ [].
Proof. reflexivity. Qed.

Section register.
Context {PS FS CS : Type} `{Pool : MemPool PS} `{Files : OSFile FS} `{Store : CDSStore CS} `{Cfg : TblCfg}.
Context `{PoolOK : !MemPoolOK PS} `{FilesOK : !OSFileOK FS} `{PoolSt : !TblPoolOK PS} `{StoreOK : !CDSStoreOK CS}.
Abbreviation TG := (CFE_TBL_Global_t PS FS CS).
Abbreviation KS := (core FS CS).
Implicit Types (K : KS) (s : TG) (X : Z → Prop).

Lemma wpk_FormTableName name app (Q : list Z → KS → Prop) K : Z.of_nat (length (cstr name)) <= CFE_MISSION_TBL_MAX_NAME_LENGTH →
  (∀ full, (length (cstr full) < CFE_TBL_MAX_FULL_NAME_LEN)%nat → Q full K) → wpk (CFE_TBL_FormTableName name app) Q K.
Proof.
  intros Hn HQ. unfold CFE_TBL_FormTableName, tbl_app_name. kgo. apply wpk_gets_any. intros apps. kgo. rewrite table_name. set (l := cstr _ ++ _).
  assert (Hl : (length l < CFE_TBL_MAX_FULL_NAME_LEN)%nat).
  { unfold l. rewrite app_nil_r, length_app. cbn [length]. pose proof (cstr_set (OS_MAX_API_NAME - 1) (default [] (CFE_ES_GetAppName apps (Some (replicate OS_MAX_API_NAME 0)) app OS_MAX_API_NAME).2)) as Hc.
    unfold CFE_MISSION_TBL_MAX_NAME_LENGTH, CFE_TBL_MAX_FULL_NAME_LEN, OS_MAX_API_NAME in *. lia. }
  rewrite (proj2 (Nat.ltb_lt _ _) Hl). kgo. apply HQ.
  eapply Nat.le_lt_trans; [|exact Hl]. assert (cstr (l ++ replicate (CFE_TBL_MAX_FULL_NAME_LEN - length l) 0) = l) as ->; [|done].
  destruct (CFE_TBL_MAX_FULL_NAME_LEN - length l)%nat eqn:E; [lia|]. apply cstr_app_zero. unfold l. apply Forall_app. split; [apply cstr_nz|]. constructor; [done|]. rewrite app_nil_r. apply cstr_nz.
Qed.

(** ** A new handle in front of an access list *)
Definition linkH (h c : Z) d' (H : list CFE_TBL_AccessDescriptor_t) : list CFE_TBL_AccessDescriptor_t :=
  let H := zset h d' H in if c =? END then H else zalter (λ d, d <| ac_PrevLink := h |>) c H.

Lemma linkH_link h c r d' H : link_of d' = mkLink true r END c → link_of <$> linkH h c d' H = set_prev h c (zset h (mkLink true r END c) (link_of <$> H)).
Proof.
  intros E. unfold linkH, set_prev. cbv zeta. destruct (c =? END); [by rewrite zset_fmap, E|]. rewrite (zalter_fmap _ _ (λ x, mkLink (l_used x) (l_reg x) h (l_next x))) by done. by rewrite zset_fmap, E.
Qed.
Lemma linkH_length h c d' H : length (linkH h c d' H) = length H.
Proof. unfold linkH. cbv zeta. destruct (c =? END); rewrite ?zalter_length; apply zset_length. Qed.
Lemma linkH_get h c d d' H k e : zget H h = Some d → zget (linkH h c d' H) k = Some e →
  (k = h ∧ dview e = dview d' ∧ ac_UsedFlag e = ac_UsedFlag d') ∨ (k ≠ h ∧ ∃ f, zget H k = Some f ∧ dview e = dview f ∧ ac_UsedFlag e = ac_UsedFlag f).
Proof.
  intros Hd He. assert (∃ f, zget (zset h d' H) k = Some f ∧ dview e = dview f ∧ ac_UsedFlag e = ac_UsedFlag f) as (f & Hf & Hv & Hu).
  { unfold linkH in He. cbv zeta in He. destruct (c =? END); [by exists e|]. rewrite zalter_get in He. destruct (decide (k = c)); [|by exists e]. apply fmap_Some in He as (f & Hf & ->). by exists f. }
  rewrite (zset_get _ _ _ _ _ Hd) in Hf. destruct (decide (k = h)) as [->|]; [injection Hf as <-; by left|right]. split; [done|]. by exists f.
Qed.
Lemma linkH_fwd h c d d' H k f : zget H h = Some d → k ≠ h → zget H k = Some f → ∃ e, zget (linkH h c d' H) k = Some e ∧ dview e = dview f ∧ ac_UsedFlag e = ac_UsedFlag f.
Proof.
  intros Hd Hk Hf. unfold linkH. cbv zeta. assert (Hz : zget (zset h d' H) k = Some f) by (rewrite (zset_get _ _ _ _ _ Hd); by rewrite decide_False).
  destruct (c =? END); [by exists f|]. rewrite zalter_get, Hz. destruct (decide (k = c)); by eexists.
Qed.

Definition inserted (r h : Z) rec d' K : KS := wR (zset r (rec <| rr_HeadOfAccessList := h |>) (kR K)) (wH (linkH h (rr_HeadOfAccessList rec) d' (kH K)) K).

Lemma inv_insert al K r rec h d d' : inv al K → zget (kH K) h = Some d → ac_UsedFlag d = false → zget (kR K) r = Some rec → link_of d' = mkLink true r END (rr_HeadOfAccessList rec) →
  ac_LockFlag d' = false → rec_ok (rec <| rr_HeadOfAccessList := h |>) → dump_ok K r (rec <| rr_HeadOfAccessList := h |>) → inv (upd_al r (h :: al r) al) (inserted r h rec d' K).
Proof.
  intros I Hd Hu Hr El Hlk R' D'. set (rec' := rec <| rr_HeadOfAccessList := h |>) in *. pose proof (λ k, zset_get (kR K) r k rec' rec Hr) as Hz. pose proof (zget_lt _ _ _ Hd) as Hh.
  pose proof I as [? ? ? ? ? ? ? i_links0 i_ent0 i_apart0 i_own0 i_lock0 ? ? i_blk0 i_blne0 ?]. constructor; cbn; try assumption.
  - by rewrite linkH_length.
  - by rewrite zset_length.
  - rewrite (linkH_link _ _ r) by done. rewrite zset_fmap. eapply (links_insert al _ _ r _ h (link_of d)); [exact i_links0|by rewrite zget_fmap, Hr|by rewrite zget_fmap, Hd|done].
  - intros k rec2. rewrite Hz. destruct (decide (k = r)) as [->|]; [|intros H2; exact (i_ent0 _ _ H2)]. intros [= <-]. destruct (i_ent0 _ _ Hr) as (R & P & L & D). by split_and!.
  - intros r1 r2 rec2 rec3 Hne. rewrite !Hz. destruct (decide (r1 = r)) as [->|], (decide (r2 = r)) as [->|]; [done|..].
    + intros [= <-] H2. by apply (i_apart0 r r2 rec rec3).
    + intros H1 [= <-]. by apply (i_apart0 r1 r rec2 rec).
    + by apply i_apart0.
  - assert (Hx : ∀ k rec2, zget (kR K) k = Some rec2 → rr_OwnerAppId rec2 ≠ NOT_OWNED → ∃ h' e, h' ∈ upd_al r (h :: al r) al k ∧ zget (linkH h (rr_HeadOfAccessList rec) d' (kH K)) h' = Some e ∧ ac_AppId e = rr_OwnerAppId rec2).
    { intros k rec2 H2 Ho. destruct (i_own0 _ _ H2 Ho) as (h' & f & Hin & Hf & Ha). assert (Hne : h' ≠ h). { intros ->. destruct (list_hdl _ _ _ _ _ I H2 Hin) as (f' & Hf' & Huf & _). congruence. }
      destruct (linkH_fwd _ (rr_HeadOfAccessList rec) _ d' _ _ _ Hd Hne Hf) as (e & He & Hv & _). exists h', e. split_and!; [|done|unfold dview in Hv; congruence].
      unfold upd_al. destruct (Z.eqb_spec k r) as [->|]; [by apply list_elem_of_further|done]. }
    intros k rec2. rewrite Hz. destruct (decide (k = r)) as [->|]; [|by apply Hx]. intros [= <-]. by apply (Hx r rec).
  - intros k e rec2 He Hue Hle. destruct (linkH_get _ _ _ _ _ _ _ Hd He) as [(-> & Hv & _)|(Hne & f & Hf & Hv & Hfu)]; [unfold dview in Hv; congruence|]. unfold dview in Hv. injection Hv as V1 V2 V3 V4 V5.
    rewrite V2, Hz. unfold lock_ok. rewrite V5. rewrite V3 in Hle. rewrite Hfu in Hue. destruct (decide (ac_RegIndex f = r)) as [E|]; [|by apply (i_lock0 k f rec2)]. intros [= <-]. apply (i_lock0 k f rec); [done..|by rewrite E].
  - intros i c Hc Hs. destruct (i_blk0 i c Hc Hs) as (rec2 & H2 & Hk). rewrite Hz. destruct (decide (dc_RegRecPtr c = r)) as [E|]; [|by eauto]. rewrite E, Hr in H2. injection H2 as <-. exists rec'. split; [done|].
    destruct Hk as (_ & Hk). split; [|exact Hk]. cbn. unfold inuse, END. cbn. unfold CFE_TBL_END_OF_LIST. lia.
Qed.

Lemma keeps_insert X K r rec h d d' : zget (kH K) h = Some d → ac_UsedFlag d = false → zget (kR K) r = Some rec → keeps X K (inserted r h rec d' K).
Proof.
  intros Hd Hu Hr k app r' q bs _ (f & rec2 & Hf & Huf & Hl & Ha & Hi & H2 & Ho & Hp & Hm). assert (Hne : k ≠ h) by congruence.
  destruct (linkH_fwd _ (rr_HeadOfAccessList rec) _ d' _ _ _ Hd Hne Hf) as (e & He & Hv & Hue). injection Hv as V1 V2 V3 V4 V5.
  exists e, (if decide (r' = r) then rec <| rr_HeadOfAccessList := h |> else rec2). split_and!; cbn; try congruence.
  - rewrite (zset_get _ _ _ _ _ Hr). by destruct (decide (r' = r)).
  - destruct (decide (r' = r)) as [->|]; [|done]. rewrite Hr in H2. by injection H2 as <-.
  - rewrite V5. destruct (decide (r' = r)) as [->|]; [|done]. rewrite Hr in H2. by injection H2 as <-.
  - done.
Qed.

Lemma FindFreeHandle_spec l i k : FindFreeHandle_loop i l = k → k = CFE_TBL_END_OF_LIST ∨ ∃ d, i <= k ∧ l !! Z.to_nat (k - i) = Some d ∧ ac_UsedFlag d = false.
Proof.
  revert i. induction l as [|d l IH]; intros i; cbn; [by left|]. destruct (ac_UsedFlag d) eqn:E.
  - intros [->|(e & Hi & He & Hu)]%IH; [by left|right]. exists e. split_and!; [lia| |done]. replace (Z.to_nat (k - i)) with (S (Z.to_nat (k - (i + 1)))) by lia. done.
  - intros <-. right. exists d. rewrite Z.sub_diag. split_and!; [lia|done..].
Qed.
Lemma wpk_FindFreeHandle (Q : Z → KS → Prop) K : Q CFE_TBL_END_OF_LIST K → (∀ h d, 0 <= h → zget (kH K) h = Some d → ac_UsedFlag d = false → Q h K) → wpk CFE_TBL_FindFreeHandle Q K.
Proof.
  intros Hn Hf. unfold CFE_TBL_FindFreeHandle. kgo. apply wpk_gets. intros s Es. kgo. assert (EH : Handles s = kH K) by exact (f_equal kH Es). rewrite EH.
  destruct (FindFreeHandle_spec (kH K) 0 _ eq_refl) as [->|(d & Hi & Hd & Hu)]; [done|]. apply (Hf _ d); [lia| |done]. apply zget_Some. by rewrite Z.sub_0_r in Hd.
Qed.

(** ** Sharing *)
Definition shared_desc (app r : Z) rec (d : CFE_TBL_AccessDescriptor_t) : CFE_TBL_AccessDescriptor_t :=
  d <| ac_AppId := app |> <| ac_LockFlag := false |> <| ac_Updated := rr_TableLoadedOnce rec |> <| ac_RegIndex := r |> <| ac_UsedFlag := true |>
    <| ac_PrevLink := CFE_TBL_END_OF_LIST |> <| ac_NextLink := rr_HeadOfAccessList rec |>.

Lemma rec_linked rec h : rec_ok rec → inuse rec → 0 <= h → rec_ok (rec <| rr_HeadOfAccessList := h |>).
Proof.
  intros R Hu Hh. destruct R. constructor; try assumption; cbn; try (intros _; by auto).
  - intros _. unfold inuse. cbn. unfold CFE_TBL_END_OF_LIST. lia.
  - destruct ro_va as [|(? & ? & ?)]; [by left|right]. split; [done|]. split; [done|]. intros _. by auto.
Qed.

Lemma wpk_share_locked al name app h0 (Q : Z * Z → KS → Prop) K : inv al K → (∀ st h, st < 0 → Q (st, h) K) →
  (∀ r rec h d, zget (kR K) r = Some rec → rr_OwnerAppId rec ≠ NOT_OWNED → cstr name = cstr (rr_Name rec) → zget (kH K) h = Some d → ac_UsedFlag d = false →
     let K' := inserted r h rec (shared_desc app r rec d) K in (∀ X, good (upd_al r (h :: al r) al) X K K') → Q (CFE_SUCCESS, h) K') →
  wpk (share_locked name app h0) Q K.
Proof.
  intros I Hf Ho. unfold share_locked. kgo. eapply wpk_FindTable; [done|intros _; kgo; by apply Hf|]. intros r rec Hr Hown Hn Hne. rewrite (proj2 (Z.eqb_neq _ _) Hne). kgo.
  apply wpk_FindFreeHandle; [kgo; by apply Hf|]. intros h d Hh Hd Hu. rewrite end_ne by done. kgo. eapply wpk_rd_reg; [done|]. kgo. eapply wpk_wr_hdl; [done|]. kgo.
  destruct (i_ent _ _ I _ _ Hr) as (R & P & L & D). pose proof (ro_owner _ R Hown) as Hi. fold (shared_desc app r rec d). set (d' := shared_desc app r rec d).
  assert (I1 : inv (upd_al r (h :: al r) al) (inserted r h rec d' K)).
  { eapply inv_insert; [done|done|done|done|done|done|by apply rec_linked|]. intros _. by apply D. }
  destruct (al_seg _ _ _ _ I Hr) as (q & Hs & _). destruct (seg_head _ _ _ _ _ _ Hs) as [[_ E]|(l' & El & Hc)]; [done|].
  destruct (list_hdl _ _ _ _ (rr_HeadOfAccessList rec) I Hr) as (e & He & Hue & _); [rewrite El; apply list_elem_of_here|].
  assert (Hne2 : rr_HeadOfAccessList rec ≠ h) by congruence. assert (He' : zget (zset h d' (kH K)) (rr_HeadOfAccessList rec) = Some e) by (rewrite (zset_get _ _ _ _ _ Hd); by rewrite decide_False).
  eapply wpk_wr_hdl; [exact He'|]. kgo. eapply wpk_wr_reg; [exact Hr|]. kgo.
  assert (EK : inserted r h rec d' K = wR (zset r (rec <| rr_HeadOfAccessList := h |>) (kR K)) (wH (zset (rr_HeadOfAccessList rec) (e <| ac_PrevLink := h |>) (zset h d' (kH K))) K)).
  { unfold inserted, linkH. rewrite (proj2 (Z.eqb_neq _ _) Hi). by rewrite (zalter_set _ _ _ _ He'). }
  assert (Hfin : Q (CFE_SUCCESS, h) (inserted r h rec d' K)) by (eapply Ho; [done..|]; intros X; split_and!; [done|by eapply keeps_insert|done]).
  rewrite EK in Hfin. exact Hfin.
Qed.

Lemma wpk_Share al App hp name K : inv al K → app_ok App → kReg K = false → wpk (CFE_TBL_Share App hp name) (λ _ K', ∃ al', ∀ X, good al' X K K') K.
Proof.
  intros I Ha Hm. assert (HQ : ∃ al', ∀ X, good al' X K K) by (exists al; intros; by apply good_refl). unfold CFE_TBL_Share. destruct hp as [h0|], name as [name|]; [|by apply wpk_ret..].
  destruct App as [st app]. destruct (Z.eqb_spec st CFE_SUCCESS) as [->|Hst]; kgo; [|destruct (st <? 0); cbn [when]; by kgo]. apply wpk_lock; [done|]. kgo.
  eapply (wpk_share_locked al); [by apply inv_wReg|intros st h Hst|].
  - kgo. apply wpk_unlock. kgo. assert (Q0 : ∃ al', ∀ X, good al' X K (wReg false (wReg true K))). { exists al. intros X. split_and!; [apply inv_wReg, inv_wReg, I|by intros ???????|by split_and!]. }
    destruct (st <? 0); cbn [when]; by kgo.
  - intros r rec h d Hr Hown Hn Hd Hu K' G. kgo. apply wpk_unlock. kgo. exists (upd_al r (h :: al r) al). intros X. destruct (G X) as (GI & GK & GT & GR & GW). split_and!; [by apply inv_wReg|exact GK|by split_and!].
Qed.

(** ** A new table *)
Lemma init_ok K r : ent K r CFE_TBL_InitRegistryRecord.
Proof.
  assert (Hb : ∀ i, bptr CFE_TBL_InitRegistryRecord i = PNull).
  { intros i. unfold bptr, zget. destruct (i <? 0); [done|]. by destruct (Z.to_nat i) as [|[|[|n]]]. }
  split_and!; [constructor; cbn; try done; try (by left); try (intros; by rewrite Hb in * )|by intros i ?; rewrite Hb in *|by intros ??|by intros ??].
Qed.

Lemma inv_init al K r rec : inv al K → zget (kR K) r = Some rec → rr_HeadOfAccessList rec = END → inv al (wR (zset r CFE_TBL_InitRegistryRecord (kR K)) K).
Proof.
  intros I Hr Hh. assert (Hb : ∀ i, bptr CFE_TBL_InitRegistryRecord i = PNull).
  { intros i. unfold bptr, zget. destruct (i <? 0); [done|]. by destruct (Z.to_nat i) as [|[|[|n]]]. }
  eapply inv_reg; [done|done|by rewrite Hh|apply init_ok| |by right| |].
  - intros r2 rec2 Hne H2. split_and!; [done|intros i k; by rewrite Hb|done].
  - intros h d Hd Hu Hl Hi. destruct (no_users _ _ _ _ I Hr (λ Hx, Hx Hh) h d); done.
  - intros i c Hc Hs Hi. pose proof (inv_blk_at _ _ _ _ _ _ I Hc Hs Hi Hr) as (Hx & _). done.
Qed.

Lemma inv_alloc al K r rec i b a st bs : inv al K → zget (kR K) r = Some rec → ¬ inuse rec → zget (rr_Buffers rec) i = Some b → kP K !! a = None → 0 < st → rr_Size rec <= Z.of_nat (length bs) →
  inv al (wR (zset r (set_buf i (b <| lb_BufferPtr := PPool a |>) rec) (kR K)) (wP (<[a := st]> (kP K)) (wM (<[a := bs]> (kM K)) K))) ∧
  ∀ q n, mem_ok K q n → q ≠ PPool a ∧ mem_ok (wP (<[a := st]> (kP K)) (wM (<[a := bs]> (kM K)) K)) q n.
Proof.
  intros I Hr Hu Hb Ha Hst Hsz. set (rec' := set_buf i _ rec). pose proof (i_ent _ _ I _ _ Hr) as (R & P & L & D). pose proof (λ k, zset_get (kR K) r k rec' rec Hr) as Hz.
  assert (Hi : i = 0 ∨ i = 1) by (apply zget_lt in Hb; rewrite (ro_bufs _ R) in Hb; lia).
  assert (Hbp : ∀ k, bptr rec' k = if decide (k = i) then PPool a else bptr rec k) by (intros; unfold rec'; by rewrite zget_buf_set by (done || apply (ro_bufs _ R))).
  set (K1 := wP _ _). assert (Hmem : ∀ q n, mem_ok K q n → q ≠ PPool a ∧ mem_ok K1 q n).
  { intros q n (m & Hm & Hn & Hv). assert (q ≠ PPool a) by (intros ->; destruct Hv as (? & ? & _); congruence). split; [done|]. exists m. destruct q as [|c|c]; [done| |done]. cbn.
    rewrite !lookup_insert_ne by congruence. done. }
  split; [|done].
  assert (Hold : ∀ r2 rec2 k, zget (kR K) r2 = Some rec2 → bptr rec2 k ≠ PPool a).
  { intros r2 rec2 k H2 E. destruct (i_ent _ _ I _ _ H2) as (_ & P2 & _). destruct (P2 k) as [Hm _]; [by rewrite E|]. by apply Hmem in Hm as [? _]. }
  assert (Hsh : ∀ j e, zget (kL K) j = Some e → lb_BufferPtr e ≠ PPool a). { intros j e He. destruct (i_sh _ _ I _ _ He) as [_ Hm]. by apply Hmem in Hm as [? _]. }
  pose proof I as [? ? ? ? ? ? ? i_links0 i_ent0 i_apart0 i_own0 i_lock0 i_sh0 ? i_blk0 i_blne0 ?]. constructor; cbn; try assumption.
  - by rewrite zset_length.
  - by rewrite (zset_fmap_same _ _ _ _ _ Hr).
  - intros k rec2. rewrite Hz. destruct (decide (k = r)) as [->|Hne].
    + intros [= <-]. split_and!; [| |exact L|by intros].
      * destruct R. constructor; try assumption; cbn; try done.
        -- by rewrite zset_length.
        -- destruct ro_va as [|(? & ? & ?)]; [by left|right]. split; [done|]. by split.
        -- intros k c. rewrite Hbp. destruct (decide (k = i)); [done|]. apply ro_papp.
        -- rewrite !Hbp. destruct (decide (0 = i)), (decide (1 = i)); [lia|intros _; by apply not_eq_sym, (Hold r)|intros _; by apply (Hold r)|done].
      * intros k. rewrite Hbp. destruct (decide (k = i)) as [->|]; [|intros Hk; split; [by apply Hmem, P|by apply P]]. intros _. split; [|exact Hsh].
        exists bs. split_and!; [by apply lookup_insert_eq|done|]. exists st. split; [by apply lookup_insert_eq|done].
    + intros H2. destruct (i_ent0 _ _ H2) as (R2 & P2 & L2 & D2). split_and!; [done| |done..]. intros q Hq. split; [by apply Hmem, P2|by apply P2].
  - assert (Hap : ∀ r2 rec2, r2 ≠ r → zget (kR K) r2 = Some rec2 → apart rec' rec2).
    { intros r2 rec2 Hne H2. destruct (i_apart0 r r2 rec rec2) as (A1 & A2 & A3); [congruence|done..|]. split_and!; [exact A1| |exact A3]. intros q k. rewrite Hbp. destruct (decide (q = i)); [|apply A2].
      intros _. by apply not_eq_sym, (Hold r2). }
    intros r1 r2 rec2 rec3 Hne. rewrite !Hz. destruct (decide (r1 = r)) as [->|], (decide (r2 = r)) as [->|]; [done|..].
    + intros [= <-] H2. by apply (Hap r2).
    + intros H1 [= <-]. by apply apart_sym, (Hap r1).
    + by apply i_apart0.
  - intros k rec2. rewrite Hz. destruct (decide (k = r)) as [->|]; [|by apply i_own0]. intros [= <-]. by apply (i_own0 r rec).
  - intros h d rec2 Hd Hud Hld. rewrite Hz. destruct (decide (ac_RegIndex d = r)) as [E|]; [|by eauto]. intros [= <-]. apply (i_lock0 h d rec); [done..|by rewrite E].
  - intros j e He. destruct (i_sh0 _ _ He) as [H1 H2]. split; [done|]. by apply Hmem.
  - intros q c Hc Hs. destruct (i_blk0 q c Hc Hs) as (rec2 & H2 & Hk). rewrite Hz. destruct (decide (dc_RegRecPtr c = r)) as [E|]; [|by eauto]. rewrite E, Hr in H2. injection H2 as <-. by destruct Hk.
Qed.

Lemma keeps_alloc al X K r rec rec' a st bs : inv al K → zget (kR K) r = Some rec → ¬ inuse rec → kP K !! a = None →
  keeps X K (wR (zset r rec' (kR K)) (wP (<[a := st]> (kP K)) (wM (<[a := bs]> (kM K)) K))).
Proof.
  intros I Hr Hu Ha k app r' q m _ (d & rec2 & Hd & Hud & Hl & Hap & Hi & H2 & Ho & Hp & Hm). assert (Hne : r' ≠ r) by (rewrite <- Hi; by eapply (no_users al K r rec)).
  exists d, rec2. split_and!; try done; cbn. { rewrite (zset_get _ _ _ _ _ Hr). by rewrite decide_False. }
  destruct q as [|c|c]; [done| |done]. cbn. rewrite lookup_insert_ne; [done|]. intros <-. destruct (i_ent _ _ I _ _ H2) as (_ & P2 & _). destruct (P2 (ac_BufferIndex d)) as [(? & _ & _ & Hv) _]; [by rewrite Hp|].
  rewrite Hp in Hv. destruct Hv as (? & ? & _). congruence.
Qed.

Lemma failed_neg st : - 2 ^ 30 <= st < 0 → failed st = true.
Proof.
  intros H. unfold failed. apply Z.eqb_eq. apply Z.bits_inj'. intros n Hn. rewrite Z.land_spec. change CFE_SEVERITY_ERROR with CFE_SEVERITY_BITMASK.
  destruct (Z.testbit CFE_SEVERITY_BITMASK n) eqn:E; [|by rewrite andb_false_r]. rewrite andb_true_r.
  assert (30 <= n). { destruct (Z.le_gt_cases 30 n); [done|]. change CFE_SEVERITY_BITMASK with (-1 * 2 ^ 30) in E. rewrite Z.mul_pow2_bits_low in E by lia. done. }
  assert (Ex : Z.shiftr st 30 = -1). { rewrite Z.shiftr_div_pow2 by lia. symmetry. apply (Z.div_unique _ _ _ (st + 2 ^ 30)); lia. }
  replace n with (30 + (n - 30)) by lia. rewrite Z.add_comm, <- Z.shiftr_spec by lia. rewrite Ex. apply Z.bits_m1. lia.
Qed.

(** The fields of an entry nobody uses yet. *)
Lemma inv_setup al K r rec rec' : inv al K → zget (kR K) r = Some rec → ¬ inuse rec → rr_HeadOfAccessList rec' = rr_HeadOfAccessList rec → rec_ok rec' → rr_LoadInProgress rec' = -1 →
  rr_OwnerAppId rec' = NOT_OWNED → rr_Buffers rec' = rr_Buffers rec → (∀ i, bptr rec i ≠ PNull → mem_ok K (bptr rec i) (rr_Size rec')) → inv al (wR (zset r rec' (kR K)) K).
Proof.
  intros I Hr Hu Hh R' Hl Ho Hb Hs. destruct (i_ent _ _ I _ _ Hr) as (R & P & L & D). assert (Eb : ∀ i, bptr rec' i = bptr rec i) by (intros; unfold bptr; by rewrite Hb).
  eapply inv_reg; [done|done|done| | |by right| |].
  - split_and!; [done|intros i; rewrite Eb; intros Hi; split; [by apply Hs|by apply P]|by intros ??|]. intros Hx. exfalso. apply Hu. unfold inuse in *. congruence.
  - intros r2 rec2 Hne H2. destruct (i_apart _ _ I r r2 rec rec2) as (A1 & A2 & A3); [congruence|done..|]. split_and!; [congruence|intros i k; rewrite Eb; apply A2|congruence].
  - intros h d Hd Hud Hld Hi. by destruct (no_users _ _ _ _ I Hr Hu h d).
  - intros i c Hc Hst Hi. pose proof (inv_blk_at _ _ _ _ _ _ I Hc Hst Hi Hr) as (Hx & _). done.
Qed.

Lemma wpk_register_buffer al r i Size rec (Q : Z → KS → Prop) K : inv al K → zget (kR K) r = Some rec → ¬ inuse rec → i = 0 ∨ i = 1 → rr_Size rec = 0 → 0 < Size →
  (∀ st, failed st = true → Q st K) →
  (∀ b a P M, let K' := wR (zset r (set_buf i (b <| lb_BufferPtr := PPool a |>) rec) (kR K)) (wP P (wM M K)) in
     zget (rr_Buffers rec) i = Some b → inv al K' → (∀ X, keeps X K K') → mem_ok K' (PPool a) Size → (∀ q n, mem_ok K q n → mem_ok K' q n) → Q CFE_SUCCESS K') →
  wpk (register_buffer r i Size) Q K.
Proof.
  intros I Hr Hu Hi Hs Hsz Hf Ho. destruct (i_ent _ _ I _ _ Hr) as (R & P & _). destruct (zget_buf rec i (ro_bufs _ R) Hi) as (b & Hb & _).
  unfold register_buffer. kgo. apply wpk_pool_get; [done|intros st Hst|intros st a Hst Ha Hfr]; cbn beta iota.
  { rewrite (proj2 (Z.ltb_lt st 0)) by lia. kgo. apply Hf. by apply failed_neg. }
  rewrite (proj2 (Z.ltb_ge st 0)) by lia. kgo. eapply wpk_wr_reg_buf; [exact Hr|exact Hb|]. kgo. set (bs := replicate (Z.to_nat Size) 0). set (rec' := set_buf i _ rec). set (K1 := wR _ _).
  destruct (inv_alloc al K r rec i b a st bs I Hr Hu Hb Hfr Hst) as [I1 Hm1]; [rewrite Hs; lia|]. assert (I1' : inv al K1) by exact I1.
  assert (Hbs : length bs = Z.to_nat Size) by apply length_replicate. assert (Hma : mem K1 (PPool a) = Some bs) by apply lookup_insert_eq.
  eapply wpk_memset; [lia|exact Hma|lia|]. kgo. set (new := splice 0 _ bs). assert (Hnl : length new = length bs) by (apply splice_length; rewrite length_replicate; lia).
  assert (E : set_mem (PPool a) new K1 = wR (zset r rec' (kR K)) (wP (<[a := st]> (kP K)) (wM (<[a := new]> (<[a := bs]> (kM K))) K))) by reflexivity.
  rewrite E. apply Ho; [done|..].
  - exact (inv_mem al K1 (PPool a) new bs Hma Hnl I1').
  - intros X. eapply keeps_trans; [by eapply (keeps_alloc al X K r rec rec')|]. apply (keeps_mem X K1 (PPool a) new); [done|].
    assert (Hbp : bptr rec' i = PPool a) by (unfold rec'; rewrite zget_buf_set by (done || apply (ro_bufs _ R)); by rewrite decide_True).
    rewrite <- Hbp. eapply (unheld_reg al K1 r rec'); [exact I1'|by eapply zset_eq|by rewrite Hbp|done|]. intros h d Hd Hud _ Hri. by destruct (no_users _ _ _ _ I Hr Hu h d).
  - apply (mem_set_ok K1 (PPool a) new bs); [done..|]. exists bs. split_and!; [done|lia|]. exists st. split; [apply lookup_insert_eq|done].
  - intros q n Hq. apply (mem_set_ok K1 (PPool a) new bs); [done..|]. by apply Hm1.
Qed.

Definition with_buffers (l : list CFE_TBL_LoadBuff_t) : CFE_TBL_RegistryRec_t := CFE_TBL_InitRegistryRecord <| rr_Buffers := l |>.
Definition usr_def (F : Z) : bool := opt F CFE_TBL_OPT_USR_DEF_MSK (Z.land CFE_TBL_OPT_USR_DEF_ADDR CFE_TBL_OPT_USR_DEF_MSK).
Definition dbl_buf (F : Z) : bool := opt F CFE_TBL_OPT_DBL_BUFFER CFE_TBL_OPT_DBL_BUFFER.

Lemma rec_double l : rec_ok (with_buffers l) → rec_ok ((with_buffers l) <| rr_ActiveBufferIndex := 0 |> <| rr_DoubleBuffered := true |>).
Proof. intros []. constructor; try assumption; cbn; try done; by left. Qed.

(** The buffers of a new table: with the record before [K] is the state after the entry
    was cleared. *)
Lemma wpk_register_buffers al r Size F (Q : Z → KS → Prop) K : inv al K → zget (kR K) r = Some CFE_TBL_InitRegistryRecord → 0 < Size → (usr_def F = true → dbl_buf F = false) →
  (∀ st K', failed st = true → inv al K' → (∀ X, keeps X K K') → kept K K' → Q st K') →
  (∀ l P M, let Kb := wR (zset r (with_buffers l) (kR K)) (wP P (wM M K)) in inv al Kb → (∀ X, keeps X K Kb) → (∀ i, bptr (with_buffers l) i ≠ PNull → mem_ok Kb (bptr (with_buffers l) i) Size) →
     (usr_def F = false → is_pool (bptr (with_buffers l) 0)) → (dbl_buf F = true → is_pool (bptr (with_buffers l) 1)) → (∀ i a, bptr (with_buffers l) i ≠ PApp a) →
     Q CFE_SUCCESS (wR (zset r ((with_buffers l) <| rr_UserDefAddr := usr_def F |> <| rr_DoubleBuffered := dbl_buf F |>) (kR K)) (wP P (wM M K)))) →
  wpk (register_buffers r Size F) Q K.
Proof.
  intros I Hr Hsz Hud Hf Ho. unfold register_buffers. fold (usr_def F) (dbl_buf F). apply wpk_bind.
  assert (Hb0 : ∀ i, bptr CFE_TBL_InitRegistryRecord i = PNull). { intros i. unfold bptr, zget. destruct (i <? 0); [done|]. by destruct (Z.to_nat i) as [|[|[|n]]]. }
  assert (EK : wR (zset r CFE_TBL_InitRegistryRecord (kR K)) K = K) by (rewrite zset_same by done; by destruct K).
  destruct (usr_def F) eqn:Hus; cbn [negb].
  - rewrite (Hud eq_refl). kgo. eapply wpk_wr_reg_buf; [exact Hr|done|]. kgo. eapply wpk_wr_at; [done|exact Hr|]. kgo. change (failed CFE_SUCCESS) with false. cbn [negb andb]. kgo.
    eapply wpk_wr_at; [done|exact Hr|]. kgo. specialize (Ho [zero_buff; zero_buff] (kP K) (kM K)). cbv zeta in Ho. change (with_buffers [zero_buff; zero_buff]) with CFE_TBL_InitRegistryRecord in Ho.
    assert (EK2 : wP (kP K) (wM (kM K) K) = K) by by destruct K. rewrite EK2 in Ho. rewrite EK in Ho. rewrite (Hud eq_refl) in Ho.
    apply Ho; [done|intros; apply keeps_refl|by intros i; rewrite Hb0|done|done|by intros i a; rewrite Hb0].
  - kgo. eapply wpk_wr_reg; [exact Hr|]. kgo. set (K0 := wR _ K). assert (E0 : K0 = K) by exact EK. rewrite E0. clear E0 K0.
    eapply (wpk_register_buffer al r 0 Size); [exact I|exact Hr|exact (λ Hx, Hx eq_refl)|by left|done|done| |].
    + intros st Hst. kgo. rewrite Hst. rewrite andb_false_r. kgo. eapply wpk_wr_reg; [exact Hr|]. kgo.
      change (wR (zset r _ (kR K)) K) with (wR (zset r CFE_TBL_InitRegistryRecord (kR K)) K). rewrite EK. apply Hf; [done|done|intros; apply keeps_refl|done].
    + cbv zeta. intros b a P M Hb I1 Hk1 Hm1 Hkm. injection Hb as <-. set (b0 := zero_buff <| lb_BufferPtr := PPool a |>) in *. set (l1 := [b0; zero_buff]).
      change (set_buf 0 b0 CFE_TBL_InitRegistryRecord) with (with_buffers l1) in *. set (K1 := wR (zset r (with_buffers l1) (kR K)) (wP P (wM M K))) in *.
      assert (Hbp1 : ∀ i, bptr (with_buffers l1) i = if decide (i = 0) then PPool a else PNull).
      { intros i. unfold bptr, zget. destruct (Z.ltb_spec i 0); [by rewrite decide_False by lia|]. destruct (decide (i = 0)) as [->|]; [done|]. destruct (Z.to_nat i) as [|[|[|?]]] eqn:E; [lia|done..]. }
      assert (Hr1 : zget (kR K1) r = Some (with_buffers l1)) by by eapply zset_eq.
      kgo. change (failed CFE_SUCCESS) with false. cbn [negb]. rewrite andb_true_r. destruct (dbl_buf F) eqn:Hdb.
      * kgo. eapply (wpk_register_buffer al r 1 Size); [exact I1|exact Hr1|exact (λ Hx, Hx eq_refl)|by right|done|done| |].
        -- intros st Hst. kgo. eapply wpk_wr_reg; [exact Hr1|]. kgo. set (K2 := wR _ K1).
           assert (I2 : inv al K2).
           { eapply (inv_setup al K1 r (with_buffers l1)); [exact I1|exact Hr1|exact (λ Hx, Hx eq_refl)|done| |done|done|done|]; [apply rec_double; exact (proj1 (i_ent _ _ I1 _ _ Hr1))|].
             intros i. rewrite Hbp1. destruct (decide (i = 0)); [|done]. intros _. destruct Hm1 as (bs & Hm1 & Hm2 & Hm3). exists bs. split_and!; [done| |done]. cbn. lia. }
           apply Hf; [done|exact I2| |done]. intros X. eapply keeps_trans; [apply Hk1|]. by eapply (keeps_reg X K1 r (with_buffers l1)).
        -- cbv zeta. intros b1 a1 P2 M2 Hb1 I2 Hk2 Hm2 Hkm2. kgo. injection Hb1 as <-. set (b1 := zero_buff <| lb_BufferPtr := PPool a1 |>) in *. set (l2 := [b0; b1]).
           change (set_buf 1 b1 (with_buffers l1)) with (with_buffers l2) in *. eapply wpk_wr_at; [done|exact Hr1|]. kgo.
           assert (Hbp2 : ∀ i, bptr (with_buffers l2) i = if decide (i = 0) then PPool a else if decide (i = 1) then PPool a1 else PNull).
           { intros i. unfold bptr, zget. destruct (Z.ltb_spec i 0); [by rewrite !decide_False by lia|]. destruct (decide (i = 0)) as [->|]; [done|]. destruct (decide (i = 1)) as [->|]; [done|].
             destruct (Z.to_nat i) as [|[|[|?]]] eqn:E; [lia|lia|done..]. }
           specialize (Ho l2 P2 M2). cbv zeta in Ho. set (Kb := wR (zset r (with_buffers l2) (kR K)) (wP P2 (wM M2 K))) in *.
           assert (Eb : wR (zset r (with_buffers l2) (kR K1)) (wP P2 (wM M2 K1)) = Kb) by (unfold Kb, wR, K1; cbn; by rewrite zset_zset). rewrite Eb in I2, Hk2, Hm2, Hkm2.
           cbn [kR K1 wR]. rewrite zset_zset. apply Ho; [exact I2|intros X; by eapply keeps_trans| |intros _; by rewrite Hbp2|intros _; by rewrite Hbp2|].
           ++ intros i. rewrite Hbp2. destruct (decide (i = 0)); [intros _; by apply Hkm2|]. by destruct (decide (i = 1)).
           ++ intros i c. rewrite Hbp2. destruct (decide (i = 0)); [done|]. by destruct (decide (i = 1)).
      * kgo. eapply wpk_wr_at; [done|exact Hr|]. kgo. specialize (Ho l1 P M). cbv zeta in Ho. fold K1 in Ho. apply Ho; [exact I1|exact Hk1| |intros _; by rewrite Hbp1|done|].
        -- intros i. rewrite Hbp1. destruct (decide (i = 0)); [intros _; exact Hm1|done].
        -- intros i c. rewrite Hbp1. by destruct (decide (i = 0)).
Qed.

Lemma lb_set_lb K w b b' : lb K w = Some b → lb (set_lb w b' K) w = Some b'.
Proof.
  destruct w as [r i|j]; cbn; [|by apply zset_eq]. destruct (zget (kR K) r) as [rec|] eqn:Hr; [|done]. cbn. intros Hb. rewrite (zset_eq _ _ _ _ Hr). cbn. by eapply zset_eq.
Qed.
Lemma mem_set_lb K w b q : mem (set_lb w b K) q = mem K q.
Proof. destruct w as [r i|j]; cbn; [|done]. by destruct (zget (kR K) r). Qed.

(** ** Critical tables *)
Definition oview (rec : CFE_TBL_RegistryRec_t) :=
  (rr_OwnerAppId rec, rr_Name rec, rr_HeadOfAccessList rec, rr_UserDefAddr rec, rr_DumpOnly rec, rr_DoubleBuffered rec, rr_ValidateInactiveIndex rec, rr_Size rec).

(** Steps of the registration of entry [r]: it and the other entries stay what they are. *)
Definition regstep al (r : Z) rec K K' : Prop :=
  all_good al K K' ∧ ac_AppId <$> kH K' = ac_AppId <$> kH K ∧ (∀ r2, r2 ≠ r → zget (kR K') r2 = zget (kR K) r2) ∧ ∃ rec', zget (kR K') r = Some rec' ∧ oview rec' = oview rec.

Lemma regstep_set al r rec rec1 rec2 K K1 : regstep al r rec K K1 → zget (kR K1) r = Some rec1 → (∀ X, good al X K1 (wR (zset r rec2 (kR K1)) K1)) → oview rec2 = oview rec → regstep al r rec K (wR (zset r rec2 (kR K1)) K1).
Proof.
  intros (G & EA & EF & _) Hr1 G1 Eo. split_and!; [by eapply all_good_trans|done| |].
  - intros r2 Hne. cbn. rewrite zset_ne by (apply zget_lt in Hr1; lia || done). by apply EF.
  - exists rec2. split; [by eapply zset_eq|done].
Qed.
Lemma regstep_lb al r rec K K1 w b b' : regstep al r rec K K1 → (∃ i, w = RegBuf r i) → lb K1 w = Some b → lb_BufferPtr b' = lb_BufferPtr b → lb_Taken b' = lb_Taken b → regstep al r rec K (set_lb w b' K1).
Proof.
  intros Hs [i ->] Hb Ep Et. pose proof Hs as (G & _ & _ & rec1 & Hr1 & Eo). cbn in *. rewrite Hr1 in *. cbn in Hb. eapply regstep_set; [done|done| |].
  - intros X. eapply good_view; [by eapply all_good_inv|done|by eapply rview_set_buf|done].
  - by rewrite <- Eo.
Qed.
Lemma rec_critical rec b : rec_ok rec → rr_UserDefAddr rec = false → rec_ok (rec <| rr_CriticalTable := b |>).
Proof. intros [] Hu. constructor; try assumption. by intros. Qed.

Lemma wpk_register_restore al r rec (Q : Z → KS → Prop) K : inv al K → zget (kR K) r = Some rec → inuse rec → rr_UserDefAddr rec = false → rr_DumpOnly rec = false →
  rr_LoadInProgress rec = -1 → rr_TableLoadedOnce rec = false → rr_ValidateInactiveIndex rec = -1 → kWork K = false →
  (∀ st bs, CFE_ES_RestoreFromCDS (rr_CDSHandle rec) (kS K) = (st, bs) → Z.of_nat (length bs) <= rr_Size rec) →
  (∀ st K', regstep al r rec K K' → Q st K') → wpk (register_restore r) Q K.
Proof.
  intros I Hr Hu Hud Hdo Hl Ht Hv Hwk Hcds HQ. destruct (i_ent _ _ I _ _ Hr) as (R & P & _).
  assert (S0 : regstep al r rec K K) by (split_and!; [by apply all_good_refl|done|done|by exists rec]).
  assert (Hend : ∀ st K1, regstep al r rec K K1 → wpk (wr_reg r (λ rec, rec <| rr_CriticalTable := true |>)) (λ _, wpk (mret st) Q) K1).
  { intros st K1 S1. pose proof S1 as (G1 & _ & _ & rec1 & Hr1 & Eo). pose proof (all_good_inv _ _ _ G1) as I1. eapply wpk_wr_reg; [exact Hr1|]. kgo. apply HQ. eapply regstep_set; [done|done| |exact Eo].
    intros X. eapply good_fview; [done|done|done| |done]. apply rec_critical; [exact (proj1 (i_ent _ _ I1 _ _ Hr1))|]. unfold oview in Eo. congruence. }
  unfold register_restore. kgo. eapply (wpk_GetWorkingBuffer al r rec); [done|done|done| |done|..].
  { pose proof (active_ptr _ R Hu Hud) as Hp. intros E. by rewrite E in Hp. }
  2:{ intros _. kgo. eapply wpk_rd_reg; [done|]. kgo. by apply Hend. }
  2:{ cbv zeta. intros l w K' _ Hx. specialize (Hx eq_refl). congruence. }
  intros w Hw _. destruct (workbuf_ok _ _ _ _ w I Hr Hu) as (b & Hb & Hbp & (old & Hold & Hon & _) & Hun); [done|done|].
  assert (Hw' : ∃ i, w = RegBuf r i). { destruct Hw as [[? _]|(_ & _ & ->)]; [done|]. by eexists. }
  kgo. eapply wpk_rd_reg; [done|]. kgo. eapply wpk_rd_lb; [exact Hb|]. kgo. apply wpk_cds. intros [st bs] c' E. injection E as E <-. specialize (Hcds st bs E).
  replace (wS (kS K) K) with K by by destruct K. kgo. eapply wpk_wr_mem; [exact Hold|lia|]. set (K1 := set_mem _ _ K).
  assert (E1 : kR K1 = kR K ∧ kH K1 = kH K ∧ kC K1 = kC K ∧ kept K K1) by (unfold K1; by destruct (lb_BufferPtr b)). destruct E1 as (ER & EH & EC & EK).
  assert (S1 : regstep al r rec K K1).
  { split_and!; [intros X; split_and!; [|apply keeps_mem; [by intros Ex; rewrite Ex in Hbp|done]|done]|by rewrite EH|by rewrite ER|exists rec; by rewrite ER].
    eapply inv_mem; [done| |done]. apply splice_length. lia. }
  kgo. destruct (negb (st =? CFE_SUCCESS)); [kgo; by apply Hend|]. kgo. apply wpk_gets. intros s Es. assert (Ec : CritReg s = kC K1) by exact (f_equal kC Es). rewrite Ec.
  destruct (FindCrit_loop (rr_CDSHandle rec) 0 (kC K1)) as [k|] eqn:Ek; [|kgo; by apply Hend]. apply FindCrit_range in Ek. destruct (zget_is_Some (kC K1) k) as [cr Hcr]; [lia|].
  kgo. eapply wpk_tbl_get; [exact Hcr|]. destruct (cr_TableLoadedOnce cr); [|kgo; by apply Hend]. kgo.
  assert (Hlb : lb K1 w = Some b). { destruct Hw' as [i ->]. cbn in *. by rewrite ER. }
  eapply wpk_wr_lb; [exact Hlb|]. set (b1 := b <| lb_DataSource := _ |> <| lb_FileCreateTimeSecs := _ |> <| lb_FileCreateTimeSubSecs := _ |>). set (K2 := set_lb w b1 K1).
  assert (S2 : regstep al r rec K K2) by by eapply regstep_lb. pose proof S2 as (G2 & _ & _ & rec2 & Hr2 & Eo2). pose proof (all_good_inv _ _ _ G2) as I2.
  kgo. eapply wpk_wr_reg; [exact Hr2|]. set (rec3 := rec2 <| rr_LastFileLoaded := _ |> <| rr_TimeOfLastUpdate := _ |> <| rr_TableLoadedOnce := _ |>). set (K3 := wR _ K2).
  pose proof (ro_file _ (proj1 (i_ent _ _ I2 _ _ Hr2))) as Hfl. assert (Ef : rview rec3 = rview rec2).
  { change (rview (rec2 <| rr_LastFileLoaded := copy_str OS_MAX_PATH_LEN (rr_LastFileLoaded rec2) (cr_LastFileLoaded cr) |>) = rview rec2). apply rview_file. rewrite Hfl. by apply copy_str_length. }
  assert (S3 : regstep al r rec K K3) by (eapply regstep_set; [done|done|intros X; by eapply good_view|exact Eo2]).
  assert (Hlb2 : lb K2 w = Some b1) by by eapply lb_set_lb. assert (Hlb3 : lb K3 w = Some b1).
  { destruct Hw' as [i ->]. cbn [lb] in *. rewrite Hr2 in Hlb2. unfold K3. cbn [kR wR]. by rewrite (zset_eq _ _ _ _ Hr2). }
  kgo. eapply wpk_rd_lb; [exact Hlb3|]. kgo. set (new := splice (Z.to_nat 0) bs old) in *.
  assert (Hm3 : mem K3 (lb_BufferPtr b1) = Some new). { change (mem K2 (lb_BufferPtr b) = Some new). unfold K2. rewrite mem_set_lb. unfold K1. rewrite mem_set by (by intros Ex; rewrite Ex in Hbp). by rewrite decide_True. }
  eapply wpk_crc; [exact Hm3|unfold new; rewrite splice_length by lia; lia|]. intros crc. kgo. eapply wpk_wr_lb; [exact Hlb3|]. set (K4 := set_lb w _ K3).
  assert (S4 : regstep al r rec K K4) by by eapply regstep_lb. pose proof S4 as (G4 & EA4 & EF4 & rec4 & Hr4 & Eo4). pose proof (all_good_inv _ _ _ G4) as I4. unfold oview in Eo4.
  kgo. eapply (wpk_Notify al r rec4); [exact Hr4| |].
  { intros now. eapply inv_notified; [done|done|done|congruence|]. intros _. congruence. }
  cbv zeta. intros now H I5 Hk5 [EA5 _]. kgo. apply Hend. split_and!.
  - intros X. eapply good_step; [apply G4|]. split_and!; [done| |done]. eapply keeps_trans; [|apply Hk5]. by eapply (keeps_reg X K4 r rec4).
  - cbn. by rewrite EA5.
  - intros r2 Hne. cbn. rewrite zset_ne by (apply zget_lt in Hr; lia || done). by apply EF4.
  - exists (notified now rec4). split; [by eapply zset_eq|]. unfold oview. cbn. congruence.
Qed.

Lemma wpk_register_critical al r rec Size name (Q : Z → KS → Prop) K : inv al K → zget (kR K) r = Some rec → inuse rec → rr_UserDefAddr rec = false → rr_DumpOnly rec = false →
  rr_LoadInProgress rec = -1 → rr_TableLoadedOnce rec = false → rr_ValidateInactiveIndex rec = -1 → kWork K = false → rr_Size rec = Size →
  (∀ st K', regstep al r rec K K' → Q st K') → wpk (register_critical r Size name) Q K.
Proof.
  intros I Hr Hu Hud Hdo Hl Ht Hv Hwk Hsz HQ. unfold register_critical. kgo. apply wpk_cds. intros [st h] c Ec. kgo. eapply wpk_wr_reg; [exact Hr|].
  set (rec1 := rec <| rr_CDSHandle := h |>). set (K1 := wR (zset r rec1 (kR K)) (wS c K)).
  assert (I0 : inv al (wS c K)) by by apply inv_wS. assert (Hr1 : zget (kR K1) r = Some rec1) by by eapply zset_eq.
  assert (G1 : all_good al K K1).
  { intros X. eapply good_step; [|eapply (good_view al X (wS c K) r rec rec1); done]. split_and!; [done|by intros ???????|done]. }
  assert (S1 : regstep al r rec K K1). { split_and!; [done|done| |by exists rec1]. intros r2 Hne. cbn. apply zset_ne; [apply zget_lt in Hr; lia|done]. }
  assert (Hfin : ∀ st K2, regstep al r rec K K2 →
    wpk (if st =? CFE_SUCCESS then
           CritRegRecPtr ← CFE_TBL_FindCriticalTblInfo CFE_ES_CDS_BAD_HANDLE;
           match CritRegRecPtr with
           | Some i =>
               wr_crit i (λ c, c <| cr_CDSHandle := h |> <| cr_Name ::= λ d, copy_str CFE_TBL_MAX_FULL_NAME_LEN d name |> <| cr_FileCreateTimeSecs := 0 |> <| cr_FileCreateTimeSubSecs := 0 |>
                                 <| cr_LastFileLoaded ::= <[0%nat := 0]> |> <| cr_TimeOfLastUpdate := mkTime 0 0 |> <| cr_TableLoadedOnce := false |>);;
               ch ← gets tg_CritRegHandle; l ← gets CritReg; _ ← cds (CFE_ES_CopyRegToCDS ch l); mret tt
           | None => mret tt
           end;;
           wr_reg r (λ rec, rec <| rr_CriticalTable := true |>);; mret st
         else if negb (st =? CFE_TBL_INFO_RECOVERED_TBL) then mret CFE_TBL_WARN_NOT_CRITICAL else mret st) Q K2).
  { intros st2 K2 S2. destruct (st2 =? CFE_SUCCESS); [|destruct (negb _); kgo; by apply HQ]. pose proof S2 as (G2 & EA2 & EF2 & rec2 & Hr2 & Eo2). pose proof (all_good_inv _ _ _ G2) as I2.
    assert (Hlast : ∀ l c2, length l = length (kC K2) → wpk (wr_reg r (λ rec, rec <| rr_CriticalTable := true |>)) (λ _, wpk (mret st2) Q) (wS c2 (wC l K2))).
    { intros l c2 Hlc. set (K3 := wS c2 (wC l K2)). assert (I3 : inv al K3) by by apply inv_crit.
      assert (S3 : regstep al r rec K K3). { split_and!; [|done|done|by exists rec2]. eapply all_good_trans; [exact G2|]. intros X. split_and!; [done|by intros ???????|done]. }
      eapply wpk_wr_reg; [exact Hr2|]. kgo. apply HQ. eapply (regstep_set al r rec rec2 _ K K3); [done|done| |exact Eo2]. intros X. eapply good_fview; [done|done|done| |done].
      apply rec_critical; [exact (proj1 (i_ent _ _ I3 _ _ Hr2))|]. unfold oview in Eo2. congruence. }
    unfold CFE_TBL_FindCriticalTblInfo. kgo. apply wpk_gets. intros s Es. kgo. assert (Ek : CritReg s = kC K2) by exact (f_equal kC Es). rewrite Ek.
    destruct (FindCrit_loop _ _ _) as [k|] eqn:Ef.
    - apply FindCrit_range in Ef. destruct (zget_is_Some (kC K2) k) as [cr Hcr]; [lia|]. kgo. eapply (wpk_wr_crit _ _ cr); [exact Hcr|]. kgo. apply wpk_gets_any. intros ch. kgo. apply wpk_gets_any. intros l. kgo.
      apply wpk_cds. intros st3 c3 _. kgo. apply Hlast. apply zset_length.
    - kgo. specialize (Hlast (kC K2) (kS K2) eq_refl). by destruct K2. }
  destruct (Z.eqb_spec st CFE_ES_CDS_ALREADY_EXISTS) as [->|Hst].
  - kgo. eapply (wpk_register_restore al r rec1); [by eapply all_good_inv|exact Hr1|done..| |].
    + intros st2 bs E2. cbn in E2 |- *. rewrite Hsz. by eapply restore_size.
    + intros st2 K2 (G2 & EA2 & EF2 & rec2 & Hr2 & Eo2). apply Hfin. destruct S1 as (_ & EA1 & EF1 & _). split_and!; [by eapply all_good_trans|by etrans| |by exists rec2].
      intros r2 Hne. rewrite EF2 by done. by apply EF1.
  - kgo. by apply Hfin.
Qed.

(** The entry gets its owner. *)
Lemma inv_owner al K r rec app h d : inv al K → zget (kR K) r = Some rec → inuse rec → h ∈ al r → zget (kH K) h = Some d → ac_AppId d = app →
  (∀ r2 rec2, r2 ≠ r → zget (kR K) r2 = Some rec2 → rr_OwnerAppId rec2 ≠ NOT_OWNED → cstr (rr_Name rec) ≠ cstr (rr_Name rec2)) → inv al (wR (zset r (rec <| rr_OwnerAppId := app |>) (kR K)) K).
Proof.
  intros I Hr Hu Hh Hd Ha Hn. destruct (i_ent _ _ I _ _ Hr) as (R & P & L & D). eapply inv_reg_own; [done|done|done|..].
  - split_and!; [|exact P|exact L|exact D]. destruct R. by constructor.
  - intros r2 rec2 Hne H2. destruct (i_apart _ _ I r r2 rec rec2) as (A1 & A2 & A3); [congruence|done..|]. split_and!; [exact A1|exact A2|]. intros _. by apply (Hn r2).
  - intros _. by exists h, d.
  - intros k e He Hue Hle Hi. apply (i_lock _ _ I k e rec); [done..|by rewrite Hi].
  - intros i c Hc Hs Hi. exact (inv_blk_at _ _ _ _ _ _ I Hc Hs Hi Hr).
Qed.

(** The fields of a new table. *)
Definition new_rec (l : list CFE_TBL_LoadBuff_t) (F Size : Z) (ValFunc : addr) (name : list Z) (once : bool) : CFE_TBL_RegistryRec_t :=
  let rec := (with_buffers l) <| rr_UserDefAddr := usr_def F |> <| rr_DoubleBuffered := dbl_buf F |> <| rr_Size := Size |> <| rr_ValidationFuncPtr := ValFunc |>
    <| rr_Name ::= λ d, copy_str CFE_TBL_MAX_FULL_NAME_LEN d name |> <| rr_DumpOnly := opt F CFE_TBL_OPT_LD_DMP_MSK CFE_TBL_OPT_DUMP_ONLY |> in
  if once then rec <| rr_TableLoadedOnce := true |> else rec.

Section new_rec.
Context (l : list CFE_TBL_LoadBuff_t) (F Size : Z) (ValFunc : addr) (name : list Z) (once : bool).
Abbreviation N := (new_rec l F Size ValFunc name once).
Lemma new_rec_head : rr_HeadOfAccessList N = END.
Proof. unfold new_rec. by destruct once. Qed.
Lemma new_rec_size : rr_Size N = Size.
Proof. unfold new_rec. by destruct once. Qed.
Lemma new_rec_view : rr_LoadInProgress N = -1 ∧ rr_DumpControlIndex N = -1 ∧ rr_ValidateInactiveIndex N = -1 ∧ rr_OwnerAppId N = NOT_OWNED.
Proof. unfold new_rec. by destruct once. Qed.
Lemma new_rec_dump : rr_DumpOnly N = opt F CFE_TBL_OPT_LD_DMP_MSK CFE_TBL_OPT_DUMP_ONLY.
Proof. unfold new_rec. by destruct once. Qed.
Lemma new_rec_user : rr_UserDefAddr N = usr_def F.
Proof. unfold new_rec. by destruct once. Qed.
Lemma new_rec_once : rr_TableLoadedOnce N = once.
Proof. unfold new_rec. by destruct once. Qed.
Lemma new_rec_name : rr_Name N = copy_str CFE_TBL_MAX_FULL_NAME_LEN (replicate CFE_TBL_MAX_FULL_NAME_LEN 0) name.
Proof. unfold new_rec. by destruct once. Qed.
End new_rec.

Lemma rec_new l F Size ValFunc name once c : rec_ok (with_buffers l) → 0 < Size <= CFE_PLATFORM_TBL_MAX_SNGL_TABLE_SIZE →
  (usr_def F = true → opt F CFE_TBL_OPT_LD_DMP_MSK CFE_TBL_OPT_DUMP_ONLY = true) → (opt F CFE_TBL_OPT_LD_DMP_MSK CFE_TBL_OPT_DUMP_ONLY = true → dbl_buf F = false) →
  (usr_def F = false → is_pool (bptr (with_buffers l) 0)) → (dbl_buf F = true → is_pool (bptr (with_buffers l) 1)) → (∀ i a, bptr (with_buffers l) i ≠ PApp a) →
  rec_ok ((new_rec l F Size ValFunc name once) <| rr_HeadOfAccessList := c |>).
Proof.
  intros R Hs Hud Hdd H0 H1 Ha. destruct R. unfold new_rec. cbv zeta.
  destruct once; (constructor; try assumption; cbn; try done; try (by left); try (intros; by split; auto); [by apply copy_str_length|]; intros i a E; by destruct (Ha i a)).
Qed.

(** ** Arguments *)
Lemma land_bit F k : 0 <= k → Z.land F (2 ^ k) = if Z.testbit F k then 2 ^ k else 0.
Proof.
  intros Hk. apply Z.bits_inj'. intros n Hn. rewrite Z.land_spec, Z.pow2_bits_eqb by done. destruct (Z.eqb_spec k n) as [<-|Hne].
  - rewrite andb_true_r. destruct (Z.testbit F k); [by rewrite Z.pow2_bits_true|by rewrite Z.bits_0].
  - rewrite andb_false_r. destruct (Z.testbit F k); [by rewrite Z.pow2_bits_false by done|by rewrite Z.bits_0].
Qed.

Lemma args_ok Size F : 0 <= Size → register_args Size F = CFE_SUCCESS →
  0 < Size <= CFE_PLATFORM_TBL_MAX_SNGL_TABLE_SIZE ∧ (usr_def F = true → opt F CFE_TBL_OPT_LD_DMP_MSK CFE_TBL_OPT_DUMP_ONLY = true) ∧
  (opt F CFE_TBL_OPT_LD_DMP_MSK CFE_TBL_OPT_DUMP_ONLY = true → dbl_buf F = false ∧ opt F CFE_TBL_OPT_CRITICAL_MSK CFE_TBL_OPT_CRITICAL = false).
Proof.
  intros HS. unfold register_args, usr_def, dbl_buf, opt.
  change CFE_TBL_OPT_BUFFER_MSK with (2 ^ 0). change CFE_TBL_OPT_DBL_BUFFER with (2 ^ 0). change CFE_TBL_OPT_SNGL_BUFFER with 0. change CFE_TBL_OPT_LD_DMP_MSK with (2 ^ 1). change CFE_TBL_OPT_DUMP_ONLY with (2 ^ 1).
  change CFE_TBL_OPT_LOAD_DUMP with 0. change CFE_TBL_OPT_USR_DEF_MSK with (2 ^ 2). change (Z.land CFE_TBL_OPT_USR_DEF_ADDR (2 ^ 2)) with (2 ^ 2). change CFE_TBL_OPT_CRITICAL_MSK with (2 ^ 3).
  change CFE_TBL_OPT_CRITICAL with (2 ^ 3). rewrite !land_bit by lia. unfold CFE_PLATFORM_TBL_MAX_SNGL_TABLE_SIZE, CFE_PLATFORM_TBL_MAX_DBL_TABLE_SIZE.
  destruct (Z.testbit F 0), (Z.testbit F 1), (Z.testbit F 2), (Z.testbit F 3); cbn; rewrite ?andb_true_r, ?andb_false_r;
    destruct (Z.eqb_spec Size 0); try done; destruct (Z.ltb_spec 16384 Size); try done; intros _; (split; [lia|]; split; by intros).
Qed.

(** ** Registration *)
Lemma keeps_unused al X K r rec rec' : inv al K → zget (kR K) r = Some rec → ¬ inuse rec → keeps X K (wR (zset r rec' (kR K)) K).
Proof.
  intros I Hr Hu k app r' q m _ (d & rec2 & Hd & Hud & Hl & Hap & Hi & H2 & Ho & Hp & Hm). assert (Hne : r' ≠ r) by (rewrite <- Hi; by eapply (no_users al K r rec)).
  exists d, rec2. split_and!; try done; cbn. rewrite (zset_get _ _ _ _ _ Hr). by rewrite decide_False.
Qed.

Definition new_desc (app r : Z) (d : CFE_TBL_AccessDescriptor_t) : CFE_TBL_AccessDescriptor_t :=
  d <| ac_AppId := app |> <| ac_LockFlag := false |> <| ac_Updated := false |> <| ac_RegIndex := r |> <| ac_PrevLink := CFE_TBL_END_OF_LIST |>
    <| ac_NextLink := CFE_TBL_END_OF_LIST |> <| ac_UsedFlag := true |>.

(** The last steps: the entry is filled in and gets its handle, critical data and owner. *)
Lemma wpk_register_tail al r h Size F name app rec d (Q : Z → KS → Prop) K : inv al K → zget (kR K) r = Some rec → rr_HeadOfAccessList rec = END → rr_Size rec = Size →
  rr_LoadInProgress rec = -1 → rr_DumpControlIndex rec = -1 → rr_ValidateInactiveIndex rec = -1 → rec_ok (rec <| rr_HeadOfAccessList := h |>) →
  (opt F CFE_TBL_OPT_CRITICAL_MSK CFE_TBL_OPT_CRITICAL = true → rr_DumpOnly rec = false ∧ rr_UserDefAddr rec = false ∧ rr_TableLoadedOnce rec = false) →
  zget (kH K) h = Some d → ac_UsedFlag d = false → kWork K = false →
  (∀ r2 rec2, r2 ≠ r → zget (kR K) r2 = Some rec2 → rr_OwnerAppId rec2 ≠ NOT_OWNED → cstr (rr_Name rec) ≠ cstr (rr_Name rec2)) →
  (∀ st K' al', (∀ X, good al' X K K') → Q st K') →
  wpk (if opt F CFE_TBL_OPT_CRITICAL_MSK CFE_TBL_OPT_CRITICAL then register_critical r Size name else mret CFE_SUCCESS)
    (λ Status, wpk (wr_reg r (λ rec, rec <| rr_OwnerAppId := app |>);; mret Status) Q) (inserted r h rec (new_desc app r d) K).
Proof.
  intros I Hr Hh Hs Hl Hdc Hv R' Hcrit Hd Hu Hwk Huniq HQ. set (d' := new_desc app r d). set (recI := rec <| rr_HeadOfAccessList := h |>) in *. set (al' := upd_al r (h :: al r) al).
  assert (II : inv al' (inserted r h rec d' K)) by (eapply inv_insert; [exact I|exact Hd|done|exact Hr|by rewrite Hh|done|done|by intros ??]). set (KI := inserted r h rec d' K) in *.
  assert (GI : ∀ X, good al' X K KI) by (intros X; split_and!; [done|by eapply keeps_insert|done]). assert (HrI : zget (kR KI) r = Some recI) by by eapply zset_eq.
  assert (HuI : inuse recI). { unfold inuse, recI, END. cbn. unfold CFE_TBL_END_OF_LIST. apply zget_lt in Hd. lia. }
  assert (Hown : ∀ st K2, regstep al' r recI KI K2 → wpk (wr_reg r (λ rec, rec <| rr_OwnerAppId := app |>);; mret st) Q K2).
  { intros st K2 (G2 & EA & EF & rec2 & Hr2 & Eo). kgo. eapply wpk_wr_reg; [exact Hr2|]. kgo. apply (HQ _ _ al'). intros X. eapply good_step; [apply GI|]. eapply good_step; [apply G2|]. pose proof (all_good_inv _ _ _ G2) as I2.
    assert (∃ e, zget (kH K2) h = Some e ∧ ac_AppId e = app) as (e & He & Ha).
    { assert (ac_AppId <$> zget (kH K2) h = Some app) as Ea. { rewrite <- zget_fmap, EA, zget_fmap. unfold KI, inserted. cbn [kH wR wH]. rewrite Hh. unfold linkH. cbn -[zget zset]. by rewrite (zset_eq _ _ _ _ Hd). }
      apply fmap_Some in Ea as (e & He & ->). by exists e. }
    split_and!; [|by eapply (keeps_reg X K2 r rec2)|done]. unfold oview in Eo. injection Eo as O1 O2 O3 O4 O5 O6 O7 O8.
    eapply (inv_owner al' K2 r rec2 app h e); [exact I2|exact Hr2|unfold inuse; rewrite O3; exact HuI|unfold al'; rewrite upd_al_eq; apply list_elem_of_here|exact He|exact Ha|].
    intros r2 rec3 Hne H3 Ho3. rewrite EF in H3 by done. cbn in H3. rewrite zset_ne in H3 by (apply zget_lt in Hr; lia || done). rewrite O2. by apply (Huniq r2). }
  destruct (opt F CFE_TBL_OPT_CRITICAL_MSK CFE_TBL_OPT_CRITICAL) eqn:Hcr.
  - destruct (Hcrit eq_refl) as (C1 & C2 & C3). eapply (wpk_register_critical al' r recI); [done..|exact Hown].
  - apply wpk_ret, Hown. split_and!; [by apply all_good_refl|done|done|by exists recI].
Qed.

Lemma wpk_register_new al r h Size F ValFunc name app rec0 d (Q : Z → KS → Prop) K : inv al K → zget (kR K) r = Some rec0 → rr_HeadOfAccessList rec0 = END →
  zget (kH K) h = Some d → ac_UsedFlag d = false → kWork K = false → 0 <= Size → register_args Size F = CFE_SUCCESS → (length (cstr name) < CFE_TBL_MAX_FULL_NAME_LEN)%nat →
  (∀ r2 rec2, zget (kR K) r2 = Some rec2 → rr_OwnerAppId rec2 ≠ NOT_OWNED → cstr name ≠ cstr (rr_Name rec2)) →
  (∀ st K' al', (∀ X, good al' X K K') → Q st K') → wpk (register_new r h Size F ValFunc name app) Q K.
Proof.
  intros I Hr Hh Hd Hu Hwk HS Hargs Hnl Huniq HQ. destruct (args_ok Size F HS Hargs) as (Hsz & Hud & Hdd). assert (Hnu0 : ¬ inuse rec0) by (intros Hx; by apply Hx).
  unfold register_new. kgo. eapply wpk_wr_reg; [exact Hr|]. set (K1 := wR _ K). assert (I1 : inv al K1) by by eapply inv_init.
  assert (Hk1 : ∀ X, keeps X K K1) by (intros; by eapply keeps_unused). assert (Hr1 : zget (kR K1) r = Some CFE_TBL_InitRegistryRecord) by by eapply zset_eq.
  kgo. eapply (wpk_register_buffers al r Size F); [exact I1|exact Hr1|lia|intros Hx; by apply Hdd, Hud|..].
  { intros st K' Hst I' Hk' Ht. rewrite Hst. kgo. apply (HQ _ _ al). intros X. split_and!; [done|by eapply keeps_trans|done]. }
  cbv zeta. intros l P M. set (Kb := wR (zset r (with_buffers l) (kR K1)) (wP P (wM M K1))). intros Ib Hkb Hmb Hp0 Hp1 Hpa. change (failed CFE_SUCCESS) with false. kgo.
  eapply wpk_wr_at; [done|exact Hr1|]. kgo. eapply wpk_wr_hdl; [exact Hd|]. kgo. eapply wpk_rd_at; [done|exact Hr1|]. kgo.
  set (once := opt F CFE_TBL_OPT_LD_DMP_MSK CFE_TBL_OPT_DUMP_ONLY && negb (usr_def F)). set (recN := new_rec l F Size ValFunc name once).
  assert (Hrb : zget (kR Kb) r = Some (with_buffers l)) by by eapply zset_eq. pose proof (proj1 (i_ent _ _ Ib _ _ Hrb)) as Rb.
  assert (Hrec : ∀ c, rec_ok (recN <| rr_HeadOfAccessList := c |>)) by (intros c; apply rec_new; try done; by intros Hx; apply Hdd).
  set (KN := wR (zset r recN (kR K1)) (wP P (wM M K1))). assert (IN : inv al KN).
  { assert (inv al (wR (zset r recN (kR Kb)) Kb)) as IN'; [|unfold Kb, wR in IN'; cbn in IN'; rewrite zset_zset in IN'; exact IN'].
    eapply (inv_setup al Kb r (with_buffers l)); [exact Ib|exact Hrb|exact (λ Hx, Hx eq_refl)|apply new_rec_head| | | | |unfold recN; rewrite new_rec_size; exact Hmb];
      [specialize (Hrec END); unfold recN, new_rec in *; cbv zeta in *; by destruct once|by apply new_rec_view..|unfold recN, new_rec; by destruct once]. }
  assert (HrN : zget (kR KN) r = Some recN) by by eapply zset_eq. set (dm := d <| ac_AppId := app |> <| ac_LockFlag := false |> <| ac_Updated := false |>).
  set (dn := dm <| ac_RegIndex := r |> <| ac_PrevLink := CFE_TBL_END_OF_LIST |> <| ac_NextLink := CFE_TBL_END_OF_LIST |> <| ac_UsedFlag := true |>).
  assert (HkN : ∀ X, keeps X K KN).
  { intros X. eapply keeps_trans; [apply Hk1|]. eapply keeps_trans; [apply Hkb|]. assert (EK : KN = wR (zset r recN (kR Kb)) Kb) by (unfold KN, Kb, wR; cbn -[recN]; by rewrite !zset_zset).
    rewrite EK. by eapply (keeps_unused al X Kb r (with_buffers l)); [exact Ib|exact Hrb|exact (λ Hx, Hx eq_refl)]. }
  assert (Hcont : wpk (if opt F CFE_TBL_OPT_CRITICAL_MSK CFE_TBL_OPT_CRITICAL then register_critical r Size name else mret CFE_SUCCESS)
    (λ Status, wpk (wr_reg r (λ rec, rec <| rr_OwnerAppId := app |>);; mret Status) Q) (wR (zset r (recN <| rr_HeadOfAccessList := h |>) (kR K1)) (wH (zset h dn (zset h dm (kH K))) (wP P (wM M K1))))).
  { assert (EKI : inserted r h recN (new_desc app r d) KN = wR (zset r (recN <| rr_HeadOfAccessList := h |>) (kR K1)) (wH (zset h dn (zset h dm (kH K))) (wP P (wM M K1)))).
    { rewrite zset_zset. unfold inserted, KN, wR, wH. cbn [kR]. rewrite zset_zset. unfold linkH. assert (Eh : rr_HeadOfAccessList recN = END) by apply new_rec_head. by rewrite Eh. }
    rewrite <- EKI. eapply (wpk_register_tail al r h Size F name app recN d _ KN); [exact IN|exact HrN|apply new_rec_head|apply new_rec_size|by apply new_rec_view..|apply Hrec| |exact Hd|done|done| |].
    - intros Hcr. assert (Hdo : opt F CFE_TBL_OPT_LD_DMP_MSK CFE_TBL_OPT_DUMP_ONLY = false) by (destruct (opt F CFE_TBL_OPT_LD_DMP_MSK CFE_TBL_OPT_DUMP_ONLY); [destruct (Hdd eq_refl); congruence|done]).
      unfold recN. rewrite new_rec_dump, new_rec_user, new_rec_once. unfold once. rewrite Hdo. split_and!; [done| |done]. destruct (usr_def F); [by rewrite Hud in Hdo|done].
    - intros r2 rec2 Hne H2 Ho. unfold recN. rewrite new_rec_name, cstr_copy_str; [|unfold CFE_TBL_MAX_FULL_NAME_LEN; lia|apply length_replicate|done].
      apply (Huniq r2); [|done]. cbn in H2. by rewrite !zset_ne in H2 by (apply zget_lt in Hr; lia || done).
    - intros st K' al' G. apply (HQ _ _ al'). intros X. eapply good_step; [|apply G]. split_and!; [exact IN|done|done]. }
  apply wpk_when; intros Ho; [assert (Ho' : once = true) by exact Ho|assert (Ho' : once = false) by exact Ho]; unfold recN, new_rec in Hcont; cbv zeta in Hcont; rewrite Ho' in Hcont; cbn match in Hcont.
  - eapply wpk_wr_at; [done|exact Hr1|]. kgo. eapply wpk_wr_hdl; [by eapply zset_eq|]. kgo. eapply wpk_wr_at; [done|exact Hr1|]. kgo. exact Hcont.
  - kgo. eapply wpk_wr_hdl; [by eapply zset_eq|]. kgo. eapply wpk_wr_at; [done|exact Hr1|]. kgo. exact Hcont.
Qed.

Lemma FindFreeRegistry_spec l i k : FindFreeRegistry_loop i l = k → k = CFE_TBL_NOT_FOUND ∨
  ∃ rec, i <= k ∧ l !! Z.to_nat (k - i) = Some rec ∧ rr_OwnerAppId rec = NOT_OWNED ∧ rr_HeadOfAccessList rec = END.
Proof.
  revert i. induction l as [|rec l IH]; intros i; cbn; [by left|]. destruct (_ && _) eqn:E.
  - intros <-. apply andb_true_iff in E as [E1 E2]. right. exists rec. rewrite Z.sub_diag. split_and!; [lia|done|lia|by apply Z.eqb_eq].
  - intros [->|(rec' & Hk & Hl & ?)]%IH; [by left|]. right. exists rec'. split; [lia|]. split; [|done]. replace (Z.to_nat (k - i)) with (S (Z.to_nat (k - (i + 1)))) by lia. done.
Qed.

Lemma wpk_own_handle_loop l fuel p c q r app (Q : Z → KS → Prop) K : seg (link_of <$> kH K) r p c l q END → (length l < fuel)%nat → (∀ h, Q h K) → wpk (own_handle_loop fuel c app r) Q K.
Proof.
  revert fuel p c. induction l as [|h l IH]; intros fuel p c Hs Hf HQ.
  - cbn in Hs. destruct Hs as [_ ->], fuel; cbn; apply wpk_ret, HQ.
  - walk_step. destruct fuel as [|fuel]; [cbn in Hf; lia|]. cbn [own_handle_loop]. rewrite end_ne by done. kgo. eapply wpk_rd_hdl; [done|]. cbn beta. destruct (_ && _); [apply wpk_ret, HQ|].
    rewrite <- Hn. eapply IH; [exact Hs0|cbn in Hf; lia|done].
Qed.

(** Registration: the state of the tables is well formed after it, whatever it returns,
    and no contents somebody has the address of change. *)
Lemma wpk_register_locked al Size F ValFunc name app (Q : Z * Z → KS → Prop) K : inv al K → kWork K = false → 0 <= Size → register_args Size F = CFE_SUCCESS →
  (length (cstr name) < CFE_TBL_MAX_FULL_NAME_LEN)%nat → (∀ st h K' al', (∀ X, good al' X K K') → Q (st, h) K') → wpk (register_locked Size F ValFunc name app) Q K.
Proof.
  intros I Hwk HS Hargs Hnl HQ. assert (HQ0 : ∀ st h, Q (st, h) K) by (intros; apply (HQ _ _ _ al); intros; by apply good_refl).
  assert (Hfail : ∀ r st, failed st = true → wpk CFE_TBL_FindFreeHandle (λ TblHandle, wpk (if failed (if TblHandle =? CFE_TBL_END_OF_LIST then CFE_TBL_ERR_HANDLES_FULL else st) then mret (if TblHandle =? CFE_TBL_END_OF_LIST then CFE_TBL_ERR_HANDLES_FULL else st, TblHandle)
    else Status ← register_new r TblHandle Size F ValFunc name app; mret (Status, TblHandle)) Q) K).
  { intros r st Hst. apply wpk_FindFreeHandle; [kgo; change (failed CFE_TBL_ERR_HANDLES_FULL) with true; by kgo|]. intros h d Hh _ _. rewrite end_ne by done. rewrite Hst. by kgo. }
  unfold register_locked, register_find. apply wpk_bind. apply wpk_bind. eapply wpk_FindTable; [done|..].
  - intros Huniq. kgo. unfold CFE_TBL_FindFreeRegistryEntry. kgo. apply wpk_gets. intros s Es. kgo. assert (ER : Registry s = kR K) by exact (f_equal kR Es). rewrite ER.
    destruct (FindFreeRegistry_spec (kR K) 0 _ eq_refl) as [->|(rec & Hk & Hr & Ho & Hh)]; [kgo; kgo; by apply Hfail|].
    set (r := FindFreeRegistry_loop 0 (kR K)) in *. rewrite (proj2 (Z.eqb_neq r CFE_TBL_NOT_FOUND)) by (unfold CFE_TBL_NOT_FOUND; lia). kgo.
    apply wpk_FindFreeHandle; [kgo; change (failed CFE_TBL_ERR_HANDLES_FULL) with true; by kgo|]. intros h d Hh0 Hd Hu. rewrite end_ne by done. cbv zeta. change (failed CFE_SUCCESS) with false. kgo.
    eapply (wpk_register_new al r h Size F ValFunc name app rec d); [done| |done..| |].
    + apply zget_Some. by rewrite Z.sub_0_r in Hr.
    + exact Huniq.
    + intros st K' al' G. kgo. by apply (HQ _ _ _ al').
  - intros r rec Hr Ho Hn Hne. apply wpk_bind. rewrite (proj2 (Z.eqb_neq _ _) Hne). cbn [negb]. apply wpk_bind. eapply wpk_rd_reg; [done|]. cbn beta. destruct (rr_OwnerAppId rec =? app).
    + destruct (Size =? rr_Size rec); cbn [negb].
      * apply wpk_bind. apply wpk_walk_fuel. apply wpk_bind. destruct (al_seg _ _ _ _ I Hr) as (q & Hs & Hlen). eapply wpk_own_handle_loop; [exact Hs|lia|]. intros h. apply wpk_ret. cbn beta match. rewrite (proj2 (Z.eqb_neq _ _) Hne).
        by kgo.
      * apply wpk_ret. cbn beta match. rewrite (proj2 (Z.eqb_neq _ _) Hne). kgo. kgo. by apply Hfail.
    + apply wpk_ret. cbn beta match. rewrite (proj2 (Z.eqb_neq _ _) Hne). kgo. kgo. by apply Hfail.
Qed.

Lemma wpk_Register al App hp name Size F ValFunc K : inv al K → app_ok App → kReg K = false → kWork K = false → 0 <= Size →
  wpk (CFE_TBL_Register App hp name Size F ValFunc) (λ _ K', ∃ al', ∀ X, good al' X K K') K.
Proof.
  intros I Ha Hm Hwk HS. assert (HQ : ∃ al', ∀ X, good al' X K K) by (exists al; intros; by apply good_refl). unfold CFE_TBL_Register. destruct hp as [h0|], name as [name|]; [|by apply wpk_ret..].
  destruct App as [st app]. assert (Hskip : ∀ st th nm, st ≠ CFE_SUCCESS → wpk (mret (st, th, nm)) (λ '(Status, TblHandle, TblName),
    wpk ('(Status, TblHandle) ← (if Status =? CFE_SUCCESS then CFE_TBL_LockRegistry;; r ← register_locked Size F ValFunc TblName app; CFE_TBL_UnlockRegistry;; mret r else mret (Status, TblHandle));
      if Status <? 0 then event CFE_TBL_REGISTER_ERR_EID CFE_EVS_EventType_ERROR;; mret (Status, Some CFE_TBL_BAD_TABLE_HANDLE) else mret (Status, Some TblHandle)) (λ _ K', ∃ al', ∀ X, good al' X K K')) K).
  { intros st2 th nm Hne. kgo. rewrite (proj2 (Z.eqb_neq _ _) Hne). kgo. destruct (st2 <? 0); by kgo. }
  apply wpk_bind. destruct (Z.eqb_spec st CFE_SUCCESS) as [->|Hst]; [|by apply Hskip]. destruct (_ || _) eqn:E; [by apply Hskip|]. apply orb_false_iff in E as [E1 _]. apply Z.ltb_ge in E1.
  apply wpk_bind. eapply wpk_FormTableName; [done|]. intros full Hfull. destruct (Z.eqb_spec (register_args Size F) CFE_SUCCESS) as [Ea|Ea]; [|by apply Hskip].
  kgo. rewrite Ea. kgo. apply wpk_lock; [done|]. kgo. eapply (wpk_register_locked al); [by apply inv_wReg|done..|]. intros st h K' al' G. kgo. apply wpk_unlock. kgo.
  assert (GG : ∃ al', ∀ X, good al' X K (wReg false K')).
  { exists al'. intros X. destruct (G X) as (GI & GK & GT & GR & GW). split_and!; [by apply inv_wReg|exact GK|by split_and!]. }
  destruct (st <? 0); by kgo.
Qed.
End register.
