(* ===== verification/TblLoad.v ===== *)
(** * Table services: loads keep the invariant

    The new contents are prepared in a working buffer, from a file or from memory of the
    application, validated and made active. *)
From S2P Require Import Prelude Config Msg ResourceId Cstring EsApp TimeApi SbState TblConfig EsCrc FsFile TblState TblInternal TblApi TblLinks TblCore TblInv TblOps TblUpdate TblRemove TblRegister.
Import ListNotations.

(** ** Table files *)

(** The table header of a file, as CFE_TBL_ReadHeaders gives it, and the data. *)
Definition file_header (d : list Z) : list Z :=
  <[(sizeof_TBL_File_Hdr - 1)%nat := 0]> (CFE_TBL_ByteSwapTblHeader (splice 0 (take sizeof_TBL_File_Hdr (drop sizeof_CFE_FS_Header d)) (replicate sizeof_TBL_File_Hdr 0))).
Definition file_offset (d : list Z) : Z := u32_at off_Offset (file_header d).
Definition file_size (d : list Z) : Z := u32_at off_NumBytes (file_header d).
Lemma file_offset_eq d : u32_at off_Offset (file_header d) = file_offset d.
Proof. unfold file_offset. reflexivity. Qed.
Lemma file_size_eq d : u32_at off_NumBytes (file_header d) = file_size d.
Proof. unfold file_size. reflexivity. Qed.
Definition file_bytes (d : list Z) : list Z := take (Z.to_nat (file_size d)) (drop (sizeof_CFE_FS_Header + sizeof_TBL_File_Hdr) d).

(** Offset and size of the data do not wrap around. *)
Definition file_ok (o : option (list Z)) : Prop := match o with Some d => file_offset d + file_size d < 2 ^ 32 | None => True end.

Lemma u32_at_range off l : Forall is_u8 l → 0 <= u32_at off l < 2 ^ 32.
Proof.
  intros Hl. assert (Hn : ∀ k, 0 <= nth k l 0 < 256).
  { intros k. destruct (Nat.lt_ge_cases k (length l)) as [Hk|Hk]; [|rewrite nth_overflow by done; lia]. rewrite Forall_lookup in Hl.
    destruct (lookup_lt_is_Some_2 l k Hk) as [x Hx]. rewrite (nth_lookup_Some _ _ _ _ Hx). apply Hl in Hx. unfold is_u8 in Hx. lia. }
  unfold u32_at. pose proof (Hn off). pose proof (Hn (off + 1)%nat). pose proof (Hn (off + 2)%nat). pose proof (Hn (off + 3)%nat). lia.
Qed.
Lemma splice_u8 off bs m : Forall is_u8 bs → Forall is_u8 m → Forall is_u8 (splice off bs m).
Proof. intros Hb Hm. unfold splice. apply Forall_app. split; [by apply Forall_take|]. apply Forall_app. split; [done|by apply Forall_drop]. Qed.
Lemma swap_u8 off m : Forall is_u8 m → Forall is_u8 (CFE_FS_ByteSwapUint32 off m).
Proof. intros Hm. unfold CFE_FS_ByteSwapUint32. apply splice_u8; [|done]. apply Forall_rev. by apply Forall_take, Forall_drop. Qed.
Lemma file_header_u8 d : Forall is_u8 (take sizeof_TBL_File_Hdr (drop sizeof_CFE_FS_Header d)) → Forall is_u8 (file_header d).
Proof.
  intros Hd. unfold file_header. apply Forall_insert; [|unfold is_u8; lia]. unfold CFE_TBL_ByteSwapTblHeader. do 3 apply swap_u8. apply splice_u8; [done|]. apply Forall_replicate. unfold is_u8. lia.
Qed.

Section load.
Context {PS FS CS : Type} `{Pool : MemPool PS} `{Files : OSFile FS} `{Store : CDSStore CS} `{Cfg : TblCfg}.
Context `{PoolOK : !MemPoolOK PS} `{FilesOK : !OSFileOK FS} `{PoolSt : !TblPoolOK PS} `{StoreOK : !CDSStoreOK CS}.
Abbreviation TG := (CFE_TBL_Global_t PS FS CS).
Abbreviation KS := (core FS CS).
Implicit Types (K : KS) (s : TG) (X : Z → Prop).

Lemma good_wF al X K f : inv al K → good al X K (wF f K).
Proof. intros I. split_and!; [by apply inv_wF|by intros ???????|done]. Qed.

(** A file open for reading: name, contents and position. *)
Definition at_file (f : FS) (fd : Z) (name d : list Z) (pos : nat) : Prop := f_open f !! fd = Some (name, pos) ∧ f_data f !! name = Some d.

Lemma wpk_file_read fd n name d pos (Q : Z * list Z → KS → Prop) K : at_file (kF K) fd name d pos →
  (∀ st f, - 2 ^ 31 <= st < 0 → Q (st, []) (wF f K)) →
  (∀ bs f, bs = take n (drop pos d) → Forall is_u8 bs → at_file f fd name d (pos + length bs) → Q (Z.of_nat (length bs), bs) (wF f K)) →
  wpk (files (FsFile.call (OS_read fd n))) Q K.
Proof.
  intros [Ho Hd] Hf HQ. apply wpk_call. intros [st bs] f E. destruct (read_len _ _ _ _ _ _ E) as (Hl & Hp & Hn & Hi). destruct (Z.lt_ge_cases st 0) as [Hst|Hst].
  - rewrite (Hn Hst). by apply Hf.
  - destruct (read_ok _ _ _ _ _ _ _ _ _ E Hst Ho Hd) as (Eb & Ed & Eo). rewrite (Hp Hst). apply HQ; [done|by eapply read_bytes|]. split; [rewrite Eo; apply lookup_insert_eq|by rewrite Ed].
Qed.

Lemma wp_ReadHeader fd name d f0 : at_file f0 fd name d 0 →
  wp (CFE_FS_ReadHeader (Some (replicate sizeof_CFE_FS_Header 0)) fd) (λ a f, a.1 = Z.of_nat sizeof_CFE_FS_Header → at_file f fd name d sizeof_CFE_FS_Header ∨ a.2 = Some (replicate sizeof_CFE_FS_Header 0)) f0.
Proof.
  intros [Ho Hd]. unfold CFE_FS_ReadHeader. apply wp_bind. unfold FsFile.call at 1, wp at 1. destruct (OS_lseek fd 0 f0) as [st f] eqn:E. destruct (Z.eqb_spec st OS_SUCCESS) as [->|Hst].
  - destruct (lseek_ok fd 0 f0 OS_SUCCESS f name 0 E) as [Ed Eo]; [lia|done|done|]. apply wp_bind. unfold FsFile.call, wp at 1.
    destruct (OS_read fd sizeof_CFE_FS_Header f) as [[st bs] f2] eqn:E2. apply wp_ret. cbn [fst]. intros Hs. left.
    destruct (read_ok _ _ _ _ _ _ name 0 d E2) as (Eb & Ed2 & Eo2); [lia|rewrite Eo; apply lookup_insert_eq|by rewrite Ed|].
    destruct (read_len _ _ _ _ _ _ E2) as (_ & Hp & _ & _). rewrite Hp in Hs by lia. apply Nat2Z.inj in Hs. split; [rewrite Eo2, Hs; apply lookup_insert_eq|by rewrite Ed2, Ed].
  - apply wp_ret. by right.
Qed.

(** The headers: on success the file is at its data. *)
Lemma wpk_ReadHeaders fd name d (Q : Z * list Z * list Z → KS → Prop) K : at_file (kF K) fd name d 0 → (∀ st h t f, st ≠ CFE_SUCCESS → st < 0 → Q (st, h, t) (wF f K)) →
  (∀ h f, Forall is_u8 (take sizeof_TBL_File_Hdr (drop sizeof_CFE_FS_Header d)) → at_file f fd name d (sizeof_CFE_FS_Header + sizeof_TBL_File_Hdr) → Q (CFE_SUCCESS, h, file_header d) (wF f K)) →
  wpk (CFE_TBL_ReadHeaders fd) Q K.
Proof.
  intros Ha Hf HQ. unfold CFE_TBL_ReadHeaders. apply wpk_bind. apply wpk_files.
  eapply wp_mono; [eapply (wp_ReadHeader fd name d); exact Ha|]. intros [st hd] f Hr. cbn [fst snd] in Hr. cbn beta match.
  destruct (Z.eqb_spec st (Z.of_nat sizeof_CFE_FS_Header)) as [->|Hst]; cbn [negb]; [|kgo; by apply Hf]. destruct (Hr eq_refl) as [Ha1| ->].
  2:{ change (u32_at off_ContentType (default [] (Some (replicate sizeof_CFE_FS_Header 0)))) with 0. kgo. by apply Hf. }
  destruct (negb (u32_at off_ContentType _ =? _)); [kgo; by apply Hf|]. destruct (negb (u32_at off_SubType _ =? _)); [kgo; by apply Hf|]. apply wpk_bind.
  eapply (wpk_file_read fd sizeof_TBL_File_Hdr name d sizeof_CFE_FS_Header); [exact Ha1|..].
  - intros st f2 Hs. cbn beta match. rewrite (proj2 (Z.eqb_neq st _)) by lia. cbn [negb]. kgo. by apply (Hf _ _ _ f2).
  - intros bs f2 Eb Hu Ha2. cbn beta match. destruct (Z.eqb_spec (Z.of_nat (length bs)) (Z.of_nat sizeof_TBL_File_Hdr)) as [El|]; cbn [negb]; [|kgo; by apply (Hf _ _ _ f2)].
    apply Nat2Z.inj in El. kgo. rewrite El in Ha2. rewrite Eb. apply HQ; [by rewrite <- Eb|done].
Qed.

(** ** Preparing a working buffer *)

(** Table [r] and its working buffer at [p]. *)
Definition working al K (r : Z) rec (w : BufRef) (p : tptr) : Prop :=
  inv al K ∧ zget (kR K) r = Some rec ∧ inuse rec ∧ (rr_LoadInProgress rec = -1 → rr_UserDefAddr rec = false) ∧ workbuf r rec w ∧ ∃ b, lb K w = Some b ∧ lb_BufferPtr b = p.

(** Steps that only write to the working buffer. *)
Definition prep al (r : Z) rec w p K K' : Prop :=
  all_good al K K' ∧ kH K' = kH K ∧ kD K' = kD K ∧
  ∃ rec', working al K' r rec' w p ∧ rview rec' = rview rec ∧ rr_TableLoadedOnce rec' = rr_TableLoadedOnce rec.

Lemma working_mem al K r rec w p : working al K r rec w p → is_pool p ∧ unheld K p ∧ ∃ old, mem K p = Some old ∧ 0 < rr_Size rec <= Z.of_nat (length old).
Proof.
  intros (I & Hr & Hu & Hud & Hw & b & Hb & Ep). destruct (workbuf_ok _ _ _ _ w I Hr Hu Hud Hw) as (b' & Hb' & Hp & (old & Hm & Hn & _) & Hh). rewrite Hb in Hb'. injection Hb' as <-. rewrite Ep in *.
  split_and!; [done..|]. exists old. split; [done|]. pose proof (ro_size _ (proj1 (i_ent _ _ I _ _ Hr)) Hu). lia.
Qed.

Lemma workbuf_view r rec rec' w : rview rec' = rview rec → rr_TableLoadedOnce rec' = rr_TableLoadedOnce rec → workbuf r rec w → workbuf r rec' w.
Proof. intros E Et. injection E as E1 E2 E3 E4 E5 E6 E7 E8 E9 E10 E11 E12 E13 E14 E15 E16 E17 E18 E19. unfold workbuf. by rewrite E4, E11, E13, Et. Qed.
Lemma working_view al K' r rec rec' w p : inv al K' → zget (kR K') r = Some rec' → rview rec' = rview rec → rr_TableLoadedOnce rec' = rr_TableLoadedOnce rec → inuse rec → (rr_LoadInProgress rec = -1 → rr_UserDefAddr rec = false) →
  workbuf r rec w → (∃ b, lb K' w = Some b ∧ lb_BufferPtr b = p) → working al K' r rec' w p.
Proof.
  intros I Hr E Et Hu Hud Hw Hb. pose proof (workbuf_view r rec rec' w E Et Hw) as Hw'. injection E as E1 E2 E3 E4 E5 E6 E7 E8 E9 E10 E11 E12 E13 E14 E15 E16 E17 E18 E19.
  split_and!; [done|done|unfold inuse; by rewrite E3|by rewrite E4, E12|done|done].
Qed.

Lemma prep_refl al K r rec w p : working al K r rec w p → prep al r rec w p K K.
Proof. intros W. split_and!; [apply all_good_refl, W|done|done|]. by exists rec. Qed.

Lemma prep_same al K K1 r rec w p f : prep al r rec w p K K1 → prep al r rec w p K (wF f K1).
Proof.
  intros (G & EH & ED & rec' & W & E & Et). split_and!; [eapply all_good_trans; [exact G|]; intros X; apply good_wF, W|done|done|]. exists rec'. split_and!; [|done|done].
  destruct W as (I & Hr & Hu & Hud & Hw & Hb). split_and!; [by apply inv_wF|done|done|done|done|]. destruct Hb as (b & Hb & Ep). exists b. split; [|done]. by destruct w.
Qed.

Lemma prep_mem al K K1 r rec w p old new : prep al r rec w p K K1 → mem K1 p = Some old → length new = length old → prep al r rec w p K (set_mem p new K1) ∧ mem (set_mem p new K1) p = Some new.
Proof.
  intros (G & EH & ED & rec' & W & E & Et) Hm Hl. destruct (working_mem _ _ _ _ _ _ W) as (Hp & Hun & _). assert (Hne : p ≠ PNull) by (by intros ->). pose proof W as (I & Hr & Hu & Hud & Hw & b & Hb & Ep).
  assert (E1 : kR (set_mem p new K1) = kR K1 ∧ kL (set_mem p new K1) = kL K1 ∧ kH (set_mem p new K1) = kH K1 ∧ kD (set_mem p new K1) = kD K1 ∧ kept K1 (set_mem p new K1)) by by destruct p.
  destruct E1 as (ER & EL & EH1 & ED1 & EK). split; [|rewrite mem_set by done; by rewrite decide_True]. assert (I1 : inv al (set_mem p new K1)) by by eapply inv_mem.
  split_and!; [|by rewrite EH1|by rewrite ED1|].
  - eapply all_good_trans; [exact G|]. intros X. split_and!; [done|by apply keeps_mem|done].
  - exists rec'. split_and!; [|done|done]. split_and!; [done|by rewrite ER|done|done|done|]. exists b. split; [|done]. destruct w; cbn in *; by rewrite ?ER, ?EL.
Qed.

Lemma prep_lb al K K1 r rec w p b b' : prep al r rec w p K K1 → lb K1 w = Some b → lb_BufferPtr b' = lb_BufferPtr b → lb_Taken b' = lb_Taken b → prep al r rec w p K (set_lb w b' K1).
Proof.
  intros (G & EH & ED & rec' & W & E & Et) Hb Ep Etk. pose proof W as (I & Hr & Hu & Hud & Hw & b0 & Hb0 & Ep0). rewrite Hb in Hb0. injection Hb0 as <-.
  assert (Gs : ∀ X, good al X K1 (set_lb w b' K1)) by (intros X; by eapply good_set_lb). pose proof (proj1 (Gs (λ _, False))) as I1.
  assert (Hlb : ∃ b2, lb (set_lb w b' K1) w = Some b2 ∧ lb_BufferPtr b2 = p) by (exists b'; split; [by eapply lb_set_lb|congruence]).
  split_and!; [by eapply all_good_trans|..].
  - destruct w as [r2 i|j]; cbn; [|done]. by destruct (zget (kR K1) r2).
  - destruct w as [r2 i|j]; cbn; [|done]. by destruct (zget (kR K1) r2).
  - assert (∃ rec2, zget (kR (set_lb w b' K1)) r = Some rec2 ∧ rview rec2 = rview rec' ∧ rr_TableLoadedOnce rec2 = rr_TableLoadedOnce rec') as (rec2 & Hr2 & E2 & Et2).
    { assert (Hw2 : (∃ i, w = RegBuf r i) ∨ ∃ j, w = SharedBuf j). { destruct Hw as [[_ ->]|(_ & _ & ->)]; [destruct (rr_DoubleBuffered rec'); [left|right]; by eexists|left; by eexists]. }
      destruct Hw2 as [[i ->]|[j ->]]; cbn in *; [|by exists rec']. rewrite Hr in *. cbn in Hb |- *. exists (set_buf i b' rec'). split; [by eapply zset_eq|]. split; [by eapply rview_set_buf|done]. }
    exists rec2. split_and!; [|congruence|congruence]. by eapply (working_view al _ r rec').
Qed.

Lemma prep_working al K K1 r rec w p : prep al r rec w p K K1 → ∃ rec1 b old, working al K1 r rec1 w p ∧ zget (kR K1) r = Some rec1 ∧ rview rec1 = rview rec ∧ rr_TableLoadedOnce rec1 = rr_TableLoadedOnce rec ∧ lb K1 w = Some b ∧ lb_BufferPtr b = p ∧
  mem K1 p = Some old ∧ 0 < rr_Size rec <= Z.of_nat (length old).
Proof.
  intros (G & EH & ED & rec' & W & E & Et). destruct (working_mem _ _ _ _ _ _ W) as (Hp & Hun & old & Hm & Hn). pose proof W as (I & Hr & Hu & Hud & Hw & b & Hb & Ep). exists rec', b, old.
  split_and!; try done; injection E as E1 E2 E3 E4 E5 E6 E7 E8 E9 E10 E11 E12 E13 E14 E15 E16 E17 E18 E19; rewrite E2 in Hn; lia.
Qed.

Lemma wpk_close fd st (Q : Z → KS → Prop) K : (∀ f, Q st (wF f K)) → wpk (close_file fd st) Q K.
Proof. intros HQ. unfold close_file. kgo. apply wpk_call. intros st2 f _. kgo. apply HQ. Qed.

Lemma wpk_read_into al K r rec w p fd off n name d pos old (Q : Z → KS → Prop) K2 : prep al r rec w p K K2 → at_file (kF K2) fd name d pos → mem K2 p = Some old → 0 <= n → 0 <= off → off + n <= rr_Size rec →
  (∀ st K', u32 st ≠ n → prep al r rec w p K K' → Q st K') →
  (∀ K', let bs := take (Z.to_nat n) (drop pos d) in Z.of_nat (length bs) = n → prep al r rec w p K K' → mem K' p = Some (splice (Z.to_nat off) bs old) → Q n K') →
  wpk (read_into w fd off n) Q K2.
Proof.
  intros P2 Ha Hm Hn Hoff Hfit Hf HQ. destruct (prep_working _ _ _ _ _ _ _ P2) as (rec2 & b & old2 & W2 & Hr2 & E2 & Et2 & Hb & Ep & Hold2 & Hlen). rewrite Hm in Hold2. injection Hold2 as <-.
  assert (Hs : rr_Size rec <= 16384). { destruct W2 as (I2 & _ & Hu2 & _). pose proof (ro_size _ (proj1 (i_ent _ _ I2 _ _ Hr2)) Hu2) as Hx. injection E2 as _ Hx2 _. rewrite Hx2 in Hx. unfold CFE_PLATFORM_TBL_MAX_SNGL_TABLE_SIZE in Hx. lia. }
  assert (Hwr : ∀ st bs f, (length bs <= Z.to_nat n)%nat → (∀ K', prep al r rec w p K K' → mem K' p = Some (splice (Z.to_nat off) bs old) → Q st K') →
    wpk (b ← rd_lb w; wr_mem (lb_BufferPtr b) off bs;; mret st) Q (wF f K2)).
  { intros st bs f Hbl HQ'. kgo. eapply wpk_rd_lb; [destruct w; exact Hb|]. kgo. rewrite Ep. assert (Hm' : mem (wF f K2) p = Some old) by by destruct p. eapply wpk_wr_mem; [exact Hm'|lia|]. kgo.
    destruct (prep_mem al K (wF f K2) r rec w p old (splice (Z.to_nat off) bs old)) as [P3 Hm3]; [by apply prep_same|done|apply splice_length; lia|]. by apply HQ'. }
  unfold read_into. apply wpk_bind. eapply (wpk_file_read fd (Z.to_nat n) name d pos _ K2); [exact Ha| |].
  - intros st f Hst. cbn beta match. apply Hwr; [cbn; lia|]. intros K' P' _. apply Hf; [|done]. unfold u32. rewrite <- (Z.mod_unique st (2 ^ 32) (-1) (st + 2 ^ 32)); lia.
  - intros bs f Eb _ _. cbn beta match. apply Hwr; [rewrite Eb, length_take; lia|]. intros K' P' Hm'. rewrite Eb in Hm'. destruct (Z.eq_dec (Z.of_nat (length bs)) n) as [El|Hne].
    + rewrite El. rewrite Eb in El. by apply HQ.
    + apply Hf; [|done]. rewrite u32_small; [done|]. unfold is_u32. assert (length bs <= Z.to_nat n)%nat by (rewrite Eb, length_take; lia). lia.
Qed.

(** A load from a file: the data of the file goes to its offset of the buffer. *)
Lemma wpk_LoadFromFile al r rec w p old name (Q : Z → KS → Prop) K : working al K r rec w p → mem K p = Some old → file_ok (f_data (kF K) !! cstr name) →
  (∀ st K', st < 0 → prep al r rec w p K K' → Q st K') →
  (∀ st K' d, 0 <= st → (st = CFE_TBL_WARN_PARTIAL_LOAD ↔ 0 < file_offset d) → prep al r rec w p K K' → f_data (kF K) !! cstr name = Some d → 0 <= file_offset d → file_offset d + file_size d <= rr_Size rec → Z.of_nat (length (file_bytes d)) = file_size d →
     strcmp_eq (rr_Name rec) (hdr_TableName (file_header d)) = true → mem K' p = Some (splice (Z.to_nat (file_offset d)) (file_bytes d) old) → Q st K') →
  wpk (CFE_TBL_LoadFromFile w r name) Q K.
Proof.
  intros W Hold Hok Hf HQ. pose proof (prep_refl _ _ _ _ _ _ W) as P0. unfold CFE_TBL_LoadFromFile. destruct (_ <? _)%nat; [kgo; by apply Hf|].
  apply wpk_bind. apply wpk_call. intros [st fd] f1 E1. cbn beta match. destruct (Z.ltb_spec st 0) as [Hst|Hst]; [kgo; apply Hf; [done|by apply prep_same]|].
  destruct (open_ok _ _ _ _ _ _ _ E1 Hst) as (Eo & Ed & [d Hd]). cbn in Ed. rewrite Hd in Hok. cbn in Hok.
  assert (Ha : at_file f1 fd (cstr name) d 0) by (split; [rewrite Eo; apply lookup_insert_eq|by rewrite Ed]). apply wpk_bind.
  eapply (wpk_ReadHeaders fd (cstr name) d _ (wF f1 K)); [exact Ha| |].
  { intros st2 h t f2 Hne Hs. cbn beta match. rewrite (proj2 (Z.eqb_neq _ _) Hne). cbn [negb]. apply wpk_close. intros f3. apply Hf; [done|]. by do 3 apply prep_same. }
  intros h f2 Hu8 Ha2. set (K2 := wF f2 (wF f1 K)). assert (P2 : prep al r rec w p K K2) by by do 2 apply prep_same. cbn beta match. kgo. pose proof W as (I & Hr & Hu & _). destruct (i_ent _ _ I _ _ Hr) as (R & _).
  eapply wpk_rd_reg; [exact Hr|]. cbn beta. rewrite file_offset_eq, file_size_eq.
  destruct (strcmp_eq (rr_Name rec) (hdr_TableName (file_header d))) eqn:Ename; cbn [negb]; [|kgo; apply wpk_close; intros f3; apply Hf; [done|by apply prep_same]].
  pose proof (u32_at_range off_Offset _ (file_header_u8 _ Hu8)) as Hoff. pose proof (u32_at_range off_NumBytes _ (file_header_u8 _ Hu8)) as Hnum. rewrite file_offset_eq in Hoff. rewrite file_size_eq in Hnum.
  rewrite u32_small by (unfold is_u32; lia). destruct (Z.ltb_spec (rr_Size rec) (file_offset d + file_size d)) as [|Hfit]; [kgo; apply wpk_close; intros f3; apply Hf; [done|by apply prep_same]|].
  set (Status := if 0 <? file_offset d then _ else _).
  assert (Hold2 : mem K2 p = Some old) by by destruct p. apply wpk_bind. eapply (wpk_read_into al K r rec w p fd (file_offset d) (file_size d) (cstr name) d _ old); [exact P2|exact Ha2|done|lia|lia|done| |].
  { intros st2 K3 Hne P3. rewrite (proj2 (Z.eqb_neq _ _) Hne). cbn [negb]. kgo. apply wpk_close. intros f3. apply Hf; [done|by apply prep_same]. }
  cbv zeta. intros K3 Hlen P3 Hm3. rewrite u32_small by (unfold is_u32; lia). rewrite Z.eqb_refl. cbn [negb]. apply wpk_bind. apply wpk_call. intros [st3 bs3] f4 _. cbn beta match.
  pose proof (prep_same al K K3 r rec w p f4 P3) as P4. destruct (u32 st3 =? 1); [kgo; apply wpk_close; intros f5; apply Hf; [done|by apply prep_same]|].
  assert (Hm4 : mem (wF f4 K3) p = Some (splice (Z.to_nat (file_offset d)) (file_bytes d) old)) by by destruct p. set (K4 := wF f4 K3) in *.
  destruct (prep_working _ _ _ _ _ _ _ P4) as (rec4 & b4 & old4 & W4 & Hr4 & E4 & Et4 & Hb4 & Ep4 & Hold4 & Hlen4).
  kgo. eapply wpk_wr_lb; [exact Hb4|]. set (b5 := b4 <| lb_DataSource := _ |>). pose proof (prep_lb _ _ _ _ _ _ _ _ b5 P4 Hb4 eq_refl eq_refl) as P5. set (K5 := set_lb w b5 K4) in *.
  assert (Hb5 : lb K5 w = Some b5) by by eapply lb_set_lb. kgo. eapply wpk_wr_lb; [exact Hb5|]. set (b6 := b5 <| lb_FileCreateTimeSecs := _ |> <| lb_FileCreateTimeSubSecs := _ |>).
  pose proof (prep_lb _ _ _ _ _ _ _ _ b6 P5 Hb5 eq_refl eq_refl) as P6. set (K6 := set_lb w b6 K5) in *. assert (Hb6 : lb K6 w = Some b6) by by eapply lb_set_lb. kgo. eapply wpk_rd_lb; [exact Hb6|].
  assert (Hm6 : mem K6 p = mem K4 p) by (unfold K6, K5; by rewrite !mem_set_lb). assert (Ep6 : lb_BufferPtr b6 = p) by exact Ep4. kgo. eapply wpk_crc; [rewrite Ep6, Hm6; exact Hold4|lia|]. intros c. kgo.
  eapply wpk_wr_lb; [exact Hb6|]. set (b7 := b6 <| lb_Crc := c |>). pose proof (prep_lb _ _ _ _ _ _ _ _ b7 P6 Hb6 eq_refl eq_refl) as P7. set (K7 := set_lb w b7 K6) in *. kgo. apply wpk_close. intros f8.
  assert (Hm7 : mem K7 p = mem K6 p) by (unfold K7; by rewrite mem_set_lb). apply (HQ _ _ d); try done.
  - unfold Status. destruct (0 <? file_offset d), (file_size d <? rr_Size rec); by vm_compute.
  - unfold Status. destruct (Z.ltb_spec 0 (file_offset d)); [by split|]. split; [|lia]. destruct (file_size d <? rr_Size rec); intros Hx; vm_compute in Hx; discriminate Hx.
  - by apply prep_same.
  - lia.
  - transitivity (mem K7 p); [by destruct p|]. by rewrite Hm7, Hm6.
Qed.

(** ** The data of a load *)

(** What the caller passes: memory with enough bytes, or the name of a good file. *)
Definition source_ok K (SrcType : Z) rec (p : tptr) : Prop :=
  ∃ a bs, p = PApp a ∧ kA K !! a = Some bs ∧ (SrcType = CFE_TBL_SRC_FILE → file_ok (f_data (kF K) !! cstr bs)) ∧
    (SrcType ≠ CFE_TBL_SRC_FILE ∨ rr_DumpOnly rec = true → rr_Size rec <= Z.of_nat (length bs)).

(** The bytes a load puts in the buffer, on top of [old]. *)
Definition loaded K (SrcType : Z) rec (src : tptr) (old : list Z) : option (list Z) :=
  match src with
  | PApp a =>
      match kA K !! a with
      | Some bs => if SrcType =? CFE_TBL_SRC_FILE then (λ d, splice (Z.to_nat (file_offset d)) (file_bytes d) old) <$> f_data (kF K) !! cstr bs
                   else Some (splice 0 (take (Z.to_nat (rr_Size rec)) bs) old)
      | None => None
      end
  | _ => None
  end.

Lemma lb_crc b c : lb_BufferPtr (b <| lb_Crc := c |>) = lb_BufferPtr b ∧ lb_Taken (b <| lb_Crc := c |>) = lb_Taken b.
Proof. done. Qed.

Lemma wpk_load_data al r rec w p old SrcType src (Q : Z → KS → Prop) K : working al K r rec w p → mem K p = Some old → source_ok K SrcType rec src → (SrcType ≠ CFE_TBL_SRC_FILE → rr_DumpOnly rec = false) →
  (∀ st K', st < 0 → prep al r rec w p K K' → Q st K') →
  (∀ st K', 0 <= st → prep al r rec w p K K' → (∃ off bs, (off + length bs <= Z.to_nat (rr_Size rec))%nat ∧ (∀ o, loaded K SrcType rec src o = Some (splice off bs o)) ∧ mem K' p = Some (splice off bs old)) → Q st K') →
  wpk (load_data w r SrcType src) Q K.
Proof.
  intros W Hold (a & bs & -> & Hbs & Hfile & Hlen) Hdo Hf HQ. pose proof (prep_refl _ _ _ _ _ _ W) as P0. pose proof W as (I & Hr & Hu & _ & _ & b & Hb & Ep). unfold load_data. destruct (Z.eqb_spec SrcType CFE_TBL_SRC_FILE) as [Es|Es].
  - apply wpk_bind. eapply wpk_rd_mem; [exact Hbs|]. apply wpk_bind. eapply (wpk_LoadFromFile al r rec w p old); [done|done|by apply Hfile| |].
    + intros st K' Hst P1. destruct (prep_working _ _ _ _ _ _ _ P1) as (rec1 & b1 & old1 & W1 & Hr1 & _). kgo. eapply wpk_rd_reg; [exact Hr1|]. cbn beta.
      destruct (_ && _); kgo; by apply Hf.
    + intros st K' d Hst _ P1 Hd Ho Hfit Hbl Hn Hm. destruct (prep_working _ _ _ _ _ _ _ P1) as (rec1 & b1 & old1 & W1 & Hr1 & _). kgo. eapply wpk_rd_reg; [exact Hr1|]. cbn beta.
      destruct (_ && _); kgo; [by apply Hf|]. apply HQ; [done..|]. exists (Z.to_nat (file_offset d)), (file_bytes d). split_and!; [lia| |exact Hm]. intros o. cbn. rewrite Hbs, Es. cbn. by rewrite Hd.
  - destruct (SrcType =? CFE_TBL_SRC_ADDRESS); [|kgo; by apply Hf]. specialize (Hlen (or_introl Es)).
    destruct (working_mem _ _ _ _ _ _ W) as (Hp & Hun & old0 & Hold0 & Hsz). rewrite Hold in Hold0. injection Hold0 as <-.
    kgo. eapply wpk_rd_reg; [exact Hr|]. kgo. eapply wpk_rd_lb; [exact Hb|]. kgo. rewrite Ep. eapply wpk_memcpy; [lia|exact Hbs|lia|exact Hold|lia|]. set (new := splice 0 _ old).
    assert (Hnl : length new = length old) by (apply splice_length; rewrite length_take; lia). destruct (prep_mem _ _ _ _ _ _ _ _ new P0 Hold Hnl) as [P1 Hm1]. set (K1 := set_mem p new K) in *.
    destruct (prep_working _ _ _ _ _ _ _ P1) as (rec1 & b1 & old1 & W1 & Hr1 & E1 & Et1 & Hb1 & Ep1 & Hold1 & Hlen1). kgo. eapply wpk_wr_lb; [exact Hb1|].
    match goal with |- context [set_lb w ?x K1] => set (b2 := x) end. pose proof (prep_lb _ _ _ _ _ _ _ _ b2 P1 Hb1 eq_refl eq_refl) as P2. set (K2 := set_lb w b2 K1) in *.
    assert (Hb2 : lb K2 w = Some b2) by by eapply lb_set_lb. assert (Hm2 : mem K2 p = Some new) by (unfold K2; by rewrite mem_set_lb). kgo. eapply wpk_crc; [exact Hm2|rewrite Hnl; lia|]. intros c. kgo. eapply wpk_wr_lb; [exact Hb2|].
    set (b3 := b2 <| lb_Crc := c |>). pose proof (prep_lb _ _ _ _ _ _ _ _ b3 P2 Hb2 (proj1 (lb_crc b2 c)) (proj2 (lb_crc b2 c))) as P3. kgo. apply HQ; [done..|]. exists 0%nat, (take (Z.to_nat (rr_Size rec)) bs). split_and!; [rewrite length_take; lia| |by rewrite mem_set_lb].
    intros o. cbn. rewrite Hbs. by rewrite (proj2 (Z.eqb_neq _ _) Es).
Qed.

(** A failed validation clears the buffer. *)
Lemma wpk_load_validate al r rec w p st0 (Q : Z → KS → Prop) K0 K : prep al r rec w p K0 K →
  (∀ st K', st < 0 → prep al r rec w p K0 K' → Q st K') → (∀ st, 0 <= st → 0 <= st0 → Q st K) → wpk (load_validate w r st0) Q K.
Proof.
  intros P1 Hf HQ. destruct (prep_working _ _ _ _ _ _ _ P1) as (rec1 & b1 & old & W1 & Hr1 & E1 & Et1 & Hb1 & Ep1 & Hold & Hlen). assert (Esz : rr_Size rec1 = rr_Size rec) by by injection E1.
  unfold load_validate. kgo. eapply wpk_rd_reg; [exact Hr1|]. cbn beta. destruct (Z.leb_spec CFE_SUCCESS st0) as [Hs|Hs]; cbn [andb].
  2:{ kgo. by apply Hf. }
  destruct (Z.eqb_spec (rr_ValidationFuncPtr rec1) NULL) as [|Hv]; cbn [negb]; [kgo; by apply HQ|]. kgo. eapply wpk_rd_lb; [exact Hb1|]. kgo. rewrite Ep1. eapply wpk_call_validation; [done|exact Hold|lia|].
  intros st. kgo. assert (Hend : ∀ st1, st1 <= 0 → wpk (when (st1 <? 0) (event CFE_TBL_VALIDATION_ERR_EID CFE_EVS_EventType_ERROR;; memset p (rr_Size rec1))) (λ _, wpk (mret st1) Q) K).
  { intros st1 Hst1. destruct (Z.ltb_spec st1 0); cbn [when]; kgo; [|apply HQ; unfold CFE_SUCCESS in *; lia]. eapply wpk_memset; [lia|exact Hold|lia|]. kgo. apply Hf; [done|].
    eapply prep_mem; [exact P1|exact Hold|]. apply splice_length. rewrite length_replicate. lia. }
  destruct (Z.ltb_spec CFE_SUCCESS st); [apply wpk_bind, wpk_event, wpk_ret, wpk_bind; by apply (Hend (-1))|apply wpk_ret, wpk_bind; by apply Hend].
Qed.

(** ** The end of a load *)

Definition load_done K' (r : Z) (bs : option (list Z)) : Prop := contents K' r = bs ∧ ∃ rec', zget (kR K') r = Some rec' ∧ rr_TableLoadedOnce rec' = true.

Lemma rec_pending rec : rec_ok rec → rr_DumpOnly rec = false → (rr_DoubleBuffered rec = false → rr_ValidateInactiveIndex rec = -1) → rec_ok (rec <| rr_LoadPending := true |>).
Proof.
  intros R Hd Hv. destruct R. constructor; try assumption; cbn.
  - congruence.
  - intros _ Hdb Hx. by apply Hv in Hdb.
Qed.

Lemma wpk_load_finish al r rec w p old (Q : Z → KS → Prop) K : working al K r rec w p → mem K p = Some old → rr_DumpOnly rec = false → rr_UserDefAddr rec = false → (rr_DoubleBuffered rec = false → rr_ValidateInactiveIndex rec = -1) →
  (rr_TableLoadedOnce rec = false → rr_LoadInProgress rec = -1) →
  (∀ st K', st ≠ CFE_SUCCESS → all_good al K K' → Q st K') → (∀ K', all_good al K K' → load_done K' r (Some (take (Z.to_nat (rr_Size rec)) old)) → Q CFE_SUCCESS K') →
  wpk (load_finish w r) Q K.
Proof.
  intros W Hold Hdo Hud Hv Hfirst Hf HQ. pose proof W as (I & Hr & Hu & _ & Hw & b & Hb & Ep). destruct (i_ent _ _ I _ _ Hr) as (R & P & _). unfold load_finish. apply wpk_bind. eapply wpk_rd_reg; [exact Hr|]. cbv zeta. cbn beta.
  destruct (rr_TableLoadedOnce rec) eqn:Ht; cbn [negb].
  - destruct Hw as [[Hl Ew]|(_ & ? & _)]; [|congruence]. apply wpk_bind. apply wpk_bind. eapply wpk_wr_reg; [exact Hr|]. set (rec1 := rec <| rr_LoadPending := true |>). set (K1 := wR _ K).
    assert (G1 : all_good al K K1) by (intros X; eapply good_fview; [done|done|done|by apply rec_pending|done]). assert (Hr1 : zget (kR K1) r = Some rec1) by by eapply zset_eq. pose proof (all_good_inv _ _ _ G1) as I1.
    assert (Hst : staged K1 r = Some (take (Z.to_nat (rr_Size rec)) old)).
    { unfold staged. rewrite Hr1. assert (Hlb : lb K1 (work_ref r rec1) = Some b). { change (work_ref r rec1) with (work_ref r rec). unfold work_ref. rewrite <- Ew. destruct w as [r2 i|j]; [|exact Hb].
        destruct (rr_DoubleBuffered rec); [injection Ew as -> ->|done]. cbn [lb] in *. rewrite Hr1. rewrite Hr in Hb. exact Hb. }
      rewrite Hlb, Ep. change (mem K1 p) with (mem (wR (kR K1) K) p). assert (Hm : mem (wR (kR K1) K) p = Some old) by by destruct p. by rewrite Hm. }
    apply wpk_bind. eapply (wpk_UpdateInternal al r rec1); [done|done|done|..].
    + kgo. by apply Hf.
    + kgo. by apply Hf.
    + intros K' G U. kgo. apply wpk_modify_any; [done|]. kgo. apply HQ; [eapply all_good_trans; [exact G1|exact G]|]. destruct U as (Ec & _ & rec2 & rec3 & _ & H3 & _ & _ & Ht3 & _). split; [congruence|]. by exists rec3.
  - destruct Hw as [[Hl _]|(Hl & _ & ->)]; [by rewrite Hfirst in Hl|]. apply wpk_bind. apply wpk_bind. eapply wpk_rd_lb; [exact Hb|]. apply wpk_bind. eapply wpk_wr_reg; [exact Hr|].
    set (rec1 := rec <| rr_LastFileLoaded ::= _ |>). set (K1 := wR _ K). pose proof (ro_file _ R) as Hfl.
    assert (Ef : rview rec1 = rview rec) by (apply (rview_file rec); rewrite Hfl; by apply copy_str_length). assert (Hr1 : zget (kR K1) r = Some rec1) by by eapply zset_eq.
    apply wpk_bind. eapply (wpk_Notify al r rec1); [exact Hr1| |].
    { intros now. pose proof (inv_notified al K r rec rec1 now I Hr Ef Hdo Hv) as Hx. unfold K1, wR in *. cbn -[rec1]. by rewrite zset_zset. }
    cbv zeta. intros now H. unfold K1. cbn [kR wR]. rewrite zset_zset. intros I2 Hk2 _. set (K2 := wH H _) in *. assert (Hr2 : zget (kR K2) r = Some (notified now rec1)) by by eapply zset_eq.
    assert (Hbp : bptr rec (rr_ActiveBufferIndex rec) = p). { unfold bptr. cbn [lb] in Hb. rewrite Hr in Hb. cbn in Hb. by rewrite Hb. }
    destruct (working_mem _ _ _ _ _ _ W) as (Hp & _). apply wpk_bind. eapply wpk_critical; [exact I2|exact Hr2| |].
    { intros _. change (bptr rec (rr_ActiveBufferIndex rec) ≠ PNull). rewrite Hbp. intros E. by rewrite E in Hp. }
    intros l c Hlc. kgo. apply wpk_modify_any; [done|]. kgo. apply HQ.
    + intros X. split_and!; [by apply inv_crit| |done]. eapply keeps_trans; [by eapply (keeps_reg X K r rec (notified now rec1))|exact (Hk2 X)].
    + split; [|exists (notified now rec1); split; [exact Hr2|done]]. erewrite (contents_at _ r (notified now rec1) old); [done|exact Hr2|]. change (mem (wH H (wR (kR K2) K)) (bptr rec (rr_ActiveBufferIndex rec)) = Some old). rewrite Hbp. by destruct p.
Qed.

(** The contents of a table after a load. *)
Definition load_result K (r SrcType : Z) (src : tptr) : option (list Z) :=
  match zget (kR K) r, contents K r with
  | Some rec, Some c => take (Z.to_nat (rr_Size rec)) <$> loaded K SrcType rec src c
  | _, _ => None
  end.

Lemma take_splice_fit off (bs old : list Z) n : (off + length bs <= n)%nat → (n <= length old)%nat → take n (splice off bs (take n old)) = take n (splice off bs old).
Proof.
  intros H1 H2. unfold splice. rewrite take_take, Nat.min_l by lia. rewrite !take_app, !length_take. rewrite !Nat.min_l by lia. f_equal. f_equal. rewrite !skipn_firstn_comm. rewrite take_take. f_equal. lia.
Qed.

Lemma keeps_fresh X K r rec rec' : zget (kR K) r = Some rec → rr_TableLoadedOnce rec = false → keeps X K (wR (zset r rec' (kR K)) K).
Proof.
  intros Hr Ht k app r' q m _ (d & rec2 & Hd & Hud & Hl & Hap & Hi & H2 & Ho & Hp & Hm). assert (Hne : r' ≠ r) by (intros ->; congruence).
  exists d, rec2. split_and!; try done; cbn. rewrite (zset_get _ _ _ _ _ Hr). by rewrite decide_False.
Qed.

Lemma set_buf_twice rec b b' : set_buf 0 b ((set_buf 0 b' rec) <| rr_TableLoadedOnce := true |>) = (set_buf 0 b rec) <| rr_TableLoadedOnce := true |>.
Proof. unfold set_buf. cbn. by rewrite zset_zset. Qed.

(** The address of a table defined by its user. *)
Lemma inv_user al K r rec b b' a rec' : inv al K → zget (kR K) r = Some rec → rr_UserDefAddr rec = true → zget (rr_Buffers rec) 0 = Some b → lb_BufferPtr b' = PApp a →
  (∃ bs, kA K !! a = Some bs ∧ rr_Size rec <= Z.of_nat (length bs)) → rec' = (set_buf 0 b' rec) <| rr_TableLoadedOnce := true |> → inv al (wR (zset r rec' (kR K)) K).
Proof.
  intros I Hr Hud Hb Ep (bs & Hbs & Hn) ->. destruct (i_ent _ _ I _ _ Hr) as (R & P & L & D). pose proof (ro_user _ R Hud) as Hdo. pose proof (ro_dump _ R Hdo) as Hdb.
  set (rec' := (set_buf 0 b' rec) <| rr_TableLoadedOnce := true |>). assert (Hbp : ∀ k, bptr rec' k = if decide (k = 0) then PApp a else bptr rec k).
  { intros k. change (bptr rec' k) with (bptr (set_buf 0 b' rec) k). rewrite zget_buf_set; [by rewrite Ep|exact (ro_bufs _ R)|by left]. }
  destruct (ro_active _ R) as [Ea|[_ ?]]; [|congruence]. eapply inv_reg; [done|done|done|..].
  - split_and!; [|intros k; rewrite Hbp; destruct (decide (k = 0)); [intros _; split; [by exists bs|]|intros Hk; by apply P]|exact L|exact D].
    + destruct R. constructor; try assumption; cbn; try done.
      * by rewrite zset_length.
      * destruct ro_va as [|(? & ? & ?)]; [by left|right]. split; [done|]. split; [done|]. intros _. rewrite Ea. change (bptr rec' 0 ≠ PNull). by rewrite Hbp, decide_True.
      * congruence.
      * change (is_pool (bptr rec' 0) → bptr rec' 0 ≠ bptr rec' 1). by rewrite Hbp, decide_True.
    + intros j b2 Hb2. destruct (i_sh _ _ I _ _ Hb2) as [Hsp _]. by intros E; rewrite E in Hsp.
  - intros r2 rec2 Hne H2. destruct (i_apart _ _ I r r2 rec rec2) as (A1 & A2 & A3); [congruence|done..|]. split_and!; [exact A1| |exact A3]. intros i k. rewrite Hbp. destruct (decide (i = 0)); [done|apply A2].
  - by left.
  - intros h d Hd Hu Hl Hi. apply (i_lock _ _ I h d rec); [done..|by rewrite Hi].
  - intros i c Hc Hs Hi. destruct (inv_blk_at _ _ _ _ _ _ I Hc Hs Hi Hr) as (B1 & B2 & B3 & B4 & B5 & B6 & B7). split; [exact B1|]. split_and!; [done..| |exact B7]. change (bptr rec' 0 ≠ PNull). by rewrite Hbp, decide_True.
Qed.

(** The load gives up its buffer. *)
Lemma wpk_load_fail al r rec w p st (Q : Z → KS → Prop) K : working al K r rec w p → rr_DumpOnly rec = false → (rr_DoubleBuffered rec = false → rr_ValidateInactiveIndex rec = -1) →
  (rr_TableLoadedOnce rec = false → rr_LoadInProgress rec = -1) → (∀ K', all_good al K K' → Q st K') →
  wpk (rec ← rd_reg r; when (negb (rr_DoubleBuffered rec) && rr_TableLoadedOnce rec) (wr_shared (rr_LoadInProgress rec) (λ b, b <| lb_Taken := false |>));;
       wr_reg r (λ rec, rec <| rr_LoadInProgress := CFE_TBL_NO_LOAD_IN_PROGRESS |>);; mret st) Q K.
Proof.
  intros (I & Hr & Hu & _ & Hw & _) Hdo Hv Hfirst HQ. destruct (i_ent _ _ I _ _ Hr) as (R & P & L & D). change CFE_TBL_NO_LOAD_IN_PROGRESS with (-1).
  assert (Hnb : ∀ i c, zget (kD K) i = Some c → dc_State c ≠ CFE_TBL_DUMP_FREE → dc_RegRecPtr c ≠ r). { intros i c Hc Hs E. destruct (inv_blk_at _ _ _ _ _ _ I Hc Hs E Hr) as (_ & Hx & _). congruence. }
  kgo. eapply wpk_rd_reg; [exact Hr|]. kgo. destruct (negb (rr_DoubleBuffered rec) && rr_TableLoadedOnce rec) eqn:E; cbn [when].
  - apply andb_true_iff in E as [Ed Et]. apply negb_true_iff in Ed. assert (Hl : rr_LoadInProgress rec ≠ -1) by (destruct Hw as [[? _]|(_ & ? & _)]; [done|congruence]).
    destruct (L Ed Hl) as (b & Hb & _). eapply wpk_wr_shared; [exact Hb|]. kgo. eapply wpk_wr_reg; [exact Hr|]. kgo. apply HQ. intros X. eapply (good_unlip al X K r rec b); try done. intros _. by apply Hv.
  - kgo. eapply wpk_wr_reg; [exact Hr|]. kgo. apply HQ. intros X. split_and!; [|by eapply (keeps_reg X K r rec)|done]. destruct (rr_DoubleBuffered rec) eqn:Ed.
    + eapply inv_unlip; [done|done|congruence|done].
    + cbn in E. eapply inv_view; [done|done|]. unfold rview. cbn. by rewrite (Hfirst E).
Qed.

Lemma wpk_load_run al r rec w p c SrcType src (Q : Z → KS → Prop) K : working al K r rec w p → rr_DumpOnly rec = false → rr_UserDefAddr rec = false → (rr_DoubleBuffered rec = false → rr_ValidateInactiveIndex rec = -1) →
  (rr_TableLoadedOnce rec = false → rr_LoadInProgress rec = -1) → source_ok K SrcType rec src →
  (∃ old, mem K p = Some old ∧ take (Z.to_nat (rr_Size rec)) old = c) →
  (∀ st K', st ≠ CFE_SUCCESS → all_good al K K' → Q st K') →
  (∀ K', all_good al K K' → (∀ bs, loaded K SrcType rec src c = Some bs → load_done K' r (Some (take (Z.to_nat (rr_Size rec)) bs))) → Q CFE_SUCCESS K') →
  wpk (Status ← load_data w r SrcType src;
       Status ← load_validate w r Status;
       if Status <? CFE_SUCCESS then
         rec ← rd_reg r;
         when (negb (rr_DoubleBuffered rec) && rr_TableLoadedOnce rec) (wr_shared (rr_LoadInProgress rec) (λ b, b <| lb_Taken := false |>));;
         wr_reg r (λ rec, rec <| rr_LoadInProgress := CFE_TBL_NO_LOAD_IN_PROGRESS |>);;
         mret Status
       else load_finish w r) Q K.
Proof.
  intros W Hdo Hud Hv Hfirst Hsrc (old & Hold & Hc) Hf HQ. destruct (working_mem _ _ _ _ _ _ W) as (_ & _ & old0 & Hold0 & Hsz). rewrite Hold in Hold0. injection Hold0 as <-.
  assert (Hfail : ∀ st K1, st < 0 → prep al r rec w p K K1 → wpk (if st <? CFE_SUCCESS then
         rec ← rd_reg r;
         when (negb (rr_DoubleBuffered rec) && rr_TableLoadedOnce rec) (wr_shared (rr_LoadInProgress rec) (λ b, b <| lb_Taken := false |>));;
         wr_reg r (λ rec, rec <| rr_LoadInProgress := CFE_TBL_NO_LOAD_IN_PROGRESS |>);; mret st else load_finish w r) Q K1).
  { intros st K1 Hst (G & _ & _ & rec1 & W1 & E1 & Et1). rewrite (proj2 (Z.ltb_lt st CFE_SUCCESS)) by (unfold CFE_SUCCESS; lia).
    injection E1 as E1 E2 E3 E4 E5 E6 E7 E8 E9 E10 E11 E12 E13 E14 E15 E16 E17 E18 E19. eapply (wpk_load_fail al r rec1 w p); [done|congruence|by rewrite E11, E6|by rewrite Et1, E4|].
    intros K' G2. apply Hf; [unfold CFE_SUCCESS; lia|by eapply all_good_trans]. }
  apply wpk_bind. eapply (wpk_load_data al r rec w p old); [done|done|done|by intros| |].
  - intros st K1 Hst P1. apply wpk_bind. eapply (wpk_load_validate al r rec w p); [exact P1|exact Hfail|]. lia.
  - intros st K1 Hst P1 (off & bs & Hfit & Hl & Hm). apply wpk_bind. eapply (wpk_load_validate al r rec w p); [exact P1|exact Hfail|]. intros st2 Hst2 _.
    rewrite (proj2 (Z.ltb_ge st2 CFE_SUCCESS)) by (unfold CFE_SUCCESS; lia). pose proof P1 as (G & _ & _ & rec1 & W1 & E1 & Et1).
    injection E1 as E1 E2 E3 E4 E5 E6 E7 E8 E9 E10 E11 E12 E13 E14 E15 E16 E17 E18 E19.
    eapply (wpk_load_finish al r rec1 w p); [done|exact Hm|congruence|congruence|by rewrite E11, E6|by rewrite Et1, E4| |].
    + intros st3 K' Hne G2. apply Hf; [done|by eapply all_good_trans].
    + intros K' G2 Hd. apply HQ; [by eapply all_good_trans|]. intros bs2 Hl2. rewrite Hl in Hl2. injection Hl2 as <-. rewrite E2 in Hd. rewrite <- Hc, take_splice_fit by lia. exact Hd.
Qed.

Lemma wpk_load_table al r rec SrcType src (Q : Z → KS → Prop) K : inv al K → zget (kR K) r = Some rec → inuse rec → kWork K = false → source_ok K SrcType rec src →
  (∀ st K', st ≠ CFE_SUCCESS → all_good al K K' → Q st K') →
  (∀ K', all_good al K K' → (rr_DumpOnly rec = false → ∀ bs, load_result K r SrcType src = Some bs → load_done K' r (Some bs)) → Q CFE_SUCCESS K') →
  wpk (load_table r SrcType src) Q K.
Proof.
  intros I Hr Hu Hwk Hsrc Hf HQ. pose proof (all_good_refl _ _ I) as G0. destruct (i_ent _ _ I _ _ Hr) as (R & P & L & D). unfold load_table. kgo. eapply wpk_rd_reg; [exact Hr|]. cbn beta.
  destruct (rr_DumpOnly rec) eqn:Hdo.
  - destruct (negb (rr_UserDefAddr rec) || rr_TableLoadedOnce rec) eqn:E; [kgo; by apply Hf|]. apply orb_false_iff in E as [Eu Et]. apply negb_false_iff in Eu. kgo.
    destruct Hsrc as (a & bs & -> & Hbs & _ & Hlen). specialize (Hlen (or_intror Hdo)). destruct (zget_buf rec 0 (ro_bufs _ R)) as (b & Hb & _); [by left|].
    eapply wpk_wr_reg_buf; [exact Hr|exact Hb|]. kgo. eapply wpk_wr_at; [done|exact Hr|]. kgo. eapply wpk_wr_buf_at; [done|exact Hr|by eapply zset_eq|]. kgo. apply HQ; [|congruence].
    match goal with |- context [set_buf 0 ?x ((set_buf 0 ?y rec) <| rr_TableLoadedOnce := true |>)] => rewrite (set_buf_twice rec x y); set (b2 := x) end.
    intros X. split_and!; [|by eapply (keeps_fresh X K r rec)|done]. by apply (inv_user al K r rec b b2 a _ I Hr Eu Hb eq_refl); [exists bs|].
  - assert (Hud : rr_UserDefAddr rec = false). { destruct (rr_UserDefAddr rec) eqn:E; [|done]. apply (ro_user _ R) in E. congruence. }
    change CFE_TBL_NO_LOAD_IN_PROGRESS with (-1). destruct (Z.eqb_spec (rr_LoadInProgress rec) (-1)) as [El|El]; cbn [negb]; [|kgo; by apply Hf].
    assert (Hv : rr_DoubleBuffered rec = false → rr_ValidateInactiveIndex rec = -1).
    { intros Hd. destruct (decide (rr_ValidateInactiveIndex rec = -1)) as [|Hx]; [done|]. by destruct (ro_vlip _ R Hu Hd Hx) as [? _]. }
    assert (Hap : bptr rec (rr_ActiveBufferIndex rec) ≠ PNull). { pose proof (active_ptr _ R Hu Hud) as Hp. intros E. by rewrite E in Hp. }
    apply wpk_bind. eapply (wpk_GetWorkingBuffer al r rec true); [done..| | |].
    + intros w Hw _. cbn match. zred. destruct Hw as [[? _]|(_ & Ht & ->)]; [done|].
      destruct (zget_buf rec (rr_ActiveBufferIndex rec) (ro_bufs _ R)) as (b & Hb & Eb); [destruct (ro_active _ R); lia|]. destruct (P _ Hap) as [(old & Hold & Hon & _) _].
      assert (Hc : contents K r = Some (take (Z.to_nat (rr_Size rec)) old)) by (unfold contents; by rewrite Hr, Hold).
      eapply (wpk_load_run al r rec _ (bptr rec (rr_ActiveBufferIndex rec))); [|done|done|done|done|done|by exists old|done|].
      * split_and!; [done..|by right|]. exists b. cbn. rewrite Hr. done.
      * intros K' G Hd. apply HQ; [done|]. intros _ bs. unfold load_result. rewrite Hr, Hc. intros (x & Hx & ->)%fmap_Some. by apply Hd.
    + intros _. cbn match. zred. kgo. by apply Hf.
    + cbv zeta. intros l w K1 _ Ht Hl Hw HF I1 Hk1 (b & nb & Hb & Hnb & Hc). specialize (Ht eq_refl). cbn match. zred. destruct HF as (FR & FH & FC & FV & FD & FA & FF & FS' & FRg & FW & FT & FHk).
      set (rec1 := rec <| rr_LoadInProgress := l |>) in *. assert (Hr1 : zget (kR K1) r = Some rec1) by (rewrite FR; by eapply zset_eq).
      assert (G1 : all_good al K K1) by (intros X; split_and!; [done|done|split_and!; congruence]).
      eapply (wpk_load_run al r rec1 w (lb_BufferPtr b)); [|done|done|done| | |exists nb; split; [exact Hnb|reflexivity]| |].
      * split_and!; [done..|]. by exists b.
      * cbn. congruence.
      * destruct Hsrc as (a & bs & -> & Hbs & H1 & H2). exists a, bs. rewrite FA, FF. by split_and!.
      * intros st K' Hne G. apply Hf; [done|by eapply all_good_trans].
      * intros K' G Hd. apply HQ; [by eapply all_good_trans|]. intros _ bs. unfold load_result. rewrite Hr, Hc. intros (x & Hx & ->)%fmap_Some. apply Hd. rewrite <- Hx. unfold loaded. by rewrite FA, FF.
Qed.

Lemma wpk_Load al App h SrcType src (Q : Z → KS → Prop) K : inv al K → app_ok App → 0 <= h → kWork K = false →
  (src ≠ PNull → ∀ d rec, access al K App h d rec → source_ok K SrcType rec src) →
  (∀ st K', st ≠ CFE_SUCCESS → all_good al K K' → Q st K') →
  (∀ d rec K', access al K App h d rec → all_good al K K' → (rr_DumpOnly rec = false → ∀ bs, load_result K (ac_RegIndex d) SrcType src = Some bs → load_done K' (ac_RegIndex d) (Some bs)) → Q CFE_SUCCESS K') →
  wpk (CFE_TBL_Load App h SrcType src) Q K.
Proof.
  intros I Ha Hh Hwk Hsrc Hf HQ. pose proof (all_good_refl _ _ I) as G0. unfold CFE_TBL_Load. case_bool_decide as Hp; [kgo; by apply Hf|]. kgo. eapply wpk_ValidateAccess; [done..| |].
  { intros st Hst. destruct (Z.eqb_spec st CFE_SUCCESS); [subst; done|]. cbn [negb]. kgo. by apply Hf. }
  intros d rec A. pose proof A as (Hap & Hd & Hu & Hown & Hr & Hi & Hin). kgo. eapply wpk_rd_hdl; [done|]. kgo. eapply (wpk_load_table al _ rec); [done..|by apply (Hsrc Hp d rec)|done|].
  intros K' G Hl. by apply (HQ d rec).
Qed.
End load.
