(* ===== verification/TblCommand.v ===== *)
(** * Table services: the commands keep the invariant *)
From Stdlib Require Import String.
From S2P Require Import Prelude Config Msg ResourceId Cstring EsApp TimeApi SbState TblConfig EsCrc FsFile TblState TblInternal TblApi TblCmds TblLinks TblCore TblInv TblOps TblUpdate TblRemove TblRegister TblLoad.
Import ListNotations.

(** The string a field of [n] bytes gives. *)
Definition field (n : nat) (s : list Z) : list Z := take (n - 1) (cstr s).

Lemma first_index_spec {A} (p : A → bool) l i : first_index p i l = i + Z.of_nat (length l) ∨
  ∃ x, i <= first_index p i l ∧ l !! Z.to_nat (first_index p i l - i) = Some x ∧ p x = true.
Proof.
  revert i. induction l as [|x l IH]; intros i; cbn; [left; lia|]. destruct (p x) eqn:E.
  - right. exists x. rewrite Z.sub_diag. by split_and!.
  - destruct (IH (i + 1)) as [->|(y & Hi & Hy & Hp)]; [left; lia|]. right. exists y. split_and!; [lia| |done].
    replace (Z.to_nat (first_index p (i + 1) l - i)) with (S (Z.to_nat (first_index p (i + 1) l - (i + 1)))) by lia. done.
Qed.
Lemma first_index_get {A} (p : A → bool) l n : length l = Z.to_nat n → first_index p 0 l < n → ∃ x, zget l (first_index p 0 l) = Some x ∧ p x = true.
Proof.
  intros Hl Hn. destruct (first_index_spec p l 0) as [E|(x & Hi & Hx & Hp)]; [lia|]. exists x. split; [|done]. apply zget_Some. by rewrite Z.sub_0_r in Hx.
Qed.

Section commands.
Context {PS FS CS : Type} `{Pool : MemPool PS} `{Files : OSFile FS} `{Store : CDSStore CS} `{Cfg : TblCfg}.
Context `{PoolOK : !MemPoolOK PS} `{FilesOK : !OSFileOK FS} `{PoolSt : !TblPoolOK PS} `{StoreOK : !CDSStoreOK CS}.
Abbreviation TG := (CFE_TBL_Global_t PS FS CS).
Abbreviation KS := (core FS CS).
Implicit Types (K : KS) (s : TG) (X : Z → Prop).

(** ** Strings and files *)

Lemma wpk_string_get n src (Q : list Z → KS → Prop) K : (0 < n)%nat → length src = n →
  (∀ t, length t = n → cstr t = field n src → Q t K) → wpk (string_get n src) Q K.
Proof.
  intros Hn Hs HQ. destruct n as [|n]; [lia|]. unfold string_get, CFE_SB_MessageStringGet. cbn [mbind option_bind]. rewrite StringGet_loop_spec by lia.
  rewrite (take_ge src) by lia. apply wpk_bind. eapply wpk_of_option; [reflexivity|]. apply wpk_ret. cbn [snd default from_option id]. apply HQ.
  - rewrite length_app. cbn [length]. rewrite length_drop, length_replicate, length_take. lia.
  - unfold field. rewrite cstr_app_zero; [by replace (S n - 1)%nat with n by lia|]. apply Forall_take, cstr_nz.
Qed.
Lemma wpk_string_set n dest src (Q : list Z → KS → Prop) K : (n <= length src)%nat → (∀ t, Q t K) → wpk (string_set n dest src) Q K.
Proof.
  intros Hs HQ. unfold string_set, CFE_SB_MessageStringSet. rewrite StringGet_loop_spec by done. apply wpk_bind. eapply wpk_of_option; [reflexivity|]. apply wpk_ret, HQ.
Qed.

(** A computation on files has a result. *)
Definition runs {A} (c : M FS A) : Prop := ∀ f, wp c (λ _ _, True) f.
Lemma wpk_runs {A} (c : M FS A) (Q : A → KS → Prop) K : runs c → (∀ a f, Q a (wF f K)) → wpk (files c) Q K.
Proof. intros Hr HQ. apply wpk_files. eapply wp_mono; [apply Hr|]. intros a f _. apply HQ. Qed.
Lemma runs_bind {A B} (c : M FS A) (k : A → M FS B) : runs c → (∀ a, runs (k a)) → runs (c ≫= k).
Proof. intros H1 H2 f. apply wp_bind. eapply wp_mono; [apply H1|]. intros a f' _. apply H2. Qed.
Lemma runs_ret {A} (a : A) : runs (mret a).
Proof. by intros f. Qed.
Lemma runs_call {A} (g : FS → A * FS) : runs (FsFile.call g).
Proof. intros f. unfold FsFile.call, wp. by destruct (g f). Qed.

Lemma runs_SetTimestamp fd t : runs (CFE_FS_SetTimestamp fd t).
Proof.
  unfold CFE_FS_SetTimestamp. repeat first [apply runs_ret|apply runs_call|apply runs_bind|intros ?|case_match].
Qed.

(** A file written from its start: [d] is what it has, [D] the other files. *)
Definition at_end (D : gmap (list Z) (list Z)) (fd : Z) (name d : list Z) (f : FS) : Prop := f_open f !! fd = Some (name, length d) ∧ f_data f = <[name := d]> D.

Lemma at_end_write D fd name d f bs st f' : at_end D fd name d f → OS_write fd bs f = (st, f') → st = Z.of_nat (length bs) → at_end D fd name (d ++ bs) f'.
Proof.
  intros [Ho Hd] E Hst. destruct (write_ok _ _ _ _ _ name (length d) d E Hst Ho) as [Ed Eo]; [rewrite Hd; apply lookup_insert_eq|]. split; [rewrite Eo, length_app; apply lookup_insert_eq|].
  rewrite Ed, Hd, insert_insert_eq, take_ge, drop_ge by lia. by rewrite app_nil_r.
Qed.

Lemma set_u32_length n off v m : length m = n → (off + 4 <= n)%nat → length (set_u32 off v m) = n.
Proof. intros <- H. apply splice_length. exact H. Qed.
Lemma swap_length n off m : length m = n → (off + 4 <= n)%nat → length (CFE_FS_ByteSwapUint32 off m) = n.
Proof. intros <- H. apply splice_length. rewrite length_rev, length_take, length_drop. lia. Qed.
Lemma swap_CFE_length h : length h = sizeof_CFE_FS_Header → length (CFE_FS_ByteSwapCFEHeader h) = sizeof_CFE_FS_Header.
Proof. intros H. unfold CFE_FS_ByteSwapCFEHeader. cbv zeta. repeat (apply swap_length; [|apply Nat.leb_le; reflexivity]). exact H. Qed.
Lemma swap_TBL_length h : length h = sizeof_TBL_File_Hdr → length (CFE_TBL_ByteSwapTblHeader h) = sizeof_TBL_File_Hdr.
Proof. intros H. unfold CFE_TBL_ByteSwapTblHeader. repeat (apply swap_length; [|apply Nat.leb_le; reflexivity]). exact H. Qed.
Lemma dump_header_length name n : length (dump_header name n) = sizeof_TBL_File_Hdr.
Proof.
  unfold dump_header. cbv zeta. apply swap_TBL_length. repeat (apply set_u32_length; [|apply Nat.leb_le; reflexivity]). apply splice_length. rewrite copy_str_length; [|done]. apply Nat.leb_le. reflexivity.
Qed.

Lemma wp_write D fd name w h' (Q : Z * ptr (list Z) → FS → Prop) f : f_open f !! fd = Some (name, 0%nat) → f_data f = <[name := []]> D → length w = sizeof_CFE_FS_Header →
  (∀ st f', st ≠ Z.of_nat sizeof_CFE_FS_Header → Q (st, h') f') → (∀ f', at_end D fd name w f' → Q (Z.of_nat sizeof_CFE_FS_Header, h') f') →
  wp (Result ← FsFile.call (OS_write fd w); mret (Result, h')) Q f.
Proof.
  intros Ho Hd Hw Hf HQ. apply wp_bind. unfold FsFile.call, wp at 1. destruct (OS_write fd w f) as [st f2] eqn:E2. apply wp_ret.
  destruct (Z.eq_dec st (Z.of_nat sizeof_CFE_FS_Header)) as [->|]; [|by apply Hf]. apply HQ. by eapply (at_end_write D fd name [] f w); [|exact E2|rewrite Hw].
Qed.
Lemma wp_WriteHeader D sc proc app now fd h name (Q : Z * ptr (list Z) → FS → Prop) f : f_open f !! fd = Some (name, 0%nat) → f_data f = <[name := []]> D → length h = sizeof_CFE_FS_Header →
  (∀ st h' f', st ≠ Z.of_nat sizeof_CFE_FS_Header → Q (st, h') f') →
  (∀ w h' f', length w = sizeof_CFE_FS_Header → at_end D fd name w f' → Q (Z.of_nat sizeof_CFE_FS_Header, h') f') → wp (CFE_FS_WriteHeader sc proc app now fd (Some h)) Q f.
Proof.
  intros Ho Hd Hh Hf HQ. unfold CFE_FS_WriteHeader. apply wp_bind. unfold FsFile.call at 1, wp at 1. destruct (OS_lseek fd 0 f) as [st f1] eqn:E1. destruct (Z.eqb_spec st OS_SUCCESS) as [->|Hst].
  2:{ apply wp_ret, Hf. destruct (lseek_status _ _ _ _ _ E1) as [?| ->]; [|done]. intros ->. done. }
  destruct (lseek_ok _ _ _ _ _ name 0%nat E1 ltac:(done) eq_refl Ho) as [Ed Eo]. cbv zeta.
  assert (Hl : ∀ m, length m = sizeof_CFE_FS_Header → ∀ h', wp (Result ← FsFile.call (OS_write fd m); mret (Result, h')) Q f1).
  { intros m Hm h'. eapply wp_write; [rewrite Eo; apply lookup_insert_eq|by rewrite Ed|done|intros; by apply Hf|]. intros f' Ha. by apply (HQ m). }
  apply Hl. apply swap_CFE_length. repeat (apply set_u32_length; [|apply Nat.leb_le; reflexivity]). exact Hh.
Qed.

Lemma InitHeader_length desc sub : (length (cstr desc) <= 31)%nat → ∃ h, CFE_FS_InitHeader (Some []) (Some desc) sub = Some h ∧ length h = sizeof_CFE_FS_Header.
Proof.
  intros Hd. eexists. split; [reflexivity|]. apply set_u32_length; [|apply Nat.leb_le; reflexivity]. apply splice_length. rewrite length_take, length_replicate. unfold off_Description, CFE_FS_HDR_DESC_MAX_LEN, sizeof_CFE_FS_Header. lia.
Qed.

(** The file a dump leaves: a file header, the table header and the bytes. *)
Definition dumped (name tname : list Z) (n : Z) (bs : list Z) (f f' : FS) : Prop :=
  ∃ w, length w = sizeof_CFE_FS_Header ∧ f_data f' = <[cstr name := w ++ dump_header tname n ++ take (Z.to_nat n) bs]> (f_data f).

Lemma wpk_dump_write D fd name tname p n bs (Q : option Z → KS → Prop) K : f_open (kF K) !! fd = Some (name, 0%nat) → f_data (kF K) = <[name := []]> D → mem K p = Some bs → 0 <= n <= Z.of_nat (length bs) →
  (∀ id f, Q (Some id) (wF f K)) →
  (∀ w f, length w = sizeof_CFE_FS_Header → f_data f = <[name := w ++ dump_header tname n ++ take (Z.to_nat n) bs]> D → Q None (wF f K)) → wpk (dump_write fd tname p n) Q K.
Proof.
  intros Ho Hd Hm Hn Hf HQ. unfold dump_write. destruct (InitHeader_length (chars "Table Dump Image") CFE_FS_SubType_TBL_IMG) as (h & -> & Hh); [apply Nat.leb_le; reflexivity|]. apply wpk_bind, wpk_gets_any. intros now. apply wpk_bind, wpk_gets_any. intros app.
  apply wpk_bind, wpk_files. eapply (wp_WriteHeader D); [done..| |]. { intros st h' f' Hne. rewrite (proj2 (Z.eqb_neq _ _) Hne). cbn [negb]. apply wpk_ret, Hf. }
  intros w h' f1 Hw Ha1. rewrite Z.eqb_refl. cbn [negb]. apply wpk_bind, wpk_call. intros st f2 E2. cbn [kF wF] in E2. destruct (Z.eqb_spec st (Z.of_nat sizeof_TBL_File_Hdr)) as [->|]; cbn [negb]; [|apply wpk_ret, (Hf _ f2)].
  pose proof (at_end_write _ _ _ _ _ _ _ _ Ha1 E2 ltac:(by rewrite dump_header_length)) as Ha2. apply wpk_bind. eapply (wpk_rd_bytes p n bs); [by destruct p|lia|]. apply wpk_bind, wpk_call. intros st f3 E3. apply wpk_ret.
  cbn [kF wF] in E3. destruct (Z.eqb_spec st n) as [->|]; [|apply (Hf _ f3)]. assert (Hl : n = Z.of_nat (length (take (Z.to_nat n) bs))) by (rewrite length_take; lia).
  destruct (at_end_write _ _ _ _ _ _ _ _ Ha2 E3 Hl) as [_ Hd3]. apply (HQ w f3 Hw). by rewrite app_assoc.
Qed.

Lemma wpk_DumpToFile name tname p n bs (Q : Z → KS → Prop) K : mem K p = Some bs → 0 <= n <= Z.of_nat (length bs) → (∀ f, Q CFE_TBL_INC_ERR_CTR (wF f K)) →
  (∀ f, dumped name tname n bs (kF K) f → Q CFE_TBL_INC_CMD_CTR (wF f K)) → wpk (CFE_TBL_DumpToFile name tname p n) Q K.
Proof.
  intros Hm Hn Hf HQ. unfold CFE_TBL_DumpToFile. apply wpk_bind, wpk_call. intros [st fd] f1 E1. cbn beta match.
  assert (Hd1 : f_data f1 = f_data (kF K)). { destruct (Z.lt_ge_cases st 0) as [Hs|Hs]; [by eapply open_fail|]. by destruct (open_ok _ _ _ _ _ _ _ E1 Hs) as (_ & Hd & _). }
  set (C := λ x : bool, _ : M TG Z). assert (HC : ∀ b f, f_data f = f_data (kF K) → wpk (C b) Q (wF f K)).
  { intros b f Hdf. unfold C. apply wpk_bind, wpk_call. intros [st2 fd2] f2 E2. cbn beta match. destruct (Z.leb_spec OS_SUCCESS st2) as [Hs|Hs].
    2:{ unfold error_event. kgo. apply (Hf f2). }
    destruct (open_ok _ _ _ _ _ _ _ E2 Hs) as (Ho2 & Hd2). cbn in Hd2. apply wpk_bind. eapply (wpk_dump_write (f_data f) fd2 (cstr name) tname p n bs); [cbn; rewrite Ho2; apply lookup_insert_eq|exact Hd2|by destruct p|done|..].
    - intros id f3. unfold error_event. kgo. apply wpk_close. intros f4. apply (Hf f4).
    - intros w f3 Hw Hd3. kgo. unfold close_file. kgo. apply wpk_call. intros st4 f4 E4. kgo. apply (HQ f4). exists w. split; [done|]. by rewrite (close_ok _ _ _ _ E4), <- Hdf. }
  apply wpk_bind. destruct (0 <=? st); [|kgo; by apply HC]. unfold close_file. kgo. apply wpk_call. intros st2 f2 E2. kgo. apply (HC true f2). by rewrite (close_ok _ _ _ _ E2).
Qed.

(** ** Buffers selected by a command *)

Lemma wpk_select_buffer al r rec flag no (Q : tptr → KS → Prop) K : inv al K → zget (kR K) r = Some rec → inuse rec → (no = false → rr_DoubleBuffered rec = false → rr_LoadInProgress rec ≠ -1) →
  Q PNull K →
  (∀ p bs, p ≠ PNull → mem K p = Some bs → rr_Size rec <= Z.of_nat (length bs) → (flag = CFE_TBL_BufferSelect_ACTIVE ∧ p = bptr rec (rr_ActiveBufferIndex rec) ∨
     flag = CFE_TBL_BufferSelect_INACTIVE ∧ (rr_DoubleBuffered rec = false → no = false)) → Q p K) →
  wpk (select_buffer rec flag no) Q K.
Proof.
  intros I Hr Hu Hno H0 HQ. destruct (i_ent _ _ I _ _ Hr) as (R & P & L & D). pose proof (ro_active _ R) as Ha. unfold select_buffer.
  assert (Hreg : ∀ i, i = 0 ∨ i = 1 → (flag = CFE_TBL_BufferSelect_ACTIVE ∧ i = rr_ActiveBufferIndex rec ∨ flag = CFE_TBL_BufferSelect_INACTIVE ∧ rr_DoubleBuffered rec = true) → wpk (b ← reg_buf rec i; mret (lb_BufferPtr b)) Q K).
  { intros i Hi Hfl. destruct (zget_buf rec i (ro_bufs _ R) Hi) as (b & Hb & Eb). kgo. eapply wpk_reg_buf; [done|]. kgo. rewrite <- Eb. destruct (decide (bptr rec i = PNull)) as [->|Hne]; [done|].
    destruct (P i Hne) as [(bs & Hm & Hn & _) _]. eapply HQ; [done..|]. destruct Hfl as [[-> ->]|[-> ->]]; [by left|by right]. }
  destruct (Z.eqb_spec flag CFE_TBL_BufferSelect_ACTIVE) as [->|]; [apply Hreg; [lia|by left]|].
  destruct (Z.eqb_spec flag CFE_TBL_BufferSelect_INACTIVE) as [->|]; [|by kgo]. destruct (rr_DoubleBuffered rec) eqn:Hd; [rewrite inactive_eq by done; apply Hreg; [lia|by right]|].
  destruct no; [by kgo|]. destruct (L Hd (Hno eq_refl eq_refl)) as (b & Hb & _). destruct (i_sh _ _ I _ _ Hb) as [Hp (bs & Hm & Hn & _)]. pose proof (ro_size _ R Hu).
  kgo. eapply wpk_rd_shared; [done|]. kgo. eapply HQ; [intros E; by rewrite E in Hp|done|lia|by right].
Qed.

Lemma wpk_SendNotification r rec (Q : Z → KS → Prop) K : zget (kR K) r = Some rec → (∀ st, Q st K) → wpk (CFE_TBL_SendNotificationMsg r) Q K.
Proof.
  intros Hr HQ. unfold CFE_TBL_SendNotificationMsg. apply wpk_bind. eapply wpk_rd_reg; [done|]. destruct (rr_NotifyByMsg rec); [|by kgo]. apply wpk_bind, wpk_gets_any. intros now.
  do 2 (apply wpk_bind, wpk_modify_any; [done|]). apply wpk_bind, wpk_gets_any. intros h. apply wpk_bind, wpk_gets_any. intros p. apply wpk_bind, wpk_modify_any; [done|]. cbv zeta.
  apply wpk_bind, wpk_when; intros _; kgo; apply HQ.
Qed.

(** ** Dumps by the owner of a table *)

Definition no_block K (r : Z) : Prop := ∀ i c, zget (kD K) i = Some c → dc_RegRecPtr c = r → dc_State c = CFE_TBL_DUMP_FREE.

Lemma inv_request al K r rec i c c' : inv al K → zget (kR K) r = Some rec → inuse rec → rr_DumpOnly rec = true → rr_LoadInProgress rec ≠ -1 → bptr rec 0 ≠ PNull →
  zget (kD K) i = Some c → dc_State c = CFE_TBL_DUMP_FREE → no_block K r → dc_State c' = CFE_TBL_DUMP_PENDING → dc_RegRecPtr c' = r → dc_DumpBufferPtr c' = SharedBuf (rr_LoadInProgress rec) → dc_Size c' = rr_Size rec →
  rr_DumpControlIndex rec = -1 →
  inv al (wR (zset r (rec <| rr_DumpControlIndex := i |>) (kR K)) (wD (zset i c' (kD K)) K)).
Proof.
  intros I Hr Hu Hdo Hl Hp Hc Hs Hnb Hs' Hr' Hb' Hz' Hdi. set (rec' := rec <| rr_DumpControlIndex := i |>). pose proof (λ k, zset_get (kR K) r k rec' rec Hr) as HzR. pose proof (λ k, zset_get (kD K) i k c' c Hc) as HzD.
  destruct (i_ent _ _ I _ _ Hr) as (R & P & L & D). pose proof I as [? ? ? ? ? ? ? i_links0 i_ent0 i_apart0 i_own0 i_lock0 ? ? i_blk0 i_blne0 ?]. constructor; cbn; try assumption.
  - by rewrite zset_length.
  - by rewrite zset_length.
  - by rewrite (zset_fmap_same _ _ _ _ _ Hr).
  - intros k rec2. rewrite HzR. destruct (decide (k = r)) as [->|Hne].
    + intros [= <-]. split_and!; [destruct R; by constructor|exact P|exact L|]. intros _ _. exists c'. cbn. rewrite HzD. by rewrite decide_True.
    + intros H2. destruct (i_ent0 _ _ H2) as (R2 & P2 & L2 & D2). split_and!; [done..|]. intros Hu2 Hd2. destruct (D2 Hu2 Hd2) as (c2 & Hc2 & Hs2 & Hr2). exists c2. cbn. rewrite HzD.
      destruct (decide (rr_DumpControlIndex rec2 = i)) as [E|]; [|done]. rewrite E, Hc in Hc2. congruence.
  - intros r1 r2 rec1 rec2 Hne. rewrite !HzR. destruct (decide (r1 = r)) as [->|], (decide (r2 = r)) as [->|]; [done|..].
    + intros [= <-] H2. by apply (i_apart0 r r2 rec rec2).
    + intros H1 [= <-]. by apply (i_apart0 r1 r rec1 rec).
    + by apply i_apart0.
  - intros k rec2. rewrite HzR. destruct (decide (k = r)) as [->|]; [intros [= <-]; by apply (i_own0 r rec)|by apply i_own0].
  - intros h d rec2 Hd Hus Hk. rewrite HzR. destruct (decide _) as [E|]; [intros [= <-]; apply (i_lock0 h d rec); try done; by rewrite E|by eauto].
  - intros k c2. rewrite HzD. destruct (decide (k = i)) as [->|Hne].
    + intros [= <-] _. exists rec'. rewrite Hr', HzR, decide_True by done. split; [done|]. split_and!; try done. cbn. by rewrite decide_True.
    + intros H2 Hs2. destruct (i_blk0 _ _ H2 Hs2) as (rec2 & Hr2 & Hb2). rewrite HzR. destruct (decide (dc_RegRecPtr c2 = r)) as [E|]; [|by eauto]. by destruct (Hs2 (Hnb k c2 H2 E)).
  - intros i1 i2 c1 c2 Hne. rewrite !HzD. destruct (decide (i1 = i)) as [->|], (decide (i2 = i)) as [->|]; [done|..].
    + intros [= <-] H2 _ Hs2. rewrite Hr'. intros E. symmetry in E. by destruct (Hs2 (Hnb i2 c2 H2 E)).
    + intros H1 [= <-] Hs1 _. rewrite Hr'. intros E. by destruct (Hs1 (Hnb i1 c1 H1 E)).
    + by apply i_blne0.
Qed.

(** No dump of the table waits to be written to its file. *)
Definition dump_written K (r : Z) : Prop := ∀ i c, zget (kD K) i = Some c → dc_RegRecPtr c = r → dc_State c ≠ CFE_TBL_DUMP_PERFORMED.

Lemma no_block_of al K r rec : inv al K → zget (kR K) r = Some rec → rr_DumpControlIndex rec = -1 → dump_written K r → no_block K r.
Proof.
  intros I Hr Hd Hw i c Hc Hrc. destruct (decide (dc_State c = CFE_TBL_DUMP_FREE)) as [|Hs]; [done|]. pose proof (inv_blk_at _ _ _ _ _ _ I Hc Hs Hrc Hr) as (_ & _ & _ & _ & _ & _ & B).
  destruct (decide (dc_State c = CFE_TBL_DUMP_PENDING)) as [E|]; [apply zget_lt in Hc; lia|]. specialize (Hw i c Hc Hrc). by destruct (dc_State c).
Qed.

Lemma wpk_request_block al r rec i c file name K0 K : inv al K → all_good al K0 K → zget (kR K) r = Some rec → inuse rec → rr_DumpOnly rec = true → rr_LoadInProgress rec ≠ -1 → bptr rec 0 ≠ PNull → rr_DumpControlIndex rec = -1 →
  zget (kD K) i = Some c → dc_State c = CFE_TBL_DUMP_FREE → no_block K r →
  wpk (let w := SharedBuf (rr_LoadInProgress rec) in
       wr_dump i (λ c, c <| dc_State := CFE_TBL_DUMP_PENDING |> <| dc_RegRecPtr := r |> <| dc_DumpBufferPtr := w |>);;
       wr_lb w (λ b, b <| lb_DataSource := file |>);;
       wr_dump i (λ c, c <| dc_TableName := name |> <| dc_Size := rr_Size rec |>);;
       wr_reg r (λ rec, rec <| rr_DumpControlIndex := i |>);;
       _ ← CFE_TBL_SendNotificationMsg r;
       mret CFE_TBL_INC_CMD_CTR) (λ _ K', all_good al K0 K') K.
Proof.
  intros I G0 Hr Hu Hdo Hl Hp Hdi Hc Hs Hnb. destruct (i_ent _ _ I _ _ Hr) as (R & P & L & D). destruct (L (ro_dump _ R Hdo) Hl) as (b & Hb & Ht). cbv zeta.
  apply wpk_bind. eapply wpk_wr_dump; [exact Hc|]. apply wpk_bind. eapply (wpk_wr_lb (SharedBuf _) _ b); [exact Hb|]. apply wpk_bind. eapply wpk_wr_dump; [by eapply zset_eq|].
  apply wpk_bind. eapply wpk_wr_reg; [exact Hr|]. apply wpk_bind. eapply wpk_SendNotification; [by eapply zset_eq|]. intros _. apply wpk_ret. cbn [kD wD set_lb wL kL kR]. rewrite zset_zset.
  assert (GL : all_good al K (wL (zset (rr_LoadInProgress rec) (b <| lb_DataSource := file |>) (kL K)) K)) by (intros X; by eapply (good_set_lb al X K (SharedBuf (rr_LoadInProgress rec)))).
  eapply all_good_trans; [exact G0|]. eapply all_good_trans; [exact GL|]. set (K1 := wL _ K) in *. intros X. split_and!; [|by eapply (keeps_reg X K1 r rec)|done].
  by eapply (inv_request al K1 r rec i c); [exact (all_good_inv _ _ _ GL)|exact Hr|..|exact Hc| | | | | | |].
Qed.

Lemma wpk_dump_request al r rec file name K : inv al K → zget (kR K) r = Some rec → inuse rec → rr_DumpOnly rec = true → bptr rec 0 ≠ PNull → kWork K = false → dump_written K r →
  wpk (dump_request r file name) (λ _ K', all_good al K K') K.
Proof.
  intros I Hr Hu Hdo Hp Hwk Hdw. pose proof (all_good_refl _ _ I) as G0. destruct (i_ent _ _ I _ _ Hr) as (R & P & L & D). unfold dump_request, error_event. apply wpk_bind. eapply wpk_rd_reg; [done|]. change CFE_TBL_NO_DUMP_PENDING with (-1).
  destruct (Z.eqb_spec (rr_DumpControlIndex rec) (-1)) as [Ed|]; cbn [negb]; [|by kgo]. pose proof (no_block_of _ _ _ _ I Hr Ed Hdw) as Hnb. apply wpk_bind, wpk_gets. intros s Es.
  assert (ED : DumpControlBlocks s = kD K) by exact (f_equal kD Es). rewrite ED. cbv zeta. set (i := first_index _ 0 _).
  destruct (Z.ltb_spec i CFE_PLATFORM_TBL_MAX_SIMULTANEOUS_LOADS) as [Hi|]; [|by kgo]. destruct (first_index_get _ _ _ (i_nD _ _ I) Hi) as (c & Hc & Hs). fold i in Hc. apply bool_decide_eq_true in Hs.
  assert (Ha : rr_ActiveBufferIndex rec = 0) by (destruct (ro_active _ R) as [|[_ Hx]]; [done|]; apply (ro_dump _ R) in Hdo; congruence).
  apply wpk_bind. eapply (wpk_GetWorkingBuffer al r rec false); [done..|by rewrite Ha|done| | |].
  - intros w Hw Hl. specialize (Hl eq_refl). destruct Hw as [[_ ->]|[? _]]; [|done]. rewrite (ro_dump _ R Hdo). cbn match. zred. by eapply wpk_request_block.
  - intros _. cbn match. zred. by kgo.
  - cbv zeta. intros l w K1 _ _ Hl Hw HF I1 Hk1 _. destruct HF as (FR & FH & FC & FV & FD & FA & FF & FS' & FRg & FW & FT & FHk). set (rec1 := rec <| rr_LoadInProgress := l |>) in *.
    assert (Hr1 : zget (kR K1) r = Some rec1) by (rewrite FR; by eapply zset_eq). destruct Hw as [[_ Ew]|[? _]]; [|done]. change (rr_DoubleBuffered rec1) with (rr_DoubleBuffered rec) in Ew. rewrite (ro_dump _ R Hdo) in Ew. subst w. cbn match. zred.
    eapply (wpk_request_block al r rec1 i c); [done| |done|done|done|done|done|done|by rewrite FD|done|]; [intros X; split_and!; [done|done|split_and!; congruence]|].
    intros k e. rewrite FD. apply Hnb.
Qed.

(** A command names a table by a field: the table it finds. *)
Definition names K (field : list Z) (r : Z) (rec : CFE_TBL_RegistryRec_t) : Prop := zget (kR K) r = Some rec ∧ rr_OwnerAppId rec ≠ NOT_OWNED ∧ cstr (rr_Name rec) = field.

Lemma wpk_DumpCmd al flag name file K : inv al K → length name = CFE_TBL_MAX_FULL_NAME_LEN → length file = OS_MAX_PATH_LEN → kWork K = false →
  (∀ r rec, names K (field CFE_TBL_MAX_FULL_NAME_LEN name) r rec → rr_DumpOnly rec = true → dump_written K r) →
  wpk (CFE_TBL_DumpCmd flag name file) (λ _ K', all_good al K K') K.
Proof.
  intros I Hn Hfl Hwk Hok. pose proof (all_good_refl _ _ I) as G0. unfold CFE_TBL_DumpCmd, error_event. apply wpk_bind. apply wpk_string_get; [apply Nat.ltb_lt; reflexivity|done|]. intros fname Hfn _. apply wpk_bind.
  apply wpk_string_get; [apply Nat.ltb_lt; reflexivity|done|]. intros tname Htn Etn. apply wpk_bind. eapply wpk_FindTable; [done| |].
  { intros _. zred. by kgo. }
  intros r rec Hr Ho Hc Hne. rewrite (proj2 (Z.eqb_neq _ _) Hne). cbn [negb]. destruct (i_ent _ _ I _ _ Hr) as (R & P & L & D). pose proof (ro_owner _ R Ho) as Hu. apply wpk_bind. eapply wpk_rd_reg; [done|]. apply wpk_bind.
  change CFE_TBL_NO_LOAD_IN_PROGRESS with (-1). eapply (wpk_select_buffer al r rec); [done..| |rewrite bool_decide_true by done; by kgo|].
  { intros E _. apply negb_false_iff, andb_true_iff in E as [E _]. by apply negb_true_iff, Z.eqb_neq in E. }
  intros p bs Hp Hm Hs Hsel. rewrite bool_decide_false by done. pose proof (ro_size _ R Hu). destruct (rr_DumpOnly rec) eqn:Hdo; cbn [negb].
  - eapply wpk_dump_request; [done..| |done|].
    + assert (Ha : rr_ActiveBufferIndex rec = 0) by (destruct (ro_active _ R) as [|[_ Hx]]; [done|]; apply (ro_dump _ R) in Hdo; congruence).
      destruct Hsel as [[_ ->]|[_ Hno]]; [by rewrite <- Ha|]. specialize (Hno (ro_dump _ R Hdo)). apply negb_false_iff, andb_true_iff in Hno as [_ Hno]. apply negb_true_iff in Hno.
      destruct (ro_pool _ R Hu Hno) as [Hx _]. intros E. by rewrite E in Hx.
    + apply (Hok r rec); [|done]. split_and!; [done..|congruence].
  - eapply wpk_DumpToFile; [done|lia|..]; intros f; intros; intros X; by apply good_wF.
Qed.

(** ** Validation and activation *)

Lemma wpk_validate_request al r rec flag name p bs K : inv al K → zget (kR K) r = Some rec → inuse rec → length name = CFE_TBL_MAX_FULL_NAME_LEN → mem K p = Some bs → rr_Size rec <= Z.of_nat (length bs) →
  (flag ≠ 0 → bptr rec (rr_ActiveBufferIndex rec) ≠ PNull) →
  (flag = 0 → rr_DoubleBuffered rec = false → rr_LoadInProgress rec ≠ -1 ∧ rr_LoadPending rec = false ∧ rr_DumpOnly rec = false) →
  wpk (validate_request r flag name p) (λ _ K', all_good al K K') K.
Proof.
  intros I Hr Hu Hn Hm Hs Hact Hin. pose proof (all_good_refl _ _ I) as G0. destruct (i_ent _ _ I _ _ Hr) as (R & _). unfold validate_request, error_event. apply wpk_bind. eapply wpk_rd_reg; [done|]. apply wpk_bind, wpk_gets. intros s Es.
  assert (EV : ValidationResults s = kV K) by exact (f_equal kV Es). rewrite EV. cbv zeta. set (i := first_index _ 0 _).
  destruct (Z.ltb_spec i CFE_PLATFORM_TBL_MAX_NUM_VALIDATIONS) as [Hi|]; [|by kgo]. destruct (first_index_get _ _ _ (i_nV _ _ I) Hi) as (v & Hv & _). fold i in Hv. pose proof (zget_lt _ _ _ Hv) as [Hi0 _].
  apply wpk_bind. eapply wpk_wr_val; [exact Hv|]. apply wpk_bind. eapply (wpk_crc p); [by destruct p; exact Hm|done|]. intros crc. apply wpk_bind. eapply wpk_wr_val; [by eapply zset_eq|]. cbn [kV wV]. rewrite zset_zset.
  match goal with |- context [wV (zset i ?x (kV K)) _] => set (v1 := x) end. match goal with |- wpk _ _ ?k => set (K1 := k) end.
  assert (G1 : all_good al K K1) by (intros X; exact (good_val al X K i v v1 I Hv Hn)). pose proof (all_good_inv _ _ _ G1) as I1. apply wpk_bind. destruct (Z.eqb_spec (rr_ValidationFuncPtr rec) NULL) as [|Hf]; cbn [negb].
  - apply wpk_bind. eapply (wpk_wr_val i _ v1); [by eapply zset_eq|]. kgo. eapply all_good_trans; [exact G1|]. intros X. eapply (good_val al X K1 i v1); [done|by eapply zset_eq|done].
  - assert (Hend : ∀ rec', fview rec' = fview rec → rec_ok rec' → (rr_TableLoadedOnce rec = true → rr_TableLoadedOnce rec' = true) → wpk (Status ← CFE_TBL_SendNotificationMsg r; when (Status =? CFE_SUCCESS) (event CFE_TBL_VAL_REQ_MADE_INF_EID CFE_EVS_EventType_DEBUG);;
       modify (λ s, s <| tg_NumValRequests ::= λ n, u8 (n + 1) |>)) (λ _, wpk (mret CFE_TBL_INC_CMD_CTR) (λ _ K', all_good al K K')) (wR (zset r rec' (kR K1)) K1)).
    { intros rec' Ef R' Ht. apply wpk_bind. eapply wpk_SendNotification; [by eapply zset_eq|]. intros st. apply wpk_bind, wpk_when; intros _; kgo; (apply wpk_modify_any; [done|]); kgo; (eapply all_good_trans; [exact G1|]); intros X; by eapply good_fview. }
    apply wpk_bind. destruct (Z.eqb_spec flag 0) as [E0|E0]; cbn [negb]; (eapply wpk_wr_reg; [exact Hr|]); apply Hend; try done.
    + specialize (Hin E0). destruct R. constructor; try assumption; cbn; [right; split; [lia|done]|]. intros _ Hd _. by apply Hin.
    + specialize (Hact E0). destruct R. constructor; try assumption; cbn. right. split_and!; [lia|lia|done|done].
Qed.

Lemma wpk_ValidateCmd al flag name K : inv al K → length name = CFE_TBL_MAX_FULL_NAME_LEN →
  (∀ r rec, names K (field CFE_TBL_MAX_FULL_NAME_LEN name) r rec → flag = CFE_TBL_BufferSelect_INACTIVE → rr_DoubleBuffered rec = false → rr_LoadInProgress rec ≠ -1 → rr_LoadPending rec = false ∧ rr_DumpOnly rec = false) →
  wpk (CFE_TBL_ValidateCmd flag name) (λ _ K', all_good al K K') K.
Proof.
  intros I Hn Hok. pose proof (all_good_refl _ _ I) as G0. unfold CFE_TBL_ValidateCmd, error_event. apply wpk_bind. apply wpk_string_get; [apply Nat.ltb_lt; reflexivity|done|]. intros tname Htn Etn. apply wpk_bind. eapply wpk_FindTable; [done| |].
  { intros _. zred. by kgo. }
  intros r rec Hr Ho Hc Hne. rewrite (proj2 (Z.eqb_neq _ _) Hne). cbn [negb]. destruct (i_ent _ _ I _ _ Hr) as (R & P & L & D). pose proof (ro_owner _ R Ho) as Hu. apply wpk_bind. eapply wpk_rd_reg; [done|]. apply wpk_bind.
  change CFE_TBL_NO_LOAD_IN_PROGRESS with (-1). eapply (wpk_select_buffer al r rec); [done..| |rewrite bool_decide_true by done; by kgo|].
  { intros E _. by apply Z.eqb_neq. }
  intros p bs Hp Hm Hs Hsel. rewrite bool_decide_false by done. eapply wpk_validate_request; [done..| |].
  - intros Hfl. destruct Hsel as [[_ ->]|[-> _]]; done.
  - intros Hfl Hd. destruct Hsel as [[-> _]|[Hin Hno]]; [done|]. specialize (Hno Hd). apply Z.eqb_neq in Hno. destruct (Hok r rec) as [? ?]; [split_and!; [done..|congruence]|done..].
Qed.

(** The part all commands that name a table share. *)
Lemma wpk_named al name (found : list Z → Z → M TG Z) (none : M TG Z) K : inv al K → length name = CFE_TBL_MAX_FULL_NAME_LEN →
  wpk none (λ _ K', all_good al K K') K →
  (∀ t r rec, length t = CFE_TBL_MAX_FULL_NAME_LEN → names K (field CFE_TBL_MAX_FULL_NAME_LEN name) r rec → inuse rec → ent K r rec → wpk (found t r) (λ _ K', all_good al K K') K) →
  wpk (TableName ← string_get CFE_TBL_MAX_FULL_NAME_LEN name; RegIndex ← CFE_TBL_FindTableInRegistry TableName;
       if negb (RegIndex =? CFE_TBL_NOT_FOUND) then found TableName RegIndex else none) (λ _ K', all_good al K K') K.
Proof.
  intros I Hn H0 Hf. apply wpk_bind. apply wpk_string_get; [apply Nat.ltb_lt; reflexivity|done|]. intros t Ht Et. apply wpk_bind. eapply wpk_FindTable; [done|done|].
  intros r rec Hr Ho Hc Hne. rewrite (proj2 (Z.eqb_neq _ _) Hne). cbn [negb]. pose proof (i_ent _ _ I _ _ Hr) as He. apply (Hf t r rec); [done|split_and!; [done..|congruence]|by apply (ro_owner _ (proj1 He))|done].
Qed.

(** No validation of the working buffer of a single buffered table is pending. *)
Definition no_validation (rec : CFE_TBL_RegistryRec_t) : Prop := rr_DoubleBuffered rec = false → rr_ValidateInactiveIndex rec = -1.

Lemma wpk_ActivateCmd al name K : inv al K → length name = CFE_TBL_MAX_FULL_NAME_LEN → (∀ r rec, names K (field CFE_TBL_MAX_FULL_NAME_LEN name) r rec → no_validation rec) →
  wpk (CFE_TBL_ActivateCmd name) (λ _ K', all_good al K K') K.
Proof.
  intros I Hn Hok. pose proof (all_good_refl _ _ I) as G0. unfold CFE_TBL_ActivateCmd. apply wpk_named; [done|done|unfold error_event; by kgo|].
  intros t r rec _ N Hu (R & P & L & D). pose proof N as (Hr & _). unfold error_event. apply wpk_bind. eapply wpk_rd_reg; [done|]. change CFE_TBL_NO_LOAD_IN_PROGRESS with (-1).
  destruct (rr_DumpOnly rec) eqn:Hdo; [by kgo|]. destruct (Z.eqb_spec (rr_LoadInProgress rec) (-1)) as [|Hl]; cbn [negb]; [by kgo|].
  assert (Hend : ∀ b : CFE_TBL_LoadBuff_t, wpk (if lb_Validated b then wr_reg r (λ rec, rec <| rr_LoadPending := true |>);; Status ← CFE_TBL_SendNotificationMsg r;
        when (Status =? CFE_SUCCESS) (event CFE_TBL_LOAD_PEND_REQ_INF_EID CFE_EVS_EventType_DEBUG);; mret CFE_TBL_INC_CMD_CTR else event CFE_TBL_UNVALIDATED_ERR_EID CFE_EVS_EventType_ERROR;; mret CFE_TBL_INC_ERR_CTR) (λ _ K', all_good al K K') K).
  { intros b. destruct (lb_Validated b); [|by kgo]. apply wpk_bind. eapply wpk_wr_reg; [exact Hr|]. apply wpk_bind. eapply wpk_SendNotification; [by eapply zset_eq|]. intros st.
    apply wpk_bind, wpk_when; intros _; kgo; intros X; (eapply good_fview; [done|exact Hr|done| |done]); by apply rec_pending, (Hok r rec). }
  apply wpk_bind. destruct (rr_DoubleBuffered rec) eqn:Hd.
  - destruct (zget_buf rec (inactive rec) (ro_bufs _ R)) as (b & Hb & _); [rewrite inactive_eq by done; destruct (ro_active _ R); lia|]. eapply wpk_reg_buf; [done|]. apply Hend.
  - destruct (L Hd Hl) as (b & Hb & _). eapply wpk_rd_shared; [done|]. apply Hend.
Qed.

Lemma wpk_AbortLoadCmd al name K : inv al K → length name = CFE_TBL_MAX_FULL_NAME_LEN → (∀ r rec, names K (field CFE_TBL_MAX_FULL_NAME_LEN name) r rec → no_validation rec) →
  wpk (CFE_TBL_AbortLoadCmd name) (λ _ K', all_good al K K') K.
Proof.
  intros I Hn Hok. pose proof (all_good_refl _ _ I) as G0. unfold CFE_TBL_AbortLoadCmd. apply wpk_named; [done|done|unfold error_event; by kgo|].
  intros t r rec _ N Hu (R & P & L & D). pose proof N as (Hr & _). specialize (Hok r rec N). unfold error_event, CFE_TBL_AbortLoad. apply wpk_bind. eapply wpk_rd_reg; [done|]. change CFE_TBL_NO_LOAD_IN_PROGRESS with (-1).
  destruct (negb (rr_LoadInProgress rec =? -1) && negb (rr_DumpOnly rec)) eqn:E; [|by kgo]. apply andb_true_iff in E as [El Ed]. apply negb_true_iff, Z.eqb_neq in El. apply negb_true_iff in Ed.
  apply wpk_bind, wpk_bind. eapply wpk_rd_reg; [done|].
  assert (Hb : ∀ i c, zget (kD K) i = Some c → dc_State c ≠ CFE_TBL_DUMP_FREE → dc_RegRecPtr c ≠ r). { intros i c Hc Hs Hrc. pose proof (inv_blk_at _ _ _ _ _ _ I Hc Hs Hrc Hr) as (_ & Hx & _). congruence. }
  assert (GU : ∀ K1 rec1, inv al K1 → zget (kR K1) r = Some rec1 → rec_ok (rec1 <| rr_LoadPending := false |>) → all_good al K1 (wR (zset r (rec1 <| rr_LoadPending := false |>) (kR K1)) K1)).
  { intros K1 rec1 I1 Hr1 R1 X. by eapply good_fview. }
  assert (Rp : rec_ok (rec <| rr_LoadInProgress := -1 |> <| rr_LoadPending := false |>)).
  { assert (R0 : rec_ok (rec <| rr_LoadInProgress := -1 |>)). { pose proof (inv_unlip _ _ _ _ I Hr (λ _, Hok) Hb) as I0. exact (proj1 (i_ent _ _ I0 r _ (zset_eq _ _ _ _ Hr))). }
    destruct R0. constructor; try assumption; try done. cbn in *. intros Hx1 Hx2 Hx3. by destruct (ro_vlip Hx1 Hx2 Hx3) as [? _]. }
  apply wpk_bind, wpk_when; intros Hd.
  - apply negb_true_iff in Hd. destruct (L Hd El) as (b & Hb' & _). eapply wpk_wr_shared; [exact Hb'|]. apply wpk_bind. eapply wpk_wr_reg; [exact Hr|]. kgo.
    eapply all_good_trans; [intros X; by eapply (good_unlip al X K r rec b I Hr (λ _, Hok Hd) Hd El Hb)|]. set (K1 := wR (zset r (rec <| rr_LoadInProgress := -1 |>) (kR K)) (wL _ K)).
    assert (I1 : inv al K1) by exact (proj1 (good_unlip al (λ _, False) K r rec b I Hr (λ _, Hok Hd) Hd El Hb Hb')).
    pose proof (GU K1 _ I1 (zset_eq _ _ _ _ Hr) Rp) as G1. cbn [kR K1 wR] in G1. rewrite zset_zset in G1. exact G1.
  - apply wpk_bind. eapply wpk_wr_reg; [exact Hr|]. kgo. assert (I1 : inv al (wR (zset r (rec <| rr_LoadInProgress := -1 |>) (kR K)) K)) by by apply inv_unlip.
    eapply all_good_trans; [intros X; split_and!; [exact I1|by eapply (keeps_reg X K r rec)|done]|]. pose proof (GU _ _ I1 (zset_eq _ _ _ _ Hr) Rp) as G1. cbn [kR wR] in G1. rewrite zset_zset in G1. exact G1.
Qed.

(** ** The other commands *)

Lemma wpk_SendRegistryCmd al name K : inv al K → length name = CFE_TBL_MAX_FULL_NAME_LEN → wpk (CFE_TBL_SendRegistryCmd name) (λ _ K', all_good al K K') K.
Proof.
  intros I Hn. pose proof (all_good_refl _ _ I) as G0. unfold CFE_TBL_SendRegistryCmd. apply wpk_named; [done|done|unfold error_event; by kgo|]. intros t r rec _ (Hr & _) _ _.
  apply wpk_bind, wpk_modify. intros s Es. kgo. assert (core_of (s <| tg_HkTlmTblRegIndex := r |>) = wHk r K) as -> by by rewrite <- Es. intros X. split_and!; [|by intros ???????|done].
  apply inv_wHk; [|done]. right. apply zget_lt in Hr. rewrite (i_nR _ _ I) in Hr. unfold CFE_PLATFORM_TBL_MAX_NUM_TABLES in *. lia.
Qed.

Lemma wpk_DeleteCDSCmd al name K : inv al K → length name = CFE_TBL_MAX_FULL_NAME_LEN → wpk (CFE_TBL_DeleteCDSCmd name) (λ _ K', all_good al K K') K.
Proof.
  intros I Hn. pose proof (all_good_refl _ _ I) as G0. unfold CFE_TBL_DeleteCDSCmd, error_event. apply wpk_bind. apply wpk_string_get; [apply Nat.ltb_lt; reflexivity|done|]. intros t Ht Et. apply wpk_bind. eapply wpk_FindTable; [done| |].
  2:{ intros r rec Hr Ho Hc Hne. rewrite (proj2 (Z.eqb_neq _ _) Hne). by kgo. }
  intros _. rewrite Z.eqb_refl. apply wpk_bind, wpk_gets. intros s Es. assert (EC : CritReg s = kC K) by exact (f_equal kC Es). rewrite EC. cbv zeta. set (i := first_index _ 0 _).
  destruct (Z.ltb_spec i CFE_PLATFORM_TBL_MAX_CRITICAL_TABLES) as [Hi|]; [|by kgo]. destruct (first_index_get _ _ _ (i_nC _ _ I) Hi) as (c & Hc & _). fold i in Hc. apply wpk_bind, wpk_cds. intros st cs _.
  assert (G1 : all_good al K (wS cs K)) by (intros X; split_and!; [by apply inv_wS|by intros ???????|done]). repeat (destruct (_ =? _); [by kgo|]). destruct (negb _); [by kgo|].
  kgo. eapply wpk_wr_crit; [exact Hc|]. kgo. intros X. split_and!; [|by intros ???????|done]. apply (inv_wC al (wS cs K)); [apply zset_length|by apply inv_wS].
Qed.

Lemma wpk_NoopCmd al K : inv al K → wpk CFE_TBL_NoopCmd (λ _ K', all_good al K K') K.
Proof. intros I. unfold CFE_TBL_NoopCmd. kgo. by apply all_good_refl. Qed.
Lemma wpk_ResetCountersCmd al K : inv al K → wpk CFE_TBL_ResetCountersCmd (λ _ K', all_good al K K') K.
Proof. intros I. unfold CFE_TBL_ResetCountersCmd. apply wpk_bind, wpk_modify_any; [done|]. kgo. by apply all_good_refl. Qed.

(** ** Loads *)

Lemma wpk_load_buffer al K r rec w p fd name d std file K2 : prep al r rec w p K K2 → zget (kR K2) r = Some rec → at_file (kF K2) fd name d (sizeof_CFE_FS_Header + sizeof_TBL_File_Hdr) →
  0 <= file_offset d → 0 < file_size d → file_offset d + file_size d <= rr_Size rec → wpk (load_buffer w r fd std (file_header d) file) (λ _ K', all_good al K K') K2.
Proof.
  intros P2 Hr2 Ha Hoff Hsz Hfit. unfold load_buffer, error_event. rewrite file_offset_eq, file_size_eq. apply wpk_bind. eapply wpk_rd_reg; [exact Hr2|]. cbv zeta.
  destruct (prep_working _ _ _ _ _ _ _ P2) as (rec2 & b & old & W2 & Hr2' & E2 & _ & Hb & Ep & Hold & Hlen). rewrite Hr2 in Hr2'. injection Hr2' as <-.
  assert (Hs : rr_Size rec <= 16384). { destruct W2 as (I2 & _ & Hu2 & _). pose proof (ro_size _ (proj1 (i_ent _ _ I2 _ _ Hr2)) Hu2) as Hx. unfold CFE_PLATFORM_TBL_MAX_SNGL_TABLE_SIZE in Hx. lia. }
  assert (Es : s32 (file_size d) = file_size d) by (apply s32_small; lia).
  rewrite Es. apply wpk_bind. eapply (wpk_read_into al K r rec w p fd (file_offset d) (file_size d) name d _ old); [exact P2|exact Ha|done|lia|lia|done| |].
  { intros st K3 Hne (G & _). destruct (Z.eqb_spec st (file_size d)) as [->|]; [|by kgo]. rewrite u32_small in Hne; [done|]. unfold is_u32. lia. }
  cbv zeta. intros K3 Hl P3 Hm3. rewrite Z.eqb_refl. cbn [negb]. apply wpk_bind, wpk_call. intros [st bs] f _. cbn beta match. pose proof (prep_same _ _ _ _ _ _ _ f P3) as P4.
  destruct (st =? 1); [kgo; exact (proj1 P4)|]. kgo. destruct (prep_working _ _ _ _ _ _ _ P4) as (rec4 & b4 & old4 & W4 & Hr4 & E4 & _ & Hb4 & Ep4 & Hold4 & Hlen4). eapply wpk_wr_lb; [exact Hb4|].
  match goal with |- wpk _ _ (set_lb w ?x _) => assert (P5 : prep al r rec w p K (set_lb w x (wF f K3))) by (by eapply prep_lb) end.
  destruct (prep_working _ _ _ _ _ _ _ P5) as (rec5 & b5 & old5 & W5 & Hr5 & E5 & _ & Hb5 & Ep5 & Hold5 & Hlen5). kgo. eapply wpk_rd_lb; [exact Hb5|]. kgo. rewrite Ep5. eapply wpk_crc; [exact Hold5|lia|]. intros crc. kgo. eapply wpk_wr_lb; [exact Hb5|]. kgo.
  by eapply (prep_lb al K _ r rec w p b5).
Qed.

Lemma wpk_load_file al K fd name d std file : inv al K → kWork K = false → at_file (kF K) fd name d (sizeof_CFE_FS_Header + sizeof_TBL_File_Hdr) → Forall is_u8 (take sizeof_TBL_File_Hdr (drop sizeof_CFE_FS_Header d)) →
  file_offset d + file_size d < 2 ^ 32 → wpk (load_file fd std (file_header d) file) (λ _ K', all_good al K K') K.
Proof.
  intros I Hwk Ha Hu8 Hok. pose proof (all_good_refl _ _ I) as G0. unfold load_file, error_event. apply wpk_bind. eapply wpk_FindTable; [done|intros _; rewrite Z.eqb_refl; by kgo|].
  intros r rec Hr Ho Hc Hne. rewrite (proj2 (Z.eqb_neq _ _) Hne). apply wpk_bind. eapply wpk_rd_reg; [done|]. cbv zeta. rewrite file_offset_eq, file_size_eq.
  destruct (i_ent _ _ I _ _ Hr) as (R & P & L & D). pose proof (ro_owner _ R Ho) as Hu.
  destruct (rr_DumpOnly rec) eqn:Hdo; [by kgo|]. destruct (rr_LoadPending rec) eqn:Hlp; [by kgo|].
  pose proof (u32_at_range off_Offset _ (file_header_u8 _ Hu8)) as Hoff. pose proof (u32_at_range off_NumBytes _ (file_header_u8 _ Hu8)) as Hnum. rewrite file_offset_eq in Hoff. rewrite file_size_eq in Hnum.
  rewrite u32_small by (unfold is_u32; lia). destruct (_ && (0 <? _) && _) eqn:E; [|repeat (destruct (_ <? _) || destruct (_ =? _)); by kgo].
  apply andb_true_iff in E as [E Efit]. apply andb_true_iff in E as [_ Epos]. apply Z.ltb_lt in Epos. apply Z.leb_le in Efit.
  assert (Hud : rr_UserDefAddr rec = false). { destruct (rr_UserDefAddr rec) eqn:E; [|done]. apply (ro_user _ R) in E. congruence. }
  assert (Hap : bptr rec (rr_ActiveBufferIndex rec) ≠ PNull). { pose proof (active_ptr _ R Hu Hud) as Hp. intros E. by rewrite E in Hp. }
  apply wpk_bind. eapply (wpk_GetWorkingBuffer al r rec false); [done..| | |].
  - intros w Hw _. cbn match. zred. destruct (workbuf_ok _ _ _ _ w I Hr Hu (λ _, Hud) Hw) as (b & Hb & _). eapply (wpk_load_buffer al K r rec w (lb_BufferPtr b)); [|done|done|lia|lia|lia].
    apply prep_refl. split_and!; [done..|]. by exists b.
  - intros _. cbn match. zred. by kgo.
  - cbv zeta. intros l w K1 _ _ Hl Hw HF I1 Hk1 (b & nb & Hb & _). destruct HF as (FR & FH & FC & FV & FD & FA & FF & FS' & FRg & FW & FT & FHk). set (rec1 := rec <| rr_LoadInProgress := l |>) in *. cbn match. zred.
    assert (Hr1 : zget (kR K1) r = Some rec1) by (rewrite FR; by eapply zset_eq). assert (G1 : all_good al K K1) by (intros X; split_and!; [done|done|split_and!; congruence]).
    assert (Efit' : file_offset d + file_size d <= rr_Size rec1) by (rewrite Z.add_comm; exact Efit).
    eapply wpk_mono; [eapply (wpk_load_buffer al K1 r rec1 w (lb_BufferPtr b))|]; [|done|by rewrite FF|lia|lia|exact Efit'|].
    + apply prep_refl. split_and!; [done..|]. by exists b.
    + intros st K' G. by eapply all_good_trans.
Qed.

Lemma wpk_LoadCmd al file K : inv al K → length file = OS_MAX_PATH_LEN → kWork K = false → file_ok (f_data (kF K) !! field OS_MAX_PATH_LEN file) → wpk (CFE_TBL_LoadCmd file) (λ _ K', all_good al K K') K.
Proof.
  intros I Hn Hwk Hok. assert (GF : ∀ f, all_good al K (wF f K)) by (intros f X; by apply good_wF). unfold CFE_TBL_LoadCmd, error_event. apply wpk_bind. apply wpk_string_get; [apply Nat.ltb_lt; reflexivity|done|]. intros t Ht Et. rewrite <- Et in Hok.
  apply wpk_bind, wpk_call. intros [st fd] f1 E1. cbn beta match. destruct (Z.leb_spec 0 st) as [Hst|]; [|kgo; apply GF]. destruct (open_ok _ _ _ _ _ _ _ E1 Hst) as (Eo & Ed & [d Hd]). cbn in Ed. rewrite Hd in Hok. cbn in Hok.
  assert (Ha : at_file f1 fd (cstr t) d 0) by (split; [rewrite Eo; apply lookup_insert_eq|by rewrite Ed]). apply wpk_bind. eapply (wpk_ReadHeaders fd (cstr t) d _ (wF f1 K)); [exact Ha| |].
  { intros st2 h t2 f2 Hne Hs. cbn beta match. rewrite (proj2 (Z.eqb_neq _ _) Hne). kgo. apply wpk_close. intros f3. apply (GF f3). }
  intros h f2 Hu8 Ha2. cbn beta match. rewrite Z.eqb_refl. apply wpk_bind. eapply wpk_mono; [eapply (wpk_load_file al (wF f2 (wF f1 K))); [exact (all_good_inv _ _ _ (GF f2))|done|exact Ha2|done|done]|].
  cbn beta. intros st3 K3 G. apply wpk_close. intros f4. eapply all_good_trans; [exact (GF f2)|]. eapply all_good_trans; [exact G|]. intros X. apply good_wF. exact (all_good_inv _ _ _ G).
Qed.

(** ** Housekeeping *)

Lemma wpk_report_validation al K : inv al K → wpk report_validation (λ _ K', all_good al K K') K.
Proof.
  intros I. pose proof (all_good_refl _ _ I) as G0. unfold report_validation. apply wpk_bind, wpk_gets. intros s Es. assert (EV : ValidationResults s = kV K) by exact (f_equal kV Es). rewrite EV. cbv zeta. set (i := first_index _ 0 _).
  apply wpk_when; [|done]. intros Hi. apply Z.ltb_lt in Hi. destruct (first_index_get _ _ _ (i_nV _ _ I) Hi) as (v & Hv & _). fold i in Hv. pose proof (i_val _ _ I _ _ Hv) as Hl. apply wpk_bind. eapply wpk_rd_val; [done|]. kgo.
  assert (HE : wpk (p ← gets tg_HkPacket; name ← string_set CFE_TBL_MAX_FULL_NAME_LEN (th_LastValTableName p) (vr_TableName v); hkp (λ p, p <| th_LastValTableName := name |>);;
     modify (λ s, s <| tg_ValidationCounter ::= λ n, u16 (n + 1) |>);; wr_val i (λ v, v <| vr_Result := 0 |> <| vr_CrcOfTable := 0 |> <| vr_TableName ::= <[0%nat := 0]> |> <| vr_ActiveBuffer := false |> <| vr_State := CFE_TBL_VALIDATION_FREE |>)) (λ _ K', all_good al K K') K).
  { kgo. apply wpk_gets_any. intros p. kgo. apply wpk_string_set; [by rewrite Hl|]. intros t. kgo. apply wpk_modify_any; [done|]. eapply wpk_wr_val; [exact Hv|]. intros X. eapply good_val; [done..|]. cbn. by rewrite length_insert. }
  destruct (_ =? _); (apply wpk_modify_any; [done|]); exact HE.
Qed.

Lemma wpk_GetHkData al K : inv al K → wpk CFE_TBL_GetHkData (λ _ K', all_good al K K') K.
Proof.
  intros I. unfold CFE_TBL_GetHkData. apply wpk_bind, wpk_modify_any; [done|]. apply wpk_bind, wpk_gets_any. intros l. destruct (count_tables l 0 0) as [cnt pend]. kgo. apply wpk_gets_any. intros bufs. kgo.
  eapply wpk_mono; [by apply wpk_report_validation|]. cbn beta. intros _ K1 G. pose proof (all_good_inv _ _ _ G) as I1. apply wpk_bind, wpk_modify_any; [done|]. apply wpk_bind, wpk_gets_any. intros last. apply wpk_when; [|done].
  intros E. apply andb_true_iff in E as [E1 E2]. destruct (zget_is_Some (kR K1) last) as [rec Hr]; [rewrite (i_nR _ _ I1); unfold CFE_PLATFORM_TBL_MAX_NUM_TABLES in *; lia|]. apply wpk_bind. eapply wpk_rd_reg; [done|].
  apply wpk_when; [|done]. intros _. kgo. apply wpk_gets_any. intros p. kgo. destruct (i_ent _ _ I1 _ _ Hr) as (R & _). apply wpk_string_set; [by rewrite (ro_name _ R)|]. intros t. by kgo.
Qed.

Lemma wpk_GetTblRegData al K : inv al K → kHk K ≠ -1 → wpk CFE_TBL_GetTblRegData (λ _ K', K' = K) K.
Proof.
  intros I Hk. unfold CFE_TBL_GetTblRegData. apply wpk_bind, wpk_gets. intros s Es. assert (Ek : tg_HkTlmTblRegIndex s = kHk K) by exact (f_equal kHk Es). rewrite Ek. destruct (i_hk _ _ I) as [|Hrg]; [done|].
  destruct (zget_is_Some (kR K) (kHk K)) as [rec Hr]; [rewrite (i_nR _ _ I); unfold CFE_PLATFORM_TBL_MAX_NUM_TABLES in *; lia|]. destruct (i_ent _ _ I _ _ Hr) as (R & P & L & _). kgo. eapply wpk_rd_reg; [done|].
  destruct (zget_buf rec (rr_ActiveBufferIndex rec) (ro_bufs _ R)) as (b & Hb & _); [destruct (ro_active _ R); lia|]. kgo. eapply wpk_reg_buf; [done|]. kgo. change CFE_TBL_NO_LOAD_IN_PROGRESS with (-1).
  assert (HE : ∀ a : Z, wpk (Name ← string_set CFE_TBL_MAX_FULL_NAME_LEN (replicate CFE_TBL_MAX_FULL_NAME_LEN 0) (rr_Name rec); LastFileLoaded ← string_set OS_MAX_PATH_LEN (replicate OS_MAX_PATH_LEN 0) (rr_LastFileLoaded rec);
    OwnerAppName ← tbl_app_name (rr_OwnerAppId rec);
    mret (mkTblReg (u32 (rr_Size rec)) (lb_Crc b) (u32 (addr_of (lb_BufferPtr b))) (u32 a) (u32 (rr_ValidationFuncPtr rec)) (rr_TimeOfLastUpdate rec) (lb_FileCreateTimeSecs b) (lb_FileCreateTimeSubSecs b)
          (rr_TableLoadedOnce rec) (rr_LoadPending rec) (rr_DumpOnly rec) (rr_DoubleBuffered rec) Name LastFileLoaded OwnerAppName (rr_CriticalTable rec))) (λ _ K', K' = K) K).
  { intros a. kgo. apply wpk_string_set; [by rewrite (ro_name _ R)|]. intros n1. kgo. apply wpk_string_set; [by rewrite (ro_file _ R)|]. intros n2. kgo. unfold tbl_app_name. kgo. apply wpk_gets_any. intros apps. by kgo. }
  destruct (rr_DoubleBuffered rec) eqn:Hd.
  - destruct (zget_buf rec (inactive rec) (ro_bufs _ R)) as (b' & Hb' & _); [rewrite inactive_eq by done; destruct (ro_active _ R); lia|]. apply wpk_bind. eapply wpk_reg_buf; [done|]. apply wpk_ret, HE.
  - destruct (Z.eqb_spec (rr_LoadInProgress rec) (-1)) as [|Hl]; cbn [negb]; [apply wpk_ret, HE|]. destruct (L Hd Hl) as (b' & Hb' & _). apply wpk_bind. eapply wpk_rd_shared; [done|]. apply wpk_ret, HE.
Qed.

(** A dump is written: its block and the shared buffer are free. *)
Lemma good_written al X K i c rec b : inv al K → zget (kD K) i = Some c → dc_State c = CFE_TBL_DUMP_PERFORMED → zget (kR K) (dc_RegRecPtr c) = Some rec → zget (kL K) (rr_LoadInProgress rec) = Some b →
  good al X K (wD (zset i (c <| dc_State := CFE_TBL_DUMP_FREE |>) (kD K)) (wR (zset (dc_RegRecPtr c) (rec <| rr_LoadInProgress := -1 |>) (kR K)) (wL (zset (rr_LoadInProgress rec) (b <| lb_Taken := false |>) (kL K)) K))).
Proof.
  intros I Hc Hs Hr Hb. assert (Hns : dc_State c ≠ CFE_TBL_DUMP_FREE) by congruence. pose proof (inv_blk_at _ _ _ _ _ _ I Hc Hns eq_refl Hr) as (Bu & Bd & Bl & _). destruct (i_ent _ _ I _ _ Hr) as (R & _).
  assert (I1 : inv al (wD (zset i (c <| dc_State := CFE_TBL_DUMP_FREE |>) (kD K)) K)) by (apply inv_free_dump; [done..|congruence]). set (K1 := wD _ K) in *.
  assert (Hv : rr_ValidateInactiveIndex rec = -1). { destruct (decide (rr_ValidateInactiveIndex rec = -1)) as [|Hx]; [done|]. destruct (ro_vlip _ R Bu (ro_dump _ R Bd) Hx) as (_ & _ & ?). congruence. }
  eapply (good_step al al X K K1); [split_and!; [done|by intros ???????|done]|].
  apply (good_unlip al X K1 (dc_RegRecPtr c) rec b I1 Hr (λ _, Hv) (ro_dump _ R Bd) Bl); [|exact Hb].
  intros k c2. cbn. rewrite (zset_get _ _ _ _ _ Hc). destruct (decide (k = i)) as [->|Hne]; [by intros [= <-]|]. intros H2 Hs2 E. by apply (i_blne _ _ I k i c2 c Hne H2 Hc Hs2 Hns).
Qed.

Lemma wpk_write_dump al i K : inv al K → 0 <= i < CFE_PLATFORM_TBL_MAX_SIMULTANEOUS_LOADS → wpk (write_dump i) (λ _ K', all_good al K K') K.
Proof.
  intros I Hi. pose proof (all_good_refl _ _ I) as G0. destruct (zget_is_Some (kD K) i) as [c Hc]; [rewrite (i_nD _ _ I); unfold CFE_PLATFORM_TBL_MAX_SIMULTANEOUS_LOADS in *; lia|]. unfold write_dump. kgo. eapply wpk_rd_dump; [done|]. cbn beta.
  case_bool_decide as Hs; cbn [negb]; [|by kgo]. assert (Hns : dc_State c ≠ CFE_TBL_DUMP_FREE) by congruence. destruct (i_blk _ _ I _ _ Hc Hns) as (rec & Hr & Bu & Bd & Bl & Bb & Bs & _).
  destruct (i_ent _ _ I _ _ Hr) as (R & P & L & D). destruct (L (ro_dump _ R Bd) Bl) as (b & Hb & _). destruct (i_sh _ _ I _ _ Hb) as [_ (bs & Hm & Hn & _)]. pose proof (ro_size _ R Bu).
  assert (HE : ∀ f, wpk (rd_reg (dc_RegRecPtr c)) (λ rec, wpk (wr_shared (rr_LoadInProgress rec) (λ b, b <| lb_Taken := false |>);; wr_reg (dc_RegRecPtr c) (λ rec, rec <| rr_LoadInProgress := CFE_TBL_NO_LOAD_IN_PROGRESS |>);;
    wr_dump i (λ c, c <| dc_State := CFE_TBL_DUMP_FREE |>)) (λ _ K', all_good al K K')) (wF f K)).
  { intros f. eapply wpk_rd_reg; [exact Hr|]. kgo. eapply wpk_wr_shared; [exact Hb|]. kgo. eapply wpk_wr_reg; [exact Hr|]. kgo. eapply wpk_wr_dump; [exact Hc|]. intros X. eapply good_step; [by apply (good_wF al X K f)|].
    exact (good_written al X (wF f K) i c rec b (inv_wF _ _ f I) Hc Hs Hr Hb). }
  rewrite Bb. kgo. eapply wpk_rd_lb; [exact Hb|]. kgo. eapply (wpk_DumpToFile _ _ _ _ bs); [done|lia|intros f; zred; cbn [when]; kgo; apply HE|]. intros f _. zred. cbn [when]. kgo. apply wpk_call. intros [st fd] f2 _. cbn beta match.
  apply wpk_when; intros _; [|kgo; apply (HE f2)]. kgo. apply wpk_runs; [apply runs_SetTimestamp|]. intros st3 f3. kgo. apply wpk_close. intros f4. kgo. apply (HE f4).
Qed.

Lemma wpk_write_dumps al n i K : inv al K → 0 <= i → i + Z.of_nat n <= CFE_PLATFORM_TBL_MAX_SIMULTANEOUS_LOADS → wpk (write_dumps n i) (λ _ K', all_good al K K') K.
Proof.
  revert i K. induction n as [|n IH]; intros i K I Hi Hn; cbn [write_dumps]; [kgo; by apply all_good_refl|]. apply wpk_bind. eapply wpk_mono; [apply wpk_write_dump; [done|lia]|]. cbn beta. intros _ K1 G.
  eapply wpk_mono; [apply IH; [by eapply all_good_inv|lia..]|]. cbn beta. intros _ K2 G2. by eapply all_good_trans.
Qed.

Lemma wpk_HousekeepingCmd al K : inv al K → wpk CFE_TBL_HousekeepingCmd (λ _ K', all_good al K K') K.
Proof.
  intros I. unfold CFE_TBL_HousekeepingCmd. apply wpk_bind. eapply wpk_mono; [by apply wpk_GetHkData|]. cbn beta. intros _ K1 G. pose proof (all_good_inv _ _ _ G) as I1. apply wpk_bind, wpk_gets_any. intros now.
  apply wpk_bind, wpk_modify_any; [done|]. apply wpk_bind, wpk_gets_any. intros h. apply wpk_bind, wpk_gets_any. intros p. apply wpk_bind, wpk_modify_any; [done|].
  assert (HE : ∀ K2, all_good al K1 K2 → wpk (write_dumps (Z.to_nat CFE_PLATFORM_TBL_MAX_SIMULTANEOUS_LOADS) 0) (λ _, wpk (mret CFE_TBL_DONT_INC_CTR) (λ _ K', all_good al K K')) K2).
  { intros K2 G2. eapply wpk_mono; [apply wpk_write_dumps; [by eapply all_good_inv|done|done]|]. cbn beta. intros _ K3 G3. kgo. eapply all_good_trans; [exact G|]. by eapply all_good_trans. }
  assert (HR : wpk (r ← gets tg_HkTlmTblRegIndex; when (negb (r =? CFE_TBL_NOT_FOUND)) (p ← CFE_TBL_GetTblRegData; modify (λ s, s <| tg_RegHeader ::= time_stamp now |>);; h ← gets tg_RegHeader;
     modify (λ s, s <| TblSent ::= λ l, l ++ [OutReg h p] |>);; modify (λ s, s <| tg_HkTlmTblRegIndex := CFE_TBL_NOT_FOUND |>));; write_dumps (Z.to_nat CFE_PLATFORM_TBL_MAX_SIMULTANEOUS_LOADS) 0;; mret CFE_TBL_DONT_INC_CTR) (λ _ K', all_good al K K') K1).
  { apply wpk_bind, wpk_gets. intros s Es. assert (Ek : tg_HkTlmTblRegIndex s = kHk K1) by exact (f_equal kHk Es). rewrite Ek. apply wpk_bind. apply wpk_when; intros Hk; [|apply wpk_bind, HE; by apply all_good_refl].
    apply negb_true_iff, Z.eqb_neq in Hk. apply wpk_bind. eapply wpk_mono; [by apply (wpk_GetTblRegData al)|]. cbn beta. intros q K2 ->. apply wpk_bind, wpk_modify_any; [done|]. apply wpk_bind, wpk_gets_any. intros h2. apply wpk_bind, wpk_modify_any; [done|].
    apply wpk_modify. intros s2 E2. apply wpk_bind, HE. assert (core_of (s2 <| tg_HkTlmTblRegIndex := CFE_TBL_NOT_FOUND |>) = wHk (-1) K1) as -> by by rewrite <- E2. intros X. split_and!; [|by intros ???????|done]. apply inv_wHk; [by left|done]. }
  apply wpk_bind, wpk_when; intros _; [apply wpk_event|]; exact HR.
Qed.

(** ** The registry dump *)

Lemma wpk_DumpRegistryCmd al req file K : inv al K → length file = OS_MAX_PATH_LEN → wpk (CFE_TBL_DumpRegistryCmd req file) (λ _ K', all_good al K K') K.
Proof.
  intros I Hf. pose proof (all_good_refl _ _ I) as G0. unfold CFE_TBL_DumpRegistryCmd. apply wpk_bind, wpk_gets_any. intros st. destruct (ds_IsPending st); cbn [negb]; [by kgo|].
  apply wpk_bind. assert (∃ r, CFE_SB_MessageStringGet (Some (ds_FileName st)) file (Some CFE_PLATFORM_TBL_DEFAULT_REG_DUMP_FILE) OS_MAX_PATH_LEN OS_MAX_PATH_LEN = Some r) as [r Hr].
  { unfold CFE_SB_MessageStringGet, OS_MAX_PATH_LEN in *. destruct file as [|c S]; [done|]. cbn [Nat.eqb head mbind option_bind]. destruct (c =? 0); [by eexists|]. rewrite StringGet_loop_spec by lia. by eexists. }
  eapply wpk_of_option; [exact Hr|]. cbv zeta. apply wpk_bind, wpk_gets_any. intros fs. apply wpk_bind, wpk_modify_any; [done|]. by kgo.
Qed.

Lemma wpk_DumpRegistryGetter al n K : inv al K → kReg K = false → 0 <= n → wpk (CFE_TBL_DumpRegistryGetter n) (λ _ K', K' = K) K.
Proof.
  intros I Hk Hn. unfold CFE_TBL_DumpRegistryGetter. cbv zeta. destruct (Z.ltb_spec n CFE_PLATFORM_TBL_MAX_NUM_TABLES) as [Hlt|]; [|by kgo].
  destruct (zget_is_Some (kR K) n) as [rec Hr]; [rewrite (i_nR _ _ I); unfold CFE_PLATFORM_TBL_MAX_NUM_TABLES in *; lia|]. destruct (i_ent _ _ I _ _ Hr) as (R & _).
  assert (EK : wReg false (wReg true K) = K) by (destruct K; cbn in Hk; by subst).
  apply wpk_bind, wpk_lock; [done|]. apply wpk_bind. eapply wpk_rd_reg; [exact Hr|]. destruct (_ || _); [|apply wpk_bind, wpk_unlock; rewrite EK; by kgo].
  destruct (zget_buf rec (rr_ActiveBufferIndex rec) (ro_bufs _ R)) as (b & Hb & _); [destruct (ro_active _ R); lia|]. apply wpk_bind. eapply wpk_reg_buf; [done|]. apply wpk_bind, wpk_walk_fuel. destruct (al_seg _ _ _ _ I Hr) as (q & Hs & Hlen).
  apply wpk_bind. eapply wpk_count_loop; [exact Hs|cbn; lia|]. apply wpk_bind, wpk_unlock. rewrite EK. apply wpk_bind, wpk_gets_any. intros old. apply wpk_bind.
  destruct (negb _); [unfold tbl_app_name; kgo; apply wpk_gets_any; intros apps|]; kgo; (apply wpk_modify_any; [done|]); by kgo.
Qed.
End commands.
