(* ===== verification/TblSafety.v ===== *)
(** * Table services: safety

    Start up establishes the invariant and every call that is allowed keeps it, has a
    result, and keeps the contents of the tables other handles have addresses of. *)
From Stdlib Require Import String.
From S2P Require Import Prelude Config Msg ResourceId Cstring EsApp TimeApi SbState TblConfig EsCrc FsFile TblState TblInternal TblApi TblCmds TblTask TblLinks TblCore TblInv TblOps TblUpdate TblRemove TblRegister TblLoad TblCommand.
Import ListNotations.

(** The calls of applications ([App] is what CFE_ES_GetAppID gives), of executive
    services and of the background file job, and the messages of the task. *)
Inductive TblCall :=
| CallRegister (App : Z * Z) (hp : ptr Z) (name : ptr (list Z)) (Size F : Z) (ValFunc : addr)
| CallShare (App : Z * Z) (hp : ptr Z) (name : ptr (list Z))
| CallUnregister (App : Z * Z) (h : Z)
| CallLoad (App : Z * Z) (h SrcType : Z) (src : tptr)
| CallUpdate (App : Z * Z) (h : Z)
| CallGetAddress (App : Z * Z) (p : ptr tptr) (h : Z)
| CallGetAddresses (App : Z * Z) (p : ptr (list tptr)) (hs : list Z)
| CallReleaseAddress (App : Z * Z) (h : Z)
| CallReleaseAddresses (App : Z * Z) (hs : list Z)
| CallValidate (App : Z * Z) (h : Z)
| CallManage (App : Z * Z) (h : Z)
| CallGetStatus (App : Z * Z) (h : Z)
| CallDumpToBuffer (App : Z * Z) (h : Z)
| CallGetInfo (info : ptr CFE_TBL_Info_t) (name : ptr (list Z))
| CallModified (App : Z * Z) (h : Z)
| CallNotifyByMessage (App : Z * Z) (h MsgId CC Param : Z)
| CallCleanUpApp (app : Z)
| CallTaskPipe (m : TblMsg)
| CallDumpRegistryGetter (n : Z).

Section safety.
Context {PS FS CS : Type} `{Pool : MemPool PS} `{Files : OSFile FS} `{Store : CDSStore CS} `{Cfg : TblCfg}.
Context `{PoolOK : !MemPoolOK PS} `{FilesOK : !OSFileOK FS} `{PoolSt : !TblPoolOK PS} `{StoreOK : !CDSStoreOK CS}.
Abbreviation TG := (CFE_TBL_Global_t PS FS CS).
Abbreviation KS := (core FS CS).
Implicit Types (K : KS) (s : TG) (X : Z → Prop).

(** ** Start up *)

(** The first [j] shared buffers are set up. *)
Definition shared_upto (j : Z) K : Prop :=
  length (kL K) = Z.to_nat CFE_PLATFORM_TBL_MAX_SIMULTANEOUS_LOADS ∧
  (∀ i b, i < j → zget (kL K) i = Some b → shared_ok K b) ∧
  (∀ i1 i2 b1 b2, i1 < j → i2 < j → i1 ≠ i2 → zget (kL K) i1 = Some b1 → zget (kL K) i2 = Some b2 → lb_BufferPtr b1 ≠ lb_BufferPtr b2).

Lemma shared_next j K a st b b' : shared_upto j K → 0 <= j → zget (kL K) j = Some b → kP K !! a = None → 0 < st → lb_BufferPtr b' = PPool a →
  shared_upto (j + 1) (wL (zset j b' (kL K)) (wP (<[a := st]> (kP K)) (wM (<[a := replicate (Z.to_nat CFE_PLATFORM_TBL_MAX_SNGL_TABLE_SIZE) 0]> (kM K)) K))).
Proof.
  intros (Hl & Hok & Hne) Hj Hb Ha Hst Hp. pose proof (λ k, zset_get (kL K) j k b' b Hb) as Hz. assert (Hfresh : ∀ i e, i < j → zget (kL K) i = Some e → lb_BufferPtr e ≠ PPool a ∧ is_pool (lb_BufferPtr e)).
  { intros i e Hi He. destruct (Hok i e Hi He) as [Hpe (bs & Hm & Hn & Hv)]. split; [|done]. intros E. rewrite E in Hv. destruct Hv as (m & Hv & _). congruence. }
  split_and!; cbn.
  - by rewrite zset_length.
  - intros i e Hi. rewrite Hz. destruct (decide (i = j)) as [->|Hij].
    + intros [= <-]. unfold shared_ok. rewrite Hp. split; [done|]. eexists. split_and!; [apply lookup_insert_eq|rewrite length_replicate; unfold CFE_PLATFORM_TBL_MAX_SNGL_TABLE_SIZE; lia|]. exists st. split; [apply lookup_insert_eq|done].
    + intros He. destruct (Hfresh i e) as [Hpa _]; [lia|done|]. destruct (Hok i e) as [Hpe (bs & Hm & Hn & Hv)]; [lia|done|]. split; [done|]. exists bs. destruct (lb_BufferPtr e) as [|c|c]; [done| |done]. assert (a ≠ c) by congruence.
      split_and!; cbn; [by rewrite lookup_insert_ne|done|]. by rewrite lookup_insert_ne.
  - intros i1 i2 b1 b2 H1 H2 Hn12. rewrite !Hz. destruct (decide (i1 = j)) as [->|], (decide (i2 = j)) as [->|]; [done|..].
    + intros [= <-] He. rewrite Hp. apply not_eq_sym. apply (Hfresh i2); [lia|done].
    + intros He [= <-]. rewrite Hp. apply (Hfresh i1); [lia|done].
    + apply Hne; [lia..|done].
Qed.

Lemma wpk_init_buffs n j (Q : option Z → KS → Prop) K : shared_upto j K → 0 <= j → j + Z.of_nat n = CFE_PLATFORM_TBL_MAX_SIMULTANEOUS_LOADS → (∀ st K', st ≠ CFE_SUCCESS → Q (Some st) K') →
  (∀ l m p, shared_upto CFE_PLATFORM_TBL_MAX_SIMULTANEOUS_LOADS (wL l (wP p (wM m K))) → Q None (wL l (wP p (wM m K)))) → wpk (init_buffs n j) Q K.
Proof.
  revert j K. induction n as [|n IH]; intros j K Hs Hj Hn Hf HQ; cbn [init_buffs].
  { apply wpk_ret. specialize (HQ (kL K) (kM K) (kP K)). replace CFE_PLATFORM_TBL_MAX_SIMULTANEOUS_LOADS with j in HQ by lia. destruct K. by apply HQ. }
  destruct (zget_is_Some (kL K) j) as [b Hb]; [destruct Hs as (-> & _); unfold CFE_PLATFORM_TBL_MAX_SIMULTANEOUS_LOADS in *; lia|].
  apply wpk_bind, wpk_pool_get; [done| |].
  - intros st Hst. apply wpk_bind. eapply wpk_wr_shared; [exact Hb|]. rewrite (proj2 (Z.ltb_lt _ _)) by (unfold CFE_PLATFORM_TBL_MAX_SNGL_TABLE_SIZE; lia). apply wpk_ret, Hf. unfold CFE_SUCCESS. lia.
  - intros st a Hst Ha Hfr. apply wpk_bind. eapply wpk_wr_shared; [exact Hb|]. destruct (st <? _); [apply wpk_ret, Hf; unfold CFE_SUCCESS; lia|]. apply wpk_bind. eapply wpk_wr_shared; [by eapply zset_eq|]. cbn [kL wL wP wM]. rewrite zset_zset.
    eapply (IH (j + 1) (wL (zset j _ (kL K)) (wP _ (wM _ K)))); [by eapply shared_next|lia|lia|done|]. intros l m p. exact (HQ l m p).
Qed.

Definition no_lists : Z → list Z := λ _, [].

Lemma zget_replicate {A} n (x y : A) i : zget (replicate n x) i = Some y → y = x.
Proof. intros [_ H]%zget_Some. by apply lookup_replicate in H as [-> _]. Qed.

Lemma inv_first K : shared_upto CFE_PLATFORM_TBL_MAX_SIMULTANEOUS_LOADS K → length (kC K) = Z.to_nat CFE_PLATFORM_TBL_MAX_CRITICAL_TABLES →
  kH K = replicate (Z.to_nat CFE_PLATFORM_TBL_MAX_NUM_HANDLES) (mkAccess NOT_OWNED 0 END END false false false 0) → kR K = replicate (Z.to_nat CFE_PLATFORM_TBL_MAX_NUM_TABLES) CFE_TBL_InitRegistryRecord →
  kV K = replicate (Z.to_nat CFE_PLATFORM_TBL_MAX_NUM_VALIDATIONS) (mkValResult CFE_TBL_VALIDATION_FREE 0 0 false (replicate CFE_TBL_MAX_FULL_NAME_LEN 0)) →
  kD K = replicate (Z.to_nat CFE_PLATFORM_TBL_MAX_SIMULTANEOUS_LOADS) (mkDumpControl CFE_TBL_DUMP_FREE 0 (SharedBuf (-1)) (-1) (replicate CFE_TBL_MAX_FULL_NAME_LEN 0)) → kHk K = -1 → inv no_lists K.
Proof.
  intros (Hl & Hok & Hne) HC EH ER EV ED EK.
  assert (HH : ∀ h d, zget (kH K) h = Some d → ac_UsedFlag d = false) by (intros h d; rewrite EH; by intros ->%zget_replicate).
  assert (HR : ∀ r rec, zget (kR K) r = Some rec → rec = CFE_TBL_InitRegistryRecord) by (intros r rec; rewrite ER; apply zget_replicate).
  assert (HD : ∀ i c, zget (kD K) i = Some c → dc_State c = CFE_TBL_DUMP_FREE) by (intros i c; rewrite ED; by intros ->%zget_replicate).
  assert (Hj : ∀ i b, zget (kL K) i = Some b → i < CFE_PLATFORM_TBL_MAX_SIMULTANEOUS_LOADS) by (intros i b Hi%zget_lt; rewrite Hl in Hi; unfold CFE_PLATFORM_TBL_MAX_SIMULTANEOUS_LOADS in *; lia).
  constructor; rewrite ?EH, ?ER, ?EV, ?ED, ?length_replicate; try done.
  - intros v i ->%zget_replicate. apply length_replicate.
  - constructor.
    + intros r c. rewrite zget_fmap. intros (rec & ->%zget_replicate & ->)%fmap_Some. by exists END.
    + intros. apply NoDup_nil_2.
    + intros h x. rewrite zget_fmap. intros (d & ->%zget_replicate & ->)%fmap_Some. done.
  - intros r rec ->%zget_replicate. apply init_ok.
  - intros r1 r2 rec1 rec2 _ ->%zget_replicate ->%zget_replicate. split_and!; [done| |done]. intros i k. assert (Hb : ∀ i, bptr CFE_TBL_InitRegistryRecord i = PNull) by (intros m; unfold bptr, zget; destruct (m <? 0); [done|]; by destruct (Z.to_nat m) as [|[|[|n]]]). by rewrite Hb.
  - by intros r rec ->%zget_replicate.
  - by intros h d rec ->%zget_replicate.
  - intros j b Hb. eapply Hok; [by eapply Hj|done].
  - intros j1 j2 b1 b2 Hn H1 H2. eapply (Hne j1 j2); [by eapply Hj|by eapply Hj|done..].
  - by intros i c ->%zget_replicate.
  - by intros i1 i2 c1 c2 _ ->%zget_replicate.
  - by left.
Qed.

(** CFE_TBL_EarlyInit returns, and on success the invariant holds and the mutexes are free. *)
Lemma early_ok RegMutex WorkMutex PoolCreate s : wp (CFE_TBL_EarlyInit RegMutex WorkMutex PoolCreate) (λ st s', st = CFE_SUCCESS → inv no_lists (core_of s') ∧ kReg (core_of s') = false ∧ kWork (core_of s') = false) s.
Proof.
  unfold CFE_TBL_EarlyInit. apply wp_bind, wp_modify. destruct (Z.eqb_spec RegMutex OS_SUCCESS) as [->|]; cbn [negb]; [|by apply wp_ret]. destruct (Z.eqb_spec WorkMutex OS_SUCCESS) as [->|]; cbn [negb]; [|by apply wp_ret].
  destruct (Z.ltb_spec PoolCreate 0); [apply wp_ret; unfold CFE_SUCCESS; lia|]. set (K0 := core_of (clear_global s)).
  apply (wpk_wp _ (λ st K, st = CFE_SUCCESS → inv no_lists K ∧ kReg K = false ∧ kWork K = false)). fold K0. apply wpk_bind, (wpk_init_buffs _ 0); [|done|done|intros st K' Hst; by apply wpk_ret|].
  { split_and!; [apply length_replicate|intros i b Hi [? _]%zget_Some; lia|intros i1 i2 b1 b2 Hi _ _ [? _]%zget_Some; lia]. }
  intros l m p Hs. set (K1 := wL l _) in *. assert (HC : length (kC K1) = Z.to_nat CFE_PLATFORM_TBL_MAX_CRITICAL_TABLES) by apply length_replicate.
  assert (HE : ∀ l2 c, length l2 = Z.to_nat CFE_PLATFORM_TBL_MAX_CRITICAL_TABLES → wpk (mret CFE_SUCCESS) (λ st K, st = CFE_SUCCESS → inv no_lists K ∧ kReg K = false ∧ kWork K = false) (wC l2 (wS c K1))).
  { intros l2 c Hl2. apply wpk_ret. intros _. split_and!; [|done..]. by apply inv_first. }
  apply wpk_bind, wpk_cds. intros [st h] c E. cbn beta match. apply wpk_bind, wpk_modify_any; [done|]. apply wpk_bind, wpk_modify. intros s1 E1.
  set (L := (λ c : CFE_TBL_CritRegRec_t, c <| cr_CDSHandle := CFE_ES_CDS_BAD_HANDLE |>) <$> kC K1). assert (EL : core_of (s1 <| CritReg ::= fmap (λ c, c <| cr_CDSHandle := CFE_ES_CDS_BAD_HANDLE |>) |>) = wC L (wS c K1)).
  { assert (EC : CritReg s1 = kC K1) by exact (f_equal kC E1). assert (E2 : core_of (s1 <| CritReg ::= fmap (λ c, c <| cr_CDSHandle := CFE_ES_CDS_BAD_HANDLE |>) |>) = wC (fmap (λ c, c <| cr_CDSHandle := CFE_ES_CDS_BAD_HANDLE |>) (CritReg s1)) (core_of s1)) by done.
    by rewrite E2, E1, EC. }
  rewrite EL. assert (HL : length L = Z.to_nat CFE_PLATFORM_TBL_MAX_CRITICAL_TABLES) by (unfold L; by rewrite length_fmap). clearbody L. clear EL E1 s1. apply wpk_bind. destruct (st =? CFE_ES_CDS_ALREADY_EXISTS).
  - apply wpk_bind, wpk_cds. intros [st2 l2] c2 E2. injection E2 as E2 <-. cbn beta match. apply wpk_modify. intros s2 Es2. assert (core_of (s2 <| CritReg := l2 |>) = wC l2 (wS (kS (wC L (wS c K1))) K1)) as -> by (change (core_of (s2 <| CritReg := l2 |>)) with (wC l2 (core_of s2)); by rewrite Es2).
    apply HE. by eapply restore_reg_size.
  - destruct (negb _); [apply wpk_ret; by apply HE|]. apply wpk_bind, wpk_gets_any. intros l2. apply wpk_bind, wpk_cds. intros st2 c2 _. apply wpk_ret. by apply (HE L c2).
Qed.

(** ** The command pipe *)

Lemma wpk_search mid cc i found l (Q : Z → KS → Prop) K : (∃ e, e ∈ l ∧ hr_MsgTypes e = CFE_TBL_TERM_MSGTYPE) → 0 <= i → Q CFE_TBL_BAD_CMD_CODE K → Q CFE_TBL_BAD_MSG_ID K →
  (∀ k e, l !! k = Some e → hr_MsgTypes e ≠ CFE_TBL_TERM_MSGTYPE → hr_MsgTypes e = CFE_TBL_CMD_MSGTYPE → hr_CmdCode e = cc → Q (i + Z.of_nat k) K) →
  (∀ k e, l !! k = Some e → hr_MsgTypes e ≠ CFE_TBL_TERM_MSGTYPE → hr_MsgTypes e ≠ CFE_TBL_CMD_MSGTYPE → Q (i + Z.of_nat k) K) →
  wpk (search_loop mid cc i found l) Q K.
Proof.
  revert i found. induction l as [|e l IH]; intros i found (x & Hx & Hxt) Hi H1 H2 H3 H4; [by apply elem_of_nil in Hx|]. cbn [search_loop]. case_bool_decide as Ht; [apply wpk_ret; by destruct found|].
  assert (Hrec : ∀ found, wpk (search_loop mid cc (i + 1) found l) Q K).
  { intros found2. apply IH; [exists x; split; [|done]; by apply elem_of_cons in Hx as [->|]|lia|done|done|..].
    - intros k e2 ????. replace (i + 1 + Z.of_nat k) with (i + Z.of_nat (S k)) by lia. by eapply (H3 (S k)).
    - intros k e2 ???. replace (i + 1 + Z.of_nat k) with (i + Z.of_nat (S k)) by lia. by eapply (H4 (S k)). }
  destruct (_ =? mid); [|apply Hrec]. case_bool_decide as Hc; cbn [negb orb].
  - destruct (Z.eqb_spec (hr_CmdCode e) cc) as [|]; [|apply Hrec]. apply wpk_ret. rewrite <- (Z.add_0_r i). by apply (H3 0%nat e).
  - apply wpk_ret. rewrite <- (Z.add_0_r i). by apply (H4 0%nat e).
Qed.

(** What a command relies on: no wrap around in the header of the file to load; no dump
    of the table that waits to be written; the order of validation, activation and
    abort for single buffered tables. *)
Record cmd_ok K (m : TblMsg) : Prop := {
  co_name : length (tbm_TableName m) = CFE_TBL_MAX_FULL_NAME_LEN;
  co_file : length (tbm_Filename m) = OS_MAX_PATH_LEN;
  co_load : tbm_FcnCode m = CFE_TBL_LOAD_CC → file_ok (f_data (kF K) !! field OS_MAX_PATH_LEN (tbm_Filename m));
  co_dump r rec : tbm_FcnCode m = CFE_TBL_DUMP_CC → names K (field CFE_TBL_MAX_FULL_NAME_LEN (tbm_TableName m)) r rec → rr_DumpOnly rec = true → dump_written K r;
  co_validate r rec : tbm_FcnCode m = CFE_TBL_VALIDATE_CC → names K (field CFE_TBL_MAX_FULL_NAME_LEN (tbm_TableName m)) r rec → tbm_ActiveTableFlag m = CFE_TBL_BufferSelect_INACTIVE →
    rr_DoubleBuffered rec = false → rr_LoadInProgress rec ≠ -1 → rr_LoadPending rec = false ∧ rr_DumpOnly rec = false;
  co_activate r rec : tbm_FcnCode m = CFE_TBL_ACTIVATE_CC ∨ tbm_FcnCode m = CFE_TBL_ABORT_LOAD_CC → names K (field CFE_TBL_MAX_FULL_NAME_LEN (tbm_TableName m)) r rec → no_validation rec;
}.

Lemma wpk_handler al m k e K : inv al K → kWork K = false → cmd_ok K m → CFE_TBL_CmdHandlerTbl !! k = Some e → hr_MsgTypes e ≠ CFE_TBL_TERM_MSGTYPE → (hr_MsgTypes e = CFE_TBL_CMD_MSGTYPE → hr_CmdCode e = tbm_FcnCode m) →
  wpk (hr_MsgProcFuncPtr e m) (λ _ K', all_good al K K') K.
Proof.
  intros I Hwk [Hn Hf Hl Hd Hv Ha] He Ht Hc. apply list_elem_of_lookup_2 in He. unfold CFE_TBL_CmdHandlerTbl in He.
  rewrite !elem_of_cons, elem_of_nil in He. destruct He as [->|[->|[->|[->|[->|[->|[->|[->|[->|[->|[->|[->|[]]]]]]]]]]]]]; cbn [hr_MsgProcFuncPtr COMMAND_ENTRY].
  - by apply wpk_HousekeepingCmd.
  - by apply wpk_NoopCmd.
  - by apply wpk_ResetCountersCmd.
  - apply wpk_LoadCmd; [done..|]. by apply Hl, eq_sym, Hc.
  - apply wpk_DumpCmd; [done..|]. intros r rec. by apply Hd, eq_sym, Hc.
  - apply wpk_ValidateCmd; [done..|]. intros r rec. by apply Hv, eq_sym, Hc.
  - apply wpk_ActivateCmd; [done..|]. intros r rec. apply Ha. left. by apply eq_sym, Hc.
  - by apply wpk_DumpRegistryCmd.
  - by apply wpk_SendRegistryCmd.
  - by apply wpk_DeleteCDSCmd.
  - apply wpk_AbortLoadCmd; [done..|]. intros r rec. apply Ha. right. by apply eq_sym, Hc.
  - done.
Qed.

Lemma wpk_TaskPipe al m K : inv al K → kWork K = false → cmd_ok K m → wpk (CFE_TBL_TaskPipe m) (λ _ K', all_good al K K') K.
Proof.
  intros I Hwk Hm. pose proof (all_good_refl _ _ I) as G0. unfold CFE_TBL_TaskPipe, CFE_TBL_SearchCmdHndlrTbl. apply wpk_bind.
  assert (HC : ∀ k (e : CFE_TBL_CmdHandlerTblRec_t (PS := PS) (FS := FS) (CS := CS)), CFE_TBL_CmdHandlerTbl !! k = Some e → hr_MsgTypes e ≠ CFE_TBL_TERM_MSGTYPE → (hr_MsgTypes e = CFE_TBL_CMD_MSGTYPE → hr_CmdCode e = tbm_FcnCode m) →
    wpk (let CmdIndx := 0 + Z.of_nat k in if 0 <=? CmdIndx then
      e ← tbl_get CFE_TBL_CmdHandlerTbl CmdIndx; CmdStatus ← (if tbm_Size m =? hr_ExpectedLength e then hr_MsgProcFuncPtr e m else event CFE_TBL_LEN_ERR_EID CFE_EVS_EventType_ERROR;; mret CFE_TBL_INC_ERR_CTR);
      when (bool_decide (hr_MsgTypes e = CFE_TBL_CMD_MSGTYPE)) (if CmdStatus =? CFE_TBL_INC_CMD_CTR then modify (λ s, s <| tg_CommandCounter ::= λ n, u8 (n + 1) |>)
       else when (CmdStatus =? CFE_TBL_INC_ERR_CTR) (modify (λ s, s <| tg_CommandErrorCounter ::= λ n, u8 (n + 1) |>)))
      else if CmdIndx =? CFE_TBL_BAD_CMD_CODE then event CFE_TBL_CC1_ERR_EID CFE_EVS_EventType_ERROR;; modify (λ s, s <| tg_CommandErrorCounter ::= λ n, u8 (n + 1) |>) else event CFE_TBL_MID_ERR_EID CFE_EVS_EventType_ERROR) (λ _ K', all_good al K K') K).
  { intros k e He Ht Hc. cbv zeta. rewrite Z.add_0_l, (proj2 (Z.leb_le _ _)) by lia. apply wpk_bind. eapply wpk_tbl_get; [apply zget_Some; rewrite Nat2Z.id; split; [lia|exact He]|].
    assert (HE : ∀ st K', all_good al K K' → wpk (when (bool_decide (hr_MsgTypes e = CFE_TBL_CMD_MSGTYPE)) (if st =? CFE_TBL_INC_CMD_CTR then modify (λ s, s <| tg_CommandCounter ::= λ n, u8 (n + 1) |>)
       else when (st =? CFE_TBL_INC_ERR_CTR) (modify (λ s, s <| tg_CommandErrorCounter ::= λ n, u8 (n + 1) |>)))) (λ _ K', all_good al K K') K').
    { intros st K' G. apply wpk_when; [|done]. intros _. destruct (_ =? _); [by apply wpk_modify_any|]. apply wpk_when; [|done]. intros _. by apply wpk_modify_any. }
    apply wpk_bind. destruct (_ =? _).
    - eapply wpk_mono; [by eapply wpk_handler|]. cbn beta. intros st K' G. by apply HE.
    - apply wpk_bind, wpk_event, wpk_ret. by apply HE. }
  eapply wpk_search; [|done|..].
  - eexists. split; [do 11 apply list_elem_of_further; apply list_elem_of_here|done].
  - zred. apply wpk_bind, wpk_event. by apply wpk_modify_any.
  - zred. by apply wpk_event.
  - intros k e He Ht _ Hc. by apply (HC k e).
  - intros k e He Ht Hc. by apply (HC k e).
Qed.

(** ** Calls *)

Definition run_call (c : TblCall) : M TG unit :=
  match c with
  | CallRegister App hp name Size F V => _ ← CFE_TBL_Register App hp name Size F V; mret tt
  | CallShare App hp name => _ ← CFE_TBL_Share App hp name; mret tt
  | CallUnregister App h => _ ← CFE_TBL_Unregister App h; mret tt
  | CallLoad App h t src => _ ← CFE_TBL_Load App h t src; mret tt
  | CallUpdate App h => _ ← CFE_TBL_Update App h; mret tt
  | CallGetAddress App p h => _ ← CFE_TBL_GetAddress App p h; mret tt
  | CallGetAddresses App p hs => _ ← CFE_TBL_GetAddresses App p hs; mret tt
  | CallReleaseAddress App h => _ ← CFE_TBL_ReleaseAddress App h; mret tt
  | CallReleaseAddresses App hs => _ ← CFE_TBL_ReleaseAddresses App hs; mret tt
  | CallValidate App h => _ ← CFE_TBL_Validate App h; mret tt
  | CallManage App h => _ ← CFE_TBL_Manage App h; mret tt
  | CallGetStatus App h => _ ← CFE_TBL_GetStatus App h; mret tt
  | CallDumpToBuffer App h => _ ← CFE_TBL_DumpToBuffer App h; mret tt
  | CallGetInfo info name => _ ← CFE_TBL_GetInfo info name; mret tt
  | CallModified App h => _ ← CFE_TBL_Modified App h; mret tt
  | CallNotifyByMessage App h m cc p => _ ← CFE_TBL_NotifyByMessage App h m cc p; mret tt
  | CallCleanUpApp app => _ ← CFE_TBL_CleanUpApp app; mret tt
  | CallTaskPipe m => CFE_TBL_TaskPipe m
  | CallDumpRegistryGetter n => _ ← CFE_TBL_DumpRegistryGetter n; mret tt
  end.

(** A table with a dump in progress has another user. *)
Definition shared_dump K (h : Z) : Prop := ∀ d i c, zget (kH K) h = Some d → zget (kD K) i = Some c → dc_State c ≠ CFE_TBL_DUMP_FREE → dc_RegRecPtr c = ac_RegIndex d →
  ∃ h' d', h' ≠ h ∧ zget (kH K) h' = Some d' ∧ ac_UsedFlag d' = true ∧ ac_RegIndex d' = ac_RegIndex d.

Definition src_ok K (h SrcType : Z) (src : tptr) : Prop := src ≠ PNull → ∀ d rec, zget (kH K) h = Some d → zget (kR K) (ac_RegIndex d) = Some rec → source_ok K SrcType rec src.

(** What a call relies on. *)
Definition call_ok K (c : TblCall) : Prop :=
  match c with
  | CallRegister App _ _ Size _ _ => app_ok App ∧ 0 <= Size
  | CallShare App _ _ => app_ok App
  | CallUnregister App h => app_ok App ∧ 0 <= h ∧ App.2 ≠ kTask K ∧ shared_dump K h
  | CallLoad App h t src => app_ok App ∧ 0 <= h ∧ src_ok K h t src
  | CallGetAddress _ _ h => 0 <= h
  | CallGetAddresses _ _ hs => Forall (λ h, 0 <= h) hs
  | CallReleaseAddresses App hs => app_ok App ∧ Forall (λ h, 0 <= h) hs
  | CallUpdate App h | CallReleaseAddress App h | CallValidate App h | CallManage App h | CallGetStatus App h | CallDumpToBuffer App h
  | CallModified App h | CallNotifyByMessage App h _ _ _ => app_ok App ∧ 0 <= h
  | CallGetInfo _ _ => True
  | CallCleanUpApp app => app ≠ NOT_OWNED ∧ no_pending K app ∧ dumps_other K app
  | CallTaskPipe m => cmd_ok K m
  | CallDumpRegistryGetter n => 0 <= n
  end.

(** The handles whose addresses a call gives, takes back or removes. *)
Definition call_handles K (c : TblCall) (h : Z) : Prop :=
  match c with
  | CallUnregister _ k | CallGetAddress _ _ k | CallReleaseAddress _ k => h = k
  | CallGetAddresses _ _ hs | CallReleaseAddresses _ hs => h ∈ hs
  | CallCleanUpApp app => ∃ d, zget (kH K) h = Some d ∧ ac_AppId d = app
  | _ => False
  end.

(** The invariant between calls. *)
Definition tbl_inv K : Prop := ∃ al, inv al K ∧ kReg K = false ∧ kWork K = false.

Lemma wpk_drop {A} (c : M TG A) (Q : unit → KS → Prop) K : wpk c (λ _ K', Q tt K') K → wpk (_ ← c; mret tt) Q K.
Proof. intros H. apply wpk_bind. eapply wpk_mono; [exact H|]. intros a K' HQ. by apply wpk_ret. Qed.

Definition call_post K (c : TblCall) K' : Prop := tbl_inv K' ∧ keeps (call_handles K c) K K'.

Lemma post_good al K c K' : kReg K = false → kWork K = false → (∀ X : Z → Prop, (∀ h, call_handles K c h → X h) → good al X K K') → call_post K c K'.
Proof.
  intros Hr Hw G. destruct (G (call_handles K c)) as (I & Hk & _ & Er & Ew); [done|]. split; [|done]. exists al. split_and!; [done|congruence..].
Qed.

Lemma wpk_run_call c K : tbl_inv K → call_ok K c → wpk (run_call c) (λ _ K', call_post K c K') K.
Proof.
  intros (al & I & Hr & Hw) Hok. pose proof (λ al' K', post_good al' K c K' Hr Hw) as HG. assert (HA : ∀ K', all_good al K K' → call_post K c K') by (intros K' G; apply (HG al); intros X _; apply G).
  pose proof (HA K (all_good_refl _ _ I)) as H0. destruct c; cbn [run_call call_ok] in *; try apply wpk_drop.
  - destruct Hok. eapply wpk_mono; [by eapply wpk_Register|]. intros a K' (al' & G). apply (HG al'). intros X _. apply G.
  - eapply wpk_mono; [by eapply wpk_Share|]. intros a K' (al' & G). apply (HG al'). intros X _. apply G.
  - destruct Hok as (Ha & Hh & Ht & Hd). eapply wpk_mono; [eapply wpk_Unregister; [done..|]|].
    + intros d i e H1 H2 H3 H4. destruct (Hd d i e H1 H2 H3 H4) as (h' & d' & Hne & Hd' & Hu & Er). exists h'. split; [|done]. rewrite <- Er. by destruct (used_reg _ _ _ _ I Hd' Hu) as (_ & _ & _ & ?).
    + intros a K' (al' & G). apply (HG al'). intros X HX. apply G. by apply HX.
  - destruct Hok as (Ha & Hh & Hs). eapply wpk_Load; [done..| | |]; [|by intros st K' _ G; apply HA|by intros d rec K' _ G _; apply HA]. intros Hp d rec (_ & Hd & _ & _ & Hrr & _). by apply (Hs Hp d rec).
  - destruct Hok. eapply wpk_Update; [done..|]. intros st K' G. apply HA. exact G.
  - destruct p as [q|]; [|by apply wpk_ret]. unfold CFE_TBL_GetAddress. destruct App as [st app]. destruct (st =? _); [|by apply wpk_ret]. apply wpk_bind. eapply wpk_GetAddressInternal; [done..| |].
    + intros st2 _. by apply wpk_ret.
    + intros d rec st2 K' _ _ _ _ G _ _ _ _. apply wpk_ret. apply (HG al). intros X HX. apply G. by apply HX.
  - destruct p as [q|]; [|by apply wpk_ret]. unfold CFE_TBL_GetAddresses. destruct App as [st app]. destruct (st =? _); [|by apply wpk_ret]. apply wpk_bind. eapply wpk_mono; [by apply (wpk_get_addresses al)|].
    intros [st2 ps] K' G. apply wpk_ret. apply (HG al). intros X HX. by apply G.
  - destruct Hok. eapply wpk_mono; [by eapply wpk_ReleaseAddress|]. intros st K' G. apply (HG al). intros X HX. apply G. by apply HX.
  - destruct Hok. eapply wpk_mono; [by eapply (wpk_release_addresses al)|]. intros st K' G. apply (HG al). intros X HX. by apply G.
  - destruct Hok. eapply wpk_Validate; [done..| |]; [by intros|]. intros d rec K' rec' _ G _ _ _ _. by apply HA.
  - destruct Hok. eapply wpk_mono; [by eapply wpk_Manage|]. intros st K' G. by apply HA.
  - destruct Hok. eapply wpk_GetStatus; [done..| |]; by intros.
  - destruct Hok. eapply wpk_DumpToBuffer; [done..|]. intros st K' G. apply HA. exact G.
  - eapply wpk_mono; [by eapply (wpk_GetInfo al)|]. by intros a K' ->.
  - destruct Hok. eapply wpk_mono; [by eapply wpk_Modified|]. intros st K' G. by apply HA.
  - destruct Hok. eapply wpk_mono; [by eapply wpk_NotifyByMessage|]. intros st K' G. by apply HA.
  - destruct Hok as (Ha & Hp & Hd). eapply wpk_mono; [by eapply (wpk_CleanUpApp al)|]. intros st K' (al' & G & _). destruct G as (I' & Hk & _ & Er & Ew). split; [|exact Hk]. exists al'. split_and!; [done|congruence..].
  - eapply wpk_mono; [by eapply (wpk_TaskPipe al)|]. intros [] K' G. by apply HA.
  - eapply wpk_mono; [by eapply (wpk_DumpRegistryGetter al)|]. by intros a K' ->.
Qed.

(** ** Reachable states *)

(** Blocks keep their length; new ones may appear. *)
Definition same_shape (m m' : gmap addr (list Z)) : Prop := ∀ a bs, m !! a = Some bs → ∃ bs', m' !! a = Some bs' ∧ length bs' = length bs.

(** What happens between calls: files and the memory of applications change, and
    applications write to tables through addresses they have. *)
Definition env_step (s s' : TG) : Prop := ∃ f m a, core_of s' = wA a (wM m (wF f (core_of s))) ∧ same_shape (TblMem s) m ∧ same_shape (AppMem s) a.

Inductive reachable : TG → Prop :=
| reach_init RegMutex WorkMutex PoolCreate s0 s : CFE_TBL_EarlyInit RegMutex WorkMutex PoolCreate s0 = Some (CFE_SUCCESS, s) → reachable s
| reach_task e st s s' : reachable s → CFE_TBL_TaskInit e s = Some (st, s') → reachable s'
| reach_call c s s' : reachable s → call_ok (core_of s) c → run_call c s = Some (tt, s') → reachable s'
| reach_env s s' : reachable s → env_step s s' → reachable s'.

Lemma shape_mem_ok K m a p n : same_shape (kM K) m → same_shape (kA K) a → mem_ok K p n → mem_ok (wA a (wM m K)) p n.
Proof.
  intros Hm Ha (bs & Hb & Hn & Hv). destruct p as [|c|c]; cbn in Hb; [done|destruct (Hm _ _ Hb) as (bs' & Hb' & El)|destruct (Ha _ _ Hb) as (bs' & Hb' & El)]; exists bs'; (split_and!; [exact Hb'|by rewrite El|exact Hv]).
Qed.
Lemma inv_env al K f m a : inv al K → same_shape (kM K) m → same_shape (kA K) a → inv al (wA a (wM m (wF f K))).
Proof.
  intros I Hm Ha. pose proof (λ p n, shape_mem_ok (wF f K) m a p n Hm Ha) as HM. apply (inv_wF _ _ f) in I. set (K1 := wF f K) in *. pose proof I as [? ? ? ? ? ? ? i_links0 i_ent0 i_apart0 i_own0 i_lock0 i_sh0 ? i_blk0 i_blne0 ?]. constructor; try assumption.
  - intros r rec Hr. destruct (i_ent0 _ _ Hr) as (R & P & L & D). split_and!; [done| |done|done]. intros i Hi. destruct (P i Hi) as [H1 H2]. split; [by apply HM|done].
  - intros j b Hb. destruct (i_sh0 _ _ Hb) as [H1 H2]. split; [done|by apply HM].
Qed.

Definition wTask (t : Z) K : KS :=
  mkCore FS CS (kH K) (kR K) (kL K) (kC K) (kV K) (kD K) (kM K) (kP K) (kA K) (kF K) (kS K) (kReg K) (kWork K) t (kHk K).
Lemma core_task t a b c s : core_of (s <| tg_TableTaskAppId := t |> <| tg_HkHeader := a |> <| tg_RegHeader := b |> <| tg_NotifyHeader := c |>) = wTask t (core_of s).
Proof. reflexivity. Qed.
Lemma wpk_TaskInit e K : wpk (CFE_TBL_TaskInit e) (λ _ K', ∃ t, K' = wTask t K) K.
Proof.
  unfold CFE_TBL_TaskInit, CFE_TBL_InitData. destruct (negb _); [apply wpk_ret; exists (kTask K); by destruct K|]. apply wpk_bind, wpk_modify. intros s <-. rewrite core_task. set (K1 := wTask _ _).
  assert (H : ∃ t, K1 = wTask t (core_of s)) by by eexists. destruct (negb _); [by apply wpk_ret|]. apply wpk_bind, wpk_modify_any; [done|]. repeat (destruct (negb _); [by apply wpk_ret|]). apply wpk_bind, wpk_event. by apply wpk_ret.
Qed.

Lemma reachable_inv s : reachable s → tbl_inv (core_of s).
Proof.
  induction 1 as [rm wm pc s0 s E|e st s s' _ IH E|c s s' _ IH Hok E|s s' _ IH E].
  - pose proof (early_ok rm wm pc s0) as H. unfold wp in H. rewrite E in H. destruct (H eq_refl) as (I & Hr & Hw). by exists no_lists.
  - pose proof (wpk_TaskInit e _ s eq_refl) as H. unfold wp in H. rewrite E in H. destruct H as (t & ->). destruct IH as (al & I & Hr & Hw). exists al. split_and!; [|done..]. by destruct I.
  - pose proof (wpk_run_call c _ IH Hok s eq_refl) as H. unfold wp in H. rewrite E in H. exact (proj1 H).
  - destruct E as (f & m & a & -> & Hm & Ha). destruct IH as (al & I & Hr & Hw). exists al. split_and!; [by apply inv_env|done..].
Qed.

Lemma call_runs s c : reachable s → call_ok (core_of s) c → ∃ s', run_call c s = Some (tt, s') ∧ tbl_inv (core_of s') ∧ keeps (call_handles (core_of s) c) (core_of s) (core_of s').
Proof.
  intros Hs Hok. pose proof (wpk_run_call c _ (reachable_inv _ Hs) Hok s eq_refl) as H. unfold wp in H. destruct (run_call c s) as [[[] s']|]; [|done]. by exists s'.
Qed.

(** [C14] Every call of table services that call_ok allows in a reachable state has a result:
    no array is indexed out of range, no buffer is read or written outside of its block, no
    mutex is taken twice, no list of descriptors is cyclic.  The contents of loaded tables
    that handles have addresses of stay the same, but for the handles the call is about.
    What call_ok asks for, which the code does not check: handles and sizes are not
    negative; the source of a load is long enough, and the offset and size in a file
    header do not wrap around; a table is not unregistered by the table task, nor while
    its dump is in progress unless it has another user; when an application ends no dump of
    a table of its own is pending, and the other dumps are of tables that others use too;
    the load of a single buffered table is not validated while its activation is pending,
    and not activated or aborted while its validation is pending; and a dump only table
    is not dumped again before its dump is written. *)
Theorem tbl_safe s c : reachable s → call_ok (core_of s) c → ∃ s', run_call c s = Some (tt, s') ∧ tbl_inv (core_of s') ∧ keeps (call_handles (core_of s) c) (core_of s) (core_of s').
Proof. apply call_runs. Qed.

(** ** Addresses of tables *)

(** Calls one after the other, each allowed where it is made. *)
Inductive calls : TG → list TblCall → TG → Prop :=
| calls_nil s : calls s [] s
| calls_cons s c s1 l s2 : call_ok (core_of s) c → run_call c s = Some (tt, s1) → calls s1 l s2 → calls s (c :: l) s2.

(** No call gives, takes back or removes the address of handle [h]. *)
Definition leaves (h : Z) (s : TG) (l : list TblCall) : Prop := ∀ l1 c l2 s1, l = l1 ++ c :: l2 → calls s l1 s1 → ¬ call_handles (core_of s1) c h.

Lemma calls_keep s l s' h app r p bs : reachable s → calls s l s' → leaves h s l → holds (core_of s) h app r p bs → holds (core_of s') h app r p bs.
Proof.
  intros Hs H. induction H as [s|s c s1 l s2 Hok E Hl IH]; [done|]. intros Hn Hh. apply IH.
  - by eapply reach_call.
  - intros l1 c' l2 s3 -> Hc. apply (Hn (c :: l1) c' l2 s3); [done|]. by eapply calls_cons.
  - pose proof (wpk_run_call c _ (reachable_inv _ Hs) Hok s eq_refl) as H. unfold wp in H. rewrite E in H. apply (proj2 H); [|done]. apply (Hn [] c l s); [done|]. constructor.
Qed.

(** What CFE_TBL_GetAddress does on success. *)
Lemma get_address_post al s app q h : inv al (core_of s) → 0 <= h →
  wpk (CFE_TBL_GetAddress (CFE_SUCCESS, app) (Some q) h) (λ a K', a.1 = CFE_SUCCESS ∨ a.1 = CFE_TBL_INFO_UPDATED → ∃ d rec, zget (Handles s) h = Some d ∧ zget (Registry s) (ac_RegIndex d) = Some rec ∧
    a.2 = Some (bptr rec (rr_ActiveBufferIndex rec)) ∧ (rr_UserDefAddr rec = false → ∃ bs, mem K' (bptr rec (rr_ActiveBufferIndex rec)) = Some bs ∧ rr_Size rec <= Z.of_nat (length bs)) ∧
    ∀ bs, mem K' (bptr rec (rr_ActiveBufferIndex rec)) = Some bs → holds K' h (ac_AppId d) (ac_RegIndex d) (bptr rec (rr_ActiveBufferIndex rec)) bs) (core_of s).
Proof.
  intros I Hh. unfold CFE_TBL_GetAddress. rewrite Z.eqb_refl. apply wpk_bind. eapply wpk_GetAddressInternal; [done..| |].
  - intros st0 Hst0. apply wpk_ret. cbn. by intros [->| ->].
  - intros d rec st0 K' Hd Hus Hap Hr G Hd' HR HM Hst0. apply wpk_ret. cbn [fst snd]. intros Hok. exists d, rec. split_and!; [done..| |].
    + intros Hu. destruct (used_reg _ _ _ _ I Hd Hus) as (rec' & Hr' & Hi & _). rewrite Hr in Hr'. injection Hr' as <-. destruct (i_ent _ _ I _ _ Hr) as (R & P & _). pose proof (active_ptr _ R Hi Hu) as Hp.
      destruct (P (rr_ActiveBufferIndex rec)) as [(bs & Hb & Hn & _) _]; [intros E; by rewrite E in Hp|]. exists bs. by rewrite HM.
    + intros bs Hb. eexists _, rec. split_and!; [exact Hd'|done..|by rewrite HR| |done|done]. destruct (rr_TableLoadedOnce rec); [done|]. cbn in Hst0. subst st0. by destruct Hok.
Qed.


(** ** Contents *)

Lemma contents_some al K r rec : inv al K → zget (kR K) r = Some rec → inuse rec → rr_UserDefAddr rec = false → ∃ bs, contents K r = Some bs ∧ Z.of_nat (length bs) = rr_Size rec.
Proof.
  intros I Hr Hi Hu. destruct (i_ent _ _ I _ _ Hr) as (R & P & _). pose proof (active_ptr _ R Hi Hu) as Hp. destruct (P (rr_ActiveBufferIndex rec)) as [(bs & Hb & Hn & _) _]; [intros E; by rewrite E in Hp|].
  exists (take (Z.to_nat (rr_Size rec)) bs). split; [by apply contents_at|]. pose proof (ro_size _ R Hi). rewrite length_take. lia.
Qed.
Lemma dump_user rec : rec_ok rec → rr_DumpOnly rec = false → rr_UserDefAddr rec = false.
Proof. intros R Hd. destruct (rr_UserDefAddr rec) eqn:E; [|done]. apply (ro_user _ R) in E. congruence. Qed.

Lemma load_post s s' App h SrcType src : reachable s → app_ok App → 0 <= h → src_ok (core_of s) h SrcType src → CFE_TBL_Load App h SrcType src s = Some (CFE_SUCCESS, s') →
  ∃ d rec a bs, zget (Handles s) h = Some d ∧ zget (Registry s) (ac_RegIndex d) = Some rec ∧ src = PApp a ∧ AppMem s !! a = Some bs ∧
    (rr_DumpOnly rec = false → ∃ old, contents (core_of s) (ac_RegIndex d) = Some old ∧ Z.of_nat (length old) = rr_Size rec ∧
      (SrcType ≠ CFE_TBL_SRC_FILE → contents (core_of s') (ac_RegIndex d) = Some (take (Z.to_nat (rr_Size rec)) bs)) ∧
      (SrcType = CFE_TBL_SRC_FILE → ∀ data, f_data (TblFiles s) !! cstr bs = Some data →
         contents (core_of s') (ac_RegIndex d) = Some (take (Z.to_nat (rr_Size rec)) (splice (Z.to_nat (file_offset data)) (file_bytes data) old)))).
Proof.
  intros Hs Ha Hh Hsrc E. destruct (reachable_inv _ Hs) as (al & I & _ & Hw).
  assert (HP : wpk (CFE_TBL_Load App h SrcType src) (λ st K', st = CFE_SUCCESS → src ≠ PNull ∧ ∃ d rec, access al (core_of s) App h d rec ∧
    (rr_DumpOnly rec = false → ∀ bs, load_result (core_of s) (ac_RegIndex d) SrcType src = Some bs → load_done K' (ac_RegIndex d) (Some bs))) (core_of s)).
  { destruct (decide (src = PNull)) as [->|Hp]; [unfold CFE_TBL_Load; rewrite bool_decide_true by done; by apply wpk_ret|]. eapply wpk_Load; [done..| | |].
    - intros _ d rec (_ & Hd & _ & _ & Hr & _). by apply (Hsrc Hp d rec).
    - by intros st K' Hne _ ?.
    - intros d rec K' A _ Hl _. split; [done|]. by exists d, rec. }
  specialize (HP s eq_refl). unfold wp in HP. rewrite E in HP. destruct (HP eq_refl) as (Hp & d & rec & (_ & Hd & _ & _ & Hr & Hi & _) & Hl). destruct (Hsrc Hp d rec Hd Hr) as (a & bs & -> & Hbs & Hf & Hlen).
  exists d, rec, a, bs. split_and!; [done..|]. intros Hdo. destruct (i_ent _ _ I _ _ Hr) as (R & _). destruct (contents_some _ _ _ _ I Hr Hi (dump_user _ R Hdo)) as (old & Hold & Hol). exists old. split_and!; [done..| |].
  - intros Ht. destruct (Hl Hdo (take (Z.to_nat (rr_Size rec)) (splice 0 (take (Z.to_nat (rr_Size rec)) bs) old))) as [Hc _].
    { unfold load_result, loaded. cbn in Hr, Hbs |- *. rewrite Hr, Hold, Hbs. by rewrite (proj2 (Z.eqb_neq _ _) Ht). }
    rewrite Hc. f_equal. specialize (Hlen (or_introl Ht)). pose proof (take_splice (take (Z.to_nat (rr_Size rec)) bs) old) as Et. rewrite length_take, Nat.min_l in Et by lia. exact Et.
  - intros -> data Hdata. apply (Hl Hdo). unfold load_result, loaded. cbn in Hr, Hbs |- *. rewrite Hr, Hold, Hbs. rewrite Hdata. done.
Qed.

(** [C16] When CFE_TBL_Load reports success for a table that is not dump only, the contents of
    the table are the bytes at the address given, or the ones it had with the data of
    the file in their place, and the table counts as loaded. *)
Theorem load_contents s s' App h SrcType src : reachable s → app_ok App → 0 <= h → src_ok (core_of s) h SrcType src → CFE_TBL_Load App h SrcType src s = Some (CFE_SUCCESS, s') →
  ∃ d rec a bs, zget (Handles s) h = Some d ∧ zget (Registry s) (ac_RegIndex d) = Some rec ∧ src = PApp a ∧ AppMem s !! a = Some bs ∧
    (rr_DumpOnly rec = false → ∃ old, contents (core_of s) (ac_RegIndex d) = Some old ∧ Z.of_nat (length old) = rr_Size rec ∧
      (SrcType ≠ CFE_TBL_SRC_FILE → contents (core_of s') (ac_RegIndex d) = Some (take (Z.to_nat (rr_Size rec)) bs)) ∧
      (SrcType = CFE_TBL_SRC_FILE → ∀ data, f_data (TblFiles s) !! cstr bs = Some data →
         contents (core_of s') (ac_RegIndex d) = Some (take (Z.to_nat (rr_Size rec)) (splice (Z.to_nat (file_offset data)) (file_bytes data) old)))).
Proof. apply load_post. Qed.

(** [C17] CFE_TBL_Update on every branch.  A caller that may not use the handle is refused.
    Without a load that is ready nothing is pending; a single buffered table whose address
    somebody has is locked; in these cases nothing changes.  Otherwise the update
    succeeds: the bytes prepared in the working buffer become the contents, by a swap of
    the buffers of a double buffered table and by a copy that gives the shared buffer back
    for a single buffered one, the load is over, every user of the table is told, and
    the other tables stay as they are. *)
Theorem update_refines s App h : reachable s → app_ok App → 0 <= h → ∃ st s', CFE_TBL_Update App h s = Some (st, s') ∧ update_step (core_of s) App h st (core_of s').
Proof.
  intros Hs Ha Hh. destruct (reachable_inv _ Hs) as (al & I & _).
  assert (HP : wpk (CFE_TBL_Update App h) (update_step (core_of s) App h) (core_of s)) by (eapply wpk_Update_spec; [done..|]; by intros).
  specialize (HP s eq_refl). unfold wp in HP. destruct (CFE_TBL_Update App h s) as [[st s']|]; [|done]. by exists st, s'.
Qed.

(** ** Dump files *)

Lemma bytes32_value v : 0 <= v < 2 ^ 32 → u8 v + 2 ^ 8 * u8 (v / 2 ^ 8) + 2 ^ 16 * u8 (v / 2 ^ 16) + 2 ^ 24 * u8 (v / 2 ^ 24) = v.
Proof.
  intros Hv. unfold u8. rewrite (Z.mod_small (v / 2 ^ 24)) by (split; [apply Z.div_pos; lia|apply Z.div_lt_upper_bound; lia]).
  pose proof (Z.div_mod v (2 ^ 8)). pose proof (Z.div_mod (v / 2 ^ 8) (2 ^ 8)). pose proof (Z.div_mod (v / 2 ^ 16) (2 ^ 8)).
  assert (v / 2 ^ 8 / 2 ^ 8 = v / 2 ^ 16) by (rewrite Z.div_div by lia; done). assert (v / 2 ^ 16 / 2 ^ 8 = v / 2 ^ 24) by (rewrite Z.div_div by lia; done). lia.
Qed.

Definition dump_name (tname : list Z) : list Z := copy_str CFE_TBL_MAX_FULL_NAME_LEN (replicate CFE_TBL_MAX_FULL_NAME_LEN 0) tname.
Lemma dump_header_eq tname n : dump_header tname n = replicate 8 0 ++ rev (bytes32 (u32 n)) ++ dump_name tname.
Proof.
  unfold dump_header. change (hdr_TableName (replicate sizeof_TBL_File_Hdr 0)) with (replicate CFE_TBL_MAX_FULL_NAME_LEN 0). fold (dump_name tname).
  assert (Hl : length (dump_name tname) = CFE_TBL_MAX_FULL_NAME_LEN) by (by apply copy_str_length). generalize dependent (dump_name tname). intros nm Hl. unfold splice. rewrite (drop_ge (replicate sizeof_TBL_File_Hdr 0)) by (rewrite Hl; done).
  rewrite app_nil_r. reflexivity.
Qed.
Lemma dump_file_header w tname n bs : length w = sizeof_CFE_FS_Header → file_header (w ++ dump_header tname n ++ bs) = <[51%nat := 0]> (replicate 8 0 ++ bytes32 (u32 n) ++ dump_name tname).
Proof.
  intros Hw. unfold file_header. rewrite drop_app_length' by done. rewrite take_app_length' by (symmetry; apply dump_header_length). unfold splice. rewrite take_0, dump_header_length, drop_ge, app_nil_r by done. cbn [app]. rewrite dump_header_eq. reflexivity.
Qed.
Lemma dump_file_size w tname n bs : length w = sizeof_CFE_FS_Header → 0 <= n < 2 ^ 32 → file_size (w ++ dump_header tname n ++ bs) = n ∧ file_offset (w ++ dump_header tname n ++ bs) = 0.
Proof.
  intros Hw Hn. unfold file_size, file_offset. rewrite dump_file_header by done. split; [|reflexivity]. rewrite u32_small by done. etrans; [|exact (bytes32_value n Hn)]. reflexivity.
Qed.
Lemma dump_file_bytes w tname n bs : length w = sizeof_CFE_FS_Header → 0 <= n < 2 ^ 32 → Z.of_nat (length bs) = n → file_bytes (w ++ dump_header tname n ++ bs) = bs.
Proof.
  intros Hw Hn Hl. unfold file_bytes. rewrite (proj1 (dump_file_size w tname n bs Hw Hn)). rewrite app_assoc, drop_app_length' by (rewrite length_app, Hw, dump_header_length; done). apply take_ge. lia.
Qed.

(** Owned tables have different names. *)
Lemma names_unique al K f r1 r2 rec1 rec2 : inv al K → names K f r1 rec1 → names K f r2 rec2 → r1 = r2 ∧ rec1 = rec2.
Proof.
  intros I (H1 & O1 & E1) (H2 & O2 & E2). destruct (decide (r1 = r2)) as [->|Hne]; [split; congruence|]. destruct (i_apart _ _ I r1 r2 rec1 rec2) as (_ & _ & A); [done..|]. destruct (A O1 O2). congruence.
Qed.

Lemma DumpCmd_file al K name file r rec : inv al K → length name = CFE_TBL_MAX_FULL_NAME_LEN → length file = OS_MAX_PATH_LEN → names K (field CFE_TBL_MAX_FULL_NAME_LEN name) r rec → rr_DumpOnly rec = false →
  wpk (CFE_TBL_DumpCmd CFE_TBL_BufferSelect_ACTIVE name file) (λ st K', st = CFE_TBL_INC_CMD_CTR → ∃ w tname bs, length w = sizeof_CFE_FS_Header ∧ contents K r = Some bs ∧ Z.of_nat (length bs) = rr_Size rec ∧
    f_data (kF K') !! field OS_MAX_PATH_LEN file = Some (w ++ dump_header tname (rr_Size rec) ++ bs)) K.
Proof.
  intros I Hn Hfl Nm Hdo. unfold CFE_TBL_DumpCmd, error_event. apply wpk_bind. apply wpk_string_get; [apply Nat.ltb_lt; reflexivity|done|]. intros fname Hfn Efn. apply wpk_bind.
  apply wpk_string_get; [apply Nat.ltb_lt; reflexivity|done|]. intros tname Htn Etn. apply wpk_bind. eapply wpk_FindTable; [done|intros _; zred; by kgo|].
  intros r2 rec2 Hr2 Ho2 Hc2 Hne. destruct (names_unique al K (field CFE_TBL_MAX_FULL_NAME_LEN name) r2 r rec2 rec I) as [-> ->]; [split_and!; [done..|congruence]|done|]. rewrite (proj2 (Z.eqb_neq _ _) Hne). cbn [negb]. clear Hr2 Ho2 Hc2.
  destruct Nm as (Hr & Ho & _). destruct (i_ent _ _ I _ _ Hr) as (R & P & _). pose proof (ro_owner _ R Ho) as Hu. apply wpk_bind. eapply wpk_rd_reg; [done|]. apply wpk_bind. unfold select_buffer. rewrite Z.eqb_refl.
  destruct (zget_buf rec (rr_ActiveBufferIndex rec) (ro_bufs _ R)) as (b & Hb & Eb); [destruct (ro_active _ R); lia|]. apply wpk_bind. eapply wpk_reg_buf; [done|]. apply wpk_ret. rewrite <- Eb.
  pose proof (active_ptr _ R Hu (dump_user _ R Hdo)) as Hp. assert (Hpn : bptr rec (rr_ActiveBufferIndex rec) ≠ PNull) by (intros E; by rewrite E in Hp). rewrite bool_decide_false by done. rewrite Hdo. cbn [negb].
  destruct (P _ Hpn) as [(bs & Hm & Hs & _) _]. pose proof (ro_size _ R Hu). eapply (wpk_DumpToFile _ _ _ _ bs); [done|lia|done|]. intros f (w & Hw & Hd) _. exists w, tname, (take (Z.to_nat (rr_Size rec)) bs).
  split_and!; [done|by apply contents_at|rewrite length_take; lia|]. change (kF (wF f K)) with f. rewrite Hd, <- Efn. apply lookup_insert_eq.
Qed.

(** [C18] A table dumped to a file and loaded from the file, by a handle to the same or to
    another table of its size, has the contents it had at the time of the dump. *)
Theorem dump_load s s1 s2 s3 name file r rec App h a fname d2 rec2 : reachable s → length name = CFE_TBL_MAX_FULL_NAME_LEN → length file = OS_MAX_PATH_LEN →
  names (core_of s) (field CFE_TBL_MAX_FULL_NAME_LEN name) r rec → rr_DumpOnly rec = false → CFE_TBL_DumpCmd CFE_TBL_BufferSelect_ACTIVE name file s = Some (CFE_TBL_INC_CMD_CTR, s1) →
  reachable s2 → f_data (TblFiles s2) !! field OS_MAX_PATH_LEN file = f_data (TblFiles s1) !! field OS_MAX_PATH_LEN file → AppMem s2 !! a = Some fname → cstr fname = field OS_MAX_PATH_LEN file →
  zget (Handles s2) h = Some d2 → zget (Registry s2) (ac_RegIndex d2) = Some rec2 → rr_DumpOnly rec2 = false → rr_Size rec2 = rr_Size rec → app_ok App → 0 <= h →
  CFE_TBL_Load App h CFE_TBL_SRC_FILE (PApp a) s2 = Some (CFE_SUCCESS, s3) → contents (core_of s3) (ac_RegIndex d2) = contents (core_of s) r.
Proof.
  intros Hs Hn Hfl Nm Hdo E1 Hs2 Ef Ha Efn Hd2 Hr2 Hdo2 Hsz Happ Hh E2. destruct (reachable_inv _ Hs) as (al & I & _). pose proof (DumpCmd_file al _ name file r rec I Hn Hfl Nm Hdo s eq_refl) as HD. unfold wp in HD. rewrite E1 in HD.
  destruct (HD eq_refl) as (w & tname & bs & Hw & Hc & Hl & Hdata). change (kF (core_of s1)) with (TblFiles s1) in Hdata. rewrite <- Ef, <- Efn in Hdata.
  assert (Hrng : 0 <= rr_Size rec < 2 ^ 32). { destruct Nm as (Hr & Ho & _). pose proof (proj1 (i_ent _ _ I _ _ Hr)) as R. pose proof (ro_size _ R (ro_owner _ R Ho)) as Hx. unfold CFE_PLATFORM_TBL_MAX_SNGL_TABLE_SIZE in Hx. lia. }
  destruct (dump_file_size w tname _ bs Hw Hrng) as [Ez Eo].
  destruct (load_post s2 s3 App h CFE_TBL_SRC_FILE (PApp a) Hs2 Happ Hh) with (2 := E2) as (d & rc & a' & bs' & Hd & Hr & [= <-] & Hb & Hx).
  { intros _ d rc Hd Hr. change (kH (core_of s2)) with (Handles s2) in Hd. change (kR (core_of s2)) with (Registry s2) in Hr. rewrite Hd2 in Hd. injection Hd as <-. rewrite Hr2 in Hr. injection Hr as <-. exists a, fname. split_and!; [done|exact Ha| |].
    - intros _. change (kF (core_of s2)) with (TblFiles s2). rewrite Hdata. unfold file_ok. rewrite Ez, Eo. lia.
    - intros [?|?]; [done|congruence]. }
  rewrite Hd2 in Hd. injection Hd as <-. rewrite Hr2 in Hr. injection Hr as <-. rewrite Ha in Hb. injection Hb as <-. destruct (Hx Hdo2) as (old & _ & Hol & _ & Hfile). rewrite (Hfile eq_refl _ Hdata), Hc. f_equal.
  rewrite Eo, (dump_file_bytes _ _ _ _ Hw Hrng Hl). change (Z.to_nat 0) with 0%nat. replace (Z.to_nat (rr_Size rec2)) with (length bs) by lia. apply take_splice.
Qed.

Fixpoint run_calls (l : list TblCall) : M TG unit :=
  match l with
  | [] => mret tt
  | c :: l => run_call c;; run_calls l
  end.
End safety.
