(* ===== verification/TblInst.v ===== *)
(** * Files and a critical data store with the laws, and runs of table services

    The simplest services that have the laws table services rely on: files in memory,
    and a store of named blocks.  The pool is the one of SbInst.  On them an application
    registers tables, loads, dumps and updates them. *)
From Stdlib Require Import String.
From S2P Require Import Prelude Config Msg ResourceId Cstring EsApp TimeApi SbState SbInst EsPool EsPoolProps SbPool TblConfig EsCrc FsFile TblState TblInternal TblApi TblCmds TblTask TblLinks TblCore TblInv TblOps TblUpdate TblRemove TblRegister TblLoad TblCommand TblSafety.
Import ListNotations.

(** ** Files *)

Record MapFS := mkFS { mf_next : Z; mf_raw : gmap (list Z) (list Z); mf_open : gmap Z (list Z * nat) }.

(** Files have bytes. *)
Definition mf_data (f : MapFS) : gmap (list Z) (list Z) := (λ d : list Z, u8 <$> d) <$> mf_raw f.

Definition fs_error : Z := -1.

Definition mf_OpenCreate (name : list Z) (flags access : Z) (f : MapFS) : (Z * Z) * MapFS :=
  let n := cstr name in
  let opened := mkFS (mf_next f + 1) (if truncates flags then <[n := []]> (mf_raw f) else mf_raw f) (<[mf_next f := (n, 0%nat)]> (mf_open f)) in
  if truncates flags || bool_decide (is_Some (mf_raw f !! n)) then ((OS_SUCCESS, mf_next f), opened) else ((fs_error, 0), f).

Definition mf_close (fd : Z) (f : MapFS) : Z * MapFS := (OS_SUCCESS, mkFS (mf_next f) (mf_raw f) (delete fd (mf_open f))).

Definition mf_at (fd : Z) (f : MapFS) : option (list Z * nat * list Z) :=
  match mf_open f !! fd with
  | Some (n, pos) => match mf_data f !! n with Some d => Some (n, pos, d) | None => None end
  | None => None
  end.

Definition mf_read (fd : Z) (n : nat) (f : MapFS) : (Z * list Z) * MapFS :=
  match mf_at fd f with
  | Some (name, pos, d) =>
      let bs := take n (drop pos d) in
      ((Z.of_nat (List.length bs), bs), mkFS (mf_next f) (mf_raw f) (<[fd := (name, (pos + List.length bs)%nat)]> (mf_open f)))
  | None => ((fs_error, []), f)
  end.

Definition mf_write (fd : Z) (bs : list Z) (f : MapFS) : Z * MapFS :=
  match mf_at fd f with
  | Some (name, pos, d) =>
      if bool_decide (u8 <$> bs = bs) then
        (Z.of_nat (List.length bs),
         mkFS (mf_next f) (<[name := take pos d ++ bs ++ drop (pos + List.length bs) d]> (mf_raw f))
           (<[fd := (name, (pos + List.length bs)%nat)]> (mf_open f)))
      else (fs_error, f)
  | None => (fs_error, f)
  end.

Definition mf_lseek (fd off : Z) (f : MapFS) : Z * MapFS :=
  match mf_open f !! fd with
  | Some (n, _) => if off <? 0 then (fs_error, f) else (off, mkFS (mf_next f) (mf_raw f) (<[fd := (n, Z.to_nat off)]> (mf_open f)))
  | None => (fs_error, f)
  end.

Definition mf_stat (name : list Z) (f : MapFS) : Z := if bool_decide (is_Some (mf_raw f !! cstr name)) then OS_SUCCESS else fs_error.

#[export] Instance MapOSFile : OSFile MapFS :=
  {| OS_OpenCreate := mf_OpenCreate; OS_close := mf_close; OS_read := mf_read; OS_write := mf_write; OS_lseek := mf_lseek;
     OS_stat := mf_stat; f_data := mf_data; f_open := mf_open |}.

Lemma mf_data_u8 f n d : mf_data f !! n = Some d → u8 <$> d = d.
Proof.
  unfold mf_data. rewrite lookup_fmap. intros (r & _ & ->)%fmap_Some. rewrite <- list_fmap_compose. apply list_fmap_ext. intros _ z _. unfold u8, compose. by rewrite Z.mod_mod.
Qed.

#[export] Instance MapOSFileOK : OSFileOK MapFS.
Proof.
  split; cbn [OS_OpenCreate OS_close OS_read OS_write OS_lseek f_data f_open MapOSFile]; unfold mf_OpenCreate, mf_close, mf_read, mf_write, mf_lseek.
  - intros name flags access f st fd f'. destruct (truncates flags) eqn:Et; cbn [orb].
    + intros [= <- <- <-] _. split; [done|]. unfold mf_data. cbn [mf_raw]. exact (fmap_insert (λ d : list Z, u8 <$> d) (mf_raw f) (cstr name) []).
    + case_bool_decide as Hs; intros [= <- <- <-]; [|by intros]. intros _. split_and!; [done|done|]. unfold mf_data. rewrite lookup_fmap. by apply fmap_is_Some.
  - intros name flags access f st fd f'. destruct (_ || _); intros [= <- <- <-]; [by intros|done].
  - by intros fd f st f' [= _ <-].
  - intros fd n f st bs f'. destruct (mf_at fd f) as [[[nm pos] d]|]; intros [= <- <- <-]; [|split_and!; cbn; try lia; done].
    split_and!; [rewrite length_take; lia|done|lia|lia].
  - intros fd n f st bs f' name pos d E Hst Ho Hd. revert E. unfold mf_at. rewrite Ho, Hd. intros [= <- <- <-]. by split_and!.
  - intros fd n f st bs f'. unfold mf_at. destruct (mf_open f !! fd) as [[nm pos]|]; [|by intros [= _ <- _]]. destruct (mf_data f !! nm) as [d|] eqn:Hd; [|by intros [= _ <- _]]. intros [= _ <- _].
    apply Forall_take, Forall_drop. rewrite <- (mf_data_u8 _ _ _ Hd). apply Forall_fmap, Forall_true. intros z. unfold compose, is_u8, u8. apply Z.mod_pos_bound. lia.
  - intros fd bs f st f' name pos d E Hst Ho Hd. revert E. unfold mf_at. rewrite Ho, Hd. case_bool_decide as Hb; intros [= <- <-]; [|unfold fs_error in Hst; lia]. cbn. split; [|done].
    unfold mf_data. cbn. rewrite fmap_insert, !fmap_app, fmap_take, fmap_drop, (mf_data_u8 _ _ _ Hd), Hb. done.
  - intros fd off f st f'. destruct (mf_open f !! fd) as [[nm pos]|]; [destruct (off <? 0)|]; intros [= <- <-]; unfold fs_error; lia.
  - intros fd off f st f' name pos E Hoff -> Ho. revert E. rewrite Ho. rewrite (proj2 (Z.ltb_ge _ _) Hoff). intros [= <-]. by split.
Qed.

(** ** The critical data store *)

Record MapCDS := mkCDS {
  mc_next : Z;
  mc_names : gmap (list Z) (Z * Z);
  mc_data : gmap Z (list Z);
  mc_reg : gmap Z (list CFE_TBL_CritRegRec_t);
}.

Definition mc_register (size : Z) (name : list Z) (crit : bool) (c : MapCDS) : (Z * Z) * MapCDS :=
  let new := ((CFE_SUCCESS, mc_next c),
              mkCDS (mc_next c + 1) (<[name := (mc_next c, size)]> (mc_names c)) (<[mc_next c := replicate (Z.to_nat size) 0]> (mc_data c)) (mc_reg c)) in
  match mc_names c !! name with
  | Some (h, n) =>
      if (n =? size) && bool_decide ((λ bs, Z.of_nat (List.length bs)) <$> mc_data c !! h = Some size) then ((CFE_ES_CDS_ALREADY_EXISTS, h), c)
      else new
  | None => new
  end.
Definition mc_copy (h : Z) (bs : list Z) (c : MapCDS) : Z * MapCDS :=
  (CFE_SUCCESS, mkCDS (mc_next c) (mc_names c) (<[h := bs]> (mc_data c)) (mc_reg c)).
Definition mc_restore (h : Z) (c : MapCDS) : Z * list Z :=
  match mc_data c !! h with Some bs => (CFE_SUCCESS, bs) | None => (CFE_ES_CDS_WRONG_TYPE_ERR, []) end.
Definition mc_copy_reg (h : Z) (l : list CFE_TBL_CritRegRec_t) (c : MapCDS) : Z * MapCDS :=
  (CFE_SUCCESS, mkCDS (mc_next c) (mc_names c) (mc_data c) (<[h := l]> (mc_reg c))).
Definition mc_restore_reg (h : Z) (c : MapCDS) : Z * list CFE_TBL_CritRegRec_t :=
  match mc_reg c !! h with
  | Some l => (CFE_SUCCESS, resize (Z.to_nat CFE_PLATFORM_TBL_MAX_CRITICAL_TABLES) zero_crit l)
  | None => (CFE_ES_CDS_WRONG_TYPE_ERR, replicate (Z.to_nat CFE_PLATFORM_TBL_MAX_CRITICAL_TABLES) zero_crit)
  end.
Definition mc_delete (name : list Z) (crit : bool) (c : MapCDS) : Z * MapCDS :=
  match mc_names c !! name with
  | Some (h, _) => (CFE_SUCCESS, mkCDS (mc_next c) (delete name (mc_names c)) (delete h (mc_data c)) (mc_reg c))
  | None => (CFE_ES_ERR_NAME_NOT_FOUND, c)
  end.

#[export] Instance MapCDSStore : CDSStore MapCDS :=
  {| CFE_ES_RegisterCDSEx := mc_register; CFE_ES_CopyToCDS := mc_copy; CFE_ES_RestoreFromCDS := mc_restore;
     CFE_ES_CopyRegToCDS := mc_copy_reg; CFE_ES_RestoreRegFromCDS := mc_restore_reg; CFE_ES_DeleteCDS := mc_delete;
     cds_names := mc_names; cds_data := mc_data; cds_reg := mc_reg |}.

#[export] Instance MapCDSStoreOK : CDSStoreOK MapCDS.
Proof.
  split; cbn; unfold mc_register, mc_restore, mc_restore_reg.
  - intros size name crit c h c' st bs. destruct (mc_names c !! name) as [[h2 n]|]; [|by intros [=]]. destruct (_ && _) eqn:E; [|by intros [=]]. intros [= <- <-]. apply andb_true_iff in E as [_ E].
    apply bool_decide_eq_true, fmap_Some in E as (d & Hd & ->). rewrite Hd. by intros [= _ <-].
  - intros h c st l. destruct (mc_reg c !! h); intros [= _ <-]; [apply length_resize|done].
Qed.

#[export] Instance BumpTblPoolOK : TblPoolOK BumpPool.
Proof.
  split. cbn. unfold bump_get. intros size p st a p'. destruct (_ || _) eqn:E; intros [= <- <- <-]; [by vm_compute|]. rewrite !orb_false_iff in E. lia.
Qed.

(** The pool of executive services has the law too. *)
#[export] Instance ESTblPoolOK `{Cfg : PoolCfg} : TblPoolOK ESPool.
Proof.
  split. cbn -[es_get es_put es_live]. intros n p st a p' E. destruct (decide (0 <= n)) as [Hn|Hn]; [|unfold es_get in E; destruct (decide (0 <= n)); [done|]; injection E as <- <- <-; by vm_compute].
  destruct (es_get_spec n p Hn) as (status & o & s' & p1 & _ & Hres & _ & El & E'). rewrite E in E'. injection E' as -> -> ->. inversion Hres as [o1 s1 Hnone _| |]; subst; [|by vm_compute..]. cbn in *.
  destruct (live_block_p p1 o n) as (_ & Hb & _); [by rewrite El, lookup_insert_eq|]. rewrite s32_small by lia. lia.
Qed.

(** The build of the examples; the validation function at address 1 rejects a table that
    starts with a byte other than one. *)
#[export] Instance TblExampleCfg : TblCfg :=
  {| tbl_hdr := Hdr_Pri; tbl_idv := MsgId_V1; tbl_SpacecraftId := 66; tbl_ProcessorId := 1;
     ValidationFunc := λ _ bs, if default 0 (head bs) =? 1 then CFE_SUCCESS else -1;
     TransmitStatus := λ _, CFE_SUCCESS |}.

(** ** Runs *)

Abbreviation EG := (CFE_TBL_Global_t BumpPool MapFS MapCDS).

Definition ex_app1 : Z := CFE_ES_APPID_BASE + 1.
Definition ex_app2 : Z := CFE_ES_APPID_BASE + 2.
Definition ex_task : Z := CFE_ES_APPID_BASE + 3.
Definition ex_string (n : nat) (t : string) : list Z := chars t ++ replicate (n - List.length (chars t)) 0.
Definition ex_apps : list CFE_ES_AppRecord_t :=
  [mkAppRecord 0 (ex_string 20 ""); mkAppRecord ex_app1 (ex_string 20 "APP1"); mkAppRecord ex_app2 (ex_string 20 "APP2");
   mkAppRecord ex_task (ex_string 20 "CFE_TBL")].

(** Before start up: two images and a file name in the memory of the application. *)
Definition ex_raw : EG := clear_global (mkTbl BumpPool MapFS MapCDS 0 0 0 0 0 0 [] zero_hk [] [] 0 0 0 0 0 false false 0 [] [] [] [] [] []
  (mkRegDumpState [] false false zero_regdump) fresh_pool ∅
  {[ 500 := [1; 2; 3; 4; 5; 6; 7; 8]; 600 := [1; 9; 9; 9; 9; 9; 9; 9]; 700 := chars "/ram/f" ++ [0] ]}
  (mkFS 10 ∅ ∅) (mkCDS 5 ∅ ∅ ∅) ex_apps (mkTime 100 5) []).

(** The state after a computation, and its result. *)
Definition after {A} (o : option (A * EG)) : EG := match o with Some (_, s) => s | None => ex_raw end.
Definition result {A} (o : option (A * EG)) : option A := fst <$> o.
Lemma after_eq {A} (o : option (A * EG)) a : result o = Some a → o = Some (a, after o).
Proof. destruct o as [[b s]|]; [by intros [= ->]|done]. Qed.

Definition ex_boot : EG := after (CFE_TBL_EarlyInit 0 0 0 ex_raw).
Definition ex_up : EG := after (CFE_TBL_TaskInit (mkTblTaskEnv 0 (0, ex_task) 0 (0, 3) 0 0 0) ex_boot).
Definition ex_call (c : TblCall) (s : EG) : EG := after (run_call c s).

(** Application 1 registers a double buffered table of eight bytes and loads it. *)
Definition ex_register : TblCall := CallRegister (0, ex_app1) (Some 0) (Some (chars "T1" ++ [0])) 8 CFE_TBL_OPT_DBL_BUFFER 0.
Definition ex_load (a : addr) : TblCall := CallLoad (0, ex_app1) 0 CFE_TBL_SRC_ADDRESS (PApp a).
Definition ex_registered : EG := ex_call ex_register ex_up.
Definition ex_loaded : EG := ex_call (ex_load 500) ex_registered.

Lemma ex_up_reachable : reachable ex_up.
Proof.
  eapply (reach_task (mkTblTaskEnv 0 (0, ex_task) 0 (0, 3) 0 0 0) 0); [eapply (reach_init 0 0 0 ex_raw)|]; apply after_eq; vm_compute; reflexivity.
Qed.
Lemma ex_step s c : reachable s → call_ok (core_of s) c → reachable (ex_call c s).
Proof. intros Hs Hc. destruct (call_runs s c Hs Hc) as (s' & E & _). eapply reach_call; [done|done|]. unfold ex_call. by rewrite E. Qed.
Lemma ex_registered_reachable : reachable ex_registered.
Proof. apply ex_step; [apply ex_up_reachable|]. split; [by left|done]. Qed.
Definition size_of (s : EG) (h : Z) : option Z := d ← zget (Handles s) h; rec ← zget (Registry s) (ac_RegIndex d); Some (rr_Size rec).
Lemma ex_src s h a bs n : size_of s h = Some n → AppMem s !! a = Some bs → n <= Z.of_nat (List.length bs) → src_ok (core_of s) h CFE_TBL_SRC_ADDRESS (PApp a).
Proof.
  intros Hn Hb Hl _ d rec Hd Hr. unfold size_of in Hn. cbn in Hd, Hr. rewrite Hd in Hn. cbn in Hn. rewrite Hr in Hn. injection Hn as <-. exists a, bs. by split_and!.
Qed.
Lemma ex_load_ok : call_ok (core_of ex_registered) (ex_load 500).
Proof. split; [by left|]. split; [done|]. apply (ex_src _ _ _ [1; 2; 3; 4; 5; 6; 7; 8] 8); [vm_compute; reflexivity|vm_compute; reflexivity|done]. Qed.
Lemma ex_loaded_reachable : reachable ex_loaded.
Proof. apply ex_step; [apply ex_registered_reachable|apply ex_load_ok]. Qed.

Lemma tbl_safe_witness : ∃ s', run_call (ex_load 500) ex_registered = Some (tt, s') ∧ tbl_inv (core_of s').
Proof. destruct (tbl_safe ex_registered (ex_load 500) ex_registered_reachable ex_load_ok) as (s' & E & I & _). exists s'. exact (conj E I). Defined.

(** The application has the address and the table is loaded anew: the bytes at the
    address stay, the contents of the table are the new ones. *)
Definition ex_addr : EG := after (CFE_TBL_GetAddress (0, ex_app1) (Some PNull) 0 ex_loaded).
Definition ex_reloaded : EG := ex_call (ex_load 600) ex_addr.
Definition ex_ptr : tptr := default PNull (r ← result (CFE_TBL_GetAddress (0, ex_app1) (Some PNull) 0 ex_loaded); r.2).

Lemma ex_calls : calls ex_addr [ex_load 600] ex_reloaded.
Proof.
  eapply calls_cons; [split; [by left|]; split; [done|]|apply after_eq; vm_compute; reflexivity|constructor].
  apply (ex_src _ _ _ [1; 9; 9; 9; 9; 9; 9; 9] 8); [vm_compute; reflexivity|vm_compute; reflexivity|done].
Qed.
Lemma ex_leaves : leaves 0 ex_addr [ex_load 600].
Proof. intros [|c [|? ?]] x l2 s1 [= ? ?]; subst; [by intros _ []|done..]. Qed.

Lemma ex_addr_eq : CFE_TBL_GetAddress (0, ex_app1) (Some PNull) 0 ex_loaded = Some ((CFE_TBL_INFO_UPDATED, Some ex_ptr), ex_addr).
Proof.
  assert (E : result (CFE_TBL_GetAddress (0, ex_app1) (Some PNull) 0 ex_loaded) = Some (CFE_TBL_INFO_UPDATED, Some ex_ptr)) by (vm_compute; reflexivity).
  exact (after_eq _ _ E).
Qed.


(** A table reached through a handle: its index, its size and whether it is dump only. *)
Definition ex_view (s : EG) (h : Z) : option (Z * Z * bool) := d ← zget (Handles s) h; rec ← zget (Registry s) (ac_RegIndex d); Some (ac_RegIndex d, rr_Size rec, rr_DumpOnly rec).
Lemma ex_view_eq s h d rec x : ex_view s h = Some x → zget (Handles s) h = Some d → zget (Registry s) (ac_RegIndex d) = Some rec → x = (ac_RegIndex d, rr_Size rec, rr_DumpOnly rec).
Proof. unfold ex_view. intros Hx Hd Hr. rewrite Hd in Hx. cbn in Hx. rewrite Hr in Hx. by injection Hx as <-. Qed.

Definition ex_load_end : EG := after (CFE_TBL_Load (0, ex_app1) 0 CFE_TBL_SRC_ADDRESS (PApp 500) ex_registered).
Lemma ex_load_eq : CFE_TBL_Load (0, ex_app1) 0 CFE_TBL_SRC_ADDRESS (PApp 500) ex_registered = Some (CFE_SUCCESS, ex_load_end).
Proof.
  assert (E : result (CFE_TBL_Load (0, ex_app1) 0 CFE_TBL_SRC_ADDRESS (PApp 500) ex_registered) = Some CFE_SUCCESS) by (vm_compute; reflexivity). exact (after_eq _ _ E).
Qed.
Lemma ex_registered_view : ex_view ex_registered 0 = Some (0, 8, false).
Proof. vm_compute. reflexivity. Qed.

Lemma load_contents_witness : ∃ bs, AppMem ex_registered !! 500 = Some bs ∧ contents (core_of ex_load_end) 0 = Some (take 8 bs).
Proof.
  pose proof (load_contents ex_registered ex_load_end (0, ex_app1) 0 CFE_TBL_SRC_ADDRESS (PApp 500) ex_registered_reachable (or_introl eq_refl) (Z.le_refl 0) (proj2 (proj2 ex_load_ok)) ex_load_eq) as H.
  destruct H as (d & rec & a & bs & Hd & Hr & Ea & Hb & Hx). injection Ea as <-. pose proof (ex_view_eq _ _ _ _ _ ex_registered_view Hd Hr) as Ev. injection Ev as E1 E2 E3. destruct (Hx (eq_sym E3)) as (old & _ & _ & Hc & _).
  exists bs. split; [exact Hb|]. rewrite <- E1, <- E2 in Hc. apply Hc. discriminate.
Defined.

(** The table is dumped, loaded with other bytes, and loaded from the dump. *)
Definition ex_name : list Z := ex_string CFE_TBL_MAX_FULL_NAME_LEN "APP1.T1".
Definition ex_file : list Z := ex_string OS_MAX_PATH_LEN "/ram/f".
Definition ex_dumped : EG := after (CFE_TBL_DumpCmd CFE_TBL_BufferSelect_ACTIVE ex_name ex_file ex_loaded).
Definition ex_dump_msg : TblMsg := mkTblMsg CFE_TBL_CMD_MID CFE_TBL_DUMP_CC 114 CFE_TBL_BufferSelect_ACTIVE ex_name ex_file 0.
Definition ex_dumped2 : EG := ex_call (CallTaskPipe ex_dump_msg) ex_loaded.
Definition ex_other : EG := ex_call (ex_load 600) ex_dumped2.
Definition ex_restored : EG := after (CFE_TBL_Load (0, ex_app1) 0 CFE_TBL_SRC_FILE (PApp 700) ex_other).

Lemma ex_dump_eq : CFE_TBL_DumpCmd CFE_TBL_BufferSelect_ACTIVE ex_name ex_file ex_loaded = Some (CFE_TBL_INC_CMD_CTR, ex_dumped).
Proof.
  assert (E : result (CFE_TBL_DumpCmd CFE_TBL_BufferSelect_ACTIVE ex_name ex_file ex_loaded) = Some CFE_TBL_INC_CMD_CTR) by (vm_compute; reflexivity). exact (after_eq _ _ E).
Qed.
Lemma ex_restore_eq : CFE_TBL_Load (0, ex_app1) 0 CFE_TBL_SRC_FILE (PApp 700) ex_other = Some (CFE_SUCCESS, ex_restored).
Proof.
  assert (E : result (CFE_TBL_Load (0, ex_app1) 0 CFE_TBL_SRC_FILE (PApp 700) ex_other) = Some CFE_SUCCESS) by (vm_compute; reflexivity). exact (after_eq _ _ E).
Qed.
Lemma ex_other_contents : contents (core_of ex_other) 0 = Some [1; 9; 9; 9; 9; 9; 9; 9] ∧ contents (core_of ex_loaded) 0 = Some [1; 2; 3; 4; 5; 6; 7; 8].
Proof. split; vm_compute; reflexivity. Qed.

Lemma ex_all (s : EG) (p : CFE_TBL_RegistryRec_t → bool) r rec : forallb p (Registry s) = true → zget (Registry s) r = Some rec → p rec = true.
Proof. intros Hp [_ Hr]%zget_Some. rewrite forallb_forall in Hp. apply Hp, list_elem_of_In. by eapply list_elem_of_lookup_2. Qed.

(** A command in a state where no table is dump only, a load is of a good file, and no
    table has a load or a validation pending. *)
Definition ex_quiet (s : EG) : bool := forallb (λ rec, negb (rr_DumpOnly rec) && negb (rr_LoadPending rec) && (rr_ValidateInactiveIndex rec =? -1)) (Registry s).
Definition ex_file_ok (s : EG) (m : TblMsg) : bool := match mf_data (TblFiles s) !! field OS_MAX_PATH_LEN (tbm_Filename m) with Some d => file_offset d + file_size d <? 2 ^ 32 | None => true end.
Lemma ex_cmd_ok s m : length (tbm_TableName m) = CFE_TBL_MAX_FULL_NAME_LEN → length (tbm_Filename m) = OS_MAX_PATH_LEN → ex_quiet s = true → ex_file_ok s m = true → call_ok (core_of s) (CallTaskPipe m).
Proof.
  intros Hn Hf Hq Hl. assert (HQ : ∀ r rec, zget (Registry s) r = Some rec → rr_DumpOnly rec = false ∧ rr_LoadPending rec = false ∧ rr_ValidateInactiveIndex rec = -1).
  { intros r rec Hr. pose proof (ex_all _ _ _ _ Hq Hr) as H. apply andb_true_iff in H as [H H3]. apply andb_true_iff in H as [H1 H2]. apply negb_true_iff in H1, H2. apply Z.eqb_eq in H3. by split_and!. }
  constructor; [exact Hn|exact Hf|..].
  - intros _. unfold ex_file_ok in Hl. cbn. destruct (mf_data (TblFiles s) !! _) as [d|]; [|exact I]. apply Z.ltb_lt in Hl. exact Hl.
  - intros r rec _ (Hr & _) Hd. destruct (HQ r rec Hr) as [Hx _]. congruence.
  - intros r rec _ (Hr & _) _ _ _. destruct (HQ r rec Hr) as (H1 & H2 & _). exact (conj H2 H1).
  - intros r rec _ (Hr & _) _. destruct (HQ r rec Hr) as (_ & _ & H3). exact H3.
Qed.
Lemma ex_dumped2_reachable : reachable ex_dumped2.
Proof. apply ex_step; [apply ex_loaded_reachable|]. apply ex_cmd_ok; vm_compute; reflexivity. Qed.
Lemma ex_other_reachable : reachable ex_other.
Proof.
  apply ex_step; [apply ex_dumped2_reachable|]. split; [left; reflexivity|]. split; [apply Z.le_refl|]. apply (ex_src _ _ _ [1; 9; 9; 9; 9; 9; 9; 9] 8); [vm_compute; reflexivity|vm_compute; reflexivity|apply Z.le_refl].
Qed.

Definition ex_rec (s : EG) : CFE_TBL_RegistryRec_t := default CFE_TBL_InitRegistryRecord (zget (Registry s) 0).
Definition ex_desc (s : EG) : CFE_TBL_AccessDescriptor_t := default (mkAccess 0 0 0 0 false false false 0) (zget (Handles s) 0).
Lemma ex_names : names (core_of ex_loaded) (field CFE_TBL_MAX_FULL_NAME_LEN ex_name) 0 (ex_rec ex_loaded).
Proof.
  assert (E : zget (Registry ex_loaded) 0 = Some (ex_rec ex_loaded)) by (vm_compute; reflexivity). assert (E1 : (rr_OwnerAppId (ex_rec ex_loaded) =? NOT_OWNED) = false) by (vm_compute; reflexivity).
  assert (E2 : cstr (rr_Name (ex_rec ex_loaded)) = field CFE_TBL_MAX_FULL_NAME_LEN ex_name) by (vm_compute; reflexivity). exact (conj E (conj (proj1 (Z.eqb_neq _ _) E1) E2)).
Qed.
Lemma ex_fname : AppMem ex_other !! 700 = Some (chars "/ram/f" ++ [0]) ∧ cstr (chars "/ram/f" ++ [0]) = field OS_MAX_PATH_LEN ex_file.
Proof. split; vm_compute; reflexivity. Qed.
Lemma ex_files : f_data (TblFiles ex_other) !! field OS_MAX_PATH_LEN ex_file = f_data (TblFiles ex_dumped) !! field OS_MAX_PATH_LEN ex_file.
Proof. vm_compute. reflexivity. Qed.
Lemma ex_desc_eq : zget (Handles ex_other) 0 = Some (ex_desc ex_other) ∧ zget (Registry ex_other) (ac_RegIndex (ex_desc ex_other)) = Some (ex_rec ex_other) ∧ ac_RegIndex (ex_desc ex_other) = 0.
Proof. split; [|split]; vm_compute; reflexivity. Qed.
Lemma ex_same : rr_DumpOnly (ex_rec ex_loaded) = false ∧ rr_DumpOnly (ex_rec ex_other) = false ∧ rr_Size (ex_rec ex_other) = rr_Size (ex_rec ex_loaded).
Proof. split; [|split]; vm_compute; reflexivity. Qed.

Lemma dump_load_witness : contents (core_of ex_restored) (ac_RegIndex (ex_desc ex_other)) = Some [1; 2; 3; 4; 5; 6; 7; 8].
Proof.
  assert (L1 : length ex_name = CFE_TBL_MAX_FULL_NAME_LEN) by (vm_compute; reflexivity). assert (L2 : length ex_file = OS_MAX_PATH_LEN) by (vm_compute; reflexivity).
  rewrite <- (proj2 ex_other_contents).
  exact (dump_load ex_loaded ex_dumped ex_other ex_restored ex_name ex_file 0 (ex_rec ex_loaded) (0, ex_app1) 0 700 (chars "/ram/f" ++ [0]) (ex_desc ex_other) (ex_rec ex_other) ex_loaded_reachable L1 L2 ex_names (proj1 ex_same) ex_dump_eq
    ex_other_reachable ex_files (proj1 ex_fname) (proj2 ex_fname) (proj1 ex_desc_eq) (proj1 (proj2 ex_desc_eq)) (proj1 (proj2 ex_same)) (proj2 (proj2 ex_same)) (or_introl eq_refl) (Z.le_refl 0) ex_restore_eq).
Defined.

(** The dump is loaded by command and activated: the application updates its table. *)
Definition ex_msg (cc size flag : Z) : TblMsg := mkTblMsg CFE_TBL_CMD_MID cc size flag ex_name ex_file 0.
Definition ex_cmd (cc size flag : Z) (s : EG) : EG := ex_call (CallTaskPipe (ex_msg cc size flag)) s.
Definition ex_staged : EG := ex_cmd CFE_TBL_LOAD_CC 72 0 ex_other.
Definition ex_ready : EG := ex_cmd CFE_TBL_ACTIVATE_CC 48 0 ex_staged.
Lemma ex_ready_reachable : reachable ex_ready.
Proof. do 2 (apply ex_step; [|apply ex_cmd_ok; vm_compute; reflexivity]). apply ex_other_reachable. Qed.

Lemma result_inj {A} (o : option (A * EG)) a s a' s' : o = Some (a, s) → o = Some (a', s') → a' = a ∧ s' = s.
Proof. intros -> H. injection H as <- <-. done. Qed.
Lemma ex_ready_view : ex_view ex_ready 0 = Some (0, 8, false) ∧ staged (core_of ex_ready) 0 = Some [1; 2; 3; 4; 5; 6; 7; 8].
Proof. split; vm_compute; reflexivity. Qed.
Definition ex_updated : EG := after (CFE_TBL_Update (0, ex_app1) 0 ex_ready).
Lemma ex_update_eq : CFE_TBL_Update (0, ex_app1) 0 ex_ready = Some (CFE_SUCCESS, ex_updated).
Proof. assert (E : result (CFE_TBL_Update (0, ex_app1) 0 ex_ready) = Some CFE_SUCCESS) by (vm_compute; reflexivity). exact (after_eq _ _ E). Qed.

Lemma update_refines_witness : contents (core_of ex_updated) 0 = Some [1; 2; 3; 4; 5; 6; 7; 8].
Proof.
  pose proof (update_refines ex_ready (0, ex_app1) 0 ex_ready_reachable (or_introl eq_refl) (Z.le_refl 0)) as H. destruct H as (st & s' & E & H). destruct (result_inj _ _ _ _ _ ex_update_eq E) as [E1 E2].
  rewrite E1 in H. destruct (update_step_success _ _ _ _ H) as (d & rec & (_ & Hd & _ & _ & Hr) & Hc & _). 
  pose proof (f_equal (λ x, x.1.1) (ex_view_eq _ _ _ _ _ (proj1 ex_ready_view) Hd Hr)) as Er. cbn [fst] in Er. rewrite <- Er, E2, (proj2 ex_ready_view) in Hc. exact Hc.
Defined.

(** ** What the code does not check *)

(** The application has a single buffered table with a validation function, loaded, and
    its dump is loaded by command; or it has a dump only table and gets a dump command. *)
Definition ex_c (cc size flag : Z) : TblCall := CallTaskPipe (ex_msg cc size flag).
Definition ex_manage : TblCall := CallManage (0, ex_app1) 0.
Definition ex_validate : TblCall := ex_c CFE_TBL_VALIDATE_CC 50 CFE_TBL_BufferSelect_INACTIVE.
Definition ex_dump : TblCall := ex_c CFE_TBL_DUMP_CC 114 CFE_TBL_BufferSelect_ACTIVE.
Definition ex_hk : TblCall := CallTaskPipe (mkTblMsg CFE_TBL_SEND_HK_MID 0 8 0 ex_name ex_file 0).
Definition ex_single : list TblCall :=
  [CallRegister (0, ex_app1) (Some 0) (Some (chars "T1" ++ [0])) 8 0 1; ex_load 500; ex_dump; ex_c CFE_TBL_LOAD_CC 72 0].
Definition ex_dumping : list TblCall :=
  [CallRegister (0, ex_app1) (Some 0) (Some (chars "T1" ++ [0])) 8 CFE_TBL_OPT_DUMP_ONLY 0; ex_dump; ex_manage].

(** After the calls [l] the call [c] has no result. *)
Definition fails (l : list TblCall) (c : TblCall) : Prop := is_Some (run_calls l ex_up) ∧ run_calls (l ++ [c]) ex_up = None.

(** The conditions of the safety theorem cannot be dropped: runs that have no result.  A negative handle, which is
    what a failed registration leaves in the caller, is not refused but indexes the
    array of descriptors.  A load that is aborted, or updated, while a validation of its
    shared buffer is pending makes the next validation read the shared buffer -1.  A
    table that is unregistered, or dumped once more, while its dump waits for
    housekeeping makes housekeeping write the shared buffer -1.  A table that the table
    task unregisters keeps its owner, and the next application that shares it writes the
    descriptor -1. *)
Theorem tbl_unchecked :
  (∀ (s : EG) app h, h < 0 → CFE_TBL_ValidateAccess (CFE_SUCCESS, app) h s = None) ∧
  fails (ex_single ++ [ex_validate; ex_c CFE_TBL_ABORT_LOAD_CC 48 0]) ex_manage ∧
  fails (ex_single ++ [ex_validate; ex_manage; ex_validate; ex_c CFE_TBL_ACTIVATE_CC 48 0; ex_manage]) ex_manage ∧
  fails (ex_dumping ++ [CallUnregister (0, ex_app1) 0]) ex_hk ∧
  fails (ex_dumping ++ [ex_dump; ex_manage]) ex_hk ∧
  fails [CallRegister (0, ex_app1) (Some 0) (Some (chars "T1" ++ [0])) 8 0 0; CallUnregister (0, ex_task) 0] (CallShare (0, ex_app2) (Some 0) (Some ex_name)).
Proof.
  assert (F : ∀ l c, (match run_calls l ex_up with Some _ => true | None => false end) && (match run_calls (l ++ [c]) ex_up with Some _ => false | None => true end) = true → fails l c).
  { intros l c. unfold fails. destruct (run_calls l ex_up), (run_calls (l ++ [c]) ex_up); intros H; try discriminate H. split; [by eexists|done]. }
  split.
  - intros s app h Hh. unfold CFE_TBL_ValidateAccess, CFE_TBL_ValidateHandle. cbn [Z.eqb negb CFE_SUCCESS]. rewrite (proj2 (Z.leb_gt _ _)) by (unfold CFE_PLATFORM_TBL_MAX_NUM_HANDLES; lia).
    unfold rd_hdl, tbl_get, mbind, M_bind, gets. assert (zget (Handles s) h = None) as E; [|unfold zget in E; unfold zget; by rewrite E]. unfold zget. by rewrite (proj2 (Z.ltb_lt _ _) Hh).
  - split_and!; apply F; vm_compute; reflexivity.
Qed.
